(* ===== verification/_CoqProject ===== *)
-Q . S2P
Prelude.v
TxLogic.v
Identifiers.v
States.v
Text.v
Ordered.v
Frame.v
Budget.v
Execution.v
Failure.v
Operation.v
Workflow.v
Manifest.v
Errors.v
Controller.v
Attempt.v
ControlStore.v
ControllerSpec.v
SecurityDb.v
Resources.v
ResourceSpec.v
Fences.v
FenceSpec.v
DomainSpec.v
Backup.v
BackupSpec.v
PhaseAuthority.v
PhaseAuthoritySpec.v
PhaseJournal.v
PhaseJournalSpec.v
PhaseJournalSamples.v
WorkflowSpec.v
WorkflowSamples.v
ManifestSpec.v
SchedulerDb.v
Scheduler.v
SchedulerLeases.v
SchedulerReceipts.v
SchedulerHistory.v
SchedulerInvariant.v
SchedulerCompletion.v
SchedulerSweep.v
SchedulerSpec.v
SchedulerSamples.v
SourceDb.v
Source.v
SourceRepository.v
SourceBroker.v
SourceIngress.v
SourceLogic.v
SourceHistory.v
SourceInvariant.v
SourceConsistency.v
SourceSpec.v
SourceIngressSpec.v
SourceSamples.v
Steps.v
ExecutorBase.v
Executor.v
Coordinator.v
ModelEffects.v
ExecutorLogic.v
ExecutorHistory.v
ExecutorFacts.v
ExecutorSafety.v
ExecutorSpec.v
ExecutorRetry.v
ExecutorCleanup.v
ExecutorSamples.v
