(* ===== verification/Prelude.v ===== *)
(** * rdashboard: the durable control plane

    A verification of the parts of rdashboard (a Rust deployment control plane,
    [src/src/]) that decide what is deployed, in which order, on what evidence
    and under which locks.

    ** The program

    The _source broker_ ([source.rs]) turns pushes, webhooks and periodic fetches
    into a chain of signed accepted heads: it moves the accepted reference of a
    repository and its ledger together, and gates every mutation on the head.  The
    _workflow scheduler_ ([scheduler.rs] over [store/control.rs]) admits an accepted
    head as a workflow attempt, leases its nodes to workers and collects their
    receipts; the _workflow contracts_ ([domain/workflow.rs], [domain/manifest.rs])
    fix the graph of nodes a project may run.

    A deployment is a _request_ (project, target commit, operation kind) with
    numbered _attempts_.  The _controller_ ([controller.rs] over the tables of
    [store/control.rs]) admits attempts, from a browser tab that holds a lease and
    a single-use grant or from a verified source delivery, and advances an attempt
    one phase at a time as the root executor commits signed phase receipts.  Once
    a receipt of a mutating phase is in, an attempt can no longer be cancelled or
    failed: it is reconciled or rolled back.  The _security store_
    ([store/security.rs]) keeps the executor's own journals: the phase journal with
    the authorized specs ([phase6.rs]), grants, backup chains ([backup.rs]) and
    source gates a phase rests on, the write fences, the exclusive execution
    resources and the disk reservations.  The _domain_ types ([domain/]) fix the
    contracts both sides use: plans of phases, the evidence a phase must carry,
    canonical receipts and failure capsules, disk budgets.  The _executor_ and its
    _coordinator_ ([executor.rs]) drive an attempt through both stores: persist the
    intent of a phase, take its resources, ask the live source gate, observe and apply
    the effect on the host, commit its receipt and project it to the controller.  The processes talk over
    length-prefixed JSON frames ([protocol/frame.rs]).

    ** Files

    Shared:
    - [Prelude]: results and the transaction monad (a failed body changes
      nothing), machine integers at their width, record updates, slice helpers,
      proof automation ([inv_ok], [case_ok], [bool_prop]).  [TxLogic]: relations a
      transaction stays in ([tx_rel]) with the hints that prove them statement by
      statement.
    - [Identifiers]: [domain/identifiers.rs], and the classes for the hash
      ([Sha256]) and the JSON codecs ([Jcs], [Json], [JsonSlice]) with the laws the
      code relies on.  [States]: [domain/states.rs].  [Text], [Ordered]: UTF-8 text,
      string order, sorting, strictly ordered lists, and [truncate_utf8] of
      [domain/redaction.rs].

    Contracts:
    - [Frame]: [protocol/frame.rs] and its theorems.  [Budget]: [domain/budget.rs],
      [build_storage.rs] and their theorem.
    - [Execution]: [domain/execution.rs].  [Failure]: [domain/failure.rs].
      [Operation]: [domain/operation.rs].  [Errors]: [StoreError] of
      [store/mod.rs].  [DomainSpec]: their theorems.
    - [Workflow]: [domain/workflow.rs], with [WorkflowSpec] and [WorkflowSamples].
      [Manifest]: [domain/manifest.rs], with [ManifestSpec].
    - [Backup]: [backup.rs], with [BackupSpec].  [PhaseAuthority]: the spec
      documents of [phase6.rs], with [PhaseAuthoritySpec].

    Controller:
    - [Controller]: [controller.rs], all of it: a table is a finite map by its
      primary key, a SQL statement is a function on the tables with the
      constraints of the schema, each method of [DurableController] a transaction.
    - [Attempt]: the abstract attempt, one inductive rule per kind of step
      ([attempt_step]), its invariant, and what the merge functions preserve.
    - [ControlStore]: the store invariant [db_inv], what each method does to the
      tables, the step relation [controller_step] of the whole controller and its
      simulation by [attempt_step].
    - [ControllerSpec]: the controller's theorems, with witnesses in [Sample].

    Security store:
    - [SecurityDb]: the tables of [store/security.rs], and the shared reads and
      guards.
    - [Resources], [ResourceSpec]: the resource and disk-reservation operations; an
      abstract lock manager, the refinement, theorems.
    - [Fences], [FenceSpec]: the drain identities and write fences; the life cycle
      of a fence, the invariant of the journals under any interleaving with the rest
      of the store, theorems.
    - [PhaseJournal], [PhaseJournalSpec], [PhaseJournalSamples]: the authorization of
      an attempt, the phase journal, specs, grants, bootstrap claims, source-gate
      proofs, rollback takeover and the backup boundary.

    Scheduler:
    - [SchedulerDb]: the workflow tables and statements.  [Scheduler],
      [SchedulerLeases], [SchedulerReceipts]: the methods of
      [DurableWorkflowScheduler] and [WorkflowJournalReaderV1].
    - [SchedulerHistory] (what no call undoes), [SchedulerInvariant] (leases and
      nodes), [SchedulerCompletion] (when an attempt succeeds), [SchedulerSweep] (a
      sweep that cannot end), [SchedulerSpec], [SchedulerSamples].

    Source broker:
    - [SourceDb]: the data and the ledger tables.  [Source]: attestations, ingress
      checks and the transactions of [SourceStore].  [SourceRepository]: the trait as
      a class with laws, and [DeterministicSourceRepository] as its instance.
    - [SourceBroker], [SourceIngress]: [DurableSourceBroker].  A call acts on two
      stores, so it is a value of [Call]: its result and the worlds after each of its
      lasting steps, at any of which the process can stop.
    - [SourceLogic] (triples for calls, frames for transactions), [SourceHistory]
      (requests, starts, crashes at any step), [SourceInvariant] and
      [SourceConsistency] (the ledger and the references in every history),
      [SourceSpec], [SourceIngressSpec], [SourceSamples].

    Executor:
    - [Steps]: calls over several stores as runs with their events and the states
      between.  [ExecutorBase], [Executor], [Coordinator]: [DurableExecutor] and
      [DurableCoordinator] of [executor.rs], on a [Host] made of both stores, the
      outside world, the source gate and the memory of the process.  [ModelEffects]: the
      [DeterministicModelEffects] of the source, and the source broker as a gate.
    - [ExecutorLogic] (triples for runs, what the calls to the stores preserve),
      [ExecutorHistory] (what the controller's calls do to its receipts),
      [ExecutorFacts] (what the calls to the security store establish),
      [ExecutorSafety] (the guarantee of every step of every call), [ExecutorSpec]
      (histories with calls, the drivers' direct calls of the executor included, controller
      calls of other threads, crashes at any step, restarts and changes outside),
      [ExecutorRetry], [ExecutorCleanup], [ExecutorSamples].

    ** Theorems

    The controller, for every sequence of calls with any arguments and outcomes:
    the tables keep their invariant; each call is at most one step of the attempt
    machine; receipts follow the plan and the live deployment of a stateful
    release follows its backup; results are final; stopped attempts mutated
    nothing; rollback needs a deployed compatible release; evidence is never
    overwritten; grants and deliveries are processed once; receipts are
    idempotent, and the expected one is accepted.  One theorem shows a defect:
    an operation of kind [CodeRollback] cannot pass its preflight phase.

    The security store: receipts record what the journal observed and verified, one
    phase is in flight at a time, phases start in the order of the plan, a rollback
    takeover freezes the forward branch but for a source-gate proof that is rejected
    after it and makes the takeover unreadable, grants are used once, a permit rests on its
    evidence; one owner per resource, a reservation always with its key,
    reservations within the observed disk space; one active fence per project,
    acquired under the deploy lock with backup and drain receipts, with growing
    epochs, and released only against a receipt that makes it safe.

    The contracts: exact artifact contract, decoders that accept canonical bytes
    only, bounded capsules, exact budgets, frames with exact boundaries and bounded
    reads; the steps of a valid spec are the ones its bindings determine, and the
    adapter accepts exactly the authorized request; the dependency loop of a workflow
    terminates and the cutover follows every gate; the documents of a verified backup
    chain all belong to one authorized backup, and the pipeline yields such a chain.  One
    theorem shows a defect: an object the unit expects can be left out of a manifest,
    which still verifies.

    The scheduler, in every history: a node is leased exactly when it has one active
    lease, a claimed lease is justified, an attempt that mutates is never abandoned,
    an attempt that succeeded ran its nodes, and history is final.  One theorem shows
    a defect: two expired leases of one attempt can stop every later sweep.

    The source broker, in every history of requests, starts and crashes: the accepted
    reference agrees with the ledger or the project waits for its owner, the accepted
    heads are a chain, a ticket pins the head, a superseded broker has no effect, an
    answered push keeps its answer; a start settles every project; the gate admits
    only the accepted head; signatures are accepted exactly when right; the queue of
    webhooks is bounded.  Two theorems show defects: a divergence whose evidence was
    resolved before cannot be resolved again, and the controls of a diverged project
    cannot be set.

    The executor and its coordinator, in every history in which a call can stop after
    any of its lasting steps: an effect is applied only for a running record (of the
    controller, as the call last saw it, or given to the executor directly), with its
    intent in the journal, its resources held, the source just checked, the fence held
    for a cutover of the coordinator, and after the effect was observed to be absent; the
    controller is never ahead of the executor's receipts; a committed phase is not
    executed again; an attempt that ended holds nothing.  One theorem shows a defect: a
    backup that stopped between its observation and its receipt cannot be resumed.

    ** Bounds and parameters

    Recursion is on data but for four loops.  [topology_loop] has one unit of fuel
    more than the graph has nodes, and each iteration emits a node; [advance_loop] of
    the scheduler has two, and the second finds nothing to advance; [ancestor_loop]
    has two more than the repository has commits, and each iteration visits a new
    one; for each a theorem shows that more fuel changes nothing.
    [process_candidate_loop] has the four iterations of the code.

    Integers are [Z] with the width written at each checked or saturating operation.
    UUIDs are numbers; fresh ones are arguments.  Time is an argument, as in the
    source.  SHA-256, Ed25519, Base64, [serde_json], [serde_jcs], SQLite's
    [json_extract], URL parsing and the redaction expressions are parameters
    (classes); the laws assumed of them are round trips of the codecs and the signatures and the
    length of a digest, and each theorem that uses one has a witness with a
    concrete instance.  The Git repository is a parameter with the laws of the trait;
    whether the broker's lock file is still trusted is an argument.  The effects of the
    executor on the host, its source gate and its disk probe are parameters without laws.
    The project gate of the executor excludes two gated calls for one project; in the
    model gated calls of different projects follow one another too.  What reaches the
    controller without the gate, as admissions, [fail_before_mutation],
    [cancel_before_mutation] and [retry_disk_reservation] do, is not held up: such calls
    of other threads come before any access of a running call to the controller
    ([h_others], [meet_others] of [ExecutorBase]).  The order in
    which SQLite returns rows is fixed only where the statement orders them; a CHECK
    holds the proposed row of an [INSERT] also where a conflict clause applies.

    ** Not modelled

    Sockets, HTTP, process supervision, the Git, OCI, backup and deployment adapters,
    and start-up are effects outside the tables.  SQLite is its statements and
    constraints; schema migrations are left out, as is the Markdown rendering of a
    capsule.  Metrics and notifications inform the operator and decide nothing; policies
    are read from installed files and enter the model by their identity; the request
    documents of the executor's socket ([executor_intent.rs], [executor_authority.rs])
    carry their arguments, and the tables of signed intents and action grants that the
    security store keeps for them are not among the tables of [SecurityDb]. *)

From Stdlib Require Import ZArith Lia.
From stdpp Require Import base gmap strings option list_numbers list.

Local Open Scope Z_scope.

(** ** Results *)

(** Rust's [Result<A, E>], error type first so that [Result E] is a monad. *)
Inductive Result (E A : Type) : Type :=
| Ok (a : A)
| Err (e : E).
Arguments Ok {E A} a.
Arguments Err {E A} e.

#[global] Instance result_ret E : MRet (Result E) := λ A a, Ok a.
#[global] Instance result_bind E : MBind (Result E) := λ A B f m,
  match m with Ok a => f a | Err e => Err e end.
#[global] Instance result_fmap E : FMap (Result E) := λ A B f m,
  match m with Ok a => Ok (f a) | Err e => Err e end.

#[global] Instance result_eq_dec `{EqDecision E, EqDecision A} : EqDecision (Result E A).
Proof. solve_decision. Defined.

(** [Option::ok_or], [Result::map_err] and the test [Result::is_ok]. *)
Definition ok_or {E A} (e : E) (o : option A) : Result E A :=
  match o with Some a => Ok a | None => Err e end.

Definition map_err {E F A} (f : E → F) (r : Result E A) : Result F A :=
  match r with Ok a => Ok a | Err e => Err (f e) end.

Definition is_ok {E A} (r : Result E A) : bool :=
  match r with Ok _ => true | Err _ => false end.

Definition is_some {A} (o : option A) : bool :=
  match o with Some _ => true | None => false end.

Definition is_none {A} (o : option A) : bool := negb (is_some o).

(** An early return: [if cond { return Err(e) }]. *)
Definition ensure {E} (b : bool) (e : E) : Result E unit :=
  if b then Ok tt else Err e.

Declare Scope rust_scope.
Delimit Scope rust_scope with rust.
Open Scope rust_scope.

Notation "'let?' x := m 'in' k" := (mbind (λ x, k) m)
  (at level 10, x name, m at level 200, k at level 200) : rust_scope.
Notation "'let?' ' p := m 'in' k" := (mbind (λ p, k) m)
  (at level 10, p strict pattern, m at level 200, k at level 200) : rust_scope.

Lemma result_bind_Ok {E A B} (m : Result E A) (f : A → Result E B) b :
  mbind f m = Ok b ↔ ∃ a, m = Ok a ∧ f a = Ok b.
Proof. destruct m; split; [eauto| |done|]; intros (?&?&?); by simplify_eq. Qed.

Lemma ok_or_Ok {E A} (e : E) (o : option A) a : ok_or e o = Ok a ↔ o = Some a.
Proof. destruct o; split; intros; by simplify_eq/=. Qed.

Lemma ensure_Ok {E} (b : bool) (e : E) u : ensure b e = Ok u ↔ b = true.
Proof. destruct b, u; split; by intros. Qed.

Lemma map_err_Ok {E F A} (f : E → F) (r : Result E A) a :
  map_err f r = Ok a ↔ r = Ok a.
Proof. destruct r; split; intros; by simplify_eq/=. Qed.

Lemma is_some_is_Some {A} (o : option A) : is_some o = true ↔ is_Some o.
Proof. destruct o; split; try done; intros [? [=]]. Qed.

Lemma is_none_None {A} (o : option A) : is_none o = true ↔ o = None.
Proof. destruct o; split; by intros. Qed.

(** ** Transactions

    A body of [immediate_transaction] reads and writes the tables and may fail
    with [?]; a failure drops every write of the body (SQLite rolls back). *)
Definition Tx (S E A : Type) : Type := S → Result E (A * S).

#[global] Instance tx_ret S E : MRet (Tx S E) := λ A a s, Ok (a, s).
#[global] Instance tx_bind S E : MBind (Tx S E) := λ A B f m s,
  match m s with Ok (a, s') => f a s' | Err e => Err e end.

Definition tx_ok {S E A} (a : A) : Tx S E A := λ s, Ok (a, s).
Definition tx_err {S E A} (e : E) : Tx S E A := λ s, Err e.
Definition lift {S E A} (r : Result E A) : Tx S E A := λ s,
  match r with Ok a => Ok (a, s) | Err e => Err e end.
Definition gets {S E A} (f : S → A) : Tx S E A := λ s, Ok (f s, s).
Definition modify {S E} (f : S → S) : Tx S E unit := λ s, Ok (tt, f s).
Definition reads {S E A} (f : S → Result E A) : Tx S E A := λ s,
  match f s with Ok a => Ok (a, s) | Err e => Err e end.

(** A [for] loop whose body may return early with an error. *)
Fixpoint tx_for_each {S E A} (f : A → Tx S E unit) (l : list A) : Tx S E unit :=
  match l with
  | [] => tx_ok tt
  | x :: r => let? _ := f x in tx_for_each f r
  end.

Definition immediate_transaction {S E A} (body : Tx S E A) (db : S) : S * Result E A :=
  match body db with
  | Ok (a, db') => (db', Ok a)
  | Err e => (db, Err e)
  end.

(** A read on the connection outside a transaction: never changes the tables. *)
Definition read_connection {S E A} (body : S → Result E A) (db : S) : Result E A := body db.

Lemma tx_bind_Ok {S E A B} (m : Tx S E A) (f : A → Tx S E B) s b s' :
  mbind (M := Tx S E) f m s = Ok (b, s') ↔
  ∃ a s1, m s = Ok (a, s1) ∧ f a s1 = Ok (b, s').
Proof.
  unfold mbind, tx_bind. destruct (m s) as [[a s1]|e]; split.
  - eauto.
  - intros (?&?&?&?); by simplify_eq.
  - done.
  - intros (?&?&?&?); by simplify_eq.
Qed.

Lemma lift_Ok {S E A} (r : Result E A) (s : S) a s' :
  lift r s = Ok (a, s') ↔ r = Ok a ∧ s' = s.
Proof. unfold lift. destruct r; split; intros; destruct_and?; by simplify_eq. Qed.

Lemma gets_Ok {S E A} (f : S → A) (s : S) a s' :
  gets (E := E) f s = Ok (a, s') ↔ a = f s ∧ s' = s.
Proof. unfold gets. split; intros; destruct_and?; by simplify_eq. Qed.

Lemma modify_Ok {S E} (f : S → S) (s : S) u s' :
  modify (E := E) f s = Ok (u, s') ↔ s' = f s.
Proof. unfold modify. destruct u. split; intros; by simplify_eq. Qed.

Lemma reads_Ok {S E A} (f : S → Result E A) (s : S) a s' :
  reads f s = Ok (a, s') ↔ f s = Ok a ∧ s' = s.
Proof. unfold reads. destruct (f s); naive_solver. Qed.

Lemma tx_ok_Ok {S E A} (a b : A) (s s' : S) :
  tx_ok (E := E) a s = Ok (b, s') ↔ b = a ∧ s' = s.
Proof. unfold tx_ok. split; intros; destruct_and?; by simplify_eq. Qed.

Lemma tx_err_Ok {S E A} (e : E) (b : A) (s s' : S) :
  tx_err e s = Ok (b, s') ↔ False.
Proof. split; by intros. Qed.

Lemma immediate_transaction_Ok {S E A} (body : Tx S E A) db db' a :
  immediate_transaction body db = (db', Ok a) ↔ body db = Ok (a, db').
Proof.
  unfold immediate_transaction. destruct (body db) as [[? ?]|]; split; intros; by simplify_eq.
Qed.

(** A rejected transaction leaves the tables as they were. *)
Lemma immediate_transaction_Err {S E A} (body : Tx S E A) db db' e :
  immediate_transaction body db = (db', Err e) → db' = db.
Proof. unfold immediate_transaction. destruct (body db) as [[? ?]|]; intros; by simplify_eq. Qed.

(** ** Machine integers

    A [w]-bit integer is a [Z]; the source's checked, saturating and converting
    operations are written out at their width. *)
Definition u16_max : Z := 65535.
Definition u32_max : Z := 4294967295.
Definition u64_max : Z := 18446744073709551615.
Definition i64_max : Z := 9223372036854775807.
Definition i64_min : Z := -9223372036854775808.

Definition is_u32 (z : Z) : Prop := 0 ≤ z ≤ u32_max.
Definition is_u64 (z : Z) : Prop := 0 ≤ z ≤ u64_max.
Definition is_i64 (z : Z) : Prop := i64_min ≤ z ≤ i64_max.

Definition checked_range (lo hi z : Z) : option Z :=
  if (lo <=? z) && (z <=? hi) then Some z else None.

Definition u64_checked_add (a b : Z) : option Z := checked_range 0 u64_max (a + b).
Definition u64_checked_sub (a b : Z) : option Z := checked_range 0 u64_max (a - b).
Definition u32_checked_add (a b : Z) : option Z := checked_range 0 u32_max (a + b).
Definition i64_checked_add (a b : Z) : option Z := checked_range i64_min i64_max (a + b).
Definition i64_checked_sub (a b : Z) : option Z := checked_range i64_min i64_max (a - b).
Definition u64_saturating_sub (a b : Z) : Z := Z.max 0 (a - b).
Definition u64_saturating_add (a b : Z) : Z := Z.min u64_max (a + b).

(** [u64::try_from], [i64::try_from], [u32::try_from]. *)
Definition u64_try_from (z : Z) : option Z := checked_range 0 u64_max z.
Definition i64_try_from (z : Z) : option Z := checked_range i64_min i64_max z.
Definition u32_try_from (z : Z) : option Z := checked_range 0 u32_max z.

Lemma checked_range_Some lo hi z r :
  checked_range lo hi z = Some r ↔ r = z ∧ lo ≤ z ≤ hi.
Proof.
  unfold checked_range. destruct (Z.leb_spec lo z), (Z.leb_spec z hi); simpl;
    split; intros; destruct_and?; simplify_eq; lia || done.
Qed.

Lemma checked_range_None lo hi z :
  checked_range lo hi z = None ↔ z < lo ∨ hi < z.
Proof.
  unfold checked_range. destruct (Z.leb_spec lo z), (Z.leb_spec z hi); simpl;
    split; intros; try done; lia.
Qed.

Lemma u64_try_from_id z : is_u64 z → u64_try_from z = Some z.
Proof. intros. apply checked_range_Some. split; [done|]. unfold is_u64 in *. lia. Qed.

(** ** Field updates

    [r <| f := v |>] is the record [r] with field [f] replaced, the model of an
    assignment through [&mut] and of the struct update syntax [..r].  A record
    type declares its eta expansion once; the setter of a field is obtained from
    it by abstracting the projection. *)
Class Eta (R : Type) := eta_expand : R → R.
Class Setter {R T : Type} (proj : R → T) := set_field : (T → T) → R → R.
Arguments set_field {R T} proj {_} f r.

Ltac build_setter :=
  match goal with
  | |- @Setter ?R ?T ?proj =>
      let body := eval hnf in (@eta_expand R _) in
      match eval pattern proj in body with
      | ?F _ => exact (λ (f : T → T), F (λ r, f (proj r)))
      end
  end.
#[global] Hint Extern 1 (Setter _) => build_setter : typeclass_instances.

Arguments eta_expand {R _} r.

Notation "r <| f := v |>" := (set_field f (λ _, v) r)
  (at level 1, left associativity, f at level 9, v at level 200, format "r  <| f  :=  v |>")
  : rust_scope.

(** Equality tests of the source ([==], [!=]) and the order tests on integers. *)
Notation "a == b" := (bool_decide (a = b)) (at level 70, no associativity) : rust_scope.
Notation "a != b" := (negb (bool_decide (a = b))) (at level 70, no associativity) : rust_scope.

(** ** Slices *)

(** [slice.windows(2)]. *)
Fixpoint windows2 {A} (l : list A) : list (A * A) :=
  match l with
  | x :: ((y :: _) as r) => (x, y) :: windows2 r
  | _ => []
  end.

(** [iter().position(f)]. *)
Fixpoint position {A} (f : A → bool) (l : list A) : option nat :=
  match l with
  | [] => None
  | x :: r => if f x then Some 0%nat else S <$> position f r
  end.

(** [iter().find(f)]. *)
Fixpoint find_first {A} (f : A → bool) (l : list A) : option A :=
  match l with
  | [] => None
  | x :: r => if f x then Some x else find_first f r
  end.

(** [iter().enumerate().any(f)], from index [i] on. *)
Fixpoint any_from {A} (f : nat → A → bool) (i : nat) (l : list A) : bool :=
  match l with
  | [] => false
  | x :: r => f i x || any_from f (S i) r
  end.

(** [for x in l { f(x)? }]. *)
Fixpoint try_for_each {E A} (f : A → Result E unit) (l : list A) : Result E unit :=
  match l with
  | [] => Ok tt
  | x :: r => let? _ := f x in try_for_each f r
  end.

Lemma windows2_lookup {A} (l : list A) i p :
  windows2 l !! i = Some p ↔ l !! i = Some p.1 ∧ l !! S i = Some p.2.
Proof.
  revert i. induction l as [|x [|y r] IH]; intros i.
  - split; [done | by intros [? _]].
  - split; [done | by destruct i; intros [_ ?]].
  - destruct i as [|i]; simpl.
    + destruct p as [p1 p2]; split; intros; destruct_and?; by simplify_eq/=.
    + rewrite IH. done.
Qed.

Lemma windows2_elem_of {A} (l : list A) x y :
  (x, y) ∈ windows2 l ↔ ∃ i, l !! i = Some x ∧ l !! S i = Some y.
Proof.
  rewrite list_elem_of_lookup. setoid_rewrite windows2_lookup. done.
Qed.

Lemma position_Some {A} (f : A → bool) l i :
  position f l = Some i ↔
  (∃ x, l !! i = Some x ∧ f x = true) ∧ ∀ j y, (j < i)%nat → l !! j = Some y → f y = false.
Proof.
  revert i. induction l as [|x r IH]; intros i; simpl.
  - split; [done | intros [(?&?&?) _]; by rewrite lookup_nil in *].
  - destruct (f x) eqn:Hx.
    + split.
      * intros [= <-]. split; [by exists x | intros; lia].
      * intros [_ Hlt]. destruct i as [|i]; [done|].
        specialize (Hlt 0%nat x ltac:(lia) eq_refl). congruence.
    + rewrite fmap_Some. split.
      * intros (k&Hk&->). apply IH in Hk as [(y&?&?) Hlt]. split; [by exists y|].
        intros [|j] z Hj; simpl; [by intros [= <-]|]. apply Hlt. lia.
      * intros [(y&Hy&Hfy) Hlt]. destruct i as [|i]; simpl in Hy; [congruence|].
        exists i. split; [|done]. apply IH. split; [by exists y|].
        intros j z Hj Hz. apply (Hlt (S j) z); [lia|done].
Qed.

Lemma position_None {A} (f : A → bool) l :
  position f l = None ↔ ∀ x, x ∈ l → f x = false.
Proof.
  induction l as [|x r IH]; simpl; [split; [intros _ ? ?; by apply not_elem_of_nil in H|done]|].
  destruct (f x) eqn:Hx.
  - split; [done|]. intros H. rewrite (H x) in Hx; [done|]. by left.
  - rewrite fmap_None, IH. split.
    + intros H y [->|?]%elem_of_cons; auto.
    + intros H y ?. apply H. by right.
Qed.

Lemma find_first_Some {A} (f : A → bool) l x :
  find_first f l = Some x → x ∈ l ∧ f x = true.
Proof.
  induction l as [|y r IH]; simpl; [done|]. destruct (f y) eqn:?.
  - intros [= ->]. split; [by left|done].
  - intros [? ?]%IH. split; [by right|done].
Qed.

Lemma find_first_None {A} (f : A → bool) l :
  find_first f l = None ↔ ∀ x, x ∈ l → f x = false.
Proof.
  induction l as [|x r IH]; simpl; [split; [intros _ ? ?; by apply not_elem_of_nil in H|done]|].
  destruct (f x) eqn:Hx.
  - split; [done|]. intros H. rewrite (H x) in Hx; [done|]. by left.
  - rewrite IH. split.
    + intros H y [->|?]%elem_of_cons; auto.
    + intros H y ?. apply H. by right.
Qed.

Lemma any_from_true {A} (f : nat → A → bool) i l :
  any_from f i l = true ↔ ∃ j x, l !! j = Some x ∧ f (i + j)%nat x = true.
Proof.
  revert i. induction l as [|y r IH]; intros i; simpl.
  - split; [done | intros (?&?&?&?); by rewrite lookup_nil in *].
  - rewrite orb_true_iff, IH. split.
    + intros [?|(j&x&?&?)].
      * exists 0%nat, y. by rewrite Nat.add_0_r.
      * exists (S j), x. by rewrite Nat.add_succ_r.
    + intros ([|j]&x&Hx&Hf); simpl in Hx.
      * simplify_eq. rewrite Nat.add_0_r in Hf. by left.
      * right. exists j, x. by rewrite Nat.add_succ_r in Hf.
Qed.

(** ** Tables *)

(** [SELECT .. WHERE p] over a table: the rows, in key order. *)
Definition select_rows {K V} `{Countable K} (p : K → V → bool) (table : gmap K V)
    : list (K * V) :=
  filter (λ row, p row.1 row.2 = true) (map_to_list table).

Definition row_exists {K V} `{Countable K} (p : K → V → bool) (table : gmap K V) : bool :=
  existsb (λ row, p row.1 row.2) (map_to_list table).

Lemma row_exists_false {K V} `{Countable K} (p : K → V → bool) (table : gmap K V) :
  row_exists p table = false → ∀ k v, table !! k = Some v → p k v = false.
Proof.
  intros Hf k v Hk. destruct (p k v) eqn:E; [|done].
  assert (row_exists p table = true) as Ht; [|congruence].
  apply existsb_exists. exists (k, v). split; [|done].
  by apply list_elem_of_In, elem_of_map_to_list.
Qed.

Lemma select_rows_elem {K V} `{Countable K} (p : K → V → bool) (table : gmap K V) k v :
  (k, v) ∈ select_rows p table ↔ p k v = true ∧ table !! k = Some v.
Proof. unfold select_rows. by rewrite list_elem_of_filter, elem_of_map_to_list. Qed.

(** ** Proof automation *)

Create Rewrite HintDb rust_bool.
#[export] Hint Rewrite andb_true_iff orb_true_iff orb_false_iff negb_true_iff negb_false_iff
  bool_decide_eq_true bool_decide_eq_false Z.leb_le Z.leb_gt Z.ltb_lt Z.ltb_ge Z.eqb_eq Z.eqb_neq
  @is_none_None @is_some_is_Some : rust_bool.

(** Turn the boolean tests of the code into propositions. *)
Ltac bool_prop := autorewrite with rust_bool in *.

(** Invert the success of a transaction or of a [?]-chain step by step. *)
Ltac inv_ok_step :=
  match goal with
  | H : mbind (M := Tx _ _) _ _ _ = Ok (_, _) |- _ => apply tx_bind_Ok in H as (?&?&?&H)
  | H : mbind (M := Result _) _ _ = Ok _ |- _ => apply result_bind_Ok in H as (?&?&H)
  | H : lift _ _ = Ok (_, _) |- _ => apply lift_Ok in H as [? ->]
  | H : gets _ _ = Ok (_, _) |- _ => apply gets_Ok in H as [-> ->]
  | H : reads _ _ = Ok (_, _) |- _ => apply reads_Ok in H as [? ->]
  | H : modify _ _ = Ok (_, _) |- _ => apply modify_Ok in H as ->
  | H : tx_ok _ _ = Ok (_, _) |- _ => apply tx_ok_Ok in H as [-> ->]
  | H : tx_err _ _ = Ok (_, _) |- _ => by apply tx_err_Ok in H
  | H : ok_or _ _ = Ok _ |- _ => apply ok_or_Ok in H
  | H : ensure _ _ = Ok _ |- _ => apply ensure_Ok in H
  | H : map_err _ _ = Ok _ |- _ => apply map_err_Ok in H
  | H : immediate_transaction _ _ = (_, Ok _) |- _ => apply immediate_transaction_Ok in H
  | H : Ok _ = Ok _ |- _ => injection H as H; try subst
  | H : Err _ = Ok _ |- _ => discriminate H
  end.
Ltac inv_ok := repeat (inv_ok_step; simpl in *).

(** Split on the test or the scrutinee the success hypothesis is stuck on. *)
Ltac case_ok :=
  match goal with
  | H : (if ?b then _ else _) = Ok _ |- _ => destruct b eqn:?
  | H : (if ?b then _ else _) _ = Ok _ |- _ => destruct b eqn:?
  | H : (match ?x with _ => _ end) = Ok _ |- _ => destruct x eqn:?
  | H : (match ?x with _ => _ end) _ = Ok _ |- _ => destruct x eqn:?
  end; try discriminate; inv_ok.

Lemma try_for_each_Ok {E A} (f : A → Result E unit) l u :
  try_for_each f l = Ok u ↔ ∀ x, x ∈ l → f x = Ok tt.
Proof.
  destruct u. induction l as [|y r IH]; simpl.
  - split; [by intros _ x ?%not_elem_of_nil|done].
  - split.
    + intros Hok. inv_ok. match goal with u : () |- _ => destruct u end.
      intros x [->|?]%elem_of_cons; [done|]. by apply IH.
    + intros Hall. rewrite (Hall y) by by left. simpl. apply IH. intros. apply Hall. by right.
Qed.
