(* ===== verification/TxLogic.v ===== *)
(** * Reasoning about transactions

    A transaction that succeeds relates the tables before and after it.  [tx_rel R m]:
    they are related by [R]; for a preorder [R] this composes along the code.
    [tx_triple P m Q]: from tables with [P] to tables with [Q].  The tactic
    [tx_steps] splits the body of a transaction and leaves its statements. *)

From Stdlib Require Import ZArith Lia.
From stdpp Require Import base gmap option list.
From S2P Require Import Prelude.

Section TxLogic.
Context {S E : Type}.

Definition tx_rel {A} (R : relation S) (m : Tx S E A) : Prop :=
  ∀ s a s', m s = Ok (a, s') → R s s'.

Definition tx_triple {A} (P : S → Prop) (m : Tx S E A) (Q : A → S → Prop) : Prop :=
  ∀ s a s', P s → m s = Ok (a, s') → Q a s'.

Lemma tx_rel_bind {A B} (R : relation S) `{!Transitive R} (m : Tx S E A) (f : A → Tx S E B) :
  tx_rel R m → (∀ a, tx_rel R (f a)) → tx_rel R (mbind f m).
Proof.
  intros Hm Hf s b s' Hok. apply tx_bind_Ok in Hok as (a & s1 & H1 & H2).
  transitivity s1; [by eapply Hm|by eapply Hf].
Qed.

(** Binding with what the first part says of its result. *)
Lemma tx_rel_bind_post {A B} (R : relation S) `{!Transitive R} (Q : A → Prop) (m : Tx S E A)
    (f : A → Tx S E B) :
  tx_rel R m → (∀ s a s', m s = Ok (a, s') → Q a) → (∀ a, Q a → tx_rel R (f a)) →
  tx_rel R (mbind f m).
Proof.
  intros Hm HQ Hf s b s' Hok. apply tx_bind_Ok in Hok as (a & s1 & H1 & H2).
  transitivity s1; [by eapply Hm|]. eapply Hf; eauto.
Qed.

Lemma tx_rel_lift {A} (R : relation S) `{!Reflexive R} (r : Result E A) : tx_rel R (lift r).
Proof. intros s a s' Hok. by apply lift_Ok in Hok as [_ ->]. Qed.

Lemma tx_rel_gets {A} (R : relation S) `{!Reflexive R} (f : S → A) :
  tx_rel R (gets f : Tx S E A).
Proof. intros s a s' Hok. by apply gets_Ok in Hok as [_ ->]. Qed.

Lemma tx_rel_reads {A} (R : relation S) `{!Reflexive R} (f : S → Result E A) : tx_rel R (reads f).
Proof. intros s a s' Hok. by apply reads_Ok in Hok as [_ ->]. Qed.

Lemma tx_rel_ok {A} (R : relation S) `{!Reflexive R} (a : A) : tx_rel R (tx_ok a : Tx S E A).
Proof. intros s b s' Hok. by apply tx_ok_Ok in Hok as [_ ->]. Qed.

Lemma tx_rel_err {A} (R : relation S) (e : E) : tx_rel R (tx_err e : Tx S E A).
Proof. intros s b s' Hok. by apply tx_err_Ok in Hok. Qed.

Lemma tx_rel_modify (R : relation S) (f : S → S) : (∀ s, R s (f s)) → tx_rel R (modify f : Tx S E unit).
Proof. intros Hf s a s' Hok. apply modify_Ok in Hok as ->. apply Hf. Qed.

Lemma tx_rel_for_each {A} (R : relation S) `{!PreOrder R} (f : A → Tx S E unit) l :
  (∀ x, x ∈ l → tx_rel R (f x)) → tx_rel R (tx_for_each f l).
Proof.
  induction l as [|x l IH]; intros Hf; simpl; [apply tx_rel_ok, _|].
  apply tx_rel_bind; [apply _|apply Hf; set_solver|]. intros _. apply IH. set_solver.
Qed.

Lemma immediate_transaction_rel {A} (R : relation S) `{!Reflexive R} (body : Tx S E A) db :
  tx_rel R body → R db (immediate_transaction body db).1.
Proof.
  intros Hbody. unfold immediate_transaction.
  destruct (body db) as [[a db']|e] eqn:Hok; simpl; [by eapply Hbody|done].
Qed.

Lemma tx_triple_bind {A B} (P : S → Prop) (m : Tx S E A) (Q : A → S → Prop) (f : A → Tx S E B)
    (T : B → S → Prop) :
  tx_triple P m Q → (∀ a, tx_triple (Q a) (f a) T) → tx_triple P (mbind f m) T.
Proof.
  intros Hm Hf s b s' HP Hok. apply tx_bind_Ok in Hok as (a & s1 & H1 & H2).
  eapply Hf; [|done]. by eapply Hm.
Qed.

(** A transaction that preserves the precondition leaves it for what follows. *)
Lemma tx_triple_frame {A B} (P : S → Prop) (m : Tx S E A) (f : A → Tx S E B)
    (T : B → S → Prop) :
  tx_rel (λ s s', P s → P s') m → (∀ a, tx_triple P (f a) T) → tx_triple P (mbind f m) T.
Proof.
  intros Hm Hf. apply (tx_triple_bind P m (λ _, P) f T); [|exact Hf].
  intros s a s' HP Hok. by eapply Hm.
Qed.

Lemma tx_triple_rel {A} (P : S → Prop) (m : Tx S E A) :
  tx_triple P m (λ _, P) ↔ tx_rel (λ s s', P s → P s') m.
Proof. split; [intros Hm s a s' Hok HP; by eapply Hm|intros Hm s a s' HP Hok; by eapply Hm]. Qed.
End TxLogic.

(** The preorder of an invariant. *)
#[export] Instance preserves_preorder {S} (P : S → Prop) : PreOrder (λ s s' : S, P s → P s').
Proof. split; [by intros s|intros s1 s2 s3; tauto]. Qed.

Create HintDb tx_rel.
#[export] Hint Resolve tx_rel_lift tx_rel_gets tx_rel_reads tx_rel_ok tx_rel_err : tx_rel.

(** Split a transaction into its statements and close those the hints know. *)
Ltac tx_step :=
  match goal with
  | |- ∀ _, _ => intro
  | |- tx_rel _ (mbind _ _) => apply tx_rel_bind; [apply _| |]
  | |- tx_rel _ (tx_for_each _ _) => apply tx_rel_for_each; [apply _|intros ? _]
  | |- tx_rel _ (if ?b then _ else _) => destruct b
  | |- tx_rel _ (match ?x with _ => _ end) => destruct x
  | |- tx_rel _ (let _ := _ in _) => cbv zeta
  | |- tx_rel _ _ => solve [eauto with tx_rel typeclass_instances]
  end.
Ltac tx_steps := repeat tx_step.
