(* ===== verification/Identifiers.v ===== *)
(** * Identifiers and digests

    Model of [src/src/domain/identifiers.rs]: project IDs, Git commit IDs,
    evidence digests and runbook IDs with their validation and parsing, and the
    hex rendering of a SHA-256 digest.  The hash function itself (crate [sha2])
    and the canonical JSON encoder (crate [serde_jcs]) are parameters: a class
    for the function, and a class for what the code relies on. *)

From Stdlib Require Import ZArith Lia Ascii String.
From stdpp Require Import base gmap strings option list_numbers list.
From S2P Require Import Prelude.

Local Open Scope Z_scope.

(** ** Bytes of a string *)

Definition byte_of_ascii (a : ascii) : Z := Z.of_N (N_of_ascii a).

Definition as_bytes (s : string) : list Z := byte_of_ascii <$> String.list_ascii_of_string s.

(** [str::len], a byte count. *)
Definition str_len (s : string) : Z := Z.of_nat (String.length s).

Definition is_ascii_lowercase (b : Z) : bool := (97 <=? b) && (b <=? 122).
Definition is_ascii_uppercase (b : Z) : bool := (65 <=? b) && (b <=? 90).
Definition is_ascii_digit (b : Z) : bool := (48 <=? b) && (b <=? 57).
Definition is_ascii_alphanumeric (b : Z) : bool :=
  is_ascii_lowercase b || is_ascii_uppercase b || is_ascii_digit b.
Definition is_ascii_graphic (b : Z) : bool := (33 <=? b) && (b <=? 126).
Definition is_ascii_byte (b : Z) : bool := b <? 128.
Definition in_a_to_f (b : Z) : bool := (97 <=? b) && (b <=? 102).
Definition hyphen : Z := 45.

(** [str::is_ascii]. *)
Definition is_ascii (s : string) : bool := forallb is_ascii_byte (as_bytes s).

(** ** Identifier types *)

(** A UUID is its 128-bit value; the nil UUID is zero. *)
Abbreviation Uuid := N (only parsing).
Definition is_nil (u : Uuid) : bool := (u =? 0)%N.

Inductive ProjectId : Type := MkProjectId (s : string).
Inductive GitCommitId : Type := MkGitCommitId (s : string).
Inductive EvidenceDigest : Type := MkEvidenceDigest (s : string).
Inductive RunbookId : Type := MkRunbookId (s : string).

#[global] Instance ProjectId_eq_dec : EqDecision ProjectId.
Proof. solve_decision. Defined.
#[global] Instance GitCommitId_eq_dec : EqDecision GitCommitId.
Proof. solve_decision. Defined.
#[global] Instance EvidenceDigest_eq_dec : EqDecision EvidenceDigest.
Proof. solve_decision. Defined.
#[global] Instance RunbookId_eq_dec : EqDecision RunbookId.
Proof. solve_decision. Defined.

Definition ProjectId_as_str (p : ProjectId) : string := match p with MkProjectId s => s end.
Definition GitCommitId_as_str (p : GitCommitId) : string := match p with MkGitCommitId s => s end.
Definition EvidenceDigest_as_str (p : EvidenceDigest) : string :=
  match p with MkEvidenceDigest s => s end.
Definition RunbookId_as_str (p : RunbookId) : string := match p with MkRunbookId s => s end.

#[global] Instance ProjectId_countable : Countable ProjectId.
Proof. by refine (inj_countable' ProjectId_as_str MkProjectId _); intros []. Defined.
#[global] Instance EvidenceDigest_countable : Countable EvidenceDigest.
Proof. by refine (inj_countable' EvidenceDigest_as_str MkEvidenceDigest _); intros []. Defined.

Inductive IdentifierError : Type :=
| InvalidProjectId
| InvalidGitCommit
| InvalidEvidenceDigest
| InvalidRunbookId.

Definition MAX_APPLICATION_SCHEMA_VERSION_BYTES : Z := 96.

Definition valid_application_schema_version (value : string) : bool :=
  negb (str_len value =? 0)
  && (str_len value <=? MAX_APPLICATION_SCHEMA_VERSION_BYTES)
  && forallb is_ascii_graphic (as_bytes value).

Definition ProjectId_validate (value : string) : bool :=
  let bytes := as_bytes value in
  ((1 <=? Z.of_nat (length bytes)) && (Z.of_nat (length bytes) <=? 64))
  && match head bytes with Some b => is_ascii_alphanumeric b | None => false end
  && match last bytes with Some b => is_ascii_alphanumeric b | None => false end
  && forallb (λ b, is_ascii_lowercase b || is_ascii_digit b || (b =? hyphen)) bytes.

Definition ProjectId_from_str (value : string) : Result IdentifierError ProjectId :=
  if ProjectId_validate value then Ok (MkProjectId value) else Err InvalidProjectId.

Definition lower_hex (b : Z) : bool := is_ascii_digit b || in_a_to_f b.

Definition GitCommitId_validate (value : string) : bool :=
  ((str_len value =? 40) || (str_len value =? 64)) && forallb lower_hex (as_bytes value).

Definition GitCommitId_from_str (value : string) : Result IdentifierError GitCommitId :=
  if GitCommitId_validate value then Ok (MkGitCommitId value) else Err InvalidGitCommit.

Definition EvidenceDigest_validate (value : string) : bool :=
  (str_len value =? 64) && forallb lower_hex (as_bytes value).

Definition EvidenceDigest_from_str (value : string) : Result IdentifierError EvidenceDigest :=
  if EvidenceDigest_validate value then Ok (MkEvidenceDigest value) else Err InvalidEvidenceDigest.

Definition RunbookId_from_str (value : string) : Result IdentifierError RunbookId :=
  if ProjectId_validate value then Ok (MkRunbookId value) else Err InvalidRunbookId.

(** ** Hashing and canonical encoding *)

(** [Sha256::digest] of crate [sha2]. *)
Class Sha256 := sha256_raw : list Z → list Z.

(** Its documented behaviour: 32 octets. *)
Class Sha256Spec `{Sha256} : Prop := {
  sha256_length v : length (sha256_raw v) = 32%nat;
  sha256_octets v : Forall (λ b, 0 ≤ b < 256) (sha256_raw v)
}.

Definition hex_digit (n : Z) : ascii :=
  ascii_of_N (Z.to_N (if n <? 10 then 48 + n else 87 + n)).

(** [write!(encoded, "{byte:02x}")] for each byte. *)
Fixpoint hex_encode (bytes : list Z) : string :=
  match bytes with
  | [] => ""%string
  | b :: r => String (hex_digit (b / 16)) (String (hex_digit (b mod 16)) (hex_encode r))
  end.

Definition EvidenceDigest_sha256 `{Sha256} (value : list Z) : EvidenceDigest :=
  MkEvidenceDigest (hex_encode (sha256_raw value)).

(** The failures of [serde_json] and [serde_jcs]. *)
Inductive SerdeError : Type := MkSerdeError.

(** [serde_jcs::to_vec] at a type: canonical JSON bytes, or an encoding error. *)
Class Jcs (A : Type) := jcs_to_vec : A → Result SerdeError (list Z).

Definition uuid_bytes (u : Uuid) : list Z :=
  (λ i, Z.of_N (N.shiftr u (8 * N.of_nat (15 - i))) mod 256) <$> seq 0 16.

(** [Uuid]'s [Display]: lower-case hexadecimal in groups of 8, 4, 4, 4 and 12. *)
Definition uuid_to_string (u : Uuid) : string :=
  let hex := hex_encode (uuid_bytes u) in
  String.concat "-" [String.substring 0 8 hex; String.substring 8 4 hex;
    String.substring 12 4 hex; String.substring 16 4 hex; String.substring 20 12 hex].

(** [serde_json] at a type: the text column it is stored in, and its two
    directions. *)
Class Json (A : Type) := {
  json_text : Type;
  json_to_string : A → Result SerdeError json_text;
  json_from_str : json_text → Result SerdeError A
}.
Arguments json_text A {_}.

(** [serde_json::from_slice] at a type. *)
Class JsonSlice (A : Type) := json_from_slice : list Z → Result SerdeError A.

(** What the canonical documents rely on: canonical JSON bytes parse back to the
    value they encode. *)
Class JcsRoundTrip (A : Type) `{Jcs A, JsonSlice A} : Prop :=
  jcs_round_trip (x : A) b : jcs_to_vec x = Ok b → json_from_slice b = Ok x.

(** What storing a value as JSON relies on: a value that serialises is read back
    as it was. *)
Class JsonRoundTrip (A : Type) `{Json A} : Prop :=
  json_round_trip (x : A) t : json_to_string x = Ok t → json_from_str t = Ok x.

(** ** Facts *)

Lemma as_bytes_length s : length (as_bytes s) = String.length s.
Proof.
  unfold as_bytes. rewrite length_fmap. induction s; simpl; [done|by f_equal].
Qed.

Lemma as_bytes_octet s : Forall (λ b, 0 ≤ b < 256) (as_bytes s).
Proof.
  unfold as_bytes. induction s as [|a s IH]; simpl; constructor; [|done].
  unfold byte_of_ascii. pose proof (N_ascii_bounded a). lia.
Qed.

Lemma byte_of_hex_digit n :
  0 ≤ n < 16 → lower_hex (byte_of_ascii (hex_digit n)) = true.
Proof.
  intros Hn. assert (n ∈ seqZ 0 16) as Hin by (apply elem_of_seqZ; lia). clear Hn.
  cbv [seqZ Z.to_nat Pos.to_nat Pos.iter_op Nat.add fmap list_fmap seq] in Hin.
  repeat (apply elem_of_cons in Hin as [->|Hin]; [reflexivity|]).
  by apply not_elem_of_nil in Hin.
Qed.

Lemma hex_encode_valid bytes :
  Forall (λ b, 0 ≤ b < 256) bytes →
  String.length (hex_encode bytes) = (2 * length bytes)%nat
  ∧ forallb lower_hex (as_bytes (hex_encode bytes)) = true.
Proof.
  induction 1 as [|b r Hb _ [IHl IHv]]; [done|]. simpl. split; [lia|].
  unfold as_bytes in *. simpl.
  assert (0 ≤ b / 16 < 16) by (split; [apply Z.div_pos | apply Z.div_lt_upper_bound]; lia).
  pose proof (Z.mod_pos_bound b 16 ltac:(lia)).
  by rewrite !byte_of_hex_digit.
Qed.

Lemma EvidenceDigest_sha256_valid `{Sha256Spec} v :
  EvidenceDigest_validate (EvidenceDigest_as_str (EvidenceDigest_sha256 v)) = true.
Proof.
  destruct (hex_encode_valid _ (sha256_octets v)) as [Hl Hv].
  unfold EvidenceDigest_validate, EvidenceDigest_sha256, str_len. simpl.
  by rewrite Hl, sha256_length, Hv.
Qed.
