(* ===== verification/States.v ===== *)
(** * Phases, results and blocking reasons

    Model of [src/src/domain/states.rs]: the enumerations of the operation state
    machine, the mutation boundary and the retryability of a block. *)

From Stdlib Require Import ZArith Lia.
From stdpp Require Import base gmap strings option list_numbers list.
From S2P Require Import Prelude.

Inductive OperationPhase : Type :=
| Phase_Queued
| Phase_SyncingSource
| Phase_VerifyingSource
| Phase_Testing
| Phase_Building
| Phase_Preflight
| Phase_BackingUp
| Phase_Draining
| Phase_CutoverSnapshotting
| Phase_Migrating
| Phase_Deploying
| Phase_HealthChecking
| Phase_Soaking
| Phase_Rollback
| Phase_Reconciliation.

#[global] Instance OperationPhase_eq_dec : EqDecision OperationPhase.
Proof. solve_decision. Defined.

Definition crosses_mutation_boundary (phase : OperationPhase) : bool :=
  match phase with
  | Phase_BackingUp | Phase_Draining | Phase_CutoverSnapshotting | Phase_Migrating
  | Phase_Deploying | Phase_HealthChecking | Phase_Soaking | Phase_Rollback
  | Phase_Reconciliation => true
  | _ => false
  end.

Inductive OperationResult : Type :=
| Result_Running
| Result_Succeeded
| Result_Failed
| Result_RolledBack
| Result_RollbackFailed
| Result_Cancelled
| Result_Superseded
| Result_ManualRecoveryRequired.

#[global] Instance OperationResult_eq_dec : EqDecision OperationResult.
Proof. solve_decision. Defined.

Inductive BlockingReason : Type :=
| Blocking_None
| Blocking_DiskReserve
| Blocking_SourceDivergence
| Blocking_SourceBrokerUnavailable
| Blocking_SourceHeadSuperseded
| Blocking_SourceAttestationInvalid
| Blocking_PolicyUnavailable
| Blocking_PolicyInvalid
| Blocking_PolicyStale
| Blocking_SecurityStateInvalid
| Blocking_BackupPolicy
| Blocking_StaleTelemetry
| Blocking_ClockUnsynchronized
| Blocking_MaintenanceConflict
| Blocking_OperatorHold.

#[global] Instance BlockingReason_eq_dec : EqDecision BlockingReason.
Proof. solve_decision. Defined.

Inductive Retryability : Type :=
| Retry_Automatic
| Retry_AfterExternalRecovery
| Retry_OperatorRunbook.

#[global] Instance Retryability_eq_dec : EqDecision Retryability.
Proof. solve_decision. Defined.

Definition BlockingReason_retryability (reason : BlockingReason) : option Retryability :=
  match reason with
  | Blocking_None => None
  | Blocking_SourceBrokerUnavailable | Blocking_SourceHeadSuperseded
  | Blocking_StaleTelemetry => Some Retry_Automatic
  | Blocking_PolicyUnavailable | Blocking_ClockUnsynchronized | Blocking_BackupPolicy
  | Blocking_DiskReserve => Some Retry_AfterExternalRecovery
  | Blocking_SourceDivergence | Blocking_SourceAttestationInvalid | Blocking_PolicyInvalid
  | Blocking_PolicyStale | Blocking_SecurityStateInvalid | Blocking_MaintenanceConflict
  | Blocking_OperatorHold => Some Retry_OperatorRunbook
  end.
