(* ===== verification/Text.v ===== *)
(** * Text: UTF-8 scalar values, string order and bounded truncation

    Rust strings are UTF-8 byte sequences.  This file decodes them
    ([str::chars]), orders them ([Ord for str]), and models [truncate_utf8] of
    [src/src/domain/redaction.rs], which cuts a text to a byte budget at a
    character boundary. *)

From Stdlib Require Import ZArith Lia Ascii String.
From stdpp Require Import base gmap strings option list_numbers sorting list.
From S2P Require Import Prelude Identifiers.

Local Open Scope Z_scope.

(** ** Scalar values *)

Definition is_continuation (b : Z) : bool := (128 <=? b) && (b <=? 191).

(** [str::chars] on the bytes of a string.  A [str] is valid UTF-8 by type, so
    the lead byte decides the width. *)
Fixpoint decode_chars (bytes : list Z) : list Z :=
  match bytes with
  | [] => []
  | b1 :: r1 =>
      if b1 <? 128 then b1 :: decode_chars r1
      else match r1 with
      | [] => [b1]
      | b2 :: r2 =>
          if b1 <? 224 then ((b1 - 192) * 64 + (b2 - 128)) :: decode_chars r2
          else match r2 with
          | [] => [b1]
          | b3 :: r3 =>
              if b1 <? 240 then
                ((b1 - 224) * 4096 + (b2 - 128) * 64 + (b3 - 128)) :: decode_chars r3
              else match r3 with
              | [] => [b1]
              | b4 :: r4 =>
                  ((b1 - 240) * 262144 + (b2 - 128) * 4096 + (b3 - 128) * 64 + (b4 - 128))
                  :: decode_chars r4
              end
          end
      end
  end.

Definition str_chars (s : string) : list Z := decode_chars (as_bytes s).

(** [std::str::from_utf8]: the well-formed sequences, without overlong forms and
    surrogates. *)
Fixpoint valid_utf8 (bytes : list Z) : bool :=
  match bytes with
  | [] => true
  | b :: r =>
      if b <? 128 then valid_utf8 r
      else if (194 <=? b) && (b <=? 223) then
        match r with c :: r => is_continuation c && valid_utf8 r | _ => false end
      else if (224 <=? b) && (b <=? 239) then
        match r with
        | c :: d :: r =>
            is_continuation c && (negb (b =? 224) || (160 <=? c))
            && (negb (b =? 237) || (c <=? 159)) && is_continuation d && valid_utf8 r
        | _ => false
        end
      else if (240 <=? b) && (b <=? 244) then
        match r with
        | c :: d :: e :: r =>
            is_continuation c && (negb (b =? 240) || (144 <=? c))
            && (negb (b =? 244) || (c <=? 143)) && is_continuation d && is_continuation e
            && valid_utf8 r
        | _ => false
        end
      else false
  end.

(** [char::is_control]: general category Cc. *)
Definition is_control (c : Z) : bool := (c <=? 31) || ((127 <=? c) && (c <=? 159)).

(** [char::is_whitespace]: the [White_Space] property. *)
Definition is_whitespace (c : Z) : bool :=
  ((9 <=? c) && (c <=? 13)) || (c =? 32) || (c =? 133) || (c =? 160) || (c =? 5760)
  || ((8192 <=? c) && (c <=? 8202)) || (c =? 8232) || (c =? 8233) || (c =? 8239) || (c =? 8287)
  || (c =? 12288).

(** [value.trim() != value]: the text starts or ends with white space. *)
Definition trim_changes (value : string) : bool :=
  match head (str_chars value), last (str_chars value) with
  | Some first, Some final => is_whitespace first || is_whitespace final
  | _, _ => false
  end.

(** ** Order on strings: lexicographic on bytes *)
Fixpoint bytes_compare (a b : list Z) : comparison :=
  match a, b with
  | [], [] => Eq
  | [], _ => Lt
  | _, [] => Gt
  | x :: a', y :: b' => match x ?= y with Eq => bytes_compare a' b' | c => c end
  end.

Definition str_compare (a b : string) : comparison := bytes_compare (as_bytes a) (as_bytes b).

(** Lexicographic order of a pair, as the derived [Ord] of a tuple. *)
Definition pair_compare (c1 c2 : comparison) : comparison :=
  match c1 with Eq => c2 | c => c end.

Definition is_lt (c : comparison) : bool := match c with Lt => true | _ => false end.
Definition is_le (c : comparison) : bool := match c with Gt => false | _ => true end.

(** ** Sorting *)

(** [slice::sort_by], a stable sort. *)
Fixpoint insert_by {A} (cmp : A → A → comparison) (x : A) (l : list A) : list A :=
  match l with
  | [] => [x]
  | y :: r => if is_le (cmp x y) then x :: l else y :: insert_by cmp x r
  end.

Definition sort_by {A} (cmp : A → A → comparison) (l : list A) : list A :=
  foldr (insert_by cmp) [] l.

(** ** Truncation *)

(** [str::is_char_boundary]. *)
Definition is_char_boundary (bytes : list Z) (index : nat) : bool :=
  match index with
  | O => true
  | _ => match bytes !! index with
         | None => Nat.eqb index (length bytes)
         | Some b => negb (is_continuation b)
         end
  end.

(** [while boundary > 0 && !input.is_char_boundary(boundary) { boundary -= 1 }]. *)
Fixpoint retreat_to_boundary (bytes : list Z) (boundary : nat) : nat :=
  match boundary with
  | O => O
  | S b => if is_char_boundary bytes boundary then boundary else retreat_to_boundary bytes b
  end.

(** [&s[..n]]. *)
Definition str_prefix (s : string) (n : nat) : string := String.substring 0 n s.

Definition truncate_utf8 (input : string) (max_bytes : nat) (suffix : string) : string :=
  if Nat.leb (String.length input) max_bytes then input
  else
    let suffix_len := Nat.min (String.length suffix) max_bytes in
    let boundary := retreat_to_boundary (as_bytes input) (max_bytes - suffix_len) in
    (str_prefix input boundary ++ str_prefix suffix suffix_len)%string.

(** ** Facts *)

Lemma retreat_to_boundary_spec bytes n :
  (retreat_to_boundary bytes n ≤ n)%nat
  ∧ is_char_boundary bytes (retreat_to_boundary bytes n) = true
  ∧ ∀ k, (retreat_to_boundary bytes n < k ≤ n)%nat → is_char_boundary bytes k = false.
Proof.
  induction n as [|n (IHle&IHb&IHmax)]; [repeat split; simpl; intros; lia|].
  cbn [retreat_to_boundary]. destruct (is_char_boundary bytes (S n)) eqn:E.
  - repeat split; [lia|done|intros; lia].
  - repeat split; [lia|done|]. intros k Hk.
    destruct (decide (k = S n)) as [->|]; [done|apply IHmax; lia].
Qed.

Lemma str_prefix_length s n :
  (n ≤ String.length s)%nat → String.length (str_prefix s n) = n.
Proof.
  unfold str_prefix. revert n. induction s as [|c s IH]; intros [|n]; simpl; try done; [lia|].
  intros. f_equal. apply IH. lia.
Qed.

Lemma str_prefix_bytes s n : as_bytes (str_prefix s n) = take n (as_bytes s).
Proof.
  unfold str_prefix, as_bytes. revert n. induction s as [|c s IH]; intros [|n]; simpl; try done.
  f_equal. apply IH.
Qed.

Lemma as_bytes_app a b : as_bytes (a ++ b)%string = as_bytes a ++ as_bytes b.
Proof. unfold as_bytes. induction a as [|c a IH]; simpl; [done|by f_equal]. Qed.

Lemma string_length_app a b :
  String.length (a ++ b)%string = (String.length a + String.length b)%nat.
Proof. induction a; simpl; [done|by f_equal]. Qed.

Lemma bytes_compare_refl a : bytes_compare a a = Eq.
Proof. induction a as [|x a IH]; simpl; [done|by rewrite Z.compare_refl]. Qed.

Lemma bytes_compare_eq a b : bytes_compare a b = Eq → a = b.
Proof.
  revert b. induction a as [|x a IH]; intros [|y b]; simpl; try done.
  destruct (Z.compare_spec x y); try done. intros. subst. f_equal. by apply IH.
Qed.

(** ** Facts on sorting *)

Section Sorting.
Context {A : Type} (cmp : A → A → comparison).

Definition cmp_le (x y : A) : Prop := is_le (cmp x y) = true.

Lemma insert_by_Permutation x l : insert_by cmp x l ≡ₚ x :: l.
Proof.
  induction l as [|y r IH]; simpl; [done|]. case_match; [done|].
  rewrite IH. apply Permutation_swap.
Qed.

Lemma sort_by_Permutation l : sort_by cmp l ≡ₚ l.
Proof. induction l; simpl; [done|]. by rewrite insert_by_Permutation, IHl. Qed.

Lemma sort_by_elem_of x l : x ∈ sort_by cmp l ↔ x ∈ l.
Proof. by rewrite sort_by_Permutation. Qed.

Context `{!Transitive cmp_le, Htotal : !Total cmp_le}.

Lemma insert_by_Sorted x l : Sorted cmp_le l → Sorted cmp_le (insert_by cmp x l).
Proof.
  induction 1 as [|y r Hr IH Hhd]; simpl; [by repeat constructor|].
  destruct (is_le (cmp x y)) eqn:E; [by repeat constructor|].
  assert (cmp_le y x) as Hyx by (destruct (Htotal x y) as [?|?]; unfold cmp_le in *; congruence).
  constructor; [done|]. destruct r as [|z r]; simpl; [by constructor|].
  case_match; constructor; [done|]. by inversion Hhd.
Qed.

Lemma sort_by_Sorted l : Sorted cmp_le (sort_by cmp l).
Proof. induction l; simpl; [constructor|]. by apply insert_by_Sorted. Qed.

Lemma sort_by_sorted_id l : Sorted cmp_le l → sort_by cmp l = l.
Proof.
  induction 1 as [|x r Hr IH Hhd]; simpl; [done|]. rewrite IH. destruct Hhd as [|y r Hle]; simpl; [done|].
  unfold cmp_le in Hle. by rewrite Hle.
Qed.

(** The first element of the sorted list is least. *)
Lemma sort_by_head l x y : head (sort_by cmp l) = Some x → y ∈ l → cmp_le x y.
Proof.
  intros Hhd Hy. apply sort_by_elem_of in Hy.
  pose proof (Sorted_StronglySorted _ _ (sort_by_Sorted l)) as Hs.
  destruct (sort_by cmp l) as [|z r]; simplify_eq/=.
  inversion Hs as [|? ? _ Hall]; subst. apply elem_of_cons in Hy as [->|Hy].
  - by destruct (Htotal x x).
  - rewrite Forall_forall in Hall. auto.
Qed.
End Sorting.
