(* ===== verification/Ordered.v ===== *)
(** * Ordered maps keyed by strings and policy paths

    The [BTreeMap] and [BTreeSet] values the source keys by a string: association
    lists in the order of the keys ([Ord for str]), each key once, and the policy
    paths of [src/src/domain/manifest.rs], which name the files of a backup. *)

From Stdlib Require Import ZArith Lia Ascii String.
From stdpp Require Import base gmap strings option list_numbers sorting list.
From S2P Require Import Prelude Identifiers Text.

Local Open Scope Z_scope.

(** ** The order of strings is total *)

Lemma bytes_compare_antisym a b : bytes_compare b a = CompOpp (bytes_compare a b).
Proof.
  revert b. induction a as [|x a IH]; intros [|y b]; simpl; try done.
  rewrite (Z.compare_antisym x y). destruct (x ?= y); simpl; [apply IH|done|done].
Qed.

Lemma bytes_compare_lt_trans a b c :
  bytes_compare a b = Lt → bytes_compare b c = Lt → bytes_compare a c = Lt.
Proof.
  revert b c. induction a as [|x a IH]; intros [|y b] [|z c]; simpl; try done.
  destruct (Z.compare_spec x y), (Z.compare_spec y z); try done; intros; subst.
  - rewrite Z.compare_refl. by eapply IH.
  - by rewrite (proj2 (Z.compare_lt_iff _ _)) by lia.
  - by rewrite (proj2 (Z.compare_lt_iff _ _)) by lia.
  - by rewrite (proj2 (Z.compare_lt_iff _ _)) by lia.
Qed.

Lemma byte_of_ascii_inj a b : byte_of_ascii a = byte_of_ascii b → a = b.
Proof.
  unfold byte_of_ascii. intros Heq. rewrite <- (ascii_N_embedding a), <- (ascii_N_embedding b).
  f_equal. lia.
Qed.

Lemma as_bytes_inj s t : as_bytes s = as_bytes t → s = t.
Proof.
  unfold as_bytes. revert t. induction s as [|a s IH]; intros [|b t]; simpl; try done.
  intros Heq. injection Heq as Ha Hs. f_equal; [by apply byte_of_ascii_inj|by apply IH].
Qed.

Lemma str_compare_refl s : str_compare s s = Eq.
Proof. apply bytes_compare_refl. Qed.

Lemma str_compare_Eq s t : str_compare s t = Eq ↔ s = t.
Proof.
  split; [|intros ->; apply str_compare_refl].
  intros Heq. by apply as_bytes_inj, bytes_compare_eq.
Qed.

Lemma str_compare_antisym s t : str_compare t s = CompOpp (str_compare s t).
Proof. apply bytes_compare_antisym. Qed.

Lemma str_compare_lt_trans s t u :
  str_compare s t = Lt → str_compare t u = Lt → str_compare s u = Lt.
Proof. apply bytes_compare_lt_trans. Qed.

Lemma str_compare_gt s t : str_compare s t = Gt ↔ str_compare t s = Lt.
Proof. rewrite (str_compare_antisym s t). by destruct (str_compare s t). Qed.

(** ** Maps *)

Section BTree.
Context {V : Type}.

Abbreviation BTree := (list (string * V)).

Fixpoint btree_insert (k : string) (v : V) (m : BTree) : BTree :=
  match m with
  | [] => [(k, v)]
  | (k', v') :: r =>
      match str_compare k k' with
      | Lt => (k, v) :: m
      | Eq => (k, v) :: r
      | Gt => (k', v') :: btree_insert k v r
      end
  end.

(** [BTreeMap::get]. *)
Fixpoint btree_get (k : string) (m : BTree) : option V :=
  match m with
  | [] => None
  | (k', v) :: r => if k == k' then Some v else btree_get k r
  end.

Definition btree_contains_key (k : string) (m : BTree) : bool := is_some (btree_get k m).

(** [collect::<BTreeMap<_, _>>()]: a later binding of a key replaces an earlier one. *)
Definition btree_collect (l : list (string * V)) : BTree :=
  foldl (λ m kv, btree_insert kv.1 kv.2 m) [] l.

(** Keys strictly increasing. *)
Fixpoint btree_wf (m : BTree) : Prop :=
  match m with
  | [] => True
  | (k, _) :: r => Forall (λ kv, str_compare k kv.1 = Lt) r ∧ btree_wf r
  end.

Lemma btree_get_lt k m : Forall (λ kv, str_compare k kv.1 = Lt) m → btree_get k m = None.
Proof.
  induction 1 as [|[k' v] r Hlt _ IH]; simpl in *; [done|].
  rewrite bool_decide_eq_false_2; [done|]. intros ->. by rewrite str_compare_refl in Hlt.
Qed.

Lemma btree_insert_Forall (P : string * V → Prop) k v m :
  P (k, v) → Forall P m → Forall P (btree_insert k v m).
Proof.
  induction 2 as [|[k' v'] r Hx Hr IH]; simpl; [by repeat constructor|].
  destruct (str_compare k k'); by repeat constructor.
Qed.

Lemma btree_insert_wf k v m : btree_wf m → btree_wf (btree_insert k v m).
Proof.
  induction m as [|[k' v'] r IH]; simpl; [done|]. intros [Hlt Hwf].
  destruct (str_compare k k') eqn:E; simpl.
  - apply str_compare_Eq in E as ->. done.
  - split; [|done]. constructor; [done|]. eapply Forall_impl; [exact Hlt|].
    intros kv ?. by eapply str_compare_lt_trans.
  - split; [|by apply IH]. apply btree_insert_Forall; [|done]. by apply str_compare_gt.
Qed.

Lemma btree_get_insert k v m : btree_get k (btree_insert k v m) = Some v.
Proof.
  induction m as [|[k' v'] r IH]; simpl; [by rewrite bool_decide_eq_true_2|].
  destruct (str_compare k k') eqn:E; simpl; try by rewrite bool_decide_eq_true_2.
  rewrite bool_decide_eq_false_2; [done|]. intros ->. by rewrite str_compare_refl in E.
Qed.

Lemma btree_get_insert_ne k j v m : j ≠ k → btree_get j (btree_insert k v m) = btree_get j m.
Proof.
  intros Hne. induction m as [|[k' v'] r IH]; simpl; [by rewrite bool_decide_eq_false_2|].
  destruct (str_compare k k') eqn:E; simpl.
  - apply str_compare_Eq in E as ->. by rewrite !bool_decide_eq_false_2.
  - by rewrite (bool_decide_eq_false_2 (j = k)).
  - by rewrite IH.
Qed.

Lemma btree_collect_snoc l kv :
  btree_collect (l ++ [kv]) = btree_insert kv.1 kv.2 (btree_collect l).
Proof. unfold btree_collect. by rewrite foldl_snoc. Qed.

Lemma btree_collect_wf l : btree_wf (btree_collect l).
Proof.
  induction l as [|kv l IH] using rev_ind; [done|].
  rewrite btree_collect_snoc. by apply btree_insert_wf.
Qed.

(** A key is bound exactly when some pair of the list has it. *)
Lemma btree_collect_bound l k : is_Some (btree_get k (btree_collect l)) ↔ k ∈ l.*1.
Proof.
  induction l as [|[k' v] l IH] using rev_ind; simpl.
  - split; [by intros [? ?] | by intros ?%not_elem_of_nil].
  - rewrite btree_collect_snoc, fmap_app, elem_of_app. simpl. rewrite list_elem_of_singleton.
    destruct (decide (k = k')) as [->|Hne].
    + rewrite btree_get_insert. split; [by right|eauto].
    + rewrite btree_get_insert_ne by done. rewrite IH. naive_solver.
Qed.

(** With distinct keys the map holds the pairs of the list. *)
Lemma btree_collect_get l k v :
  NoDup l.*1 → (k, v) ∈ l → btree_get k (btree_collect l) = Some v.
Proof.
  induction l as [|[k' v'] l IH] using rev_ind; intros Hnd Hin; [by apply not_elem_of_nil in Hin|].
  rewrite fmap_app, NoDup_app in Hnd. destruct Hnd as (Hnd & Hdisj & _).
  rewrite btree_collect_snoc. simpl.
  apply elem_of_app in Hin as [Hin|Hin%list_elem_of_singleton].
  - rewrite btree_get_insert_ne; [by apply IH|].
    intros ->. apply (Hdisj k'); [|by left]. by apply (list_elem_of_fmap_2 fst l (k', v)).
  - simplify_eq. apply btree_get_insert.
Qed.

Lemma btree_get_elem_of k v m : btree_get k m = Some v → (k, v) ∈ m.
Proof.
  induction m as [|[k' v'] r IH]; simpl; [done|]. case_bool_decide.
  - intros [= ->]. subst. by left.
  - intros ?%IH. by right.
Qed.

Lemma btree_elem_of_get k v m : btree_wf m → (k, v) ∈ m → btree_get k m = Some v.
Proof.
  induction m as [|[k' v'] r IH]; simpl; [by intros _ ?%not_elem_of_nil|].
  intros [Hlt Hwf] [?|Hin]%elem_of_cons; simplify_eq; [by rewrite bool_decide_eq_true_2|].
  rewrite bool_decide_eq_false_2; [by apply IH|]. intros ->.
  rewrite Forall_forall in Hlt. specialize (Hlt _ Hin). simpl in Hlt.
  by rewrite str_compare_refl in Hlt.
Qed.
(** A new key adds its binding and keeps the others. *)
Lemma btree_insert_Permutation k v m :
  btree_get k m = None → btree_insert k v m ≡ₚ (k, v) :: m.
Proof.
  induction m as [|[k' v'] r IH]; simpl; [done|]. case_bool_decide as Heq; [done|]. intros Hget.
  destruct (str_compare k k') eqn:E; [by apply str_compare_Eq in E|done|].
  rewrite IH by done. apply Permutation_swap.
Qed.

Lemma btree_collect_Permutation l : NoDup l.*1 → btree_collect l ≡ₚ l.
Proof.
  induction l as [|[k v] l IH] using rev_ind; [done|].
  rewrite fmap_app, NoDup_app. intros (Hnd & Hdisj & _).
  rewrite btree_collect_snoc. simpl. rewrite btree_insert_Permutation.
  - rewrite IH by done. apply Permutation_cons_append.
  - apply eq_None_not_Some. rewrite btree_collect_bound. intros Hin. apply (Hdisj k Hin). by left.
Qed.
End BTree.

(** ** Lists ordered by a string key *)

Section Keyed.
Context {A : Type} (key : A → string).

Definition key_compare (l r : A) : comparison := str_compare (key l) (key r).

#[global] Instance key_compare_trans : Transitive (cmp_le key_compare).
Proof.
  intros x y z. unfold cmp_le, key_compare, is_le.
  destruct (str_compare (key x) (key y)) eqn:E1, (str_compare (key y) (key z)) eqn:E2; try done;
    intros _ _; rewrite ?str_compare_Eq in *.
  - rewrite E1, E2. by rewrite str_compare_refl.
  - rewrite E1. by rewrite E2.
  - rewrite <- E2. by rewrite E1.
  - by rewrite (str_compare_lt_trans _ _ _ E1 E2).
Qed.

#[global] Instance key_compare_total : Total (cmp_le key_compare).
Proof.
  intros x y. unfold cmp_le, key_compare. rewrite (str_compare_antisym (key x) (key y)).
  destruct (str_compare (key x) (key y)); simpl; auto.
Qed.

Lemma increasing_NoDup l :
  Sorted (λ x y, str_compare (key x) (key y) = Lt) l → NoDup (key <$> l).
Proof.
  intros Hlt. apply Sorted_StronglySorted in Hlt; [|intros x y z; apply str_compare_lt_trans].
  induction Hlt as [|x r _ IH Hall]; [constructor|]. simpl. constructor; [|done].
  intros (y & Hy & Hin)%list_elem_of_fmap. rewrite Forall_forall in Hall.
  specialize (Hall _ Hin). rewrite Hy, str_compare_refl in Hall. done.
Qed.

Lemma sorted_distinct_NoDup l :
  Sorted (cmp_le key_compare) l →
  existsb (λ pair, key pair.1 == key pair.2) (windows2 l) = false →
  NoDup (key <$> l).
Proof.
  intros Hs Hd.
  apply increasing_NoDup.
  induction Hs as [|x r Hr IH Hhd]; [constructor|]. destruct r as [|y r]; [by repeat constructor|].
  cbn [windows2 existsb fst snd] in Hd. apply orb_false_iff in Hd as [Hne Hd]. bool_prop.
  constructor; [by apply IH|]. constructor. inversion Hhd as [|? ? Hle]; subst.
  unfold cmp_le, key_compare, is_le in Hle. rewrite <- str_compare_Eq in Hne.
  by destruct (str_compare (key x) (key y)).
Qed.

(** Distinct keys fix the sorted list: the order of the input does not matter. *)
Lemma sort_by_key_unique l1 l2 :
  NoDup (key <$> l1) → l1 ≡ₚ l2 → sort_by key_compare l1 = sort_by key_compare l2.
Proof.
  intros Hnd Hperm. eapply (Sorted_unique_strong (cmp_le key_compare)).
  - intros x y Hx Hy Hxy Hyx. rewrite sort_by_elem_of in Hx, Hy. rewrite <- Hperm in Hy.
    assert (key x = key y) as Hkey.
    { apply str_compare_Eq. unfold cmp_le, key_compare, is_le in *.
      rewrite (str_compare_antisym (key x) (key y)) in Hyx. by destruct (str_compare (key x) (key y)). }
    apply list_elem_of_lookup in Hx as (i & Hi). apply list_elem_of_lookup in Hy as (j & Hj).
    assert (i = j) as ->; [|congruence].
    eapply NoDup_lookup; [done|rewrite list_lookup_fmap, Hi; done|].
    rewrite list_lookup_fmap, Hj. simpl. congruence.
  - apply sort_by_Sorted; apply _.
  - apply sort_by_Sorted; apply _.
  - by rewrite !sort_by_Permutation.
Qed.

Lemma strictly_sorted_NoDup l :
  forallb (λ pair, is_lt (key_compare pair.1 pair.2)) (windows2 l) = true → NoDup (key <$> l).
Proof.
  intros Hs.
  apply increasing_NoDup.
  induction l as [|x [|y r] IH]; [constructor|by repeat constructor|].
  cbn [windows2 forallb fst snd] in Hs. apply andb_true_iff in Hs as [Hxy Hs].
  constructor; [by apply IH|]. constructor. unfold key_compare in Hxy.
  by destruct (str_compare (key x) (key y)).
Qed.
End Keyed.

(** ** Policy paths

    [Path::components] of the standard library on a Unix path and the parser of
    [AbsolutePolicyPath] and [RelativePolicyPath]. *)

Inductive RelativePolicyPath : Type := MkRelativePolicyPath (s : string).
Inductive AbsolutePolicyPath : Type := MkAbsolutePolicyPath (s : string).

#[global] Instance RelativePolicyPath_eq_dec : EqDecision RelativePolicyPath.
Proof. solve_decision. Defined.
#[global] Instance AbsolutePolicyPath_eq_dec : EqDecision AbsolutePolicyPath.
Proof. solve_decision. Defined.

Definition RelativePolicyPath_as_str (p : RelativePolicyPath) : string :=
  match p with MkRelativePolicyPath s => s end.
Definition AbsolutePolicyPath_as_str (p : AbsolutePolicyPath) : string :=
  match p with MkAbsolutePolicyPath s => s end.

Definition slash : ascii := "/"%char.

(** The pieces between separators: [str::split('/')]. *)
Fixpoint str_split (sep : ascii) (s : string) : list string :=
  match s with
  | EmptyString => [""%string]
  | String c r =>
      if c == sep then ""%string :: str_split sep r
      else match str_split sep r with
           | piece :: rest => String c piece :: rest
           | [] => [String c ""]
           end
  end.

(** [slice::join]. *)
Definition str_join (sep : string) (l : list string) : string := String.concat sep l.

Inductive Component : Type :=
| RootDir
| CurDir
| ParentDir
| Normal (name : string).

#[global] Instance Component_eq_dec : EqDecision Component.
Proof. solve_decision. Defined.

Definition path_is_absolute (value : string) : bool :=
  match value with String c _ => c == slash | EmptyString => false end.

Definition component_of (piece : string) : option Component :=
  if (piece == ""%string) || (piece == "."%string) then None
  else if piece == ".."%string then Some ParentDir
  else Some (Normal piece).

(** Empty pieces and [.] are skipped, except a leading [.] of a relative path. *)
Definition path_components (value : string) : list Component :=
  let pieces := str_split slash value in
  (if path_is_absolute value then [RootDir]
   else match pieces with "."%string :: _ => [CurDir] | _ => [] end)
  ++ omap component_of pieces.

Definition component_text (c : Component) : string :=
  match c with RootDir => "" | CurDir => "." | ParentDir => ".." | Normal name => name end.

(** [collect::<PathBuf>()]: pushing [RootDir] yields ["/"], every other component
    is separated from a non-empty path that does not end in a slash. *)
Definition path_collect (components : list Component) : string :=
  match components with
  | RootDir :: rest => ("/" ++ str_join "/" (component_text <$> rest))%string
  | _ => str_join "/" (component_text <$> components)
  end.

Definition policy_component (c : Component) : bool :=
  match c with RootDir | Normal _ => true | CurDir | ParentDir => false end.

Definition contains_nul (value : string) : bool := existsb (λ b, b =? 0) (as_bytes value).

(** The body of [from_str] of the [policy_path!] types. *)
Definition policy_path_valid (absolute : bool) (value : string) : bool :=
  let absolute_ok := path_is_absolute value == absolute in
  let components_ok :=
    (value != ""%string) && (str_len value <=? 512) && negb (contains_nul value)
    && (path_collect (path_components value) == value)
    && forallb policy_component (path_components value) in
  absolute_ok && components_ok.

Definition RelativePolicyPath_from_str (value : string) : option RelativePolicyPath :=
  if policy_path_valid false value then Some (MkRelativePolicyPath value) else None.

Definition AbsolutePolicyPath_from_str (value : string) : option AbsolutePolicyPath :=
  if policy_path_valid true value then Some (MkAbsolutePolicyPath value) else None.

(** ** A policy path stays below its root

    The names a path consists of: no empty name, no [.], no [..], no separator. *)
Definition plain_name (name : string) : Prop :=
  name ≠ ""%string ∧ name ≠ "."%string ∧ name ≠ ".."%string
  ∧ slash ∉ String.list_ascii_of_string name.

Definition path_names (components : list Component) : list string :=
  omap (λ c, match c with Normal name => Some name | _ => None end) components.

Lemma str_split_no_sep sep s piece :
  piece ∈ str_split sep s → sep ∉ String.list_ascii_of_string piece.
Proof.
  revert piece. induction s as [|c r IH]; simpl; intros piece.
  - intros ->%list_elem_of_singleton. by intros ?%not_elem_of_nil.
  - case_bool_decide; [intros [->|?]%elem_of_cons; [by intros ?%not_elem_of_nil|auto]|].
    destruct (str_split sep r) as [|p rest] eqn:E; intros [->|Hin]%elem_of_cons; simpl;
      try (by apply not_elem_of_nil in Hin).
    + intros [->|?%not_elem_of_nil]%elem_of_cons; done.
    + intros [->|Hp]%elem_of_cons; [done|]. apply (IH p); [by left|done].
    + apply IH. by right.
Qed.

Lemma component_of_Normal piece name :
  component_of piece = Some (Normal name) →
  name = piece ∧ piece ≠ ""%string ∧ piece ≠ "."%string ∧ piece ≠ ".."%string.
Proof. unfold component_of. repeat case_bool_decide; intros; by simplify_eq/=. Qed.

Lemma path_components_plain value name :
  Normal name ∈ path_components value → plain_name name.
Proof.
  unfold path_components. intros [Hin|Hin]%elem_of_app.
  - repeat case_match; set_solver.
  - apply list_elem_of_omap in Hin as (piece & Hpiece & Hc).
    apply component_of_Normal in Hc as (-> & ? & ? & ?). repeat split; try done.
    by eapply str_split_no_sep.
Qed.

Lemma policy_components value :
  forallb policy_component (path_components value) = true →
  path_components value
  = (if path_is_absolute value then [RootDir] else [])
    ++ (Normal <$> path_names (path_components value)).
Proof.
  unfold path_components. rewrite forallb_app, andb_true_iff. intros [Hpre Hrest].
  assert (omap component_of (str_split slash value)
          = Normal <$> path_names (omap component_of (str_split slash value))) as Heq.
  { clear Hpre. induction (str_split slash value) as [|p r IH]; [done|]. simpl in *.
    destruct (component_of p) as [c|] eqn:Hp; [|by apply IH]. simpl in Hrest.
    apply andb_true_iff in Hrest as [Hc Hrest].
    destruct c; try done; simpl; [|by f_equal; apply IH].
    unfold component_of in Hp. by repeat case_bool_decide. }
  destruct (path_is_absolute value); simpl; [by f_equal|].
  assert (match str_split slash value with "."%string :: _ => [CurDir] | _ => [] end = []) as Hnil.
  { by repeat case_match. }
  rewrite Hnil. done.
Qed.

(** A relative policy path is its names joined by separators, and every name is
    plain: it has no [..] to climb with, no empty or [.] piece and is not absolute. *)
Lemma relative_policy_path_names value p :
  RelativePolicyPath_from_str value = Some p →
  p = MkRelativePolicyPath value
  ∧ ∃ names, names ≠ [] ∧ Forall plain_name names ∧ value = str_join "/" names.
Proof.
  unfold RelativePolicyPath_from_str, policy_path_valid. case_match eqn:E; [|done].
  intros [= <-]. split; [done|]. bool_prop. destruct E as (Habs & ((((Hne & _) & _) & Hcol) & Hall)).
  pose proof (policy_components _ Hall) as Hc. rewrite Habs in Hc. simpl in Hc.
  exists (path_names (path_components value)).
  assert (value = str_join "/" (path_names (path_components value))) as Hjoin.
  { rewrite <- Hcol at 1. rewrite Hc at 1.
    assert (∀ names, path_collect (Normal <$> names) = str_join "/" names) as ->; [|done].
    intros names. unfold path_collect. rewrite <- list_fmap_compose.
    rewrite (list_fmap_ext _ id), list_fmap_id by done. by destruct names. }
  split; [|split; [|done]].
  - intros Hnil. rewrite Hnil in Hjoin. done.
  - apply Forall_forall. intros name Hin. apply (path_components_plain value). rewrite Hc.
    by apply list_elem_of_fmap_2.
Qed.
