(* ===== verification/Frame.v ===== *)
(** * Length-prefixed frames

    Model of [src/src/protocol/frame.rs]: a frame is a 4-byte big-endian length
    and a JSON payload of at most [max_bytes] bytes.  [serde_json] at the message
    type is a parameter; a reader is the bytes it will still deliver. *)

From Stdlib Require Import ZArith Lia String.
From stdpp Require Import base gmap strings option list_numbers list.
From S2P Require Import Prelude Identifiers Text.

Local Open Scope Z_scope.

Definition NORMAL_FRAME_MAX_BYTES : Z := 64 * 1024.
Definition OBSERVATION_FRAME_MAX_BYTES : Z := 512 * 1024.

(** [usize] of the supported targets. *)
Definition usize_try_from (z : Z) : option Z := checked_range 0 u64_max z.
Definition usize_checked_add (a b : Z) : option Z := checked_range 0 u64_max (a + b).
Definition usize_saturating_add (a b : Z) : Z := u64_saturating_add a b.

Inductive FrameError : Type :=
| IncompleteHeader
| IncompletePayload (declared available : Z)
| LengthOverflow
| TrailingBytes (count : Z)
| Oversized (received maximum : Z)
| Frame_Utf8
| Frame_Json (e : SerdeError)
| Frame_Io.

(** [serde_json::to_vec] and [serde_json::from_str] at the message type. *)
Class JsonMessage (T : Type) := {
  json_to_vec : T → Result SerdeError (list Z);
  json_parse : list Z → Result SerdeError T
}.

(** [u32::to_be_bytes] and [u32::from_be_bytes]. *)
Definition u32_to_be_bytes (n : Z) : list Z :=
  [Z.land (Z.shiftr n 24) 255; Z.land (Z.shiftr n 16) 255; Z.land (Z.shiftr n 8) 255;
   Z.land n 255].

Definition u32_from_be_bytes (b0 b1 b2 b3 : Z) : Z :=
  Z.lor (Z.lor (Z.shiftl b0 24) (Z.shiftl b1 16)) (Z.lor (Z.shiftl b2 8) b3).

(** [std::str::from_utf8]: the well-formed sequences of the Unicode standard. *)
Definition in_range (lo hi b : Z) : bool := (lo <=? b) && (b <=? hi).
Definition continuation (b : Z) : bool := in_range 128 191 b.

Fixpoint valid_utf8 (bytes : list Z) : bool :=
  match bytes with
  | [] => true
  | b0 :: r0 =>
      if in_range 0 127 b0 then valid_utf8 r0
      else if in_range 194 223 b0 then
        match r0 with b1 :: r1 => continuation b1 && valid_utf8 r1 | _ => false end
      else if in_range 224 239 b0 then
        match r0 with
        | b1 :: b2 :: r2 =>
            (if b0 =? 224 then in_range 160 191 b1
             else if b0 =? 237 then in_range 128 159 b1
             else continuation b1)
            && continuation b2 && valid_utf8 r2
        | _ => false
        end
      else if in_range 240 244 b0 then
        match r0 with
        | b1 :: b2 :: b3 :: r3 =>
            (if b0 =? 240 then in_range 144 191 b1
             else if b0 =? 244 then in_range 128 143 b1
             else continuation b1)
            && continuation b2 && continuation b3 && valid_utf8 r3
        | _ => false
        end
      else false
  end.

Definition byte_len (bytes : list Z) : Z := Z.of_nat (length bytes).

Section Frames.
Context {T : Type} `{!JsonMessage T}.

Definition encode_frame (value : T) (max_bytes : Z) : Result FrameError (list Z) :=
  let? payload := map_err Frame_Json (json_to_vec value) in
  if max_bytes <? byte_len payload then Err (Oversized (byte_len payload) max_bytes)
  else
    let? payload_length :=
      ok_or (Oversized (byte_len payload) max_bytes) (u32_try_from (byte_len payload)) in
    Ok (u32_to_be_bytes payload_length ++ payload).

Definition decode_single_frame (frame : list Z) (max_bytes : Z) : Result FrameError T :=
  match frame with
  | b0 :: b1 :: b2 :: b3 :: payload =>
      let? declared := ok_or (Oversized (u64_saturating_sub (byte_len frame) 4) max_bytes)
                         (usize_try_from (u32_from_be_bytes b0 b1 b2 b3)) in
      if max_bytes <? declared then Err (Oversized declared max_bytes)
      else
        let? expected := ok_or LengthOverflow (usize_checked_add declared 4) in
        if byte_len frame <? expected
        then Err (IncompletePayload declared (u64_saturating_sub (byte_len frame) 4))
        else if expected <? byte_len frame then Err (TrailingBytes (byte_len frame - expected))
        else if negb (valid_utf8 payload) then Err Frame_Utf8
        else map_err Frame_Json (json_parse payload)
  | _ => Err IncompleteHeader
  end.

(** [AsyncReadExt::read_exact]: all the bytes or an I/O error. *)
Definition read_exact (count : nat) (reader : list Z) : Result FrameError (list Z * list Z) :=
  if Nat.leb count (length reader) then Ok (take count reader, drop count reader)
  else Err Frame_Io.

Definition read_frame (reader : list Z) (max_bytes : Z) : Result FrameError (T * list Z) :=
  let? ' (header, reader) := read_exact 4 reader in
  match header with
  | [b0; b1; b2; b3] =>
      let? declared := ok_or (Oversized u64_max max_bytes)
                         (usize_try_from (u32_from_be_bytes b0 b1 b2 b3)) in
      if max_bytes <? declared then Err (Oversized declared max_bytes)
      else
        let size := usize_saturating_add declared 4 in
        let? ' (body, reader) := read_exact (Z.to_nat (size - 4)) reader in
        let? value := decode_single_frame (header ++ body) max_bytes in
        Ok (value, reader)
  | _ => Err Frame_Io
  end.

(** [write_frame]: what it appends to the writer. *)
Definition write_frame (writer : list Z) (value : T) (max_bytes : Z)
    : Result FrameError (list Z) :=
  let? frame := encode_frame value max_bytes in
  Ok (writer ++ frame).
End Frames.

(** What the protocol relies on: [serde_json] writes UTF-8 and reads back what
    it wrote. *)
Class JsonMessageSpec (T : Type) `{!JsonMessage T} : Prop := {
  json_octets (v : T) b : json_to_vec v = Ok b → Forall (λ x, 0 ≤ x < 256) b;
  json_utf8 (v : T) b : json_to_vec v = Ok b → valid_utf8 b = true;
  json_inverse (v : T) b : json_to_vec v = Ok b → json_parse b = Ok v
}.

(** ** Big-endian lengths *)

Lemma land_255 n : Z.land n 255 = n mod 256.
Proof. change 255 with (Z.ones 8). by rewrite Z.land_ones by lia. Qed.

(** A value below [2 ^ k] has no bit in common with a multiple of [2 ^ k]. *)
Lemma land_disjoint a b k : 0 ≤ k → 0 ≤ b < 2 ^ k → Z.land (a * 2 ^ k) b = 0.
Proof.
  intros Hk Hb. apply Z.bits_inj'. intros n Hn.
  rewrite Z.land_spec, Z.bits_0. destruct (Z.ltb_spec n k).
  - by rewrite Z.mul_pow2_bits_low by done.
  - rewrite andb_comm. replace (Z.testbit b n) with false; [done|]. symmetry.
    destruct (decide (b = 0)) as [->|]; [apply Z.bits_0|].
    apply Z.bits_above_log2; [lia|]. apply Z.log2_lt_pow2; [lia|].
    eapply Z.lt_le_trans; [apply Hb|]. apply Z.pow_le_mono_r; lia.
Qed.

Lemma lor_shiftl a b k :
  0 ≤ k → 0 ≤ b < 2 ^ k → Z.lor (Z.shiftl a k) b = a * 2 ^ k + b.
Proof.
  intros Hk Hb. pose proof (land_disjoint a b k Hk Hb) as Hd.
  rewrite Z.shiftl_mul_pow2 by done. rewrite <- Z.lxor_lor by done.
  symmetry. by apply Z.add_nocarry_lxor.
Qed.

Lemma u32_from_be_bytes_val b0 b1 b2 b3 :
  0 ≤ b0 < 256 → 0 ≤ b1 < 256 → 0 ≤ b2 < 256 → 0 ≤ b3 < 256 →
  u32_from_be_bytes b0 b1 b2 b3 = b0 * 16777216 + b1 * 65536 + b2 * 256 + b3.
Proof.
  intros. unfold u32_from_be_bytes. rewrite <- Z.lor_assoc.
  rewrite (lor_shiftl b2 b3) by lia. change (2 ^ 8) with 256.
  rewrite (lor_shiftl b1) by (change (2 ^ 16) with 65536; lia). change (2 ^ 16) with 65536.
  rewrite (lor_shiftl b0) by (change (2 ^ 24) with 16777216; lia).
  change (2 ^ 24) with 16777216. lia.
Qed.

Lemma u32_be_round_trip n :
  0 ≤ n ≤ u32_max →
  ∃ b0 b1 b2 b3, u32_to_be_bytes n = [b0; b1; b2; b3] ∧ u32_from_be_bytes b0 b1 b2 b3 = n.
Proof.
  intros Hn. unfold u32_max in Hn. do 4 eexists. split; [reflexivity|].
  rewrite !land_255, !Z.shiftr_div_pow2 by lia.
  rewrite u32_from_be_bytes_val by (apply Z.mod_pos_bound; lia).
  change (2 ^ 24) with 16777216. change (2 ^ 16) with 65536. change (2 ^ 8) with 256.
  assert (n / 65536 = n / 256 / 256) as -> by (rewrite Z.div_div by lia; done).
  assert (n / 16777216 = n / 256 / 256 / 256) as -> by (rewrite !Z.div_div by lia; done).
  pose proof (Z.div_mod n 256). pose proof (Z.div_mod (n / 256) 256).
  pose proof (Z.div_mod (n / 256 / 256) 256).
  assert (n / 256 / 256 / 256 < 256) by (rewrite !Z.div_div by lia; apply Z.div_lt_upper_bound; lia).
  assert (0 ≤ n / 256 / 256 / 256) by (rewrite !Z.div_div by lia; apply Z.div_pos; lia).
  rewrite (Z.mod_small (n / 256 / 256 / 256)) by lia. lia.
Qed.

(** ** Properties *)

Section FrameSpec.
Context {T : Type} `{!JsonMessage T, !JsonMessageSpec T}.

Lemma read_exact_app a b : read_exact (length a) (a ++ b) = Ok (a, b).
Proof.
  unfold read_exact. rewrite length_app, (proj2 (Nat.leb_le _ _)) by lia.
  by rewrite take_app_length, drop_app_length.
Qed.

Lemma read_exact_Ok n reader taken rest :
  read_exact n reader = Ok (taken, rest) → reader = taken ++ rest.
Proof. unfold read_exact. case_match; [|done]. intros [= <- <-]. by rewrite take_drop. Qed.

Lemma encode_frame_Ok (v : T) max f :
  encode_frame v max = Ok f →
  ∃ payload b0 b1 b2 b3, json_to_vec v = Ok payload ∧ f = b0 :: b1 :: b2 :: b3 :: payload
    ∧ u32_from_be_bytes b0 b1 b2 b3 = byte_len payload
    ∧ byte_len payload ≤ max ∧ byte_len payload ≤ u32_max.
Proof.
  unfold encode_frame. intros He. inv_ok. destruct (Z.ltb_spec max (byte_len x)); [done|].
  inv_ok. match goal with Hu : u32_try_from _ = Some _ |- _ =>
    apply checked_range_Some in Hu as [-> Hu] end.
  destruct (u32_be_round_trip (byte_len x)) as (b0&b1&b2&b3&Hb&Hv); [done|].
  exists x, b0, b1, b2, b3. unfold u32_to_be_bytes in *. injection Hb as <- <- <- <-.
  split_and!; try done; lia.
Qed.

(** The header of any frame is accepted or rejected by its declared length; the
    rest is measured against it. *)
Lemma decode_measured b0 b1 b2 b3 payload max n :
  u32_from_be_bytes b0 b1 b2 b3 = n → 0 ≤ n ≤ u32_max → n ≤ max →
  decode_single_frame (T := T) (b0 :: b1 :: b2 :: b3 :: payload) max =
    if byte_len payload <? n then Err (IncompletePayload n (byte_len payload))
    else if n <? byte_len payload then Err (TrailingBytes (byte_len payload - n))
    else if negb (valid_utf8 payload) then Err Frame_Utf8
    else map_err Frame_Json (json_parse payload).
Proof.
  intros Hb Hn Hmax. unfold decode_single_frame. rewrite Hb.
  assert (usize_try_from n = Some n ∧ usize_checked_add n 4 = Some (n + 4)) as [-> Hadd].
  { unfold u32_max in *.
    split; apply checked_range_Some; unfold u64_max; lia. }
  simpl. rewrite (proj2 (Z.ltb_ge max n)) by lia. rewrite Hadd. simpl.
  assert (byte_len (b0 :: b1 :: b2 :: b3 :: payload) = byte_len payload + 4) as ->
    by (unfold byte_len; simpl; lia).
  assert (0 ≤ byte_len payload) by (unfold byte_len; lia).
  replace (u64_saturating_sub (byte_len payload + 4) 4) with (byte_len payload)
    by (unfold u64_saturating_sub; lia).
  destruct (Z.ltb_spec (byte_len payload + 4) (n + 4)), (Z.ltb_spec (byte_len payload) n); try lia;
    [done|].
  destruct (Z.ltb_spec (n + 4) (byte_len payload + 4)), (Z.ltb_spec n (byte_len payload)); try lia.
  - do 2 f_equal. lia.
  - done.
Qed.

(** A frame round-trips: what [encode_frame] produced, [decode_single_frame]
    reads back under the same limit, and [read_frame] takes exactly that frame
    off a stream and leaves the rest of the stream in place. *)
Theorem frame_round_trip (v : T) max f rest :
  encode_frame v max = Ok f →
  decode_single_frame f max = Ok v ∧ read_frame (f ++ rest) max = Ok (v, rest).
Proof.
  intros (payload&b0&b1&b2&b3&Hj&->&Hb&Hmax&Hu)%encode_frame_Ok.
  assert (0 ≤ byte_len payload) by (unfold byte_len; lia).
  assert (decode_single_frame (b0 :: b1 :: b2 :: b3 :: payload) max = Ok v) as Hd.
  { rewrite (decode_measured _ _ _ _ _ _ (byte_len payload)) by (done || lia).
    rewrite Z.ltb_irrefl, (json_utf8 _ _ Hj). simpl. by rewrite (json_inverse _ _ Hj). }
  split; [done|]. unfold read_frame.
  change ((b0 :: b1 :: b2 :: b3 :: payload) ++ rest) with ([b0; b1; b2; b3] ++ (payload ++ rest)).
  rewrite (read_exact_app [b0; b1; b2; b3]). cbn [mbind result_bind]. rewrite Hb.
  assert (usize_try_from (byte_len payload) = Some (byte_len payload)) as ->.
  { apply checked_range_Some. unfold u64_max, u32_max in *. lia. }
  cbn [mbind result_bind ok_or]. rewrite (proj2 (Z.ltb_ge max _)) by lia.
  replace (Z.to_nat (usize_saturating_add (byte_len payload) 4 - 4)) with (length payload)
    by (unfold usize_saturating_add, u64_saturating_add, u64_max, u32_max, byte_len in *; lia).
  rewrite read_exact_app. cbn [mbind result_bind].
  change ([b0; b1; b2; b3] ++ payload) with (b0 :: b1 :: b2 :: b3 :: payload). by rewrite Hd.
Qed.

(** Framing is unambiguous: a frame followed by more bytes is refused with the
    number of trailing bytes, and every proper prefix of a frame is refused as
    incomplete; neither is ever decoded to a message. *)
Theorem frame_boundaries_are_exact (v : T) max f extra n :
  encode_frame v max = Ok f → extra ≠ [] → (n < length f)%nat →
  decode_single_frame (T := T) (f ++ extra) max = Err (TrailingBytes (byte_len extra))
  ∧ decode_single_frame (T := T) (take n f) max =
      Err (if Nat.ltb n 4 then IncompleteHeader
           else IncompletePayload (byte_len f - 4) (Z.of_nat n - 4)).
Proof.
  intros (payload&b0&b1&b2&b3&Hj&->&Hb&Hmax&Hu)%encode_frame_Ok Hextra Hn.
  assert (0 ≤ byte_len payload) by (unfold byte_len; lia).
  assert (0 < byte_len extra) by (unfold byte_len; destruct extra; [done|simpl; lia]). split.
  - change ((b0 :: b1 :: b2 :: b3 :: payload) ++ extra)
      with (b0 :: b1 :: b2 :: b3 :: (payload ++ extra)).
    rewrite (decode_measured _ _ _ _ _ _ (byte_len payload)) by (done || lia).
    assert (byte_len (payload ++ extra) = byte_len payload + byte_len extra) as ->
      by (unfold byte_len; rewrite length_app; lia).
    rewrite (proj2 (Z.ltb_ge _ _)) by lia. rewrite (proj2 (Z.ltb_lt _ _)) by lia.
    do 2 f_equal. lia.
  - do 4 (destruct n as [|n]; [done|]). simpl in Hn. cbn [take].
    rewrite (decode_measured _ _ _ _ _ _ (byte_len payload)) by (done || lia).
    assert (byte_len (take n payload) = Z.of_nat n) as ->
      by (unfold byte_len; rewrite length_take; lia).
    rewrite (proj2 (Z.ltb_lt _ _)) by (unfold byte_len; lia). simpl Nat.ltb. cbv iota.
    f_equal. unfold byte_len. f_equal; simpl; lia.
Qed.

(** The limit holds on both ends: an encoded frame and a decoded one carry at most
    [max_bytes] of payload, and a reader never takes more than that and the
    header off the stream. *)
Theorem frame_payload_is_bounded (v : T) max f :
  (encode_frame v max = Ok f → byte_len f ≤ max + 4)
  ∧ (decode_single_frame f max = Ok v → byte_len f ≤ max + 4)
  ∧ (∀ rest, read_frame f max = Ok (v, rest) →
       ∃ taken, f = taken ++ rest ∧ byte_len taken ≤ max + 4).
Proof.
  assert (∀ f, decode_single_frame f max = Ok v → byte_len f ≤ max + 4) as Hdec.
  { intros [|b0 [|b1 [|b2 [|b3 p]]]] Hd; try done. unfold decode_single_frame in Hd. inv_ok.
    match goal with Hu : usize_try_from _ = Some _ |- _ => apply checked_range_Some in Hu as [-> Hu] end.
    case_ok. match goal with Hu : usize_checked_add _ _ = Some _ |- _ =>
      apply checked_range_Some in Hu as [-> Hu] end.
    destruct (Z.ltb_spec (byte_len (b0 :: b1 :: b2 :: b3 :: p)) (u32_from_be_bytes b0 b1 b2 b3 + 4));
      [done|].
    destruct (Z.ltb_spec (u32_from_be_bytes b0 b1 b2 b3 + 4) (byte_len (b0 :: b1 :: b2 :: b3 :: p)));
      [done|]. bool_prop. lia. }
  split_and!; [|by apply Hdec|].
  - intros (payload&b0&b1&b2&b3&_&->&_&Hmax&_)%encode_frame_Ok. unfold byte_len in *. simpl. lia.
  - intros rest Hr. unfold read_frame in Hr.
    apply result_bind_Ok in Hr as ([header r1]&Hh&Hr).
    destruct header as [|b0 [|b1 [|b2 [|b3 [|]]]]]; try done.
    apply result_bind_Ok in Hr as (declared&_&Hr). destruct (max <? declared); [done|].
    apply result_bind_Ok in Hr as ([body r2]&Hb&Hr).
    apply result_bind_Ok in Hr as (value&Hd&[= -> ->]).
    apply Hdec in Hd. exists ([b0; b1; b2; b3] ++ body). split; [|done].
    rewrite <- app_assoc. by rewrite <- (read_exact_Ok _ _ _ _ Hb), <- (read_exact_Ok _ _ _ _ Hh).
Qed.
End FrameSpec.

(** ** A concrete message type: ASCII text sent as it is *)
Module FrameSample.

#[local] Instance ascii_message : JsonMessage (list Z) := {|
  json_to_vec v := if forallb (in_range 0 127) v then Ok v else Err MkSerdeError;
  json_parse := Ok
|}.

#[local] Instance ascii_message_spec : JsonMessageSpec (list Z).
Proof.
  assert (∀ v b : list Z, json_to_vec v = Ok b → b = v ∧ forallb (in_range 0 127) v = true) as Hv.
  { intros v b. unfold json_to_vec. simpl. destruct (forallb _ v); [|done]. by intros [= <-]. }
  split; intros v b [-> Ha]%Hv; [|clear Hv|done].
  - apply Forall_forall. intros x Hx. rewrite forallb_forall in Ha.
    apply list_elem_of_In, Ha in Hx. unfold in_range in Hx. bool_prop. lia.
  - induction v as [|x v IH]; [done|]. simpl in *. apply andb_true_iff in Ha as [-> Ha]. auto.
Qed.

Definition message : list Z := [123; 34; 97; 34; 125].
Definition frame : list Z := [0; 0; 0; 5] ++ message.

Lemma frame_round_trip_witness :
  decode_single_frame frame NORMAL_FRAME_MAX_BYTES = Ok message
  ∧ read_frame (frame ++ [7; 8]) NORMAL_FRAME_MAX_BYTES = Ok (message, [7; 8]).
Proof. apply frame_round_trip. reflexivity. Defined.

Lemma frame_boundaries_are_exact_witness :
  decode_single_frame (T := list Z) (frame ++ [7; 8]) NORMAL_FRAME_MAX_BYTES
    = Err (TrailingBytes 2)
  ∧ decode_single_frame (T := list Z) (take 6 frame) NORMAL_FRAME_MAX_BYTES
    = Err (IncompletePayload 5 2).
Proof.
  apply (frame_boundaries_are_exact message NORMAL_FRAME_MAX_BYTES frame [7; 8] 6);
    [reflexivity|done|simpl; lia].
Defined.

Lemma frame_payload_is_bounded_witness : byte_len frame ≤ NORMAL_FRAME_MAX_BYTES + 4.
Proof.
  apply (proj1 (proj2 (frame_payload_is_bounded message NORMAL_FRAME_MAX_BYTES frame))).
  reflexivity.
Defined.
End FrameSample.
