(* ===== verification/Budget.v ===== *)
(** * Disk budgets

    Model of [src/src/domain/budget.rs] and of the thresholds of
    [src/src/build_storage.rs]: what an operation needs on disk, the emergency
    reserve kept for the host, and the digest that binds an authorized
    reservation. *)

From Stdlib Require Import ZArith Lia String.
From stdpp Require Import base gmap strings option list_numbers list.
From S2P Require Import Prelude Identifiers.

Local Open Scope Z_scope.

Definition GIB : Z := 1024 * 1024 * 1024.
Definition BUILD_STORAGE_GC_TARGET_FREE_BYTES : Z := 30 * GIB.
Definition BUILD_STORAGE_MIN_FREE_BYTES : Z := 5 * GIB.
Definition DISK_OBSERVATION_MAX_AGE_MS : Z := 30000.

Definition recovery_reserve_bytes : Z := BUILD_STORAGE_MIN_FREE_BYTES.

Definition required_host_available_bytes (incoming_bytes : Z) : option Z :=
  u64_checked_add BUILD_STORAGE_MIN_FREE_BYTES incoming_bytes.

Definition should_collect (available_bytes : Z) : bool :=
  available_bytes <? BUILD_STORAGE_GC_TARGET_FREE_BYTES.

Record DiskAvailabilityObservation : Type := MkDiskAvailabilityObservation {
  do_filesystem_identity : EvidenceDigest;
  do_available_bytes : Z;
  do_observed_at_ms : Z
}.

Record DiskReservation : Type := MkDiskReservation {
  dk_filesystem_identity : EvidenceDigest;
  dk_filesystem_total_bytes : Z;
  dk_filesystem_available_bytes : Z;
  dk_observed_at_ms : Z;
  dk_backup_staging_bytes : Z;
  dk_build_peak_bytes : Z;
  dk_registry_peak_bytes : Z;
  dk_last_known_good_bytes : Z;
  dk_projected_hot_store_growth_bytes : Z
}.

Inductive DiskReservationError : Type :=
| InvalidFilesystemMeasurement
| CalculationOverflow
| InsufficientSpace (required available deficit : Z).

Definition DiskReservation_emergency_reserve_bytes (r : DiskReservation) : Z :=
  recovery_reserve_bytes.

(** [try_fold(0_u64, u64::checked_add)]. *)
Fixpoint try_sum (acc : Z) (l : list Z) : option Z :=
  match l with
  | [] => Some acc
  | x :: r => u64_checked_add acc x ≫= λ acc', try_sum acc' r
  end.

Definition operation_parts (r : DiskReservation) : list Z :=
  [dk_backup_staging_bytes r; dk_build_peak_bytes r; dk_registry_peak_bytes r;
   dk_last_known_good_bytes r; dk_projected_hot_store_growth_bytes r].

Definition DiskReservation_operation_bytes (r : DiskReservation) : option Z :=
  try_sum 0 (operation_parts r).

Definition DiskReservation_required_bytes (r : DiskReservation) : option Z :=
  bytes ← DiskReservation_operation_bytes r;
  u64_checked_add bytes (DiskReservation_emergency_reserve_bytes r).

Definition DiskReservation_evaluate (r : DiskReservation) : Result DiskReservationError unit :=
  if (dk_filesystem_total_bytes r =? 0)
     || (dk_filesystem_total_bytes r <? dk_filesystem_available_bytes r)
     || (dk_observed_at_ms r <? 0)
  then Err InvalidFilesystemMeasurement
  else
    let? required := ok_or CalculationOverflow (DiskReservation_required_bytes r) in
    if dk_filesystem_available_bytes r <? required
    then Err (InsufficientSpace required (dk_filesystem_available_bytes r)
                (required - dk_filesystem_available_bytes r))
    else Ok tt.

Record AuthorizedDiskReservation : Type := MkAuthorizedDiskReservation {
  ad_operation_digest : EvidenceDigest;
  ad_reservation_digest : EvidenceDigest;
  ad_required_bytes : Z;
  ad_available_bytes : Z;
  ad_emergency_reserve_bytes : Z;
  ad_filesystem_identity : EvidenceDigest;
  ad_observed_at_ms : Z
}.

(** The tuple whose canonical JSON is hashed. *)
Definition ReservationPayload : Type :=
  string * EvidenceDigest * Z * Z * Z * EvidenceDigest * Z.

Section AuthorizedReservation.
Context `{!Sha256, !Jcs ReservationPayload}.

Definition calculate_reservation_digest (operation_digest : EvidenceDigest)
    (required_bytes available_bytes emergency_reserve_bytes : Z)
    (filesystem_identity : EvidenceDigest) (observed_at_ms : Z)
    : Result SerdeError EvidenceDigest :=
  let? bytes := jcs_to_vec (("rdashboard.resource-reservation.v1"%string, operation_digest,
    required_bytes, available_bytes, emergency_reserve_bytes, filesystem_identity, observed_at_ms)
    : ReservationPayload) in
  Ok (EvidenceDigest_sha256 bytes).

Definition has_valid_reservation_digest (claim : AuthorizedDiskReservation)
    : Result SerdeError bool :=
  let? digest := calculate_reservation_digest (ad_operation_digest claim)
                   (ad_required_bytes claim) (ad_available_bytes claim)
                   (ad_emergency_reserve_bytes claim) (ad_filesystem_identity claim)
                   (ad_observed_at_ms claim) in
  Ok (ad_reservation_digest claim == digest).
End AuthorizedReservation.

Definition AuthorizedDiskReservation_operation_bytes (claim : AuthorizedDiskReservation)
    : option Z :=
  u64_checked_sub (ad_required_bytes claim) (ad_emergency_reserve_bytes claim).

(** ** Properties *)

Definition total (l : list Z) : Z := foldr Z.add 0 l.

Lemma try_sum_Some acc l r :
  0 ≤ acc ≤ u64_max → Forall is_u64 l →
  try_sum acc l = Some r ↔ r = acc + total l ∧ acc + total l ≤ u64_max.
Proof.
  intros Hacc Hl. revert acc r Hacc. induction Hl as [|x l Hx Hl IH]; intros acc r Hacc; simpl.
  - split; [intros [= <-]; lia|intros [-> ?]; f_equal; lia].
  - assert (0 ≤ total l) as Hpos.
    { clear -Hl. induction Hl as [|y l Hy _ IHl]; simpl; [done|]. unfold is_u64 in Hy. lia. }
    unfold is_u64 in Hx. rewrite bind_Some. split.
    + intros (a&[-> Ha]%checked_range_Some&Hr). apply IH in Hr; [|lia]. lia.
    + intros [-> Hle]. exists (acc + x).
      split; [apply checked_range_Some; lia|]. apply IH; lia.
Qed.

(** A disk reservation is accepted exactly when the measurement is consistent and
    the sum of what the operation needs, computed without wrapping at 64 bits,
    plus the emergency reserve fits in the available space; a refusal for space
    names the exact deficit. *)
Theorem disk_reservation_is_exact r :
  Forall is_u64 (operation_parts r) → is_u64 (dk_filesystem_available_bytes r) →
  let needed := total (operation_parts r) + recovery_reserve_bytes in
  (DiskReservation_evaluate r = Ok tt ↔
     0 ≠ dk_filesystem_total_bytes r
     ∧ dk_filesystem_available_bytes r ≤ dk_filesystem_total_bytes r
     ∧ 0 ≤ dk_observed_at_ms r ∧ needed ≤ dk_filesystem_available_bytes r)
  ∧ (∀ required available deficit,
       DiskReservation_evaluate r = Err (InsufficientSpace required available deficit) →
       required = needed ∧ available = dk_filesystem_available_bytes r
       ∧ deficit = needed - available ∧ 0 < deficit).
Proof.
  intros Hparts Hav needed. unfold is_u64 in Hav.
  assert (0 ≤ total (operation_parts r)) as Hpos.
  { clear -Hparts. induction Hparts as [|y l Hy _ IHl]; simpl; [done|]. unfold is_u64 in Hy. lia. }
  assert (∀ v, DiskReservation_required_bytes r = Some v ↔ v = needed ∧ needed ≤ u64_max) as Hreq.
  { intros v. unfold DiskReservation_required_bytes, DiskReservation_operation_bytes, needed.
    rewrite bind_Some. setoid_rewrite try_sum_Some; [|unfold u64_max; lia|done].
    unfold DiskReservation_emergency_reserve_bytes, u64_checked_add, recovery_reserve_bytes,
      BUILD_STORAGE_MIN_FREE_BYTES, GIB, u64_max in *.
    setoid_rewrite checked_range_Some. split.
    - intros (a&[-> ?]&[-> ?]). lia.
    - intros [-> ?]. eexists. split; [split; [reflexivity|]|]; lia. }
  unfold DiskReservation_evaluate. destruct (_ || _) eqn:Hg; bool_prop.
  { split; [|done]. split; [done|]. lia. }
  destruct (DiskReservation_required_bytes r) as [v|] eqn:Hv; simpl.
  - destruct (proj1 (Hreq v) eq_refl) as [-> Hle].
    destruct (Z.ltb_spec (dk_filesystem_available_bytes r) needed).
    + split; [split; [done|lia]|]. intros ? ? ? [= <- <- <-]. lia.
    + split; [split; [lia|done]|done].
  - split; [|done]. split; [done|]. intros (_&_&_&?).
    assert (None = Some needed) as [=] by (apply Hreq; split; [done|lia]).
Qed.

Definition sample_reservation : DiskReservation :=
  MkDiskReservation (MkEvidenceDigest "fs") (100 * GIB) (10 * GIB) 5 GIB GIB GIB GIB GIB.

Lemma disk_reservation_is_exact_witness :
  DiskReservation_evaluate sample_reservation = Ok tt
  ∧ 0 ≠ dk_filesystem_total_bytes sample_reservation
  ∧ total (operation_parts sample_reservation) + recovery_reserve_bytes
    ≤ dk_filesystem_available_bytes sample_reservation.
Proof.
  assert (DiskReservation_evaluate sample_reservation = Ok tt) as He by reflexivity.
  split; [done|].
  apply (proj1 (disk_reservation_is_exact sample_reservation
    ltac:(repeat constructor; done) ltac:(by split))) in He as (?&_&_&?). done.
Defined.
