(* ===== verification/Execution.v ===== *)
(** * Execution receipts

    Model of [src/src/domain/execution.rs]: the outcome of a process, its resource
    and storage usage, the evidence gaps derived from them, and the terminal and
    cleanup receipts with their digests and canonical documents. *)

From Stdlib Require Import ZArith Lia String.
From stdpp Require Import base gmap strings option list_numbers list.
From S2P Require Import Prelude Identifiers States.

Local Open Scope Z_scope.

Definition EXECUTION_TERMINAL_RECEIPT_SCHEMA_VERSION : Z := 1.
Definition EXECUTION_CLEANUP_RECEIPT_SCHEMA_VERSION : Z := 1.
Definition EXECUTION_MAX_STEP_ID_BYTES : Z := 96.
Definition MAX_CLEANUP_ERROR_CODE_BYTES : Z := 96.

Inductive ExecutionResultV1 : Type :=
| Exec_Succeeded
| Exec_Failed
| Exec_TimedOut
| Exec_OomKilled
| Exec_Cancelled.

#[global] Instance ExecutionResultV1_eq_dec : EqDecision ExecutionResultV1.
Proof. solve_decision. Defined.

Inductive ExecutionReceiptError : Type :=
| Exec_InvalidDocument
| Exec_DigestMismatch
| Exec_CanonicalEncoding (e : SerdeError).

Record ExecutionProcessOutcomeV1 : Type := MkExecutionProcessOutcomeV1 {
  epo_result : ExecutionResultV1;
  epo_exit_code : option Z;
  epo_signal : option string;
  epo_timed_out : bool;
  epo_oom_killed : bool
}.

#[global] Instance ExecutionProcessOutcomeV1_eq_dec : EqDecision ExecutionProcessOutcomeV1.
Proof. solve_decision. Defined.

(** Lower-case letters, digits and [- _ .]. *)
Definition token_byte (b : Z) : bool :=
  is_ascii_lowercase b || is_ascii_digit b || (b =? 45) || (b =? 95) || (b =? 46).

Definition valid_token (value : string) (max_bytes : Z) : bool :=
  negb (str_len value =? 0) && (str_len value <=? max_bytes)
  && forallb token_byte (as_bytes value).

(** [Option::is_some_and]. *)
Definition is_some_and {A} (f : A → bool) (o : option A) : bool :=
  match o with Some a => f a | None => false end.

Definition ExecutionProcessOutcomeV1_validate (p : ExecutionProcessOutcomeV1)
    : Result ExecutionReceiptError unit :=
  if is_some_and (λ code, code <? 0) (epo_exit_code p)
     || is_some_and (λ signal, negb (valid_token signal 32)) (epo_signal p)
  then Err Exec_InvalidDocument
  else
    let valid :=
      match epo_result p with
      | Exec_Succeeded => (epo_exit_code p == Some 0) && is_none (epo_signal p)
                          && negb (epo_timed_out p) && negb (epo_oom_killed p)
      | Exec_Failed => negb (epo_timed_out p) && negb (epo_oom_killed p)
                       && (epo_exit_code p != Some 0)
      | Exec_TimedOut => epo_timed_out p && negb (epo_oom_killed p)
      | Exec_OomKilled => epo_oom_killed p && negb (epo_timed_out p)
      | Exec_Cancelled => negb (epo_timed_out p) && negb (epo_oom_killed p)
      end in
    if valid then Ok tt else Err Exec_InvalidDocument.

Record ExecutionMemoryEventsV1 : Type := MkExecutionMemoryEventsV1 {
  eme_low : Z;
  eme_high : Z;
  eme_max : Z;
  eme_oom : Z;
  eme_oom_kill : Z;
  eme_oom_group_kill : Z
}.

#[global] Instance ExecutionMemoryEventsV1_eq_dec : EqDecision ExecutionMemoryEventsV1.
Proof. solve_decision. Defined.

Record ExecutionIoUsageV1 : Type := MkExecutionIoUsageV1 {
  eiu_read_bytes : Z;
  eiu_write_bytes : Z;
  eiu_read_operations : Z;
  eiu_write_operations : Z
}.

#[global] Instance ExecutionIoUsageV1_eq_dec : EqDecision ExecutionIoUsageV1.
Proof. solve_decision. Defined.

Record ExecutionResourceUsageV1 : Type := MkExecutionResourceUsageV1 {
  eru_cpu_usage_usec : option Z;
  eru_memory_peak_bytes : option Z;
  eru_memory_events : option ExecutionMemoryEventsV1;
  eru_io : option ExecutionIoUsageV1;
  eru_tasks_peak : option Z
}.

#[global] Instance ExecutionResourceUsageV1_eq_dec : EqDecision ExecutionResourceUsageV1.
Proof. solve_decision. Defined.

Record ExecutionStorageUsageV1 : Type := MkExecutionStorageUsageV1 {
  esu_scratch_before_bytes : option Z;
  esu_scratch_after_bytes : option Z;
  esu_scratch_peak_bytes : option Z;
  esu_cache_delta_bytes : option Z;
  esu_log_delta_bytes : option Z;
  esu_filesystem_available_after_bytes : option Z;
  esu_emergency_reserve_required_bytes : option Z;
  esu_emergency_reserve_remaining_bytes : option Z;
  esu_emergency_reserve_deficit_bytes : option Z
}.

#[global] Instance ExecutionStorageUsageV1_eq_dec : EqDecision ExecutionStorageUsageV1.
Proof. solve_decision. Defined.

(** [a.zip(b).is_some_and(f)]. *)
Definition zip_is_some_and {A B} (f : A → B → bool) (a : option A) (b : option B) : bool :=
  match a, b with Some x, Some y => f x y | _, _ => false end.

Definition ExecutionStorageUsageV1_validate (s : ExecutionStorageUsageV1)
    : Result ExecutionReceiptError unit :=
  if zip_is_some_and (λ peak before, peak <? before) (esu_scratch_peak_bytes s)
       (esu_scratch_before_bytes s)
     || zip_is_some_and (λ peak after, peak <? after) (esu_scratch_peak_bytes s)
       (esu_scratch_after_bytes s)
  then Err Exec_InvalidDocument
  else
    match esu_filesystem_available_after_bytes s, esu_emergency_reserve_required_bytes s,
          esu_emergency_reserve_remaining_bytes s, esu_emergency_reserve_deficit_bytes s with
    | Some available, Some required, Some remaining, Some deficit =>
        if (remaining =? u64_saturating_sub available required)
           && (deficit =? u64_saturating_sub required available)
        then Ok tt else Err Exec_InvalidDocument
    | _, None, None, None => Ok tt
    | _, _, _, _ => Err Exec_InvalidDocument
    end.

Inductive ExecutionEvidenceGapV1 : Type :=
| Gap_CpuUsage
| Gap_MemoryPeak
| Gap_MemoryEvents
| Gap_Io
| Gap_TasksPeak
| Gap_ScratchBefore
| Gap_ScratchAfter
| Gap_ScratchPeak
| Gap_CacheDelta
| Gap_LogDelta
| Gap_FilesystemAvailable
| Gap_EmergencyReserve
| Gap_ProcessStatus.

#[global] Instance ExecutionEvidenceGapV1_eq_dec : EqDecision ExecutionEvidenceGapV1.
Proof. solve_decision. Defined.

(** The discriminant, which the derived [Ord] compares. *)
Definition gap_index (g : ExecutionEvidenceGapV1) : Z :=
  match g with
  | Gap_CpuUsage => 0 | Gap_MemoryPeak => 1 | Gap_MemoryEvents => 2 | Gap_Io => 3
  | Gap_TasksPeak => 4 | Gap_ScratchBefore => 5 | Gap_ScratchAfter => 6 | Gap_ScratchPeak => 7
  | Gap_CacheDelta => 8 | Gap_LogDelta => 9 | Gap_FilesystemAvailable => 10
  | Gap_EmergencyReserve => 11 | Gap_ProcessStatus => 12
  end.

Definition gap_label (g : ExecutionEvidenceGapV1) : string :=
  match g with
  | Gap_CpuUsage => "cpu_usage" | Gap_MemoryPeak => "memory_peak"
  | Gap_MemoryEvents => "memory_events" | Gap_Io => "io" | Gap_TasksPeak => "tasks_peak"
  | Gap_ScratchBefore => "scratch_before" | Gap_ScratchAfter => "scratch_after"
  | Gap_ScratchPeak => "scratch_peak" | Gap_CacheDelta => "cache_delta"
  | Gap_LogDelta => "log_delta" | Gap_FilesystemAvailable => "filesystem_available"
  | Gap_EmergencyReserve => "emergency_reserve" | Gap_ProcessStatus => "process_status"
  end.

(** [if c { gaps.push(g) }]. *)
Definition push_if {A} (c : bool) (g : A) (gaps : list A) : list A :=
  if c then gaps ++ [g] else gaps.

Definition expected_execution_gaps (process : ExecutionProcessOutcomeV1)
    (resources : ExecutionResourceUsageV1) (storage : ExecutionStorageUsageV1)
    : list ExecutionEvidenceGapV1 :=
  let gaps := [] in
  let gaps := push_if (is_none (eru_cpu_usage_usec resources)) Gap_CpuUsage gaps in
  let gaps := push_if (is_none (eru_memory_peak_bytes resources)) Gap_MemoryPeak gaps in
  let gaps := push_if (is_none (eru_memory_events resources)) Gap_MemoryEvents gaps in
  let gaps := push_if (is_none (eru_io resources)) Gap_Io gaps in
  let gaps := push_if (is_none (eru_tasks_peak resources)) Gap_TasksPeak gaps in
  let gaps := push_if (is_none (esu_scratch_before_bytes storage)) Gap_ScratchBefore gaps in
  let gaps := push_if (is_none (esu_scratch_after_bytes storage)) Gap_ScratchAfter gaps in
  let gaps := push_if (is_none (esu_scratch_peak_bytes storage)) Gap_ScratchPeak gaps in
  let gaps := push_if (is_none (esu_cache_delta_bytes storage)) Gap_CacheDelta gaps in
  let gaps := push_if (is_none (esu_log_delta_bytes storage)) Gap_LogDelta gaps in
  let gaps := push_if (is_none (esu_filesystem_available_after_bytes storage))
                Gap_FilesystemAvailable gaps in
  let gaps := push_if (is_none (esu_emergency_reserve_required_bytes storage)
                       || is_none (esu_emergency_reserve_remaining_bytes storage)
                       || is_none (esu_emergency_reserve_deficit_bytes storage))
                Gap_EmergencyReserve gaps in
  push_if ((epo_result process != Exec_Succeeded) && is_none (epo_exit_code process)
           && is_none (epo_signal process))
    Gap_ProcessStatus gaps.

Definition strictly_sorted_unique {A} (index : A → Z) (values : list A) : bool :=
  forallb (λ pair, index pair.1 <? index pair.2) (windows2 values).

Definition elapsed_ms (started_at_ms finished_at_ms : Z) : Result ExecutionReceiptError Z :=
  if (started_at_ms <? 0) || (finished_at_ms <? started_at_ms) then Err Exec_InvalidDocument
  else ok_or Exec_InvalidDocument (u64_try_from (finished_at_ms - started_at_ms)).

(** ** Terminal receipts *)

Record ExecutionTerminalReceiptV1 : Type := MkExecutionTerminalReceiptV1 {
  etr_schema_version : Z;
  etr_request_id : Uuid;
  etr_attempt_id : Uuid;
  etr_start_evidence_digest : EvidenceDigest;
  etr_project_id : ProjectId;
  etr_phase : OperationPhase;
  etr_step_id : string;
  etr_sequence : Z;
  etr_started_at_ms : Z;
  etr_finished_at_ms : Z;
  etr_duration_ms : Z;
  etr_process : ExecutionProcessOutcomeV1;
  etr_resources : ExecutionResourceUsageV1;
  etr_storage : ExecutionStorageUsageV1;
  etr_evidence_gaps : list ExecutionEvidenceGapV1;
  etr_receipt_digest : EvidenceDigest
}.

#[global] Instance ExecutionTerminalReceiptV1_eq_dec : EqDecision ExecutionTerminalReceiptV1.
Proof. solve_decision. Defined.
#[global] Instance ExecutionTerminalReceiptV1_eta : Eta ExecutionTerminalReceiptV1 := λ r,
  MkExecutionTerminalReceiptV1 (etr_schema_version r) (etr_request_id r) (etr_attempt_id r)
    (etr_start_evidence_digest r) (etr_project_id r) (etr_phase r) (etr_step_id r)
    (etr_sequence r) (etr_started_at_ms r) (etr_finished_at_ms r) (etr_duration_ms r)
    (etr_process r) (etr_resources r) (etr_storage r) (etr_evidence_gaps r)
    (etr_receipt_digest r).

Record ExecutionTerminalReceiptDigestPayload : Type := MkExecutionTerminalReceiptDigestPayload {
  etp_purpose : string;
  etp_schema_version : Z;
  etp_request_id : Uuid;
  etp_attempt_id : Uuid;
  etp_start_evidence_digest : EvidenceDigest;
  etp_project_id : ProjectId;
  etp_phase : OperationPhase;
  etp_step_id : string;
  etp_sequence : Z;
  etp_started_at_ms : Z;
  etp_finished_at_ms : Z;
  etp_duration_ms : Z;
  etp_process : ExecutionProcessOutcomeV1;
  etp_resources : ExecutionResourceUsageV1;
  etp_storage : ExecutionStorageUsageV1;
  etp_evidence_gaps : list ExecutionEvidenceGapV1
}.


Section TerminalReceipt.
Context `{Sha256, Jcs ExecutionTerminalReceiptDigestPayload, Jcs ExecutionTerminalReceiptV1,
  JsonSlice ExecutionTerminalReceiptV1}.

Definition TerminalReceipt_calculate_digest (receipt : ExecutionTerminalReceiptV1)
    : Result ExecutionReceiptError EvidenceDigest :=
  let? bytes := map_err Exec_CanonicalEncoding (jcs_to_vec {|
    etp_purpose := "rdashboard.execution-terminal-receipt.v1";
    etp_schema_version := etr_schema_version receipt;
    etp_request_id := etr_request_id receipt;
    etp_attempt_id := etr_attempt_id receipt;
    etp_start_evidence_digest := etr_start_evidence_digest receipt;
    etp_project_id := etr_project_id receipt;
    etp_phase := etr_phase receipt;
    etp_step_id := etr_step_id receipt;
    etp_sequence := etr_sequence receipt;
    etp_started_at_ms := etr_started_at_ms receipt;
    etp_finished_at_ms := etr_finished_at_ms receipt;
    etp_duration_ms := etr_duration_ms receipt;
    etp_process := etr_process receipt;
    etp_resources := etr_resources receipt;
    etp_storage := etr_storage receipt;
    etp_evidence_gaps := etr_evidence_gaps receipt
  |}) in
  Ok (EvidenceDigest_sha256 bytes).

Definition TerminalReceipt_validate (receipt : ExecutionTerminalReceiptV1)
    : Result ExecutionReceiptError unit :=
  if (etr_schema_version receipt != EXECUTION_TERMINAL_RECEIPT_SCHEMA_VERSION)
     || is_nil (etr_request_id receipt)
     || is_nil (etr_attempt_id receipt)
     || (etr_sequence receipt =? 0)
     || negb (valid_token (etr_step_id receipt) EXECUTION_MAX_STEP_ID_BYTES)
  then Err Exec_InvalidDocument
  else
    let? elapsed := elapsed_ms (etr_started_at_ms receipt) (etr_finished_at_ms receipt) in
    if etr_duration_ms receipt != elapsed then Err Exec_InvalidDocument
    else
      let? _ := ExecutionProcessOutcomeV1_validate (etr_process receipt) in
      let? _ := ExecutionStorageUsageV1_validate (etr_storage receipt) in
      if negb (strictly_sorted_unique gap_index (etr_evidence_gaps receipt))
         || (etr_evidence_gaps receipt !=
             expected_execution_gaps (etr_process receipt) (etr_resources receipt)
               (etr_storage receipt))
      then Err Exec_InvalidDocument
      else
        let? digest := TerminalReceipt_calculate_digest receipt in
        if etr_receipt_digest receipt != digest then Err Exec_DigestMismatch else Ok tt.

Definition TerminalReceipt_new (request_id attempt_id : Uuid)
    (start_evidence_digest : EvidenceDigest) (project_id : ProjectId) (phase : OperationPhase)
    (step_id : string) (sequence started_at_ms finished_at_ms : Z)
    (process : ExecutionProcessOutcomeV1) (resources : ExecutionResourceUsageV1)
    (storage : ExecutionStorageUsageV1)
    : Result ExecutionReceiptError ExecutionTerminalReceiptV1 :=
  let? duration_ms := elapsed_ms started_at_ms finished_at_ms in
  let evidence_gaps := expected_execution_gaps process resources storage in
  let receipt := {|
    etr_schema_version := EXECUTION_TERMINAL_RECEIPT_SCHEMA_VERSION;
    etr_request_id := request_id;
    etr_attempt_id := attempt_id;
    etr_start_evidence_digest := start_evidence_digest;
    etr_project_id := project_id;
    etr_phase := phase;
    etr_step_id := step_id;
    etr_sequence := sequence;
    etr_started_at_ms := started_at_ms;
    etr_finished_at_ms := finished_at_ms;
    etr_duration_ms := duration_ms;
    etr_process := process;
    etr_resources := resources;
    etr_storage := storage;
    etr_evidence_gaps := evidence_gaps;
    etr_receipt_digest := EvidenceDigest_sha256 []
  |} in
  let? digest := TerminalReceipt_calculate_digest receipt in
  let receipt := receipt <| etr_receipt_digest := digest |> in
  let? _ := TerminalReceipt_validate receipt in
  Ok receipt.

Definition TerminalReceipt_canonical_bytes (receipt : ExecutionTerminalReceiptV1)
    : Result ExecutionReceiptError (list Z) :=
  let? _ := TerminalReceipt_validate receipt in
  map_err Exec_CanonicalEncoding (jcs_to_vec receipt).

Definition TerminalReceipt_decode_canonical (bytes : list Z)
    : Result ExecutionReceiptError ExecutionTerminalReceiptV1 :=
  let? receipt := map_err Exec_CanonicalEncoding (json_from_slice bytes) in
  let? encoded := map_err Exec_CanonicalEncoding (jcs_to_vec receipt) in
  if encoded != bytes then Err Exec_InvalidDocument
  else
    let? _ := TerminalReceipt_validate receipt in
    Ok receipt.
End TerminalReceipt.

(** ** Cleanup receipts *)

Inductive ExecutionCleanupStateV1 : Type := Cleanup_Complete | Cleanup_Pending.

#[global] Instance ExecutionCleanupStateV1_eq_dec : EqDecision ExecutionCleanupStateV1.
Proof. solve_decision. Defined.

Inductive ExecutionCleanupEvidenceGapV1 : Type :=
| CleanupGap_ScratchRemoved
| CleanupGap_FilesystemAvailable.

#[global] Instance ExecutionCleanupEvidenceGapV1_eq_dec :
  EqDecision ExecutionCleanupEvidenceGapV1.
Proof. solve_decision. Defined.

Definition expected_cleanup_gaps (scratch_removed_bytes filesystem_available_after_bytes : option Z)
    : list ExecutionCleanupEvidenceGapV1 :=
  let gaps := [] in
  let gaps := push_if (is_none scratch_removed_bytes) CleanupGap_ScratchRemoved gaps in
  push_if (is_none filesystem_available_after_bytes) CleanupGap_FilesystemAvailable gaps.

Record ExecutionCleanupReceiptV1 : Type := MkExecutionCleanupReceiptV1 {
  ecr_schema_version : Z;
  ecr_attempt_id : Uuid;
  ecr_terminal_receipt_digest : EvidenceDigest;
  ecr_state : ExecutionCleanupStateV1;
  ecr_unit_collected : bool;
  ecr_scratch_removed_bytes : option Z;
  ecr_remaining_transient_items : Z;
  ecr_filesystem_available_after_bytes : option Z;
  ecr_evidence_gaps : list ExecutionCleanupEvidenceGapV1;
  ecr_error_code : option string;
  ecr_completed_at_ms : Z;
  ecr_receipt_digest : EvidenceDigest
}.

#[global] Instance ExecutionCleanupReceiptV1_eq_dec : EqDecision ExecutionCleanupReceiptV1.
Proof. solve_decision. Defined.
#[global] Instance ExecutionCleanupReceiptV1_eta : Eta ExecutionCleanupReceiptV1 := λ r,
  MkExecutionCleanupReceiptV1 (ecr_schema_version r) (ecr_attempt_id r) (ecr_terminal_receipt_digest r)
    (ecr_state r) (ecr_unit_collected r) (ecr_scratch_removed_bytes r)
    (ecr_remaining_transient_items r) (ecr_filesystem_available_after_bytes r)
    (ecr_evidence_gaps r) (ecr_error_code r) (ecr_completed_at_ms r)
    (ecr_receipt_digest r).

Record ExecutionCleanupReceiptDigestPayload : Type := MkExecutionCleanupReceiptDigestPayload {
  ecp_purpose : string;
  ecp_schema_version : Z;
  ecp_attempt_id : Uuid;
  ecp_terminal_receipt_digest : EvidenceDigest;
  ecp_state : ExecutionCleanupStateV1;
  ecp_unit_collected : bool;
  ecp_scratch_removed_bytes : option Z;
  ecp_remaining_transient_items : Z;
  ecp_filesystem_available_after_bytes : option Z;
  ecp_evidence_gaps : list ExecutionCleanupEvidenceGapV1;
  ecp_error_code : option string;
  ecp_completed_at_ms : Z
}.


Section CleanupReceipt.
Context `{Sha256, Jcs ExecutionCleanupReceiptDigestPayload, Jcs ExecutionCleanupReceiptV1,
  JsonSlice ExecutionCleanupReceiptV1}.

Definition CleanupReceipt_calculate_digest (receipt : ExecutionCleanupReceiptV1)
    : Result ExecutionReceiptError EvidenceDigest :=
  let? bytes := map_err Exec_CanonicalEncoding (jcs_to_vec {|
    ecp_purpose := "rdashboard.execution-cleanup-receipt.v1";
    ecp_schema_version := ecr_schema_version receipt;
    ecp_attempt_id := ecr_attempt_id receipt;
    ecp_terminal_receipt_digest := ecr_terminal_receipt_digest receipt;
    ecp_state := ecr_state receipt;
    ecp_unit_collected := ecr_unit_collected receipt;
    ecp_scratch_removed_bytes := ecr_scratch_removed_bytes receipt;
    ecp_remaining_transient_items := ecr_remaining_transient_items receipt;
    ecp_filesystem_available_after_bytes := ecr_filesystem_available_after_bytes receipt;
    ecp_evidence_gaps := ecr_evidence_gaps receipt;
    ecp_error_code := ecr_error_code receipt;
    ecp_completed_at_ms := ecr_completed_at_ms receipt
  |}) in
  Ok (EvidenceDigest_sha256 bytes).

Definition CleanupReceipt_validate (receipt : ExecutionCleanupReceiptV1)
    : Result ExecutionReceiptError unit :=
  if (ecr_schema_version receipt != EXECUTION_CLEANUP_RECEIPT_SCHEMA_VERSION)
     || is_nil (ecr_attempt_id receipt)
     || (ecr_completed_at_ms receipt <? 0)
     || is_some_and (λ code, negb (valid_token code MAX_CLEANUP_ERROR_CODE_BYTES))
          (ecr_error_code receipt)
  then Err Exec_InvalidDocument
  else
    let state_valid :=
      match ecr_state receipt with
      | Cleanup_Complete =>
          ecr_unit_collected receipt && (ecr_remaining_transient_items receipt =? 0)
          && is_none (ecr_error_code receipt)
      | Cleanup_Pending =>
          negb (ecr_unit_collected receipt) && (0 <? ecr_remaining_transient_items receipt)
          && is_some (ecr_error_code receipt)
      end in
    if negb state_valid then Err Exec_InvalidDocument
    else if ecr_evidence_gaps receipt !=
            expected_cleanup_gaps (ecr_scratch_removed_bytes receipt)
              (ecr_filesystem_available_after_bytes receipt)
    then Err Exec_InvalidDocument
    else
      let? digest := CleanupReceipt_calculate_digest receipt in
      if ecr_receipt_digest receipt != digest then Err Exec_DigestMismatch else Ok tt.

Definition CleanupReceipt_new (attempt_id : Uuid) (terminal_receipt_digest : EvidenceDigest)
    (state : ExecutionCleanupStateV1) (unit_collected : bool)
    (scratch_removed_bytes : option Z) (remaining_transient_items : Z)
    (filesystem_available_after_bytes : option Z) (error_code : option string)
    (completed_at_ms : Z) : Result ExecutionReceiptError ExecutionCleanupReceiptV1 :=
  let evidence_gaps :=
    expected_cleanup_gaps scratch_removed_bytes filesystem_available_after_bytes in
  let receipt := {|
    ecr_schema_version := EXECUTION_CLEANUP_RECEIPT_SCHEMA_VERSION;
    ecr_attempt_id := attempt_id;
    ecr_terminal_receipt_digest := terminal_receipt_digest;
    ecr_state := state;
    ecr_unit_collected := unit_collected;
    ecr_scratch_removed_bytes := scratch_removed_bytes;
    ecr_remaining_transient_items := remaining_transient_items;
    ecr_filesystem_available_after_bytes := filesystem_available_after_bytes;
    ecr_evidence_gaps := evidence_gaps;
    ecr_error_code := error_code;
    ecr_completed_at_ms := completed_at_ms;
    ecr_receipt_digest := EvidenceDigest_sha256 []
  |} in
  let? digest := CleanupReceipt_calculate_digest receipt in
  let receipt := receipt <| ecr_receipt_digest := digest |> in
  let? _ := CleanupReceipt_validate receipt in
  Ok receipt.

Definition CleanupReceipt_canonical_bytes (receipt : ExecutionCleanupReceiptV1)
    : Result ExecutionReceiptError (list Z) :=
  let? _ := CleanupReceipt_validate receipt in
  map_err Exec_CanonicalEncoding (jcs_to_vec receipt).

Definition CleanupReceipt_decode_canonical (bytes : list Z)
    : Result ExecutionReceiptError ExecutionCleanupReceiptV1 :=
  let? receipt := map_err Exec_CanonicalEncoding (json_from_slice bytes) in
  let? encoded := map_err Exec_CanonicalEncoding (jcs_to_vec receipt) in
  if encoded != bytes then Err Exec_InvalidDocument
  else
    let? _ := CleanupReceipt_validate receipt in
    Ok receipt.
End CleanupReceipt.
