(* ===== verification/Failure.v ===== *)
(** * Failure capsules

    Model of [src/src/domain/failure.rs]: the bounded failure document attached
    to an operation, its validation, its construction from raw (unredacted) text
    and its canonical form.  The redaction rules (crate [regex]) are a parameter,
    a function from text to redacted text and a replacement count. *)

From Stdlib Require Import ZArith Lia String.
From stdpp Require Import base gmap strings option list_numbers list.
From S2P Require Import Prelude Identifiers States Text Execution.

Local Open Scope Z_scope.

Definition FAILURE_CAPSULE_CAP_BYTES : Z := 64 * 1024.
Definition FAILURE_CAPSULE_V1_SCHEMA_VERSION : Z := 1.
Definition FAILURE_CAPSULE_V2_SCHEMA_VERSION : Z := 2.
Definition FAILURE_CAPSULE_RENDER_TEMPLATE_VERSION : Z := 1.
Definition MAX_CODE_BYTES : Z := 96.
Definition MAX_WORKFLOW_KIND_BYTES : Z := 96.
Definition MAX_STEP_ID_BYTES : Z := 96.
Definition MAX_STEP_DISPLAY_BYTES : Z := 160.
Definition MAX_SUMMARY_BYTES : Z := 1024.
Definition MAX_CAUSE_BYTES : Z := 4 * 1024.
Definition MAX_CONTEXT_SUMMARY_BYTES : Z := 2 * 1024.
Definition MAX_ARTIFACTS : Z := 32.
Definition MAX_CONTEXT_EVENTS : Z := 24.

Definition newline : string := String (Ascii.ascii_of_nat 10) EmptyString.
Definition FAILURE_CAPSULE_TRUNCATED : string := newline ++ "[FAILURE CAPSULE TRUNCATED]".

Record StructuredError : Type := MkStructuredError {
  se_code : string;
  se_summary : string;
  se_retryability : Retryability;
  se_runbook_id : option RunbookId
}.

#[global] Instance StructuredError_eq_dec : EqDecision StructuredError.
Proof. solve_decision. Defined.
#[global] Instance StructuredError_eta : Eta StructuredError := λ r,
  MkStructuredError (se_code r) (se_summary r) (se_retryability r) (se_runbook_id r).

Record FailureArtifactV2 : Type := MkFailureArtifactV2 {
  fa_kind : string;
  fa_digest : EvidenceDigest;
  fa_size_bytes : Z
}.

#[global] Instance FailureArtifactV2_eq_dec : EqDecision FailureArtifactV2.
Proof. solve_decision. Defined.

Inductive FailureContextRelationV2 : Type := Relation_Before | Relation_Cause | Relation_After.

#[global] Instance FailureContextRelationV2_eq_dec : EqDecision FailureContextRelationV2.
Proof. solve_decision. Defined.

Record FailureContextEventV2 : Type := MkFailureContextEventV2 {
  fce_at_ms : Z;
  fce_relation : FailureContextRelationV2;
  fce_kind : string;
  fce_summary : string
}.

#[global] Instance FailureContextEventV2_eq_dec : EqDecision FailureContextEventV2.
Proof. solve_decision. Defined.
#[global] Instance FailureContextEventV2_eta : Eta FailureContextEventV2 := λ r,
  MkFailureContextEventV2 (fce_at_ms r) (fce_relation r) (fce_kind r) (fce_summary r).

Record FailureRawLogReferenceV2 : Type := MkFailureRawLogReferenceV2 {
  frl_redacted_log_digest : EvidenceDigest;
  frl_compressed_size_bytes : Z;
  frl_retained_until_ms : Z;
  frl_truncated : bool
}.

#[global] Instance FailureRawLogReferenceV2_eq_dec : EqDecision FailureRawLogReferenceV2.
Proof. solve_decision. Defined.

Record FailureRedactionEvidenceV2 : Type := MkFailureRedactionEvidenceV2 {
  fre_ruleset_digest : EvidenceDigest;
  fre_replacement_count : Z
}.

#[global] Instance FailureRedactionEvidenceV2_eq_dec : EqDecision FailureRedactionEvidenceV2.
Proof. solve_decision. Defined.

Inductive ProductionMutationStateV2 : Type :=
| Mutation_NotStarted | Mutation_Started | Mutation_Completed | Mutation_Unknown.

#[global] Instance ProductionMutationStateV2_eq_dec : EqDecision ProductionMutationStateV2.
Proof. solve_decision. Defined.

Inductive FailureRollbackStateV2 : Type :=
| RollbackState_NotRequired | RollbackState_Eligible | RollbackState_Started
| RollbackState_Succeeded | RollbackState_Failed | RollbackState_Unknown.

#[global] Instance FailureRollbackStateV2_eq_dec : EqDecision FailureRollbackStateV2.
Proof. solve_decision. Defined.

Inductive FailureContextGapV2 : Type :=
| ContextGap_RawLog | ContextGap_TerminalReceipt | ContextGap_CleanupReceipt
| ContextGap_PreviousRelease | ContextGap_AttemptedRelease | ContextGap_HealthEvidence.

#[global] Instance FailureContextGapV2_eq_dec : EqDecision FailureContextGapV2.
Proof. solve_decision. Defined.

Record FailureCapsuleV2Evidence : Type := MkFailureCapsuleV2Evidence {
  fv_failure_id : Uuid;
  fv_project_id : ProjectId;
  fv_workflow_kind : string;
  fv_source_sha : option GitCommitId;
  fv_policy_digest : option EvidenceDigest;
  fv_request_id : Uuid;
  fv_operation_id : Uuid;
  fv_attempt_id : Uuid;
  fv_phase : OperationPhase;
  fv_step_id : string;
  fv_step_display_name : string;
  fv_started_at_ms : Z;
  fv_failed_at_ms : Z;
  fv_duration_ms : Z;
  fv_first_cause : string;
  fv_process : ExecutionProcessOutcomeV1;
  fv_resources : ExecutionResourceUsageV1;
  fv_storage : ExecutionStorageUsageV1;
  fv_execution_gaps : list ExecutionEvidenceGapV1;
  fv_artifacts : list FailureArtifactV2;
  fv_context : list FailureContextEventV2;
  fv_raw_log : option FailureRawLogReferenceV2;
  fv_redaction : FailureRedactionEvidenceV2;
  fv_previous_release_digest : option EvidenceDigest;
  fv_attempted_release_digest : option EvidenceDigest;
  fv_health_evidence_digest : option EvidenceDigest;
  fv_terminal_receipt_digest : option EvidenceDigest;
  fv_cleanup_receipt_digest : option EvidenceDigest;
  fv_context_gaps : list FailureContextGapV2;
  fv_production_mutation : ProductionMutationStateV2;
  fv_rollback : FailureRollbackStateV2;
  fv_render_template_version : Z
}.

#[global] Instance FailureCapsuleV2Evidence_eq_dec : EqDecision FailureCapsuleV2Evidence.
Proof. solve_decision. Defined.
#[global] Instance FailureCapsuleV2Evidence_eta : Eta FailureCapsuleV2Evidence := λ r,
  MkFailureCapsuleV2Evidence (fv_failure_id r) (fv_project_id r) (fv_workflow_kind r) (fv_source_sha r)
    (fv_policy_digest r) (fv_request_id r) (fv_operation_id r) (fv_attempt_id r)
    (fv_phase r) (fv_step_id r) (fv_step_display_name r) (fv_started_at_ms r)
    (fv_failed_at_ms r) (fv_duration_ms r) (fv_first_cause r) (fv_process r)
    (fv_resources r) (fv_storage r) (fv_execution_gaps r) (fv_artifacts r) (fv_context r)
    (fv_raw_log r) (fv_redaction r) (fv_previous_release_digest r)
    (fv_attempted_release_digest r) (fv_health_evidence_digest r)
    (fv_terminal_receipt_digest r) (fv_cleanup_receipt_digest r) (fv_context_gaps r)
    (fv_production_mutation r) (fv_rollback r) (fv_render_template_version r).

Record FailureCapsuleV2Input : Type := MkFailureCapsuleV2Input {
  fi_failure_id : Uuid;
  fi_project_id : ProjectId;
  fi_workflow_kind : string;
  fi_source_sha : option GitCommitId;
  fi_policy_digest : option EvidenceDigest;
  fi_request_id : Uuid;
  fi_operation_id : Uuid;
  fi_attempt_id : Uuid;
  fi_phase : OperationPhase;
  fi_step_id : string;
  fi_step_display_name : string;
  fi_started_at_ms : Z;
  fi_failed_at_ms : Z;
  fi_error : StructuredError;
  fi_first_cause : string;
  fi_raw_excerpt : string;
  fi_process : ExecutionProcessOutcomeV1;
  fi_resources : ExecutionResourceUsageV1;
  fi_storage : ExecutionStorageUsageV1;
  fi_artifacts : list FailureArtifactV2;
  fi_context : list FailureContextEventV2;
  fi_raw_log : option FailureRawLogReferenceV2;
  fi_previous_release_digest : option EvidenceDigest;
  fi_attempted_release_digest : option EvidenceDigest;
  fi_health_evidence_digest : option EvidenceDigest;
  fi_terminal_receipt_digest : option EvidenceDigest;
  fi_cleanup_receipt_digest : option EvidenceDigest;
  fi_production_mutation : ProductionMutationStateV2;
  fi_rollback : FailureRollbackStateV2
}.


Record FailureCapsule : Type := MkFailureCapsule {
  fc_schema_version : Z;
  fc_failing_step : string;
  fc_error : StructuredError;
  fc_excerpt : string;
  fc_truncated : bool;
  fc_v2 : option FailureCapsuleV2Evidence
}.

#[global] Instance FailureCapsule_eq_dec : EqDecision FailureCapsule.
Proof. solve_decision. Defined.
#[global] Instance FailureCapsule_eta : Eta FailureCapsule := λ r,
  MkFailureCapsule (fc_schema_version r) (fc_failing_step r) (fc_error r) (fc_excerpt r)
    (fc_truncated r) (fc_v2 r).

Inductive FailureCapsuleError : Type :=
| Failure_InvalidDocument
| Failure_CapsuleTooLarge
| Failure_CanonicalEncoding (e : SerdeError).

Definition safe_text_character (c : Z) : bool :=
  (c =? 10) || (c =? 9) || (negb (is_control c) && negb (c =? 127)).

Definition valid_text (value : string) (max_bytes : Z) : bool :=
  negb (str_len value =? 0) && (str_len value <=? max_bytes)
  && forallb safe_text_character (str_chars value).

Definition expected_context_gaps (e : FailureCapsuleV2Evidence) : list FailureContextGapV2 :=
  let gaps := [] in
  let gaps := push_if (is_none (fv_raw_log e)) ContextGap_RawLog gaps in
  let gaps := push_if (is_none (fv_terminal_receipt_digest e)) ContextGap_TerminalReceipt gaps in
  let gaps := push_if (is_none (fv_cleanup_receipt_digest e)) ContextGap_CleanupReceipt gaps in
  let gaps := push_if (is_none (fv_previous_release_digest e)) ContextGap_PreviousRelease gaps in
  let gaps := push_if (is_none (fv_attempted_release_digest e)) ContextGap_AttemptedRelease gaps in
  push_if (is_none (fv_health_evidence_digest e)) ContextGap_HealthEvidence gaps.

(** [(kind, digest)] and [(at_ms, kind)], the keys the document is sorted by. *)
Definition artifact_compare (a b : FailureArtifactV2) : comparison :=
  pair_compare (str_compare (fa_kind a) (fa_kind b))
    (str_compare (EvidenceDigest_as_str (fa_digest a)) (EvidenceDigest_as_str (fa_digest b))).

Definition context_compare (a b : FailureContextEventV2) : comparison :=
  pair_compare (fce_at_ms a ?= fce_at_ms b) (str_compare (fce_kind a) (fce_kind b)).

Definition FailureCapsuleV2Evidence_validate (e : FailureCapsuleV2Evidence)
    : Result FailureCapsuleError unit :=
  if is_nil (fv_failure_id e) || is_nil (fv_request_id e) || is_nil (fv_operation_id e)
     || is_nil (fv_attempt_id e)
     || negb (valid_token (fv_workflow_kind e) MAX_WORKFLOW_KIND_BYTES)
     || negb (valid_token (fv_step_id e) MAX_STEP_ID_BYTES)
     || negb (valid_text (fv_step_display_name e) MAX_STEP_DISPLAY_BYTES)
     || negb (valid_text (fv_first_cause e) MAX_CAUSE_BYTES)
     || (fv_started_at_ms e <? 0)
     || (fv_failed_at_ms e <? fv_started_at_ms e)
  then Err Failure_InvalidDocument
  else
    let? duration := ok_or Failure_InvalidDocument
                       (u64_try_from (fv_failed_at_ms e - fv_started_at_ms e)) in
    if (fv_duration_ms e != duration)
       || (fv_render_template_version e != FAILURE_CAPSULE_RENDER_TEMPLATE_VERSION)
    then Err Failure_InvalidDocument
    else
      let? _ := map_err (λ _, Failure_InvalidDocument)
                  (ExecutionProcessOutcomeV1_validate (fv_process e)) in
      let? _ := map_err (λ _, Failure_InvalidDocument)
                  (ExecutionStorageUsageV1_validate (fv_storage e)) in
      if fv_execution_gaps e !=
         expected_execution_gaps (fv_process e) (fv_resources e) (fv_storage e)
      then Err Failure_InvalidDocument
      else if (MAX_ARTIFACTS <? Z.of_nat (length (fv_artifacts e)))
              || negb (forallb (λ pair, is_lt (artifact_compare pair.1 pair.2))
                         (windows2 (fv_artifacts e)))
              || existsb (λ artifact, negb (valid_token (fa_kind artifact) MAX_CODE_BYTES))
                   (fv_artifacts e)
      then Err Failure_InvalidDocument
      else if (MAX_CONTEXT_EVENTS <? Z.of_nat (length (fv_context e)))
              || negb (forallb (λ pair, is_le (context_compare pair.1 pair.2))
                         (windows2 (fv_context e)))
              || existsb (λ event,
                   (fce_at_ms event <? 0)
                   || negb (valid_token (fce_kind event) MAX_CODE_BYTES)
                   || negb (valid_text (fce_summary event) MAX_CONTEXT_SUMMARY_BYTES))
                   (fv_context e)
      then Err Failure_InvalidDocument
      else if is_some_and (λ reference,
                (frl_compressed_size_bytes reference =? 0)
                || (frl_retained_until_ms reference <? fv_failed_at_ms e)) (fv_raw_log e)
      then Err Failure_InvalidDocument
      else if fv_context_gaps e != expected_context_gaps e
      then Err Failure_InvalidDocument
      else Ok tt.

Definition FailureCapsule_validate (c : FailureCapsule) : Result FailureCapsuleError unit :=
  if negb (valid_text (fc_failing_step c) MAX_STEP_ID_BYTES)
     || negb (valid_text (se_code (fc_error c)) MAX_CODE_BYTES)
     || negb (valid_text (se_summary (fc_error c)) MAX_SUMMARY_BYTES)
     || (FAILURE_CAPSULE_CAP_BYTES <? str_len (fc_excerpt c))
  then Err Failure_InvalidDocument
  else if (fc_schema_version c == FAILURE_CAPSULE_V1_SCHEMA_VERSION) && is_none (fc_v2 c)
  then Ok tt
  else
    match fc_v2 c with
    | Some evidence =>
        if fc_schema_version c == FAILURE_CAPSULE_V2_SCHEMA_VERSION then
          let? _ := FailureCapsuleV2Evidence_validate evidence in
          if (fc_failing_step c != fv_step_id evidence)
             || negb (valid_token (fc_failing_step c) MAX_STEP_ID_BYTES)
             || negb (valid_token (se_code (fc_error c)) MAX_CODE_BYTES)
          then Err Failure_InvalidDocument
          else Ok tt
        else Err Failure_InvalidDocument
    | None => Err Failure_InvalidDocument
    end.

(** ** Construction from raw text *)

Record RedactionResult : Type := MkRedactionResult {
  rr_text : string;
  rr_replacement_count : Z
}.

(** [Redactor::redact_with_evidence]: the compiled regular expressions. *)
Class Redactor := redact_with_evidence : string → RedactionResult.

Definition redact `{Redactor} (input : string) : string := rr_text (redact_with_evidence input).

Definition REDACTION_RULESET_V2 : string :=
  "rdashboard.redaction-ruleset.v2;" ++
  "known-exact;private-key;bearer;key-value;jwt;provider-key;ansi;control".

Definition redact_bounded `{Redactor} (value : string) (cap : Z) : string * Z :=
  let result := redact_with_evidence value in
  (truncate_utf8 (rr_text result) (Z.to_nat cap) " [TRUNCATED]", rr_replacement_count result).

Definition FailureCapsule_from_raw `{Redactor} (failing_step : string) (error : StructuredError)
    (raw_excerpt : string) : FailureCapsule :=
  let redacted := redact raw_excerpt in
  let excerpt :=
    truncate_utf8 redacted (Z.to_nat FAILURE_CAPSULE_CAP_BYTES) FAILURE_CAPSULE_TRUNCATED in
  {| fc_schema_version := FAILURE_CAPSULE_V1_SCHEMA_VERSION;
     fc_failing_step := failing_step;
     fc_error := error;
     fc_truncated := str_len excerpt <? str_len redacted;
     fc_excerpt := excerpt;
     fc_v2 := None |}.

(** [for event in &mut context { .. }]: each summary redacted, counts summed. *)
Fixpoint redact_context `{Redactor} (context : list FailureContextEventV2) (count : Z)
    : list FailureContextEventV2 * Z :=
  match context with
  | [] => ([], count)
  | event :: r =>
      let '(summary, replacements) :=
        redact_bounded (fce_summary event) MAX_CONTEXT_SUMMARY_BYTES in
      let '(r', count') := redact_context r (u64_saturating_add count replacements) in
      (event <| fce_summary := summary |> :: r', count')
  end.

Section FromRaw.
Context `{Sha256, Redactor, Jcs FailureCapsule, JsonSlice FailureCapsule}.

Definition FailureCapsule_from_v2_raw (input : FailureCapsuleV2Input)
    : Result FailureCapsuleError FailureCapsule :=
  let replacement_count := 0 in
  let error := fi_error input in
  let '(summary, replacements) := redact_bounded (se_summary error) MAX_SUMMARY_BYTES in
  let error := error <| se_summary := summary |> in
  let replacement_count := u64_saturating_add replacement_count replacements in
  let '(step_display_name, replacements) :=
    redact_bounded (fi_step_display_name input) MAX_STEP_DISPLAY_BYTES in
  let replacement_count := u64_saturating_add replacement_count replacements in
  let '(first_cause, replacements) := redact_bounded (fi_first_cause input) MAX_CAUSE_BYTES in
  let replacement_count := u64_saturating_add replacement_count replacements in
  let redacted_excerpt := redact_with_evidence (fi_raw_excerpt input) in
  let replacement_count :=
    u64_saturating_add replacement_count (rr_replacement_count redacted_excerpt) in
  let excerpt := truncate_utf8 (rr_text redacted_excerpt) (Z.to_nat FAILURE_CAPSULE_CAP_BYTES)
                   FAILURE_CAPSULE_TRUNCATED in
  let truncated := str_len excerpt <? str_len (rr_text redacted_excerpt) in
  let '(context, replacement_count) := redact_context (fi_context input) replacement_count in
  let context := sort_by context_compare context in
  let artifacts := sort_by artifact_compare (fi_artifacts input) in
  let? duration_ms := ok_or Failure_InvalidDocument
    (i64_checked_sub (fi_failed_at_ms input) (fi_started_at_ms input) ≫= u64_try_from) in
  let execution_gaps :=
    expected_execution_gaps (fi_process input) (fi_resources input) (fi_storage input) in
  let ruleset_digest := EvidenceDigest_sha256 (as_bytes REDACTION_RULESET_V2) in
  let evidence := {|
    fv_failure_id := fi_failure_id input;
    fv_project_id := fi_project_id input;
    fv_workflow_kind := fi_workflow_kind input;
    fv_source_sha := fi_source_sha input;
    fv_policy_digest := fi_policy_digest input;
    fv_request_id := fi_request_id input;
    fv_operation_id := fi_operation_id input;
    fv_attempt_id := fi_attempt_id input;
    fv_phase := fi_phase input;
    fv_step_id := fi_step_id input;
    fv_step_display_name := step_display_name;
    fv_started_at_ms := fi_started_at_ms input;
    fv_failed_at_ms := fi_failed_at_ms input;
    fv_duration_ms := duration_ms;
    fv_first_cause := first_cause;
    fv_process := fi_process input;
    fv_resources := fi_resources input;
    fv_storage := fi_storage input;
    fv_execution_gaps := execution_gaps;
    fv_artifacts := artifacts;
    fv_context := context;
    fv_raw_log := fi_raw_log input;
    fv_redaction := {|
      fre_ruleset_digest := ruleset_digest;
      fre_replacement_count := replacement_count |};
    fv_previous_release_digest := fi_previous_release_digest input;
    fv_attempted_release_digest := fi_attempted_release_digest input;
    fv_health_evidence_digest := fi_health_evidence_digest input;
    fv_terminal_receipt_digest := fi_terminal_receipt_digest input;
    fv_cleanup_receipt_digest := fi_cleanup_receipt_digest input;
    fv_context_gaps := [];
    fv_production_mutation := fi_production_mutation input;
    fv_rollback := fi_rollback input;
    fv_render_template_version := FAILURE_CAPSULE_RENDER_TEMPLATE_VERSION
  |} in
  let evidence := evidence <| fv_context_gaps := expected_context_gaps evidence |> in
  let capsule := {|
    fc_schema_version := FAILURE_CAPSULE_V2_SCHEMA_VERSION;
    fc_failing_step := fv_step_id evidence;
    fc_error := error;
    fc_excerpt := excerpt;
    fc_truncated := truncated;
    fc_v2 := Some evidence
  |} in
  let? _ := FailureCapsule_validate capsule in
  let? initial_bytes := map_err Failure_CanonicalEncoding (jcs_to_vec capsule) in
  if FAILURE_CAPSULE_CAP_BYTES <? Z.of_nat (length initial_bytes) then
    let excess := Z.of_nat (length initial_bytes) - FAILURE_CAPSULE_CAP_BYTES in
    let excerpt_cap := u64_saturating_sub (str_len (fc_excerpt capsule)) excess in
    let capsule := capsule
      <| fc_excerpt := truncate_utf8 (fc_excerpt capsule) (Z.to_nat excerpt_cap)
                         FAILURE_CAPSULE_TRUNCATED |>
      <| fc_truncated := true |> in
    let? _ := FailureCapsule_validate capsule in
    let? bytes := map_err Failure_CanonicalEncoding (jcs_to_vec capsule) in
    if FAILURE_CAPSULE_CAP_BYTES <? Z.of_nat (length bytes) then Err Failure_CapsuleTooLarge
    else Ok capsule
  else Ok capsule.

Definition FailureCapsule_canonical_bytes (c : FailureCapsule)
    : Result FailureCapsuleError (list Z) :=
  let? _ := FailureCapsule_validate c in
  let? bytes := map_err Failure_CanonicalEncoding (jcs_to_vec c) in
  if (fc_schema_version c == FAILURE_CAPSULE_V2_SCHEMA_VERSION)
     && (FAILURE_CAPSULE_CAP_BYTES <? Z.of_nat (length bytes))
  then Err Failure_CapsuleTooLarge
  else Ok bytes.

Definition FailureCapsule_decode_canonical (bytes : list Z)
    : Result FailureCapsuleError FailureCapsule :=
  let? capsule := map_err Failure_CanonicalEncoding (json_from_slice bytes) in
  let? encoded := FailureCapsule_canonical_bytes capsule in
  if encoded != bytes then Err Failure_InvalidDocument else Ok capsule.
End FromRaw.
