(* ===== verification/Operation.v ===== *)
(** * Operations, phases and evidence

    Model of [src/src/domain/operation.rs]: operation kinds and release classes
    with their phase plans, the operation state and its contract, the evidence an
    operation accumulates, phase receipts and their digests, the artifact
    contract of a phase and the fence acquisition receipt. *)

From Stdlib Require Import ZArith Lia String.
From stdpp Require Import base gmap strings option list_numbers list.
From S2P Require Import Prelude Identifiers States Failure.

Local Open Scope Z_scope.

Definition FENCE_ACQUISITION_RECEIPT_SCHEMA_VERSION : Z := 1.

Inductive OperationKind : Type :=
| Kind_Deploy
| Kind_CodeRollback
| Kind_BackupOnly.

#[global] Instance OperationKind_eq_dec : EqDecision OperationKind.
Proof. solve_decision. Defined.

Inductive ReleaseClass : Type :=
| Class_CodeOnlyCompatible
| Class_StatefulCompatible
| Class_StatefulBreaking
| Class_Rollback.

#[global] Instance ReleaseClass_eq_dec : EqDecision ReleaseClass.
Proof. solve_decision. Defined.

Inductive OperationContractError : Type := ReleaseClassMismatch.

#[global] Instance OperationContractError_eq_dec : EqDecision OperationContractError.
Proof. solve_decision. Defined.

Definition CODE_ONLY_PHASES : list OperationPhase :=
  [Phase_Queued; Phase_SyncingSource; Phase_VerifyingSource; Phase_Testing; Phase_Building;
   Phase_Preflight; Phase_Deploying; Phase_HealthChecking; Phase_Soaking].

Definition STATEFUL_PHASES : list OperationPhase :=
  [Phase_Queued; Phase_SyncingSource; Phase_VerifyingSource; Phase_Testing; Phase_Building;
   Phase_Preflight; Phase_BackingUp; Phase_Draining; Phase_CutoverSnapshotting; Phase_Migrating;
   Phase_Deploying; Phase_HealthChecking; Phase_Soaking].

Definition ROLLBACK_PHASES : list OperationPhase :=
  [Phase_Queued; Phase_Preflight; Phase_Rollback; Phase_HealthChecking; Phase_Soaking].

Definition BACKUP_ONLY_PHASES : list OperationPhase :=
  [Phase_Queued; Phase_Preflight; Phase_BackingUp].

Definition ReleaseClass_required_phases (class : ReleaseClass) : list OperationPhase :=
  match class with
  | Class_CodeOnlyCompatible => CODE_ONLY_PHASES
  | Class_StatefulCompatible | Class_StatefulBreaking => STATEFUL_PHASES
  | Class_Rollback => ROLLBACK_PHASES
  end.

(** [windows(2).any(|pair| pair == [current, next])]. *)
Definition adjacent_phases (phases : list OperationPhase) (current next : OperationPhase) : bool :=
  existsb (λ pair, (pair.1 == current) && (pair.2 == next)) (windows2 phases).

Definition ReleaseClass_permits_transition (class : ReleaseClass)
    (current next : OperationPhase) : bool :=
  if next == Phase_Reconciliation then true
  else if next == Phase_Rollback then crosses_mutation_boundary current
  else adjacent_phases (ReleaseClass_required_phases class) current next.

Definition requires_commit (kind : OperationKind) : bool :=
  match kind with Kind_Deploy | Kind_CodeRollback => true | Kind_BackupOnly => false end.

Definition OperationKind_required_phases (kind : OperationKind)
    (release_class : option ReleaseClass) : Result OperationContractError (list OperationPhase) :=
  match kind, release_class with
  | Kind_Deploy,
    Some ((Class_CodeOnlyCompatible | Class_StatefulCompatible | Class_StatefulBreaking) as class) =>
      Ok (ReleaseClass_required_phases class)
  | Kind_CodeRollback, Some Class_Rollback => Ok ROLLBACK_PHASES
  | Kind_BackupOnly, None => Ok BACKUP_ONLY_PHASES
  | _, _ => Err ReleaseClassMismatch
  end.

Definition OperationKind_permits_transition (kind : OperationKind)
    (release_class : option ReleaseClass) (current next : OperationPhase)
    : Result OperationContractError bool :=
  if next == Phase_Reconciliation then Ok true
  else if next == Phase_Rollback then Ok (crosses_mutation_boundary current)
  else
    let? phases := OperationKind_required_phases kind release_class in
    Ok (adjacent_phases phases current next).

(** ** Operation state *)

Record OperationState : Type := MkOperationState {
  os_phase : OperationPhase;
  os_result : OperationResult;
  os_blocking_reason : BlockingReason
}.

#[global] Instance OperationState_eq_dec : EqDecision OperationState.
Proof. solve_decision. Defined.
#[global] Instance OperationState_eta : Eta OperationState := λ r,
  MkOperationState (os_phase r) (os_result r) (os_blocking_reason r).

Inductive OperationStateError : Type :=
| TerminalOperationBlocked
| ManualRecoveryOutsideReconciliation
| RolledBackOutsideRollback
| RollbackFailureOutsideRecovery.

#[global] Instance OperationStateError_eq_dec : EqDecision OperationStateError.
Proof. solve_decision. Defined.

Definition OperationState_validate (state : OperationState) : Result OperationStateError unit :=
  if (os_result state != Result_Running) && (os_blocking_reason state != Blocking_None)
  then Err TerminalOperationBlocked
  else if (os_result state == Result_ManualRecoveryRequired)
          && (os_phase state != Phase_Reconciliation)
  then Err ManualRecoveryOutsideReconciliation
  else if (os_result state == Result_RolledBack)
          && negb match os_phase state with Phase_Rollback | Phase_Soaking => true | _ => false end
  then Err RolledBackOutsideRollback
  else if (os_result state == Result_RollbackFailed)
          && negb match os_phase state with
                  | Phase_Rollback | Phase_Reconciliation => true | _ => false end
  then Err RollbackFailureOutsideRecovery
  else Ok tt.

(** ** Actors, policies and evidence *)

Inductive AutomationSource : Type :=
| Source_GithubWebhook
| Source_SourceReconciliation
| Source_DirectPush.

#[global] Instance AutomationSource_eq_dec : EqDecision AutomationSource.
Proof. solve_decision. Defined.

Inductive OperationActor : Type :=
| Actor_Interactive (user_id : Uuid)
| Actor_Automation (source : AutomationSource).

#[global] Instance OperationActor_eq_dec : EqDecision OperationActor.
Proof. solve_decision. Defined.

Record InstalledPolicyIdentity : Type := MkInstalledPolicyIdentity {
  ip_digest : EvidenceDigest;
  ip_version : Z
}.

#[global] Instance InstalledPolicyIdentity_eq_dec : EqDecision InstalledPolicyIdentity.
Proof. solve_decision. Defined.
#[global] Instance InstalledPolicyIdentity_eta : Eta InstalledPolicyIdentity := λ r,
  MkInstalledPolicyIdentity (ip_digest r) (ip_version r).

Inductive ExecutorPhaseBranch : Type :=
| Branch_Primary
| Branch_RollbackRecovery.

#[global] Instance ExecutorPhaseBranch_eq_dec : EqDecision ExecutorPhaseBranch.
Proof. solve_decision. Defined.

Record AuthorizedPhaseSpecDigestV1 : Type := MkAuthorizedPhaseSpecDigestV1 {
  aps_branch : ExecutorPhaseBranch;
  aps_phase : OperationPhase;
  aps_spec_digest : EvidenceDigest
}.

#[global] Instance AuthorizedPhaseSpecDigestV1_eq_dec : EqDecision AuthorizedPhaseSpecDigestV1.
Proof. solve_decision. Defined.

Inductive OperationRecoveryMode : Type :=
| Recovery_Rollback
| Recovery_Reconciliation.

#[global] Instance OperationRecoveryMode_eq_dec : EqDecision OperationRecoveryMode.
Proof. solve_decision. Defined.

Record OperationTransition : Type := MkOperationTransition {
  ot_sequence : Z;
  ot_from : OperationState;
  ot_to : OperationState;
  ot_receipt_digest : option EvidenceDigest;
  ot_occurred_at_ms : Z
}.

#[global] Instance OperationTransition_eq_dec : EqDecision OperationTransition.
Proof. solve_decision. Defined.
#[global] Instance OperationTransition_eta : Eta OperationTransition := λ r,
  MkOperationTransition (ot_sequence r) (ot_from r) (ot_to r) (ot_receipt_digest r) (ot_occurred_at_ms r).

Record OperationEvidence : Type := MkOperationEvidence {
  ev_authorized_phase_spec_digests : list AuthorizedPhaseSpecDigestV1;
  ev_installed_policy : option InstalledPolicyIdentity;
  ev_source_attestation_digest : option EvidenceDigest;
  ev_source_sequence : option Z;
  ev_source_gate_proof_digest : option EvidenceDigest;
  ev_drain_evidence_digest : option EvidenceDigest;
  ev_source_export_digest : option EvidenceDigest;
  ev_prefetch_evidence_digest : option EvidenceDigest;
  ev_ci_evidence_digest : option EvidenceDigest;
  ev_build_plan_digest : option EvidenceDigest;
  ev_deployment_plan_digest : option EvidenceDigest;
  ev_release_bundle_digest : option EvidenceDigest;
  ev_resource_reservation_digest : option EvidenceDigest;
  ev_build_context_digest : option EvidenceDigest;
  ev_generated_output_digests : list EvidenceDigest;
  ev_image_digest : option EvidenceDigest;
  ev_image_id_digest : option EvidenceDigest;
  ev_base_image_digests : list EvidenceDigest;
  ev_schema_version : option string;
  ev_backup_id : option Uuid;
  ev_backup_set_id : option Uuid;
  ev_base_backup_id : option Uuid;
  ev_base_backup_manifest_digest : option EvidenceDigest;
  ev_base_backup_evidence_digest : option EvidenceDigest;
  ev_base_backup_offsite_evidence_digest : option EvidenceDigest;
  ev_base_backup_verification_digest : option EvidenceDigest;
  ev_cutover_backup_id : option Uuid;
  ev_cutover_backup_manifest_digest : option EvidenceDigest;
  ev_cutover_backup_evidence_digest : option EvidenceDigest;
  ev_cutover_backup_verification_digest : option EvidenceDigest;
  ev_previous_release_bundle_digest : option EvidenceDigest;
  ev_health_evidence_digest : option EvidenceDigest;
  ev_rollback_health_evidence_digest : option EvidenceDigest;
  ev_action_grant_digest : option EvidenceDigest;
  ev_fencing_epoch : option Z;
  ev_fence_acquisition_receipt_digest : option EvidenceDigest;
  ev_recovery_mode : option OperationRecoveryMode;
  ev_transitions : list OperationTransition
}.

#[global] Instance OperationEvidence_eq_dec : EqDecision OperationEvidence.
Proof. solve_decision. Defined.
#[global] Instance OperationEvidence_eta : Eta OperationEvidence := λ r,
  MkOperationEvidence (ev_authorized_phase_spec_digests r) (ev_installed_policy r)
    (ev_source_attestation_digest r) (ev_source_sequence r)
    (ev_source_gate_proof_digest r) (ev_drain_evidence_digest r)
    (ev_source_export_digest r) (ev_prefetch_evidence_digest r) (ev_ci_evidence_digest r)
    (ev_build_plan_digest r) (ev_deployment_plan_digest r) (ev_release_bundle_digest r)
    (ev_resource_reservation_digest r) (ev_build_context_digest r)
    (ev_generated_output_digests r) (ev_image_digest r) (ev_image_id_digest r)
    (ev_base_image_digests r) (ev_schema_version r) (ev_backup_id r) (ev_backup_set_id r)
    (ev_base_backup_id r) (ev_base_backup_manifest_digest r)
    (ev_base_backup_evidence_digest r) (ev_base_backup_offsite_evidence_digest r)
    (ev_base_backup_verification_digest r) (ev_cutover_backup_id r)
    (ev_cutover_backup_manifest_digest r) (ev_cutover_backup_evidence_digest r)
    (ev_cutover_backup_verification_digest r) (ev_previous_release_bundle_digest r)
    (ev_health_evidence_digest r) (ev_rollback_health_evidence_digest r)
    (ev_action_grant_digest r) (ev_fencing_epoch r)
    (ev_fence_acquisition_receipt_digest r) (ev_recovery_mode r) (ev_transitions r).

Definition OperationEvidence_default : OperationEvidence := {|
  ev_authorized_phase_spec_digests := [];
  ev_installed_policy := None;
  ev_source_attestation_digest := None;
  ev_source_sequence := None;
  ev_source_gate_proof_digest := None;
  ev_drain_evidence_digest := None;
  ev_source_export_digest := None;
  ev_prefetch_evidence_digest := None;
  ev_ci_evidence_digest := None;
  ev_build_plan_digest := None;
  ev_deployment_plan_digest := None;
  ev_release_bundle_digest := None;
  ev_resource_reservation_digest := None;
  ev_build_context_digest := None;
  ev_generated_output_digests := [];
  ev_image_digest := None;
  ev_image_id_digest := None;
  ev_base_image_digests := [];
  ev_schema_version := None;
  ev_backup_id := None;
  ev_backup_set_id := None;
  ev_base_backup_id := None;
  ev_base_backup_manifest_digest := None;
  ev_base_backup_evidence_digest := None;
  ev_base_backup_offsite_evidence_digest := None;
  ev_base_backup_verification_digest := None;
  ev_cutover_backup_id := None;
  ev_cutover_backup_manifest_digest := None;
  ev_cutover_backup_evidence_digest := None;
  ev_cutover_backup_verification_digest := None;
  ev_previous_release_bundle_digest := None;
  ev_health_evidence_digest := None;
  ev_rollback_health_evidence_digest := None;
  ev_action_grant_digest := None;
  ev_fencing_epoch := None;
  ev_fence_acquisition_receipt_digest := None;
  ev_recovery_mode := None;
  ev_transitions := []
|}.

Record OperationRecord : Type := MkOperationRecord {
  op_operation_id : Uuid;
  op_request_id : Uuid;
  op_attempt_id : Uuid;
  op_attempt_number : Z;
  op_project_id : ProjectId;
  op_operation_kind : OperationKind;
  op_target_commit : option GitCommitId;
  op_release_class : option ReleaseClass;
  op_state : OperationState;
  op_actor : OperationActor;
  op_evidence : OperationEvidence;
  op_failure_capsule : option FailureCapsule;
  op_created_at_ms : Z;
  op_updated_at_ms : Z
}.

#[global] Instance OperationRecord_eq_dec : EqDecision OperationRecord.
Proof. solve_decision. Defined.
#[global] Instance OperationRecord_eta : Eta OperationRecord := λ r,
  MkOperationRecord (op_operation_id r) (op_request_id r) (op_attempt_id r) (op_attempt_number r)
    (op_project_id r) (op_operation_kind r) (op_target_commit r) (op_release_class r)
    (op_state r) (op_actor r) (op_evidence r) (op_failure_capsule r) (op_created_at_ms r)
    (op_updated_at_ms r).

(** ** Phase artifacts and their contract *)

Record PhaseArtifacts : Type := MkPhaseArtifacts {
  pa_authorized_phase_spec_digest : option EvidenceDigest;
  pa_source_gate_proof_digest : option EvidenceDigest;
  pa_drain_evidence_digest : option EvidenceDigest;
  pa_source_export_digest : option EvidenceDigest;
  pa_prefetch_evidence_digest : option EvidenceDigest;
  pa_ci_evidence_digest : option EvidenceDigest;
  pa_build_plan_digest : option EvidenceDigest;
  pa_deployment_plan_digest : option EvidenceDigest;
  pa_release_bundle_digest : option EvidenceDigest;
  pa_resource_reservation_digest : option EvidenceDigest;
  pa_build_context_digest : option EvidenceDigest;
  pa_generated_output_digests : list EvidenceDigest;
  pa_image_digest : option EvidenceDigest;
  pa_image_id_digest : option EvidenceDigest;
  pa_base_image_digests : list EvidenceDigest;
  pa_schema_version : option string;
  pa_backup_id : option Uuid;
  pa_backup_set_id : option Uuid;
  pa_base_backup_id : option Uuid;
  pa_base_backup_manifest_digest : option EvidenceDigest;
  pa_base_backup_evidence_digest : option EvidenceDigest;
  pa_base_backup_offsite_evidence_digest : option EvidenceDigest;
  pa_base_backup_verification_digest : option EvidenceDigest;
  pa_cutover_backup_id : option Uuid;
  pa_cutover_backup_manifest_digest : option EvidenceDigest;
  pa_cutover_backup_evidence_digest : option EvidenceDigest;
  pa_cutover_backup_verification_digest : option EvidenceDigest;
  pa_previous_release_bundle_digest : option EvidenceDigest;
  pa_health_evidence_digest : option EvidenceDigest;
  pa_fencing_epoch : option Z
}.

#[global] Instance PhaseArtifacts_eq_dec : EqDecision PhaseArtifacts.
Proof. solve_decision. Defined.
#[global] Instance PhaseArtifacts_eta : Eta PhaseArtifacts := λ r,
  MkPhaseArtifacts (pa_authorized_phase_spec_digest r) (pa_source_gate_proof_digest r)
    (pa_drain_evidence_digest r) (pa_source_export_digest r)
    (pa_prefetch_evidence_digest r) (pa_ci_evidence_digest r) (pa_build_plan_digest r)
    (pa_deployment_plan_digest r) (pa_release_bundle_digest r)
    (pa_resource_reservation_digest r) (pa_build_context_digest r)
    (pa_generated_output_digests r) (pa_image_digest r) (pa_image_id_digest r)
    (pa_base_image_digests r) (pa_schema_version r) (pa_backup_id r) (pa_backup_set_id r)
    (pa_base_backup_id r) (pa_base_backup_manifest_digest r)
    (pa_base_backup_evidence_digest r) (pa_base_backup_offsite_evidence_digest r)
    (pa_base_backup_verification_digest r) (pa_cutover_backup_id r)
    (pa_cutover_backup_manifest_digest r) (pa_cutover_backup_evidence_digest r)
    (pa_cutover_backup_verification_digest r) (pa_previous_release_bundle_digest r)
    (pa_health_evidence_digest r) (pa_fencing_epoch r).

Definition PhaseArtifacts_default : PhaseArtifacts := {|
  pa_authorized_phase_spec_digest := None;
  pa_source_gate_proof_digest := None;
  pa_drain_evidence_digest := None;
  pa_source_export_digest := None;
  pa_prefetch_evidence_digest := None;
  pa_ci_evidence_digest := None;
  pa_build_plan_digest := None;
  pa_deployment_plan_digest := None;
  pa_release_bundle_digest := None;
  pa_resource_reservation_digest := None;
  pa_build_context_digest := None;
  pa_generated_output_digests := [];
  pa_image_digest := None;
  pa_image_id_digest := None;
  pa_base_image_digests := [];
  pa_schema_version := None;
  pa_backup_id := None;
  pa_backup_set_id := None;
  pa_base_backup_id := None;
  pa_base_backup_manifest_digest := None;
  pa_base_backup_evidence_digest := None;
  pa_base_backup_offsite_evidence_digest := None;
  pa_base_backup_verification_digest := None;
  pa_cutover_backup_id := None;
  pa_cutover_backup_manifest_digest := None;
  pa_cutover_backup_evidence_digest := None;
  pa_cutover_backup_verification_digest := None;
  pa_previous_release_bundle_digest := None;
  pa_health_evidence_digest := None;
  pa_fencing_epoch := None
|}.

Inductive ArtifactContractError : Type :=
| MissingRequiredEvidence (phase : OperationPhase)
| UnexpectedEvidence (phase : OperationPhase).

#[global] Instance ArtifactContractError_eq_dec : EqDecision ArtifactContractError.
Proof. solve_decision. Defined.

Definition contains_only_phase_artifacts (artifacts : PhaseArtifacts)
    (phase : OperationPhase) : bool :=
  let unexpected := artifacts <| pa_authorized_phase_spec_digest := None |> in
  let unexpected :=
    match phase with
    | Phase_Testing => unexpected
        <| pa_source_export_digest := None |>
        <| pa_prefetch_evidence_digest := None |>
        <| pa_ci_evidence_digest := None |>
        <| pa_resource_reservation_digest := None |>
        <| pa_build_context_digest := None |>
        <| pa_generated_output_digests := [] |>
        <| pa_base_image_digests := [] |>
    | Phase_Building => unexpected
        <| pa_build_context_digest := None |>
        <| pa_build_plan_digest := None |>
        <| pa_image_digest := None |>
        <| pa_image_id_digest := None |>
        <| pa_base_image_digests := [] |>
    | Phase_Preflight => unexpected
        <| pa_resource_reservation_digest := None |>
    | Phase_BackingUp => unexpected
        <| pa_source_gate_proof_digest := None |>
        <| pa_backup_set_id := None |>
        <| pa_base_backup_id := None |>
        <| pa_base_backup_manifest_digest := None |>
        <| pa_base_backup_evidence_digest := None |>
        <| pa_base_backup_offsite_evidence_digest := None |>
        <| pa_base_backup_verification_digest := None |>
    | Phase_Draining => unexpected
        <| pa_source_gate_proof_digest := None |>
        <| pa_drain_evidence_digest := None |>
    | Phase_CutoverSnapshotting => unexpected
        <| pa_backup_set_id := None |>
        <| pa_cutover_backup_id := None |>
        <| pa_cutover_backup_manifest_digest := None |>
        <| pa_cutover_backup_evidence_digest := None |>
        <| pa_cutover_backup_verification_digest := None |>
        <| pa_fencing_epoch := None |>
    | Phase_Migrating => unexpected
        <| pa_schema_version := None |>
    | Phase_Deploying => unexpected
        <| pa_source_gate_proof_digest := None |>
        <| pa_deployment_plan_digest := None |>
        <| pa_release_bundle_digest := None |>
        <| pa_previous_release_bundle_digest := None |>
    | Phase_HealthChecking | Phase_Soaking => unexpected
        <| pa_health_evidence_digest := None |>
    | Phase_Rollback => unexpected
        <| pa_previous_release_bundle_digest := None |>
    | Phase_Queued | Phase_SyncingSource | Phase_VerifyingSource
    | Phase_Reconciliation => unexpected
    end in
  unexpected == PhaseArtifacts_default.

Definition required_phase_artifacts (a : PhaseArtifacts) (phase : OperationPhase) : bool :=
  match phase with
  | Phase_Testing =>
      forallb is_some [pa_source_export_digest a; pa_prefetch_evidence_digest a;
        pa_ci_evidence_digest a; pa_build_context_digest a; pa_resource_reservation_digest a]
      && (pa_base_image_digests a != [])
  | Phase_Building =>
      forallb is_some [pa_build_context_digest a; pa_build_plan_digest a; pa_image_digest a;
        pa_image_id_digest a]
      && (pa_base_image_digests a != [])
  | Phase_Preflight => is_some (pa_resource_reservation_digest a)
  | Phase_Draining =>
      is_some (pa_source_gate_proof_digest a) && is_some (pa_drain_evidence_digest a)
  | Phase_Deploying =>
      is_some (pa_deployment_plan_digest a) && is_some (pa_release_bundle_digest a)
  | Phase_BackingUp =>
      forallb id [is_some (pa_backup_set_id a); is_some (pa_base_backup_id a);
        is_some (pa_base_backup_manifest_digest a); is_some (pa_base_backup_evidence_digest a);
        is_some (pa_base_backup_offsite_evidence_digest a);
        is_some (pa_base_backup_verification_digest a)]
  | Phase_CutoverSnapshotting =>
      forallb id [is_some (pa_backup_set_id a); is_some (pa_cutover_backup_id a);
        is_some (pa_cutover_backup_manifest_digest a);
        is_some (pa_cutover_backup_evidence_digest a);
        is_some (pa_cutover_backup_verification_digest a); is_some (pa_fencing_epoch a)]
  | Phase_Migrating => is_some (pa_schema_version a)
  | Phase_HealthChecking => is_some (pa_health_evidence_digest a)
  | Phase_Soaking | Phase_Rollback | Phase_Queued | Phase_SyncingSource
  | Phase_VerifyingSource | Phase_Reconciliation => true
  end.

Definition validate_for_phase (artifacts : PhaseArtifacts) (phase : OperationPhase)
    : Result ArtifactContractError unit :=
  let required := required_phase_artifacts artifacts phase in
  if required && contains_only_phase_artifacts artifacts phase then Ok tt
  else if required then Err (UnexpectedEvidence phase)
  else Err (MissingRequiredEvidence phase).

(** ** Phase receipts *)

Record PhaseReceipt : Type := MkPhaseReceipt {
  pr_attempt_id : Uuid;
  pr_phase : OperationPhase;
  pr_branch : ExecutorPhaseBranch;
  pr_intent_digest : EvidenceDigest;
  pr_observation_digest : EvidenceDigest;
  pr_artifacts : PhaseArtifacts;
  pr_receipt_digest : EvidenceDigest;
  pr_committed_at_ms : Z
}.

#[global] Instance PhaseReceipt_eq_dec : EqDecision PhaseReceipt.
Proof. solve_decision. Defined.
#[global] Instance PhaseReceipt_eta : Eta PhaseReceipt := λ r,
  MkPhaseReceipt (pr_attempt_id r) (pr_phase r) (pr_branch r) (pr_intent_digest r)
    (pr_observation_digest r) (pr_artifacts r) (pr_receipt_digest r) (pr_committed_at_ms r).

Record ReceiptDigestPayload : Type := MkReceiptDigestPayload {
  rdp_attempt_id : Uuid;
  rdp_phase : OperationPhase;
  rdp_branch : ExecutorPhaseBranch;
  rdp_intent_digest : EvidenceDigest;
  rdp_observation_digest : EvidenceDigest;
  rdp_artifacts : PhaseArtifacts;
  rdp_committed_at_ms : Z
}.

Section PhaseReceipts.
Context `{Sha256, Jcs ReceiptDigestPayload}.

Definition receipt_digest (attempt_id : Uuid) (phase : OperationPhase)
    (branch : ExecutorPhaseBranch) (intent_digest observation_digest : EvidenceDigest)
    (artifacts : PhaseArtifacts) (committed_at_ms : Z) : Result SerdeError EvidenceDigest :=
  let? canonical := jcs_to_vec {|
    rdp_attempt_id := attempt_id;
    rdp_phase := phase;
    rdp_branch := branch;
    rdp_intent_digest := intent_digest;
    rdp_observation_digest := observation_digest;
    rdp_artifacts := artifacts;
    rdp_committed_at_ms := committed_at_ms
  |} in
  Ok (EvidenceDigest_sha256 canonical).

Definition PhaseReceipt_new (attempt_id : Uuid) (phase : OperationPhase)
    (branch : ExecutorPhaseBranch) (intent_digest observation_digest : EvidenceDigest)
    (artifacts : PhaseArtifacts) (committed_at_ms : Z) : Result SerdeError PhaseReceipt :=
  let? receipt_digest := receipt_digest attempt_id phase branch intent_digest
                           observation_digest artifacts committed_at_ms in
  Ok {|
    pr_attempt_id := attempt_id;
    pr_phase := phase;
    pr_branch := branch;
    pr_intent_digest := intent_digest;
    pr_observation_digest := observation_digest;
    pr_artifacts := artifacts;
    pr_receipt_digest := receipt_digest;
    pr_committed_at_ms := committed_at_ms
  |}.

Definition PhaseReceipt_has_valid_digest (receipt : PhaseReceipt) : Result SerdeError bool :=
  let? digest := receipt_digest (pr_attempt_id receipt) (pr_phase receipt) (pr_branch receipt)
                   (pr_intent_digest receipt) (pr_observation_digest receipt)
                   (pr_artifacts receipt) (pr_committed_at_ms receipt) in
  Ok (pr_receipt_digest receipt == digest).
End PhaseReceipts.

(** ** Fence acquisition receipts *)

Record FenceAcquisitionReceiptV1 : Type := MkFenceAcquisitionReceiptV1 {
  far_schema_version : Z;
  far_project_id : ProjectId;
  far_attempt_id : Uuid;
  far_epoch : Z;
  far_lease_digest : EvidenceDigest;
  far_acquired_at_ms : Z;
  far_receipt_digest : EvidenceDigest
}.

#[global] Instance FenceAcquisitionReceiptV1_eq_dec : EqDecision FenceAcquisitionReceiptV1.
Proof. solve_decision. Defined.
#[global] Instance FenceAcquisitionReceiptV1_eta : Eta FenceAcquisitionReceiptV1 := λ r,
  MkFenceAcquisitionReceiptV1 (far_schema_version r) (far_project_id r) (far_attempt_id r)
    (far_epoch r) (far_lease_digest r) (far_acquired_at_ms r) (far_receipt_digest r).

Record FenceAcquisitionReceiptDigestPayload : Type := MkFenceAcquisitionReceiptDigestPayload {
  fdp_purpose : string;
  fdp_schema_version : Z;
  fdp_project_id : ProjectId;
  fdp_attempt_id : Uuid;
  fdp_epoch : Z;
  fdp_lease_digest : EvidenceDigest;
  fdp_acquired_at_ms : Z
}.

Inductive FenceAcquisitionReceiptError : Type :=
| Fence_InvalidDocument
| Fence_DigestMismatch
| Fence_CanonicalEncoding (e : SerdeError).

Section FenceReceipts.
Context `{Sha256, Jcs FenceAcquisitionReceiptDigestPayload, Jcs FenceAcquisitionReceiptV1,
  JsonSlice FenceAcquisitionReceiptV1}.

Definition FenceReceipt_calculate_digest (receipt : FenceAcquisitionReceiptV1)
    : Result FenceAcquisitionReceiptError EvidenceDigest :=
  let? bytes := map_err Fence_CanonicalEncoding (jcs_to_vec {|
    fdp_purpose := "rdashboard.fence-acquisition-receipt.v1";
    fdp_schema_version := far_schema_version receipt;
    fdp_project_id := far_project_id receipt;
    fdp_attempt_id := far_attempt_id receipt;
    fdp_epoch := far_epoch receipt;
    fdp_lease_digest := far_lease_digest receipt;
    fdp_acquired_at_ms := far_acquired_at_ms receipt
  |}) in
  Ok (EvidenceDigest_sha256 bytes).

Definition FenceReceipt_new (project_id : ProjectId) (attempt_id : Uuid) (epoch : Z)
    (lease_digest : EvidenceDigest) (acquired_at_ms : Z)
    : Result FenceAcquisitionReceiptError FenceAcquisitionReceiptV1 :=
  if is_nil attempt_id || (epoch =? 0) || (acquired_at_ms <? 0)
  then Err Fence_InvalidDocument
  else
    let receipt := {|
      far_schema_version := FENCE_ACQUISITION_RECEIPT_SCHEMA_VERSION;
      far_project_id := project_id;
      far_attempt_id := attempt_id;
      far_epoch := epoch;
      far_lease_digest := lease_digest;
      far_acquired_at_ms := acquired_at_ms;
      far_receipt_digest := EvidenceDigest_sha256 []
    |} in
    let? digest := FenceReceipt_calculate_digest receipt in
    Ok (receipt <| far_receipt_digest := digest |>).

Definition FenceReceipt_has_valid_digest (receipt : FenceAcquisitionReceiptV1)
    : Result FenceAcquisitionReceiptError bool :=
  if (far_schema_version receipt != FENCE_ACQUISITION_RECEIPT_SCHEMA_VERSION)
     || is_nil (far_attempt_id receipt) || (far_epoch receipt =? 0)
     || (far_acquired_at_ms receipt <? 0)
  then Ok false
  else
    let? digest := FenceReceipt_calculate_digest receipt in
    Ok (far_receipt_digest receipt == digest).

Definition FenceReceipt_canonical_bytes (receipt : FenceAcquisitionReceiptV1)
    : Result FenceAcquisitionReceiptError (list Z) :=
  let? valid := FenceReceipt_has_valid_digest receipt in
  if negb valid then Err Fence_DigestMismatch
  else map_err Fence_CanonicalEncoding (jcs_to_vec receipt).

Definition FenceReceipt_decode_canonical (bytes : list Z)
    : Result FenceAcquisitionReceiptError FenceAcquisitionReceiptV1 :=
  let? receipt := map_err Fence_CanonicalEncoding (json_from_slice bytes) in
  let? encoded := map_err Fence_CanonicalEncoding (jcs_to_vec receipt) in
  if encoded != bytes then Err Fence_InvalidDocument
  else
    let? valid := FenceReceipt_has_valid_digest receipt in
    if negb valid then Err Fence_DigestMismatch else Ok receipt.
End FenceReceipts.
