(* ===== verification/Workflow.v ===== *)
(** * Workflow contracts

    Model of [src/src/domain/workflow.rs]: the policy graph of a project's workflow
    (nodes with their kinds, execution profiles and dependencies), its validation,
    the order in which nodes run, and the documents the scheduler, the workers and
    the executor exchange: leases, node receipts, cleanup receipts and reduction
    receipts, each with its canonical encoding and a digest over its content. *)

From Stdlib Require Import ZArith Lia Ascii String.
From stdpp Require Import base gmap strings option list_numbers list.
From S2P Require Import Prelude Identifiers Text Ordered.

Local Open Scope Z_scope.

Definition WORKFLOW_POLICY_SCHEMA_VERSION : Z := 1.
Definition WORKFLOW_LEASE_SCHEMA_VERSION : Z := 1.
Definition WORKFLOW_NODE_RECEIPT_SCHEMA_VERSION : Z := 1.
Definition WORKFLOW_CLEANUP_RECEIPT_SCHEMA_VERSION : Z := 1.
Definition WORKFLOW_REDUCTION_RECEIPT_SCHEMA_VERSION : Z := 1.
Definition WORKFLOW_HOST_PREPARATION_SCHEMA_VERSION : Z := 2.
Definition WORKFLOW_OPERATION_STATE_SCHEMA_VERSION : Z := 1.

Definition MAX_WORKFLOW_NODES : nat := 64.
Definition MAX_WORKFLOW_PROFILES : nat := 32.
Definition MAX_IDENTITY_BYTES : Z := 96.
Definition MIN_MEMORY_BYTES : Z := 64 * 1024 * 1024.
Definition MAX_MEMORY_BYTES : Z := 64 * 1024 * 1024 * 1024.
Definition MAX_SCRATCH_BYTES : Z := 1024 * 1024 * 1024 * 1024.
Definition MAX_OUTPUT_BYTES : Z := 64 * 1024 * 1024 * 1024.
Definition MAX_OPERATION_STATE_BYTES : Z := 8 * 1024 * 1024 * 1024.
Definition MAX_OPERATION_STATE_INODES : Z := 1000000.

(** ** Data *)

Inductive WorkflowNodeId : Type := MkWorkflowNodeId (s : string).
Definition WorkflowNodeId_as_str (value : WorkflowNodeId) : string := match value with MkWorkflowNodeId s => s end.
#[global] Instance WorkflowNodeId_eq_dec : EqDecision WorkflowNodeId.
Proof. solve_decision. Defined.
#[global] Instance WorkflowNodeId_countable : Countable WorkflowNodeId.
Proof. by refine (inj_countable' WorkflowNodeId_as_str MkWorkflowNodeId _); intros []. Defined.

Inductive WorkflowProfileId : Type := MkWorkflowProfileId (s : string).
Definition WorkflowProfileId_as_str (value : WorkflowProfileId) : string := match value with MkWorkflowProfileId s => s end.
#[global] Instance WorkflowProfileId_eq_dec : EqDecision WorkflowProfileId.
Proof. solve_decision. Defined.
#[global] Instance WorkflowProfileId_countable : Countable WorkflowProfileId.
Proof. by refine (inj_countable' WorkflowProfileId_as_str MkWorkflowProfileId _); intros []. Defined.

Inductive WorkflowOciDigest : Type := MkWorkflowOciDigest (s : string).
Definition WorkflowOciDigest_as_str (value : WorkflowOciDigest) : string := match value with MkWorkflowOciDigest s => s end.
#[global] Instance WorkflowOciDigest_eq_dec : EqDecision WorkflowOciDigest.
Proof. solve_decision. Defined.
#[global] Instance WorkflowOciDigest_countable : Countable WorkflowOciDigest.
Proof. by refine (inj_countable' WorkflowOciDigest_as_str MkWorkflowOciDigest _); intros []. Defined.

Inductive WorkflowNodeKindV1 : Type :=
| Node_SourceAdmission
| Node_HostPrepare
| Node_Verification
| Node_ReleaseBuild
| Node_DeterministicReduce
| Node_ResourceReservation
| Node_Backup
| Node_Migration
| Node_CandidateHealth
| Node_Cutover
| Node_ReleasedObservation
| Node_Rollback.

#[global] Instance WorkflowNodeKindV1_eq_dec : EqDecision WorkflowNodeKindV1.
Proof. solve_decision. Defined.

Inductive WorkflowNodeActivationV1 : Type :=
| Activation_Always
| Activation_OnMutationFailure.

#[global] Instance WorkflowNodeActivationV1_eq_dec : EqDecision WorkflowNodeActivationV1.
Proof. solve_decision. Defined.

Inductive WorkflowAdapterIdV1 : Type :=
| Adapter_ControllerSourceAdmissionV1
| Adapter_WorkerHostPrepareV1
| Adapter_WorkerBareBinCiV1
| Adapter_WorkerNativeReleaseBuildV1
| Adapter_WorkerOciReleaseBuildV1
| Adapter_ControllerReduceV1
| Adapter_ExecutorResourceReserveV1
| Adapter_ExecutorBackupV1
| Adapter_ExecutorMigrationV1
| Adapter_ExecutorCandidateHealthV1
| Adapter_ExecutorCutoverV1
| Adapter_ExecutorReleasedObserveV1
| Adapter_ExecutorRollbackV1.

#[global] Instance WorkflowAdapterIdV1_eq_dec : EqDecision WorkflowAdapterIdV1.
Proof. solve_decision. Defined.

Inductive WorkflowWorkerPoolV1 : Type :=
| Pool_Controller
| Pool_VpsRequired
| Pool_BuildCompute
| Pool_PrivilegedExecutor.

#[global] Instance WorkflowWorkerPoolV1_eq_dec : EqDecision WorkflowWorkerPoolV1.
Proof. solve_decision. Defined.

Inductive WorkflowNetworkClassV1 : Type :=
| Network_Offline
| Network_DependencyEgress
| Network_LocalHealthOnly.

#[global] Instance WorkflowNetworkClassV1_eq_dec : EqDecision WorkflowNetworkClassV1.
Proof. solve_decision. Defined.

Inductive WorkflowCacheClassV1 : Type :=
| Cache_None
| Cache_Dependency
| Cache_PreparedRun.

#[global] Instance WorkflowCacheClassV1_eq_dec : EqDecision WorkflowCacheClassV1.
Proof. solve_decision. Defined.

Inductive WorkflowDeliveryModeV1 : Type :=
| Delivery_ExecutorMutation
| Delivery_SelfUpdateHandoff.

#[global] Instance WorkflowDeliveryModeV1_eq_dec : EqDecision WorkflowDeliveryModeV1.
Proof. solve_decision. Defined.

Inductive WorkflowHostPreparationAdapterV1 : Type :=
| Preparation_CargoCratesIoV1
| Preparation_SourceTreeV1.

#[global] Instance WorkflowHostPreparationAdapterV1_eq_dec : EqDecision WorkflowHostPreparationAdapterV1.
Proof. solve_decision. Defined.

Inductive WorkflowArtifactKindV1 : Type :=
| Artifact_SourceSnapshot
| Artifact_PreparedRun
| Artifact_VerificationReceipt
| Artifact_ReleaseBuildResult
| Artifact_ReleaseBundle
| Artifact_ReductionReceipt
| Artifact_ResourceReservation
| Artifact_BackupReceipt
| Artifact_MigrationReceipt
| Artifact_CandidateHealthReceipt
| Artifact_CutoverReceipt
| Artifact_ReleasedObservationReceipt
| Artifact_RollbackReceipt.

#[global] Instance WorkflowArtifactKindV1_eq_dec : EqDecision WorkflowArtifactKindV1.
Proof. solve_decision. Defined.

(** The position of a variant, which the derived [Ord] compares. *)
Definition artifact_kind_index (kind : WorkflowArtifactKindV1) : Z :=
  match kind with
  | Artifact_SourceSnapshot => 0
  | Artifact_PreparedRun => 1
  | Artifact_VerificationReceipt => 2
  | Artifact_ReleaseBuildResult => 3
  | Artifact_ReleaseBundle => 4
  | Artifact_ReductionReceipt => 5
  | Artifact_ResourceReservation => 6
  | Artifact_BackupReceipt => 7
  | Artifact_MigrationReceipt => 8
  | Artifact_CandidateHealthReceipt => 9
  | Artifact_CutoverReceipt => 10
  | Artifact_ReleasedObservationReceipt => 11
  | Artifact_RollbackReceipt => 12
  end.

Definition artifact_kind_of_index (index : Z) : option WorkflowArtifactKindV1 :=
  [Artifact_SourceSnapshot; Artifact_PreparedRun; Artifact_VerificationReceipt;
   Artifact_ReleaseBuildResult; Artifact_ReleaseBundle; Artifact_ReductionReceipt;
   Artifact_ResourceReservation; Artifact_BackupReceipt; Artifact_MigrationReceipt;
   Artifact_CandidateHealthReceipt; Artifact_CutoverReceipt; Artifact_ReleasedObservationReceipt;
   Artifact_RollbackReceipt] !! Z.to_nat index.

#[global] Instance WorkflowArtifactKindV1_countable : Countable WorkflowArtifactKindV1.
Proof. by refine (inj_countable artifact_kind_index artifact_kind_of_index _); intros []. Defined.

Inductive WorkflowNodeOutcomeV1 : Type :=
| NodeOutcome_Succeeded
| NodeOutcome_Failed.

#[global] Instance WorkflowNodeOutcomeV1_eq_dec : EqDecision WorkflowNodeOutcomeV1.
Proof. solve_decision. Defined.

Inductive WorkflowCleanupResultV1 : Type :=
| NodeCleanup_Complete
| NodeCleanup_Pending.

#[global] Instance WorkflowCleanupResultV1_eq_dec : EqDecision WorkflowCleanupResultV1.
Proof. solve_decision. Defined.

Record WorkflowOciBaseInputV1 : Type := MkWorkflowOciBaseInputV1 {
  wob_source : string;
  wob_layout_name : string;
  wob_manifest_digest : WorkflowOciDigest
}.

#[global] Instance WorkflowOciBaseInputV1_eq_dec : EqDecision WorkflowOciBaseInputV1.
Proof. solve_decision. Defined.
#[global] Instance WorkflowOciBaseInputV1_eta : Eta WorkflowOciBaseInputV1 := λ r,
  MkWorkflowOciBaseInputV1 (wob_source r) (wob_layout_name r) (wob_manifest_digest r).

Record WorkflowHostPreparationPolicyV1 : Type := MkWorkflowHostPreparationPolicyV1 {
  whp_schema_version : Z;
  whp_adapter_id : WorkflowHostPreparationAdapterV1;
  whp_platform : string;
  whp_cpu_baseline : string;
  whp_abi : string;
  whp_toolchain_root : string;
  whp_toolchain_interface : string;
  whp_build_environment : list (string * string);
  whp_oci_bases : list WorkflowOciBaseInputV1
}.

#[global] Instance WorkflowHostPreparationPolicyV1_eq_dec : EqDecision WorkflowHostPreparationPolicyV1.
Proof. solve_decision. Defined.
#[global] Instance WorkflowHostPreparationPolicyV1_eta : Eta WorkflowHostPreparationPolicyV1 := λ r,
  MkWorkflowHostPreparationPolicyV1 (whp_schema_version r) (whp_adapter_id r) (whp_platform r)
  (whp_cpu_baseline r) (whp_abi r) (whp_toolchain_root r) (whp_toolchain_interface r)
  (whp_build_environment r) (whp_oci_bases r).

Record WorkflowResourceEnvelopeV1 : Type := MkWorkflowResourceEnvelopeV1 {
  wre_cpu_millicores : Z;
  wre_memory_max_bytes : Z;
  wre_tasks_max : Z;
  wre_scratch_max_bytes : Z;
  wre_scratch_max_inodes : Z;
  wre_output_max_bytes : Z
}.

#[global] Instance WorkflowResourceEnvelopeV1_eq_dec : EqDecision WorkflowResourceEnvelopeV1.
Proof. solve_decision. Defined.
#[global] Instance WorkflowResourceEnvelopeV1_eta : Eta WorkflowResourceEnvelopeV1 := λ r,
  MkWorkflowResourceEnvelopeV1 (wre_cpu_millicores r) (wre_memory_max_bytes r) (wre_tasks_max r)
  (wre_scratch_max_bytes r) (wre_scratch_max_inodes r) (wre_output_max_bytes r).

Record WorkflowExecutionProfileV1 : Type := MkWorkflowExecutionProfileV1 {
  wep_profile_id : WorkflowProfileId;
  wep_adapter_id : WorkflowAdapterIdV1;
  wep_worker_pool : WorkflowWorkerPoolV1;
  wep_network_class : WorkflowNetworkClassV1;
  wep_cache_class : WorkflowCacheClassV1;
  wep_timeout_ms : Z;
  wep_resources : option WorkflowResourceEnvelopeV1
}.

#[global] Instance WorkflowExecutionProfileV1_eq_dec : EqDecision WorkflowExecutionProfileV1.
Proof. solve_decision. Defined.
#[global] Instance WorkflowExecutionProfileV1_eta : Eta WorkflowExecutionProfileV1 := λ r,
  MkWorkflowExecutionProfileV1 (wep_profile_id r) (wep_adapter_id r) (wep_worker_pool r)
  (wep_network_class r) (wep_cache_class r) (wep_timeout_ms r) (wep_resources r).

Record WorkflowNodeV1 : Type := MkWorkflowNodeV1 {
  wn_node_id : WorkflowNodeId;
  wn_display_name : string;
  wn_kind : WorkflowNodeKindV1;
  wn_activation : WorkflowNodeActivationV1;
  wn_profile_id : WorkflowProfileId;
  wn_depends_on : list WorkflowNodeId;
  wn_input_contracts : list WorkflowArtifactKindV1;
  wn_output_contract : WorkflowArtifactKindV1
}.

#[global] Instance WorkflowNodeV1_eq_dec : EqDecision WorkflowNodeV1.
Proof. solve_decision. Defined.
#[global] Instance WorkflowNodeV1_eta : Eta WorkflowNodeV1 := λ r,
  MkWorkflowNodeV1 (wn_node_id r) (wn_display_name r) (wn_kind r) (wn_activation r)
  (wn_profile_id r) (wn_depends_on r) (wn_input_contracts r) (wn_output_contract r).

Record WorkflowPolicyV1 : Type := MkWorkflowPolicyV1 {
  wpol_schema_version : Z;
  wpol_fairness_weight : Z;
  wpol_delivery_mode : WorkflowDeliveryModeV1;
  wpol_execution_profiles : list WorkflowExecutionProfileV1;
  wpol_nodes : list WorkflowNodeV1
}.

#[global] Instance WorkflowPolicyV1_eq_dec : EqDecision WorkflowPolicyV1.
Proof. solve_decision. Defined.
#[global] Instance WorkflowPolicyV1_eta : Eta WorkflowPolicyV1 := λ r,
  MkWorkflowPolicyV1 (wpol_schema_version r) (wpol_fairness_weight r) (wpol_delivery_mode r)
  (wpol_execution_profiles r) (wpol_nodes r).

Record WorkflowSourceIdentityV1 : Type := MkWorkflowSourceIdentityV1 {
  wsi_sequence : Z;
  wsi_attestation_digest : EvidenceDigest
}.

#[global] Instance WorkflowSourceIdentityV1_eq_dec : EqDecision WorkflowSourceIdentityV1.
Proof. solve_decision. Defined.
#[global] Instance WorkflowSourceIdentityV1_eta : Eta WorkflowSourceIdentityV1 := λ r,
  MkWorkflowSourceIdentityV1 (wsi_sequence r) (wsi_attestation_digest r).

Record WorkflowLeaseInputV1 : Type := MkWorkflowLeaseInputV1 {
  wli_node_id : WorkflowNodeId;
  wli_artifact_kind : WorkflowArtifactKindV1;
  wli_output_digest : EvidenceDigest
}.

#[global] Instance WorkflowLeaseInputV1_eq_dec : EqDecision WorkflowLeaseInputV1.
Proof. solve_decision. Defined.
#[global] Instance WorkflowLeaseInputV1_eta : Eta WorkflowLeaseInputV1 := λ r,
  MkWorkflowLeaseInputV1 (wli_node_id r) (wli_artifact_kind r) (wli_output_digest r).

Record WorkflowOperationStateV1 : Type := MkWorkflowOperationStateV1 {
  wos_schema_version : Z;
  wos_state_key : EvidenceDigest;
  wos_consumer_nodes : list WorkflowNodeId;
  wos_max_bytes : Z;
  wos_max_inodes : Z
}.

#[global] Instance WorkflowOperationStateV1_eq_dec : EqDecision WorkflowOperationStateV1.
Proof. solve_decision. Defined.
#[global] Instance WorkflowOperationStateV1_eta : Eta WorkflowOperationStateV1 := λ r,
  MkWorkflowOperationStateV1 (wos_schema_version r) (wos_state_key r) (wos_consumer_nodes r)
  (wos_max_bytes r) (wos_max_inodes r).

Record WorkflowLeaseV1 : Type := MkWorkflowLeaseV1 {
  wl_schema_version : Z;
  wl_lease_id : Uuid;
  wl_lease_generation : Z;
  wl_request_id : Uuid;
  wl_attempt_id : Uuid;
  wl_project_id : ProjectId;
  wl_source_sha : GitCommitId;
  wl_source_identity : option WorkflowSourceIdentityV1;
  wl_workflow_policy_digest : EvidenceDigest;
  wl_preparation_key : EvidenceDigest;
  wl_node_id : WorkflowNodeId;
  wl_node_kind : WorkflowNodeKindV1;
  wl_profile_id : WorkflowProfileId;
  wl_adapter_id : WorkflowAdapterIdV1;
  wl_worker_pool : WorkflowWorkerPoolV1;
  wl_network_class : WorkflowNetworkClassV1;
  wl_cache_class : WorkflowCacheClassV1;
  wl_timeout_ms : Z;
  wl_resources : option WorkflowResourceEnvelopeV1;
  wl_host_preparation : option WorkflowHostPreparationPolicyV1;
  wl_operation_state : option WorkflowOperationStateV1;
  wl_input_contracts : list WorkflowArtifactKindV1;
  wl_input_artifacts : list WorkflowLeaseInputV1;
  wl_output_contract : WorkflowArtifactKindV1;
  wl_expected_input_digest : EvidenceDigest;
  wl_worker_id : string;
  wl_host_id : string;
  wl_leased_at_ms : Z;
  wl_expires_at_ms : Z;
  wl_lease_digest : EvidenceDigest
}.

#[global] Instance WorkflowLeaseV1_eq_dec : EqDecision WorkflowLeaseV1.
Proof. solve_decision. Defined.
#[global] Instance WorkflowLeaseV1_eta : Eta WorkflowLeaseV1 := λ r,
  MkWorkflowLeaseV1 (wl_schema_version r) (wl_lease_id r) (wl_lease_generation r)
  (wl_request_id r) (wl_attempt_id r) (wl_project_id r) (wl_source_sha r) (wl_source_identity r)
  (wl_workflow_policy_digest r) (wl_preparation_key r) (wl_node_id r) (wl_node_kind r)
  (wl_profile_id r) (wl_adapter_id r) (wl_worker_pool r) (wl_network_class r) (wl_cache_class r)
  (wl_timeout_ms r) (wl_resources r) (wl_host_preparation r) (wl_operation_state r)
  (wl_input_contracts r) (wl_input_artifacts r) (wl_output_contract r)
  (wl_expected_input_digest r) (wl_worker_id r) (wl_host_id r) (wl_leased_at_ms r)
  (wl_expires_at_ms r) (wl_lease_digest r).

Record WorkflowNodeReceiptV1 : Type := MkWorkflowNodeReceiptV1 {
  wnr_schema_version : Z;
  wnr_lease_digest : EvidenceDigest;
  wnr_lease_id : Uuid;
  wnr_lease_generation : Z;
  wnr_request_id : Uuid;
  wnr_attempt_id : Uuid;
  wnr_project_id : ProjectId;
  wnr_source_sha : GitCommitId;
  wnr_workflow_policy_digest : EvidenceDigest;
  wnr_preparation_key : EvidenceDigest;
  wnr_node_id : WorkflowNodeId;
  wnr_node_kind : WorkflowNodeKindV1;
  wnr_worker_id : string;
  wnr_host_id : string;
  wnr_expected_input_digest : EvidenceDigest;
  wnr_outcome : WorkflowNodeOutcomeV1;
  wnr_output_digest : option EvidenceDigest;
  wnr_output_size_bytes : option Z;
  wnr_execution_receipt_digest : EvidenceDigest;
  wnr_cleanup_receipt_digest : EvidenceDigest;
  wnr_cleanup_result : WorkflowCleanupResultV1;
  wnr_completed_at_ms : Z;
  wnr_receipt_digest : EvidenceDigest
}.

#[global] Instance WorkflowNodeReceiptV1_eq_dec : EqDecision WorkflowNodeReceiptV1.
Proof. solve_decision. Defined.
#[global] Instance WorkflowNodeReceiptV1_eta : Eta WorkflowNodeReceiptV1 := λ r,
  MkWorkflowNodeReceiptV1 (wnr_schema_version r) (wnr_lease_digest r) (wnr_lease_id r)
  (wnr_lease_generation r) (wnr_request_id r) (wnr_attempt_id r) (wnr_project_id r)
  (wnr_source_sha r) (wnr_workflow_policy_digest r) (wnr_preparation_key r) (wnr_node_id r)
  (wnr_node_kind r) (wnr_worker_id r) (wnr_host_id r) (wnr_expected_input_digest r)
  (wnr_outcome r) (wnr_output_digest r) (wnr_output_size_bytes r)
  (wnr_execution_receipt_digest r) (wnr_cleanup_receipt_digest r) (wnr_cleanup_result r)
  (wnr_completed_at_ms r) (wnr_receipt_digest r).

Record WorkflowCleanupReceiptV1 : Type := MkWorkflowCleanupReceiptV1 {
  wcr_schema_version : Z;
  wcr_lease_digest : EvidenceDigest;
  wcr_lease_id : Uuid;
  wcr_lease_generation : Z;
  wcr_attempt_id : Uuid;
  wcr_project_id : ProjectId;
  wcr_node_id : WorkflowNodeId;
  wcr_worker_id : string;
  wcr_host_id : string;
  wcr_terminal_receipt_digest : option EvidenceDigest;
  wcr_cleanup_evidence_digest : EvidenceDigest;
  wcr_completed_at_ms : Z;
  wcr_receipt_digest : EvidenceDigest
}.

#[global] Instance WorkflowCleanupReceiptV1_eq_dec : EqDecision WorkflowCleanupReceiptV1.
Proof. solve_decision. Defined.
#[global] Instance WorkflowCleanupReceiptV1_eta : Eta WorkflowCleanupReceiptV1 := λ r,
  MkWorkflowCleanupReceiptV1 (wcr_schema_version r) (wcr_lease_digest r) (wcr_lease_id r)
  (wcr_lease_generation r) (wcr_attempt_id r) (wcr_project_id r) (wcr_node_id r)
  (wcr_worker_id r) (wcr_host_id r) (wcr_terminal_receipt_digest r)
  (wcr_cleanup_evidence_digest r) (wcr_completed_at_ms r) (wcr_receipt_digest r).

Record WorkflowReductionInputV1 : Type := MkWorkflowReductionInputV1 {
  wri_node_id : WorkflowNodeId;
  wri_node_kind : WorkflowNodeKindV1;
  wri_receipt_digest : EvidenceDigest;
  wri_output_digest : EvidenceDigest
}.

#[global] Instance WorkflowReductionInputV1_eq_dec : EqDecision WorkflowReductionInputV1.
Proof. solve_decision. Defined.
#[global] Instance WorkflowReductionInputV1_eta : Eta WorkflowReductionInputV1 := λ r,
  MkWorkflowReductionInputV1 (wri_node_id r) (wri_node_kind r) (wri_receipt_digest r)
  (wri_output_digest r).

Record WorkflowReductionReceiptV1 : Type := MkWorkflowReductionReceiptV1 {
  wrr_schema_version : Z;
  wrr_request_id : Uuid;
  wrr_attempt_id : Uuid;
  wrr_project_id : ProjectId;
  wrr_source_sha : GitCommitId;
  wrr_workflow_policy_digest : EvidenceDigest;
  wrr_preparation_key : EvidenceDigest;
  wrr_reduce_node_id : WorkflowNodeId;
  wrr_inputs : list WorkflowReductionInputV1;
  wrr_reduced_at_ms : Z;
  wrr_receipt_digest : EvidenceDigest
}.

#[global] Instance WorkflowReductionReceiptV1_eq_dec : EqDecision WorkflowReductionReceiptV1.
Proof. solve_decision. Defined.
#[global] Instance WorkflowReductionReceiptV1_eta : Eta WorkflowReductionReceiptV1 := λ r,
  MkWorkflowReductionReceiptV1 (wrr_schema_version r) (wrr_request_id r) (wrr_attempt_id r)
  (wrr_project_id r) (wrr_source_sha r) (wrr_workflow_policy_digest r) (wrr_preparation_key r)
  (wrr_reduce_node_id r) (wrr_inputs r) (wrr_reduced_at_ms r) (wrr_receipt_digest r).

(** The payloads of the digests. *)
Record WorkflowOperationStateKeyPayload : Type := MkWorkflowOperationStateKeyPayload {
  wosp_purpose : string;
  wosp_schema_version : Z;
  wosp_attempt_id : Uuid;
  wosp_project_id : ProjectId;
  wosp_source_sha : GitCommitId;
  wosp_workflow_policy_digest : EvidenceDigest;
  wosp_preparation_key : EvidenceDigest;
  wosp_worker_id : string;
  wosp_host_id : string;
  wosp_consumer_nodes : list WorkflowNodeId;
  wosp_max_bytes : Z;
  wosp_max_inodes : Z
}.

Record WorkflowLeaseDigestPayload : Type := MkWorkflowLeaseDigestPayload {
  wlp_purpose : string;
  wlp_schema_version : Z;
  wlp_lease_id : Uuid;
  wlp_lease_generation : Z;
  wlp_request_id : Uuid;
  wlp_attempt_id : Uuid;
  wlp_project_id : ProjectId;
  wlp_source_sha : GitCommitId;
  wlp_source_identity : option WorkflowSourceIdentityV1;
  wlp_workflow_policy_digest : EvidenceDigest;
  wlp_preparation_key : EvidenceDigest;
  wlp_node_id : WorkflowNodeId;
  wlp_node_kind : WorkflowNodeKindV1;
  wlp_profile_id : WorkflowProfileId;
  wlp_adapter_id : WorkflowAdapterIdV1;
  wlp_worker_pool : WorkflowWorkerPoolV1;
  wlp_network_class : WorkflowNetworkClassV1;
  wlp_cache_class : WorkflowCacheClassV1;
  wlp_timeout_ms : Z;
  wlp_resources : option WorkflowResourceEnvelopeV1;
  wlp_host_preparation : option WorkflowHostPreparationPolicyV1;
  wlp_operation_state : option WorkflowOperationStateV1;
  wlp_input_contracts : list WorkflowArtifactKindV1;
  wlp_input_artifacts : list WorkflowLeaseInputV1;
  wlp_output_contract : WorkflowArtifactKindV1;
  wlp_expected_input_digest : EvidenceDigest;
  wlp_worker_id : string;
  wlp_host_id : string;
  wlp_leased_at_ms : Z;
  wlp_expires_at_ms : Z
}.

Record WorkflowNodeReceiptDigestPayload : Type := MkWorkflowNodeReceiptDigestPayload {
  wnrp_purpose : string;
  wnrp_schema_version : Z;
  wnrp_lease_digest : EvidenceDigest;
  wnrp_lease_id : Uuid;
  wnrp_lease_generation : Z;
  wnrp_request_id : Uuid;
  wnrp_attempt_id : Uuid;
  wnrp_project_id : ProjectId;
  wnrp_source_sha : GitCommitId;
  wnrp_workflow_policy_digest : EvidenceDigest;
  wnrp_preparation_key : EvidenceDigest;
  wnrp_node_id : WorkflowNodeId;
  wnrp_node_kind : WorkflowNodeKindV1;
  wnrp_worker_id : string;
  wnrp_host_id : string;
  wnrp_expected_input_digest : EvidenceDigest;
  wnrp_outcome : WorkflowNodeOutcomeV1;
  wnrp_output_digest : option EvidenceDigest;
  wnrp_output_size_bytes : option Z;
  wnrp_execution_receipt_digest : EvidenceDigest;
  wnrp_cleanup_receipt_digest : EvidenceDigest;
  wnrp_cleanup_result : WorkflowCleanupResultV1;
  wnrp_completed_at_ms : Z
}.

Record WorkflowCleanupReceiptDigestPayload : Type := MkWorkflowCleanupReceiptDigestPayload {
  wcrp_purpose : string;
  wcrp_schema_version : Z;
  wcrp_lease_digest : EvidenceDigest;
  wcrp_lease_id : Uuid;
  wcrp_lease_generation : Z;
  wcrp_attempt_id : Uuid;
  wcrp_project_id : ProjectId;
  wcrp_node_id : WorkflowNodeId;
  wcrp_worker_id : string;
  wcrp_host_id : string;
  wcrp_terminal_receipt_digest : option EvidenceDigest;
  wcrp_cleanup_evidence_digest : EvidenceDigest;
  wcrp_completed_at_ms : Z
}.

Record WorkflowReductionDigestPayload : Type := MkWorkflowReductionDigestPayload {
  wrrp_purpose : string;
  wrrp_schema_version : Z;
  wrrp_request_id : Uuid;
  wrrp_attempt_id : Uuid;
  wrrp_project_id : ProjectId;
  wrrp_source_sha : GitCommitId;
  wrrp_workflow_policy_digest : EvidenceDigest;
  wrrp_preparation_key : EvidenceDigest;
  wrrp_reduce_node_id : WorkflowNodeId;
  wrrp_inputs : list WorkflowReductionInputV1;
  wrrp_reduced_at_ms : Z
}.

Inductive WorkflowContractError : Type :=
| Workflow_UnsupportedSchemaVersion (version : Z)
| Workflow_InvalidIdentifier (what : string)
| Workflow_InvalidDisplayName
| Workflow_InvalidWorkflowBounds
| Workflow_DuplicateProfile (profile_id : WorkflowProfileId)
| Workflow_MissingProfile (profile_id : WorkflowProfileId)
| Workflow_DuplicateNode (node_id : WorkflowNodeId)
| Workflow_MissingDependency (node dependency : WorkflowNodeId)
| Workflow_InvalidDependencies (node_id : WorkflowNodeId)
| Workflow_CyclicGraph
| Workflow_InvalidNodeCardinality (kind : WorkflowNodeKindV1)
| Workflow_ProfileKindMismatch (node_id : WorkflowNodeId)
| Workflow_ArtifactContractMismatch (node_id : WorkflowNodeId)
| Workflow_InvalidActivation (node_id : WorkflowNodeId)
| Workflow_InvalidTimeout
| Workflow_InvalidExecutionProfile
| Workflow_InvalidResourceEnvelope
| Workflow_InvalidHostPreparationPolicy
| Workflow_InvalidOperationState
| Workflow_InvalidLease
| Workflow_MissingLeaseSourceIdentity
| Workflow_MissingLeaseInputArtifacts
| Workflow_InvalidNodeReceipt
| Workflow_InvalidCleanupReceipt
| Workflow_InvalidReductionReceipt
| Workflow_NoncanonicalDocument
| Workflow_CanonicalEncoding (e : SerdeError).

(** ** Tokens *)

Definition workflow_token_byte (b : Z) : bool :=
  is_ascii_lowercase b || is_ascii_digit b || (b =? 45) || (b =? 46) || (b =? 95).

Definition opt_is_some_and {A} (o : option A) (f : A → bool) : bool :=
  match o with Some a => f a | None => false end.

Definition valid_workflow_token (value : string) (maximum : Z) : bool :=
  let bytes := as_bytes value in
  ((1 <=? Z.of_nat (length bytes)) && (Z.of_nat (length bytes) <=? maximum))
  && opt_is_some_and (head bytes) is_ascii_alphanumeric
  && opt_is_some_and (last bytes) is_ascii_alphanumeric
  && forallb workflow_token_byte bytes.

Definition valid_workflow_identity (value : string) : bool :=
  valid_workflow_token value MAX_IDENTITY_BYTES.

Definition WorkflowNodeId_from_str (value : string) : Result WorkflowContractError WorkflowNodeId :=
  if valid_workflow_token value 64 then Ok (MkWorkflowNodeId value)
  else Err (Workflow_InvalidIdentifier "workflow node ID").

Definition WorkflowProfileId_from_str (value : string)
    : Result WorkflowContractError WorkflowProfileId :=
  if valid_workflow_token value 64 then Ok (MkWorkflowProfileId value)
  else Err (Workflow_InvalidIdentifier "workflow profile ID").

(** ** Node kinds *)

Definition is_mutation (kind : WorkflowNodeKindV1) : bool :=
  match kind with
  | Node_Backup | Node_Migration | Node_CandidateHealth | Node_Cutover
  | Node_ReleasedObservation | Node_Rollback => true
  | _ => false
  end.

Definition is_controller_managed (kind : WorkflowNodeKindV1) : bool :=
  match kind with Node_SourceAdmission | Node_DeterministicReduce => true | _ => false end.

Definition expected_output (kind : WorkflowNodeKindV1) : WorkflowArtifactKindV1 :=
  match kind with
  | Node_SourceAdmission => Artifact_SourceSnapshot
  | Node_HostPrepare => Artifact_PreparedRun
  | Node_Verification => Artifact_VerificationReceipt
  | Node_ReleaseBuild => Artifact_ReleaseBuildResult
  | Node_DeterministicReduce => Artifact_ReductionReceipt
  | Node_ResourceReservation => Artifact_ResourceReservation
  | Node_Backup => Artifact_BackupReceipt
  | Node_Migration => Artifact_MigrationReceipt
  | Node_CandidateHealth => Artifact_CandidateHealthReceipt
  | Node_Cutover => Artifact_CutoverReceipt
  | Node_ReleasedObservation => Artifact_ReleasedObservationReceipt
  | Node_Rollback => Artifact_RollbackReceipt
  end.

Definition expected_adapter (kind : WorkflowNodeKindV1) : list WorkflowAdapterIdV1 :=
  match kind with
  | Node_SourceAdmission => [Adapter_ControllerSourceAdmissionV1]
  | Node_HostPrepare => [Adapter_WorkerHostPrepareV1]
  | Node_Verification => [Adapter_WorkerBareBinCiV1]
  | Node_ReleaseBuild => [Adapter_WorkerNativeReleaseBuildV1; Adapter_WorkerOciReleaseBuildV1]
  | Node_DeterministicReduce => [Adapter_ControllerReduceV1]
  | Node_ResourceReservation => [Adapter_ExecutorResourceReserveV1]
  | Node_Backup => [Adapter_ExecutorBackupV1]
  | Node_Migration => [Adapter_ExecutorMigrationV1]
  | Node_CandidateHealth => [Adapter_ExecutorCandidateHealthV1]
  | Node_Cutover => [Adapter_ExecutorCutoverV1]
  | Node_ReleasedObservation => [Adapter_ExecutorReleasedObserveV1]
  | Node_Rollback => [Adapter_ExecutorRollbackV1]
  end.

Definition expected_pool (kind : WorkflowNodeKindV1) : WorkflowWorkerPoolV1 :=
  match kind with
  | Node_SourceAdmission | Node_DeterministicReduce => Pool_Controller
  | Node_HostPrepare | Node_ReleaseBuild => Pool_VpsRequired
  | Node_Verification => Pool_BuildCompute
  | Node_ResourceReservation | Node_Backup | Node_Migration | Node_CandidateHealth
  | Node_Cutover | Node_ReleasedObservation | Node_Rollback => Pool_PrivilegedExecutor
  end.

(** [slice::contains]. *)
Definition contains {A} `{EqDecision A} (l : list A) (x : A) : bool := bool_decide (x ∈ l).

(** [values.windows(2).all(|pair| pair[0] < pair[1])], over the order of the type. *)
Definition strictly_sorted_unique_by {A} (cmp : A → A → comparison) (values : list A) : bool :=
  forallb (λ pair, is_lt (cmp pair.1 pair.2)) (windows2 values).

Definition node_id_compare (l r : WorkflowNodeId) : comparison :=
  str_compare (WorkflowNodeId_as_str l) (WorkflowNodeId_as_str r).

Definition artifact_kind_compare (l r : WorkflowArtifactKindV1) : comparison :=
  artifact_kind_index l ?= artifact_kind_index r.

(** ** OCI bases *)

(** [str::rfind] of an ASCII character, [&s\[n..\]] and [str::strip_prefix]. *)
Fixpoint str_rfind (c : ascii) (s : string) : option nat :=
  match s with
  | EmptyString => None
  | String a r =>
      match str_rfind c r with
      | Some i => Some (S i)
      | None => if a == c then Some 0%nat else None
      end
  end.

Definition str_from (s : string) (n : nat) : string :=
  String.substring n (String.length s - n) s.

Definition str_strip_prefix (prefix value : string) : option string :=
  if String.prefix prefix value then Some (str_from value (String.length prefix)) else None.

Definition str_rsplit_once (c : ascii) (s : string) : option (string * string) :=
  (λ i, (str_prefix s i, str_from s (S i))) <$> str_rfind c s.

Definition is_ascii_control (b : Z) : bool := (b <=? 31) || (b =? 127).

Definition WorkflowOciDigest_validate (value : string) : bool :=
  opt_is_some_and (str_strip_prefix "sha256:" value)
    (λ hex, (str_len hex =? 64) && forallb lower_hex (as_bytes hex)).

Definition WorkflowOciDigest_from_str (value : string)
    : Result WorkflowContractError WorkflowOciDigest :=
  if WorkflowOciDigest_validate value then Ok (MkWorkflowOciDigest value)
  else Err Workflow_InvalidHostPreparationPolicy.

(** [None] is the panic of [expect]. *)
Definition WorkflowOciDigest_hex (digest : WorkflowOciDigest) : option string :=
  str_strip_prefix "sha256:" (WorkflowOciDigest_as_str digest).

(** Where the last path component starts, and the name without its tag. *)
Definition last_slash (value : string) : nat :=
  match str_rfind "/" value with Some index => S index | None => 0%nat end.

Definition repository_component_valid (component : string) : bool :=
  let bytes := as_bytes component in
  (component != ""%string) && (str_len component <=? 128)
  && opt_is_some_and (head bytes) is_ascii_alphanumeric
  && opt_is_some_and (last bytes) is_ascii_alphanumeric
  && forallb workflow_token_byte bytes.

Definition repository_tag_valid (tag : string) : bool :=
  (tag != ""%string) && (str_len tag <=? 128)
  && forallb (λ b, is_ascii_alphanumeric b || (b =? 46) || (b =? 95) || (b =? 45)) (as_bytes tag).

Definition valid_docker_hub_repository_reference (value : string) : bool :=
  if (value == ""%string) || (255 <? str_len value) || existsb is_ascii_control (as_bytes value)
  then false
  else
    let last_slash := last_slash value in
    let '(repository, tag) :=
      match str_rfind ":" (str_from value last_slash) with
      | Some index => (str_prefix value (last_slash + index),
                       Some (str_from value (last_slash + index + 1)))
      | None => (value, None)
      end in
    (repository != ""%string)
    && forallb repository_component_valid (str_split slash repository)
    && match tag with Some tag => repository_tag_valid tag | None => true end.

Definition OciBase_validate (base : WorkflowOciBaseInputV1) : Result WorkflowContractError unit :=
  match str_rsplit_once "@" (wob_source base) with
  | None => Err Workflow_InvalidHostPreparationPolicy
  | Some (reference, digest) =>
      match str_strip_prefix "docker.io/" reference with
      | None => Err Workflow_InvalidHostPreparationPolicy
      | Some repository_reference =>
          if (digest != WorkflowOciDigest_as_str (wob_manifest_digest base))
             || negb (valid_workflow_token (wob_layout_name base) 64)
             || negb (valid_docker_hub_repository_reference repository_reference)
          then Err Workflow_InvalidHostPreparationPolicy
          else Ok tt
      end
  end.

(** [None] is the panic of [expect]. *)
Definition OciBase_repository (base : WorkflowOciBaseInputV1) : option string :=
  reference ← (str_strip_prefix "docker.io/" (wob_source base) ≫= λ source,
                 fst <$> str_rsplit_once "@" source);
  let last_slash := last_slash reference in
  Some match str_rfind ":" (str_from reference last_slash) with
       | Some index => str_prefix reference (last_slash + index)
       | None => reference
       end.

Definition OciBase_dependency_path (base : WorkflowOciBaseInputV1) : string :=
  ("oci-layouts/" ++ wob_layout_name base)%string.

Definition oci_base_compare (l r : WorkflowOciBaseInputV1) : comparison :=
  pair_compare (str_compare (wob_source l) (wob_source r))
    (pair_compare (str_compare (wob_layout_name l) (wob_layout_name r))
       (str_compare (WorkflowOciDigest_as_str (wob_manifest_digest l))
                    (WorkflowOciDigest_as_str (wob_manifest_digest r)))).

(** ** Host preparation *)

Definition valid_build_environment_name (value : string) : bool :=
  (value != ""%string) && (str_len value <=? 64)
  && forallb (λ b, is_ascii_uppercase b || is_ascii_digit b || (b =? 95)) (as_bytes value)
  && opt_is_some_and (head (as_bytes value)) is_ascii_uppercase.

Definition reserved_build_environment_name (value : string) : bool :=
  contains ["PATH"; "HOME"; "TMPDIR"; "CARGO_HOME"; "CARGO_TARGET_DIR"; "CCACHE_DIR";
            "CCACHE_TEMPDIR"; "ZIG_GLOBAL_CACHE_DIR"; "ZIG_LOCAL_CACHE_DIR"; "LD_PRELOAD";
            "LD_LIBRARY_PATH"]%string value
  || String.prefix "RDASHBOARD_" value.

Definition build_environment_entry_invalid (entry : string * string) : bool :=
  negb (valid_build_environment_name entry.1) || reserved_build_environment_name entry.1
  || (entry.2 == ""%string) || (4096 <? str_len entry.2) || contains_nul entry.2.

(** [iter().collect::<BTreeSet<_>>().len()]. *)
Definition distinct_count {A} `{Countable A} (l : list A) : nat :=
  size (list_to_set (C := gset A) l).

Definition HostPreparation_validate (policy : WorkflowHostPreparationPolicyV1)
    : Result WorkflowContractError unit :=
  let oci_bases := whp_oci_bases policy in
  if (whp_schema_version policy != WORKFLOW_HOST_PREPARATION_SCHEMA_VERSION)
     || negb (valid_workflow_token (whp_platform policy) 64)
     || negb (valid_workflow_token (whp_cpu_baseline policy) 64)
     || negb (valid_workflow_token (whp_abi policy) 64)
     || negb (valid_workflow_token (whp_toolchain_root policy) 128)
     || negb (valid_workflow_token (whp_toolchain_interface policy) 128)
     || Nat.ltb 32 (length (whp_build_environment policy))
     || existsb build_environment_entry_invalid (whp_build_environment policy)
     || Nat.ltb 16 (length oci_bases)
     || negb (strictly_sorted_unique_by oci_base_compare oci_bases)
     || existsb (λ base, negb (is_ok (OciBase_validate base))) oci_bases
     || (distinct_count (wob_source <$> oci_bases) != length oci_bases)
     || (distinct_count (wob_layout_name <$> oci_bases) != length oci_bases)
     || ((whp_adapter_id policy == Preparation_SourceTreeV1) && (oci_bases != []))
  then Err Workflow_InvalidHostPreparationPolicy
  else Ok tt.

Definition required_network_class (policy : WorkflowHostPreparationPolicyV1)
    : WorkflowNetworkClassV1 :=
  match whp_adapter_id policy with
  | Preparation_CargoCratesIoV1 => Network_DependencyEgress
  | Preparation_SourceTreeV1 => Network_Offline
  end.

(** ** Execution profiles *)

Definition in_range (low high value : Z) : bool := (low <=? value) && (value <=? high).

Definition ResourceEnvelope_validate (envelope : WorkflowResourceEnvelopeV1)
    : Result WorkflowContractError unit :=
  if negb (in_range 100 32000 (wre_cpu_millicores envelope))
     || negb (in_range MIN_MEMORY_BYTES MAX_MEMORY_BYTES (wre_memory_max_bytes envelope))
     || negb (in_range 8 4096 (wre_tasks_max envelope))
     || negb (in_range (1024 * 1024) MAX_SCRATCH_BYTES (wre_scratch_max_bytes envelope))
     || negb (in_range 1024 100000000 (wre_scratch_max_inodes envelope))
     || negb (in_range 1024 MAX_OUTPUT_BYTES (wre_output_max_bytes envelope))
  then Err Workflow_InvalidResourceEnvelope
  else Ok tt.

Definition ExecutionProfile_validate (profile : WorkflowExecutionProfileV1)
    : Result WorkflowContractError unit :=
  if negb (in_range 100 10800000 (wep_timeout_ms profile)) then Err Workflow_InvalidTimeout
  else match wep_worker_pool profile with
  | Pool_Controller =>
      if is_some (wep_resources profile) || (wep_network_class profile != Network_Offline)
         || (wep_cache_class profile != Cache_None)
      then Err Workflow_InvalidExecutionProfile
      else Ok tt
  | Pool_VpsRequired | Pool_BuildCompute | Pool_PrivilegedExecutor =>
      let? resources := ok_or Workflow_InvalidResourceEnvelope (wep_resources profile) in
      ResourceEnvelope_validate resources
  end.

Definition profile_matches_kind (profile : WorkflowExecutionProfileV1) (kind : WorkflowNodeKindV1)
    : bool :=
  match kind with
  | Node_HostPrepare =>
      ((wep_network_class profile == Network_Offline)
       || (wep_network_class profile == Network_DependencyEgress))
      && (wep_cache_class profile == Cache_Dependency)
  | Node_Verification | Node_ReleaseBuild =>
      (wep_network_class profile == Network_Offline)
      && (wep_cache_class profile == Cache_PreparedRun)
  | Node_CandidateHealth | Node_ReleasedObservation =>
      (wep_network_class profile == Network_LocalHealthOnly)
      && (wep_cache_class profile == Cache_None)
  | Node_SourceAdmission | Node_DeterministicReduce | Node_ResourceReservation | Node_Backup
  | Node_Migration | Node_Cutover | Node_Rollback =>
      (wep_network_class profile == Network_Offline) && (wep_cache_class profile == Cache_None)
  end.

(** ** Nodes *)

(** [str::trim] on scalar values, and the UTF-8 length of the result. *)
Fixpoint drop_whitespace (chars : list Z) : list Z :=
  match chars with
  | [] => []
  | c :: r => if is_whitespace c then drop_whitespace r else chars
  end.

Definition trim_chars (chars : list Z) : list Z :=
  rev (drop_whitespace (rev (drop_whitespace chars))).

Definition len_utf8 (c : Z) : Z :=
  if c <? 128 then 1 else if c <? 2048 then 2 else if c <? 65536 then 3 else 4.

Definition chars_len (chars : list Z) : Z := foldr (λ c n, len_utf8 c + n) 0 chars.

Definition WorkflowNode_validate_local (node : WorkflowNodeV1) : Result WorkflowContractError unit :=
  let display_name := trim_chars (str_chars (wn_display_name node)) in
  if (display_name == []) || (96 <? chars_len display_name)
  then Err Workflow_InvalidDisplayName
  else if wn_output_contract node != expected_output (wn_kind node)
  then Err (Workflow_ArtifactContractMismatch (wn_node_id node))
  else
    let? _ :=
      if wn_kind node == Node_Rollback then
        if wn_activation node != Activation_OnMutationFailure
        then Err (Workflow_InvalidActivation (wn_node_id node)) else Ok tt
      else if wn_activation node != Activation_Always
      then Err (Workflow_InvalidActivation (wn_node_id node)) else Ok tt in
    if negb (strictly_sorted_unique_by node_id_compare (wn_depends_on node))
       || contains (wn_depends_on node) (wn_node_id node)
       || negb (strictly_sorted_unique_by artifact_kind_compare (wn_input_contracts node))
    then Err (Workflow_InvalidDependencies (wn_node_id node))
    else Ok tt.

(** ** Policies

    The two [BTreeMap]s of [validate] are keyed by the text of the identifier. *)
Abbreviation ProfileMap := (list (string * WorkflowExecutionProfileV1)).
Abbreviation NodeMap := (list (string * WorkflowNodeV1)).

Definition node_key (node_id : WorkflowNodeId) : string := WorkflowNodeId_as_str node_id.
Definition profile_key (profile_id : WorkflowProfileId) : string :=
  WorkflowProfileId_as_str profile_id.

Fixpoint collect_profiles (profiles : ProfileMap) (rest : list WorkflowExecutionProfileV1)
    : Result WorkflowContractError ProfileMap :=
  match rest with
  | [] => Ok profiles
  | profile :: rest =>
      let? _ := ExecutionProfile_validate profile in
      let key := profile_key (wep_profile_id profile) in
      if btree_contains_key key profiles
      then Err (Workflow_DuplicateProfile (wep_profile_id profile))
      else collect_profiles (btree_insert key profile profiles) rest
  end.

Fixpoint collect_nodes (profiles : ProfileMap) (nodes : NodeMap) (rest : list WorkflowNodeV1)
    : Result WorkflowContractError NodeMap :=
  match rest with
  | [] => Ok nodes
  | node :: rest =>
      let? _ := WorkflowNode_validate_local node in
      let? profile := ok_or (Workflow_MissingProfile (wn_profile_id node))
                        (btree_get (profile_key (wn_profile_id node)) profiles) in
      if negb (contains (expected_adapter (wn_kind node)) (wep_adapter_id profile))
         || (expected_pool (wn_kind node) != wep_worker_pool profile)
         || negb (profile_matches_kind profile (wn_kind node))
      then Err (Workflow_ProfileKindMismatch (wn_node_id node))
      else
        let key := node_key (wn_node_id node) in
        if btree_contains_key key nodes then Err (Workflow_DuplicateNode (wn_node_id node))
        else collect_nodes profiles (btree_insert key node nodes) rest
  end.

Fixpoint expected_inputs (nodes : NodeMap) (node_id : WorkflowNodeId)
    (dependencies : list WorkflowNodeId)
    : Result WorkflowContractError (gset WorkflowArtifactKindV1) :=
  match dependencies with
  | [] => Ok ∅
  | dependency :: rest =>
      let? node := ok_or (Workflow_MissingDependency node_id dependency)
                     (btree_get (node_key dependency) nodes) in
      let? inputs := expected_inputs nodes node_id rest in
      Ok ({[ wn_output_contract node ]} ∪ inputs)
  end.

Definition check_inputs (nodes : NodeMap) (node : WorkflowNodeV1)
    : Result WorkflowContractError unit :=
  let? inputs := expected_inputs nodes (wn_node_id node) (wn_depends_on node) in
  if list_to_set (wn_input_contracts node) != inputs
  then Err (Workflow_ArtifactContractMismatch (wn_node_id node))
  else Ok tt.

(** A node whose turn has come: not emitted, all dependencies emitted. *)
Definition node_ready (emitted : gset WorkflowNodeId) (node : WorkflowNodeV1) : bool :=
  negb (bool_decide (wn_node_id node ∈ emitted))
  && forallb (λ dependency, bool_decide (dependency ∈ emitted)) (wn_depends_on node).

(** One pass over the nodes in the order of their IDs; a node emitted in the pass
    counts for the nodes after it. *)
Definition topology_pass (nodes : NodeMap) (emitted : gset WorkflowNodeId) : gset WorkflowNodeId :=
  foldl (λ emitted node, if node_ready emitted node then {[ wn_node_id node ]} ∪ emitted
                         else emitted) emitted nodes.*2.

(** [while emitted.len() < nodes.len()]; [None] is fuel run out. *)
Fixpoint topology_loop (fuel : nat) (nodes : NodeMap) (emitted : gset WorkflowNodeId)
    : option (Result WorkflowContractError unit) :=
  match fuel with
  | O => None
  | S fuel =>
      if Nat.ltb (size emitted) (length nodes) then
        let next := topology_pass nodes emitted in
        if Nat.eqb (size next) (size emitted) then Some (Err Workflow_CyclicGraph)
        else topology_loop fuel nodes next
      else Some (Ok tt)
  end.

(** A pass that emits nothing ends the loop, so one more iteration than there are
    nodes is enough: [topology_loop_terminates]. *)
Definition validate_topology (nodes : NodeMap) : Result WorkflowContractError unit :=
  match topology_loop (S (length nodes)) nodes ∅ with
  | Some result => result
  | None => Err Workflow_CyclicGraph
  end.

Definition require_dependencies (node : WorkflowNodeV1) (dependencies : list WorkflowNodeId)
    : Result WorkflowContractError unit :=
  if wn_depends_on node == dependencies then Ok tt
  else Err (Workflow_InvalidDependencies (wn_node_id node)).

Definition nodes_by_kind (nodes : NodeMap) (kind : WorkflowNodeKindV1) : list WorkflowNodeV1 :=
  List.filter (λ node, wn_kind node == kind) nodes.*2.

Definition exactly_one (nodes : NodeMap) (kind : WorkflowNodeKindV1)
    : Result WorkflowContractError WorkflowNodeV1 :=
  match nodes_by_kind nodes kind with
  | [node] => Ok node
  | _ => Err (Workflow_InvalidNodeCardinality kind)
  end.

Definition sort_node_ids (ids : list WorkflowNodeId) : list WorkflowNodeId :=
  sort_by node_id_compare ids.

Definition validate_release_dependencies (build : WorkflowNodeV1)
    (build_profile : WorkflowExecutionProfileV1) (prepare : WorkflowNodeV1)
    (verification : list WorkflowNodeV1) : Result WorkflowContractError unit :=
  match wep_adapter_id build_profile with
  | Adapter_WorkerOciReleaseBuildV1 =>
      let parallel := [wn_node_id prepare] in
      let serial :=
        match verification with
        | [verification] => Some (sort_node_ids [wn_node_id prepare; wn_node_id verification])
        | _ => None
        end in
      if (wn_depends_on build != parallel) && (serial != Some (wn_depends_on build))
      then Err (Workflow_InvalidDependencies (wn_node_id build))
      else Ok tt
  | Adapter_WorkerNativeReleaseBuildV1 =>
      match verification with
      | [verification] =>
          require_dependencies build
            (sort_node_ids [wn_node_id prepare; wn_node_id verification])
      | _ => Err (Workflow_InvalidNodeCardinality Node_Verification)
      end
  | _ => Err (Workflow_ProfileKindMismatch (wn_node_id build))
  end.

(** [if let Some(node) = list.first() { require(node, [previous])?; previous = node }]. *)
Definition chain_after (previous : WorkflowNodeV1) (list : list WorkflowNodeV1)
    : Result WorkflowContractError WorkflowNodeV1 :=
  match list with
  | [] => Ok previous
  | node :: _ => let? _ := require_dependencies node [wn_node_id previous] in Ok node
  end.

Definition validate_executor_mutation_graph (nodes : NodeMap) (profiles : ProfileMap)
    : Result WorkflowContractError unit :=
  let? source := exactly_one nodes Node_SourceAdmission in
  let? prepare := exactly_one nodes Node_HostPrepare in
  let? build := exactly_one nodes Node_ReleaseBuild in
  let? reduce := exactly_one nodes Node_DeterministicReduce in
  let? reserve := exactly_one nodes Node_ResourceReservation in
  let? candidate := exactly_one nodes Node_CandidateHealth in
  let? cutover := exactly_one nodes Node_Cutover in
  let? observe := exactly_one nodes Node_ReleasedObservation in
  let? rollback := exactly_one nodes Node_Rollback in
  let verification := nodes_by_kind nodes Node_Verification in
  if verification == [] then Err (Workflow_InvalidNodeCardinality Node_Verification) else
  let? _ := require_dependencies source [] in
  let? _ := require_dependencies prepare [wn_node_id source] in
  let? _ := try_for_each (λ node, require_dependencies node [wn_node_id prepare]) verification in
  let? build_profile := ok_or (Workflow_MissingProfile (wn_profile_id build))
                          (btree_get (profile_key (wn_profile_id build)) profiles) in
  let? _ := validate_release_dependencies build build_profile prepare verification in
  let reduce_dependencies := sort_node_ids ((wn_node_id <$> verification) ++ [wn_node_id build]) in
  let? _ := require_dependencies reduce reduce_dependencies in
  let? _ := require_dependencies reserve [wn_node_id reduce] in
  let backup := nodes_by_kind nodes Node_Backup in
  if Nat.ltb 1 (length backup) then Err (Workflow_InvalidNodeCardinality Node_Backup) else
  let migration := nodes_by_kind nodes Node_Migration in
  if Nat.ltb 1 (length migration) then Err (Workflow_InvalidNodeCardinality Node_Migration) else
  let? previous := chain_after reserve backup in
  let? previous := chain_after previous migration in
  let? _ := require_dependencies candidate [wn_node_id previous] in
  let? _ := require_dependencies cutover [wn_node_id candidate] in
  let? _ := require_dependencies observe [wn_node_id cutover] in
  let? _ := require_dependencies rollback [wn_node_id cutover] in
  Ok tt.

Definition validate_self_update_handoff_graph (nodes : NodeMap) (profiles : ProfileMap)
    : Result WorkflowContractError unit :=
  if length nodes != 5%nat then Err Workflow_InvalidWorkflowBounds else
  let? source := exactly_one nodes Node_SourceAdmission in
  let? prepare := exactly_one nodes Node_HostPrepare in
  let? verification := exactly_one nodes Node_Verification in
  let? build := exactly_one nodes Node_ReleaseBuild in
  let? reduce := exactly_one nodes Node_DeterministicReduce in
  let? build_profile := ok_or (Workflow_MissingProfile (wn_profile_id build))
                          (btree_get (profile_key (wn_profile_id build)) profiles) in
  if wep_adapter_id build_profile != Adapter_WorkerNativeReleaseBuildV1
  then Err (Workflow_ProfileKindMismatch (wn_node_id build)) else
  let? _ := require_dependencies source [] in
  let? _ := require_dependencies prepare [wn_node_id source] in
  let? _ := require_dependencies verification [wn_node_id prepare] in
  let? _ := require_dependencies build
              (sort_node_ids [wn_node_id prepare; wn_node_id verification]) in
  require_dependencies reduce (sort_node_ids [wn_node_id build; wn_node_id verification]).

Definition WorkflowPolicy_validate (policy : WorkflowPolicyV1) : Result WorkflowContractError unit :=
  if wpol_schema_version policy != WORKFLOW_POLICY_SCHEMA_VERSION
  then Err (Workflow_UnsupportedSchemaVersion (wpol_schema_version policy))
  else if negb (in_range 1 16 (wpol_fairness_weight policy))
     || (wpol_execution_profiles policy == [])
     || Nat.ltb MAX_WORKFLOW_PROFILES (length (wpol_execution_profiles policy))
     || (wpol_nodes policy == [])
     || Nat.ltb MAX_WORKFLOW_NODES (length (wpol_nodes policy))
  then Err Workflow_InvalidWorkflowBounds
  else
    let? profiles := collect_profiles [] (wpol_execution_profiles policy) in
    let? nodes := collect_nodes profiles [] (wpol_nodes policy) in
    let? _ := try_for_each (check_inputs nodes) (wpol_nodes policy) in
    let? _ := validate_topology nodes in
    match wpol_delivery_mode policy with
    | Delivery_ExecutorMutation => validate_executor_mutation_graph nodes profiles
    | Delivery_SelfUpdateHandoff => validate_self_update_handoff_graph nodes profiles
    end.

Definition WorkflowPolicy_node (policy : WorkflowPolicyV1) (node_id : WorkflowNodeId)
    : option WorkflowNodeV1 :=
  find_first (λ node, wn_node_id node == node_id) (wpol_nodes policy).

Definition WorkflowPolicy_profile (policy : WorkflowPolicyV1) (profile_id : WorkflowProfileId)
    : option WorkflowExecutionProfileV1 :=
  find_first (λ profile, wep_profile_id profile == profile_id) (wpol_execution_profiles policy).

(** The loop of [ordered_nodes]: every iteration pushes one node, so the iterations
    left are the nodes left. *)
Fixpoint order_nodes (remaining : nat) (by_id : NodeMap) (ordered : list WorkflowNodeV1)
    (emitted : gset WorkflowNodeId) : Result WorkflowContractError (list WorkflowNodeV1) :=
  match remaining with
  | O => Ok ordered
  | S remaining =>
      match find_first (node_ready emitted) by_id.*2 with
      | None => Err Workflow_CyclicGraph
      | Some node =>
          order_nodes remaining by_id (ordered ++ [node]) ({[ wn_node_id node ]} ∪ emitted)
      end
  end.

Definition ordered_nodes (policy : WorkflowPolicyV1)
    : Result WorkflowContractError (list WorkflowNodeV1) :=
  let? _ := WorkflowPolicy_validate policy in
  let by_id := btree_collect ((λ node, (node_key (wn_node_id node), node)) <$> wpol_nodes policy) in
  order_nodes (length (wpol_nodes policy)) by_id [] ∅.

(** ** Documents

    The hash and the codecs of the documents and of the payloads of their digests. *)
Class WorkflowCodecs := {
  wcodec_sha :: Sha256;
  wcodec_preparation :: Jcs WorkflowHostPreparationPolicyV1;
  wcodec_state_payload :: Jcs WorkflowOperationStateKeyPayload;
  wcodec_lease_payload :: Jcs WorkflowLeaseDigestPayload;
  wcodec_lease :: Jcs WorkflowLeaseV1;
  wcodec_lease_slice :: JsonSlice WorkflowLeaseV1;
  wcodec_node_payload :: Jcs WorkflowNodeReceiptDigestPayload;
  wcodec_node :: Jcs WorkflowNodeReceiptV1;
  wcodec_node_slice :: JsonSlice WorkflowNodeReceiptV1;
  wcodec_cleanup_payload :: Jcs WorkflowCleanupReceiptDigestPayload;
  wcodec_cleanup :: Jcs WorkflowCleanupReceiptV1;
  wcodec_cleanup_slice :: JsonSlice WorkflowCleanupReceiptV1;
  wcodec_reduction_payload :: Jcs WorkflowReductionDigestPayload;
  wcodec_reduction :: Jcs WorkflowReductionReceiptV1;
  wcodec_reduction_slice :: JsonSlice WorkflowReductionReceiptV1
}.

Section WorkflowDocuments.
Context `{!WorkflowCodecs}.

Definition workflow_digest_jcs {T} `{!Jcs T} (value : T)
    : Result WorkflowContractError EvidenceDigest :=
  let? bytes := map_err Workflow_CanonicalEncoding (jcs_to_vec value) in
  Ok (EvidenceDigest_sha256 bytes).

(** [serde_json::from_slice] and the comparison with the re-encoding, then the
    document's own check. *)
Definition workflow_decode_canonical {T} `{!Jcs T, !JsonSlice T}
    (validate : T → Result WorkflowContractError unit) (bytes : list Z)
    : Result WorkflowContractError T :=
  let? value := map_err Workflow_CanonicalEncoding (json_from_slice bytes) in
  let? encoded := map_err Workflow_CanonicalEncoding (jcs_to_vec value) in
  if encoded != bytes then Err Workflow_NoncanonicalDocument
  else let? _ := validate value in Ok value.

Definition HostPreparation_digest (policy : WorkflowHostPreparationPolicyV1)
    : Result WorkflowContractError EvidenceDigest :=
  let? _ := HostPreparation_validate policy in
  workflow_digest_jcs policy.

(** *** Operation-owned state *)

Definition OperationState_calculate_key (state : WorkflowOperationStateV1)
    (attempt_id : Uuid) (project_id : ProjectId) (source_sha : GitCommitId)
    (workflow_policy_digest preparation_key : EvidenceDigest) (worker_id host_id : string)
    : Result WorkflowContractError EvidenceDigest :=
  workflow_digest_jcs {|
    wosp_purpose := "rdashboard.workflow-operation-state.v1";
    wosp_schema_version := wos_schema_version state;
    wosp_attempt_id := attempt_id;
    wosp_project_id := project_id;
    wosp_source_sha := source_sha;
    wosp_workflow_policy_digest := workflow_policy_digest;
    wosp_preparation_key := preparation_key;
    wosp_worker_id := worker_id;
    wosp_host_id := host_id;
    wosp_consumer_nodes := wos_consumer_nodes state;
    wosp_max_bytes := wos_max_bytes state;
    wosp_max_inodes := wos_max_inodes state
  |}.

Definition OperationState_validate_for (state : WorkflowOperationStateV1)
    (attempt_id : Uuid) (project_id : ProjectId) (source_sha : GitCommitId)
    (workflow_policy_digest preparation_key : EvidenceDigest) (worker_id host_id : string)
    : Result WorkflowContractError unit :=
  if (wos_schema_version state != WORKFLOW_OPERATION_STATE_SCHEMA_VERSION)
     || is_nil attempt_id
     || negb (valid_workflow_identity worker_id)
     || negb (valid_workflow_identity host_id)
     || (wos_consumer_nodes state == [])
     || Nat.ltb MAX_WORKFLOW_NODES (length (wos_consumer_nodes state))
     || negb (strictly_sorted_unique_by node_id_compare (wos_consumer_nodes state))
     || negb (in_range (1024 * 1024) MAX_OPERATION_STATE_BYTES (wos_max_bytes state))
     || negb (in_range 1024 MAX_OPERATION_STATE_INODES (wos_max_inodes state))
  then Err Workflow_InvalidOperationState
  else
    let? key := OperationState_calculate_key state attempt_id project_id source_sha
                  workflow_policy_digest preparation_key worker_id host_id in
    if wos_state_key state != key then Err Workflow_InvalidOperationState else Ok tt.

Definition OperationState_new (attempt_id : Uuid) (project_id : ProjectId)
    (source_sha : GitCommitId) (workflow_policy_digest preparation_key : EvidenceDigest)
    (worker_id host_id : string) (consumer_nodes : list WorkflowNodeId) (max_bytes max_inodes : Z)
    : Result WorkflowContractError WorkflowOperationStateV1 :=
  let state := {|
    wos_schema_version := WORKFLOW_OPERATION_STATE_SCHEMA_VERSION;
    wos_state_key := EvidenceDigest_sha256 [];
    wos_consumer_nodes := sort_node_ids consumer_nodes;
    wos_max_bytes := max_bytes;
    wos_max_inodes := max_inodes
  |} in
  let? key := OperationState_calculate_key state attempt_id project_id source_sha
                workflow_policy_digest preparation_key worker_id host_id in
  let state := state <| wos_state_key := key |> in
  let? _ := OperationState_validate_for state attempt_id project_id source_sha
              workflow_policy_digest preparation_key worker_id host_id in
  Ok state.

(** *** Leases *)

Definition SourceIdentity_validate (identity : WorkflowSourceIdentityV1)
    : Result WorkflowContractError unit :=
  if wsi_sequence identity =? 0 then Err Workflow_InvalidLease else Ok tt.

Definition lease_input_compare (l r : WorkflowLeaseInputV1) : comparison :=
  pair_compare (node_id_compare (wli_node_id l) (wli_node_id r))
    (pair_compare (artifact_kind_compare (wli_artifact_kind l) (wli_artifact_kind r))
       (str_compare (EvidenceDigest_as_str (wli_output_digest l))
                    (EvidenceDigest_as_str (wli_output_digest r)))).

Definition WorkflowLease_calculate_digest (lease : WorkflowLeaseV1)
    : Result WorkflowContractError EvidenceDigest :=
  workflow_digest_jcs {|
    wlp_purpose := "rdashboard.workflow-lease.v1";
    wlp_schema_version := wl_schema_version lease;
    wlp_lease_id := wl_lease_id lease;
    wlp_lease_generation := wl_lease_generation lease;
    wlp_request_id := wl_request_id lease;
    wlp_attempt_id := wl_attempt_id lease;
    wlp_project_id := wl_project_id lease;
    wlp_source_sha := wl_source_sha lease;
    wlp_source_identity := wl_source_identity lease;
    wlp_workflow_policy_digest := wl_workflow_policy_digest lease;
    wlp_preparation_key := wl_preparation_key lease;
    wlp_node_id := wl_node_id lease;
    wlp_node_kind := wl_node_kind lease;
    wlp_profile_id := wl_profile_id lease;
    wlp_adapter_id := wl_adapter_id lease;
    wlp_worker_pool := wl_worker_pool lease;
    wlp_network_class := wl_network_class lease;
    wlp_cache_class := wl_cache_class lease;
    wlp_timeout_ms := wl_timeout_ms lease;
    wlp_resources := wl_resources lease;
    wlp_host_preparation := wl_host_preparation lease;
    wlp_operation_state := wl_operation_state lease;
    wlp_input_contracts := wl_input_contracts lease;
    wlp_input_artifacts := wl_input_artifacts lease;
    wlp_output_contract := wl_output_contract lease;
    wlp_expected_input_digest := wl_expected_input_digest lease;
    wlp_worker_id := wl_worker_id lease;
    wlp_host_id := wl_host_id lease;
    wlp_leased_at_ms := wl_leased_at_ms lease;
    wlp_expires_at_ms := wl_expires_at_ms lease
  |}.

(** The execution profile the lease carries. *)
Definition lease_profile (lease : WorkflowLeaseV1) : WorkflowExecutionProfileV1 := {|
  wep_profile_id := wl_profile_id lease;
  wep_adapter_id := wl_adapter_id lease;
  wep_worker_pool := wl_worker_pool lease;
  wep_network_class := wl_network_class lease;
  wep_cache_class := wl_cache_class lease;
  wep_timeout_ms := wl_timeout_ms lease;
  wep_resources := wl_resources lease
|}.

Definition lease_preparation_invalid (lease : WorkflowLeaseV1)
    (policy : WorkflowHostPreparationPolicyV1) : bool :=
  negb (contains [Node_HostPrepare; Node_Verification; Node_ReleaseBuild] (wl_node_kind lease))
  || negb (is_ok (HostPreparation_validate policy))
  || ((wl_node_kind lease == Node_HostPrepare)
      && (wl_network_class lease != required_network_class policy)).

Definition lease_state_invalid (lease : WorkflowLeaseV1) (state : WorkflowOperationStateV1) : bool :=
  negb (contains [Node_Verification; Node_ReleaseBuild] (wl_node_kind lease))
  || (wl_cache_class lease != Cache_PreparedRun)
  || negb (contains (wos_consumer_nodes state) (wl_node_id lease))
  || negb (is_ok (OperationState_validate_for state (wl_attempt_id lease) (wl_project_id lease)
                    (wl_source_sha lease) (wl_workflow_policy_digest lease)
                    (wl_preparation_key lease) (wl_worker_id lease) (wl_host_id lease))).

Definition lease_inputs_invalid (lease : WorkflowLeaseV1) : bool :=
  let inputs := wl_input_artifacts lease in
  negb (strictly_sorted_unique_by artifact_kind_compare (wl_input_contracts lease))
  || negb (strictly_sorted_unique_by lease_input_compare inputs)
  || existsb (λ pair, negb (is_lt (node_id_compare (wli_node_id pair.1) (wli_node_id pair.2))))
       (windows2 inputs)
  || ((inputs != [])
      && ((length inputs != length (wl_input_contracts lease))
          || (list_to_set (C := gset WorkflowArtifactKindV1) (wli_artifact_kind <$> inputs)
              != list_to_set (wl_input_contracts lease)))).

Definition WorkflowLease_validate (lease : WorkflowLeaseV1) : Result WorkflowContractError unit :=
  let profile := lease_profile lease in
  if (wl_schema_version lease != WORKFLOW_LEASE_SCHEMA_VERSION)
     || is_nil (wl_lease_id lease)
     || is_nil (wl_request_id lease)
     || is_nil (wl_attempt_id lease)
     || (wl_lease_generation lease =? 0)
     || (wl_leased_at_ms lease <? 0)
     || (wl_expires_at_ms lease <=? wl_leased_at_ms lease)
     || negb (valid_workflow_identity (wl_worker_id lease))
     || negb (valid_workflow_identity (wl_host_id lease))
     || opt_is_some_and (wl_source_identity lease)
          (λ identity, negb (is_ok (SourceIdentity_validate identity)))
     || is_controller_managed (wl_node_kind lease)
     || negb (contains (expected_adapter (wl_node_kind lease)) (wl_adapter_id lease))
     || (expected_pool (wl_node_kind lease) != wl_worker_pool lease)
     || negb (profile_matches_kind profile (wl_node_kind lease))
     || negb (is_ok (ExecutionProfile_validate profile))
     || opt_is_some_and (wl_host_preparation lease) (lease_preparation_invalid lease)
     || opt_is_some_and (wl_operation_state lease) (lease_state_invalid lease)
     || lease_inputs_invalid lease
     || (wl_output_contract lease != expected_output (wl_node_kind lease))
  then Err Workflow_InvalidLease
  else
    let? digest := WorkflowLease_calculate_digest lease in
    if wl_lease_digest lease != digest then Err Workflow_InvalidLease else Ok tt.

(** [lease.lease_digest = lease.calculate_digest()?; lease.validate()?; Ok(lease)]. *)
Definition seal_lease (lease : WorkflowLeaseV1) : Result WorkflowContractError WorkflowLeaseV1 :=
  let? digest := WorkflowLease_calculate_digest lease in
  let lease := lease <| wl_lease_digest := digest |> in
  let? _ := WorkflowLease_validate lease in
  Ok lease.

Definition WorkflowLease_new (lease_id : Uuid) (lease_generation : Z) (request_id attempt_id : Uuid)
    (project_id : ProjectId) (source_sha : GitCommitId) (source_sequence : Z)
    (source_attestation_digest workflow_policy_digest preparation_key : EvidenceDigest)
    (node : WorkflowNodeV1) (profile : WorkflowExecutionProfileV1)
    (host_preparation : option WorkflowHostPreparationPolicyV1)
    (input_artifacts : list WorkflowLeaseInputV1) (expected_input_digest : EvidenceDigest)
    (worker_id host_id : string) (leased_at_ms expires_at_ms : Z)
    : Result WorkflowContractError WorkflowLeaseV1 :=
  seal_lease {|
    wl_schema_version := WORKFLOW_LEASE_SCHEMA_VERSION;
    wl_lease_id := lease_id;
    wl_lease_generation := lease_generation;
    wl_request_id := request_id;
    wl_attempt_id := attempt_id;
    wl_project_id := project_id;
    wl_source_sha := source_sha;
    wl_source_identity := Some {|
      wsi_sequence := source_sequence; wsi_attestation_digest := source_attestation_digest |};
    wl_workflow_policy_digest := workflow_policy_digest;
    wl_preparation_key := preparation_key;
    wl_node_id := wn_node_id node;
    wl_node_kind := wn_kind node;
    wl_profile_id := wep_profile_id profile;
    wl_adapter_id := wep_adapter_id profile;
    wl_worker_pool := wep_worker_pool profile;
    wl_network_class := wep_network_class profile;
    wl_cache_class := wep_cache_class profile;
    wl_timeout_ms := wep_timeout_ms profile;
    wl_resources := wep_resources profile;
    wl_host_preparation := host_preparation;
    wl_operation_state := None;
    wl_input_contracts := wn_input_contracts node;
    wl_input_artifacts := input_artifacts;
    wl_output_contract := wn_output_contract node;
    wl_expected_input_digest := expected_input_digest;
    wl_worker_id := worker_id;
    wl_host_id := host_id;
    wl_leased_at_ms := leased_at_ms;
    wl_expires_at_ms := expires_at_ms;
    wl_lease_digest := EvidenceDigest_sha256 []
  |}.

Definition WorkflowLease_canonical_bytes (lease : WorkflowLeaseV1)
    : Result WorkflowContractError (list Z) :=
  let? _ := WorkflowLease_validate lease in
  map_err Workflow_CanonicalEncoding (jcs_to_vec lease).

Definition WorkflowLease_decode_canonical (bytes : list Z)
    : Result WorkflowContractError WorkflowLeaseV1 :=
  workflow_decode_canonical WorkflowLease_validate bytes.

Definition required_source_identity (lease : WorkflowLeaseV1)
    : Result WorkflowContractError WorkflowSourceIdentityV1 :=
  let? _ := WorkflowLease_validate lease in
  ok_or Workflow_MissingLeaseSourceIdentity (wl_source_identity lease).

Definition required_input_artifacts (lease : WorkflowLeaseV1)
    : Result WorkflowContractError (list WorkflowLeaseInputV1) :=
  let? _ := WorkflowLease_validate lease in
  if (wl_input_contracts lease == [])
     || (length (wl_input_artifacts lease) == length (wl_input_contracts lease))
  then Ok (wl_input_artifacts lease)
  else Err Workflow_MissingLeaseInputArtifacts.

Definition renewed (lease : WorkflowLeaseV1) (expires_at_ms : Z)
    : Result WorkflowContractError WorkflowLeaseV1 :=
  let? _ := WorkflowLease_validate lease in
  if expires_at_ms <=? wl_expires_at_ms lease then Err Workflow_InvalidLease
  else seal_lease (lease <| wl_expires_at_ms := expires_at_ms |>).

Definition with_operation_state (lease : WorkflowLeaseV1) (operation_state : WorkflowOperationStateV1)
    : Result WorkflowContractError WorkflowLeaseV1 :=
  seal_lease (lease <| wl_operation_state := Some operation_state |>).

Definition same_execution_as (lease other : WorkflowLeaseV1) : Result WorkflowContractError bool :=
  let? _ := WorkflowLease_validate lease in
  let? _ := WorkflowLease_validate other in
  let normalized := lease <| wl_expires_at_ms := wl_expires_at_ms other |>
                          <| wl_lease_digest := wl_lease_digest other |> in
  Ok (normalized == other).

(** *** Node receipts *)

Definition NodeReceipt_calculate_digest (receipt : WorkflowNodeReceiptV1)
    : Result WorkflowContractError EvidenceDigest :=
  workflow_digest_jcs {|
    wnrp_purpose := "rdashboard.workflow-node-receipt.v1";
    wnrp_schema_version := wnr_schema_version receipt;
    wnrp_lease_digest := wnr_lease_digest receipt;
    wnrp_lease_id := wnr_lease_id receipt;
    wnrp_lease_generation := wnr_lease_generation receipt;
    wnrp_request_id := wnr_request_id receipt;
    wnrp_attempt_id := wnr_attempt_id receipt;
    wnrp_project_id := wnr_project_id receipt;
    wnrp_source_sha := wnr_source_sha receipt;
    wnrp_workflow_policy_digest := wnr_workflow_policy_digest receipt;
    wnrp_preparation_key := wnr_preparation_key receipt;
    wnrp_node_id := wnr_node_id receipt;
    wnrp_node_kind := wnr_node_kind receipt;
    wnrp_worker_id := wnr_worker_id receipt;
    wnrp_host_id := wnr_host_id receipt;
    wnrp_expected_input_digest := wnr_expected_input_digest receipt;
    wnrp_outcome := wnr_outcome receipt;
    wnrp_output_digest := wnr_output_digest receipt;
    wnrp_output_size_bytes := wnr_output_size_bytes receipt;
    wnrp_execution_receipt_digest := wnr_execution_receipt_digest receipt;
    wnrp_cleanup_receipt_digest := wnr_cleanup_receipt_digest receipt;
    wnrp_cleanup_result := wnr_cleanup_result receipt;
    wnrp_completed_at_ms := wnr_completed_at_ms receipt
  |}.

Definition NodeReceipt_validate (receipt : WorkflowNodeReceiptV1)
    : Result WorkflowContractError unit :=
  let output_matches :=
    match wnr_outcome receipt with
    | NodeOutcome_Succeeded => is_some (wnr_output_digest receipt)
    | NodeOutcome_Failed => is_none (wnr_output_digest receipt)
                            && is_none (wnr_output_size_bytes receipt)
    end in
  let output_size_matches :=
    match wnr_output_size_bytes receipt with
    | None => true
    | Some size => (0 <? size) && (wnr_outcome receipt == NodeOutcome_Succeeded)
                   && (wnr_node_kind receipt == Node_ReleaseBuild)
    end in
  let cleanup_matches := (wnr_outcome receipt != NodeOutcome_Succeeded)
                         || (wnr_cleanup_result receipt == NodeCleanup_Complete) in
  if (wnr_schema_version receipt != WORKFLOW_NODE_RECEIPT_SCHEMA_VERSION)
     || is_nil (wnr_lease_id receipt)
     || is_nil (wnr_request_id receipt)
     || is_nil (wnr_attempt_id receipt)
     || (wnr_lease_generation receipt =? 0)
     || (wnr_completed_at_ms receipt <? 0)
     || negb (valid_workflow_identity (wnr_worker_id receipt))
     || negb (valid_workflow_identity (wnr_host_id receipt))
     || negb output_matches
     || negb output_size_matches
     || negb cleanup_matches
  then Err Workflow_InvalidNodeReceipt
  else
    let? digest := NodeReceipt_calculate_digest receipt in
    if wnr_receipt_digest receipt != digest then Err Workflow_InvalidNodeReceipt else Ok tt.

Definition seal_node_receipt (receipt : WorkflowNodeReceiptV1)
    : Result WorkflowContractError WorkflowNodeReceiptV1 :=
  let? digest := NodeReceipt_calculate_digest receipt in
  let receipt := receipt <| wnr_receipt_digest := digest |> in
  let? _ := NodeReceipt_validate receipt in
  Ok receipt.

Definition NodeReceipt_new (lease : WorkflowLeaseV1) (outcome : WorkflowNodeOutcomeV1)
    (output_digest : option EvidenceDigest)
    (execution_receipt_digest cleanup_receipt_digest : EvidenceDigest)
    (cleanup_result : WorkflowCleanupResultV1) (completed_at_ms : Z)
    : Result WorkflowContractError WorkflowNodeReceiptV1 :=
  let? _ := WorkflowLease_validate lease in
  seal_node_receipt {|
    wnr_schema_version := WORKFLOW_NODE_RECEIPT_SCHEMA_VERSION;
    wnr_lease_digest := wl_lease_digest lease;
    wnr_lease_id := wl_lease_id lease;
    wnr_lease_generation := wl_lease_generation lease;
    wnr_request_id := wl_request_id lease;
    wnr_attempt_id := wl_attempt_id lease;
    wnr_project_id := wl_project_id lease;
    wnr_source_sha := wl_source_sha lease;
    wnr_workflow_policy_digest := wl_workflow_policy_digest lease;
    wnr_preparation_key := wl_preparation_key lease;
    wnr_node_id := wl_node_id lease;
    wnr_node_kind := wl_node_kind lease;
    wnr_worker_id := wl_worker_id lease;
    wnr_host_id := wl_host_id lease;
    wnr_expected_input_digest := wl_expected_input_digest lease;
    wnr_outcome := outcome;
    wnr_output_digest := output_digest;
    wnr_output_size_bytes := None;
    wnr_execution_receipt_digest := execution_receipt_digest;
    wnr_cleanup_receipt_digest := cleanup_receipt_digest;
    wnr_cleanup_result := cleanup_result;
    wnr_completed_at_ms := completed_at_ms;
    wnr_receipt_digest := EvidenceDigest_sha256 []
  |}.

Definition with_output_size_bytes (receipt : WorkflowNodeReceiptV1) (output_size_bytes : Z)
    : Result WorkflowContractError WorkflowNodeReceiptV1 :=
  seal_node_receipt (receipt <| wnr_output_size_bytes := Some output_size_bytes |>).

Definition NodeReceipt_canonical_bytes (receipt : WorkflowNodeReceiptV1)
    : Result WorkflowContractError (list Z) :=
  let? _ := NodeReceipt_validate receipt in
  map_err Workflow_CanonicalEncoding (jcs_to_vec receipt).

Definition NodeReceipt_decode_canonical (bytes : list Z)
    : Result WorkflowContractError WorkflowNodeReceiptV1 :=
  workflow_decode_canonical NodeReceipt_validate bytes.

Definition node_receipt_matches_lease (receipt : WorkflowNodeReceiptV1) (lease : WorkflowLeaseV1)
    : bool :=
  (wnr_lease_digest receipt == wl_lease_digest lease)
  && (wnr_lease_id receipt == wl_lease_id lease)
  && (wnr_lease_generation receipt == wl_lease_generation lease)
  && (wnr_request_id receipt == wl_request_id lease)
  && (wnr_attempt_id receipt == wl_attempt_id lease)
  && (wnr_project_id receipt == wl_project_id lease)
  && (wnr_source_sha receipt == wl_source_sha lease)
  && (wnr_workflow_policy_digest receipt == wl_workflow_policy_digest lease)
  && (wnr_preparation_key receipt == wl_preparation_key lease)
  && (wnr_node_id receipt == wl_node_id lease)
  && (wnr_node_kind receipt == wl_node_kind lease)
  && (wnr_worker_id receipt == wl_worker_id lease)
  && (wnr_host_id receipt == wl_host_id lease)
  && (wnr_expected_input_digest receipt == wl_expected_input_digest lease).

(** *** Cleanup receipts *)

Definition NodeCleanupReceipt_calculate_digest (receipt : WorkflowCleanupReceiptV1)
    : Result WorkflowContractError EvidenceDigest :=
  workflow_digest_jcs {|
    wcrp_purpose := "rdashboard.workflow-cleanup-receipt.v1";
    wcrp_schema_version := wcr_schema_version receipt;
    wcrp_lease_digest := wcr_lease_digest receipt;
    wcrp_lease_id := wcr_lease_id receipt;
    wcrp_lease_generation := wcr_lease_generation receipt;
    wcrp_attempt_id := wcr_attempt_id receipt;
    wcrp_project_id := wcr_project_id receipt;
    wcrp_node_id := wcr_node_id receipt;
    wcrp_worker_id := wcr_worker_id receipt;
    wcrp_host_id := wcr_host_id receipt;
    wcrp_terminal_receipt_digest := wcr_terminal_receipt_digest receipt;
    wcrp_cleanup_evidence_digest := wcr_cleanup_evidence_digest receipt;
    wcrp_completed_at_ms := wcr_completed_at_ms receipt
  |}.

Definition NodeCleanupReceipt_validate (receipt : WorkflowCleanupReceiptV1)
    : Result WorkflowContractError unit :=
  if (wcr_schema_version receipt != WORKFLOW_CLEANUP_RECEIPT_SCHEMA_VERSION)
     || is_nil (wcr_lease_id receipt)
     || is_nil (wcr_attempt_id receipt)
     || (wcr_lease_generation receipt =? 0)
     || (wcr_completed_at_ms receipt <? 0)
     || negb (valid_workflow_identity (wcr_worker_id receipt))
     || negb (valid_workflow_identity (wcr_host_id receipt))
  then Err Workflow_InvalidCleanupReceipt
  else
    let? digest := NodeCleanupReceipt_calculate_digest receipt in
    if wcr_receipt_digest receipt != digest then Err Workflow_InvalidCleanupReceipt else Ok tt.

Definition NodeCleanupReceipt_new (lease : WorkflowLeaseV1)
    (terminal_receipt : option WorkflowNodeReceiptV1) (cleanup_evidence_digest : EvidenceDigest)
    (completed_at_ms : Z) : Result WorkflowContractError WorkflowCleanupReceiptV1 :=
  let? _ := WorkflowLease_validate lease in
  let? _ := match terminal_receipt with
            | None => Ok tt
            | Some receipt =>
                let? _ := NodeReceipt_validate receipt in
                if (wnr_cleanup_result receipt != NodeCleanup_Pending)
                   || negb (node_receipt_matches_lease receipt lease)
                then Err Workflow_InvalidCleanupReceipt else Ok tt
            end in
  let receipt := {|
    wcr_schema_version := WORKFLOW_CLEANUP_RECEIPT_SCHEMA_VERSION;
    wcr_lease_digest := wl_lease_digest lease;
    wcr_lease_id := wl_lease_id lease;
    wcr_lease_generation := wl_lease_generation lease;
    wcr_attempt_id := wl_attempt_id lease;
    wcr_project_id := wl_project_id lease;
    wcr_node_id := wl_node_id lease;
    wcr_worker_id := wl_worker_id lease;
    wcr_host_id := wl_host_id lease;
    wcr_terminal_receipt_digest := wnr_receipt_digest <$> terminal_receipt;
    wcr_cleanup_evidence_digest := cleanup_evidence_digest;
    wcr_completed_at_ms := completed_at_ms;
    wcr_receipt_digest := EvidenceDigest_sha256 []
  |} in
  let? digest := NodeCleanupReceipt_calculate_digest receipt in
  let receipt := receipt <| wcr_receipt_digest := digest |> in
  let? _ := NodeCleanupReceipt_validate receipt in
  if (wcr_completed_at_ms receipt <? wl_leased_at_ms lease)
     || opt_is_some_and terminal_receipt
          (λ terminal, wcr_completed_at_ms receipt <? wnr_completed_at_ms terminal)
  then Err Workflow_InvalidCleanupReceipt
  else Ok receipt.

Definition NodeCleanupReceipt_canonical_bytes (receipt : WorkflowCleanupReceiptV1)
    : Result WorkflowContractError (list Z) :=
  let? _ := NodeCleanupReceipt_validate receipt in
  map_err Workflow_CanonicalEncoding (jcs_to_vec receipt).

Definition NodeCleanupReceipt_decode_canonical (bytes : list Z)
    : Result WorkflowContractError WorkflowCleanupReceiptV1 :=
  workflow_decode_canonical NodeCleanupReceipt_validate bytes.

(** *** Reduction receipts *)

Definition ReductionReceipt_calculate_digest (receipt : WorkflowReductionReceiptV1)
    : Result WorkflowContractError EvidenceDigest :=
  workflow_digest_jcs {|
    wrrp_purpose := "rdashboard.workflow-reduction-receipt.v1";
    wrrp_schema_version := wrr_schema_version receipt;
    wrrp_request_id := wrr_request_id receipt;
    wrrp_attempt_id := wrr_attempt_id receipt;
    wrrp_project_id := wrr_project_id receipt;
    wrrp_source_sha := wrr_source_sha receipt;
    wrrp_workflow_policy_digest := wrr_workflow_policy_digest receipt;
    wrrp_preparation_key := wrr_preparation_key receipt;
    wrrp_reduce_node_id := wrr_reduce_node_id receipt;
    wrrp_inputs := wrr_inputs receipt;
    wrrp_reduced_at_ms := wrr_reduced_at_ms receipt
  |}.

Definition ReductionReceipt_validate (receipt : WorkflowReductionReceiptV1)
    : Result WorkflowContractError unit :=
  if (wrr_schema_version receipt != WORKFLOW_REDUCTION_RECEIPT_SCHEMA_VERSION)
     || is_nil (wrr_request_id receipt)
     || is_nil (wrr_attempt_id receipt)
     || (wrr_reduced_at_ms receipt <? 0)
     || (wrr_inputs receipt == [])
     || negb (strictly_sorted_unique_by (λ l r, node_id_compare (wri_node_id l) (wri_node_id r))
                (wrr_inputs receipt))
  then Err Workflow_InvalidReductionReceipt
  else
    let? digest := ReductionReceipt_calculate_digest receipt in
    if wrr_receipt_digest receipt != digest then Err Workflow_InvalidReductionReceipt else Ok tt.

Definition ReductionReceipt_new (request_id attempt_id : Uuid) (project_id : ProjectId)
    (source_sha : GitCommitId) (workflow_policy_digest preparation_key : EvidenceDigest)
    (reduce_node_id : WorkflowNodeId) (inputs : list WorkflowReductionInputV1) (reduced_at_ms : Z)
    : Result WorkflowContractError WorkflowReductionReceiptV1 :=
  let receipt := {|
    wrr_schema_version := WORKFLOW_REDUCTION_RECEIPT_SCHEMA_VERSION;
    wrr_request_id := request_id;
    wrr_attempt_id := attempt_id;
    wrr_project_id := project_id;
    wrr_source_sha := source_sha;
    wrr_workflow_policy_digest := workflow_policy_digest;
    wrr_preparation_key := preparation_key;
    wrr_reduce_node_id := reduce_node_id;
    wrr_inputs := sort_by (λ l r, node_id_compare (wri_node_id l) (wri_node_id r)) inputs;
    wrr_reduced_at_ms := reduced_at_ms;
    wrr_receipt_digest := EvidenceDigest_sha256 []
  |} in
  let? digest := ReductionReceipt_calculate_digest receipt in
  let receipt := receipt <| wrr_receipt_digest := digest |> in
  let? _ := ReductionReceipt_validate receipt in
  Ok receipt.

Definition ReductionReceipt_canonical_bytes (receipt : WorkflowReductionReceiptV1)
    : Result WorkflowContractError (list Z) :=
  let? _ := ReductionReceipt_validate receipt in
  map_err Workflow_CanonicalEncoding (jcs_to_vec receipt).

Definition ReductionReceipt_decode_canonical (bytes : list Z)
    : Result WorkflowContractError WorkflowReductionReceiptV1 :=
  workflow_decode_canonical ReductionReceipt_validate bytes.
End WorkflowDocuments.
