(* ===== verification/Manifest.v ===== *)
(** * Project manifests

    Model of [src/src/domain/manifest.rs]: the policy of a project (source, build,
    health checks, data volumes, migration, rollback) in its two versions, and the
    checks that tie it to the project's workflow.  The policy paths are in [Ordered];
    the URL parser (crate [url]) is a parameter. *)

From Stdlib Require Import ZArith Lia Ascii String.
From stdpp Require Import base gmap strings option list_numbers list.
From S2P Require Import Prelude Identifiers Text Ordered Workflow.

Local Open Scope Z_scope.

Definition PROJECT_MANIFEST_SCHEMA_VERSION : Z := 1.
Definition PROJECT_MANIFEST_V2_SCHEMA_VERSION : Z := 2.

(** ** Data *)

Inductive RemoteUrl : Type := MkRemoteUrl (s : string).
Definition RemoteUrl_as_str (value : RemoteUrl) : string := match value with MkRemoteUrl s => s end.
#[global] Instance RemoteUrl_eq_dec : EqDecision RemoteUrl.
Proof. solve_decision. Defined.

Inductive HttpEndpoint : Type := MkHttpEndpoint (s : string).
Definition HttpEndpoint_as_str (value : HttpEndpoint) : string := match value with MkHttpEndpoint s => s end.
#[global] Instance HttpEndpoint_eq_dec : EqDecision HttpEndpoint.
Proof. solve_decision. Defined.

Inductive CanonicalBranch : Type :=
| Branch_Main.

#[global] Instance CanonicalBranch_eq_dec : EqDecision CanonicalBranch.
Proof. solve_decision. Defined.

Inductive CiPolicy : Type :=
| Ci_BinCi.

#[global] Instance CiPolicy_eq_dec : EqDecision CiPolicy.
Proof. solve_decision. Defined.

Inductive BuildKind : Type :=
| Build_Oci
| Build_Native.

#[global] Instance BuildKind_eq_dec : EqDecision BuildKind.
Proof. solve_decision. Defined.

Inductive BuildContext : Type :=
| BuildContext_RepositoryRoot.

#[global] Instance BuildContext_eq_dec : EqDecision BuildContext.
Proof. solve_decision. Defined.

Inductive DataClass : Type :=
| Data_Stateful
| Data_Derived
| Data_Ephemeral.

#[global] Instance DataClass_eq_dec : EqDecision DataClass.
Proof. solve_decision. Defined.

Inductive MigrationEntrypoint : Type :=
| Entrypoint_None
| Entrypoint_ApplicationMigrate.

#[global] Instance MigrationEntrypoint_eq_dec : EqDecision MigrationEntrypoint.
Proof. solve_decision. Defined.

Inductive WriteFencePolicy : Type :=
| WriteFence_Unsupported
| WriteFence_ApplicationProtocolV1.

#[global] Instance WriteFencePolicy_eq_dec : EqDecision WriteFencePolicy.
Proof. solve_decision. Defined.

Inductive NotificationRoute : Type :=
| Route_TelegramDefault.

#[global] Instance NotificationRoute_eq_dec : EqDecision NotificationRoute.
Proof. solve_decision. Defined.

Record SourcePolicy : Type := MkSourcePolicy {
  mso_remote_url : RemoteUrl;
  mso_branch : CanonicalBranch
}.

#[global] Instance SourcePolicy_eq_dec : EqDecision SourcePolicy.
Proof. solve_decision. Defined.
#[global] Instance SourcePolicy_eta : Eta SourcePolicy := λ r,
  MkSourcePolicy (mso_remote_url r) (mso_branch r).

Record VerifiedOciOutputPolicy : Type := MkVerifiedOciOutputPolicy {
  mvo_context_name : string;
  mvo_directory : RelativePolicyPath;
  mvo_max_bytes : Z;
  mvo_max_files : Z
}.

#[global] Instance VerifiedOciOutputPolicy_eq_dec : EqDecision VerifiedOciOutputPolicy.
Proof. solve_decision. Defined.
#[global] Instance VerifiedOciOutputPolicy_eta : Eta VerifiedOciOutputPolicy := λ r,
  MkVerifiedOciOutputPolicy (mvo_context_name r) (mvo_directory r) (mvo_max_bytes r)
  (mvo_max_files r).

Record BuildPolicy : Type := MkBuildPolicy {
  mbu_context : BuildContext;
  mbu_kind : BuildKind;
  mbu_dockerfile : option RelativePolicyPath;
  mbu_verified_output : option VerifiedOciOutputPolicy
}.

#[global] Instance BuildPolicy_eq_dec : EqDecision BuildPolicy.
Proof. solve_decision. Defined.
#[global] Instance BuildPolicy_eta : Eta BuildPolicy := λ r,
  MkBuildPolicy (mbu_context r) (mbu_kind r) (mbu_dockerfile r) (mbu_verified_output r).

Record HealthCheckPolicy : Type := MkHealthCheckPolicy {
  mhc_name : string;
  mhc_endpoint : HttpEndpoint;
  mhc_expected_status : Z;
  mhc_timeout_seconds : Z
}.

#[global] Instance HealthCheckPolicy_eq_dec : EqDecision HealthCheckPolicy.
Proof. solve_decision. Defined.
#[global] Instance HealthCheckPolicy_eta : Eta HealthCheckPolicy := λ r,
  MkHealthCheckPolicy (mhc_name r) (mhc_endpoint r) (mhc_expected_status r)
  (mhc_timeout_seconds r).

Record DataVolumePolicy : Type := MkDataVolumePolicy {
  mdv_path : AbsolutePolicyPath;
  mdv_class : DataClass;
  mdv_backup_required : bool
}.

#[global] Instance DataVolumePolicy_eq_dec : EqDecision DataVolumePolicy.
Proof. solve_decision. Defined.
#[global] Instance DataVolumePolicy_eta : Eta DataVolumePolicy := λ r,
  MkDataVolumePolicy (mdv_path r) (mdv_class r) (mdv_backup_required r).

Record MigrationPolicy : Type := MkMigrationPolicy {
  mmi_entrypoint : MigrationEntrypoint;
  mmi_write_fence : WriteFencePolicy
}.

#[global] Instance MigrationPolicy_eq_dec : EqDecision MigrationPolicy.
Proof. solve_decision. Defined.
#[global] Instance MigrationPolicy_eta : Eta MigrationPolicy := λ r,
  MkMigrationPolicy (mmi_entrypoint r) (mmi_write_fence r).

Record RollbackPolicy : Type := MkRollbackPolicy {
  mrb_code_rollback : bool;
  mrb_soak_seconds : Z
}.

#[global] Instance RollbackPolicy_eq_dec : EqDecision RollbackPolicy.
Proof. solve_decision. Defined.
#[global] Instance RollbackPolicy_eta : Eta RollbackPolicy := λ r,
  MkRollbackPolicy (mrb_code_rollback r) (mrb_soak_seconds r).

Record NotificationPolicy : Type := MkNotificationPolicy {
  mno_route : NotificationRoute;
  mno_maintenance_suppression : bool
}.

#[global] Instance NotificationPolicy_eq_dec : EqDecision NotificationPolicy.
Proof. solve_decision. Defined.
#[global] Instance NotificationPolicy_eta : Eta NotificationPolicy := λ r,
  MkNotificationPolicy (mno_route r) (mno_maintenance_suppression r).

Record ProjectManifestV1 : Type := MkProjectManifestV1 {
  pm1_schema_version : Z;
  pm1_project_id : ProjectId;
  pm1_display_name : string;
  pm1_source : SourcePolicy;
  pm1_ci : CiPolicy;
  pm1_build : BuildPolicy;
  pm1_health_checks : list HealthCheckPolicy;
  pm1_data_volumes : list DataVolumePolicy;
  pm1_migration : MigrationPolicy;
  pm1_rollback : RollbackPolicy;
  pm1_notifications : NotificationPolicy
}.

#[global] Instance ProjectManifestV1_eq_dec : EqDecision ProjectManifestV1.
Proof. solve_decision. Defined.
#[global] Instance ProjectManifestV1_eta : Eta ProjectManifestV1 := λ r,
  MkProjectManifestV1 (pm1_schema_version r) (pm1_project_id r) (pm1_display_name r)
  (pm1_source r) (pm1_ci r) (pm1_build r) (pm1_health_checks r) (pm1_data_volumes r)
  (pm1_migration r) (pm1_rollback r) (pm1_notifications r).

Record ProjectManifestV2 : Type := MkProjectManifestV2 {
  pm_schema_version : Z;
  pm_project_id : ProjectId;
  pm_display_name : string;
  pm_source : SourcePolicy;
  pm_ci : CiPolicy;
  pm_build : BuildPolicy;
  pm_workflow : WorkflowPolicyV1;
  pm_host_preparation : option WorkflowHostPreparationPolicyV1;
  pm_health_checks : list HealthCheckPolicy;
  pm_data_volumes : list DataVolumePolicy;
  pm_migration : MigrationPolicy;
  pm_rollback : RollbackPolicy;
  pm_notifications : NotificationPolicy
}.

#[global] Instance ProjectManifestV2_eq_dec : EqDecision ProjectManifestV2.
Proof. solve_decision. Defined.
#[global] Instance ProjectManifestV2_eta : Eta ProjectManifestV2 := λ r,
  MkProjectManifestV2 (pm_schema_version r) (pm_project_id r) (pm_display_name r) (pm_source r)
  (pm_ci r) (pm_build r) (pm_workflow r) (pm_host_preparation r) (pm_health_checks r)
  (pm_data_volumes r) (pm_migration r) (pm_rollback r) (pm_notifications r).

Record ProjectManifestV2DigestPayload : Type := MkProjectManifestV2DigestPayload {
  pmp_purpose : string;
  pmp_manifest : ProjectManifestV2
}.

Inductive ManifestError : Type :=
| Manifest_UnsupportedSchemaVersion (version : Z)
| Manifest_InvalidDisplayName
| Manifest_UnsupportedBranch
| Manifest_InvalidRemoteUrl
| Manifest_MissingHealthCheck
| Manifest_InvalidHealthCheckName
| Manifest_DuplicateHealthCheck (name : string)
| Manifest_InvalidHealthEndpoint
| Manifest_InvalidExpectedStatus
| Manifest_InvalidHealthTimeout
| Manifest_InvalidAbsolutePath
| Manifest_InvalidRelativePath
| Manifest_DuplicateDataPath (path : string)
| Manifest_UnsafeDataPath (path : string)
| Manifest_InvalidDockerfilePath
| Manifest_BuildWorkflowMismatch
| Manifest_SelfUpdateWorkflowMismatch
| Manifest_InvalidSoakDuration
| Manifest_WorkflowBackupMismatch
| Manifest_WorkflowMigrationMismatch
| Manifest_NoncanonicalManifest
| Manifest_WorkflowInvalid
| Manifest_InvalidManifestJson
| Manifest_CanonicalEncoding.

(** ** Reading a URL

    [Url::parse] of crate [url], and the parts of its result the checks read. *)
Record ParsedUrl : Type := MkParsedUrl {
  url_scheme : string;
  url_username : string;
  url_password : option string;
  url_host : option string;
  url_path : string;
  url_query : option string;
  url_fragment : option string
}.

Class UrlParse := url_parse : string → option ParsedUrl.

Definition RemoteUrl_from_str `{!UrlParse} (value : string) : Result ManifestError RemoteUrl :=
  let? parsed := ok_or Manifest_InvalidRemoteUrl (url_parse value) in
  let scheme := url_scheme parsed in
  let has_credentials := is_some (url_password parsed)
    || ((scheme == "https"%string) && (url_username parsed != ""%string)) in
  if negb ((scheme == "https"%string) || (scheme == "ssh"%string))
     || is_none (url_host parsed)
     || has_credentials
     || ((url_path parsed == ""%string) || (url_path parsed == "/"%string))
     || is_some (url_query parsed)
     || is_some (url_fragment parsed)
  then Err Manifest_InvalidRemoteUrl
  else Ok (MkRemoteUrl value).

Definition HttpEndpoint_from_str `{!UrlParse} (value : string) : Result ManifestError HttpEndpoint :=
  let? parsed := ok_or Manifest_InvalidHealthEndpoint (url_parse value) in
  if negb ((url_scheme parsed == "http"%string) || (url_scheme parsed == "https"%string))
     || is_none (url_host parsed)
     || (url_username parsed != ""%string)
     || is_some (url_password parsed)
     || is_some (url_fragment parsed)
  then Err Manifest_InvalidHealthEndpoint
  else Ok (MkHttpEndpoint value).

(** ** Parts *)

Definition SourcePolicy_validate (source : SourcePolicy) : Result ManifestError unit :=
  if mso_branch source != Branch_Main then Err Manifest_UnsupportedBranch else Ok tt.

Definition valid_build_context_name (value : string) : bool :=
  let bytes := as_bytes value in
  ((1 <=? Z.of_nat (length bytes)) && (Z.of_nat (length bytes) <=? 64))
  && negb ((value == "context"%string) || (value == "dockerfile"%string))
  && opt_is_some_and (head bytes) is_ascii_lowercase
  && opt_is_some_and (last bytes) is_ascii_alphanumeric
  && forallb (λ b, is_ascii_lowercase b || is_ascii_digit b || (b =? hyphen)) bytes.

Definition VerifiedOciOutput_validate (policy : VerifiedOciOutputPolicy) : bool :=
  valid_build_context_name (mvo_context_name policy)
  && in_range 1024 (512 * 1024 * 1024) (mvo_max_bytes policy)
  && in_range 1 1024 (mvo_max_files policy).

(** [Path::file_name] of a policy path, whose components are plain names. *)
Definition path_file_name (path : string) : option string :=
  match last (path_components path) with Some (Normal name) => Some name | _ => None end.

Definition dockerfile_name_valid (name : string) : bool :=
  (name == "Dockerfile"%string)
  || opt_is_some_and (str_strip_prefix "Dockerfile." name)
       (λ variant, (variant != ""%string)
          && forallb (λ b, is_ascii_alphanumeric b || (b =? 45) || (b =? 95)) (as_bytes variant)).

Definition BuildPolicy_validate (build : BuildPolicy) : Result ManifestError unit :=
  let valid :=
    match mbu_kind build, mbu_dockerfile build, mbu_verified_output build with
    | Build_Oci, Some dockerfile, verified_output =>
        opt_is_some_and (path_file_name (RelativePolicyPath_as_str dockerfile))
          dockerfile_name_valid
        && match verified_output with
           | None => true
           | Some output => VerifiedOciOutput_validate output
           end
    | Build_Native, None, None => true
    | Build_Oci, None, _ | Build_Native, Some _, _ | Build_Native, None, Some _ => false
    end in
  if negb valid then Err Manifest_InvalidDockerfilePath else Ok tt.

Definition HealthCheck_validate (check : HealthCheckPolicy) : Result ManifestError unit :=
  let name := trim_chars (str_chars (mhc_name check)) in
  if (name == []) || (64 <? chars_len name) then Err Manifest_InvalidHealthCheckName
  else if negb (in_range 100 599 (mhc_expected_status check)) then Err Manifest_InvalidExpectedStatus
  else if negb (in_range 1 120 (mhc_timeout_seconds check)) then Err Manifest_InvalidHealthTimeout
  else Ok tt.

(** The loop over the health checks, with the names seen so far. *)
Fixpoint validate_health_checks (names : gset string) (checks : list HealthCheckPolicy)
    : Result ManifestError unit :=
  match checks with
  | [] => Ok tt
  | check :: rest =>
      let? _ := HealthCheck_validate check in
      if bool_decide (mhc_name check ∈ names)
      then Err (Manifest_DuplicateHealthCheck (mhc_name check))
      else validate_health_checks ({[ mhc_name check ]} ∪ names) rest
  end.

Fixpoint validate_data_volumes (paths : gset string) (volumes : list DataVolumePolicy)
    : Result ManifestError unit :=
  match volumes with
  | [] => Ok tt
  | volume :: rest =>
      let path := AbsolutePolicyPath_as_str (mdv_path volume) in
      if path == "/"%string then Err (Manifest_UnsafeDataPath path)
      else if bool_decide (path ∈ paths) then Err (Manifest_DuplicateDataPath path)
      else validate_data_volumes ({[ path ]} ∪ paths) rest
  end.

Definition validate_common_manifest (display_name : string) (source : SourcePolicy)
    (build : BuildPolicy) (health_checks : list HealthCheckPolicy)
    (data_volumes : list DataVolumePolicy) (rollback : RollbackPolicy)
    : Result ManifestError unit :=
  let display_name := trim_chars (str_chars display_name) in
  if (display_name == []) || (96 <? chars_len display_name) then Err Manifest_InvalidDisplayName
  else
    let? _ := SourcePolicy_validate source in
    let? _ := BuildPolicy_validate build in
    if health_checks == [] then Err Manifest_MissingHealthCheck
    else
      let? _ := validate_health_checks ∅ health_checks in
      let? _ := validate_data_volumes ∅ data_volumes in
      if negb (in_range 10 86400 (mrb_soak_seconds rollback)) then Err Manifest_InvalidSoakDuration
      else Ok tt.

(** ** Manifests *)

Definition ProjectManifestV1_validate (manifest : ProjectManifestV1) : Result ManifestError unit :=
  if pm1_schema_version manifest != PROJECT_MANIFEST_SCHEMA_VERSION
  then Err (Manifest_UnsupportedSchemaVersion (pm1_schema_version manifest))
  else
    let? _ := validate_common_manifest (pm1_display_name manifest) (pm1_source manifest)
                (pm1_build manifest) (pm1_health_checks manifest) (pm1_data_volumes manifest)
                (pm1_rollback manifest) in
    if mbu_kind (pm1_build manifest) != Build_Oci then Err Manifest_BuildWorkflowMismatch else Ok tt.

Definition node_of_kind (manifest : ProjectManifestV2) (kind : WorkflowNodeKindV1)
    : option WorkflowNodeV1 :=
  find_first (λ node, wn_kind node == kind) (wpol_nodes (pm_workflow manifest)).

Definition profile_of_kind (manifest : ProjectManifestV2) (kind : WorkflowNodeKindV1)
    : option WorkflowExecutionProfileV1 :=
  node ← node_of_kind manifest kind;
  WorkflowPolicy_profile (pm_workflow manifest) (wn_profile_id node).

Definition has_node_of_kind (manifest : ProjectManifestV2) (kind : WorkflowNodeKindV1) : bool :=
  existsb (λ node, wn_kind node == kind) (wpol_nodes (pm_workflow manifest)).

Definition consumes_verified_oci_output (manifest : ProjectManifestV2) : Result ManifestError bool :=
  let? release := ok_or Manifest_BuildWorkflowMismatch (node_of_kind manifest Node_ReleaseBuild) in
  let? verification :=
    ok_or Manifest_BuildWorkflowMismatch (node_of_kind manifest Node_Verification) in
  Ok (contains (wn_depends_on release) (wn_node_id verification)
      && contains (wn_input_contracts release) Artifact_VerificationReceipt).

(** [if let Some(policy) = self.host_preparation { .. }]. *)
Definition validate_host_preparation (manifest : ProjectManifestV2) : Result ManifestError unit :=
  match pm_host_preparation manifest with
  | None => Ok tt
  | Some policy =>
      let preparation_profile := profile_of_kind manifest Node_HostPrepare in
      if negb (is_ok (HostPreparation_validate policy))
         || match preparation_profile with
            | None => true
            | Some profile => wep_network_class profile != required_network_class policy
            end
      then Err Manifest_WorkflowInvalid else Ok tt
  end.

Definition ProjectManifest_validate (manifest : ProjectManifestV2) : Result ManifestError unit :=
  if pm_schema_version manifest != PROJECT_MANIFEST_V2_SCHEMA_VERSION
  then Err (Manifest_UnsupportedSchemaVersion (pm_schema_version manifest))
  else
    let? _ := validate_common_manifest (pm_display_name manifest) (pm_source manifest)
                (pm_build manifest) (pm_health_checks manifest) (pm_data_volumes manifest)
                (pm_rollback manifest) in
    let? _ := map_err (λ _, Manifest_WorkflowInvalid) (WorkflowPolicy_validate (pm_workflow manifest)) in
    if (wpol_delivery_mode (pm_workflow manifest) == Delivery_SelfUpdateHandoff)
       && ((ProjectId_as_str (pm_project_id manifest) != "rdashboard"%string)
           || (mbu_kind (pm_build manifest) != Build_Native)
           || (pm_data_volumes manifest != [])
           || (mmi_entrypoint (pm_migration manifest) != Entrypoint_None)
           || (mmi_write_fence (pm_migration manifest) != WriteFence_Unsupported)
           || negb (mrb_code_rollback (pm_rollback manifest)))
    then Err Manifest_SelfUpdateWorkflowMismatch
    else
      let? release_adapter := ok_or Manifest_BuildWorkflowMismatch
                                (wep_adapter_id <$> profile_of_kind manifest Node_ReleaseBuild) in
      let build_matches_release :=
        match mbu_kind (pm_build manifest), release_adapter with
        | Build_Oci, Adapter_WorkerOciReleaseBuildV1
        | Build_Native, Adapter_WorkerNativeReleaseBuildV1 => true
        | _, _ => false
        end in
      if negb build_matches_release then Err Manifest_BuildWorkflowMismatch
      else
        let? _ :=
          if mbu_kind (pm_build manifest) == Build_Oci then
            let? consumes := consumes_verified_oci_output manifest in
            if is_some (mbu_verified_output (pm_build manifest)) != consumes
            then Err Manifest_BuildWorkflowMismatch else Ok tt
          else Ok tt in
        let? _ := validate_host_preparation manifest in
        let has_backup := has_node_of_kind manifest Node_Backup in
        let backup_required := existsb mdv_backup_required (pm_data_volumes manifest) in
        if has_backup != backup_required then Err Manifest_WorkflowBackupMismatch
        else
          let has_migration := has_node_of_kind manifest Node_Migration in
          let migration_required := mmi_entrypoint (pm_migration manifest) != Entrypoint_None in
          if has_migration != migration_required then Err Manifest_WorkflowMigrationMismatch
          else Ok tt.

Section ManifestDocuments.
Context `{!Sha256, !Jcs ProjectManifestV2DigestPayload, !Jcs ProjectManifestV2,
  !JsonSlice ProjectManifestV2}.

Definition workflow_policy_digest (manifest : ProjectManifestV2)
    : Result ManifestError EvidenceDigest :=
  let? _ := ProjectManifest_validate manifest in
  let? bytes := map_err (λ _, Manifest_CanonicalEncoding)
                  (jcs_to_vec {| pmp_purpose := "rdashboard.project-workflow-policy.v2";
                                 pmp_manifest := manifest |}) in
  Ok (EvidenceDigest_sha256 bytes).

Definition ProjectManifest_canonical_bytes (manifest : ProjectManifestV2)
    : Result ManifestError (list Z) :=
  let? _ := ProjectManifest_validate manifest in
  map_err (λ _, Manifest_CanonicalEncoding) (jcs_to_vec manifest).

Definition ProjectManifest_decode_canonical (bytes : list Z)
    : Result ManifestError ProjectManifestV2 :=
  let? manifest := map_err (λ _, Manifest_InvalidManifestJson) (json_from_slice bytes) in
  let? encoded := map_err (λ _, Manifest_CanonicalEncoding) (jcs_to_vec manifest) in
  if encoded != bytes then Err Manifest_NoncanonicalManifest
  else let? _ := ProjectManifest_validate manifest in Ok manifest.
End ManifestDocuments.
