(* ===== verification/Errors.v ===== *)
(** * Store errors

    Model of the error type [StoreError] of [src/src/store/mod.rs].  A static
    message is kept as a string, a rejected SQLite statement is the violated
    constraint. *)

From Stdlib Require Import ZArith Lia String.
From stdpp Require Import base gmap strings option list_numbers list.
From S2P Require Import Prelude Identifiers States Failure Operation Workflow Manifest.

(** The failures of the statements the model executes: a violated constraint, or a
    query for one row that finds none. *)
Inductive SqliteError : Type :=
| QueryReturnedNoRows
| PrimaryKeyViolation
| UniqueViolation
| ForeignKeyViolation
| CheckViolation.

Inductive StoreError : Type :=
| Sqlite (e : SqliteError)
| JsonError (e : SerdeError)
| LockPoisoned
| SequenceRange
| MetricRange (field : string)
| InvalidMetricTimestamp
| CorruptMetric (field : string)
| CorruptRollup (kind key : string)
| UnsupportedMetricsSchemaVersion (actual supported : Z)
| LegacyMetricsMigrationMismatch (expected migrated : Z)
| InvalidLegacyProjectId (value : string)
| InvalidRetentionCutoffs (raw rollup : Z)
| SequenceExhausted
| ObservationNotRunning (id : Uuid)
| InvalidControllerInput (what : string)
| LeaseRevoked
| LeaseExpired
| GrantExpired
| GrantBindingMismatch
| GrantReplay
| RetryGrantRequired (request_id : Uuid)
| RecoveryRequired (request_id : Uuid)
| AutomationAdmissionRejected
| SourceAdmissionRequired
| StaleSourceSequence
| DeliveryConflict
| OperationNotFound (attempt_id : Uuid)
| TransitionRejected
| ReceiptMismatch
| ReceiptDigestMismatch
| ArtifactEvidenceConflict (field : string)
| CancellationAfterMutation
| FailureAfterMutationRequiresReconcile
| CorruptController (what : string)
| UnsupportedControlSchemaVersion (actual supported : Z)
| CorruptControlSchema (what : string)
| InvalidWorkflowSchedulerInput (what : string)
| WorkflowDeliveryConflict
| WorkflowStaleSource
| WorkflowSourceConflict
| WorkflowPolicyMismatch
| WorkflowAttemptNotFound (attempt_id : Uuid)
| WorkflowStateConflict
| WorkflowLeaseConflict
| WorkflowReceiptConflict
| WorkflowCleanupConflict
| WorkflowReductionConflict
| CorruptWorkflowJournal (what : string)
| CorruptSecurityJournal (what : string)
| UnsupportedSecuritySchemaVersion (actual supported : Z)
| CorruptSecuritySchema (what : string)
| SecurityDiskMigrationRequiresReconciliation
| SecurityReceiptMigrationRequiresReconciliation
| SecurityPhaseMigrationRequiresReconciliation
| SecurityRecoveryRequired
| ExecutorAuthorizationReplay
| ExecutorActionGrantReplay
| ExecutorActionGrantExpired
| ExecutorActionGrantRange
| ExecutorIntentConflict
| ExecutorIntentExpired
| ExecutorIntentNotCurrent
| ExecutorIntentRange
| ExecutorIntentMissing
| ExecutorIntentGrantBinding
| ExecutorIntentRole
| ExecutorIntentConsumed
| ExecutorAuthorizationBinding
| ExecutorAttemptUnauthorized
| ExecutorPhaseConflict
| ExecutorPhaseOrder
| ExecutorPhaseState
| AuthorizedPhaseSpecMissing
| AuthorizedPhaseSpecInvalid
| AuthorizedPhaseSpecBinding
| AuthorizedPhaseArtifactMismatch
| AuthorizedPhaseSpecConflict
| PhaseAuthorityExpired
| MutationGrantReplay
| BootstrapAlreadyClaimed
| BootstrapPermitMissing
| VerifiedBackupChainMissing
| VerifiedBackupChainInvalid
| VerifiedBackupChainBinding
| VerifiedBackupChainConflict
| ExecutorObservationMismatch
| SourceGateProofMismatch
| SourceTrustRollback
| ExecutionResourceBusy
| ExecutionResourceOwnership
| DiskReservationAuthorizationMissing
| DiskReservationAuthorizationInvalid
| DiskObservationUnavailable
| DiskObservationInvalid
| DiskReservationRange
| DiskReservationCapacity (required available : Z)
| FenceConflict
| FencePhaseInvalid
| FenceOwnershipMismatch
| FenceReleaseUnsafe
| WorkflowContract (e : WorkflowContractError)
| ManifestContract (e : ManifestError)
| OperationContract (e : OperationContractError)
| OperationStateInvalid (e : OperationStateError)
| ArtifactContract (e : ArtifactContractError)
| UnsafeSqliteVersion (actual : string) (minimum_number : Z).
