(* ===== verification/Controller.v ===== *)
(** * The durable controller

    Model of [src/src/controller.rs] over the tables of
    [src/src/store/control.rs]: tab leases, admission of interactive and
    automated operations, and every transition of an operation attempt.

    The control store is a record of finite maps, one per table, keyed by the
    table's identity; the statements check the primary keys, the [UNIQUE], the
    [CHECK] and the foreign-key constraints the schema declares.  Columns that
    hold the text of a UUID or of an identifier hold the value itself; a JSON
    column holds the text of class [Json].  [Uuid::new_v4] draws are explicit
    arguments.  The statements of a body run in [immediate_transaction], which
    keeps the tables unchanged when the body fails. *)

From Stdlib Require Import ZArith Lia String.
From stdpp Require Import base gmap strings option list_numbers list.
From S2P Require Import Prelude Identifiers States Text Failure Operation Errors.

Local Open Scope Z_scope.

(** ** Data *)

Record TabLease : Type := MkTabLease {
  tl_user_id : Uuid;
  tl_lease_id : Uuid;
  tl_generation : Z;
  tl_acquired_at_ms : Z;
  tl_expires_at_ms : Z
}.

Record TabLeaseClaim : Type := MkTabLeaseClaim {
  tc_user_id : Uuid;
  tc_lease_id : Uuid;
  tc_generation : Z
}.

Record NewOperation : Type := MkNewOperation {
  no_project_id : ProjectId;
  no_operation_kind : OperationKind;
  no_target_commit : option GitCommitId;
  no_release_class : option ReleaseClass;
  no_installed_policy : InstalledPolicyIdentity
}.

Record ActionGrantClaims : Type := MkActionGrantClaims {
  ag_nonce : Uuid;
  ag_digest : EvidenceDigest;
  ag_user_id : Uuid;
  ag_project_id : ProjectId;
  ag_operation_kind : OperationKind;
  ag_target_commit : option GitCommitId;
  ag_retry_request_id : option Uuid;
  ag_expires_at_ms : Z
}.

Inductive DeliveryChannel : Type :=
| Channel_GithubWebhook
| Channel_SourceReconciliation
| Channel_DirectPush.

Definition DeliveryChannel_as_str (channel : DeliveryChannel) : string :=
  match channel with
  | Channel_GithubWebhook => "github_webhook"
  | Channel_SourceReconciliation => "source_reconciliation"
  | Channel_DirectPush => "direct_push"
  end.

Definition DeliveryChannel_actor_source (channel : DeliveryChannel) : AutomationSource :=
  match channel with
  | Channel_GithubWebhook => Source_GithubWebhook
  | Channel_SourceReconciliation => Source_SourceReconciliation
  | Channel_DirectPush => Source_DirectPush
  end.

Record VerifiedAutomationAdmission : Type := MkVerifiedAutomationAdmission {
  va_operation : NewOperation;
  va_delivery_channel : DeliveryChannel;
  va_delivery_id : string;
  va_payload_digest : EvidenceDigest;
  va_source_attestation_digest : EvidenceDigest;
  va_accepted_head : GitCommitId;
  va_accepted_sequence : Z;
  va_maximum_attempts : Z
}.

Record VerifiedInteractiveDeployAdmission : Type := MkVerifiedInteractiveDeployAdmission {
  vi_operation : NewOperation;
  vi_source_attestation_digest : EvidenceDigest;
  vi_accepted_head : GitCommitId;
  vi_accepted_sequence : Z
}.

Record InteractiveSourceEvidence : Type := MkInteractiveSourceEvidence {
  is_attestation_digest : EvidenceDigest;
  is_sequence : Z
}.

Record InteractiveAdmissionContext : Type := MkInteractiveAdmissionContext {
  ic_operation : NewOperation;
  ic_lease : TabLeaseClaim;
  ic_grant : ActionGrantClaims;
  ic_source : option InteractiveSourceEvidence;
  ic_admitted_at_ms : Z
}.

Inductive AdmissionOutcome : Type :=
| Created (operation : OperationRecord)
| Existing (operation : OperationRecord).

Definition AdmissionOutcome_operation (outcome : AdmissionOutcome) : OperationRecord :=
  match outcome with Created operation | Existing operation => operation end.

Definition AdmissionOutcome_created (outcome : AdmissionOutcome) : bool :=
  match outcome with Created _ => true | Existing _ => false end.

(** The [Uuid::new_v4] draws of one admission. *)
Record NewUuids : Type := MkNewUuids {
  nu_request_id : Uuid;
  nu_operation_id : Uuid;
  nu_attempt_id : Uuid
}.

(** ** Names stored in text columns *)

Definition operation_kind_name (kind : OperationKind) : string :=
  match kind with
  | Kind_Deploy => "deploy"
  | Kind_CodeRollback => "code_rollback"
  | Kind_BackupOnly => "backup_only"
  end.

Definition phase_name (phase : OperationPhase) : string :=
  match phase with
  | Phase_Queued => "queued"
  | Phase_SyncingSource => "syncing_source"
  | Phase_VerifyingSource => "verifying_source"
  | Phase_Testing => "testing"
  | Phase_Building => "building"
  | Phase_Preflight => "preflight"
  | Phase_BackingUp => "backing_up"
  | Phase_Draining => "draining"
  | Phase_CutoverSnapshotting => "cutover_snapshotting"
  | Phase_Migrating => "migrating"
  | Phase_Deploying => "deploying"
  | Phase_HealthChecking => "health_checking"
  | Phase_Soaking => "soaking"
  | Phase_Rollback => "rollback"
  | Phase_Reconciliation => "reconciliation"
  end.

Definition result_name (result : OperationResult) : string :=
  match result with
  | Result_Running => "running"
  | Result_Succeeded => "succeeded"
  | Result_Failed => "failed"
  | Result_RolledBack => "rolled_back"
  | Result_RollbackFailed => "rollback_failed"
  | Result_Cancelled => "cancelled"
  | Result_Superseded => "superseded"
  | Result_ManualRecoveryRequired => "manual_recovery_required"
  end.

(** [ExecutorPhaseBranch::storage_key]. *)
Definition storage_key (branch : ExecutorPhaseBranch) (phase : OperationPhase)
    : Result StoreError string :=
  match branch, phase with
  | Branch_Primary, phase => Ok (phase_name phase)
  | Branch_RollbackRecovery, Phase_Rollback => Ok "rollback_recovery"%string
  | Branch_RollbackRecovery, Phase_HealthChecking => Ok "rollback_recovery_health_checking"%string
  | Branch_RollbackRecovery, Phase_Soaking => Ok "rollback_recovery_soaking"%string
  | Branch_RollbackRecovery, _ => Err ExecutorPhaseOrder
  end.

(** ** Evidence merging *)

Definition merge_optional {T} `{EqDecision T} (target incoming : option T) (field : string)
    : Result StoreError (option T) :=
  match target, incoming with
  | _, None => Ok target
  | None, Some value => Ok (Some value)
  | Some current, Some value =>
      if current == value then Ok target else Err (ArtifactEvidenceConflict field)
  end.

Definition merge_vector {T} `{EqDecision T} (target incoming : list T) (field : string)
    : Result StoreError (list T) :=
  if (incoming == []) || (target == incoming) then Ok target
  else if target == [] then Ok incoming
  else Err (ArtifactEvidenceConflict field).

Definition merge_authorized_phase_spec_digest (history : list AuthorizedPhaseSpecDigestV1)
    (phase : OperationPhase) (branch : ExecutorPhaseBranch) (incoming : option EvidenceDigest)
    : Result StoreError (list AuthorizedPhaseSpecDigestV1) :=
  match incoming with
  | None => Ok history
  | Some incoming =>
      match find_first (λ entry, (aps_phase entry == phase) && (aps_branch entry == branch))
              history with
      | Some entry =>
          if aps_spec_digest entry == incoming then Ok history
          else Err (ArtifactEvidenceConflict "authorized_phase_spec_digest")
      | None => Ok (history ++ [MkAuthorizedPhaseSpecDigestV1 branch phase incoming])
      end
  end.

Definition merge_health_artifact (target incoming : option EvidenceDigest)
    (phase : OperationPhase) (field : string) : Result StoreError (option EvidenceDigest) :=
  if (phase == Phase_Soaking) && is_some incoming then Ok incoming
  else merge_optional target incoming field.

(** [merge_optional(&mut evidence.f, artifacts.f.as_ref(), "f")?] and the same
    for a vector field: the field's setter makes the assignment. *)
Definition merge_field {T} `{EqDecision T} (f : OperationEvidence → option T) `{!Setter f}
    (g : PhaseArtifacts → option T) (field : string)
    (artifacts : PhaseArtifacts) (evidence : OperationEvidence)
    : Result StoreError OperationEvidence :=
  let? value := merge_optional (f evidence) (g artifacts) field in
  Ok (evidence <| f := value |>).

Definition merge_vector_field {T} `{EqDecision T} (f : OperationEvidence → list T) `{!Setter f}
    (g : PhaseArtifacts → list T) (field : string)
    (artifacts : PhaseArtifacts) (evidence : OperationEvidence)
    : Result StoreError OperationEvidence :=
  let? value := merge_vector (f evidence) (g artifacts) field in
  Ok (evidence <| f := value |>).

Definition merge_backup_artifacts (ev : OperationEvidence) (a : PhaseArtifacts)
    : Result StoreError OperationEvidence :=
  let? ev := merge_field ev_backup_id pa_backup_id "backup_id" a ev in
  let? ev := merge_field ev_backup_set_id pa_backup_set_id "backup_set_id" a ev in
  let? ev := merge_field ev_base_backup_id pa_base_backup_id "base_backup_id" a ev in
  let? ev := merge_field ev_base_backup_manifest_digest pa_base_backup_manifest_digest
               "base_backup_manifest_digest" a ev in
  let? ev := merge_field ev_base_backup_evidence_digest pa_base_backup_evidence_digest
               "base_backup_evidence_digest" a ev in
  let? ev := merge_field ev_base_backup_offsite_evidence_digest
               pa_base_backup_offsite_evidence_digest
               "base_backup_offsite_evidence_digest" a ev in
  let? ev := merge_field ev_base_backup_verification_digest pa_base_backup_verification_digest
               "base_backup_verification_digest" a ev in
  let? ev := merge_field ev_cutover_backup_id pa_cutover_backup_id "cutover_backup_id" a ev in
  let? ev := merge_field ev_cutover_backup_manifest_digest pa_cutover_backup_manifest_digest
               "cutover_backup_manifest_digest" a ev in
  let? ev := merge_field ev_cutover_backup_evidence_digest pa_cutover_backup_evidence_digest
               "cutover_backup_evidence_digest" a ev in
  let? ev := merge_field ev_cutover_backup_verification_digest
               pa_cutover_backup_verification_digest
               "cutover_backup_verification_digest" a ev in
  merge_field ev_fencing_epoch pa_fencing_epoch "fencing_epoch" a ev.

Definition merge_release_health_artifacts (ev : OperationEvidence) (a : PhaseArtifacts)
    (phase : OperationPhase) (is_rollback_recovery : bool)
    : Result StoreError OperationEvidence :=
  let? ev := merge_field ev_previous_release_bundle_digest pa_previous_release_bundle_digest
               "previous_release_bundle_digest" a ev in
  if is_rollback_recovery then
    let? value := merge_health_artifact (ev_rollback_health_evidence_digest ev)
                    (pa_health_evidence_digest a) phase "rollback_health_evidence_digest" in
    Ok (ev <| ev_rollback_health_evidence_digest := value |>)
  else
    let? value := merge_health_artifact (ev_health_evidence_digest ev)
                    (pa_health_evidence_digest a) phase "health_evidence_digest" in
    Ok (ev <| ev_health_evidence_digest := value |>).

Definition merge_artifacts (ev : OperationEvidence) (a : PhaseArtifacts)
    (phase : OperationPhase) (branch : ExecutorPhaseBranch) (is_rollback_recovery : bool)
    : Result StoreError OperationEvidence :=
  let? history := merge_authorized_phase_spec_digest (ev_authorized_phase_spec_digests ev)
                    phase branch (pa_authorized_phase_spec_digest a) in
  let ev := ev <| ev_authorized_phase_spec_digests := history |> in
  let? ev := merge_field ev_source_gate_proof_digest pa_source_gate_proof_digest
               "source_gate_proof_digest" a ev in
  let? ev := merge_field ev_drain_evidence_digest pa_drain_evidence_digest
               "drain_evidence_digest" a ev in
  let? ev := merge_field ev_source_export_digest pa_source_export_digest
               "source_export_digest" a ev in
  let? ev := merge_field ev_prefetch_evidence_digest pa_prefetch_evidence_digest
               "prefetch_evidence_digest" a ev in
  let? ev := merge_field ev_ci_evidence_digest pa_ci_evidence_digest "ci_evidence_digest" a ev in
  let? ev := merge_field ev_build_plan_digest pa_build_plan_digest "build_plan_digest" a ev in
  let? ev := merge_field ev_deployment_plan_digest pa_deployment_plan_digest
               "deployment_plan_digest" a ev in
  let? ev := merge_field ev_release_bundle_digest pa_release_bundle_digest
               "release_bundle_digest" a ev in
  let? ev := merge_field ev_resource_reservation_digest pa_resource_reservation_digest
               "resource_reservation_digest" a ev in
  let? ev := merge_field ev_build_context_digest pa_build_context_digest
               "build_context_digest" a ev in
  let? ev := merge_vector_field ev_generated_output_digests pa_generated_output_digests
               "generated_output_digests" a ev in
  let? ev := merge_field ev_image_digest pa_image_digest "image_digest" a ev in
  let? ev := merge_field ev_image_id_digest pa_image_id_digest "image_id_digest" a ev in
  let? ev := merge_vector_field ev_base_image_digests pa_base_image_digests
               "base_image_digests" a ev in
  let? ev := merge_field ev_schema_version pa_schema_version "schema_version" a ev in
  let? ev := merge_backup_artifacts ev a in
  merge_release_health_artifacts ev a phase is_rollback_recovery.

(** ** Committed phases and the next state *)

Definition receipt_phase_for_transition (transitions : list OperationTransition) (index : nat)
    : option OperationPhase :=
  transition ← transitions !! index;
  if os_phase (ot_from transition) != Phase_Reconciliation
  then Some (os_phase (ot_from transition))
  else
    reconciliation ← (match index with O => None | S prior => transitions !! prior end);
    if (os_phase (ot_to reconciliation) == Phase_Reconciliation)
       && is_none (ot_receipt_digest reconciliation)
    then Some (os_phase (ot_from reconciliation))
    else None.

Definition has_committed_mutation (operation : OperationRecord) : bool :=
  let transitions := ev_transitions (op_evidence operation) in
  any_from (λ index transition,
    is_some (ot_receipt_digest transition)
    && match receipt_phase_for_transition transitions index with
       | Some phase => crosses_mutation_boundary phase
       | None => false
       end) 0 transitions.

Definition has_committed_phase (operation : OperationRecord) (phase : OperationPhase) : bool :=
  let transitions := ev_transitions (op_evidence operation) in
  any_from (λ index transition,
    is_some (ot_receipt_digest transition)
    && (receipt_phase_for_transition transitions index == Some phase)) 0 transitions.

Definition has_trusted_source_admission (operation : OperationRecord) : bool :=
  (op_operation_kind operation == Kind_Deploy)
  && is_some (op_target_commit operation)
  && is_some (ev_installed_policy (op_evidence operation))
  && is_some (ev_source_attestation_digest (op_evidence operation))
  && match ev_source_sequence (op_evidence operation) with
     | Some sequence => 0 <? sequence
     | None => false
     end.

Definition is_stateful_cutover_retry (operation : OperationRecord) : bool :=
  (os_result (op_state operation) == Result_Running)
  && (os_phase (op_state operation) == Phase_CutoverSnapshotting)
  && (op_operation_kind operation == Kind_Deploy)
  && match op_release_class operation with
     | Some (Class_StatefulCompatible | Class_StatefulBreaking) => true
     | _ => false
     end
  && has_trusted_source_admission operation
  && has_committed_phase operation Phase_BackingUp
  && has_committed_phase operation Phase_Draining.

Definition ROLLBACK_RECOVERY_PHASES : list OperationPhase :=
  [Phase_Rollback; Phase_HealthChecking; Phase_Soaking].

Definition next_state_for_phase_receipt (operation : OperationRecord) (receipt : PhaseReceipt)
    (is_rollback_recovery : bool) : Result StoreError OperationState :=
  let expected_branch :=
    if is_rollback_recovery then Branch_RollbackRecovery else Branch_Primary in
  if pr_branch receipt != expected_branch then Err ReceiptMismatch
  else
    let? phases :=
      if is_rollback_recovery then Ok ROLLBACK_RECOVERY_PHASES
      else map_err OperationContract
             (OperationKind_required_phases (op_operation_kind operation)
                (op_release_class operation)) in
    match position (λ phase, phase == pr_phase receipt) phases with
    | None => Err TransitionRejected
    | Some index =>
        match phases !! S index with
        | Some next_phase =>
            let? permitted :=
              if is_rollback_recovery then Ok true
              else map_err OperationContract
                     (OperationKind_permits_transition (op_operation_kind operation)
                        (op_release_class operation) (pr_phase receipt) next_phase) in
            if negb permitted then Err TransitionRejected
            else Ok (MkOperationState next_phase Result_Running Blocking_None)
        | None =>
            Ok (MkOperationState (pr_phase receipt)
                  (if is_rollback_recovery || (op_operation_kind operation == Kind_CodeRollback)
                   then Result_RolledBack else Result_Succeeded)
                  Blocking_None)
        end
    end.

Definition require_rollback_transition (operation : OperationRecord) : Result StoreError bool :=
  if ev_recovery_mode (op_evidence operation) == Some Recovery_Rollback then
    if (os_phase (op_state operation) == Phase_Rollback)
       && (os_result (op_state operation) == Result_Running)
    then Ok true
    else Err TransitionRejected
  else if (op_operation_kind operation != Kind_Deploy)
       || (os_result (op_state operation) != Result_Running)
       || negb (crosses_mutation_boundary (os_phase (op_state operation)))
       || negb (has_committed_phase operation Phase_Deploying)
       || negb match op_release_class operation with
               | Some (Class_CodeOnlyCompatible | Class_StatefulCompatible) => true
               | _ => false
               end
  then Err TransitionRejected
  else Ok false.

(** ** Input validation *)

Definition validate_operation (operation : NewOperation) : Result StoreError unit :=
  if requires_commit (no_operation_kind operation) != is_some (no_target_commit operation)
  then Err (InvalidControllerInput "target commit does not match operation kind")
  else
    let? _ := map_err OperationContract
                (OperationKind_required_phases (no_operation_kind operation)
                   (no_release_class operation)) in
    if ip_version (no_installed_policy operation) =? 0
    then Err (InvalidControllerInput "installed policy version must be positive")
    else Ok tt.

Definition validate_grant_binding (operation : NewOperation) (lease : TabLeaseClaim)
    (grant : ActionGrantClaims) (admitted_at_ms : Z) : Result StoreError unit :=
  if is_nil (tc_user_id lease) || is_nil (tc_lease_id lease) || (tc_generation lease =? 0)
     || is_nil (ag_nonce grant)
  then Err (InvalidControllerInput "lease and grant identities must not be nil")
  else if ag_expires_at_ms grant <=? admitted_at_ms then Err GrantExpired
  else if (ag_user_id grant != tc_user_id lease)
       || (ag_project_id grant != no_project_id operation)
       || (ag_operation_kind grant != no_operation_kind operation)
       || (ag_target_commit grant != no_target_commit operation)
  then Err GrantBindingMismatch
  else Ok tt.

Definition validate_automation (admission : VerifiedAutomationAdmission)
    : Result StoreError unit :=
  let? _ := validate_operation (va_operation admission) in
  let? target := ok_or AutomationAdmissionRejected (no_target_commit (va_operation admission)) in
  if (no_operation_kind (va_operation admission) != Kind_Deploy)
     || (va_maximum_attempts admission =? 0)
     || (va_accepted_sequence admission =? 0)
     || (target != va_accepted_head admission)
     || (str_len (va_delivery_id admission) =? 0)
     || (128 <? str_len (va_delivery_id admission))
     || negb (is_ascii (va_delivery_id admission))
  then Err AutomationAdmissionRejected
  else Ok tt.

Definition validate_failure_capsule_input (capsule : FailureCapsule) : Result StoreError unit :=
  map_err (λ _, InvalidControllerInput "invalid failure capsule")
    (FailureCapsule_validate capsule).

Definition next_attempt_number (current : Z) : Result StoreError Z :=
  ok_or (CorruptController "attempt number overflow") (u32_checked_add current 1).

(** The loop of [validate_authorized_phase_spec_history]; [previous] is
    [history[..index]]. *)
Fixpoint validate_spec_history_from (previous history : list AuthorizedPhaseSpecDigestV1)
    : Result StoreError unit :=
  match history with
  | [] => Ok tt
  | entry :: rest =>
      let? _ := storage_key (aps_branch entry) (aps_phase entry) in
      if existsb (λ p, (aps_branch p == aps_branch entry) && (aps_phase p == aps_phase entry))
           previous
      then Err (CorruptController "duplicate authorized phase spec history key")
      else validate_spec_history_from (previous ++ [entry]) rest
  end.

Definition validate_authorized_phase_spec_history
    (history : list AuthorizedPhaseSpecDigestV1) : Result StoreError unit :=
  validate_spec_history_from [] history.

(** ** The control store *)

Record TabLeaseRow : Type := MkTabLeaseRow {
  lr_lease_id : Uuid;
  lr_generation : Z;
  lr_acquired_at_ms : Z;
  lr_expires_at_ms : Z
}.

Record RequestRow : Type := MkRequestRow {
  rq_project_id : ProjectId;
  rq_target_key : string;
  rq_target_commit : option string;
  rq_operation_kind : string;
  rq_created_at_ms : Z
}.

Record GrantRow : Type := MkGrantRow {
  gr_grant_digest : EvidenceDigest;
  gr_request_id : Uuid;
  gr_attempt_id : Uuid;
  gr_consumed_at_ms : Z
}.

Record DeliveryRow : Type := MkDeliveryRow {
  dr_payload_digest : EvidenceDigest;
  dr_request_id : Uuid;
  dr_received_at_ms : Z
}.

Section Controller.
Context `{!Json OperationRecord, !Json OperationTransition}.

Record AttemptRow : Type := MkAttemptRow {
  at_operation_id : Uuid;
  at_request_id : Uuid;
  at_attempt_number : Z;
  at_phase : string;
  at_result : string;
  at_operation_json : json_text OperationRecord;
  at_created_at_ms : Z;
  at_updated_at_ms : Z
}.

Record TransitionRow : Type := MkTransitionRow {
  tr_transition_json : json_text OperationTransition;
  tr_occurred_at_ms : Z
}.

(** [tab_leases] by user, [deployment_requests] by request, [operation_attempts]
    by attempt, [controller_action_grants] by nonce, [transport_deliveries] by
    channel and delivery, [operation_transitions] by attempt and sequence. *)
Record ControlDb : Type := MkControlDb {
  tab_leases : gmap Uuid TabLeaseRow;
  deployment_requests : gmap Uuid RequestRow;
  operation_attempts : gmap Uuid AttemptRow;
  controller_action_grants : gmap Uuid GrantRow;
  transport_deliveries : gmap (string * string) DeliveryRow;
  operation_transitions : gmap (Uuid * Z) TransitionRow
}.

#[global] Instance AttemptRow_eta : Eta AttemptRow := λ r,
  MkAttemptRow (at_operation_id r) (at_request_id r) (at_attempt_number r) (at_phase r)
    (at_result r) (at_operation_json r) (at_created_at_ms r) (at_updated_at_ms r).
#[global] Instance ControlDb_eta : Eta ControlDb := λ r,
  MkControlDb (tab_leases r) (deployment_requests r) (operation_attempts r)
    (controller_action_grants r) (transport_deliveries r) (operation_transitions r).

Definition empty_control_db : ControlDb := MkControlDb ∅ ∅ ∅ ∅ ∅ ∅.

Abbreviation ControlTx := (Tx ControlDb StoreError).

(** ** Statements *)

Definition ensure_tx (b : bool) (e : StoreError) : ControlTx unit := lift (ensure b e).

(** [INSERT INTO tab_leases .. ON CONFLICT(user_id) DO UPDATE SET ..]. *)
Definition upsert_tab_lease (user_id : Uuid) (row : TabLeaseRow) : ControlTx unit :=
  let? leases := gets tab_leases in
  let? _ := ensure_tx ((0 <? lr_generation row)
                       && (lr_acquired_at_ms row <? lr_expires_at_ms row))
              (Sqlite CheckViolation) in
  let? _ := ensure_tx (negb (row_exists (λ user other,
                (user != user_id) && (lr_lease_id other == lr_lease_id row)) leases))
              (Sqlite UniqueViolation) in
  modify (λ db, db <| tab_leases := <[user_id := row]> (tab_leases db) |>).

Definition same_request (a b : RequestRow) : bool :=
  (rq_project_id a == rq_project_id b) && (rq_target_key a == rq_target_key b)
  && (rq_operation_kind a == rq_operation_kind b).

Definition insert_request (request_id : Uuid) (row : RequestRow) : ControlTx unit :=
  let? requests := gets deployment_requests in
  let? _ := ensure_tx (is_none (requests !! request_id)) (Sqlite PrimaryKeyViolation) in
  let? _ := ensure_tx (negb (row_exists (λ _ other, same_request row other) requests))
              (Sqlite UniqueViolation) in
  let? _ := ensure_tx
              match rq_target_commit row with
              | None => rq_target_key row == "-"%string
              | Some commit => rq_target_key row == commit
              end (Sqlite CheckViolation) in
  modify (λ db, db <| deployment_requests := <[request_id := row]> (deployment_requests db) |>).

Definition insert_attempt (attempt_id : Uuid) (row : AttemptRow) : ControlTx unit :=
  let? attempts := gets operation_attempts in
  let? requests := gets deployment_requests in
  let? _ := ensure_tx (negb (row_exists (λ _ other,
                at_operation_id other == at_operation_id row) attempts))
              (Sqlite PrimaryKeyViolation) in
  let? _ := ensure_tx (is_none (attempts !! attempt_id)
                && negb (row_exists (λ _ other,
                     (at_request_id other == at_request_id row)
                     && (at_attempt_number other =? at_attempt_number row)) attempts))
              (Sqlite UniqueViolation) in
  let? _ := ensure_tx (0 <? at_attempt_number row) (Sqlite CheckViolation) in
  let? _ := ensure_tx (is_some (requests !! at_request_id row)) (Sqlite ForeignKeyViolation) in
  modify (λ db, db <| operation_attempts := <[attempt_id := row]> (operation_attempts db) |>).

Definition insert_grant (nonce : Uuid) (row : GrantRow) : ControlTx unit :=
  let? grants := gets controller_action_grants in
  let? attempts := gets operation_attempts in
  let? requests := gets deployment_requests in
  let? _ := ensure_tx (is_none (grants !! nonce)) (Sqlite PrimaryKeyViolation) in
  let? _ := ensure_tx (is_some (requests !! gr_request_id row)
                       && is_some (attempts !! gr_attempt_id row))
              (Sqlite ForeignKeyViolation) in
  modify (λ db, db <| controller_action_grants :=
                        <[nonce := row]> (controller_action_grants db) |>).

Definition insert_delivery (key : string * string) (row : DeliveryRow) : ControlTx unit :=
  let? deliveries := gets transport_deliveries in
  let? requests := gets deployment_requests in
  let? _ := ensure_tx (is_none (deliveries !! key)) (Sqlite PrimaryKeyViolation) in
  let? _ := ensure_tx (is_some (requests !! dr_request_id row)) (Sqlite ForeignKeyViolation) in
  modify (λ db, db <| transport_deliveries := <[key := row]> (transport_deliveries db) |>).

Definition insert_transition (attempt_id : Uuid) (sequence : Z) (row : TransitionRow)
    : ControlTx unit :=
  let? transitions := gets operation_transitions in
  let? attempts := gets operation_attempts in
  let? _ := ensure_tx (is_none (transitions !! (attempt_id, sequence)))
              (Sqlite PrimaryKeyViolation) in
  let? _ := ensure_tx (0 <? sequence) (Sqlite CheckViolation) in
  let? _ := ensure_tx (is_some (attempts !! attempt_id)) (Sqlite ForeignKeyViolation) in
  modify (λ db, db <| operation_transitions :=
                        <[(attempt_id, sequence) := row]> (operation_transitions db) |>).

(** [UPDATE operation_attempts SET .. WHERE attempt_id = ?1 AND p]: the number
    of rows changed is 0 or 1. *)
Definition update_attempt (attempt_id : Uuid) (p : AttemptRow → bool)
    (set : AttemptRow → AttemptRow) : ControlTx Z :=
  let? attempts := gets operation_attempts in
  match attempts !! attempt_id with
  | Some row =>
      if p row then
        let? _ := modify (λ db, db <| operation_attempts :=
                                        <[attempt_id := set row]> (operation_attempts db) |>) in
        tx_ok 1
      else tx_ok 0
  | None => tx_ok 0
  end.

Definition attempt_asc (a b : Uuid * AttemptRow) : comparison :=
  at_attempt_number a.2 ?= at_attempt_number b.2.

Definition attempt_desc (a b : Uuid * AttemptRow) : comparison :=
  at_attempt_number b.2 ?= at_attempt_number a.2.

(** [ORDER BY updated_at_ms DESC, attempt_number DESC]. *)
Definition recent_first (a b : Uuid * AttemptRow) : comparison :=
  pair_compare (at_updated_at_ms b.2 ?= at_updated_at_ms a.2) (attempt_desc a b).

Definition request_rows (request_id : Uuid) (db : ControlDb) : list (Uuid * AttemptRow) :=
  select_rows (λ _ row, at_request_id row == request_id) (operation_attempts db).

(** ** Loading and persisting an attempt *)

Definition json_err {A} (r : Result SerdeError A) : Result StoreError A := map_err JsonError r.

Definition validate_stored_capsule (capsule : option FailureCapsule) : Result StoreError unit :=
  match capsule with
  | Some capsule =>
      map_err (λ _, CorruptController "failure capsule") (FailureCapsule_validate capsule)
  | None => Ok tt
  end.

Definition decode_operation (json : json_text OperationRecord)
    : Result StoreError OperationRecord :=
  let? operation := json_err (json_from_str json) in
  let? _ := map_err OperationStateInvalid (OperationState_validate (op_state operation)) in
  let? _ := validate_stored_capsule (op_failure_capsule operation) in
  let? _ := map_err OperationContract
              (OperationKind_required_phases (op_operation_kind operation)
                 (op_release_class operation)) in
  let? _ := validate_authorized_phase_spec_history
              (ev_authorized_phase_spec_digests (op_evidence operation)) in
  Ok operation.

(** [.optional()?.map(decode_operation).transpose()]. *)
Definition decode_optional (row : option (Uuid * AttemptRow))
    : Result StoreError (option OperationRecord) :=
  match row with
  | None => Ok None
  | Some row =>
      let? operation := decode_operation (at_operation_json row.2) in
      Ok (Some operation)
  end.

Fixpoint decode_rows (rows : list (Uuid * AttemptRow))
    : Result StoreError (list OperationRecord) :=
  match rows with
  | [] => Ok []
  | row :: rest =>
      let? operation := decode_operation (at_operation_json row.2) in
      let? operations := decode_rows rest in
      Ok (operation :: operations)
  end.

Definition load_attempt (attempt_id : Uuid) : ControlTx OperationRecord :=
  let? attempts := gets operation_attempts in
  let? row := lift (ok_or (OperationNotFound attempt_id) (attempts !! attempt_id)) in
  lift (decode_operation (at_operation_json row)).

Definition latest_attempt (request_id : Uuid) : ControlTx (option OperationRecord) :=
  let? rows := gets (request_rows request_id) in
  lift (decode_optional (head (sort_by attempt_desc rows))).

(** The counting loop: a [u32] that is checked for overflow. *)
Fixpoint count_source_sequence (source_sequence count : Z) (rows : list (Uuid * AttemptRow))
    : Result StoreError Z :=
  match rows with
  | [] => Ok count
  | row :: rest =>
      let? operation := decode_operation (at_operation_json row.2) in
      if ev_source_sequence (op_evidence operation) == Some source_sequence then
        let? count := ok_or (CorruptController "source attempt count overflow")
                        (u32_checked_add count 1) in
        count_source_sequence source_sequence count rest
      else count_source_sequence source_sequence count rest
  end.

Definition attempt_count_for_source_sequence (request_id : Uuid) (source_sequence : Z)
    : ControlTx Z :=
  let? rows := gets (request_rows request_id) in
  lift (count_source_sequence source_sequence 0 (sort_by attempt_asc rows)).

(** The record and the log entry [persist_transition] writes. *)
Definition push_transition (operation : OperationRecord) (next_state : OperationState)
    (transition : OperationTransition) (occurred_at_ms : Z) : OperationRecord :=
  operation
    <| op_state := next_state |>
    <| op_updated_at_ms := occurred_at_ms |>
    <| op_evidence := (op_evidence operation)
         <| ev_transitions := ev_transitions (op_evidence operation) ++ [transition] |> |>.

Definition persist_transition (operation : OperationRecord) (next_state : OperationState)
    (receipt_digest : option EvidenceDigest) (occurred_at_ms : Z) : ControlTx OperationRecord :=
  let? _ := lift (map_err OperationStateInvalid (OperationState_validate next_state)) in
  let? _ := lift (validate_stored_capsule (op_failure_capsule operation)) in
  let? sequence := lift (ok_or (CorruptController "transition sequence overflow")
    (u32_try_from (Z.of_nat (length (ev_transitions (op_evidence operation))))
       ≫= λ value, u32_checked_add value 1)) in
  let transition := {|
    ot_sequence := sequence;
    ot_from := op_state operation;
    ot_to := next_state;
    ot_receipt_digest := receipt_digest;
    ot_occurred_at_ms := occurred_at_ms
  |} in
  let operation := push_transition operation next_state transition occurred_at_ms in
  let? transition_json := lift (json_err (json_to_string transition)) in
  let? operation_json := lift (json_err (json_to_string operation)) in
  let? _ := insert_transition (op_attempt_id operation) sequence
              (MkTransitionRow transition_json occurred_at_ms) in
  let? changed := update_attempt (op_attempt_id operation) (λ _, true) (λ row, row
    <| at_phase := phase_name (os_phase (op_state operation)) |>
    <| at_result := result_name (os_result (op_state operation)) |>
    <| at_operation_json := operation_json |>
    <| at_updated_at_ms := occurred_at_ms |>) in
  if negb (changed =? 1) then tx_err (OperationNotFound (op_attempt_id operation))
  else tx_ok operation.

(** ** Tab leases *)

Definition takeover_lease (user_id lease_id : Uuid) (acquired_at_ms expires_at_ms : Z)
    (db : ControlDb) : ControlDb * Result StoreError TabLease :=
  if is_nil user_id || is_nil lease_id
  then (db, Err (InvalidControllerInput "lease identities must not be nil"))
  else if expires_at_ms <=? acquired_at_ms
  then (db, Err (InvalidControllerInput "lease expiry must be later than acquisition"))
  else immediate_transaction (
    let? leases := gets tab_leases in
    let? generation := lift
      match leases !! user_id with
      | None => Ok 1
      | Some previous =>
          ok_or (CorruptController "tab lease generation")
            (u64_try_from (lr_generation previous) ≫= λ generation, u64_checked_add generation 1)
      end in
    let? generation_i64 := lift (ok_or (InvalidControllerInput "lease generation overflow")
                                   (i64_try_from generation)) in
    let? _ := upsert_tab_lease user_id
                (MkTabLeaseRow lease_id generation_i64 acquired_at_ms expires_at_ms) in
    tx_ok (MkTabLease user_id lease_id generation acquired_at_ms expires_at_ms)) db.

Definition validate_current_lease_connection (lease : TabLeaseClaim) (admitted_at_ms : Z)
    (db : ControlDb) : Result StoreError unit :=
  let? generation := ok_or (InvalidControllerInput "lease generation overflow")
                       (i64_try_from (tc_generation lease)) in
  let? expires_at_ms := ok_or LeaseRevoked
    (row ← tab_leases db !! tc_user_id lease;
     if (lr_lease_id row == tc_lease_id lease) && (lr_generation row =? generation)
     then Some (lr_expires_at_ms row) else None) in
  if expires_at_ms <=? admitted_at_ms then Err LeaseExpired else Ok tt.

Definition validate_tab_lease (lease : TabLeaseClaim) (now_ms : Z) (db : ControlDb)
    : Result StoreError unit :=
  if is_nil (tc_user_id lease) || is_nil (tc_lease_id lease) || (tc_generation lease =? 0)
     || (now_ms <? 0)
  then Err (InvalidControllerInput "lease identity or validation time is invalid")
  else read_connection (validate_current_lease_connection lease now_ms) db.

Definition validate_current_lease (lease : TabLeaseClaim) (admitted_at_ms : Z)
    : ControlTx unit :=
  λ db, let? _ := validate_current_lease_connection lease admitted_at_ms db in Ok (tt, db).

(** ** Admission *)

Definition target_key_of (target_commit : option GitCommitId) : string :=
  match target_commit with Some commit => GitCommitId_as_str commit | None => "-" end.

Definition request_row_of (operation : NewOperation) (created_at_ms : Z) : RequestRow := {|
  rq_project_id := no_project_id operation;
  rq_target_key := target_key_of (no_target_commit operation);
  rq_target_commit := GitCommitId_as_str <$> no_target_commit operation;
  rq_operation_kind := operation_kind_name (no_operation_kind operation);
  rq_created_at_ms := created_at_ms
|}.

Definition find_or_create_request (uuids : NewUuids) (operation : NewOperation)
    (created_at_ms : Z) : ControlTx Uuid :=
  let row := request_row_of operation created_at_ms in
  let? requests := gets deployment_requests in
  match head (select_rows (λ _ other, same_request row other) requests) with
  | Some (request_id, _) => tx_ok request_id
  | None =>
      let? _ := insert_request (nu_request_id uuids) row in
      tx_ok (nu_request_id uuids)
  end.

Definition create_attempt (uuids : NewUuids) (request_id : Uuid) (operation : NewOperation)
    (attempt_number : Z) (actor : OperationActor)
    (action_grant_digest source_attestation_digest : option EvidenceDigest)
    (source_sequence : option Z) (created_at_ms : Z) : ControlTx OperationRecord :=
  let state := MkOperationState Phase_Queued Result_Running Blocking_None in
  let? _ := lift (map_err OperationStateInvalid (OperationState_validate state)) in
  let record := {|
    op_operation_id := nu_operation_id uuids;
    op_request_id := request_id;
    op_attempt_id := nu_attempt_id uuids;
    op_attempt_number := attempt_number;
    op_project_id := no_project_id operation;
    op_operation_kind := no_operation_kind operation;
    op_target_commit := no_target_commit operation;
    op_release_class := no_release_class operation;
    op_state := state;
    op_actor := actor;
    op_evidence := OperationEvidence_default
      <| ev_installed_policy := Some (no_installed_policy operation) |>
      <| ev_source_attestation_digest := source_attestation_digest |>
      <| ev_source_sequence := source_sequence |>
      <| ev_action_grant_digest := action_grant_digest |>;
    op_failure_capsule := None;
    op_created_at_ms := created_at_ms;
    op_updated_at_ms := created_at_ms
  |} in
  let? json := lift (json_err (json_to_string record)) in
  let? _ := insert_attempt (op_attempt_id record) {|
    at_operation_id := op_operation_id record;
    at_request_id := op_request_id record;
    at_attempt_number := op_attempt_number record;
    at_phase := phase_name (os_phase (op_state record));
    at_result := result_name (os_result (op_state record));
    at_operation_json := json;
    at_created_at_ms := created_at_ms;
    at_updated_at_ms := created_at_ms
  |} in
  tx_ok record.

Definition consume_controller_grant (grant : ActionGrantClaims) (request_id attempt_id : Uuid)
    (consumed_at_ms : Z) : ControlTx unit :=
  insert_grant (ag_nonce grant) (MkGrantRow (ag_digest grant) request_id attempt_id consumed_at_ms).

Definition replayed_interactive_grant (grant : ActionGrantClaims)
    : ControlTx (option AdmissionOutcome) :=
  let? grants := gets controller_action_grants in
  let? attempts := gets operation_attempts in
  match (g ← grants !! ag_nonce grant; a ← attempts !! gr_attempt_id g; Some (g, a)) with
  | None => tx_ok None
  | Some (stored, attempt) =>
      if gr_grant_digest stored != ag_digest grant then tx_err GrantReplay
      else
        let? operation := lift (decode_operation (at_operation_json attempt)) in
        tx_ok (Some (Existing operation))
  end.

Definition is_new_source_generation (existing : OperationRecord)
    (source : option InteractiveSourceEvidence) : Result StoreError bool :=
  match source with
  | None => Ok false
  | Some source =>
      let existing_sequence := default 0 (ev_source_sequence (op_evidence existing)) in
      if is_sequence source <? existing_sequence then Err StaleSourceSequence
      else Ok (existing_sequence <? is_sequence source)
  end.

Definition create_interactive_attempt (uuids : NewUuids) (request_id : Uuid)
    (attempt_number : Z) (context : InteractiveAdmissionContext) : ControlTx AdmissionOutcome :=
  let? record := create_attempt uuids request_id (ic_operation context) attempt_number
    (Actor_Interactive (tc_user_id (ic_lease context)))
    (Some (ag_digest (ic_grant context)))
    (is_attestation_digest <$> ic_source context)
    (is_sequence <$> ic_source context)
    (ic_admitted_at_ms context) in
  let? _ := consume_controller_grant (ic_grant context) request_id (op_attempt_id record)
              (ic_admitted_at_ms context) in
  tx_ok (Created record).

Definition interactive_admission_outcome (uuids : NewUuids) (request_id : Uuid)
    (existing : option OperationRecord) (context : InteractiveAdmissionContext)
    : ControlTx AdmissionOutcome :=
  match existing with
  | None =>
      if is_some (ag_retry_request_id (ic_grant context)) then tx_err GrantBindingMismatch
      else create_interactive_attempt uuids request_id 1 context
  | Some existing =>
      let? new_generation := lift (is_new_source_generation existing (ic_source context)) in
      if new_generation : bool then
        match os_result (op_state existing) with
        | Result_ManualRecoveryRequired | Result_RollbackFailed =>
            tx_err (RecoveryRequired request_id)
        | _ =>
            if is_some (ag_retry_request_id (ic_grant context)) then tx_err GrantBindingMismatch
            else
              let? number := lift (next_attempt_number (op_attempt_number existing)) in
              create_interactive_attempt uuids request_id number context
        end
      else
        match os_result (op_state existing) with
        | Result_Running | Result_Succeeded | Result_RolledBack | Result_Superseded =>
            tx_ok (Existing existing)
        | Result_ManualRecoveryRequired | Result_RollbackFailed =>
            tx_err (RecoveryRequired request_id)
        | Result_Failed | Result_Cancelled =>
            if ag_retry_request_id (ic_grant context) != Some request_id
            then tx_err (RetryGrantRequired request_id)
            else
              let? number := lift (next_attempt_number (op_attempt_number existing)) in
              create_interactive_attempt uuids request_id number context
        end
  end.

Definition admit_interactive_transaction (uuids : NewUuids)
    (context : InteractiveAdmissionContext) : ControlTx AdmissionOutcome :=
  let? _ := validate_current_lease (ic_lease context) (ic_admitted_at_ms context) in
  let? replayed := replayed_interactive_grant (ic_grant context) in
  match replayed with
  | Some outcome => tx_ok outcome
  | None =>
      let? request_id := find_or_create_request uuids (ic_operation context)
                           (ic_admitted_at_ms context) in
      let? latest := latest_attempt request_id in
      interactive_admission_outcome uuids request_id latest context
  end.

Definition admit_interactive_inner (uuids : NewUuids) (operation : NewOperation)
    (lease : TabLeaseClaim) (grant : ActionGrantClaims)
    (source_evidence : option (EvidenceDigest * Z)) (admitted_at_ms : Z) (db : ControlDb)
    : ControlDb * Result StoreError AdmissionOutcome :=
  match (let? _ := validate_operation operation in
         validate_grant_binding operation lease grant admitted_at_ms) with
  | Err e => (db, Err e)
  | Ok _ =>
      immediate_transaction (admit_interactive_transaction uuids {|
        ic_operation := operation;
        ic_lease := lease;
        ic_grant := grant;
        ic_source := (λ s, MkInteractiveSourceEvidence s.1 s.2) <$> source_evidence;
        ic_admitted_at_ms := admitted_at_ms
      |}) db
  end.

Definition admit_interactive (uuids : NewUuids) (operation : NewOperation)
    (lease : TabLeaseClaim) (grant : ActionGrantClaims) (admitted_at_ms : Z) (db : ControlDb)
    : ControlDb * Result StoreError AdmissionOutcome :=
  if no_operation_kind operation == Kind_Deploy then (db, Err SourceAdmissionRequired)
  else admit_interactive_inner uuids operation lease grant None admitted_at_ms db.

Definition admit_verified_interactive_deploy (uuids : NewUuids)
    (admission : VerifiedInteractiveDeployAdmission) (lease : TabLeaseClaim)
    (grant : ActionGrantClaims) (admitted_at_ms : Z) (db : ControlDb)
    : ControlDb * Result StoreError AdmissionOutcome :=
  if (no_operation_kind (vi_operation admission) != Kind_Deploy)
     || (no_target_commit (vi_operation admission) != Some (vi_accepted_head admission))
     || (vi_accepted_sequence admission =? 0)
  then (db, Err SourceAdmissionRequired)
  else admit_interactive_inner uuids (vi_operation admission) lease grant
         (Some (vi_source_attestation_digest admission, vi_accepted_sequence admission))
         admitted_at_ms db.

Definition replayed_automation_delivery (admission : VerifiedAutomationAdmission)
    : ControlTx (option AdmissionOutcome) :=
  let? deliveries := gets transport_deliveries in
  match deliveries !! (DeliveryChannel_as_str (va_delivery_channel admission),
                       va_delivery_id admission) with
  | None => tx_ok None
  | Some stored =>
      if dr_payload_digest stored != va_payload_digest admission then tx_err DeliveryConflict
      else
        let? latest := latest_attempt (dr_request_id stored) in
        let? operation := lift (ok_or
          (CorruptController "delivery references a request without attempts") latest) in
        tx_ok (Some (Existing operation))
  end.

Definition create_automation_attempt (uuids : NewUuids) (request_id : Uuid)
    (admission : VerifiedAutomationAdmission) (attempt_number admitted_at_ms : Z)
    : ControlTx AdmissionOutcome :=
  let? record := create_attempt uuids request_id (va_operation admission) attempt_number
    (Actor_Automation (DeliveryChannel_actor_source (va_delivery_channel admission)))
    None
    (Some (va_source_attestation_digest admission))
    (Some (va_accepted_sequence admission))
    admitted_at_ms in
  tx_ok (Created record).

Definition automation_admission_outcome (uuids : NewUuids) (request_id : Uuid)
    (existing : option OperationRecord) (admission : VerifiedAutomationAdmission)
    (admitted_at_ms : Z) : ControlTx AdmissionOutcome :=
  match existing with
  | None => create_automation_attempt uuids request_id admission 1 admitted_at_ms
  | Some existing =>
      let? existing_sequence := lift (ok_or
        (CorruptController "automated attempt lacks source sequence")
        (ev_source_sequence (op_evidence existing))) in
      if va_accepted_sequence admission <? existing_sequence then tx_err StaleSourceSequence
      else
        match os_result (op_state existing) with
        | Result_ManualRecoveryRequired | Result_RollbackFailed =>
            tx_err (RecoveryRequired request_id)
        | result =>
            let? next_attempt := lift (next_attempt_number (op_attempt_number existing)) in
            if existing_sequence <? va_accepted_sequence admission
            then create_automation_attempt uuids request_id admission next_attempt admitted_at_ms
            else
              match result with
              | Result_Failed | Result_Cancelled =>
                  let? count := attempt_count_for_source_sequence request_id
                                  (va_accepted_sequence admission) in
                  if va_maximum_attempts admission <=? count
                  then tx_err AutomationAdmissionRejected
                  else create_automation_attempt uuids request_id admission next_attempt
                         admitted_at_ms
              | _ => tx_ok (Existing existing)
              end
        end
  end.

Definition admit_automation_transaction (uuids : NewUuids)
    (admission : VerifiedAutomationAdmission) (admitted_at_ms : Z)
    : ControlTx AdmissionOutcome :=
  let? replayed := replayed_automation_delivery admission in
  match replayed with
  | Some outcome => tx_ok outcome
  | None =>
      let? request_id := find_or_create_request uuids (va_operation admission) admitted_at_ms in
      let? latest := latest_attempt request_id in
      let? outcome := automation_admission_outcome uuids request_id latest admission
                        admitted_at_ms in
      let? _ := insert_delivery
        (DeliveryChannel_as_str (va_delivery_channel admission), va_delivery_id admission)
        (MkDeliveryRow (va_payload_digest admission) request_id admitted_at_ms) in
      tx_ok outcome
  end.

Definition admit_automation (uuids : NewUuids) (admission : VerifiedAutomationAdmission)
    (admitted_at_ms : Z) (db : ControlDb) : ControlDb * Result StoreError AdmissionOutcome :=
  match validate_automation admission with
  | Err e => (db, Err e)
  | Ok _ => immediate_transaction
              (admit_automation_transaction uuids admission admitted_at_ms) db
  end.

(** ** Queries *)

Definition operation (attempt_id : Uuid) (db : ControlDb)
    : Result StoreError (option OperationRecord) :=
  read_connection (λ db,
    decode_optional ((λ row, (attempt_id, row)) <$> operation_attempts db !! attempt_id)) db.

Definition attempts_for_request (request_id : Uuid) (db : ControlDb)
    : Result StoreError (list OperationRecord) :=
  read_connection (λ db, decode_rows (sort_by attempt_asc (request_rows request_id db))) db.

Fixpoint decode_project_rows (project_id : ProjectId) (rows : list (Uuid * AttemptRow))
    : Result StoreError (list OperationRecord) :=
  match rows with
  | [] => Ok []
  | row :: rest =>
      let? operation := decode_operation (at_operation_json row.2) in
      if op_project_id operation != project_id
      then Err (CorruptController "project operation query returned a foreign project")
      else
        let? operations := decode_project_rows project_id rest in
        Ok (operation :: operations)
  end.

Definition recent_project_operations (project_id : ProjectId) (limit : Z) (db : ControlDb)
    : Result StoreError (list OperationRecord) :=
  if negb ((1 <=? limit) && (limit <=? 50))
  then Err (InvalidControllerInput "project operation limit must be between 1 and 50")
  else
    let? limit := ok_or (InvalidControllerInput "project operation limit overflow")
                    (i64_try_from limit) in
    read_connection (λ db,
      let rows := select_rows (λ _ attempt,
        match deployment_requests db !! at_request_id attempt with
        | Some request => rq_project_id request == project_id
        | None => false
        end) (operation_attempts db) in
      decode_project_rows project_id (take (Z.to_nat limit) (sort_by recent_first rows))) db.

(** ** Transitions of an attempt *)

Section Transitions.
Context `{!Sha256, !Jcs ReceiptDigestPayload, !Jcs FenceAcquisitionReceiptDigestPayload}.

(** The checks of a receipt before a transaction is opened. *)
Definition validate_receipt (receipt : PhaseReceipt) : Result StoreError unit :=
  let? valid := json_err (PhaseReceipt_has_valid_digest receipt) in
  if negb valid then Err ReceiptDigestMismatch
  else map_err ArtifactContract (validate_for_phase (pr_artifacts receipt) (pr_phase receipt)).

Definition with_validation {A} (validation : Result StoreError unit) (body : ControlTx A)
    (db : ControlDb) : ControlDb * Result StoreError A :=
  match validation with
  | Err e => (db, Err e)
  | Ok _ => immediate_transaction body db
  end.

Definition commit_phase_receipt (receipt : PhaseReceipt) (recorded_at_ms : Z) (db : ControlDb)
    : ControlDb * Result StoreError OperationRecord :=
  with_validation (validate_receipt receipt) (
    let? operation := load_attempt (pr_attempt_id receipt) in
    if existsb (λ transition,
         ot_receipt_digest transition == Some (pr_receipt_digest receipt))
         (ev_transitions (op_evidence operation))
    then tx_ok operation
    else if (os_result (op_state operation) != Result_Running)
         || (os_phase (op_state operation) != pr_phase receipt)
    then tx_err ReceiptMismatch
    else
      let is_rollback_recovery :=
        ev_recovery_mode (op_evidence operation) == Some Recovery_Rollback in
      let? next_state := lift (next_state_for_phase_receipt operation receipt
                                 is_rollback_recovery) in
      let? evidence := lift (merge_artifacts (op_evidence operation) (pr_artifacts receipt)
                               (pr_phase receipt) (pr_branch receipt) is_rollback_recovery) in
      persist_transition (operation <| op_evidence := evidence |>) next_state
        (Some (pr_receipt_digest receipt)) recorded_at_ms) db.

Definition commit_reconciled_phase_receipt (receipt : PhaseReceipt) (recorded_at_ms : Z)
    (db : ControlDb) : ControlDb * Result StoreError OperationRecord :=
  with_validation (validate_receipt receipt) (
    let? operation := load_attempt (pr_attempt_id receipt) in
    let transitions := ev_transitions (op_evidence operation) in
    match position (λ transition,
            ot_receipt_digest transition == Some (pr_receipt_digest receipt)) transitions with
    | Some index =>
        match transitions !! index with
        | Some transition =>
            if (os_phase (ot_from transition) == Phase_Reconciliation)
               && (receipt_phase_for_transition transitions index == Some (pr_phase receipt))
            then tx_ok operation
            else tx_err ReceiptMismatch
        | None => tx_err ReceiptMismatch
        end
    | None =>
        if (os_result (op_state operation) != Result_Running)
           || (os_phase (op_state operation) != Phase_Reconciliation)
           || (ev_recovery_mode (op_evidence operation) != Some Recovery_Reconciliation)
           || (pr_branch receipt != Branch_Primary)
        then tx_err ReceiptMismatch
        else
          let entered_from_receipt_phase :=
            match last transitions with
            | Some transition =>
                (os_phase (ot_from transition) == pr_phase receipt)
                && (os_phase (ot_to transition) == Phase_Reconciliation)
                && (os_result (ot_to transition) == Result_Running)
                && is_none (ot_receipt_digest transition)
            | None => false
            end in
          if negb entered_from_receipt_phase then tx_err ReceiptMismatch
          else
            let? next_state := lift (next_state_for_phase_receipt operation receipt false) in
            let? evidence := lift (merge_artifacts (op_evidence operation) (pr_artifacts receipt)
                                     (pr_phase receipt) (pr_branch receipt) false) in
            persist_transition
              (operation <| op_evidence := evidence <| ev_recovery_mode := None |> |>
                         <| op_failure_capsule := None |>)
              next_state (Some (pr_receipt_digest receipt)) recorded_at_ms
    end) db.

Definition mark_needs_reconcile (attempt_id : Uuid) (failure_capsule : FailureCapsule)
    (recorded_at_ms : Z) (db : ControlDb) : ControlDb * Result StoreError OperationRecord :=
  with_validation (validate_failure_capsule_input failure_capsule) (
    let? operation := load_attempt attempt_id in
    if (os_phase (op_state operation) == Phase_Reconciliation)
       && (os_result (op_state operation) == Result_Running)
    then tx_ok operation
    else if os_result (op_state operation) != Result_Running then tx_err TransitionRejected
    else
      let next := MkOperationState Phase_Reconciliation Result_Running
                    Blocking_SecurityStateInvalid in
      persist_transition
        (operation <| op_evidence := (op_evidence operation)
                        <| ev_recovery_mode := Some Recovery_Reconciliation |> |>
                   <| op_failure_capsule := Some failure_capsule |>)
        next None recorded_at_ms) db.

Definition validate_rollback (attempt_id : Uuid) (db : ControlDb)
    : Result StoreError OperationRecord :=
  let? loaded := operation attempt_id db in
  let? operation := ok_or (OperationNotFound attempt_id) loaded in
  let? _ := require_rollback_transition operation in
  Ok operation.

Definition begin_rollback (attempt_id : Uuid) (recorded_at_ms : Z) (db : ControlDb)
    : ControlDb * Result StoreError OperationRecord :=
  immediate_transaction (
    let? operation := load_attempt attempt_id in
    let? already := lift (require_rollback_transition operation) in
    if already : bool then tx_ok operation
    else
      persist_transition
        (operation <| op_evidence := (op_evidence operation)
                        <| ev_recovery_mode := Some Recovery_Rollback |> |>)
        (MkOperationState Phase_Rollback Result_Running Blocking_None) None recorded_at_ms) db.

Definition set_pre_mutation_block (attempt_id : Uuid) (reason : BlockingReason)
    (requires_source_admission : bool) (recorded_at_ms : Z) (db : ControlDb)
    : ControlDb * Result StoreError OperationRecord :=
  immediate_transaction (
    let? operation := load_attempt attempt_id in
    if (os_result (op_state operation) != Result_Running)
       || (requires_source_admission && negb (has_trusted_source_admission operation))
       || has_committed_mutation operation
    then tx_err TransitionRejected
    else if os_blocking_reason (op_state operation) == reason then tx_ok operation
    else if (os_blocking_reason (op_state operation) != Blocking_None)
         && (os_blocking_reason (op_state operation) != Blocking_SourceBrokerUnavailable)
    then tx_ok operation
    else persist_transition operation
           (MkOperationState (os_phase (op_state operation)) Result_Running reason)
           None recorded_at_ms) db.

Definition set_source_block (attempt_id : Uuid) (reason : BlockingReason) (recorded_at_ms : Z)
    (db : ControlDb) : ControlDb * Result StoreError OperationRecord :=
  match reason with
  | Blocking_SourceDivergence | Blocking_SourceBrokerUnavailable
  | Blocking_SourceAttestationInvalid | Blocking_OperatorHold =>
      set_pre_mutation_block attempt_id reason true recorded_at_ms db
  | _ => (db, Err (InvalidControllerInput "invalid source blocking reason"))
  end.

Definition set_disk_block (attempt_id : Uuid) (recorded_at_ms : Z) (db : ControlDb)
    : ControlDb * Result StoreError OperationRecord :=
  set_pre_mutation_block attempt_id Blocking_DiskReserve false recorded_at_ms db.

Definition set_stateful_cutover_source_block (attempt_id : Uuid) (recorded_at_ms : Z)
    (db : ControlDb) : ControlDb * Result StoreError OperationRecord :=
  immediate_transaction (
    let? operation := load_attempt attempt_id in
    if negb (is_stateful_cutover_retry operation) then tx_err TransitionRejected
    else if os_blocking_reason (op_state operation) == Blocking_SourceBrokerUnavailable
    then tx_ok operation
    else if os_blocking_reason (op_state operation) != Blocking_None
    then tx_err TransitionRejected
    else persist_transition operation
           (MkOperationState (os_phase (op_state operation)) Result_Running
              Blocking_SourceBrokerUnavailable) None recorded_at_ms) db.

Definition clear_stateful_cutover_source_block (attempt_id : Uuid) (recorded_at_ms : Z)
    (db : ControlDb) : ControlDb * Result StoreError OperationRecord :=
  immediate_transaction (
    let? operation := load_attempt attempt_id in
    if negb (is_stateful_cutover_retry operation) then tx_err TransitionRejected
    else
      match os_blocking_reason (op_state operation) with
      | Blocking_None => tx_ok operation
      | Blocking_SourceBrokerUnavailable =>
          persist_transition operation
            (MkOperationState (os_phase (op_state operation)) Result_Running Blocking_None)
            None recorded_at_ms
      | _ => tx_err TransitionRejected
      end) db.

Definition clear_disk_block (attempt_id : Uuid) (recorded_at_ms : Z) (db : ControlDb)
    : ControlDb * Result StoreError OperationRecord :=
  immediate_transaction (
    let? operation := load_attempt attempt_id in
    if (os_result (op_state operation) != Result_Running)
       || (os_blocking_reason (op_state operation) != Blocking_DiskReserve)
       || has_committed_mutation operation
    then tx_err TransitionRejected
    else persist_transition operation
           (MkOperationState (os_phase (op_state operation)) Result_Running Blocking_None)
           None recorded_at_ms) db.

Definition supersede_source_attempt (attempt_id : Uuid) (failure_capsule : FailureCapsule)
    (recorded_at_ms : Z) (db : ControlDb) : ControlDb * Result StoreError OperationRecord :=
  with_validation (validate_failure_capsule_input failure_capsule) (
    let? operation := load_attempt attempt_id in
    if os_result (op_state operation) != Result_Running then tx_ok operation
    else if negb (has_trusted_source_admission operation) || has_committed_mutation operation
    then tx_err TransitionRejected
    else persist_transition (operation <| op_failure_capsule := Some failure_capsule |>)
           (MkOperationState (os_phase (op_state operation)) Result_Superseded Blocking_None)
           None recorded_at_ms) db.

(** The two [match]es of [record_fence_acquisition] on the persisted fence
    evidence: [None] when the receipt is already recorded. *)
Definition merge_fence_receipt (evidence : OperationEvidence)
    (receipt : FenceAcquisitionReceiptV1) : Result StoreError (option OperationEvidence) :=
  let? evidence :=
    match ev_fencing_epoch evidence with
    | Some current =>
        if current =? far_epoch receipt then Ok evidence
        else Err (ArtifactEvidenceConflict "fencing_epoch")
    | None => Ok (evidence <| ev_fencing_epoch := Some (far_epoch receipt) |>)
    end in
  match ev_fence_acquisition_receipt_digest evidence with
  | Some current =>
      if current == far_receipt_digest receipt then Ok None
      else Err (ArtifactEvidenceConflict "fence_acquisition_receipt_digest")
  | None =>
      Ok (Some (evidence <| ev_fence_acquisition_receipt_digest :=
                              Some (far_receipt_digest receipt) |>))
  end.

Definition record_fence_acquisition (attempt_id : Uuid) (receipt : FenceAcquisitionReceiptV1)
    (recorded_at_ms : Z) (db : ControlDb) : ControlDb * Result StoreError OperationRecord :=
  with_validation
    (if far_attempt_id receipt != attempt_id
     then Err (InvalidControllerInput "invalid fence acquisition receipt")
     else
       let? valid := map_err (λ _, InvalidControllerInput "invalid fence receipt")
                       (FenceReceipt_has_valid_digest receipt) in
       if negb valid then Err (InvalidControllerInput "invalid fence acquisition receipt")
       else Ok tt) (
    let? operation := load_attempt attempt_id in
    if (os_result (op_state operation) != Result_Running)
       || (os_phase (op_state operation) != Phase_CutoverSnapshotting)
       || (op_project_id operation != far_project_id receipt)
    then tx_err TransitionRejected
    else
      let? merged := lift (merge_fence_receipt (op_evidence operation) receipt) in
      match merged with
      | None => tx_ok (operation <| op_evidence := (op_evidence operation)
                                      <| ev_fencing_epoch := Some (far_epoch receipt) |> |>)
      | Some evidence =>
          let operation := operation <| op_evidence := evidence |>
                                     <| op_updated_at_ms := recorded_at_ms |> in
          let? operation_json := lift (json_err (json_to_string operation)) in
          let? changed := update_attempt attempt_id
            (λ row, at_result row == "running"%string)
            (λ row, row <| at_operation_json := operation_json |>
                        <| at_updated_at_ms := recorded_at_ms |>) in
          if negb (changed =? 1) then tx_err (OperationNotFound attempt_id)
          else tx_ok operation
      end) db.

Definition fail_attempt (attempt_id : Uuid) (failure_capsule : FailureCapsule)
    (recorded_at_ms : Z) (db : ControlDb) : ControlDb * Result StoreError OperationRecord :=
  with_validation (validate_failure_capsule_input failure_capsule) (
    let? operation := load_attempt attempt_id in
    if os_result (op_state operation) != Result_Running then tx_ok operation
    else if crosses_mutation_boundary (os_phase (op_state operation))
    then tx_err FailureAfterMutationRequiresReconcile
    else persist_transition (operation <| op_failure_capsule := Some failure_capsule |>)
           (MkOperationState (os_phase (op_state operation)) Result_Failed Blocking_None)
           None recorded_at_ms) db.

Definition cancel_before_mutation (attempt_id : Uuid) (recorded_at_ms : Z) (db : ControlDb)
    : ControlDb * Result StoreError OperationRecord :=
  immediate_transaction (
    let? operation := load_attempt attempt_id in
    if os_result (op_state operation) != Result_Running then tx_ok operation
    else if crosses_mutation_boundary (os_phase (op_state operation))
    then tx_err CancellationAfterMutation
    else persist_transition operation
           (MkOperationState (os_phase (op_state operation)) Result_Cancelled Blocking_None)
           None recorded_at_ms) db.
End Transitions.
End Controller.
