(* ===== verification/Attempt.v ===== *)
(** * The state machine of an operation attempt

    What the transitions of [src/src/controller.rs] do to one operation record:
    the step relation [attempt_step] with one rule per controller operation, the
    invariant [attempt_inv] of a record (its transition log, its committed phases
    against the execution plan, its recovery mode) and the proof by cases on the
    step that every step preserves it. *)

From Stdlib Require Import ZArith Lia String.
From stdpp Require Import base gmap strings option list_numbers list.
From S2P Require Import Prelude Identifiers States Text Failure Operation Errors Controller.

Local Open Scope Z_scope.

(** ** Committed phases *)

(** The log [ts] holds a receipt for phase [p]. *)
Definition phase_committed (ts : list OperationTransition) (p : OperationPhase) : Prop :=
  ∃ i t d, ts !! i = Some t ∧ ot_receipt_digest t = Some d
           ∧ receipt_phase_for_transition ts i = Some p.

Lemma has_committed_phase_true op p :
  has_committed_phase op p = true ↔ phase_committed (ev_transitions (op_evidence op)) p.
Proof.
  unfold has_committed_phase, phase_committed. rewrite any_from_true. simpl. split.
  - intros (i&t&Hi&[[d ?]%is_some_is_Some ?%bool_decide_eq_true]%andb_true_iff). naive_solver.
  - intros (i&t&d&Hi&Hd&Hp). exists i, t. split; [done|].
    by rewrite Hd, Hp, bool_decide_eq_true_2.
Qed.

Lemma has_committed_mutation_true op :
  has_committed_mutation op = true ↔
  ∃ p, phase_committed (ev_transitions (op_evidence op)) p ∧ crosses_mutation_boundary p = true.
Proof.
  unfold has_committed_mutation, phase_committed. rewrite any_from_true. simpl. split.
  - intros (i&t&Hi&[[d ?]%is_some_is_Some ?]%andb_true_iff). case_match; [naive_solver|done].
  - intros (p&(i&t&d&Hi&Hd&Hp)&?). exists i, t. split; [done|]. by rewrite Hd, Hp.
Qed.

Lemma has_committed_mutation_false op :
  has_committed_mutation op = false ↔
  ∀ p, phase_committed (ev_transitions (op_evidence op)) p → crosses_mutation_boundary p = false.
Proof.
  rewrite <- not_true_iff_false, has_committed_mutation_true. split.
  - intros Hn p Hp. destruct (crosses_mutation_boundary p) eqn:E; [|done]. naive_solver.
  - intros Hn (p&Hp&?). rewrite Hn in *; done.
Qed.

(** The receipt phase of an old entry does not depend on later entries. *)
Lemma receipt_phase_app ts t i :
  (i < length ts)%nat →
  receipt_phase_for_transition (ts ++ [t]) i = receipt_phase_for_transition ts i.
Proof.
  intros Hi. unfold receipt_phase_for_transition. rewrite lookup_app_l by done.
  destruct (ts !! i); simpl; [|done]. case_match; [done|].
  destruct i as [|i]; [done|]. by rewrite lookup_app_l by lia.
Qed.

(** The phase a new log entry is a receipt for. *)
Definition entry_phase (ts : list OperationTransition) (t : OperationTransition)
    : option OperationPhase :=
  if decide (os_phase (ot_from t) = Phase_Reconciliation) then
    match last ts with
    | Some r => if decide (os_phase (ot_to r) = Phase_Reconciliation ∧ ot_receipt_digest r = None)
                then Some (os_phase (ot_from r)) else None
    | None => None
    end
  else Some (os_phase (ot_from t)).

Lemma receipt_phase_last ts t :
  receipt_phase_for_transition (ts ++ [t]) (length ts) = entry_phase ts t.
Proof.
  unfold receipt_phase_for_transition, entry_phase.
  rewrite lookup_app_r, Nat.sub_diag by done. simpl.
  destruct (decide (os_phase (ot_from t) = Phase_Reconciliation)) as [->|Hne]; simpl.
  - destruct ts as [|r ts _] using rev_ind; simpl; [done|].
    rewrite last_snoc, length_app, Nat.add_1_r. simpl. rewrite <- app_assoc. simpl.
    rewrite lookup_app_r, Nat.sub_diag by done. simpl.
    destruct (decide (_ ∧ _)) as [[-> ->]|Hn]; [done|].
    destruct (_ && _) eqn:E; [|done]. bool_prop. naive_solver.
  - by rewrite bool_decide_eq_false_2.
Qed.

Lemma phase_committed_snoc ts t p :
  phase_committed (ts ++ [t]) p ↔
  phase_committed ts p ∨ (is_Some (ot_receipt_digest t) ∧ entry_phase ts t = Some p).
Proof.
  unfold phase_committed. split.
  - intros (i&t'&d&Hi&Hd&Hp). apply lookup_app_Some in Hi as [Hi|[Hle Hi]].
    + rewrite receipt_phase_app in Hp by (by eapply lookup_lt_Some). naive_solver.
    + apply list_lookup_singleton_Some in Hi as [Hz ->].
      assert (i = length ts) as -> by lia. rewrite receipt_phase_last in Hp. naive_solver.
  - intros [(i&t'&d&Hi&Hd&Hp)|[[d Hd] Hp]].
    + exists i, t', d. rewrite receipt_phase_app by (by eapply lookup_lt_Some).
      split; [by apply lookup_app_l_Some|done].
    + exists (length ts), t, d. rewrite receipt_phase_last.
      split; [|done]. by rewrite lookup_app_r, Nat.sub_diag.
Qed.

Lemma phase_committed_mono ts t p : phase_committed ts p → phase_committed (ts ++ [t]) p.
Proof. rewrite phase_committed_snoc. by left. Qed.

(** ** Facts on the execution plans *)

Ltac plan_cases H :=
  match type of H with
  | OperationKind_required_phases ?k ?c = Ok _ =>
      destruct k, c as [[]|]; simplify_eq/=
  end.

Ltac index_cases i := do 14 (try (is_var i; destruct i as [|i]; simplify_eq/=)).

Lemma plan_crosses_mono kind class plan i p p' :
  OperationKind_required_phases kind class = Ok plan →
  plan !! i = Some p → plan !! S i = Some p' →
  crosses_mutation_boundary p = true → crosses_mutation_boundary p' = true.
Proof. intros H Hi HSi Hc. plan_cases H; index_cases i; done. Qed.

Lemma plan_no_reconciliation kind class plan i :
  OperationKind_required_phases kind class = Ok plan → plan !! i ≠ Some Phase_Reconciliation.
Proof. intros H Hi. plan_cases H; index_cases i; done. Qed.

Lemma deploy_plan_no_rollback class plan i :
  OperationKind_required_phases Kind_Deploy class = Ok plan → plan !! i ≠ Some Phase_Rollback.
Proof. intros H Hi. destruct class as [[]|]; simplify_eq/=; index_cases i; done. Qed.

(** In a deploy plan what precedes the health check is the deployment and what
    precedes it; what precedes the soak is the health check and what precedes it. *)
Lemma deploy_plan_before_recovery class plan i p j q :
  OperationKind_required_phases Kind_Deploy class = Ok plan →
  plan !! i = Some p → (j < i)%nat → plan !! j = Some q →
  (p = Phase_HealthChecking → q = Phase_Deploying
     ∨ ∃ k, plan !! k = Some Phase_Deploying ∧ (j < k)%nat)
  ∧ (p = Phase_Soaking → q = Phase_HealthChecking ∨ q = Phase_Deploying
     ∨ ∃ k, plan !! k = Some Phase_Deploying ∧ (j < k)%nat).
Proof.
  intros H Hi Hj Hq. split; intros ->;
    destruct class as [[]|]; simplify_eq/=; index_cases i; index_cases j; try lia; auto;
    repeat first [left; reflexivity
      | match goal with |- ∃ _, _ =>
          first [exists 6%nat; split; [reflexivity|lia]
                |exists 10%nat; split; [reflexivity|lia]] end
      | right].
Qed.

(** ** Evidence merging *)

(** An optional field is written at most once: a recorded value stays. *)
Definition write_once {T} (old new : option T) : Prop := ∀ v, old = Some v → new = Some v.

(** What is incoming is recorded. *)
Definition recorded {T} (incoming new : option T) : Prop := ∀ v, incoming = Some v → new = Some v.

Lemma merge_optional_Ok {T} `{EqDecision T} (target incoming : option T) field r :
  merge_optional target incoming field = Ok r ↔
  write_once target r ∧ recorded incoming r ∧ (incoming = None → r = target)
  ∧ (is_Some incoming → target = None ∨ target = incoming).
Proof.
  unfold merge_optional, write_once, recorded.
  destruct target as [c|], incoming as [v|]; simpl.
  - destruct (decide (c = v)) as [->|Hn].
    + rewrite bool_decide_eq_true_2 by done. split.
      * intros [= <-]. naive_solver.
      * intros (H&_). by rewrite (H v).
    + rewrite bool_decide_eq_false_2 by done. split; [done|].
      intros (_&_&_&H). destruct H; [by eexists|done|congruence].
  - split; [intros [= <-]|intros (_&_&H&_); rewrite H by done]; [|done].
    split_and!; [naive_solver..|]. intros [? ?]; done.
  - split; [intros [= <-]; naive_solver|]. intros (_&H&_). by rewrite (H v).
  - split; [intros [= <-]|intros (_&_&H&_); by rewrite H by done].
    split_and!; [naive_solver..|]. intros [? ?]; done.
Qed.

Lemma merge_vector_Ok {T} `{EqDecision T} (target incoming : list T) field r :
  merge_vector target incoming field = Ok r →
  (target ≠ [] → r = target) ∧ (incoming ≠ [] → r = incoming).
Proof.
  unfold merge_vector. intros H0.
  destruct (decide (incoming = [])) as [->|]; [by simplify_eq/=|].
  rewrite (bool_decide_eq_false_2 (incoming = [])) in H0 by done. simpl in H0.
  destruct (decide (target = incoming)) as [->|].
  { rewrite bool_decide_eq_true_2 in H0 by done. by simplify_eq/=. }
  rewrite bool_decide_eq_false_2 in H0 by done.
  destruct (decide (target = [])) as [->|].
  - rewrite bool_decide_eq_true_2 in H0 by done. by simplify_eq/=.
  - by rewrite bool_decide_eq_false_2 in H0 by done.
Qed.

Lemma validate_spec_history_snoc prev h e u :
  validate_spec_history_from prev (h ++ [e]) = Ok u ↔
  validate_spec_history_from prev h = Ok tt
  ∧ is_ok (storage_key (aps_branch e) (aps_phase e)) = true
  ∧ existsb (λ p, (aps_branch p == aps_branch e) && (aps_phase p == aps_phase e)) (prev ++ h) = false.
Proof.
  destruct u. revert prev. induction h as [|x h IH]; intros prev; simpl.
  - rewrite app_nil_r. destruct (storage_key _ _); simpl; [|naive_solver].
    destruct (existsb _ _); naive_solver.
  - destruct (storage_key (aps_branch x) _); simpl; [|naive_solver].
    destruct (existsb _ prev) eqn:E; [naive_solver|].
    rewrite IH, <- app_assoc. done.
Qed.

Lemma merge_spec_history h phase branch incoming h' :
  validate_authorized_phase_spec_history h = Ok tt →
  is_ok (storage_key branch phase) = true →
  merge_authorized_phase_spec_digest h phase branch incoming = Ok h' →
  validate_authorized_phase_spec_history h' = Ok tt.
Proof.
  unfold merge_authorized_phase_spec_digest, validate_authorized_phase_spec_history.
  intros Hh Hk H. destruct incoming as [d|]; [|by simplify_eq].
  destruct (find_first _ h) eqn:E; [case_ok; by simplify_eq|].
  injection H as <-. apply validate_spec_history_snoc. split_and!; [done|done|].
  simpl. apply not_true_iff_false. intros (p&Hp%list_elem_of_In&Hb)%existsb_exists.
  rewrite find_first_None in E. apply E in Hp. by rewrite andb_comm, Hp in Hb.
Qed.

(** The fields [merge_artifacts] does not touch. *)
Definition same_frame (ev ev' : OperationEvidence) : Prop :=
  ev_transitions ev' = ev_transitions ev ∧ ev_recovery_mode ev' = ev_recovery_mode ev
  ∧ ev_action_grant_digest ev' = ev_action_grant_digest ev
  ∧ ev_source_sequence ev' = ev_source_sequence ev
  ∧ ev_source_attestation_digest ev' = ev_source_attestation_digest ev
  ∧ ev_installed_policy ev' = ev_installed_policy ev
  ∧ ev_fence_acquisition_receipt_digest ev' = ev_fence_acquisition_receipt_digest ev.

Ltac merge_inv :=
  unfold merge_artifacts, merge_release_health_artifacts, merge_backup_artifacts,
    merge_field, merge_vector_field in *;
  repeat match goal with
  | H : mbind (M := Result _) _ _ = Ok _ |- _ => apply result_bind_Ok in H as (?&?&H)
  | H : Ok _ = Ok _ |- _ => injection H as H; subst
  | H : (if ?b then _ else _) = Ok _ |- _ => destruct b
  end.

Lemma merge_artifacts_frame ev a phase branch rb ev' :
  merge_artifacts ev a phase branch rb = Ok ev' →
  same_frame ev ev'
  ∧ merge_authorized_phase_spec_digest (ev_authorized_phase_spec_digests ev) phase branch
      (pa_authorized_phase_spec_digest a) = Ok (ev_authorized_phase_spec_digests ev').
Proof. intros H. merge_inv; simpl; by split. Qed.

(** ** Steps *)

Abbreviation transitions_of op := (ev_transitions (op_evidence op)).

(** The record [persist_transition] writes. *)
Definition advance (op : OperationRecord) (next : OperationState)
    (receipt : option EvidenceDigest) (at_ms : Z) : OperationRecord :=
  push_transition op next {|
    ot_sequence := Z.of_nat (length (transitions_of op)) + 1;
    ot_from := op_state op;
    ot_to := next;
    ot_receipt_digest := receipt;
    ot_occurred_at_ms := at_ms |} at_ms.

Definition running (op : OperationRecord) : Prop := os_result (op_state op) = Result_Running.

(** A block that [set_pre_mutation_block], [clear_disk_block] and the cutover
    block operations may replace. *)
Definition replaceable_block (reason : BlockingReason) : Prop :=
  reason = Blocking_None ∨ reason = Blocking_SourceBrokerUnavailable
  ∨ reason = Blocking_DiskReserve.

(** The reasons those operations set. *)
Definition settable_block (reason : BlockingReason) : Prop :=
  replaceable_block reason ∨ reason = Blocking_SourceDivergence
  ∨ reason = Blocking_SourceAttestationInvalid ∨ reason = Blocking_OperatorHold.

Inductive attempt_step (op : OperationRecord) : OperationRecord → Prop :=
| step_commit receipt rb next ev t :
    running op → os_phase (op_state op) = pr_phase receipt →
    rb = bool_decide (ev_recovery_mode (op_evidence op) = Some Recovery_Rollback) →
    next_state_for_phase_receipt op receipt rb = Ok next →
    merge_artifacts (op_evidence op) (pr_artifacts receipt) (pr_phase receipt)
      (pr_branch receipt) rb = Ok ev →
    attempt_step op (advance (op <| op_evidence := ev |>) next
                       (Some (pr_receipt_digest receipt)) t)
| step_reconciled receipt entry next ev t :
    running op → os_phase (op_state op) = Phase_Reconciliation →
    last (transitions_of op) = Some entry →
    os_phase (ot_from entry) = pr_phase receipt →
    os_phase (ot_to entry) = Phase_Reconciliation →
    ot_receipt_digest entry = None →
    next_state_for_phase_receipt op receipt false = Ok next →
    merge_artifacts (op_evidence op) (pr_artifacts receipt) (pr_phase receipt)
      (pr_branch receipt) false = Ok ev →
    attempt_step op (advance (op <| op_evidence := ev <| ev_recovery_mode := None |> |>
                                 <| op_failure_capsule := None |>)
                       next (Some (pr_receipt_digest receipt)) t)
| step_reconcile capsule t :
    running op → os_phase (op_state op) ≠ Phase_Reconciliation →
    FailureCapsule_validate capsule = Ok tt →
    attempt_step op (advance (op <| op_evidence := (op_evidence op)
                                      <| ev_recovery_mode := Some Recovery_Reconciliation |> |>
                                 <| op_failure_capsule := Some capsule |>)
                       (MkOperationState Phase_Reconciliation Result_Running
                          Blocking_SecurityStateInvalid) None t)
| step_rollback t :
    require_rollback_transition op = Ok false →
    attempt_step op (advance (op <| op_evidence := (op_evidence op)
                                      <| ev_recovery_mode := Some Recovery_Rollback |> |>)
                       (MkOperationState Phase_Rollback Result_Running Blocking_None) None t)
| step_block reason t :
    running op → replaceable_block (os_blocking_reason (op_state op)) → settable_block reason →
    has_committed_mutation op = false ∨ is_stateful_cutover_retry op = true →
    attempt_step op (advance op
                       (MkOperationState (os_phase (op_state op)) Result_Running reason) None t)
| step_supersede capsule t :
    running op → has_trusted_source_admission op = true → has_committed_mutation op = false →
    FailureCapsule_validate capsule = Ok tt →
    attempt_step op (advance (op <| op_failure_capsule := Some capsule |>)
                       (MkOperationState (os_phase (op_state op)) Result_Superseded Blocking_None)
                       None t)
| step_fail capsule t :
    running op → crosses_mutation_boundary (os_phase (op_state op)) = false →
    FailureCapsule_validate capsule = Ok tt →
    attempt_step op (advance (op <| op_failure_capsule := Some capsule |>)
                       (MkOperationState (os_phase (op_state op)) Result_Failed Blocking_None)
                       None t)
| step_cancel t :
    running op → crosses_mutation_boundary (os_phase (op_state op)) = false →
    attempt_step op (advance op
                       (MkOperationState (os_phase (op_state op)) Result_Cancelled Blocking_None)
                       None t)
| step_fence receipt ev t :
    running op → os_phase (op_state op) = Phase_CutoverSnapshotting →
    op_project_id op = far_project_id receipt →
    merge_fence_receipt (op_evidence op) receipt = Ok (Some ev) →
    attempt_step op (op <| op_evidence := ev |> <| op_updated_at_ms := t |>).

(** ** The invariant of a record *)

Definition initial_state : OperationState :=
  MkOperationState Phase_Queued Result_Running Blocking_None.

(** The log starts in the initial state, is numbered from 1 without gaps, each
    entry starts where the previous one ended and the last one ends in [s']. *)
Fixpoint chained (n : Z) (s : OperationState) (ts : list OperationTransition)
    (s' : OperationState) : Prop :=
  match ts with
  | [] => s = s'
  | t :: r => ot_sequence t = n ∧ ot_from t = s ∧ chained (n + 1) (ot_to t) r s'
  end.

(** The plan phase the attempt is at: during reconciliation, the phase it was
    entered from. *)
Definition effective_phase (op : OperationRecord) : OperationPhase :=
  if decide (os_phase (op_state op) = Phase_Reconciliation)
  then match last (transitions_of op) with
       | Some t => os_phase (ot_from t)
       | None => Phase_Reconciliation
       end
  else os_phase (op_state op).

(** Every plan phase before [p] has a receipt. *)
Definition prefix_committed (plan : list OperationPhase) (ts : list OperationTransition)
    (p : OperationPhase) : Prop :=
  ∀ i j q, plan !! i = Some p → (j < i)%nat → plan !! j = Some q → phase_committed ts q.

Definition rollback_class (class : option ReleaseClass) : Prop :=
  class = Some Class_CodeOnlyCompatible ∨ class = Some Class_StatefulCompatible.

(** Where a code-rollback attempt is confined to: [permits_transition] refuses the
    step from the preflight phase to the rollback phase of its own plan. *)
Definition code_rollback_phases : list OperationPhase :=
  [Phase_Queued; Phase_Preflight; Phase_Reconciliation].

Definition code_rollback_pending (op : OperationRecord) : Prop :=
  os_phase (op_state op) ∈ code_rollback_phases ∧ effective_phase op ∈ code_rollback_phases
  ∧ os_result (op_state op) ≠ Result_RolledBack ∧ os_result (op_state op) ≠ Result_Succeeded.

Record attempt_inv (op : OperationRecord) : Prop := {
  ai_state : OperationState_validate (op_state op) = Ok tt;
  ai_capsule : validate_stored_capsule (op_failure_capsule op) = Ok tt;
  ai_history : validate_authorized_phase_spec_history
                 (ev_authorized_phase_spec_digests (op_evidence op)) = Ok tt;
  ai_plan : is_ok (OperationKind_required_phases (op_operation_kind op)
                     (op_release_class op)) = true;
  ai_chain : chained 1 initial_state (transitions_of op) (op_state op);
  ai_recon : os_phase (op_state op) = Phase_Reconciliation → running op →
    os_blocking_reason (op_state op) = Blocking_SecurityStateInvalid
    ∧ ev_recovery_mode (op_evidence op) = Some Recovery_Reconciliation
    ∧ ∃ t, last (transitions_of op) = Some t ∧ os_phase (ot_from t) ≠ Phase_Reconciliation
           ∧ ot_receipt_digest t = None;
  ai_recon_mode : ev_recovery_mode (op_evidence op) = Some Recovery_Reconciliation →
    os_phase (op_state op) = Phase_Reconciliation;
  ai_rollback_mode : ev_recovery_mode (op_evidence op) = Some Recovery_Rollback →
    op_operation_kind op = Kind_Deploy
    ∧ rollback_class (op_release_class op)
    ∧ os_phase (op_state op) ∈ ROLLBACK_RECOVERY_PHASES
    ∧ phase_committed (transitions_of op) Phase_Deploying
    ∧ (os_phase (op_state op) ≠ Phase_Rollback →
       phase_committed (transitions_of op) Phase_Rollback);
  ai_before : ∀ plan,
    OperationKind_required_phases (op_operation_kind op) (op_release_class op) = Ok plan →
    prefix_committed plan (transitions_of op) (effective_phase op);
  ai_closed : ∀ plan p,
    OperationKind_required_phases (op_operation_kind op) (op_release_class op) = Ok plan →
    phase_committed (transitions_of op) p → prefix_committed plan (transitions_of op) p;
  ai_upper : crosses_mutation_boundary (effective_phase op) = false →
    ∀ p, phase_committed (transitions_of op) p → crosses_mutation_boundary p = false;
  ai_succeeded : os_result (op_state op) = Result_Succeeded → ∀ plan,
    OperationKind_required_phases (op_operation_kind op) (op_release_class op) = Ok plan →
    ∀ p, p ∈ plan → phase_committed (transitions_of op) p;
  ai_rolled_back : os_result (op_state op) = Result_RolledBack →
    phase_committed (transitions_of op) Phase_Rollback;
  ai_result : os_result (op_state op) ≠ Result_ManualRecoveryRequired
              ∧ os_result (op_state op) ≠ Result_RollbackFailed;
  ai_code_rollback : op_operation_kind op = Kind_CodeRollback → code_rollback_pending op;
  ai_stopped : os_result (op_state op) = Result_Failed ∨ os_result (op_state op) = Result_Cancelled
               ∨ os_result (op_state op) = Result_Superseded →
    has_committed_mutation op = false
}.

(** ** Preservation *)

Lemma chained_snoc n s ts s1 t s2 :
  chained n s ts s1 → ot_sequence t = n + Z.of_nat (length ts) → ot_from t = s1 → ot_to t = s2 →
  chained n s (ts ++ [t]) s2.
Proof.
  revert n s. induction ts as [|x ts IH]; intros n s; simpl.
  - intros <- ? <- <-. split_and!; [lia|done|done].
  - intros (?&?&?) ? ? ?. split_and!; [done|done|]. apply IH; [done|lia|done|done].
Qed.

Lemma committed_advance_none op next t p :
  phase_committed (transitions_of (advance op next None t)) p ↔
  phase_committed (transitions_of op) p.
Proof.
  simpl. rewrite phase_committed_snoc. simpl. split; [|by left].
  intros [?|[[? [=]] _]]. done.
Qed.

Lemma plan_NoDup kind class plan :
  OperationKind_required_phases kind class = Ok plan → NoDup plan.
Proof. intros H. plan_cases H; refine (bool_decide_eq_true_1 _ _); vm_compute; reflexivity. Qed.

(** What [next_state_for_phase_receipt] answers. *)
Definition next_spec (op : OperationRecord) (p : OperationPhase) (rb : bool)
    (next : OperationState) : Prop :=
  ∃ phases i,
    (if rb then phases = ROLLBACK_RECOVERY_PHASES
     else OperationKind_required_phases (op_operation_kind op) (op_release_class op) = Ok phases)
    ∧ phases !! i = Some p
    ∧ ((∃ np, phases !! S i = Some np ∧ next = MkOperationState np Result_Running Blocking_None)
       ∨ (phases !! S i = None
          ∧ next = MkOperationState p
              (if rb || (op_operation_kind op == Kind_CodeRollback)
               then Result_RolledBack else Result_Succeeded) Blocking_None)).

Lemma next_state_Ok op receipt rb next :
  next_state_for_phase_receipt op receipt rb = Ok next →
  next_spec op (pr_phase receipt) rb next
  ∧ pr_branch receipt = (if rb then Branch_RollbackRecovery else Branch_Primary).
Proof.
  unfold next_state_for_phase_receipt. intros H. case_ok.
  apply negb_false_iff, bool_decide_eq_true in Heqb. split; [|done].
  destruct (position _ _) as [i|] eqn:Hpos; [|done].
  apply position_Some in Hpos as [(q&Hq&->%bool_decide_eq_true) _].
  exists x, i. split; [destruct rb; by inv_ok|]. split; [done|].
  destruct (x !! S i) as [np|]; [|right; by inv_ok].
  left. exists np. split; [done|]. inv_ok. by case_ok.
Qed.

(** The identity and the position of the attempt are kept. *)
Definition same_core (op op1 : OperationRecord) : Prop :=
  op_operation_kind op1 = op_operation_kind op ∧ op_release_class op1 = op_release_class op
  ∧ op_state op1 = op_state op ∧ transitions_of op1 = transitions_of op.

(** A decodable record: the checks of [decode_operation] on its contents. *)
Definition contents_valid (op : OperationRecord) : Prop :=
  validate_stored_capsule (op_failure_capsule op) = Ok tt
  ∧ validate_authorized_phase_spec_history
      (ev_authorized_phase_spec_digests (op_evidence op)) = Ok tt.

Section ReceiptStep.
Variables (op op1 : OperationRecord) (p : OperationPhase) (rb : bool) (next : OperationState)
  (d : EvidenceDigest) (t : Z).
Hypothesis Hinv : attempt_inv op.
Hypothesis Hcore : same_core op op1.
Hypothesis Hvalid : contents_valid op1.
Hypothesis Heff : effective_phase op = p.
Hypothesis Hentry : entry_phase (transitions_of op)
  (MkOperationTransition (Z.of_nat (length (transitions_of op1)) + 1) (op_state op1) next (Some d) t)
  = Some p.
Hypothesis Hnext : next_spec op p rb next.
Hypothesis Hmode : ev_recovery_mode (op_evidence op1) = if rb then Some Recovery_Rollback else None.
Hypothesis Hrb : rb = true → ev_recovery_mode (op_evidence op) = Some Recovery_Rollback
                           ∧ os_phase (op_state op) = p.
Hypothesis Hcr : op_operation_kind op = Kind_CodeRollback →
  next = MkOperationState Phase_Preflight Result_Running Blocking_None.

Local Abbreviation op2 := (advance op1 next (Some d) t).

Lemma receipt_committed q :
  phase_committed (transitions_of op2) q ↔ phase_committed (transitions_of op) q ∨ q = p.
Proof using Hcore Hentry.
  clear Hrb Hcr Hmode Hnext Hinv Hvalid Heff.
  destruct Hcore as (_&_&_&Hts). simpl. rewrite Hts in *.
  rewrite phase_committed_snoc, Hentry. simpl. split.
  - intros [?|[_ [=]]]; auto.
  - intros [?|Hq]; [by left|right]. split; [by eexists|]. by rewrite Hq.
Qed.

Lemma receipt_next_not_recon : os_phase next ≠ Phase_Reconciliation.
Proof.
  destruct Hnext as (phases&i&Hph&Hi&Hn). intros Hr.
  assert (∃ k, phases !! k = Some Phase_Reconciliation) as [k Hk].
  { destruct Hn as [(np&Hnp&Hn)|[_ Hn]]; rewrite Hn in Hr; simpl in Hr;
      [exists (S i)|exists i]; congruence. }
  clear Hi Hn. destruct rb; [subst phases; index_cases k; done|].
  by eapply plan_no_reconciliation.
Qed.

Lemma receipt_effective : effective_phase op2 = os_phase next.
Proof.
  unfold effective_phase. simpl. destruct (decide _) as [H|]; [|done].
  by apply receipt_next_not_recon in H.
Qed.

(** The plan phases before [p] and [p] itself have receipts now. *)
Lemma receipt_prefix plan :
  OperationKind_required_phases (op_operation_kind op) (op_release_class op) = Ok plan →
  ∀ i j q, plan !! i = Some p → (j <= i)%nat → plan !! j = Some q →
  phase_committed (transitions_of op2) q.
Proof.
  intros Hplan i j q Hi Hj Hq. apply receipt_committed.
  destruct (decide (j = i)) as [->|]; [right; congruence|]. left.
  eapply (ai_before _ Hinv plan Hplan); [by rewrite Heff|..]; [|done]. lia.
Qed.

Lemma receipt_before plan :
  OperationKind_required_phases (op_operation_kind op) (op_release_class op) = Ok plan →
  prefix_committed plan (transitions_of op2) (os_phase next).
Proof.
  intros Hplan i j q Hi Hj Hq.
  destruct Hnext as (phases&k&Hph&Hk&[(np&Hnp&Hn)|[_ Hn]]); rewrite Hn in Hi; simpl in Hi.
  - destruct rb eqn:Erb.
    + destruct Hrb as [Hm _]; [done|].
      destruct (ai_rollback_mode _ Hinv Hm) as (Hkind&_&_&Hdep&_). rewrite Hkind in Hplan.
      assert (∀ k, plan !! k = Some Phase_Deploying → (j < k)%nat →
              phase_committed (transitions_of op2) q) as Hdown.
      { intros k' ? ?. apply receipt_committed. left.
        eapply (ai_closed _ Hinv plan); [by rewrite Hkind|done..]. }
      pose proof (deploy_plan_before_recovery _ _ _ _ _ _ Hplan Hi Hj Hq) as [Hhc Hso].
      assert (q = Phase_Deploying → phase_committed (transitions_of op2) q) as Hd.
      { intros Hqd. apply receipt_committed. left. by rewrite Hqd. }
      assert (q = p → phase_committed (transitions_of op2) q) as Hp.
      { intros Hqp. apply receipt_committed. by right. }
      rewrite Hph in Hk, Hnp. clear Hn.
      destruct k as [|[|[|k]]]; simpl in Hk, Hnp; try discriminate; injection Hnp as Hnp.
      * destruct Hhc as [?|(?&?&?)]; eauto.
      * destruct Hso as [?|[?|(?&?&?)]]; eauto. apply Hp. congruence.
    + rewrite Hplan in Hph. injection Hph as <-.
      assert (i = S k) as -> by (eapply NoDup_lookup; eauto using plan_NoDup).
      eapply (receipt_prefix _ Hplan); [done| |done]. lia.
  - eapply (receipt_prefix _ Hplan); [done| |done]. lia.
Qed.

Lemma receipt_upper :
  crosses_mutation_boundary (os_phase next) = false →
  ∀ q, phase_committed (transitions_of op2) q → crosses_mutation_boundary q = false.
Proof.
  intros Hc q. assert (crosses_mutation_boundary p = false) as Hp.
  { destruct Hnext as (phases&k&Hph&Hk&[(np&Hnp&Hn)|[_ Hn]]); rewrite Hn in Hc; [|done].
    destruct rb eqn:Erb; simpl in Hc.
    - rewrite Hph in Hk, Hnp. clear Hn.
      destruct k as [|[|[|k]]]; simpl in Hnp; try discriminate; by injection Hnp as <-.
    - apply not_true_iff_false. intros ?.
      by rewrite (plan_crosses_mono _ _ _ _ _ _ Hph Hk Hnp) in Hc. }
  intros [Hq|Hq]%receipt_committed; [|by rewrite Hq].
  eapply (ai_upper _ Hinv); [by rewrite Heff|done].
Qed.

Lemma receipt_all_committed plan i :
  OperationKind_required_phases (op_operation_kind op) (op_release_class op) = Ok plan →
  plan !! i = Some p → plan !! S i = None →
  ∀ q, q ∈ plan → phase_committed (transitions_of op2) q.
Proof.
  intros Hplan Hi Hlast q [j Hj]%list_elem_of_lookup.
  eapply (receipt_prefix _ Hplan); [done| |done].
  apply lookup_lt_Some in Hj. apply lookup_ge_None in Hlast. lia.
Qed.

Lemma receipt_next_valid : OperationState_validate next = Ok tt.
Proof.
  destruct Hnext as (phases&k&Hph&Hk&[(np&Hnp&Hn)|[Hlast Hn]]); rewrite Hn; [done|].
  destruct rb; simpl.
  - rewrite Hph in Hk, Hlast. destruct k as [|[|[|k]]]; simpl in *; try discriminate.
    by injection Hk as <-.
  - destruct (decide (op_operation_kind op = Kind_CodeRollback)) as [Hc|Hc].
    + rewrite bool_decide_eq_true_2 by done. rewrite Hc in Hph. simpl in Hph.
      destruct (op_release_class op) as [[]|]; try discriminate. injection Hph as <-.
      destruct k as [|[|[|[|[|k]]]]]; simpl in *; try discriminate. by injection Hk as <-.
    + by rewrite bool_decide_eq_false_2.
Qed.

Lemma receipt_rolled_back :
  os_result next = Result_RolledBack → phase_committed (transitions_of op2) Phase_Rollback.
Proof.
  intros Hres. destruct Hnext as (phases&k&Hph&Hk&[(np&Hnp&Hn)|[Hlast Hn]]);
    rewrite Hn in Hres; [done|]. destruct rb; simpl in *.
  - destruct Hrb as [Hm Hp]; [done|]. apply receipt_committed. left.
    destruct (ai_rollback_mode _ Hinv Hm) as (_&_&_&_&Hroll). apply Hroll. rewrite Hp.
    rewrite Hph in Hk, Hlast. destruct k as [|[|[|k]]]; simpl in *; try discriminate.
    by injection Hk as <-.
  - destruct (decide (op_operation_kind op = Kind_CodeRollback)) as [Hc|Hc];
      [|by rewrite bool_decide_eq_false_2 in Hres].
    eapply receipt_all_committed; [done..|].
    rewrite Hc in Hph. simpl in Hph.
    destruct (op_release_class op) as [[]|]; try discriminate. injection Hph as <-.
    by do 2 right; left.
Qed.

Lemma receipt_rollback_mode : rb = true →
  os_phase next ∈ ROLLBACK_RECOVERY_PHASES
  ∧ (os_phase next ≠ Phase_Rollback → phase_committed (transitions_of op2) Phase_Rollback).
Proof.
  intros Erb. destruct (Hrb Erb) as [Hm Hp].
  destruct (ai_rollback_mode _ Hinv Hm) as (_&_&_&_&Hroll). rewrite Hp in Hroll.
  assert (∀ q, q = p → phase_committed (transitions_of op2) Phase_Rollback) as Hcom.
  { intros q _. apply receipt_committed.
    destruct (decide (p = Phase_Rollback)) as [Hpr|Hpr]; [by right|left; auto]. }
  split; [|intros _; by apply (Hcom p)].
  destruct Hnext as (phases&k&Hph&Hk&Hn). rewrite Erb in Hph. rewrite Hph in Hk, Hn.
  apply list_elem_of_lookup. destruct Hn as [(np&Hnp&->)|[_ ->]]; simpl; eauto.
Qed.

Lemma receipt_step_inv : attempt_inv op2.
Proof.
  pose proof Hcore as (Hk&Hc&Hs&Hts). pose proof Hvalid as [Hcap Hhist].
  constructor; simpl; rewrite ?Hk, ?Hc.
  - apply receipt_next_valid.
  - done.
  - done.
  - apply Hinv.
  - eapply chained_snoc; [rewrite Hts; apply Hinv|..]; simpl; [rewrite Hts; lia|done|done].
  - intros H. by apply receipt_next_not_recon in H.
  - rewrite Hmode. by destruct rb.
  - rewrite Hmode. intros Hm'. assert (rb = true) as Erb by (by destruct rb).
    destruct (Hrb Erb) as [Hm Hp].
    destruct (ai_rollback_mode _ Hinv Hm) as (?&?&_&?&_).
    destruct (receipt_rollback_mode Erb). split_and!; try done.
    apply receipt_committed. by left.
  - intros plan Hplan. rewrite receipt_effective. by apply receipt_before.
  - intros plan q Hplan [Hq|Hq]%receipt_committed i j r Hi Hj Hr.
    + apply receipt_committed. left. by eapply (ai_closed _ Hinv).
    + rewrite Hq in Hi. eapply (receipt_prefix _ Hplan); [done| |done]. lia.
  - rewrite receipt_effective. apply receipt_upper.
  - intros Hres plan Hplan.
    destruct Hnext as (phases&k&Hph&Hpk&[(np&Hnp&Hn)|[Hlast Hn]]); rewrite Hn in Hres; [done|].
    destruct rb; simpl in Hres; [done|]. rewrite Hplan in Hph. injection Hph as <-.
    by eapply receipt_all_committed.
  - apply receipt_rolled_back.
  - destruct Hnext as (phases&k&Hph&Hpk&[(np&Hnp&Hn)|[Hlast Hn]]); rewrite Hn; simpl; [done|].
    by case_match.
  - intros Hcrk. unfold code_rollback_pending. rewrite receipt_effective. simpl.
    rewrite (Hcr Hcrk). simpl. split_and!; try done; right; by left.
  - destruct Hnext as (phases&k&Hph&Hpk&[(np&Hnp&Hn)|[Hlast Hn]]); rewrite Hn; simpl;
      [naive_solver|]. case_match; naive_solver.
Qed.
End ReceiptStep.

(** The only step a code rollback takes along its plan. *)
Lemma next_state_code_rollback op receipt next :
  attempt_inv op → op_operation_kind op = Kind_CodeRollback →
  effective_phase op = pr_phase receipt →
  next_state_for_phase_receipt op receipt false = Ok next →
  next = MkOperationState Phase_Preflight Result_Running Blocking_None.
Proof.
  intros Hinv Hk Heff Hn. destruct (ai_code_rollback _ Hinv Hk) as (_&He&_).
  rewrite Heff in He. unfold next_state_for_phase_receipt in Hn. rewrite Hk in Hn.
  destruct (_ != _); [done|]. destruct (op_release_class op) as [[]|]; try done. simpl in Hn.
  unfold code_rollback_phases in He. rewrite !elem_of_cons, elem_of_nil in He.
  destruct He as [He|[He|[He|[]]]]; rewrite He in Hn; simpl in Hn; by inv_ok.
Qed.

(** A step that logs no receipt and stays in its phase. *)
Lemma quiet_step_inv op op1 next t :
  attempt_inv op → same_core op op1 → contents_valid op1 →
  ev_recovery_mode (op_evidence op1) = ev_recovery_mode (op_evidence op) →
  os_phase next = os_phase (op_state op) →
  OperationState_validate next = Ok tt →
  (os_phase (op_state op) = Phase_Reconciliation → os_result next ≠ Result_Running) →
  os_result next = Result_Running
  ∨ (os_result next = Result_Failed ∨ os_result next = Result_Cancelled
     ∨ os_result next = Result_Superseded) ∧ has_committed_mutation op = false →
  attempt_inv (advance op1 next None t).
Proof.
  intros Hinv (Hk&Hc&Hs&Hts) [Hcap Hhist] Hmode Hph Hnext Hrec Hres.
  assert (∀ q, phase_committed (transitions_of (advance op1 next None t)) q
               ↔ phase_committed (transitions_of op) q) as Hcom
    by (intros q; by rewrite committed_advance_none, Hts).
  assert (effective_phase (advance op1 next None t) = effective_phase op
          ∨ effective_phase (advance op1 next None t) = Phase_Reconciliation) as Heff.
  { unfold effective_phase. simpl. rewrite Hph.
    destruct (decide _) as [Hd|Hd]; [|by left]. right. by rewrite last_snoc, Hs. }
  constructor; simpl; rewrite ?Hk, ?Hc, ?Hmode; try done.
  - apply Hinv.
  - eapply chained_snoc; [rewrite Hts; apply Hinv|..]; simpl; [rewrite Hts; lia|done|done].
  - rewrite Hph. intros Hr Hrun. by apply Hrec in Hr.
  - rewrite Hph. apply Hinv.
  - rewrite Hph. intros Hm. destruct (ai_rollback_mode _ Hinv Hm) as (?&?&?&?&Hr).
    split_and!; [done..|by apply Hcom|]. intros ?. apply Hcom. auto.
  - intros plan Hplan i j q Hi Hj Hq. apply Hcom. destruct Heff as [He|He]; rewrite He in Hi.
    + by eapply (ai_before _ Hinv).
    + by apply (plan_no_reconciliation _ _ _ _ Hplan) in Hi.
  - intros plan p Hplan Hp i j q Hi Hj Hq. apply Hcom.
    eapply (ai_closed _ Hinv); [done|by apply Hcom|done..].
  - intros Hx q Hq. destruct Heff as [He|He]; rewrite He in Hx; [|done].
    eapply (ai_upper _ Hinv); [done|by apply Hcom].
  - intros Hsucc. rewrite Hsucc in Hres. naive_solver.
  - intros Hrb. rewrite Hrb in Hres. naive_solver.
  - destruct Hres as [->|[[->|[->| ->]] _]]; done.
  - intros Hcr. destruct (ai_code_rollback _ Hinv Hcr) as (?&?&_).
    unfold code_rollback_pending. simpl. rewrite Hph. split_and!; [done| |..].
    + destruct Heff as [->| ->]; [done|]. by do 2 right; left.
    + destruct Hres as [->|[[->|[->| ->]] _]]; done.
    + destruct Hres as [->|[[->|[->| ->]] _]]; done.
  - intros Hst. destruct Hres as [Hr|[_ Hno]]; [rewrite Hr in Hst; naive_solver|].
    apply has_committed_mutation_false. intros q Hq. apply Hcom in Hq.
    rewrite has_committed_mutation_false in Hno. auto.
Qed.

Lemma contents_valid_of op : attempt_inv op → contents_valid op.
Proof. intros []. by split. Qed.

Lemma contents_valid_capsule op capsule :
  attempt_inv op → FailureCapsule_validate capsule = Ok tt →
  contents_valid (op <| op_failure_capsule := Some capsule |>).
Proof. intros [] Hc. split; [|done]. simpl. by rewrite Hc. Qed.

Lemma no_committed_before_boundary op :
  attempt_inv op → crosses_mutation_boundary (os_phase (op_state op)) = false →
  os_phase (op_state op) ≠ Phase_Reconciliation ∧ has_committed_mutation op = false.
Proof.
  intros Hinv Hc. assert (os_phase (op_state op) ≠ Phase_Reconciliation) as Hr
    by (intros Hr; by rewrite Hr in Hc).
  split; [done|]. apply has_committed_mutation_false. apply (ai_upper _ Hinv).
  unfold effective_phase. by destruct (decide _).
Qed.

Lemma require_rollback_false op :
  require_rollback_transition op = Ok false →
  running op ∧ op_operation_kind op = Kind_Deploy
  ∧ crosses_mutation_boundary (os_phase (op_state op)) = true
  ∧ phase_committed (transitions_of op) Phase_Deploying ∧ rollback_class (op_release_class op).
Proof.
  unfold require_rollback_transition, rollback_class. intros H.
  destruct (_ == _) eqn:E; [by case_ok|]. clear E.
  destruct (_ || _) eqn:E; [done|]. clear H. bool_prop.
  destruct E as ((((?&?)&?)&?)&Hcl). split_and!; try done.
  - by apply has_committed_phase_true.
  - destruct (op_release_class op) as [[]|]; naive_solver.
Qed.

Lemma reconcile_step_inv op capsule t :
  attempt_inv op → running op → os_phase (op_state op) ≠ Phase_Reconciliation →
  FailureCapsule_validate capsule = Ok tt →
  attempt_inv (advance (op <| op_evidence := (op_evidence op)
                                <| ev_recovery_mode := Some Recovery_Reconciliation |> |>
                           <| op_failure_capsule := Some capsule |>)
                 (MkOperationState Phase_Reconciliation Result_Running
                    Blocking_SecurityStateInvalid) None t).
Proof.
  intros Hinv Hrun Hne Hcap.
  assert (effective_phase op = os_phase (op_state op)) as Heff
    by (unfold effective_phase; by destruct (decide _)).
  constructor; simpl; try done; try apply Hinv; try (intros; naive_solver).
  - by rewrite Hcap.
  - eapply chained_snoc; [apply Hinv|..]; simpl; [lia|done|done].
  - intros _ _. split_and!; [done..|]. eexists. by rewrite last_snoc.
  - intros plan Hplan i j q. unfold effective_phase. simpl. rewrite last_snoc. simpl.
    rewrite phase_committed_snoc, <- Heff. left. by eapply (ai_before _ Hinv).
  - intros plan p Hplan [Hp|[[? [=]] _]]%phase_committed_snoc i j q Hi Hj Hq.
    apply phase_committed_mono. by eapply (ai_closed _ Hinv).
  - unfold effective_phase. simpl. rewrite last_snoc. simpl. rewrite <- Heff.
    intros Hx p [Hp|[[? [=]] _]]%phase_committed_snoc. by eapply (ai_upper _ Hinv).
  - intros Hcr. destruct (ai_code_rollback _ Hinv Hcr) as (?&?&_).
    unfold code_rollback_pending, effective_phase. simpl. rewrite last_snoc. simpl.
    split_and!; try done. by do 2 right; left.
Qed.

Lemma rollback_step_inv op t :
  attempt_inv op → require_rollback_transition op = Ok false →
  attempt_inv (advance (op <| op_evidence := (op_evidence op)
                                <| ev_recovery_mode := Some Recovery_Rollback |> |>)
                 (MkOperationState Phase_Rollback Result_Running Blocking_None) None t).
Proof.
  intros Hinv (Hrun&Hk&Hx&Hdep&Hcl)%require_rollback_false.
  constructor; simpl; try done; try apply Hinv; try (intros; naive_solver).
  - eapply chained_snoc; [apply Hinv|..]; simpl; [lia|done|done].
  - intros _. split_and!; [done|done|by left|by apply phase_committed_mono|done].
  - intros plan Hplan i j q Hi. rewrite Hk in Hplan.
    by apply (deploy_plan_no_rollback _ _ _ Hplan) in Hi.
  - intros plan p Hplan [Hp|[[? [=]] _]]%phase_committed_snoc i j q Hi Hj Hq.
    apply phase_committed_mono. by eapply (ai_closed _ Hinv).
  - by rewrite Hk.
Qed.

Lemma merge_contents_valid op ev a phase branch rb :
  attempt_inv op → is_ok (storage_key branch phase) = true →
  merge_artifacts (op_evidence op) a phase branch rb = Ok ev →
  validate_authorized_phase_spec_history (ev_authorized_phase_spec_digests ev) = Ok tt.
Proof.
  intros Hinv Hk [_ Hm]%merge_artifacts_frame.
  by eapply merge_spec_history; [apply Hinv| |].
Qed.

(** A phase that has a next state has a storage key on its branch. *)
Lemma next_spec_storage_key op p rb next :
  next_spec op p rb next →
  p ≠ Phase_Reconciliation
  ∧ is_ok (storage_key (if rb then Branch_RollbackRecovery else Branch_Primary) p) = true.
Proof.
  intros (phases&k&Hph&Hk&_). destruct rb; simpl; split; try done.
  - subst. index_cases k; done.
  - subst. index_cases k; done.
  - intros ->. by eapply plan_no_reconciliation.
Qed.

Lemma fence_merge_frame ev receipt ev' :
  merge_fence_receipt ev receipt = Ok (Some ev') →
  same_frame (ev <| ev_fence_acquisition_receipt_digest := ev_fence_acquisition_receipt_digest ev' |>) ev'
  ∧ ev_authorized_phase_spec_digests ev' = ev_authorized_phase_spec_digests ev
  ∧ write_once (ev_fencing_epoch ev) (ev_fencing_epoch ev')
  ∧ ev_fencing_epoch ev' = Some (far_epoch receipt)
  ∧ ev_fence_acquisition_receipt_digest ev = None
  ∧ ev_fence_acquisition_receipt_digest ev' = Some (far_receipt_digest receipt).
Proof.
  unfold merge_fence_receipt, same_frame, write_once. intros H. inv_ok.
  destruct (ev_fencing_epoch ev) as [e|] eqn:He; repeat case_ok; simplify_eq/=;
    bool_prop; subst; split_and!; done || congruence.
Qed.

Lemma attempt_step_inv op op' : attempt_inv op → attempt_step op op' → attempt_inv op'.
Proof.
  intros Hinv Hstep. destruct Hstep as
    [receipt rb next ev t Hrun Hph Hrb Hnext Hm
    |receipt entry next ev t Hrun Hph Hlast Hfrom Hto Hrd Hnext Hm
    |capsule t Hrun Hne Hcap|t Hreq|reason t Hrun Hrep Hset Hmay|capsule t Hrun Htr Hno Hcap
    |capsule t Hrun Hx Hcap|t Hrun Hx|receipt ev t Hrun Hph Hpr Hm].
  - pose proof (next_state_Ok _ _ _ _ Hnext) as [Hns Hbr].
    destruct (next_spec_storage_key _ _ _ _ Hns) as [Hnr Hkey]. rewrite <- Hbr in Hkey.
    pose proof (merge_contents_valid _ _ _ _ _ _ Hinv Hkey Hm) as Hhist.
    destruct (merge_artifacts_frame _ _ _ _ _ _ Hm) as [(Hts&Hmode&_) _].
    assert (os_phase (op_state op) ≠ Phase_Reconciliation) as Hpn by congruence.
    assert (effective_phase op = os_phase (op_state op)) as Heff
      by (unfold effective_phase; by destruct (decide _)).
    apply (receipt_step_inv op _ (pr_phase receipt) rb); try done.
    + split; [apply Hinv|done].
    + by rewrite Heff.
    + unfold entry_phase. simpl. destruct (decide _); [done|]. by f_equal.
    + simpl. rewrite Hmode. pose proof (ai_recon_mode _ Hinv).
      destruct (ev_recovery_mode (op_evidence op)) as [[]|]; subst; naive_solver.
    + intros ->. by apply eq_sym, bool_decide_eq_true in Hrb.
    + intros Hk. destruct rb.
      { apply eq_sym, bool_decide_eq_true in Hrb.
        destruct (ai_rollback_mode _ Hinv Hrb) as [? _]. congruence. }
      apply (next_state_code_rollback op receipt); [done|done|congruence|done].
  - pose proof (next_state_Ok _ _ _ _ Hnext) as [Hns Hbr].
    destruct (next_spec_storage_key _ _ _ _ Hns) as [Hnr Hkey]. rewrite <- Hbr in Hkey.
    pose proof (merge_contents_valid _ _ _ _ _ _ Hinv Hkey Hm) as Hhist.
    destruct (merge_artifacts_frame _ _ _ _ _ _ Hm) as [(Hts&Hmode&_) _].
    apply (receipt_step_inv op _ (pr_phase receipt) false); try done.
    + unfold effective_phase. destruct (decide _); [|done]. by rewrite Hlast.
    + unfold entry_phase. simpl. destruct (decide _); [|done]. rewrite Hlast.
      destruct (decide _); [by f_equal|naive_solver].
    + intros Hk. apply (next_state_code_rollback op receipt); [done|done| |done].
      unfold effective_phase. destruct (decide _); [|done]. by rewrite Hlast.
  - by apply reconcile_step_inv.
  - by apply rollback_step_inv.
  - apply (quiet_step_inv op); try done; [by apply contents_valid_of| |by left].
    intros Hr. destruct (ai_recon _ Hinv Hr Hrun) as [Hb _]. rewrite Hb in Hrep.
    by destruct Hrep as [?|[?|?]].
  - apply (quiet_step_inv op); try done; [by apply contents_valid_capsule|].
    right. naive_solver.
  - destruct (no_committed_before_boundary _ Hinv Hx).
    apply (quiet_step_inv op); try done; [by apply contents_valid_capsule|].
    right. naive_solver.
  - destruct (no_committed_before_boundary _ Hinv Hx).
    apply (quiet_step_inv op); try done; [by apply contents_valid_of|].
    right. naive_solver.
  - apply fence_merge_frame in Hm as ((Hts&Hmode&_)&Hh&_). simpl in *.
    destruct Hinv. constructor; simpl;
      unfold code_rollback_pending, effective_phase, has_committed_mutation in *;
      simpl; rewrite ?Hts, ?Hmode, ?Hh; try done.
Qed.

(** What no step changes: the identity of the attempt, its admission evidence. *)
Definition same_identity (op op' : OperationRecord) : Prop :=
  op_operation_id op' = op_operation_id op ∧ op_request_id op' = op_request_id op
  ∧ op_attempt_id op' = op_attempt_id op ∧ op_attempt_number op' = op_attempt_number op
  ∧ op_project_id op' = op_project_id op ∧ op_operation_kind op' = op_operation_kind op
  ∧ op_target_commit op' = op_target_commit op ∧ op_release_class op' = op_release_class op
  ∧ op_actor op' = op_actor op ∧ op_created_at_ms op' = op_created_at_ms op
  ∧ ev_action_grant_digest (op_evidence op') = ev_action_grant_digest (op_evidence op)
  ∧ ev_source_sequence (op_evidence op') = ev_source_sequence (op_evidence op)
  ∧ ev_source_attestation_digest (op_evidence op') = ev_source_attestation_digest (op_evidence op)
  ∧ ev_installed_policy (op_evidence op') = ev_installed_policy (op_evidence op).

Lemma attempt_step_identity op op' : attempt_step op op' → same_identity op op'.
Proof.
  unfold same_identity. intros []; simpl; try done;
    try match goal with
    | H : merge_artifacts _ _ _ _ _ = Ok _ |- _ =>
        apply merge_artifacts_frame in H as [(?&?&?&?&?&?&?) _]
    | H : merge_fence_receipt _ _ = Ok _ |- _ =>
        apply fence_merge_frame in H as ((?&?&?&?&?&?&?)&_)
    end; simpl in *; done.
Qed.

(** A step starts in a running state and is never undone: the log grows. *)
Lemma attempt_step_running op op' : attempt_step op op' → running op.
Proof. intros []; try done. by apply require_rollback_false in H as [? _]. Qed.

Lemma attempt_step_log op op' :
  attempt_step op op' →
  transitions_of op' = transitions_of op ∧ op_state op' = op_state op
  ∨ ∃ receipt t, transitions_of op' = transitions_of op ++
      [MkOperationTransition (Z.of_nat (length (transitions_of op)) + 1) (op_state op)
         (op_state op') receipt t] ∧ op_updated_at_ms op' = t.
Proof.
  intros []; simpl; try (right; by eauto);
    try match goal with
    | H : merge_artifacts _ _ _ _ _ = Ok _ |- _ =>
        apply merge_artifacts_frame in H as [(Hts&_) _]; right; rewrite Hts; by eauto
    end.
  apply fence_merge_frame in H2 as ((Hts&_)&_). by left.
Qed.

(** ** Evidence only grows *)

(** The optional evidence that is written at most once.  The two health digests
    are not among them: the soak replaces what the health check recorded. *)
Definition evidence_digests : list (OperationEvidence → option EvidenceDigest) :=
  [ev_source_attestation_digest; ev_source_gate_proof_digest; ev_drain_evidence_digest;
   ev_source_export_digest; ev_prefetch_evidence_digest; ev_ci_evidence_digest;
   ev_build_plan_digest; ev_deployment_plan_digest; ev_release_bundle_digest;
   ev_resource_reservation_digest; ev_build_context_digest; ev_image_digest; ev_image_id_digest;
   ev_base_backup_manifest_digest; ev_base_backup_evidence_digest;
   ev_base_backup_offsite_evidence_digest; ev_base_backup_verification_digest;
   ev_cutover_backup_manifest_digest; ev_cutover_backup_evidence_digest;
   ev_cutover_backup_verification_digest; ev_previous_release_bundle_digest;
   ev_action_grant_digest; ev_fence_acquisition_receipt_digest].
Definition evidence_uuids : list (OperationEvidence → option Uuid) :=
  [ev_backup_id; ev_backup_set_id; ev_base_backup_id; ev_cutover_backup_id].
Definition evidence_numbers : list (OperationEvidence → option Z) :=
  [ev_source_sequence; ev_fencing_epoch].
Definition evidence_vectors : list (OperationEvidence → list EvidenceDigest) :=
  [ev_generated_output_digests; ev_base_image_digests].

Definition vector_once {T} (old new : list T) : Prop := old ≠ [] → new = old.

Record evidence_grows (ev ev' : OperationEvidence) : Prop := {
  eg_digests : Forall (λ f, write_once (f ev) (f ev')) evidence_digests;
  eg_uuids : Forall (λ f, write_once (f ev) (f ev')) evidence_uuids;
  eg_numbers : Forall (λ f, write_once (f ev) (f ev')) evidence_numbers;
  eg_schema : write_once (ev_schema_version ev) (ev_schema_version ev');
  eg_policy : write_once (ev_installed_policy ev) (ev_installed_policy ev');
  eg_vectors : Forall (λ f, vector_once (f ev) (f ev')) evidence_vectors;
  eg_history : ev_authorized_phase_spec_digests ev `prefix_of` ev_authorized_phase_spec_digests ev';
  eg_transitions : ev_transitions ev `prefix_of` ev_transitions ev'
}.

#[global] Instance write_once_preorder {T} : PreOrder (@write_once T).
Proof. split; unfold write_once; red; naive_solver. Qed.
#[global] Instance vector_once_preorder {T} : PreOrder (@vector_once T).
Proof. split; unfold vector_once; red; [done|]. intros x y z Hxy Hyz Hx. rewrite Hyz; [auto|]. by rewrite Hxy. Qed.

Lemma Forall_field_trans {A B} (R : B → B → Prop) `{!Transitive R} (fs : list (A → B)) x y z :
  Forall (λ f, R (f x) (f y)) fs → Forall (λ f, R (f y) (f z)) fs → Forall (λ f, R (f x) (f z)) fs.
Proof. intros H1 H2. induction H1; inversion H2; constructor; [by etrans|auto]. Qed.

#[global] Instance evidence_grows_preorder : PreOrder evidence_grows.
Proof.
  split.
  - intros ev. split; try done; apply Forall_true; done.
  - intros x y z [] []. split.
    1-3: eapply (Forall_field_trans write_once); eassumption.
    3: eapply (Forall_field_trans vector_once); eassumption.
    all: by etrans.
Qed.

Lemma merge_history_prefix h phase branch incoming h' :
  merge_authorized_phase_spec_digest h phase branch incoming = Ok h' → h `prefix_of` h'.
Proof.
  unfold merge_authorized_phase_spec_digest. intros Hm. destruct incoming; [|by simplify_eq].
  repeat case_match; simplify_eq; try done. by apply prefix_app_r.
Qed.

Lemma merge_artifacts_grows ev a phase branch rb ev' :
  merge_artifacts ev a phase branch rb = Ok ev' → evidence_grows ev ev'.
Proof.
  intros H. pose proof (merge_artifacts_frame _ _ _ _ _ _ H) as [(Hts&_) Hh%merge_history_prefix].
  assert (ev_transitions ev `prefix_of` ev_transitions ev') as Htp by (by rewrite Hts).
  clear Hts. revert Hh Htp. merge_inv; intros Hh Htp; simpl in *;
    repeat match goal with
    | Hm : merge_optional _ _ _ = Ok _ |- _ => apply merge_optional_Ok in Hm as [? _]
    | Hm : merge_vector _ _ _ = Ok _ |- _ => apply merge_vector_Ok in Hm as [? _]
    end;
    (split; [..|done|done]); simpl; repeat constructor; done.
Qed.

Lemma attempt_step_grows op op' :
  attempt_step op op' → evidence_grows (op_evidence op) (op_evidence op').
Proof.
  assert (∀ ev ev' ts, evidence_grows ev ev' → ev_transitions ev' `prefix_of` ts →
            ∀ m, evidence_grows ev (ev' <| ev_recovery_mode := m |> <| ev_transitions := ts |>))
    as Hext.
  { intros ev ev' ts [Hd Hu Hn ? ? Hv ? ?] Hp m.
    unfold evidence_digests, evidence_uuids, evidence_numbers, evidence_vectors in *.
    rewrite !Forall_cons in Hd. rewrite !Forall_cons in Hu.
    rewrite !Forall_cons in Hn. rewrite !Forall_cons in Hv.
    destruct_and!.
    split; unfold evidence_digests, evidence_uuids, evidence_numbers, evidence_vectors;
      repeat apply Forall_cons_2; simpl; try done. by etrans. }
  intros []; simpl;
    try (apply (Hext _ _ _ ltac:(done) (prefix_app_r _ _ _ ltac:(done))));
    try (match goal with Hm : merge_artifacts _ _ _ _ _ = Ok _ |- _ =>
           apply (Hext _ _ _ (merge_artifacts_grows _ _ _ _ _ _ Hm) (prefix_app_r _ _ _ ltac:(done)))
         end).
  match goal with Hm : merge_fence_receipt _ _ = Ok _ |- _ => rename Hm into Hf end.
  destruct (fence_merge_frame _ _ _ Hf) as (_&_&He&_&Hd&_). revert Hf.
  unfold merge_fence_receipt. intros Hf. inv_ok.
  destruct (ev_fencing_epoch (op_evidence op)) as [e|] eqn:Hep; repeat case_ok; simplify_eq/=;
    split; unfold evidence_digests, evidence_uuids, evidence_numbers, evidence_vectors;
    repeat apply Forall_cons_2; simpl in *; try done; by rewrite ?Hep, ?Heqo.
Qed.
