(* ===== verification/ControlStore.v ===== *)
(** * The control store's invariant

    The invariant [db_inv] of the tables written by the durable controller
    ([src/src/controller.rs]): stored records decode and match their columns, the
    transition table is the record's log, attempts of a request are numbered
    without gaps, requests, grants and deliveries refer to what they admitted.
    Every controller operation preserves it. *)

From Stdlib Require Import ZArith Lia String.
From stdpp Require Import base gmap strings option list_numbers list.
From S2P Require Import Prelude Identifiers States Text Failure Operation Errors Controller Attempt.

Local Open Scope Z_scope.

Section ControlStore.
Context `{!Json OperationRecord, !Json OperationTransition}.
Context `{!JsonRoundTrip OperationRecord, !JsonRoundTrip OperationTransition}.

(** ** The invariant *)

Record row_matches (a : Uuid) (row : AttemptRow) (op : OperationRecord) : Prop := {
  rm_json : json_from_str (at_operation_json row) = Ok op;
  rm_attempt : op_attempt_id op = a;
  rm_operation : at_operation_id row = op_operation_id op;
  rm_request : at_request_id row = op_request_id op;
  rm_number : at_attempt_number row = op_attempt_number op;
  rm_phase : at_phase row = phase_name (os_phase (op_state op));
  rm_result : at_result row = result_name (os_result (op_state op));
  rm_updated : at_updated_at_ms row = op_updated_at_ms op;
  rm_inv : attempt_inv op
}.

(** The attempt [a] is stored and its record is [op]. *)
Definition stored (db : ControlDb) (a : Uuid) (op : OperationRecord) : Prop :=
  ∃ row, operation_attempts db !! a = Some row ∧ json_from_str (at_operation_json row) = Ok op.

Definition row_of_entry (t : OperationTransition) (r : TransitionRow) : Prop :=
  json_to_string t = Ok (tr_transition_json r) ∧ tr_occurred_at_ms r = ot_occurred_at_ms t.

(** The rows of [operation_transitions] for [a] are the log [ts]. *)
Definition log_matches (table : gmap (Uuid * Z) TransitionRow) (a : Uuid)
    (ts : list OperationTransition) : Prop :=
  (∀ i t, ts !! i = Some t → ∃ r, table !! (a, Z.of_nat i + 1) = Some r ∧ row_of_entry t r)
  ∧ (∀ s r, table !! (a, s) = Some r → 1 ≤ s ≤ Z.of_nat (length ts)).

Definition request_of (op : OperationRecord) (rq : RequestRow) : Prop :=
  rq_project_id rq = op_project_id op
  ∧ rq_target_key rq = target_key_of (op_target_commit op)
  ∧ rq_operation_kind rq = operation_kind_name (op_operation_kind op).

Record db_inv (db : ControlDb) : Prop := {
  di_rows a row : operation_attempts db !! a = Some row → ∃ op, row_matches a row op;
  di_log a op : stored db a op → log_matches (operation_transitions db) a (transitions_of op);
  di_log_owner a s r : operation_transitions db !! (a, s) = Some r →
    is_Some (operation_attempts db !! a);
  di_numbers a row : operation_attempts db !! a = Some row →
    at_attempt_number row = 1
    ∨ 1 < at_attempt_number row ∧ ∃ a' row', operation_attempts db !! a' = Some row'
        ∧ at_request_id row' = at_request_id row
        ∧ at_attempt_number row' = at_attempt_number row - 1;
  di_unique a a' row row' :
    operation_attempts db !! a = Some row → operation_attempts db !! a' = Some row' →
    at_request_id row = at_request_id row' → at_attempt_number row = at_attempt_number row' →
    a = a';
  di_request a op : stored db a op →
    ∃ rq, deployment_requests db !! op_request_id op = Some rq ∧ request_of op rq;
  di_request_unique r r' rq rq' :
    deployment_requests db !! r = Some rq → deployment_requests db !! r' = Some rq' →
    same_request rq rq' = true → r = r';
  di_grants n g : controller_action_grants db !! n = Some g →
    ∃ op, stored db (gr_attempt_id g) op ∧ op_request_id op = gr_request_id g
          ∧ ev_action_grant_digest (op_evidence op) = Some (gr_grant_digest g);
  di_deliveries k d : transport_deliveries db !! k = Some d →
    ∃ a op, stored db a op ∧ op_request_id op = dr_request_id d
}.

Lemma db_inv_empty : db_inv empty_control_db.
Proof.
  split; unfold stored; simpl; intros; repeat setoid_rewrite lookup_empty; naive_solver.
Qed.

(** ** Reading *)

Lemma stored_inj db a op op' : stored db a op → stored db a op' → op = op'.
Proof. intros (?&?&?) (?&?&?). simplify_eq. congruence. Qed.

Lemma stored_matches db a op :
  db_inv db → stored db a op → ∃ row, operation_attempts db !! a = Some row ∧ row_matches a row op.
Proof.
  intros Hinv (row&Hrow&Hj). destruct (di_rows _ Hinv _ _ Hrow) as [op' Hm].
  exists row. split; [done|]. pose proof (rm_json _ _ _ Hm). by assert (op = op') as -> by congruence.
Qed.

Lemma decode_operation_Ok json op :
  decode_operation json = Ok op → json_from_str json = Ok op.
Proof. unfold decode_operation, json_err. intros. inv_ok. congruence. Qed.

Lemma decode_operation_inv json op :
  json_from_str json = Ok op → attempt_inv op → decode_operation json = Ok op.
Proof.
  intros Hj [Hs Hc Hh Hp]. unfold decode_operation, json_err. rewrite Hj. simpl.
  rewrite Hs, Hc. simpl. destruct (OperationKind_required_phases _ _); [|done]. simpl.
  by rewrite Hh.
Qed.

Lemma load_attempt_Ok a db op db' :
  load_attempt a db = Ok (op, db') → db' = db ∧ stored db a op.
Proof.
  unfold load_attempt. intros. inv_ok. split; [done|]. eexists. split; [done|].
  by apply decode_operation_Ok.
Qed.

(** In a store that satisfies the invariant every stored attempt loads. *)
Lemma load_attempt_stored db a op :
  db_inv db → stored db a op → load_attempt a db = Ok (op, db).
Proof.
  intros Hinv Hst. destruct (stored_matches _ _ _ Hinv Hst) as (row&Hrow&Hm).
  unfold load_attempt, mbind, tx_bind, gets, lift. simpl. rewrite Hrow. simpl.
  by rewrite (decode_operation_inv _ _ (rm_json _ _ _ Hm) (rm_inv _ _ _ Hm)).
Qed.

(** ** Writing one attempt *)

(** [db'] is [db] with the record of [a] replaced by [op'] and its new log entry
    recorded. *)
Record writes (db : ControlDb) (a : Uuid) (op op' : OperationRecord) (db' : ControlDb) : Prop := {
  wr_row : ∃ row row', operation_attempts db !! a = Some row
    ∧ operation_attempts db' = <[a := row']> (operation_attempts db)
    ∧ json_to_string op' = Ok (at_operation_json row')
    ∧ at_operation_id row' = at_operation_id row ∧ at_request_id row' = at_request_id row
    ∧ at_attempt_number row' = at_attempt_number row
    ∧ at_phase row' = phase_name (os_phase (op_state op'))
    ∧ at_result row' = result_name (os_result (op_state op'))
    ∧ at_updated_at_ms row' = op_updated_at_ms op';
  wr_log : (transitions_of op' = transitions_of op
            ∧ operation_transitions db' = operation_transitions db)
    ∨ ∃ t r, transitions_of op' = transitions_of op ++ [t] ∧ row_of_entry t r
        ∧ operation_transitions db' =
            <[(a, Z.of_nat (length (transitions_of op)) + 1) := r]> (operation_transitions db);
  wr_leases : tab_leases db' = tab_leases db;
  wr_requests : deployment_requests db' = deployment_requests db;
  wr_grants : controller_action_grants db' = controller_action_grants db;
  wr_deliveries : transport_deliveries db' = transport_deliveries db
}.

(** What a controller operation on an attempt does to the tables: nothing, or
    one step of the attempt's state machine. *)
Definition attempt_effect (db db' : ControlDb) : Prop :=
  db' = db ∨ ∃ a op op', stored db a op ∧ attempt_step op op' ∧ writes db a op op' db'.

Lemma stored_writes db a op op' db' a' op'' :
  writes db a op op' db' → stored db' a' op'' →
  a' = a ∧ op'' = op' ∨ a' ≠ a ∧ stored db a' op''.
Proof.
  intros Hw (row2&Hrow2&Hj). destruct (wr_row _ _ _ _ _ Hw) as (row&row'&Hrow&Hat&Hjs&_).
  rewrite Hat in Hrow2. destruct (decide (a' = a)) as [->|Hne].
  - rewrite lookup_insert_eq in Hrow2. simplify_eq. left. split; [done|].
    apply json_round_trip in Hjs. congruence.
  - rewrite lookup_insert_ne in Hrow2 by done. right. split; [done|]. by exists row2.
Qed.

Lemma writes_stored db a op op' db' a' op'' :
  writes db a op op' db' → stored db a' op'' → a' = a ∨ stored db' a' op''.
Proof.
  intros Hw (row2&Hrow2&Hj). destruct (decide (a' = a)) as [->|Hne]; [by left|right].
  destruct (wr_row _ _ _ _ _ Hw) as (row&row'&Hrow&Hat&_). exists row2.
  by rewrite Hat, lookup_insert_ne.
Qed.

Lemma writes_stored_self db a op op' db' : writes db a op op' db' → stored db' a op'.
Proof.
  intros Hw. destruct (wr_row _ _ _ _ _ Hw) as (row&row'&Hrow&Hat&Hjs&_). exists row'.
  rewrite Hat, lookup_insert_eq. split; [done|]. by apply json_round_trip.
Qed.

(** Every row of the new table has a row of the old one with the same request
    and number, and conversely. *)
Lemma writes_rows db a op op' db' a' :
  writes db a op op' db' →
  (∀ row', operation_attempts db' !! a' = Some row' →
     ∃ row, operation_attempts db !! a' = Some row ∧ at_request_id row = at_request_id row'
            ∧ at_attempt_number row = at_attempt_number row')
  ∧ (∀ row, operation_attempts db !! a' = Some row →
     ∃ row', operation_attempts db' !! a' = Some row' ∧ at_request_id row' = at_request_id row
            ∧ at_attempt_number row' = at_attempt_number row).
Proof.
  intros Hw. destruct (wr_row _ _ _ _ _ Hw) as (row&row'&Hrow&Hat&_&_&Hr&Hn&_). rewrite Hat.
  destruct (decide (a' = a)) as [->|Hne].
  - rewrite lookup_insert_eq, Hrow. split; intros ? [= <-]; eauto.
  - rewrite lookup_insert_ne by done. split; eauto.
Qed.

Lemma log_matches_snoc table a ts t r :
  log_matches table a ts → row_of_entry t r →
  log_matches (<[(a, Z.of_nat (length ts) + 1) := r]> table) a (ts ++ [t]).
Proof.
  intros [Hl Hb] Hr. split.
  - intros i t' Hi. apply lookup_app_Some in Hi as [Hi|[Hle Hi]].
    + destruct (Hl _ _ Hi) as (r'&Hr'&Hm). exists r'. apply lookup_lt_Some in Hi.
      rewrite lookup_insert_ne; [done|]. intros [=]. lia.
    + apply list_lookup_singleton_Some in Hi as [Hz <-].
      assert (i = length ts) as -> by lia. exists r. by rewrite lookup_insert_eq.
  - intros s r' Hs. rewrite length_app. simpl.
    destruct (decide (s = Z.of_nat (length ts) + 1)) as [->|Hne]; [lia|].
    rewrite lookup_insert_ne in Hs by (intros [=]; lia). apply Hb in Hs. lia.
Qed.

Lemma log_matches_other table a a' s r ts :
  a ≠ a' → log_matches table a ts → log_matches (<[(a', s) := r]> table) a ts.
Proof.
  intros Hne [Hl Hb]. split.
  - intros i t Hi. rewrite lookup_insert_ne by congruence. by apply Hl.
  - intros s' r' Hs. rewrite lookup_insert_ne in Hs by congruence. by eapply Hb.
Qed.

Lemma writes_log db a op op' db' a' op'' :
  db_inv db → stored db a op → writes db a op op' db' → stored db' a' op'' →
  log_matches (operation_transitions db') a' (transitions_of op'').
Proof.
  intros Hinv Hst Hw Hst'. pose proof (di_log _ Hinv _ _ Hst) as Hlog.
  destruct (stored_writes _ _ _ _ _ _ _ Hw Hst') as [[-> ->]|[Hne Hold]].
  - destruct (wr_log _ _ _ _ _ Hw) as [[-> ->]|(t&r&->&Hr&->)]; [done|].
    by apply log_matches_snoc.
  - pose proof (di_log _ Hinv _ _ Hold).
    destruct (wr_log _ _ _ _ _ Hw) as [[_ ->]|(t&r&_&_&->)]; [done|].
    by apply log_matches_other.
Qed.

(** A stored record and its identity survive any write. *)
Lemma writes_identity db a op op' db' a' op'' :
  stored db a op → same_identity op op' → writes db a op op' db' → stored db a' op'' →
  ∃ op3, stored db' a' op3 ∧ same_identity op'' op3.
Proof.
  intros Hst Hid Hw Hst'. destruct (writes_stored _ _ _ _ _ _ _ Hw Hst') as [->|?].
  - rewrite (stored_inj _ _ _ _ Hst' Hst). exists op'. split; [|done].
    by eapply writes_stored_self.
  - exists op''. split; [done|]. by split_and!.
Qed.

Lemma writes_inv db a op op' db' :
  db_inv db → stored db a op → attempt_step op op' → writes db a op op' db' → db_inv db'.
Proof.
  intros Hinv Hst Hstep Hw. pose proof (attempt_step_identity _ _ Hstep) as Hid.
  destruct (stored_matches _ _ _ Hinv Hst) as (orow&Horow&Hm).
  constructor.
  - intros a' row' Hrow'. destruct (wr_row _ _ _ _ _ Hw) as (row&row2&Hrow&Hat&Hjs&Ho&Hr&Hn&Hp&Hre&Hu).
    rewrite Hat in Hrow'. destruct (decide (a' = a)) as [->|Hne].
    + rewrite lookup_insert_eq in Hrow'. simplify_eq. exists op'.
      destruct Hid as (H1&H2&H3&H4&_), Hm as []. apply json_round_trip in Hjs.
      constructor; try congruence. by eapply attempt_step_inv.
    + rewrite lookup_insert_ne in Hrow' by done. by apply (di_rows _ Hinv).
  - intros. by eapply writes_log.
  - intros a' s r Hs. destruct (writes_rows _ _ _ _ _ a' Hw) as [_ Hback].
    assert (is_Some (operation_attempts db !! a')) as [row Hrow].
    { destruct (wr_log _ _ _ _ _ Hw) as [[_ Htr]|(t&r'&_&_&Htr)]; rewrite Htr in Hs.
      - by eapply (di_log_owner _ Hinv).
      - destruct (decide (a' = a)) as [->|]; [by eexists|].
        rewrite lookup_insert_ne in Hs by congruence. by eapply (di_log_owner _ Hinv). }
    destruct (Hback _ Hrow) as (row'&?&_). by eexists.
  - intros a' row' Hrow'. destruct (writes_rows _ _ _ _ _ a' Hw) as [Hf _].
    destruct (Hf _ Hrow') as (row&Hrow&<-&<-).
    destruct (di_numbers _ Hinv _ _ Hrow) as [?|(?&a2&row2&Hrow2&?&?)]; [by left|right].
    split; [done|]. destruct (writes_rows _ _ _ _ _ a2 Hw) as [_ Hback].
    destruct (Hback _ Hrow2) as (row3&?&?&?). exists a2, row3. split_and!; congruence.
  - intros a1 a2 row1 row2 H1 H2 Hr Hn.
    destruct (writes_rows _ _ _ _ _ a1 Hw) as [Hf1 _], (writes_rows _ _ _ _ _ a2 Hw) as [Hf2 _].
    destruct (Hf1 _ H1) as (?&?&?&?), (Hf2 _ H2) as (?&?&?&?).
    eapply (di_unique _ Hinv); [done|done|congruence|congruence].
  - intros a' op'' Hst'. rewrite (wr_requests _ _ _ _ _ Hw).
    destruct (stored_writes _ _ _ _ _ _ _ Hw Hst') as [[-> ->]|[_ Hold]];
      [|by apply (di_request _ Hinv _ _ Hold)].
    destruct Hid as (_&->&_&_&Hp&Hk&Ht&_). destruct (di_request _ Hinv _ _ Hst) as (rq&?&?).
    exists rq. split; [done|]. unfold request_of. by rewrite Hp, Hk, Ht.
  - rewrite (wr_requests _ _ _ _ _ Hw). apply Hinv.
  - intros n g. rewrite (wr_grants _ _ _ _ _ Hw). intros Hg.
    destruct (di_grants _ Hinv _ _ Hg) as (og&Hog&Hreq&Hdg).
    destruct (writes_identity _ _ _ _ _ _ _ Hst Hid Hw Hog) as (o3&Ho3&(_&H2&_&_&_&_&_&_&_&_&H3&_)).
    exists o3. split_and!; congruence.
  - intros k d. rewrite (wr_deliveries _ _ _ _ _ Hw). intros Hd.
    destruct (di_deliveries _ Hinv _ _ Hd) as (a'&og&Hog&Hreq).
    destruct (writes_identity _ _ _ _ _ _ _ Hst Hid Hw Hog) as (o3&Ho3&(_&H2&_)).
    exists a', o3. split; congruence.
Qed.

Lemma attempt_effect_inv db db' : db_inv db → attempt_effect db db' → db_inv db'.
Proof. intros Hinv [->|(a&op&op'&Hst&Hstep&Hw)]; [done|]. by eapply writes_inv. Qed.

(** ** Every transition of the controller is a step *)

Lemma sequence_Ok n v :
  (u32_try_from n ≫= λ value, u32_checked_add value 1) = Some v → v = n + 1.
Proof.
  intros (m&[-> _]%checked_range_Some&[-> _]%checked_range_Some)%bind_Some. done.
Qed.

Lemma persist_writes db a op op1 next rd t op2 db' :
  db_inv db → stored db a op → op_attempt_id op1 = op_attempt_id op →
  transitions_of op1 = transitions_of op →
  persist_transition op1 next rd t db = Ok (op2, db') →
  op2 = advance op1 next rd t ∧ writes db a op op2 db'.
Proof.
  intros Hinv Hst Hid Hts Hp. destruct (stored_matches _ _ _ Hinv Hst) as (row&Hrow&Hm).
  unfold persist_transition in Hp.
  apply tx_bind_Ok in Hp as (?&?&[_ ->]%lift_Ok&Hp).
  apply tx_bind_Ok in Hp as (?&?&[_ ->]%lift_Ok&Hp).
  apply tx_bind_Ok in Hp as (seq&?&[Hseq ->]%lift_Ok&Hp).
  apply ok_or_Ok, sequence_Ok in Hseq as ->. fold (advance op1 next rd t) in Hp.
  apply tx_bind_Ok in Hp as (tj&?&[Htj%map_err_Ok ->]%lift_Ok&Hp).
  apply tx_bind_Ok in Hp as (oj&?&[Hoj%map_err_Ok ->]%lift_Ok&Hp).
  apply tx_bind_Ok in Hp as (?&db1&Hins&Hp).
  assert (op_attempt_id (advance op1 next rd t) = a) as Ha
    by (simpl; rewrite Hid; apply Hm).
  apply tx_bind_Ok in Hp as (changed&db2&Hup&Hp).
  rewrite Ha in Hins, Hup. unfold insert_transition, ensure_tx in Hins. inv_ok.
  unfold update_attempt in Hup.
  apply tx_bind_Ok in Hup as (?&?&[-> ->]%gets_Ok&Hup). simpl in Hup. rewrite Hrow in Hup.
  inv_ok. split; [done|]. constructor; simpl; try done.
  - eexists row, _. split_and!; [done|reflexivity|done..].
  - right. eexists _, _. rewrite <- Hts. split_and!; [done| |reflexivity]. by split.
Qed.

Lemma persist_step db a op op1 next rd t op2 db' :
  db_inv db → stored db a op → persist_transition op1 next rd t db = Ok (op2, db') →
  op_attempt_id op1 = op_attempt_id op → transitions_of op1 = transitions_of op →
  attempt_step op (advance op1 next rd t) → attempt_effect db db'.
Proof.
  intros Hinv Hst Hp Hid Hts Hstep.
  destruct (persist_writes _ _ _ _ _ _ _ _ _ Hinv Hst Hid Hts Hp) as [-> Hw].
  right. by exists a, op, (advance op1 next rd t).
Qed.

Context `{!Sha256, !Jcs ReceiptDigestPayload, !Jcs FenceAcquisitionReceiptDigestPayload}.

(** A transaction of the controller: rejected, or its body succeeded. *)
Lemma immediate_effect {A} (body : Tx ControlDb StoreError A) db db' r :
  immediate_transaction body db = (db', r) →
  db' = db ∨ ∃ a, body db = Ok (a, db').
Proof.
  unfold immediate_transaction. destruct (body db) as [[a db1]|e]; intros [= <- <-]; eauto.
Qed.

Lemma with_validation_effect {A} v (body : Tx ControlDb StoreError A) db db' r :
  with_validation v body db = (db', r) →
  db' = db ∨ v = Ok tt ∧ ∃ a, body db = Ok (a, db').
Proof.
  unfold with_validation. destruct v as [[]|]; [|intros [= <- _]; by left].
  intros [?|?]%immediate_effect; eauto.
Qed.

(** Open a transition operation: its transaction committed, its attempt loaded. *)
Ltac open_transition H :=
  first [let Hv := fresh "Hv" in
         apply with_validation_effect in H as [H|(Hv&?&H)]; [by left|]
        |apply immediate_effect in H as [H|(?&H)]; [by left|]];
  let op := fresh "op" in let Hst := fresh "Hst" in
  apply tx_bind_Ok in H as (op&?&[-> Hst]%load_attempt_Ok&H).

(** Its early returns leave the tables unchanged. *)
Ltac early_return H :=
  match type of H with
  | (if ?b then _ else _) _ = Ok _ =>
      destruct b eqn:?; [first [by apply tx_err_Ok in H | by inv_ok; left]|]
  end.

Lemma commit_phase_receipt_effect receipt t db db' r :
  db_inv db → commit_phase_receipt receipt t db = (db', r) → attempt_effect db db'.
Proof.
  intros Hinv Hop. unfold commit_phase_receipt in Hop. open_transition Hop. do 2 early_return Hop.
  apply tx_bind_Ok in Hop as (next&?&[Hnext ->]%lift_Ok&Hop).
  apply tx_bind_Ok in Hop as (ev&?&[Hm ->]%lift_Ok&Hop). bool_prop.
  pose proof (merge_artifacts_frame _ _ _ _ _ _ Hm) as [(Hts&_) _].
  apply (persist_step _ _ _ _ _ _ _ _ _ Hinv Hst Hop); [done|done|].
  eapply step_commit; [..|exact Hnext|exact Hm]; unfold running; tauto.
Qed.

Lemma commit_reconciled_phase_receipt_effect receipt t db db' r :
  db_inv db → commit_reconciled_phase_receipt receipt t db = (db', r) → attempt_effect db db'.
Proof.
  intros Hinv Hop. unfold commit_reconciled_phase_receipt in Hop. open_transition Hop.
  destruct (position _ _) as [i|].
  { destruct (_ !! i); [early_return Hop|]; by apply tx_err_Ok in Hop. }
  early_return Hop. destruct (last _) as [entry|] eqn:Hlast; [|by apply tx_err_Ok in Hop].
  early_return Hop.
  apply tx_bind_Ok in Hop as (next&?&[Hnext ->]%lift_Ok&Hop).
  apply tx_bind_Ok in Hop as (ev&?&[Hm ->]%lift_Ok&Hop). bool_prop.
  pose proof (merge_artifacts_frame _ _ _ _ _ _ Hm) as [(Hts&_) _]. destruct_and!.
  apply (persist_step _ _ _ _ _ _ _ _ _ Hinv Hst Hop); [done|done|].
  by eapply step_reconciled.
Qed.

Lemma mark_needs_reconcile_effect a capsule t db db' r :
  db_inv db → mark_needs_reconcile a capsule t db = (db', r) → attempt_effect db db'.
Proof.
  intros Hinv Hop. unfold mark_needs_reconcile in Hop. open_transition Hop. early_return Hop.
  early_return Hop. apply (persist_step _ _ _ _ _ _ _ _ _ Hinv Hst Hop); [done|done|].
  apply map_err_Ok in Hv. bool_prop.
  apply step_reconcile; [done| |done]. intros Hr. rewrite Hr in Heqb.
  apply andb_false_iff in Heqb as [?|?]; bool_prop; done.
Qed.

Lemma begin_rollback_effect a t db db' r :
  db_inv db → begin_rollback a t db = (db', r) → attempt_effect db db'.
Proof.
  intros Hinv Hop. unfold begin_rollback in Hop. open_transition Hop.
  apply tx_bind_Ok in Hop as (already&?&[Hreq ->]%lift_Ok&Hop). early_return Hop. subst.
  apply (persist_step _ _ _ _ _ _ _ _ _ Hinv Hst Hop); [done|done|]. by apply step_rollback.
Qed.

Lemma set_pre_mutation_block_effect a reason src t db db' r :
  settable_block reason →
  db_inv db → set_pre_mutation_block a reason src t db = (db', r) → attempt_effect db db'.
Proof.
  intros Hset Hinv Hop. unfold set_pre_mutation_block in Hop. open_transition Hop.
  do 3 early_return Hop. apply (persist_step _ _ _ _ _ _ _ _ _ Hinv Hst Hop); [done|done|]. bool_prop.
  destruct Heqb as [[Hrun _] Hno]. apply andb_false_iff in Heqb1. bool_prop.
  apply step_block; [done| |done|by left]. unfold replaceable_block. tauto.
Qed.

Lemma set_source_block_effect a reason t db db' r :
  db_inv db → set_source_block a reason t db = (db', r) → attempt_effect db db'.
Proof.
  intros Hinv. unfold set_source_block, settable_block.
  destruct reason; try (intros [= <- _]; by left); apply set_pre_mutation_block_effect;
    unfold settable_block, replaceable_block; tauto.
Qed.

Lemma set_disk_block_effect a t db db' r :
  db_inv db → set_disk_block a t db = (db', r) → attempt_effect db db'.
Proof.
  apply set_pre_mutation_block_effect. unfold settable_block, replaceable_block. tauto.
Qed.

Lemma is_stateful_cutover_retry_running op : is_stateful_cutover_retry op = true → running op.
Proof. unfold is_stateful_cutover_retry. intros. bool_prop. tauto. Qed.

Lemma set_stateful_cutover_source_block_effect a t db db' r :
  db_inv db → set_stateful_cutover_source_block a t db = (db', r) → attempt_effect db db'.
Proof.
  intros Hinv Hop. unfold set_stateful_cutover_source_block in Hop. open_transition Hop.
  do 3 early_return Hop. apply (persist_step _ _ _ _ _ _ _ _ _ Hinv Hst Hop); [done|done|]. bool_prop.
  apply step_block; [by apply is_stateful_cutover_retry_running| | |by right];
    unfold settable_block, replaceable_block; tauto.
Qed.

Lemma clear_stateful_cutover_source_block_effect a t db db' r :
  db_inv db → clear_stateful_cutover_source_block a t db = (db', r) → attempt_effect db db'.
Proof.
  intros Hinv Hop. unfold clear_stateful_cutover_source_block in Hop. open_transition Hop.
  early_return Hop. destruct (os_blocking_reason _) eqn:Hb;
    try by (first [apply tx_err_Ok in Hop | inv_ok; left]).
  apply (persist_step _ _ _ _ _ _ _ _ _ Hinv Hst Hop); [done|done|]. bool_prop.
  apply step_block; [by apply is_stateful_cutover_retry_running| | |by right];
    unfold settable_block, replaceable_block; tauto.
Qed.

Lemma clear_disk_block_effect a t db db' r :
  db_inv db → clear_disk_block a t db = (db', r) → attempt_effect db db'.
Proof.
  intros Hinv Hop. unfold clear_disk_block in Hop. open_transition Hop.
  early_return Hop. apply (persist_step _ _ _ _ _ _ _ _ _ Hinv Hst Hop); [done|done|]. bool_prop.
  destruct Heqb as [[Hrun Hb] Hno].
  apply step_block; [done| | |by left]; unfold settable_block, replaceable_block; tauto.
Qed.

Lemma supersede_source_attempt_effect a capsule t db db' r :
  db_inv db → supersede_source_attempt a capsule t db = (db', r) → attempt_effect db db'.
Proof.
  intros Hinv Hop. unfold supersede_source_attempt in Hop. open_transition Hop.
  do 2 early_return Hop. apply (persist_step _ _ _ _ _ _ _ _ _ Hinv Hst Hop); [done|done|].
  apply map_err_Ok in Hv. bool_prop. apply step_supersede; [done|tauto|tauto|done].
Qed.

Lemma fail_attempt_effect a capsule t db db' r :
  db_inv db → fail_attempt a capsule t db = (db', r) → attempt_effect db db'.
Proof.
  intros Hinv Hop. unfold fail_attempt in Hop. open_transition Hop.
  do 2 early_return Hop. apply (persist_step _ _ _ _ _ _ _ _ _ Hinv Hst Hop); [done|done|].
  apply map_err_Ok in Hv. bool_prop. by apply step_fail.
Qed.

Lemma cancel_before_mutation_effect a t db db' r :
  db_inv db → cancel_before_mutation a t db = (db', r) → attempt_effect db db'.
Proof.
  intros Hinv Hop. unfold cancel_before_mutation in Hop. open_transition Hop.
  do 2 early_return Hop. apply (persist_step _ _ _ _ _ _ _ _ _ Hinv Hst Hop); [done|done|].
  bool_prop. by apply step_cancel.
Qed.

Lemma record_fence_acquisition_effect a receipt t db db' r :
  db_inv db → record_fence_acquisition a receipt t db = (db', r) → attempt_effect db db'.
Proof.
  intros Hinv Hop. unfold record_fence_acquisition in Hop. open_transition Hop.
  early_return Hop. apply tx_bind_Ok in Hop as (merged&?&[Hm ->]%lift_Ok&Hop).
  destruct merged as [ev|]; [|by inv_ok; left].
  destruct (stored_matches _ _ _ Hinv Hst) as (row&Hrow&Hrm).
  apply tx_bind_Ok in Hop as (oj&?&[Hoj%map_err_Ok ->]%lift_Ok&Hop).
  apply tx_bind_Ok in Hop as (changed&db1&Hup&Hop). unfold update_attempt in Hup.
  apply tx_bind_Ok in Hup as (?&?&[-> ->]%gets_Ok&Hup). rewrite Hrow in Hup.
  destruct (at_result row == "running"%string) eqn:Hres; inv_ok.
  bool_prop. destruct Heqb as [[Hrun Hph] Hpr]. right.
  eexists a, op, _. split_and!; [done|by eapply step_fence|].
  apply fence_merge_frame in Hm as ((Hts&_)&_).
  constructor; simpl; try done.
  - eexists row, _. split_and!; [done|reflexivity|done..| | |done]; apply Hrm.
  - by left.
Qed.

(** ** Admission *)

#[local] Instance attempt_desc_transitive : Transitive (cmp_le attempt_desc).
Proof.
  intros x y z. unfold cmp_le, attempt_desc, is_le.
  repeat case_match; try done; rewrite ?Z.compare_eq_iff, ?Z.compare_lt_iff, ?Z.compare_gt_iff in *; lia.
Qed.
#[local] Instance attempt_desc_total : Total (cmp_le attempt_desc).
Proof.
  intros x y. unfold cmp_le, attempt_desc, is_le.
  destruct (Z.compare_spec (at_attempt_number y.2) (at_attempt_number x.2)),
    (Z.compare_spec (at_attempt_number x.2) (at_attempt_number y.2)); auto; lia.
Qed.

Lemma latest_attempt_Ok rid db latest db' :
  latest_attempt rid db = Ok (latest, db') →
  db' = db
  ∧ match latest with
    | None => ∀ a row, operation_attempts db !! a = Some row → at_request_id row ≠ rid
    | Some op => ∃ a row, operation_attempts db !! a = Some row ∧ at_request_id row = rid
        ∧ json_from_str (at_operation_json row) = Ok op
        ∧ ∀ a' row', operation_attempts db !! a' = Some row' → at_request_id row' = rid →
            at_attempt_number row' <= at_attempt_number row
    end.
Proof.
  unfold latest_attempt. intros Hl. inv_ok. split; [done|].
  destruct (head _) as [[a row]|] eqn:Hhd; simpl in *; inv_ok.
  - assert ((a, row) ∈ request_rows rid db) as Hin.
    { apply (sort_by_elem_of attempt_desc). by apply head_Some_elem_of. }
    apply select_rows_elem in Hin as [Hr%bool_decide_eq_true Hrow].
    exists a, row. split_and!; [done|done|by apply decode_operation_Ok|].
    intros a' row' Hrow' Hr'.
    pose proof (sort_by_head attempt_desc (request_rows rid db) (a, row) (a', row') Hhd) as Hle.
    unfold cmp_le, attempt_desc, is_le in Hle. simpl in Hle.
    assert ((a', row') ∈ request_rows rid db) as Hin'.
    { apply select_rows_elem. by rewrite bool_decide_eq_true_2. }
    specialize (Hle Hin'). case_match eqn:Hcmp; try done;
      [apply Z.compare_eq in Hcmp; lia|rewrite Z.compare_lt_iff in Hcmp; lia].
  - intros a row Hrow Hr. apply head_None in Hhd.
    assert ((a, row) ∈ sort_by attempt_desc (request_rows rid db)) as Hin.
    { apply sort_by_elem_of, select_rows_elem. by rewrite bool_decide_eq_true_2. }
    rewrite Hhd in Hin. by apply not_elem_of_nil in Hin.
Qed.

(** The request row of an operation. *)
Definition requests_operation (rq : RequestRow) (operation : NewOperation) : Prop :=
  rq_project_id rq = no_project_id operation
  ∧ rq_target_key rq = target_key_of (no_target_commit operation)
  ∧ rq_operation_kind rq = operation_kind_name (no_operation_kind operation).

Lemma same_request_true a b :
  same_request a b = true ↔ rq_project_id a = rq_project_id b ∧ rq_target_key a = rq_target_key b
                            ∧ rq_operation_kind a = rq_operation_kind b.
Proof. unfold same_request. rewrite !andb_true_iff, !bool_decide_eq_true. tauto. Qed.

Lemma find_or_create_request_inv uuids operation t db rid db1 :
  db_inv db → find_or_create_request uuids operation t db = Ok (rid, db1) →
  db_inv db1 ∧ operation_attempts db1 = operation_attempts db
  ∧ controller_action_grants db1 = controller_action_grants db
  ∧ transport_deliveries db1 = transport_deliveries db
  ∧ ∃ rq, deployment_requests db1 !! rid = Some rq ∧ requests_operation rq operation.
Proof.
  intros Hinv Hf. unfold find_or_create_request in Hf.
  apply tx_bind_Ok in Hf as (?&?&[-> ->]%gets_Ok&Hf).
  destruct (head _) as [[rid' rq]|] eqn:Hhd.
  - inv_ok. split_and!; [done..|]. apply head_Some_elem_of, select_rows_elem in Hhd as [Hs Hrq].
    apply same_request_true in Hs as (?&?&?). exists rq. split; [done|]. by split_and!.
  - unfold insert_request, ensure_tx in Hf. inv_ok. bool_prop. split_and!; try done.
    + destruct Hinv. constructor; simpl; try done.
      * intros a op Hst. destruct (di_request0 a op Hst) as (rq&Hrq&?). exists rq.
        split; [|done]. rewrite lookup_insert_ne; [done|]. congruence.
      * intros r r' rq rq' Hr Hr' Hs.
        rewrite lookup_insert_Some in Hr, Hr'.
        assert (∀ r2 rq2, deployment_requests db !! r2 = Some rq2 →
                same_request (request_row_of operation t) rq2 = true → False) as Hno.
        { intros r2 rq2 Hr2 Hs2. match goal with
          | Hex : row_exists _ _ = false |- _ => by rewrite (row_exists_false _ _ Hex _ _ Hr2) in Hs2
          end. }
        destruct Hr as [[<- <-]|[? Hr]], Hr' as [[<- <-]|[? Hr']]; [done|..].
        -- by destruct (Hno _ _ Hr' Hs).
        -- exfalso. apply (Hno _ _ Hr). apply same_request_true in Hs.
           apply same_request_true. naive_solver.
        -- by eapply di_request_unique0.
    + eexists. rewrite lookup_insert_eq. by split.
Qed.

Lemma phase_committed_nil p : ¬ phase_committed [] p.
Proof. intros (i&t&d&Hi&_). by rewrite lookup_nil in Hi. Qed.

(** A record as admission creates it. *)
Definition fresh_attempt (op : OperationRecord) : Prop :=
  op_state op = initial_state ∧ transitions_of op = [] ∧ op_failure_capsule op = None
  ∧ ev_recovery_mode (op_evidence op) = None
  ∧ ev_authorized_phase_spec_digests (op_evidence op) = [].

Lemma fresh_attempt_inv op :
  fresh_attempt op →
  is_ok (OperationKind_required_phases (op_operation_kind op) (op_release_class op)) = true →
  attempt_inv op.
Proof.
  intros (Hs&Hts&Hc&Hm&Hh) Hp.
  constructor; unfold effective_phase; rewrite ?Hs, ?Hts, ?Hc, ?Hm, ?Hh; try done.
  - intros plan Hplan i j q Hi Hj Hq. simpl in Hi. exfalso.
    plan_cases Hplan; destruct i as [|i]; try lia; index_cases i.
  - intros plan p _ Hp'. by apply phase_committed_nil in Hp'.
  - intros _ p Hp'. by apply phase_committed_nil in Hp'.
  - intros _. unfold code_rollback_pending, effective_phase. rewrite Hs. simpl.
    split_and!; try done; by left.
  - intros _. apply has_committed_mutation_false. rewrite Hts. intros p Hp'.
    by apply phase_committed_nil in Hp'.
Qed.

(** The number an attempt gets: the first one, or one more than the latest. *)
Definition next_number (db : ControlDb) (rid : Uuid) (number : Z) : Prop :=
  number = 1
  ∨ 1 < number ∧ ∃ a row, operation_attempts db !! a = Some row ∧ at_request_id row = rid
      ∧ at_attempt_number row = number - 1.

Section CreateAttempt.
Variables (uuids : NewUuids) (rid : Uuid) (new : NewOperation) (number : Z)
  (actor : OperationActor) (grant attestation : option EvidenceDigest) (seq : option Z) (t : Z)
  (db db' : ControlDb) (record : OperationRecord) (rq : RequestRow).
Hypothesis Hinv : db_inv db.
Hypothesis Hcreate : create_attempt uuids rid new number actor grant attestation seq t db
                     = Ok (record, db').
Hypothesis Hrq : deployment_requests db !! rid = Some rq.
Hypothesis Hmatch : requests_operation rq new.
Hypothesis Hplan :
  is_ok (OperationKind_required_phases (no_operation_kind new) (no_release_class new)) = true.
Hypothesis Hnumber : next_number db rid number.

Lemma create_attempt_Ok :
  ∃ row, db' = db <| operation_attempts := <[op_attempt_id record := row]> (operation_attempts db) |>
    ∧ operation_attempts db !! op_attempt_id record = None
    ∧ row_matches (op_attempt_id record) row record
    ∧ fresh_attempt record ∧ op_request_id record = rid ∧ op_attempt_number record = number
    ∧ ev_action_grant_digest (op_evidence record) = grant
    ∧ ev_source_sequence (op_evidence record) = seq
    ∧ op_project_id record = no_project_id new ∧ op_target_commit record = no_target_commit new
    ∧ op_operation_kind record = no_operation_kind new
    ∧ (∀ a row', operation_attempts db !! a = Some row' → at_request_id row' = rid →
         at_attempt_number row' ≠ number).
Proof using Hcreate Hplan JsonRoundTrip0.
  unfold create_attempt in Hcreate. pose proof Hcreate as Hc.
  apply tx_bind_Ok in Hc as (?&?&[_ ->]%lift_Ok&Hc).
  apply tx_bind_Ok in Hc as (json&?&[Hj%map_err_Ok ->]%lift_Ok&Hc).
  apply tx_bind_Ok in Hc as (?&db1&Hins&[-> ->]%tx_ok_Ok).
  unfold insert_attempt, ensure_tx in Hins. clear Hcreate. inv_ok. bool_prop.
  eexists. split; [done|]. simpl. split_and!; try done; [tauto|..].
  - constructor; try done; simpl; [by apply json_round_trip|].
    by apply fresh_attempt_inv.
  - match goal with Hx : _ = None ∧ row_exists _ _ = false |- _ => destruct Hx as [_ Hex] end.
    intros a row' Hrow' Hr. pose proof (row_exists_false _ _ Hex _ _ Hrow') as Hf. simpl in Hf.
    rewrite bool_decide_eq_true_2 in Hf by done. simpl in Hf. by apply Z.eqb_neq in Hf.
Qed.

Lemma create_attempt_inv :
  db_inv db' ∧ stored db' (op_attempt_id record) record
  ∧ controller_action_grants db' = controller_action_grants db
  ∧ transport_deliveries db' = transport_deliveries db.
Proof.
  destruct create_attempt_Ok as (row&Hdb&Hnone&Hm&Hfresh&Hr&Hn&_&_&Hp&Ht&Hk&Hun).
  set (aid := op_attempt_id record) in *.
  assert (∀ a op, stored db' a op → a = aid ∧ op = record ∨ a ≠ aid ∧ stored db a op) as Hst.
  { intros a op (row'&Hrow'&Hj). rewrite Hdb in Hrow'. simpl in Hrow'.
    apply lookup_insert_Some in Hrow' as [[<- <-]|[Hne Hrow']].
    - left. split; [done|]. pose proof (rm_json _ _ _ Hm). congruence.
    - right. split; [done|]. by exists row'. }
  assert (∀ a op, stored db a op → stored db' a op) as Hst'.
  { intros a op (row'&Hrow'&Hj). exists row'. rewrite Hdb. simpl.
    rewrite lookup_insert_ne; [done|]. intros <-. congruence. }
  split_and!; [|exists row; rewrite Hdb; simpl; rewrite lookup_insert_eq;
                split; [done|apply Hm]|by rewrite Hdb..].
  constructor.
  - intros a row'. rewrite Hdb. simpl. intros [[<- <-]|[_ Hrow']]%lookup_insert_Some; [by eexists|].
    by apply (di_rows _ Hinv).
  - intros a op Hop. assert (operation_transitions db' = operation_transitions db) as ->
      by (by rewrite Hdb).
    apply Hst in Hop as [[-> ->]|[_ Hop]]; [|by apply (di_log _ Hinv)].
    destruct Hfresh as (_&->&_). split; [done|]. intros s r Hs.
    destruct (di_log_owner _ Hinv _ _ _ Hs). congruence.
  - rewrite Hdb. simpl. intros a s r Hs. destruct (di_log_owner _ Hinv _ _ _ Hs) as [row' ?].
    rewrite lookup_insert_is_Some'. right. by eexists.
  - rewrite Hdb. simpl. intros a row' [[<- <-]|[Hne Hrow']]%lookup_insert_Some.
    + rewrite (rm_number _ _ _ Hm), Hn. destruct Hnumber as [?|(?&a2&row2&?&?&?)]; [by left|right].
      split; [done|]. exists a2, row2. rewrite lookup_insert_ne by congruence.
      rewrite (rm_request _ _ _ Hm). split_and!; congruence.
    + destruct (di_numbers _ Hinv _ _ Hrow') as [?|(?&a2&row2&?&?&?)]; [by left|right].
      split; [done|]. exists a2, row2. by rewrite lookup_insert_ne by congruence.
  - rewrite Hdb. simpl. intros a a' r1 r2 H1 H2 Hreq Hnum.
    pose proof (rm_request _ _ _ Hm). pose proof (rm_number _ _ _ Hm).
    apply lookup_insert_Some in H1 as [[<- <-]|[? H1]], H2 as [[<- <-]|[? H2]]; [done|..].
    + destruct (Hun _ _ H2); congruence.
    + destruct (Hun _ _ H1); congruence.
    + by eapply (di_unique _ Hinv).
  - intros a op Hop. assert (deployment_requests db' = deployment_requests db) as -> by (by rewrite Hdb).
    apply Hst in Hop as [[-> ->]|[_ Hop]]; [|by apply (di_request _ Hinv) in Hop].
    exists rq. rewrite Hr. split; [done|]. unfold request_of. by rewrite Hp, Ht, Hk.
  - rewrite Hdb. simpl. apply (di_request_unique _ Hinv).
  - intros n g. assert (controller_action_grants db' = controller_action_grants db) as ->
      by (by rewrite Hdb).
    intros Hg. destruct (di_grants _ Hinv _ _ Hg) as (op&?&?). exists op. eauto.
  - intros k d. assert (transport_deliveries db' = transport_deliveries db) as -> by (by rewrite Hdb).
    intros Hd. destruct (di_deliveries _ Hinv _ _ Hd) as (a&op&?&?). exists a, op. eauto.
Qed.
End CreateAttempt.

Lemma stored_ext db db' a op :
  operation_attempts db' = operation_attempts db → stored db a op → stored db' a op.
Proof. intros He (row&?&?). exists row. by rewrite He. Qed.

Lemma insert_grant_inv nonce row db db' u op :
  db_inv db → insert_grant nonce row db = Ok (u, db') →
  stored db (gr_attempt_id row) op → op_request_id op = gr_request_id row →
  ev_action_grant_digest (op_evidence op) = Some (gr_grant_digest row) →
  db_inv db'.
Proof.
  intros [] Hi Hst Hreq Hd. unfold insert_grant, ensure_tx in Hi. inv_ok.
  constructor; simpl; try done. intros n g [[<- <-]|[_ Hg]]%lookup_insert_Some; eauto.
Qed.

Lemma insert_delivery_inv key row db db' u a op :
  db_inv db → insert_delivery key row db = Ok (u, db') →
  stored db a op → op_request_id op = dr_request_id row → db_inv db'.
Proof.
  intros [] Hi Hst Hreq. unfold insert_delivery, ensure_tx in Hi. inv_ok.
  constructor; simpl; try done. intros n g [[<- <-]|[_ Hg]]%lookup_insert_Some; eauto.
Qed.

(** One more than the latest attempt of the request. *)
Lemma latest_next_number db rid existing db1 n :
  db_inv db → latest_attempt rid db = Ok (Some existing, db1) →
  next_attempt_number (op_attempt_number existing) = Ok n → next_number db rid n.
Proof.
  intros Hinv (_&a&row&Hrow&Hr&Hj&_)%latest_attempt_Ok Hn.
  destruct (di_rows _ Hinv _ _ Hrow) as [op Hm].
  assert (op = existing) as -> by (pose proof (rm_json _ _ _ Hm); congruence).
  unfold next_attempt_number in Hn. apply ok_or_Ok, checked_range_Some in Hn as [-> _].
  right. rewrite <- (rm_number _ _ _ Hm).
  destruct (di_numbers _ Hinv _ _ Hrow) as [?|[? _]]; (split; [lia|]); exists a, row; split_and!; auto; lia.
Qed.

(** The context of an outcome: the request exists and describes the operation. *)
Definition request_ready (db : ControlDb) (rid : Uuid) (new : NewOperation) : Prop :=
  db_inv db
  ∧ (∃ rq, deployment_requests db !! rid = Some rq ∧ requests_operation rq new)
  ∧ is_ok (OperationKind_required_phases (no_operation_kind new) (no_release_class new)) = true.

(** An admission commits: the tables keep their invariant and the admitted
    attempt is stored. *)
Definition admitted (db' : ControlDb) (rid : Uuid) (outcome : AdmissionOutcome) : Prop :=
  db_inv db' ∧ ∃ a, stored db' a (AdmissionOutcome_operation outcome)
  ∧ op_request_id (AdmissionOutcome_operation outcome) = rid.

Lemma create_interactive_attempt_inv uuids rid number context db outcome db' :
  request_ready db rid (ic_operation context) → next_number db rid number →
  create_interactive_attempt uuids rid number context db = Ok (outcome, db') →
  admitted db' rid outcome.
Proof.
  intros (Hinv&(rq&Hrq&Hm)&Hplan) Hn Hc. unfold create_interactive_attempt in Hc.
  apply tx_bind_Ok in Hc as (record&db1&Hc&Hc2).
  apply tx_bind_Ok in Hc2 as (u&db2&Hg&[-> ->]%tx_ok_Ok).
  destruct (create_attempt_inv _ _ _ _ _ _ _ _ _ _ _ _ _ Hinv Hc Hrq Hm Hplan Hn) as (Hinv1&Hst&_).
  destruct (create_attempt_Ok _ _ _ _ _ _ _ _ _ _ _ _ Hc Hplan) as (row&_&_&_&_&Hr&_&Hgd&_).
  unfold consume_controller_grant in Hg. split.
  - eapply insert_grant_inv; [exact Hinv1|exact Hg|exact Hst|done|done].
  - exists (op_attempt_id record). split; [|done].
    eapply stored_ext; [|exact Hst]. unfold insert_grant, ensure_tx in Hg. by inv_ok.
Qed.

Lemma existing_admitted db rid existing db1 :
  db_inv db → latest_attempt rid db = Ok (Some existing, db1) → admitted db rid (Existing existing).
Proof.
  intros Hinv (_&a&row&Hrow&Hr&Hj&_)%latest_attempt_Ok. split; [done|].
  exists a. split; [by exists row|]. destruct (di_rows _ Hinv _ _ Hrow) as [op Hm].
  assert (op = existing) as -> by (pose proof (rm_json _ _ _ Hm); congruence).
  simpl. by rewrite <- (rm_request _ _ _ Hm).
Qed.

Lemma interactive_outcome_inv uuids rid latest context db outcome db' db1 :
  request_ready db rid (ic_operation context) → latest_attempt rid db = Ok (latest, db1) →
  interactive_admission_outcome uuids rid latest context db = Ok (outcome, db') →
  admitted db' rid outcome.
Proof.
  intros Hready Hlat Ho. pose proof Hready as [Hinv _].
  assert (∀ existing n, latest = Some existing →
            next_attempt_number (op_attempt_number existing) = Ok n → next_number db rid n) as Hnext.
  { intros existing n -> Hn. by eapply latest_next_number. }
  destruct latest as [existing|]; simpl in Ho.
  - apply tx_bind_Ok in Ho as (gen&?&[_ ->]%lift_Ok&Ho).
    destruct gen, (os_result (op_state existing)); try by apply tx_err_Ok in Ho.
    all: try (apply tx_ok_Ok in Ho as [-> ->]; by eapply existing_admitted).
    all: destruct (_ : bool); [by apply tx_err_Ok in Ho|].
    all: apply tx_bind_Ok in Ho as (n&?&[Hn ->]%lift_Ok&Ho).
    all: eapply create_interactive_attempt_inv; [exact Hready| |exact Ho]; by eapply Hnext.
  - destruct (is_some _); [by apply tx_err_Ok in Ho|].
    eapply create_interactive_attempt_inv; [exact Hready| |exact Ho]. by left.
Qed.

Lemma create_automation_attempt_inv uuids rid admission number t db outcome db' :
  request_ready db rid (va_operation admission) → next_number db rid number →
  create_automation_attempt uuids rid admission number t db = Ok (outcome, db') →
  admitted db' rid outcome.
Proof.
  intros (Hinv&(rq&Hrq&Hm)&Hplan) Hn Hc. unfold create_automation_attempt in Hc.
  apply tx_bind_Ok in Hc as (record&db1&Hc&[-> ->]%tx_ok_Ok).
  destruct (create_attempt_inv _ _ _ _ _ _ _ _ _ _ _ _ _ Hinv Hc Hrq Hm Hplan Hn) as (Hinv1&Hst&_).
  destruct (create_attempt_Ok _ _ _ _ _ _ _ _ _ _ _ _ Hc Hplan) as (row&_&_&_&_&Hr&_).
  split; [done|]. by exists (op_attempt_id record).
Qed.

Lemma automation_outcome_inv uuids rid latest admission t db outcome db' db1 :
  request_ready db rid (va_operation admission) → latest_attempt rid db = Ok (latest, db1) →
  automation_admission_outcome uuids rid latest admission t db = Ok (outcome, db') →
  admitted db' rid outcome.
Proof.
  intros Hready Hlat Ho. pose proof Hready as [Hinv _].
  destruct latest as [existing|]; simpl in Ho;
    [|eapply create_automation_attempt_inv; [exact Hready|by left|exact Ho]].
  apply tx_bind_Ok in Ho as (es&?&[_ ->]%lift_Ok&Ho).
  destruct (_ <? es); [by apply tx_err_Ok in Ho|].
  destruct (os_result (op_state existing)); try by apply tx_err_Ok in Ho.
  all: apply tx_bind_Ok in Ho as (n&?&[Hn ->]%lift_Ok&Ho).
  all: pose proof (latest_next_number _ _ _ _ _ Hinv Hlat Hn) as Hnn.
  all: destruct (es <? _); [by eapply create_automation_attempt_inv|].
  all: try (apply tx_ok_Ok in Ho as [-> ->]; by eapply existing_admitted).
  all: apply tx_bind_Ok in Ho as (count&db2&Hcount&Ho).
  all: unfold attempt_count_for_source_sequence in Hcount; inv_ok.
  all: destruct (_ <=? count); [by apply tx_err_Ok in Ho|].
  all: by eapply create_automation_attempt_inv.
Qed.

Lemma validate_operation_plan new u :
  validate_operation new = Ok u →
  is_ok (OperationKind_required_phases (no_operation_kind new) (no_release_class new)) = true.
Proof.
  unfold validate_operation. destruct (_ != _); [done|].
  destruct (OperationKind_required_phases _ _); done.
Qed.

Lemma validate_current_lease_Ok lease t db u db' :
  validate_current_lease lease t db = Ok (u, db') →
  db' = db ∧ validate_current_lease_connection lease t db = Ok tt.
Proof. unfold validate_current_lease. intros. inv_ok. destruct x. by simplify_eq. Qed.

Lemma replayed_interactive_grant_Ok grant db replayed db' :
  replayed_interactive_grant grant db = Ok (replayed, db') → db' = db.
Proof.
  unfold replayed_interactive_grant. intros Hr.
  apply tx_bind_Ok in Hr as (?&?&[-> ->]%gets_Ok&Hr).
  apply tx_bind_Ok in Hr as (?&?&[-> ->]%gets_Ok&Hr).
  destruct (_ ≫= _) as [[g row]|]; [|by inv_ok].
  destruct (gr_grant_digest g != _); [by apply tx_err_Ok in Hr|]. by inv_ok.
Qed.

Lemma replayed_automation_delivery_Ok admission db replayed db' :
  replayed_automation_delivery admission db = Ok (replayed, db') → db' = db.
Proof.
  unfold replayed_automation_delivery. intros Hr.
  apply tx_bind_Ok in Hr as (?&?&[-> ->]%gets_Ok&Hr).
  destruct (_ !! _) as [d|]; [|by inv_ok].
  destruct (dr_payload_digest d != _); [by apply tx_err_Ok in Hr|].
  apply tx_bind_Ok in Hr as (latest&?&[-> _]%latest_attempt_Ok&Hr). by inv_ok.
Qed.

Lemma admit_interactive_inner_inv uuids new lease grant source t db db' r :
  db_inv db → admit_interactive_inner uuids new lease grant source t db = (db', r) → db_inv db'.
Proof.
  intros Hinv Ha. unfold admit_interactive_inner in Ha.
  destruct (validate_operation new) as [u|] eqn:Hv; simpl in Ha; [|by simplify_eq].
  destruct (validate_grant_binding _ _ _ _); [|by simplify_eq].
  apply immediate_effect in Ha as [->|(outcome&Ha)]; [done|].
  unfold admit_interactive_transaction in Ha.
  apply tx_bind_Ok in Ha as (?&?&[-> _]%validate_current_lease_Ok&Ha).
  apply tx_bind_Ok in Ha as (replayed&?&->%replayed_interactive_grant_Ok&Ha).
  destruct replayed; [by inv_ok|].
  apply tx_bind_Ok in Ha as (rid&db1&Hf&Ha). simpl in Hf.
  destruct (find_or_create_request_inv _ _ _ _ _ _ Hinv Hf) as (Hinv1&_&_&_&Hrq).
  apply tx_bind_Ok in Ha as (latest&db2&Hlat&Ha).
  pose proof (latest_attempt_Ok _ _ _ _ Hlat) as [-> _].
  eapply interactive_outcome_inv in Ha as [? _]; [done| |exact Hlat].
  split; [done|]. split; [done|]. by eapply validate_operation_plan.
Qed.

Lemma admit_interactive_inv uuids new lease grant t db db' r :
  db_inv db → admit_interactive uuids new lease grant t db = (db', r) → db_inv db'.
Proof.
  unfold admit_interactive. intros Hinv. destruct (_ == _); [by intros [= <- _]|].
  by apply admit_interactive_inner_inv.
Qed.

Lemma admit_verified_interactive_deploy_inv uuids admission lease grant t db db' r :
  db_inv db → admit_verified_interactive_deploy uuids admission lease grant t db = (db', r) →
  db_inv db'.
Proof.
  unfold admit_verified_interactive_deploy. intros Hinv. destruct (_ || _); [by intros [= <- _]|].
  by apply admit_interactive_inner_inv.
Qed.

Lemma admit_automation_inv uuids admission t db db' r :
  db_inv db → admit_automation uuids admission t db = (db', r) → db_inv db'.
Proof.
  intros Hinv Ha. unfold admit_automation in Ha.
  destruct (validate_automation admission) as [u|] eqn:Hv; [|by simplify_eq].
  apply immediate_effect in Ha as [->|(outcome&Ha)]; [done|].
  unfold admit_automation_transaction in Ha.
  apply tx_bind_Ok in Ha as (replayed&?&->%replayed_automation_delivery_Ok&Ha).
  destruct replayed; [by inv_ok|].
  apply tx_bind_Ok in Ha as (rid&db1&Hf&Ha).
  destruct (find_or_create_request_inv _ _ _ _ _ _ Hinv Hf) as (Hinv1&_&_&_&Hrq).
  apply tx_bind_Ok in Ha as (latest&db2&Hlat&Ha).
  pose proof (latest_attempt_Ok _ _ _ _ Hlat) as [-> _].
  apply tx_bind_Ok in Ha as (out&db3&Hout&Ha).
  apply tx_bind_Ok in Ha as (?&db4&Hd&[-> ->]%tx_ok_Ok).
  eapply automation_outcome_inv in Hout as (Hinv3&a&Hst&Hr); [..|exact Hlat].
  - by eapply insert_delivery_inv.
  - split; [done|]. split; [done|]. unfold validate_automation in Hv. inv_ok.
    by eapply validate_operation_plan.
Qed.

Lemma takeover_lease_inv user lease t e db db' r :
  db_inv db → takeover_lease user lease t e db = (db', r) → db_inv db'.
Proof.
  intros Hinv Ht. unfold takeover_lease in Ht.
  destruct (_ || _); [by simplify_eq|]. destruct (_ <=? _); [by simplify_eq|].
  apply immediate_effect in Ht as [->|(outcome&Ht)]; [done|].
  unfold upsert_tab_lease, ensure_tx in Ht. inv_ok. destruct Hinv. by constructor.
Qed.

(** ** Admissions keep the attempts that exist *)

Create HintDb extends.
Create HintDb effects.

Definition extends {A} (m : Tx ControlDb StoreError A) : Prop := ∀ db x db',
  m db = Ok (x, db') → operation_attempts db ⊆ operation_attempts db'.

Lemma extends_bind {A B} (m : Tx ControlDb StoreError A) (f : A → Tx ControlDb StoreError B) :
  extends m → (∀ a, extends (f a)) → extends (mbind f m).
Proof.
  intros Hm Hf db x db' (a&db1&H1&H2)%tx_bind_Ok. apply Hm in H1. apply Hf in H2. by etrans.
Qed.
Lemma extends_lift {A} (r : Result StoreError A) : extends (lift r).
Proof. intros db x db' ?. by inv_ok. Qed.
Lemma extends_gets {A} (f : ControlDb → A) : extends (gets f).
Proof. intros db x db' ?. by inv_ok. Qed.
Lemma extends_ok {A} (a : A) : extends (tx_ok a).
Proof. intros db x db' ?. by inv_ok. Qed.
Lemma extends_err {A} e : extends (A := A) (tx_err e).
Proof. intros db x db' ?. by inv_ok. Qed.
Lemma extends_insert_attempt a row : extends (insert_attempt a row).
Proof.
  intros db x db' Hi. unfold insert_attempt, ensure_tx in Hi. inv_ok. bool_prop.
  apply insert_subseteq. tauto.
Qed.
Lemma extends_insert_other :
  (∀ r row, extends (insert_request r row)) ∧ (∀ n row, extends (insert_grant n row))
  ∧ (∀ k row, extends (insert_delivery k row)).
Proof.
  split_and!; intros ? ? db x db' Hi; unfold insert_request, insert_grant, insert_delivery,
    ensure_tx in Hi; by inv_ok.
Qed.
Lemma extends_lease lease t : extends (validate_current_lease lease t).
Proof. by intros db x db' [-> _]%validate_current_lease_Ok. Qed.

Ltac extends_solve :=
  repeat first
    [ apply extends_insert_attempt | apply extends_insert_other | apply extends_lease
    | solve [eauto with extends]
    | apply extends_bind; [|intros] | apply extends_lift | apply extends_gets | apply extends_ok
    | apply extends_err | case_match ].

Lemma extends_create_attempt uuids rid new n actor grant att seq t :
  extends (create_attempt uuids rid new n actor grant att seq t).
Proof. unfold create_attempt. extends_solve. Qed.

#[local] Hint Resolve extends_create_attempt : extends.

Lemma extends_find_or_create_request uuids new t : extends (find_or_create_request uuids new t).
Proof. unfold find_or_create_request. extends_solve. Qed.
#[local] Hint Resolve extends_find_or_create_request : extends.

Lemma extends_latest_attempt rid : extends (latest_attempt rid).
Proof. unfold latest_attempt. extends_solve. Qed.
#[local] Hint Resolve extends_latest_attempt : extends.

Lemma extends_interactive uuids context : extends (admit_interactive_transaction uuids context).
Proof.
  unfold admit_interactive_transaction, replayed_interactive_grant,
    interactive_admission_outcome, create_interactive_attempt, consume_controller_grant.
  extends_solve.
Qed.

Lemma extends_automation uuids admission t :
  extends (admit_automation_transaction uuids admission t).
Proof.
  unfold admit_automation_transaction, replayed_automation_delivery,
    automation_admission_outcome, create_automation_attempt, attempt_count_for_source_sequence.
  extends_solve.
Qed.

(** ** Runs of the controller *)

(** One call of a public operation of the controller that may write, with any
    arguments and any answer. *)
Inductive controller_step (db db' : ControlDb) : Prop :=
| cs_takeover_lease user lease t e r : takeover_lease user lease t e db = (db', r) →
    controller_step db db'
| cs_admit_interactive uuids new lease grant t r :
    admit_interactive uuids new lease grant t db = (db', r) → controller_step db db'
| cs_admit_verified_interactive_deploy uuids admission lease grant t r :
    admit_verified_interactive_deploy uuids admission lease grant t db = (db', r) →
    controller_step db db'
| cs_admit_automation uuids admission t r :
    admit_automation uuids admission t db = (db', r) → controller_step db db'
| cs_commit_phase_receipt receipt t r : commit_phase_receipt receipt t db = (db', r) →
    controller_step db db'
| cs_commit_reconciled_phase_receipt receipt t r :
    commit_reconciled_phase_receipt receipt t db = (db', r) → controller_step db db'
| cs_mark_needs_reconcile a capsule t r : mark_needs_reconcile a capsule t db = (db', r) →
    controller_step db db'
| cs_begin_rollback a t r : begin_rollback a t db = (db', r) → controller_step db db'
| cs_set_source_block a reason t r : set_source_block a reason t db = (db', r) →
    controller_step db db'
| cs_set_stateful_cutover_source_block a t r :
    set_stateful_cutover_source_block a t db = (db', r) → controller_step db db'
| cs_clear_stateful_cutover_source_block a t r :
    clear_stateful_cutover_source_block a t db = (db', r) → controller_step db db'
| cs_set_disk_block a t r : set_disk_block a t db = (db', r) → controller_step db db'
| cs_clear_disk_block a t r : clear_disk_block a t db = (db', r) → controller_step db db'
| cs_supersede_source_attempt a capsule t r :
    supersede_source_attempt a capsule t db = (db', r) → controller_step db db'
| cs_record_fence_acquisition a receipt t r :
    record_fence_acquisition a receipt t db = (db', r) → controller_step db db'
| cs_fail_attempt a capsule t r : fail_attempt a capsule t db = (db', r) → controller_step db db'
| cs_cancel_before_mutation a t r : cancel_before_mutation a t db = (db', r) →
    controller_step db db'.

Definition reachable (db : ControlDb) : Prop := rtc controller_step empty_control_db db.

(** The two kinds of calls: an admission or a lease takeover, which keeps the
    stored attempts as they are, and a transition of one attempt. *)
Definition admission_effect (db db' : ControlDb) : Prop :=
  db_inv db' ∧ operation_attempts db ⊆ operation_attempts db'.

Lemma extends_effect {A} (body : Tx ControlDb StoreError A) db db' r :
  extends body → immediate_transaction body db = (db', r) →
  operation_attempts db ⊆ operation_attempts db'.
Proof. intros He [->|(x&Hb)]%immediate_effect; [done|]. by apply He in Hb. Qed.

Lemma admit_interactive_inner_extends uuids new lease grant source t db db' r :
  admit_interactive_inner uuids new lease grant source t db = (db', r) →
  operation_attempts db ⊆ operation_attempts db'.
Proof.
  unfold admit_interactive_inner. case_match; [|by intros [= <- _]].
  apply extends_effect, extends_interactive.
Qed.

Lemma takeover_lease_attempts user lease t e db db' r :
  takeover_lease user lease t e db = (db', r) → operation_attempts db' = operation_attempts db.
Proof.
  unfold takeover_lease. case_match; [by intros [= <- _]|]. case_match; [by intros [= <- _]|].
  intros [->|(x&Hb)]%immediate_effect; [done|].
  unfold upsert_tab_lease, ensure_tx in Hb. by inv_ok.
Qed.

#[local] Hint Resolve commit_phase_receipt_effect commit_reconciled_phase_receipt_effect
  mark_needs_reconcile_effect begin_rollback_effect set_source_block_effect
  set_stateful_cutover_source_block_effect clear_stateful_cutover_source_block_effect
  set_disk_block_effect clear_disk_block_effect supersede_source_attempt_effect
  record_fence_acquisition_effect fail_attempt_effect cancel_before_mutation_effect : effects.

Lemma controller_step_effect db db' :
  db_inv db → controller_step db db' → attempt_effect db db' ∨ admission_effect db db'.
Proof.
  intros Hinv []; try (left; by eauto with effects); right; split.
  - by eapply takeover_lease_inv.
  - eapply reflexive_eq, eq_sym, takeover_lease_attempts; eassumption.
  - by eapply admit_interactive_inv.
  - unfold admit_interactive in *. case_match; [by simplify_eq|].
    by eapply admit_interactive_inner_extends.
  - by eapply admit_verified_interactive_deploy_inv.
  - unfold admit_verified_interactive_deploy in *. case_match; [by simplify_eq|].
    by eapply admit_interactive_inner_extends.
  - by eapply admit_automation_inv.
  - unfold admit_automation in *. case_match; [|by simplify_eq].
    by eapply extends_effect; [apply extends_automation|].
Qed.

Lemma controller_step_inv db db' : db_inv db → controller_step db db' → db_inv db'.
Proof.
  intros Hinv [?|[? _]]%controller_step_effect; [by eapply attempt_effect_inv|done|done].
Qed.

Lemma reachable_inv db : reachable db → db_inv db.
Proof.
  unfold reachable. intros Hr. apply rtc_ind_r with (P := db_inv) in Hr; [done| |].
  - apply db_inv_empty.
  - intros y z _ Hstep Hy. by eapply controller_step_inv.
Qed.

(** A call takes a stored attempt along at most one step. *)
Lemma controller_step_attempt db db' a op :
  db_inv db → controller_step db db' → stored db a op →
  ∃ op', stored db' a op' ∧ (op' = op ∨ attempt_step op op').
Proof.
  intros Hinv Hstep Hst.
  destruct (controller_step_effect _ _ Hinv Hstep) as [[->|(a'&o&o'&Hst'&Hs&Hw)]|[_ Hext]].
  - by exists op; eauto.
  - destruct (writes_stored _ _ _ _ _ _ _ Hw Hst) as [->|?]; [|by exists op; eauto].
    rewrite (stored_inj _ _ _ _ Hst Hst'). exists o'. split; [|by right].
    by eapply writes_stored_self.
  - destruct Hst as (row&Hrow&Hj). exists op. split; [|by left].
    exists row. split; [|done]. by eapply lookup_weaken.
Qed.

Lemma controller_steps_attempt db db' a op :
  db_inv db → rtc controller_step db db' → stored db a op →
  ∃ op', stored db' a op' ∧ rtc attempt_step op op'.
Proof.
  intros Hinv Hsteps. revert op Hinv. induction Hsteps as [db|db db1 db2 Hstep Hsteps IH];
    intros op Hinv Hst; [by exists op|].
  destruct (controller_step_attempt _ _ _ _ Hinv Hstep Hst) as (op1&Hst1&Ho).
  destruct (IH op1) as (op2&Hst2&Hr); [by eapply controller_step_inv|done|].
  exists op2. split; [done|]. destruct Ho as [->|Ho]; [done|]. by eapply rtc_l.
Qed.
End ControlStore.
