(* ===== verification/ControllerSpec.v ===== *)
(** * What the durable controller promises

    The properties of [src/src/controller.rs] over every sequence of calls: the
    store invariant, the refinement of the attempt state machine, the order of
    phase receipts, terminal states, rollback, leases, grants, deliveries and
    evidence.  The last section runs the controller on concrete input. *)

From Stdlib Require Import ZArith Lia String.
From stdpp Require Import base gmap strings option list_numbers list.
From S2P Require Import Prelude Identifiers States Text Failure.
From S2P Require Import Operation Errors Controller Attempt ControlStore.

Local Open Scope Z_scope.

Section ControllerSpec.
Context `{!Json OperationRecord, !Json OperationTransition}.
Context `{!JsonRoundTrip OperationRecord, !JsonRoundTrip OperationTransition}.
Context `{!Sha256, !Jcs ReceiptDigestPayload, !Jcs FenceAcquisitionReceiptDigestPayload}.

(** ** Reading a reachable store *)

Lemma reachable_stored db a op : reachable db → stored db a op → attempt_inv op ∧ op_attempt_id op = a.
Proof.
  intros Hr Hst. destruct (stored_matches _ _ _ (reachable_inv _ Hr) Hst) as (row&_&Hm).
  split; apply Hm.
Qed.

(** [operation] answers with the stored record. *)
Lemma operation_stored db a op :
  reachable db → stored db a op → operation a db = Ok (Some op).
Proof.
  intros Hr Hst. destruct (stored_matches _ _ _ (reachable_inv _ Hr) Hst) as (row&Hrow&Hm).
  unfold operation, read_connection. rewrite Hrow. simpl.
  by rewrite (decode_operation_inv _ _ (rm_json _ _ _ Hm) (rm_inv _ _ _ Hm)).
Qed.

Lemma operation_Some db a op : operation a db = Ok (Some op) → stored db a op.
Proof.
  unfold operation, read_connection. destruct (_ !! a) as [row|] eqn:Hrow; simpl; [|done].
  intros. inv_ok. simplify_eq. exists row. split; [done|]. by apply decode_operation_Ok.
Qed.

Lemma attempt_inv_of db a op : reachable db → operation a db = Ok (Some op) → attempt_inv op.
Proof. intros Hr Hop%operation_Some. by eapply reachable_stored. Qed.

(** ** Properties *)

(** C3: The store keeps its invariant: after any sequence of controller calls, with
    any arguments and any failures, every stored record decodes and agrees with
    its columns, the transition table is exactly the record's chained log,
    attempt numbers of a request have no gaps or duplicates, and requests,
    grants and deliveries refer to the attempts they admitted. *)
Theorem controller_store_invariant db : reachable db → db_inv db.
Proof. apply reachable_inv. Qed.

(** C4: Refinement of the attempt state machine: a controller call, whatever it is
    and whatever it answers, leaves every existing attempt in place and takes it
    along at most one step of [attempt_step]. *)
Theorem controller_refines_attempt_machine db db' a op :
  reachable db → controller_step db db' → operation a db = Ok (Some op) →
  ∃ op', operation a db' = Ok (Some op') ∧ (op' = op ∨ attempt_step op op').
Proof.
  intros Hr Hstep Hop%operation_Some.
  destruct (controller_step_attempt _ _ _ _ (reachable_inv _ Hr) Hstep Hop) as (op'&Hst&Ho).
  exists op'. split; [|done]. apply operation_stored; [|done]. by eapply rtc_r.
Qed.

(** C5: Receipts follow the plan: a phase of the plan has a committed receipt only
    if every earlier phase of the plan has one. *)
Theorem receipts_follow_plan db a op plan p i j q :
  reachable db → operation a db = Ok (Some op) →
  OperationKind_required_phases (op_operation_kind op) (op_release_class op) = Ok plan →
  has_committed_phase op p = true → plan !! i = Some p → (j < i)%nat → plan !! j = Some q →
  has_committed_phase op q = true.
Proof.
  intros Hr Hop Hplan Hp Hi Hj Hq. rewrite has_committed_phase_true in *.
  pose proof (attempt_inv_of _ _ _ Hr Hop) as Hinv. by eapply (ai_closed _ Hinv).
Qed.

(** A stateful deployment goes live only after its backup, drain, cutover
    snapshot and migration were receipted. *)
Theorem stateful_deploy_needs_backup db a op :
  reachable db → operation a db = Ok (Some op) → op_operation_kind op = Kind_Deploy →
  op_release_class op = Some Class_StatefulCompatible
  ∨ op_release_class op = Some Class_StatefulBreaking →
  has_committed_phase op Phase_Deploying = true →
  Forall (λ p, has_committed_phase op p = true)
    [Phase_BackingUp; Phase_Draining; Phase_CutoverSnapshotting; Phase_Migrating].
Proof.
  intros Hr Hop Hk Hc Hd. pose proof (attempt_inv_of _ _ _ Hr Hop) as Hinv.
  assert (OperationKind_required_phases (op_operation_kind op) (op_release_class op)
          = Ok STATEFUL_PHASES) as Hplan by (rewrite Hk; by destruct Hc as [-> | ->]).
  rewrite has_committed_phase_true in Hd.
  pose proof (ai_closed _ Hinv _ _ Hplan Hd 10%nat) as Hall.
  repeat constructor; apply has_committed_phase_true.
  - by apply (Hall 6%nat); [|lia|].
  - by apply (Hall 7%nat); [|lia|].
  - by apply (Hall 8%nat); [|lia|].
  - by apply (Hall 9%nat); [|lia|].
Qed.

(** An attempt that succeeded has a receipt for every phase of its plan, and an
    attempt that was rolled back has one for the rollback. *)
Theorem completed_attempt_has_receipts db a op plan :
  reachable db → operation a db = Ok (Some op) →
  OperationKind_required_phases (op_operation_kind op) (op_release_class op) = Ok plan →
  (os_result (op_state op) = Result_Succeeded →
     Forall (λ p, has_committed_phase op p = true) plan)
  ∧ (os_result (op_state op) = Result_RolledBack → has_committed_phase op Phase_Rollback = true).
Proof.
  intros Hr Hop Hplan. pose proof (attempt_inv_of _ _ _ Hr Hop) as Hinv. split; intros Hres.
  - apply Forall_forall. intros p Hp. apply has_committed_phase_true.
    by eapply (ai_succeeded _ Hinv).
  - apply has_committed_phase_true. by apply (ai_rolled_back _ Hinv).
Qed.

(** An attempt is stopped only before its mutation boundary: one that failed, was
    cancelled or was superseded has no receipt of a mutating phase. *)
Theorem stopped_attempt_mutated_nothing db a op :
  reachable db → operation a db = Ok (Some op) →
  os_result (op_state op) ∈ [Result_Failed; Result_Cancelled; Result_Superseded] →
  has_committed_mutation op = false.
Proof.
  intros Hr Hop Hres. pose proof (attempt_inv_of _ _ _ Hr Hop) as Hinv.
  apply (ai_stopped _ Hinv). set_solver.
Qed.

(** Terminal results are final: no later sequence of calls changes the record of
    an attempt that is no longer running. *)
Theorem terminal_attempt_is_final db db' a op :
  reachable db → operation a db = Ok (Some op) → os_result (op_state op) ≠ Result_Running →
  rtc controller_step db db' → operation a db' = Ok (Some op).
Proof.
  intros Hr Hop%operation_Some Hres Hsteps.
  destruct (controller_steps_attempt _ _ _ _ (reachable_inv _ Hr) Hsteps Hop) as (op'&Hst&Ho).
  apply operation_stored; [unfold reachable; by etrans|].
  destruct Ho as [|op op1 op2 Hstep _]; [done|]. by apply attempt_step_running in Hstep.
Qed.

(** Recovery by rollback is entered only for a deployment of a compatible class
    whose deploy phase was receipted. *)
Theorem rollback_recovery_is_authorized db a op :
  reachable db → operation a db = Ok (Some op) →
  ev_recovery_mode (op_evidence op) = Some Recovery_Rollback →
  op_operation_kind op = Kind_Deploy ∧ has_committed_phase op Phase_Deploying = true
  ∧ op_release_class op ∈ [Some Class_CodeOnlyCompatible; Some Class_StatefulCompatible]
  ∧ os_phase (op_state op) ∈ ROLLBACK_RECOVERY_PHASES.
Proof.
  intros Hr Hop Hm. pose proof (attempt_inv_of _ _ _ Hr Hop) as Hinv.
  destruct (ai_rollback_mode _ Hinv Hm) as (?&[?|?]&?&?&_); split_and!; try done;
    try (by apply has_committed_phase_true); set_solver.
Qed.

(** ** Commits and stops *)

(** A successful transition operation leaves what it returns in the store. *)
Lemma persist_stored db a op op1 next rd t op2 db' :
  db_inv db → stored db a op → persist_transition op1 next rd t db = Ok (op2, db') →
  op_attempt_id op1 = op_attempt_id op → transitions_of op1 = transitions_of op →
  op2 = advance op1 next rd t ∧ stored db' a op2.
Proof.
  intros Hinv Hst Hp Hid Hts.
  destruct (persist_writes _ _ _ _ _ _ _ _ _ Hinv Hst Hid Hts Hp) as [-> Hw].
  split; [done|]. by eapply writes_stored_self.
Qed.

Lemma commit_phase_receipt_Ok receipt t db db' op :
  db_inv db → commit_phase_receipt receipt t db = (db', Ok op) →
  validate_receipt receipt = Ok tt ∧ stored db' (pr_attempt_id receipt) op
  ∧ existsb (λ tr, ot_receipt_digest tr == Some (pr_receipt_digest receipt))
      (transitions_of op) = true.
Proof.
  intros Hinv Hc. unfold commit_phase_receipt, with_validation in Hc.
  destruct (validate_receipt receipt) as [[]|]; [|by simplify_eq].
  apply immediate_transaction_Ok in Hc. split; [done|].
  apply tx_bind_Ok in Hc as (op0&?&[-> Hst]%load_attempt_Ok&Hc).
  destruct (existsb _ _) eqn:Hex; [by inv_ok|].
  destruct (_ || _); [by apply tx_err_Ok in Hc|].
  apply tx_bind_Ok in Hc as (next&?&[Hnext ->]%lift_Ok&Hc).
  apply tx_bind_Ok in Hc as (ev&?&[Hm ->]%lift_Ok&Hc).
  pose proof (merge_artifacts_frame _ _ _ _ _ _ Hm) as [(Hts&_) _].
  destruct (persist_stored _ _ _ _ _ _ _ _ _ Hinv Hst Hc) as [-> Hst2]; [done..|].
  split; [done|]. simpl. rewrite existsb_app. simpl.
  by rewrite bool_decide_eq_true_2, orb_true_r.
Qed.

(** Committing a phase receipt is idempotent: once a receipt was accepted,
    sending it again answers with the same record and changes nothing. *)
Theorem commit_phase_receipt_idempotent receipt t t' db db' op :
  reachable db → commit_phase_receipt receipt t db = (db', Ok op) →
  commit_phase_receipt receipt t' db' = (db', Ok op).
Proof.
  intros Hr Hc. pose proof (reachable_inv _ Hr) as Hinv.
  assert (db_inv db') as Hinv'.
  { eapply controller_step_inv; [done|]. by eapply cs_commit_phase_receipt. }
  destruct (commit_phase_receipt_Ok _ _ _ _ _ Hinv Hc) as (Hv&Hst&Hex).
  unfold commit_phase_receipt, with_validation, immediate_transaction. rewrite Hv.
  unfold mbind, tx_bind. rewrite (load_attempt_stored _ _ _ Hinv' Hst). simpl.
  rewrite Hex. done.
Qed.

(** What an accepted receipt does to a running attempt outside recovery: the
    receipt is the primary one for the current phase, and the attempt moves to
    the next phase of its plan, or ends when the phase was the last one. *)
Theorem commit_phase_receipt_advances receipt t db db' op op' plan i :
  reachable db → operation (pr_attempt_id receipt) db = Ok (Some op) →
  ev_recovery_mode (op_evidence op) ≠ Some Recovery_Rollback →
  Forall (λ tr, ot_receipt_digest tr ≠ Some (pr_receipt_digest receipt)) (transitions_of op) →
  OperationKind_required_phases (op_operation_kind op) (op_release_class op) = Ok plan →
  plan !! i = Some (pr_phase receipt) →
  commit_phase_receipt receipt t db = (db', Ok op') →
  os_phase (op_state op) = pr_phase receipt ∧ pr_branch receipt = Branch_Primary
  ∧ has_committed_phase op' (pr_phase receipt) = true
  ∧ op_state op' = match plan !! S i with
                   | Some next => MkOperationState next Result_Running Blocking_None
                   | None => MkOperationState (pr_phase receipt)
                       (if op_operation_kind op == Kind_CodeRollback
                        then Result_RolledBack else Result_Succeeded) Blocking_None
                   end.
Proof.
  intros Hr Hop%operation_Some Hmode Hnew Hplan Hi Hc. pose proof (reachable_inv _ Hr) as Hinv.
  unfold commit_phase_receipt, with_validation in Hc.
  destruct (validate_receipt receipt) as [[]|]; [|by simplify_eq].
  apply immediate_transaction_Ok in Hc.
  apply tx_bind_Ok in Hc as (op0&?&[-> Hst]%load_attempt_Ok&Hc).
  rewrite (stored_inj _ _ _ _ Hst Hop) in *. clear op0 Hst.
  destruct (existsb _ _) eqn:Hex.
  { apply existsb_exists in Hex as (tr&Htr%list_elem_of_In&Heq%bool_decide_eq_true).
    rewrite Forall_forall in Hnew. by apply Hnew in Htr. }
  destruct (_ || _) eqn:Hg; [by apply tx_err_Ok in Hc|]. bool_prop. destruct Hg as [Hrun Hph].
  rewrite bool_decide_eq_false_2 in Hc by done.
  apply tx_bind_Ok in Hc as (next&?&[Hnext ->]%lift_Ok&Hc).
  apply tx_bind_Ok in Hc as (ev&?&[Hm ->]%lift_Ok&Hc).
  pose proof (merge_artifacts_frame _ _ _ _ _ _ Hm) as [(Hts&_) _].
  destruct (persist_stored _ _ _ _ _ _ _ _ _ Hinv Hop Hc) as [-> Hst2]; [done..|].
  apply next_state_Ok in Hnext as [(phases&k&Hphs&Hk&Hn) Hbr].
  rewrite Hplan in Hphs. injection Hphs as <-.
  assert (k = i) as -> by (eapply NoDup_lookup; eauto using plan_NoDup).
  split_and!; try done.
  - apply has_committed_phase_true. simpl. apply phase_committed_snoc. right.
    split; [by eexists|]. unfold entry_phase. simpl.
    destruct (decide _) as [Hrec|]; [|by f_equal].
    exfalso. rewrite Hph in Hrec. rewrite Hrec in Hk. by eapply plan_no_reconciliation.
  - simpl. destruct Hn as [(np&->&->)|[-> ->]]; done.
Qed.

(** A mutation is never walked away from: cancelling or failing an attempt with a
    committed mutation is refused, with the error that sends it to
    reconciliation, and changes nothing. *)
Theorem no_stop_after_mutation db a op capsule t :
  reachable db → operation a db = Ok (Some op) →
  os_result (op_state op) = Result_Running → has_committed_mutation op = true →
  FailureCapsule_validate capsule = Ok tt →
  cancel_before_mutation a t db = (db, Err CancellationAfterMutation)
  ∧ fail_attempt a capsule t db = (db, Err FailureAfterMutationRequiresReconcile).
Proof.
  intros Hr Hop%operation_Some Hrun Hm Hcap. pose proof (reachable_inv _ Hr) as Hinv.
  destruct (reachable_stored _ _ _ Hr Hop) as [Ha _].
  assert (crosses_mutation_boundary (os_phase (op_state op)) = true) as Hx.
  { apply not_false_iff_true. intros Hx.
    destruct (no_committed_before_boundary _ Ha Hx) as [_ ?]. congruence. }
  unfold cancel_before_mutation, fail_attempt, with_validation, validate_failure_capsule_input.
  rewrite Hcap. simpl. unfold immediate_transaction, mbind, tx_bind.
  rewrite (load_attempt_stored _ _ _ Hinv Hop), Hrun. simpl. by rewrite Hx.
Qed.

(** ** Leases *)

Lemma takeover_lease_Ok user lease t e db db' l :
  takeover_lease user lease t e db = (db', Ok l) →
  db' = db <| tab_leases := <[user := MkTabLeaseRow lease (tl_generation l) t e]> (tab_leases db) |>
  ∧ l = MkTabLease user lease (tl_generation l) t e
  ∧ 1 ≤ tl_generation l ≤ i64_max ∧ t < e
  ∧ match tab_leases db !! user with
    | Some row => tl_generation l = lr_generation row + 1 ∧ 0 ≤ lr_generation row
    | None => tl_generation l = 1
    end.
Proof.
  unfold takeover_lease. intros Ht. case_match; [by simplify_eq|].
  destruct (Z.leb_spec e t); [by simplify_eq|]. unfold upsert_tab_lease, ensure_tx in Ht. inv_ok.
  unfold i64_try_from in *. rewrite checked_range_Some in *. bool_prop. destruct_and!. subst.
  split_and!; try done; try lia. destruct (tab_leases db !! user) as [row|]; inv_ok; [|by simplify_eq].
  match goal with Hg : _ = Some _ |- _ =>
    apply bind_Some in Hg as (g&[-> ?]%checked_range_Some&[-> ?]%checked_range_Some) end. lia.
Qed.

(** Taking over the tab lease of a user hands out the next generation, makes the
    new claim valid until its expiry, revokes every other claim of that user and
    leaves the claims of other users as they were. *)
Theorem takeover_lease_revokes user lease t e db db' l :
  takeover_lease user lease t e db = (db', Ok l) →
  tl_generation l = match tab_leases db !! user with
                    | Some row => lr_generation row + 1 | None => 1 end
  ∧ (∀ now, validate_current_lease_connection (MkTabLeaseClaim user lease (tl_generation l)) now db'
            = if e <=? now then Err LeaseExpired else Ok tt)
  ∧ (∀ claim now, tc_user_id claim = user → is_i64 (tc_generation claim) →
       tc_lease_id claim ≠ lease ∨ tc_generation claim ≠ tl_generation l →
       validate_current_lease_connection claim now db' = Err LeaseRevoked)
  ∧ (∀ claim now, tc_user_id claim ≠ user →
       validate_current_lease_connection claim now db'
       = validate_current_lease_connection claim now db).
Proof.
  intros (->&_&Hg&_&Hm)%takeover_lease_Ok. unfold validate_current_lease_connection.
  split_and!; simpl.
  - destruct (tab_leases db !! user); tauto.
  - intros now. unfold i64_try_from.
    rewrite (proj2 (checked_range_Some i64_min i64_max _ (tl_generation l)))
      by (unfold i64_min in *; lia). simpl.
    rewrite lookup_insert_eq. simpl.
    by rewrite (bool_decide_eq_true_2 (lease = lease)), Z.eqb_refl by done.
  - intros claim now -> Hi Hne. unfold i64_try_from.
    rewrite (proj2 (checked_range_Some i64_min i64_max _ (tc_generation claim))) by done. simpl.
    rewrite lookup_insert_eq. simpl. destruct (_ && _) eqn:E; [|done]. exfalso.
    bool_prop. destruct E, Hne; congruence.
  - intros claim now Hne. by rewrite lookup_insert_ne by done.
Qed.

(** ** Grants and deliveries *)

Lemma replay_grant_known db grant g :
  db_inv db → controller_action_grants db !! ag_nonce grant = Some g →
  replayed_interactive_grant grant db =
    if gr_grant_digest g != ag_digest grant then Err GrantReplay
    else match operation (gr_attempt_id g) db with
         | Ok (Some op) => Ok (Some (Existing op), db)
         | Ok None => Ok (None, db)
         | Err e => Err e
         end.
Proof.
  intros Hinv Hg. destruct (di_grants _ Hinv _ _ Hg) as (op&Hst&_).
  destruct (stored_matches _ _ _ Hinv Hst) as (row&Hrow&Hm).
  unfold replayed_interactive_grant, operation, read_connection, mbind, tx_bind, gets. simpl.
  rewrite Hg. simpl. rewrite Hrow. simpl. case_match; [done|].
  by rewrite (decode_operation_inv _ _ (rm_json _ _ _ Hm) (rm_inv _ _ _ Hm)).
Qed.

(** C6: An action grant is single use: an admission with a nonce that was consumed
    before changes nothing and creates no attempt; when it succeeds it answers
    with the attempt the nonce was consumed for, and a different grant under the
    same nonce is never accepted. *)
Theorem action_grant_is_single_use uuids new lease grant source t db db' r g :
  reachable db → controller_action_grants db !! ag_nonce grant = Some g →
  admit_interactive_inner uuids new lease grant source t db = (db', r) →
  db' = db
  ∧ ∀ outcome, r = Ok outcome →
      gr_grant_digest g = ag_digest grant
      ∧ ∃ op, operation (gr_attempt_id g) db = Ok (Some op) ∧ outcome = Existing op.
Proof.
  intros Hr Hg Ha. pose proof (reachable_inv _ Hr) as Hinv.
  destruct (di_grants _ Hinv _ _ Hg) as (op&Hst&_).
  pose proof (operation_stored _ _ _ Hr Hst) as Hop.
  unfold admit_interactive_inner in Ha. case_match; [|by simplify_eq].
  unfold admit_interactive_transaction, immediate_transaction, mbind, tx_bind in Ha. simpl in Ha.
  destruct (validate_current_lease _ _ _) as [[? db1]|] eqn:Hl; [|by simplify_eq].
  apply validate_current_lease_Ok in Hl as [-> _].
  rewrite (replay_grant_known _ _ _ Hinv Hg), Hop in Ha.
  destruct (gr_grant_digest g != ag_digest grant) eqn:Hd; [by simplify_eq|].
  simpl in Ha. simplify_eq. split; [done|]. intros outcome [= <-]. bool_prop. eauto.
Qed.

(** A transport delivery is processed once: repeating a delivery whose identity
    is known changes nothing; with the same payload it answers with the latest
    attempt of its request, with another payload it is refused as a conflict. *)
Theorem automation_delivery_is_deduplicated uuids admission t db d :
  reachable db → validate_automation admission = Ok tt →
  transport_deliveries db !! (DeliveryChannel_as_str (va_delivery_channel admission),
                              va_delivery_id admission) = Some d →
  if dr_payload_digest d == va_payload_digest admission
  then ∃ op, admit_automation uuids admission t db = (db, Ok (Existing op))
             ∧ op_request_id op = dr_request_id d
  else admit_automation uuids admission t db = (db, Err DeliveryConflict).
Proof.
  intros Hr Hv Hd. pose proof (reachable_inv _ Hr) as Hinv.
  destruct (di_deliveries _ Hinv _ _ Hd) as (a&op&Hst&Hreq).
  destruct (stored_matches _ _ _ Hinv Hst) as (row&Hrow&Hm).
  unfold admit_automation. rewrite Hv.
  unfold admit_automation_transaction, replayed_automation_delivery, immediate_transaction.
  unfold mbind, tx_bind, gets. simpl. rewrite Hd. simpl.
  destruct (_ == _); simpl; [|done].
  destruct (latest_attempt (dr_request_id d) db) as [[latest db1]|e] eqn:Hlat.
  - pose proof (latest_attempt_Ok _ _ _ _ Hlat) as [-> Hspec].
    destruct latest as [existing|]; simpl.
    + exists existing. split; [done|]. by destruct (existing_admitted _ _ _ _ Hinv Hlat) as (_&?&_&?).
    + destruct (Hspec _ _ Hrow). by rewrite (rm_request _ _ _ Hm).
  - exfalso. unfold latest_attempt, mbind, tx_bind, gets, lift in Hlat. simpl in Hlat.
    destruct (head _) as [[a' row']|] eqn:Hhd; simpl in Hlat; [|done].
    apply head_Some_elem_of, sort_by_elem_of, select_rows_elem in Hhd as [_ Hrow'].
    destruct (di_rows _ Hinv _ _ Hrow') as [op' Hm'].
    by rewrite (decode_operation_inv _ _ (rm_json _ _ _ Hm') (rm_inv _ _ _ Hm')) in Hlat.
Qed.

(** ** Attempts of a request *)

(** Attempts are numbered densely: for every number from one up to the number of
    a stored attempt, its request has exactly one attempt with that number. *)
Theorem attempt_numbers_are_dense db a op n :
  reachable db → operation a db = Ok (Some op) → 1 ≤ n ≤ op_attempt_number op →
  ∃ a' op', operation a' db = Ok (Some op') ∧ op_request_id op' = op_request_id op
    ∧ op_attempt_number op' = n
    ∧ ∀ a2 op2, operation a2 db = Ok (Some op2) → op_request_id op2 = op_request_id op →
        op_attempt_number op2 = n → a2 = a'.
Proof.
  intros Hr Hop Hn. pose proof (reachable_inv _ Hr) as Hinv.
  assert (∀ a1 a2 op1 op2, operation a1 db = Ok (Some op1) → operation a2 db = Ok (Some op2) →
    op_request_id op1 = op_request_id op2 → op_attempt_number op1 = op_attempt_number op2 →
    a1 = a2) as Huniq.
  { intros a1 a2 op1 op2 H1%operation_Some H2%operation_Some Hrq Hnum.
    destruct (stored_matches _ _ _ Hinv H1) as (r1&Hr1&[]), (stored_matches _ _ _ Hinv H2) as (r2&Hr2&[]).
    eapply (di_unique _ Hinv); [done|done|congruence|congruence]. }
  assert (∀ k : nat, ∀ a op, operation a db = Ok (Some op) →
            op_attempt_number op - n = Z.of_nat k →
            ∃ a' op', operation a' db = Ok (Some op') ∧ op_request_id op' = op_request_id op
                      ∧ op_attempt_number op' = n) as Hdown.
  { induction k as [|k IH]; intros a1 op1 Ho1 Hk; [exists a1, op1; split_and!; [done|done|lia]|].
    destruct (stored_matches _ _ _ Hinv (operation_Some _ _ _ Ho1)) as (r1&Hr1&Hm1).
    pose proof (rm_number _ _ _ Hm1). pose proof (rm_request _ _ _ Hm1).
    destruct (di_numbers _ Hinv _ _ Hr1) as [?|(_&a2&r2&Hr2&Hq&Hnn)]; [lia|].
    destruct (di_rows _ Hinv _ _ Hr2) as [op2 Hm2].
    destruct (IH a2 op2) as (a'&op'&?&?&?).
    - apply operation_stored; [done|]. exists r2. split; [done|apply Hm2].
    - rewrite <- (rm_number _ _ _ Hm2). lia.
    - exists a', op'. split_and!; try done. pose proof (rm_request _ _ _ Hm2). congruence. }
  destruct (Hdown (Z.to_nat (op_attempt_number op - n)) a op) as (a'&op'&?&?&?); [done|lia|].
  exists a', op'. split_and!; try done. intros a2 op2 Ho2 ? ?.
  apply (Huniq a2 a' op2 op'); congruence.
Qed.

(** A request is identified by what it asks for: attempts for the same project,
    target commit and operation kind belong to one request, and the attempts of
    one request ask for the same project and kind. *)
Theorem request_identity db a op a' op' :
  reachable db → operation a db = Ok (Some op) → operation a' db = Ok (Some op') →
  (op_project_id op = op_project_id op' → op_target_commit op = op_target_commit op' →
   op_operation_kind op = op_operation_kind op' → op_request_id op = op_request_id op')
  ∧ (op_request_id op = op_request_id op' →
     op_project_id op = op_project_id op' ∧ op_operation_kind op = op_operation_kind op').
Proof.
  intros Hr H1%operation_Some H2%operation_Some. pose proof (reachable_inv _ Hr) as Hinv.
  destruct (di_request _ Hinv _ _ H1) as (rq&Hrq&Hp&Ht&Hk).
  destruct (di_request _ Hinv _ _ H2) as (rq'&Hrq'&Hp'&Ht'&Hk'). split.
  - intros ? ? ?. eapply (di_request_unique _ Hinv); [done|done|].
    apply same_request_true. split_and!; congruence.
  - intros He. rewrite He in Hrq. simplify_eq. split; [congruence|].
    rewrite Hk in Hk'. by destruct (op_operation_kind op), (op_operation_kind op').
Qed.

(** ** Evidence *)

(** Evidence is append-only: along any sequence of calls an attempt keeps the
    evidence it has.  Recorded digests, backup identities, the source sequence,
    the fencing epoch, the schema version and the digest vectors are never
    overwritten, and the spec history and the transition log only grow. *)
Theorem evidence_is_append_only db db' a op :
  reachable db → operation a db = Ok (Some op) → rtc controller_step db db' →
  ∃ op', operation a db' = Ok (Some op') ∧ evidence_grows (op_evidence op) (op_evidence op').
Proof.
  intros Hr Hop%operation_Some Hsteps.
  destruct (controller_steps_attempt _ _ _ _ (reachable_inv _ Hr) Hsteps Hop) as (op'&Hst&Ho).
  exists op'. split; [apply operation_stored; [unfold reachable; by etrans|done]|].
  clear Hop Hst. induction Ho as [|op op1 op2 Hstep _ IH]; [done|].
  etrans; [by eapply attempt_step_grows|done].
Qed.

(** ** Code rollbacks *)

(** C39: A code rollback never rolls back: [permits_transition] requires the phase
    before [Rollback] to cross the mutation boundary, the plan of a code rollback
    enters [Rollback] from [Preflight], and so no sequence of calls takes such an
    attempt beyond its preflight phase or completes it. *)
Theorem code_rollback_stops_at_preflight db a op :
  reachable db → operation a db = Ok (Some op) → op_operation_kind op = Kind_CodeRollback →
  os_phase (op_state op) ∈ [Phase_Queued; Phase_Preflight; Phase_Reconciliation]
  ∧ os_result (op_state op) ≠ Result_RolledBack
  ∧ os_result (op_state op) ≠ Result_Succeeded.
Proof.
  intros Hr Hop Hk. pose proof (attempt_inv_of _ _ _ Hr Hop) as Hinv.
  destruct (ai_code_rollback _ Hinv Hk) as (?&_&?&?). done.
Qed.

(** ** Progress *)

Lemma persist_total db a op op1 next rd t :
  db_inv db → stored db a op → op_attempt_id op1 = op_attempt_id op →
  transitions_of op1 = transitions_of op → contents_valid op1 →
  OperationState_validate next = Ok tt →
  Z.of_nat (length (transitions_of op)) < u32_max →
  (∀ x : OperationRecord, is_ok (json_to_string x) = true) →
  (∀ x : OperationTransition, is_ok (json_to_string x) = true) →
  ∃ db', persist_transition op1 next rd t db = Ok (advance op1 next rd t, db').
Proof.
  intros Hinv Hst Hid Hts [Hcap _] Hnext Hlen Hjo Hjt.
  destruct (stored_matches _ _ _ Hinv Hst) as (row&Hrow&Hm).
  destruct (di_log _ Hinv _ _ Hst) as [_ Hbound].
  unfold persist_transition, mbind, tx_bind, lift. simpl. rewrite Hnext. simpl. rewrite Hcap.
  set (n := Z.of_nat (length (transitions_of op))) in *.
  assert (u32_try_from n = Some n ∧ u32_checked_add n 1 = Some (n + 1)) as [Hc1 Hc2]
    by (split; apply checked_range_Some; lia).
  rewrite Hts. fold n. rewrite Hc1. simpl. rewrite Hc2. simpl.
  match goal with |- context [json_to_string ?x] => specialize (Hjt x) end.
  destruct (json_to_string _) as [tj|]; [|done]. simpl.
  match goal with |- context [json_to_string ?x] => specialize (Hjo x) end.
  destruct (json_to_string _) as [oj|]; [|done]. simpl.
  assert (op_attempt_id op1 = a) as -> by (rewrite Hid; apply Hm).
  unfold insert_transition, ensure_tx, update_attempt, mbind, tx_bind, gets, modify, lift. simpl.
  destruct (operation_transitions db !! _) eqn:Htr; simpl.
  { apply Hbound in Htr. lia. }
  rewrite (proj2 (Z.ltb_lt 0 (n + 1))) by lia. simpl. rewrite Hrow. simpl. rewrite Hrow. simpl.
  eexists. unfold advance. rewrite Hts. done.
Qed.

(** A plan phase has a next state. *)
Lemma next_state_total op receipt plan :
  OperationKind_required_phases (op_operation_kind op) (op_release_class op) = Ok plan →
  pr_phase receipt ∈ plan →
  (op_operation_kind op = Kind_CodeRollback → pr_phase receipt ≠ Phase_Preflight) →
  pr_branch receipt = Branch_Primary →
  ∃ next, next_state_for_phase_receipt op receipt false = Ok next
          ∧ OperationState_validate next = Ok tt.
Proof.
  intros Hplan [i Hi]%list_elem_of_lookup Hcr Hbr. unfold next_state_for_phase_receipt.
  rewrite Hbr. simpl. revert Hi Hcr Hplan.
  destruct (op_operation_kind op), (op_release_class op) as [[]|]; simpl; intros Hi Hcr Hplan;
    simplify_eq/=; index_cases i; try (match goal with Hp : _ = pr_phase receipt |- _ => rewrite <- Hp in * end);
    try (by destruct Hcr); simpl; eexists; by split.
Qed.

Section Progress.
Hypothesis json_record_total : ∀ x : OperationRecord, is_ok (json_to_string x) = true.
Hypothesis json_transition_total : ∀ x : OperationTransition, is_ok (json_to_string x) = true.

(** An unclear outcome can always be recorded: any running attempt that is not
    yet in reconciliation is moved there by [mark_needs_reconcile], whatever its
    phase, its evidence and the other attempts are. *)
Theorem reconciliation_is_always_possible db a op capsule t :
  reachable db → operation a db = Ok (Some op) →
  os_result (op_state op) = Result_Running → os_phase (op_state op) ≠ Phase_Reconciliation →
  FailureCapsule_validate capsule = Ok tt →
  Z.of_nat (length (transitions_of op)) < u32_max →
  ∃ db' op', mark_needs_reconcile a capsule t db = (db', Ok op')
    ∧ operation a db' = Ok (Some op')
    ∧ op_state op' = MkOperationState Phase_Reconciliation Result_Running
                       Blocking_SecurityStateInvalid
    ∧ ev_recovery_mode (op_evidence op') = Some Recovery_Reconciliation.
Proof.
  intros Hr Hop%operation_Some Hrun Hne Hcap Hlen. pose proof (reachable_inv _ Hr) as Hinv.
  destruct (reachable_stored _ _ _ Hr Hop) as [Ha _].
  assert (∃ db' op', mark_needs_reconcile a capsule t db = (db', Ok op')
    ∧ stored db' a op' ∧ op_state op' = MkOperationState Phase_Reconciliation Result_Running
                       Blocking_SecurityStateInvalid
    ∧ ev_recovery_mode (op_evidence op') = Some Recovery_Reconciliation) as (db'&op'&Hm&Hst&?&?).
  { unfold mark_needs_reconcile, with_validation, validate_failure_capsule_input.
    rewrite Hcap. simpl. unfold immediate_transaction, mbind at 1, tx_bind at 1.
    rewrite (load_attempt_stored _ _ _ Hinv Hop).
    rewrite (bool_decide_eq_false_2 (os_phase _ = _)), (bool_decide_eq_true_2 (os_result _ = _)) by done.
    simpl.
    match goal with |- context [persist_transition ?op1 ?next ?rd ?t db] =>
      destruct (persist_total db a op op1 next rd t) as [db' Hp]; [done..| |done|done|done|done|] end.
    { split; [by simpl; rewrite Hcap|apply Ha]. }
    rewrite Hp. do 2 eexists. split; [reflexivity|].
    destruct (persist_stored _ _ _ _ _ _ _ _ _ Hinv Hop Hp) as [_ ?]; done. }
  exists db', op'. split_and!; try done. apply operation_stored; [|done].
  eapply rtc_r; [exact Hr|]. by eapply cs_mark_needs_reconcile.
Qed.

(** The receipt the plan waits for is accepted: a valid primary receipt for the
    current plan phase of a running attempt, whose artifacts do not contradict
    recorded evidence, is committed, except that the preflight of a code rollback
    never is. *)
Theorem expected_receipt_is_accepted db op receipt plan ev t :
  reachable db → operation (pr_attempt_id receipt) db = Ok (Some op) →
  os_result (op_state op) = Result_Running → os_phase (op_state op) = pr_phase receipt →
  ev_recovery_mode (op_evidence op) ≠ Some Recovery_Rollback →
  OperationKind_required_phases (op_operation_kind op) (op_release_class op) = Ok plan →
  pr_phase receipt ∈ plan →
  (op_operation_kind op = Kind_CodeRollback → pr_phase receipt ≠ Phase_Preflight) →
  validate_receipt receipt = Ok tt → pr_branch receipt = Branch_Primary →
  merge_artifacts (op_evidence op) (pr_artifacts receipt) (pr_phase receipt) Branch_Primary false
    = Ok ev →
  Z.of_nat (length (transitions_of op)) < u32_max →
  ∃ db' op', commit_phase_receipt receipt t db = (db', Ok op').
Proof.
  intros Hr Hop%operation_Some Hrun Hph Hmode Hplan Hin Hcr Hv Hbr Hm Hlen.
  pose proof (reachable_inv _ Hr) as Hinv. destruct (reachable_stored _ _ _ Hr Hop) as [Ha _].
  destruct (next_state_total op receipt plan Hplan Hin Hcr Hbr) as (next&Hnext&Hval).
  unfold commit_phase_receipt, with_validation, immediate_transaction, mbind at 1, tx_bind at 1.
  rewrite Hv, (load_attempt_stored _ _ _ Hinv Hop).
  destruct (existsb _ _); [by eauto|]. rewrite Hrun, Hph.
  rewrite !(bool_decide_eq_true_2 (_ = _)) by done. simpl.
  rewrite bool_decide_eq_false_2 by done.
  unfold mbind at 1, tx_bind at 1, lift at 1. rewrite Hnext.
  unfold mbind at 1, tx_bind at 1, lift at 1. rewrite Hbr, Hm.
  pose proof (merge_artifacts_frame _ _ _ _ _ _ Hm) as [(Hts&_) _].
  match goal with |- context [persist_transition ?op1 ?next ?rd ?t db] =>
    destruct (persist_total db (pr_attempt_id receipt) op op1 next rd t) as [db' Hp];
      [done..| |done|done|done|done|] end; [|rewrite Hp; eauto].
  split; [apply Ha|]. by eapply merge_contents_valid; [done| |done].
Qed.
End Progress.
End ControllerSpec.

(** ** Concrete runs

    Instances of the parameters (records stored as they are, a digest that is the
    padded input) and runs of the controller on them, at which the properties
    above are applied. *)
Module Sample.

#[local] Instance json_record : Json OperationRecord :=
  {| json_text := OperationRecord; json_to_string := Ok; json_from_str := Ok |}.
#[local] Instance json_transition : Json OperationTransition :=
  {| json_text := OperationTransition; json_to_string := Ok; json_from_str := Ok |}.
#[local] Instance json_record_round_trip : JsonRoundTrip OperationRecord.
Proof. intros x t [= <-]. reflexivity. Defined.
#[local] Instance json_transition_round_trip : JsonRoundTrip OperationTransition.
Proof. intros x t [= <-]. reflexivity. Defined.
#[local] Instance sha : Sha256 := λ v, take 32 (v ++ replicate 32 0).

Definition phase_code (p : OperationPhase) : Z :=
  match p with
  | Phase_Queued => 1 | Phase_SyncingSource => 2 | Phase_VerifyingSource => 3
  | Phase_Testing => 4 | Phase_Building => 5 | Phase_Preflight => 6 | Phase_BackingUp => 7
  | Phase_Draining => 8 | Phase_CutoverSnapshotting => 9 | Phase_Migrating => 10
  | Phase_Deploying => 11 | Phase_HealthChecking => 12 | Phase_Soaking => 13
  | Phase_Rollback => 14 | Phase_Reconciliation => 15
  end.
#[local] Instance jcs_receipt : Jcs ReceiptDigestPayload := λ p,
  Ok [phase_code (rdp_phase p);
      match rdp_branch p with Branch_Primary => 0 | Branch_RollbackRecovery => 1 end].
#[local] Instance jcs_fence : Jcs FenceAcquisitionReceiptDigestPayload := λ p, Ok [fdp_epoch p].

Definition digest (n : Z) : EvidenceDigest := EvidenceDigest_sha256 [n].
Definition commit : GitCommitId := MkGitCommitId "0123456789012345678901234567890123456789".
Definition project : ProjectId := MkProjectId "demo".

Definition new_operation (kind : OperationKind) (class : option ReleaseClass) : NewOperation := {|
  no_project_id := project;
  no_operation_kind := kind;
  no_target_commit := if requires_commit kind then Some commit else None;
  no_release_class := class;
  no_installed_policy := MkInstalledPolicyIdentity (digest 1) 1
|}.

Definition admission (class : ReleaseClass) (sequence : Z) (delivery : string)
    : VerifiedAutomationAdmission := {|
  va_operation := new_operation Kind_Deploy (Some class);
  va_delivery_channel := Channel_GithubWebhook;
  va_delivery_id := delivery;
  va_payload_digest := digest 2;
  va_source_attestation_digest := digest 3;
  va_accepted_head := commit;
  va_accepted_sequence := sequence;
  va_maximum_attempts := 2
|}.

(** The evidence the phase contract asks for. *)
Definition artifacts (p : OperationPhase) : PhaseArtifacts :=
  let d := Some (digest 9) in
  let none := PhaseArtifacts_default in
  match p with
  | Phase_Testing => none <| pa_source_export_digest := d |> <| pa_prefetch_evidence_digest := d |>
      <| pa_ci_evidence_digest := d |> <| pa_build_context_digest := d |>
      <| pa_resource_reservation_digest := d |> <| pa_base_image_digests := [digest 9] |>
  | Phase_Building => none <| pa_build_context_digest := d |> <| pa_build_plan_digest := d |>
      <| pa_image_digest := d |> <| pa_image_id_digest := d |>
      <| pa_base_image_digests := [digest 9] |>
  | Phase_Preflight => none <| pa_resource_reservation_digest := d |>
  | Phase_BackingUp => none <| pa_backup_set_id := Some 5%N |> <| pa_base_backup_id := Some 6%N |>
      <| pa_base_backup_manifest_digest := d |> <| pa_base_backup_evidence_digest := d |>
      <| pa_base_backup_offsite_evidence_digest := d |>
      <| pa_base_backup_verification_digest := d |>
  | Phase_Draining => none <| pa_source_gate_proof_digest := d |>
      <| pa_drain_evidence_digest := d |>
  | Phase_CutoverSnapshotting => none <| pa_backup_set_id := Some 5%N |>
      <| pa_cutover_backup_id := Some 7%N |> <| pa_cutover_backup_manifest_digest := d |>
      <| pa_cutover_backup_evidence_digest := d |>
      <| pa_cutover_backup_verification_digest := d |> <| pa_fencing_epoch := Some 1 |>
  | Phase_Migrating => none <| pa_schema_version := Some "v2"%string |>
  | Phase_Deploying => none <| pa_deployment_plan_digest := d |>
      <| pa_release_bundle_digest := d |>
  | Phase_HealthChecking | Phase_Soaking => none <| pa_health_evidence_digest := d |>
  | _ => none
  end.

Definition receipt (a : Uuid) (branch : ExecutorPhaseBranch) (p : OperationPhase) : PhaseReceipt :=
  match PhaseReceipt_new a p branch (digest 4) (digest 5) (artifacts p) 7 with
  | Ok r => r
  | Err _ => MkPhaseReceipt a p branch (digest 4) (digest 5) (artifacts p) (digest 0) 7
  end.

Definition commit_all (a : Uuid) (phases : list OperationPhase) (db : ControlDb) : ControlDb :=
  foldl (λ db p, (commit_phase_receipt (receipt a Branch_Primary p) 8 db).1) db phases.

Definition uuids (n : N) : NewUuids := MkNewUuids (n + 1) (n + 2) (n + 3).

Definition capsule : FailureCapsule := {|
  fc_schema_version := FAILURE_CAPSULE_V1_SCHEMA_VERSION;
  fc_failing_step := "step";
  fc_error := MkStructuredError "code" "summary" Retry_Automatic None;
  fc_excerpt := "";
  fc_truncated := false;
  fc_v2 := None
|}.

(** An automated deployment of each class, as admitted: attempt 103. *)
Definition admitted_db (class : ReleaseClass) : ControlDb :=
  (admit_automation (uuids 100) (admission class 1 "d1") 5 empty_control_db).1.

(** Advanced through the first [n] phases of its plan. *)
Definition advanced_db (class : ReleaseClass) (n : nat) : ControlDb :=
  commit_all 103 (take n (ReleaseClass_required_phases class)) (admitted_db class).

Definition record_in (db : ControlDb) (a : Uuid) : OperationRecord :=
  match operation a db with
  | Ok (Some op) => op
  | _ => MkOperationRecord 0 0 0 0 project Kind_Deploy None None initial_state
           (Actor_Interactive 0) OperationEvidence_default None 0 0
  end.

Lemma reach_commit r t db : reachable db → reachable (commit_phase_receipt r t db).1.
Proof. intros Hr. eapply rtc_r; [exact Hr|]. eapply cs_commit_phase_receipt, surjective_pairing. Qed.

Lemma reach_commit_all a phases db : reachable db → reachable (commit_all a phases db).
Proof. revert db. induction phases as [|p ps IH]; intros db Hr; [done|]. by apply IH, reach_commit. Qed.

Lemma reach_admitted class : reachable (admitted_db class).
Proof. apply rtc_once. eapply cs_admit_automation, surjective_pairing. Qed.

Lemma reach_advanced class n : reachable (advanced_db class n).
Proof. apply reach_commit_all, reach_admitted. Qed.

(** The runs go through: the code-only deployment succeeds after nine phases, the
    stateful one after thirteen. *)
Example code_only_run :
  op_state (record_in (advanced_db Class_CodeOnlyCompatible 9) 103)
  = MkOperationState Phase_Soaking Result_Succeeded Blocking_None.
Proof. vm_compute. reflexivity. Qed.
Example stateful_run :
  op_state (record_in (advanced_db Class_StatefulBreaking 13) 103)
  = MkOperationState Phase_Soaking Result_Succeeded Blocking_None.
Proof. vm_compute. reflexivity. Qed.

Ltac evaluate := match goal with |- _ = _ => vm_compute; reflexivity end.

Definition code_only := Class_CodeOnlyCompatible.
Definition stateful := Class_StatefulCompatible.

(** Attempt 103 as the runs leave it. *)
Definition advanced (class : ReleaseClass) (n : nat) : OperationRecord :=
  record_in (advanced_db class n) 103.

Lemma controller_store_invariant_witness : db_inv (advanced_db stateful 13).
Proof. apply controller_store_invariant, reach_advanced. Defined.

Lemma controller_refines_attempt_machine_witness :
  ∃ op', operation 103 (advanced_db code_only 4) = Ok (Some op')
         ∧ (op' = advanced code_only 3 ∨ attempt_step (advanced code_only 3) op').
Proof.
  apply (controller_refines_attempt_machine (advanced_db code_only 3)).
  - apply reach_advanced.
  - eapply (cs_commit_phase_receipt _ _ (receipt 103 Branch_Primary Phase_Testing) 8).
    apply surjective_pairing.
  - evaluate.
Defined.

Lemma receipts_follow_plan_witness :
  has_committed_phase (advanced stateful 11) Phase_Testing = true.
Proof.
  apply (receipts_follow_plan (advanced_db stateful 11) 103 (advanced stateful 11)
           STATEFUL_PHASES Phase_Deploying 10 3); try evaluate; [apply reach_advanced|lia].
Defined.

Lemma stateful_deploy_needs_backup_witness :
  Forall (λ p, has_committed_phase (advanced stateful 11) p = true)
    [Phase_BackingUp; Phase_Draining; Phase_CutoverSnapshotting; Phase_Migrating].
Proof.
  apply (stateful_deploy_needs_backup (advanced_db stateful 11) 103 (advanced stateful 11));
    try evaluate.
  - apply reach_advanced.
  - left. evaluate.
Defined.

Lemma completed_attempt_has_receipts_witness :
  os_result (op_state (advanced code_only 9)) = Result_Succeeded
  ∧ Forall (λ p, has_committed_phase (advanced code_only 9) p = true) CODE_ONLY_PHASES.
Proof.
  split; [evaluate|].
  refine (proj1 (completed_attempt_has_receipts (advanced_db code_only 9) 103
                   (advanced code_only 9) CODE_ONLY_PHASES _ _ _) _); try evaluate.
  apply reach_advanced.
Defined.

(** The attempt cancelled in its testing phase. *)
Definition cancelled_db : ControlDb :=
  (cancel_before_mutation 103 9 (advanced_db code_only 3)).1.

Lemma reach_cancelled : reachable cancelled_db.
Proof.
  eapply rtc_r; [apply (reach_advanced code_only 3)|].
  eapply cs_cancel_before_mutation, surjective_pairing.
Qed.

Lemma stopped_attempt_mutated_nothing_witness :
  os_result (op_state (record_in cancelled_db 103)) = Result_Cancelled
  ∧ has_committed_mutation (record_in cancelled_db 103) = false.
Proof.
  split; [evaluate|].
  apply (stopped_attempt_mutated_nothing cancelled_db 103 (record_in cancelled_db 103)); [apply reach_cancelled|evaluate|].
  apply (bool_decide_eq_true_1 (_ ∈ _)). evaluate.
Defined.

Lemma terminal_attempt_is_final_witness :
  operation 103 (commit_phase_receipt (receipt 103 Branch_Primary Phase_Testing) 9 cancelled_db).1
  = Ok (Some (record_in cancelled_db 103)).
Proof.
  apply (terminal_attempt_is_final cancelled_db); [apply reach_cancelled|evaluate| |].
  - apply (bool_decide_eq_true_1 (_ ≠ _)). evaluate.
  - apply rtc_once. eapply cs_commit_phase_receipt, surjective_pairing.
Defined.

(** The attempt that deployed and went into rollback recovery. *)
Definition rollback_db : ControlDb := (begin_rollback 103 9 (advanced_db code_only 7)).1.

Lemma reach_rollback : reachable rollback_db.
Proof.
  eapply rtc_r; [apply (reach_advanced code_only 7)|].
  eapply cs_begin_rollback, surjective_pairing.
Qed.

Lemma rollback_recovery_is_authorized_witness :
  has_committed_phase (record_in rollback_db 103) Phase_Deploying = true.
Proof.
  refine (proj1 (proj2 (rollback_recovery_is_authorized rollback_db 103
                          (record_in rollback_db 103) _ _ _))); try evaluate. apply reach_rollback.
Defined.

Lemma commit_phase_receipt_idempotent_witness :
  commit_phase_receipt (receipt 103 Branch_Primary Phase_Testing) 50 (advanced_db code_only 4)
  = (advanced_db code_only 4, Ok (advanced code_only 4)).
Proof.
  apply (commit_phase_receipt_idempotent _ 8 50 (advanced_db code_only 3));
    [apply reach_advanced|evaluate].
Defined.

Lemma commit_phase_receipt_advances_witness :
  op_state (advanced code_only 4) = MkOperationState Phase_Building Result_Running Blocking_None.
Proof.
  apply (commit_phase_receipt_advances (receipt 103 Branch_Primary Phase_Testing) 8
           (advanced_db code_only 3) (advanced_db code_only 4) (advanced code_only 3)
           (advanced code_only 4) CODE_ONLY_PHASES 3); try evaluate; [apply reach_advanced|..].
  - apply (bool_decide_eq_true_1 (_ ≠ _)). evaluate.
  - apply (bool_decide_eq_true_1 (Forall _ _)). evaluate.
Defined.

Lemma no_stop_after_mutation_witness :
  cancel_before_mutation 103 9 (advanced_db code_only 7)
  = (advanced_db code_only 7, Err CancellationAfterMutation).
Proof.
  refine (proj1 (no_stop_after_mutation (advanced_db code_only 7) 103 (advanced code_only 7)
                   capsule 9 _ _ _ _ _)); try evaluate. apply reach_advanced.
Defined.

Lemma takeover_lease_revokes_witness :
  let db := (takeover_lease 1 2 0 10 empty_control_db).1 in
  let db' := (takeover_lease 1 3 1 20 db).1 in
  validate_current_lease_connection (MkTabLeaseClaim 1 2 1) 5 db = Ok tt
  ∧ validate_current_lease_connection (MkTabLeaseClaim 1 2 1) 5 db' = Err LeaseRevoked.
Proof.
  simpl. split; [evaluate|].
  destruct (takeover_lease_revokes 1 3 1 20 (takeover_lease 1 2 0 10 empty_control_db).1
              (takeover_lease 1 3 1 20 (takeover_lease 1 2 0 10 empty_control_db).1).1
              (MkTabLease 1 3 2 1 20)) as (_&_&Hrevoked&_); [evaluate|].
  apply Hrevoked; [done|by split|by left].
Defined.

(** An interactive backup admitted under a lease and a grant. *)
Definition leased_db : ControlDb := (takeover_lease 1 2 0 1000 empty_control_db).1.
Definition backup_grant : ActionGrantClaims :=
  MkActionGrantClaims 7 (digest 8) 1 project Kind_BackupOnly None None 900.
Definition backup_db : ControlDb :=
  (admit_interactive (uuids 200) (new_operation Kind_BackupOnly None) (MkTabLeaseClaim 1 2 1)
     backup_grant 10 leased_db).1.

Lemma reach_backup : reachable backup_db.
Proof.
  eapply rtc_r; [apply rtc_once; eapply cs_takeover_lease, surjective_pairing|].
  eapply cs_admit_interactive, surjective_pairing.
Qed.

Lemma action_grant_is_single_use_witness :
  (admit_interactive_inner (uuids 300) (new_operation Kind_BackupOnly None)
     (MkTabLeaseClaim 1 2 1) backup_grant None 20 backup_db).1 = backup_db.
Proof.
  eapply (action_grant_is_single_use (uuids 300) (new_operation Kind_BackupOnly None)
           (MkTabLeaseClaim 1 2 1) backup_grant None 20 backup_db _
           (Ok (Existing (record_in backup_db 203))) (MkGrantRow (digest 8) 201 203 10));
    [apply reach_backup|evaluate|evaluate].
Defined.

Lemma automation_delivery_is_deduplicated_witness :
  ∃ op, admit_automation (uuids 300) (admission code_only 1 "d1") 20 (admitted_db code_only)
        = (admitted_db code_only, Ok (Existing op)) ∧ op_request_id op = 101%N.
Proof.
  apply (automation_delivery_is_deduplicated (uuids 300) (admission code_only 1 "d1") 20
           (admitted_db code_only) (MkDeliveryRow (digest 2) 101 5)); try evaluate.
  apply reach_admitted.
Defined.

(** A second attempt of the same request, for a newer source sequence. *)
Definition second_db : ControlDb :=
  (admit_automation (uuids 400) (admission code_only 2 "d2") 30 (admitted_db code_only)).1.

Lemma reach_second : reachable second_db.
Proof.
  eapply rtc_r; [apply (reach_admitted code_only)|].
  eapply cs_admit_automation, surjective_pairing.
Qed.

Lemma attempt_numbers_are_dense_witness :
  op_attempt_number (record_in second_db 403) = 2
  ∧ ∃ a' op', operation a' second_db = Ok (Some op')
      ∧ op_request_id op' = op_request_id (record_in second_db 403) ∧ op_attempt_number op' = 1
      ∧ ∀ a2 op2, operation a2 second_db = Ok (Some op2) →
          op_request_id op2 = op_request_id (record_in second_db 403) →
          op_attempt_number op2 = 1 → a2 = a'.
Proof.
  split; [evaluate|].
  apply (attempt_numbers_are_dense second_db 403); [apply reach_second|evaluate|].
  change (op_attempt_number (record_in second_db 403)) with 2. lia.
Defined.

Lemma request_identity_witness :
  op_request_id (record_in second_db 103) = op_request_id (record_in second_db 403).
Proof.
  refine (proj1 (request_identity second_db 103 (record_in second_db 103) 403
                   (record_in second_db 403) _ _ _) _ _ _); try evaluate. apply reach_second.
Defined.

Lemma evidence_is_append_only_witness :
  ∃ op', operation 103 (advanced_db code_only 5) = Ok (Some op')
         ∧ evidence_grows (op_evidence (advanced code_only 4)) (op_evidence op').
Proof.
  apply (evidence_is_append_only (advanced_db code_only 4)); [apply reach_advanced|evaluate|].
  apply rtc_once.
  eapply (cs_commit_phase_receipt _ _ (receipt 103 Branch_Primary Phase_Building) 8).
  apply surjective_pairing.
Defined.

(** A code rollback admitted interactively and sent through its preflight. *)
Definition rollback_grant : ActionGrantClaims :=
  MkActionGrantClaims 7 (digest 8) 1 project Kind_CodeRollback (Some commit) None 900.
Definition code_rollback_db : ControlDb :=
  commit_all 203 ROLLBACK_PHASES
    (admit_interactive (uuids 200) (new_operation Kind_CodeRollback (Some Class_Rollback))
       (MkTabLeaseClaim 1 2 1) rollback_grant 10 leased_db).1.

Lemma reach_code_rollback : reachable code_rollback_db.
Proof.
  apply reach_commit_all.
  eapply rtc_r; [apply rtc_once; eapply cs_takeover_lease, surjective_pairing|].
  eapply cs_admit_interactive, surjective_pairing.
Qed.

Lemma code_rollback_stops_at_preflight_witness :
  os_phase (op_state (record_in code_rollback_db 203)) = Phase_Preflight
  ∧ os_result (op_state (record_in code_rollback_db 203)) ≠ Result_RolledBack.
Proof.
  split; [evaluate|].
  refine (proj1 (proj2 (code_rollback_stops_at_preflight code_rollback_db 203
                          (record_in code_rollback_db 203) _ _ _))); try evaluate.
  apply reach_code_rollback.
Defined.

Lemma reconciliation_is_always_possible_witness :
  ∃ db' op', mark_needs_reconcile 103 capsule 9 (advanced_db code_only 7) = (db', Ok op')
    ∧ operation 103 db' = Ok (Some op')
    ∧ op_state op' = MkOperationState Phase_Reconciliation Result_Running
                       Blocking_SecurityStateInvalid
    ∧ ev_recovery_mode (op_evidence op') = Some Recovery_Reconciliation.
Proof.
  apply (reconciliation_is_always_possible ltac:(done) ltac:(done) (advanced_db code_only 7) 103
           (advanced code_only 7) capsule 9); try evaluate; [apply reach_advanced|..].
  - apply (bool_decide_eq_true_1 (_ ≠ _)). evaluate.
  - apply Z.ltb_lt. evaluate.
Defined.

Lemma expected_receipt_is_accepted_witness :
  ∃ db' op', commit_phase_receipt (receipt 103 Branch_Primary Phase_Testing) 8
               (advanced_db code_only 3) = (db', Ok op').
Proof.
  apply (expected_receipt_is_accepted ltac:(done) ltac:(done) (advanced_db code_only 3)
           (advanced code_only 3) _ CODE_ONLY_PHASES ((op_evidence (advanced code_only 4))
             <| ev_transitions := transitions_of (advanced code_only 3) |>));
    try evaluate; [apply reach_advanced|..].
  - apply (bool_decide_eq_true_1 (_ ≠ _)). evaluate.
  - apply (bool_decide_eq_true_1 (_ ∈ _)). evaluate.
  - intros Hk. exfalso. revert Hk. vm_compute. discriminate.
  - apply Z.ltb_lt. evaluate.
Defined.
End Sample.
