(* ===== verification/SecurityDb.v ===== *)
(** * The security store: tables and shared reads

    The tables of [src/src/store/security.rs] that the resource, reservation, fence
    and phase operations read and write, the leases read from them and the guards the
    operations share.  A table is a finite map by its primary key; text columns
    that hold a UUID, a digest or a project ID hold the value itself, columns that
    hold JSON hold the stored text of the codec. *)

From Stdlib Require Import ZArith Lia String.
From stdpp Require Import base gmap strings option list_numbers list.
From S2P Require Import Prelude Identifiers States Text Failure Operation Errors Budget Controller.

Local Open Scope Z_scope.

(** ** Data *)

Inductive ExecutionResource : Type :=
| GlobalBuild
| GlobalHeavyIo
| GlobalLocalRegistry
| ProjectDeploy (project_id : ProjectId).

Definition ExecutionResource_key (resource : ExecutionResource) : string :=
  match resource with
  | GlobalBuild => "global:build"
  | GlobalHeavyIo => "global:heavy_io"
  | GlobalLocalRegistry => "global:local_registry:5555"
  | ProjectDeploy project_id => "project:deploy:" ++ ProjectId_as_str project_id
  end.

Definition disk_reservation_resource_key (project_id : ProjectId) : string :=
  "project:disk_reservation:" ++ ProjectId_as_str project_id.

Inductive FenceJournalState : Type :=
| Fence_AcquireIntent
| Fence_Held
| Fence_ReleaseIntent
| Fence_Released
| Fence_NeedsReconcile.

#[global] Instance FenceJournalState_eq_dec : EqDecision FenceJournalState.
Proof. solve_decision. Defined.

Definition FenceJournalState_as_str (state : FenceJournalState) : string :=
  match state with
  | Fence_AcquireIntent => "acquire_intent"
  | Fence_Held => "held"
  | Fence_ReleaseIntent => "release_intent"
  | Fence_Released => "released"
  | Fence_NeedsReconcile => "needs_reconcile"
  end.

Definition FenceJournalState_parse (value : string) : Result StoreError FenceJournalState :=
  if value == "acquire_intent"%string then Ok Fence_AcquireIntent
  else if value == "held"%string then Ok Fence_Held
  else if value == "release_intent"%string then Ok Fence_ReleaseIntent
  else if value == "released"%string then Ok Fence_Released
  else if value == "needs_reconcile"%string then Ok Fence_NeedsReconcile
  else Err (CorruptSecurityJournal "fence state").

Record FenceLease : Type := MkFenceLease {
  fl_journal_id : Z;
  fl_project_id : ProjectId;
  fl_attempt_id : Uuid;
  fl_epoch : Z;
  fl_token : Uuid;
  fl_created_at_ms : Z;
  fl_state : FenceJournalState;
  fl_release_safe_receipt_digest : option EvidenceDigest
}.

(** [DrainIdentityLease] and [BackupBoundaryLease] have the same fields. *)
Record IdentityLease : Type := MkIdentityLease {
  il_journal_id : Z;
  il_project_id : ProjectId;
  il_attempt_id : Uuid;
  il_epoch : Z;
  il_token : Uuid;
  il_created_at_ms : Z
}.

(** ** Tables *)

Record FenceRow : Type := MkFenceRow {
  fr_epoch : Z;
  fr_project_id : ProjectId;
  fr_attempt_id : Uuid;
  fr_token : Uuid;
  fr_state : string;
  fr_release_safe_receipt_digest : option EvidenceDigest;
  fr_created_at_ms : Z;
  fr_updated_at_ms : Z
}.

(** A row of [drain_identity_journal] or of [backup_boundary_journal]. *)
Record IdentityRow : Type := MkIdentityRow {
  ir_epoch : Z;
  ir_project_id : ProjectId;
  ir_attempt_id : Uuid;
  ir_token : Uuid;
  ir_state : string;
  ir_created_at_ms : Z;
  ir_updated_at_ms : Z
}.

Record ResourceRow : Type := MkResourceRow {
  rs_owner_attempt_id : Uuid;
  rs_acquired_at_ms : Z
}.

Record ResourceReceiptRow : Type := MkResourceReceiptRow {
  rc_state : string;
  rc_updated_at_ms : Z
}.

Record DiskReservationRow : Type := MkDiskReservationRow {
  dr_project_id : ProjectId;
  dr_required_bytes : Z;
  dr_emergency_reserve_bytes : Z;
  dr_available_bytes : Z;
  dr_filesystem_identity : EvidenceDigest;
  dr_reservation_digest : EvidenceDigest;
  dr_observed_at_ms : Z;
  dr_acquired_at_ms : Z
}.

#[global] Instance DiskReservationRow_eta : Eta DiskReservationRow := λ r,
  MkDiskReservationRow (dr_project_id r) (dr_required_bytes r) (dr_emergency_reserve_bytes r)
    (dr_available_bytes r) (dr_filesystem_identity r) (dr_reservation_digest r)
    (dr_observed_at_ms r) (dr_acquired_at_ms r).

(** A row of [executor_rollback_takeovers]. *)
Record TakeoverRow : Type := MkTakeoverRow {
  tk_project_id : ProjectId;
  tk_forward_phase : string;
  tk_forward_status : string;
  tk_forward_intent_digest : EvidenceDigest;
  tk_created_at_ms : Z
}.

(** Rows of [authorized_phase_specs], [verified_backup_chains],
    [consumed_mutation_grants] and [project_bootstrap_ledger]. *)
Record PhaseSpecRow : Type := MkPhaseSpecRow {
  sp_project_id : ProjectId;
  sp_intent_digest : EvidenceDigest;
  sp_spec_digest : EvidenceDigest;
  sp_document_digest : EvidenceDigest;
  sp_canonical_json : list Z;
  sp_persisted_at_ms : Z
}.

Record BackupChainRow : Type := MkBackupChainRow {
  bc_project_id : ProjectId;
  bc_authorized_phase_spec_digest : EvidenceDigest;
  bc_chain_digest : EvidenceDigest;
  bc_document_digest : EvidenceDigest;
  bc_canonical_json : list Z;
  bc_persisted_at_ms : Z
}.

Record MutationGrantRow : Type := MkMutationGrantRow {
  cg_grant_digest : EvidenceDigest;
  cg_attempt_id : Uuid;
  cg_project_id : ProjectId;
  cg_phase : string;
  cg_spec_digest : EvidenceDigest;
  cg_consumed_at_ms : Z
}.

Record BootstrapRow : Type := MkBootstrapRow {
  bl_attempt_id : Uuid;
  bl_phase : string;
  bl_spec_digest : EvidenceDigest;
  bl_state : string;
  bl_receipt_digest : option EvidenceDigest;
  bl_updated_at_ms : Z
}.

#[global] Instance BootstrapRow_eta : Eta BootstrapRow := λ r,
  MkBootstrapRow (bl_attempt_id r) (bl_phase r) (bl_spec_digest r) (bl_state r)
    (bl_receipt_digest r) (bl_updated_at_ms r).

(** Rows of [source_gate_proofs], [source_gate_rejections] and
    [source_trust_highwater]. *)
Record GateProofRow : Type := MkGateProofRow {
  gp_proof_digest : EvidenceDigest;
  gp_project_id : ProjectId;
  gp_source_sequence : Z;
  gp_attestation_digest : EvidenceDigest;
  gp_checked_at_ms : Z
}.

Record GateRejectionRow : Type := MkGateRejectionRow {
  gr_project_id : ProjectId;
  gr_rejected_proof_digest : EvidenceDigest;
  gr_state : string;
  gr_rejected_at_ms : Z;
  gr_compensated_at_ms : option Z
}.

#[global] Instance GateRejectionRow_eta : Eta GateRejectionRow := λ r,
  MkGateRejectionRow (gr_project_id r) (gr_rejected_proof_digest r) (gr_state r)
    (gr_rejected_at_ms r) (gr_compensated_at_ms r).

Record HighwaterRow : Type := MkHighwaterRow {
  hw_source_sequence : Z;
  hw_attestation_digest : EvidenceDigest;
  hw_updated_at_ms : Z
}.

Section SecurityDb.
Context `{!Json AuthorizedDiskReservation, !Json PhaseArtifacts, !Json PhaseReceipt}.

(** Rows of [executor_phase_journal] and [executor_phase_receipts]. *)
Record PhaseJournalRow : Type := MkPhaseJournalRow {
  pj_project_id : ProjectId;
  pj_intent_digest : EvidenceDigest;
  pj_observation_digest : option EvidenceDigest;
  pj_artifacts_json : json_text PhaseArtifacts;
  pj_status : string;
  pj_started_at_ms : Z;
  pj_updated_at_ms : Z
}.

#[global] Instance PhaseJournalRow_eta : Eta PhaseJournalRow := λ r,
  MkPhaseJournalRow (pj_project_id r) (pj_intent_digest r) (pj_observation_digest r)
    (pj_artifacts_json r) (pj_status r) (pj_started_at_ms r) (pj_updated_at_ms r).

Record PhaseReceiptRow : Type := MkPhaseReceiptRow {
  pc_receipt_digest : EvidenceDigest;
  pc_receipt_json : json_text PhaseReceipt;
  pc_committed_at_ms : Z
}.

Record AuthorizationRow : Type := MkAuthorizationRow {
  ar_authorization_id : Uuid;
  ar_digest : EvidenceDigest;
  ar_project_id : ProjectId;
  ar_expires_at_ms : Z;
  ar_consumed_at_ms : Z;
  ar_disk_reservation_json : option (json_text AuthorizedDiskReservation)
}.

(** [executor_authorizations] by attempt (its [UNIQUE] column), the journals by
    [journal_id], [execution_resources] by key, [execution_resource_receipts] by
    key and owner, [active_disk_reservations] by attempt, the phase journal, its
    receipts, specs, chains, source-gate proofs and rejections by attempt and storage
    phase, the consumed grants by grant, the bootstrap ledger and the source high-water
    marks by project; [fence_epoch] is the row of [security_meta] with that key. *)
Record SecurityDb : Type := MkSecurityDb {
  executor_authorizations : gmap Uuid AuthorizationRow;
  fence_journal : gmap Z FenceRow;
  drain_identity_journal : gmap Z IdentityRow;
  backup_boundary_journal : gmap Z IdentityRow;
  execution_resources : gmap string ResourceRow;
  execution_resource_receipts : gmap (string * Uuid) ResourceReceiptRow;
  active_disk_reservations : gmap Uuid DiskReservationRow;
  executor_phase_journal : gmap (Uuid * string) PhaseJournalRow;
  executor_phase_receipts : gmap (Uuid * string) PhaseReceiptRow;
  executor_rollback_takeovers : gmap Uuid TakeoverRow;
  authorized_phase_specs : gmap (Uuid * string) PhaseSpecRow;
  verified_backup_chains : gmap (Uuid * string) BackupChainRow;
  consumed_mutation_grants : gmap Uuid MutationGrantRow;
  project_bootstrap_ledger : gmap ProjectId BootstrapRow;
  source_gate_proofs : gmap (Uuid * string) GateProofRow;
  source_gate_rejections : gmap (Uuid * string) GateRejectionRow;
  source_trust_highwater : gmap ProjectId HighwaterRow;
  fence_epoch : Z
}.

#[global] Instance SecurityDb_eta : Eta SecurityDb := λ r,
  MkSecurityDb (executor_authorizations r) (fence_journal r) (drain_identity_journal r)
    (backup_boundary_journal r) (execution_resources r) (execution_resource_receipts r)
    (active_disk_reservations r) (executor_phase_journal r) (executor_phase_receipts r)
    (executor_rollback_takeovers r) (authorized_phase_specs r) (verified_backup_chains r)
    (consumed_mutation_grants r) (project_bootstrap_ledger r) (source_gate_proofs r)
    (source_gate_rejections r) (source_trust_highwater r) (fence_epoch r).

Abbreviation SecurityTx := (Tx SecurityDb StoreError).

(** ** Reads *)

Definition epoch_desc (a b : Z * FenceRow) : comparison := fr_epoch b.2 ?= fr_epoch a.2.
Definition identity_epoch_desc (a b : Z * IdentityRow) : comparison := ir_epoch b.2 ?= ir_epoch a.2.

Definition fence_of_row (project_id : ProjectId) (row : Z * FenceRow)
    : Result StoreError FenceLease :=
  let? epoch := ok_or (CorruptSecurityJournal "fence epoch") (u64_try_from (fr_epoch row.2)) in
  let? state := FenceJournalState_parse (fr_state row.2) in
  Ok {| fl_journal_id := row.1;
        fl_project_id := project_id;
        fl_attempt_id := fr_attempt_id row.2;
        fl_epoch := epoch;
        fl_token := fr_token row.2;
        fl_created_at_ms := fr_created_at_ms row.2;
        fl_state := state;
        fl_release_safe_receipt_digest := fr_release_safe_receipt_digest row.2 |}.

Definition load_fence_with_predicate (project_id : ProjectId) (predicate : FenceRow → bool)
    (db : SecurityDb) : Result StoreError (option FenceLease) :=
  match head (sort_by epoch_desc (select_rows (λ _ row,
          (fr_project_id row == project_id) && predicate row) (fence_journal db))) with
  | None => Ok None
  | Some row => let? lease := fence_of_row project_id row in Ok (Some lease)
  end.

Definition load_active_fence (project_id : ProjectId) (db : SecurityDb)
    : Result StoreError (option FenceLease) :=
  load_fence_with_predicate project_id (λ row, fr_state row != "released"%string) db.

(** [load_active_drain_identity] and [load_active_backup_boundary], which differ
    in the table and in the name of the epoch in the error. *)
Definition load_active_identity (what : string) (table : gmap Z IdentityRow)
    (project_id : ProjectId) : Result StoreError (option IdentityLease) :=
  match head (sort_by identity_epoch_desc (select_rows (λ _ row,
          (ir_project_id row == project_id) && (ir_state row == "reserved"%string)) table)) with
  | None => Ok None
  | Some (journal_id, row) =>
      let? epoch := ok_or (CorruptSecurityJournal what) (u64_try_from (ir_epoch row)) in
      Ok (Some {| il_journal_id := journal_id;
                  il_project_id := project_id;
                  il_attempt_id := ir_attempt_id row;
                  il_epoch := epoch;
                  il_token := ir_token row;
                  il_created_at_ms := ir_created_at_ms row |})
  end.

Definition load_active_drain_identity (project_id : ProjectId) (db : SecurityDb)
    : Result StoreError (option IdentityLease) :=
  load_active_identity "drain epoch" (drain_identity_journal db) project_id.

Definition load_active_backup_boundary (project_id : ProjectId) (db : SecurityDb)
    : Result StoreError (option IdentityLease) :=
  load_active_identity "backup boundary epoch" (backup_boundary_journal db) project_id.

(** A read of the tables inside a transaction. *)
Definition query {A} (f : SecurityDb → Result StoreError A) : SecurityTx A :=
  λ db, let? a := f db in Ok (a, db).

Definition require_authorized (attempt_id : Uuid) : SecurityTx unit :=
  query (λ db, ensure (is_some (executor_authorizations db !! attempt_id))
                 ExecutorAttemptUnauthorized).

Definition require_authorized_for_project (attempt_id : Uuid) (project_id : ProjectId)
    (digest : option EvidenceDigest) : SecurityTx unit :=
  query (λ db,
    match executor_authorizations db !! attempt_id with
    | Some row =>
        if (ar_project_id row == project_id)
           && match digest with None => true | Some expected => expected == ar_digest row end
        then Ok tt
        else Err ExecutorAuthorizationBinding
    | None => Err ExecutorAttemptUnauthorized
    end).

Definition owned_by_other (attempt_id : Uuid) (owner : option Uuid) : bool :=
  match owner with Some other => other != attempt_id | None => false end.

(** The three loads run in the order of the [||] chain, each only when the
    previous ones found no conflict. *)
Definition require_project_resource_allowed (project_id : ProjectId) (attempt_id : Uuid)
    : SecurityTx unit :=
  let? _ := require_authorized_for_project attempt_id project_id None in
  let? fence := query (load_active_fence project_id) in
  if owned_by_other attempt_id (fl_attempt_id <$> fence) then tx_err FenceConflict
  else
    let? drain := query (load_active_drain_identity project_id) in
    if owned_by_other attempt_id (il_attempt_id <$> drain) then tx_err FenceConflict
    else
      let? boundary := query (load_active_backup_boundary project_id) in
      if owned_by_other attempt_id (il_attempt_id <$> boundary) then tx_err FenceConflict
      else tx_ok tt.

Definition resource_owner (db : SecurityDb) (resource_key : string) : option Uuid :=
  rs_owner_attempt_id <$> execution_resources db !! resource_key.

Definition require_resource_key_owned (resource_key : string) (attempt_id : Uuid)
    : SecurityTx unit :=
  query (λ db, ensure (resource_owner db resource_key == Some attempt_id)
                 ExecutionResourceOwnership).

(** A read leaves the tables as they are. *)
Lemma query_Ok {A} (f : SecurityDb → Result StoreError A) db a db' :
  query f db = Ok (a, db') ↔ f db = Ok a ∧ db' = db.
Proof.
  unfold query. destruct (f db); simpl; split; intros; destruct_and?; by simplify_eq.
Qed.

End SecurityDb.

(** Invert a success through reads as well. *)
Ltac inv_query :=
  repeat (inv_ok; match goal with
    | Hq : query _ _ = Ok (_, _) |- _ => apply query_Ok in Hq as [? ->] end);
  inv_ok.
