(* ===== verification/Resources.v ===== *)
(** * Execution resources and disk reservations of the security store

    Model of the resource operations of [src/src/store/security.rs]
    ([SecurityStore::acquire_resource], [release_resource],
    [release_resource_if_owned], [acquire_disk_reservation],
    [release_disk_reservation_if_owned]) over the tables of [SecurityDb]. *)

From Stdlib Require Import ZArith Lia String.
From stdpp Require Import base gmap strings option list_numbers list.
From S2P Require Import Prelude Identifiers Text Failure Operation Errors Budget Controller SecurityDb.

Local Open Scope Z_scope.

Section Resources.
Context `{!Json AuthorizedDiskReservation, !Json PhaseArtifacts, !Json PhaseReceipt}.
Context `{!Sha256, !Jcs ReservationPayload}.

Abbreviation SecurityTx := (Tx SecurityDb StoreError).

(** ** Resources *)

Definition acquire_resource_key_in_transaction (resource_key : string) (attempt_id : Uuid)
    (acquired_at_ms : Z) : SecurityTx unit :=
  let? owner := gets (λ db, resource_owner db resource_key) in
  match owner with
  | Some owner => if owner == attempt_id then tx_ok tt else tx_err ExecutionResourceBusy
  | None =>
      let? _ := modify (λ db, db <| execution_resources :=
        <[resource_key := MkResourceRow attempt_id acquired_at_ms]> (execution_resources db) |>) in
      modify (λ db, db <| execution_resource_receipts :=
        <[(resource_key, attempt_id) := MkResourceReceiptRow "acquired" acquired_at_ms]>
          (execution_resource_receipts db) |>)
  end.

Definition acquire_resource_in_transaction (resource : ExecutionResource) (attempt_id : Uuid)
    (acquired_at_ms : Z) : SecurityTx unit :=
  let? _ :=
    match resource with
    | ProjectDeploy project_id => require_project_resource_allowed project_id attempt_id
    | GlobalBuild | GlobalHeavyIo | GlobalLocalRegistry => require_authorized attempt_id
    end in
  acquire_resource_key_in_transaction (ExecutionResource_key resource) attempt_id acquired_at_ms.

Definition acquire_resource (resource : ExecutionResource) (attempt_id : Uuid)
    (acquired_at_ms : Z) (db : SecurityDb) : SecurityDb * Result StoreError unit :=
  immediate_transaction (acquire_resource_in_transaction resource attempt_id acquired_at_ms) db.

(** [DELETE FROM execution_resources ..; UPDATE execution_resource_receipts SET
    state = 'released' ..], the statements of both release paths. *)
Definition delete_resource (resource_key : string) (attempt_id : Uuid) (released_at_ms : Z)
    : SecurityTx unit :=
  let? _ := modify (λ db, db <| execution_resources :=
                                  delete resource_key (execution_resources db) |>) in
  modify (λ db, db <| execution_resource_receipts :=
    alter (λ _, MkResourceReceiptRow "released" released_at_ms) (resource_key, attempt_id)
      (execution_resource_receipts db) |>).

Definition release_resource (resource : ExecutionResource) (attempt_id : Uuid)
    (released_at_ms : Z) (db : SecurityDb) : SecurityDb * Result StoreError unit :=
  let resource_key := ExecutionResource_key resource in
  immediate_transaction (
    let? owner := gets (λ db, resource_owner db resource_key) in
    match owner with
    | Some owner =>
        if owner == attempt_id then delete_resource resource_key attempt_id released_at_ms
        else tx_err ExecutionResourceOwnership
    | None =>
        let? released := gets (λ db,
          rc_state <$> execution_resource_receipts db !! (resource_key, attempt_id)) in
        if released == Some "released"%string then tx_ok tt
        else tx_err ExecutionResourceOwnership
    end) db.

Definition release_resource_key_if_owned_in_transaction (resource_key : string)
    (attempt_id : Uuid) (released_at_ms : Z) : SecurityTx unit :=
  let? owner := gets (λ db, resource_owner db resource_key) in
  if owner != Some attempt_id then tx_ok tt
  else delete_resource resource_key attempt_id released_at_ms.

Definition release_resource_if_owned (resource : ExecutionResource) (attempt_id : Uuid)
    (released_at_ms : Z) (db : SecurityDb) : SecurityDb * Result StoreError unit :=
  immediate_transaction (release_resource_key_if_owned_in_transaction
    (ExecutionResource_key resource) attempt_id released_at_ms) db.

(** ** Disk reservations *)

Record ActiveDiskReservation : Type := MkActiveDiskReservation {
  ac_project_id : ProjectId;
  ac_required_bytes : Z;
  ac_emergency_reserve_bytes : Z;
  ac_filesystem_identity : EvidenceDigest;
  ac_reservation_digest : EvidenceDigest
}.

Definition ActiveDiskReservation_matches (active : ActiveDiskReservation)
    (project_id : ProjectId) (claim : AuthorizedDiskReservation) : bool :=
  (ac_project_id active == project_id)
  && (ac_required_bytes active =? ad_required_bytes claim)
  && (ac_emergency_reserve_bytes active =? ad_emergency_reserve_bytes claim)
  && (ac_filesystem_identity active == ad_filesystem_identity claim)
  && (ac_reservation_digest active == ad_reservation_digest claim).

Definition disk_bytes_to_i64 (bytes : Z) : Result StoreError Z :=
  ok_or DiskReservationRange (i64_try_from bytes).

Definition disk_bytes_from_i64 (bytes : Z) : Result StoreError Z :=
  ok_or DiskReservationRange (u64_try_from bytes).

Definition validate_disk_observation (claim : AuthorizedDiskReservation)
    (observation : DiskAvailabilityObservation) (now_ms : Z) : Result StoreError unit :=
  let age_ms := i64_checked_sub now_ms (do_observed_at_ms observation) in
  if (do_filesystem_identity observation != ad_filesystem_identity claim)
     || (do_observed_at_ms observation <? 0)
     || negb match age_ms with
             | Some age => (0 <=? age) && (age <=? DISK_OBSERVATION_MAX_AGE_MS)
             | None => false
             end
     || is_none (i64_try_from (do_available_bytes observation))
  then Err DiskObservationInvalid
  else Ok tt.

Definition load_authorized_disk_reservation (project_id : ProjectId) (attempt_id : Uuid)
    (db : SecurityDb) : Result StoreError AuthorizedDiskReservation :=
  let? row := ok_or ExecutorAttemptUnauthorized (executor_authorizations db !! attempt_id) in
  if ar_project_id row != project_id then Err ExecutorAuthorizationBinding
  else
    let? json := ok_or DiskReservationAuthorizationMissing (ar_disk_reservation_json row) in
    let? claim := map_err JsonError (json_from_str json) in
    if ad_operation_digest claim != ar_digest row
    then Err DiskReservationAuthorizationInvalid
    else
      let? valid := map_err JsonError (has_valid_reservation_digest claim) in
      if negb valid then Err DiskReservationAuthorizationInvalid else Ok claim.

Definition load_active_disk_reservation (attempt_id : Uuid) (db : SecurityDb)
    : Result StoreError (option ActiveDiskReservation) :=
  match active_disk_reservations db !! attempt_id with
  | None => Ok None
  | Some row =>
      let? required := disk_bytes_from_i64 (dr_required_bytes row) in
      let? emergency := disk_bytes_from_i64 (dr_emergency_reserve_bytes row) in
      Ok (Some (MkActiveDiskReservation (dr_project_id row) required emergency
                  (dr_filesystem_identity row) (dr_reservation_digest row)))
  end.

(** The loop of [active_disk_reservation_totals]. *)
Fixpoint sum_reservations (reserved emergency_max : Z) (rows : list (Uuid * DiskReservationRow))
    : Result StoreError (Z * Z) :=
  match rows with
  | [] => Ok (reserved, emergency_max)
  | (_, row) :: rest =>
      let? required := disk_bytes_from_i64 (dr_required_bytes row) in
      let? emergency := disk_bytes_from_i64 (dr_emergency_reserve_bytes row) in
      let? operation := ok_or DiskReservationAuthorizationInvalid
                          (u64_checked_sub required emergency) in
      let? reserved := ok_or DiskReservationRange (u64_checked_add reserved operation) in
      sum_reservations reserved (Z.max emergency_max emergency) rest
  end.

Definition active_disk_reservation_totals (filesystem_identity : EvidenceDigest)
    (excluded_attempt_id : Uuid) (db : SecurityDb) : Result StoreError (Z * Z) :=
  sum_reservations 0 0 (select_rows (λ attempt row,
    (dr_filesystem_identity row == filesystem_identity) && (attempt != excluded_attempt_id))
    (active_disk_reservations db)).

(** The [CHECK], [UNIQUE] and foreign-key constraints of
    [active_disk_reservations] on a new or updated row. *)
Definition disk_row_check (row : DiskReservationRow) : bool :=
  (0 <? dr_required_bytes row) && (0 <? dr_emergency_reserve_bytes row)
  && (dr_emergency_reserve_bytes row <? dr_required_bytes row)
  && (dr_required_bytes row <=? dr_available_bytes row) && (0 <=? dr_observed_at_ms row).

Definition insert_disk_reservation (attempt_id : Uuid) (row : DiskReservationRow)
    : SecurityTx unit :=
  let? active := gets active_disk_reservations in
  let? authorizations := gets executor_authorizations in
  let? _ := lift (ensure (is_none (active !! attempt_id)) (Sqlite PrimaryKeyViolation)) in
  let? _ := lift (ensure (negb (row_exists (λ _ other, dr_project_id other == dr_project_id row)
                                  active)) (Sqlite UniqueViolation)) in
  let? _ := lift (ensure (disk_row_check row) (Sqlite CheckViolation)) in
  let? _ := lift (ensure (is_some (authorizations !! attempt_id)) (Sqlite ForeignKeyViolation)) in
  modify (λ db, db <| active_disk_reservations :=
                        <[attempt_id := row]> (active_disk_reservations db) |>).

Definition update_disk_observation (attempt_id : Uuid) (available observed_at_ms : Z)
    : SecurityTx unit :=
  let? active := gets active_disk_reservations in
  match active !! attempt_id with
  | None => tx_ok tt
  | Some row =>
      let row := row <| dr_available_bytes := available |>
                     <| dr_observed_at_ms := observed_at_ms |> in
      let? _ := lift (ensure (disk_row_check row) (Sqlite CheckViolation)) in
      modify (λ db, db <| active_disk_reservations :=
                            <[attempt_id := row]> (active_disk_reservations db) |>)
  end.

Definition acquire_disk_reservation (project_id : ProjectId) (attempt_id : Uuid)
    (observation : DiskAvailabilityObservation) (acquired_at_ms : Z) (db : SecurityDb)
    : SecurityDb * Result StoreError unit :=
  immediate_transaction (
    let? claim := query (load_authorized_disk_reservation project_id attempt_id) in
    let? _ := lift (validate_disk_observation claim observation acquired_at_ms) in
    let? existing := query (load_active_disk_reservation attempt_id) in
    let? already_active :=
      match existing with
      | Some existing =>
          if negb (ActiveDiskReservation_matches existing project_id claim)
          then tx_err DiskReservationAuthorizationInvalid
          else
            let? _ := require_resource_key_owned (disk_reservation_resource_key project_id)
                        attempt_id in
            tx_ok true
      | None => tx_ok false
      end in
    let? totals := query (active_disk_reservation_totals (ad_filesystem_identity claim)
                            attempt_id) in
    let? operation_bytes := lift (ok_or DiskReservationAuthorizationInvalid
                                    (AuthorizedDiskReservation_operation_bytes claim)) in
    let? requested_operation_bytes := lift (ok_or DiskReservationRange
                                              (u64_checked_add totals.1 operation_bytes)) in
    let? requested_total := lift (ok_or DiskReservationRange
      (u64_checked_add requested_operation_bytes
         (Z.max totals.2 (ad_emergency_reserve_bytes claim)))) in
    if do_available_bytes observation <? requested_total
    then tx_err (DiskReservationCapacity requested_total (do_available_bytes observation))
    else if already_active : bool then
      let? available := lift (disk_bytes_to_i64 (do_available_bytes observation)) in
      update_disk_observation attempt_id available (do_observed_at_ms observation)
    else
      let? _ := require_project_resource_allowed project_id attempt_id in
      let? _ := acquire_resource_key_in_transaction (disk_reservation_resource_key project_id)
                  attempt_id acquired_at_ms in
      let? required := lift (disk_bytes_to_i64 (ad_required_bytes claim)) in
      let? emergency := lift (disk_bytes_to_i64 (ad_emergency_reserve_bytes claim)) in
      let? available := lift (disk_bytes_to_i64 (do_available_bytes observation)) in
      insert_disk_reservation attempt_id
        (MkDiskReservationRow project_id required emergency available
           (ad_filesystem_identity claim) (ad_reservation_digest claim)
           (do_observed_at_ms observation) acquired_at_ms)) db.

Definition release_disk_reservation_if_owned (project_id : ProjectId) (attempt_id : Uuid)
    (released_at_ms : Z) (db : SecurityDb) : SecurityDb * Result StoreError unit :=
  immediate_transaction (
    let? existing := query (load_active_disk_reservation attempt_id) in
    let? _ :=
      match existing with
      | Some existing =>
          if ac_project_id existing != project_id then tx_err ExecutionResourceOwnership
          else
            let? _ := require_resource_key_owned (disk_reservation_resource_key project_id)
                        attempt_id in
            modify (λ db, db <| active_disk_reservations :=
                                  delete attempt_id (active_disk_reservations db) |>)
      | None => tx_ok tt
      end in
    release_resource_key_if_owned_in_transaction (disk_reservation_resource_key project_id)
      attempt_id released_at_ms) db.
End Resources.
