(* ===== verification/ResourceSpec.v ===== *)
(** * What the resource and disk-reservation operations guarantee

    Theorems on [Resources.v] for any sequence of the five operations, each run
    by some attempt: a resource has one owner and only its owner releases it, an
    active disk reservation always holds the disk key of its project, and the
    reservations admitted on a filesystem fit in the space last observed there. *)

From Stdlib Require Import ZArith Lia String.
From stdpp Require Import base gmap strings option list_numbers list.
From S2P Require Import Prelude Identifiers Text Failure Operation.
From S2P Require Import Errors Budget Controller ControlStore SecurityDb Resources.

Local Open Scope Z_scope.

(** ** Resource keys *)

Lemma string_app_inj_l (a b c : string) : (a ++ b = a ++ c → b = c)%string.
Proof. induction a as [|x a IH]; simpl; [done|]. intros [= ?]. auto. Qed.

#[global] Instance ExecutionResource_key_inj : Inj (=) (=) ExecutionResource_key.
Proof.
  intros [| | |[p]] [| | |[q]]; simpl; try done.
  intros Heq. do 2 f_equal. by apply (string_app_inj_l "project:deploy:").
Qed.

#[global] Instance disk_key_inj : Inj (=) (=) disk_reservation_resource_key.
Proof.
  intros [p] [q] Heq. f_equal. by apply (string_app_inj_l "project:disk_reservation:").
Qed.

Lemma resource_key_not_disk_key resource project :
  ExecutionResource_key resource ≠ disk_reservation_resource_key project.
Proof. by destruct resource as [| | |[p]], project as [q]. Qed.

(** ** Disk usage of a filesystem *)

Definition row_operation_bytes (row : DiskReservationRow) : Z :=
  dr_required_bytes row - dr_emergency_reserve_bytes row.

Definition rows_operation_bytes (rows : list (Uuid * DiskReservationRow)) : Z :=
  foldr Z.add 0 ((λ row, row_operation_bytes row.2) <$> rows).

Definition rows_emergency_bytes (rows : list (Uuid * DiskReservationRow)) : Z :=
  foldr Z.max 0 ((λ row, dr_emergency_reserve_bytes row.2) <$> rows).

(** What a set of reservations commits: every operation's bytes, and one
    emergency reserve, the largest. *)
Definition rows_committed_bytes (rows : list (Uuid * DiskReservationRow)) : Z :=
  rows_operation_bytes rows + rows_emergency_bytes rows.

Lemma rows_operation_bytes_cons row rows :
  rows_operation_bytes (row :: rows) = row_operation_bytes row.2 + rows_operation_bytes rows.
Proof. done. Qed.

Lemma rows_emergency_bytes_cons row rows :
  rows_emergency_bytes (row :: rows)
  = Z.max (dr_emergency_reserve_bytes row.2) (rows_emergency_bytes rows).
Proof. done. Qed.

Lemma foldr_add_perm (l k : list Z) : l ≡ₚ k → foldr Z.add 0 l = foldr Z.add 0 k.
Proof. induction 1; simpl; lia. Qed.

Lemma foldr_max_perm (l k : list Z) : l ≡ₚ k → foldr Z.max 0 l = foldr Z.max 0 k.
Proof. induction 1; simpl; lia. Qed.

#[global] Instance rows_operation_bytes_proper :
  Proper ((≡ₚ) ==> (=)) rows_operation_bytes.
Proof. intros l k Hp. apply foldr_add_perm. by rewrite Hp. Qed.

#[global] Instance rows_emergency_bytes_proper :
  Proper ((≡ₚ) ==> (=)) rows_emergency_bytes.
Proof. intros l k Hp. apply foldr_max_perm. by rewrite Hp. Qed.

#[global] Instance rows_committed_bytes_proper :
  Proper ((≡ₚ) ==> (=)) rows_committed_bytes.
Proof. intros l k Hp. unfold rows_committed_bytes. by rewrite Hp. Qed.

Lemma sum_reservations_Ok reserved emergency rows r :
  0 ≤ emergency → sum_reservations reserved emergency rows = Ok r →
  r = (reserved + rows_operation_bytes rows, Z.max emergency (rows_emergency_bytes rows)).
Proof.
  revert reserved emergency.
  induction rows as [|[attempt row] rows IH]; intros reserved emergency He Hsum.
  - simpl in Hsum. inv_ok. unfold rows_operation_bytes, rows_emergency_bytes. f_equal; simpl; lia.
  - rewrite rows_operation_bytes_cons, rows_emergency_bytes_cons. simpl in Hsum.
    unfold disk_bytes_from_i64, u64_try_from, u64_checked_sub, u64_checked_add in Hsum.
    inv_ok. repeat match goal with
      | Hc : checked_range _ _ _ = Some _ |- _ => apply checked_range_Some in Hc as [-> ?] end.
    apply IH in Hsum as ->; [|lia].
    unfold row_operation_bytes in *. f_equal; simpl; lia.
Qed.

(** The rows of a selection after the row of [k] is written: that row and the
    selection without [k]. *)
Lemma select_rows_insert {K V} `{Countable K} (p : K → V → bool) (table : gmap K V) k v :
  p k v = true →
  select_rows p (<[k := v]> table)
    ≡ₚ (k, v) :: select_rows (λ k' v', p k' v' && (k' != k)) table.
Proof.
  intros Hp. apply NoDup_Permutation.
  - apply NoDup_filter, NoDup_map_to_list.
  - constructor; [|apply NoDup_filter, NoDup_map_to_list].
    rewrite select_rows_elem. bool_prop. naive_solver.
  - intros [k' v']. rewrite elem_of_cons, !select_rows_elem. bool_prop.
    destruct (decide (k' = k)) as [->|Hne].
    + rewrite lookup_insert_eq. naive_solver.
    + rewrite lookup_insert_ne by done. naive_solver.
Qed.

(** ** Abstract lock manager

    Keys with their owners and the disk claims of the attempts; every abstract
    step is taken by an actor. *)

Record Claim : Type := MkClaim {
  cl_project : ProjectId;
  cl_filesystem : EvidenceDigest;
  cl_required : Z;
  cl_emergency : Z
}.

Record LockState : Type := MkLockState {
  locks : gmap string Uuid;
  claims : gmap Uuid Claim
}.

Inductive lock_step (actor : Uuid) (s : LockState) : LockState → Prop :=
| lock_stay : lock_step actor s s
| lock_take resource :
    locks s !! ExecutionResource_key resource = None →
    lock_step actor s (MkLockState (<[ExecutionResource_key resource := actor]> (locks s)) (claims s))
| lock_drop resource :
    locks s !! ExecutionResource_key resource = Some actor →
    lock_step actor s (MkLockState (delete (ExecutionResource_key resource) (locks s)) (claims s))
| lock_claim claim :
    locks s !! disk_reservation_resource_key (cl_project claim) ∈ [None; Some actor] →
    claims s !! actor = None →
    (∀ other claim', claims s !! other = Some claim' → cl_project claim' ≠ cl_project claim) →
    lock_step actor s (MkLockState
      (<[disk_reservation_resource_key (cl_project claim) := actor]> (locks s))
      (<[actor := claim]> (claims s)))
| lock_unclaim project :
    locks s !! disk_reservation_resource_key project = Some actor →
    (∀ claim, claims s !! actor = Some claim → cl_project claim = project) →
    lock_step actor s (MkLockState
      (delete (disk_reservation_resource_key project) (locks s)) (delete actor (claims s))).

(** Every claim holds the disk key of its project. *)
Definition lock_inv (s : LockState) : Prop :=
  ∀ attempt claim, claims s !! attempt = Some claim →
    locks s !! disk_reservation_resource_key (cl_project claim) = Some attempt.

Lemma lock_step_inv actor s s' : lock_step actor s s' → lock_inv s → lock_inv s'.
Proof.
  intros Hstep Hinv attempt claim.
  destruct Hstep as [|resource Hfree|resource Howner|new Hkey Hnone Huniq|project Howner Hproj];
    simpl; intros Hclaim.
  - auto.
  - rewrite lookup_insert_ne by apply resource_key_not_disk_key. auto.
  - rewrite lookup_delete_ne by apply resource_key_not_disk_key. auto.
  - apply lookup_insert_Some in Hclaim as [[<- <-]|[Hne Hclaim]]; [by rewrite lookup_insert_eq|].
    rewrite lookup_insert_ne; [auto|]. intros Heq%(inj _). by destruct (Huniq _ _ Hclaim).
  - apply lookup_delete_Some in Hclaim as [Hne Hclaim]. apply Hinv in Hclaim as Hkey.
    rewrite lookup_delete_ne; [done|]. congruence.
Qed.

(** Nobody but its owner moves a key. *)
Lemma lock_step_owner actor s s' key owner :
  lock_step actor s s' → locks s !! key = Some owner → owner ≠ actor →
  locks s' !! key = Some owner.
Proof.
  intros Hstep Hkey Hne.
  destruct Hstep as [|resource Hfree|resource Howner|new Hnew Hnone Huniq|project Howner Hproj];
    simpl; [done|..];
    (rewrite lookup_insert_ne || rewrite lookup_delete_ne); try done; intros <-; simplify_eq.
  rewrite Hkey in Hnew. set_solver.
Qed.

(** ** The operations *)

Section ResourceSpec.
Context `{!Json AuthorizedDiskReservation, !Json PhaseArtifacts, !Json PhaseReceipt}.
Context `{!Sha256, !Jcs ReservationPayload}.

(** The reservations active on a filesystem. *)
Definition filesystem_rows (filesystem : EvidenceDigest) (db : SecurityDb)
    : list (Uuid * DiskReservationRow) :=
  select_rows (λ _ row, dr_filesystem_identity row == filesystem) (active_disk_reservations db).

(** An operation of the store, run by [actor]. *)
Inductive resource_step (actor : Uuid) (db : SecurityDb) : SecurityDb → Prop :=
| step_acquire resource t :
    resource_step actor db (acquire_resource resource actor t db).1
| step_release resource t :
    resource_step actor db (release_resource resource actor t db).1
| step_release_if_owned resource t :
    resource_step actor db (release_resource_if_owned resource actor t db).1
| step_acquire_disk project observation t :
    resource_step actor db (acquire_disk_reservation project actor observation t db).1
| step_release_disk project t :
    resource_step actor db (release_disk_reservation_if_owned project actor t db).1.

Lemma require_project_resource_allowed_Ok project attempt db u db' :
  require_project_resource_allowed project attempt db = Ok (u, db') → db' = db.
Proof.
  unfold require_project_resource_allowed, require_authorized_for_project. intros Hok.
  inv_query. repeat (case_ok; inv_query); done.
Qed.

Lemma acquire_key_Ok key attempt t db u db' :
  acquire_resource_key_in_transaction key attempt t db = Ok (u, db') →
  (db' = db ∧ resource_owner db key = Some attempt)
  ∨ (resource_owner db key = None
     ∧ db' = db <| execution_resources := <[key := MkResourceRow attempt t]> (execution_resources db) |>
                <| execution_resource_receipts :=
                     <[(key, attempt) := MkResourceReceiptRow "acquired" t]>
                       (execution_resource_receipts db) |>).
Proof.
  unfold acquire_resource_key_in_transaction. intros Hok. inv_ok.
  repeat case_ok; bool_prop; subst; eauto.
Qed.

Lemma delete_resource_Ok key attempt t db u db' :
  delete_resource key attempt t db = Ok (u, db') →
  execution_resources db' = delete key (execution_resources db)
  ∧ active_disk_reservations db' = active_disk_reservations db.
Proof. unfold delete_resource. intros Hok. by inv_ok. Qed.

Lemma release_key_Ok key attempt t db u db' :
  release_resource_key_if_owned_in_transaction key attempt t db = Ok (u, db') →
  (db' = db ∧ resource_owner db key ≠ Some attempt)
  ∨ (resource_owner db key = Some attempt
     ∧ execution_resources db' = delete key (execution_resources db)
     ∧ active_disk_reservations db' = active_disk_reservations db).
Proof.
  unfold release_resource_key_if_owned_in_transaction. intros Hok. inv_ok.
  case_ok; bool_prop; [by left|]. right. split; [done|]. by eapply delete_resource_Ok.
Qed.

(** ** Refinement *)

Definition row_claim (row : DiskReservationRow) : Claim :=
  MkClaim (dr_project_id row) (dr_filesystem_identity row) (dr_required_bytes row)
    (dr_emergency_reserve_bytes row).

Definition lock_state (db : SecurityDb) : LockState :=
  MkLockState (rs_owner_attempt_id <$> execution_resources db)
    (row_claim <$> active_disk_reservations db).

Lemma lock_state_owner db key : locks (lock_state db) !! key = resource_owner db key.
Proof. apply lookup_fmap. Qed.

(** The guard of [acquire_resource] only reads. *)
Lemma acquire_resource_Ok resource attempt t db u db' :
  acquire_resource resource attempt t db = (db', Ok u) →
  acquire_resource_key_in_transaction (ExecutionResource_key resource) attempt t db = Ok (u, db').
Proof.
  unfold acquire_resource, acquire_resource_in_transaction. intros Hok. inv_ok.
  match goal with Hm : match resource with _ => _ end _ = Ok (_, ?s) |- _ =>
    assert (s = db) as <- by
      (destruct resource; [unfold require_authorized in Hm; by inv_query..|];
       by eapply require_project_resource_allowed_Ok) end.
  done.
Qed.

Lemma acquire_resource_refines resource actor t db u db' :
  acquire_resource resource actor t db = (db', Ok u) →
  lock_step actor (lock_state db) (lock_state db').
Proof.
  intros [[-> _]|[Hnone ->]]%acquire_resource_Ok%acquire_key_Ok; [constructor|].
  unfold lock_state; simpl. rewrite fmap_insert. apply (lock_take _ (lock_state db)).
  by rewrite lock_state_owner.
Qed.

Lemma lock_state_delete db db' key :
  execution_resources db' = delete key (execution_resources db) →
  active_disk_reservations db' = active_disk_reservations db →
  lock_state db' = MkLockState (delete key (locks (lock_state db))) (claims (lock_state db)).
Proof. intros H1 H2. unfold lock_state. simpl. by rewrite H1, H2, fmap_delete. Qed.

Lemma release_resource_refines resource actor t db u db' :
  release_resource resource actor t db = (db', Ok u) →
  lock_step actor (lock_state db) (lock_state db').
Proof.
  unfold release_resource. intros Hok. inv_ok. repeat case_ok; bool_prop; subst; [|constructor].
  apply delete_resource_Ok in Hok as [H1 H2]. rewrite (lock_state_delete db db' _ H1 H2).
  apply lock_drop. by rewrite lock_state_owner.
Qed.

Lemma release_resource_if_owned_refines resource actor t db u db' :
  release_resource_if_owned resource actor t db = (db', Ok u) →
  lock_step actor (lock_state db) (lock_state db').
Proof.
  unfold release_resource_if_owned. intros Hok. inv_ok.
  apply release_key_Ok in Hok as [[-> _]|(Howner&H1&H2)]; [constructor|].
  rewrite (lock_state_delete db db' _ H1 H2). apply lock_drop. by rewrite lock_state_owner.
Qed.

(** ** Disk reservations *)

Definition authorized_claim (project : ProjectId) (claim : AuthorizedDiskReservation) : Claim :=
  MkClaim project (ad_filesystem_identity claim) (ad_required_bytes claim)
    (ad_emergency_reserve_bytes claim).

(** The reservations of the other attempts on a filesystem, as
    [active_disk_reservation_totals] selects them. *)
Definition other_rows (filesystem : EvidenceDigest) (attempt : Uuid) (db : SecurityDb)
    : list (Uuid * DiskReservationRow) :=
  select_rows (λ other row, (dr_filesystem_identity row == filesystem) && (other != attempt))
    (active_disk_reservations db).

Definition requested_bytes (claim : AuthorizedDiskReservation) (attempt : Uuid) (db : SecurityDb)
    : Z :=
  let others := other_rows (ad_filesystem_identity claim) attempt db in
  rows_operation_bytes others + (ad_required_bytes claim - ad_emergency_reserve_bytes claim)
  + Z.max (rows_emergency_bytes others) (ad_emergency_reserve_bytes claim).

Lemma row_claim_project row : cl_project (row_claim row) = dr_project_id row.
Proof. done. Qed.

Lemma load_active_disk_reservation_None attempt db :
  load_active_disk_reservation attempt db = Ok None → active_disk_reservations db !! attempt = None.
Proof. unfold load_active_disk_reservation. intros Hok. by case_ok. Qed.

Lemma load_active_disk_reservation_Some attempt db existing :
  load_active_disk_reservation attempt db = Ok (Some existing) →
  ∃ row, active_disk_reservations db !! attempt = Some row
    ∧ row_claim row = MkClaim (ac_project_id existing) (ac_filesystem_identity existing)
                        (ac_required_bytes existing) (ac_emergency_reserve_bytes existing).
Proof.
  unfold load_active_disk_reservation, disk_bytes_from_i64, u64_try_from. intros Hok.
  case_ok. eexists; split; [done|].
  repeat match goal with
    | Hc : checked_range _ _ _ = Some _ |- _ => apply checked_range_Some in Hc as [-> ?] end.
  simplify_eq/=. by destruct d.
Qed.

Lemma ActiveDiskReservation_matches_claim existing project claim :
  ActiveDiskReservation_matches existing project claim = true →
  MkClaim (ac_project_id existing) (ac_filesystem_identity existing)
    (ac_required_bytes existing) (ac_emergency_reserve_bytes existing)
  = authorized_claim project claim.
Proof.
  unfold ActiveDiskReservation_matches, authorized_claim. bool_prop.
  intros [[[[-> ->] ->] ->] _]. done.
Qed.

Lemma update_disk_observation_Ok attempt available observed db u db' row :
  update_disk_observation attempt available observed db = Ok (u, db') →
  active_disk_reservations db !! attempt = Some row →
  ∃ row', row_claim row' = row_claim row
    ∧ db' = db <| active_disk_reservations := <[attempt := row']> (active_disk_reservations db) |>.
Proof.
  unfold update_disk_observation. intros Hok Hrow. inv_ok. rewrite Hrow in Hok. inv_ok.
  by eexists; split; [|done].
Qed.

Lemma insert_disk_reservation_Ok attempt row db u db' :
  insert_disk_reservation attempt row db = Ok (u, db') →
  active_disk_reservations db !! attempt = None
  ∧ (∀ other row', active_disk_reservations db !! other = Some row' →
       dr_project_id row' ≠ dr_project_id row)
  ∧ db' = db <| active_disk_reservations := <[attempt := row]> (active_disk_reservations db) |>.
Proof.
  unfold insert_disk_reservation. intros Hok. inv_ok. bool_prop. split_and!; [done| |done].
  intros other row' Hrow. match goal with Hex : row_exists _ _ = false |- _ =>
    pose proof (row_exists_false _ _ Hex _ _ Hrow) as Hne end.
  simpl in Hne. by bool_prop.
Qed.

Lemma totals_Ok filesystem attempt db totals :
  active_disk_reservation_totals filesystem attempt db = Ok totals →
  totals = (rows_operation_bytes (other_rows filesystem attempt db),
            Z.max 0 (rows_emergency_bytes (other_rows filesystem attempt db))).
Proof. intros ->%sum_reservations_Ok; [done|lia]. Qed.

Lemma rows_emergency_bytes_nonneg rows : 0 ≤ rows_emergency_bytes rows.
Proof.
  induction rows as [|row rows IH]; [done|]. rewrite rows_emergency_bytes_cons. lia.
Qed.

(** The checked additions of [acquire_disk_reservation] compute the request. *)
Lemma requested_total_Ok claim attempt db totals operation sum requested :
  active_disk_reservation_totals (ad_filesystem_identity claim) attempt db = Ok totals →
  AuthorizedDiskReservation_operation_bytes claim = Some operation →
  u64_checked_add totals.1 operation = Some sum →
  u64_checked_add sum (Z.max totals.2 (ad_emergency_reserve_bytes claim)) = Some requested →
  requested = requested_bytes claim attempt db.
Proof.
  intros ->%totals_Ok [-> _]%checked_range_Some [-> _]%checked_range_Some
    [-> _]%checked_range_Some; simpl.
  pose proof (rows_emergency_bytes_nonneg
                (other_rows (ad_filesystem_identity claim) attempt db)).
  unfold requested_bytes. lia.
Qed.

Lemma disk_bytes_to_i64_Ok bytes bytes' : disk_bytes_to_i64 bytes = Ok bytes' → bytes' = bytes.
Proof. unfold disk_bytes_to_i64, i64_try_from. by intros [-> _]%ok_or_Ok%checked_range_Some. Qed.

(** What a successful [acquire_disk_reservation] checked and wrote: the request
    fits, and the claim was there already or is new with its key. *)
Lemma acquire_disk_reservation_Ok project attempt observation t db u db' :
  acquire_disk_reservation project attempt observation t db = (db', Ok u) →
  ∃ claim row,
    load_authorized_disk_reservation project attempt db = Ok claim
    ∧ validate_disk_observation claim observation t = Ok tt
    ∧ requested_bytes claim attempt db ≤ do_available_bytes observation
    ∧ active_disk_reservations db' = <[attempt := row]> (active_disk_reservations db)
    ∧ row_claim row = authorized_claim project claim
    ∧ ((execution_resources db' = execution_resources db
        ∧ row_claim <$> active_disk_reservations db !! attempt = Some (row_claim row))
       ∨ (active_disk_reservations db !! attempt = None
          ∧ (∀ other row', active_disk_reservations db !! other = Some row' →
               dr_project_id row' ≠ project)
          ∧ resource_owner db (disk_reservation_resource_key project) ∈ [None; Some attempt]
          ∧ (rs_owner_attempt_id <$> execution_resources db')
            = <[disk_reservation_resource_key project := attempt]>
                (rs_owner_attempt_id <$> execution_resources db))).
Proof.
  unfold acquire_disk_reservation. intros Hok. inv_query. rename x into claim, H0 into Hclaim.
  destruct x1. case_ok. bool_prop.
  match goal with Ht : active_disk_reservation_totals _ _ ?s = _, Hm : match ?o with _ => _ end _ = Ok (_, ?s) |- _ =>
    rename o into existing, Ht into Htotals, Hm into Hexisting; assert (s = db) as -> end.
  { clear -Hexisting. unfold require_resource_key_owned in Hexisting.
    destruct existing; [case_ok|]; by inv_query. }
  assert (requested_bytes claim attempt db ≤ do_available_bytes observation) as Hfits
    by (by erewrite <- requested_total_Ok). exists claim.
  destruct existing as [existing|].
  - destruct (ActiveDiskReservation_matches existing project claim) eqn:Hmatch; [|done].
    simpl in Hexisting. apply tx_bind_Ok in Hexisting as (?&?&?&[-> _]%tx_ok_Ok). inv_ok.
    match goal with Hl : load_active_disk_reservation _ _ = _ |- _ =>
      apply load_active_disk_reservation_Some in Hl as (row&Hrow&Heq) end.
    apply (update_disk_observation_Ok _ _ _ _ _ _ row) in Hok as (row'&Heq'&->); [|done].
    exists row'. apply ActiveDiskReservation_matches_claim in Hmatch.
    split_and!; [done..|congruence|]. left. rewrite Hrow. simpl. split; [done|congruence].
  - apply tx_ok_Ok in Hexisting as [-> _]. inv_ok.
    match goal with Hl : require_project_resource_allowed _ _ _ = _ |- _ =>
      apply require_project_resource_allowed_Ok in Hl as -> end.
    repeat match goal with Hb : disk_bytes_to_i64 _ = _ |- _ =>
      apply disk_bytes_to_i64_Ok in Hb as -> end.
    apply insert_disk_reservation_Ok in Hok as (Hnone&Huniq&->). eexists.
    match goal with Hk : acquire_resource_key_in_transaction _ _ _ _ = _ |- _ =>
      apply acquire_key_Ok in Hk as [[-> Howner]|[Howner ->]] end; simpl in *.
    + split_and!; try done. right. rewrite Howner. split_and!; [done..|set_solver|].
      symmetry. apply insert_id. by rewrite <- Howner, lookup_fmap.
    + split_and!; try done. right. rewrite Howner. split_and!; [done..|set_solver|].
      apply fmap_insert.
Qed.

Lemma acquire_disk_reservation_refines project actor observation t db u db' :
  acquire_disk_reservation project actor observation t db = (db', Ok u) →
  lock_step actor (lock_state db) (lock_state db').
Proof.
  intros (claim&row&_&_&_&Hactive&Hrow&[[Hres Hold]|(Hnone&Huniq&Howner&Hres)])%acquire_disk_reservation_Ok;
    unfold lock_state; rewrite Hactive, Hres, fmap_insert.
  - rewrite insert_id by by rewrite lookup_fmap. constructor.
  - rewrite Hrow. apply (lock_claim actor (lock_state db) (authorized_claim project claim)); simpl.
    + by rewrite lookup_fmap.
    + by rewrite lookup_fmap, Hnone.
    + intros other claim'. rewrite lookup_fmap. intros (row'&?&->)%fmap_Some. by eapply Huniq.
Qed.

Lemma release_disk_reservation_refines project actor t db u db' :
  release_disk_reservation_if_owned project actor t db = (db', Ok u) →
  lock_step actor (lock_state db) (lock_state db').
Proof.
  unfold release_disk_reservation_if_owned. intros Hok. inv_query.
  match goal with Hl : load_active_disk_reservation _ _ = Ok ?o |- _ =>
    rename Hl into Hload; destruct o as [existing|] end.
  - apply load_active_disk_reservation_Some in Hload as (row&Hrow&Hclaim).
    match goal with Hm : (if _ then _ else _) _ = Ok (_, _) |- _ => rename Hm into Hif end.
    unfold require_resource_key_owned in Hif. case_ok. inv_query. bool_prop. subst.
    apply release_key_Ok in Hok as [[_ Hno]|(Howner&H1&H2)]; [done|]. simpl in *.
    unfold lock_state. rewrite H1, H2, !fmap_delete. apply (lock_unclaim _ (lock_state db)).
    + by rewrite lock_state_owner.
    + intros claim. simpl. rewrite lookup_fmap, Hrow. intros [= <-]. by rewrite Hclaim.
  - apply load_active_disk_reservation_None in Hload. inv_ok.
    apply release_key_Ok in Hok as [[-> _]|(Howner&H1&H2)]; [constructor|].
    rewrite (lock_state_delete db db' _ H1 H2).
    rewrite <- (delete_id (claims (lock_state db)) actor) by (simpl; by rewrite lookup_fmap, Hload).
    apply (lock_unclaim _ (lock_state db)).
    + by rewrite lock_state_owner.
    + intros claim. simpl. by rewrite lookup_fmap, Hload.
Qed.

(** A rejected operation changes nothing; an accepted one is an abstract step. *)
Lemma refines_outcome actor db (out : SecurityDb * Result StoreError unit) :
  (∀ e, out.2 = Err e → out.1 = db) →
  (∀ u, out.2 = Ok u → lock_step actor (lock_state db) (lock_state out.1)) →
  lock_step actor (lock_state db) (lock_state out.1).
Proof. intros He Ho. destruct out as [db' [u|e]]; [by apply (Ho u)|]. rewrite (He e); by constructor. Qed.

Lemma transaction_rejected {A} (body : Tx SecurityDb StoreError A) db e :
  (immediate_transaction body db).2 = Err e → (immediate_transaction body db).1 = db.
Proof.
  intros Herr. eapply immediate_transaction_Err.
  rewrite (surjective_pairing (immediate_transaction body db)), Herr. done.
Qed.

Lemma pair_Ok {A} (out : SecurityDb * Result StoreError A) a :
  out.2 = Ok a → out = (out.1, Ok a).
Proof. destruct out. simpl. by intros ->. Qed.

Lemma resource_step_refines actor db db' :
  resource_step actor db db' → lock_step actor (lock_state db) (lock_state db').
Proof.
  destruct 1; apply refines_outcome; intros ? Hout; try (by eapply transaction_rejected);
    apply pair_Ok in Hout.
  - by eapply acquire_resource_refines.
  - by eapply release_resource_refines.
  - by eapply release_resource_if_owned_refines.
  - by eapply acquire_disk_reservation_refines.
  - by eapply release_disk_reservation_refines.
Qed.

(** A run of operations by the attempts that satisfy [allowed]. *)
Definition resource_run (allowed : Uuid → Prop) : SecurityDb → SecurityDb → Prop :=
  rtc (λ db db', ∃ actor, allowed actor ∧ resource_step actor db db').

Lemma resource_run_inv allowed db db' :
  resource_run allowed db db' → lock_inv (lock_state db) → lock_inv (lock_state db').
Proof.
  induction 1 as [|db1 db2 db3 (actor&_&Hstep) _ IH]; [done|].
  intros Hinv. eapply IH, lock_step_inv; [|done]. by apply resource_step_refines.
Qed.

(** ** Theorems *)

(** C38: The resource and reservation operations of the security store implement the
    abstract lock manager: any run of operations, by any attempts, is a run of
    abstract steps on the owners and claims of the tables. *)
Theorem resource_store_refines_lock_manager allowed db db' :
  resource_run allowed db db' →
  rtc (λ s s', ∃ actor, allowed actor ∧ lock_step actor s s') (lock_state db) (lock_state db').
Proof.
  apply (rtc_congruence lock_state). intros db1 db2 (actor&?&?). exists actor.
  split; [done|]. by apply resource_step_refines.
Qed.

(** Mutual exclusion: while only other attempts run operations, a resource key
    stays with the attempt that owns it. *)
Theorem resource_stays_with_its_owner owner key db db' :
  resource_run (λ actor, actor ≠ owner) db db' →
  resource_owner db key = Some owner →
  resource_owner db' key = Some owner.
Proof.
  induction 1 as [|db1 db2 db3 (actor&Hne&Hstep) _ IH]; [done|]. intros Hkey. apply IH.
  rewrite <- lock_state_owner in *. eapply lock_step_owner; [by apply resource_step_refines|done|done].
Qed.

(** From a store without active reservations, in every reachable store an active
    disk reservation owns the disk key of its project, so a project has at most
    one reservation. *)
Theorem active_reservation_owns_disk_key db db' attempt row :
  active_disk_reservations db = ∅ →
  resource_run (λ _, True) db db' →
  active_disk_reservations db' !! attempt = Some row →
  resource_owner db' (disk_reservation_resource_key (dr_project_id row)) = Some attempt
  ∧ ∀ other row', active_disk_reservations db' !! other = Some row' →
      dr_project_id row' = dr_project_id row → other = attempt.
Proof.
  intros Hempty Hrun Hrow.
  assert (∀ a r, active_disk_reservations db' !! a = Some r →
            resource_owner db' (disk_reservation_resource_key (dr_project_id r)) = Some a) as Hown.
  { intros a r Hr. rewrite <- lock_state_owner, <- row_claim_project.
    apply (resource_run_inv _ _ _ Hrun); [|simpl; by rewrite lookup_fmap, Hr].
    intros a' c. simpl. by rewrite Hempty, fmap_empty, lookup_empty. }
  split; [by apply Hown|]. intros other row' Hrow' Heq.
  apply Hown in Hrow, Hrow'. rewrite Heq in Hrow'. congruence.
Qed.

(** C37: An accepted reservation fits: the operation bytes of all reservations active
    on the filesystem afterwards, plus the largest emergency reserve among them,
    are within the space observed at most 30 seconds before. *)
Theorem disk_reservations_fit_observed_space project attempt observation t db db' :
  acquire_disk_reservation project attempt observation t db = (db', Ok tt) →
  rows_committed_bytes (filesystem_rows (do_filesystem_identity observation) db')
    ≤ do_available_bytes observation
  ∧ 0 ≤ t - do_observed_at_ms observation ≤ 30000.
Proof.
  intros (claim&row&_&Hvalid&Hfits&Hactive&Hrow&_)%acquire_disk_reservation_Ok.
  unfold validate_disk_observation in Hvalid. case_ok. bool_prop.
  destruct Heqb as [[[Hfs _] Hage] _]. split.
  - injection Hrow as Hproject Hrowfs Hrequired Hemergency.
    unfold filesystem_rows. rewrite Hfs, Hactive, select_rows_insert
      by (by apply bool_decide_eq_true).
    unfold rows_committed_bytes. rewrite rows_operation_bytes_cons, rows_emergency_bytes_cons.
    unfold requested_bytes, other_rows in Hfits. unfold row_operation_bytes. simpl.
    rewrite Hrequired, Hemergency. lia.
  - destruct (i64_checked_sub t (do_observed_at_ms observation)) as [age|] eqn:Hsub; [|done].
    apply checked_range_Some in Hsub as [-> _]. bool_prop. done.
Qed.

Lemma acquire_free_resource resource attempt t db db' :
  acquire_resource resource attempt t db = (db', Ok tt) →
  resource_owner db (ExecutionResource_key resource) = None →
  resource_owner db' (ExecutionResource_key resource) = Some attempt
  ∧ is_Some (execution_resource_receipts db' !! (ExecutionResource_key resource, attempt)).
Proof.
  intros [[-> ?]|[_ ->]]%acquire_resource_Ok%acquire_key_Ok Hfree; [congruence|].
  unfold resource_owner. simpl. by rewrite !lookup_insert_eq.
Qed.

(** A resource is released by its owner and by nobody else: after a free resource
    was acquired, the release by any other attempt is refused with
    [ExecutionResourceOwnership], the owner's release succeeds and frees the
    key, and repeating it succeeds without a change. *)
Theorem acquired_resource_is_released_by_owner resource owner other t1 t2 t3 db db' :
  acquire_resource resource owner t1 db = (db', Ok tt) →
  resource_owner db (ExecutionResource_key resource) = None →
  other ≠ owner →
  let released := (release_resource resource owner t2 db').1 in
  release_resource resource other t2 db' = (db', Err ExecutionResourceOwnership)
  ∧ (release_resource resource owner t2 db').2 = Ok tt
  ∧ resource_owner released (ExecutionResource_key resource) = None
  ∧ release_resource resource owner t3 released = (released, Ok tt).
Proof.
  intros Hok Hfree Hne. apply acquire_free_resource in Hok as [Howner [receipt Hreceipt]]; [|done].
  unfold release_resource, immediate_transaction.
  unfold mbind, tx_bind, gets, delete_resource, modify. simpl.
  rewrite Howner, bool_decide_eq_false_2 by congruence. rewrite bool_decide_eq_true_2 by done.
  unfold mbind, tx_bind, modify, resource_owner. simpl.
  rewrite lookup_delete_eq. simpl. rewrite lookup_alter_eq, Hreceipt. simpl. done.
Qed.
End ResourceSpec.

(** ** Witnesses *)

Module ResourceSample.

#[local] Instance json_reservation : Json AuthorizedDiskReservation :=
  {| json_text := AuthorizedDiskReservation; json_to_string := Ok; json_from_str := Ok |}.
#[local] Instance json_artifacts : Json PhaseArtifacts :=
  {| json_text := PhaseArtifacts; json_to_string := Ok; json_from_str := Ok |}.
#[local] Instance json_receipt : Json PhaseReceipt :=
  {| json_text := PhaseReceipt; json_to_string := Ok; json_from_str := Ok |}.
#[local] Instance sha : Sha256 := λ v, take 32 (v ++ replicate 32 0).
#[local] Instance jcs_reservation : Jcs ReservationPayload := λ p,
  let '(_, _, required, available, emergency, _, observed) := p in
  Ok [required mod 251; available mod 251; emergency mod 251; observed mod 251].

Definition digest (n : Z) : EvidenceDigest := EvidenceDigest_sha256 [n].

Definition claim (required : Z) : AuthorizedDiskReservation :=
  let reservation := calculate_reservation_digest (digest 1) required 100 10 (digest 2) 50 in
  MkAuthorizedDiskReservation (digest 1)
    (match reservation with Ok d => d | Err _ => digest 0 end) required 100 10 (digest 2) 50.

Definition authorization (n : N) (required : Z) (project : ProjectId) : AuthorizationRow :=
  MkAuthorizationRow n (digest 1) project 1000 40 (Some (claim required)).

Definition alpha : ProjectId := MkProjectId "alpha".
Definition beta : ProjectId := MkProjectId "beta".

(** Attempts 1 and 2 are authorized, for 60 and 40 bytes on one filesystem. *)
Definition db0 : SecurityDb := {|
  executor_authorizations := {[ 1%N := authorization 1 60 alpha; 2%N := authorization 2 40 beta ]};
  fence_journal := ∅;
  drain_identity_journal := ∅;
  backup_boundary_journal := ∅;
  execution_resources := ∅;
  execution_resource_receipts := ∅;
  active_disk_reservations := ∅;
  executor_phase_journal := ∅;
  executor_phase_receipts := ∅;
  executor_rollback_takeovers := ∅;
  authorized_phase_specs := ∅;
  verified_backup_chains := ∅;
  consumed_mutation_grants := ∅;
  project_bootstrap_ledger := ∅;
  source_gate_proofs := ∅;
  source_gate_rejections := ∅;
  source_trust_highwater := ∅;
  fence_epoch := 0
|}.

Definition observation (available : Z) : DiskAvailabilityObservation :=
  MkDiskAvailabilityObservation (digest 2) available 60.

Definition built : SecurityDb := (acquire_resource GlobalBuild 1 70 db0).1.
Definition reserved1 : SecurityDb :=
  (acquire_disk_reservation alpha 1 (observation 90) 70 db0).1.
Definition reserved2 : SecurityDb :=
  (acquire_disk_reservation beta 2 (observation 90) 75 reserved1).1.

(** The second reservation needs 50 + 30 + 10 bytes; with 89 it is refused. *)
Example second_reservation_refused :
  (acquire_disk_reservation beta 2 (observation 89) 75 reserved1).2
  = Err (DiskReservationCapacity 90 89).
Proof. vm_compute. reflexivity. Qed.

Lemma resource_store_refines_lock_manager_witness :
  rtc (λ s s', ∃ actor, True ∧ lock_step actor s s') (lock_state db0) (lock_state reserved1).
Proof.
  apply (resource_store_refines_lock_manager (λ _, True)).
  apply rtc_once. exists 1%N. split; [done|]. apply step_acquire_disk.
Defined.

Lemma resource_stays_with_its_owner_witness :
  resource_owner (acquire_resource GlobalBuild 2 80 built).1 "global:build" = Some 1%N.
Proof.
  apply (resource_stays_with_its_owner 1 "global:build" built).
  - apply rtc_once. exists 2%N. split; [done|]. apply step_acquire.
  - vm_compute. reflexivity.
Defined.

Lemma active_reservation_owns_disk_key_witness :
  ∃ row, active_disk_reservations reserved2 !! 1%N = Some row
    ∧ resource_owner reserved2 (disk_reservation_resource_key (dr_project_id row)) = Some 1%N.
Proof.
  eexists. split; [vm_compute; reflexivity|].
  refine (proj1 (active_reservation_owns_disk_key db0 reserved2 1 _ _ _ _)).
  - vm_compute. reflexivity.
  - eapply rtc_l; [exists 1%N; split; [exact I|]; apply (step_acquire_disk _ _ alpha (observation 90) 70)|].
    eapply rtc_l; [exists 2%N; split; [exact I|]; apply (step_acquire_disk _ _ beta (observation 90) 75)|].
    apply rtc_refl.
  - vm_compute. reflexivity.
Defined.

Lemma disk_reservations_fit_observed_space_witness :
  rows_committed_bytes (filesystem_rows (digest 2) reserved2) ≤ 90 ∧ 0 ≤ 75 - 60 ≤ 30000.
Proof.
  apply (disk_reservations_fit_observed_space beta 2 (observation 90) 75 reserved1 reserved2).
  vm_compute. reflexivity.
Defined.

Lemma acquired_resource_is_released_by_owner_witness :
  release_resource GlobalBuild 2 80 built = (built, Err ExecutionResourceOwnership)
  ∧ (release_resource GlobalBuild 1 80 built).2 = Ok tt.
Proof.
  destruct (acquired_resource_is_released_by_owner GlobalBuild 1 2 70 80 90 db0 built)
    as (H1&H2&_); [vm_compute; reflexivity..|discriminate|].
  split; [exact H1|exact H2].
Defined.

End ResourceSample.
