(* ===== verification/Fences.v ===== *)
(** * Drain identities and write fences of the security store

    Model of the fence operations of [src/src/store/security.rs]
    ([begin_drain_identity], [begin_fence_acquire], [reconcile_fence],
    [begin_fence_release] and the reads) with the phase receipts and rollback
    takeovers they consult.  A fence is a lease on the write path of a project with
    a monotone epoch: an attempt announces the acquisition, a runtime observation
    confirms it, and it is released only against a receipt that makes the release
    safe.  Fresh tokens ([Uuid::new_v4]) are arguments. *)

From Stdlib Require Import ZArith Lia String.
From stdpp Require Import base gmap strings option list_numbers list.
From S2P Require Import Prelude Identifiers States Text Failure Operation Errors Budget Controller SecurityDb.

Local Open Scope Z_scope.

(** ** Data *)

Inductive FenceObservation : Type :=
| Observed_Released
| Observed_Held (attempt_id : Uuid) (epoch : Z) (token : Uuid).

Inductive FenceProjection : Type :=
| Projection_Held
| Projection_Released
| Projection_NeedsReconcile.

#[global] Instance FenceProjection_eq_dec : EqDecision FenceProjection.
Proof. solve_decision. Defined.

Inductive PhaseJournalStatus : Type :=
| Journal_IntentPersisted
| Journal_Observed
| Journal_Verified
| Journal_Committed
| Journal_NeedsReconcile.

#[global] Instance PhaseJournalStatus_eq_dec : EqDecision PhaseJournalStatus.
Proof. solve_decision. Defined.

Definition PhaseJournalStatus_parse (value : string) : Result StoreError PhaseJournalStatus :=
  if value == "intent_persisted"%string then Ok Journal_IntentPersisted
  else if value == "observed"%string then Ok Journal_Observed
  else if value == "verified"%string then Ok Journal_Verified
  else if value == "committed"%string then Ok Journal_Committed
  else if value == "needs_reconcile"%string then Ok Journal_NeedsReconcile
  else Err (CorruptSecurityJournal "phase status").

Definition PhaseJournalStatus_as_str (status : PhaseJournalStatus) : string :=
  match status with
  | Journal_IntentPersisted => "intent_persisted"
  | Journal_Observed => "observed"
  | Journal_Verified => "verified"
  | Journal_Committed => "committed"
  | Journal_NeedsReconcile => "needs_reconcile"
  end.

Record RollbackTakeover : Type := MkRollbackTakeover {
  rt_attempt_id : Uuid;
  rt_project_id : ProjectId;
  rt_forward_phase : OperationPhase;
  rt_forward_status : PhaseJournalStatus;
  rt_forward_intent_digest : EvidenceDigest;
  rt_created_at_ms : Z
}.

Record FenceLeaseDigestPayload : Type := MkFenceLeaseDigestPayload {
  fld_purpose : string;
  fld_journal_id : Z;
  fld_project_id : ProjectId;
  fld_attempt_id : Uuid;
  fld_epoch : Z;
  fld_token : Uuid;
  fld_created_at_ms : Z
}.

#[global] Instance FenceRow_eta : Eta FenceRow := λ r,
  MkFenceRow (fr_epoch r) (fr_project_id r) (fr_attempt_id r) (fr_token r) (fr_state r)
    (fr_release_safe_receipt_digest r) (fr_created_at_ms r) (fr_updated_at_ms r).
#[global] Instance IdentityRow_eta : Eta IdentityRow := λ r,
  MkIdentityRow (ir_epoch r) (ir_project_id r) (ir_attempt_id r) (ir_token r) (ir_state r)
    (ir_created_at_ms r) (ir_updated_at_ms r).
#[global] Instance FenceLease_eta : Eta FenceLease := λ r,
  MkFenceLease (fl_journal_id r) (fl_project_id r) (fl_attempt_id r) (fl_epoch r) (fl_token r)
    (fl_created_at_ms r) (fl_state r) (fl_release_safe_receipt_digest r).

(** The next key of an [INTEGER PRIMARY KEY AUTOINCREMENT] table whose rows are
    never deleted. *)
Definition next_rowid {V} (table : gmap Z V) : Z :=
  1 + foldr Z.max 0 ((map_to_list table).*1).

Definition rollback_takeover_phase (value : string) : Result StoreError OperationPhase :=
  if value == "deploying"%string then Ok Phase_Deploying
  else if value == "health_checking"%string then Ok Phase_HealthChecking
  else if value == "soaking"%string then Ok Phase_Soaking
  else Err (CorruptSecurityJournal "rollback takeover forward phase").

(** The forward snapshots a takeover may have been taken from. *)
Definition valid_forward_snapshot (phase : OperationPhase) (status : PhaseJournalStatus) : bool :=
  match status with
  | Journal_Committed =>
      match phase with Phase_Deploying | Phase_HealthChecking | Phase_Soaking => true
      | _ => false end
  | _ => match phase with Phase_HealthChecking | Phase_Soaking => true | _ => false end
  end.

Section Fences.
Context `{!Json AuthorizedDiskReservation, !Json PhaseArtifacts, !Json PhaseReceipt}.
Context `{!Sha256, !Jcs ReceiptDigestPayload}.
Context `{!Jcs FenceLeaseDigestPayload, !Jcs FenceAcquisitionReceiptDigestPayload}.

Abbreviation SecurityTx := (Tx SecurityDb StoreError).

(** ** Phase receipts and takeovers *)

Definition decode_bound_phase_receipt (attempt_id : Uuid) (expected_phase : OperationPhase)
    (expected_branch : ExecutorPhaseBranch) (stored_digest : EvidenceDigest)
    (json : json_text PhaseReceipt) : Result StoreError PhaseReceipt :=
  let? receipt := map_err (λ _, CorruptSecurityJournal "phase receipt JSON") (json_from_str json) in
  if (pr_attempt_id receipt == attempt_id) && (pr_phase receipt == expected_phase)
     && (pr_branch receipt == expected_branch) && (pr_receipt_digest receipt == stored_digest)
  then
    let? valid := map_err (λ _, CorruptSecurityJournal "phase receipt digest payload")
                    (PhaseReceipt_has_valid_digest receipt) in
    if valid : bool then Ok receipt
    else Err (CorruptSecurityJournal "phase receipt row binding or digest")
  else Err (CorruptSecurityJournal "phase receipt row binding or digest").

Definition load_phase_receipt (attempt_id : Uuid) (storage_phase : string)
    (expected_phase : OperationPhase) (expected_branch : ExecutorPhaseBranch) (db : SecurityDb)
    : Result StoreError (option PhaseReceipt) :=
  match executor_phase_receipts db !! (attempt_id, storage_phase) with
  | None => Ok None
  | Some row =>
      let? receipt := decode_bound_phase_receipt attempt_id expected_phase expected_branch
                        (pc_receipt_digest row) (pc_receipt_json row) in
      Ok (Some receipt)
  end.

Definition require_phase_receipt (attempt_id : Uuid) (phase : OperationPhase) : SecurityTx unit :=
  let? storage_phase := lift (storage_key Branch_Primary phase) in
  let? receipt := query (load_phase_receipt attempt_id storage_phase phase Branch_Primary) in
  lift (ensure (is_some receipt) FencePhaseInvalid).

Definition require_fence_phase_receipts (attempt_id : Uuid) : SecurityTx unit :=
  let? _ := require_phase_receipt attempt_id Phase_BackingUp in
  require_phase_receipt attempt_id Phase_Draining.

(** The receipts that make a release safe, by their storage phase. *)
Definition release_safe_phase (storage_phase : string)
    : option (OperationPhase * ExecutorPhaseBranch) :=
  if storage_phase == "soaking"%string then Some (Phase_Soaking, Branch_Primary)
  else if storage_phase == "rollback_recovery_soaking"%string
  then Some (Phase_Soaking, Branch_RollbackRecovery)
  else if storage_phase == "rollback"%string then Some (Phase_Rollback, Branch_Primary)
  else None.

Definition load_release_safe_receipt (attempt_id : Uuid) (digest : EvidenceDigest)
    (db : SecurityDb) : Result StoreError (option PhaseReceipt) :=
  match head (select_rows (λ key row,
          (key.1 == attempt_id) && (pc_receipt_digest row == digest))
          (executor_phase_receipts db)) with
  | None => Ok None
  | Some ((_, storage_phase), row) =>
      match release_safe_phase storage_phase with
      | None => Ok None
      | Some (expected_phase, expected_branch) =>
          let? receipt := decode_bound_phase_receipt attempt_id expected_phase expected_branch
                            (pc_receipt_digest row) (pc_receipt_json row) in
          Ok (Some receipt)
      end
  end.

Definition release_safe_receipt_exists (attempt_id : Uuid) (digest : EvidenceDigest)
    (db : SecurityDb) : Result StoreError bool :=
  let? receipt := load_release_safe_receipt attempt_id digest db in Ok (is_some receipt).

Definition load_rollback_takeover (attempt_id : Uuid) (db : SecurityDb)
    : Result StoreError (option RollbackTakeover) :=
  match executor_rollback_takeovers db !! attempt_id with
  | None => Ok None
  | Some takeover =>
      let journal := executor_phase_journal db !! (attempt_id, tk_forward_phase takeover) in
      if ((pj_project_id <$> journal) != Some (tk_project_id takeover))
         || ((pj_status <$> journal) != Some (tk_forward_status takeover))
         || ((pj_intent_digest <$> journal) != Some (tk_forward_intent_digest takeover))
      then Err (CorruptSecurityJournal "rollback takeover journal binding")
      else
        let? forward_status := PhaseJournalStatus_parse (tk_forward_status takeover) in
        let? forward_phase := rollback_takeover_phase (tk_forward_phase takeover) in
        if negb (valid_forward_snapshot forward_phase forward_status)
        then Err (CorruptSecurityJournal "rollback takeover forward status")
        else Ok (Some (MkRollbackTakeover attempt_id (tk_project_id takeover) forward_phase
                         forward_status (tk_forward_intent_digest takeover)
                         (tk_created_at_ms takeover)))
  end.

(** ** Statements on the journals *)

Definition active_fence_of (project_id : ProjectId) (row : FenceRow) : bool :=
  (fr_project_id row == project_id) && (fr_state row != "released"%string).

(** [INSERT INTO fence_journal ..], under [CHECK(epoch > 0)] and the unique index
    on the projects of active fences; the new row's ID. *)
Definition insert_fence (row : FenceRow) : SecurityTx Z :=
  let? fences := gets fence_journal in
  let? _ := lift (ensure (0 <? fr_epoch row) (Sqlite CheckViolation)) in
  let? _ := lift (ensure ((fr_state row == "released"%string)
                          || negb (row_exists (λ _ other, active_fence_of (fr_project_id row) other)
                                     fences)) (Sqlite UniqueViolation)) in
  let journal_id := next_rowid fences in
  let? _ := modify (λ db, db <| fence_journal := <[journal_id := row]> (fence_journal db) |>) in
  tx_ok journal_id.

(** [UPDATE fence_journal SET .. WHERE journal_id = ?]: the number of rows. *)
Definition update_fence (journal_id : Z) (f : FenceRow → FenceRow) : SecurityTx Z :=
  let? fences := gets fence_journal in
  match fences !! journal_id with
  | None => tx_ok 0
  | Some row =>
      let row := f row in
      let? _ := lift (ensure ((fr_state row == "released"%string)
                              || negb (row_exists (λ other_id other,
                                   (other_id != journal_id)
                                   && active_fence_of (fr_project_id row) other) fences))
                        (Sqlite UniqueViolation)) in
      let? _ := modify (λ db, db <| fence_journal := <[journal_id := row]> (fence_journal db) |>) in
      tx_ok 1
  end.

Definition set_fence_state (journal_id : Z) (state : FenceJournalState) (updated_at_ms : Z)
    : SecurityTx unit :=
  let? changed := update_fence journal_id (λ row,
    row <| fr_state := FenceJournalState_as_str state |> <| fr_updated_at_ms := updated_at_ms |>) in
  lift (ensure (changed =? 1) (CorruptSecurityJournal "missing fence journal row")).

(** [INSERT INTO drain_identity_journal ..] with its constraints. *)
Definition insert_drain_identity (row : IdentityRow) : SecurityTx Z :=
  let? drains := gets drain_identity_journal in
  let? authorizations := gets executor_authorizations in
  let? _ := lift (ensure (negb (row_exists (λ _ other,
                (ir_epoch other =? ir_epoch row) || (ir_attempt_id other == ir_attempt_id row)
                || ((ir_project_id other == ir_project_id row)
                    && (ir_state other == "reserved"%string)
                    && (ir_state row == "reserved"%string))) drains))
              (Sqlite UniqueViolation)) in
  let? _ := lift (ensure ((0 <? ir_epoch row) && (0 <=? ir_created_at_ms row)
                          && (0 <=? ir_updated_at_ms row)) (Sqlite CheckViolation)) in
  let? _ := lift (ensure (is_some (authorizations !! ir_attempt_id row))
                    (Sqlite ForeignKeyViolation)) in
  let journal_id := next_rowid drains in
  let? _ := modify (λ db, db <| drain_identity_journal :=
                                  <[journal_id := row]> (drain_identity_journal db) |>) in
  tx_ok journal_id.

(** [UPDATE drain_identity_journal SET state = 'promoted', .. WHERE journal_id = ?
    AND state = 'reserved']. *)
Definition promote_drain_row (journal_id updated_at_ms : Z) : SecurityTx Z :=
  let? drains := gets drain_identity_journal in
  match drains !! journal_id with
  | Some row =>
      if ir_state row == "reserved"%string then
        let row := row <| ir_state := "promoted" |> <| ir_updated_at_ms := updated_at_ms |> in
        let? _ := lift (ensure (0 <=? ir_updated_at_ms row) (Sqlite CheckViolation)) in
        let? _ := modify (λ db, db <| drain_identity_journal :=
                                        <[journal_id := row]> (drain_identity_journal db) |>) in
        tx_ok 1
      else tx_ok 0
  | None => tx_ok 0
  end.

(** ** Epochs and identities *)

(** The epoch as [u64] and as the stored [i64]. *)
Definition allocate_next_fence_epoch : SecurityTx (Z * Z) :=
  let? current := gets fence_epoch in
  let? epoch := lift (ok_or (CorruptSecurityJournal "fence epoch")
    (u64_try_from current ≫= λ epoch, u64_checked_add epoch 1)) in
  let? epoch_i64 := lift (ok_or (CorruptSecurityJournal "fence epoch range")
                            (i64_try_from epoch)) in
  let? _ := modify (λ db, db <| fence_epoch := epoch_i64 |>) in
  tx_ok (epoch, epoch_i64).

Definition fence_lease (journal_id : Z) (project_id : ProjectId) (attempt_id : Uuid) (epoch : Z)
    (token : Uuid) (created_at_ms : Z) : FenceLease := {|
  fl_journal_id := journal_id;
  fl_project_id := project_id;
  fl_attempt_id := attempt_id;
  fl_epoch := epoch;
  fl_token := token;
  fl_created_at_ms := created_at_ms;
  fl_state := Fence_AcquireIntent;
  fl_release_safe_receipt_digest := None
|}.

Definition promote_drain_identity (project_id : ProjectId) (attempt_id : Uuid)
    (drain : IdentityLease) (created_at_ms : Z) : SecurityTx FenceLease :=
  if il_attempt_id drain != attempt_id then tx_err FenceConflict
  else
    let? epoch_i64 := lift (ok_or (CorruptSecurityJournal "fence epoch range")
                              (i64_try_from (il_epoch drain))) in
    let? updated := promote_drain_row (il_journal_id drain) created_at_ms in
    if negb (updated =? 1) then tx_err (CorruptSecurityJournal "drain identity promotion")
    else
      let? journal_id := insert_fence (MkFenceRow epoch_i64 project_id attempt_id (il_token drain)
                                         "acquire_intent" None created_at_ms created_at_ms) in
      tx_ok (fence_lease journal_id project_id attempt_id (il_epoch drain) (il_token drain)
               created_at_ms).

Definition allocate_fence_identity (project_id : ProjectId) (attempt_id : Uuid) (token : Uuid)
    (created_at_ms : Z) : SecurityTx FenceLease :=
  let? '(epoch, epoch_i64) := allocate_next_fence_epoch in
  let? journal_id := insert_fence (MkFenceRow epoch_i64 project_id attempt_id token
                                     "acquire_intent" None created_at_ms created_at_ms) in
  tx_ok (fence_lease journal_id project_id attempt_id epoch token created_at_ms).

Definition require_resource_owned (resource : ExecutionResource) (attempt_id : Uuid)
    : SecurityTx unit :=
  require_resource_key_owned (ExecutionResource_key resource) attempt_id.

(** ** Operations *)

Definition begin_drain_identity (token : Uuid) (project_id : ProjectId) (attempt_id : Uuid)
    (created_at_ms : Z) (db : SecurityDb) : SecurityDb * Result StoreError IdentityLease :=
  immediate_transaction (
    let? _ := require_authorized_for_project attempt_id project_id None in
    let? _ := require_resource_owned (ProjectDeploy project_id) attempt_id in
    let? _ := require_phase_receipt attempt_id Phase_BackingUp in
    let? fence := query (load_active_fence project_id) in
    if is_some fence then tx_err FenceConflict
    else
      let? boundary := query (load_active_backup_boundary project_id) in
      if is_some boundary then tx_err FenceConflict
      else
        let? drain := query (load_active_drain_identity project_id) in
        match drain with
        | Some active =>
            if il_attempt_id active == attempt_id then tx_ok active else tx_err FenceConflict
        | None =>
            let? '(epoch, epoch_i64) := allocate_next_fence_epoch in
            let? journal_id := insert_drain_identity
              (MkIdentityRow epoch_i64 project_id attempt_id token "reserved"
                 created_at_ms created_at_ms) in
            tx_ok (MkIdentityLease journal_id project_id attempt_id epoch token created_at_ms)
        end) db.

Definition begin_fence_acquire (token : Uuid) (project_id : ProjectId) (attempt_id : Uuid)
    (created_at_ms : Z) (db : SecurityDb) : SecurityDb * Result StoreError FenceLease :=
  immediate_transaction (
    let? _ := require_authorized_for_project attempt_id project_id None in
    let? fence := query (load_active_fence project_id) in
    match fence with
    | Some active =>
        if (fl_attempt_id active == attempt_id)
           && match fl_state active with Fence_AcquireIntent | Fence_Held => true | _ => false end
        then
          let? _ := require_resource_owned (ProjectDeploy project_id) attempt_id in
          let? _ := require_fence_phase_receipts attempt_id in
          tx_ok active
        else tx_err FenceConflict
    | None =>
        let? _ := require_resource_owned (ProjectDeploy project_id) attempt_id in
        let? _ := require_fence_phase_receipts attempt_id in
        let? drain := query (load_active_drain_identity project_id) in
        match drain with
        | Some drain => promote_drain_identity project_id attempt_id drain created_at_ms
        | None => allocate_fence_identity project_id attempt_id token created_at_ms
        end
    end) db.

Definition observation_matches (active : FenceLease) (attempt_id : Uuid) (epoch : Z)
    (token : Uuid) : bool :=
  (attempt_id == fl_attempt_id active) && (epoch =? fl_epoch active)
  && (token == fl_token active).

Definition reconcile_fence (project_id : ProjectId) (observation : FenceObservation)
    (observed_at_ms : Z) (db : SecurityDb) : SecurityDb * Result StoreError FenceProjection :=
  immediate_transaction (
    let? fence := query (load_active_fence project_id) in
    match fence with
    | None =>
        match observation with
        | Observed_Released => tx_ok Projection_Released
        | Observed_Held attempt_id epoch token =>
            let? epoch_i64 := lift (ok_or (CorruptSecurityJournal "observed fence epoch range")
                                      (i64_try_from epoch)) in
            if (epoch =? 0) || is_nil attempt_id || is_nil token
            then tx_err FenceOwnershipMismatch
            else
              let? _ := insert_fence (MkFenceRow epoch_i64 project_id attempt_id token
                          "needs_reconcile" None observed_at_ms observed_at_ms) in
              tx_ok Projection_NeedsReconcile
        end
    | Some active =>
        let? release_is_safe :=
          match fl_release_safe_receipt_digest active with
          | Some digest => query (release_safe_receipt_exists (fl_attempt_id active) digest)
          | None => tx_ok false
          end in
        let needs_reconcile : SecurityTx FenceProjection :=
          let? _ := set_fence_state (fl_journal_id active) Fence_NeedsReconcile observed_at_ms in
          tx_ok Projection_NeedsReconcile in
        match fl_state active, observation with
        | (Fence_AcquireIntent | Fence_Held), Observed_Held attempt_id epoch token =>
            if observation_matches active attempt_id epoch token then
              let? _ := set_fence_state (fl_journal_id active) Fence_Held observed_at_ms in
              tx_ok Projection_Held
            else needs_reconcile
        | Fence_ReleaseIntent, Observed_Held attempt_id epoch token =>
            if (release_is_safe : bool) && observation_matches active attempt_id epoch token
            then tx_ok Projection_Held
            else needs_reconcile
        | Fence_ReleaseIntent, Observed_Released =>
            if (release_is_safe : bool) then
              let? _ := set_fence_state (fl_journal_id active) Fence_Released observed_at_ms in
              tx_ok Projection_Released
            else needs_reconcile
        | Fence_Released, Observed_Released => tx_ok Projection_Released
        | _, _ => needs_reconcile
        end
    end) db.

Definition load_latest_fence (project_id : ProjectId) (db : SecurityDb)
    : Result StoreError (option FenceLease) :=
  load_fence_with_predicate project_id (λ _, true) db.

Definition begin_fence_release (project_id : ProjectId) (attempt_id : Uuid)
    (release_safe_receipt_digest : EvidenceDigest) (requested_at_ms : Z) (db : SecurityDb)
    : SecurityDb * Result StoreError FenceLease :=
  immediate_transaction (
    let? _ := require_authorized_for_project attempt_id project_id None in
    let? receipt := query (load_release_safe_receipt attempt_id release_safe_receipt_digest) in
    match receipt with
    | None => tx_err FenceReleaseUnsafe
    | Some release_safe_receipt =>
        let? takeover := query (load_rollback_takeover attempt_id) in
        let expected_branch :=
          if is_some takeover then Branch_RollbackRecovery else Branch_Primary in
        if pr_branch release_safe_receipt != expected_branch then tx_err FenceReleaseUnsafe
        else
          let? fence := query (load_active_fence project_id) in
          match fence with
          | None =>
              let? latest := query (load_latest_fence project_id) in
              let? latest := lift (ok_or FenceOwnershipMismatch latest) in
              if (fl_attempt_id latest == attempt_id) && (fl_state latest == Fence_Released)
                 && (fl_release_safe_receipt_digest latest == Some release_safe_receipt_digest)
              then tx_ok latest
              else tx_err FenceOwnershipMismatch
          | Some active =>
              if fl_attempt_id active != attempt_id then tx_err FenceOwnershipMismatch
              else
                match fl_state active with
                | Fence_Held =>
                    let? _ := update_fence (fl_journal_id active) (λ row,
                      row <| fr_state := "release_intent" |>
                          <| fr_release_safe_receipt_digest := Some release_safe_receipt_digest |>
                          <| fr_updated_at_ms := requested_at_ms |>) in
                    tx_ok (active <| fl_state := Fence_ReleaseIntent |>
                                  <| fl_release_safe_receipt_digest :=
                                       Some release_safe_receipt_digest |>)
                | Fence_ReleaseIntent =>
                    if fl_release_safe_receipt_digest active == Some release_safe_receipt_digest
                    then tx_ok active
                    else tx_err FenceReleaseUnsafe
                | Fence_AcquireIntent | Fence_Released | Fence_NeedsReconcile =>
                    tx_err FenceReleaseUnsafe
                end
          end
    end) db.

(** ** Reads *)

Definition active_fence (project_id : ProjectId) (db : SecurityDb)
    : Result StoreError (option FenceLease) := load_active_fence project_id db.

Definition latest_fence (project_id : ProjectId) (db : SecurityDb)
    : Result StoreError (option FenceLease) := load_latest_fence project_id db.

Definition lease_digest (lease : FenceLease) : Result StoreError EvidenceDigest :=
  let? bytes := map_err JsonError (jcs_to_vec {|
    fld_purpose := "rdashboard.fence-lease.v1";
    fld_journal_id := fl_journal_id lease;
    fld_project_id := fl_project_id lease;
    fld_attempt_id := fl_attempt_id lease;
    fld_epoch := fl_epoch lease;
    fld_token := fl_token lease;
    fld_created_at_ms := fl_created_at_ms lease
  |}) in
  Ok (EvidenceDigest_sha256 bytes).

Definition fence_receipt_from_lease (lease : FenceLease)
    : Result StoreError FenceAcquisitionReceiptV1 :=
  let? digest := lease_digest lease in
  map_err (λ _, CorruptSecurityJournal "fence acquisition receipt")
    (FenceReceipt_new (fl_project_id lease) (fl_attempt_id lease) (fl_epoch lease) digest
       (fl_created_at_ms lease)).

Definition fence_acquisition_receipt (project_id : ProjectId) (attempt_id : Uuid)
    (db : SecurityDb) : Result StoreError (option FenceAcquisitionReceiptV1) :=
  let? fence := load_active_fence project_id db in
  match fence with
  | None => Ok None
  | Some lease =>
      if fl_attempt_id lease != attempt_id then Err FenceOwnershipMismatch
      else
        match fl_state lease with
        | Fence_Held | Fence_ReleaseIntent =>
            let? receipt := fence_receipt_from_lease lease in Ok (Some receipt)
        | Fence_AcquireIntent | Fence_Released | Fence_NeedsReconcile => Ok None
        end
  end.
End Fences.
