(* ===== verification/FenceSpec.v ===== *)
(** * What the fence operations guarantee

    The life cycle of a fence row, the invariant of the fence and drain journals
    over any sequence of fence operations interleaved with the rest of the store,
    and the theorems that follow: one active fence per project, growing epochs,
    releases that are backed by a receipt. *)

From Stdlib Require Import ZArith Lia String.
From stdpp Require Import base gmap strings option list_numbers list.
From S2P Require Import Prelude Identifiers States Text Failure Operation Errors Budget.
From S2P Require Import Controller ControlStore SecurityDb Fences.

Local Open Scope Z_scope.

(** ** Journal keys and ordered reads *)

Lemma foldr_max_elem (l : list Z) x : x ∈ l → x ≤ foldr Z.max 0 l.
Proof. induction 1; simpl; lia. Qed.

Lemma next_rowid_fresh {V} (table : gmap Z V) : table !! next_rowid table = None.
Proof.
  apply eq_None_not_Some. intros [v Hv]. apply elem_of_map_to_list in Hv.
  assert (next_rowid table ≤ foldr Z.max 0 ((map_to_list table).*1)) as Hle.
  { apply foldr_max_elem. apply list_elem_of_fmap. by exists (next_rowid table, v). }
  unfold next_rowid in *. lia.
Qed.

Lemma head_sort_None {A} (cmp : A → A → comparison) l : head (sort_by cmp l) = None → l = [].
Proof.
  pose proof (sort_by_Permutation cmp l) as Hp. destruct (sort_by cmp l); [|done].
  intros _. by apply Permutation_nil_l in Hp.
Qed.

Lemma head_sort_Some {A} (cmp : A → A → comparison) l x :
  head (sort_by cmp l) = Some x → x ∈ l.
Proof.
  intros Hhd. rewrite <- (sort_by_Permutation cmp l).
  destruct (sort_by cmp l); simplify_eq/=. by left.
Qed.

(** ** The life cycle of a row *)

Definition state_in (states : list FenceJournalState) (row : FenceRow) : Prop :=
  ∃ state, state ∈ states ∧ fr_state row = FenceJournalState_as_str state.

(** What identifies a fence, fixed for its life. *)
Definition same_fence (row row' : FenceRow) : Prop :=
  fr_epoch row' = fr_epoch row ∧ fr_project_id row' = fr_project_id row
  ∧ fr_attempt_id row' = fr_attempt_id row ∧ fr_token row' = fr_token row
  ∧ fr_created_at_ms row' = fr_created_at_ms row.

(** One move of a fence; [safe] is the set of digests whose receipt makes a
    release safe for the attempt of the fence. *)
Inductive fence_move (safe : EvidenceDigest → Prop) (row row' : FenceRow) : Prop :=
| move_confirm :
    state_in [Fence_AcquireIntent; Fence_Held] row → state_in [Fence_Held] row' →
    same_fence row row' →
    fr_release_safe_receipt_digest row' = fr_release_safe_receipt_digest row →
    fence_move safe row row'
| move_release_intent digest :
    state_in [Fence_Held] row → state_in [Fence_ReleaseIntent] row' → same_fence row row' →
    fr_release_safe_receipt_digest row' = Some digest → safe digest →
    fence_move safe row row'
| move_released digest :
    state_in [Fence_ReleaseIntent] row → state_in [Fence_Released] row' → same_fence row row' →
    fr_release_safe_receipt_digest row = Some digest → safe digest →
    fr_release_safe_receipt_digest row' = fr_release_safe_receipt_digest row →
    fence_move safe row row'
| move_needs_reconcile :
    state_in [Fence_AcquireIntent; Fence_Held; Fence_ReleaseIntent; Fence_NeedsReconcile] row →
    state_in [Fence_NeedsReconcile] row' → same_fence row row' →
    fr_release_safe_receipt_digest row' = fr_release_safe_receipt_digest row →
    fence_move safe row row'.

Section FenceSpec.
Context `{!Json AuthorizedDiskReservation, !Json PhaseArtifacts, !Json PhaseReceipt}.
Context `{!Sha256, !Jcs ReceiptDigestPayload}.

(** An operation on the journals, or any other operation of the store: those
    leave the two journals alone and never lower the epoch counter. *)
Inductive fence_step (db : SecurityDb) : SecurityDb → Prop :=
| step_drain token project attempt t :
    fence_step db (begin_drain_identity token project attempt t db).1
| step_fence_acquire token project attempt t :
    fence_step db (begin_fence_acquire token project attempt t db).1
| step_reconcile project observation t :
    fence_step db (reconcile_fence project observation t db).1
| step_fence_release project attempt digest t :
    fence_step db (begin_fence_release project attempt digest t db).1
| step_other db' :
    fence_journal db' = fence_journal db →
    drain_identity_journal db' = drain_identity_journal db →
    fence_epoch db ≤ fence_epoch db' ≤ i64_max →
    fence_step db db'.

(** ** Reading the journals *)

Definition lease_of_row (lease : FenceLease) (row : FenceRow) : Prop :=
  fr_project_id row = fl_project_id lease ∧ fr_attempt_id row = fl_attempt_id lease
  ∧ fr_epoch row = fl_epoch lease ∧ fr_token row = fl_token lease
  ∧ fr_state row = FenceJournalState_as_str (fl_state lease)
  ∧ fr_release_safe_receipt_digest row = fl_release_safe_receipt_digest lease
  ∧ fr_created_at_ms row = fl_created_at_ms lease.

Lemma FenceJournalState_parse_Ok s state :
  FenceJournalState_parse s = Ok state ↔ s = FenceJournalState_as_str state.
Proof.
  split.
  - unfold FenceJournalState_parse. intros Hok. repeat case_ok; by bool_prop.
  - intros ->. by destruct state.
Qed.

Lemma load_fence_None project p db id row :
  load_fence_with_predicate project p db = Ok None →
  fence_journal db !! id = Some row → fr_project_id row = project → p row = false.
Proof.
  unfold load_fence_with_predicate. intros Hok Hrow Hproject.
  destruct (head _) as [hd|] eqn:Heqo; [by inv_ok|]. apply head_sort_None in Heqo. destruct (p row) eqn:Hp; [|done].
  assert ((id, row) ∈ select_rows (λ _ row, (fr_project_id row == project) && p row)
            (fence_journal db)) as Hin.
  { apply select_rows_elem. by rewrite bool_decide_eq_true_2, Hp. }
  rewrite Heqo in Hin. by apply not_elem_of_nil in Hin.
Qed.

Lemma load_fence_Some project p db lease :
  load_fence_with_predicate project p db = Ok (Some lease) →
  ∃ row, fence_journal db !! fl_journal_id lease = Some row ∧ lease_of_row lease row
    ∧ fl_project_id lease = project ∧ p row = true ∧ 0 ≤ fl_epoch lease.
Proof.
  unfold load_fence_with_predicate, fence_of_row, u64_try_from. intros Hok.
  destruct (head _) as [[id row]|] eqn:Heqo; [|by inv_ok].
  inv_ok. match goal with Hr : checked_range _ _ _ = Some _ |- _ =>
    apply checked_range_Some in Hr as [-> Hrange] end.
  apply head_sort_Some, select_rows_elem in Heqo as [Hp Hrow]. bool_prop.
  destruct Hp as [<- Hp]. simplify_eq/=. exists row.
  match goal with Hs : FenceJournalState_parse _ = Ok _ |- _ =>
    apply FenceJournalState_parse_Ok in Hs end. unfold lease_of_row. split_and!; try done. lia.
Qed.

Definition reserved_for (project : ProjectId) (row : IdentityRow) : Prop :=
  ir_project_id row = project ∧ ir_state row = "reserved"%string.

Definition no_reserved_drain (project : ProjectId) (db : SecurityDb) : Prop :=
  ∀ id row, drain_identity_journal db !! id = Some row → ¬ reserved_for project row.

Definition no_active_fence (project : ProjectId) (db : SecurityDb) : Prop :=
  ∀ id row, fence_journal db !! id = Some row → fr_project_id row = project →
    fr_state row = "released"%string.

Lemma load_active_fence_None project db :
  load_active_fence project db = Ok None → no_active_fence project db.
Proof.
  intros Hok id row Hrow Hproject. pose proof (load_fence_None _ _ _ _ _ Hok Hrow Hproject) as Hs.
  simpl in Hs. by bool_prop.
Qed.

Lemma load_active_fence_Some project db lease :
  load_active_fence project db = Ok (Some lease) →
  ∃ row, fence_journal db !! fl_journal_id lease = Some row ∧ lease_of_row lease row
    ∧ fl_project_id lease = project ∧ fr_state row ≠ "released"%string.
Proof.
  intros (row&Hrow&Hlease&Hp&Hs&_)%load_fence_Some. exists row. simpl in Hs. bool_prop. done.
Qed.

Lemma load_active_drain_None project db :
  load_active_drain_identity project db = Ok None → no_reserved_drain project db.
Proof.
  unfold load_active_drain_identity, load_active_identity. intros Hok id row Hrow [Hp Hs].
  destruct (head _) as [[id' row']|] eqn:Hhd; [by inv_ok|]. apply head_sort_None in Hhd.
  assert ((id, row) ∈ select_rows (λ _ row, (ir_project_id row == project)
            && (ir_state row == "reserved"%string)) (drain_identity_journal db)) as Hin.
  { apply select_rows_elem. by rewrite !bool_decide_eq_true_2. }
  rewrite Hhd in Hin. by apply not_elem_of_nil in Hin.
Qed.

Lemma load_active_drain_Some project db lease :
  load_active_drain_identity project db = Ok (Some lease) →
  ∃ row, drain_identity_journal db !! il_journal_id lease = Some row ∧ reserved_for project row
    ∧ ir_attempt_id row = il_attempt_id lease ∧ ir_epoch row = il_epoch lease
    ∧ ir_token row = il_token lease.
Proof.
  unfold load_active_drain_identity, load_active_identity, u64_try_from. intros Hok.
  destruct (head _) as [[id row]|] eqn:Hhd; [|by inv_ok]. inv_ok.
  match goal with Hr : checked_range _ _ _ = Some _ |- _ =>
    apply checked_range_Some in Hr as [-> _] end.
  apply head_sort_Some, select_rows_elem in Hhd as [Hp Hrow]. bool_prop.
  simplify_eq/=. by exists row.
Qed.

Lemma row_exists_active project db :
  row_exists (λ _ other, active_fence_of project other) (fence_journal db) = false →
  no_active_fence project db.
Proof.
  intros Hex id row Hrow Hp. pose proof (row_exists_false _ _ Hex _ _ Hrow) as Hf.
  unfold active_fence_of in Hf. rewrite bool_decide_eq_true_2 in Hf by done. simpl in Hf.
  by bool_prop.
Qed.

(** ** Statements *)

Lemma insert_fence_Ok row db id db' :
  insert_fence row db = Ok (id, db') →
  0 < fr_epoch row ∧ id = next_rowid (fence_journal db)
  ∧ (fr_state row = "released"%string ∨ no_active_fence (fr_project_id row) db)
  ∧ db' = db <| fence_journal := <[id := row]> (fence_journal db) |>.
Proof.
  unfold insert_fence. intros Hok. inv_ok. bool_prop. split_and!; [done..| |done].
  match goal with Hor : _ ∨ _ |- _ => destruct Hor as [?|Hex] end; [by left|right].
  by apply row_exists_active.
Qed.

Lemma update_fence_Ok id f db n db' :
  update_fence id f db = Ok (n, db') →
  (fence_journal db !! id = None ∧ n = 0 ∧ db' = db)
  ∨ (∃ row, fence_journal db !! id = Some row ∧ n = 1
      ∧ db' = db <| fence_journal := <[id := f row]> (fence_journal db) |>).
Proof.
  unfold update_fence. intros Hok. inv_ok.
  destruct (fence_journal db !! id) as [row|] eqn:Hrow; inv_ok; [right|by left].
  by exists row.
Qed.

Lemma set_fence_state_Ok id state t db u db' :
  set_fence_state id state t db = Ok (u, db') →
  ∃ row, fence_journal db !! id = Some row
    ∧ db' = db <| fence_journal := <[id :=
        row <| fr_state := FenceJournalState_as_str state |> <| fr_updated_at_ms := t |>]>
        (fence_journal db) |>.
Proof.
  unfold set_fence_state. intros Hok. inv_ok. bool_prop.
  match goal with Hu : update_fence _ _ _ = _ |- _ =>
    apply update_fence_Ok in Hu as [(?&->&->)|(row&Hrow&->&->)] end; [done|]. by exists row.
Qed.

Lemma insert_drain_Ok row db id db' :
  insert_drain_identity row db = Ok (id, db') →
  0 < ir_epoch row ∧ id = next_rowid (drain_identity_journal db)
  ∧ db' = db <| drain_identity_journal := <[id := row]> (drain_identity_journal db) |>.
Proof. unfold insert_drain_identity. intros Hok. inv_ok. bool_prop. naive_solver. Qed.

Lemma promote_drain_row_Ok id t db n db' :
  promote_drain_row id t db = Ok (n, db') → n = 1 →
  ∃ row, drain_identity_journal db !! id = Some row ∧ ir_state row = "reserved"%string
    ∧ db' = db <| drain_identity_journal :=
        <[id := row <| ir_state := "promoted" |> <| ir_updated_at_ms := t |>]>
        (drain_identity_journal db) |>.
Proof.
  unfold promote_drain_row. intros Hok Hn. inv_ok.
  destruct (drain_identity_journal db !! id) as [row|] eqn:Hrow; [|by inv_ok].
  case_ok; [|done]. bool_prop. by exists row.
Qed.

Lemma allocate_next_fence_epoch_Ok db epochs db' :
  allocate_next_fence_epoch db = Ok (epochs, db') →
  epochs = (fence_epoch db + 1, fence_epoch db + 1) ∧ 0 ≤ fence_epoch db < i64_max
  ∧ db' = db <| fence_epoch := fence_epoch db + 1 |>.
Proof.
  unfold allocate_next_fence_epoch. intros Hok. inv_ok.
  match goal with Hm : mbind _ _ = Some _ |- _ => apply bind_Some in Hm as (?&Hm1&Hm2) end.
  apply checked_range_Some in Hm1 as [-> ?], Hm2 as [-> ?].
  match goal with Hm : i64_try_from _ = Some _ |- _ =>
    apply checked_range_Some in Hm as [-> ?] end.
  split_and!; [done|lia|lia|done].
Qed.

(** ** What an operation does to the journals *)

Definition safe_digest (db : SecurityDb) (attempt : Uuid) (digest : EvidenceDigest) : Prop :=
  ∃ receipt, load_release_safe_receipt attempt digest db = Ok (Some receipt).

Inductive journal_effect (db db' : SecurityDb) : Prop :=
| effect_none :
    fence_journal db' = fence_journal db →
    drain_identity_journal db' = drain_identity_journal db →
    fence_epoch db ≤ fence_epoch db' →
    fence_epoch db' ≤ Z.max (fence_epoch db) i64_max →
    journal_effect db db'
| effect_move id row row' :
    fence_journal db !! id = Some row →
    fr_state row ≠ "released"%string →
    fence_move (safe_digest db (fr_attempt_id row)) row row' →
    fence_journal db' = <[id := row']> (fence_journal db) →
    drain_identity_journal db' = drain_identity_journal db →
    fence_epoch db' = fence_epoch db →
    journal_effect db db'
| effect_drain row :
    no_reserved_drain (ir_project_id row) db →
    ir_epoch row = fence_epoch db + 1 → 0 ≤ fence_epoch db < i64_max →
    drain_identity_journal db'
      = <[next_rowid (drain_identity_journal db) := row]> (drain_identity_journal db) →
    fence_journal db' = fence_journal db →
    fence_epoch db' = fence_epoch db + 1 →
    journal_effect db db'
| effect_acquire row :
    no_active_fence (fr_project_id row) db →
    no_reserved_drain (fr_project_id row) db →
    state_in [Fence_AcquireIntent] row →
    fr_epoch row = fence_epoch db + 1 → 0 ≤ fence_epoch db < i64_max →
    fence_journal db' = <[next_rowid (fence_journal db) := row]> (fence_journal db) →
    drain_identity_journal db' = drain_identity_journal db →
    fence_epoch db' = fence_epoch db + 1 →
    journal_effect db db'
| effect_promote id drain drain' row :
    no_active_fence (fr_project_id row) db →
    drain_identity_journal db !! id = Some drain →
    reserved_for (fr_project_id row) drain →
    ir_epoch drain' = ir_epoch drain → ir_state drain' = "promoted"%string →
    state_in [Fence_AcquireIntent] row →
    fr_epoch row = ir_epoch drain → 0 < fr_epoch row →
    drain_identity_journal db' = <[id := drain']> (drain_identity_journal db) →
    fence_journal db' = <[next_rowid (fence_journal db) := row]> (fence_journal db) →
    fence_epoch db' = fence_epoch db →
    journal_effect db db'
| effect_orphan row :
    no_active_fence (fr_project_id row) db →
    state_in [Fence_NeedsReconcile] row → 0 < fr_epoch row ≤ i64_max →
    fence_journal db' = <[next_rowid (fence_journal db) := row]> (fence_journal db) →
    drain_identity_journal db' = drain_identity_journal db →
    fence_epoch db' = fence_epoch db →
    journal_effect db db'.

Lemma effect_refl db : journal_effect db db.
Proof. apply effect_none; [done..|lia|lia]. Qed.

(** The guards of the operations only read. *)
Definition reads_only {A} (guard : Tx SecurityDb StoreError A) : Prop :=
  ∀ db a db', guard db = Ok (a, db') → db' = db.

Lemma reads_query {A} (f : SecurityDb → Result StoreError A) : reads_only (query f).
Proof. intros db a db' Hq. by apply query_Ok in Hq as [_ ->]. Qed.

Lemma reads_phase_receipt attempt phase : reads_only (require_phase_receipt attempt phase).
Proof.
  intros db u db' Hok. unfold require_phase_receipt in Hok. inv_ok.
  match goal with Hq : query _ _ = _ |- _ => by apply query_Ok in Hq as [_ ->] end.
Qed.

Lemma reads_fence_receipts attempt : reads_only (require_fence_phase_receipts attempt).
Proof.
  intros db u db' Hok. unfold require_fence_phase_receipts in Hok. inv_ok.
  apply reads_phase_receipt in Hok as ->.
  match goal with Hr : require_phase_receipt _ _ _ = _ |- _ => by apply reads_phase_receipt in Hr end.
Qed.

Lemma reads_authorized attempt project digest :
  reads_only (require_authorized_for_project attempt project digest).
Proof. apply reads_query. Qed.

Lemma reads_owned resource attempt : reads_only (require_resource_owned resource attempt).
Proof. apply reads_query. Qed.

(** Drop the guards that succeeded, keeping what was read. *)
Ltac inv_guard :=
  repeat (inv_query; match goal with
    | Hg : require_phase_receipt _ _ _ = Ok _ |- _ => apply reads_phase_receipt in Hg as ->
    | Hg : require_fence_phase_receipts _ _ = Ok _ |- _ => apply reads_fence_receipts in Hg as ->
    | Hg : require_authorized_for_project _ _ _ _ = Ok _ |- _ => apply reads_authorized in Hg as ->
    | Hg : require_resource_owned _ _ _ = Ok _ |- _ => apply reads_owned in Hg as ->
    end); inv_query.

Lemma begin_drain_identity_effect token project attempt t db lease db' :
  begin_drain_identity token project attempt t db = (db', Ok lease) → journal_effect db db'.
Proof.
  unfold begin_drain_identity. intros Hok. inv_guard. case_ok. inv_query. case_ok. inv_query.
  case_ok; [case_ok; apply effect_refl|].
  match goal with He : allocate_next_fence_epoch _ = Ok (?e, _) |- _ =>
    apply allocate_next_fence_epoch_Ok in He as (->&Hrange&->) end.
  inv_ok. match goal with Hi : insert_drain_identity _ _ = _ |- _ =>
    apply insert_drain_Ok in Hi as (_&->&->) end.
  eapply (effect_drain _ _ (MkIdentityRow _ _ _ _ _ _ _)); simpl; try done.
  by apply load_active_drain_None.
Qed.

Lemma allocate_fence_effect project attempt token t db lease db' :
  allocate_fence_identity project attempt token t db = Ok (lease, db') →
  no_active_fence project db → no_reserved_drain project db →
  journal_effect db db'.
Proof.
  unfold allocate_fence_identity. intros Hok Hactive Hdrain. inv_ok.
  match goal with He : allocate_next_fence_epoch _ = Ok (?e, _) |- _ =>
    apply allocate_next_fence_epoch_Ok in He as (->&Hrange&->) end.
  inv_ok. match goal with Hi : insert_fence _ _ = _ |- _ =>
    apply insert_fence_Ok in Hi as (_&->&_&->) end.
  eapply (effect_acquire _ _ (MkFenceRow _ _ _ _ _ _ _ _)); simpl; try done.
  exists Fence_AcquireIntent. split; [by left|done].
Qed.

Lemma promote_drain_effect project attempt drain t db lease db' :
  promote_drain_identity project attempt drain t db = Ok (lease, db') →
  load_active_drain_identity project db = Ok (Some drain) →
  no_active_fence project db →
  journal_effect db db'.
Proof.
  unfold promote_drain_identity. intros Hok Hdrain Hactive. case_ok.
  match goal with Hr : i64_try_from _ = Some _ |- _ => apply checked_range_Some in Hr as [-> _] end.
  case_ok. bool_prop.
  match goal with Hp : promote_drain_row _ _ _ = _ |- _ =>
    apply promote_drain_row_Ok in Hp as (row&Hrow&Hstate&->); [|done] end.
  match goal with Hi : insert_fence _ _ = _ |- _ =>
    apply insert_fence_Ok in Hi as (Hpos&->&_&->) end.
  apply load_active_drain_Some in Hdrain as (row'&Hrow'&Hres&_&Hepoch&_). simplify_eq.
  eapply (effect_promote _ _ _ row (row <| ir_state := "promoted" |> <| ir_updated_at_ms := t |>)
            (MkFenceRow _ _ _ _ _ _ _ _)); simpl in *; try done.
  exists Fence_AcquireIntent. split; [by left|done].
Qed.

Lemma begin_fence_acquire_effect token project attempt t db lease db' :
  begin_fence_acquire token project attempt t db = (db', Ok lease) → journal_effect db db'.
Proof.
  unfold begin_fence_acquire. intros Hok. inv_guard. case_ok.
  - case_ok. inv_guard. apply effect_refl.
  - inv_guard. match goal with Hn : load_active_fence _ _ = Ok None |- _ =>
      apply load_active_fence_None in Hn end.
    case_ok; [by eapply promote_drain_effect|].
    eapply allocate_fence_effect; [done..|]. by apply load_active_drain_None.
Qed.

(** A state change of the active fence is a move of its row. *)
Lemma set_fence_state_effect project lease state t db u db' :
  load_active_fence project db = Ok (Some lease) →
  set_fence_state (fl_journal_id lease) state t db = Ok (u, db') →
  (∀ row row', lease_of_row lease row → same_fence row row' →
     fr_release_safe_receipt_digest row' = fr_release_safe_receipt_digest row →
     fr_state row' = FenceJournalState_as_str state →
     fence_move (safe_digest db (fl_attempt_id lease)) row row') →
  journal_effect db db'.
Proof.
  intros Hload Hset Hmove.
  apply load_active_fence_Some in Hload as (row&Hrow&Hlease&_&Hactive).
  apply set_fence_state_Ok in Hset as (row'&Hrow'&->). simplify_eq.
  eapply (effect_move _ _ _ row); simpl; try done.
  destruct Hlease as (Hp&Ha&Hrest). rewrite Ha. by apply Hmove.
Qed.

Lemma lease_state_in lease row states :
  lease_of_row lease row → fl_state lease ∈ states → state_in states row.
Proof. intros (_&_&_&_&Hs&_) Hin. by exists (fl_state lease). Qed.

Lemma active_lease_state project db lease :
  load_active_fence project db = Ok (Some lease) → fl_state lease ≠ Fence_Released.
Proof.
  intros (row&_&(_&_&_&_&Hs&_)&_&Hne)%load_active_fence_Some Heq. apply Hne.
  by rewrite Hs, Heq.
Qed.

Lemma needs_reconcile_effect project lease t db u db' :
  load_active_fence project db = Ok (Some lease) →
  set_fence_state (fl_journal_id lease) Fence_NeedsReconcile t db = Ok (u, db') →
  journal_effect db db'.
Proof.
  intros Hload Hset. eapply set_fence_state_effect; [done..|].
  intros row row' Hlease Hsame Hdigest Hstate. apply move_needs_reconcile; [| |done..].
  - eapply lease_state_in; [done|]. pose proof (active_lease_state _ _ _ Hload).
    destruct (fl_state lease); set_solver.
  - exists Fence_NeedsReconcile. split; [by left|done].
Qed.

Lemma confirm_effect project lease t db u db' :
  load_active_fence project db = Ok (Some lease) →
  fl_state lease ∈ [Fence_AcquireIntent; Fence_Held] →
  set_fence_state (fl_journal_id lease) Fence_Held t db = Ok (u, db') →
  journal_effect db db'.
Proof.
  intros Hload Hin Hset. eapply set_fence_state_effect; [done..|].
  intros row row' Hlease Hsame Hdigest Hstate. apply move_confirm; [| |done..].
  - by eapply lease_state_in.
  - exists Fence_Held. split; [by left|done].
Qed.

Lemma released_effect project lease digest t db u db' :
  load_active_fence project db = Ok (Some lease) →
  fl_state lease = Fence_ReleaseIntent →
  fl_release_safe_receipt_digest lease = Some digest →
  safe_digest db (fl_attempt_id lease) digest →
  set_fence_state (fl_journal_id lease) Fence_Released t db = Ok (u, db') →
  journal_effect db db'.
Proof.
  intros Hload Heq Hlease_digest Hsafe Hset. eapply set_fence_state_effect; [done..|].
  intros row row' Hlease Hsame Hdigest Hstate. apply (move_released _ _ _ digest); [| |done| |done..].
  - eapply lease_state_in; [done|]. rewrite Heq. by left.
  - exists Fence_Released. split; [by left|done].
  - by destruct Hlease as (_&_&_&_&_&->&_).
Qed.

(** The receipt check of [reconcile_fence]. *)
Lemma release_is_safe_Ok lease db safe db' :
  match fl_release_safe_receipt_digest lease with
  | Some digest => query (release_safe_receipt_exists (fl_attempt_id lease) digest)
  | None => tx_ok false
  end db = Ok (safe, db') →
  db' = db ∧ (safe = true → ∃ digest, fl_release_safe_receipt_digest lease = Some digest
                            ∧ safe_digest db (fl_attempt_id lease) digest).
Proof.
  destruct (fl_release_safe_receipt_digest lease) as [digest|]; intros Hok; inv_query; [|done].
  unfold release_safe_receipt_exists in *. inv_ok. split; [done|].
  intros [receipt Hr]%is_some_is_Some. exists digest. split; [done|]. exists receipt. congruence.
Qed.

Lemma reconcile_fence_effect project observation t db projection db' :
  reconcile_fence project observation t db = (db', Ok projection) → journal_effect db db'.
Proof.
  unfold reconcile_fence. intros Hok. inv_query.
  match goal with Hl : load_active_fence _ _ = Ok ?o |- _ =>
    rename Hl into Hload; destruct o as [lease|] end; inv_ok.
  - match goal with Hs : match fl_release_safe_receipt_digest _ with _ => _ end _ = _ |- _ =>
      apply release_is_safe_Ok in Hs as [-> Hsafe] end.
    destruct (fl_state lease) eqn:Hstate, observation as [|attempt epoch token]; inv_ok;
      repeat case_ok; try apply effect_refl; eauto using needs_reconcile_effect.
    + eapply confirm_effect; [done| |done]. rewrite Hstate. set_solver.
    + eapply confirm_effect; [done| |done]. rewrite Hstate. set_solver.
    + destruct Hsafe as (digest&?&?); [done|]. by eapply released_effect.
  - destruct observation as [|attempt epoch token]; inv_ok; [apply effect_refl|]. case_ok.
    match goal with Hi : insert_fence _ _ = _ |- _ =>
      apply insert_fence_Ok in Hi as (Hpos&->&_&->) end.
    eapply (effect_orphan _ _ (MkFenceRow _ _ _ _ _ _ _ _)); simpl; try done.
    + by apply load_active_fence_None.
    + exists Fence_NeedsReconcile. split; [by left|done].
    + match goal with Hr : i64_try_from _ = Some _ |- _ =>
        apply checked_range_Some in Hr as [-> ?] end. simpl in Hpos. lia.
Qed.

Lemma begin_fence_release_effect project attempt digest t db lease db' :
  begin_fence_release project attempt digest t db = (db', Ok lease) → journal_effect db db'.
Proof.
  unfold begin_fence_release. intros Hok. inv_guard. case_ok. inv_query. case_ok. inv_query.
  match goal with Hl : load_active_fence _ _ = Ok ?o |- _ =>
    rename Hl into Hload; destruct o as [active|] end.
  - case_ok. bool_prop. subst attempt. case_ok.
    + match goal with Hu : update_fence _ _ _ = _ |- _ =>
        apply update_fence_Ok in Hu as [(?&_&->)|(row'&Hrow'&_&->)] end; [apply effect_refl|].
      apply load_active_fence_Some in Hload as (row&Hrow&Hlease&_&Hne). simplify_eq.
      eapply (effect_move _ _ _ row); simpl; try done.
      eapply (move_release_intent _ _ _ digest); simpl; try done.
      * eapply lease_state_in; [done|]. rewrite Heqf. by left.
      * exists Fence_ReleaseIntent. split; [by left|done].
      * destruct Hlease as (_&->&_). by eexists.
    + case_ok. apply effect_refl.
  - inv_query. case_ok. apply effect_refl.
Qed.

Lemma fence_step_effect db db' :
  fence_step db db' → journal_effect db db'.
Proof.
  destruct 1 as [token project attempt t|token project attempt t|project observation t
                |project attempt digest t|db' Hf Hd He];
    [..|by apply effect_none; [done..|lia|lia]];
    match goal with |- journal_effect db ?out.1 =>
      destruct (out) as [db' [a|e]] eqn:Hout; simpl;
      [|apply immediate_transaction_Err in Hout as ->; apply effect_refl] end.
  - by eapply begin_drain_identity_effect.
  - by eapply begin_fence_acquire_effect.
  - by eapply reconcile_fence_effect.
  - by eapply begin_fence_release_effect.
Qed.

(** ** The invariant of the journals *)

Definition reconciling (row : FenceRow) : Prop := fr_state row = "needs_reconcile"%string.

Record fence_inv (db : SecurityDb) : Prop := MkFenceInv {
  jf_counter : 0 ≤ fence_epoch db ≤ i64_max;
  (** Every row is in a state of the life cycle and has a positive epoch. *)
  jf_row id row : fence_journal db !! id = Some row →
    (∃ state, fr_state row = FenceJournalState_as_str state) ∧ 0 < fr_epoch row ≤ i64_max;
  (** The epoch of a fence that was issued here came from the counter. *)
  jf_issued id row : fence_journal db !! id = Some row → ¬ reconciling row →
    fr_epoch row ≤ fence_epoch db;
  (** A project has at most one active fence. *)
  jf_active id1 id2 row1 row2 :
    fence_journal db !! id1 = Some row1 → fence_journal db !! id2 = Some row2 →
    fr_project_id row1 = fr_project_id row2 →
    fr_state row1 ≠ "released"%string → fr_state row2 ≠ "released"%string → id1 = id2;
  (** The same for drain identities that are reserved. *)
  jf_drain id row : drain_identity_journal db !! id = Some row → ir_epoch row ≤ fence_epoch db;
  jf_reserved id1 id2 row1 row2 project :
    drain_identity_journal db !! id1 = Some row1 → drain_identity_journal db !! id2 = Some row2 →
    reserved_for project row1 → reserved_for project row2 → id1 = id2;
  (** A reserved identity is newer than the fences of its project. *)
  jf_newer id_d drain id_f row :
    drain_identity_journal db !! id_d = Some drain → reserved_for (fr_project_id row) drain →
    fence_journal db !! id_f = Some row → ¬ reconciling row → fr_epoch row < ir_epoch drain
}.

Lemma state_in_one state row : state_in [state] row → fr_state row = FenceJournalState_as_str state.
Proof. intros (st&->%list_elem_of_singleton&->). done. Qed.

(** A move leaves the released rows and the rows under reconciliation where they
    are. *)
Lemma fence_move_facts safe row row' :
  fence_move safe row row' →
  same_fence row row' ∧ (∃ state, fr_state row' = FenceJournalState_as_str state)
  ∧ (¬ reconciling row' → ¬ reconciling row).
Proof.
  unfold reconciling.
  destruct 1 as [(s1&H1&Hs1) Hs2 Hsame _|digest (s1&H1&Hs1) Hs2 Hsame _ _
                |digest (s1&H1&Hs1) Hs2 Hsame _ _ _|(s1&H1&Hs1) Hs2 Hsame _];
    apply state_in_one in Hs2; rewrite Hs1, Hs2; (split; [done|]); (split; [by eexists|]).
  all: simpl; try done; intros _ Heq; destruct s1; simpl in Heq; try done; set_solver.
Qed.

Ltac insert_cases :=
  repeat match goal with
  | Hl : <[_ := _]> _ !! _ = Some _ |- _ =>
      apply lookup_insert_Some in Hl as [[<- <-]|[? Hl]]
  end.

Lemma effect_inv_none db db' :
  fence_inv db → fence_journal db' = fence_journal db →
  drain_identity_journal db' = drain_identity_journal db →
  fence_epoch db ≤ fence_epoch db' ≤ i64_max → fence_inv db'.
Proof.
  intros [Hc Hrow Hissued Hactive Hdrain Hres Hnewer] Hf Hd He.
  split; rewrite ?Hf, ?Hd; try done; [lia|..].
  - intros id row ? ?. etrans; [by eapply Hissued|lia].
  - intros id row ?. etrans; [by eapply Hdrain|lia].
Qed.

Lemma effect_inv_move db db' id row row' :
  fence_inv db → fence_journal db !! id = Some row → fr_state row ≠ "released"%string →
  fence_move (safe_digest db (fr_attempt_id row)) row row' →
  fence_journal db' = <[id := row']> (fence_journal db) →
  drain_identity_journal db' = drain_identity_journal db →
  fence_epoch db' = fence_epoch db → fence_inv db'.
Proof.
  intros [Hc Hrow Hissued Hactive Hdrain Hres Hnewer] Hid Hne Hmove Hf Hd He.
  apply fence_move_facts in Hmove as ((Hep&Hp&_)&Hst&Hrec).
  split; rewrite ?Hf, ?Hd, ?He; try done.
  - intros id' r Hr. insert_cases; [|by eapply Hrow]. rewrite Hep. split; [done|].
    by eapply Hrow.
  - intros id' r Hr Hnr. insert_cases; [|by eapply Hissued]. rewrite Hep. by eapply Hissued; eauto.
  - intros id1 id2 r1 r2 Hr1 Hr2 Heq Hs1 Hs2. insert_cases; try done.
    + eapply Hactive; [done|done|congruence|done|done].
    + eapply Hactive; [done|done|congruence|done|done].
    + by eapply (Hactive id1 id2 r1 r2).
  - intros id_d drain id_f r Hdr Hrf Hr Hnr. insert_cases; [|by eapply Hnewer].
    rewrite Hep. eapply (Hnewer id_d drain id row); [done| |done|auto]. by rewrite <- Hp.
Qed.

Lemma effect_inv_drain db db' row :
  fence_inv db → no_reserved_drain (ir_project_id row) db →
  ir_epoch row = fence_epoch db + 1 → fence_epoch db < i64_max →
  drain_identity_journal db'
    = <[next_rowid (drain_identity_journal db) := row]> (drain_identity_journal db) →
  fence_journal db' = fence_journal db → fence_epoch db' = fence_epoch db + 1 →
  fence_inv db'.
Proof.
  intros [Hc Hrow Hissued Hactive Hdrain Hres Hnewer] Hnone Hep Hmax Hd Hf He.
  split; rewrite ?Hf, ?Hd, ?He; try done; [lia|..].
  - intros id r Hr Hnr. apply Hissued in Hr; [lia|done].
  - intros id r Hr. insert_cases; [lia|]. apply Hdrain in Hr. lia.
  - intros id1 id2 r1 r2 p Hr1 Hr2 Hp1 Hp2. insert_cases; try done.
    + destruct (Hnone _ _ Hr1). by rewrite (proj1 Hp2).
    + destruct (Hnone _ _ Hr2). by rewrite (proj1 Hp1).
    + by eapply Hres.
  - intros id_d d id_f r Hdr Hrf Hr Hnr. insert_cases; [|by eapply Hnewer].
    apply Hissued in Hr; [lia|done].
Qed.

(** A fence row is added: no other fence of the project is active, the identities
    of the drain journal are kept, and none newer stays reserved. *)
Lemma effect_inv_insert db db' row :
  fence_inv db → no_active_fence (fr_project_id row) db →
  (∃ state, fr_state row = FenceJournalState_as_str state) → 0 < fr_epoch row ≤ i64_max →
  (¬ reconciling row → fr_epoch row ≤ fence_epoch db') →
  fence_epoch db ≤ fence_epoch db' ≤ i64_max →
  (∀ id d, drain_identity_journal db' !! id = Some d → ∃ d0,
     drain_identity_journal db !! id = Some d0 ∧ ir_epoch d = ir_epoch d0
     ∧ ∀ p, reserved_for p d → reserved_for p d0) →
  (¬ reconciling row → no_reserved_drain (fr_project_id row) db') →
  fence_journal db' = <[next_rowid (fence_journal db) := row]> (fence_journal db) →
  fence_inv db'.
Proof.
  intros [Hc Hrow Hissued Hactive Hdrain Hres Hnewer] Hnone Hst Hpos Hep He Hkeep Hnor Hf.
  split; rewrite ?Hf; [lia|..].
  - intros id r Hr. insert_cases; [done|by eapply Hrow].
  - intros id r Hr Hnr. insert_cases; [by apply Hep|]. apply Hissued in Hr; [lia|done].
  - intros id1 id2 r1 r2 Hr1 Hr2 Heq Hs1 Hs2. insert_cases; try done.
    + destruct Hs1. by eapply Hnone.
    + destruct Hs2. by eapply Hnone.
    + by eapply (Hactive id1 id2 r1 r2).
  - intros id d (d0&Hd0&->&_)%Hkeep. apply Hdrain in Hd0. lia.
  - intros id1 id2 d1 d2 p (e1&He1&_&Hr1)%Hkeep (e2&He2&_&Hr2)%Hkeep ? ?.
    eapply Hres; eauto.
  - intros id_d d id_f r Hd Hrf Hr Hnr. insert_cases; [by destruct (Hnor Hnr _ _ Hd)|].
    destruct (Hkeep _ _ Hd) as (d0&Hd0&->&Hr0). eapply Hnewer; eauto.
Qed.

Lemma state_in_some states row :
  state_in states row → ∃ state, fr_state row = FenceJournalState_as_str state.
Proof. intros (state&_&Hs). by exists state. Qed.

Lemma journal_effect_inv db db' : journal_effect db db' → fence_inv db → fence_inv db'.
Proof.
  intros Heff Hinv. pose proof (jf_counter _ Hinv) as Hc.
  destruct Heff as [Hf Hd He He'|id row row' Hid Hne Hmove Hf Hd He|row Hnone Hep Hr Hd Hf He
    |row Hnone Hnod Hst Hep Hr Hf Hd He|id drain drain' row Hnone Hid Hres Hep Hpro Hst Hre Hpos Hd Hf He
    |row Hnone Hst Hpos Hf Hd He].
  - apply (effect_inv_none db); [done..|lia].
  - by eapply effect_inv_move.
  - eapply effect_inv_drain; eauto. lia.
  - eapply (effect_inv_insert db _ row); try done; [by eapply state_in_some|lia|lia|lia|..].
    + rewrite Hd. eauto.
    + intros _ id r. rewrite Hd. apply Hnod.
  - assert (fr_epoch row ≤ fence_epoch db) as Hle by (rewrite Hre; by eapply jf_drain).
    eapply (effect_inv_insert db _ row); try done; [by eapply state_in_some|lia|lia|lia|..].
    + intros id' d. rewrite Hd. intros Hl. insert_cases; [|eauto]. exists drain.
      split_and!; [done..|]. intros p [_ Hs]. congruence.
    + intros _ id' d. rewrite Hd. intros Hl Hrd. insert_cases; [destruct Hrd; congruence|].
      match goal with Hne : ?i ≠ ?j |- _ => destruct Hne end. by eapply jf_reserved.
  - eapply (effect_inv_insert db _ row); try done; [by eapply state_in_some| |lia|..].
    + intros []. by apply state_in_one in Hst.
    + rewrite Hd. eauto.
    + intros []. by apply state_in_one in Hst.
Qed.

Lemma fence_run_inv db db' : rtc fence_step db db' → fence_inv db → fence_inv db'.
Proof.
  induction 1 as [|db1 db2 db3 Hstep _ IH]; [done|]. intros Hinv.
  by eapply IH, journal_effect_inv; [apply fence_step_effect|].
Qed.

(** The stores reached from empty journals. *)
Definition fence_reachable (db' : SecurityDb) : Prop :=
  ∃ db, fence_journal db = ∅ ∧ drain_identity_journal db = ∅ ∧ 0 ≤ fence_epoch db ≤ i64_max
    ∧ rtc fence_step db db'.

Lemma fence_reachable_inv db : fence_reachable db → fence_inv db.
Proof.
  intros (db0&Hf&Hd&He&Hrun). eapply fence_run_inv; [done|].
  split; rewrite ?Hf, ?Hd; [done|by intros; simplify_map_eq..].
Qed.

(** What the answer of [begin_fence_acquire] refers to: the fence the attempt
    already has, or a new one with the next epoch or that of its drain identity. *)
Lemma begin_fence_acquire_Ok token project attempt t db lease db' :
  begin_fence_acquire token project attempt t db = (db', Ok lease) →
  (db' = db ∧ load_active_fence project db = Ok (Some lease))
  ∨ (no_active_fence project db
     ∧ (fl_epoch lease = fence_epoch db + 1
        ∨ ∃ id drain, drain_identity_journal db !! id = Some drain ∧ reserved_for project drain
            ∧ fl_epoch lease = ir_epoch drain)).
Proof.
  unfold begin_fence_acquire. intros Hok. inv_guard. case_ok.
  { case_ok. inv_guard. by left. }
  right. inv_guard. match goal with Hn : load_active_fence _ _ = Ok None |- _ =>
    apply load_active_fence_None in Hn end. split; [done|]. case_ok.
  - right. unfold promote_drain_identity in Hok. case_ok. case_ok.
    match goal with Hd : load_active_drain_identity _ _ = Ok (Some _) |- _ =>
      apply load_active_drain_Some in Hd as (drain&?&?&_&<-&_) end. eauto.
  - left. unfold allocate_fence_identity in Hok. inv_ok.
    match goal with He : allocate_next_fence_epoch _ = Ok (?e, _) |- _ =>
      apply allocate_next_fence_epoch_Ok in He as (->&_&->) end. by inv_ok.
Qed.

Lemma released_not_reconciling project db id row :
  no_active_fence project db → fence_journal db !! id = Some row → fr_project_id row = project →
  ¬ reconciling row.
Proof. unfold reconciling. intros Hnone Hrow Hp. by rewrite (Hnone _ _ Hrow Hp). Qed.

(** The guard of [begin_fence_acquire], as facts. *)
Definition fence_guard (project : ProjectId) (attempt : Uuid) (db : SecurityDb) : Prop :=
  (∃ row, executor_authorizations db !! attempt = Some row ∧ ar_project_id row = project)
  ∧ resource_owner db (ExecutionResource_key (ProjectDeploy project)) = Some attempt
  ∧ ∀ phase, phase ∈ [Phase_BackingUp; Phase_Draining] → ∃ receipt,
      load_phase_receipt attempt (phase_name phase) phase Branch_Primary db = Ok (Some receipt).

Lemma require_phase_receipt_Ok attempt phase db u db' :
  require_phase_receipt attempt phase db = Ok (u, db') →
  ∃ receipt, load_phase_receipt attempt (phase_name phase) phase Branch_Primary db
             = Ok (Some receipt).
Proof.
  unfold require_phase_receipt. intros Hok. inv_query.
  match goal with Hs : is_some ?o = true |- _ =>
    apply is_some_is_Some in Hs as [receipt ->] end. by exists receipt.
Qed.

Lemma require_fence_phase_receipts_Ok attempt db u db' :
  require_fence_phase_receipts attempt db = Ok (u, db') →
  ∀ phase, phase ∈ [Phase_BackingUp; Phase_Draining] → ∃ receipt,
    load_phase_receipt attempt (phase_name phase) phase Branch_Primary db = Ok (Some receipt).
Proof.
  unfold require_fence_phase_receipts. intros Hok phase Hin. inv_ok.
  match goal with Hr : require_phase_receipt _ Phase_BackingUp _ = _ |- _ =>
    pose proof (reads_phase_receipt _ _ _ _ _ Hr) as -> end.
  apply elem_of_cons in Hin as [->|Hin]; [|apply list_elem_of_singleton in Hin as ->];
    by eapply require_phase_receipt_Ok.
Qed.

Lemma require_authorized_for_project_Ok attempt project db u db' :
  require_authorized_for_project attempt project None db = Ok (u, db') →
  db' = db ∧ ∃ row, executor_authorizations db !! attempt = Some row ∧ ar_project_id row = project.
Proof.
  unfold require_authorized_for_project. intros [Hok ->]%query_Ok. split; [done|].
  repeat case_ok. bool_prop. naive_solver.
Qed.

Lemma require_resource_owned_Ok resource attempt db u db' :
  require_resource_owned resource attempt db = Ok (u, db') →
  db' = db ∧ resource_owner db (ExecutionResource_key resource) = Some attempt.
Proof.
  unfold require_resource_owned, require_resource_key_owned. intros [Hok ->]%query_Ok.
  inv_ok. by bool_prop.
Qed.

(** Both ways through [begin_fence_acquire] check the lock and the receipts. *)
Lemma lock_and_receipts_Ok {A} project attempt (k : Tx SecurityDb StoreError A) db a db' :
  (let? _ := require_resource_owned (ProjectDeploy project) attempt in
   let? _ := require_fence_phase_receipts attempt in k) db = Ok (a, db') →
  resource_owner db (ExecutionResource_key (ProjectDeploy project)) = Some attempt
  ∧ (∀ phase, phase ∈ [Phase_BackingUp; Phase_Draining] → ∃ receipt,
       load_phase_receipt attempt (phase_name phase) phase Branch_Primary db = Ok (Some receipt))
  ∧ k db = Ok (a, db').
Proof.
  intros (u1&db1&[-> Howner]%require_resource_owned_Ok&Hok)%tx_bind_Ok.
  apply tx_bind_Ok in Hok as (u2&db2&Hr&Hk).
  pose proof (reads_fence_receipts _ _ _ _ Hr) as ->.
  split_and!; [done| |done]. by eapply require_fence_phase_receipts_Ok.
Qed.

Lemma new_fence_attempt project attempt token t (drain : option IdentityLease) db lease db' :
  match drain with
  | Some drain => promote_drain_identity project attempt drain t
  | None => allocate_fence_identity project attempt token t
  end db = Ok (lease, db') → fl_attempt_id lease = attempt.
Proof.
  destruct drain; unfold promote_drain_identity, allocate_fence_identity; intros Hok.
  - case_ok. case_ok. done.
  - inv_ok. destruct x. by inv_ok.
Qed.

Lemma load_active_fence_total db project :
  fence_inv db → ∃ answer, load_active_fence project db = Ok answer.
Proof.
  intros Hinv. unfold load_active_fence, load_fence_with_predicate.
  destruct (head _) as [[id row]|] eqn:Hhd; [|by exists None].
  apply head_sort_Some, select_rows_elem in Hhd as [_ Hrow].
  destruct (jf_row _ Hinv _ _ Hrow) as [[state Hs] Hep].
  unfold fence_of_row. simpl.
  rewrite u64_try_from_id by (unfold is_u64, u64_max, i64_max in *; lia). simpl.
  rewrite (proj2 (FenceJournalState_parse_Ok _ state) Hs). simpl. by eexists.
Qed.

(** ** Theorems *)

(** In every store reached from empty journals by fence operations and other
    operations of the store, the active fence of a project is well defined: reading
    it never fails, and it answers with the one row of the project that is not
    released, or with none when there is no such row. *)
Theorem active_fence_is_unique db project :
  fence_reachable db →
  (∃ answer, load_active_fence project db = Ok answer)
  ∧ ∀ id row, fence_journal db !! id = Some row → fr_project_id row = project →
      fr_state row ≠ "released"%string →
      ∃ lease, load_active_fence project db = Ok (Some lease) ∧ fl_journal_id lease = id
        ∧ lease_of_row lease row.
Proof.
  intros Hinv%fence_reachable_inv. pose proof (load_active_fence_total _ project Hinv) as [answer Ha].
  split; [by exists answer|]. intros id row Hrow Hp Hs. destruct answer as [lease|].
  - exists lease. split; [done|]. apply load_active_fence_Some in Ha as (row'&Hrow'&Hlease&Hp'&Hs').
    assert (fl_journal_id lease = id) as <-; [|by simplify_eq].
    destruct Hlease as (Hproj&_). eapply (jf_active _ Hinv); [done..| |done|done]. congruence.
  - destruct Hs. by eapply (load_active_fence_None _ _ Ha).
Qed.

(** Fencing epochs grow: an acquisition that is accepted answers with the fence the
    attempt already holds, leaving the store as it was, or with an epoch larger
    than that of every earlier fence of the project. *)
Theorem fence_epochs_increase token project attempt t db lease db' :
  fence_reachable db →
  begin_fence_acquire token project attempt t db = (db', Ok lease) →
  (db' = db ∧ load_active_fence project db = Ok (Some lease))
  ∨ ∀ id row, fence_journal db !! id = Some row → fr_project_id row = project →
      fr_epoch row < fl_epoch lease.
Proof.
  intros Hinv%fence_reachable_inv Hok.
  apply begin_fence_acquire_Ok in Hok as [?|[Hnone Hepoch]]; [by left|right].
  intros id row Hrow Hp. pose proof (released_not_reconciling _ _ _ _ Hnone Hrow Hp) as Hnr.
  destruct Hepoch as [->|(id'&drain&Hdrain&Hres&->)].
  - apply (jf_issued _ Hinv) in Hrow; [lia|done].
  - apply (jf_newer _ Hinv id' drain id row); [done|by rewrite Hp|done|done].
Qed.

(** The life cycle of a fence: an operation keeps every row of the journal, moves
    it at most along its life cycle (announced, held, release announced, released,
    or under reconciliation for good), and releases it only against a digest whose
    receipt makes the release safe; a row that is new was announced by an
    acquisition or found held at runtime. *)
Theorem fence_life_cycle db db' id row' :
  fence_step db db' → fence_journal db' !! id = Some row' →
  match fence_journal db !! id with
  | Some row => row' = row ∨ fence_move (safe_digest db (fr_attempt_id row)) row row'
  | None => state_in [Fence_AcquireIntent; Fence_NeedsReconcile] row'
  end.
Proof.
  intros Heff%fence_step_effect Hrow'.
  assert (∀ states row, state_in states row → states ⊆ [Fence_AcquireIntent; Fence_NeedsReconcile] →
            state_in [Fence_AcquireIntent; Fence_NeedsReconcile] row) as Hsub.
  { intros states row (st&Hin&Hs) Hincl. exists st. split; [by apply Hincl|done]. }
  destruct Heff as [Hf|id0 row row0 Hid Hne Hmove Hf|row Hnone Hep Hr Hd Hf
    |row Hnone Hnod Hst Hep Hr Hf|id0 drain drain' row Hnone Hid Hres Hep Hpro Hst Hre Hpos Hd Hf
    |row Hnone Hst Hpos Hf]; rewrite Hf in Hrow'; insert_cases;
    try (rewrite Hrow'; by left); rewrite ?next_rowid_fresh.
  - rewrite Hid. by right.
  - eapply Hsub; [done|]. set_solver.
  - eapply Hsub; [done|]. set_solver.
  - eapply Hsub; [done|]. set_solver.
Qed.

(** A fence is acquired only under the deploy lock: an accepted acquisition means
    that the attempt is authorized for the project, owns its deploy resource and
    has valid receipts for the backup and drain phases. *)
Theorem fence_needs_lock_and_receipts token project attempt t db lease db' :
  begin_fence_acquire token project attempt t db = (db', Ok lease) →
  fence_guard project attempt db ∧ fl_attempt_id lease = attempt.
Proof.
  unfold begin_fence_acquire, fence_guard. intros Hok. inv_ok.
  match goal with Hg : require_authorized_for_project _ _ _ _ = _ |- _ =>
    apply require_authorized_for_project_Ok in Hg as [-> Hauth] end.
  match goal with Hq : query _ _ = _ |- _ => apply query_Ok in Hq as [_ ->] end.
  match type of Hok with match ?o with _ => _ end _ = _ => destruct o as [active|] end.
  - destruct (_ && _) eqn:Hactive in Hok; [|done].
    apply lock_and_receipts_Ok in Hok as (?&?&[-> _]%tx_ok_Ok). bool_prop. naive_solver.
  - apply lock_and_receipts_Ok in Hok as (?&?&Hok). split; [done|].
    inv_query. by eapply new_fence_attempt.
Qed.
End FenceSpec.

(** ** Witnesses *)

Module FenceSample.

#[local] Instance json_reservation : Json AuthorizedDiskReservation :=
  {| json_text := AuthorizedDiskReservation; json_to_string := Ok; json_from_str := Ok |}.
#[local] Instance json_artifacts : Json PhaseArtifacts :=
  {| json_text := PhaseArtifacts; json_to_string := Ok; json_from_str := Ok |}.
#[local] Instance json_receipt : Json PhaseReceipt :=
  {| json_text := PhaseReceipt; json_to_string := Ok; json_from_str := Ok |}.
#[local] Instance sha : Sha256 := λ v, take 32 (v ++ replicate 32 0).
#[local] Instance jcs_receipt : Jcs ReceiptDigestPayload := λ p,
  Ok [str_len (phase_name (rdp_phase p)); rdp_committed_at_ms p].

Definition digest (n : Z) : EvidenceDigest := EvidenceDigest_sha256 [n].
Definition project : ProjectId := MkProjectId "demo".

Definition receipt (phase : OperationPhase) : PhaseReceipt :=
  match PhaseReceipt_new 1 phase Branch_Primary (digest 4) (digest 5) PhaseArtifacts_default 7 with
  | Ok r => r
  | Err _ => MkPhaseReceipt 1 phase Branch_Primary (digest 4) (digest 5) PhaseArtifacts_default
               (digest 0) 7
  end.

Definition receipt_row (phase : OperationPhase) : PhaseReceiptRow :=
  MkPhaseReceiptRow (pr_receipt_digest (receipt phase)) (receipt phase) 7.

(** Attempt 1 is authorized, owns the deploy lock, and has its receipts. *)
Definition db0 : SecurityDb := {|
  executor_authorizations :=
    {[ 1%N := MkAuthorizationRow 1 (digest 1) project 1000 40 None ]};
  fence_journal := ∅;
  drain_identity_journal := ∅;
  backup_boundary_journal := ∅;
  execution_resources := {[ "project:deploy:demo"%string := MkResourceRow 1 50 ]};
  execution_resource_receipts := ∅;
  active_disk_reservations := ∅;
  executor_phase_journal := ∅;
  executor_phase_receipts := {[
    (1%N, "backing_up"%string) := receipt_row Phase_BackingUp;
    (1%N, "draining"%string) := receipt_row Phase_Draining;
    (1%N, "soaking"%string) := receipt_row Phase_Soaking ]};
  executor_rollback_takeovers := ∅;
  authorized_phase_specs := ∅;
  verified_backup_chains := ∅;
  consumed_mutation_grants := ∅;
  project_bootstrap_ledger := ∅;
  source_gate_proofs := ∅;
  source_gate_rejections := ∅;
  source_trust_highwater := ∅;
  fence_epoch := 0
|}.

Definition drained : SecurityDb := (begin_drain_identity 77 project 1 100 db0).1.
Definition announced : SecurityDb := (begin_fence_acquire 78 project 1 110 drained).1.
Definition held : SecurityDb := (reconcile_fence project (Observed_Held 1 1 77) 120 announced).1.
Definition releasing : SecurityDb :=
  (begin_fence_release project 1 (pr_receipt_digest (receipt Phase_Soaking)) 130 held).1.
Definition released : SecurityDb := (reconcile_fence project Observed_Released 140 releasing).1.

(** The fence takes over the epoch and token of the drain identity, and a second
    fence gets the next epoch. *)
Example second_fence_epoch :
  fl_epoch <$> (match (begin_fence_acquire 79 project 1 150 released).2 with
                | Ok lease => Some lease | Err _ => None end) = Some 2.
Proof. vm_compute. reflexivity. Qed.

Lemma reach_released : fence_reachable released.
Proof.
  exists db0. split; [reflexivity|]. split; [reflexivity|].
  split; [unfold i64_max; simpl; lia|].
  eapply rtc_l; [apply (step_drain _ 77 project 1 100)|].
  eapply rtc_l; [apply (step_fence_acquire _ 78 project 1 110)|].
  eapply rtc_l; [apply (step_reconcile _ project (Observed_Held 1 1 77) 120)|].
  eapply rtc_l; [apply (step_fence_release _ project 1
                          (pr_receipt_digest (receipt Phase_Soaking)) 130)|].
  eapply rtc_l; [apply (step_reconcile _ project Observed_Released 140)|]. apply rtc_refl.
Defined.

Lemma reach_held : fence_reachable held.
Proof.
  exists db0. split; [reflexivity|]. split; [reflexivity|].
  split; [unfold i64_max; simpl; lia|].
  eapply rtc_l; [apply (step_drain _ 77 project 1 100)|].
  eapply rtc_l; [apply (step_fence_acquire _ 78 project 1 110)|].
  eapply rtc_l; [apply (step_reconcile _ project (Observed_Held 1 1 77) 120)|]. apply rtc_refl.
Defined.

Lemma active_fence_is_unique_witness :
  ∃ lease, load_active_fence project held = Ok (Some lease) ∧ fl_journal_id lease = 1.
Proof.
  destruct (active_fence_is_unique held project reach_held) as [_ H].
  destruct (H 1 (MkFenceRow 1 project 1 77 "held" None 110 120)) as (lease&H1&H2&_);
    [vm_compute; reflexivity|reflexivity|discriminate|].
  exists lease. split; [exact H1|exact H2].
Defined.

Lemma fence_epochs_increase_witness :
  ∃ lease db', begin_fence_acquire 79 project 1 150 released = (db', Ok lease)
    ∧ fl_epoch lease = 2
    ∧ ((db' = released ∧ load_active_fence project released = Ok (Some lease))
       ∨ ∀ id row, fence_journal released !! id = Some row → fr_project_id row = project →
           fr_epoch row < fl_epoch lease).
Proof.
  eexists. eexists. split; [vm_compute; reflexivity|]. split; [reflexivity|].
  apply (fence_epochs_increase 79 project 1 150 released); [apply reach_released|].
  vm_compute. reflexivity.
Defined.

Definition released_row : FenceRow :=
  MkFenceRow 1 project 1 77 "released" (Some (pr_receipt_digest (receipt Phase_Soaking))) 110 140.

Lemma fence_life_cycle_witness :
  match fence_journal releasing !! 1 with
  | Some row =>
      released_row = row ∨ fence_move (safe_digest releasing (fr_attempt_id row)) row released_row
  | None => state_in [Fence_AcquireIntent; Fence_NeedsReconcile] released_row
  end.
Proof.
  apply (fence_life_cycle releasing released 1 released_row).
  - exact (step_reconcile releasing project Observed_Released 140).
  - vm_compute. reflexivity.
Defined.

Lemma fence_needs_lock_and_receipts_witness :
  fence_guard project 1 drained.
Proof.
  refine (proj1 (fence_needs_lock_and_receipts 78 project 1 110 drained _ announced _)).
  vm_compute. reflexivity.
Defined.

End FenceSample.
