(* ===== verification/DomainSpec.v ===== *)
(** * Domain contracts

    What the domain types of [src/src/domain/] guarantee: the evidence a phase
    receipt must and may carry, the canonical documents and their decoders, the
    construction of execution receipts, the text bounds and the failure
    capsules. *)

From Stdlib Require Import ZArith Lia Ascii String.
From stdpp Require Import base gmap strings option list_numbers list.
From S2P Require Import Prelude Identifiers States Text Execution Failure Operation.

Local Open Scope Z_scope.

(** ** The artifact contract of the phases *)

(** The fields of [PhaseArtifacts]. *)
Inductive ArtifactField : Type :=
| Field_AuthorizedPhaseSpecDigest
| Field_SourceGateProofDigest
| Field_DrainEvidenceDigest
| Field_SourceExportDigest
| Field_PrefetchEvidenceDigest
| Field_CiEvidenceDigest
| Field_BuildPlanDigest
| Field_DeploymentPlanDigest
| Field_ReleaseBundleDigest
| Field_ResourceReservationDigest
| Field_BuildContextDigest
| Field_GeneratedOutputDigests
| Field_ImageDigest
| Field_ImageIdDigest
| Field_BaseImageDigests
| Field_SchemaVersion
| Field_BackupId
| Field_BackupSetId
| Field_BaseBackupId
| Field_BaseBackupManifestDigest
| Field_BaseBackupEvidenceDigest
| Field_BaseBackupOffsiteEvidenceDigest
| Field_BaseBackupVerificationDigest
| Field_CutoverBackupId
| Field_CutoverBackupManifestDigest
| Field_CutoverBackupEvidenceDigest
| Field_CutoverBackupVerificationDigest
| Field_PreviousReleaseBundleDigest
| Field_HealthEvidenceDigest
| Field_FencingEpoch.

#[global] Instance ArtifactField_eq_dec : EqDecision ArtifactField.
Proof. solve_decision. Defined.

(** A field carries evidence: an option that is set, a list that is not empty. *)
Definition present (a : PhaseArtifacts) (field : ArtifactField) : bool :=
  match field with
  | Field_AuthorizedPhaseSpecDigest => is_some (pa_authorized_phase_spec_digest a)
  | Field_SourceGateProofDigest => is_some (pa_source_gate_proof_digest a)
  | Field_DrainEvidenceDigest => is_some (pa_drain_evidence_digest a)
  | Field_SourceExportDigest => is_some (pa_source_export_digest a)
  | Field_PrefetchEvidenceDigest => is_some (pa_prefetch_evidence_digest a)
  | Field_CiEvidenceDigest => is_some (pa_ci_evidence_digest a)
  | Field_BuildPlanDigest => is_some (pa_build_plan_digest a)
  | Field_DeploymentPlanDigest => is_some (pa_deployment_plan_digest a)
  | Field_ReleaseBundleDigest => is_some (pa_release_bundle_digest a)
  | Field_ResourceReservationDigest => is_some (pa_resource_reservation_digest a)
  | Field_BuildContextDigest => is_some (pa_build_context_digest a)
  | Field_GeneratedOutputDigests => pa_generated_output_digests a != []
  | Field_ImageDigest => is_some (pa_image_digest a)
  | Field_ImageIdDigest => is_some (pa_image_id_digest a)
  | Field_BaseImageDigests => pa_base_image_digests a != []
  | Field_SchemaVersion => is_some (pa_schema_version a)
  | Field_BackupId => is_some (pa_backup_id a)
  | Field_BackupSetId => is_some (pa_backup_set_id a)
  | Field_BaseBackupId => is_some (pa_base_backup_id a)
  | Field_BaseBackupManifestDigest => is_some (pa_base_backup_manifest_digest a)
  | Field_BaseBackupEvidenceDigest => is_some (pa_base_backup_evidence_digest a)
  | Field_BaseBackupOffsiteEvidenceDigest => is_some (pa_base_backup_offsite_evidence_digest a)
  | Field_BaseBackupVerificationDigest => is_some (pa_base_backup_verification_digest a)
  | Field_CutoverBackupId => is_some (pa_cutover_backup_id a)
  | Field_CutoverBackupManifestDigest => is_some (pa_cutover_backup_manifest_digest a)
  | Field_CutoverBackupEvidenceDigest => is_some (pa_cutover_backup_evidence_digest a)
  | Field_CutoverBackupVerificationDigest => is_some (pa_cutover_backup_verification_digest a)
  | Field_PreviousReleaseBundleDigest => is_some (pa_previous_release_bundle_digest a)
  | Field_HealthEvidenceDigest => is_some (pa_health_evidence_digest a)
  | Field_FencingEpoch => is_some (pa_fencing_epoch a)
  end.

(** The evidence each phase needs. *)
Definition required_fields (phase : OperationPhase) : list ArtifactField :=
  match phase with
  | Phase_Testing =>
      [Field_SourceExportDigest; Field_PrefetchEvidenceDigest; Field_CiEvidenceDigest;
       Field_BuildContextDigest; Field_ResourceReservationDigest; Field_BaseImageDigests]
  | Phase_Building =>
      [Field_BuildContextDigest; Field_BuildPlanDigest; Field_ImageDigest; Field_ImageIdDigest;
       Field_BaseImageDigests]
  | Phase_Preflight =>
      [Field_ResourceReservationDigest]
  | Phase_Draining =>
      [Field_SourceGateProofDigest; Field_DrainEvidenceDigest]
  | Phase_Deploying =>
      [Field_DeploymentPlanDigest; Field_ReleaseBundleDigest]
  | Phase_BackingUp =>
      [Field_BackupSetId; Field_BaseBackupId; Field_BaseBackupManifestDigest;
       Field_BaseBackupEvidenceDigest; Field_BaseBackupOffsiteEvidenceDigest;
       Field_BaseBackupVerificationDigest]
  | Phase_CutoverSnapshotting =>
      [Field_BackupSetId; Field_CutoverBackupId; Field_CutoverBackupManifestDigest;
       Field_CutoverBackupEvidenceDigest; Field_CutoverBackupVerificationDigest;
       Field_FencingEpoch]
  | Phase_Migrating =>
      [Field_SchemaVersion]
  | Phase_HealthChecking =>
      [Field_HealthEvidenceDigest]
  | _ => []
  end.

(** The evidence a phase may carry besides; the authorized spec digest is accepted
    everywhere. *)
Definition optional_fields (phase : OperationPhase) : list ArtifactField :=
  match phase with
  | Phase_Testing =>
      [Field_AuthorizedPhaseSpecDigest; Field_GeneratedOutputDigests]
  | Phase_BackingUp =>
      [Field_AuthorizedPhaseSpecDigest; Field_SourceGateProofDigest]
  | Phase_Deploying =>
      [Field_AuthorizedPhaseSpecDigest; Field_SourceGateProofDigest;
       Field_PreviousReleaseBundleDigest]
  | Phase_Soaking =>
      [Field_AuthorizedPhaseSpecDigest; Field_HealthEvidenceDigest]
  | Phase_Rollback =>
      [Field_AuthorizedPhaseSpecDigest; Field_PreviousReleaseBundleDigest]
  | _ => [Field_AuthorizedPhaseSpecDigest]
  end.

Definition all_fields : list ArtifactField :=
      [Field_AuthorizedPhaseSpecDigest; Field_SourceGateProofDigest; Field_DrainEvidenceDigest;
       Field_SourceExportDigest; Field_PrefetchEvidenceDigest; Field_CiEvidenceDigest;
       Field_BuildPlanDigest; Field_DeploymentPlanDigest; Field_ReleaseBundleDigest;
       Field_ResourceReservationDigest; Field_BuildContextDigest; Field_GeneratedOutputDigests;
       Field_ImageDigest; Field_ImageIdDigest; Field_BaseImageDigests; Field_SchemaVersion;
       Field_BackupId; Field_BackupSetId; Field_BaseBackupId; Field_BaseBackupManifestDigest;
       Field_BaseBackupEvidenceDigest; Field_BaseBackupOffsiteEvidenceDigest;
       Field_BaseBackupVerificationDigest; Field_CutoverBackupId;
       Field_CutoverBackupManifestDigest; Field_CutoverBackupEvidenceDigest;
       Field_CutoverBackupVerificationDigest; Field_PreviousReleaseBundleDigest;
       Field_HealthEvidenceDigest; Field_FencingEpoch].

Lemma all_fields_complete field : field ∈ all_fields.
Proof. apply (bool_decide_unpack _). by destruct field. Qed.

Lemma is_some_false {A} (o : option A) : is_some o = false → o = None.
Proof. by destruct o. Qed.

(** The default has no evidence, and nothing else has none. *)
Lemma absent_default a : a = PhaseArtifacts_default ↔ ∀ field, present a field = false.
Proof.
  split; [intros ->; by intros []|]. intros Habsent.
  assert (Forall (λ field, present a field = false) all_fields) as Hall
    by (apply Forall_forall; auto).
  destruct a. unfold all_fields, PhaseArtifacts_default in *. rewrite !Forall_cons in Hall.
  destruct_and!. simpl in *. bool_prop. by f_equal; try apply is_some_false.
Qed.

Definition carries_required (a : PhaseArtifacts) (phase : OperationPhase) : Prop :=
  ∀ field, field ∈ required_fields phase → present a field = true.

Definition carries_only_expected (a : PhaseArtifacts) (phase : OperationPhase) : Prop :=
  ∀ field, present a field = true → field ∈ required_fields phase ++ optional_fields phase.

Lemma required_phase_artifacts_spec a phase :
  required_phase_artifacts a phase = true ↔ carries_required a phase.
Proof.
  assert (carries_required a phase ↔ Forall (λ f, present a f = true) (required_fields phase)) as ->
    by (unfold carries_required; by rewrite Forall_forall).
  destruct phase; simpl; rewrite ?Forall_cons, ?Forall_nil, ?andb_true_iff; simpl; tauto.
Qed.

Lemma contains_only_phase_artifacts_spec a phase :
  contains_only_phase_artifacts a phase = true ↔ carries_only_expected a phase.
Proof.
  unfold contains_only_phase_artifacts. rewrite bool_decide_eq_true, absent_default.
  assert (carries_only_expected a phase ↔ ∀ field, present a field
      && negb (bool_decide (field ∈ required_fields phase ++ optional_fields phase)) = false) as ->.
  { unfold carries_only_expected. apply forall_proper. intros field.
    rewrite andb_false_iff, negb_false_iff, bool_decide_eq_true.
    destruct (present a field); naive_solver. }
  apply forall_proper. intros field. destruct phase, field; simpl; rewrite ?andb_true_r, ?andb_false_r; done.
Qed.

(** The artifact contract of a receipt: [validate_for_phase] accepts exactly the
    evidence that covers what the phase requires and contains nothing it does not
    allow; missing evidence is reported before unexpected evidence. *)
Theorem phase_artifact_contract a phase :
  (validate_for_phase a phase = Ok tt
     ↔ carries_required a phase ∧ carries_only_expected a phase)
  ∧ (validate_for_phase a phase = Err (MissingRequiredEvidence phase)
     ↔ ¬ carries_required a phase)
  ∧ (validate_for_phase a phase = Err (UnexpectedEvidence phase)
     ↔ carries_required a phase ∧ ¬ carries_only_expected a phase).
Proof.
  rewrite <- required_phase_artifacts_spec, <- contains_only_phase_artifacts_spec.
  unfold validate_for_phase.
  destruct (required_phase_artifacts a phase), (contains_only_phase_artifacts a phase);
    naive_solver.
Qed.

(** ** Canonical documents

    A document type with its canonical encoder and its strict decoder.  What the
    clients rely on is the law: a byte string decodes to a document exactly when
    it is the encoding of that document. *)
Class CanonicalDocument (A E : Type) := {
  document_bytes : A → Result E (list Z);
  decode_document : list Z → Result E A
}.

Class CanonicalDocumentLaw (A E : Type) `{!CanonicalDocument A E} : Prop :=
  decode_document_Ok (document : A) (bytes : list Z) :
    decode_document (E := E) bytes = Ok document ↔ document_bytes (E := E) document = Ok bytes.

Section Documents.
Context {A E : Type} `{!CanonicalDocument A E, !CanonicalDocumentLaw A E}.

(** One encoding per document, and one document per encoding. *)
Lemma document_bytes_inj (d1 d2 : A) (bytes : list Z) :
  document_bytes (E := E) d1 = Ok bytes → document_bytes (E := E) d2 = Ok bytes → d1 = d2.
Proof. rewrite <- !decode_document_Ok. congruence. Qed.

Lemma decode_document_inj (d : A) (b1 b2 : list Z) :
  decode_document (E := E) b1 = Ok d → decode_document (E := E) b2 = Ok d → b1 = b2.
Proof. rewrite !decode_document_Ok. congruence. Qed.
End Documents.

(** The decoders of the receipts: parse, re-encode, compare, then check. *)
Section StrictDecoder.
Context {A E : Type} `{!Jcs A, !JsonSlice A, !JcsRoundTrip A}.
Context (check : A → Result E unit) (encoding : SerdeError → E) (mismatch : E).

Lemma strict_decoder_Ok (document : A) (bytes : list Z) :
  (let? parsed := map_err encoding (json_from_slice bytes) in
   let? encoded := map_err encoding (jcs_to_vec parsed) in
   if encoded != bytes then Err mismatch
   else let? _ := check parsed in Ok parsed) = Ok document
  ↔ (let? _ := check document in map_err encoding (jcs_to_vec document)) = Ok bytes.
Proof.
  split; intros Hok; inv_ok.
  - case_ok. bool_prop. simplify_eq.
    repeat match goal with Hx : _ = Ok _ |- _ => rewrite Hx; simpl end. done.
  - rewrite (jcs_round_trip _ _ Hok). simpl. rewrite Hok. simpl.
    rewrite bool_decide_eq_true_2 by done. simpl.
    match goal with Hx : check _ = Ok _ |- _ => by rewrite Hx end.
Qed.
End StrictDecoder.

Section ReceiptDocuments.
Context `{!Sha256}.
Context `{!Jcs ExecutionTerminalReceiptDigestPayload, !Jcs ExecutionTerminalReceiptV1,
  !JsonSlice ExecutionTerminalReceiptV1, !JcsRoundTrip ExecutionTerminalReceiptV1}.
Context `{!Jcs ExecutionCleanupReceiptDigestPayload, !Jcs ExecutionCleanupReceiptV1,
  !JsonSlice ExecutionCleanupReceiptV1, !JcsRoundTrip ExecutionCleanupReceiptV1}.
Context `{!Jcs FenceAcquisitionReceiptDigestPayload, !Jcs FenceAcquisitionReceiptV1,
  !JsonSlice FenceAcquisitionReceiptV1, !JcsRoundTrip FenceAcquisitionReceiptV1}.

#[global] Instance terminal_document :
  CanonicalDocument ExecutionTerminalReceiptV1 ExecutionReceiptError :=
  {| document_bytes := TerminalReceipt_canonical_bytes;
     decode_document := TerminalReceipt_decode_canonical |}.

#[global] Instance terminal_document_law :
  CanonicalDocumentLaw ExecutionTerminalReceiptV1 ExecutionReceiptError.
Proof. intros document bytes. apply strict_decoder_Ok. Qed.

#[global] Instance cleanup_document :
  CanonicalDocument ExecutionCleanupReceiptV1 ExecutionReceiptError :=
  {| document_bytes := CleanupReceipt_canonical_bytes;
     decode_document := CleanupReceipt_decode_canonical |}.

#[global] Instance cleanup_document_law :
  CanonicalDocumentLaw ExecutionCleanupReceiptV1 ExecutionReceiptError.
Proof. intros document bytes. apply strict_decoder_Ok. Qed.

#[global] Instance fence_document :
  CanonicalDocument FenceAcquisitionReceiptV1 FenceAcquisitionReceiptError :=
  {| document_bytes := FenceReceipt_canonical_bytes;
     decode_document := FenceReceipt_decode_canonical |}.

Definition fence_check (receipt : FenceAcquisitionReceiptV1)
    : Result FenceAcquisitionReceiptError unit :=
  let? valid := FenceReceipt_has_valid_digest receipt in
  if negb valid then Err Fence_DigestMismatch else Ok tt.

#[global] Instance fence_document_law :
  CanonicalDocumentLaw FenceAcquisitionReceiptV1 FenceAcquisitionReceiptError.
Proof.
  intros document bytes.
  pose proof (strict_decoder_Ok fence_check Fence_CanonicalEncoding Fence_InvalidDocument
                document bytes) as Hlaw.
  unfold document_bytes, decode_document; simpl.
  unfold FenceReceipt_decode_canonical, FenceReceipt_canonical_bytes.
  unfold fence_check, mbind, result_bind in *.
  repeat case_match; simplify_eq/=; naive_solver.
Qed.

(** The canonical receipts are bijective with their encodings: the strict decoder
    returns a receipt exactly on the canonical bytes of that (valid) receipt, for
    terminal, cleanup and fence-acquisition receipts.  No second byte string
    decodes to the same receipt, and nothing invalid decodes. *)
Theorem receipts_decode_from_canonical_bytes_only bytes :
  (∀ receipt : ExecutionTerminalReceiptV1,
     TerminalReceipt_decode_canonical bytes = Ok receipt
     ↔ TerminalReceipt_canonical_bytes receipt = Ok bytes)
  ∧ (∀ receipt : ExecutionCleanupReceiptV1,
     CleanupReceipt_decode_canonical bytes = Ok receipt
     ↔ CleanupReceipt_canonical_bytes receipt = Ok bytes)
  ∧ (∀ receipt : FenceAcquisitionReceiptV1,
     FenceReceipt_decode_canonical bytes = Ok receipt
     ↔ FenceReceipt_canonical_bytes receipt = Ok bytes).
Proof.
  split_and!; intros receipt.
  - exact (decode_document_Ok receipt bytes).
  - exact (decode_document_Ok receipt bytes).
  - exact (decode_document_Ok receipt bytes).
Qed.
End ReceiptDocuments.

(** ** Text bounds *)

Lemma truncate_utf8_fits input max suffix :
  (String.length input ≤ max)%nat → truncate_utf8 input max suffix = input.
Proof. intros Hle. unfold truncate_utf8. by rewrite (proj2 (Nat.leb_le _ _) Hle). Qed.

(** The cut point of a text that is too long. *)
Definition cut_point (input : string) (max : nat) (suffix : string) (boundary : nat) : Prop :=
  let budget := (max - Nat.min (String.length suffix) max)%nat in
  (boundary ≤ budget)%nat
  ∧ is_char_boundary (as_bytes input) boundary = true
  ∧ (∀ k, (boundary < k ≤ budget)%nat → is_char_boundary (as_bytes input) k = false).

Lemma truncate_utf8_cuts input max suffix :
  (max < String.length input)%nat →
  ∃ boundary, cut_point input max suffix boundary
    ∧ truncate_utf8 input max suffix
      = (str_prefix input boundary ++ str_prefix suffix (Nat.min (String.length suffix) max))%string.
Proof.
  intros Hlt. unfold truncate_utf8. rewrite (proj2 (Nat.leb_gt _ _) Hlt).
  eexists. split; [|done]. apply retreat_to_boundary_spec.
Qed.

Lemma truncate_utf8_length input max suffix :
  (String.length (truncate_utf8 input max suffix) ≤ max)%nat.
Proof.
  destruct (Nat.le_gt_cases (String.length input) max) as [Hle|Hgt].
  - by rewrite truncate_utf8_fits.
  - destruct (truncate_utf8_cuts input max suffix Hgt) as (boundary&(Hb&_)&->).
    rewrite string_length_app, !str_prefix_length by lia. lia.
Qed.

Lemma truncate_utf8_same_length input max suffix :
  (String.length input ≤ String.length (truncate_utf8 input max suffix))%nat →
  truncate_utf8 input max suffix = input.
Proof.
  intros Hle. apply truncate_utf8_fits. etrans; [done|]. apply truncate_utf8_length.
Qed.

(** [truncate_utf8] keeps a text that fits the byte budget, and otherwise returns
    the longest prefix that ends at a character boundary and leaves room for the
    suffix, followed by the suffix; the result never exceeds the budget. *)
Theorem truncate_utf8_is_maximal input max suffix :
  (String.length (truncate_utf8 input max suffix) ≤ max)%nat
  ∧ ((String.length input ≤ max)%nat → truncate_utf8 input max suffix = input)
  ∧ ((max < String.length input)%nat → ∃ boundary,
       cut_point input max suffix boundary
       ∧ as_bytes (truncate_utf8 input max suffix)
         = take boundary (as_bytes input)
           ++ take (Nat.min (String.length suffix) max) (as_bytes suffix)).
Proof.
  split_and!; [apply truncate_utf8_length|apply truncate_utf8_fits|].
  intros (boundary&Hcut&->)%(truncate_utf8_cuts _ _ suffix). exists boundary. split; [done|].
  by rewrite as_bytes_app, !str_prefix_bytes.
Qed.

(** ** Failure capsules *)

Section Capsules.
Context `{!Sha256, !Redactor, !Jcs FailureCapsule, !JsonSlice FailureCapsule,
  !JcsRoundTrip FailureCapsule}.

#[global] Instance capsule_document : CanonicalDocument FailureCapsule FailureCapsuleError :=
  {| document_bytes := FailureCapsule_canonical_bytes;
     decode_document := FailureCapsule_decode_canonical |}.

#[global] Instance capsule_document_law : CanonicalDocumentLaw FailureCapsule FailureCapsuleError.
Proof.
  intros capsule bytes. unfold document_bytes, decode_document; simpl.
  unfold FailureCapsule_decode_canonical. split; intros Hok.
  - inv_ok. case_ok. bool_prop. congruence.
  - assert (jcs_to_vec capsule = Ok bytes) as Hjcs.
    { unfold FailureCapsule_canonical_bytes in Hok. inv_ok. case_ok. congruence. }
    rewrite (jcs_round_trip _ _ Hjcs). simpl. rewrite Hok. simpl.
    by rewrite bool_decide_eq_true_2.
Qed.

(** A capsule the constructor accepts is valid, fits and says whether its excerpt
    was cut. *)
Lemma from_v2_raw_Ok input capsule :
  FailureCapsule_from_v2_raw input = Ok capsule →
  ∃ bytes,
    FailureCapsule_validate capsule = Ok tt
    ∧ jcs_to_vec capsule = Ok bytes
    ∧ Z.of_nat (length bytes) ≤ FAILURE_CAPSULE_CAP_BYTES
    ∧ (fc_truncated capsule = false → fc_excerpt capsule = redact (fi_raw_excerpt input)).
Proof.
  unfold FailureCapsule_from_v2_raw. intros Hok.
  destruct (redact_bounded (se_summary _) _), (redact_bounded (fi_step_display_name _) _),
    (redact_bounded (fi_first_cause _) _), (redact_context _ _) in Hok. inv_ok.
  repeat match goal with u : unit |- _ => destruct u end.
  case_ok.
  - case_ok. repeat match goal with u : unit |- _ => destruct u end. bool_prop. by eexists.
  - bool_prop. eexists; split_and!; [done..|].
    cbn [fc_truncated fc_excerpt]. intros Hlen%Z.ltb_ge.
    apply truncate_utf8_same_length. unfold str_len in Hlen. by apply Nat2Z.inj_le.
Qed.

(** A failure capsule built from raw evidence is a canonical document within the
    64 KiB cap: it validates, it encodes to at most the cap, the encoding decodes
    back to it, and when it is not marked truncated its excerpt is the whole
    redacted text. *)
Theorem failure_capsule_is_bounded_document input capsule :
  FailureCapsule_from_v2_raw input = Ok capsule →
  ∃ bytes,
    FailureCapsule_canonical_bytes capsule = Ok bytes
    ∧ Z.of_nat (length bytes) ≤ 65536
    ∧ FailureCapsule_decode_canonical bytes = Ok capsule
    ∧ (fc_truncated capsule = false → fc_excerpt capsule = redact (fi_raw_excerpt input)).
Proof.
  intros (bytes&Hvalid&Hjcs&Hlen&Htrunc)%from_v2_raw_Ok.
  assert (FailureCapsule_canonical_bytes capsule = Ok bytes) as Hbytes.
  { unfold FailureCapsule_canonical_bytes. rewrite Hvalid. simpl. rewrite Hjcs. simpl.
    rewrite (proj2 (Z.ltb_ge _ _) Hlen). by rewrite andb_false_r. }
  exists bytes. split_and!; [done|done| |done].
  exact (proj2 (decode_document_Ok capsule bytes) Hbytes).
Qed.
End Capsules.

(** ** Execution receipts *)

(** Gaps in the order of their declaration, all below an index. *)
Definition sorted_below (gaps : list ExecutionEvidenceGapV1) (n : Z) : Prop :=
  strictly_sorted_unique gap_index gaps = true ∧ Forall (λ g, gap_index g < n) gaps.

Lemma strictly_sorted_unique_snoc gaps gap :
  sorted_below gaps (gap_index gap) → strictly_sorted_unique gap_index (gaps ++ [gap]) = true.
Proof.
  unfold sorted_below, strictly_sorted_unique.
  induction gaps as [|x [|y gaps] IH]; intros [Hsort Hbelow]; [done|..]; simpl in *.
  - rewrite Forall_singleton in Hbelow. bool_prop. done.
  - apply andb_true_iff in Hsort as [Hxy Hsort]. rewrite Hxy. simpl. apply IH.
    split; [done|]. by apply Forall_cons in Hbelow as [_ ?].
Qed.

Lemma push_if_sorted_below gaps c gap :
  sorted_below gaps (gap_index gap) → sorted_below (push_if c gap gaps) (gap_index gap + 1).
Proof.
  intros Hgaps. unfold push_if. destruct c.
  - split; [by apply strictly_sorted_unique_snoc|]. apply Forall_app. split; [|by repeat constructor; lia].
    eapply Forall_impl; [by apply Hgaps|]. intros; simpl in *; lia.
  - split; [apply Hgaps|]. eapply Forall_impl; [by apply Hgaps|]. intros; simpl in *; lia.
Qed.

Lemma expected_execution_gaps_sorted process resources storage :
  strictly_sorted_unique gap_index (expected_execution_gaps process resources storage) = true.
Proof.
  assert (sorted_below (expected_execution_gaps process resources storage) 13) as [Hsorted _];
    [|done].
  unfold expected_execution_gaps.
  do 13 (refine (push_if_sorted_below _ _ _ _)). by split.
Qed.

(** The measurement a gap stands for is there. *)
Definition measured (process : ExecutionProcessOutcomeV1) (resources : ExecutionResourceUsageV1)
    (storage : ExecutionStorageUsageV1) (gap : ExecutionEvidenceGapV1) : bool :=
  match gap with
  | Gap_CpuUsage => is_some (eru_cpu_usage_usec resources)
  | Gap_MemoryPeak => is_some (eru_memory_peak_bytes resources)
  | Gap_MemoryEvents => is_some (eru_memory_events resources)
  | Gap_Io => is_some (eru_io resources)
  | Gap_TasksPeak => is_some (eru_tasks_peak resources)
  | Gap_ScratchBefore => is_some (esu_scratch_before_bytes storage)
  | Gap_ScratchAfter => is_some (esu_scratch_after_bytes storage)
  | Gap_ScratchPeak => is_some (esu_scratch_peak_bytes storage)
  | Gap_CacheDelta => is_some (esu_cache_delta_bytes storage)
  | Gap_LogDelta => is_some (esu_log_delta_bytes storage)
  | Gap_FilesystemAvailable => is_some (esu_filesystem_available_after_bytes storage)
  | Gap_EmergencyReserve =>
      is_some (esu_emergency_reserve_required_bytes storage)
      && is_some (esu_emergency_reserve_remaining_bytes storage)
      && is_some (esu_emergency_reserve_deficit_bytes storage)
  | Gap_ProcessStatus =>
      (epo_result process == Exec_Succeeded) || is_some (epo_exit_code process)
      || is_some (epo_signal process)
  end.

Lemma push_if_elem {A} c (g x : A) gaps : x ∈ push_if c g gaps ↔ x ∈ gaps ∨ (c = true ∧ x = g).
Proof.
  unfold push_if. destruct c; [|naive_solver].
  rewrite elem_of_app, list_elem_of_singleton. naive_solver.
Qed.

Lemma expected_execution_gaps_exact process resources storage gap :
  gap ∈ expected_execution_gaps process resources storage
  ↔ measured process resources storage gap = false.
Proof.
  unfold expected_execution_gaps, is_none. rewrite !push_if_elem, elem_of_nil.
  rewrite !orb_true_iff, !andb_true_iff, !negb_true_iff.
  destruct gap; simpl; rewrite ?orb_false_iff, ?andb_false_iff; naive_solver.
Qed.

Section TerminalReceipts.
Context `{!Sha256, !Jcs ExecutionTerminalReceiptDigestPayload}.

(** What the caller of [ExecutionTerminalReceiptV1::new] must supply. *)
Definition terminal_inputs_valid (request_id attempt_id : Uuid) (step_id : string)
    (sequence started_at_ms finished_at_ms : Z) (process : ExecutionProcessOutcomeV1)
    (storage : ExecutionStorageUsageV1) : Prop :=
  request_id ≠ 0%N ∧ attempt_id ≠ 0%N ∧ sequence ≠ 0
  ∧ valid_token step_id EXECUTION_MAX_STEP_ID_BYTES = true
  ∧ 0 ≤ started_at_ms ≤ finished_at_ms
  ∧ is_ok (ExecutionProcessOutcomeV1_validate process) = true
  ∧ is_ok (ExecutionStorageUsageV1_validate storage) = true.

Lemma elapsed_ms_Ok started finished elapsed :
  is_i64 finished →
  elapsed_ms started finished = Ok elapsed ↔ 0 ≤ started ≤ finished ∧ elapsed = finished - started.
Proof.
  unfold is_i64, i64_max, i64_min, elapsed_ms. intros Hfinished.
  destruct (Z.ltb_spec started 0), (Z.ltb_spec finished started); simpl;
    try (split; [done|lia]).
  unfold u64_try_from. rewrite ok_or_Ok, checked_range_Some. unfold u64_max. lia.
Qed.

Lemma is_ok_unit {E} (r : Result E unit) : is_ok r = true ↔ r = Ok tt.
Proof. destruct r as [[]|]; by split. Qed.

(** Validation of a document whose derived fields are as the constructor computes
    them comes down to its inputs. *)
Lemma terminal_validate_derived receipt digest :
  is_i64 (etr_finished_at_ms receipt) →
  etr_schema_version receipt = EXECUTION_TERMINAL_RECEIPT_SCHEMA_VERSION →
  etr_duration_ms receipt = etr_finished_at_ms receipt - etr_started_at_ms receipt →
  etr_evidence_gaps receipt = expected_execution_gaps (etr_process receipt)
                                (etr_resources receipt) (etr_storage receipt) →
  TerminalReceipt_calculate_digest receipt = Ok digest →
  etr_receipt_digest receipt = digest →
  TerminalReceipt_validate receipt = Ok tt
  ↔ terminal_inputs_valid (etr_request_id receipt) (etr_attempt_id receipt) (etr_step_id receipt)
      (etr_sequence receipt) (etr_started_at_ms receipt) (etr_finished_at_ms receipt)
      (etr_process receipt) (etr_storage receipt).
Proof.
  intros Hi64 Hversion Hduration Hgaps Hdigest Heq.
  unfold TerminalReceipt_validate, terminal_inputs_valid.
  rewrite Hversion, Hgaps, expected_execution_gaps_sorted, !bool_decide_eq_true_2 by done.
  rewrite Hdigest, Heq, !is_ok_unit. simpl. split.
  - intros Hok. repeat case_ok. unfold is_nil in *. bool_prop.
    rewrite elapsed_ms_Ok in * by done. repeat match goal with u : unit |- _ => destruct u end.
    rewrite !N.eqb_neq in *. naive_solver.
  - intros (Hr&Ha&Hs&Hstep&Htime&Hp&Hst). unfold is_nil.
    rewrite (proj2 (N.eqb_neq _ _) Hr), (proj2 (N.eqb_neq _ _) Ha), (proj2 (Z.eqb_neq _ _) Hs), Hstep.
    simpl. rewrite (proj2 (elapsed_ms_Ok _ _ _ Hi64) (conj Htime eq_refl)). simpl.
    rewrite Hduration, bool_decide_eq_true_2 by done. simpl. rewrite Hp. simpl. rewrite Hst. simpl.
    by rewrite bool_decide_eq_true_2.
Qed.

(** [ExecutionTerminalReceiptV1::new] succeeds exactly on valid inputs (whenever
    the digest payload encodes): the duration, the evidence gaps and the digest it
    derives never make its own validation fail, and the gaps of the receipt are
    exactly the measurements that are absent. *)
Theorem terminal_receipt_new_succeeds_iff_valid request attempt start project phase step sequence
    started finished process resources storage :
  (∀ payload : ExecutionTerminalReceiptDigestPayload, is_ok (jcs_to_vec payload) = true) →
  is_i64 finished →
  (is_ok (TerminalReceipt_new request attempt start project phase step sequence started finished
            process resources storage) = true
   ↔ terminal_inputs_valid request attempt step sequence started finished process storage)
  ∧ ∀ receipt, TerminalReceipt_new request attempt start project phase step sequence started
                 finished process resources storage = Ok receipt →
      TerminalReceipt_validate receipt = Ok tt
      ∧ etr_duration_ms receipt = finished - started
      ∧ ∀ gap, gap ∈ etr_evidence_gaps receipt ↔ measured process resources storage gap = false.
Proof.
  intros Htotal Hi64.
  assert (∀ receipt, ∃ digest, TerminalReceipt_calculate_digest receipt = Ok digest) as Hdigest.
  { intros receipt. unfold TerminalReceipt_calculate_digest.
    destruct (jcs_to_vec _) eqn:Hjcs; [by eexists|].
    apply (f_equal is_ok) in Hjcs. by rewrite Htotal in Hjcs. }
  unfold TerminalReceipt_new. destruct (elapsed_ms started finished) as [elapsed|e] eqn:Helapsed.
  - apply elapsed_ms_Ok in Helapsed as [Htime ->]; [|done]. simpl.
    match goal with |- context [TerminalReceipt_calculate_digest ?r] =>
      destruct (Hdigest r) as [digest Hd]; rewrite Hd; simpl;
      pose proof (terminal_validate_derived (r <| etr_receipt_digest := digest |>) digest
        Hi64 eq_refl eq_refl eq_refl Hd eq_refl) as Hvalid end.
    simpl in Hvalid. rewrite <- Hvalid, <- is_ok_unit. clear Hvalid.
    destruct (TerminalReceipt_validate _) as [[]|] eqn:Hv; simpl; (split; [done|]); [|done].
    intros receipt [= <-]. split_and!; [done..|]. apply expected_execution_gaps_exact.
  - split; [|done]. simpl. split; [done|]. intros (_&_&_&_&Htime&_).
    by rewrite (proj2 (elapsed_ms_Ok _ _ _ Hi64) (conj Htime eq_refl)) in Helapsed.
Qed.
End TerminalReceipts.

(** ** Witnesses *)

Module DomainSample.

#[local] Instance sha : Sha256 := λ v, take 32 (v ++ replicate 32 0).
#[local] Instance redactor : Redactor := λ text, MkRedactionResult text 0.

Definition digest (n : Z) : EvidenceDigest := EvidenceDigest_sha256 [n].

(** A codec whose canonical form of one document is the byte [1]. *)
Definition encode_one {A} `{EqDecision A} (one : A) : Jcs A := λ x,
  if x == one then Ok [1] else Err MkSerdeError.
Definition decode_one {A} (one : A) : JsonSlice A := λ b,
  if b == [1] then Ok one else Err MkSerdeError.
Lemma encode_one_round_trip {A} `{EqDecision A} (one : A) :
  @JcsRoundTrip A (encode_one one) (decode_one one).
Proof.
  intros x b. unfold jcs_to_vec, encode_one, json_from_slice, decode_one.
  case_bool_decide; [|discriminate]. intros [= <-]. by subst.
Defined.

Definition process : ExecutionProcessOutcomeV1 :=
  MkExecutionProcessOutcomeV1 Exec_Failed (Some 2) None false false.
Definition resources : ExecutionResourceUsageV1 :=
  MkExecutionResourceUsageV1 (Some 10) (Some 20) None None (Some 3).
Definition storage : ExecutionStorageUsageV1 :=
  MkExecutionStorageUsageV1 (Some 1) (Some 2) (Some 3) None None (Some 50) None None None.

#[local] Instance jcs_terminal_payload : Jcs ExecutionTerminalReceiptDigestPayload :=
  λ p, Ok [etp_sequence p].
#[local] Instance jcs_cleanup_payload : Jcs ExecutionCleanupReceiptDigestPayload :=
  λ p, Ok [ecp_completed_at_ms p].
#[local] Instance jcs_fence_payload : Jcs FenceAcquisitionReceiptDigestPayload :=
  λ p, Ok [fdp_epoch p].

Definition terminal : ExecutionTerminalReceiptV1 :=
  MkExecutionTerminalReceiptV1 1 1 2 (digest 1) (MkProjectId "demo") Phase_Testing "unit-tests" 1
    100 160 60 process resources storage (expected_execution_gaps process resources storage)
    (EvidenceDigest_sha256 [1]).
Definition cleanup : ExecutionCleanupReceiptV1 :=
  MkExecutionCleanupReceiptV1 1 2 (digest 1) Cleanup_Complete true (Some 4) 0 (Some 5) [] None 170
    (EvidenceDigest_sha256 [170]).
Definition fence : FenceAcquisitionReceiptV1 :=
  MkFenceAcquisitionReceiptV1 1 (MkProjectId "demo") 2 7 (digest 1) 180
    (EvidenceDigest_sha256 [7]).

#[local] Instance jcs_terminal : Jcs ExecutionTerminalReceiptV1 := encode_one terminal.
#[local] Instance json_terminal : JsonSlice ExecutionTerminalReceiptV1 := decode_one terminal.
#[local] Instance jcs_cleanup : Jcs ExecutionCleanupReceiptV1 := encode_one cleanup.
#[local] Instance json_cleanup : JsonSlice ExecutionCleanupReceiptV1 := decode_one cleanup.
#[local] Instance jcs_fence : Jcs FenceAcquisitionReceiptV1 := encode_one fence.
#[local] Instance json_fence : JsonSlice FenceAcquisitionReceiptV1 := decode_one fence.
#[local] Instance terminal_round_trip : JcsRoundTrip ExecutionTerminalReceiptV1 :=
  encode_one_round_trip terminal.
#[local] Instance cleanup_round_trip : JcsRoundTrip ExecutionCleanupReceiptV1 :=
  encode_one_round_trip cleanup.
#[local] Instance fence_round_trip : JcsRoundTrip FenceAcquisitionReceiptV1 :=
  encode_one_round_trip fence.

Lemma receipts_decode_from_canonical_bytes_only_witness :
  TerminalReceipt_decode_canonical [1] = Ok terminal
  ∧ CleanupReceipt_decode_canonical [1] = Ok cleanup
  ∧ FenceReceipt_decode_canonical [1] = Ok fence.
Proof.
  destruct (receipts_decode_from_canonical_bytes_only [1]) as (Ht&Hc&Hf).
  split; [apply Ht|split; [apply Hc|apply Hf]]; vm_compute; reflexivity.
Defined.

Lemma terminal_receipt_new_succeeds_iff_valid_witness :
  is_ok (TerminalReceipt_new 1 2 (digest 1) (MkProjectId "demo") Phase_Testing "unit-tests" 1
           100 160 process resources storage) = true.
Proof.
  apply (terminal_receipt_new_succeeds_iff_valid 1 2 (digest 1) (MkProjectId "demo")
           Phase_Testing "unit-tests" 1 100 160 process resources storage).
  - reflexivity.
  - unfold is_i64, i64_min, i64_max. lia.
  - unfold terminal_inputs_valid. repeat split; try lia; vm_compute; reflexivity || discriminate.
Defined.

Definition failure_input : FailureCapsuleV2Input := {|
  fi_failure_id := 1; fi_project_id := MkProjectId "demo"; fi_workflow_kind := "deploy";
  fi_source_sha := None; fi_policy_digest := None; fi_request_id := 2; fi_operation_id := 3;
  fi_attempt_id := 4; fi_phase := Phase_Testing; fi_step_id := "unit-tests";
  fi_step_display_name := "Unit tests"; fi_started_at_ms := 100; fi_failed_at_ms := 160;
  fi_error := MkStructuredError "tests_failed" "two tests failed" Retry_Automatic None;
  fi_first_cause := "assertion failed"; fi_raw_excerpt := "assertion failed: left == right";
  fi_process := process; fi_resources := resources; fi_storage := storage;
  fi_artifacts := []; fi_context := [MkFailureContextEventV2 150 Relation_Cause "test" "failed"];
  fi_raw_log := None; fi_previous_release_digest := None; fi_attempted_release_digest := None;
  fi_health_evidence_digest := None; fi_terminal_receipt_digest := None;
  fi_cleanup_receipt_digest := None; fi_production_mutation := Mutation_NotStarted;
  fi_rollback := RollbackState_NotRequired
|}.

(** The capsule of that input, computed with an encoder that accepts all. *)
Definition capsule : FailureCapsule :=
  match FailureCapsule_from_v2_raw (H1 := (λ _, Ok [])) failure_input with
  | Ok capsule => capsule
  | Err _ => FailureCapsule_from_raw "" (fi_error failure_input) ""
  end.

#[local] Instance jcs_capsule : Jcs FailureCapsule := encode_one capsule.
#[local] Instance json_capsule : JsonSlice FailureCapsule := decode_one capsule.
#[local] Instance capsule_round_trip : JcsRoundTrip FailureCapsule := encode_one_round_trip capsule.

Lemma failure_capsule_is_bounded_document_witness :
  ∃ bytes, FailureCapsule_canonical_bytes capsule = Ok bytes
    ∧ FailureCapsule_decode_canonical bytes = Ok capsule.
Proof.
  destruct (failure_capsule_is_bounded_document failure_input capsule) as (bytes&Hb&_&Hd&_).
  - vm_compute. reflexivity.
  - exists bytes. split; [exact Hb|exact Hd].
Defined.

(** A text of three two-byte characters cut to five bytes keeps two of them. *)
Example truncate_utf8_example :
  truncate_utf8 (String (ascii_of_nat 195) (String (ascii_of_nat 169) (String (ascii_of_nat 195)
    (String (ascii_of_nat 169) (String (ascii_of_nat 195) (String (ascii_of_nat 169) "")))))) 5 "+"
  = String (ascii_of_nat 195) (String (ascii_of_nat 169) (String (ascii_of_nat 195)
      (String (ascii_of_nat 169) "+"))).
Proof. vm_compute. reflexivity. Qed.

End DomainSample.
