(* ===== verification/Backup.v ===== *)
(** * Backup contracts

    Model of [src/src/backup.rs]: the backup unit a policy installs, the spec that
    authorizes one capture, the manifest of what was captured, the evidence of its
    encryption, upload and read-back, the chain that binds them, and the freshness
    of a chain at a boundary.  Every document carries a digest of its other fields
    under a purpose string ([digest_jcs]); the canonical encoder and the hash are
    parameters. *)

From Stdlib Require Import ZArith Lia Ascii String.
From stdpp Require Import base gmap strings option list_numbers list.
From S2P Require Import Prelude Identifiers States Text Failure Operation Ordered.

Local Open Scope Z_scope.

Definition BACKUP_UNIT_SCHEMA_VERSION : Z := 1.
Definition AUTHORIZED_BACKUP_SPEC_SCHEMA_VERSION : Z := 1.
Definition BACKUP_MANIFEST_SCHEMA_VERSION : Z := 1.
Definition LOCAL_BACKUP_EVIDENCE_SCHEMA_VERSION : Z := 1.
Definition PROVIDER_UPLOAD_RECEIPT_SCHEMA_VERSION : Z := 1.
Definition OFFSITE_VERIFICATION_SCHEMA_VERSION : Z := 1.
Definition TRUSTED_CLOCK_EVIDENCE_SCHEMA_VERSION : Z := 1.
Definition BACKUP_FRESHNESS_EVIDENCE_SCHEMA_VERSION : Z := 1.
Definition VERIFIED_BACKUP_CHAIN_SCHEMA_VERSION : Z := 1.
Definition MAX_BACKUP_OBJECTS : Z := 16384.
Definition MAX_BACKUP_CHECKS : Z := 256.
Definition MAX_IDENTIFIER_BYTES : Z := 96.
Definition MAX_PROVIDER_OBJECT_ID_BYTES : Z := 512.
Definition MAX_ALLOWED_BACKUP_AGE_MS : Z := 24 * 60 * 60 * 1000.
Definition MAX_TRUSTED_CLOCK_OFFSET_MS : Z := 30000.
Definition MAX_TRUSTED_CLOCK_EVIDENCE_AGE_MS : Z := 30000.

(** ** Data *)

Inductive BackupSnapshotKindV1 : Type :=
| Snapshot_Base
| Snapshot_Cutover.

#[global] Instance BackupSnapshotKindV1_eq_dec : EqDecision BackupSnapshotKindV1.
Proof. solve_decision. Defined.

Inductive BackupCapturePurposeV1 : Type :=
| Purpose_DeploymentBase
| Purpose_DeploymentCutover
| Purpose_Scheduled
| Purpose_RestoreSafety
| Purpose_ControlPlane.

#[global] Instance BackupCapturePurposeV1_eq_dec : EqDecision BackupCapturePurposeV1.
Proof. solve_decision. Defined.

Inductive BackupConsistencyMechanismV1 : Type :=
| Consistency_SqliteOnlineBackupV1
| Consistency_QuiescedFilesystemV1.

#[global] Instance BackupConsistencyMechanismV1_eq_dec : EqDecision BackupConsistencyMechanismV1.
Proof. solve_decision. Defined.

Inductive BackupObjectKindV1 : Type :=
| Object_SqliteDatabase
| Object_Master
| Object_Blob
| Object_Configuration
| Object_PolicyBundle
| Object_ReleaseBundle
| Object_SourceLedger
| Object_GitBundle
| Object_OciLayout.

#[global] Instance BackupObjectKindV1_eq_dec : EqDecision BackupObjectKindV1.
Proof. solve_decision. Defined.

Inductive BackupCheckKindV1 : Type :=
| Check_SqliteIntegrity
| Check_ForeignKeys
| Check_DatabaseToFiles
| Check_DomainInvariant
| Check_StagedReadSmoke.

#[global] Instance BackupCheckKindV1_eq_dec : EqDecision BackupCheckKindV1.
Proof. solve_decision. Defined.

Inductive BackupCheckOutcomeV1 : Type :=
| Outcome_Passed
| Outcome_Failed.

#[global] Instance BackupCheckOutcomeV1_eq_dec : EqDecision BackupCheckOutcomeV1.
Proof. solve_decision. Defined.

Inductive BackupProviderV1 : Type :=
| Provider_GoogleDrive.

#[global] Instance BackupProviderV1_eq_dec : EqDecision BackupProviderV1.
Proof. solve_decision. Defined.

Inductive BackupEncryptionAlgorithmV1 : Type :=
| Algorithm_AgeX25519.

#[global] Instance BackupEncryptionAlgorithmV1_eq_dec : EqDecision BackupEncryptionAlgorithmV1.
Proof. solve_decision. Defined.

Record ExpectedBackupObjectV1 : Type := MkExpectedBackupObjectV1 {
  eo_path : RelativePolicyPath;
  eo_kind : BackupObjectKindV1;
  eo_uid : Z;
  eo_gid : Z;
  eo_mode : Z
}.

#[global] Instance ExpectedBackupObjectV1_eq_dec : EqDecision ExpectedBackupObjectV1.
Proof. solve_decision. Defined.
#[global] Instance ExpectedBackupObjectV1_eta : Eta ExpectedBackupObjectV1 := λ r,
  MkExpectedBackupObjectV1 (eo_path r) (eo_kind r) (eo_uid r) (eo_gid r) (eo_mode r).

Record BackupObjectV1 : Type := MkBackupObjectV1 {
  bo_path : RelativePolicyPath;
  bo_kind : BackupObjectKindV1;
  bo_size_bytes : Z;
  bo_sha256 : EvidenceDigest;
  bo_uid : Z;
  bo_gid : Z;
  bo_mode : Z;
  bo_hard_link_count : Z
}.

#[global] Instance BackupObjectV1_eq_dec : EqDecision BackupObjectV1.
Proof. solve_decision. Defined.
#[global] Instance BackupObjectV1_eta : Eta BackupObjectV1 := λ r,
  MkBackupObjectV1 (bo_path r) (bo_kind r) (bo_size_bytes r) (bo_sha256 r) (bo_uid r) (bo_gid r)
  (bo_mode r) (bo_hard_link_count r).

Record BackupCheckSpecV1 : Type := MkBackupCheckSpecV1 {
  cs_name : string;
  cs_kind : BackupCheckKindV1;
  cs_definition_digest : EvidenceDigest
}.

#[global] Instance BackupCheckSpecV1_eq_dec : EqDecision BackupCheckSpecV1.
Proof. solve_decision. Defined.
#[global] Instance BackupCheckSpecV1_eta : Eta BackupCheckSpecV1 := λ r,
  MkBackupCheckSpecV1 (cs_name r) (cs_kind r) (cs_definition_digest r).

Record BackupUnitSpecInputV1 : Type := MkBackupUnitSpecInputV1 {
  bui_unit_id : string;
  bui_consistency : BackupConsistencyMechanismV1;
  bui_expected_objects : list ExpectedBackupObjectV1;
  bui_primary_sqlite_path : RelativePolicyPath;
  bui_required_checks : list BackupCheckSpecV1
}.
#[global] Instance BackupUnitSpecInputV1_eta : Eta BackupUnitSpecInputV1 := λ r,
  MkBackupUnitSpecInputV1 (bui_unit_id r) (bui_consistency r) (bui_expected_objects r)
  (bui_primary_sqlite_path r) (bui_required_checks r).

Record BackupUnitSpecV1 : Type := MkBackupUnitSpecV1 {
  bu_schema_version : Z;
  bu_unit_id : string;
  bu_consistency : BackupConsistencyMechanismV1;
  bu_expected_objects : list ExpectedBackupObjectV1;
  bu_primary_sqlite_path : RelativePolicyPath;
  bu_required_checks : list BackupCheckSpecV1;
  bu_unit_digest : EvidenceDigest
}.

#[global] Instance BackupUnitSpecV1_eq_dec : EqDecision BackupUnitSpecV1.
Proof. solve_decision. Defined.
#[global] Instance BackupUnitSpecV1_eta : Eta BackupUnitSpecV1 := λ r,
  MkBackupUnitSpecV1 (bu_schema_version r) (bu_unit_id r) (bu_consistency r)
  (bu_expected_objects r) (bu_primary_sqlite_path r) (bu_required_checks r) (bu_unit_digest r).

Record AuthorizedBackupSpecInputV1 : Type := MkAuthorizedBackupSpecInputV1 {
  absi_attempt_id : Uuid;
  absi_project_id : ProjectId;
  absi_installed_policy : InstalledPolicyIdentity;
  absi_installed_rimg_policy_digest : EvidenceDigest;
  absi_phase_intent_digest : EvidenceDigest;
  absi_backup_set_id : Uuid;
  absi_backup_id : Uuid;
  absi_snapshot_kind : BackupSnapshotKindV1;
  absi_capture_purpose : BackupCapturePurposeV1;
  absi_unit : BackupUnitSpecV1;
  absi_recipient_fingerprint : EvidenceDigest;
  absi_provider : BackupProviderV1;
  absi_provider_credential_version : Z;
  absi_capture_deadline_ms : Z;
  absi_fencing_epoch : option Z;
  absi_fence_receipt_digest : option EvidenceDigest
}.
#[global] Instance AuthorizedBackupSpecInputV1_eta : Eta AuthorizedBackupSpecInputV1 := λ r,
  MkAuthorizedBackupSpecInputV1 (absi_attempt_id r) (absi_project_id r) (absi_installed_policy r)
  (absi_installed_rimg_policy_digest r) (absi_phase_intent_digest r) (absi_backup_set_id r)
  (absi_backup_id r) (absi_snapshot_kind r) (absi_capture_purpose r) (absi_unit r)
  (absi_recipient_fingerprint r) (absi_provider r) (absi_provider_credential_version r)
  (absi_capture_deadline_ms r) (absi_fencing_epoch r) (absi_fence_receipt_digest r).

Record AuthorizedBackupSpecV1 : Type := MkAuthorizedBackupSpecV1 {
  abs_schema_version : Z;
  abs_attempt_id : Uuid;
  abs_project_id : ProjectId;
  abs_installed_policy : InstalledPolicyIdentity;
  abs_installed_rimg_policy_digest : EvidenceDigest;
  abs_phase_intent_digest : EvidenceDigest;
  abs_backup_set_id : Uuid;
  abs_backup_id : Uuid;
  abs_snapshot_kind : BackupSnapshotKindV1;
  abs_capture_purpose : BackupCapturePurposeV1;
  abs_unit : BackupUnitSpecV1;
  abs_recipient_fingerprint : EvidenceDigest;
  abs_provider : BackupProviderV1;
  abs_provider_credential_version : Z;
  abs_capture_deadline_ms : Z;
  abs_fencing_epoch : option Z;
  abs_fence_receipt_digest : option EvidenceDigest;
  abs_spec_digest : EvidenceDigest
}.

#[global] Instance AuthorizedBackupSpecV1_eq_dec : EqDecision AuthorizedBackupSpecV1.
Proof. solve_decision. Defined.
#[global] Instance AuthorizedBackupSpecV1_eta : Eta AuthorizedBackupSpecV1 := λ r,
  MkAuthorizedBackupSpecV1 (abs_schema_version r) (abs_attempt_id r) (abs_project_id r)
  (abs_installed_policy r) (abs_installed_rimg_policy_digest r) (abs_phase_intent_digest r)
  (abs_backup_set_id r) (abs_backup_id r) (abs_snapshot_kind r) (abs_capture_purpose r)
  (abs_unit r) (abs_recipient_fingerprint r) (abs_provider r) (abs_provider_credential_version r)
  (abs_capture_deadline_ms r) (abs_fencing_epoch r) (abs_fence_receipt_digest r)
  (abs_spec_digest r).

Record BackupCheckEvidenceV1 : Type := MkBackupCheckEvidenceV1 {
  ce_name : string;
  ce_kind : BackupCheckKindV1;
  ce_definition_digest : EvidenceDigest;
  ce_checked_object_digest : EvidenceDigest;
  ce_outcome : BackupCheckOutcomeV1;
  ce_observation_digest : EvidenceDigest
}.

#[global] Instance BackupCheckEvidenceV1_eq_dec : EqDecision BackupCheckEvidenceV1.
Proof. solve_decision. Defined.
#[global] Instance BackupCheckEvidenceV1_eta : Eta BackupCheckEvidenceV1 := λ r,
  MkBackupCheckEvidenceV1 (ce_name r) (ce_kind r) (ce_definition_digest r)
  (ce_checked_object_digest r) (ce_outcome r) (ce_observation_digest r).

Record BackupManifestInputV1 : Type := MkBackupManifestInputV1 {
  bmi_application_schema_version : string;
  bmi_started_at_ms : Z;
  bmi_completed_at_ms : Z;
  bmi_objects : list BackupObjectV1;
  bmi_checks : list BackupCheckEvidenceV1
}.
#[global] Instance BackupManifestInputV1_eta : Eta BackupManifestInputV1 := λ r,
  MkBackupManifestInputV1 (bmi_application_schema_version r) (bmi_started_at_ms r)
  (bmi_completed_at_ms r) (bmi_objects r) (bmi_checks r).

Record BackupManifestV1 : Type := MkBackupManifestV1 {
  bm_schema_version : Z;
  bm_authorized_spec_digest : EvidenceDigest;
  bm_backup_set_id : Uuid;
  bm_backup_id : Uuid;
  bm_attempt_id : Uuid;
  bm_project_id : ProjectId;
  bm_snapshot_kind : BackupSnapshotKindV1;
  bm_capture_purpose : BackupCapturePurposeV1;
  bm_unit_digest : EvidenceDigest;
  bm_consistency : BackupConsistencyMechanismV1;
  bm_application_schema_version : string;
  bm_fencing_epoch : option Z;
  bm_fence_receipt_digest : option EvidenceDigest;
  bm_started_at_ms : Z;
  bm_completed_at_ms : Z;
  bm_expected_paths : list RelativePolicyPath;
  bm_objects : list BackupObjectV1;
  bm_missing_paths : list RelativePolicyPath;
  bm_unexpected_paths : list RelativePolicyPath;
  bm_checks : list BackupCheckEvidenceV1;
  bm_manifest_digest : EvidenceDigest
}.

#[global] Instance BackupManifestV1_eq_dec : EqDecision BackupManifestV1.
Proof. solve_decision. Defined.
#[global] Instance BackupManifestV1_eta : Eta BackupManifestV1 := λ r,
  MkBackupManifestV1 (bm_schema_version r) (bm_authorized_spec_digest r) (bm_backup_set_id r)
  (bm_backup_id r) (bm_attempt_id r) (bm_project_id r) (bm_snapshot_kind r)
  (bm_capture_purpose r) (bm_unit_digest r) (bm_consistency r) (bm_application_schema_version r)
  (bm_fencing_epoch r) (bm_fence_receipt_digest r) (bm_started_at_ms r) (bm_completed_at_ms r)
  (bm_expected_paths r) (bm_objects r) (bm_missing_paths r) (bm_unexpected_paths r) (bm_checks r)
  (bm_manifest_digest r).

Record BackupEncryptionEvidenceV1 : Type := MkBackupEncryptionEvidenceV1 {
  be_algorithm : BackupEncryptionAlgorithmV1;
  be_authorized_spec_digest : EvidenceDigest;
  be_backup_id : Uuid;
  be_manifest_digest : EvidenceDigest;
  be_plaintext_archive_digest : EvidenceDigest;
  be_recipient_fingerprint : EvidenceDigest;
  be_ciphertext_digest : EvidenceDigest;
  be_ciphertext_size_bytes : Z;
  be_encrypted_at_ms : Z
}.

#[global] Instance BackupEncryptionEvidenceV1_eq_dec : EqDecision BackupEncryptionEvidenceV1.
Proof. solve_decision. Defined.
#[global] Instance BackupEncryptionEvidenceV1_eta : Eta BackupEncryptionEvidenceV1 := λ r,
  MkBackupEncryptionEvidenceV1 (be_algorithm r) (be_authorized_spec_digest r) (be_backup_id r)
  (be_manifest_digest r) (be_plaintext_archive_digest r) (be_recipient_fingerprint r)
  (be_ciphertext_digest r) (be_ciphertext_size_bytes r) (be_encrypted_at_ms r).

Record LocalBackupEvidenceV1 : Type := MkLocalBackupEvidenceV1 {
  lb_schema_version : Z;
  lb_authorized_spec_digest : EvidenceDigest;
  lb_backup_set_id : Uuid;
  lb_backup_id : Uuid;
  lb_attempt_id : Uuid;
  lb_project_id : ProjectId;
  lb_snapshot_kind : BackupSnapshotKindV1;
  lb_manifest_digest : EvidenceDigest;
  lb_completed_at_ms : Z;
  lb_fencing_epoch : option Z;
  lb_encryption : BackupEncryptionEvidenceV1;
  lb_evidence_digest : EvidenceDigest
}.

#[global] Instance LocalBackupEvidenceV1_eq_dec : EqDecision LocalBackupEvidenceV1.
Proof. solve_decision. Defined.
#[global] Instance LocalBackupEvidenceV1_eta : Eta LocalBackupEvidenceV1 := λ r,
  MkLocalBackupEvidenceV1 (lb_schema_version r) (lb_authorized_spec_digest r)
  (lb_backup_set_id r) (lb_backup_id r) (lb_attempt_id r) (lb_project_id r) (lb_snapshot_kind r)
  (lb_manifest_digest r) (lb_completed_at_ms r) (lb_fencing_epoch r) (lb_encryption r)
  (lb_evidence_digest r).

Record ProviderUploadReceiptInputV1 : Type := MkProviderUploadReceiptInputV1 {
  puri_provider : BackupProviderV1;
  puri_provider_credential_version : Z;
  puri_object_id : string;
  puri_version_id : string;
  puri_uploaded_at_ms : Z;
  puri_provider_receipt_digest : EvidenceDigest
}.
#[global] Instance ProviderUploadReceiptInputV1_eta : Eta ProviderUploadReceiptInputV1 := λ r,
  MkProviderUploadReceiptInputV1 (puri_provider r) (puri_provider_credential_version r)
  (puri_object_id r) (puri_version_id r) (puri_uploaded_at_ms r) (puri_provider_receipt_digest r).

Record ProviderUploadReceiptV1 : Type := MkProviderUploadReceiptV1 {
  pur_schema_version : Z;
  pur_authorized_spec_digest : EvidenceDigest;
  pur_backup_id : Uuid;
  pur_local_evidence_digest : EvidenceDigest;
  pur_provider : BackupProviderV1;
  pur_provider_credential_version : Z;
  pur_object_id : string;
  pur_version_id : string;
  pur_size_bytes : Z;
  pur_ciphertext_digest : EvidenceDigest;
  pur_uploaded_at_ms : Z;
  pur_provider_receipt_digest : EvidenceDigest;
  pur_receipt_digest : EvidenceDigest
}.

#[global] Instance ProviderUploadReceiptV1_eq_dec : EqDecision ProviderUploadReceiptV1.
Proof. solve_decision. Defined.
#[global] Instance ProviderUploadReceiptV1_eta : Eta ProviderUploadReceiptV1 := λ r,
  MkProviderUploadReceiptV1 (pur_schema_version r) (pur_authorized_spec_digest r)
  (pur_backup_id r) (pur_local_evidence_digest r) (pur_provider r)
  (pur_provider_credential_version r) (pur_object_id r) (pur_version_id r) (pur_size_bytes r)
  (pur_ciphertext_digest r) (pur_uploaded_at_ms r) (pur_provider_receipt_digest r)
  (pur_receipt_digest r).

Record OffsiteVerificationInputV1 : Type := MkOffsiteVerificationInputV1 {
  ovi_readback_size_bytes : Z;
  ovi_readback_ciphertext_digest : EvidenceDigest;
  ovi_readback_observation_digest : EvidenceDigest;
  ovi_verified_at_ms : Z
}.
#[global] Instance OffsiteVerificationInputV1_eta : Eta OffsiteVerificationInputV1 := λ r,
  MkOffsiteVerificationInputV1 (ovi_readback_size_bytes r) (ovi_readback_ciphertext_digest r)
  (ovi_readback_observation_digest r) (ovi_verified_at_ms r).

Record OffsiteVerificationEvidenceV1 : Type := MkOffsiteVerificationEvidenceV1 {
  ov_schema_version : Z;
  ov_authorized_spec_digest : EvidenceDigest;
  ov_backup_id : Uuid;
  ov_local_evidence_digest : EvidenceDigest;
  ov_upload_receipt_digest : EvidenceDigest;
  ov_provider : BackupProviderV1;
  ov_object_id : string;
  ov_version_id : string;
  ov_readback_size_bytes : Z;
  ov_readback_ciphertext_digest : EvidenceDigest;
  ov_readback_observation_digest : EvidenceDigest;
  ov_verified_at_ms : Z;
  ov_evidence_digest : EvidenceDigest
}.

#[global] Instance OffsiteVerificationEvidenceV1_eq_dec : EqDecision OffsiteVerificationEvidenceV1.
Proof. solve_decision. Defined.
#[global] Instance OffsiteVerificationEvidenceV1_eta : Eta OffsiteVerificationEvidenceV1 := λ r,
  MkOffsiteVerificationEvidenceV1 (ov_schema_version r) (ov_authorized_spec_digest r)
  (ov_backup_id r) (ov_local_evidence_digest r) (ov_upload_receipt_digest r) (ov_provider r)
  (ov_object_id r) (ov_version_id r) (ov_readback_size_bytes r) (ov_readback_ciphertext_digest r)
  (ov_readback_observation_digest r) (ov_verified_at_ms r) (ov_evidence_digest r).

Record VerifiedBackupChainV1 : Type := MkVerifiedBackupChainV1 {
  vc_schema_version : Z;
  vc_snapshot_kind : BackupSnapshotKindV1;
  vc_authorized_spec : AuthorizedBackupSpecV1;
  vc_manifest : BackupManifestV1;
  vc_local : LocalBackupEvidenceV1;
  vc_upload_receipt : option ProviderUploadReceiptV1;
  vc_offsite : option OffsiteVerificationEvidenceV1;
  vc_chain_digest : EvidenceDigest
}.

#[global] Instance VerifiedBackupChainV1_eq_dec : EqDecision VerifiedBackupChainV1.
Proof. solve_decision. Defined.
#[global] Instance VerifiedBackupChainV1_eta : Eta VerifiedBackupChainV1 := λ r,
  MkVerifiedBackupChainV1 (vc_schema_version r) (vc_snapshot_kind r) (vc_authorized_spec r)
  (vc_manifest r) (vc_local r) (vc_upload_receipt r) (vc_offsite r) (vc_chain_digest r).

Record TrustedClockEvidenceV1 : Type := MkTrustedClockEvidenceV1 {
  tc_schema_version : Z;
  tc_synchronized : bool;
  tc_estimated_offset_ms : Z;
  tc_observed_at_ms : Z;
  tc_observation_digest : EvidenceDigest;
  tc_evidence_digest : EvidenceDigest
}.

#[global] Instance TrustedClockEvidenceV1_eq_dec : EqDecision TrustedClockEvidenceV1.
Proof. solve_decision. Defined.
#[global] Instance TrustedClockEvidenceV1_eta : Eta TrustedClockEvidenceV1 := λ r,
  MkTrustedClockEvidenceV1 (tc_schema_version r) (tc_synchronized r) (tc_estimated_offset_ms r)
  (tc_observed_at_ms r) (tc_observation_digest r) (tc_evidence_digest r).

Record BackupFreshnessEvidenceV1 : Type := MkBackupFreshnessEvidenceV1 {
  bf_schema_version : Z;
  bf_backup_id : Uuid;
  bf_verified_chain_digest : EvidenceDigest;
  bf_local_evidence_digest : EvidenceDigest;
  bf_offsite_evidence_digest : option EvidenceDigest;
  bf_trusted_clock_evidence_digest : EvidenceDigest;
  bf_trusted_clock_observed_at_ms : Z;
  bf_completed_at_ms : Z;
  bf_evaluated_at_ms : Z;
  bf_age_ms : Z;
  bf_max_age_ms : Z;
  bf_evidence_digest : EvidenceDigest
}.

#[global] Instance BackupFreshnessEvidenceV1_eq_dec : EqDecision BackupFreshnessEvidenceV1.
Proof. solve_decision. Defined.
#[global] Instance BackupFreshnessEvidenceV1_eta : Eta BackupFreshnessEvidenceV1 := λ r,
  MkBackupFreshnessEvidenceV1 (bf_schema_version r) (bf_backup_id r) (bf_verified_chain_digest r)
  (bf_local_evidence_digest r) (bf_offsite_evidence_digest r)
  (bf_trusted_clock_evidence_digest r) (bf_trusted_clock_observed_at_ms r) (bf_completed_at_ms r)
  (bf_evaluated_at_ms r) (bf_age_ms r) (bf_max_age_ms r) (bf_evidence_digest r).

(** The payloads of the digests. *)
Record BackupUnitDigestPayload : Type := MkBackupUnitDigestPayload {
  bup_purpose : string;
  bup_schema_version : Z;
  bup_unit_id : string;
  bup_consistency : BackupConsistencyMechanismV1;
  bup_expected_objects : list ExpectedBackupObjectV1;
  bup_primary_sqlite_path : RelativePolicyPath;
  bup_required_checks : list BackupCheckSpecV1
}.

Record AuthorizedBackupSpecDigestPayload : Type := MkAuthorizedBackupSpecDigestPayload {
  absp_purpose : string;
  absp_schema_version : Z;
  absp_attempt_id : Uuid;
  absp_project_id : ProjectId;
  absp_installed_policy : InstalledPolicyIdentity;
  absp_installed_rimg_policy_digest : EvidenceDigest;
  absp_phase_intent_digest : EvidenceDigest;
  absp_backup_set_id : Uuid;
  absp_backup_id : Uuid;
  absp_snapshot_kind : BackupSnapshotKindV1;
  absp_capture_purpose : BackupCapturePurposeV1;
  absp_unit : BackupUnitSpecV1;
  absp_recipient_fingerprint : EvidenceDigest;
  absp_provider : BackupProviderV1;
  absp_provider_credential_version : Z;
  absp_capture_deadline_ms : Z;
  absp_fencing_epoch : option Z;
  absp_fence_receipt_digest : option EvidenceDigest
}.

Record BackupManifestDigestPayload : Type := MkBackupManifestDigestPayload {
  bmp_purpose : string;
  bmp_schema_version : Z;
  bmp_authorized_spec_digest : EvidenceDigest;
  bmp_backup_set_id : Uuid;
  bmp_backup_id : Uuid;
  bmp_attempt_id : Uuid;
  bmp_project_id : ProjectId;
  bmp_snapshot_kind : BackupSnapshotKindV1;
  bmp_capture_purpose : BackupCapturePurposeV1;
  bmp_unit_digest : EvidenceDigest;
  bmp_consistency : BackupConsistencyMechanismV1;
  bmp_application_schema_version : string;
  bmp_fencing_epoch : option Z;
  bmp_fence_receipt_digest : option EvidenceDigest;
  bmp_started_at_ms : Z;
  bmp_completed_at_ms : Z;
  bmp_expected_paths : list RelativePolicyPath;
  bmp_objects : list BackupObjectV1;
  bmp_missing_paths : list RelativePolicyPath;
  bmp_unexpected_paths : list RelativePolicyPath;
  bmp_checks : list BackupCheckEvidenceV1
}.

Record LocalBackupEvidenceDigestPayload : Type := MkLocalBackupEvidenceDigestPayload {
  lbp_purpose : string;
  lbp_schema_version : Z;
  lbp_authorized_spec_digest : EvidenceDigest;
  lbp_backup_set_id : Uuid;
  lbp_backup_id : Uuid;
  lbp_attempt_id : Uuid;
  lbp_project_id : ProjectId;
  lbp_snapshot_kind : BackupSnapshotKindV1;
  lbp_manifest_digest : EvidenceDigest;
  lbp_completed_at_ms : Z;
  lbp_fencing_epoch : option Z;
  lbp_encryption : BackupEncryptionEvidenceV1
}.

Record ProviderUploadReceiptDigestPayload : Type := MkProviderUploadReceiptDigestPayload {
  purp_purpose : string;
  purp_schema_version : Z;
  purp_authorized_spec_digest : EvidenceDigest;
  purp_backup_id : Uuid;
  purp_local_evidence_digest : EvidenceDigest;
  purp_provider : BackupProviderV1;
  purp_provider_credential_version : Z;
  purp_object_id : string;
  purp_version_id : string;
  purp_size_bytes : Z;
  purp_ciphertext_digest : EvidenceDigest;
  purp_uploaded_at_ms : Z;
  purp_provider_receipt_digest : EvidenceDigest
}.

Record OffsiteVerificationDigestPayload : Type := MkOffsiteVerificationDigestPayload {
  ovp_purpose : string;
  ovp_schema_version : Z;
  ovp_authorized_spec_digest : EvidenceDigest;
  ovp_backup_id : Uuid;
  ovp_local_evidence_digest : EvidenceDigest;
  ovp_upload_receipt_digest : EvidenceDigest;
  ovp_provider : BackupProviderV1;
  ovp_object_id : string;
  ovp_version_id : string;
  ovp_readback_size_bytes : Z;
  ovp_readback_ciphertext_digest : EvidenceDigest;
  ovp_readback_observation_digest : EvidenceDigest;
  ovp_verified_at_ms : Z
}.

Record VerifiedBackupChainDigestPayload : Type := MkVerifiedBackupChainDigestPayload {
  vcp_purpose : string;
  vcp_schema_version : Z;
  vcp_snapshot_kind : BackupSnapshotKindV1;
  vcp_authorized_spec : AuthorizedBackupSpecV1;
  vcp_manifest : BackupManifestV1;
  vcp_local : LocalBackupEvidenceV1;
  vcp_upload_receipt : option ProviderUploadReceiptV1;
  vcp_offsite : option OffsiteVerificationEvidenceV1
}.

Record TrustedClockDigestPayload : Type := MkTrustedClockDigestPayload {
  tcp_purpose : string;
  tcp_schema_version : Z;
  tcp_synchronized : bool;
  tcp_estimated_offset_ms : Z;
  tcp_observed_at_ms : Z;
  tcp_observation_digest : EvidenceDigest
}.

Record BackupFreshnessDigestPayload : Type := MkBackupFreshnessDigestPayload {
  bfp_purpose : string;
  bfp_schema_version : Z;
  bfp_backup_id : Uuid;
  bfp_verified_chain_digest : EvidenceDigest;
  bfp_local_evidence_digest : EvidenceDigest;
  bfp_offsite_evidence_digest : option EvidenceDigest;
  bfp_trusted_clock_evidence_digest : EvidenceDigest;
  bfp_trusted_clock_observed_at_ms : Z;
  bfp_completed_at_ms : Z;
  bfp_evaluated_at_ms : Z;
  bfp_age_ms : Z;
  bfp_max_age_ms : Z
}.

Inductive BackupContractError : Type :=
| Backup_UnsupportedSchemaVersion
| Backup_InvalidIdentity
| Backup_InvalidUnitDefinition
| Backup_InvalidIdentifier
| Backup_DuplicatePath
| Backup_DuplicateCheck
| Backup_InvalidSnapshotBinding
| Backup_InvalidManifestMetadata
| Backup_InvalidObjectMetadata
| Backup_InventoryMismatch
| Backup_BackupUnverified
| Backup_InvalidEncryptionEvidence
| Backup_InvalidOffsiteEvidence
| Backup_ClockUnsynchronized
| Backup_BackupStale
| Backup_DigestMismatch
| Backup_NonCanonicalDocument
| Backup_CanonicalEncoding (e : SerdeError).

#[global] Instance SerdeError_eq_dec : EqDecision SerdeError.
Proof. solve_decision. Defined.
#[global] Instance BackupContractError_eq_dec : EqDecision BackupContractError.
Proof. solve_decision. Defined.

(** ** Validation helpers *)

Definition identifier_byte (b : Z) : bool :=
  is_ascii_alphanumeric b || (b =? 45) || (b =? 95) || (b =? 46).

Definition validate_bounded_identifier (value : string) : Result BackupContractError unit :=
  ensure (negb ((value == ""%string) || (MAX_IDENTIFIER_BYTES <? str_len value)
                || trim_changes value || negb (forallb identifier_byte (as_bytes value))))
    Backup_InvalidIdentifier.

Definition valid_provider_identifier (value : string) : bool :=
  (value != ""%string) && (str_len value <=? MAX_PROVIDER_OBJECT_ID_BYTES)
  && forallb (λ b, is_ascii_graphic b && negb ((b =? 34) || (b =? 39) || (b =? 92)))
       (as_bytes value).

(** [windows(2).any(|pair| key(pair[0]) == key(pair[1]))]. *)
Definition adjacent_equal {A K} `{EqDecision K} (key : A → K) (l : list A) : bool :=
  existsb (λ pair, key pair.1 == key pair.2) (windows2 l).

Definition eo_path_str (object : ExpectedBackupObjectV1) : string :=
  RelativePolicyPath_as_str (eo_path object).
Definition bo_path_str (object : BackupObjectV1) : string :=
  RelativePolicyPath_as_str (bo_path object).

Definition sort_unique_expected_objects (objects : list ExpectedBackupObjectV1)
    : Result BackupContractError (list ExpectedBackupObjectV1) :=
  let objects := sort_by (λ l r, str_compare (eo_path_str l) (eo_path_str r)) objects in
  if adjacent_equal eo_path objects || existsb (λ object, 511 <? eo_mode object) objects
  then Err Backup_InvalidUnitDefinition
  else Ok objects.

Definition sort_unique_check_specs (checks : list BackupCheckSpecV1)
    : Result BackupContractError (list BackupCheckSpecV1) :=
  let checks := sort_by (λ l r, str_compare (cs_name l) (cs_name r)) checks in
  if adjacent_equal cs_name checks then Err Backup_DuplicateCheck
  else
    let? _ := try_for_each (λ check, validate_bounded_identifier (cs_name check)) checks in
    Ok checks.

Definition sort_unique_check_evidence (checks : list BackupCheckEvidenceV1)
    : Result BackupContractError (list BackupCheckEvidenceV1) :=
  let checks := sort_by (λ l r, str_compare (ce_name l) (ce_name r)) checks in
  if adjacent_equal ce_name checks then Err Backup_DuplicateCheck
  else
    let? _ := try_for_each (λ check, validate_bounded_identifier (ce_name check)) checks in
    Ok checks.

Definition sort_unique_paths (paths : list RelativePolicyPath)
    : Result BackupContractError (list RelativePolicyPath) :=
  let paths := sort_by (λ l r, str_compare (RelativePolicyPath_as_str l)
                                 (RelativePolicyPath_as_str r)) paths in
  if adjacent_equal id paths then Err Backup_DuplicatePath else Ok paths.

Definition sort_unique_objects (objects : list BackupObjectV1)
    : Result BackupContractError (list BackupObjectV1) :=
  let objects := sort_by (λ l r, str_compare (bo_path_str l) (bo_path_str r)) objects in
  if adjacent_equal bo_path objects then Err Backup_DuplicatePath else Ok objects.

Definition inventory_differences (expected_paths : list RelativePolicyPath)
    (objects : list BackupObjectV1) : list RelativePolicyPath * list RelativePolicyPath :=
  let expected := btree_collect ((λ path, (RelativePolicyPath_as_str path, path))
                                 <$> expected_paths) in
  let actual := btree_collect ((λ object, (bo_path_str object, bo_path object)) <$> objects) in
  let missing := filter (λ kv, negb (btree_contains_key kv.1 actual) = true) expected in
  let unexpected := filter (λ kv, negb (btree_contains_key kv.1 expected) = true) actual in
  (missing.*2, unexpected.*2).

Definition count_kind (kind : BackupCheckKindV1) (checks : list BackupCheckSpecV1) : Z :=
  Z.of_nat (length (filter (λ check, cs_kind check = kind) checks)).

Definition has_exact_required_check_kinds (checks : list BackupCheckSpecV1) : bool :=
  forallb (λ required, count_kind required checks =? 1)
    [Check_SqliteIntegrity; Check_ForeignKeys; Check_DatabaseToFiles; Check_StagedReadSmoke]
  && existsb (λ check, cs_kind check == Check_DomainInvariant) checks.

Definition validate_snapshot_binding (kind : BackupSnapshotKindV1)
    (purpose : BackupCapturePurposeV1) (fencing_epoch : option Z)
    (fence_receipt_digest : option EvidenceDigest) : Result BackupContractError unit :=
  match kind, purpose, fencing_epoch, fence_receipt_digest with
  | Snapshot_Base,
    (Purpose_DeploymentBase | Purpose_Scheduled | Purpose_RestoreSafety | Purpose_ControlPlane),
    None, None => Ok tt
  | Snapshot_Cutover, Purpose_DeploymentCutover, Some epoch, Some _ =>
      if 1 <=? epoch then Ok tt else Err Backup_InvalidSnapshotBinding
  | _, _, _, _ => Err Backup_InvalidSnapshotBinding
  end.

Definition offsite_deadline_applies (spec : AuthorizedBackupSpecV1) : bool :=
  match abs_snapshot_kind spec with Snapshot_Base => true | Snapshot_Cutover => false end.

Definition validate_manifest_metadata (spec : AuthorizedBackupSpecV1)
    (input : BackupManifestInputV1) : Result BackupContractError unit :=
  if (bmi_started_at_ms input <? 0)
     || (bmi_completed_at_ms input <? bmi_started_at_ms input)
     || (abs_capture_deadline_ms spec <? bmi_completed_at_ms input)
     || negb (valid_application_schema_version (bmi_application_schema_version input))
     || (bmi_objects input == [])
     || (MAX_BACKUP_OBJECTS <? Z.of_nat (length (bmi_objects input)))
     || (bmi_checks input == [])
     || (MAX_BACKUP_CHECKS <? Z.of_nat (length (bmi_checks input)))
  then Err Backup_InvalidManifestMetadata
  else Ok tt.

Definition validate_encryption (spec : AuthorizedBackupSpecV1) (manifest : BackupManifestV1)
    (encryption : BackupEncryptionEvidenceV1) : Result BackupContractError unit :=
  if (be_authorized_spec_digest encryption != abs_spec_digest spec)
     || (be_backup_id encryption != abs_backup_id spec)
     || (be_manifest_digest encryption != bm_manifest_digest manifest)
     || (be_recipient_fingerprint encryption != abs_recipient_fingerprint spec)
     || (be_ciphertext_size_bytes encryption =? 0)
     || (be_encrypted_at_ms encryption <? bm_completed_at_ms manifest)
     || (abs_capture_deadline_ms spec <? be_encrypted_at_ms encryption)
  then Err Backup_InvalidEncryptionEvidence
  else Ok tt.

Definition object_metadata_valid (expected : list (string * ExpectedBackupObjectV1))
    (object : BackupObjectV1) : bool :=
  if (511 <? bo_mode object) || negb (bo_hard_link_count object =? 1) then false
  else
    match btree_get (bo_path_str object) expected with
    | Some contract =>
        negb ((bo_kind object != eo_kind contract) || negb (bo_uid object =? eo_uid contract)
              || negb (bo_gid object =? eo_gid contract)
              || negb (bo_mode object =? eo_mode contract))
    | None => true
    end.

Definition validate_objects_against_unit (unit : BackupUnitSpecV1)
    (objects : list BackupObjectV1) : Result BackupContractError () :=
  let expected := btree_collect ((λ object, (eo_path_str object, object))
                                 <$> bu_expected_objects unit) in
  try_for_each (λ object, ensure (object_metadata_valid expected object)
                            Backup_InvalidObjectMetadata) objects.

Definition check_passed (database_digest : EvidenceDigest)
    (pair : BackupCheckSpecV1 * BackupCheckEvidenceV1) : bool :=
  let '(contract, evidence) := pair in
  negb ((ce_name evidence != cs_name contract) || (ce_kind evidence != cs_kind contract)
        || (ce_definition_digest evidence != cs_definition_digest contract)
        || (ce_checked_object_digest evidence != database_digest)
        || (ce_outcome evidence != Outcome_Passed)).

Definition validate_checks_against_unit (unit : BackupUnitSpecV1) (objects : list BackupObjectV1)
    (checks : list BackupCheckEvidenceV1) : Result BackupContractError () :=
  let? database := ok_or Backup_BackupUnverified
    (find_first (λ object, bo_path object == bu_primary_sqlite_path unit) objects) in
  if negb (Nat.eqb (length checks) (length (bu_required_checks unit)))
  then Err Backup_BackupUnverified
  else
    try_for_each (λ pair, ensure (check_passed (bo_sha256 database) pair) Backup_BackupUnverified)
      (zip (bu_required_checks unit) checks).

Definition elapsed_ms (later_ms earlier_ms : Z) : Result BackupContractError Z :=
  if earlier_ms <? 0 then Err Backup_BackupStale
  else
    match i64_checked_sub later_ms earlier_ms with
    | Some elapsed => if 0 <=? elapsed then Ok elapsed else Err Backup_BackupStale
    | None => Err Backup_BackupStale
    end.

(** ** Documents *)

Section Backup.
Context `{!Sha256}.
Context `{!Jcs BackupUnitDigestPayload, !Jcs AuthorizedBackupSpecDigestPayload,
  !Jcs BackupManifestDigestPayload, !Jcs LocalBackupEvidenceDigestPayload,
  !Jcs ProviderUploadReceiptDigestPayload, !Jcs OffsiteVerificationDigestPayload,
  !Jcs VerifiedBackupChainDigestPayload, !Jcs TrustedClockDigestPayload,
  !Jcs BackupFreshnessDigestPayload}.

Definition digest_jcs {T} `{!Jcs T} (value : T) : Result BackupContractError EvidenceDigest :=
  let? bytes := map_err Backup_CanonicalEncoding (jcs_to_vec value) in
  Ok (EvidenceDigest_sha256 bytes).

Definition canonical_bytes {T} `{!Jcs T} (value : T) : Result BackupContractError (list Z) :=
  map_err Backup_CanonicalEncoding (jcs_to_vec value).

Definition decode_canonical {T} `{!Jcs T, !JsonSlice T} (bytes : list Z)
    : Result BackupContractError T :=
  let? value := map_err Backup_CanonicalEncoding (json_from_slice bytes) in
  let? encoded := map_err Backup_CanonicalEncoding (jcs_to_vec value) in
  if encoded != bytes then Err Backup_NonCanonicalDocument else Ok value.

Definition age_x25519_recipient_fingerprint (recipient : string) : EvidenceDigest :=
  EvidenceDigest_sha256 (as_bytes "rdashboard.age-x25519-recipient.v1" ++ [0] ++ as_bytes recipient).

(** *** Backup units *)

Definition BackupUnit_calculate_digest (unit : BackupUnitSpecV1)
    : Result BackupContractError EvidenceDigest :=
  digest_jcs {|
    bup_purpose := "rdashboard.backup-unit.v1";
    bup_schema_version := bu_schema_version unit;
    bup_unit_id := bu_unit_id unit;
    bup_consistency := bu_consistency unit;
    bup_expected_objects := bu_expected_objects unit;
    bup_primary_sqlite_path := bu_primary_sqlite_path unit;
    bup_required_checks := bu_required_checks unit
  |}.

Definition BackupUnit_new (input : BackupUnitSpecInputV1)
    : Result BackupContractError BackupUnitSpecV1 :=
  let? _ := validate_bounded_identifier (bui_unit_id input) in
  let? expected_objects := sort_unique_expected_objects (bui_expected_objects input) in
  let? required_checks := sort_unique_check_specs (bui_required_checks input) in
  if (expected_objects == [])
     || (MAX_BACKUP_OBJECTS <? Z.of_nat (length expected_objects))
     || (required_checks == [])
     || (MAX_BACKUP_CHECKS <? Z.of_nat (length required_checks))
  then Err Backup_InvalidUnitDefinition
  else
    let primary_count := length (filter (λ object,
      eo_path object = bui_primary_sqlite_path input ∧ eo_kind object = Object_SqliteDatabase)
      expected_objects) in
    if negb (Nat.eqb primary_count 1)
       || negb (Nat.eqb (length (filter (λ object, eo_kind object = Object_SqliteDatabase)
                                   expected_objects)) 1)
       || negb (has_exact_required_check_kinds required_checks)
    then Err Backup_InvalidUnitDefinition
    else
      let unit := {|
        bu_schema_version := BACKUP_UNIT_SCHEMA_VERSION;
        bu_unit_id := bui_unit_id input;
        bu_consistency := bui_consistency input;
        bu_expected_objects := expected_objects;
        bu_primary_sqlite_path := bui_primary_sqlite_path input;
        bu_required_checks := required_checks;
        bu_unit_digest := EvidenceDigest_sha256 []
      |} in
      let? digest := BackupUnit_calculate_digest unit in
      Ok (unit <| bu_unit_digest := digest |>).

Definition unit_input (unit : BackupUnitSpecV1) : BackupUnitSpecInputV1 := {|
  bui_unit_id := bu_unit_id unit;
  bui_consistency := bu_consistency unit;
  bui_expected_objects := bu_expected_objects unit;
  bui_primary_sqlite_path := bu_primary_sqlite_path unit;
  bui_required_checks := bu_required_checks unit
|}.

Definition BackupUnit_validate_document (unit : BackupUnitSpecV1)
    : Result BackupContractError () :=
  if negb (bu_schema_version unit =? BACKUP_UNIT_SCHEMA_VERSION)
  then Err Backup_UnsupportedSchemaVersion
  else
    let? reconstructed := BackupUnit_new (unit_input unit) in
    if (bu_expected_objects reconstructed != bu_expected_objects unit)
       || (bu_required_checks reconstructed != bu_required_checks unit)
       || (bu_unit_digest reconstructed != bu_unit_digest unit)
    then Err Backup_NonCanonicalDocument
    else Ok tt.

Definition BackupUnit_has_valid_digest (unit : BackupUnitSpecV1)
    : Result BackupContractError bool :=
  let? _ := BackupUnit_validate_document unit in
  let? digest := BackupUnit_calculate_digest unit in
  Ok (bu_unit_digest unit == digest).

(** *** Authorized specs *)

Definition BackupSpec_calculate_digest (spec : AuthorizedBackupSpecV1)
    : Result BackupContractError EvidenceDigest :=
  digest_jcs {|
    absp_purpose := "rdashboard.authorized-backup-spec.v1";
    absp_schema_version := abs_schema_version spec;
    absp_attempt_id := abs_attempt_id spec;
    absp_project_id := abs_project_id spec;
    absp_installed_policy := abs_installed_policy spec;
    absp_installed_rimg_policy_digest := abs_installed_rimg_policy_digest spec;
    absp_phase_intent_digest := abs_phase_intent_digest spec;
    absp_backup_set_id := abs_backup_set_id spec;
    absp_backup_id := abs_backup_id spec;
    absp_snapshot_kind := abs_snapshot_kind spec;
    absp_capture_purpose := abs_capture_purpose spec;
    absp_unit := abs_unit spec;
    absp_recipient_fingerprint := abs_recipient_fingerprint spec;
    absp_provider := abs_provider spec;
    absp_provider_credential_version := abs_provider_credential_version spec;
    absp_capture_deadline_ms := abs_capture_deadline_ms spec;
    absp_fencing_epoch := abs_fencing_epoch spec;
    absp_fence_receipt_digest := abs_fence_receipt_digest spec
  |}.

Definition BackupSpec_new (input : AuthorizedBackupSpecInputV1)
    : Result BackupContractError AuthorizedBackupSpecV1 :=
  if is_nil (absi_attempt_id input) || is_nil (absi_backup_set_id input)
     || is_nil (absi_backup_id input) || (ip_version (absi_installed_policy input) =? 0)
     || (absi_provider_credential_version input =? 0) || (absi_capture_deadline_ms input <? 0)
  then Err Backup_InvalidIdentity
  else
    let? unit_valid := BackupUnit_has_valid_digest (absi_unit input) in
    if negb unit_valid then Err Backup_InvalidIdentity
    else
      let? _ := validate_snapshot_binding (absi_snapshot_kind input) (absi_capture_purpose input)
                  (absi_fencing_epoch input) (absi_fence_receipt_digest input) in
      let spec := {|
        abs_schema_version := AUTHORIZED_BACKUP_SPEC_SCHEMA_VERSION;
        abs_attempt_id := absi_attempt_id input;
        abs_project_id := absi_project_id input;
        abs_installed_policy := absi_installed_policy input;
        abs_installed_rimg_policy_digest := absi_installed_rimg_policy_digest input;
        abs_phase_intent_digest := absi_phase_intent_digest input;
        abs_backup_set_id := absi_backup_set_id input;
        abs_backup_id := absi_backup_id input;
        abs_snapshot_kind := absi_snapshot_kind input;
        abs_capture_purpose := absi_capture_purpose input;
        abs_unit := absi_unit input;
        abs_recipient_fingerprint := absi_recipient_fingerprint input;
        abs_provider := absi_provider input;
        abs_provider_credential_version := absi_provider_credential_version input;
        abs_capture_deadline_ms := absi_capture_deadline_ms input;
        abs_fencing_epoch := absi_fencing_epoch input;
        abs_fence_receipt_digest := absi_fence_receipt_digest input;
        abs_spec_digest := EvidenceDigest_sha256 []
      |} in
      let? digest := BackupSpec_calculate_digest spec in
      Ok (spec <| abs_spec_digest := digest |>).

Definition BackupSpec_validate_document (spec : AuthorizedBackupSpecV1)
    : Result BackupContractError () :=
  if negb (abs_schema_version spec =? AUTHORIZED_BACKUP_SPEC_SCHEMA_VERSION)
     || is_nil (abs_attempt_id spec) || is_nil (abs_backup_set_id spec)
     || is_nil (abs_backup_id spec) || (ip_version (abs_installed_policy spec) =? 0)
     || (abs_provider_credential_version spec =? 0) || (abs_capture_deadline_ms spec <? 0)
  then Err Backup_InvalidIdentity
  else
    let? unit_valid := BackupUnit_has_valid_digest (abs_unit spec) in
    if negb unit_valid then Err Backup_InvalidIdentity
    else validate_snapshot_binding (abs_snapshot_kind spec) (abs_capture_purpose spec)
           (abs_fencing_epoch spec) (abs_fence_receipt_digest spec).

Definition BackupSpec_has_valid_digest (spec : AuthorizedBackupSpecV1)
    : Result BackupContractError bool :=
  let? _ := BackupSpec_validate_document spec in
  let? digest := BackupSpec_calculate_digest spec in
  Ok (abs_spec_digest spec == digest).

Definition BackupSpec_canonical_bytes `{!Jcs AuthorizedBackupSpecV1}
    (spec : AuthorizedBackupSpecV1) : Result BackupContractError (list Z) :=
  let? valid := BackupSpec_has_valid_digest spec in
  if negb valid then Err Backup_DigestMismatch else canonical_bytes spec.

Definition BackupSpec_decode_canonical
    `{!Jcs AuthorizedBackupSpecV1, !JsonSlice AuthorizedBackupSpecV1} (bytes : list Z)
    : Result BackupContractError AuthorizedBackupSpecV1 :=
  let? spec := decode_canonical bytes in
  let? valid := BackupSpec_has_valid_digest spec in
  if negb valid then Err Backup_DigestMismatch else Ok spec.

(** *** Manifests *)

Definition BackupManifest_calculate_digest (manifest : BackupManifestV1)
    : Result BackupContractError EvidenceDigest :=
  digest_jcs {|
    bmp_purpose := "rdashboard.backup-manifest.v1";
    bmp_schema_version := bm_schema_version manifest;
    bmp_authorized_spec_digest := bm_authorized_spec_digest manifest;
    bmp_backup_set_id := bm_backup_set_id manifest;
    bmp_backup_id := bm_backup_id manifest;
    bmp_attempt_id := bm_attempt_id manifest;
    bmp_project_id := bm_project_id manifest;
    bmp_snapshot_kind := bm_snapshot_kind manifest;
    bmp_capture_purpose := bm_capture_purpose manifest;
    bmp_unit_digest := bm_unit_digest manifest;
    bmp_consistency := bm_consistency manifest;
    bmp_application_schema_version := bm_application_schema_version manifest;
    bmp_fencing_epoch := bm_fencing_epoch manifest;
    bmp_fence_receipt_digest := bm_fence_receipt_digest manifest;
    bmp_started_at_ms := bm_started_at_ms manifest;
    bmp_completed_at_ms := bm_completed_at_ms manifest;
    bmp_expected_paths := bm_expected_paths manifest;
    bmp_objects := bm_objects manifest;
    bmp_missing_paths := bm_missing_paths manifest;
    bmp_unexpected_paths := bm_unexpected_paths manifest;
    bmp_checks := bm_checks manifest
  |}.

Definition BackupManifest_validate_document (manifest : BackupManifestV1)
    : Result BackupContractError () :=
  if negb (bm_schema_version manifest =? BACKUP_MANIFEST_SCHEMA_VERSION)
     || is_nil (bm_backup_set_id manifest) || is_nil (bm_backup_id manifest)
     || is_nil (bm_attempt_id manifest) || (bm_started_at_ms manifest <? 0)
     || (bm_completed_at_ms manifest <? bm_started_at_ms manifest)
     || negb (valid_application_schema_version (bm_application_schema_version manifest))
  then Err Backup_InvalidManifestMetadata
  else
    let? _ := validate_snapshot_binding (bm_snapshot_kind manifest) (bm_capture_purpose manifest)
                (bm_fencing_epoch manifest) (bm_fence_receipt_digest manifest) in
    let? expected_paths := sort_unique_paths (bm_expected_paths manifest) in
    let? objects := sort_unique_objects (bm_objects manifest) in
    let? checks := sort_unique_check_evidence (bm_checks manifest) in
    if (expected_paths != bm_expected_paths manifest) || (objects != bm_objects manifest)
       || (checks != bm_checks manifest)
    then Err Backup_NonCanonicalDocument
    else
      let '(missing, unexpected) :=
        inventory_differences (bm_expected_paths manifest) (bm_objects manifest) in
      if (missing != bm_missing_paths manifest) || (unexpected != bm_unexpected_paths manifest)
      then Err Backup_InventoryMismatch
      else Ok tt.

Definition manifest_binds_spec (manifest : BackupManifestV1) (spec : AuthorizedBackupSpecV1)
    : bool :=
  (bm_authorized_spec_digest manifest == abs_spec_digest spec)
  && (bm_backup_set_id manifest == abs_backup_set_id spec)
  && (bm_backup_id manifest == abs_backup_id spec)
  && (bm_attempt_id manifest == abs_attempt_id spec)
  && (bm_project_id manifest == abs_project_id spec)
  && (bm_snapshot_kind manifest == abs_snapshot_kind spec)
  && (bm_capture_purpose manifest == abs_capture_purpose spec)
  && (bm_unit_digest manifest == bu_unit_digest (abs_unit spec))
  && (bm_consistency manifest == bu_consistency (abs_unit spec))
  && (bm_fencing_epoch manifest == abs_fencing_epoch spec)
  && (bm_fence_receipt_digest manifest == abs_fence_receipt_digest spec)
  && (bm_missing_paths manifest == []) && (bm_unexpected_paths manifest == []).

Definition BackupManifest_require_verified_against (manifest : BackupManifestV1)
    (spec : AuthorizedBackupSpecV1) : Result BackupContractError () :=
  let? _ := BackupManifest_validate_document manifest in
  let? spec_valid := BackupSpec_has_valid_digest spec in
  if negb spec_valid || negb (manifest_binds_spec manifest spec)
  then Err Backup_BackupUnverified
  else
    let? digest := BackupManifest_calculate_digest manifest in
    if bm_manifest_digest manifest != digest then Err Backup_BackupUnverified
    else
      let? _ := validate_objects_against_unit (abs_unit spec) (bm_objects manifest) in
      validate_checks_against_unit (abs_unit spec) (bm_objects manifest) (bm_checks manifest).

Definition BackupManifest_new (spec : AuthorizedBackupSpecV1) (input : BackupManifestInputV1)
    : Result BackupContractError BackupManifestV1 :=
  let? spec_valid := BackupSpec_has_valid_digest spec in
  if negb spec_valid then Err Backup_DigestMismatch
  else
    let? _ := validate_manifest_metadata spec input in
    let? objects := sort_unique_objects (bmi_objects input) in
    let? checks := sort_unique_check_evidence (bmi_checks input) in
    let? _ := validate_objects_against_unit (abs_unit spec) objects in
    let? _ := validate_checks_against_unit (abs_unit spec) objects checks in
    let expected_paths := eo_path <$> bu_expected_objects (abs_unit spec) in
    let '(missing_paths, unexpected_paths) := inventory_differences expected_paths objects in
    let manifest := {|
      bm_schema_version := BACKUP_MANIFEST_SCHEMA_VERSION;
      bm_authorized_spec_digest := abs_spec_digest spec;
      bm_backup_set_id := abs_backup_set_id spec;
      bm_backup_id := abs_backup_id spec;
      bm_attempt_id := abs_attempt_id spec;
      bm_project_id := abs_project_id spec;
      bm_snapshot_kind := abs_snapshot_kind spec;
      bm_capture_purpose := abs_capture_purpose spec;
      bm_unit_digest := bu_unit_digest (abs_unit spec);
      bm_consistency := bu_consistency (abs_unit spec);
      bm_application_schema_version := bmi_application_schema_version input;
      bm_fencing_epoch := abs_fencing_epoch spec;
      bm_fence_receipt_digest := abs_fence_receipt_digest spec;
      bm_started_at_ms := bmi_started_at_ms input;
      bm_completed_at_ms := bmi_completed_at_ms input;
      bm_expected_paths := expected_paths;
      bm_objects := objects;
      bm_missing_paths := missing_paths;
      bm_unexpected_paths := unexpected_paths;
      bm_checks := checks;
      bm_manifest_digest := EvidenceDigest_sha256 []
    |} in
    let? digest := BackupManifest_calculate_digest manifest in
    let manifest := manifest <| bm_manifest_digest := digest |> in
    let? _ := BackupManifest_require_verified_against manifest spec in
    Ok manifest.

Definition BackupManifest_check (manifest : BackupManifestV1) : Result BackupContractError () :=
  let? _ := BackupManifest_validate_document manifest in
  let? digest := BackupManifest_calculate_digest manifest in
  if bm_manifest_digest manifest != digest then Err Backup_DigestMismatch else Ok tt.

Definition BackupManifest_canonical_bytes `{!Jcs BackupManifestV1} (manifest : BackupManifestV1)
    : Result BackupContractError (list Z) :=
  let? _ := BackupManifest_check manifest in canonical_bytes manifest.

Definition BackupManifest_decode_canonical `{!Jcs BackupManifestV1, !JsonSlice BackupManifestV1}
    (bytes : list Z) : Result BackupContractError BackupManifestV1 :=
  let? manifest := decode_canonical bytes in
  let? _ := BackupManifest_check manifest in Ok manifest.

(** *** Local evidence *)

Definition LocalBackup_calculate_digest (local : LocalBackupEvidenceV1)
    : Result BackupContractError EvidenceDigest :=
  digest_jcs {|
    lbp_purpose := "rdashboard.local-backup-evidence.v1";
    lbp_schema_version := lb_schema_version local;
    lbp_authorized_spec_digest := lb_authorized_spec_digest local;
    lbp_backup_set_id := lb_backup_set_id local;
    lbp_backup_id := lb_backup_id local;
    lbp_attempt_id := lb_attempt_id local;
    lbp_project_id := lb_project_id local;
    lbp_snapshot_kind := lb_snapshot_kind local;
    lbp_manifest_digest := lb_manifest_digest local;
    lbp_completed_at_ms := lb_completed_at_ms local;
    lbp_fencing_epoch := lb_fencing_epoch local;
    lbp_encryption := lb_encryption local
  |}.

Definition LocalBackup_new (spec : AuthorizedBackupSpecV1) (manifest : BackupManifestV1)
    (encryption : BackupEncryptionEvidenceV1)
    : Result BackupContractError LocalBackupEvidenceV1 :=
  let? _ := BackupManifest_require_verified_against manifest spec in
  let? _ := validate_encryption spec manifest encryption in
  let evidence := {|
    lb_schema_version := LOCAL_BACKUP_EVIDENCE_SCHEMA_VERSION;
    lb_authorized_spec_digest := abs_spec_digest spec;
    lb_backup_set_id := abs_backup_set_id spec;
    lb_backup_id := abs_backup_id spec;
    lb_attempt_id := abs_attempt_id spec;
    lb_project_id := abs_project_id spec;
    lb_snapshot_kind := abs_snapshot_kind spec;
    lb_manifest_digest := bm_manifest_digest manifest;
    lb_completed_at_ms := bm_completed_at_ms manifest;
    lb_fencing_epoch := abs_fencing_epoch spec;
    lb_encryption := encryption;
    lb_evidence_digest := EvidenceDigest_sha256 []
  |} in
  let? digest := LocalBackup_calculate_digest evidence in
  Ok (evidence <| lb_evidence_digest := digest |>).

Definition LocalBackup_validate_document (local : LocalBackupEvidenceV1)
    : Result BackupContractError () :=
  let encryption := lb_encryption local in
  if negb (lb_schema_version local =? LOCAL_BACKUP_EVIDENCE_SCHEMA_VERSION)
     || is_nil (lb_backup_set_id local) || is_nil (lb_backup_id local)
     || is_nil (lb_attempt_id local) || (lb_completed_at_ms local <? 0)
     || (be_authorized_spec_digest encryption != lb_authorized_spec_digest local)
     || (be_backup_id encryption != lb_backup_id local)
     || (be_manifest_digest encryption != lb_manifest_digest local)
     || (be_ciphertext_size_bytes encryption =? 0)
     || (be_encrypted_at_ms encryption <? lb_completed_at_ms local)
  then Err Backup_InvalidEncryptionEvidence
  else Ok tt.

Definition LocalBackup_require_verified_against (local : LocalBackupEvidenceV1)
    (spec : AuthorizedBackupSpecV1) (manifest : BackupManifestV1)
    : Result BackupContractError () :=
  let? _ := LocalBackup_validate_document local in
  let? _ := BackupManifest_require_verified_against manifest spec in
  let? _ := validate_encryption spec manifest (lb_encryption local) in
  if (lb_authorized_spec_digest local != abs_spec_digest spec)
     || (lb_backup_set_id local != abs_backup_set_id spec)
     || (lb_backup_id local != abs_backup_id spec)
     || (lb_attempt_id local != abs_attempt_id spec)
     || (lb_project_id local != abs_project_id spec)
     || (lb_snapshot_kind local != abs_snapshot_kind spec)
     || (lb_manifest_digest local != bm_manifest_digest manifest)
     || negb (lb_completed_at_ms local =? bm_completed_at_ms manifest)
     || (lb_fencing_epoch local != abs_fencing_epoch spec)
  then Err Backup_BackupUnverified
  else
    let? digest := LocalBackup_calculate_digest local in
    if lb_evidence_digest local != digest then Err Backup_BackupUnverified else Ok tt.

(** *** Upload receipts *)

Definition UploadReceipt_calculate_digest (receipt : ProviderUploadReceiptV1)
    : Result BackupContractError EvidenceDigest :=
  digest_jcs {|
    purp_purpose := "rdashboard.provider-upload-receipt.v1";
    purp_schema_version := pur_schema_version receipt;
    purp_authorized_spec_digest := pur_authorized_spec_digest receipt;
    purp_backup_id := pur_backup_id receipt;
    purp_local_evidence_digest := pur_local_evidence_digest receipt;
    purp_provider := pur_provider receipt;
    purp_provider_credential_version := pur_provider_credential_version receipt;
    purp_object_id := pur_object_id receipt;
    purp_version_id := pur_version_id receipt;
    purp_size_bytes := pur_size_bytes receipt;
    purp_ciphertext_digest := pur_ciphertext_digest receipt;
    purp_uploaded_at_ms := pur_uploaded_at_ms receipt;
    purp_provider_receipt_digest := pur_provider_receipt_digest receipt
  |}.

Definition after_deadline (spec : AuthorizedBackupSpecV1) (at_ms : Z) : bool :=
  offsite_deadline_applies spec && (abs_capture_deadline_ms spec <? at_ms).

Definition UploadReceipt_new (spec : AuthorizedBackupSpecV1) (local : LocalBackupEvidenceV1)
    (input : ProviderUploadReceiptInputV1) : Result BackupContractError ProviderUploadReceiptV1 :=
  if (lb_authorized_spec_digest local != abs_spec_digest spec)
     || (lb_backup_id local != abs_backup_id spec)
     || (puri_provider input != abs_provider spec)
     || negb (puri_provider_credential_version input =? abs_provider_credential_version spec)
     || negb (valid_provider_identifier (puri_object_id input))
     || negb (valid_provider_identifier (puri_version_id input))
     || (puri_uploaded_at_ms input <? be_encrypted_at_ms (lb_encryption local))
     || after_deadline spec (puri_uploaded_at_ms input)
  then Err Backup_InvalidOffsiteEvidence
  else
    let receipt := {|
      pur_schema_version := PROVIDER_UPLOAD_RECEIPT_SCHEMA_VERSION;
      pur_authorized_spec_digest := abs_spec_digest spec;
      pur_backup_id := abs_backup_id spec;
      pur_local_evidence_digest := lb_evidence_digest local;
      pur_provider := puri_provider input;
      pur_provider_credential_version := puri_provider_credential_version input;
      pur_object_id := puri_object_id input;
      pur_version_id := puri_version_id input;
      pur_size_bytes := be_ciphertext_size_bytes (lb_encryption local);
      pur_ciphertext_digest := be_ciphertext_digest (lb_encryption local);
      pur_uploaded_at_ms := puri_uploaded_at_ms input;
      pur_provider_receipt_digest := puri_provider_receipt_digest input;
      pur_receipt_digest := EvidenceDigest_sha256 []
    |} in
    let? digest := UploadReceipt_calculate_digest receipt in
    Ok (receipt <| pur_receipt_digest := digest |>).

Definition UploadReceipt_require_verified_against (receipt : ProviderUploadReceiptV1)
    (spec : AuthorizedBackupSpecV1) (local : LocalBackupEvidenceV1)
    : Result BackupContractError () :=
  if negb (pur_schema_version receipt =? PROVIDER_UPLOAD_RECEIPT_SCHEMA_VERSION)
     || (pur_authorized_spec_digest receipt != abs_spec_digest spec)
     || (pur_backup_id receipt != abs_backup_id spec)
     || (pur_local_evidence_digest receipt != lb_evidence_digest local)
     || (pur_provider receipt != abs_provider spec)
     || negb (pur_provider_credential_version receipt =? abs_provider_credential_version spec)
     || negb (pur_size_bytes receipt =? be_ciphertext_size_bytes (lb_encryption local))
     || (pur_ciphertext_digest receipt != be_ciphertext_digest (lb_encryption local))
     || negb (valid_provider_identifier (pur_object_id receipt))
     || negb (valid_provider_identifier (pur_version_id receipt))
     || (pur_uploaded_at_ms receipt <? be_encrypted_at_ms (lb_encryption local))
     || after_deadline spec (pur_uploaded_at_ms receipt)
  then Err Backup_InvalidOffsiteEvidence
  else
    let? digest := UploadReceipt_calculate_digest receipt in
    if pur_receipt_digest receipt != digest then Err Backup_InvalidOffsiteEvidence else Ok tt.

(** *** Read-back of the uploaded object *)

Definition Offsite_calculate_digest (evidence : OffsiteVerificationEvidenceV1)
    : Result BackupContractError EvidenceDigest :=
  digest_jcs {|
    ovp_purpose := "rdashboard.offsite-verification-evidence.v1";
    ovp_schema_version := ov_schema_version evidence;
    ovp_authorized_spec_digest := ov_authorized_spec_digest evidence;
    ovp_backup_id := ov_backup_id evidence;
    ovp_local_evidence_digest := ov_local_evidence_digest evidence;
    ovp_upload_receipt_digest := ov_upload_receipt_digest evidence;
    ovp_provider := ov_provider evidence;
    ovp_object_id := ov_object_id evidence;
    ovp_version_id := ov_version_id evidence;
    ovp_readback_size_bytes := ov_readback_size_bytes evidence;
    ovp_readback_ciphertext_digest := ov_readback_ciphertext_digest evidence;
    ovp_readback_observation_digest := ov_readback_observation_digest evidence;
    ovp_verified_at_ms := ov_verified_at_ms evidence
  |}.

Definition Offsite_new (spec : AuthorizedBackupSpecV1) (local : LocalBackupEvidenceV1)
    (receipt : ProviderUploadReceiptV1) (input : OffsiteVerificationInputV1)
    : Result BackupContractError OffsiteVerificationEvidenceV1 :=
  let? _ := UploadReceipt_require_verified_against receipt spec local in
  if negb (ovi_readback_size_bytes input =? be_ciphertext_size_bytes (lb_encryption local))
     || (ovi_readback_ciphertext_digest input != be_ciphertext_digest (lb_encryption local))
     || (ovi_readback_observation_digest input == pur_provider_receipt_digest receipt)
     || (ovi_verified_at_ms input <? pur_uploaded_at_ms receipt)
     || after_deadline spec (ovi_verified_at_ms input)
  then Err Backup_InvalidOffsiteEvidence
  else
    let evidence := {|
      ov_schema_version := OFFSITE_VERIFICATION_SCHEMA_VERSION;
      ov_authorized_spec_digest := abs_spec_digest spec;
      ov_backup_id := abs_backup_id spec;
      ov_local_evidence_digest := lb_evidence_digest local;
      ov_upload_receipt_digest := pur_receipt_digest receipt;
      ov_provider := pur_provider receipt;
      ov_object_id := pur_object_id receipt;
      ov_version_id := pur_version_id receipt;
      ov_readback_size_bytes := ovi_readback_size_bytes input;
      ov_readback_ciphertext_digest := ovi_readback_ciphertext_digest input;
      ov_readback_observation_digest := ovi_readback_observation_digest input;
      ov_verified_at_ms := ovi_verified_at_ms input;
      ov_evidence_digest := EvidenceDigest_sha256 []
    |} in
    let? digest := Offsite_calculate_digest evidence in
    Ok (evidence <| ov_evidence_digest := digest |>).

Definition Offsite_require_verified_against (evidence : OffsiteVerificationEvidenceV1)
    (spec : AuthorizedBackupSpecV1) (local : LocalBackupEvidenceV1)
    (receipt : ProviderUploadReceiptV1) : Result BackupContractError () :=
  let? _ := UploadReceipt_require_verified_against receipt spec local in
  if negb (ov_schema_version evidence =? OFFSITE_VERIFICATION_SCHEMA_VERSION)
     || (ov_authorized_spec_digest evidence != abs_spec_digest spec)
     || (ov_backup_id evidence != abs_backup_id spec)
     || (ov_local_evidence_digest evidence != lb_evidence_digest local)
     || (ov_upload_receipt_digest evidence != pur_receipt_digest receipt)
     || (ov_provider evidence != pur_provider receipt)
     || (ov_object_id evidence != pur_object_id receipt)
     || (ov_version_id evidence != pur_version_id receipt)
     || negb (ov_readback_size_bytes evidence =? be_ciphertext_size_bytes (lb_encryption local))
     || (ov_readback_ciphertext_digest evidence != be_ciphertext_digest (lb_encryption local))
     || (ov_readback_observation_digest evidence == pur_provider_receipt_digest receipt)
     || (ov_verified_at_ms evidence <? pur_uploaded_at_ms receipt)
     || after_deadline spec (ov_verified_at_ms evidence)
  then Err Backup_InvalidOffsiteEvidence
  else
    let? digest := Offsite_calculate_digest evidence in
    if ov_evidence_digest evidence != digest then Err Backup_InvalidOffsiteEvidence else Ok tt.

(** *** Chains *)

Definition BackupChain_calculate_digest (chain : VerifiedBackupChainV1)
    : Result BackupContractError EvidenceDigest :=
  digest_jcs {|
    vcp_purpose := "rdashboard.verified-backup-chain.v1";
    vcp_schema_version := vc_schema_version chain;
    vcp_snapshot_kind := vc_snapshot_kind chain;
    vcp_authorized_spec := vc_authorized_spec chain;
    vcp_manifest := vc_manifest chain;
    vcp_local := vc_local chain;
    vcp_upload_receipt := vc_upload_receipt chain;
    vcp_offsite := vc_offsite chain
  |}.

Definition BackupChain_require_verified (chain : VerifiedBackupChainV1)
    : Result BackupContractError () :=
  if negb (vc_schema_version chain =? VERIFIED_BACKUP_CHAIN_SCHEMA_VERSION)
     || (vc_snapshot_kind chain != abs_snapshot_kind (vc_authorized_spec chain))
  then Err Backup_BackupUnverified
  else
    let? spec_valid := BackupSpec_has_valid_digest (vc_authorized_spec chain) in
    if negb spec_valid then Err Backup_BackupUnverified
    else
      let? _ := LocalBackup_require_verified_against (vc_local chain) (vc_authorized_spec chain)
                  (vc_manifest chain) in
      let? _ :=
        match vc_snapshot_kind chain, vc_upload_receipt chain, vc_offsite chain with
        | Snapshot_Base, Some receipt, Some offsite =>
            let? _ := UploadReceipt_require_verified_against receipt (vc_authorized_spec chain)
                        (vc_local chain) in
            Offsite_require_verified_against offsite (vc_authorized_spec chain) (vc_local chain)
              receipt
        | Snapshot_Cutover, None, None => Ok tt
        | _, _, _ => Err Backup_InvalidSnapshotBinding
        end in
      let? digest := BackupChain_calculate_digest chain in
      if vc_chain_digest chain != digest then Err Backup_DigestMismatch else Ok tt.

Definition seal_chain (chain : VerifiedBackupChainV1)
    : Result BackupContractError VerifiedBackupChainV1 :=
  let? digest := BackupChain_calculate_digest chain in
  let chain := chain <| vc_chain_digest := digest |> in
  let? _ := BackupChain_require_verified chain in
  Ok chain.

Definition BackupChain_new_base (spec : AuthorizedBackupSpecV1) (manifest : BackupManifestV1)
    (local : LocalBackupEvidenceV1) (receipt : ProviderUploadReceiptV1)
    (offsite : OffsiteVerificationEvidenceV1)
    : Result BackupContractError VerifiedBackupChainV1 :=
  if abs_snapshot_kind spec != Snapshot_Base then Err Backup_InvalidSnapshotBinding
  else seal_chain {|
    vc_schema_version := VERIFIED_BACKUP_CHAIN_SCHEMA_VERSION;
    vc_snapshot_kind := Snapshot_Base;
    vc_authorized_spec := spec;
    vc_manifest := manifest;
    vc_local := local;
    vc_upload_receipt := Some receipt;
    vc_offsite := Some offsite;
    vc_chain_digest := EvidenceDigest_sha256 []
  |}.

Definition BackupChain_new_cutover (spec : AuthorizedBackupSpecV1) (manifest : BackupManifestV1)
    (local : LocalBackupEvidenceV1) : Result BackupContractError VerifiedBackupChainV1 :=
  if abs_snapshot_kind spec != Snapshot_Cutover then Err Backup_InvalidSnapshotBinding
  else seal_chain {|
    vc_schema_version := VERIFIED_BACKUP_CHAIN_SCHEMA_VERSION;
    vc_snapshot_kind := Snapshot_Cutover;
    vc_authorized_spec := spec;
    vc_manifest := manifest;
    vc_local := local;
    vc_upload_receipt := None;
    vc_offsite := None;
    vc_chain_digest := EvidenceDigest_sha256 []
  |}.

Definition BackupChain_require_verified_against (chain : VerifiedBackupChainV1)
    (expected_spec : AuthorizedBackupSpecV1) : Result BackupContractError () :=
  let? _ := BackupChain_require_verified chain in
  ensure (vc_authorized_spec chain == expected_spec) Backup_BackupUnverified.

Definition BackupChain_canonical_bytes `{!Jcs VerifiedBackupChainV1}
    (chain : VerifiedBackupChainV1) : Result BackupContractError (list Z) :=
  let? _ := BackupChain_require_verified chain in canonical_bytes chain.

Definition BackupChain_decode_canonical
    `{!Jcs VerifiedBackupChainV1, !JsonSlice VerifiedBackupChainV1} (bytes : list Z)
    : Result BackupContractError VerifiedBackupChainV1 :=
  let? chain := decode_canonical bytes in
  let? _ := BackupChain_require_verified chain in Ok chain.

Definition verification_completed_at_ms (chain : VerifiedBackupChainV1)
    : Result BackupContractError Z :=
  let? _ := BackupChain_require_verified chain in
  Ok match vc_offsite chain with
     | Some offsite => ov_verified_at_ms offsite
     | None => be_encrypted_at_ms (lb_encryption (vc_local chain))
     end.

(** *** Clocks and freshness *)

Definition TrustedClock_calculate_digest (evidence : TrustedClockEvidenceV1)
    : Result BackupContractError EvidenceDigest :=
  digest_jcs {|
    tcp_purpose := "rdashboard.trusted-clock-evidence.v1";
    tcp_schema_version := tc_schema_version evidence;
    tcp_synchronized := tc_synchronized evidence;
    tcp_estimated_offset_ms := tc_estimated_offset_ms evidence;
    tcp_observed_at_ms := tc_observed_at_ms evidence;
    tcp_observation_digest := tc_observation_digest evidence
  |}.

Definition TrustedClock_require_synchronized (evidence : TrustedClockEvidenceV1)
    : Result BackupContractError () :=
  if negb (tc_schema_version evidence =? TRUSTED_CLOCK_EVIDENCE_SCHEMA_VERSION)
     || negb (tc_synchronized evidence)
     || (tc_estimated_offset_ms evidence =? i64_min)
     || (MAX_TRUSTED_CLOCK_OFFSET_MS <? Z.abs (tc_estimated_offset_ms evidence))
     || (tc_observed_at_ms evidence <? 0)
  then Err Backup_ClockUnsynchronized
  else
    let? digest := TrustedClock_calculate_digest evidence in
    if tc_evidence_digest evidence != digest then Err Backup_ClockUnsynchronized else Ok tt.

Definition TrustedClock_new (synchronized : bool) (estimated_offset_ms observed_at_ms : Z)
    (observation_digest : EvidenceDigest) : Result BackupContractError TrustedClockEvidenceV1 :=
  if (observed_at_ms <? 0) || (estimated_offset_ms =? i64_min)
  then Err Backup_ClockUnsynchronized
  else
    let evidence := {|
      tc_schema_version := TRUSTED_CLOCK_EVIDENCE_SCHEMA_VERSION;
      tc_synchronized := synchronized;
      tc_estimated_offset_ms := estimated_offset_ms;
      tc_observed_at_ms := observed_at_ms;
      tc_observation_digest := observation_digest;
      tc_evidence_digest := EvidenceDigest_sha256 []
    |} in
    let? digest := TrustedClock_calculate_digest evidence in
    let evidence := evidence <| tc_evidence_digest := digest |> in
    let? _ := TrustedClock_require_synchronized evidence in
    Ok evidence.

Definition validate_freshness_policy (max_age_ms : Z) (require_offsite : bool)
    (chain : VerifiedBackupChainV1) : Result BackupContractError () :=
  if (max_age_ms <=? 0) || (MAX_ALLOWED_BACKUP_AGE_MS <? max_age_ms)
     || (require_offsite && is_none (vc_offsite chain))
  then Err Backup_BackupStale
  else Ok tt.

Definition validate_clock_at_boundary (clock : TrustedClockEvidenceV1) (boundary_now_ms : Z)
    : Result BackupContractError () :=
  let? _ := TrustedClock_require_synchronized clock in
  let? evidence_age_ms := elapsed_ms boundary_now_ms (tc_observed_at_ms clock) in
  if MAX_TRUSTED_CLOCK_EVIDENCE_AGE_MS <? evidence_age_ms then Err Backup_BackupStale
  else Ok tt.

Definition BackupFreshness_calculate_digest (evidence : BackupFreshnessEvidenceV1)
    : Result BackupContractError EvidenceDigest :=
  digest_jcs {|
    bfp_purpose := "rdashboard.backup-freshness-evidence.v1";
    bfp_schema_version := bf_schema_version evidence;
    bfp_backup_id := bf_backup_id evidence;
    bfp_verified_chain_digest := bf_verified_chain_digest evidence;
    bfp_local_evidence_digest := bf_local_evidence_digest evidence;
    bfp_offsite_evidence_digest := bf_offsite_evidence_digest evidence;
    bfp_trusted_clock_evidence_digest := bf_trusted_clock_evidence_digest evidence;
    bfp_trusted_clock_observed_at_ms := bf_trusted_clock_observed_at_ms evidence;
    bfp_completed_at_ms := bf_completed_at_ms evidence;
    bfp_evaluated_at_ms := bf_evaluated_at_ms evidence;
    bfp_age_ms := bf_age_ms evidence;
    bfp_max_age_ms := bf_max_age_ms evidence
  |}.

Definition BackupFreshness_new (chain : VerifiedBackupChainV1) (clock : TrustedClockEvidenceV1)
    (boundary_now_ms max_age_ms : Z) (require_offsite : bool)
    : Result BackupContractError BackupFreshnessEvidenceV1 :=
  let? _ := BackupChain_require_verified chain in
  let? _ := validate_freshness_policy max_age_ms require_offsite chain in
  let? _ := validate_clock_at_boundary clock boundary_now_ms in
  let local := vc_local chain in
  let? completed := verification_completed_at_ms chain in
  if boundary_now_ms <? completed then Err Backup_BackupStale
  else
    let? age_ms := elapsed_ms boundary_now_ms (lb_completed_at_ms local) in
    if max_age_ms <? age_ms then Err Backup_BackupStale
    else
      let evidence := {|
        bf_schema_version := BACKUP_FRESHNESS_EVIDENCE_SCHEMA_VERSION;
        bf_backup_id := lb_backup_id local;
        bf_verified_chain_digest := vc_chain_digest chain;
        bf_local_evidence_digest := lb_evidence_digest local;
        bf_offsite_evidence_digest := ov_evidence_digest <$> vc_offsite chain;
        bf_trusted_clock_evidence_digest := tc_evidence_digest clock;
        bf_trusted_clock_observed_at_ms := tc_observed_at_ms clock;
        bf_completed_at_ms := lb_completed_at_ms local;
        bf_evaluated_at_ms := boundary_now_ms;
        bf_age_ms := age_ms;
        bf_max_age_ms := max_age_ms;
        bf_evidence_digest := EvidenceDigest_sha256 []
      |} in
      let? digest := BackupFreshness_calculate_digest evidence in
      Ok (evidence <| bf_evidence_digest := digest |>).

Definition BackupFreshness_require_verified_against_chain (evidence : BackupFreshnessEvidenceV1)
    (chain : VerifiedBackupChainV1) (required_max_age_ms : Z) (require_offsite : bool)
    : Result BackupContractError () :=
  let? _ := BackupChain_require_verified chain in
  let? _ := validate_freshness_policy required_max_age_ms require_offsite chain in
  let local := vc_local chain in
  let expected_offsite_digest := ov_evidence_digest <$> vc_offsite chain in
  let? recorded_age_ms := elapsed_ms (bf_evaluated_at_ms evidence) (bf_completed_at_ms evidence) in
  let? clock_evidence_age_ms :=
    elapsed_ms (bf_evaluated_at_ms evidence) (bf_trusted_clock_observed_at_ms evidence) in
  if negb (bf_schema_version evidence =? BACKUP_FRESHNESS_EVIDENCE_SCHEMA_VERSION)
     || (bf_backup_id evidence != lb_backup_id local)
     || (bf_verified_chain_digest evidence != vc_chain_digest chain)
     || (bf_local_evidence_digest evidence != lb_evidence_digest local)
     || (bf_offsite_evidence_digest evidence != expected_offsite_digest)
     || negb (bf_completed_at_ms evidence =? lb_completed_at_ms local)
  then Err Backup_BackupStale
  else
    let? completed := verification_completed_at_ms chain in
    if (bf_evaluated_at_ms evidence <? completed)
       || negb (bf_age_ms evidence =? recorded_age_ms)
       || negb (bf_max_age_ms evidence =? required_max_age_ms)
       || (required_max_age_ms <? recorded_age_ms)
       || (MAX_TRUSTED_CLOCK_EVIDENCE_AGE_MS <? clock_evidence_age_ms)
    then Err Backup_BackupStale
    else
      let? digest := BackupFreshness_calculate_digest evidence in
      if bf_evidence_digest evidence != digest then Err Backup_DigestMismatch else Ok tt.

Definition BackupFreshness_require_current (evidence : BackupFreshnessEvidenceV1)
    (chain : VerifiedBackupChainV1) (fresh_clock : TrustedClockEvidenceV1)
    (boundary_now_ms required_max_age_ms : Z) (require_offsite : bool)
    : Result BackupContractError () :=
  let? _ := BackupFreshness_require_verified_against_chain evidence chain required_max_age_ms
              require_offsite in
  let? _ := validate_clock_at_boundary fresh_clock boundary_now_ms in
  if (tc_evidence_digest fresh_clock == bf_trusted_clock_evidence_digest evidence)
     || (tc_observed_at_ms fresh_clock <=? bf_evaluated_at_ms evidence)
     || (boundary_now_ms <=? bf_evaluated_at_ms evidence)
  then Err Backup_BackupStale
  else
    let? completed := verification_completed_at_ms chain in
    if boundary_now_ms <? completed then Err Backup_BackupStale
    else
      let? current_age_ms := elapsed_ms boundary_now_ms (lb_completed_at_ms (vc_local chain)) in
      if required_max_age_ms <? current_age_ms then Err Backup_BackupStale else Ok tt.

(** *** Artifacts of the backup phases *)

Definition base_phase_artifacts (spec : AuthorizedBackupSpecV1) (manifest : BackupManifestV1)
    (local : LocalBackupEvidenceV1) (receipt : ProviderUploadReceiptV1)
    (offsite : OffsiteVerificationEvidenceV1) : Result BackupContractError PhaseArtifacts :=
  let? chain := BackupChain_new_base spec manifest local receipt offsite in
  Ok (PhaseArtifacts_default
        <| pa_backup_set_id := Some (abs_backup_set_id spec) |>
        <| pa_base_backup_id := Some (abs_backup_id spec) |>
        <| pa_base_backup_manifest_digest := Some (bm_manifest_digest (vc_manifest chain)) |>
        <| pa_base_backup_evidence_digest := Some (lb_evidence_digest (vc_local chain)) |>
        <| pa_base_backup_offsite_evidence_digest := ov_evidence_digest <$> vc_offsite chain |>
        <| pa_base_backup_verification_digest := Some (vc_chain_digest chain) |>).

Definition cutover_phase_artifacts (spec : AuthorizedBackupSpecV1) (manifest : BackupManifestV1)
    (local : LocalBackupEvidenceV1) : Result BackupContractError PhaseArtifacts :=
  let? chain := BackupChain_new_cutover spec manifest local in
  Ok (PhaseArtifacts_default
        <| pa_backup_set_id := Some (abs_backup_set_id spec) |>
        <| pa_cutover_backup_id := Some (abs_backup_id spec) |>
        <| pa_cutover_backup_manifest_digest := Some (bm_manifest_digest (vc_manifest chain)) |>
        <| pa_cutover_backup_evidence_digest := Some (lb_evidence_digest (vc_local chain)) |>
        <| pa_cutover_backup_verification_digest := Some (vc_chain_digest chain) |>
        <| pa_fencing_epoch := abs_fencing_epoch spec |>).
End Backup.
