(* ===== verification/BackupSpec.v ===== *)
(** * Properties of the backup contracts

    What a verified manifest, chain and freshness evidence of [Backup.v] guarantee,
    that the constructors yield documents the verifiers accept, and the canonical
    encoding of the documents. *)

From Stdlib Require Import ZArith Lia Ascii String.
From stdpp Require Import base gmap strings option list_numbers sorting list.
From S2P Require Import Prelude Identifiers States Text Failure Operation Ordered Backup DomainSpec.

Local Open Scope Z_scope.

(** ** Sorted lists without adjacent equal keys have distinct keys *)

Lemma StronglySorted_part {A} (R : relation A) (P : A → Prop) `{∀ x, Decision (P x)} l :
  StronglySorted R l → StronglySorted R (filter P l).
Proof.
  induction 1 as [|x l _ IH Hall]; [constructor|]. rewrite filter_cons. case_decide; [|done].
  constructor; [done|]. apply Forall_forall. intros y [_ Hy]%list_elem_of_filter.
  rewrite Forall_forall in Hall. auto.
Qed.

Section SortUnique.
Context {A : Type} (key : A → string).
Abbreviation key_compare := (key_compare key).

Lemma sort_unique_keys {K} `{EqDecision K} (k : A → K) l :
  (∀ x y, k x = k y ↔ key x = key y) →
  adjacent_equal k (sort_by key_compare l) = false →
  NoDup (key <$> sort_by key_compare l).
Proof.
  intros Hk Hd. apply sorted_distinct_NoDup; [apply sort_by_Sorted; apply _|].
  unfold adjacent_equal in Hd. rewrite <- Hd. clear Hd.
  induction (windows2 (sort_by key_compare l)) as [|p r IH]; [done|]. simpl. rewrite IH. f_equal.
  apply bool_decide_ext. by rewrite Hk.
Qed.

(** Part of a sorted list without equal keys is one. *)
Lemma sort_unique_filter {K} `{EqDecision K} (k : A → K) (P : A → Prop) `{∀ x, Decision (P x)} l :
  (∀ x y, k x = k y ↔ key x = key y) →
  sort_by key_compare l = l → adjacent_equal k l = false →
  sort_by key_compare (filter P l) = filter P l ∧ adjacent_equal k (filter P l) = false.
Proof.
  intros Hk Hsort Hd. pose proof (sort_by_Sorted key_compare l) as Hs. rewrite Hsort in Hs.
  assert (NoDup (key <$> l)) as Hnd by (rewrite <- Hsort in Hd |- *; by eapply sort_unique_keys).
  split.
  - apply sort_by_sorted_id. apply Sorted_StronglySorted in Hs; [|apply _].
    by apply StronglySorted_Sorted, StronglySorted_part.
  - assert (NoDup (key <$> filter P l)) as Hf.
    { eapply sublist_NoDup; [exact Hnd|]. apply fmap_sublist, sublist_filter. }
    apply not_true_is_false. intros (p&Hin&Heq)%existsb_exists. bool_prop.
    apply Hk in Heq. revert Hf Hin. clear -Heq.
    induction (filter P l) as [|x [|y r] IH]; [done..|]. cbn [windows2 fmap list_fmap]. intros Hnd [<-|Hin].
    + simpl in Heq. inversion Hnd as [|? ? Hx _]; subst. apply Hx. rewrite Heq. left.
    + apply IH; [by inversion Hnd|done].
Qed.
End SortUnique.

Lemma eo_path_key x y : eo_path x = eo_path y ↔ eo_path_str x = eo_path_str y.
Proof.
  unfold eo_path_str. destruct (eo_path x), (eo_path y). simpl. split; [congruence|]. by intros ->.
Qed.

Lemma bo_path_key x y : bo_path x = bo_path y ↔ bo_path_str x = bo_path_str y.
Proof.
  unfold bo_path_str. destruct (bo_path x), (bo_path y). simpl. split; [congruence|]. by intros ->.
Qed.

Lemma sort_unique_expected_objects_Ok l l' :
  sort_unique_expected_objects l = Ok l' → NoDup (eo_path_str <$> l').
Proof.
  unfold sort_unique_expected_objects. intros Hok. case_ok. bool_prop. destruct_and!.
  eapply (sort_unique_keys eo_path_str eo_path); [apply eo_path_key|done].
Qed.

(** ** Inventories *)

Lemma filter_nil_iff {A} (P : A → Prop) `{∀ x, Decision (P x)} (l : list A) :
  filter P l = [] ↔ ∀ x, x ∈ l → ¬ P x.
Proof.
  split.
  - intros Hnil x Hin HP. assert (x ∈ filter P l) as Hx by by apply list_elem_of_filter.
    rewrite Hnil in Hx. by apply not_elem_of_nil in Hx.
  - intros Hall. destruct (filter P l) as [|x r] eqn:E; [done|]. exfalso.
    assert (x ∈ filter P l) as Hx by (rewrite E; by left).
    apply list_elem_of_filter in Hx as [HP Hin]. by apply (Hall x).
Qed.

Lemma list_fmap_nil {A B} (f : A → B) l : f <$> l = [] ↔ l = [].
Proof. by destruct l. Qed.

(** No difference means that both sides name the same paths. *)
Lemma inventory_differences_nil expected objects :
  inventory_differences expected objects = ([], []) ↔
  ∀ path, path ∈ RelativePolicyPath_as_str <$> expected ↔ path ∈ bo_path_str <$> objects.
Proof.
  unfold inventory_differences.
  set (E := btree_collect ((λ path, (RelativePolicyPath_as_str path, path)) <$> expected)).
  set (O := btree_collect ((λ object, (bo_path_str object, bo_path object)) <$> objects)).
  assert (∀ p, is_Some (btree_get p E) ↔ p ∈ RelativePolicyPath_as_str <$> expected) as HE
    by (intros p; unfold E; by rewrite btree_collect_bound, <- list_fmap_compose).
  assert (∀ p, is_Some (btree_get p O) ↔ p ∈ bo_path_str <$> objects) as HO
    by (intros p; unfold O; by rewrite btree_collect_bound, <- list_fmap_compose).
  assert (∀ (m1 m2 : list (string * RelativePolicyPath)), btree_wf m1 →
      (filter (λ kv, negb (btree_contains_key kv.1 m2) = true) m1).*2 = [] ↔
      ∀ p, is_Some (btree_get p m1) → is_Some (btree_get p m2)) as Hdiff.
  { intros m1 m2 Hwf. rewrite list_fmap_nil, filter_nil_iff. unfold btree_contains_key. split.
    - intros Hall p [v Hv]. apply btree_get_elem_of, Hall in Hv. simpl in Hv.
      rewrite <- is_some_is_Some. by destruct (is_some (btree_get p m2)).
    - intros Hall [k v] Hin Hneg. apply btree_elem_of_get in Hin; [|done]. simpl in *.
      bool_prop. destruct (Hall k (mk_is_Some _ _ Hin)) as [w Hw]. by rewrite Hw in Hneg. }
  rewrite pair_equal_spec, !Hdiff by apply btree_collect_wf.
  setoid_rewrite HE. setoid_rewrite HO. naive_solver.
Qed.

#[local] Opaque inventory_differences.

Section BackupFacts.
Context `{!Sha256}.
Context `{!Jcs BackupUnitDigestPayload, !Jcs AuthorizedBackupSpecDigestPayload,
  !Jcs BackupManifestDigestPayload, !Jcs LocalBackupEvidenceDigestPayload,
  !Jcs ProviderUploadReceiptDigestPayload, !Jcs OffsiteVerificationDigestPayload,
  !Jcs VerifiedBackupChainDigestPayload, !Jcs TrustedClockDigestPayload,
  !Jcs BackupFreshnessDigestPayload}.

(** Pass the guards of a verifier: the tests hold by the facts at hand, and a
    digest does not depend on the digest field of its document. *)
Ltac pass_guard :=
  match goal with
  | |- context [if ?b then Err _ else _] =>
      let Hb := fresh in
      assert (b = false) as Hb
        by (autorewrite with rust_bool; repeat split; first [done | congruence | lia]);
      rewrite Hb; clear Hb; simpl
  | Hd : ?r = Ok _ |- context [?r] => rewrite Hd; simpl
  | Hd : ?calc ?r = Ok ?d |- context [?calc ?r'] =>
      replace (calc r') with (calc r) by done; rewrite Hd; simpl
  end.

Lemma unit_valid_NoDup unit :
  BackupUnit_has_valid_digest unit = Ok true → NoDup (eo_path_str <$> bu_expected_objects unit).
Proof.
  unfold BackupUnit_has_valid_digest, BackupUnit_validate_document, BackupUnit_new.
  intros Hok. inv_ok. repeat case_ok. bool_prop. destruct_and!. simpl in *.
  match goal with Ho : sort_unique_expected_objects _ = Ok ?l, He : ?l = _ |- _ =>
    rewrite <- He; by apply sort_unique_expected_objects_Ok in Ho end.
Qed.

Lemma spec_valid_unit spec :
  BackupSpec_has_valid_digest spec = Ok true → BackupUnit_has_valid_digest (abs_unit spec) = Ok true.
Proof.
  unfold BackupSpec_has_valid_digest, BackupSpec_validate_document. intros Hok. inv_ok.
  repeat case_ok. by match goal with Hn : negb ?b = false |- _ => destruct b end.
Qed.

(** ** What a capture must contain *)

Definition satisfies_contract (expected : ExpectedBackupObjectV1) (object : BackupObjectV1)
    : Prop :=
  bo_path object = eo_path expected ∧ bo_kind object = eo_kind expected
  ∧ bo_uid object = eo_uid expected ∧ bo_gid object = eo_gid expected
  ∧ bo_mode object = eo_mode expected ∧ bo_hard_link_count object = 1.

(** The objects are those of the unit: each expected one with its metadata, and
    no other. *)
Definition captures (unit : BackupUnitSpecV1) (objects : list BackupObjectV1) : Prop :=
  (∀ expected, expected ∈ bu_expected_objects unit →
     ∃ object, object ∈ objects ∧ satisfies_contract expected object)
  ∧ (∀ object, object ∈ objects →
     ∃ expected, expected ∈ bu_expected_objects unit ∧ satisfies_contract expected object).

Definition check_evidence (database : BackupObjectV1) (contract : BackupCheckSpecV1)
    (evidence : BackupCheckEvidenceV1) : Prop :=
  ce_name evidence = cs_name contract ∧ ce_kind evidence = cs_kind contract
  ∧ ce_definition_digest evidence = cs_definition_digest contract
  ∧ ce_checked_object_digest evidence = bo_sha256 database
  ∧ ce_outcome evidence = Outcome_Passed.

(** Each required check passed, in order, on the captured database. *)
Definition checks_pass (unit : BackupUnitSpecV1) (objects : list BackupObjectV1)
    (checks : list BackupCheckEvidenceV1) : Prop :=
  ∃ database, database ∈ objects ∧ bo_path database = bu_primary_sqlite_path unit
    ∧ Forall2 (check_evidence database) (bu_required_checks unit) checks.

Lemma object_metadata_valid_contract unit object expected :
  NoDup (eo_path_str <$> bu_expected_objects unit) →
  object_metadata_valid (btree_collect ((λ o, (eo_path_str o, o)) <$> bu_expected_objects unit))
    object = true →
  expected ∈ bu_expected_objects unit → bo_path object = eo_path expected →
  satisfies_contract expected object.
Proof.
  intros Hnd Hok Hin Hpath. unfold object_metadata_valid in Hok. case_match; [done|].
  assert (btree_get (bo_path_str object)
    (btree_collect ((λ o, (eo_path_str o, o)) <$> bu_expected_objects unit)) = Some expected) as Hg.
  { apply btree_collect_get; [by rewrite <- list_fmap_compose|].
    replace (bo_path_str object) with (eo_path_str expected)
      by (unfold bo_path_str, eo_path_str; by rewrite Hpath).
    by apply (list_elem_of_fmap_2 (λ o, (eo_path_str o, o))). }
  rewrite Hg in Hok. bool_prop. destruct_and!. by repeat split.
Qed.

Lemma validate_objects_contract unit objects expected object u :
  NoDup (eo_path_str <$> bu_expected_objects unit) →
  validate_objects_against_unit unit objects = Ok u →
  object ∈ objects → expected ∈ bu_expected_objects unit → bo_path object = eo_path expected →
  satisfies_contract expected object.
Proof.
  intros Hnd Hok Hobj. unfold validate_objects_against_unit in Hok.
  apply (proj1 (try_for_each_Ok _ _ _) Hok) in Hobj. apply ensure_Ok in Hobj.
  by apply object_metadata_valid_contract.
Qed.

Lemma Forall2_zip {A B} (P : A → B → Prop) l k :
  length l = length k → (∀ p, p ∈ zip l k → P p.1 p.2) → Forall2 P l k.
Proof.
  revert k. induction l as [|x l IH]; intros [|y k]; try done; simpl; intros Hlen Hall; constructor.
  - apply (Hall (x, y)). by left.
  - apply IH; [lia|]. intros. apply Hall. by right.
Qed.

Lemma validate_checks_pass unit objects checks u :
  validate_checks_against_unit unit objects checks = Ok u → checks_pass unit objects checks.
Proof.
  unfold validate_checks_against_unit. intros Hok. inv_ok. case_ok.
  match goal with Hf : find_first _ _ = Some ?d |- _ =>
    apply find_first_Some in Hf as [Hin Hp]; bool_prop; exists d end.
  split; [done|]. split; [done|]. bool_prop. apply Nat.eqb_eq in Heqb.
  apply Forall2_zip; [done|]. intros [contract evidence] Hpair.
  apply (proj1 (try_for_each_Ok _ _ _) Hok) in Hpair. apply ensure_Ok in Hpair.
  unfold check_passed in Hpair. bool_prop. destruct_and!. by repeat split.
Qed.

Lemma captures_of_inventory unit objects u :
  NoDup (eo_path_str <$> bu_expected_objects unit) →
  inventory_differences (eo_path <$> bu_expected_objects unit) objects = ([], []) →
  validate_objects_against_unit unit objects = Ok u →
  captures unit objects.
Proof.
  intros Hnd Hinv Hok. rewrite inventory_differences_nil in Hinv.
  assert (∀ x y, bo_path_str x = RelativePolicyPath_as_str (eo_path y) →
    bo_path x = eo_path y) as Hinj.
  { intros x y. unfold bo_path_str. destruct (bo_path x), (eo_path y). simpl. by intros ->. }
  split.
  - intros expected Hin.
    assert (RelativePolicyPath_as_str (eo_path expected) ∈ bo_path_str <$> objects)
      as (object & Hp & Hobj)%list_elem_of_fmap.
    { apply Hinv. rewrite <- list_fmap_compose.
      by apply (list_elem_of_fmap_2 (RelativePolicyPath_as_str ∘ eo_path)). }
    exists object. split; [done|]. eapply validate_objects_contract; eauto.
  - intros object Hobj.
    assert (bo_path_str object
      ∈ RelativePolicyPath_as_str <$> (eo_path <$> bu_expected_objects unit)) as Hin.
    { apply Hinv. by apply list_elem_of_fmap_2. }
    apply list_elem_of_fmap in Hin as (path & Hp & Hin).
    apply list_elem_of_fmap in Hin as (expected & -> & Hin). exists expected. split; [done|].
    eapply validate_objects_contract; eauto.
Qed.

(** ** Manifests *)

Lemma manifest_verified_inv manifest spec u :
  BackupManifest_require_verified_against manifest spec = Ok u →
  BackupManifest_validate_document manifest = Ok tt
  ∧ BackupSpec_has_valid_digest spec = Ok true
  ∧ manifest_binds_spec manifest spec = true
  ∧ BackupManifest_calculate_digest manifest = Ok (bm_manifest_digest manifest)
  ∧ validate_objects_against_unit (abs_unit spec) (bm_objects manifest) = Ok tt
  ∧ validate_checks_against_unit (abs_unit spec) (bm_objects manifest) (bm_checks manifest) = Ok tt.
Proof.
  unfold BackupManifest_require_verified_against. intros Hok. inv_ok. repeat case_ok. bool_prop.
  repeat match goal with u : () |- _ => destruct u | u : bool |- _ => destruct u end;
    destruct_and!; simplify_eq/=; by repeat split.
Qed.

Lemma manifest_document_inv manifest u :
  BackupManifest_validate_document manifest = Ok u →
  0 ≤ bm_started_at_ms manifest ≤ bm_completed_at_ms manifest
  ∧ inventory_differences (bm_expected_paths manifest) (bm_objects manifest)
    = (bm_missing_paths manifest, bm_unexpected_paths manifest).
Proof.
  unfold BackupManifest_validate_document.
  destruct (inventory_differences _ _) as [missing unexpected].
  intros Hok. repeat case_ok. bool_prop. destruct_and!. subst. split; [lia|done].
Qed.

(** Every manifest [BackupManifestV1::new] builds captures exactly the objects of
    the authorized unit, each under its contract (path, kind, owner and mode, one
    hard link), its objects are the observed ones, and each required check passed on
    the captured database. *)
Theorem manifest_new_captures_unit spec input manifest :
  BackupManifest_new spec input = Ok manifest →
  captures (abs_unit spec) (bm_objects manifest)
  ∧ checks_pass (abs_unit spec) (bm_objects manifest) (bm_checks manifest)
  ∧ bm_objects manifest ≡ₚ bmi_objects input
  ∧ 0 ≤ bm_started_at_ms manifest ≤ bm_completed_at_ms manifest
  ∧ bm_completed_at_ms manifest ≤ abs_capture_deadline_ms spec.
Proof.
  unfold BackupManifest_new. intros Hok. inv_ok. repeat case_ok. simpl in *.
  match goal with Hv : BackupManifest_require_verified_against _ _ = Ok _ |- _ =>
    apply manifest_verified_inv in Hv as (Hdoc & Hspec & Hbind & _ & Hobj & Hchk) end.
  apply manifest_document_inv in Hdoc as [Htimes Hinv]. simpl in *.
  unfold manifest_binds_spec in Hbind. bool_prop. destruct_and!. simpl in *. subst.
  split; [|split; [|split; [|split]]]; try done.
  - eapply captures_of_inventory; [|done|done]. by apply unit_valid_NoDup, spec_valid_unit.
  - by eapply validate_checks_pass.
  - match goal with Hs : sort_unique_objects _ = Ok _ |- _ => unfold sort_unique_objects in Hs end.
    case_ok. apply sort_by_Permutation.
  - match goal with Hm : validate_manifest_metadata _ _ = Ok _ |- _ =>
      unfold validate_manifest_metadata in Hm end.
    case_ok. bool_prop. destruct_and!. lia.
Qed.

(** ** The documents of a chain verify where they are built *)

Lemma local_new_verified spec manifest encryption local :
  LocalBackup_new spec manifest encryption = Ok local →
  LocalBackup_require_verified_against local spec manifest = Ok tt.
Proof.
  unfold LocalBackup_new. intros Hok. inv_ok.
  match goal with Hv : BackupManifest_require_verified_against _ _ = Ok ?u |- _ =>
    destruct u; pose proof (manifest_verified_inv _ _ _ Hv) as (Hdoc & Hspec & Hbind & _) end.
  match goal with He : validate_encryption _ _ _ = Ok ?u |- _ => destruct u;
    pose proof He as Henc; unfold validate_encryption in Henc end.
  pose proof (proj1 (manifest_document_inv _ _ Hdoc)) as Htimes.
  unfold LocalBackup_require_verified_against, LocalBackup_validate_document. simpl.
  unfold BackupSpec_has_valid_digest, BackupSpec_validate_document in Hspec.
  repeat case_ok. bool_prop. destruct_and!. repeat pass_guard. done.
Qed.

Lemma upload_new_verified spec local input receipt :
  UploadReceipt_new spec local input = Ok receipt →
  UploadReceipt_require_verified_against receipt spec local = Ok tt.
Proof.
  unfold UploadReceipt_new, UploadReceipt_require_verified_against. intros Hok. case_ok. simpl.
  destruct (after_deadline spec (puri_uploaded_at_ms input)) eqn:Hd; bool_prop; destruct_and!; [done|].
  repeat pass_guard. done.
Qed.

Lemma offsite_new_verified spec local receipt input evidence :
  Offsite_new spec local receipt input = Ok evidence →
  Offsite_require_verified_against evidence spec local receipt = Ok tt.
Proof.
  unfold Offsite_new, Offsite_require_verified_against. intros Hok. inv_ok. case_ok. simpl.
  match goal with u : () |- _ => destruct u end.
  destruct (after_deadline spec (ovi_verified_at_ms input)) eqn:Hd; bool_prop; destruct_and!; [done|].
  repeat pass_guard. done.
Qed.

Lemma local_verified_spec local spec manifest u :
  LocalBackup_require_verified_against local spec manifest = Ok u →
  BackupSpec_has_valid_digest spec = Ok true.
Proof.
  unfold LocalBackup_require_verified_against. intros Hok. inv_ok.
  by match goal with Hv : BackupManifest_require_verified_against _ _ = Ok _ |- _ =>
    apply manifest_verified_inv in Hv as (_ & Hs & _) end.
Qed.

Lemma chain_of_parts spec manifest encryption local receipt_input receipt offsite_input offsite digest :
  abs_snapshot_kind spec = Snapshot_Base →
  LocalBackup_new spec manifest encryption = Ok local →
  UploadReceipt_new spec local receipt_input = Ok receipt →
  Offsite_new spec local receipt offsite_input = Ok offsite →
  BackupChain_calculate_digest (MkVerifiedBackupChainV1 1 Snapshot_Base spec manifest local
    (Some receipt) (Some offsite) (EvidenceDigest_sha256 [])) = Ok digest →
  BackupChain_require_verified (MkVerifiedBackupChainV1 1 Snapshot_Base spec manifest local
    (Some receipt) (Some offsite) digest) = Ok tt.
Proof.
  intros Hkind Hlocal%local_new_verified Hup%upload_new_verified Hoff%offsite_new_verified Hdigest.
  pose proof (local_verified_spec _ _ _ _ Hlocal) as Hspec.
  unfold BackupChain_require_verified. simpl. repeat pass_guard. done.
Qed.

(** The backup pipeline ends in a verified chain: the documents that the
    constructors of its stages accept are accepted by the chain constructor, the only
    remaining failure being the canonical encoder's. *)
Theorem backup_pipeline_yields_chain spec manifest_input manifest encryption local receipt_input
    receipt offsite_input offsite digest :
  abs_snapshot_kind spec = Snapshot_Base →
  BackupManifest_new spec manifest_input = Ok manifest →
  LocalBackup_new spec manifest encryption = Ok local →
  UploadReceipt_new spec local receipt_input = Ok receipt →
  Offsite_new spec local receipt offsite_input = Ok offsite →
  BackupChain_calculate_digest (MkVerifiedBackupChainV1 1 Snapshot_Base spec manifest local
    (Some receipt) (Some offsite) (EvidenceDigest_sha256 [])) = Ok digest →
  ∃ chain, BackupChain_new_base spec manifest local receipt offsite = Ok chain
    ∧ vc_chain_digest chain = digest
    ∧ BackupChain_require_verified_against chain spec = Ok tt.
Proof.
  intros Hkind _ Hlocal Hup Hoff Hdigest.
  pose proof (chain_of_parts _ _ _ _ _ _ _ _ _ Hkind Hlocal Hup Hoff Hdigest) as Hv.
  set (chain := MkVerifiedBackupChainV1 1 Snapshot_Base spec manifest local
    (Some receipt) (Some offsite) digest) in *.
  exists chain. split; [|split; [done|]].
  - unfold BackupChain_new_base, seal_chain. pass_guard.
    unfold VERIFIED_BACKUP_CHAIN_SCHEMA_VERSION. rewrite Hdigest. simpl.
    change (_ <| vc_chain_digest := digest |>) with chain. by rewrite Hv.
  - unfold BackupChain_require_verified_against. rewrite Hv. simpl. by rewrite bool_decide_eq_true_2.
Qed.

(** ** What a verified chain guarantees *)

(** Each document names the authorization, its backup and the document before it, and
    carries the digest of what it says. *)
Record manifest_bound (spec : AuthorizedBackupSpecV1) (manifest : BackupManifestV1) : Prop := {
  mb_spec : bm_authorized_spec_digest manifest = abs_spec_digest spec;
  mb_set : bm_backup_set_id manifest = abs_backup_set_id spec;
  mb_backup : bm_backup_id manifest = abs_backup_id spec;
  mb_attempt : bm_attempt_id manifest = abs_attempt_id spec;
  mb_project : bm_project_id manifest = abs_project_id spec;
  mb_kind : bm_snapshot_kind manifest = abs_snapshot_kind spec;
  mb_purpose : bm_capture_purpose manifest = abs_capture_purpose spec;
  mb_unit : bm_unit_digest manifest = bu_unit_digest (abs_unit spec);
  mb_consistency : bm_consistency manifest = bu_consistency (abs_unit spec);
  mb_epoch : bm_fencing_epoch manifest = abs_fencing_epoch spec;
  mb_fence : bm_fence_receipt_digest manifest = abs_fence_receipt_digest spec;
  mb_inventory : inventory_differences (bm_expected_paths manifest) (bm_objects manifest) = ([], []);
  mb_times : 0 ≤ bm_started_at_ms manifest ≤ bm_completed_at_ms manifest;
  mb_checks : checks_pass (abs_unit spec) (bm_objects manifest) (bm_checks manifest);
  mb_digest : BackupManifest_calculate_digest manifest = Ok (bm_manifest_digest manifest)
}.

Record local_bound (spec : AuthorizedBackupSpecV1) (manifest : BackupManifestV1)
    (local : LocalBackupEvidenceV1) : Prop := {
  lbb_spec : lb_authorized_spec_digest local = abs_spec_digest spec;
  lbb_set : lb_backup_set_id local = abs_backup_set_id spec;
  lbb_backup : lb_backup_id local = abs_backup_id spec;
  lbb_attempt : lb_attempt_id local = abs_attempt_id spec;
  lbb_project : lb_project_id local = abs_project_id spec;
  lbb_kind : lb_snapshot_kind local = abs_snapshot_kind spec;
  lbb_manifest : lb_manifest_digest local = bm_manifest_digest manifest;
  lbb_completed : lb_completed_at_ms local = bm_completed_at_ms manifest;
  lbb_epoch : lb_fencing_epoch local = abs_fencing_epoch spec;
  lbb_encrypted_spec : be_authorized_spec_digest (lb_encryption local) = abs_spec_digest spec;
  lbb_encrypted_backup : be_backup_id (lb_encryption local) = abs_backup_id spec;
  lbb_encrypted_manifest : be_manifest_digest (lb_encryption local) = bm_manifest_digest manifest;
  lbb_recipient : be_recipient_fingerprint (lb_encryption local) = abs_recipient_fingerprint spec;
  lbb_size : be_ciphertext_size_bytes (lb_encryption local) ≠ 0;
  lbb_times : bm_completed_at_ms manifest ≤ be_encrypted_at_ms (lb_encryption local)
                ≤ abs_capture_deadline_ms spec;
  lbb_digest : LocalBackup_calculate_digest local = Ok (lb_evidence_digest local)
}.

(** Before the deadline, which binds base backups only. *)
Definition in_time (spec : AuthorizedBackupSpecV1) (at_ms : Z) : Prop :=
  abs_snapshot_kind spec = Snapshot_Base → at_ms ≤ abs_capture_deadline_ms spec.

Record receipt_bound (spec : AuthorizedBackupSpecV1) (local : LocalBackupEvidenceV1)
    (receipt : ProviderUploadReceiptV1) : Prop := {
  rb_spec : pur_authorized_spec_digest receipt = abs_spec_digest spec;
  rb_backup : pur_backup_id receipt = abs_backup_id spec;
  rb_local : pur_local_evidence_digest receipt = lb_evidence_digest local;
  rb_provider : pur_provider receipt = abs_provider spec;
  rb_credential : pur_provider_credential_version receipt = abs_provider_credential_version spec;
  rb_size : pur_size_bytes receipt = be_ciphertext_size_bytes (lb_encryption local);
  rb_ciphertext : pur_ciphertext_digest receipt = be_ciphertext_digest (lb_encryption local);
  rb_after : be_encrypted_at_ms (lb_encryption local) ≤ pur_uploaded_at_ms receipt;
  rb_in_time : in_time spec (pur_uploaded_at_ms receipt);
  rb_digest : UploadReceipt_calculate_digest receipt = Ok (pur_receipt_digest receipt)
}.

(** The copy read back is the object uploaded, byte for byte as far as digests tell, and
    the read-back is not the provider's own receipt. *)
Record offsite_copy (spec : AuthorizedBackupSpecV1) (local : LocalBackupEvidenceV1)
    (receipt : ProviderUploadReceiptV1) (offsite : OffsiteVerificationEvidenceV1) : Prop := {
  oc_spec : ov_authorized_spec_digest offsite = abs_spec_digest spec;
  oc_backup : ov_backup_id offsite = abs_backup_id spec;
  oc_local : ov_local_evidence_digest offsite = lb_evidence_digest local;
  oc_receipt : ov_upload_receipt_digest offsite = pur_receipt_digest receipt;
  oc_object : ov_provider offsite = pur_provider receipt
    ∧ ov_object_id offsite = pur_object_id receipt ∧ ov_version_id offsite = pur_version_id receipt;
  oc_size : ov_readback_size_bytes offsite = be_ciphertext_size_bytes (lb_encryption local);
  oc_ciphertext : ov_readback_ciphertext_digest offsite = be_ciphertext_digest (lb_encryption local);
  oc_independent : ov_readback_observation_digest offsite ≠ pur_provider_receipt_digest receipt;
  oc_after : pur_uploaded_at_ms receipt ≤ ov_verified_at_ms offsite;
  oc_in_time : in_time spec (ov_verified_at_ms offsite);
  oc_digest : Offsite_calculate_digest offsite = Ok (ov_evidence_digest offsite)
}.

Lemma after_deadline_in_time spec at_ms : after_deadline spec at_ms = false → in_time spec at_ms.
Proof.
  unfold after_deadline, offsite_deadline_applies. intros Hd Hk. rewrite Hk in Hd. simpl in Hd. lia.
Qed.

Lemma manifest_verified_bound manifest spec u :
  BackupManifest_require_verified_against manifest spec = Ok u → manifest_bound spec manifest.
Proof.
  intros (Hdoc & _ & Hbind & Hdigest & _ & Hchk)%manifest_verified_inv.
  apply manifest_document_inv in Hdoc as [Htimes Hinv]. unfold manifest_binds_spec in Hbind.
  bool_prop. destruct_and!. split; try done; [congruence|by eapply validate_checks_pass].
Qed.

Lemma local_verified_bound local spec manifest u :
  LocalBackup_require_verified_against local spec manifest = Ok u →
  manifest_bound spec manifest ∧ local_bound spec manifest local.
Proof.
  unfold LocalBackup_require_verified_against, validate_encryption. intros Hok. inv_ok.
  repeat case_ok. bool_prop. destruct_and!.
  split; [by eapply manifest_verified_bound|split; try done; congruence].
Qed.

Lemma upload_verified_bound receipt spec local u :
  UploadReceipt_require_verified_against receipt spec local = Ok u → receipt_bound spec local receipt.
Proof.
  unfold UploadReceipt_require_verified_against. intros Hok.
  destruct (after_deadline spec (pur_uploaded_at_ms receipt)) eqn:Hd;
    repeat case_ok; bool_prop; destruct_and!; [done|].
  apply after_deadline_in_time in Hd. split; try done; congruence.
Qed.

Lemma offsite_verified_bound offsite spec local receipt u :
  Offsite_require_verified_against offsite spec local receipt = Ok u →
  receipt_bound spec local receipt ∧ offsite_copy spec local receipt offsite.
Proof.
  unfold Offsite_require_verified_against. intros Hok. inv_ok.
  match goal with Hu : UploadReceipt_require_verified_against _ _ _ = Ok _ |- _ =>
    apply upload_verified_bound in Hu end.
  split; [done|]. destruct (after_deadline spec (ov_verified_at_ms offsite)) eqn:Hd;
    repeat case_ok; bool_prop; destruct_and!; [done|].
  apply after_deadline_in_time in Hd. split; try done; congruence.
Qed.

Lemma spec_valid_fence spec :
  BackupSpec_has_valid_digest spec = Ok true →
  abs_snapshot_kind spec = Snapshot_Cutover → is_Some (abs_fencing_epoch spec).
Proof.
  unfold BackupSpec_has_valid_digest, BackupSpec_validate_document, validate_snapshot_binding.
  intros Hok Hkind. rewrite Hkind in Hok. inv_ok. repeat case_ok. repeat case_match; done.
Qed.

(** C36: A chain that [require_verified] accepts is one backup: its manifest, its local
    evidence, its upload receipt and its off-site evidence all name the digest of the
    authorized spec and its backup, each names the digest of the document before it and
    carries its own; manifest and local evidence are those of the authorized attempt,
    project, kind and fence; each required check passed on the captured database; the
    archive is encrypted to the authorized recipient after the capture and before the
    deadline; a base chain, and only it, has an upload of that ciphertext to the
    authorized provider and a read-back of the uploaded object with the same size and
    digest, both in time; a cutover chain has a fence. *)
Theorem verified_chain_is_one_backup chain :
  BackupChain_require_verified chain = Ok tt →
  let spec := vc_authorized_spec chain in
  let local := vc_local chain in
  BackupSpec_has_valid_digest spec = Ok true
  ∧ vc_snapshot_kind chain = abs_snapshot_kind spec
  ∧ manifest_bound spec (vc_manifest chain)
  ∧ local_bound spec (vc_manifest chain) local
  ∧ match vc_snapshot_kind chain, vc_upload_receipt chain, vc_offsite chain with
    | Snapshot_Base, Some receipt, Some offsite =>
        receipt_bound spec local receipt ∧ offsite_copy spec local receipt offsite
    | Snapshot_Cutover, None, None => is_Some (abs_fencing_epoch spec)
    | _, _, _ => False
    end
  ∧ BackupChain_calculate_digest chain = Ok (vc_chain_digest chain).
Proof.
  unfold BackupChain_require_verified. intros Hok. case_ok. case_ok. cbv zeta.
  match goal with Hs : BackupSpec_has_valid_digest _ = Ok ?b |- _ => assert (b = true) as Hb
    by (by destruct b); rewrite Hb in Hs end.
  match goal with Hl : LocalBackup_require_verified_against _ _ _ = Ok _ |- _ =>
    apply local_verified_bound in Hl as [Hm Hl] end.
  bool_prop. destruct_and!. inv_ok. case_ok. bool_prop. split_and!; try done; [|congruence].
  destruct (vc_snapshot_kind chain) eqn:Hk, (vc_upload_receipt chain), (vc_offsite chain);
    inv_ok; try done.
  - by eapply offsite_verified_bound.
  - apply spec_valid_fence; [done|congruence].
Qed.

(** ** What a verified manifest does not guarantee *)

(** The manifest without one path, as expected and as captured. *)
Definition omit (path : RelativePolicyPath) (manifest : BackupManifestV1) : BackupManifestV1 :=
  manifest <| bm_expected_paths := filter (λ p, p ≠ path) (bm_expected_paths manifest) |>
           <| bm_objects := filter (λ object, bo_path object ≠ path) (bm_objects manifest) |>.

Lemma sort_unique_paths_filter (P : RelativePolicyPath → Prop) `{∀ x, Decision (P x)} l :
  sort_unique_paths l = Ok l → sort_unique_paths (filter P l) = Ok (filter P l).
Proof.
  unfold sort_unique_paths. intros Hok. case_ok.
  destruct (sort_unique_filter RelativePolicyPath_as_str id P l) as [Hs Hd];
    [by intros [] []; simpl; split; congruence|done|congruence|].
  unfold key_compare in Hs. by rewrite Hs, Hd.
Qed.

Lemma sort_unique_objects_filter (P : BackupObjectV1 → Prop) `{∀ x, Decision (P x)} l :
  sort_unique_objects l = Ok l → sort_unique_objects (filter P l) = Ok (filter P l).
Proof.
  unfold sort_unique_objects. intros Hok. case_ok.
  destruct (sort_unique_filter bo_path_str bo_path P l) as [Hs Hd]; [apply bo_path_key|done|congruence|].
  unfold key_compare in Hs. by rewrite Hs, Hd.
Qed.

Lemma inventory_omit path expected objects :
  inventory_differences expected objects = ([], []) →
  inventory_differences (filter (λ p, p ≠ path) expected)
    (filter (λ object, bo_path object ≠ path) objects) = ([], []).
Proof.
  rewrite !inventory_differences_nil. intros Hsame p.
  assert (∀ x y : RelativePolicyPath, RelativePolicyPath_as_str x = RelativePolicyPath_as_str y → x = y)
    as Hinj by (by intros [] []; simpl; intros ->).
  specialize (Hsame p). rewrite !list_elem_of_fmap in *. unfold bo_path_str in *. split.
  - intros (q&->&[Hq Hin]%list_elem_of_filter).
    destruct (proj1 Hsame) as (object&Heq%Hinj&Hobj); [by exists q|]. subst q.
    exists object. split; [done|]. by apply list_elem_of_filter.
  - intros (object&->&[Hq Hin]%list_elem_of_filter).
    destruct (proj2 Hsame) as (q&Heq%Hinj&Hp); [by exists object|]. subst q.
    exists (bo_path object). split; [done|]. by apply list_elem_of_filter.
Qed.

Lemma omit_document path manifest :
  bm_missing_paths manifest = [] → bm_unexpected_paths manifest = [] →
  BackupManifest_validate_document manifest = Ok tt →
  BackupManifest_validate_document (omit path manifest) = Ok tt.
Proof.
  intros Hmissing Hunexpected Hdoc. pose proof (proj2 (manifest_document_inv _ _ Hdoc)) as Hinv.
  rewrite Hmissing, Hunexpected in Hinv. apply (inventory_omit path) in Hinv.
  unfold BackupManifest_validate_document, omit in *. simpl.
  destruct (_ || _) eqn:Hmeta; [done|].
  destruct (validate_snapshot_binding _ _ _ _); [|done]. simpl in *.
  destruct (sort_unique_paths (bm_expected_paths manifest)) as [paths|] eqn:Hpaths; [|done].
  destruct (sort_unique_objects (bm_objects manifest)) as [objects|] eqn:Hobjects; [|done].
  destruct (sort_unique_check_evidence _); [|done]. simpl in *.
  case_ok. bool_prop. destruct_and!. subst.
  rewrite sort_unique_paths_filter, sort_unique_objects_filter by done. simpl.
  rewrite !bool_decide_eq_true_2 by done. simpl.
  rewrite Hinv, Hmissing, Hunexpected. by rewrite !bool_decide_eq_true_2 by done.
Qed.

Lemma find_first_filter {B} (f : B → bool) (P : B → Prop) `{∀ x, Decision (P x)} l :
  (∀ x, f x = true → P x) → find_first f (filter P l) = find_first f l.
Proof.
  intros Hf. induction l as [|x l IH]; [done|]. rewrite filter_cons. simpl.
  destruct (f x) eqn:Hx; case_decide as Hp; simpl; rewrite ?Hx; try done. by destruct Hp; apply Hf.
Qed.

(** C40: Re-verification does not compare the manifest's list of expected paths with the
    authorized unit: leave any path but that of the primary database out of both lists
    of a verified manifest, and the manifest with its digest recomputed verifies against
    the same authorization, although nothing was captured for the path; and the base
    chain of every evidence, upload and read-back that the constructors build on it is
    verified too. *)
Theorem verified_manifest_may_omit_expected_object spec manifest path digest :
  BackupManifest_require_verified_against manifest spec = Ok tt →
  path ≠ bu_primary_sqlite_path (abs_unit spec) →
  BackupManifest_calculate_digest (omit path manifest) = Ok digest →
  let sealed := omit path manifest <| bm_manifest_digest := digest |> in
  BackupManifest_require_verified_against sealed spec = Ok tt
  ∧ (∀ object, object ∈ bm_objects sealed → bo_path object ≠ path)
  ∧ ∀ encryption local receipt_input receipt offsite_input offsite chain_digest,
      abs_snapshot_kind spec = Snapshot_Base →
      LocalBackup_new spec sealed encryption = Ok local →
      UploadReceipt_new spec local receipt_input = Ok receipt →
      Offsite_new spec local receipt offsite_input = Ok offsite →
      BackupChain_calculate_digest (MkVerifiedBackupChainV1 1 Snapshot_Base spec sealed local
        (Some receipt) (Some offsite) (EvidenceDigest_sha256 [])) = Ok chain_digest →
      BackupChain_require_verified (MkVerifiedBackupChainV1 1 Snapshot_Base spec sealed local
        (Some receipt) (Some offsite) chain_digest) = Ok tt.
Proof.
  intros Hv Hpath Hdigest sealed. split_and!; [|by intros object [? _]%list_elem_of_filter|
    by intros; eapply chain_of_parts].
  apply manifest_verified_inv in Hv as (Hdoc & Hspec & Hbind & _ & Hobj & Hchk).
  pose proof Hbind as Hempty. unfold manifest_binds_spec in Hempty. bool_prop. destruct_and!.
  unfold BackupManifest_require_verified_against.
  assert (BackupManifest_validate_document sealed = Ok tt) as -> by (by apply (omit_document path manifest)).
  rewrite Hspec. simpl.
  assert (manifest_binds_spec sealed spec = true) as -> by done.
  replace (BackupManifest_calculate_digest sealed) with (BackupManifest_calculate_digest (omit path manifest)) by done.
  rewrite Hdigest. simpl. rewrite bool_decide_eq_true_2 by done. simpl.
  assert (validate_objects_against_unit (abs_unit spec)
    (filter (λ object, bo_path object ≠ path) (bm_objects manifest)) = Ok tt) as ->.
  { unfold validate_objects_against_unit in *. apply try_for_each_Ok. intros object [_ Hin]%list_elem_of_filter.
    by apply (proj1 (try_for_each_Ok _ _ _) Hobj). }
  simpl. unfold validate_checks_against_unit in *. rewrite find_first_filter; [done|].
  intros object Hp. bool_prop. congruence.
Qed.

(** ** Freshness *)

Lemma backup_elapsed_ms_Ok later earlier elapsed :
  elapsed_ms later earlier = Ok elapsed →
  0 ≤ earlier ≤ later ∧ elapsed = later - earlier.
Proof.
  unfold elapsed_ms, i64_checked_sub. intros Hok. repeat case_ok. bool_prop.
  match goal with Hc : checked_range _ _ _ = Some _ |- _ => apply checked_range_Some in Hc end.
  lia.
Qed.

Lemma clock_boundary_inv clock now u :
  validate_clock_at_boundary clock now = Ok u →
  tc_synchronized clock = true ∧ Z.abs (tc_estimated_offset_ms clock) ≤ MAX_TRUSTED_CLOCK_OFFSET_MS
  ∧ 0 ≤ tc_observed_at_ms clock ≤ now
  ∧ now - tc_observed_at_ms clock ≤ MAX_TRUSTED_CLOCK_EVIDENCE_AGE_MS.
Proof.
  unfold validate_clock_at_boundary, TrustedClock_require_synchronized. intros Hok. inv_ok.
  match goal with He : elapsed_ms _ _ = Ok _ |- _ => apply backup_elapsed_ms_Ok in He end.
  repeat case_ok. bool_prop. destruct_and!. repeat split; try done; lia.
Qed.

Lemma freshness_policy_inv max_age require_offsite chain u :
  validate_freshness_policy max_age require_offsite chain = Ok u →
  0 < max_age ≤ MAX_ALLOWED_BACKUP_AGE_MS ∧ (require_offsite = true → is_Some (vc_offsite chain)).
Proof.
  unfold validate_freshness_policy. intros Hok. case_ok. bool_prop. destruct_and!.
  split; [lia|]. intros ->. by destruct (vc_offsite chain).
Qed.

(** A backup counts as current only while it is verified, at most as old as the
    policy allows (and never older than a day), its off-site copy exists where the
    policy asks for it, and the clock that says so was synchronized and read within
    the last thirty seconds, after the evaluation the evidence records. *)
Theorem current_backup_is_fresh evidence chain clock now max_age require_offsite :
  BackupFreshness_require_current evidence chain clock now max_age require_offsite = Ok tt →
  BackupChain_require_verified chain = Ok tt
  ∧ 0 ≤ now - lb_completed_at_ms (vc_local chain) ≤ max_age
  ∧ max_age ≤ MAX_ALLOWED_BACKUP_AGE_MS
  ∧ (require_offsite = true → is_Some (vc_offsite chain))
  ∧ tc_synchronized clock = true
  ∧ 0 ≤ now - tc_observed_at_ms clock ≤ MAX_TRUSTED_CLOCK_EVIDENCE_AGE_MS
  ∧ bf_evaluated_at_ms evidence < tc_observed_at_ms clock
  ∧ bf_verified_chain_digest evidence = vc_chain_digest chain.
Proof.
  unfold BackupFreshness_require_current, BackupFreshness_require_verified_against_chain.
  intros Hok. inv_ok.
  repeat match goal with
  | Hp : validate_freshness_policy _ _ _ = Ok _ |- _ => apply freshness_policy_inv in Hp
  | Hp : validate_clock_at_boundary _ _ = Ok _ |- _ => apply clock_boundary_inv in Hp
  | Hp : BackupChain_require_verified _ = Ok ?u |- _ => is_var u; destruct u
  end.
  repeat case_ok. bool_prop. destruct_and!.
  match goal with He : elapsed_ms now _ = Ok _ |- _ => apply backup_elapsed_ms_Ok in He end.
  repeat split; try done; lia.
Qed.

(** ** Artifacts *)

Lemma verified_chain_binds_fence chain :
  BackupChain_require_verified chain = Ok tt →
  vc_snapshot_kind chain = Snapshot_Cutover → is_Some (abs_fencing_epoch (vc_authorized_spec chain)).
Proof.
  unfold BackupChain_require_verified. intros Hok Hkind. case_ok. case_ok. bool_prop. destruct_and!.
  apply spec_valid_fence; [|congruence]. by match goal with b : bool |- _ => destruct b end.
Qed.

(** The artifacts a backup projects meet the contract of its phase. *)
Theorem backup_artifacts_meet_contract spec manifest local receipt offsite :
  (∀ artifacts, base_phase_artifacts spec manifest local receipt offsite = Ok artifacts →
     validate_for_phase artifacts Phase_BackingUp = Ok tt)
  ∧ (∀ artifacts, cutover_phase_artifacts spec manifest local = Ok artifacts →
     validate_for_phase artifacts Phase_CutoverSnapshotting = Ok tt).
Proof.
  split; intros artifacts.
  - unfold base_phase_artifacts, BackupChain_new_base, seal_chain. intros Hok. inv_ok. case_ok. done.
  - unfold cutover_phase_artifacts, BackupChain_new_cutover, seal_chain. intros Hok. inv_ok. case_ok.
    match goal with Hv : BackupChain_require_verified ?c = Ok ?u |- _ =>
      destruct u; apply verified_chain_binds_fence in Hv as [epoch Hepoch]; [|done] end.
    simpl in Hepoch. by rewrite Hepoch.
Qed.

End BackupFacts.

(** ** Canonical documents *)

Section Canonical.
Context `{!Sha256, !Jcs BackupUnitDigestPayload, !Jcs AuthorizedBackupSpecDigestPayload,
  !Jcs BackupManifestDigestPayload, !Jcs LocalBackupEvidenceDigestPayload,
  !Jcs ProviderUploadReceiptDigestPayload, !Jcs OffsiteVerificationDigestPayload,
  !Jcs VerifiedBackupChainDigestPayload}.

(** Decode, then check: accepts exactly the bytes of the checked document. *)
Lemma checked_decoder_Ok {A} `{!Jcs A, !JsonSlice A, !JcsRoundTrip A}
    (check : A → Result BackupContractError unit) (document : A) (bytes : list Z) :
  (let? parsed := decode_canonical bytes in let? _ := check parsed in Ok parsed) = Ok document
  ↔ (let? _ := check document in canonical_bytes document) = Ok bytes.
Proof.
  unfold canonical_bytes, decode_canonical.
  rewrite <- (strict_decoder_Ok check Backup_CanonicalEncoding Backup_NonCanonicalDocument).
  destruct (map_err _ (json_from_slice bytes)) as [parsed|]; simpl; [|done].
  destruct (map_err _ (jcs_to_vec parsed)) as [encoded|]; simpl; [|done].
  by case_match.
Qed.

Definition BackupSpec_check (spec : AuthorizedBackupSpecV1) : Result BackupContractError () :=
  let? valid := BackupSpec_has_valid_digest spec in
  if negb valid then Err Backup_DigestMismatch else Ok tt.

#[global] Instance backup_spec_document
    `{!Jcs AuthorizedBackupSpecV1, !JsonSlice AuthorizedBackupSpecV1} :
  CanonicalDocument AuthorizedBackupSpecV1 BackupContractError :=
  {| document_bytes := BackupSpec_canonical_bytes; decode_document := BackupSpec_decode_canonical |}.

#[global] Instance backup_spec_document_law
    `{!Jcs AuthorizedBackupSpecV1, !JsonSlice AuthorizedBackupSpecV1,
      !JcsRoundTrip AuthorizedBackupSpecV1} :
  CanonicalDocumentLaw AuthorizedBackupSpecV1 BackupContractError.
Proof.
  intros spec bytes. simpl. unfold BackupSpec_decode_canonical, BackupSpec_canonical_bytes.
  pose proof (checked_decoder_Ok BackupSpec_check spec bytes) as Hlaw. unfold BackupSpec_check in Hlaw.
  destruct (decode_canonical bytes) as [d|]; simpl in *;
    [destruct (BackupSpec_has_valid_digest d) as [[]|]; simpl in *|];
    destruct (BackupSpec_has_valid_digest spec) as [[]|]; simpl in *; done.
Qed.

#[global] Instance backup_manifest_document
    `{!Jcs BackupManifestV1, !JsonSlice BackupManifestV1} :
  CanonicalDocument BackupManifestV1 BackupContractError :=
  {| document_bytes := BackupManifest_canonical_bytes;
     decode_document := BackupManifest_decode_canonical |}.

#[global] Instance backup_manifest_document_law
    `{!Jcs BackupManifestV1, !JsonSlice BackupManifestV1, !JcsRoundTrip BackupManifestV1} :
  CanonicalDocumentLaw BackupManifestV1 BackupContractError.
Proof. intros manifest bytes. apply (checked_decoder_Ok BackupManifest_check). Qed.

#[global] Instance backup_chain_document
    `{!Jcs VerifiedBackupChainV1, !JsonSlice VerifiedBackupChainV1} :
  CanonicalDocument VerifiedBackupChainV1 BackupContractError :=
  {| document_bytes := BackupChain_canonical_bytes; decode_document := BackupChain_decode_canonical |}.

#[global] Instance backup_chain_document_law
    `{!Jcs VerifiedBackupChainV1, !JsonSlice VerifiedBackupChainV1,
      !JcsRoundTrip VerifiedBackupChainV1} :
  CanonicalDocumentLaw VerifiedBackupChainV1 BackupContractError.
Proof. intros chain bytes. apply (checked_decoder_Ok BackupChain_require_verified). Qed.
End Canonical.

(** ** Witnesses *)

Module BackupSample.

#[local] Instance sha : Sha256 := λ v, take 32 (v ++ replicate 32 0).
#[local] Instance jcs_unit : Jcs BackupUnitDigestPayload := λ _, Ok [1].
#[local] Instance jcs_spec : Jcs AuthorizedBackupSpecDigestPayload := λ _, Ok [2].
Definition digest_bytes (d : EvidenceDigest) : list Z := take 10 (as_bytes (EvidenceDigest_as_str d)).
#[local] Instance jcs_manifest : Jcs BackupManifestDigestPayload := λ p,
  Ok (3 :: Z.of_nat (length (bmp_objects p)) :: Z.of_nat (length (bmp_expected_paths p))
        :: (bo_size_bytes <$> bmp_objects p)).
#[local] Instance jcs_local : Jcs LocalBackupEvidenceDigestPayload := λ p,
  Ok (4 :: lbp_completed_at_ms p :: digest_bytes (lbp_manifest_digest p)).
#[local] Instance jcs_receipt : Jcs ProviderUploadReceiptDigestPayload := λ p,
  Ok (5 :: purp_uploaded_at_ms p :: digest_bytes (purp_local_evidence_digest p)).
#[local] Instance jcs_offsite : Jcs OffsiteVerificationDigestPayload := λ p,
  Ok (6 :: ovp_verified_at_ms p :: digest_bytes (ovp_upload_receipt_digest p)).
#[local] Instance jcs_chain : Jcs VerifiedBackupChainDigestPayload := λ _, Ok [7].
#[local] Instance jcs_clock : Jcs TrustedClockDigestPayload := λ p, Ok [8; tcp_observed_at_ms p].
#[local] Instance jcs_fresh : Jcs BackupFreshnessDigestPayload := λ _, Ok [9].

Definition digest (n : Z) : EvidenceDigest := EvidenceDigest_sha256 [n].

Definition get {E A} (default : A) (r : Result E A) : A :=
  match r with Ok a => a | Err _ => default end.

Definition database : ExpectedBackupObjectV1 :=
  MkExpectedBackupObjectV1 (MkRelativePolicyPath "data/app.db") Object_SqliteDatabase 1000 1000 384.
Definition master : ExpectedBackupObjectV1 :=
  MkExpectedBackupObjectV1 (MkRelativePolicyPath "data/master") Object_Master 1000 1000 384.

Definition check (name : string) (kind : BackupCheckKindV1) : BackupCheckSpecV1 :=
  MkBackupCheckSpecV1 name kind (digest 20).

Definition unit_spec_input : BackupUnitSpecInputV1 :=
  MkBackupUnitSpecInputV1 "app" Consistency_SqliteOnlineBackupV1 [master; database]
    (MkRelativePolicyPath "data/app.db")
    [check "integrity" Check_SqliteIntegrity; check "keys" Check_ForeignKeys;
     check "files" Check_DatabaseToFiles; check "domain" Check_DomainInvariant;
     check "smoke" Check_StagedReadSmoke].

Definition unit : BackupUnitSpecV1 :=
  get (MkBackupUnitSpecV1 0 "" Consistency_SqliteOnlineBackupV1 [] (MkRelativePolicyPath "") []
         (digest 0)) (BackupUnit_new unit_spec_input).

Definition spec_of (kind : BackupSnapshotKindV1) (purpose : BackupCapturePurposeV1)
    (epoch : option Z) (fence : option EvidenceDigest) : AuthorizedBackupSpecV1 :=
  MkAuthorizedBackupSpecV1 1 10 (MkProjectId "demo") (MkInstalledPolicyIdentity (digest 30) 1)
    (digest 31) (digest 32) 11 12 kind purpose unit (digest 33) Provider_GoogleDrive 1 10000
    epoch fence (digest 2).

Definition spec : AuthorizedBackupSpecV1 :=
  spec_of Snapshot_Base Purpose_DeploymentBase None None.

Definition observed (expected : ExpectedBackupObjectV1) (content : Z) : BackupObjectV1 :=
  MkBackupObjectV1 (eo_path expected) (eo_kind expected) 100 (digest content) (eo_uid expected)
    (eo_gid expected) (eo_mode expected) 1.

Definition passed (contract : BackupCheckSpecV1) : BackupCheckEvidenceV1 :=
  MkBackupCheckEvidenceV1 (cs_name contract) (cs_kind contract) (cs_definition_digest contract)
    (digest 40) Outcome_Passed (digest 41).

Definition capture (objects : list BackupObjectV1) : BackupManifestInputV1 :=
  MkBackupManifestInputV1 "v7" 1000 2000 objects (passed <$> bu_required_checks unit).

Definition manifest_input : BackupManifestInputV1 := capture [observed master 42; observed database 40].

Definition empty_manifest : BackupManifestV1 :=
  MkBackupManifestV1 0 (digest 0) 0 0 0 (MkProjectId "") Snapshot_Base Purpose_Scheduled (digest 0)
    Consistency_SqliteOnlineBackupV1 "" None None 0 0 [] [] [] [] [] (digest 0).

Definition manifest : BackupManifestV1 :=
  get empty_manifest (BackupManifest_new spec manifest_input).

Definition encryption_of (m : BackupManifestV1) : BackupEncryptionEvidenceV1 :=
  MkBackupEncryptionEvidenceV1 Algorithm_AgeX25519 (digest 2) 12 (bm_manifest_digest m) (digest 50)
    (digest 33) (digest 51) 4096 2500.
Definition encryption : BackupEncryptionEvidenceV1 := encryption_of manifest.

Definition local_of (m : BackupManifestV1) : LocalBackupEvidenceV1 :=
  get (MkLocalBackupEvidenceV1 0 (digest 0) 0 0 0 (MkProjectId "") Snapshot_Base (digest 0) 0 None
         encryption (digest 0)) (LocalBackup_new spec m (encryption_of m)).
Definition local : LocalBackupEvidenceV1 := local_of manifest.

Definition receipt_input : ProviderUploadReceiptInputV1 :=
  MkProviderUploadReceiptInputV1 Provider_GoogleDrive 1 "object-1" "v1" 3000 (digest 60).

Definition receipt_of (l : LocalBackupEvidenceV1) : ProviderUploadReceiptV1 :=
  get (MkProviderUploadReceiptV1 0 (digest 0) 0 (digest 0) Provider_GoogleDrive 0 "" "" 0 (digest 0)
         0 (digest 0) (digest 0)) (UploadReceipt_new spec l receipt_input).
Definition receipt : ProviderUploadReceiptV1 := receipt_of local.

Definition offsite_input : OffsiteVerificationInputV1 :=
  MkOffsiteVerificationInputV1 4096 (digest 51) (digest 61) 3500.

Definition offsite_of (l : LocalBackupEvidenceV1) : OffsiteVerificationEvidenceV1 :=
  get (MkOffsiteVerificationEvidenceV1 0 (digest 0) 0 (digest 0) (digest 0) Provider_GoogleDrive ""
         "" 0 (digest 0) (digest 0) 0 (digest 0)) (Offsite_new spec l (receipt_of l) offsite_input).
Definition offsite : OffsiteVerificationEvidenceV1 := offsite_of local.

Definition chain : VerifiedBackupChainV1 :=
  MkVerifiedBackupChainV1 1 Snapshot_Base spec manifest local (Some receipt) (Some offsite) (digest 7).

Definition clock_at (now : Z) : TrustedClockEvidenceV1 :=
  get (MkTrustedClockEvidenceV1 0 false 0 0 (digest 0) (digest 0))
    (TrustedClock_new true 12 now (digest 70)).

Definition freshness : BackupFreshnessEvidenceV1 :=
  get (MkBackupFreshnessEvidenceV1 0 0 (digest 0) (digest 0) None (digest 0) 0 0 0 0 0 (digest 0))
    (BackupFreshness_new chain (clock_at 5000) 5000 3600000 true).

Lemma manifest_new_captures_unit_witness :
  captures (abs_unit spec) (bm_objects manifest).
Proof. apply (manifest_new_captures_unit spec manifest_input manifest). vm_compute. reflexivity. Defined.

Lemma backup_pipeline_yields_chain_witness :
  ∃ c, BackupChain_new_base spec manifest local receipt offsite = Ok c
    ∧ vc_chain_digest c = digest 7 ∧ BackupChain_require_verified_against c spec = Ok tt.
Proof.
  apply (backup_pipeline_yields_chain spec manifest_input manifest encryption local receipt_input
    receipt offsite_input offsite (digest 7)); vm_compute; reflexivity.
Defined.

Lemma verified_chain_is_one_backup_witness :
  manifest_bound spec manifest ∧ local_bound spec manifest local
  ∧ receipt_bound spec local receipt ∧ offsite_copy spec local receipt offsite.
Proof.
  assert (BackupChain_require_verified chain = Ok tt) as Hv by (vm_compute; reflexivity).
  destruct (verified_chain_is_one_backup chain Hv) as (_&_&Hm&Hl&[Hr Ho]&_).
  split; [exact Hm|]. split; [exact Hl|]. split; [exact Hr|exact Ho].
Defined.

(** The manifest that lists only the database, with the digest of what it says. *)
Definition partial_digest : EvidenceDigest :=
  get (digest 0) (BackupManifest_calculate_digest (omit (eo_path master) manifest)).
Definition partial : BackupManifestV1 :=
  omit (eo_path master) manifest <| bm_manifest_digest := partial_digest |>.
Definition partial_chain : VerifiedBackupChainV1 :=
  MkVerifiedBackupChainV1 1 Snapshot_Base spec partial (local_of partial)
    (Some (receipt_of (local_of partial))) (Some (offsite_of (local_of partial))) (digest 7).

Lemma verified_manifest_may_omit_expected_object_witness :
  master ∈ bu_expected_objects (abs_unit spec)
  ∧ bm_manifest_digest partial ≠ bm_manifest_digest manifest
  ∧ BackupManifest_require_verified_against partial spec = Ok tt
  ∧ (∀ object, object ∈ bm_objects partial → bo_path object ≠ eo_path master)
  ∧ BackupChain_require_verified partial_chain = Ok tt.
Proof.
  destruct (verified_manifest_may_omit_expected_object spec manifest (eo_path master) partial_digest)
    as (Hv&Hnone&Hchain); [vm_compute; reflexivity|discriminate|vm_compute; reflexivity|].
  split; [apply (bool_decide_unpack _); vm_compute; exact I|].
  split; [apply (bool_decide_unpack _); vm_compute; exact I|].
  split; [exact Hv|]. split; [exact Hnone|].
  apply (Hchain (encryption_of partial) (local_of partial) receipt_input (receipt_of (local_of partial))
    offsite_input (offsite_of (local_of partial)) (digest 7)); vm_compute; reflexivity.
Defined.

Lemma current_backup_is_fresh_witness :
  0 ≤ 9000 - lb_completed_at_ms (vc_local chain) ≤ 3600000.
Proof.
  apply (current_backup_is_fresh freshness chain (clock_at 9000) 9000 3600000 true).
  vm_compute. reflexivity.
Defined.

End BackupSample.
