(* ===== verification/PhaseAuthority.v ===== *)
(** * Authorized phase specs

    Model of the spec documents of [src/src/phase6.rs]: what a privileged phase is
    authorized to do, as a canonical document that binds the operation, the evidence
    the phase rests on, the fixed adapter steps it runs and the artifacts it must
    observe; with the runtime-state evidence and the mutation grant a spec refers to.
    A spec is valid only when its steps are the ones its own bindings determine. *)

From Stdlib Require Import ZArith Lia Ascii String.
From stdpp Require Import base gmap strings option list_numbers list.
From S2P Require Import Prelude Identifiers States Text Failure Operation Ordered Backup.

Local Open Scope Z_scope.

Definition AUTHORIZED_PHASE_SPEC_SCHEMA_VERSION : Z := 3.
Definition FIXED_ADAPTER_REQUEST_SCHEMA_VERSION : Z := 1.
Definition MAX_TIMEOUT_MS : Z := 30 * 60 * 1000.
Definition MAX_RUNTIME_STATE_TTL_MS : Z := 60000.
Definition MAX_MUTATION_GRANT_TTL_MS : Z := 5 * 60 * 1000.
Definition MAX_FIXED_ADAPTER_REQUEST_BYTES : Z := 256 * 1024.
Definition FIXED_ADAPTER_REQUEST_PURPOSE : string := "rdashboard.fixed-adapter-request.v1".

(** ** Data *)

Inductive RuntimeReleaseStateV1 : Type :=
| Runtime_NeverInstalled
| Runtime_Installed (current_release_bundle_digest : EvidenceDigest).

#[global] Instance RuntimeReleaseStateV1_eq_dec : EqDecision RuntimeReleaseStateV1.
Proof. solve_decision. Defined.

Inductive FixedAdapterProfileV1 : Type :=
| Profile_BackupCapture
| Profile_BackupEncryptAge
| Profile_BackupUploadGoogleDrive
| Profile_BackupReadbackVerify
| Profile_RimgDrain
| Profile_RimgSchemaInspect
| Profile_RimgMigrate
| Profile_RimgReadiness
| Profile_RimgConsumerSmoke
| Profile_RimgSoakObserve
| Profile_KamalBootstrapDeploy
| Profile_KamalCandidateDeploy
| Profile_KamalCodeRollback.

#[global] Instance FixedAdapterProfileV1_eq_dec : EqDecision FixedAdapterProfileV1.
Proof. solve_decision. Defined.

Inductive AdapterResultSchemaV1 : Type :=
| Schema_BackupManifest
| Schema_LocalBackupEvidence
| Schema_ProviderUploadReceipt
| Schema_OffsiteVerificationEvidence
| Schema_DrainEvidence
| Schema_SchemaInspectionEvidence
| Schema_MigrationEvidence
| Schema_DeploymentEvidence
| Schema_ReadinessEvidence
| Schema_ConsumerSmokeEvidence
| Schema_SoakEvidence
| Schema_RollbackEvidence.

#[global] Instance AdapterResultSchemaV1_eq_dec : EqDecision AdapterResultSchemaV1.
Proof. solve_decision. Defined.

Record RimgTimeoutPolicyV1 : Type := MkRimgTimeoutPolicyV1 {
  to_backup_ms : Z;
  to_drain_ms : Z;
  to_migration_ms : Z;
  to_deploy_ms : Z;
  to_readiness_ms : Z;
  to_smoke_ms : Z;
  to_soak_ms : Z
}.

#[global] Instance RimgTimeoutPolicyV1_eq_dec : EqDecision RimgTimeoutPolicyV1.
Proof. solve_decision. Defined.
#[global] Instance RimgTimeoutPolicyV1_eta : Eta RimgTimeoutPolicyV1 := λ r,
  MkRimgTimeoutPolicyV1 (to_backup_ms r) (to_drain_ms r) (to_migration_ms r) (to_deploy_ms r)
  (to_readiness_ms r) (to_smoke_ms r) (to_soak_ms r).

Record AuthorizedPhaseStepV1 : Type := MkAuthorizedPhaseStepV1 {
  st_sequence : Z;
  st_profile : FixedAdapterProfileV1;
  st_timeout_ms : Z;
  st_request_document_digest : EvidenceDigest;
  st_result_schema : AdapterResultSchemaV1
}.

#[global] Instance AuthorizedPhaseStepV1_eq_dec : EqDecision AuthorizedPhaseStepV1.
Proof. solve_decision. Defined.
#[global] Instance AuthorizedPhaseStepV1_eta : Eta AuthorizedPhaseStepV1 := λ r,
  MkAuthorizedPhaseStepV1 (st_sequence r) (st_profile r) (st_timeout_ms r)
  (st_request_document_digest r) (st_result_schema r).

Record FixedAdapterRequestV1 : Type := MkFixedAdapterRequestV1 {
  rq_purpose : string;
  rq_schema_version : Z;
  rq_attempt_id : Uuid;
  rq_request_id : Uuid;
  rq_project_id : ProjectId;
  rq_operation_kind : OperationKind;
  rq_phase : OperationPhase;
  rq_branch : ExecutorPhaseBranch;
  rq_sequence : Z;
  rq_profile : FixedAdapterProfileV1;
  rq_result_schema : AdapterResultSchemaV1;
  rq_timeout_ms : Z;
  rq_intent_digest : EvidenceDigest;
  rq_executor_authorization_digest : EvidenceDigest;
  rq_installed_policy : InstalledPolicyIdentity;
  rq_installed_rimg_policy_digest : EvidenceDigest;
  rq_release_bundle_digest : option EvidenceDigest;
  rq_deployment_plan_digest : option EvidenceDigest;
  rq_proposed_release_class : option ReleaseClass;
  rq_effective_release_class : option ReleaseClass;
  rq_classification_evidence_digest : option EvidenceDigest;
  rq_migration_id : option string;
  rq_backup : option AuthorizedBackupSpecV1;
  rq_verified_base_backup_chain_digest : option EvidenceDigest;
  rq_verified_cutover_backup_chain_digest : option EvidenceDigest;
  rq_trusted_clock_evidence_digest : option EvidenceDigest;
  rq_boundary_now_ms : option Z;
  rq_prerequisites_valid_through_ms : option Z;
  rq_fencing_epoch : option Z;
  rq_fence_receipt_digest : option EvidenceDigest;
  rq_mutation_grant_id : option Uuid;
  rq_mutation_grant_digest : option EvidenceDigest;
  rq_runtime_release_state : option RuntimeReleaseStateV1;
  rq_runtime_release_state_evidence_digest : option EvidenceDigest;
  rq_expected_observation_artifacts : PhaseArtifacts
}.

#[global] Instance FixedAdapterRequestV1_eq_dec : EqDecision FixedAdapterRequestV1.
Proof. solve_decision. Defined.
#[global] Instance FixedAdapterRequestV1_eta : Eta FixedAdapterRequestV1 := λ r,
  MkFixedAdapterRequestV1 (rq_purpose r) (rq_schema_version r) (rq_attempt_id r)
  (rq_request_id r) (rq_project_id r) (rq_operation_kind r) (rq_phase r) (rq_branch r)
  (rq_sequence r) (rq_profile r) (rq_result_schema r) (rq_timeout_ms r) (rq_intent_digest r)
  (rq_executor_authorization_digest r) (rq_installed_policy r)
  (rq_installed_rimg_policy_digest r) (rq_release_bundle_digest r) (rq_deployment_plan_digest r)
  (rq_proposed_release_class r) (rq_effective_release_class r)
  (rq_classification_evidence_digest r) (rq_migration_id r) (rq_backup r)
  (rq_verified_base_backup_chain_digest r) (rq_verified_cutover_backup_chain_digest r)
  (rq_trusted_clock_evidence_digest r) (rq_boundary_now_ms r)
  (rq_prerequisites_valid_through_ms r) (rq_fencing_epoch r) (rq_fence_receipt_digest r)
  (rq_mutation_grant_id r) (rq_mutation_grant_digest r) (rq_runtime_release_state r)
  (rq_runtime_release_state_evidence_digest r) (rq_expected_observation_artifacts r).

Record AuthorizedPhaseSpecV1 : Type := MkAuthorizedPhaseSpecV1 {
  ps_schema_version : Z;
  ps_attempt_id : Uuid;
  ps_request_id : Uuid;
  ps_project_id : ProjectId;
  ps_operation_kind : OperationKind;
  ps_phase : OperationPhase;
  ps_branch : ExecutorPhaseBranch;
  ps_intent_digest : EvidenceDigest;
  ps_executor_authorization_digest : EvidenceDigest;
  ps_installed_policy : InstalledPolicyIdentity;
  ps_installed_rimg_policy_digest : EvidenceDigest;
  ps_release_bundle_digest : option EvidenceDigest;
  ps_deployment_plan_digest : option EvidenceDigest;
  ps_timeouts : RimgTimeoutPolicyV1;
  ps_proposed_release_class : option ReleaseClass;
  ps_effective_release_class : option ReleaseClass;
  ps_classification_evidence_digest : option EvidenceDigest;
  ps_migration_id : option string;
  ps_backup : option AuthorizedBackupSpecV1;
  ps_verified_base_backup_chain_digest : option EvidenceDigest;
  ps_verified_cutover_backup_chain_digest : option EvidenceDigest;
  ps_trusted_clock_evidence_digest : option EvidenceDigest;
  ps_boundary_now_ms : option Z;
  ps_prerequisites_valid_through_ms : option Z;
  ps_fencing_epoch : option Z;
  ps_fence_receipt_digest : option EvidenceDigest;
  ps_mutation_grant_id : option Uuid;
  ps_mutation_grant_digest : option EvidenceDigest;
  ps_runtime_release_state : option RuntimeReleaseStateV1;
  ps_runtime_release_state_evidence_digest : option EvidenceDigest;
  ps_expected_observation_artifacts : PhaseArtifacts;
  ps_steps : list AuthorizedPhaseStepV1;
  ps_spec_digest : EvidenceDigest
}.

#[global] Instance AuthorizedPhaseSpecV1_eq_dec : EqDecision AuthorizedPhaseSpecV1.
Proof. solve_decision. Defined.
#[global] Instance AuthorizedPhaseSpecV1_eta : Eta AuthorizedPhaseSpecV1 := λ r,
  MkAuthorizedPhaseSpecV1 (ps_schema_version r) (ps_attempt_id r) (ps_request_id r)
  (ps_project_id r) (ps_operation_kind r) (ps_phase r) (ps_branch r) (ps_intent_digest r)
  (ps_executor_authorization_digest r) (ps_installed_policy r)
  (ps_installed_rimg_policy_digest r) (ps_release_bundle_digest r) (ps_deployment_plan_digest r)
  (ps_timeouts r) (ps_proposed_release_class r) (ps_effective_release_class r)
  (ps_classification_evidence_digest r) (ps_migration_id r) (ps_backup r)
  (ps_verified_base_backup_chain_digest r) (ps_verified_cutover_backup_chain_digest r)
  (ps_trusted_clock_evidence_digest r) (ps_boundary_now_ms r)
  (ps_prerequisites_valid_through_ms r) (ps_fencing_epoch r) (ps_fence_receipt_digest r)
  (ps_mutation_grant_id r) (ps_mutation_grant_digest r) (ps_runtime_release_state r)
  (ps_runtime_release_state_evidence_digest r) (ps_expected_observation_artifacts r) (ps_steps r)
  (ps_spec_digest r).

Record RuntimeReleaseStateEvidenceInputV1 : Type := MkRuntimeReleaseStateEvidenceInputV1 {
  rsi_attempt_id : Uuid;
  rsi_project_id : ProjectId;
  rsi_installed_policy : InstalledPolicyIdentity;
  rsi_phase_intent_digest : EvidenceDigest;
  rsi_state : RuntimeReleaseStateV1;
  rsi_valid_until_ms : Z;
  rsi_observation_digest : EvidenceDigest
}.

Record RuntimeReleaseStateEvidenceV1 : Type := MkRuntimeReleaseStateEvidenceV1 {
  rse_schema_version : Z;
  rse_attempt_id : Uuid;
  rse_project_id : ProjectId;
  rse_installed_policy : InstalledPolicyIdentity;
  rse_phase_intent_digest : EvidenceDigest;
  rse_state : RuntimeReleaseStateV1;
  rse_observed_at_ms : Z;
  rse_valid_until_ms : Z;
  rse_trusted_clock_evidence_digest : EvidenceDigest;
  rse_observation_digest : EvidenceDigest;
  rse_evidence_digest : EvidenceDigest
}.

#[global] Instance RuntimeReleaseStateEvidenceV1_eq_dec : EqDecision RuntimeReleaseStateEvidenceV1.
Proof. solve_decision. Defined.
#[global] Instance RuntimeReleaseStateEvidenceV1_eta : Eta RuntimeReleaseStateEvidenceV1 := λ r,
  MkRuntimeReleaseStateEvidenceV1 (rse_schema_version r) (rse_attempt_id r) (rse_project_id r)
  (rse_installed_policy r) (rse_phase_intent_digest r) (rse_state r) (rse_observed_at_ms r)
  (rse_valid_until_ms r) (rse_trusted_clock_evidence_digest r) (rse_observation_digest r)
  (rse_evidence_digest r).

Record StatefulBreakingMutationGrantInputV1 : Type := MkStatefulBreakingMutationGrantInputV1 {
  mgi_grant_id : Uuid;
  mgi_attempt_id : Uuid;
  mgi_project_id : ProjectId;
  mgi_installed_policy : InstalledPolicyIdentity;
  mgi_installed_rimg_policy_digest : EvidenceDigest;
  mgi_phase_intent_digest : EvidenceDigest;
  mgi_classification_evidence_digest : EvidenceDigest;
  mgi_migration_id : string;
  mgi_valid_until_ms : Z;
  mgi_approval_evidence_digest : EvidenceDigest
}.

Record StatefulBreakingMutationGrantV1 : Type := MkStatefulBreakingMutationGrantV1 {
  mg_schema_version : Z;
  mg_grant_id : Uuid;
  mg_attempt_id : Uuid;
  mg_project_id : ProjectId;
  mg_installed_policy : InstalledPolicyIdentity;
  mg_installed_rimg_policy_digest : EvidenceDigest;
  mg_phase_intent_digest : EvidenceDigest;
  mg_classification_evidence_digest : EvidenceDigest;
  mg_effective_class : ReleaseClass;
  mg_migration_id : string;
  mg_issued_at_ms : Z;
  mg_valid_until_ms : Z;
  mg_trusted_clock_evidence_digest : EvidenceDigest;
  mg_approval_evidence_digest : EvidenceDigest;
  mg_grant_digest : EvidenceDigest
}.

#[global] Instance StatefulBreakingMutationGrantV1_eq_dec : EqDecision StatefulBreakingMutationGrantV1.
Proof. solve_decision. Defined.
#[global] Instance StatefulBreakingMutationGrantV1_eta : Eta StatefulBreakingMutationGrantV1 := λ r,
  MkStatefulBreakingMutationGrantV1 (mg_schema_version r) (mg_grant_id r) (mg_attempt_id r)
  (mg_project_id r) (mg_installed_policy r) (mg_installed_rimg_policy_digest r)
  (mg_phase_intent_digest r) (mg_classification_evidence_digest r) (mg_effective_class r)
  (mg_migration_id r) (mg_issued_at_ms r) (mg_valid_until_ms r)
  (mg_trusted_clock_evidence_digest r) (mg_approval_evidence_digest r) (mg_grant_digest r).

(** The payloads of the digests. *)
Record AuthorizedPhaseSpecDigestPayload : Type := MkAuthorizedPhaseSpecDigestPayload {
  psp_purpose : string;
  psp_schema_version : Z;
  psp_attempt_id : Uuid;
  psp_request_id : Uuid;
  psp_project_id : ProjectId;
  psp_operation_kind : OperationKind;
  psp_phase : OperationPhase;
  psp_branch : ExecutorPhaseBranch;
  psp_intent_digest : EvidenceDigest;
  psp_executor_authorization_digest : EvidenceDigest;
  psp_installed_policy : InstalledPolicyIdentity;
  psp_installed_rimg_policy_digest : EvidenceDigest;
  psp_release_bundle_digest : option EvidenceDigest;
  psp_deployment_plan_digest : option EvidenceDigest;
  psp_timeouts : RimgTimeoutPolicyV1;
  psp_proposed_release_class : option ReleaseClass;
  psp_effective_release_class : option ReleaseClass;
  psp_classification_evidence_digest : option EvidenceDigest;
  psp_migration_id : option string;
  psp_backup : option AuthorizedBackupSpecV1;
  psp_verified_base_backup_chain_digest : option EvidenceDigest;
  psp_verified_cutover_backup_chain_digest : option EvidenceDigest;
  psp_trusted_clock_evidence_digest : option EvidenceDigest;
  psp_boundary_now_ms : option Z;
  psp_prerequisites_valid_through_ms : option Z;
  psp_fencing_epoch : option Z;
  psp_fence_receipt_digest : option EvidenceDigest;
  psp_mutation_grant_id : option Uuid;
  psp_mutation_grant_digest : option EvidenceDigest;
  psp_runtime_release_state : option RuntimeReleaseStateV1;
  psp_runtime_release_state_evidence_digest : option EvidenceDigest;
  psp_expected_observation_artifacts : PhaseArtifacts;
  psp_steps : list AuthorizedPhaseStepV1
}.

Record RuntimeReleaseStateDigestPayload : Type := MkRuntimeReleaseStateDigestPayload {
  rsp_purpose : string;
  rsp_schema_version : Z;
  rsp_attempt_id : Uuid;
  rsp_project_id : ProjectId;
  rsp_installed_policy : InstalledPolicyIdentity;
  rsp_phase_intent_digest : EvidenceDigest;
  rsp_state : RuntimeReleaseStateV1;
  rsp_observed_at_ms : Z;
  rsp_valid_until_ms : Z;
  rsp_trusted_clock_evidence_digest : EvidenceDigest;
  rsp_observation_digest : EvidenceDigest
}.

Record StatefulBreakingMutationGrantDigestPayload : Type := MkStatefulBreakingMutationGrantDigestPayload {
  mgp_purpose : string;
  mgp_schema_version : Z;
  mgp_grant_id : Uuid;
  mgp_attempt_id : Uuid;
  mgp_project_id : ProjectId;
  mgp_installed_policy : InstalledPolicyIdentity;
  mgp_installed_rimg_policy_digest : EvidenceDigest;
  mgp_phase_intent_digest : EvidenceDigest;
  mgp_classification_evidence_digest : EvidenceDigest;
  mgp_effective_class : ReleaseClass;
  mgp_migration_id : string;
  mgp_issued_at_ms : Z;
  mgp_valid_until_ms : Z;
  mgp_trusted_clock_evidence_digest : EvidenceDigest;
  mgp_approval_evidence_digest : EvidenceDigest
}.

(** The variant that wraps the errors of release bundles ([Build]) arises only in
    the release classification and is left out. *)
Inductive Phase6ContractError : Type :=
| Phase6_InvalidInstalledPolicy
| Phase6_AuthorizationMismatch
| Phase6_InvalidClassification
| Phase6_ClassificationPlanMismatch
| Phase6_RimgProtocolUnavailable
| Phase6_UnauthorizedBackupSpec
| Phase6_MissingPhasePrerequisite
| Phase6_InvalidVerifiedBackupChain
| Phase6_InvalidFenceReceipt
| Phase6_UntrustedBoundaryTime
| Phase6_InvalidRuntimeReleaseState
| Phase6_InvalidMutationGrant
| Phase6_InteractiveGrantRequired
| Phase6_DeploymentCapabilityUnavailable
| Phase6_UnsupportedPrivilegedPhase
| Phase6_DuplicateAdapterStep
| Phase6_DigestMismatch
| Phase6_AdapterRequestTooLarge
| Phase6_AdapterRequestMismatch
| Phase6_UnknownAdapterStep (sequence : Z)
| Phase6_ObservedArtifactMismatch
| Phase6_NonCanonicalDocument
| Phase6_CanonicalEncoding (e : SerdeError)
| Phase6_Backup (e : BackupContractError)
| Phase6_Fence (e : FenceAcquisitionReceiptError).

(** ** Profiles and timeouts *)

Definition FixedAdapterProfileV1_id (profile : FixedAdapterProfileV1) : string :=
  match profile with
  | Profile_BackupCapture => "backup-capture"
  | Profile_BackupEncryptAge => "backup-encrypt-age"
  | Profile_BackupUploadGoogleDrive => "backup-upload-google-drive"
  | Profile_BackupReadbackVerify => "backup-readback-verify"
  | Profile_RimgDrain => "rimg-drain"
  | Profile_RimgSchemaInspect => "rimg-schema-inspect"
  | Profile_RimgMigrate => "rimg-migrate"
  | Profile_RimgReadiness => "rimg-readiness"
  | Profile_RimgConsumerSmoke => "rimg-consumer-smoke"
  | Profile_RimgSoakObserve => "rimg-soak-observe"
  | Profile_KamalBootstrapDeploy => "kamal-bootstrap-deploy"
  | Profile_KamalCandidateDeploy => "kamal-candidate-deploy"
  | Profile_KamalCodeRollback => "kamal-code-rollback"
  end.

Definition for_profile (timeouts : RimgTimeoutPolicyV1) (profile : FixedAdapterProfileV1) : Z :=
  match profile with
  | Profile_BackupCapture | Profile_BackupEncryptAge | Profile_BackupUploadGoogleDrive
  | Profile_BackupReadbackVerify => to_backup_ms timeouts
  | Profile_RimgDrain => to_drain_ms timeouts
  | Profile_RimgSchemaInspect | Profile_RimgMigrate => to_migration_ms timeouts
  | Profile_RimgReadiness => to_readiness_ms timeouts
  | Profile_RimgConsumerSmoke => to_smoke_ms timeouts
  | Profile_RimgSoakObserve => to_soak_ms timeouts
  | Profile_KamalBootstrapDeploy | Profile_KamalCandidateDeploy | Profile_KamalCodeRollback =>
      to_deploy_ms timeouts
  end.

Definition valid_timeouts (timeouts : RimgTimeoutPolicyV1) : bool :=
  forallb (λ timeout, (1 <=? timeout) && (timeout <=? MAX_TIMEOUT_MS))
    [to_backup_ms timeouts; to_drain_ms timeouts; to_migration_ms timeouts; to_deploy_ms timeouts;
     to_readiness_ms timeouts; to_smoke_ms timeouts; to_soak_ms timeouts]
  && (60000 <=? to_deploy_ms timeouts) && (180000 <=? to_smoke_ms timeouts)
  && (60000 <=? to_soak_ms timeouts).

Definition valid_migration_id (value : string) : bool :=
  (value != ""%string) && (str_len value <=? 128) && negb (trim_changes value)
  && forallb (λ b, is_ascii_alphanumeric b || (b =? 45) || (b =? 95) || (b =? 46) || (b =? 58)
                   || (b =? 47)) (as_bytes value).

(** ** Artifacts a phase must observe *)

Definition valid_expected_observation_artifacts (phase : OperationPhase)
    (expected : PhaseArtifacts) : bool :=
  let '(required, remainder) :=
    match phase with
    | Phase_Building =>
        (is_some (pa_build_context_digest expected) && (pa_base_image_digests expected != []),
         expected <| pa_build_context_digest := None |> <| pa_base_image_digests := [] |>)
    | Phase_Preflight =>
        (is_some (pa_resource_reservation_digest expected),
         expected <| pa_resource_reservation_digest := None |>)
    | Phase_Draining =>
        (is_some (pa_source_gate_proof_digest expected),
         expected <| pa_source_gate_proof_digest := None |>)
    | Phase_CutoverSnapshotting =>
        (is_some (pa_backup_set_id expected) && is_some (pa_fencing_epoch expected),
         expected <| pa_backup_set_id := None |> <| pa_fencing_epoch := None |>)
    | Phase_Deploying =>
        (is_some (pa_deployment_plan_digest expected)
         && is_some (pa_release_bundle_digest expected),
         expected <| pa_deployment_plan_digest := None |> <| pa_release_bundle_digest := None |>
                  <| pa_previous_release_bundle_digest := None |>)
    | Phase_Rollback =>
        (is_some (pa_previous_release_bundle_digest expected),
         expected <| pa_previous_release_bundle_digest := None |>)
    | Phase_Migrating =>
        (is_some (pa_schema_version expected), expected <| pa_schema_version := None |>)
    | _ => (true, expected)
    end in
  required && (remainder == PhaseArtifacts_default).

(** [expected.is_none_or(|value| observed == Some(value))]. *)
Definition matches_if_expected {A} `{EqDecision A} (expected observed : option A) : bool :=
  match expected with None => true | Some value => observed == Some value end.

Definition observed_artifacts_match_expected (expected observed : PhaseArtifacts) : bool :=
  matches_if_expected (pa_build_context_digest expected) (pa_build_context_digest observed)
  && ((pa_base_image_digests expected == [])
      || (pa_base_image_digests observed == pa_base_image_digests expected))
  && matches_if_expected (pa_resource_reservation_digest expected)
       (pa_resource_reservation_digest observed)
  && matches_if_expected (pa_source_gate_proof_digest expected)
       (pa_source_gate_proof_digest observed)
  && matches_if_expected (pa_backup_set_id expected) (pa_backup_set_id observed)
  && matches_if_expected (pa_fencing_epoch expected) (pa_fencing_epoch observed)
  && matches_if_expected (pa_deployment_plan_digest expected) (pa_deployment_plan_digest observed)
  && matches_if_expected (pa_release_bundle_digest expected) (pa_release_bundle_digest observed)
  && matches_if_expected (pa_schema_version expected) (pa_schema_version observed)
  && (pa_previous_release_bundle_digest observed == pa_previous_release_bundle_digest expected).

(** ** The bindings of a spec and the steps they determine *)

Section PhaseAuthority.
Context `{!Sha256}.
Context `{!Jcs BackupUnitDigestPayload, !Jcs AuthorizedBackupSpecDigestPayload}.
Context `{!Jcs AuthorizedPhaseSpecDigestPayload, !Jcs FixedAdapterRequestV1,
  !JsonSlice FixedAdapterRequestV1, !Jcs RuntimeReleaseStateDigestPayload,
  !Jcs StatefulBreakingMutationGrantDigestPayload, !Jcs TrustedClockDigestPayload}.

Definition phase6_digest_jcs {T} `{!Jcs T} (value : T) : Result Phase6ContractError EvidenceDigest :=
  let? bytes := map_err Phase6_CanonicalEncoding (jcs_to_vec value) in
  Ok (EvidenceDigest_sha256 bytes).

Definition phase6_decode_canonical {T} `{!Jcs T, !JsonSlice T} (bytes : list Z)
    : Result Phase6ContractError T :=
  let? value := map_err Phase6_CanonicalEncoding (json_from_slice bytes) in
  let? encoded := map_err Phase6_CanonicalEncoding (jcs_to_vec value) in
  if encoded != bytes then Err Phase6_NonCanonicalDocument else Ok value.

Definition is_stateful (class : option ReleaseClass) : bool :=
  match class with
  | Some (Class_StatefulCompatible | Class_StatefulBreaking) => true
  | _ => false
  end.

Definition release_phase (phase : OperationPhase) : bool :=
  match phase with
  | Phase_Deploying | Phase_HealthChecking | Phase_Soaking | Phase_Rollback => true
  | _ => false
  end.

Definition classification_valid (spec : AuthorizedPhaseSpecV1) : bool :=
  match ps_operation_kind spec with
  | Kind_BackupOnly =>
      is_none (ps_effective_release_class spec) && is_none (ps_classification_evidence_digest spec)
      && is_none (ps_migration_id spec)
  | Kind_Deploy =>
      match ps_effective_release_class spec with
      | Some (Class_CodeOnlyCompatible | Class_StatefulCompatible | Class_StatefulBreaking) => true
      | _ => false
      end
      && is_some (ps_classification_evidence_digest spec)
      && eqb (is_stateful (ps_effective_release_class spec)) (is_some (ps_migration_id spec))
  | Kind_CodeRollback =>
      (ps_effective_release_class spec == Some Class_Rollback)
      && is_some (ps_classification_evidence_digest spec) && is_none (ps_migration_id spec)
  end.

Definition clock_binding_valid (spec : AuthorizedPhaseSpecV1) : bool :=
  eqb (is_some (ps_verified_base_backup_chain_digest spec)
       || is_some (ps_mutation_grant_digest spec)
       || is_some (ps_runtime_release_state_evidence_digest spec))
      (is_some (ps_trusted_clock_evidence_digest spec) && is_some (ps_boundary_now_ms spec)
       && is_some (ps_prerequisites_valid_through_ms spec)).

Definition time_binding_valid (spec : AuthorizedPhaseSpecV1) : bool :=
  match ps_boundary_now_ms spec, ps_prerequisites_valid_through_ms spec with
  | Some boundary, Some valid_through => boundary <=? valid_through
  | None, None => true
  | _, _ => false
  end.

Definition release_binding_valid (spec : AuthorizedPhaseSpecV1) : bool :=
  if release_phase (ps_phase spec)
  then is_some (ps_release_bundle_digest spec) && is_some (ps_deployment_plan_digest spec)
  else is_none (ps_release_bundle_digest spec) && is_none (ps_deployment_plan_digest spec).

Definition backup_unbound (spec : AuthorizedPhaseSpecV1) (backup : AuthorizedBackupSpecV1) : bool :=
  negb match BackupSpec_has_valid_digest backup with Ok valid => valid | Err _ => false end
  || (abs_attempt_id backup != ps_attempt_id spec)
  || (abs_project_id backup != ps_project_id spec)
  || (abs_installed_policy backup != ps_installed_policy spec)
  || (abs_installed_rimg_policy_digest backup != ps_installed_rimg_policy_digest spec)
  || (abs_phase_intent_digest backup != ps_intent_digest spec).

Definition validate_spec_bindings (spec : AuthorizedPhaseSpecV1) : Result Phase6ContractError unit :=
  if negb (classification_valid spec) || negb (clock_binding_valid spec)
     || negb (time_binding_valid spec)
     || negb (eqb (is_some (ps_fencing_epoch spec)) (is_some (ps_fence_receipt_digest spec)))
     || negb (eqb (is_some (ps_mutation_grant_id spec)) (is_some (ps_mutation_grant_digest spec)))
     || negb (release_binding_valid spec)
  then Err Phase6_DigestMismatch
  else if match ps_backup spec with Some backup => backup_unbound spec backup | None => false end
  then Err Phase6_UnauthorizedBackupSpec
  else Ok tt.

Definition has_no_runtime_state (spec : AuthorizedPhaseSpecV1) : bool :=
  is_none (ps_runtime_release_state spec)
  && is_none (ps_runtime_release_state_evidence_digest spec).

Definition StepProfile : Type := FixedAdapterProfileV1 * AdapterResultSchemaV1.

Definition expected_backup_profiles (spec : AuthorizedPhaseSpecV1)
    : Result Phase6ContractError (list StepProfile) :=
  let valid :=
    match ps_backup spec with
    | Some value => abs_snapshot_kind value == Snapshot_Base
    | None => false
    end
    && is_none (ps_verified_base_backup_chain_digest spec)
    && is_none (ps_verified_cutover_backup_chain_digest spec)
    && is_none (ps_fence_receipt_digest spec) && is_none (ps_mutation_grant_digest spec)
    && has_no_runtime_state spec in
  if negb valid then Err Phase6_UnsupportedPrivilegedPhase
  else Ok [(Profile_BackupCapture, Schema_BackupManifest);
           (Profile_BackupEncryptAge, Schema_LocalBackupEvidence);
           (Profile_BackupUploadGoogleDrive, Schema_ProviderUploadReceipt);
           (Profile_BackupReadbackVerify, Schema_OffsiteVerificationEvidence)].

Definition expected_drain_profiles (spec : AuthorizedPhaseSpecV1)
    : Result Phase6ContractError (list StepProfile) :=
  let valid :=
    is_stateful (ps_effective_release_class spec) && is_none (ps_backup spec)
    && is_some (ps_verified_base_backup_chain_digest spec)
    && is_none (ps_verified_cutover_backup_chain_digest spec)
    && is_none (ps_fence_receipt_digest spec) && is_none (ps_mutation_grant_digest spec)
    && has_no_runtime_state spec in
  if negb valid then Err Phase6_UnsupportedPrivilegedPhase
  else Ok [(Profile_RimgDrain, Schema_DrainEvidence)].

Definition expected_cutover_profiles (spec : AuthorizedPhaseSpecV1)
    : Result Phase6ContractError (list StepProfile) :=
  let valid :=
    is_stateful (ps_effective_release_class spec)
    && is_some (ps_verified_base_backup_chain_digest spec)
    && is_none (ps_verified_cutover_backup_chain_digest spec)
    && is_some (ps_fence_receipt_digest spec) && is_none (ps_mutation_grant_digest spec)
    && has_no_runtime_state spec
    && match ps_backup spec with
       | Some backup => (abs_snapshot_kind backup == Snapshot_Cutover)
                        && (abs_fence_receipt_digest backup == ps_fence_receipt_digest spec)
       | None => false
       end in
  if negb valid then Err Phase6_UnsupportedPrivilegedPhase
  else Ok [(Profile_BackupCapture, Schema_BackupManifest);
           (Profile_BackupEncryptAge, Schema_LocalBackupEvidence)].

Definition expected_migration_profiles (spec : AuthorizedPhaseSpecV1)
    : Result Phase6ContractError (list StepProfile) :=
  let valid :=
    is_stateful (ps_effective_release_class spec) && is_none (ps_backup spec)
    && is_some (ps_verified_base_backup_chain_digest spec)
    && is_some (ps_verified_cutover_backup_chain_digest spec)
    && is_some (ps_fence_receipt_digest spec)
    && eqb (ps_effective_release_class spec == Some Class_StatefulBreaking)
           (is_some (ps_mutation_grant_id spec))
    && has_no_runtime_state spec in
  if negb valid then Err Phase6_UnsupportedPrivilegedPhase
  else Ok [(Profile_RimgSchemaInspect, Schema_SchemaInspectionEvidence);
           (Profile_RimgMigrate, Schema_MigrationEvidence)].

Definition expected_deployment_profiles (spec : AuthorizedPhaseSpecV1)
    : Result Phase6ContractError (list StepProfile) :=
  let stateful := is_stateful (ps_effective_release_class spec) in
  let valid :=
    is_none (ps_backup spec) && is_none (ps_verified_cutover_backup_chain_digest spec)
    && is_none (ps_mutation_grant_digest spec)
    && is_some (ps_runtime_release_state_evidence_digest spec) in
  if negb valid then Err Phase6_UnsupportedPrivilegedPhase
  else
    let? profile :=
      match ps_runtime_release_state spec with
      | Some Runtime_NeverInstalled =>
          if is_none (ps_verified_base_backup_chain_digest spec)
             && is_none (ps_fence_receipt_digest spec)
          then Ok Profile_KamalBootstrapDeploy
          else Err Phase6_UnsupportedPrivilegedPhase
      | Some (Runtime_Installed _) =>
          if is_none (ps_verified_base_backup_chain_digest spec)
             || negb (eqb stateful (is_some (ps_fence_receipt_digest spec)))
          then Err Phase6_UnsupportedPrivilegedPhase
          else Ok Profile_KamalCandidateDeploy
      | None => Err Phase6_InvalidRuntimeReleaseState
      end in
    Ok [(profile, Schema_DeploymentEvidence)].

Definition require_observation_phase_prerequisites (spec : AuthorizedPhaseSpecV1)
    : Result Phase6ContractError unit :=
  ensure (is_none (ps_backup spec) && is_none (ps_verified_base_backup_chain_digest spec)
          && is_none (ps_verified_cutover_backup_chain_digest spec)
          && is_none (ps_mutation_grant_digest spec) && has_no_runtime_state spec)
    Phase6_UnsupportedPrivilegedPhase.

Definition expected_health_profiles (spec : AuthorizedPhaseSpecV1)
    : Result Phase6ContractError (list StepProfile) :=
  let? _ := require_observation_phase_prerequisites spec in
  Ok [(Profile_RimgReadiness, Schema_ReadinessEvidence);
      (Profile_RimgConsumerSmoke, Schema_ConsumerSmokeEvidence)].

Definition expected_soak_profiles (spec : AuthorizedPhaseSpecV1)
    : Result Phase6ContractError (list StepProfile) :=
  let? _ := require_observation_phase_prerequisites spec in
  Ok [(Profile_RimgSoakObserve, Schema_SoakEvidence)].

Definition expected_rollback_profiles (spec : AuthorizedPhaseSpecV1)
    : Result Phase6ContractError (list StepProfile) :=
  if ps_effective_release_class spec != Some Class_Rollback
  then Err Phase6_UnsupportedPrivilegedPhase
  else
    let? _ := require_observation_phase_prerequisites spec in
    Ok [(Profile_KamalCodeRollback, Schema_RollbackEvidence)].

Definition expected_profiles (spec : AuthorizedPhaseSpecV1)
    : Result Phase6ContractError (list StepProfile) :=
  let? _ := validate_spec_bindings spec in
  match ps_phase spec with
  | Phase_BackingUp => expected_backup_profiles spec
  | Phase_Draining => expected_drain_profiles spec
  | Phase_CutoverSnapshotting => expected_cutover_profiles spec
  | Phase_Migrating => expected_migration_profiles spec
  | Phase_Deploying => expected_deployment_profiles spec
  | Phase_HealthChecking => expected_health_profiles spec
  | Phase_Soaking => expected_soak_profiles spec
  | Phase_Rollback => expected_rollback_profiles spec
  | _ => Err Phase6_UnsupportedPrivilegedPhase
  end.

(** ** Adapter requests and steps *)

Definition build_adapter_request (spec : AuthorizedPhaseSpecV1) (sequence : Z)
    (profile : FixedAdapterProfileV1) (result_schema : AdapterResultSchemaV1) (timeout_ms : Z)
    : FixedAdapterRequestV1 := {|
  rq_purpose := FIXED_ADAPTER_REQUEST_PURPOSE;
  rq_schema_version := FIXED_ADAPTER_REQUEST_SCHEMA_VERSION;
  rq_attempt_id := ps_attempt_id spec;
  rq_request_id := ps_request_id spec;
  rq_project_id := ps_project_id spec;
  rq_operation_kind := ps_operation_kind spec;
  rq_phase := ps_phase spec;
  rq_branch := ps_branch spec;
  rq_sequence := sequence;
  rq_profile := profile;
  rq_result_schema := result_schema;
  rq_timeout_ms := timeout_ms;
  rq_intent_digest := ps_intent_digest spec;
  rq_executor_authorization_digest := ps_executor_authorization_digest spec;
  rq_installed_policy := ps_installed_policy spec;
  rq_installed_rimg_policy_digest := ps_installed_rimg_policy_digest spec;
  rq_release_bundle_digest := ps_release_bundle_digest spec;
  rq_deployment_plan_digest := ps_deployment_plan_digest spec;
  rq_proposed_release_class := ps_proposed_release_class spec;
  rq_effective_release_class := ps_effective_release_class spec;
  rq_classification_evidence_digest := ps_classification_evidence_digest spec;
  rq_migration_id := ps_migration_id spec;
  rq_backup := ps_backup spec;
  rq_verified_base_backup_chain_digest := ps_verified_base_backup_chain_digest spec;
  rq_verified_cutover_backup_chain_digest := ps_verified_cutover_backup_chain_digest spec;
  rq_trusted_clock_evidence_digest := ps_trusted_clock_evidence_digest spec;
  rq_boundary_now_ms := ps_boundary_now_ms spec;
  rq_prerequisites_valid_through_ms := ps_prerequisites_valid_through_ms spec;
  rq_fencing_epoch := ps_fencing_epoch spec;
  rq_fence_receipt_digest := ps_fence_receipt_digest spec;
  rq_mutation_grant_id := ps_mutation_grant_id spec;
  rq_mutation_grant_digest := ps_mutation_grant_digest spec;
  rq_runtime_release_state := ps_runtime_release_state spec;
  rq_runtime_release_state_evidence_digest := ps_runtime_release_state_evidence_digest spec;
  rq_expected_observation_artifacts := ps_expected_observation_artifacts spec
|}.

Definition AdapterRequest_canonical_bytes (request : FixedAdapterRequestV1)
    : Result Phase6ContractError (list Z) :=
  let? bytes := map_err Phase6_CanonicalEncoding (jcs_to_vec request) in
  if MAX_FIXED_ADAPTER_REQUEST_BYTES <? Z.of_nat (length bytes)
  then Err Phase6_AdapterRequestTooLarge
  else Ok bytes.

Definition AdapterRequest_digest (request : FixedAdapterRequestV1)
    : Result Phase6ContractError EvidenceDigest :=
  let? bytes := AdapterRequest_canonical_bytes request in
  Ok (EvidenceDigest_sha256 bytes).

(** The step of one profile. *)
Definition step_for (spec : AuthorizedPhaseSpecV1) (sequence : Z)
    (profile : FixedAdapterProfileV1) (result_schema : AdapterResultSchemaV1)
    : Result Phase6ContractError AuthorizedPhaseStepV1 :=
  let timeout_ms := for_profile (ps_timeouts spec) profile in
  let? request_document_digest :=
    AdapterRequest_digest (build_adapter_request spec sequence profile result_schema timeout_ms) in
  Ok {| st_sequence := sequence;
        st_profile := profile;
        st_timeout_ms := timeout_ms;
        st_request_document_digest := request_document_digest;
        st_result_schema := result_schema |}.

(** The closure over [seen] and the index, collected up to the first error. *)
Fixpoint steps_from (spec : AuthorizedPhaseSpecV1) (seen : list FixedAdapterProfileV1) (index : Z)
    (profiles : list StepProfile) : Result Phase6ContractError (list AuthorizedPhaseStepV1) :=
  match profiles with
  | [] => Ok []
  | (profile, result_schema) :: rest =>
      if bool_decide (profile ∈ seen) then Err Phase6_DuplicateAdapterStep
      else
        let? sequence := ok_or Phase6_DuplicateAdapterStep
                           (checked_range 0 u16_max (index + 1)) in
        let? step := step_for spec sequence profile result_schema in
        let? steps := steps_from spec (profile :: seen) (index + 1) rest in
        Ok (step :: steps)
  end.

Definition expected_steps (spec : AuthorizedPhaseSpecV1)
    : Result Phase6ContractError (list AuthorizedPhaseStepV1) :=
  let? profiles := expected_profiles spec in
  steps_from spec [] 0 profiles.

(** ** The spec document *)

Definition PhaseSpec_calculate_digest (spec : AuthorizedPhaseSpecV1)
    : Result Phase6ContractError EvidenceDigest :=
  phase6_digest_jcs {|
    psp_purpose := "rdashboard.authorized-phase-spec.v1";
    psp_schema_version := ps_schema_version spec;
    psp_attempt_id := ps_attempt_id spec;
    psp_request_id := ps_request_id spec;
    psp_project_id := ps_project_id spec;
    psp_operation_kind := ps_operation_kind spec;
    psp_phase := ps_phase spec;
    psp_branch := ps_branch spec;
    psp_intent_digest := ps_intent_digest spec;
    psp_executor_authorization_digest := ps_executor_authorization_digest spec;
    psp_installed_policy := ps_installed_policy spec;
    psp_installed_rimg_policy_digest := ps_installed_rimg_policy_digest spec;
    psp_release_bundle_digest := ps_release_bundle_digest spec;
    psp_deployment_plan_digest := ps_deployment_plan_digest spec;
    psp_timeouts := ps_timeouts spec;
    psp_proposed_release_class := ps_proposed_release_class spec;
    psp_effective_release_class := ps_effective_release_class spec;
    psp_classification_evidence_digest := ps_classification_evidence_digest spec;
    psp_migration_id := ps_migration_id spec;
    psp_backup := ps_backup spec;
    psp_verified_base_backup_chain_digest := ps_verified_base_backup_chain_digest spec;
    psp_verified_cutover_backup_chain_digest := ps_verified_cutover_backup_chain_digest spec;
    psp_trusted_clock_evidence_digest := ps_trusted_clock_evidence_digest spec;
    psp_boundary_now_ms := ps_boundary_now_ms spec;
    psp_prerequisites_valid_through_ms := ps_prerequisites_valid_through_ms spec;
    psp_fencing_epoch := ps_fencing_epoch spec;
    psp_fence_receipt_digest := ps_fence_receipt_digest spec;
    psp_mutation_grant_id := ps_mutation_grant_id spec;
    psp_mutation_grant_digest := ps_mutation_grant_digest spec;
    psp_runtime_release_state := ps_runtime_release_state spec;
    psp_runtime_release_state_evidence_digest := ps_runtime_release_state_evidence_digest spec;
    psp_expected_observation_artifacts := ps_expected_observation_artifacts spec;
    psp_steps := ps_steps spec
  |}.

Definition PhaseSpec_has_valid_digest (spec : AuthorizedPhaseSpecV1)
    : Result Phase6ContractError bool :=
  if negb (ps_schema_version spec =? AUTHORIZED_PHASE_SPEC_SCHEMA_VERSION)
     || is_nil (ps_attempt_id spec) || is_nil (ps_request_id spec)
     || (ip_version (ps_installed_policy spec) =? 0)
     || negb (valid_timeouts (ps_timeouts spec))
     || (ps_steps spec == [])
     || (ps_proposed_release_class spec != ps_effective_release_class spec)
     || negb (valid_expected_observation_artifacts (ps_phase spec)
                (ps_expected_observation_artifacts spec))
     || match expected_steps spec with Ok _ => false | Err _ => true end
  then Ok false
  else
    let? steps := expected_steps spec in
    if ps_steps spec == steps then
      let? digest := PhaseSpec_calculate_digest spec in
      Ok (ps_spec_digest spec == digest)
    else Ok false.

Definition PhaseSpec_canonical_bytes `{!Jcs AuthorizedPhaseSpecV1} (spec : AuthorizedPhaseSpecV1)
    : Result Phase6ContractError (list Z) :=
  let? valid := PhaseSpec_has_valid_digest spec in
  if negb valid then Err Phase6_DigestMismatch
  else map_err Phase6_CanonicalEncoding (jcs_to_vec spec).

Definition PhaseSpec_decode_canonical
    `{!Jcs AuthorizedPhaseSpecV1, !JsonSlice AuthorizedPhaseSpecV1} (bytes : list Z)
    : Result Phase6ContractError AuthorizedPhaseSpecV1 :=
  let? spec := phase6_decode_canonical bytes in
  let? valid := PhaseSpec_has_valid_digest spec in
  if negb valid then Err Phase6_DigestMismatch else Ok spec.

Definition fixed_adapter_request (spec : AuthorizedPhaseSpecV1) (sequence : Z)
    : Result Phase6ContractError FixedAdapterRequestV1 :=
  let? valid := PhaseSpec_has_valid_digest spec in
  if negb valid then Err Phase6_DigestMismatch
  else
    let? step := ok_or (Phase6_UnknownAdapterStep sequence)
      (find_first (λ step, st_sequence step =? sequence) (ps_steps spec)) in
    let request := build_adapter_request spec (st_sequence step) (st_profile step)
                     (st_result_schema step) (st_timeout_ms step) in
    let? digest := AdapterRequest_digest request in
    if digest != st_request_document_digest step then Err Phase6_AdapterRequestMismatch
    else Ok request.

Definition AdapterRequest_decode_authorized (bytes : list Z) (spec : AuthorizedPhaseSpecV1)
    (sequence : Z) : Result Phase6ContractError FixedAdapterRequestV1 :=
  if (bytes == []) || (MAX_FIXED_ADAPTER_REQUEST_BYTES <? Z.of_nat (length bytes))
  then Err Phase6_AdapterRequestTooLarge
  else
    let? request := phase6_decode_canonical bytes in
    let? expected := fixed_adapter_request spec sequence in
    if request != expected then Err Phase6_AdapterRequestMismatch
    else
      let? digest := AdapterRequest_digest expected in
      if EvidenceDigest_sha256 bytes != digest then Err Phase6_AdapterRequestMismatch
      else Ok request.

Definition validate_observed_artifacts (spec : AuthorizedPhaseSpecV1) (artifacts : PhaseArtifacts)
    : Result Phase6ContractError unit :=
  let? valid := PhaseSpec_has_valid_digest spec in
  if negb valid then Err Phase6_DigestMismatch
  else
    let? _ := map_err (λ _, Phase6_ObservedArtifactMismatch)
                (validate_for_phase artifacts (ps_phase spec)) in
    ensure (observed_artifacts_match_expected (ps_expected_observation_artifacts spec) artifacts)
      Phase6_ObservedArtifactMismatch.

Definition bind_artifacts (spec : AuthorizedPhaseSpecV1) (artifacts : PhaseArtifacts)
    : Result Phase6ContractError PhaseArtifacts :=
  let? valid := PhaseSpec_has_valid_digest spec in
  if negb valid then Err Phase6_DigestMismatch
  else
    let artifacts := artifacts <| pa_authorized_phase_spec_digest := Some (ps_spec_digest spec) |> in
    let? _ := validate_observed_artifacts spec artifacts in
    Ok artifacts.

(** ** Runtime state and mutation grants

    The differences of timestamps are [i64] subtractions of non-negative values
    ([require_synchronized] bounds the observation below), which stay in range. *)

Definition RuntimeState_calculate_digest (evidence : RuntimeReleaseStateEvidenceV1)
    : Result Phase6ContractError EvidenceDigest :=
  phase6_digest_jcs {|
    rsp_purpose := "rdashboard.runtime-release-state-evidence.v1";
    rsp_schema_version := rse_schema_version evidence;
    rsp_attempt_id := rse_attempt_id evidence;
    rsp_project_id := rse_project_id evidence;
    rsp_installed_policy := rse_installed_policy evidence;
    rsp_phase_intent_digest := rse_phase_intent_digest evidence;
    rsp_state := rse_state evidence;
    rsp_observed_at_ms := rse_observed_at_ms evidence;
    rsp_valid_until_ms := rse_valid_until_ms evidence;
    rsp_trusted_clock_evidence_digest := rse_trusted_clock_evidence_digest evidence;
    rsp_observation_digest := rse_observation_digest evidence
  |}.

Definition RuntimeState_observe (input : RuntimeReleaseStateEvidenceInputV1)
    (clock : TrustedClockEvidenceV1) : Result Phase6ContractError RuntimeReleaseStateEvidenceV1 :=
  let? _ := map_err Phase6_Backup (TrustedClock_require_synchronized clock) in
  if is_nil (rsi_attempt_id input) || (ip_version (rsi_installed_policy input) =? 0)
     || (rsi_valid_until_ms input <=? tc_observed_at_ms clock)
     || (MAX_RUNTIME_STATE_TTL_MS <? rsi_valid_until_ms input - tc_observed_at_ms clock)
  then Err Phase6_InvalidRuntimeReleaseState
  else
    let evidence := {|
      rse_schema_version := 1;
      rse_attempt_id := rsi_attempt_id input;
      rse_project_id := rsi_project_id input;
      rse_installed_policy := rsi_installed_policy input;
      rse_phase_intent_digest := rsi_phase_intent_digest input;
      rse_state := rsi_state input;
      rse_observed_at_ms := tc_observed_at_ms clock;
      rse_valid_until_ms := rsi_valid_until_ms input;
      rse_trusted_clock_evidence_digest := tc_evidence_digest clock;
      rse_observation_digest := rsi_observation_digest input;
      rse_evidence_digest := EvidenceDigest_sha256 []
    |} in
    let? digest := RuntimeState_calculate_digest evidence in
    Ok (evidence <| rse_evidence_digest := digest |>).

Definition MutationGrant_calculate_digest (grant : StatefulBreakingMutationGrantV1)
    : Result Phase6ContractError EvidenceDigest :=
  phase6_digest_jcs {|
    mgp_purpose := "rdashboard.stateful-breaking-mutation-grant.v1";
    mgp_schema_version := mg_schema_version grant;
    mgp_grant_id := mg_grant_id grant;
    mgp_attempt_id := mg_attempt_id grant;
    mgp_project_id := mg_project_id grant;
    mgp_installed_policy := mg_installed_policy grant;
    mgp_installed_rimg_policy_digest := mg_installed_rimg_policy_digest grant;
    mgp_phase_intent_digest := mg_phase_intent_digest grant;
    mgp_classification_evidence_digest := mg_classification_evidence_digest grant;
    mgp_effective_class := mg_effective_class grant;
    mgp_migration_id := mg_migration_id grant;
    mgp_issued_at_ms := mg_issued_at_ms grant;
    mgp_valid_until_ms := mg_valid_until_ms grant;
    mgp_trusted_clock_evidence_digest := mg_trusted_clock_evidence_digest grant;
    mgp_approval_evidence_digest := mg_approval_evidence_digest grant
  |}.

Definition MutationGrant_issue (input : StatefulBreakingMutationGrantInputV1)
    (clock : TrustedClockEvidenceV1) : Result Phase6ContractError StatefulBreakingMutationGrantV1 :=
  let? _ := map_err Phase6_Backup (TrustedClock_require_synchronized clock) in
  if is_nil (mgi_grant_id input) || is_nil (mgi_attempt_id input)
     || (ip_version (mgi_installed_policy input) =? 0)
     || negb (valid_migration_id (mgi_migration_id input))
     || (mgi_valid_until_ms input <=? tc_observed_at_ms clock)
     || (MAX_MUTATION_GRANT_TTL_MS <? mgi_valid_until_ms input - tc_observed_at_ms clock)
  then Err Phase6_InvalidMutationGrant
  else
    let grant := {|
      mg_schema_version := 1;
      mg_grant_id := mgi_grant_id input;
      mg_attempt_id := mgi_attempt_id input;
      mg_project_id := mgi_project_id input;
      mg_installed_policy := mgi_installed_policy input;
      mg_installed_rimg_policy_digest := mgi_installed_rimg_policy_digest input;
      mg_phase_intent_digest := mgi_phase_intent_digest input;
      mg_classification_evidence_digest := mgi_classification_evidence_digest input;
      mg_effective_class := Class_StatefulBreaking;
      mg_migration_id := mgi_migration_id input;
      mg_issued_at_ms := tc_observed_at_ms clock;
      mg_valid_until_ms := mgi_valid_until_ms input;
      mg_trusted_clock_evidence_digest := tc_evidence_digest clock;
      mg_approval_evidence_digest := mgi_approval_evidence_digest input;
      mg_grant_digest := EvidenceDigest_sha256 []
    |} in
    let? digest := MutationGrant_calculate_digest grant in
    Ok (grant <| mg_grant_digest := digest |>).
End PhaseAuthority.
