(* ===== verification/PhaseAuthoritySpec.v ===== *)
(** * What an authorized phase spec guarantees

    The steps of a valid spec are the ones its bindings determine, numbered in order
    and without repetition; each step has exactly one request document, which is the
    only thing the adapter accepts for it; and the privileged profiles appear only in
    specs that bind the evidence they need. *)

From Stdlib Require Import ZArith Lia Ascii String.
From stdpp Require Import base gmap strings option list_numbers list.
From S2P Require Import Prelude Identifiers States Text Failure Operation DomainSpec Ordered Backup.
From S2P Require Import BackupSpec PhaseAuthority.

Local Open Scope Z_scope.

Section PhaseAuthoritySpec.
Context `{!Sha256}.
Context `{!Jcs BackupUnitDigestPayload, !Jcs AuthorizedBackupSpecDigestPayload}.
Context `{!Jcs AuthorizedPhaseSpecDigestPayload, !Jcs FixedAdapterRequestV1,
  !JsonSlice FixedAdapterRequestV1}.

(** ** The steps of a spec *)

(** The [i]-th step runs the [i]-th profile, under the timeout of the profile, on the
    request document of the spec. *)
Definition step_at (spec : AuthorizedPhaseSpecV1) (sequence : Z) (profile : StepProfile)
    (step : AuthorizedPhaseStepV1) : Prop :=
  st_sequence step = sequence ∧ st_profile step = profile.1 ∧ st_result_schema step = profile.2
  ∧ st_timeout_ms step = for_profile (ps_timeouts spec) profile.1
  ∧ AdapterRequest_digest (build_adapter_request spec sequence profile.1 profile.2
      (for_profile (ps_timeouts spec) profile.1)) = Ok (st_request_document_digest step).

Lemma steps_from_Ok spec profiles : ∀ seen index steps,
  steps_from spec seen index profiles = Ok steps →
  length steps = length profiles ∧ NoDup (profiles.*1) ∧ (∀ p, p ∈ profiles.*1 → p ∉ seen)
  ∧ ∀ i step, steps !! i = Some step →
      ∃ profile, profiles !! i = Some profile ∧ step_at spec (index + 1 + Z.of_nat i) profile step.
Proof.
  induction profiles as [|[p schema] rest IH]; intros seen index steps Hok; simpl in Hok.
  - inv_ok. split_and!; [done|constructor|set_solver|]. intros i step Hi. by rewrite lookup_nil in Hi.
  - case_ok. match goal with Hs : checked_range _ _ _ = Some _ |- _ =>
      apply checked_range_Some in Hs as [-> _] end.
    match goal with Hs : steps_from _ _ _ _ = Ok _ |- _ =>
      apply IH in Hs as (Hlen&Hdup&Hseen&Hstep) end.
    unfold step_for in *. inv_ok. bool_prop. split_and!.
    + simpl. by rewrite Hlen.
    + constructor; [|done]. intros Hin. apply (Hseen _ Hin). by left.
    + intros q [->|Hq]%elem_of_cons; [done|]. intros Hs. apply (Hseen _ Hq). by right.
    + intros [|i] step Hi; simpl in Hi.
      * simplify_eq. exists (p, schema). split; [done|]. unfold step_at. simpl.
        rewrite Z.add_0_r. by split_and!.
      * destruct (Hstep _ _ Hi) as (profile&Hp&Hat). exists profile. split; [done|].
        by replace (index + 1 + Z.of_nat (S i)) with (index + 1 + 1 + Z.of_nat i) by lia.
Qed.

(** What [has_valid_digest] means. *)
Lemma PhaseSpec_valid spec :
  PhaseSpec_has_valid_digest spec = Ok true ↔
  ps_schema_version spec = AUTHORIZED_PHASE_SPEC_SCHEMA_VERSION
  ∧ is_nil (ps_attempt_id spec) = false ∧ is_nil (ps_request_id spec) = false
  ∧ ip_version (ps_installed_policy spec) ≠ 0 ∧ valid_timeouts (ps_timeouts spec) = true
  ∧ ps_steps spec ≠ [] ∧ ps_proposed_release_class spec = ps_effective_release_class spec
  ∧ valid_expected_observation_artifacts (ps_phase spec)
      (ps_expected_observation_artifacts spec) = true
  ∧ expected_steps spec = Ok (ps_steps spec)
  ∧ PhaseSpec_calculate_digest spec = Ok (ps_spec_digest spec).
Proof.
  unfold PhaseSpec_has_valid_digest. split.
  - intros Hok. case_ok.
    destruct (expected_steps spec) as [steps|] eqn:Hsteps; [|by inv_ok]. simpl in Hok.
    case_ok.
    bool_prop. destruct_and!. subst. naive_solver.
  - intros (->&->&->&Hv&->&Hne&->&->&->&->). simpl.
    rewrite (bool_decide_eq_false_2 _ Hne), (proj2 (Z.eqb_neq _ _) Hv).
    by repeat (rewrite bool_decide_eq_true_2 by done; simpl).
Qed.

Lemma valid_spec_steps spec :
  PhaseSpec_has_valid_digest spec = Ok true →
  ∃ profiles, expected_profiles spec = Ok profiles
    ∧ length (ps_steps spec) = length profiles ∧ NoDup (profiles.*1)
    ∧ ∀ i step, ps_steps spec !! i = Some step →
        ∃ profile, profiles !! i = Some profile ∧ step_at spec (1 + Z.of_nat i) profile step.
Proof.
  intros (_&_&_&_&_&_&_&_&Hsteps&_)%PhaseSpec_valid. unfold expected_steps in Hsteps. inv_ok.
  apply steps_from_Ok in Hsteps as (Hlen&Hdup&_&Hstep). eexists. by split_and!.
Qed.

Lemma for_profile_bounds timeouts profile :
  valid_timeouts timeouts = true → 1 ≤ for_profile timeouts profile ≤ MAX_TIMEOUT_MS.
Proof.
  unfold valid_timeouts. simpl. bool_prop. intros Hv. destruct_and!. destruct profile; simpl; lia.
Qed.

(** The steps of a spec as a list of sequence numbers. *)
Lemma step_found spec i step :
  PhaseSpec_has_valid_digest spec = Ok true → ps_steps spec !! i = Some step →
  find_first (λ other, st_sequence other =? st_sequence step) (ps_steps spec) = Some step.
Proof.
  intros (profiles&_&_&_&Hsteps)%valid_spec_steps Hi.
  destruct (find_first _ _) as [other|] eqn:Hf.
  - apply find_first_Some in Hf as [Hin Heq]. bool_prop. apply list_elem_of_lookup in Hin as [j Hj].
    destruct (Hsteps _ _ Hi) as (?&_&Hs&_), (Hsteps _ _ Hj) as (?&_&Hs'&_).
    assert (i = j) as -> by lia. congruence.
  - assert ((st_sequence step =? st_sequence step) = false) as Hn.
    { apply (proj1 (find_first_None _ _) Hf). by eapply list_elem_of_lookup_2. }
    by rewrite Z.eqb_refl in Hn.
Qed.

Lemma fixed_adapter_request_step spec i step :
  PhaseSpec_has_valid_digest spec = Ok true → ps_steps spec !! i = Some step →
  ∃ request, fixed_adapter_request spec (st_sequence step) = Ok request
    ∧ request = build_adapter_request spec (st_sequence step) (st_profile step)
                  (st_result_schema step) (st_timeout_ms step)
    ∧ AdapterRequest_digest request = Ok (st_request_document_digest step).
Proof.
  intros Hvalid Hi. pose proof (valid_spec_steps _ Hvalid) as (profiles&_&_&_&Hsteps).
  destruct (Hsteps _ _ Hi) as ([p schema]&_&Hs&Hp&Hr&Ht&Hd). simpl in *.
  rewrite <- Ht, <- Hs, <- Hp, <- Hr in Hd. eexists. split; [|split; [reflexivity|done]].
  unfold fixed_adapter_request. rewrite Hvalid. simpl. rewrite (step_found _ _ _ Hvalid Hi). simpl.
  rewrite Hd. simpl. by rewrite bool_decide_eq_true_2.
Qed.

Lemma AdapterRequest_canonical_Ok request bytes :
  AdapterRequest_canonical_bytes request = Ok bytes ↔
  jcs_to_vec request = Ok bytes ∧ Z.of_nat (length bytes) ≤ MAX_FIXED_ADAPTER_REQUEST_BYTES.
Proof.
  unfold AdapterRequest_canonical_bytes. destruct (jcs_to_vec request) as [b|e]; simpl;
    [|split; [done|by intros [? _]]].
  destruct (Z.ltb_spec MAX_FIXED_ADAPTER_REQUEST_BYTES (Z.of_nat (length b))); split;
    intros; destruct_and?; simplify_eq; try done; lia.
Qed.

Lemma phase6_decode_Ok {T} `{!Jcs T, !JsonSlice T, !JcsRoundTrip T} (bytes : list Z) (value : T) :
  phase6_decode_canonical bytes = Ok value ↔ jcs_to_vec value = Ok bytes.
Proof.
  unfold phase6_decode_canonical. split.
  - intros Hok. inv_ok. case_ok. bool_prop. by subst.
  - intros Hb. rewrite (jcs_round_trip _ _ Hb). simpl. rewrite Hb. simpl.
    by rewrite bool_decide_eq_true_2.
Qed.

(** ** Theorems *)

(** Each step of a valid spec has one request document: the executor can build it,
    it names the profile, schema and timeout of the step and the bindings of the spec,
    its digest is the one the step recorded, and the adapter accepts exactly its
    canonical bytes, which are not empty, for that step. *)
Theorem adapter_accepts_only_authorized_request spec i step
    `{!JcsRoundTrip FixedAdapterRequestV1} :
  PhaseSpec_has_valid_digest spec = Ok true → ps_steps spec !! i = Some step →
  st_sequence step = 1 + Z.of_nat i
  ∧ 1 ≤ st_timeout_ms step ≤ MAX_TIMEOUT_MS
  ∧ ∃ request, fixed_adapter_request spec (st_sequence step) = Ok request
      ∧ rq_profile request = st_profile step ∧ rq_timeout_ms request = st_timeout_ms step
      ∧ rq_attempt_id request = ps_attempt_id spec
      ∧ rq_fence_receipt_digest request = ps_fence_receipt_digest spec
      ∧ ∀ bytes request', AdapterRequest_decode_authorized bytes spec (st_sequence step) = Ok request'
          ↔ request' = request ∧ bytes ≠ [] ∧ AdapterRequest_canonical_bytes request = Ok bytes.
Proof.
  intros Hvalid Hi. pose proof (valid_spec_steps _ Hvalid) as (profiles&_&_&_&Hsteps).
  destruct (Hsteps _ _ Hi) as ([p schema]&_&Hs&_&_&Ht&_). split; [done|]. split.
  { rewrite Ht. apply for_profile_bounds. by apply PhaseSpec_valid in Hvalid as (_&_&_&_&?&_). }
  destruct (fixed_adapter_request_step _ _ _ Hvalid Hi) as (request&Hreq&Hbuild&Hdig).
  exists request. split; [done|]. split_and!; [by rewrite Hbuild..|].
  intros bytes request'. unfold AdapterRequest_decode_authorized. rewrite Hreq. split.
  - intros Hok. case_ok. case_ok. case_ok. bool_prop. destruct_and!. subst.
    match goal with Hd : phase6_decode_canonical _ = Ok _ |- _ =>
      apply phase6_decode_Ok in Hd end.
    split_and!; [done..|]. by apply AdapterRequest_canonical_Ok.
  - intros (->&Hne&Hc). pose proof (proj1 (AdapterRequest_canonical_Ok _ _) Hc) as [Hb Hlen].
    rewrite (bool_decide_eq_false_2 _ Hne), (proj2 (Z.ltb_ge _ _) Hlen). simpl.
    rewrite (proj2 (phase6_decode_Ok bytes request) Hb). simpl.
    rewrite bool_decide_eq_true_2 by done. simpl. unfold AdapterRequest_digest. rewrite Hc. simpl.
    by rewrite bool_decide_eq_true_2.
Qed.

(** What a spec must bind for a profile to appear in it. *)
Definition profile_evidence (spec : AuthorizedPhaseSpecV1) (profile : FixedAdapterProfileV1)
    : Prop :=
  match profile with
  | Profile_RimgMigrate =>
      ps_phase spec = Phase_Migrating ∧ is_stateful (ps_effective_release_class spec) = true
      ∧ is_Some (ps_verified_base_backup_chain_digest spec)
      ∧ is_Some (ps_verified_cutover_backup_chain_digest spec)
      ∧ is_Some (ps_fence_receipt_digest spec)
      ∧ (is_Some (ps_mutation_grant_id spec)
         ↔ ps_effective_release_class spec = Some Class_StatefulBreaking)
  | Profile_KamalCandidateDeploy =>
      ps_phase spec = Phase_Deploying ∧ is_Some (ps_verified_base_backup_chain_digest spec)
      ∧ (is_Some (ps_fence_receipt_digest spec)
         ↔ is_stateful (ps_effective_release_class spec) = true)
  | Profile_KamalBootstrapDeploy =>
      ps_phase spec = Phase_Deploying
      ∧ ps_runtime_release_state spec = Some Runtime_NeverInstalled
      ∧ ps_verified_base_backup_chain_digest spec = None ∧ ps_fence_receipt_digest spec = None
  | _ => True
  end.

Lemma expected_profiles_evidence spec profiles profile :
  expected_profiles spec = Ok profiles → profile ∈ profiles.*1 → profile_evidence spec profile.
Proof.
  unfold expected_profiles. intros Hok Hin. inv_ok.
  destruct (ps_phase spec) eqn:Hphase; try done;
    unfold expected_backup_profiles, expected_drain_profiles, expected_cutover_profiles,
      expected_migration_profiles, expected_deployment_profiles, expected_health_profiles,
      expected_soak_profiles, expected_rollback_profiles in Hok;
    inv_ok; repeat case_ok; simpl in Hin;
    repeat (apply elem_of_cons in Hin as [->|Hin]); try by apply not_elem_of_nil in Hin.
  all: unfold profile_evidence; try done; bool_prop; destruct_and!; split_and!; try done.
  - rewrite <- is_some_is_Some, <- (bool_decide_eq_true (_ = Some Class_StatefulBreaking)).
    match goal with He : eqb _ _ = true |- _ => by apply eqb_prop in He as -> end.
  - by destruct (ps_verified_base_backup_chain_digest spec).
  - rewrite <- is_some_is_Some.
    match goal with He : eqb _ _ = true |- _ => by apply eqb_prop in He as -> end.
Qed.

(** C32: Privileged profiles need their evidence: a valid spec contains a migration step
    only for a stateful deployment that names a verified base and cutover backup and
    holds a fence, with a mutation grant exactly when the release is breaking; a
    candidate deployment names a verified base backup, and holds a fence exactly when
    it is stateful; the first installation of a project comes with no backup and no
    fence; and no spec runs one profile twice. *)
Theorem privileged_steps_need_evidence spec :
  PhaseSpec_has_valid_digest spec = Ok true →
  NoDup (st_profile <$> ps_steps spec)
  ∧ ∀ step, step ∈ ps_steps spec → profile_evidence spec (st_profile step).
Proof.
  intros (profiles&Hprof&Hlen&Hdup&Hsteps)%valid_spec_steps. unfold StepProfile in *.
  assert (st_profile <$> ps_steps spec = profiles.*1) as Heq.
  { apply list_eq. intros i. rewrite !list_lookup_fmap.
    destruct (ps_steps spec !! i) as [step|] eqn:Hi; simpl.
    - destruct (Hsteps _ _ Hi) as (profile&->&_&Hp&_). simpl. by rewrite Hp.
    - apply lookup_ge_None in Hi. rewrite (lookup_ge_None_2 profiles); [done|lia]. }
  rewrite Heq. split; [done|]. intros step Hin. eapply expected_profiles_evidence; [done|].
  rewrite <- Heq. by apply list_elem_of_fmap_2.
Qed.
End PhaseAuthoritySpec.

(** ** Canonical documents *)

Section Documents.
Context `{!Sha256, !Jcs BackupUnitDigestPayload, !Jcs AuthorizedBackupSpecDigestPayload,
  !Jcs BackupManifestDigestPayload, !Jcs LocalBackupEvidenceDigestPayload,
  !Jcs ProviderUploadReceiptDigestPayload, !Jcs OffsiteVerificationDigestPayload,
  !Jcs VerifiedBackupChainDigestPayload, !Jcs AuthorizedPhaseSpecDigestPayload,
  !Jcs FixedAdapterRequestV1}.
Context `{!Jcs AuthorizedBackupSpecV1, !JsonSlice AuthorizedBackupSpecV1,
  !JcsRoundTrip AuthorizedBackupSpecV1}.
Context `{!Jcs BackupManifestV1, !JsonSlice BackupManifestV1, !JcsRoundTrip BackupManifestV1}.
Context `{!Jcs VerifiedBackupChainV1, !JsonSlice VerifiedBackupChainV1,
  !JcsRoundTrip VerifiedBackupChainV1}.
Context `{!Jcs AuthorizedPhaseSpecV1, !JsonSlice AuthorizedPhaseSpecV1,
  !JcsRoundTrip AuthorizedPhaseSpecV1}.

#[global] Instance phase_spec_document : CanonicalDocument AuthorizedPhaseSpecV1 Phase6ContractError :=
  {| document_bytes := PhaseSpec_canonical_bytes; decode_document := PhaseSpec_decode_canonical |}.

#[global] Instance phase_spec_document_law :
  CanonicalDocumentLaw AuthorizedPhaseSpecV1 Phase6ContractError.
Proof.
  intros spec bytes. simpl. unfold PhaseSpec_decode_canonical, PhaseSpec_canonical_bytes. split.
  - intros Hok. apply result_bind_Ok in Hok as (d&Hd%phase6_decode_Ok&Hok).
    destruct (PhaseSpec_has_valid_digest d) as [[]|] eqn:Hv; simplify_eq/=. rewrite Hv. simpl.
    by rewrite Hd.
  - intros Hok. destruct (PhaseSpec_has_valid_digest spec) as [[]|] eqn:Hv; simplify_eq/=.
    apply map_err_Ok in Hok. rewrite (proj2 (phase6_decode_Ok bytes spec) Hok). simpl. by rewrite Hv.
Qed.

(** The documents of authority are bijective with their encodings: the strict
    decoders of backup specs, backup manifests, verified chains and phase specs return
    a document exactly on the canonical bytes of that (valid) document, so a stored
    digest of the bytes identifies the document. *)
Theorem authority_documents_decode_from_canonical_bytes_only bytes :
  (∀ spec : AuthorizedBackupSpecV1,
     BackupSpec_decode_canonical bytes = Ok spec ↔ BackupSpec_canonical_bytes spec = Ok bytes)
  ∧ (∀ manifest : BackupManifestV1,
     BackupManifest_decode_canonical bytes = Ok manifest
     ↔ BackupManifest_canonical_bytes manifest = Ok bytes)
  ∧ (∀ chain : VerifiedBackupChainV1,
     BackupChain_decode_canonical bytes = Ok chain ↔ BackupChain_canonical_bytes chain = Ok bytes)
  ∧ (∀ spec : AuthorizedPhaseSpecV1,
     PhaseSpec_decode_canonical bytes = Ok spec ↔ PhaseSpec_canonical_bytes spec = Ok bytes).
Proof.
  split_and!; intros document.
  - exact (decode_document_Ok document bytes).
  - exact (decode_document_Ok document bytes).
  - exact (decode_document_Ok document bytes).
  - exact (decode_document_Ok document bytes).
Qed.
End Documents.
