(* ===== verification/PhaseJournal.v ===== *)
(** * The executor's phase journal

    Model of the phase operations of [src/src/store/security.rs]
    ([SecurityStore]): the authorization of an attempt, the journal of the phases an
    attempt runs (intent, observation, verification, receipt), the authorized specs,
    verified backup chains, mutation grants and bootstrap claims a phase rests on,
    the source-gate proofs, the rollback takeover and the backup boundary. *)

From Stdlib Require Import ZArith Lia Ascii String.
From stdpp Require Import base gmap strings option list_numbers list.
From S2P Require Import Prelude Identifiers States Text Failure Operation Errors Budget Controller.
From S2P Require Import SecurityDb Resources Fences Ordered Backup PhaseAuthority.

Local Open Scope Z_scope.

Definition MAX_VERIFIED_BACKUP_CHAIN_DOCUMENT_BYTES : Z := 16 * 1024 * 1024.
Definition MAX_AUTHORIZED_PHASE_SPEC_BYTES : Z := 256 * 1024.

(** ** Data *)

Record ExecutorAuthorization : Type := MkExecutorAuthorization {
  ea_authorization_id : Uuid;
  ea_digest : EvidenceDigest;
  ea_attempt_id : Uuid;
  ea_project_id : ProjectId;
  ea_expires_at_ms : Z;
  ea_disk_reservation : option AuthorizedDiskReservation
}.

Record PhaseJournalEntry : Type := MkPhaseJournalEntry {
  pe_attempt_id : Uuid;
  pe_project_id : ProjectId;
  pe_phase : OperationPhase;
  pe_intent_digest : EvidenceDigest;
  pe_observation_digest : option EvidenceDigest;
  pe_artifacts : PhaseArtifacts;
  pe_status : PhaseJournalStatus;
  pe_updated_at_ms : Z
}.
#[global] Instance PhaseJournalEntry_eta : Eta PhaseJournalEntry := λ r,
  MkPhaseJournalEntry (pe_attempt_id r) (pe_project_id r) (pe_phase r) (pe_intent_digest r)
  (pe_observation_digest r) (pe_artifacts r) (pe_status r) (pe_updated_at_ms r).

Record AuthorizedPhaseSpecRecord : Type := MkAuthorizedPhaseSpecRecord {
  sr_attempt_id : Uuid;
  sr_project_id : ProjectId;
  sr_phase : OperationPhase;
  sr_branch : ExecutorPhaseBranch;
  sr_intent_digest : EvidenceDigest;
  sr_spec_digest : EvidenceDigest;
  sr_document_digest : EvidenceDigest;
  sr_canonical_json : list Z;
  sr_persisted_at_ms : Z
}.

Record AuthorizedPhaseSpecBinding : Type := MkAuthorizedPhaseSpecBinding {
  sb_attempt_id : Uuid;
  sb_project_id : ProjectId;
  sb_phase : OperationPhase;
  sb_branch : ExecutorPhaseBranch;
  sb_intent_digest : EvidenceDigest;
  sb_spec_digest : EvidenceDigest;
  sb_canonical_json : list Z;
  sb_persisted_at_ms : Z
}.

Record AuthorizedPhasePermitV1 : Type := MkAuthorizedPhasePermitV1 {
  pp_attempt_id : Uuid;
  pp_project_id : ProjectId;
  pp_phase : OperationPhase;
  pp_branch : ExecutorPhaseBranch;
  pp_intent_digest : EvidenceDigest;
  pp_spec_digest : EvidenceDigest;
  pp_document_digest : EvidenceDigest
}.

Record VerifiedBackupChainRecord : Type := MkVerifiedBackupChainRecord {
  cr_attempt_id : Uuid;
  cr_project_id : ProjectId;
  cr_phase : OperationPhase;
  cr_branch : ExecutorPhaseBranch;
  cr_authorized_phase_spec_digest : EvidenceDigest;
  cr_chain_digest : EvidenceDigest;
  cr_document_digest : EvidenceDigest;
  cr_canonical_json : list Z;
  cr_persisted_at_ms : Z
}.

Record VerifiedBackupChainBinding : Type := MkVerifiedBackupChainBinding {
  cb_attempt_id : Uuid;
  cb_project_id : ProjectId;
  cb_phase : OperationPhase;
  cb_branch : ExecutorPhaseBranch;
  cb_authorized_phase_spec_digest : EvidenceDigest;
  cb_chain : VerifiedBackupChainV1;
  cb_persisted_at_ms : Z
}.

Record PreparedVerifiedBackupChain : Type := MkPreparedVerifiedBackupChain {
  pv_storage_phase : string;
  pv_canonical_json : list Z;
  pv_document_digest : EvidenceDigest
}.

Record SourceGateProofRecord : Type := MkSourceGateProofRecord {
  sg_attempt_id : Uuid;
  sg_phase : OperationPhase;
  sg_proof_digest : EvidenceDigest;
  sg_project_id : ProjectId;
  sg_source_sequence : Z;
  sg_attestation_digest : EvidenceDigest;
  sg_checked_at_ms : Z
}.

Record ExecutorPhasePlan : Type := MkExecutorPhasePlan {
  ep_ordered_phases : list OperationPhase;
  ep_recovery_rollback_allowed : bool
}.

Record PhaseIntentRequest : Type := MkPhaseIntentRequest {
  pi_attempt_id : Uuid;
  pi_project_id : ProjectId;
  pi_phase : OperationPhase;
  pi_branch : ExecutorPhaseBranch;
  pi_phase_plan : ExecutorPhasePlan;
  pi_intent_digest : EvidenceDigest;
  pi_authorization_digest : EvidenceDigest;
  pi_started_at_ms : Z
}.

Record PhaseObservationRequest : Type := MkPhaseObservationRequest {
  po_attempt_id : Uuid;
  po_phase : OperationPhase;
  po_branch : ExecutorPhaseBranch;
  po_observed_intent_digest : EvidenceDigest;
  po_observation_digest : EvidenceDigest;
  po_artifacts : PhaseArtifacts;
  po_observed_at_ms : Z
}.

Inductive ObservationAcceptance : Type :=
| Acceptance_Accepted
| Acceptance_NeedsReconcile.

(** The codecs the phase operations use: the JSON columns, the canonical documents
    and the payloads of their digests. *)
Class PhaseCodecs := {
  codec_sha :: Sha256;
  codec_reservation :: Json AuthorizedDiskReservation;
  codec_reservation_text :: EqDecision (json_text AuthorizedDiskReservation);
  codec_artifacts :: Json PhaseArtifacts;
  codec_receipt :: Json PhaseReceipt;
  codec_reservation_payload :: Jcs ReservationPayload;
  codec_receipt_payload :: Jcs ReceiptDigestPayload;
  codec_lease_payload :: Jcs FenceLeaseDigestPayload;
  codec_fence_payload :: Jcs FenceAcquisitionReceiptDigestPayload;
  codec_unit_payload :: Jcs BackupUnitDigestPayload;
  codec_backup_payload :: Jcs AuthorizedBackupSpecDigestPayload;
  codec_manifest_payload :: Jcs BackupManifestDigestPayload;
  codec_local_payload :: Jcs LocalBackupEvidenceDigestPayload;
  codec_upload_payload :: Jcs ProviderUploadReceiptDigestPayload;
  codec_offsite_payload :: Jcs OffsiteVerificationDigestPayload;
  codec_chain_payload :: Jcs VerifiedBackupChainDigestPayload;
  codec_chain :: Jcs VerifiedBackupChainV1;
  codec_chain_slice :: JsonSlice VerifiedBackupChainV1;
  codec_spec_payload :: Jcs AuthorizedPhaseSpecDigestPayload;
  codec_request :: Jcs FixedAdapterRequestV1;
  codec_spec :: Jcs AuthorizedPhaseSpecV1;
  codec_spec_slice :: JsonSlice AuthorizedPhaseSpecV1
}.

Section PhaseJournal.
Context `{!PhaseCodecs}.

Abbreviation SecurityTx := (Tx SecurityDb StoreError).

(** ** Statements *)

(** [UPDATE executor_phase_journal SET .. WHERE attempt_id = ? AND phase = ? AND
    guard]: the number of rows. *)
Definition update_journal (attempt_id : Uuid) (storage_phase : string)
    (guard : PhaseJournalRow → bool) (f : PhaseJournalRow → PhaseJournalRow) : SecurityTx Z :=
  let? journal := gets executor_phase_journal in
  match journal !! (attempt_id, storage_phase) with
  | Some row =>
      if guard row then
        let? _ := modify (λ db, db <| executor_phase_journal :=
          <[(attempt_id, storage_phase) := f row]> (executor_phase_journal db) |>) in
        tx_ok 1
      else tx_ok 0
  | None => tx_ok 0
  end.

Definition insert_journal (attempt_id : Uuid) (storage_phase : string) (row : PhaseJournalRow)
    : SecurityTx unit :=
  let? journal := gets executor_phase_journal in
  let? _ := lift (ensure (is_none (journal !! (attempt_id, storage_phase)))
                    (Sqlite PrimaryKeyViolation)) in
  modify (λ db, db <| executor_phase_journal :=
                        <[(attempt_id, storage_phase) := row]> (executor_phase_journal db) |>).

Definition insert_receipt (attempt_id : Uuid) (storage_phase : string) (row : PhaseReceiptRow)
    : SecurityTx unit :=
  let? receipts := gets executor_phase_receipts in
  let? journal := gets executor_phase_journal in
  let? _ := lift (ensure (is_none (receipts !! (attempt_id, storage_phase)))
                    (Sqlite PrimaryKeyViolation)) in
  let? _ := lift (ensure (negb (row_exists (λ _ other,
                pc_receipt_digest other == pc_receipt_digest row) receipts))
              (Sqlite UniqueViolation)) in
  let? _ := lift (ensure (is_some (journal !! (attempt_id, storage_phase)))
                    (Sqlite ForeignKeyViolation)) in
  modify (λ db, db <| executor_phase_receipts :=
                        <[(attempt_id, storage_phase) := row]> (executor_phase_receipts db) |>).

Definition not_committed (row : PhaseJournalRow) : bool := pj_status row != "committed"%string.

(** The keys of the journal rows of an attempt that satisfy [p]. *)
Definition journal_phases (attempt_id : Uuid) (p : PhaseJournalRow → bool) (db : SecurityDb)
    : list string :=
  (λ row, row.1.2) <$> select_rows (λ key row, (key.1 == attempt_id) && p row)
                         (executor_phase_journal db).

(** ** Authorization of attempts *)

Definition validate_disk_reservation_authorization (authorization : ExecutorAuthorization)
    : Result StoreError unit :=
  match ea_disk_reservation authorization with
  | None => Ok tt
  | Some claim =>
      let? digest_is_valid := map_err JsonError (has_valid_reservation_digest claim) in
      if (ad_operation_digest claim != ea_digest authorization) || negb digest_is_valid
         || (ad_required_bytes claim =? 0) || (ad_emergency_reserve_bytes claim =? 0)
         || (ad_required_bytes claim <=? ad_emergency_reserve_bytes claim)
         || (ad_available_bytes claim <? ad_required_bytes claim)
         || (ad_observed_at_ms claim <? 0)
         || is_none (i64_try_from (ad_required_bytes claim))
         || is_none (i64_try_from (ad_available_bytes claim))
         || is_none (i64_try_from (ad_emergency_reserve_bytes claim))
      then Err DiskReservationAuthorizationInvalid
      else Ok tt
  end.

(** [Option::map(to_string).transpose()?]. *)
Definition reservation_json (reservation : option AuthorizedDiskReservation)
    : Result StoreError (option (json_text AuthorizedDiskReservation)) :=
  match reservation with
  | None => Ok None
  | Some claim => let? json := map_err JsonError (json_to_string claim) in Ok (Some json)
  end.

Definition authorize_attempt (authorization : ExecutorAuthorization) (consumed_at_ms : Z)
    (db : SecurityDb) : SecurityDb * Result StoreError unit :=
  if is_nil (ea_authorization_id authorization) || is_nil (ea_attempt_id authorization)
  then (db, Err (InvalidControllerInput "executor authorization identities must not be nil"))
  else if ea_expires_at_ms authorization <=? consumed_at_ms then (db, Err GrantExpired)
  else match validate_disk_reservation_authorization authorization with
  | Err e => (db, Err e)
  | Ok _ =>
  match reservation_json (ea_disk_reservation authorization) with
  | Err e => (db, Err e)
  | Ok disk_reservation_json =>
  immediate_transaction (
    let? stored := gets (λ db, head (select_rows (λ _ row,
      ar_authorization_id row == ea_authorization_id authorization)
      (executor_authorizations db))) in
    match stored with
    | Some (attempt_id, row) =>
        if (ar_digest row == ea_digest authorization)
           && (attempt_id == ea_attempt_id authorization)
           && (ar_project_id row == ea_project_id authorization)
           && (ar_expires_at_ms row =? ea_expires_at_ms authorization)
           && (ar_disk_reservation_json row == disk_reservation_json)
        then tx_ok tt
        else tx_err ExecutorAuthorizationReplay
    | None =>
        let? existing := gets (λ db, executor_authorizations db !! ea_attempt_id authorization) in
        if is_some existing then tx_err ExecutorAuthorizationReplay
        else modify (λ db, db <| executor_authorizations :=
          <[ea_attempt_id authorization :=
              MkAuthorizationRow (ea_authorization_id authorization) (ea_digest authorization)
                (ea_project_id authorization) (ea_expires_at_ms authorization) consumed_at_ms
                disk_reservation_json]> (executor_authorizations db) |>)
    end) db
  end end.

Definition executor_authorization (attempt_id : Uuid) (db : SecurityDb)
    : Result StoreError (option ExecutorAuthorization) :=
  if is_nil attempt_id
  then Err (InvalidControllerInput "executor attempt identity must not be nil")
  else
    match executor_authorizations db !! attempt_id with
    | None => Ok None
    | Some row =>
        let? disk_reservation :=
          match ar_disk_reservation_json row with
          | None => Ok None
          | Some json =>
              let? claim := map_err (λ _, CorruptSecurityJournal
                "executor authorization disk reservation") (json_from_str json) in
              Ok (Some claim)
          end in
        let authorization :=
          MkExecutorAuthorization (ar_authorization_id row) (ar_digest row) attempt_id
            (ar_project_id row) (ar_expires_at_ms row) disk_reservation in
        let? _ := validate_disk_reservation_authorization authorization in
        Ok (Some authorization)
    end.

(** ** Reads *)

Definition load_phase_entry (attempt_id : Uuid) (storage_phase : string)
    (expected_phase : OperationPhase) (db : SecurityDb)
    : Result StoreError (option PhaseJournalEntry) :=
  match executor_phase_journal db !! (attempt_id, storage_phase) with
  | None => Ok None
  | Some row =>
      let? artifacts := map_err JsonError (json_from_str (pj_artifacts_json row)) in
      let? status := PhaseJournalStatus_parse (pj_status row) in
      Ok (Some {| pe_attempt_id := attempt_id;
                  pe_project_id := pj_project_id row;
                  pe_phase := expected_phase;
                  pe_intent_digest := pj_intent_digest row;
                  pe_observation_digest := pj_observation_digest row;
                  pe_artifacts := artifacts;
                  pe_status := status;
                  pe_updated_at_ms := pj_updated_at_ms row |})
  end.

(** [load_phase_entry(..)?.ok_or(StoreError::ExecutorPhaseState)?]. *)
Definition require_phase_entry (attempt_id : Uuid) (storage_phase : string)
    (phase : OperationPhase) : SecurityTx PhaseJournalEntry :=
  let? entry := query (load_phase_entry attempt_id storage_phase phase) in
  lift (ok_or ExecutorPhaseState entry).

Definition load_authorized_phase_spec (attempt_id : Uuid) (storage_phase : string)
    (phase : OperationPhase) (branch : ExecutorPhaseBranch) (db : SecurityDb)
    : option AuthorizedPhaseSpecRecord :=
  match authorized_phase_specs db !! (attempt_id, storage_phase) with
  | None => None
  | Some row => Some {|
      sr_attempt_id := attempt_id;
      sr_project_id := sp_project_id row;
      sr_phase := phase;
      sr_branch := branch;
      sr_intent_digest := sp_intent_digest row;
      sr_spec_digest := sp_spec_digest row;
      sr_document_digest := sp_document_digest row;
      sr_canonical_json := sp_canonical_json row;
      sr_persisted_at_ms := sp_persisted_at_ms row |}
  end.

Definition chain_record (attempt_id : Uuid) (phase : OperationPhase)
    (branch : ExecutorPhaseBranch) (row : BackupChainRow) : VerifiedBackupChainRecord := {|
  cr_attempt_id := attempt_id;
  cr_project_id := bc_project_id row;
  cr_phase := phase;
  cr_branch := branch;
  cr_authorized_phase_spec_digest := bc_authorized_phase_spec_digest row;
  cr_chain_digest := bc_chain_digest row;
  cr_document_digest := bc_document_digest row;
  cr_canonical_json := bc_canonical_json row;
  cr_persisted_at_ms := bc_persisted_at_ms row
|}.

Definition load_verified_backup_chain (attempt_id : Uuid) (storage_phase : string)
    (phase : OperationPhase) (branch : ExecutorPhaseBranch) (db : SecurityDb)
    : Result StoreError (option VerifiedBackupChainRecord) :=
  match verified_backup_chains db !! (attempt_id, storage_phase) with
  | None => Ok None
  | Some row =>
      let record := chain_record attempt_id phase branch row in
      let? chain := map_err (λ _, CorruptSecurityJournal "verified backup chain document")
                      (BackupChain_decode_canonical (cr_canonical_json record)) in
      if (vc_chain_digest chain != cr_chain_digest record)
         || (EvidenceDigest_sha256 (cr_canonical_json record) != cr_document_digest record)
      then Err (CorruptSecurityJournal "verified backup chain row binding")
      else Ok (Some record)
  end.

Definition journal_committed (db : SecurityDb) (key : Uuid * string) : bool :=
  match executor_phase_journal db !! key with
  | Some row => pj_status row == "committed"%string
  | None => false
  end.

Definition load_committed_base_backup_chain_by_digest (project_id : ProjectId)
    (chain_digest : EvidenceDigest) (db : SecurityDb)
    : Result StoreError (option VerifiedBackupChainRecord) :=
  let? storage_phase := storage_key Branch_Primary Phase_BackingUp in
  match head (select_rows (λ key row,
          (bc_project_id row == project_id) && (key.2 == storage_phase)
          && (bc_chain_digest row == chain_digest) && journal_committed db key)
          (verified_backup_chains db)) with
  | None => Ok None
  | Some ((attempt_id, _), _) =>
      let? record := load_verified_backup_chain attempt_id storage_phase Phase_BackingUp
                       Branch_Primary db in
      let? record := ok_or (CorruptSecurityJournal "verified backup chain lookup") record in
      Ok (Some record)
  end.

(** [ORDER BY journal.updated_at_ms DESC, chains.persisted_at_ms DESC,
    chains.attempt_id DESC]. *)
Definition latest_chain_compare (db : SecurityDb) (a b : (Uuid * string) * BackupChainRow)
    : comparison :=
  let updated row := match executor_phase_journal db !! row with
                     | Some journal => pj_updated_at_ms journal | None => 0 end in
  pair_compare (updated b.1 ?= updated a.1)
    (pair_compare (bc_persisted_at_ms b.2 ?= bc_persisted_at_ms a.2) (b.1.1 ?= a.1.1)%N).

Definition load_latest_committed_base_backup_chain (project_id : ProjectId) (db : SecurityDb)
    : Result StoreError (option VerifiedBackupChainRecord) :=
  let? storage_phase := storage_key Branch_Primary Phase_BackingUp in
  match head (sort_by (latest_chain_compare db) (select_rows (λ key row,
          (bc_project_id row == project_id) && (key.2 == storage_phase) && journal_committed db key)
          (verified_backup_chains db))) with
  | None => Ok None
  | Some ((attempt_id, _), row) =>
      let record := chain_record attempt_id Phase_BackingUp Branch_Primary row in
      let? chain := map_err (λ _, CorruptSecurityJournal "verified backup chain document")
                      (BackupChain_decode_canonical (cr_canonical_json record)) in
      if (vc_snapshot_kind chain != Snapshot_Base)
         || (abs_attempt_id (vc_authorized_spec chain) != cr_attempt_id record)
         || (abs_project_id (vc_authorized_spec chain) != cr_project_id record)
         || (vc_chain_digest chain != cr_chain_digest record)
         || (EvidenceDigest_sha256 (cr_canonical_json record) != cr_document_digest record)
      then Err (CorruptSecurityJournal "verified backup chain row binding")
      else Ok (Some record)
  end.

(** ** Phase order *)

Definition require_branch_not_taken_over (attempt_id : Uuid) (branch : ExecutorPhaseBranch)
    : SecurityTx unit :=
  if branch == Branch_Primary then
    let? takeover := query (load_rollback_takeover attempt_id) in
    if is_some takeover then tx_err ExecutorPhaseOrder else tx_ok tt
  else tx_ok tt.

Definition normal_phase_sets (ordered : list OperationPhase) (phase : OperationPhase)
    : Result StoreError (list OperationPhase * list OperationPhase) :=
  let? position := ok_or ExecutorPhaseOrder (position (λ candidate, candidate == phase) ordered) in
  Ok (take position ordered, take (S position) ordered).

(** The loop over [primary_keys]: the committed ones form a prefix. *)
Fixpoint committed_prefix (committed : list string) (prefix_ended : bool)
    (primary_keys : list string) : bool :=
  match primary_keys with
  | [] => true
  | key :: rest =>
      if bool_decide (key ∈ committed)
      then if prefix_ended then false else committed_prefix committed prefix_ended rest
      else committed_prefix committed true rest
  end.

Definition require_rollback_recovery_prerequisites (ordered : list OperationPhase)
    (phase : OperationPhase) (recovery_rollback_allowed : bool) (committed : list string)
    : Result StoreError unit :=
  if negb recovery_rollback_allowed then Err ExecutorPhaseOrder
  else
    let? deploy_position := ok_or ExecutorPhaseOrder
      (position (λ candidate, candidate == Phase_Deploying) ordered) in
    let primary_keys := phase_name <$> ordered in
    if negb (committed_prefix committed false primary_keys) then Err ExecutorPhaseOrder
    else if existsb (λ required, bool_decide (required ∉ committed))
              (take (S deploy_position) primary_keys)
    then Err ExecutorPhaseOrder
    else
      let? rollback := storage_key Branch_RollbackRecovery Phase_Rollback in
      let? health := storage_key Branch_RollbackRecovery Phase_HealthChecking in
      let? soaking := storage_key Branch_RollbackRecovery Phase_Soaking in
      let? branch_sets :=
        match phase with
        | Phase_Rollback => Ok ([], [rollback])
        | Phase_HealthChecking => Ok ([rollback], [rollback; health])
        | Phase_Soaking => Ok ([rollback; health], [rollback; health; soaking])
        | _ => Err ExecutorPhaseOrder
        end in
      let '(required_branch, allowed_branch) := branch_sets in
      if existsb (λ required, bool_decide (required ∉ committed)) required_branch
         || existsb (λ value, bool_decide (value ∉ primary_keys)
                              && bool_decide (value ∉ allowed_branch)) committed
      then Err ExecutorPhaseOrder
      else Ok tt.

Definition require_phase_prerequisites (attempt_id : Uuid) (phase : OperationPhase)
    (branch : ExecutorPhaseBranch) (phase_plan : ExecutorPhasePlan) : SecurityTx unit :=
  let ordered := ep_ordered_phases phase_plan in
  if (ordered == [])
     || any_from (λ index candidate, bool_decide (candidate ∈ take index ordered)) 0 ordered
     || bool_decide (Phase_Reconciliation ∈ ordered)
  then tx_err ExecutorPhaseOrder
  else
    let? committed := gets (journal_phases attempt_id (λ row, negb (not_committed row))) in
    let? rollback_takeover := query (load_rollback_takeover attempt_id) in
    match branch with
    | Branch_Primary =>
        if is_some rollback_takeover then tx_err ExecutorPhaseOrder
        else
          let? sets := lift (normal_phase_sets ordered phase) in
          let '(required, allowed) := sets in
          if existsb (λ required_phase, bool_decide (phase_name required_phase ∉ committed)) required
             || existsb (λ value, bool_decide (value ∉ phase_name <$> allowed)) committed
          then tx_err ExecutorPhaseOrder
          else tx_ok tt
    | Branch_RollbackRecovery =>
        lift (require_rollback_recovery_prerequisites ordered phase
                (ep_recovery_rollback_allowed phase_plan) committed)
    end.

Definition has_uncommitted_phase_conflict (attempt_id : Uuid) (branch : ExecutorPhaseBranch)
    : SecurityTx bool :=
  let? takeover :=
    if branch == Branch_RollbackRecovery then query (load_rollback_takeover attempt_id)
    else tx_ok None in
  let ignored_forward_phase := (λ takeover, phase_name (rt_forward_phase takeover)) <$> takeover in
  let? phases := gets (journal_phases attempt_id not_committed) in
  tx_ok (existsb (λ phase, Some phase != ignored_forward_phase) phases).

Definition mark_needs_reconcile (updated_at_ms : Z) (row : PhaseJournalRow) : PhaseJournalRow :=
  row <| pj_status := "needs_reconcile" |> <| pj_updated_at_ms := updated_at_ms |>.

(** The private function of that name, over a storage key. *)
Definition mark_phase_needs_reconcile_at (attempt_id : Uuid) (storage_phase : string)
    (updated_at_ms : Z) : SecurityTx unit :=
  let? changed := update_journal attempt_id storage_phase not_committed
                    (mark_needs_reconcile updated_at_ms) in
  lift (ensure (changed =? 1) ExecutorPhaseState).

(** ** Intents *)

Definition validate_phase_start (attempt_id : Uuid) (project_id : ProjectId)
    (phase : OperationPhase) (branch : ExecutorPhaseBranch) (phase_plan : ExecutorPhasePlan)
    (authorization_digest : EvidenceDigest) (db : SecurityDb)
    : SecurityDb * Result StoreError unit :=
  immediate_transaction (
    let? _ := require_authorized_for_project attempt_id project_id (Some authorization_digest) in
    require_phase_prerequisites attempt_id phase branch phase_plan) db.

(** A body that needs a storage key: its failure precedes the transaction. *)
Definition with_storage_key {A} (branch : ExecutorPhaseBranch) (phase : OperationPhase)
    (body : string → SecurityTx A) (db : SecurityDb) : SecurityDb * Result StoreError A :=
  match storage_key branch phase with
  | Ok storage_phase => immediate_transaction (body storage_phase) db
  | Err e => (db, Err e)
  end.

Definition begin_phase_intent (request : PhaseIntentRequest) (db : SecurityDb)
    : SecurityDb * Result StoreError PhaseJournalEntry :=
  let attempt_id := pi_attempt_id request in
  let project_id := pi_project_id request in
  let phase := pi_phase request in
  let intent_digest := pi_intent_digest request in
  let started_at_ms := pi_started_at_ms request in
  with_storage_key (pi_branch request) phase (λ storage_phase,
    let? _ := require_authorized_for_project attempt_id project_id
                (Some (pi_authorization_digest request)) in
    let? _ := require_phase_prerequisites attempt_id phase (pi_branch request)
                (pi_phase_plan request) in
    let? existing := query (load_phase_entry attempt_id storage_phase phase) in
    match existing with
    | Some existing =>
        if (pe_project_id existing == project_id) && (pe_intent_digest existing == intent_digest)
        then tx_ok existing
        else
          let? _ := mark_phase_needs_reconcile_at attempt_id storage_phase started_at_ms in
          tx_ok (existing <| pe_status := Journal_NeedsReconcile |>
                          <| pe_updated_at_ms := started_at_ms |>)
    | None =>
        let? conflict := has_uncommitted_phase_conflict attempt_id (pi_branch request) in
        if (conflict : bool) then tx_err ExecutorPhaseConflict
        else
          let? json := lift (map_err JsonError (json_to_string PhaseArtifacts_default)) in
          let? _ := insert_journal attempt_id storage_phase
            (MkPhaseJournalRow project_id intent_digest None json "intent_persisted" started_at_ms
               started_at_ms) in
          tx_ok {| pe_attempt_id := attempt_id;
                   pe_project_id := project_id;
                   pe_phase := phase;
                   pe_intent_digest := intent_digest;
                   pe_observation_digest := None;
                   pe_artifacts := PhaseArtifacts_default;
                   pe_status := Journal_IntentPersisted;
                   pe_updated_at_ms := started_at_ms |}
    end) db.

Definition phase_entry_in_branch (attempt_id : Uuid) (phase : OperationPhase)
    (branch : ExecutorPhaseBranch) (db : SecurityDb)
    : Result StoreError (option PhaseJournalEntry) :=
  let? storage_phase := storage_key branch phase in
  load_phase_entry attempt_id storage_phase phase db.

Definition phase_entry (attempt_id : Uuid) (phase : OperationPhase) (db : SecurityDb)
    : Result StoreError (option PhaseJournalEntry) :=
  phase_entry_in_branch attempt_id phase Branch_Primary db.

(** ** Rollback takeover *)

Definition require_rollback_fence_available (attempt_id : Uuid) (project_id : ProjectId)
    : SecurityTx unit :=
  let? fence := query (load_active_fence project_id) in
  match fence with
  | Some active_fence =>
      if (fl_attempt_id active_fence != attempt_id) || (fl_state active_fence != Fence_Held)
      then tx_err FenceReleaseUnsafe
      else tx_ok tt
  | None =>
      let? latest := query (load_latest_fence project_id) in
      match latest with
      | Some latest =>
          if (fl_attempt_id latest == attempt_id) && (fl_state latest == Fence_Released)
          then tx_err FenceReleaseUnsafe
          else tx_ok tt
      | None => tx_ok tt
      end
  end.

Definition recovery_keys : list string :=
  ["rollback_recovery"; "rollback_recovery_health_checking"; "rollback_recovery_soaking"]%string.

Definition forward_rank (phase : string) : Z :=
  if phase == "deploying"%string then 1
  else if phase == "health_checking"%string then 2
  else if phase == "soaking"%string then 3
  else 0.

Definition phase_key_compare (a b : (Uuid * string) * PhaseJournalRow) : comparison :=
  str_compare a.1.2 b.1.2.
Definition forward_rank_desc (a b : (Uuid * string) * PhaseJournalRow) : comparison :=
  forward_rank b.1.2 ?= forward_rank a.1.2.

Definition health_or_soaking (phase : string) : bool :=
  (phase == "health_checking"%string) || (phase == "soaking"%string).
Definition deployed_phase (phase : string) : bool :=
  (phase == "deploying"%string) || health_or_soaking phase.

Definition select_rollback_forward_snapshot (attempt_id : Uuid) (project_id : ProjectId)
    (db : SecurityDb) : Result StoreError (string * PhaseJournalStatus * EvidenceDigest) :=
  let rows := sort_by phase_key_compare (select_rows (λ key row,
    (key.1 == attempt_id) && not_committed row && bool_decide (key.2 ∉ recovery_keys))
    (executor_phase_journal db)) in
  let? selected :=
    match rows with
    | ((key, row) as first) :: _ =>
        if negb (Nat.eqb (length rows) 1) || (pj_project_id row != project_id)
           || negb (health_or_soaking key.2)
        then Err ExecutorPhaseConflict
        else Ok first
    | [] =>
        ok_or ExecutorPhaseOrder (head (sort_by forward_rank_desc (select_rows (λ key row,
          (key.1 == attempt_id) && negb (not_committed row) && deployed_phase key.2)
          (executor_phase_journal db))))
    end in
  let '(key, row) := selected in
  if pj_project_id row != project_id then Err ExecutorAuthorizationBinding
  else
    let? status := PhaseJournalStatus_parse (pj_status row) in
    let allowed :=
      match status with
      | Journal_Committed => deployed_phase key.2
      | Journal_IntentPersisted | Journal_Observed | Journal_Verified
      | Journal_NeedsReconcile => health_or_soaking key.2
      end in
    if negb allowed then Err ExecutorPhaseConflict
    else Ok (key.2, status, pj_intent_digest row).

Definition insert_takeover (attempt_id : Uuid) (row : TakeoverRow) : SecurityTx unit :=
  let? takeovers := gets executor_rollback_takeovers in
  let? journal := gets executor_phase_journal in
  let? _ := lift (ensure (is_none (takeovers !! attempt_id)) (Sqlite PrimaryKeyViolation)) in
  let? _ := lift (ensure (deployed_phase (tk_forward_phase row)
                          && ((tk_forward_status row == "committed"%string)
                              || health_or_soaking (tk_forward_phase row)))
                    (Sqlite CheckViolation)) in
  let? _ := lift (ensure (is_some (journal !! (attempt_id, tk_forward_phase row)))
                    (Sqlite ForeignKeyViolation)) in
  modify (λ db, db <| executor_rollback_takeovers :=
                        <[attempt_id := row]> (executor_rollback_takeovers db) |>).

Definition begin_rollback_takeover (attempt_id : Uuid) (project_id : ProjectId)
    (authorization_digest : EvidenceDigest) (created_at_ms : Z) (db : SecurityDb)
    : SecurityDb * Result StoreError (option RollbackTakeover) :=
  immediate_transaction (
    let? _ := require_authorized_for_project attempt_id project_id (Some authorization_digest) in
    let? _ := require_rollback_fence_available attempt_id project_id in
    let? existing := query (load_rollback_takeover attempt_id) in
    match existing with
    | Some existing =>
        if rt_project_id existing != project_id
        then tx_err (CorruptSecurityJournal "rollback takeover project binding")
        else tx_ok (Some existing)
    | None =>
        let? snapshot := query (select_rollback_forward_snapshot attempt_id project_id) in
        let '(forward_phase, forward_status, forward_intent_digest) := snapshot in
        let? _ := insert_takeover attempt_id
          (MkTakeoverRow project_id forward_phase (PhaseJournalStatus_as_str forward_status)
             forward_intent_digest created_at_ms) in
        let? takeover := query (load_rollback_takeover attempt_id) in
        match takeover with
        | None => tx_err (CorruptSecurityJournal "rollback takeover disappeared")
        | Some takeover => tx_ok (Some takeover)
        end
    end) db.

Definition rollback_takeover (attempt_id : Uuid) (db : SecurityDb)
    : Result StoreError (option RollbackTakeover) := load_rollback_takeover attempt_id db.

(** ** Authorized specs *)

Definition decode_authorized_phase_spec_document (binding : AuthorizedPhaseSpecBinding)
    : Result StoreError AuthorizedPhaseSpecV1 :=
  let? spec := map_err (λ _, AuthorizedPhaseSpecInvalid)
                 (PhaseSpec_decode_canonical (sb_canonical_json binding)) in
  if (ps_attempt_id spec != sb_attempt_id binding)
     || (ps_project_id spec != sb_project_id binding)
     || (ps_phase spec != sb_phase binding)
     || (ps_branch spec != sb_branch binding)
     || (ps_intent_digest spec != sb_intent_digest binding)
     || (ps_spec_digest spec != sb_spec_digest binding)
  then Err Errors.AuthorizedPhaseSpecBinding
  else Ok spec.

Definition record_binding (attempt_id : Uuid) (phase : OperationPhase)
    (branch : ExecutorPhaseBranch) (record : AuthorizedPhaseSpecRecord)
    : AuthorizedPhaseSpecBinding := {|
  sb_attempt_id := attempt_id;
  sb_project_id := sr_project_id record;
  sb_phase := phase;
  sb_branch := branch;
  sb_intent_digest := sr_intent_digest record;
  sb_spec_digest := sr_spec_digest record;
  sb_canonical_json := sr_canonical_json record;
  sb_persisted_at_ms := sr_persisted_at_ms record
|}.

Definition validate_authorized_phase_spec_document (binding : AuthorizedPhaseSpecBinding)
    : Result StoreError unit :=
  let? _ := decode_authorized_phase_spec_document binding in Ok tt.

Definition insert_phase_spec (attempt_id : Uuid) (storage_phase : string) (row : PhaseSpecRow)
    : SecurityTx unit :=
  let? specs := gets authorized_phase_specs in
  let? journal := gets executor_phase_journal in
  let? _ := lift (ensure (is_none (specs !! (attempt_id, storage_phase)))
                    (Sqlite PrimaryKeyViolation)) in
  let? _ := lift (ensure (0 <=? sp_persisted_at_ms row) (Sqlite CheckViolation)) in
  let? _ := lift (ensure (is_some (journal !! (attempt_id, storage_phase)))
                    (Sqlite ForeignKeyViolation)) in
  modify (λ db, db <| authorized_phase_specs :=
                        <[(attempt_id, storage_phase) := row]> (authorized_phase_specs db) |>).

Definition bind_authorized_phase_spec (binding : AuthorizedPhaseSpecBinding) (db : SecurityDb)
    : SecurityDb * Result StoreError AuthorizedPhaseSpecRecord :=
  let attempt_id := sb_attempt_id binding in
  let canonical_json := sb_canonical_json binding in
  if is_nil attempt_id || (sb_persisted_at_ms binding <? 0) || (canonical_json == [])
     || (MAX_AUTHORIZED_PHASE_SPEC_BYTES <? Z.of_nat (length canonical_json))
  then (db, Err AuthorizedPhaseSpecInvalid)
  else
    match validate_authorized_phase_spec_document binding with
    | Err e => (db, Err e)
    | Ok _ =>
        let document_digest := EvidenceDigest_sha256 canonical_json in
        with_storage_key (sb_branch binding) (sb_phase binding) (λ storage_phase,
          let? _ := require_branch_not_taken_over attempt_id (sb_branch binding) in
          let? entry := require_phase_entry attempt_id storage_phase (sb_phase binding) in
          if (pe_project_id entry != sb_project_id binding)
             || (pe_intent_digest entry != sb_intent_digest binding)
             || (pe_status entry != Journal_IntentPersisted)
          then tx_err Errors.AuthorizedPhaseSpecBinding
          else
            let? existing := gets (load_authorized_phase_spec attempt_id storage_phase
                                     (sb_phase binding) (sb_branch binding)) in
            match existing with
            | Some existing =>
                if (sr_project_id existing == sb_project_id binding)
                   && (sr_intent_digest existing == sb_intent_digest binding)
                   && (sr_spec_digest existing == sb_spec_digest binding)
                   && (sr_document_digest existing == document_digest)
                   && (sr_canonical_json existing == canonical_json)
                then tx_ok existing
                else tx_err AuthorizedPhaseSpecConflict
            | None =>
                let? _ := insert_phase_spec attempt_id storage_phase
                  (MkPhaseSpecRow (sb_project_id binding) (sb_intent_digest binding)
                     (sb_spec_digest binding) document_digest canonical_json
                     (sb_persisted_at_ms binding)) in
                tx_ok {| sr_attempt_id := attempt_id;
                         sr_project_id := sb_project_id binding;
                         sr_phase := sb_phase binding;
                         sr_branch := sb_branch binding;
                         sr_intent_digest := sb_intent_digest binding;
                         sr_spec_digest := sb_spec_digest binding;
                         sr_document_digest := document_digest;
                         sr_canonical_json := canonical_json;
                         sr_persisted_at_ms := sb_persisted_at_ms binding |}
            end) db
    end.

Definition authorized_phase_spec_in_branch (attempt_id : Uuid) (phase : OperationPhase)
    (branch : ExecutorPhaseBranch) (db : SecurityDb)
    : Result StoreError (option AuthorizedPhaseSpecRecord) :=
  let? storage_phase := storage_key branch phase in
  Ok (load_authorized_phase_spec attempt_id storage_phase phase branch db).

(** ** Verified backup chains *)

Definition prepare_verified_backup_chain (binding : VerifiedBackupChainBinding)
    : Result StoreError PreparedVerifiedBackupChain :=
  let chain := cb_chain binding in
  if is_nil (cb_attempt_id binding) || (cb_persisted_at_ms binding <? 0)
  then Err VerifiedBackupChainInvalid
  else
    let? _ := map_err (λ _, VerifiedBackupChainInvalid) (BackupChain_require_verified chain) in
    let? expected_kind :=
      match cb_phase binding with
      | Phase_BackingUp => Ok Snapshot_Base
      | Phase_CutoverSnapshotting => Ok Snapshot_Cutover
      | _ => Err Errors.VerifiedBackupChainBinding
      end in
    if (vc_snapshot_kind chain != expected_kind)
       || (abs_attempt_id (vc_authorized_spec chain) != cb_attempt_id binding)
       || (abs_project_id (vc_authorized_spec chain) != cb_project_id binding)
    then Err Errors.VerifiedBackupChainBinding
    else
      let? canonical_json := map_err (λ _, VerifiedBackupChainInvalid)
                               (BackupChain_canonical_bytes chain) in
      if (canonical_json == [])
         || (MAX_VERIFIED_BACKUP_CHAIN_DOCUMENT_BYTES <? Z.of_nat (length canonical_json))
      then Err VerifiedBackupChainInvalid
      else
        let? storage_phase := storage_key (cb_branch binding) (cb_phase binding) in
        Ok {| pv_storage_phase := storage_phase;
              pv_canonical_json := canonical_json;
              pv_document_digest := EvidenceDigest_sha256 canonical_json |}.

Definition insert_backup_chain (attempt_id : Uuid) (storage_phase : string) (row : BackupChainRow)
    : SecurityTx unit :=
  let? chains := gets verified_backup_chains in
  let? specs := gets authorized_phase_specs in
  let? _ := lift (ensure (is_none (chains !! (attempt_id, storage_phase)))
                    (Sqlite PrimaryKeyViolation)) in
  let? _ := lift (ensure (0 <=? bc_persisted_at_ms row) (Sqlite CheckViolation)) in
  let? _ := lift (ensure (is_some (specs !! (attempt_id, storage_phase)))
                    (Sqlite ForeignKeyViolation)) in
  modify (λ db, db <| verified_backup_chains :=
                        <[(attempt_id, storage_phase) := row]> (verified_backup_chains db) |>).

Definition bind_verified_backup_chain (binding : VerifiedBackupChainBinding) (db : SecurityDb)
    : SecurityDb * Result StoreError VerifiedBackupChainRecord :=
  match prepare_verified_backup_chain binding with
  | Err e => (db, Err e)
  | Ok prepared =>
      let attempt_id := cb_attempt_id binding in
      let chain := cb_chain binding in
      let storage_phase := pv_storage_phase prepared in
      let row := MkBackupChainRow (cb_project_id binding) (cb_authorized_phase_spec_digest binding)
                   (vc_chain_digest chain) (pv_document_digest prepared) (pv_canonical_json prepared)
                   (cb_persisted_at_ms binding) in
      immediate_transaction (
        let? _ := require_branch_not_taken_over attempt_id (cb_branch binding) in
        let? entry := require_phase_entry attempt_id storage_phase (cb_phase binding) in
        let? phase_spec := gets (load_authorized_phase_spec attempt_id storage_phase
                                   (cb_phase binding) (cb_branch binding)) in
        let? phase_spec := lift (ok_or AuthorizedPhaseSpecMissing phase_spec) in
        let? decoded_spec := lift (map_err (λ _, AuthorizedPhaseSpecInvalid)
          (PhaseSpec_decode_canonical (sr_canonical_json phase_spec))) in
        if (pe_status entry != Journal_IntentPersisted)
           || (pe_project_id entry != cb_project_id binding)
           || (sr_spec_digest phase_spec != cb_authorized_phase_spec_digest binding)
           || (abs_phase_intent_digest (vc_authorized_spec chain) != pe_intent_digest entry)
           || (ps_backup decoded_spec != Some (vc_authorized_spec chain))
        then tx_err Errors.VerifiedBackupChainBinding
        else
          let? existing := query (load_verified_backup_chain attempt_id storage_phase
                                    (cb_phase binding) (cb_branch binding)) in
          match existing with
          | Some existing =>
              if (cr_project_id existing == cb_project_id binding)
                 && (cr_authorized_phase_spec_digest existing
                     == cb_authorized_phase_spec_digest binding)
                 && (cr_chain_digest existing == vc_chain_digest chain)
                 && (cr_document_digest existing == pv_document_digest prepared)
                 && (cr_canonical_json existing == pv_canonical_json prepared)
              then tx_ok existing
              else tx_err VerifiedBackupChainConflict
          | None =>
              let? _ := insert_backup_chain attempt_id storage_phase row in
              tx_ok (chain_record attempt_id (cb_phase binding) (cb_branch binding) row)
          end) db
  end.

Definition verified_backup_chain_in_branch (attempt_id : Uuid) (phase : OperationPhase)
    (branch : ExecutorPhaseBranch) (db : SecurityDb)
    : Result StoreError (option VerifiedBackupChainRecord) :=
  let? storage_phase := storage_key branch phase in
  load_verified_backup_chain attempt_id storage_phase phase branch db.

Definition latest_committed_base_backup_chain (project_id : ProjectId) (db : SecurityDb)
    : Result StoreError (option VerifiedBackupChainRecord) :=
  load_latest_committed_base_backup_chain project_id db.

(** ** What a spec rests on *)

Definition require_verified_prerequisite_chain (spec : AuthorizedPhaseSpecV1)
    (phase : OperationPhase) (expected_kind : BackupSnapshotKindV1)
    (expected_digest : EvidenceDigest) (db : SecurityDb) : Result StoreError unit :=
  let? record :=
    if expected_kind == Snapshot_Base
    then load_committed_base_backup_chain_by_digest (ps_project_id spec) expected_digest db
    else
      let? storage_phase := storage_key Branch_Primary phase in
      load_verified_backup_chain (ps_attempt_id spec) storage_phase phase Branch_Primary db in
  let? record := ok_or VerifiedBackupChainMissing record in
  let? chain := map_err (λ _, VerifiedBackupChainInvalid)
                  (BackupChain_decode_canonical (cr_canonical_json record)) in
  let authorized := vc_authorized_spec chain in
  if (cr_project_id record != ps_project_id spec) || (cr_chain_digest record != expected_digest)
     || (vc_snapshot_kind chain != expected_kind)
     || ((expected_kind == Snapshot_Cutover) && (abs_attempt_id authorized != ps_attempt_id spec))
     || (abs_project_id authorized != ps_project_id spec)
     || (abs_installed_policy authorized != ps_installed_policy spec)
     || (abs_installed_rimg_policy_digest authorized != ps_installed_rimg_policy_digest spec)
  then Err Errors.VerifiedBackupChainBinding
  else Ok tt.

Definition validate_verified_prerequisite_chains (spec : AuthorizedPhaseSpecV1) (db : SecurityDb)
    : Result StoreError unit :=
  let? _ :=
    match ps_verified_base_backup_chain_digest spec with
    | Some expected =>
        require_verified_prerequisite_chain spec Phase_BackingUp Snapshot_Base expected db
    | None => Ok tt
    end in
  match ps_verified_cutover_backup_chain_digest spec with
  | Some expected =>
      require_verified_prerequisite_chain spec Phase_CutoverSnapshotting Snapshot_Cutover expected db
  | None => Ok tt
  end.

Definition validate_active_fence_for_spec (spec : AuthorizedPhaseSpecV1) (db : SecurityDb)
    : Result StoreError unit :=
  match ps_fencing_epoch spec, ps_fence_receipt_digest spec with
  | None, None =>
      let? fence := load_active_fence (ps_project_id spec) db in
      ensure (is_none fence) FenceConflict
  | Some epoch, Some expected_digest =>
      let? fence := load_active_fence (ps_project_id spec) db in
      let? lease := ok_or FenceOwnershipMismatch fence in
      if (fl_attempt_id lease != ps_attempt_id spec) || negb (fl_epoch lease =? epoch)
         || negb match fl_state lease with Fence_Held | Fence_ReleaseIntent => true | _ => false end
      then Err FenceOwnershipMismatch
      else
        let? receipt := fence_receipt_from_lease lease in
        ensure (far_receipt_digest receipt == expected_digest) FenceOwnershipMismatch
  | _, _ => Err Errors.AuthorizedPhaseSpecBinding
  end.

Definition spec_grant (spec : AuthorizedPhaseSpecV1) : option (Uuid * EvidenceDigest) :=
  match ps_mutation_grant_id spec, ps_mutation_grant_digest spec with
  | Some grant_id, Some grant_digest => Some (grant_id, grant_digest)
  | _, _ => None
  end.

Definition grant_row_matches (spec : AuthorizedPhaseSpecV1) (grant_digest : EvidenceDigest)
    (storage_phase : string) (row : MutationGrantRow) : bool :=
  (cg_grant_digest row == grant_digest) && (cg_attempt_id row == ps_attempt_id spec)
  && (cg_project_id row == ps_project_id spec) && (cg_phase row == storage_phase)
  && (cg_spec_digest row == ps_spec_digest spec).

Definition insert_grant (grant_id : Uuid) (row : MutationGrantRow) : SecurityTx unit :=
  let? grants := gets consumed_mutation_grants in
  let? specs := gets authorized_phase_specs in
  let? _ := lift (ensure (is_none (grants !! grant_id)) (Sqlite PrimaryKeyViolation)) in
  let? _ := lift (ensure (negb (row_exists (λ _ other,
                cg_grant_digest other == cg_grant_digest row) grants)) (Sqlite UniqueViolation)) in
  let? _ := lift (ensure (0 <=? cg_consumed_at_ms row) (Sqlite CheckViolation)) in
  let? _ := lift (ensure (is_some (specs !! (cg_attempt_id row, cg_phase row)))
                    (Sqlite ForeignKeyViolation)) in
  modify (λ db, db <| consumed_mutation_grants :=
                        <[grant_id := row]> (consumed_mutation_grants db) |>).

Definition consume_mutation_grant (spec : AuthorizedPhaseSpecV1) (storage_phase : string)
    (consumed_at_ms : Z) : SecurityTx unit :=
  match spec_grant spec with
  | None => tx_ok tt
  | Some (grant_id, grant_digest) =>
      let? grants := gets consumed_mutation_grants in
      match grants !! grant_id with
      | Some existing =>
          if grant_row_matches spec grant_digest storage_phase existing then tx_ok tt
          else tx_err MutationGrantReplay
      | None =>
          if row_exists (λ _ row, cg_grant_digest row == grant_digest) grants
          then tx_err MutationGrantReplay
          else insert_grant grant_id
                 (MkMutationGrantRow grant_digest (ps_attempt_id spec) (ps_project_id spec)
                    storage_phase (ps_spec_digest spec) consumed_at_ms)
      end
  end.

Definition validate_consumed_mutation_grant (spec : AuthorizedPhaseSpecV1)
    (storage_phase : string) (db : SecurityDb) : Result StoreError unit :=
  match spec_grant spec with
  | None => Ok tt
  | Some (grant_id, grant_digest) =>
      match consumed_mutation_grants db !! grant_id with
      | Some row => ensure (grant_row_matches spec grant_digest storage_phase row)
                      MutationGrantReplay
      | None => Err MutationGrantReplay
      end
  end.

Definition is_bootstrap (spec : AuthorizedPhaseSpecV1) : bool :=
  ps_runtime_release_state spec == Some Runtime_NeverInstalled.

Definition bootstrap_row_matches (attempt_id : Uuid) (storage_phase : string)
    (spec_digest : EvidenceDigest) (row : BootstrapRow) : bool :=
  (bl_attempt_id row == attempt_id) && (bl_phase row == storage_phase)
  && (bl_spec_digest row == spec_digest).

Definition bootstrap_row_check (row : BootstrapRow) : bool :=
  (bl_phase row == "deploying"%string) && (0 <=? bl_updated_at_ms row)
  && (((bl_state row == "reserved"%string) && is_none (bl_receipt_digest row))
      || ((bl_state row == "committed"%string) && is_some (bl_receipt_digest row))).

Definition reserve_bootstrap (spec : AuthorizedPhaseSpecV1) (storage_phase : string)
    (reserved_at_ms : Z) : SecurityTx unit :=
  if negb (is_bootstrap spec) then tx_ok tt
  else if (ps_phase spec != Phase_Deploying) || (storage_phase != "deploying"%string)
  then tx_err Errors.AuthorizedPhaseSpecBinding
  else
    let? ledger := gets project_bootstrap_ledger in
    match ledger !! ps_project_id spec with
    | Some existing =>
        if bootstrap_row_matches (ps_attempt_id spec) storage_phase (ps_spec_digest spec) existing
        then tx_ok tt
        else tx_err BootstrapAlreadyClaimed
    | None =>
        let row := MkBootstrapRow (ps_attempt_id spec) storage_phase (ps_spec_digest spec)
                     "reserved" None reserved_at_ms in
        let? specs := gets authorized_phase_specs in
        let? _ := lift (ensure (bootstrap_row_check row) (Sqlite CheckViolation)) in
        let? _ := lift (ensure (is_some (specs !! (ps_attempt_id spec, storage_phase)))
                          (Sqlite ForeignKeyViolation)) in
        modify (λ db, db <| project_bootstrap_ledger :=
                              <[ps_project_id spec := row]> (project_bootstrap_ledger db) |>)
    end.

Definition validate_bootstrap_reservation (spec : AuthorizedPhaseSpecV1) (storage_phase : string)
    (db : SecurityDb) : Result StoreError unit :=
  if negb (is_bootstrap spec) then Ok tt
  else
    match project_bootstrap_ledger db !! ps_project_id spec with
    | Some row =>
        ensure (bootstrap_row_matches (ps_attempt_id spec) storage_phase (ps_spec_digest spec) row
                && (((bl_state row == "reserved"%string) && is_none (bl_receipt_digest row))
                    || ((bl_state row == "committed"%string) && is_some (bl_receipt_digest row))))
          BootstrapPermitMissing
    | None => Err BootstrapPermitMissing
    end.

Definition commit_bootstrap_ledger_if_needed (attempt_id : Uuid) (storage_phase : string)
    (phase : OperationPhase) (branch : ExecutorPhaseBranch) (receipt : PhaseReceipt)
    (committed_at_ms : Z) : SecurityTx unit :=
  let? record := gets (load_authorized_phase_spec attempt_id storage_phase phase branch) in
  match record with
  | None => tx_ok tt
  | Some record =>
      let? spec := lift (decode_authorized_phase_spec_document
                           (record_binding attempt_id phase branch record)) in
      if negb (is_bootstrap spec) then tx_ok tt
      else
        let? ledger := gets project_bootstrap_ledger in
        let? existing := lift (ok_or BootstrapPermitMissing (ledger !! ps_project_id spec)) in
        if negb (bootstrap_row_matches attempt_id storage_phase (ps_spec_digest spec) existing)
        then tx_err BootstrapAlreadyClaimed
        else if (bl_state existing == "reserved"%string) && is_none (bl_receipt_digest existing)
        then
          let row := existing <| bl_state := "committed" |>
                              <| bl_receipt_digest := Some (pr_receipt_digest receipt) |>
                              <| bl_updated_at_ms := committed_at_ms |> in
          let? _ := lift (ensure (bootstrap_row_check row) (Sqlite CheckViolation)) in
          modify (λ db, db <| project_bootstrap_ledger :=
                                <[ps_project_id spec := row]> (project_bootstrap_ledger db) |>)
        else if (bl_state existing == "committed"%string)
                && (bl_receipt_digest existing == Some (pr_receipt_digest receipt))
        then tx_ok tt
        else tx_err (CorruptSecurityJournal "bootstrap ledger state")
  end.

Definition authorize_bound_phase_spec (attempt_id : Uuid) (phase : OperationPhase)
    (branch : ExecutorPhaseBranch) (authorized_at_ms : Z) (db : SecurityDb)
    : SecurityDb * Result StoreError AuthorizedPhasePermitV1 :=
  if authorized_at_ms <? 0 then (db, Err AuthorizedPhaseSpecInvalid)
  else
    with_storage_key branch phase (λ storage_phase,
      let? _ := require_branch_not_taken_over attempt_id branch in
      let? entry := require_phase_entry attempt_id storage_phase phase in
      if pe_status entry != Journal_IntentPersisted then tx_err ExecutorPhaseState
      else
        let? record := gets (load_authorized_phase_spec attempt_id storage_phase phase branch) in
        let? record := lift (ok_or AuthorizedPhaseSpecMissing record) in
        if (sr_intent_digest record != pe_intent_digest entry)
           || (sr_project_id record != pe_project_id entry)
           || (EvidenceDigest_sha256 (sr_canonical_json record) != sr_document_digest record)
        then tx_err Errors.AuthorizedPhaseSpecBinding
        else
          let? spec := lift (decode_authorized_phase_spec_document
                               (record_binding attempt_id phase branch record)) in
          if match ps_prerequisites_valid_through_ms spec with
             | Some valid_through => valid_through <? authorized_at_ms
             | None => false
             end
          then tx_err PhaseAuthorityExpired
          else
            let? _ := query (validate_verified_prerequisite_chains spec) in
            let? _ := query (validate_active_fence_for_spec spec) in
            let? _ := consume_mutation_grant spec storage_phase authorized_at_ms in
            let? _ := reserve_bootstrap spec storage_phase authorized_at_ms in
            tx_ok {| pp_attempt_id := attempt_id;
                     pp_project_id := sr_project_id record;
                     pp_phase := phase;
                     pp_branch := branch;
                     pp_intent_digest := sr_intent_digest record;
                     pp_spec_digest := sr_spec_digest record;
                     pp_document_digest := sr_document_digest record |}) db.

(** ** Source-gate proofs *)

Definition source_trust_regressed (proof : SourceGateProofRecord) (sequence : Z)
    (db : SecurityDb) : bool :=
  match source_trust_highwater db !! sg_project_id proof with
  | Some row =>
      (sequence <? hw_source_sequence row)
      || ((hw_source_sequence row =? sequence)
          && (hw_attestation_digest row != sg_attestation_digest proof))
  | None => false
  end.

(** The rejection is stored and the error is returned from a transaction that
    commits. *)
Definition reject_source_gate_proof {A} (proof : SourceGateProofRecord) (storage_phase : string)
    (error : StoreError) : SecurityTx (Result StoreError A) :=
  let key := (sg_attempt_id proof, storage_phase) in
  let? journal := gets executor_phase_journal in
  match journal !! key with
  | Some row =>
      if pj_status row == "intent_persisted"%string then
        let? _ := lift (ensure (0 <=? sg_checked_at_ms proof) (Sqlite CheckViolation)) in
        let? _ := modify (λ db, db <| source_gate_rejections :=
          <[key := MkGateRejectionRow (pj_project_id row) (sg_proof_digest proof) "abort_pending"
                     (sg_checked_at_ms proof) None]> (source_gate_rejections db) |>) in
        let? _ := mark_phase_needs_reconcile_at (sg_attempt_id proof) storage_phase
                    (sg_checked_at_ms proof) in
        tx_ok (Err error)
      else tx_err ExecutorPhaseState
  | None => tx_err ExecutorPhaseState
  end.

Definition validate_source_gate_proof_admission (proof : SourceGateProofRecord)
    (storage_phase : string) : SecurityTx (Result StoreError Z) :=
  let? entry := require_phase_entry (sg_attempt_id proof) storage_phase (sg_phase proof) in
  if pe_status entry != Journal_IntentPersisted then tx_err ExecutorPhaseState
  else if pe_project_id entry != sg_project_id proof
  then reject_source_gate_proof proof storage_phase SourceGateProofMismatch
  else if sg_source_sequence proof =? 0
  then reject_source_gate_proof proof storage_phase SourceTrustRollback
  else
    match i64_try_from (sg_source_sequence proof) with
    | None => reject_source_gate_proof proof storage_phase SequenceRange
    | Some sequence =>
        let? regressed := gets (source_trust_regressed proof sequence) in
        if (regressed : bool)
        then reject_source_gate_proof proof storage_phase SourceTrustRollback
        else tx_ok (Ok sequence)
    end.

(** [INSERT INTO source_trust_highwater .. ON CONFLICT(project_id) DO UPDATE ..
    WHERE source_trust_highwater.source_sequence < excluded.source_sequence]. *)
Definition raise_highwater (project_id : ProjectId) (row : HighwaterRow) : SecurityTx unit :=
  let? highwater := gets source_trust_highwater in
  let? _ := lift (ensure (0 <? hw_source_sequence row) (Sqlite CheckViolation)) in
  if match highwater !! project_id with
     | Some existing => hw_source_sequence existing <? hw_source_sequence row
     | None => true
     end
  then modify (λ db, db <| source_trust_highwater :=
                             <[project_id := row]> (source_trust_highwater db) |>)
  else tx_ok tt.

Definition persist_source_gate_proof (proof : SourceGateProofRecord) (storage_phase : string)
    (sequence : Z) : SecurityTx (Result StoreError unit) :=
  let key := (sg_attempt_id proof, phase_name (sg_phase proof)) in
  let? proofs := gets source_gate_proofs in
  match proofs !! key with
  | Some existing =>
      if (gp_proof_digest existing == sg_proof_digest proof)
         && (gp_project_id existing == sg_project_id proof)
         && (gp_source_sequence existing =? sequence)
         && (gp_attestation_digest existing == sg_attestation_digest proof)
      then tx_ok (Ok tt)
      else reject_source_gate_proof proof storage_phase SourceGateProofMismatch
  | None =>
      let? journal := gets executor_phase_journal in
      let? _ := lift (ensure (0 <? sequence) (Sqlite CheckViolation)) in
      let? _ := lift (ensure (is_some (journal !! key)) (Sqlite ForeignKeyViolation)) in
      let? _ := modify (λ db, db <| source_gate_proofs :=
        <[key := MkGateProofRow (sg_proof_digest proof) (sg_project_id proof) sequence
                   (sg_attestation_digest proof) (sg_checked_at_ms proof)]>
          (source_gate_proofs db) |>) in
      let? _ := raise_highwater (sg_project_id proof)
                  (MkHighwaterRow sequence (sg_attestation_digest proof) (sg_checked_at_ms proof)) in
      tx_ok (Ok tt)
  end.

(** [..immediate_transaction(..)?]: a committed transaction may still return an
    error. *)
Definition flatten_result {A} (r : SecurityDb * Result StoreError (Result StoreError A))
    : SecurityDb * Result StoreError A :=
  (r.1, match r.2 with Ok inner => inner | Err e => Err e end).

Definition record_source_gate_proof (proof : SourceGateProofRecord) (db : SecurityDb)
    : SecurityDb * Result StoreError unit :=
  flatten_result (with_storage_key Branch_Primary (sg_phase proof) (λ storage_phase,
    let? admission := validate_source_gate_proof_admission proof storage_phase in
    match admission with
    | Ok sequence => persist_source_gate_proof proof storage_phase sequence
    | Err rejection => tx_ok (Err rejection)
    end) db).

Definition source_gate_proof (attempt_id : Uuid) (phase : OperationPhase) (db : SecurityDb)
    : option EvidenceDigest :=
  gp_proof_digest <$> source_gate_proofs db !! (attempt_id, phase_name phase).

Definition pending_rejection_of (project_id : ProjectId) (rejection : GateRejectionRow) : bool :=
  (gr_project_id rejection == project_id) && (gr_state rejection == "abort_pending"%string).

Definition source_gate_rejection_pending (attempt_id : Uuid) (project_id : ProjectId)
    (phase : OperationPhase) (branch : ExecutorPhaseBranch) (db : SecurityDb)
    : Result StoreError bool :=
  let? storage_phase := storage_key branch phase in
  Ok match source_gate_rejections db !! (attempt_id, storage_phase) with
     | Some rejection => pending_rejection_of project_id rejection
     | None => false
     end.

Definition compensate_source_gate_rejection (attempt_id : Uuid) (project_id : ProjectId)
    (phase : OperationPhase) (branch : ExecutorPhaseBranch) (intent_digest : EvidenceDigest)
    (compensated_at_ms : Z) (db : SecurityDb) : SecurityDb * Result StoreError unit :=
  if compensated_at_ms <? 0 then (db, Err ExecutorPhaseState)
  else
    with_storage_key branch phase (λ storage_phase,
      let key := (attempt_id, storage_phase) in
      let? _ := require_branch_not_taken_over attempt_id branch in
      let? entry := require_phase_entry attempt_id storage_phase phase in
      if (pe_project_id entry != project_id) || (pe_intent_digest entry != intent_digest)
         || (pe_status entry != Journal_NeedsReconcile) || is_some (pe_observation_digest entry)
         || (pe_artifacts entry != PhaseArtifacts_default)
      then tx_err ExecutorPhaseState
      else
        let? rejections := gets source_gate_rejections in
        let? rejection := lift (ok_or ExecutorPhaseState (rejections !! key)) in
        if negb (pending_rejection_of project_id rejection) then tx_err ExecutorPhaseState
        else
          let? receipts := gets executor_phase_receipts in
          if is_some (receipts !! key) then tx_err ExecutorPhaseState
          else
            let? _ := modify (λ db, db <| source_gate_proofs :=
              delete (attempt_id, phase_name phase) (source_gate_proofs db) |>) in
            let? changed := update_journal attempt_id storage_phase
              (λ row, pj_status row == "needs_reconcile"%string)
              (λ row, row <| pj_status := "intent_persisted" |>
                          <| pj_updated_at_ms := compensated_at_ms |>) in
            if negb (changed =? 1) then tx_err ExecutorPhaseState
            else
              let? _ := modify (λ db, db <| source_gate_rejections :=
                <[key := rejection <| gr_state := "compensated" |>
                                   <| gr_compensated_at_ms := Some compensated_at_ms |>]>
                  (source_gate_rejections db) |>) in
              tx_ok tt) db.

(** ** Observations *)

Definition validate_artifact_disk_reservation (attempt_id : Uuid) (project_id : ProjectId)
    (artifacts : PhaseArtifacts) (db : SecurityDb) : Result StoreError unit :=
  match pa_resource_reservation_digest artifacts with
  | None => Ok tt
  | Some reservation_digest =>
      let? claim := load_authorized_disk_reservation project_id attempt_id db in
      ensure (ad_reservation_digest claim == reservation_digest) DiskReservationAuthorizationInvalid
  end.

Definition validate_artifact_source_gate_proof (attempt_id : Uuid) (phase : OperationPhase)
    (artifacts : PhaseArtifacts) (required_by_bound_phase_spec : bool) (db : SecurityDb)
    : Result StoreError unit :=
  let check (proof_phase : OperationPhase) :=
    let persisted := gp_proof_digest
                     <$> source_gate_proofs db !! (attempt_id, phase_name proof_phase) in
    if required_by_bound_phase_spec && is_none persisted then Err SourceGateProofMismatch
    else ensure (persisted == pa_source_gate_proof_digest artifacts) SourceGateProofMismatch in
  match phase with
  | Phase_BackingUp | Phase_Draining => check Phase_BackingUp
  | Phase_Deploying => check Phase_Deploying
  | _ => ensure (is_none (pa_source_gate_proof_digest artifacts)) SourceGateProofMismatch
  end.

Definition bound_spec_requires_source_gate_proof (spec : AuthorizedPhaseSpecV1)
    (phase : OperationPhase) : bool :=
  if ps_operation_kind spec != Kind_Deploy then false
  else
    match ps_effective_release_class spec with
    | Some Class_CodeOnlyCompatible => phase == Phase_Deploying
    | Some (Class_StatefulCompatible | Class_StatefulBreaking) =>
        match phase with Phase_BackingUp | Phase_Draining => true | _ => false end
    | Some Class_Rollback | None => false
    end.

(** The artifacts repeat the identities of the verified chain. *)
Definition artifacts_match_chain (artifacts : PhaseArtifacts) (chain : VerifiedBackupChainV1)
    (kind : BackupSnapshotKindV1) : bool :=
  let spec := vc_authorized_spec chain in
  match kind with
  | Snapshot_Base =>
      (pa_backup_set_id artifacts == Some (abs_backup_set_id spec))
      && (pa_base_backup_id artifacts == Some (abs_backup_id spec))
      && (pa_base_backup_manifest_digest artifacts
          == Some (bm_manifest_digest (vc_manifest chain)))
      && (pa_base_backup_evidence_digest artifacts == Some (lb_evidence_digest (vc_local chain)))
      && (pa_base_backup_offsite_evidence_digest artifacts
          == (ov_evidence_digest <$> vc_offsite chain))
      && (pa_base_backup_verification_digest artifacts == Some (vc_chain_digest chain))
  | Snapshot_Cutover =>
      (pa_backup_set_id artifacts == Some (abs_backup_set_id spec))
      && (pa_cutover_backup_id artifacts == Some (abs_backup_id spec))
      && (pa_cutover_backup_manifest_digest artifacts
          == Some (bm_manifest_digest (vc_manifest chain)))
      && (pa_cutover_backup_evidence_digest artifacts == Some (lb_evidence_digest (vc_local chain)))
      && (pa_cutover_backup_verification_digest artifacts == Some (vc_chain_digest chain))
      && (pa_fencing_epoch artifacts == abs_fencing_epoch spec)
  end.

Definition backup_kind_of_phase (phase : OperationPhase) : option BackupSnapshotKindV1 :=
  match phase with
  | Phase_BackingUp => Some Snapshot_Base
  | Phase_CutoverSnapshotting => Some Snapshot_Cutover
  | _ => None
  end.

Definition validate_bound_phase_spec_artifact (attempt_id : Uuid) (storage_phase : string)
    (phase : OperationPhase) (branch : ExecutorPhaseBranch) (artifacts : PhaseArtifacts)
    (db : SecurityDb) : Result StoreError (option AuthorizedPhaseSpecV1) :=
  match load_authorized_phase_spec attempt_id storage_phase phase branch db,
        pa_authorized_phase_spec_digest artifacts with
  | None, None => Ok None
  | Some _, None => Err AuthorizedPhaseSpecMissing
  | None, Some _ => Err Errors.AuthorizedPhaseSpecBinding
  | Some record, Some observed =>
      if sr_spec_digest record != observed then Err Errors.AuthorizedPhaseSpecBinding
      else
        let? decoded_spec := decode_authorized_phase_spec_document
                               (record_binding attempt_id phase branch record) in
        let? _ := map_err (λ _, AuthorizedPhaseArtifactMismatch)
                    (validate_observed_artifacts decoded_spec artifacts) in
        let? _ := validate_verified_prerequisite_chains decoded_spec db in
        let? _ := validate_active_fence_for_spec decoded_spec db in
        let? _ := validate_consumed_mutation_grant decoded_spec storage_phase db in
        let? _ := validate_bootstrap_reservation decoded_spec storage_phase db in
        match backup_kind_of_phase phase with
        | None => Ok (Some decoded_spec)
        | Some expected_kind =>
            let? chain_record := load_verified_backup_chain attempt_id storage_phase phase branch
                                   db in
            let? chain_record := ok_or VerifiedBackupChainMissing chain_record in
            if cr_authorized_phase_spec_digest chain_record != sr_spec_digest record
            then Err Errors.VerifiedBackupChainBinding
            else
              let? chain := map_err (λ _, VerifiedBackupChainInvalid)
                              (BackupChain_decode_canonical (cr_canonical_json chain_record)) in
              if vc_snapshot_kind chain != expected_kind
              then Err Errors.VerifiedBackupChainBinding
              else if artifacts_match_chain artifacts chain expected_kind
              then Ok (Some decoded_spec)
              else Err Errors.VerifiedBackupChainBinding
        end
  end.

Definition observe_row (request : PhaseObservationRequest) (json : json_text PhaseArtifacts)
    (status : string) (row : PhaseJournalRow) : PhaseJournalRow :=
  row <| pj_observation_digest := Some (po_observation_digest request) |>
      <| pj_artifacts_json := json |> <| pj_status := status |>
      <| pj_updated_at_ms := po_observed_at_ms request |>.

(** The checks on an observation for the intent in the journal. *)
Definition validate_observation (request : PhaseObservationRequest) (storage_phase : string)
    (project_id : ProjectId) (db : SecurityDb) : Result StoreError unit :=
  let? _ := map_err ArtifactContract (validate_for_phase (po_artifacts request)
                                        (po_phase request)) in
  let? _ := validate_artifact_disk_reservation (po_attempt_id request) project_id
              (po_artifacts request) db in
  let? bound_spec := validate_bound_phase_spec_artifact (po_attempt_id request) storage_phase
                       (po_phase request) (po_branch request) (po_artifacts request) db in
  validate_artifact_source_gate_proof (po_attempt_id request) (po_phase request)
    (po_artifacts request)
    match bound_spec with
    | Some spec => bound_spec_requires_source_gate_proof spec (po_phase request)
    | None => false
    end db.

Definition record_phase_observation_in_branch (request : PhaseObservationRequest)
    (db : SecurityDb) : SecurityDb * Result StoreError ObservationAcceptance :=
  let attempt_id := po_attempt_id request in
  with_storage_key (po_branch request) (po_phase request) (λ storage_phase,
    let? _ := require_branch_not_taken_over attempt_id (po_branch request) in
    let? entry := require_phase_entry attempt_id storage_phase (po_phase request) in
    if pe_status entry == Journal_NeedsReconcile then tx_ok Acceptance_NeedsReconcile
    else
      let? artifacts_json := lift (map_err JsonError (json_to_string (po_artifacts request))) in
      if pe_intent_digest entry != po_observed_intent_digest request then
        if pe_status entry == Journal_Committed then tx_err ExecutorObservationMismatch
        else
          let? changed := update_journal attempt_id storage_phase not_committed
                            (observe_row request artifacts_json "needs_reconcile") in
          if negb (changed =? 1) then tx_err ExecutorObservationMismatch
          else tx_ok Acceptance_NeedsReconcile
      else
        let? _ := query (validate_observation request storage_phase (pe_project_id entry)) in
        if pe_status entry == Journal_IntentPersisted then
          let? _ := update_journal attempt_id storage_phase (λ _, true)
                      (observe_row request artifacts_json "observed") in
          tx_ok Acceptance_Accepted
        else if (pe_observation_digest entry != Some (po_observation_digest request))
                || (pe_artifacts entry != po_artifacts request) then
          if pe_status entry == Journal_Committed then tx_err ExecutorObservationMismatch
          else
            let? _ := mark_phase_needs_reconcile_at attempt_id storage_phase
                        (po_observed_at_ms request) in
            tx_ok Acceptance_NeedsReconcile
        else tx_ok Acceptance_Accepted) db.

Definition record_phase_observation (attempt_id : Uuid) (phase : OperationPhase)
    (observed_intent_digest observation_digest : EvidenceDigest) (artifacts : PhaseArtifacts)
    (observed_at_ms : Z) (db : SecurityDb) : SecurityDb * Result StoreError ObservationAcceptance :=
  record_phase_observation_in_branch
    (MkPhaseObservationRequest attempt_id phase Branch_Primary observed_intent_digest
       observation_digest artifacts observed_at_ms) db.

(** ** Verification, reconciliation and receipts *)

Definition mark_phase_verified_in_branch (attempt_id : Uuid) (phase : OperationPhase)
    (branch : ExecutorPhaseBranch) (verified_at_ms : Z) (db : SecurityDb)
    : SecurityDb * Result StoreError unit :=
  with_storage_key branch phase (λ storage_phase,
    let? _ := require_branch_not_taken_over attempt_id branch in
    let? entry := require_phase_entry attempt_id storage_phase phase in
    match pe_status entry with
    | Journal_Observed =>
        let? _ := update_journal attempt_id storage_phase (λ _, true)
          (λ row, row <| pj_status := "verified" |> <| pj_updated_at_ms := verified_at_ms |>) in
        tx_ok tt
    | Journal_Verified | Journal_Committed => tx_ok tt
    | Journal_IntentPersisted | Journal_NeedsReconcile => tx_err ExecutorPhaseState
    end) db.

Definition mark_phase_verified (attempt_id : Uuid) (phase : OperationPhase) (verified_at_ms : Z)
    (db : SecurityDb) : SecurityDb * Result StoreError unit :=
  mark_phase_verified_in_branch attempt_id phase Branch_Primary verified_at_ms db.

Definition mark_phase_needs_reconcile_in_branch (attempt_id : Uuid) (phase : OperationPhase)
    (branch : ExecutorPhaseBranch) (updated_at_ms : Z) (db : SecurityDb)
    : SecurityDb * Result StoreError unit :=
  with_storage_key branch phase (λ storage_phase,
    let? _ := require_branch_not_taken_over attempt_id branch in
    mark_phase_needs_reconcile_at attempt_id storage_phase updated_at_ms) db.

Definition mark_phase_needs_reconcile (attempt_id : Uuid) (phase : OperationPhase)
    (updated_at_ms : Z) (db : SecurityDb) : SecurityDb * Result StoreError unit :=
  mark_phase_needs_reconcile_in_branch attempt_id phase Branch_Primary updated_at_ms db.

(** [UPDATE backup_boundary_journal SET state = 'released', .. WHERE attempt_id = ?
    AND state = 'reserved']: the number of rows. *)
Definition release_boundaries (attempt_id : Uuid) (released_at_ms : Z) : SecurityTx Z :=
  let? boundaries := gets backup_boundary_journal in
  let matching := select_rows (λ _ row,
    (ir_attempt_id row == attempt_id) && (ir_state row == "reserved"%string)) boundaries in
  let? _ := lift (ensure ((matching.*1 == []) || (0 <=? released_at_ms)) (Sqlite CheckViolation)) in
  let? _ := modify (λ db, db <| backup_boundary_journal :=
    (λ row, if (ir_attempt_id row == attempt_id) && (ir_state row == "reserved"%string)
            then row <| ir_state := "released" |> <| ir_updated_at_ms := released_at_ms |>
            else row) <$> backup_boundary_journal db |>) in
  tx_ok (Z.of_nat (length matching)).

Definition close_backup_boundary_if_needed (attempt_id : Uuid) (storage_phase : string)
    (phase : OperationPhase) (branch : ExecutorPhaseBranch) (committed_at_ms : Z)
    : SecurityTx unit :=
  if (phase != Phase_BackingUp) || (branch != Branch_Primary) then tx_ok tt
  else
    let? record := gets (load_authorized_phase_spec attempt_id storage_phase phase branch) in
    if is_none record then tx_ok tt
    else
      let? changed := release_boundaries attempt_id committed_at_ms in
      if negb (changed =? 1)
      then tx_err (CorruptSecurityJournal "backup boundary receipt closure")
      else tx_ok tt.

Definition commit_phase_receipt_in_branch (attempt_id : Uuid) (phase : OperationPhase)
    (branch : ExecutorPhaseBranch) (committed_at_ms : Z) (db : SecurityDb)
    : SecurityDb * Result StoreError PhaseReceipt :=
  with_storage_key branch phase (λ storage_phase,
    let? _ := require_branch_not_taken_over attempt_id branch in
    let? existing := query (load_phase_receipt attempt_id storage_phase phase branch) in
    match existing with
    | Some receipt => tx_ok receipt
    | None =>
        let? entry := require_phase_entry attempt_id storage_phase phase in
        if pe_status entry != Journal_Verified then tx_err ExecutorPhaseState
        else
          let? observation_digest := lift (ok_or
            (CorruptSecurityJournal "verified phase without observation")
            (pe_observation_digest entry)) in
          let? receipt := lift (map_err JsonError (PhaseReceipt_new attempt_id phase branch
            (pe_intent_digest entry) observation_digest (pe_artifacts entry) committed_at_ms)) in
          let? _ := commit_bootstrap_ledger_if_needed attempt_id storage_phase phase branch receipt
                      committed_at_ms in
          let? _ := close_backup_boundary_if_needed attempt_id storage_phase phase branch
                      committed_at_ms in
          let? json := lift (map_err JsonError (json_to_string receipt)) in
          let? _ := insert_receipt attempt_id storage_phase
                      (MkPhaseReceiptRow (pr_receipt_digest receipt) json committed_at_ms) in
          let? _ := update_journal attempt_id storage_phase (λ _, true)
            (λ row, row <| pj_status := "committed" |> <| pj_updated_at_ms := committed_at_ms |>) in
          tx_ok receipt
    end) db.

(** [SecurityStore::commit_phase_receipt], on the primary branch. *)
Definition commit_primary_phase_receipt (attempt_id : Uuid) (phase : OperationPhase)
    (committed_at_ms : Z) (db : SecurityDb) : SecurityDb * Result StoreError PhaseReceipt :=
  commit_phase_receipt_in_branch attempt_id phase Branch_Primary committed_at_ms db.

Definition phase_receipt_in_branch (attempt_id : Uuid) (phase : OperationPhase)
    (branch : ExecutorPhaseBranch) (db : SecurityDb) : Result StoreError (option PhaseReceipt) :=
  let? storage_phase := storage_key branch phase in
  load_phase_receipt attempt_id storage_phase phase branch db.

Definition phase_receipt (attempt_id : Uuid) (phase : OperationPhase) (db : SecurityDb)
    : Result StoreError (option PhaseReceipt) :=
  phase_receipt_in_branch attempt_id phase Branch_Primary db.

(** ** Backup boundaries *)

Definition insert_boundary (row : IdentityRow) : SecurityTx Z :=
  let? boundaries := gets backup_boundary_journal in
  let? authorizations := gets executor_authorizations in
  let? _ := lift (ensure (negb (row_exists (λ _ other,
                (ir_epoch other =? ir_epoch row) || (ir_attempt_id other == ir_attempt_id row)
                || ((ir_project_id other == ir_project_id row)
                    && (ir_state other == "reserved"%string)
                    && (ir_state row == "reserved"%string))) boundaries))
              (Sqlite UniqueViolation)) in
  let? _ := lift (ensure ((0 <? ir_epoch row) && (0 <=? ir_created_at_ms row)
                          && (0 <=? ir_updated_at_ms row)) (Sqlite CheckViolation)) in
  let? _ := lift (ensure (is_some (authorizations !! ir_attempt_id row))
                    (Sqlite ForeignKeyViolation)) in
  let journal_id := next_rowid boundaries in
  let? _ := modify (λ db, db <| backup_boundary_journal :=
                                  <[journal_id := row]> (backup_boundary_journal db) |>) in
  tx_ok journal_id.

Definition begin_backup_boundary (token : Uuid) (project_id : ProjectId) (attempt_id : Uuid)
    (created_at_ms : Z) (db : SecurityDb) : SecurityDb * Result StoreError IdentityLease :=
  immediate_transaction (
    let? _ := require_authorized_for_project attempt_id project_id None in
    let? _ := require_resource_owned (ProjectDeploy project_id) attempt_id in
    let phase := Phase_BackingUp in
    let branch := Branch_Primary in
    let? storage_phase := lift (storage_key branch phase) in
    let? entry := require_phase_entry attempt_id storage_phase phase in
    if (pe_status entry != Journal_IntentPersisted) || (pe_project_id entry != project_id)
    then tx_err ExecutorPhaseState
    else
      let? record := gets (load_authorized_phase_spec attempt_id storage_phase phase branch) in
      let? record := lift (ok_or AuthorizedPhaseSpecMissing record) in
      let? spec := lift (decode_authorized_phase_spec_document
        (MkAuthorizedPhaseSpecBinding attempt_id project_id phase branch (sr_intent_digest record)
           (sr_spec_digest record) (sr_canonical_json record) (sr_persisted_at_ms record))) in
      if match ps_backup spec with
         | Some backup => abs_snapshot_kind backup != Snapshot_Base
         | None => true
         end
      then tx_err Errors.AuthorizedPhaseSpecBinding
      else
        let? fence := query (load_active_fence project_id) in
        if is_some fence then tx_err FenceConflict
        else
          let? drain := query (load_active_drain_identity project_id) in
          if is_some drain then tx_err FenceConflict
          else
            let? boundary := query (load_active_backup_boundary project_id) in
            match boundary with
            | Some active =>
                if il_attempt_id active == attempt_id then tx_ok active else tx_err FenceConflict
            | None =>
                let? '(epoch, epoch_i64) := allocate_next_fence_epoch in
                let? journal_id := insert_boundary
                  (MkIdentityRow epoch_i64 project_id attempt_id token "reserved" created_at_ms
                     created_at_ms) in
                tx_ok (MkIdentityLease journal_id project_id attempt_id epoch token created_at_ms)
            end) db.

Definition active_backup_boundary (project_id : ProjectId) (db : SecurityDb)
    : Result StoreError (option IdentityLease) := load_active_backup_boundary project_id db.
End PhaseJournal.
