(* ===== verification/PhaseJournalSpec.v ===== *)
(** * What the phase journal guarantees

    The life cycle of a phase row as a step relation, the invariant that every
    operation of [PhaseJournal] keeps, and what follows for the executor: receipts
    record what was observed and verified, one phase is in flight at a time, a
    rollback takeover freezes the forward branch, and grants, bootstrap claims and
    source positions are never used twice or turned back. *)

From Stdlib Require Import ZArith Lia Ascii String.
From stdpp Require Import base gmap strings option list_numbers list relations.
From S2P Require Import Prelude Identifiers States Text Failure Operation Errors Budget Controller.
From S2P Require Import ControlStore SecurityDb Resources Fences FenceSpec Ordered Backup.
From S2P Require Import PhaseAuthority PhaseJournal.

Local Open Scope Z_scope.

Lemma existsb_false {A} (f : A → bool) l x : existsb f l = false → x ∈ l → f x = false.
Proof.
  intros Hf Hin. destruct (f x) eqn:Hx; [|done]. rewrite <- Hf. symmetry. apply existsb_exists.
  exists x. split; [by apply list_elem_of_In|done].
Qed.

(** ** Storage keys *)

Lemma storage_key_inj branch phase branch' phase' key :
  storage_key branch phase = Ok key → storage_key branch' phase' = Ok key →
  branch = branch' ∧ phase = phase'.
Proof.
  unfold storage_key. intros H1 H2.
  destruct branch, phase; simplify_eq/=; destruct branch', phase'; by simplify_eq/=.
Qed.

Lemma storage_key_recovery branch phase key :
  storage_key branch phase = Ok key → key ∈ recovery_keys ↔ branch = Branch_RollbackRecovery.
Proof.
  unfold storage_key, recovery_keys. intros Hk. rewrite !elem_of_cons, elem_of_nil.
  destruct branch, phase; simplify_eq/=; naive_solver.
Qed.

Lemma PhaseJournalStatus_parse_Ok s status :
  PhaseJournalStatus_parse s = Ok status ↔ s = PhaseJournalStatus_as_str status.
Proof.
  split.
  - unfold PhaseJournalStatus_parse. intros Hok. repeat case_ok; by bool_prop.
  - intros ->. by destruct status.
Qed.

Lemma as_str_inj s s' : PhaseJournalStatus_as_str s = PhaseJournalStatus_as_str s' → s = s'.
Proof. by destruct s, s'. Qed.

Section PhaseJournalSpec.
Context `{!PhaseCodecs}.

(** ** The life cycle of a row *)

Definition status_is (status : PhaseJournalStatus) (row : PhaseJournalRow) : Prop :=
  pj_status row = PhaseJournalStatus_as_str status.

(** What a row was opened for, fixed for its life. *)
Definition same_intent (row row' : PhaseJournalRow) : Prop :=
  pj_project_id row' = pj_project_id row ∧ pj_intent_digest row' = pj_intent_digest row
  ∧ pj_started_at_ms row' = pj_started_at_ms row.

Definition same_evidence (row row' : PhaseJournalRow) : Prop :=
  pj_observation_digest row' = pj_observation_digest row
  ∧ pj_artifacts_json row' = pj_artifacts_json row.

(** One move of the row of [phase], short of its receipt. *)
Inductive phase_move (phase : OperationPhase) (row row' : PhaseJournalRow) : Prop :=
| pm_observed artifacts :
    status_is Journal_IntentPersisted row → status_is Journal_Observed row' →
    same_intent row row' → is_Some (pj_observation_digest row') →
    json_to_string artifacts = Ok (pj_artifacts_json row') →
    validate_for_phase artifacts phase = Ok tt →
    phase_move phase row row'
| pm_verified :
    status_is Journal_Observed row → status_is Journal_Verified row' →
    same_intent row row' → same_evidence row row' →
    phase_move phase row row'
| pm_needs_reconcile :
    ¬ status_is Journal_Committed row → status_is Journal_NeedsReconcile row' →
    same_intent row row' →
    (same_evidence row row'
     ∨ ∃ artifacts, json_to_string artifacts = Ok (pj_artifacts_json row')) →
    phase_move phase row row'
| pm_compensated :
    status_is Journal_NeedsReconcile row → status_is Journal_IntentPersisted row' →
    same_intent row row' → same_evidence row row' →
    pj_observation_digest row = None →
    json_from_str (pj_artifacts_json row) = Ok PhaseArtifacts_default →
    phase_move phase row row'.

(** The receipt of a verified row. *)
Inductive receipt_of (attempt : Uuid) (phase : OperationPhase) (branch : ExecutorPhaseBranch)
    (row : PhaseJournalRow) (receipt : PhaseReceipt) : Prop :=
| mk_receipt_of observation artifacts t :
    pj_observation_digest row = Some observation →
    json_from_str (pj_artifacts_json row) = Ok artifacts →
    PhaseReceipt_new attempt phase branch (pj_intent_digest row) observation artifacts t
      = Ok receipt →
    receipt_of attempt phase branch row receipt.

(** The primary branch is open until a takeover. *)
Definition branch_open (attempt : Uuid) (branch : ExecutorPhaseBranch) (db : SecurityDb) : Prop :=
  branch = Branch_Primary → executor_rollback_takeovers db !! attempt = None.

(** A source-gate proof rejected: the intent goes to reconciliation, which no takeover
    prevents. *)
Definition gate_rejected (row row' : PhaseJournalRow) : Prop :=
  status_is Journal_IntentPersisted row ∧ status_is Journal_NeedsReconcile row'
  ∧ same_intent row row' ∧ same_evidence row row'.

Definition uncommitted (attempt : Uuid) (key : string) (db : SecurityDb) : Prop :=
  ∃ row, executor_phase_journal db !! (attempt, key) = Some row ∧ ¬ status_is Journal_Committed row.

(** What an operation does to the journal, the receipts and the takeovers. *)
Inductive phase_effect (db db' : SecurityDb) : Prop :=
| pe_none :
    executor_phase_journal db' = executor_phase_journal db →
    executor_phase_receipts db' = executor_phase_receipts db →
    executor_rollback_takeovers db' = executor_rollback_takeovers db →
    phase_effect db db'
| pe_intent attempt branch phase key row :
    storage_key branch phase = Ok key →
    executor_phase_journal db !! (attempt, key) = None →
    branch_open attempt branch db →
    (∀ other, uncommitted attempt other db → branch = Branch_RollbackRecovery
       ∧ ∃ takeover, executor_rollback_takeovers db !! attempt = Some takeover
           ∧ tk_forward_phase takeover = other) →
    status_is Journal_IntentPersisted row → pj_observation_digest row = None →
    json_to_string PhaseArtifacts_default = Ok (pj_artifacts_json row) →
    executor_phase_journal db' = <[(attempt, key) := row]> (executor_phase_journal db) →
    executor_phase_receipts db' = executor_phase_receipts db →
    executor_rollback_takeovers db' = executor_rollback_takeovers db →
    phase_effect db db'
| pe_move attempt branch phase key row row' :
    storage_key branch phase = Ok key →
    executor_phase_journal db !! (attempt, key) = Some row →
    phase_move phase row row' →
    branch_open attempt branch db ∨ gate_rejected row row' →
    executor_phase_journal db' = <[(attempt, key) := row']> (executor_phase_journal db) →
    executor_phase_receipts db' = executor_phase_receipts db →
    executor_rollback_takeovers db' = executor_rollback_takeovers db →
    phase_effect db db'
| pe_commit attempt branch phase key row row' receipt receipt_row :
    storage_key branch phase = Ok key →
    executor_phase_journal db !! (attempt, key) = Some row →
    executor_phase_receipts db !! (attempt, key) = None →
    branch_open attempt branch db →
    status_is Journal_Verified row → status_is Journal_Committed row' →
    same_intent row row' → same_evidence row row' →
    receipt_of attempt phase branch row receipt →
    pc_receipt_digest receipt_row = pr_receipt_digest receipt →
    json_to_string receipt = Ok (pc_receipt_json receipt_row) →
    executor_phase_journal db' = <[(attempt, key) := row']> (executor_phase_journal db) →
    executor_phase_receipts db' = <[(attempt, key) := receipt_row]> (executor_phase_receipts db) →
    executor_rollback_takeovers db' = executor_rollback_takeovers db →
    phase_effect db db'
| pe_takeover attempt takeover row :
    executor_rollback_takeovers db !! attempt = None →
    executor_phase_journal db !! (attempt, tk_forward_phase takeover) = Some row →
    pj_project_id row = tk_project_id takeover → pj_status row = tk_forward_status takeover →
    pj_intent_digest row = tk_forward_intent_digest takeover →
    deployed_phase (tk_forward_phase takeover) = true →
    (status_is Journal_Committed row ∨ health_or_soaking (tk_forward_phase takeover) = true) →
    (∀ key, uncommitted attempt key db → key ∉ recovery_keys → key = tk_forward_phase takeover) →
    executor_phase_journal db' = executor_phase_journal db →
    executor_phase_receipts db' = executor_phase_receipts db →
    executor_rollback_takeovers db' = <[attempt := takeover]> (executor_rollback_takeovers db) →
    phase_effect db db'.

Lemma phase_effect_refl db : phase_effect db db.
Proof. by apply pe_none. Qed.

(** ** Guards and statements *)

Lemma with_storage_key_effect {A} (P : SecurityDb → SecurityDb → Prop) branch phase
    (body : string → Tx SecurityDb StoreError A) db :
  P db db →
  (∀ key a db', storage_key branch phase = Ok key → body key db = Ok (a, db') → P db db') →
  P db (with_storage_key branch phase body db).1.
Proof.
  intros Hrefl Hbody. unfold with_storage_key, immediate_transaction.
  destruct (storage_key branch phase) as [key|e] eqn:Hk; [|done].
  destruct (body key db) as [[a db']|e] eqn:Hb; [|done]. by eapply Hbody.
Qed.

Lemma transaction_effect {A} (P : SecurityDb → SecurityDb → Prop)
    (body : Tx SecurityDb StoreError A) db :
  P db db → (∀ a db', body db = Ok (a, db') → P db db') →
  P db (immediate_transaction body db).1.
Proof.
  intros Hrefl Hbody. unfold immediate_transaction.
  destruct (body db) as [[a db']|e] eqn:Hb; [|done]. by eapply Hbody.
Qed.

Lemma load_rollback_takeover_None attempt db :
  load_rollback_takeover attempt db = Ok None →
  executor_rollback_takeovers db !! attempt = None.
Proof.
  unfold load_rollback_takeover. intros Hok. by repeat case_ok.
Qed.

Lemma load_rollback_takeover_Some attempt db takeover :
  load_rollback_takeover attempt db = Ok (Some takeover) →
  ∃ row, executor_rollback_takeovers db !! attempt = Some row
    ∧ tk_forward_phase row = phase_name (rt_forward_phase takeover).
Proof.
  unfold load_rollback_takeover. intros Hok. case_ok. case_ok. case_ok. eexists. split; [done|].
  match goal with Hp : rollback_takeover_phase _ = Ok _ |- _ =>
    unfold rollback_takeover_phase in Hp; repeat case_ok; by bool_prop end.
Qed.

Lemma require_branch_not_taken_over_Ok attempt branch db u db' :
  require_branch_not_taken_over attempt branch db = Ok (u, db') →
  db' = db ∧ branch_open attempt branch db.
Proof.
  unfold require_branch_not_taken_over, branch_open. intros Hok. case_ok; bool_prop.
  - inv_query. case_ok. inv_ok. split; [done|]. intros _. apply load_rollback_takeover_None.
    destruct x as [takeover|]; [done|done].
  - by split.
Qed.

(** An entry as it was read. *)
Definition entry_of_row (entry : PhaseJournalEntry) (row : PhaseJournalRow) : Prop :=
  pe_project_id entry = pj_project_id row ∧ pe_intent_digest entry = pj_intent_digest row
  ∧ pe_observation_digest entry = pj_observation_digest row
  ∧ json_from_str (pj_artifacts_json row) = Ok (pe_artifacts entry)
  ∧ status_is (pe_status entry) row ∧ pe_updated_at_ms entry = pj_updated_at_ms row.

Lemma load_phase_entry_Some attempt key phase db entry :
  load_phase_entry attempt key phase db = Ok (Some entry) →
  ∃ row, executor_phase_journal db !! (attempt, key) = Some row ∧ entry_of_row entry row.
Proof.
  unfold load_phase_entry. intros Hok. case_ok.
  match goal with Hs : PhaseJournalStatus_parse _ = Ok _ |- _ =>
    apply PhaseJournalStatus_parse_Ok in Hs end.
  eexists. split; [done|]. by unfold entry_of_row.
Qed.

Lemma load_phase_entry_None attempt key phase db :
  load_phase_entry attempt key phase db = Ok None →
  executor_phase_journal db !! (attempt, key) = None.
Proof. unfold load_phase_entry. intros Hok. by case_ok. Qed.

Lemma require_phase_entry_Ok attempt key phase db entry db' :
  require_phase_entry attempt key phase db = Ok (entry, db') →
  db' = db ∧ ∃ row, executor_phase_journal db !! (attempt, key) = Some row
    ∧ entry_of_row entry row.
Proof.
  unfold require_phase_entry. intros Hok. inv_query. split; [done|].
  subst. by eapply load_phase_entry_Some.
Qed.

Lemma update_journal_Ok attempt key guard f db n db' :
  update_journal attempt key guard f db = Ok (n, db') →
  (n = 0 ∧ db' = db)
  ∨ (n = 1 ∧ ∃ row, executor_phase_journal db !! (attempt, key) = Some row ∧ guard row = true
      ∧ db' = db <| executor_phase_journal :=
          <[(attempt, key) := f row]> (executor_phase_journal db) |>).
Proof.
  unfold update_journal. intros Hok. inv_ok.
  destruct (executor_phase_journal db !! (attempt, key)) as [row|] eqn:Hrow; [|by inv_ok; left].
  case_ok; [right|by left]. split; [done|]. by exists row.
Qed.

(** The same, where the row is known and no guard applies. *)
Lemma update_journal_known attempt key f db n db' row :
  update_journal attempt key (λ _, true) f db = Ok (n, db') →
  executor_phase_journal db !! (attempt, key) = Some row →
  db' = db <| executor_phase_journal :=
    <[(attempt, key) := f row]> (executor_phase_journal db) |>.
Proof.
  unfold update_journal. intros Hok Hrow. inv_ok. rewrite Hrow in Hok. by inv_ok.
Qed.

Lemma not_committed_true row : not_committed row = true ↔ ¬ status_is Journal_Committed row.
Proof. unfold not_committed, status_is. by bool_prop. Qed.

Lemma mark_phase_needs_reconcile_at_Ok attempt key t db u db' :
  mark_phase_needs_reconcile_at attempt key t db = Ok (u, db') →
  ∃ row, executor_phase_journal db !! (attempt, key) = Some row
    ∧ ¬ status_is Journal_Committed row
    ∧ db' = db <| executor_phase_journal :=
        <[(attempt, key) := mark_needs_reconcile t row]> (executor_phase_journal db) |>.
Proof.
  unfold mark_phase_needs_reconcile_at. intros Hok. inv_ok. bool_prop.
  match goal with Hu : update_journal _ _ _ _ _ = _ |- _ =>
    apply update_journal_Ok in Hu as [[-> _]|(_&row&Hrow&Hg&->)] end; [done|].
  exists row. split; [done|]. split; [by apply not_committed_true|done].
Qed.

Lemma insert_journal_Ok attempt key row db u db' :
  insert_journal attempt key row db = Ok (u, db') →
  db' = db <| executor_phase_journal :=
    <[(attempt, key) := row]> (executor_phase_journal db) |>.
Proof. unfold insert_journal. intros Hok. by inv_ok. Qed.

Lemma insert_receipt_Ok attempt key row db u db' :
  insert_receipt attempt key row db = Ok (u, db') →
  executor_phase_receipts db !! (attempt, key) = None
  ∧ db' = db <| executor_phase_receipts :=
      <[(attempt, key) := row]> (executor_phase_receipts db) |>.
Proof. unfold insert_receipt. intros Hok. inv_ok. by bool_prop. Qed.

Lemma journal_phases_elem attempt p db key :
  key ∈ journal_phases attempt p db ↔
  ∃ row, executor_phase_journal db !! (attempt, key) = Some row ∧ p row = true.
Proof.
  unfold journal_phases. rewrite list_elem_of_fmap. split.
  - intros ([[a k] row]&->&Hin). apply select_rows_elem in Hin as [Hp Hrow]. bool_prop.
    simpl in *. destruct Hp as [-> Hp]. by exists row.
  - intros (row&Hrow&Hp). exists ((attempt, key), row). split; [done|].
    apply select_rows_elem. simpl. by rewrite bool_decide_eq_true_2, Hp.
Qed.

Lemma uncommitted_elem attempt db key :
  key ∈ journal_phases attempt not_committed db ↔ uncommitted attempt key db.
Proof.
  rewrite journal_phases_elem. unfold uncommitted. by setoid_rewrite not_committed_true.
Qed.

Lemma has_uncommitted_phase_conflict_Ok attempt branch db db' :
  has_uncommitted_phase_conflict attempt branch db = Ok (false, db') →
  db' = db ∧ ∀ other, uncommitted attempt other db → branch = Branch_RollbackRecovery
    ∧ ∃ takeover, executor_rollback_takeovers db !! attempt = Some takeover
        ∧ tk_forward_phase takeover = other.
Proof.
  unfold has_uncommitted_phase_conflict. intros Hok.
  apply tx_bind_Ok in Hok as (takeover&db1&Htk&Hok). inv_ok.
  assert (db1 = db ∧ (takeover = None ∨ branch = Branch_RollbackRecovery
            ∧ load_rollback_takeover attempt db = Ok takeover)) as [-> Htakeover].
  { case_bool_decide; [apply query_Ok in Htk as [??]; naive_solver|].
    apply tx_ok_Ok in Htk. naive_solver. }
  apply tx_ok_Ok in Hok as [Hex ->]. split; [done|]. intros other Hother.
  symmetry in Hex. apply (existsb_false _ _ other) in Hex; [|by apply uncommitted_elem].
  apply negb_false_iff, bool_decide_eq_true in Hex as Hsome.
  destruct takeover as [takeover|]; [|done]. destruct Htakeover as [?|[-> Hload]]; [done|].
  apply load_rollback_takeover_Some in Hload as (row&Hrow&Hphase).
  split; [done|]. exists row. split; [done|]. naive_solver.
Qed.

Lemma require_phase_prerequisites_Ok attempt phase branch plan db u db' :
  require_phase_prerequisites attempt phase branch plan db = Ok (u, db') →
  db' = db ∧ branch_open attempt branch db.
Proof.
  unfold require_phase_prerequisites, branch_open. intros Hok. case_ok.
  match goal with Hq : query _ _ = _ |- _ => apply query_Ok in Hq as [Hload ->] end.
  destruct branch; [|by inv_ok]. case_ok. inv_ok. case_ok. case_ok. split; [done|]. intros _.
  apply load_rollback_takeover_None. rewrite Hload. by destruct x1.
Qed.

Lemma reads_authorized_for_project attempt project digest :
  reads_only (require_authorized_for_project attempt project digest).
Proof. apply reads_query. Qed.

(** ** The ledgers beside the journal *)

(** Specs, chains and grants are never changed or removed; a bootstrap claim stays
    with its attempt and spec; the trusted source position of a project never goes
    back, and a position keeps its attestation. *)
Definition claim_kept (row row' : BootstrapRow) : Prop :=
  bl_attempt_id row' = bl_attempt_id row ∧ bl_phase row' = bl_phase row
  ∧ bl_spec_digest row' = bl_spec_digest row
  ∧ (row' = row ∨ (bl_state row = "reserved"%string ∧ bl_state row' = "committed"%string)).

Definition position_kept (row row' : HighwaterRow) : Prop :=
  row' = row ∨ hw_source_sequence row < hw_source_sequence row'.

Record ledgers_grow (db db' : SecurityDb) : Prop := MkLedgersGrow {
  lg_specs : authorized_phase_specs db ⊆ authorized_phase_specs db';
  lg_chains : verified_backup_chains db ⊆ verified_backup_chains db';
  lg_grants : consumed_mutation_grants db ⊆ consumed_mutation_grants db';
  lg_bootstrap project row : project_bootstrap_ledger db !! project = Some row →
    ∃ row', project_bootstrap_ledger db' !! project = Some row' ∧ claim_kept row row';
  lg_highwater project row : source_trust_highwater db !! project = Some row →
    ∃ row', source_trust_highwater db' !! project = Some row' ∧ position_kept row row'
}.

Lemma claim_kept_refl row : claim_kept row row.
Proof. unfold claim_kept. naive_solver. Qed.

Lemma claim_kept_trans r1 r2 r3 : claim_kept r1 r2 → claim_kept r2 r3 → claim_kept r1 r3.
Proof.
  unfold claim_kept. intros (?&?&?&K1) (?&?&?&K2). split_and!; [congruence..|].
  destruct K1 as [->|[? Hc]]; [done|]. destruct K2 as [->|[Hr _]]; [naive_solver|congruence].
Qed.

Lemma position_kept_trans r1 r2 r3 : position_kept r1 r2 → position_kept r2 r3 → position_kept r1 r3.
Proof. unfold position_kept. intros [->|?] [->|?]; [naive_solver..|]. right. lia. Qed.

#[global] Instance ledgers_grow_preorder : PreOrder ledgers_grow.
Proof.
  split.
  - intros db. split; [done..| |]; intros project row Hrow; exists row; split; try done.
    + apply claim_kept_refl.
    + by left.
  - intros db1 db2 db3 [S1 C1 G1 B1 W1] [S2 C2 G2 B2 W2]. split; [by etrans..| |].
    + intros project row (row2&Hrow2&Hk2)%B1. destruct (B2 _ _ Hrow2) as (row3&Hrow3&Hk3).
      exists row3. split; [done|]. by eapply claim_kept_trans.
    + intros project row (row2&Hrow2&Hk2)%W1. destruct (W2 _ _ Hrow2) as (row3&Hrow3&Hk3).
      exists row3. split; [done|]. by eapply position_kept_trans.
Qed.

Lemma ledgers_same db db' :
  authorized_phase_specs db' = authorized_phase_specs db →
  verified_backup_chains db' = verified_backup_chains db →
  consumed_mutation_grants db' = consumed_mutation_grants db →
  project_bootstrap_ledger db' = project_bootstrap_ledger db →
  source_trust_highwater db' = source_trust_highwater db → ledgers_grow db db'.
Proof.
  intros K1 K2 K3 K4 K5. split; [by rewrite ?K1, ?K2, ?K3..| |];
    intros project row Hrow; exists row; rewrite ?K4, ?K5; split; try done.
  - apply claim_kept_refl.
  - by left.
Qed.

Definition step_effect (db db' : SecurityDb) : Prop := phase_effect db db' ∧ ledgers_grow db db'.

Lemma step_effect_refl db : step_effect db db.
Proof. split; [apply phase_effect_refl|reflexivity]. Qed.

(** An operation that only writes the ledgers, or none of these tables. *)
Definition phase_tables_same (db db' : SecurityDb) : Prop :=
  executor_phase_journal db' = executor_phase_journal db
  ∧ executor_phase_receipts db' = executor_phase_receipts db
  ∧ executor_rollback_takeovers db' = executor_rollback_takeovers db.

Lemma phase_tables_same_effect db db' :
  phase_tables_same db db' → ledgers_grow db db' → step_effect db db'.
Proof. intros (?&?&?) ?. split; [by apply pe_none|done]. Qed.

(** Close the effect of a known update of the phase tables. *)
Ltac journal_write := split; [|by apply ledgers_same].

(** ** Operations on the journal *)

Lemma mark_needs_reconcile_move phase t row :
  ¬ status_is Journal_Committed row → phase_move phase row (mark_needs_reconcile t row).
Proof. intros Hs. apply pm_needs_reconcile; [done..|by left]. Qed.

Lemma mark_effect attempt branch phase key t db u db' :
  storage_key branch phase = Ok key → branch_open attempt branch db →
  mark_phase_needs_reconcile_at attempt key t db = Ok (u, db') → step_effect db db'.
Proof.
  intros Hkey Hopen (row&Hrow&Hs&->)%mark_phase_needs_reconcile_at_Ok. journal_write.
  eapply pe_move; try done; [by apply mark_needs_reconcile_move|by left].
Qed.

Lemma begin_phase_intent_effect request db : step_effect db (begin_phase_intent request db).1.
Proof.
  unfold begin_phase_intent. apply (with_storage_key_effect step_effect); [apply step_effect_refl|]. intros key a db' Hkey Hok.
  apply tx_bind_Ok in Hok as (u1&db1&->%reads_authorized_for_project&Hok).
  apply tx_bind_Ok in Hok as (u2&db2&[-> Hopen]%require_phase_prerequisites_Ok&Hok).
  apply tx_bind_Ok in Hok as (existing&db3&[Hload ->]%query_Ok&Hok).
  destruct existing as [existing|].
  - case_ok; [apply step_effect_refl|]. by eapply mark_effect.
  - apply load_phase_entry_None in Hload.
    apply tx_bind_Ok in Hok as (conflict&db4&Hc&Hok). case_ok.
    apply has_uncommitted_phase_conflict_Ok in Hc as [-> Hc].
    match goal with Hi : insert_journal _ _ _ _ = _ |- _ => apply insert_journal_Ok in Hi as -> end.
    journal_write. eapply pe_intent; try done; done.
Qed.

Lemma validate_observation_contract request key project db u :
  validate_observation request key project db = Ok u →
  validate_for_phase (po_artifacts request) (po_phase request) = Ok tt.
Proof. unfold validate_observation. intros Hok. inv_ok. by destruct x. Qed.

Lemma record_phase_observation_effect request db :
  step_effect db (record_phase_observation_in_branch request db).1.
Proof.
  unfold record_phase_observation_in_branch. apply (with_storage_key_effect step_effect); [apply step_effect_refl|]. intros key a db' Hkey Hok.
  apply tx_bind_Ok in Hok as (u1&db1&[-> Hopen]%require_branch_not_taken_over_Ok&Hok).
  apply tx_bind_Ok in Hok as (entry&db2&(->&row&Hrow&Hentry)%require_phase_entry_Ok&Hok).
  destruct Hentry as (Hp&Hi&Ho&Ha&Hs&Ht).
  case_ok; [apply step_effect_refl|]. case_ok.
  - case_ok. case_ok. bool_prop.
    match goal with Hu : update_journal _ _ _ _ _ = _ |- _ =>
      apply update_journal_Ok in Hu as [[-> _]|(_&row'&Hrow'&Hg&->)] end; [done|].
    journal_write. simplify_eq. eapply pe_move; try done; [|by left].
    apply pm_needs_reconcile; try done; [by apply not_committed_true|]. right. by eexists.
  - match goal with Hq : query _ _ = _ |- _ => apply query_Ok in Hq as [Hval ->] end. case_ok.
    + match goal with Hu : update_journal _ _ _ _ _ = _ |- _ =>
        eapply update_journal_known in Hu as ->; [|done] end.
      bool_prop. journal_write. eapply pe_move; try done; [|by left].
      apply validate_observation_contract in Hval. eapply pm_observed; [|done..].
      unfold status_is in *. congruence.
    + case_ok; [|apply step_effect_refl]. case_ok. by eapply mark_effect.
Qed.

Lemma mark_phase_verified_effect attempt phase branch t db :
  step_effect db (mark_phase_verified_in_branch attempt phase branch t db).1.
Proof.
  unfold mark_phase_verified_in_branch. apply (with_storage_key_effect step_effect); [apply step_effect_refl|]. intros key a db' Hkey Hok.
  apply tx_bind_Ok in Hok as (u1&db1&[-> Hopen]%require_branch_not_taken_over_Ok&Hok).
  apply tx_bind_Ok in Hok as (entry&db2&(->&row&Hrow&Hentry)%require_phase_entry_Ok&Hok).
  destruct Hentry as (_&_&_&_&Hs&_).
  destruct (pe_status entry) eqn:Hst; inv_ok; try apply step_effect_refl.
  match goal with Hu : update_journal _ _ _ _ _ = _ |- _ =>
    eapply update_journal_known in Hu as ->; [|done] end.
  journal_write. eapply pe_move; try done; [|by left]. by apply pm_verified.
Qed.

Lemma mark_phase_needs_reconcile_effect attempt phase branch t db :
  step_effect db (mark_phase_needs_reconcile_in_branch attempt phase branch t db).1.
Proof.
  unfold mark_phase_needs_reconcile_in_branch. apply (with_storage_key_effect step_effect); [apply step_effect_refl|]. intros key a db' Hkey Hok.
  apply tx_bind_Ok in Hok as (u1&db1&[-> Hopen]%require_branch_not_taken_over_Ok&Hok).
  by eapply mark_effect.
Qed.

(** ** Operations on the ledgers *)

(** A write of one ledger. *)
Definition ledger_write (db db' : SecurityDb) : Prop :=
  phase_tables_same db db' ∧ ledgers_grow db db'.

#[global] Instance ledger_write_preorder : PreOrder ledger_write.
Proof.
  split.
  - intros db. split; [done|reflexivity].
  - intros db1 db2 db3 [(?&?&?) ?] [(?&?&?) ?].
    split; [unfold phase_tables_same; split_and!; congruence|by etrans].
Qed.

Lemma ledger_write_effect db db' : ledger_write db db' → step_effect db db'.
Proof. intros [??]. by apply phase_tables_same_effect. Qed.

(** Writing a claim over one it keeps, or where there was none. *)
Lemma bootstrap_write project row db :
  (∀ row0, project_bootstrap_ledger db !! project = Some row0 → claim_kept row0 row) →
  ledger_write db (db <| project_bootstrap_ledger :=
    <[project := row]> (project_bootstrap_ledger db) |>).
Proof.
  intros Hkept. split; [done|]. split; [done..| |intros p r Hp; exists r; split; [done|by left]].
  intros p r Hp. simpl. destruct (decide (p = project)) as [->|Hne].
  - exists row. rewrite lookup_insert_eq. split; [done|by apply Hkept].
  - exists r. rewrite lookup_insert_ne by done. split; [done|apply claim_kept_refl].
Qed.

Lemma ledger_extend db db' :
  phase_tables_same db db' →
  authorized_phase_specs db ⊆ authorized_phase_specs db' →
  verified_backup_chains db ⊆ verified_backup_chains db' →
  consumed_mutation_grants db ⊆ consumed_mutation_grants db' →
  project_bootstrap_ledger db' = project_bootstrap_ledger db →
  source_trust_highwater db' = source_trust_highwater db → ledger_write db db'.
Proof.
  intros Hsame Hs Hc Hg Hb Hh. split; [done|]. split; [done..| |];
    intros project row Hrow; exists row; rewrite ?Hb, ?Hh; split; try done.
  - apply claim_kept_refl.
  - by left.
Qed.

Lemma insert_phase_spec_write attempt key row db u db' :
  insert_phase_spec attempt key row db = Ok (u, db') → ledger_write db db'.
Proof.
  unfold insert_phase_spec. intros Hok. inv_ok. bool_prop.
  apply ledger_extend; try done. by apply insert_subseteq.
Qed.

Lemma insert_backup_chain_write attempt key row db u db' :
  insert_backup_chain attempt key row db = Ok (u, db') → ledger_write db db'.
Proof.
  unfold insert_backup_chain. intros Hok. inv_ok. bool_prop.
  apply ledger_extend; try done. by apply insert_subseteq.
Qed.

Lemma consume_mutation_grant_Ok spec key t db u db' :
  consume_mutation_grant spec key t db = Ok (u, db') →
  ledger_write db db'
  ∧ ∀ grant_id digest, spec_grant spec = Some (grant_id, digest) →
      ∃ row, consumed_mutation_grants db' !! grant_id = Some row
        ∧ grant_row_matches spec digest key row = true.
Proof.
  unfold consume_mutation_grant. intros Hok.
  destruct (spec_grant spec) as [[grant_id digest]|]; [|by inv_ok].
  inv_ok. destruct (consumed_mutation_grants db !! grant_id) as [row|] eqn:Hrow.
  - case_ok. split; [reflexivity|]. intros ?? [= <- <-]. by exists row.
  - case_ok. unfold insert_grant in Hok. inv_ok. bool_prop. split.
    + apply ledger_extend; try done. by apply insert_subseteq.
    + intros ?? [= <- <-]. simpl. rewrite lookup_insert_eq. eexists. split; [done|].
      unfold grant_row_matches. simpl. by rewrite !bool_decide_eq_true_2.
Qed.

Lemma reserve_bootstrap_Ok spec key t db u db' :
  reserve_bootstrap spec key t db = Ok (u, db') →
  ledger_write db db' ∧ consumed_mutation_grants db' = consumed_mutation_grants db
  ∧ (is_bootstrap spec = true →
     ∃ row, project_bootstrap_ledger db' !! ps_project_id spec = Some row
       ∧ bootstrap_row_matches (ps_attempt_id spec) key (ps_spec_digest spec) row = true).
Proof.
  unfold reserve_bootstrap. intros Hok. destruct (is_bootstrap spec); simpl in Hok; [|by inv_ok].
  case_ok. inv_ok.
  destruct (project_bootstrap_ledger db !! ps_project_id spec) as [row|] eqn:Hrow.
  - case_ok. split_and!; [reflexivity|done|]. intros _. by exists row.
  - inv_ok. split_and!; [|done|].
    + apply bootstrap_write. intros row0 Hrow0. congruence.
    + intros _. simpl. rewrite lookup_insert_eq. eexists. split; [done|].
      unfold bootstrap_row_matches. simpl. by rewrite !bool_decide_eq_true_2.
Qed.

Lemma commit_bootstrap_write attempt key phase branch receipt t db u db' :
  commit_bootstrap_ledger_if_needed attempt key phase branch receipt t db = Ok (u, db') →
  ledger_write db db'.
Proof.
  unfold commit_bootstrap_ledger_if_needed. intros Hok. inv_ok. case_ok; [|reflexivity].
  case_ok; [reflexivity|]. case_ok. case_ok; [|by case_ok]. bool_prop. destruct_and!.
  apply bootstrap_write. intros row0 Hrow0. simplify_eq. unfold claim_kept. naive_solver.
Qed.

Lemma close_backup_boundary_write attempt key phase branch t db u db' :
  close_backup_boundary_if_needed attempt key phase branch t db = Ok (u, db') →
  ledger_write db db'.
Proof.
  unfold close_backup_boundary_if_needed, release_boundaries. intros Hok.
  case_ok; [reflexivity|]. case_ok; [reflexivity|]. case_ok. by apply ledger_extend.
Qed.

Lemma raise_highwater_Ok project row db u db' :
  raise_highwater project row db = Ok (u, db') → ledger_write db db'.
Proof.
  unfold raise_highwater. intros Hok. inv_ok. case_ok; [|reflexivity]. split; [done|].
  split; [done..| |]; intros p r Hp.
  - exists r. split; [done|apply claim_kept_refl].
  - simpl. destruct (decide (p = project)) as [->|Hne].
    + exists row. rewrite lookup_insert_eq. split; [done|]. right. rewrite Hp in *. by bool_prop.
    + exists r. rewrite lookup_insert_ne by done. split; [done|by left].
Qed.

Lemma bind_authorized_phase_spec_effect binding db :
  step_effect db (bind_authorized_phase_spec binding db).1.
Proof.
  unfold bind_authorized_phase_spec. case_match; [apply step_effect_refl|].
  case_match; [|apply step_effect_refl].
  apply (with_storage_key_effect step_effect); [apply step_effect_refl|].
  intros key answer db' Hkey Hok.
  apply tx_bind_Ok in Hok as (u1&db1&[-> _]%require_branch_not_taken_over_Ok&Hok).
  apply tx_bind_Ok in Hok as (entry&db2&(->&_)%require_phase_entry_Ok&Hok).
  case_ok. case_ok; [case_ok; apply step_effect_refl|].
  by eapply ledger_write_effect, insert_phase_spec_write.
Qed.

Lemma bind_verified_backup_chain_effect binding db :
  step_effect db (bind_verified_backup_chain binding db).1.
Proof.
  unfold bind_verified_backup_chain. case_match; [|apply step_effect_refl].
  apply (transaction_effect step_effect); [apply step_effect_refl|]. intros a' db' Hok.
  apply tx_bind_Ok in Hok as (u1&db1&[-> _]%require_branch_not_taken_over_Ok&Hok).
  apply tx_bind_Ok in Hok as (entry&db2&(->&_)%require_phase_entry_Ok&Hok).
  inv_ok. case_ok.
  match goal with Hq : query _ _ = _ |- _ => apply query_Ok in Hq as [_ ->] end.
  case_ok; [case_ok; apply step_effect_refl|].
  by eapply ledger_write_effect, insert_backup_chain_write.
Qed.

(** What a permit stands for: the spec bound to the phase, its grant consumed for
    it and its bootstrap claim held by it. *)
Definition permit_stands (permit : AuthorizedPhasePermitV1) (spec : AuthorizedPhaseSpecV1)
    (key : string) (db : SecurityDb) : Prop :=
  storage_key (pp_branch permit) (pp_phase permit) = Ok key
  ∧ ps_attempt_id spec = pp_attempt_id permit ∧ ps_project_id spec = pp_project_id permit
  ∧ ps_phase spec = pp_phase permit ∧ ps_branch spec = pp_branch permit
  ∧ ps_intent_digest spec = pp_intent_digest permit ∧ ps_spec_digest spec = pp_spec_digest permit
  ∧ (∀ grant_id digest, spec_grant spec = Some (grant_id, digest) →
       ∃ row, consumed_mutation_grants db !! grant_id = Some row
         ∧ grant_row_matches spec digest key row = true)
  ∧ (is_bootstrap spec = true →
       ∃ row, project_bootstrap_ledger db !! ps_project_id spec = Some row
         ∧ bootstrap_row_matches (ps_attempt_id spec) key (ps_spec_digest spec) row = true).

Lemma decode_authorized_phase_spec_document_Ok binding spec :
  decode_authorized_phase_spec_document binding = Ok spec →
  PhaseSpec_decode_canonical (sb_canonical_json binding) = Ok spec
  ∧ ps_attempt_id spec = sb_attempt_id binding ∧ ps_project_id spec = sb_project_id binding
  ∧ ps_phase spec = sb_phase binding ∧ ps_branch spec = sb_branch binding
  ∧ ps_intent_digest spec = sb_intent_digest binding
  ∧ ps_spec_digest spec = sb_spec_digest binding.
Proof.
  unfold decode_authorized_phase_spec_document. intros Hok. inv_ok. case_ok. bool_prop.
  naive_solver.
Qed.

Lemma authorize_bound_phase_spec_Ok attempt phase branch t db key permit db' :
  storage_key branch phase = Ok key →
  authorize_bound_phase_spec attempt phase branch t db = (db', Ok permit) →
  ledger_write db db'
  ∧ pp_attempt_id permit = attempt ∧ pp_phase permit = phase ∧ pp_branch permit = branch
  ∧ ∃ row spec, authorized_phase_specs db !! (attempt, key) = Some row
      ∧ PhaseSpec_decode_canonical (sp_canonical_json row) = Ok spec
      ∧ pp_document_digest permit = EvidenceDigest_sha256 (sp_canonical_json row)
      ∧ validate_verified_prerequisite_chains spec db = Ok tt
      ∧ validate_active_fence_for_spec spec db = Ok tt
      ∧ (∀ through, ps_prerequisites_valid_through_ms spec = Some through → t ≤ through)
      ∧ permit_stands permit spec key db'.
Proof.
  unfold authorize_bound_phase_spec, with_storage_key. intros Hkey Hok. rewrite Hkey in Hok.
  case_match; [done|]. apply immediate_transaction_Ok in Hok.
  apply tx_bind_Ok in Hok as (u1&db1&[-> _]%require_branch_not_taken_over_Ok&Hok).
  apply tx_bind_Ok in Hok as (entry&db2&(->&_)%require_phase_entry_Ok&Hok).
  case_ok. case_ok. case_ok.
  repeat match goal with Hq : query _ _ = _ |- _ => apply query_Ok in Hq as [? ->] end.
  match goal with Hg : consume_mutation_grant _ _ _ _ = _ |- _ =>
    apply consume_mutation_grant_Ok in Hg as [Hw1 Hgrant] end.
  match goal with Hb : reserve_bootstrap _ _ _ _ = _ |- _ =>
    apply reserve_bootstrap_Ok in Hb as (Hw2&Hsame&Hboot) end.
  match goal with Hd : decode_authorized_phase_spec_document _ = Ok _ |- _ =>
    apply decode_authorized_phase_spec_document_Ok in Hd as (Hdec&?&?&?&?&?&?) end.
  unfold load_authorized_phase_spec in *.
  destruct (authorized_phase_specs db !! (attempt, key)) as [row|] eqn:Hrow; [|done].
  simplify_eq/=. bool_prop. destruct_and!. split_and!; [by etrans|done..|]. do 2 eexists.
  repeat match goal with u : () |- _ => destruct u end. split_and!; try done.
  - intros through Hthrough. rewrite Hthrough in *. by bool_prop.
  - unfold permit_stands. simpl. rewrite Hsame. by split_and!.
Qed.

Lemma authorize_bound_phase_spec_effect attempt phase branch t db :
  step_effect db (authorize_bound_phase_spec attempt phase branch t db).1.
Proof.
  destruct (authorize_bound_phase_spec attempt phase branch t db) as [db' [permit|e]] eqn:Hok.
  - destruct (storage_key branch phase) as [key|e] eqn:Hkey.
    + pose proof (authorize_bound_phase_spec_Ok _ _ _ _ _ _ _ _ Hkey Hok) as [Hw _].
      by apply ledger_write_effect.
    + unfold authorize_bound_phase_spec, with_storage_key in Hok. rewrite Hkey in Hok.
      by case_match.
  - unfold authorize_bound_phase_spec, with_storage_key in Hok. case_match;
      [by simplify_eq; apply step_effect_refl|].
    case_match; [|by simplify_eq; apply step_effect_refl].
    apply immediate_transaction_Err in Hok as ->. apply step_effect_refl.
Qed.

(** ** Source-gate proofs *)

Lemma reject_source_gate_proof_effect {A} proof key error db (a : Result StoreError A) db' :
  storage_key Branch_Primary (sg_phase proof) = Ok key →
  reject_source_gate_proof proof key error db = Ok (a, db') → step_effect db db'.
Proof.
  unfold reject_source_gate_proof. intros Hkey Hok. inv_ok. case_ok. case_ok. bool_prop.
  match goal with Hm : mark_phase_needs_reconcile_at _ _ _ _ = _ |- _ =>
    apply mark_phase_needs_reconcile_at_Ok in Hm as (row&Hrow&Hs&->) end.
  simpl in Hrow. simplify_eq. journal_write.
  eapply (pe_move _ _ _ Branch_Primary (sg_phase proof)); try done;
    [by apply mark_needs_reconcile_move|]. right. by split_and!.
Qed.

Lemma persist_source_gate_proof_effect proof key sequence db a db' :
  storage_key Branch_Primary (sg_phase proof) = Ok key →
  persist_source_gate_proof proof key sequence db = Ok (a, db') → step_effect db db'.
Proof.
  unfold persist_source_gate_proof. intros Hkey Hok. inv_ok. case_ok.
  - case_ok; [apply step_effect_refl|]. by eapply reject_source_gate_proof_effect.
  - match goal with Hr : raise_highwater _ _ _ = _ |- _ => apply raise_highwater_Ok in Hr;
      eapply ledger_write_effect, transitivity; [|exact Hr] end. by apply ledger_extend.
Qed.

Lemma admission_effect proof key db a db' :
  storage_key Branch_Primary (sg_phase proof) = Ok key →
  validate_source_gate_proof_admission proof key db = Ok (a, db') →
  step_effect db db' ∧ (∀ sequence, a = Ok sequence → db' = db).
Proof.
  unfold validate_source_gate_proof_admission. intros Hkey Hok.
  apply tx_bind_Ok in Hok as (entry&db2&(->&_)%require_phase_entry_Ok&Hok).
  assert (∀ error, reject_source_gate_proof proof key error db = Ok (a, db') →
    step_effect db db' ∧ (∀ sequence, a = Ok sequence → db' = db)) as Hreject.
  { intros error Hr. split; [by eapply reject_source_gate_proof_effect|].
    intros sequence ->. unfold reject_source_gate_proof in Hr. inv_ok. by repeat case_ok. }
  case_ok. case_ok; [by eapply Hreject|]. case_ok; [by eapply Hreject|].
  case_ok; [|by eapply Hreject]. case_ok; [by eapply Hreject|].
  split; [apply step_effect_refl|done].
Qed.

Lemma record_source_gate_proof_effect proof db :
  step_effect db (record_source_gate_proof proof db).1.
Proof.
  unfold record_source_gate_proof, flatten_result. simpl.
  apply (with_storage_key_effect step_effect); [apply step_effect_refl|].
  intros key a db' Hkey Hok.
  apply tx_bind_Ok in Hok as (admission&db1&Ha&Hok). apply admission_effect in Ha as [He Hsame];
    [|done..]. case_ok; [|done]. rewrite (Hsame _ eq_refl) in Hok.
  by eapply persist_source_gate_proof_effect.
Qed.

Lemma compensate_source_gate_rejection_effect attempt project phase branch digest t db :
  step_effect db (compensate_source_gate_rejection attempt project phase branch digest t db).1.
Proof.
  unfold compensate_source_gate_rejection. case_match; [apply step_effect_refl|].
  apply (with_storage_key_effect step_effect); [apply step_effect_refl|].
  intros key a db' Hkey Hok.
  apply tx_bind_Ok in Hok as (u1&db1&[-> Hopen]%require_branch_not_taken_over_Ok&Hok).
  apply tx_bind_Ok in Hok as (entry&db2&(->&row&Hrow&Hentry)%require_phase_entry_Ok&Hok).
  destruct Hentry as (Hp&Hi&Ho&Ha&Hs&_). case_ok. case_ok. case_ok. case_ok. bool_prop.
  destruct_and!.
  match goal with Hu : update_journal _ _ _ _ _ = _ |- _ =>
    apply update_journal_Ok in Hu as [[-> _]|(_&row'&Hrow'&Hg&->)] end; [done|].
  simpl in Hrow'. bool_prop. simplify_eq. journal_write.
  eapply pe_move; try done; [|by left]. apply pm_compensated; [done..| |]; [|congruence].
  destruct (pj_observation_digest row); [|done]. rewrite Ho in *. simpl in *. by bool_prop.
Qed.

(** ** Receipts and takeovers *)

Lemma commit_receipt_in_branch_effect attempt phase branch t db :
  step_effect db (commit_phase_receipt_in_branch attempt phase branch t db).1.
Proof.
  unfold commit_phase_receipt_in_branch.
  apply (with_storage_key_effect step_effect); [apply step_effect_refl|].
  intros key a db' Hkey Hok.
  apply tx_bind_Ok in Hok as (u1&db1&[-> Hopen]%require_branch_not_taken_over_Ok&Hok).
  apply tx_bind_Ok in Hok as (existing&db2&[_ ->]%query_Ok&Hok).
  case_ok; [apply step_effect_refl|].
  match goal with He : require_phase_entry _ _ _ _ = _ |- _ =>
    apply require_phase_entry_Ok in He as (->&row&Hrow&Hp&Hi&Ho&Ha&Hs&_) end.
  case_ok. bool_prop.
  repeat match goal with
  | Hb : commit_bootstrap_ledger_if_needed _ _ _ _ _ _ _ = _ |- _ =>
      apply commit_bootstrap_write in Hb
  | Hb : close_backup_boundary_if_needed _ _ _ _ _ _ = _ |- _ =>
      apply close_backup_boundary_write in Hb
  end.
  match goal with Hb1 : ledger_write db ?db1, Hb2 : ledger_write ?db1 ?db2 |- _ =>
    assert (ledger_write db db2) as Hw by (by etrans); clear Hb1 Hb2 end.
  match goal with Hi : insert_receipt _ _ _ _ = _ |- _ =>
    apply insert_receipt_Ok in Hi as [Hfresh ->] end.
  destruct Hw as [(Hj&Hr&Htk) Hgrow].
  match goal with Hu : update_journal _ _ _ _ _ = _ |- _ =>
    apply update_journal_known with (row := row) in Hu as ->; [|simpl; congruence] end.
  split.
  - match goal with Hn : PhaseReceipt_new _ _ _ _ _ _ _ = Ok ?receipt,
        Hjson : json_to_string ?receipt = Ok ?json |- _ =>
      apply (pe_commit _ _ attempt branch phase key row
               (row <| pj_status := "committed" |> <| pj_updated_at_ms := t |>) receipt
               (MkPhaseReceiptRow (pr_receipt_digest receipt) json t)) end;
      simpl; try done; try congruence.
    econstructor; [by rewrite <- Ho|done|by rewrite <- Hi].
  - etrans; [exact Hgrow|]. by apply ledgers_same.
Qed.

Lemma select_rollback_forward_snapshot_Ok attempt project db key status digest :
  select_rollback_forward_snapshot attempt project db = Ok (key, status, digest) →
  ∃ row, executor_phase_journal db !! (attempt, key) = Some row
    ∧ pj_project_id row = project ∧ status_is status row ∧ pj_intent_digest row = digest
    ∧ deployed_phase key = true
    ∧ (status = Journal_Committed ∨ health_or_soaking key = true)
    ∧ ∀ other, uncommitted attempt other db → other ∉ recovery_keys → other = key.
Proof.
  unfold select_rollback_forward_snapshot. intros Hok.
  set (rows := sort_by phase_key_compare _) in Hok.
  assert (∀ other, uncommitted attempt other db → other ∉ recovery_keys →
            ∃ row, ((attempt, other), row) ∈ rows) as Hrows.
  { intros other (row&Hrow&Hs) Hrec. exists row. unfold rows. rewrite sort_by_Permutation.
    apply select_rows_elem. simpl. apply not_committed_true in Hs. rewrite Hs.
    by rewrite !bool_decide_eq_true_2. }
  assert (∀ k row, (k, row) ∈ rows → k.1 = attempt ∧ executor_phase_journal db !! k = Some row)
    as Hmem.
  { intros k row. unfold rows. rewrite sort_by_Permutation, select_rows_elem. bool_prop. naive_solver. }
  clearbody rows. apply result_bind_Ok in Hok as ([k row]&Hsel&Hok).
  assert (k.1 = attempt ∧ executor_phase_journal db !! k = Some row
    ∧ ∀ other, uncommitted attempt other db → other ∉ recovery_keys → other = k.2)
    as (Hk&Hrow&Hother).
  { clear Hok. destruct rows as [|[k0 row0] rest].
    - inv_ok. apply head_sort_Some, select_rows_elem in Hsel as [Hp Hrow]. bool_prop.
      destruct_and!. split_and!; [done..|]. intros other Hu Hr.
      destruct (Hrows other Hu Hr) as [? Hin]. by apply not_elem_of_nil in Hin.
    - case_ok. bool_prop. destruct_and!. simplify_eq.
      destruct (Hmem k row) as [??]; [by left|]. split_and!; [done..|]. intros other Hu Hr.
      destruct (Hrows other Hu Hr) as [row' Hin]. destruct rest; [|done].
      apply list_elem_of_singleton in Hin. by injection Hin as <- _. }
  destruct k as [a k]. simpl in *. subst a. case_ok.
  match goal with Hs : PhaseJournalStatus_parse _ = Ok _ |- _ =>
    apply PhaseJournalStatus_parse_Ok in Hs end.
  case_ok. bool_prop. simplify_eq/=. exists row. split_and!; try done.
  - destruct status; unfold deployed_phase in *; try done; bool_prop; naive_solver.
  - destruct status; naive_solver.
Qed.

Lemma reads_rollback_fence_available attempt project :
  reads_only (require_rollback_fence_available attempt project).
Proof.
  intros db a db' Hok. unfold require_rollback_fence_available in Hok. inv_query.
  case_ok; [by case_ok|]. inv_query. case_ok; [by case_ok|done].
Qed.

Lemma insert_takeover_Ok attempt row db u db' :
  insert_takeover attempt row db = Ok (u, db') →
  executor_rollback_takeovers db !! attempt = None
  ∧ db' = db <| executor_rollback_takeovers :=
      <[attempt := row]> (executor_rollback_takeovers db) |>.
Proof. unfold insert_takeover. intros Hok. inv_ok. by bool_prop. Qed.

Lemma begin_rollback_takeover_effect attempt project digest t db :
  step_effect db (begin_rollback_takeover attempt project digest t db).1.
Proof.
  apply (transaction_effect step_effect); [apply step_effect_refl|]. intros a db' Hok.
  apply tx_bind_Ok in Hok as (u1&db1&->%reads_authorized_for_project&Hok).
  apply tx_bind_Ok in Hok as (u2&db2&->%reads_rollback_fence_available&Hok).
  apply tx_bind_Ok in Hok as (existing&db3&[_ ->]%query_Ok&Hok).
  case_ok; [case_ok; apply step_effect_refl|].
  match goal with Hq : query _ _ = _ |- _ => apply query_Ok in Hq as [Hsel ->] end.
  destruct x as [[key status] intent].
  apply select_rollback_forward_snapshot_Ok in Hsel as (row&Hrow&?&?&?&?&Hst&?).
  inv_ok. match goal with Hi : insert_takeover _ _ _ = _ |- _ =>
    apply insert_takeover_Ok in Hi as [Hnone ->] end.
  match goal with Hq : query _ _ = _ |- _ => apply query_Ok in Hq as [_ ->] end.
  case_ok. journal_write.
  eapply (pe_takeover _ _ attempt (MkTakeoverRow project key _ intent t)); try done.
  simpl. destruct Hst as [->|?]; [by left|by right].
Qed.

Lemma begin_backup_boundary_effect token project attempt t db :
  step_effect db (begin_backup_boundary token project attempt t db).1.
Proof.
  apply (transaction_effect step_effect); [apply step_effect_refl|]. intros a db' Hok.
  apply tx_bind_Ok in Hok as (u1&db1&->%reads_authorized_for_project&Hok).
  apply tx_bind_Ok in Hok as (u2&db2&[-> _]%require_resource_owned_Ok&Hok). cbv zeta in Hok. inv_ok.
  match goal with He : require_phase_entry _ _ _ _ = _ |- _ =>
    apply require_phase_entry_Ok in He as (->&_) end.
  case_ok. case_ok. inv_query. case_ok. inv_query. case_ok. inv_query.
  case_ok; [case_ok; apply step_effect_refl|].
  match goal with He : allocate_next_fence_epoch _ = Ok (?e, _) |- _ =>
    apply allocate_next_fence_epoch_Ok in He as (->&_&->) end.
  unfold insert_boundary in *. inv_ok. by apply ledger_write_effect, ledger_extend.
Qed.

Lemma authorize_attempt_effect authorization t db :
  step_effect db (authorize_attempt authorization t db).1.
Proof.
  unfold authorize_attempt. do 2 (case_match; [apply step_effect_refl|]).
  do 2 (case_match; [|apply step_effect_refl]).
  apply (transaction_effect step_effect); [apply step_effect_refl|]. intros ans db' Hok.
  inv_ok. case_ok; [case_ok; case_ok; apply step_effect_refl|]. case_ok.
  by apply ledger_write_effect, ledger_extend.
Qed.

(** ** Runs of the store *)

(** A phase operation, or any other operation of the store: those leave the tables
    of this component alone. *)
Inductive phase_step (db : SecurityDb) : SecurityDb → Prop :=
| step_authorize_attempt authorization t :
    phase_step db (authorize_attempt authorization t db).1
| step_begin_intent request : phase_step db (begin_phase_intent request db).1
| step_observe request : phase_step db (record_phase_observation_in_branch request db).1
| step_verify attempt phase branch t :
    phase_step db (mark_phase_verified_in_branch attempt phase branch t db).1
| step_mark attempt phase branch t :
    phase_step db (mark_phase_needs_reconcile_in_branch attempt phase branch t db).1
| step_commit attempt phase branch t :
    phase_step db (commit_phase_receipt_in_branch attempt phase branch t db).1
| step_takeover attempt project digest t :
    phase_step db (begin_rollback_takeover attempt project digest t db).1
| step_bind_spec binding : phase_step db (bind_authorized_phase_spec binding db).1
| step_bind_chain binding : phase_step db (bind_verified_backup_chain binding db).1
| step_authorize_spec attempt phase branch t :
    phase_step db (authorize_bound_phase_spec attempt phase branch t db).1
| step_source_gate proof : phase_step db (record_source_gate_proof proof db).1
| step_compensate attempt project phase branch digest t :
    phase_step db (compensate_source_gate_rejection attempt project phase branch digest t db).1
| step_boundary token project attempt t :
    phase_step db (begin_backup_boundary token project attempt t db).1
| step_elsewhere db' :
    phase_tables_same db db' →
    authorized_phase_specs db' = authorized_phase_specs db →
    verified_backup_chains db' = verified_backup_chains db →
    consumed_mutation_grants db' = consumed_mutation_grants db →
    project_bootstrap_ledger db' = project_bootstrap_ledger db →
    source_trust_highwater db' = source_trust_highwater db →
    phase_step db db'.

Lemma phase_step_effect db db' : phase_step db db' → step_effect db db'.
Proof.
  destruct 1.
  - apply authorize_attempt_effect.
  - apply begin_phase_intent_effect.
  - apply record_phase_observation_effect.
  - apply mark_phase_verified_effect.
  - apply mark_phase_needs_reconcile_effect.
  - apply commit_receipt_in_branch_effect.
  - apply begin_rollback_takeover_effect.
  - apply bind_authorized_phase_spec_effect.
  - apply bind_verified_backup_chain_effect.
  - apply authorize_bound_phase_spec_effect.
  - apply record_source_gate_proof_effect.
  - apply compensate_source_gate_rejection_effect.
  - apply begin_backup_boundary_effect.
  - apply phase_tables_same_effect; [done|]. by apply ledgers_same.
Qed.

Lemma phase_run_ledgers db db' : rtc phase_step db db' → ledgers_grow db db'.
Proof.
  induction 1 as [|db1 db2 db3 Hstep _ IH]; [reflexivity|].
  etrans; [apply phase_step_effect, Hstep|done].
Qed.

(** ** The invariant *)

Context `{!JsonRoundTrip PhaseArtifacts, !JsonRoundTrip PhaseReceipt}.

Definition observed_status (status : PhaseJournalStatus) : Prop :=
  status ∈ [Journal_Observed; Journal_Verified; Journal_Committed].

(** A row reads back, an intent has no evidence yet, and evidence that was accepted
    meets the contract of the phase. *)
Definition row_ok (phase : OperationPhase) (row : PhaseJournalRow) : Prop :=
  ∃ status artifacts, status_is status row
    ∧ json_from_str (pj_artifacts_json row) = Ok artifacts
    ∧ (status = Journal_IntentPersisted →
        pj_observation_digest row = None ∧ artifacts = PhaseArtifacts_default)
    ∧ (observed_status status →
        is_Some (pj_observation_digest row) ∧ validate_for_phase artifacts phase = Ok tt).

(** The forward row has the status the takeover found, or had it until a proof was
    rejected. *)
Definition forward_status_kept (takeover : TakeoverRow) (row : PhaseJournalRow) : Prop :=
  pj_status row = tk_forward_status takeover
  ∨ (tk_forward_status takeover = PhaseJournalStatus_as_str Journal_IntentPersisted
     ∧ status_is Journal_NeedsReconcile row).

(** A takeover still names its forward row, and the rest of the forward branch is
    committed. *)
Definition takeover_ok (attempt : Uuid) (takeover : TakeoverRow) (db : SecurityDb) : Prop :=
  (∃ row, executor_phase_journal db !! (attempt, tk_forward_phase takeover) = Some row
    ∧ pj_project_id row = tk_project_id takeover ∧ forward_status_kept takeover row
    ∧ pj_intent_digest row = tk_forward_intent_digest takeover
    ∧ (status_is Journal_Committed row ∨ health_or_soaking (tk_forward_phase takeover) = true))
  ∧ deployed_phase (tk_forward_phase takeover) = true
  ∧ ∀ key, uncommitted attempt key db → key ∉ recovery_keys → key = tk_forward_phase takeover.

Record journal_inv (db : SecurityDb) : Prop := MkJournalInv {
  ji_row attempt key row : executor_phase_journal db !! (attempt, key) = Some row →
    ∃ branch phase, storage_key branch phase = Ok key ∧ row_ok phase row;
  ji_receipt attempt branch phase key row : storage_key branch phase = Ok key →
    executor_phase_journal db !! (attempt, key) = Some row → status_is Journal_Committed row →
    ∃ receipt receipt_row, executor_phase_receipts db !! (attempt, key) = Some receipt_row
      ∧ pc_receipt_digest receipt_row = pr_receipt_digest receipt
      ∧ json_from_str (pc_receipt_json receipt_row) = Ok receipt
      ∧ receipt_of attempt phase branch row receipt;
  ji_committed attempt key receipt_row :
    executor_phase_receipts db !! (attempt, key) = Some receipt_row →
    ∃ row, executor_phase_journal db !! (attempt, key) = Some row ∧ status_is Journal_Committed row;
  ji_flight attempt key1 key2 : uncommitted attempt key1 db → uncommitted attempt key2 db →
    key1 ≠ key2 → ∃ takeover, executor_rollback_takeovers db !! attempt = Some takeover
      ∧ (tk_forward_phase takeover = key1 ∨ tk_forward_phase takeover = key2);
  ji_takeover attempt takeover : executor_rollback_takeovers db !! attempt = Some takeover →
    takeover_ok attempt takeover db
}.

Lemma status_is_fun row s s' : status_is s row → status_is s' row → s = s'.
Proof. unfold status_is. intros Hs Hs'. apply as_str_inj. congruence. Qed.

Lemma phase_move_uncommitted phase row row' :
  phase_move phase row row' → ¬ status_is Journal_Committed row ∧ ¬ status_is Journal_Committed row'.
Proof.
  destruct 1 as [artifacts Hs Hs'|Hs Hs'|Hs Hs'|Hs Hs']; split; try done; intros Hc;
    first [by pose proof (status_is_fun _ _ _ Hc Hs)|by pose proof (status_is_fun _ _ _ Hc Hs')].
Qed.

Lemma phase_move_row_ok phase row row' :
  phase_move phase row row' → row_ok phase row → row_ok phase row'.
Proof.
  intros Hm (status&artifacts&Hst&Hj&Hint&Hobs).
  destruct Hm as [arts Hs Hs' _ Ho Ha Hv|Hs Hs' _ [Ho Ha]|Hs Hs' _ He|Hs Hs' _ [Ho Ha] Hn Hd].
  - exists Journal_Observed, arts. split_and!; [done|by apply json_round_trip|done|done].
  - pose proof (status_is_fun _ _ _ Hst Hs) as ->. exists Journal_Verified, artifacts.
    rewrite Ha, Ho. split_and!; [done..|]. intros _. apply Hobs. by repeat constructor.
  - assert (∃ arts, json_from_str (pj_artifacts_json row') = Ok arts) as [arts Harts].
    { destruct He as [[_ ->]|[arts Ha]]; [by exists artifacts|].
      exists arts. by apply json_round_trip. }
    exists Journal_NeedsReconcile, arts. split_and!; [done..|]. unfold observed_status. set_solver.
  - exists Journal_IntentPersisted, PhaseArtifacts_default. rewrite Ha, Ho.
    split_and!; [done..|]. unfold observed_status. set_solver.
Qed.

(** The rows of [db'] that are not committed, after a write of one row. *)
Lemma uncommitted_insert attempt key row db db' other_attempt other :
  executor_phase_journal db' = <[(attempt, key) := row]> (executor_phase_journal db) →
  uncommitted other_attempt other db' →
  (other_attempt = attempt ∧ other = key ∧ ¬ status_is Journal_Committed row)
  ∨ ((other_attempt, other) ≠ (attempt, key) ∧ uncommitted other_attempt other db).
Proof.
  intros Hj (r&Hr&Hs). rewrite Hj in Hr. apply lookup_insert_Some in Hr as [[Heq ->]|[Hne Hr]].
  - simplify_eq. by left.
  - right. split; [done|]. by exists r.
Qed.

Lemma deployed_not_recovery key : deployed_phase key = true → key ∉ recovery_keys.
Proof.
  unfold deployed_phase, health_or_soaking, recovery_keys. bool_prop.
  rewrite !elem_of_cons, elem_of_nil. naive_solver.
Qed.

(** After a takeover only the recovery branch moves, apart from a rejected proof. *)
Lemma taken_branch attempt branch phase key takeover db :
  storage_key branch phase = Ok key → branch_open attempt branch db →
  executor_rollback_takeovers db !! attempt = Some takeover → key ∈ recovery_keys.
Proof.
  intros Hkey Hopen Htk. apply (storage_key_recovery _ _ _ Hkey). destruct branch; [|done].
  by rewrite (Hopen eq_refl) in Htk.
Qed.

Lemma taken_move attempt branch phase key row row' takeover db :
  storage_key branch phase = Ok key → executor_phase_journal db !! (attempt, key) = Some row →
  executor_rollback_takeovers db !! attempt = Some takeover → takeover_ok attempt takeover db →
  branch_open attempt branch db ∨ gate_rejected row row' →
  key ∈ recovery_keys ∨ (key = tk_forward_phase takeover ∧ gate_rejected row row').
Proof.
  intros Hkey Hrow Htk (_&_&Hrest) Hopen.
  destruct (decide (key ∈ recovery_keys)) as [|Hnr]; [by left|right].
  destruct Hopen as [Hopen|Hrej]; [by destruct Hnr; eapply taken_branch|]. split; [|done].
  apply Hrest; [|done]. exists row. split; [done|]. intros Hc. destruct Hrej as [Hs _].
  by pose proof (status_is_fun _ _ _ Hc Hs).
Qed.

(** A write of another row, or of a recovery row, keeps a takeover. *)
Lemma takeover_ok_insert attempt key row takeover other db db' :
  executor_phase_journal db' = <[(attempt, key) := row]> (executor_phase_journal db) →
  attempt ≠ other ∨ key ∈ recovery_keys →
  takeover_ok other takeover db → takeover_ok other takeover db'.
Proof.
  intros Hj Hkey ((frow&Hfrow&Hf)&Hdep&Hrest). pose proof (deployed_not_recovery _ Hdep) as Hnrec.
  split_and!; [|done|].
  - exists frow. split; [|done]. rewrite Hj. rewrite lookup_insert_ne; [done|].
    intros [= -> ->]. naive_solver.
  - intros k Hu Hnr. apply (uncommitted_insert _ _ _ _ _ _ _ Hj) in Hu as [(->&->&_)|[_ Hu]].
    + by destruct Hkey.
    + by apply Hrest.
Qed.

(** So does the rejection of a proof for the forward row. *)
Lemma takeover_ok_rejected attempt takeover row row' db db' :
  executor_phase_journal db' = <[(attempt, tk_forward_phase takeover) := row']> (executor_phase_journal db) →
  executor_phase_journal db !! (attempt, tk_forward_phase takeover) = Some row →
  gate_rejected row row' → takeover_ok attempt takeover db → takeover_ok attempt takeover db'.
Proof.
  intros Hj Hrow (Hs&Hs'&(Hp&Hi&_)&_) ((frow&Hfrow&Hfp&Hfs&Hfi&Hst)&Hdep&Hrest).
  assert (frow = row) as -> by congruence. split_and!; [|done|].
  - exists row'. rewrite Hj, lookup_insert_eq, Hp, Hi. split_and!; try done.
    + right. split; [|done]. destruct Hfs as [Hfs|[? _]]; [|done]. unfold status_is in Hs. congruence.
    + destruct Hst as [Hst|]; [by pose proof (status_is_fun _ _ _ Hs Hst)|by right].
  - intros k Hu Hnr. by apply (uncommitted_insert _ _ _ _ _ _ _ Hj) in Hu as [(_&->&_)|[_ Hu]]; [|apply Hrest].
Qed.

Lemma same_tables_inv db db' : phase_tables_same db db' → journal_inv db → journal_inv db'.
Proof.
  intros (Hj&Hr&Ht) [I1 I2 I3 I4 I5].
  assert (∀ attempt key, uncommitted attempt key db' ↔ uncommitted attempt key db) as Hu.
  { intros attempt key. unfold uncommitted. by rewrite Hj. }
  split; rewrite ?Hj, ?Hr, ?Ht; try done.
  - intros attempt k1 k2. rewrite !Hu. apply I4.
  - intros attempt takeover Htk. destruct (I5 _ _ Htk) as (Hf&Hd&Hrest).
    unfold takeover_ok. rewrite Hj. setoid_rewrite Hu. done.
Qed.

Lemma intent_inv db db' attempt branch phase key row :
  storage_key branch phase = Ok key →
  executor_phase_journal db !! (attempt, key) = None →
  branch_open attempt branch db →
  (∀ other, uncommitted attempt other db → branch = Branch_RollbackRecovery
     ∧ ∃ takeover, executor_rollback_takeovers db !! attempt = Some takeover
         ∧ tk_forward_phase takeover = other) →
  status_is Journal_IntentPersisted row → pj_observation_digest row = None →
  json_to_string PhaseArtifacts_default = Ok (pj_artifacts_json row) →
  executor_phase_journal db' = <[(attempt, key) := row]> (executor_phase_journal db) →
  executor_phase_receipts db' = executor_phase_receipts db →
  executor_rollback_takeovers db' = executor_rollback_takeovers db →
  journal_inv db → journal_inv db'.
Proof.
  intros Hkey Hnone Hopen Hconf Hs Ho Ha Hj Hr Ht [I1 I2 I3 I4 I5].
  assert (∀ takeover, executor_rollback_takeovers db !! attempt = Some takeover →
            key ∈ recovery_keys) as Hrec.
  { intros takeover Htk. apply (storage_key_recovery _ _ _ Hkey). destruct branch; [|done].
    by rewrite (Hopen eq_refl) in Htk. }
  split.
  - intros a k r. rewrite Hj, lookup_insert_Some. intros [[[= <- <-] <-]|[_ Hr']]; [|by eapply I1].
    exists branch, phase. split; [done|]. exists Journal_IntentPersisted, PhaseArtifacts_default.
    split_and!; [done|by apply json_round_trip|done|]. unfold observed_status. set_solver.
  - intros a b p k r Hk. rewrite Hj, Hr, lookup_insert_Some.
    intros [[[= <- <-] <-]|[_ Hr']] Hc; [by pose proof (status_is_fun _ _ _ Hs Hc)|by eapply I2].
  - intros a k r. rewrite Hr. intros (row0&Hrow0&Hc)%I3. exists row0. split; [|done].
    rewrite Hj, lookup_insert_ne; [done|]. congruence.
  - intros a k1 k2 Hu1 Hu2 Hne. rewrite Ht.
    apply (uncommitted_insert _ _ _ _ _ _ _ Hj) in Hu1 as [(->&->&_)|[Hn1 Hu1]];
      apply (uncommitted_insert _ _ _ _ _ _ _ Hj) in Hu2 as [(?&?&_)|[Hn2 Hu2]]; subst; try done.
    + destruct (Hconf _ Hu2) as (_&takeover&?&?). naive_solver.
    + destruct (Hconf _ Hu1) as (_&takeover&?&?). naive_solver.
    + by apply I4.
  - intros a takeover. rewrite Ht. intros Htk. eapply takeover_ok_insert; [done| |by apply I5].
    destruct (decide (attempt = a)) as [->|]; [right; by eapply Hrec|by left].
Qed.

Lemma move_inv db db' attempt branch phase key row row' :
  storage_key branch phase = Ok key →
  executor_phase_journal db !! (attempt, key) = Some row →
  phase_move phase row row' →
  branch_open attempt branch db ∨ gate_rejected row row' →
  executor_phase_journal db' = <[(attempt, key) := row']> (executor_phase_journal db) →
  executor_phase_receipts db' = executor_phase_receipts db →
  executor_rollback_takeovers db' = executor_rollback_takeovers db →
  journal_inv db → journal_inv db'.
Proof.
  intros Hkey Hrow Hmove Hopen Hj Hr Ht [I1 I2 I3 I4 I5].
  pose proof (phase_move_uncommitted _ _ _ Hmove) as [Hnc Hnc'].
  assert (∀ a k, uncommitted a k db' → uncommitted a k db) as Hu.
  { intros a k [(->&->&_)|[_ Hu]]%(uncommitted_insert _ _ _ _ _ _ _ Hj); [by exists row|done]. }
  split.
  - intros a k r. rewrite Hj, lookup_insert_Some. intros [[[= <- <-] <-]|[_ Hr']]; [|by eapply I1].
    exists branch, phase. split; [done|]. destruct (I1 _ _ _ Hrow) as (b&p&Hk&Hok).
    destruct (storage_key_inj _ _ _ _ _ Hkey Hk) as [<- <-]. by eapply phase_move_row_ok.
  - intros a b p k r Hk. rewrite Hj, Hr, lookup_insert_Some.
    intros [[[= <- <-] <-]|[_ Hr']] Hc; [done|by eapply I2].
  - intros a k r. rewrite Hr. intros (row0&Hrow0&Hc)%I3. exists row0. split; [|done].
    rewrite Hj, lookup_insert_ne; [done|]. congruence.
  - intros a k1 k2 Hu1%Hu Hu2%Hu. rewrite Ht. by apply I4.
  - intros a takeover. rewrite Ht. intros Htk. pose proof (I5 _ _ Htk) as Hok.
    destruct (decide (attempt = a)) as [->|]; [|eapply takeover_ok_insert; [done|by left|done]].
    destruct (taken_move _ _ _ _ _ _ _ _ Hkey Hrow Htk Hok Hopen) as [|[-> Hrej]];
      [eapply takeover_ok_insert; [done|by right|done]|by eapply takeover_ok_rejected].
Qed.

Lemma commit_inv db db' attempt branch phase key row row' receipt receipt_row :
  storage_key branch phase = Ok key →
  executor_phase_journal db !! (attempt, key) = Some row →
  branch_open attempt branch db →
  status_is Journal_Verified row → status_is Journal_Committed row' →
  same_intent row row' → same_evidence row row' →
  receipt_of attempt phase branch row receipt →
  pc_receipt_digest receipt_row = pr_receipt_digest receipt →
  json_to_string receipt = Ok (pc_receipt_json receipt_row) →
  executor_phase_journal db' = <[(attempt, key) := row']> (executor_phase_journal db) →
  executor_phase_receipts db' = <[(attempt, key) := receipt_row]> (executor_phase_receipts db) →
  executor_rollback_takeovers db' = executor_rollback_takeovers db →
  journal_inv db → journal_inv db'.
Proof.
  intros Hkey Hrow Hopen Hs Hs' (Hp&Hi&_) [Ho Ha] Hreceipt Hd Hjson Hj Hr Ht [I1 I2 I3 I4 I5].
  assert (∀ a k, uncommitted a k db' → uncommitted a k db) as Hu.
  { intros a k [(_&_&Hc)|[_ Hu]]%(uncommitted_insert _ _ _ _ _ _ _ Hj); done. }
  split.
  - intros a k r. rewrite Hj, lookup_insert_Some. intros [[[= <- <-] <-]|[_ Hr']]; [|by eapply I1].
    exists branch, phase. split; [done|].
    destruct (I1 _ _ _ Hrow) as (b&p&Hk&status&artifacts&Hst&Hjs&_&Hobs).
    destruct (storage_key_inj _ _ _ _ _ Hkey Hk) as [<- <-].
    pose proof (status_is_fun _ _ _ Hst Hs) as ->. exists Journal_Committed, artifacts.
    rewrite Ha, Ho. split_and!; [done..|]. intros _. apply Hobs. by repeat constructor.
  - intros a b p k r Hk. rewrite Hj, Hr, lookup_insert_Some.
    intros [[[= <- <-] <-]|[Hne Hr']] Hc; [|by rewrite lookup_insert_ne by done; eapply I2].
    destruct (storage_key_inj _ _ _ _ _ Hkey Hk) as [<- <-].
    exists receipt, receipt_row. rewrite lookup_insert_eq. split_and!; [done..| |].
    + by apply json_round_trip.
    + destruct Hreceipt as [obs arts t]. econstructor; [by rewrite Ho|by rewrite Ha|by rewrite Hi].
  - intros a k r. rewrite Hr, Hj, lookup_insert_Some.
    intros [[[= <- <-] <-]|[Hne Hrec]]; [exists row'; by rewrite lookup_insert_eq|].
    rewrite lookup_insert_ne by done. by eapply I3.
  - intros a k1 k2 Hu1%Hu Hu2%Hu. rewrite Ht. by apply I4.
  - intros a takeover. rewrite Ht. intros Htk. eapply takeover_ok_insert; [done| |by apply I5].
    destruct (decide (attempt = a)) as [->|]; [right|by left].
    by eapply taken_branch.
Qed.

Lemma takeover_inv db db' attempt takeover :
  executor_rollback_takeovers db !! attempt = None →
  takeover_ok attempt takeover db →
  executor_phase_journal db' = executor_phase_journal db →
  executor_phase_receipts db' = executor_phase_receipts db →
  executor_rollback_takeovers db' = <[attempt := takeover]> (executor_rollback_takeovers db) →
  journal_inv db → journal_inv db'.
Proof.
  intros Hnone Hok Hj Hr Ht [I1 I2 I3 I4 I5].
  assert (∀ a key, uncommitted a key db' ↔ uncommitted a key db) as Hu.
  { intros a key. unfold uncommitted. by rewrite Hj. }
  split; rewrite ?Hj, ?Hr; try done.
  - intros a k1 k2. rewrite !Hu, Ht. intros Hu1 Hu2 Hne.
    destruct (I4 _ _ _ Hu1 Hu2 Hne) as (t&Htk&?). exists t.
    rewrite lookup_insert_ne by congruence. done.
  - intros a t. rewrite Ht, lookup_insert_Some. intros Htk.
    assert (takeover_ok a t db) as (?&?&?) by (destruct Htk as [[<- <-]|[_ ?]]; [done|by apply I5]).
    unfold takeover_ok. rewrite Hj. setoid_rewrite Hu. done.
Qed.

Lemma phase_effect_inv db db' : phase_effect db db' → journal_inv db → journal_inv db'.
Proof.
  destruct 1.
  - by apply same_tables_inv.
  - by eapply intent_inv.
  - by eapply move_inv.
  - by eapply commit_inv.
  - eapply takeover_inv; try done. split_and!; try done.
    eexists. split_and!; try done. by left.
Qed.

Lemma phase_run_inv db db' : rtc phase_step db db' → journal_inv db → journal_inv db'.
Proof.
  induction 1 as [|db1 db2 db3 Hstep _ IH]; [done|]. intros Hinv.
  by eapply IH, phase_effect_inv; [apply phase_step_effect|].
Qed.

(** The stores reached from an empty journal. *)
Definition phase_reachable (db' : SecurityDb) : Prop :=
  ∃ db, executor_phase_journal db = ∅ ∧ executor_phase_receipts db = ∅
    ∧ executor_rollback_takeovers db = ∅ ∧ rtc phase_step db db'.

Lemma phase_reachable_inv db : phase_reachable db → journal_inv db.
Proof.
  intros (db0&Hj&Hr&Ht&Hrun). eapply phase_run_inv; [done|].
  split; rewrite ?Hj, ?Hr, ?Ht; try (by intros; simplify_map_eq).
  intros a k1 k2 (row&Hrow&_). rewrite Hj in Hrow. by simplify_map_eq.
Qed.

(** ** Reading a journal that satisfies the invariant *)

Lemma PhaseReceipt_new_valid attempt phase branch intent observation artifacts t receipt :
  PhaseReceipt_new attempt phase branch intent observation artifacts t = Ok receipt →
  PhaseReceipt_has_valid_digest receipt = Ok true
  ∧ pr_attempt_id receipt = attempt ∧ pr_phase receipt = phase ∧ pr_branch receipt = branch
  ∧ pr_intent_digest receipt = intent ∧ pr_observation_digest receipt = observation
  ∧ pr_artifacts receipt = artifacts.
Proof.
  unfold PhaseReceipt_new. intros Hnew. inv_ok. unfold PhaseReceipt_has_valid_digest. simpl.
  match goal with Hd : receipt_digest _ _ _ _ _ _ _ = Ok _ |- _ => rewrite Hd end. simpl.
  by rewrite bool_decide_eq_true_2 by done.
Qed.

Lemma receipt_of_valid attempt phase branch row receipt :
  receipt_of attempt phase branch row receipt →
  PhaseReceipt_has_valid_digest receipt = Ok true
  ∧ pr_attempt_id receipt = attempt ∧ pr_phase receipt = phase ∧ pr_branch receipt = branch
  ∧ pr_intent_digest receipt = pj_intent_digest row
  ∧ Some (pr_observation_digest receipt) = pj_observation_digest row
  ∧ json_from_str (pj_artifacts_json row) = Ok (pr_artifacts receipt).
Proof.
  intros [obs arts t Ho Ha Hnew]. apply PhaseReceipt_new_valid in Hnew as (?&?&?&?&->&->&->).
  by rewrite Ho.
Qed.

Lemma committed_receipt_loads attempt branch phase key row db :
  journal_inv db → storage_key branch phase = Ok key →
  executor_phase_journal db !! (attempt, key) = Some row → status_is Journal_Committed row →
  ∃ receipt, load_phase_receipt attempt key phase branch db = Ok (Some receipt)
    ∧ receipt_of attempt phase branch row receipt.
Proof.
  intros Hinv Hkey Hrow Hs.
  destruct (ji_receipt _ Hinv _ _ _ _ _ Hkey Hrow Hs) as (receipt&rr&Hrr&Hd&Hj&Hof).
  exists receipt. split; [|done]. apply receipt_of_valid in Hof as (Hv&<-&<-&<-&_).
  unfold load_phase_receipt, decode_bound_phase_receipt. rewrite Hrr, Hj. simpl.
  rewrite !bool_decide_eq_true_2 by done. simpl. by rewrite Hv.
Qed.

Lemma loaded_receipt_committed attempt branch phase key receipt db :
  journal_inv db → load_phase_receipt attempt key phase branch db = Ok (Some receipt) →
  ∃ row, executor_phase_journal db !! (attempt, key) = Some row ∧ status_is Journal_Committed row.
Proof.
  intros Hinv Hload. unfold load_phase_receipt in Hload. case_ok.
  by eapply (ji_committed _ Hinv).
Qed.

Lemma load_takeover_total attempt takeover db :
  journal_inv db → executor_rollback_takeovers db !! attempt = Some takeover →
  pj_status <$> executor_phase_journal db !! (attempt, tk_forward_phase takeover)
    = Some (tk_forward_status takeover) →
  ∃ snapshot, load_rollback_takeover attempt db = Ok (Some snapshot)
    ∧ rt_project_id snapshot = tk_project_id takeover
    ∧ phase_name (rt_forward_phase snapshot) = tk_forward_phase takeover
    ∧ rt_forward_intent_digest snapshot = tk_forward_intent_digest takeover.
Proof.
  intros Hinv Htk Hkept. destruct (ji_takeover _ Hinv _ _ Htk) as ((row&Hrow&Hp&_&Hi&Hst)&Hdep&_).
  rewrite Hrow in Hkept. injection Hkept as Hs.
  destruct (ji_row _ Hinv _ _ _ Hrow) as (_&_&_&status&_&Hstat&_).
  unfold load_rollback_takeover. rewrite Htk. cbv zeta. rewrite Hrow. simpl.
  rewrite Hp, Hs, Hi, !bool_decide_eq_true_2 by done. simpl.
  assert (PhaseJournalStatus_parse (tk_forward_status takeover) = Ok status) as ->.
  { apply PhaseJournalStatus_parse_Ok. unfold status_is in Hstat. congruence. }
  simpl. unfold deployed_phase, health_or_soaking in Hdep, Hst. bool_prop.
  assert (status_is Journal_Committed row → status = Journal_Committed) as Hc
    by (intros; by eapply status_is_fun).
  destruct Hdep as [Hf|[Hf|Hf]]; rewrite Hf in *; simpl.
  - destruct Hst as [Hst|[Hst|Hst]]; [rewrite (Hc Hst); by eexists|done|done].
  - destruct status; by eexists.
  - destruct status; by eexists.
Qed.

Lemma committed_elem attempt key db :
  key ∈ journal_phases attempt (λ row, negb (not_committed row)) db ↔
  ∃ row, executor_phase_journal db !! (attempt, key) = Some row ∧ status_is Journal_Committed row.
Proof.
  rewrite journal_phases_elem. unfold not_committed, status_is. by setoid_rewrite negb_involutive;
  setoid_rewrite bool_decide_eq_true.
Qed.

Lemma primary_prerequisites attempt phase plan db u db' :
  require_phase_prerequisites attempt phase Branch_Primary plan db = Ok (u, db') →
  ∃ i, ep_ordered_phases plan !! i = Some phase
    ∧ (∀ j earlier, (j < i)%nat → ep_ordered_phases plan !! j = Some earlier →
        ∃ row, executor_phase_journal db !! (attempt, phase_name earlier) = Some row
          ∧ status_is Journal_Committed row)
    ∧ (∀ key row, executor_phase_journal db !! (attempt, key) = Some row →
        status_is Journal_Committed row →
        ∃ j earlier, (j ≤ i)%nat ∧ ep_ordered_phases plan !! j = Some earlier
          ∧ key = phase_name earlier).
Proof.
  unfold require_phase_prerequisites. intros Hok. case_ok. inv_query. case_ok.
  unfold normal_phase_sets in *. inv_ok. case_ok. apply orb_false_iff in Heqb1 as [Hreq Hall].
  match goal with Hp : position _ _ = Some ?i |- _ =>
    apply position_Some in Hp as [(p&Hp&Hpe) _]; exists i end. apply bool_decide_eq_true in Hpe as ->.
  split_and!; [done| |].
  - intros j earlier Hj He. apply committed_elem. apply dec_stable. intros Hn.
    apply (existsb_false _ _ earlier) in Hreq; [by apply bool_decide_eq_false in Hreq|].
    apply list_elem_of_lookup. exists j. by rewrite lookup_take_lt.
  - intros key row Hrow Hs.
    apply (existsb_false _ _ key) in Hall; [|apply committed_elem; by exists row].
    apply bool_decide_eq_false, dec_stable, list_elem_of_fmap in Hall as (earlier&->&He).
    apply list_elem_of_lookup in He as [j Hj]. apply lookup_take_Some in Hj as [Hj Hlt].
    exists j, earlier. split; [lia|done].
Qed.

(** A step on a row that exists: it stays, moves, or gets its receipt. *)
Lemma phase_effect_row db db' attempt branch phase key row :
  phase_effect db db' → storage_key branch phase = Ok key →
  executor_phase_journal db !! (attempt, key) = Some row →
  ∃ row', executor_phase_journal db' !! (attempt, key) = Some row'
    ∧ (row' = row ∨ phase_move phase row row'
       ∨ (status_is Journal_Verified row ∧ status_is Journal_Committed row'
          ∧ same_intent row row' ∧ same_evidence row row')).
Proof.
  intros Heff Hkey Hrow.
  destruct Heff as [Hj|a b p k r _ Hnone _ _ _ _ _ Hj|a b p k r r' Hk Hr Hm _ Hj
    |a b p k r r' rc rr Hk Hr _ _ Hs Hs' Hi He _ _ _ Hj|a t r _ _ _ _ _ _ _ _ Hj];
    rewrite Hj; try (by exists row; naive_solver);
    (destruct (decide ((a, k) = (attempt, key))) as [[= -> ->]|Hne];
      [rewrite lookup_insert_eq|rewrite lookup_insert_ne by done; by exists row; naive_solver]);
    simplify_eq; destruct (storage_key_inj _ _ _ _ _ Hkey Hk) as [<- <-].
  - exists r'. naive_solver.
  - exists r'. split; [done|]. right. right. done.
Qed.

Lemma phase_effect_receipts db db' :
  phase_effect db db' → executor_phase_receipts db ⊆ executor_phase_receipts db'.
Proof.
  destruct 1 as [_ Hr|? ? ? ? ? _ _ _ _ _ _ _ _ Hr|? ? ? ? ? ? _ _ _ _ _ Hr
    |? ? ? ? ? ? ? ? _ _ Hnone _ _ _ _ _ _ _ _ _ Hr|? ? ? _ _ _ _ _ _ _ _ _ Hr]; rewrite Hr; try done.
  by apply insert_subseteq.
Qed.

Lemma phase_run_receipts db db' :
  rtc phase_step db db' → executor_phase_receipts db ⊆ executor_phase_receipts db'.
Proof.
  induction 1 as [|db1 db2 db3 [Heff _]%phase_step_effect _ IH]; [done|].
  etrans; [by apply phase_effect_receipts|done].
Qed.

Lemma load_phase_receipt_mono db db' attempt key phase branch receipt :
  executor_phase_receipts db ⊆ executor_phase_receipts db' →
  load_phase_receipt attempt key phase branch db = Ok (Some receipt) →
  load_phase_receipt attempt key phase branch db' = Ok (Some receipt).
Proof.
  unfold load_phase_receipt. intros Hsub Hload.
  destruct (executor_phase_receipts db !! (attempt, key)) as [rr|] eqn:Hrr; [|done].
  by rewrite (lookup_weaken _ _ _ _ Hrr Hsub).
Qed.

Lemma require_branch_open attempt branch db :
  branch_open attempt branch db → require_branch_not_taken_over attempt branch db = Ok (tt, db).
Proof.
  unfold branch_open, require_branch_not_taken_over. intros Hopen. destruct branch; [|done].
  rewrite bool_decide_eq_true_2 by done. unfold mbind, tx_bind, query, load_rollback_takeover.
  by rewrite (Hopen eq_refl).
Qed.

(** A committed receipt can be read back. *)
Lemma commit_phase_receipt_loads attempt phase branch t db db' receipt :
  commit_phase_receipt_in_branch attempt phase branch t db = (db', Ok receipt) →
  ∃ key, storage_key branch phase = Ok key
    ∧ load_phase_receipt attempt key phase branch db' = Ok (Some receipt).
Proof.
  unfold commit_phase_receipt_in_branch, with_storage_key.
  destruct (storage_key branch phase) as [key|e]; [|done]. intros Hok%immediate_transaction_Ok.
  exists key. split; [done|].
  apply tx_bind_Ok in Hok as (u1&db1&[-> _]%require_branch_not_taken_over_Ok&Hok).
  apply tx_bind_Ok in Hok as (existing&db2&[Hload ->]%query_Ok&Hok).
  case_ok; [done|]. case_ok.
  match goal with Hi : insert_receipt _ _ _ _ = _ |- _ =>
    apply insert_receipt_Ok in Hi as [_ ->] end.
  match goal with Hn : PhaseReceipt_new _ _ _ _ _ _ _ = Ok ?r |- _ =>
    apply PhaseReceipt_new_valid in Hn as (Hv&<-&<-&<-&_) end.
  match goal with Hu : update_journal _ _ _ _ _ = _ |- _ =>
    apply update_journal_Ok in Hu as [[_ ->]|(_&row&_&_&->)] end;
    unfold load_phase_receipt; simpl; rewrite lookup_insert_eq;
    unfold decode_bound_phase_receipt; simpl;
    match goal with Hj : json_to_string _ = Ok _ |- _ => rewrite (json_round_trip _ _ Hj) end;
    simpl; rewrite !bool_decide_eq_true_2 by done; simpl; by rewrite Hv.
Qed.

(** What a run may do to a forward row of an attempt that was taken over. *)
Definition forward_kept (attempt : Uuid) (takeover : TakeoverRow) (key : string)
    (db db' : SecurityDb) : Prop :=
  executor_phase_journal db' !! (attempt, key) = executor_phase_journal db !! (attempt, key)
  ∨ key = tk_forward_phase takeover
    ∧ ∃ row row', executor_phase_journal db !! (attempt, key) = Some row
        ∧ executor_phase_journal db' !! (attempt, key) = Some row' ∧ gate_rejected row row'.

#[local] Instance forward_kept_trans attempt takeover key : Transitive (forward_kept attempt takeover key).
Proof.
  intros db1 db2 db3 [H12|(Hk&r1&r2&Hr1&Hr2&Hrej)] [H23|(Hk'&r2'&r3&Hr2'&Hr3&Hrej')].
  - left. congruence.
  - right. split; [done|]. exists r2', r3. by rewrite <- H12.
  - right. split; [done|]. exists r1, r2. by rewrite H23.
  - assert (r2' = r2) as -> by congruence. destruct Hrej as (_&Hs&_), Hrej' as (Hs'&_).
    by pose proof (status_is_fun _ _ _ Hs Hs').
Qed.

Lemma phase_effect_frozen db db' attempt takeover key :
  phase_effect db db' → journal_inv db →
  executor_rollback_takeovers db !! attempt = Some takeover → key ∉ recovery_keys →
  forward_kept attempt takeover key db db' ∧ executor_rollback_takeovers db' !! attempt = Some takeover.
Proof.
  intros Heff Hinv Htk Hkey. pose proof (ji_takeover _ Hinv _ _ Htk) as Hok. unfold forward_kept.
  destruct Heff as [Hj Hr Ht|a b p k r Hk Hnone Hopen _ _ _ _ Hj Hr Ht|a b p k r r' Hk Hrow Hm Hopen Hj Hr Ht
    |a b p k r r' rc rr Hk Hrow _ Hopen Hs Hs' Hi He _ _ _ Hj Hr Ht|a t r Hnone _ _ _ _ _ _ _ Hj Hr Ht];
    rewrite Hj, Ht.
  - auto.
  - split; [left|done]. rewrite lookup_insert_ne; [done|]. intros [= -> ->]. apply Hkey. by eapply taken_branch.
  - split; [|done]. destruct (decide ((a, k) = (attempt, key))) as [[= -> ->]|Hne];
      [|left; by rewrite lookup_insert_ne].
    destruct (taken_move _ _ _ _ _ _ _ _ Hk Hrow Htk Hok Hopen) as [|[-> Hrej]]; [done|].
    right. split; [done|]. exists r, r'. by rewrite lookup_insert_eq.
  - split; [left|done]. rewrite lookup_insert_ne; [done|]. intros [= -> ->]. apply Hkey. by eapply taken_branch.
  - split; [by left|]. rewrite lookup_insert_ne; [done|]. congruence.
Qed.

Lemma phase_run_frozen db db' attempt takeover :
  rtc phase_step db db' → journal_inv db → executor_rollback_takeovers db !! attempt = Some takeover →
  (∀ key, key ∉ recovery_keys → forward_kept attempt takeover key db db')
  ∧ executor_rollback_takeovers db' !! attempt = Some takeover.
Proof.
  induction 1 as [|db1 db2 db3 [Heff _]%phase_step_effect _ IH]; intros Hinv Htk; [by split; [by left|]|].
  pose proof (λ key, phase_effect_frozen _ _ _ _ key Heff Hinv Htk) as Hstep.
  destruct (IH (phase_effect_inv _ _ Heff Hinv)) as [Hkept Htk'].
  { by apply (Hstep "deploying"%string), deployed_not_recovery. }
  split; [|done]. intros key Hkey. etrans; [by apply Hstep|by apply Hkept].
Qed.

(** ** Theorems *)

(** C8: The life cycle of a phase: no operation removes a row of the journal or
    changes what it was opened for; the row stays as it is or moves along intent,
    observed, verified, committed (or to reconciliation, and back to the intent only
    when a rejected source proof is compensated before anything was observed); a
    committed row never changes; a new row is an intent without evidence. *)
Theorem phase_life_cycle db db' attempt branch phase key :
  phase_step db db' → storage_key branch phase = Ok key →
  match executor_phase_journal db !! (attempt, key) with
  | Some row => ∃ row', executor_phase_journal db' !! (attempt, key) = Some row'
      ∧ same_intent row row'
      ∧ (status_is Journal_Committed row → row' = row)
      ∧ (row' = row ∨ phase_move phase row row'
         ∨ (status_is Journal_Verified row ∧ status_is Journal_Committed row'
            ∧ same_evidence row row'))
  | None => ∀ row', executor_phase_journal db' !! (attempt, key) = Some row' →
      status_is Journal_IntentPersisted row' ∧ pj_observation_digest row' = None
  end.
Proof.
  intros [Heff _]%phase_step_effect Hkey.
  destruct (executor_phase_journal db !! (attempt, key)) as [row|] eqn:Hrow.
  - destruct (phase_effect_row _ _ _ _ _ _ _ Heff Hkey Hrow) as (row'&Hrow'&Hmove).
    exists row'. split; [done|]. destruct Hmove as [->|[Hm|(Hs&Hs'&Hi&He)]].
    + split_and!; try done; naive_solver.
    + pose proof (phase_move_uncommitted _ _ _ Hm) as [Hnc _].
      assert (same_intent row row') by (by destruct Hm). naive_solver.
    + split_and!; [done| |naive_solver]. intros Hc. by pose proof (status_is_fun _ _ _ Hs Hc).
  - intros row' Hrow'.
    destruct Heff as [Hj|a b p k r _ _ _ _ Hs Ho _ Hj|a b p k r r' Hk Hr Hm _ Hj
      |a b p k r r' rc rr Hk Hr _ _ Hs Hs' _ _ _ _ _ Hj|a t r _ _ _ _ _ _ _ _ Hj];
      rewrite Hj in Hrow'; try congruence;
      apply lookup_insert_Some in Hrow' as [[[= -> ->] <-]|[_ ?]]; congruence || done.
Qed.

(** C7: Receipts are sound evidence: in every reachable store the receipt of a phase can
    be read without an error, it is there exactly when the journal says the phase was
    committed, it repeats the intent, the observation and the artifacts that the
    journal recorded, and the controller's [validate_receipt] accepts it. *)
Theorem receipts_match_journal db attempt branch phase key :
  phase_reachable db → storage_key branch phase = Ok key →
  ∃ answer, load_phase_receipt attempt key phase branch db = Ok answer
    ∧ (is_Some answer ↔ ∃ row, executor_phase_journal db !! (attempt, key) = Some row
         ∧ status_is Journal_Committed row)
    ∧ ∀ receipt, answer = Some receipt →
        validate_receipt receipt = Ok tt
        ∧ ∃ row, executor_phase_journal db !! (attempt, key) = Some row
            ∧ pr_intent_digest receipt = pj_intent_digest row
            ∧ Some (pr_observation_digest receipt) = pj_observation_digest row
            ∧ json_from_str (pj_artifacts_json row) = Ok (pr_artifacts receipt).
Proof.
  intros Hinv%phase_reachable_inv Hkey.
  destruct (executor_phase_receipts db !! (attempt, key)) as [rr|] eqn:Hrr.
  - destruct (ji_committed _ Hinv _ _ _ Hrr) as (row&Hrow&Hs).
    destruct (committed_receipt_loads _ _ _ _ _ _ Hinv Hkey Hrow Hs) as (receipt&Hload&Hof).
    exists (Some receipt). split_and!; [done|split; [by exists row|by eexists]|].
    intros ? [= <-]. pose proof (receipt_of_valid _ _ _ _ _ Hof) as (Hv&_&Hp&_&Hi&Ho&Ha).
    split; [|by exists row]. unfold validate_receipt, json_err. rewrite Hv. simpl.
    destruct (ji_row _ Hinv _ _ _ Hrow) as (b&p&Hk&status&artifacts&Hst&Hj&_&Hobs).
    destruct (storage_key_inj _ _ _ _ _ Hkey Hk) as [<- <-].
    pose proof (status_is_fun _ _ _ Hst Hs) as ->. rewrite Hj in Ha. simplify_eq.
    by rewrite (proj2 (Hobs ltac:(by repeat constructor))).
  - exists None. unfold load_phase_receipt. rewrite Hrr. split_and!; [done| |done].
    split; [intros [? [=]]|]. intros (row&Hrow&Hs).
    destruct (ji_receipt _ Hinv _ _ _ _ _ Hkey Hrow Hs) as (?&?&?&_). congruence.
Qed.

(** C10: One phase is in flight: in every reachable store an attempt has at most one
    uncommitted phase, or two when a rollback took over, one of them the forward
    phase the takeover recorded and the other a phase of the recovery. *)
Theorem one_phase_in_flight db attempt key1 key2 :
  phase_reachable db → uncommitted attempt key1 db → uncommitted attempt key2 db → key1 ≠ key2 →
  ∃ takeover, executor_rollback_takeovers db !! attempt = Some takeover
    ∧ ((key1 = tk_forward_phase takeover ∧ key2 ∈ recovery_keys)
       ∨ (key2 = tk_forward_phase takeover ∧ key1 ∈ recovery_keys)).
Proof.
  intros Hinv%phase_reachable_inv Hu1 Hu2 Hne.
  destruct (ji_flight _ Hinv _ _ _ Hu1 Hu2 Hne) as (takeover&Htk&Hor). exists takeover.
  destruct (ji_takeover _ Hinv _ _ Htk) as (_&_&Hrest). split; [done|].
  destruct Hor as [Hk|Hk]; [left|right]; (split; [done|]); apply dec_stable; intros Hnr.
  - pose proof (Hrest _ Hu2 Hnr). congruence.
  - pose proof (Hrest _ Hu1 Hnr). congruence.
Qed.

(** C9: Phases run in plan order: an accepted intent on the primary branch is for a
    phase of the plan, every earlier phase of the plan has a readable receipt that
    the controller accepts, and no phase outside that prefix and the phase itself was
    committed. *)
Theorem intent_follows_plan request db entry db' :
  phase_reachable db → pi_branch request = Branch_Primary →
  begin_phase_intent request db = (db', Ok entry) →
  ∃ i, ep_ordered_phases (pi_phase_plan request) !! i = Some (pi_phase request)
    ∧ (∀ j earlier, (j < i)%nat → ep_ordered_phases (pi_phase_plan request) !! j = Some earlier →
        ∃ receipt, phase_receipt (pi_attempt_id request) earlier db = Ok (Some receipt)
          ∧ PhaseReceipt_has_valid_digest receipt = Ok true ∧ pr_phase receipt = earlier)
    ∧ (∀ key row, executor_phase_journal db !! (pi_attempt_id request, key) = Some row →
        status_is Journal_Committed row →
        ∃ j earlier, (j ≤ i)%nat
          ∧ ep_ordered_phases (pi_phase_plan request) !! j = Some earlier
          ∧ key = phase_name earlier).
Proof.
  intros Hinv%phase_reachable_inv Hbranch Hok. unfold begin_phase_intent, with_storage_key in Hok.
  rewrite Hbranch in Hok. simpl in Hok. apply immediate_transaction_Ok in Hok.
  apply tx_bind_Ok in Hok as (u1&db1&->%reads_authorized_for_project&Hok).
  apply tx_bind_Ok in Hok as (u2&db2&Hpre&_).
  apply primary_prerequisites in Hpre as (i&Hi&Hearlier&Hrest). exists i. split_and!; [done| |done].
  intros j earlier Hj He. destruct (Hearlier _ _ Hj He) as (row&Hrow&Hs).
  destruct (committed_receipt_loads _ Branch_Primary earlier _ _ _ Hinv eq_refl Hrow Hs)
    as (receipt&Hload&Hof).
  exists receipt. apply receipt_of_valid in Hof as (?&_&?&_). by split_and!.
Qed.

(** C30: After a rollback takeover the forward branch is frozen but for one thing: in any
    run of the store the takeover stays as it is and a forward row of the attempt stays
    as it is, except that a rejected source-gate proof can send the taken-over intent,
    with its project, digest and evidence, to reconciliation.  The takeover can be read,
    with the project, phase and intent it was taken from, exactly as long as that has not
    happened; afterwards reading it is an error. *)
Theorem takeover_freezes_forward_branch db db' attempt takeover :
  phase_reachable db → rtc phase_step db db' →
  executor_rollback_takeovers db !! attempt = Some takeover →
  executor_rollback_takeovers db' !! attempt = Some takeover
  ∧ (∀ key, key ∉ recovery_keys → forward_kept attempt takeover key db db')
  ∧ ∃ row, executor_phase_journal db' !! (attempt, tk_forward_phase takeover) = Some row
      ∧ pj_project_id row = tk_project_id takeover
      ∧ pj_intent_digest row = tk_forward_intent_digest takeover
      ∧ ((pj_status row = tk_forward_status takeover
          ∧ ∃ snapshot, rollback_takeover attempt db' = Ok (Some snapshot)
              ∧ rt_project_id snapshot = tk_project_id takeover
              ∧ phase_name (rt_forward_phase snapshot) = tk_forward_phase takeover
              ∧ rt_forward_intent_digest snapshot = tk_forward_intent_digest takeover)
         ∨ (tk_forward_status takeover = PhaseJournalStatus_as_str Journal_IntentPersisted
            ∧ status_is Journal_NeedsReconcile row
            ∧ rollback_takeover attempt db'
              = Err (CorruptSecurityJournal "rollback takeover journal binding"))).
Proof.
  intros Hinv%phase_reachable_inv Hrun Htk.
  destruct (phase_run_frozen _ _ _ _ Hrun Hinv Htk) as [Hkept Htk']. split_and!; [done..|].
  pose proof (phase_run_inv _ _ Hrun Hinv) as Hinv'.
  destruct (ji_takeover _ Hinv' _ _ Htk') as ((row&Hrow&Hp&Hs&Hi&_)&_). exists row. split_and!; [done..|].
  destruct Hs as [Hs|[Hint Hs]]; [left|right]; split_and!; try done.
  - apply load_takeover_total; [done..|]. by rewrite Hrow; simpl; rewrite Hs.
  - unfold rollback_takeover, load_rollback_takeover. rewrite Htk'. cbv zeta. rewrite Hrow. simpl.
    rewrite Hs, Hint, Hp, !bool_decide_eq_true_2 by done. done.
Qed.

(** Committing is idempotent for good: once a receipt was committed, a later call at
    any time, after any run of the store, answers with the same receipt and changes
    nothing, unless a takeover has closed the branch. *)
Theorem committed_receipt_is_replayed db attempt phase branch t db1 receipt db2 t' :
  commit_phase_receipt_in_branch attempt phase branch t db = (db1, Ok receipt) →
  rtc phase_step db1 db2 → branch_open attempt branch db2 →
  commit_phase_receipt_in_branch attempt phase branch t' db2 = (db2, Ok receipt).
Proof.
  intros Hok Hrun Hopen.
  destruct (commit_phase_receipt_loads _ _ _ _ _ _ _ Hok) as (key&Hkey&Hload).
  apply (load_phase_receipt_mono db1 db2) in Hload; [|by apply phase_run_receipts].
  unfold commit_phase_receipt_in_branch, with_storage_key, immediate_transaction. rewrite Hkey.
  unfold mbind, tx_bind. rewrite require_branch_open by done. unfold query. by rewrite Hload.
Qed.

(** The spec a permit was issued for. *)
Definition permitted (permit : AuthorizedPhasePermitV1) (spec : AuthorizedPhaseSpecV1)
    (db : SecurityDb) : Prop :=
  ∃ key row, storage_key (pp_branch permit) (pp_phase permit) = Ok key
    ∧ authorized_phase_specs db !! (pp_attempt_id permit, key) = Some row
    ∧ PhaseSpec_decode_canonical (sp_canonical_json row) = Ok spec.

Lemma permitted_stands attempt phase branch t db permit db' spec :
  authorize_bound_phase_spec attempt phase branch t db = (db', Ok permit) →
  permitted permit spec db →
  ∃ key, permit_stands permit spec key db' ∧ ledger_write db db'
    ∧ validate_verified_prerequisite_chains spec db = Ok tt
    ∧ validate_active_fence_for_spec spec db = Ok tt
    ∧ (∀ through, ps_prerequisites_valid_through_ms spec = Some through → t ≤ through).
Proof.
  intros Hok (key&row&Hkey&Hrow&Hdec). exists key.
  destruct (storage_key branch phase) as [key'|e] eqn:Hkey'.
  - destruct (authorize_bound_phase_spec_Ok _ _ _ _ _ _ _ _ Hkey' Hok)
      as (Hw&Ha&Hp&Hb&row'&spec'&Hrow'&Hdec'&_&Hc&Hf&Ht&Hst).
    subst. rewrite Hkey in Hkey'. injection Hkey' as <-. rewrite Hrow in Hrow'.
    injection Hrow' as <-. rewrite Hdec in Hdec'. injection Hdec' as <-. by split_and!.
  - unfold authorize_bound_phase_spec, with_storage_key in Hok. rewrite Hkey' in Hok. by case_match.
Qed.

(** A permit that stands keeps standing, as far as grants and claims go. *)
Lemma permit_grant_kept permit spec key db db' grant_id digest :
  permit_stands permit spec key db → ledgers_grow db db' →
  spec_grant spec = Some (grant_id, digest) →
  ∃ row, consumed_mutation_grants db' !! grant_id = Some row
    ∧ grant_row_matches spec digest key row = true.
Proof.
  intros (_&_&_&_&_&_&_&Hgrant&_) Hgrow Hspec. destruct (Hgrant _ _ Hspec) as (row&Hrow&Hm).
  exists row. split; [|done]. by eapply lookup_weaken, lg_grants.
Qed.

Lemma permit_claim_kept permit spec key db db' :
  permit_stands permit spec key db → ledgers_grow db db' → is_bootstrap spec = true →
  ∃ row, project_bootstrap_ledger db' !! ps_project_id spec = Some row
    ∧ bootstrap_row_matches (ps_attempt_id spec) key (ps_spec_digest spec) row = true.
Proof.
  intros (_&_&_&_&_&_&_&_&Hboot) Hgrow Hb. destruct (Hboot Hb) as (row&Hrow&Hm).
  destruct (lg_bootstrap _ _ Hgrow _ _ Hrow) as (row'&Hrow'&Ha&Hp&Hd&_).
  exists row'. split; [done|]. unfold bootstrap_row_matches in *. by rewrite Ha, Hp, Hd.
Qed.

(** Two permits agree on attempt, phase, branch and spec. *)
Definition same_permit (p1 p2 : AuthorizedPhasePermitV1) : Prop :=
  pp_attempt_id p1 = pp_attempt_id p2 ∧ pp_phase p1 = pp_phase p2 ∧ pp_branch p1 = pp_branch p2
  ∧ pp_spec_digest p1 = pp_spec_digest p2.

Lemma matching_rows_same_permit p1 p2 s1 s2 k1 k2 db1 db2 attempt key spec_digest :
  permit_stands p1 s1 k1 db1 → permit_stands p2 s2 k2 db2 →
  ps_attempt_id s1 = attempt ∧ k1 = key ∧ ps_spec_digest s1 = spec_digest →
  ps_attempt_id s2 = attempt ∧ k2 = key ∧ ps_spec_digest s2 = spec_digest →
  same_permit p1 p2.
Proof.
  intros (Hk1&?&?&?&?&?&?&_) (Hk2&?&?&?&?&?&?&_) (?&?&?) (?&?&?). subst.
  destruct (storage_key_inj _ _ _ _ _ Hk1 Hk2). unfold same_permit. split_and!; congruence.
Qed.

(** C31: A mutation grant is used once: when two permits are issued, the second after any
    run of the store, for specs that name the same grant, they are permits for one
    and the same attempt, phase, branch and spec. *)
Theorem mutation_grant_is_single_use attempt1 phase1 branch1 t1 db1 p1 db1' s1
    attempt2 phase2 branch2 t2 db2 p2 db2' s2 grant_id digest1 digest2 :
  authorize_bound_phase_spec attempt1 phase1 branch1 t1 db1 = (db1', Ok p1) →
  permitted p1 s1 db1 →
  rtc phase_step db1' db2 →
  authorize_bound_phase_spec attempt2 phase2 branch2 t2 db2 = (db2', Ok p2) →
  permitted p2 s2 db2 →
  spec_grant s1 = Some (grant_id, digest1) → spec_grant s2 = Some (grant_id, digest2) →
  same_permit p1 p2 ∧ digest1 = digest2.
Proof.
  intros Hok1 Hp1 Hrun Hok2 Hp2 Hg1 Hg2.
  destruct (permitted_stands _ _ _ _ _ _ _ _ Hok1 Hp1) as (k1&Hs1&_).
  destruct (permitted_stands _ _ _ _ _ _ _ _ Hok2 Hp2) as (k2&Hs2&[_ Hgrow2]&_).
  assert (ledgers_grow db1' db2') as Hgrow by (by etrans; [apply phase_run_ledgers|]).
  destruct (permit_grant_kept _ _ _ _ _ _ _ Hs1 Hgrow Hg1) as (row1&Hrow1&Hm1).
  destruct (permit_grant_kept _ _ _ _ _ _ _ Hs2 (reflexivity _) Hg2) as (row2&Hrow2&Hm2).
  rewrite Hrow1 in Hrow2. simplify_eq. unfold grant_row_matches in *. bool_prop. destruct_and!.
  split; [|congruence]. by eapply matching_rows_same_permit.
Qed.

(** A project is bootstrapped once: all permits for a first installation of a
    project are permits for one and the same attempt, phase, branch and spec. *)
Theorem bootstrap_is_claimed_once attempt1 phase1 branch1 t1 db1 p1 db1' s1
    attempt2 phase2 branch2 t2 db2 p2 db2' s2 :
  authorize_bound_phase_spec attempt1 phase1 branch1 t1 db1 = (db1', Ok p1) →
  permitted p1 s1 db1 →
  rtc phase_step db1' db2 →
  authorize_bound_phase_spec attempt2 phase2 branch2 t2 db2 = (db2', Ok p2) →
  permitted p2 s2 db2 →
  is_bootstrap s1 = true → is_bootstrap s2 = true → ps_project_id s1 = ps_project_id s2 →
  same_permit p1 p2.
Proof.
  intros Hok1 Hp1 Hrun Hok2 Hp2 Hb1 Hb2 Hproject.
  destruct (permitted_stands _ _ _ _ _ _ _ _ Hok1 Hp1) as (k1&Hs1&_).
  destruct (permitted_stands _ _ _ _ _ _ _ _ Hok2 Hp2) as (k2&Hs2&[_ Hgrow2]&_).
  assert (ledgers_grow db1' db2') as Hgrow by (by etrans; [apply phase_run_ledgers|]).
  destruct (permit_claim_kept _ _ _ _ _ Hs1 Hgrow Hb1) as (row1&Hrow1&Hm1).
  destruct (permit_claim_kept _ _ _ _ _ Hs2 (reflexivity _) Hb2) as (row2&Hrow2&Hm2).
  rewrite Hproject, Hrow2 in Hrow1. simplify_eq. unfold bootstrap_row_matches in *. bool_prop.
  destruct_and!. by eapply matching_rows_same_permit.
Qed.

Lemma flatten_result_Ok {A} (r : SecurityDb * Result StoreError (Result StoreError A)) db' a :
  flatten_result r = (db', Ok a) → r = (db', Ok (Ok a)).
Proof. destruct r as [db [[|]|]]; by intros [= -> ->]. Qed.

(** The trusted source position never goes back: a source-gate proof that is
    accepted is not older than any position trusted earlier for its project, and a
    proof for the same position carries the same attestation. *)
Theorem source_position_never_regresses proof db0 db row db' :
  source_trust_highwater db0 !! sg_project_id proof = Some row →
  rtc phase_step db0 db →
  record_source_gate_proof proof db = (db', Ok tt) →
  hw_source_sequence row ≤ sg_source_sequence proof
  ∧ (hw_source_sequence row = sg_source_sequence proof →
     hw_attestation_digest row = sg_attestation_digest proof).
Proof.
  intros Hrow Hrun Hok.
  destruct (lg_highwater _ _ (phase_run_ledgers _ _ Hrun) _ _ Hrow) as (row1&Hrow1&Hkept).
  apply flatten_result_Ok in Hok. unfold with_storage_key in Hok. simpl in Hok.
  apply immediate_transaction_Ok, tx_bind_Ok in Hok as (admission&db1&Ha&Hok).
  destruct admission as [sequence|e]; [|by inv_ok].
  assert (∀ error db0, reject_source_gate_proof proof (phase_name (sg_phase proof)) error db
            ≠ Ok (@Ok StoreError Z sequence, db0)) as Hreject.
  { intros error db0' Hr. unfold reject_source_gate_proof in Hr. inv_ok. by repeat case_ok. }
  unfold validate_source_gate_proof_admission in Ha.
  apply tx_bind_Ok in Ha as (entry&db2&(->&_)%require_phase_entry_Ok&Ha).
  case_ok. case_ok; [by destruct (Hreject _ _ Ha)|]. case_ok; [by destruct (Hreject _ _ Ha)|].
  case_ok; [|by destruct (Hreject _ _ Ha)]. case_ok; [by destruct (Hreject _ _ Ha)|].
  match goal with Hs : i64_try_from _ = Some _ |- _ => apply checked_range_Some in Hs as [-> _] end.
  match goal with Hr : source_trust_regressed _ _ _ = false |- _ =>
    unfold source_trust_regressed in Hr; rewrite Hrow1 in Hr end.
  bool_prop. destruct_and!. destruct Hkept as [->|Hlt]; [|split; lia].
  split; [done|]. intros Heq.
  match goal with Hand : _ && _ = false |- _ => apply andb_false_iff in Hand as [Hn|Hn] end;
    bool_prop; done.
Qed.

(** ** The evidence a permit rests on *)

(** A stored chain of the project that was verified under the policy of the spec. *)
Definition chain_backs (spec : AuthorizedPhaseSpecV1) (kind : BackupSnapshotKindV1)
    (digest : EvidenceDigest) (chain : VerifiedBackupChainV1) : Prop :=
  BackupChain_require_verified chain = Ok tt
  ∧ vc_chain_digest chain = digest ∧ vc_snapshot_kind chain = kind
  ∧ abs_project_id (vc_authorized_spec chain) = ps_project_id spec
  ∧ abs_installed_policy (vc_authorized_spec chain) = ps_installed_policy spec
  ∧ (kind = Snapshot_Cutover → abs_attempt_id (vc_authorized_spec chain) = ps_attempt_id spec).

(** The bytes of a chain as they are stored for a phase. *)
Definition chain_stored (attempt : Uuid) (phase : OperationPhase) (chain : VerifiedBackupChainV1)
    (db : SecurityDb) : Prop :=
  ∃ row, verified_backup_chains db !! (attempt, phase_name phase) = Some row
    ∧ BackupChain_decode_canonical (bc_canonical_json row) = Ok chain.

Lemma load_verified_backup_chain_Some attempt key phase branch db record :
  load_verified_backup_chain attempt key phase branch db = Ok (Some record) →
  ∃ row chain, verified_backup_chains db !! (attempt, key) = Some row
    ∧ record = chain_record attempt phase branch row
    ∧ BackupChain_decode_canonical (bc_canonical_json row) = Ok chain
    ∧ vc_chain_digest chain = bc_chain_digest row.
Proof.
  unfold load_verified_backup_chain. intros Hok. case_ok. case_ok. bool_prop.
  match goal with Hand : _ ∧ _ |- _ => destruct Hand end. do 2 eexists. by split_and!.
Qed.

Lemma BackupChain_decode_verified bytes chain :
  BackupChain_decode_canonical bytes = Ok chain → BackupChain_require_verified chain = Ok tt.
Proof.
  unfold BackupChain_decode_canonical. intros Hok. inv_ok.
  by match goal with u : () |- _ => destruct u end.
Qed.

Lemma committed_base_chain_by_digest project digest db record :
  load_committed_base_backup_chain_by_digest project digest db = Ok (Some record) →
  ∃ attempt, load_verified_backup_chain attempt (phase_name Phase_BackingUp) Phase_BackingUp
               Branch_Primary db = Ok (Some record)
    ∧ journal_committed db (attempt, phase_name Phase_BackingUp) = true.
Proof.
  unfold load_committed_base_backup_chain_by_digest. simpl. intros Hok.
  destruct (head _) as [[[attempt key] row]|] eqn:Hhd; [|by inv_ok]. inv_ok. simplify_eq.
  exists attempt. split; [done|]. apply head_Some_elem_of, select_rows_elem in Hhd as [Hp _].
  simpl in Hp. bool_prop. naive_solver.
Qed.

Lemma prerequisite_chain_backs spec phase kind digest db :
  require_verified_prerequisite_chain spec phase kind digest db = Ok tt →
  ∃ chain attempt, chain_backs spec kind digest chain
    ∧ chain_stored attempt (if kind == Snapshot_Base then Phase_BackingUp else phase) chain db
    ∧ (kind = Snapshot_Base → journal_committed db (attempt, phase_name Phase_BackingUp) = true).
Proof.
  unfold require_verified_prerequisite_chain. intros Hok.
  apply result_bind_Ok in Hok as (loaded&Hload&Hok).
  apply result_bind_Ok in Hok as (record&->%ok_or_Ok&Hok).
  apply result_bind_Ok in Hok as (chain&Hdec%map_err_Ok&Hok).
  assert (∃ attempt, load_verified_backup_chain attempt
      (phase_name (if kind == Snapshot_Base then Phase_BackingUp else phase))
      (if kind == Snapshot_Base then Phase_BackingUp else phase) Branch_Primary db = Ok (Some record)
    ∧ (kind = Snapshot_Base → journal_committed db (attempt, phase_name Phase_BackingUp) = true))
    as (attempt&Hrec&Hcommitted).
  { destruct (bool_decide_reflect (kind = Snapshot_Base)) as [Hk|Hk];
      [|exists (ps_attempt_id spec); by inv_ok].
    apply committed_base_chain_by_digest in Hload as (a&?&?). by exists a. }
  apply load_verified_backup_chain_Some in Hrec as (row&chain'&Hrow&->&Hdec'&Hdig).
  simpl in *. rewrite Hdec in Hdec'. injection Hdec' as <-. case_ok. bool_prop. destruct_and!.
  exists chain, attempt. split_and!; [|by exists row|done].
  split_and!; [by eapply BackupChain_decode_verified|congruence|done..|].
  intros ->. match goal with Hand : _ && _ = false |- _ =>
    apply andb_false_iff in Hand as [Hn|Hn] end; bool_prop; done.
Qed.

(** A permit rests on evidence in the store: it is issued before its prerequisites
    expire; a base backup the spec names is a verified chain of the same project and
    policy whose backup phase was committed; a cutover backup it names was taken by
    the same attempt; and a fence it names is the active one, held by the attempt,
    while a spec without a fence gets a permit only when the project has none. *)
Theorem permit_rests_on_evidence attempt phase branch t db permit db' spec :
  authorize_bound_phase_spec attempt phase branch t db = (db', Ok permit) →
  permitted permit spec db →
  (∀ through, ps_prerequisites_valid_through_ms spec = Some through → t ≤ through)
  ∧ (∀ digest, ps_verified_base_backup_chain_digest spec = Some digest →
      ∃ chain backup_attempt, chain_backs spec Snapshot_Base digest chain
        ∧ chain_stored backup_attempt Phase_BackingUp chain db
        ∧ journal_committed db (backup_attempt, phase_name Phase_BackingUp) = true)
  ∧ (∀ digest, ps_verified_cutover_backup_chain_digest spec = Some digest →
      ∃ chain backup_attempt, chain_backs spec Snapshot_Cutover digest chain
        ∧ chain_stored backup_attempt Phase_CutoverSnapshotting chain db)
  ∧ match ps_fencing_epoch spec with
    | Some epoch => ∃ lease, load_active_fence (ps_project_id spec) db = Ok (Some lease)
        ∧ fl_attempt_id lease = ps_attempt_id spec ∧ fl_epoch lease = epoch
    | None => no_active_fence (ps_project_id spec) db
    end.
Proof.
  intros Hok Hp. destruct (permitted_stands _ _ _ _ _ _ _ _ Hok Hp) as (_&_&_&Hchains&Hfence&Ht).
  split; [done|]. unfold validate_verified_prerequisite_chains in Hchains. inv_ok.
  split_and!.
  - intros digest Hd. rewrite Hd in *. destruct x.
    match goal with Hb : require_verified_prerequisite_chain _ _ Snapshot_Base _ _ = _ |- _ =>
      apply prerequisite_chain_backs in Hb as (chain&a&?&?&Hc) end.
    exists chain, a. split_and!; [done..|by apply Hc].
  - intros digest Hd. rewrite Hd in *. apply prerequisite_chain_backs in Hchains as (chain&a&?&?&_).
    by exists chain, a.
  - unfold validate_active_fence_for_spec in Hfence.
    destruct (ps_fencing_epoch spec), (ps_fence_receipt_digest spec); try done.
    + inv_ok. case_ok. bool_prop. destruct_and!. subst. eexists. by split_and!.
    + inv_ok. bool_prop. subst. by apply load_active_fence_None.
Qed.
End PhaseJournalSpec.
