(* ===== verification/PhaseJournalSamples.v ===== *)
(** * Runs of the phase journal on concrete documents

    A deployment through its receipt, a rollback takeover, a first installation, a
    migration under a mutation grant and two source-gate proofs, on concrete codecs:
    the theorems of [PhaseJournalSpec] at these runs. *)

From Stdlib Require Import ZArith Lia Ascii String.
From stdpp Require Import base gmap strings option list_numbers list relations.
From S2P Require Import Prelude Identifiers States Text Failure Operation Errors Budget Controller.
From S2P Require Import SecurityDb Resources Fences FenceSpec Ordered Backup BackupSpec.
From S2P Require Import PhaseAuthority PhaseAuthoritySpec PhaseJournal PhaseJournalSpec DomainSpec.

Local Open Scope Z_scope.

(** ** Witnesses *)

Module PhaseSample.

Definition sha : Sha256 := BackupSample.sha.
Definition json_artifacts : Json PhaseArtifacts :=
  {| json_text := PhaseArtifacts; json_to_string := Ok; json_from_str := Ok |}.
Definition json_receipt : Json PhaseReceipt :=
  {| json_text := PhaseReceipt; json_to_string := Ok; json_from_str := Ok |}.
Definition json_reservation : Json AuthorizedDiskReservation :=
  {| json_text := AuthorizedDiskReservation; json_to_string := Ok; json_from_str := Ok |}.
#[local] Instance reservation_eq_dec : EqDecision AuthorizedDiskReservation.
Proof. solve_decision. Defined.
Definition jcs_receipt : Jcs ReceiptDigestPayload := λ p,
  Ok [Z.of_N (rdp_attempt_id p); str_len (phase_name (rdp_phase p)); rdp_committed_at_ms p].
Definition jcs_lease : Jcs FenceLeaseDigestPayload := λ _, Ok [20].
Definition jcs_acquisition : Jcs FenceAcquisitionReceiptDigestPayload := λ _, Ok [21].
Definition jcs_request : Jcs FixedAdapterRequestV1 := λ r, Ok [22; rq_sequence r].
Definition jcs_spec_payload : Jcs AuthorizedPhaseSpecDigestPayload := λ p,
  Ok [23; str_len (phase_name (psp_phase p))].

Definition digest (n : Z) : EvidenceDigest := @EvidenceDigest_sha256 sha [n].
Definition project : ProjectId := MkProjectId "demo".
Definition get {E A} (default : A) (r : Result E A) : A :=
  match r with Ok a => a | Err _ => default end.

(** *** Two specs: a first installation, and a migration under a mutation grant *)

Definition timeouts : RimgTimeoutPolicyV1 :=
  MkRimgTimeoutPolicyV1 60000 60000 60000 60000 60000 180000 60000.

Definition with_steps (spec : AuthorizedPhaseSpecV1) : AuthorizedPhaseSpecV1 :=
  let stepped := spec <| ps_steps := get [] (@expected_steps sha BackupSample.jcs_unit
                          BackupSample.jcs_spec jcs_request spec) |> in
  stepped <| ps_spec_digest := get (digest 0) (@PhaseSpec_calculate_digest sha jcs_spec_payload stepped) |>.

Definition bootstrap_artifacts : PhaseArtifacts :=
  PhaseArtifacts_default <| pa_deployment_plan_digest := Some (digest 50) |>
                         <| pa_release_bundle_digest := Some (digest 51) |>.

Definition bootstrap_spec : AuthorizedPhaseSpecV1 := with_steps {|
  ps_schema_version := 3; ps_attempt_id := 20; ps_request_id := 21; ps_project_id := project;
  ps_operation_kind := Kind_Deploy; ps_phase := Phase_Deploying; ps_branch := Branch_Primary;
  ps_intent_digest := digest 4; ps_executor_authorization_digest := digest 5;
  ps_installed_policy := MkInstalledPolicyIdentity (digest 30) 1;
  ps_installed_rimg_policy_digest := digest 31;
  ps_release_bundle_digest := Some (digest 51); ps_deployment_plan_digest := Some (digest 50);
  ps_timeouts := timeouts; ps_proposed_release_class := Some Class_CodeOnlyCompatible;
  ps_effective_release_class := Some Class_CodeOnlyCompatible;
  ps_classification_evidence_digest := Some (digest 52); ps_migration_id := None;
  ps_backup := None; ps_verified_base_backup_chain_digest := None;
  ps_verified_cutover_backup_chain_digest := None;
  ps_trusted_clock_evidence_digest := Some (digest 53); ps_boundary_now_ms := Some 100;
  ps_prerequisites_valid_through_ms := Some 10000; ps_fencing_epoch := None;
  ps_fence_receipt_digest := None; ps_mutation_grant_id := None; ps_mutation_grant_digest := None;
  ps_runtime_release_state := Some Runtime_NeverInstalled;
  ps_runtime_release_state_evidence_digest := Some (digest 54);
  ps_expected_observation_artifacts := bootstrap_artifacts; ps_steps := [];
  ps_spec_digest := digest 0 |}.

Definition migration_spec : AuthorizedPhaseSpecV1 := with_steps (bootstrap_spec
  <| ps_attempt_id := 10%N |> <| ps_phase := Phase_Migrating |>
  <| ps_release_bundle_digest := None |> <| ps_deployment_plan_digest := None |>
  <| ps_proposed_release_class := Some Class_StatefulBreaking |>
  <| ps_effective_release_class := Some Class_StatefulBreaking |>
  <| ps_migration_id := Some "m1"%string |>
  <| ps_verified_base_backup_chain_digest := Some (digest 7) |>
  <| ps_verified_cutover_backup_chain_digest := Some (digest 7) |>
  <| ps_fencing_epoch := Some 1 |> <| ps_fence_receipt_digest := Some (digest 21) |>
  <| ps_mutation_grant_id := Some 99%N |> <| ps_mutation_grant_digest := Some (digest 55) |>
  <| ps_runtime_release_state := None |> <| ps_runtime_release_state_evidence_digest := None |>
  <| ps_expected_observation_artifacts :=
       PhaseArtifacts_default <| pa_schema_version := Some "v8"%string |> |>).

(** *** A base and a cutover chain *)

Definition cutover_spec : AuthorizedBackupSpecV1 :=
  BackupSample.spec_of Snapshot_Cutover Purpose_DeploymentCutover (Some 1) (Some (digest 21)).
Definition cutover_manifest : BackupManifestV1 :=
  get BackupSample.empty_manifest
    (@BackupManifest_new sha BackupSample.jcs_unit BackupSample.jcs_spec BackupSample.jcs_manifest
       cutover_spec BackupSample.manifest_input).
Definition cutover_local : LocalBackupEvidenceV1 :=
  get BackupSample.local
    (@LocalBackup_new sha BackupSample.jcs_unit BackupSample.jcs_spec BackupSample.jcs_manifest
       BackupSample.jcs_local cutover_spec cutover_manifest BackupSample.encryption).
Definition cutover_chain : VerifiedBackupChainV1 :=
  MkVerifiedBackupChainV1 1 Snapshot_Cutover cutover_spec cutover_manifest cutover_local None None
    (digest 7).

(** *** Codecs for these documents *)

Definition jcs_chain : Jcs VerifiedBackupChainV1 := λ chain,
  if chain == BackupSample.chain then Ok [1]
  else if chain == cutover_chain then Ok [2] else Err MkSerdeError.
Definition slice_chain : JsonSlice VerifiedBackupChainV1 := λ bytes,
  if bytes == [1] then Ok BackupSample.chain
  else if bytes == [2] then Ok cutover_chain else Err MkSerdeError.
Definition jcs_spec : Jcs AuthorizedPhaseSpecV1 := λ spec,
  if spec == bootstrap_spec then Ok [1]
  else if spec == migration_spec then Ok [2] else Err MkSerdeError.
Definition slice_spec : JsonSlice AuthorizedPhaseSpecV1 := λ bytes,
  if bytes == [1] then Ok bootstrap_spec
  else if bytes == [2] then Ok migration_spec else Err MkSerdeError.

#[local] Instance codecs : PhaseCodecs := {|
  codec_sha := sha;
  codec_reservation := json_reservation;
  codec_reservation_text := reservation_eq_dec;
  codec_artifacts := json_artifacts;
  codec_receipt := json_receipt;
  codec_reservation_payload := λ _, Ok [24];
  codec_receipt_payload := jcs_receipt;
  codec_lease_payload := jcs_lease;
  codec_fence_payload := jcs_acquisition;
  codec_unit_payload := BackupSample.jcs_unit;
  codec_backup_payload := BackupSample.jcs_spec;
  codec_manifest_payload := BackupSample.jcs_manifest;
  codec_local_payload := BackupSample.jcs_local;
  codec_upload_payload := BackupSample.jcs_receipt;
  codec_offsite_payload := BackupSample.jcs_offsite;
  codec_chain_payload := BackupSample.jcs_chain;
  codec_chain := jcs_chain;
  codec_chain_slice := slice_chain;
  codec_spec_payload := jcs_spec_payload;
  codec_request := jcs_request;
  codec_spec := jcs_spec;
  codec_spec_slice := slice_spec
|}.

#[local] Instance artifacts_round_trip : JsonRoundTrip PhaseArtifacts.
Proof. intros x t [= <-]. reflexivity. Defined.
#[local] Instance receipt_round_trip : JsonRoundTrip PhaseReceipt.
Proof. intros x t [= <-]. reflexivity. Defined.

(** *** Runs *)

Definition empty : SecurityDb := MkSecurityDb ∅ ∅ ∅ ∅ ∅ ∅ ∅ ∅ ∅ ∅ ∅ ∅ ∅ ∅ ∅ ∅ ∅ 0.

Definition plan : ExecutorPhasePlan :=
  MkExecutorPhasePlan [Phase_Deploying; Phase_HealthChecking; Phase_Soaking] true.

Definition authorization (attempt : Uuid) : ExecutorAuthorization :=
  MkExecutorAuthorization attempt (digest 5) attempt project 1000 None.
Definition intent (attempt : Uuid) (branch : ExecutorPhaseBranch) (phase : OperationPhase)
    (t : Z) : PhaseIntentRequest :=
  MkPhaseIntentRequest attempt project phase branch plan (digest 4) (digest 5) t.
Definition deployed : PhaseObservationRequest :=
  MkPhaseObservationRequest 20 Phase_Deploying Branch_Primary (digest 4) (digest 6)
    bootstrap_artifacts 120.

Definition db0 : SecurityDb := (authorize_attempt (authorization 20) 100 empty).1.
Definition db1 : SecurityDb :=
  (begin_phase_intent (intent 20 Branch_Primary Phase_Deploying 110) db0).1.
Definition db2 : SecurityDb := (record_phase_observation_in_branch deployed db1).1.
Definition db3 : SecurityDb :=
  (mark_phase_verified_in_branch 20 Phase_Deploying Branch_Primary 130 db2).1.
Definition db4 : SecurityDb :=
  (commit_phase_receipt_in_branch 20 Phase_Deploying Branch_Primary 140 db3).1.
Definition db5 : SecurityDb :=
  (begin_phase_intent (intent 20 Branch_Primary Phase_HealthChecking 150) db4).1.
Definition db6 : SecurityDb := (begin_rollback_takeover 20 project (digest 5) 160 db5).1.
Definition db7 : SecurityDb :=
  (begin_phase_intent (intent 20 Branch_RollbackRecovery Phase_Rollback 170) db6).1.

Lemma run03 : rtc phase_step empty db3.
Proof.
  eapply rtc_l; [apply (step_authorize_attempt _ (authorization 20) 100)|].
  eapply rtc_l; [apply (step_begin_intent _ (intent 20 Branch_Primary Phase_Deploying 110))|].
  eapply rtc_l; [apply (step_observe _ deployed)|].
  eapply rtc_l; [apply (step_verify _ 20 Phase_Deploying Branch_Primary 130)|]. apply rtc_refl.
Defined.

Lemma run34 : rtc phase_step db3 db4.
Proof. apply rtc_once, (step_commit _ 20 Phase_Deploying Branch_Primary 140). Defined.
Lemma run46 : rtc phase_step db4 db6.
Proof.
  eapply rtc_l; [apply (step_begin_intent _ (intent 20 Branch_Primary Phase_HealthChecking 150))|].
  apply rtc_once, (step_takeover _ 20 project (digest 5) 160).
Defined.
Lemma run67 : rtc phase_step db6 db7.
Proof.
  apply rtc_once, (step_begin_intent _ (intent 20 Branch_RollbackRecovery Phase_Rollback 170)).
Defined.

Lemma reach (db : SecurityDb) : rtc phase_step empty db → phase_reachable db.
Proof. intros Hrun. exists empty. repeat (split; [reflexivity|]). exact Hrun. Defined.
Lemma reach4 : phase_reachable db4.
Proof. apply reach. exact (transitivity (R := rtc phase_step) run03 run34). Defined.
Lemma reach6 : phase_reachable db6.
Proof. apply reach. exact (transitivity (R := rtc phase_step) run03 (transitivity (R := rtc phase_step) run34 run46)). Defined.

Definition journal_row (db : SecurityDb) (key : string) : option PhaseJournalRow :=
  executor_phase_journal db !! (20%N, key).

Lemma phase_life_cycle_witness :
  match journal_row db3 "deploying" with
  | Some row => ∃ row', journal_row db4 "deploying" = Some row'
      ∧ same_intent row row'
      ∧ (status_is Journal_Committed row → row' = row)
      ∧ (row' = row ∨ phase_move Phase_Deploying row row'
         ∨ (status_is Journal_Verified row ∧ status_is Journal_Committed row'
            ∧ same_evidence row row'))
  | None => ∀ row', journal_row db4 "deploying" = Some row' →
      status_is Journal_IntentPersisted row' ∧ pj_observation_digest row' = None
  end.
Proof.
  apply (phase_life_cycle db3 db4 20 Branch_Primary Phase_Deploying "deploying").
  - exact (step_commit db3 20 Phase_Deploying Branch_Primary 140).
  - reflexivity.
Defined.

Lemma receipts_match_journal_witness :
  ∃ receipt, load_phase_receipt 20 "deploying" Phase_Deploying Branch_Primary db4
               = Ok (Some receipt) ∧ validate_receipt receipt = Ok tt.
Proof.
  destruct (receipts_match_journal db4 20 Branch_Primary Phase_Deploying "deploying" reach4
    eq_refl) as (answer&Hload&_&Hvalid).
  destruct answer as [receipt|].
  - exists receipt. split; [exact Hload|]. exact (proj1 (Hvalid receipt eq_refl)).
  - vm_compute in Hload. discriminate Hload.
Defined.

Lemma in_flight (key : string) (row : PhaseJournalRow) :
  journal_row db7 key = Some row → pj_status row = "intent_persisted"%string →
  uncommitted 20 key db7.
Proof.
  intros Hrow Hs. exists row. split; [exact Hrow|]. unfold status_is. rewrite Hs. discriminate.
Defined.

Lemma one_phase_in_flight_witness :
  ∃ takeover, executor_rollback_takeovers db7 !! 20%N = Some takeover
    ∧ (("health_checking"%string = tk_forward_phase takeover
        ∧ "rollback_recovery"%string ∈ recovery_keys)
       ∨ ("rollback_recovery"%string = tk_forward_phase takeover
          ∧ "health_checking"%string ∈ recovery_keys)).
Proof.
  apply (one_phase_in_flight db7 20 "health_checking" "rollback_recovery").
  - apply reach. refine (transitivity (R := rtc phase_step) run03 (transitivity (R := rtc phase_step) run34 _)).
    exact (transitivity (R := rtc phase_step) run46 run67).
  - eapply in_flight; vm_compute; reflexivity.
  - eapply in_flight; vm_compute; reflexivity.
  - discriminate.
Defined.

Lemma intent_follows_plan_witness :
  ∃ receipt, phase_receipt 20 Phase_Deploying db4 = Ok (Some receipt)
    ∧ pr_phase receipt = Phase_Deploying.
Proof.
  assert (∃ entry, begin_phase_intent (intent 20 Branch_Primary Phase_HealthChecking 150) db4
                   = (db5, Ok entry)) as [entry Hok] by (eexists; vm_compute; reflexivity).
  destruct (intent_follows_plan (intent 20 Branch_Primary Phase_HealthChecking 150) db4 entry db5
    reach4 eq_refl Hok) as (i&Hi&Hearlier&_).
  destruct i as [|i]; [discriminate Hi|].
  destruct (Hearlier 0%nat Phase_Deploying (Nat.lt_0_succ i) eq_refl) as (receipt&Hload&_&Hp).
  exists receipt. split; [exact Hload|exact Hp].
Defined.

(** A proof without a position arrives for the health check after the takeover. *)
Definition late_proof : SourceGateProofRecord :=
  MkSourceGateProofRecord 20 Phase_HealthChecking (digest 60) project 0 (digest 61) 180.
Definition late : SecurityDb := (record_source_gate_proof late_proof db7).1.
Lemma run6late : rtc phase_step db6 late.
Proof. eapply rtc_r; [exact run67|apply (step_source_gate _ late_proof)]. Defined.

Lemma takeover_freezes_forward_branch_witness :
  (journal_row db7 "health_checking" = journal_row db6 "health_checking"
   ∧ ∃ snapshot, rollback_takeover 20 db7 = Ok (Some snapshot))
  ∧ rollback_takeover 20 late = Err (CorruptSecurityJournal "rollback takeover journal binding")
  ∧ ∃ row, journal_row late "health_checking" = Some row ∧ status_is Journal_NeedsReconcile row.
Proof.
  destruct (executor_rollback_takeovers db6 !! 20%N) as [takeover|] eqn:Htk;
    [|vm_compute in Htk; discriminate Htk].
  assert (tk_forward_phase takeover = "health_checking"%string) as Hphase
    by (vm_compute in Htk; injection Htk as <-; reflexivity).
  destruct (takeover_freezes_forward_branch db6 db7 20 takeover reach6 run67 Htk)
    as (_&Hkept&row&Hrow&_&_&Hread).
  destruct (takeover_freezes_forward_branch db6 late 20 takeover reach6 run6late Htk)
    as (_&_&row'&Hrow'&_&_&Hread').
  rewrite Hphase in Hrow, Hrow'. split; [split|].
  - destruct (Hkept "health_checking"%string (deployed_not_recovery
      "health_checking"%string eq_refl)) as [Hsame|(_&r&r'&_&Hr'&Hrej)]; [exact Hsame|]. destruct Hrej as (_&Hs&_). vm_compute in Hr'. injection Hr' as <-.
    vm_compute in Hs. discriminate Hs.
  - destruct Hread as [(_&snapshot&Hload&_)|(_&Hs&_)]; [exists snapshot; exact Hload|].
    vm_compute in Hrow. injection Hrow as <-. vm_compute in Hs. discriminate Hs.
  - destruct Hread' as [(Hs&_)|(_&Hs&Herr)].
    + vm_compute in Htk, Hrow'. injection Htk as <-. injection Hrow' as <-. vm_compute in Hs. discriminate Hs.
    + split; [exact Herr|]. exists row'. split; [exact Hrow'|exact Hs].
Defined.

Lemma committed_receipt_is_replayed_witness :
  ∃ receipt, commit_phase_receipt_in_branch 20 Phase_Deploying Branch_Primary 999 db5
             = (db5, Ok receipt).
Proof.
  eexists. eapply (committed_receipt_is_replayed db3 20 Phase_Deploying Branch_Primary 140 db4).
  - vm_compute. reflexivity.
  - apply rtc_once, (step_begin_intent _ (intent 20 Branch_Primary Phase_HealthChecking 150)).
  - intros _. vm_compute. reflexivity.
Defined.

(** *** Permits *)

Ltac show_permitted :=
  eexists _, _; split; [reflexivity|]; split; [vm_compute; reflexivity|]; vm_compute; reflexivity.

Definition bootstrap_binding : AuthorizedPhaseSpecBinding :=
  MkAuthorizedPhaseSpecBinding 20 project Phase_Deploying Branch_Primary (digest 4)
    (ps_spec_digest bootstrap_spec) [1] 115.
Definition bound : SecurityDb := (bind_authorized_phase_spec bootstrap_binding db1).1.
Definition claimed : SecurityDb :=
  (authorize_bound_phase_spec 20 Phase_Deploying Branch_Primary 118 bound).1.
Definition claimed_again : SecurityDb :=
  (authorize_bound_phase_spec 20 Phase_Deploying Branch_Primary 119 claimed).1.

Lemma bootstrap_is_claimed_once_witness :
  ∃ p1 p2, authorize_bound_phase_spec 20 Phase_Deploying Branch_Primary 118 bound = (claimed, Ok p1)
    ∧ authorize_bound_phase_spec 20 Phase_Deploying Branch_Primary 119 claimed
      = (claimed_again, Ok p2)
    ∧ same_permit p1 p2.
Proof.
  eexists. eexists. split; [vm_compute; reflexivity|]. split; [vm_compute; reflexivity|].
  eapply (bootstrap_is_claimed_once 20 Phase_Deploying Branch_Primary 118 bound _ claimed
    bootstrap_spec 20 Phase_Deploying Branch_Primary 119 claimed _ claimed_again bootstrap_spec).
  - vm_compute. reflexivity.
  - show_permitted.
  - apply rtc_refl.
  - vm_compute. reflexivity.
  - show_permitted.
  - reflexivity.
  - reflexivity.
  - reflexivity.
Defined.

(** Attempt 10 has its base and cutover backups and holds fence 1. *)
Definition migrating : SecurityDb := empty
  <| fence_journal := {[ 1 := MkFenceRow 1 project 10 77 "held" None 60 70 ]} |>
  <| executor_phase_journal := {[
       (10%N, "backing_up"%string) :=
         MkPhaseJournalRow project (digest 4) (Some (digest 6)) PhaseArtifacts_default "committed"
           10 20;
       (10%N, "migrating"%string) :=
         MkPhaseJournalRow project (digest 4) None PhaseArtifacts_default "intent_persisted"
           90 90 ]} |>
  <| verified_backup_chains := {[
       (10%N, "backing_up"%string) :=
         MkBackupChainRow project (digest 40) (digest 7) (digest 1) [1] 30;
       (10%N, "cutover_snapshotting"%string) :=
         MkBackupChainRow project (digest 41) (digest 7) (digest 2) [2] 80 ]} |>
  <| authorized_phase_specs := {[
       (10%N, "migrating"%string) :=
         MkPhaseSpecRow project (digest 4) (ps_spec_digest migration_spec) (digest 2) [2] 95 ]} |>.
Definition granted : SecurityDb :=
  (authorize_bound_phase_spec 10 Phase_Migrating Branch_Primary 200 migrating).1.
Definition granted_again : SecurityDb :=
  (authorize_bound_phase_spec 10 Phase_Migrating Branch_Primary 210 granted).1.

Lemma mutation_grant_is_single_use_witness :
  ∃ p1 p2, authorize_bound_phase_spec 10 Phase_Migrating Branch_Primary 200 migrating
             = (granted, Ok p1)
    ∧ authorize_bound_phase_spec 10 Phase_Migrating Branch_Primary 210 granted
      = (granted_again, Ok p2)
    ∧ same_permit p1 p2.
Proof.
  eexists. eexists. split; [vm_compute; reflexivity|]. split; [vm_compute; reflexivity|].
  eapply (mutation_grant_is_single_use 10 Phase_Migrating Branch_Primary 200 migrating _ granted
    migration_spec 10 Phase_Migrating Branch_Primary 210 granted _ granted_again migration_spec 99
    (digest 55) (digest 55)).
  - vm_compute. reflexivity.
  - show_permitted.
  - apply rtc_refl.
  - vm_compute. reflexivity.
  - show_permitted.
  - reflexivity.
  - reflexivity.
Defined.

Lemma permit_rests_on_evidence_witness :
  ∃ chain backup_attempt, chain_backs migration_spec Snapshot_Base (digest 7) chain
    ∧ chain_stored backup_attempt Phase_BackingUp chain migrating.
Proof.
  assert (∃ permit, authorize_bound_phase_spec 10 Phase_Migrating Branch_Primary 200 migrating
                    = (granted, Ok permit) ∧ permitted permit migration_spec migrating)
    as (permit&Hok&Hp).
  { eexists. split; [vm_compute; reflexivity|]. show_permitted. }
  destruct (permit_rests_on_evidence 10 Phase_Migrating Branch_Primary 200 migrating permit granted
    migration_spec Hok Hp) as (_&Hbase&_).
  destruct (Hbase (digest 7) eq_refl) as (chain&a&Hb&Hs&_). exists chain, a.
  split; [exact Hb|exact Hs].
Defined.

(** *** Source-gate proofs *)

Definition proof (attempt : Uuid) (sequence : Z) : SourceGateProofRecord :=
  MkSourceGateProofRecord attempt Phase_Deploying (digest 70) project sequence (digest 71) 116.
Definition trusted : SecurityDb := (record_source_gate_proof (proof 20 5) db1).1.
Definition second : SecurityDb :=
  (begin_phase_intent (intent 30 Branch_Primary Phase_Deploying 210)
     (authorize_attempt (authorization 30) 200 trusted).1).1.
Definition trusted_more : SecurityDb := (record_source_gate_proof (proof 30 6) second).1.

Lemma source_position_never_regresses_witness :
  ∃ row, source_trust_highwater trusted !! project = Some row
    ∧ hw_source_sequence row ≤ sg_source_sequence (proof 30 6).
Proof.
  eexists. split; [vm_compute; reflexivity|].
  refine (proj1 (source_position_never_regresses (proof 30 6) trusted second _ trusted_more _ _ _)).
  - vm_compute. reflexivity.
  - eapply rtc_l; [apply (step_authorize_attempt _ (authorization 30) 200)|].
    apply rtc_once, (step_begin_intent _ (intent 30 Branch_Primary Phase_Deploying 210)).
  - vm_compute. reflexivity.
Defined.

(** *** Specs and their requests *)

Lemma privileged_steps_need_evidence_witness :
  NoDup (st_profile <$> ps_steps migration_spec)
  ∧ ∀ step, step ∈ ps_steps migration_spec → profile_evidence migration_spec (st_profile step).
Proof. apply (privileged_steps_need_evidence migration_spec). vm_compute. reflexivity. Defined.

Definition bootstrap_request : FixedAdapterRequestV1 :=
  build_adapter_request bootstrap_spec 1 Profile_KamalBootstrapDeploy Schema_DeploymentEvidence 60000.
Definition encode_request : Jcs FixedAdapterRequestV1 := DomainSample.encode_one bootstrap_request.
Definition decode_request : JsonSlice FixedAdapterRequestV1 :=
  DomainSample.decode_one bootstrap_request.

(** The spec of the first installation, its step on the encoding of that request. *)
Definition installation_step : AuthorizedPhaseStepV1 :=
  MkAuthorizedPhaseStepV1 1 Profile_KamalBootstrapDeploy 60000 (digest 1) Schema_DeploymentEvidence.
Definition installation_spec : AuthorizedPhaseSpecV1 :=
  bootstrap_spec <| ps_steps := [installation_step] |>.

Lemma adapter_accepts_only_authorized_request_witness :
  @AdapterRequest_decode_authorized sha BackupSample.jcs_unit BackupSample.jcs_spec jcs_spec_payload
    encode_request decode_request [1] installation_spec 1 = Ok bootstrap_request.
Proof.
  destruct (@adapter_accepts_only_authorized_request sha BackupSample.jcs_unit BackupSample.jcs_spec
    jcs_spec_payload encode_request decode_request installation_spec 0 installation_step
    (DomainSample.encode_one_round_trip bootstrap_request)) as (_&_&request&Hreq&_&_&_&_&Haccept).
  - vm_compute. reflexivity.
  - reflexivity.
  - apply Haccept. assert (request = bootstrap_request) as ->.
    { vm_compute in Hreq. injection Hreq as <-. vm_compute. reflexivity. }
    split; [reflexivity|]. split; [discriminate|]. vm_compute. reflexivity.
Defined.

Lemma authority_documents_decode_from_canonical_bytes_only_witness :
  @PhaseSpec_decode_canonical sha BackupSample.jcs_unit BackupSample.jcs_spec jcs_spec_payload
    jcs_request (DomainSample.encode_one migration_spec) (DomainSample.decode_one migration_spec) [1]
    = Ok migration_spec.
Proof.
  refine (proj2 (proj2 (proj2 (proj2 (@authority_documents_decode_from_canonical_bytes_only sha
    BackupSample.jcs_unit BackupSample.jcs_spec BackupSample.jcs_manifest BackupSample.jcs_local
    BackupSample.jcs_receipt BackupSample.jcs_offsite BackupSample.jcs_chain jcs_spec_payload
    jcs_request
    (DomainSample.encode_one BackupSample.spec) (DomainSample.decode_one BackupSample.spec)
    (DomainSample.encode_one_round_trip BackupSample.spec)
    (DomainSample.encode_one BackupSample.manifest) (DomainSample.decode_one BackupSample.manifest)
    (DomainSample.encode_one_round_trip BackupSample.manifest)
    (DomainSample.encode_one BackupSample.chain) (DomainSample.decode_one BackupSample.chain)
    (DomainSample.encode_one_round_trip BackupSample.chain)
    (DomainSample.encode_one migration_spec) (DomainSample.decode_one migration_spec)
    (DomainSample.encode_one_round_trip migration_spec) [1]))) migration_spec) _).
  vm_compute. reflexivity.
Defined.
End PhaseSample.
