(* ===== verification/WorkflowSpec.v ===== *)
(** * Workflow contracts: theorems

    What a valid workflow policy guarantees: the dependency loop terminates and
    accepts exactly the graphs that have a dependency order, the nodes of a valid
    policy are run in such an order, the cutover comes after every gate and a
    self-update handoff has no mutating node.  What the documents guarantee: a
    renewal changes the expiry and nothing else, a receipt is bound to its lease,
    decoders accept canonical bytes only. *)

From Stdlib Require Import ZArith Lia Ascii String.
From stdpp Require Import base gmap strings option list_numbers sorting list fin_sets.
From S2P Require Import Prelude Identifiers Text Ordered DomainSpec Workflow.

Local Open Scope Z_scope.

(** ** Dependency orders *)

(** Every dependency of a node is a node before it. *)
Definition dependency_order (l : list WorkflowNodeV1) : Prop :=
  ∀ i node dependency, l !! i = Some node → dependency ∈ wn_depends_on node →
    ∃ j before, (j < i)%nat ∧ l !! j = Some before ∧ wn_node_id before = dependency.

Definition node_ids (l : list WorkflowNodeV1) : list WorkflowNodeId := wn_node_id <$> l.

Lemma dependency_order_nil : dependency_order [].
Proof. intros i ??. by rewrite lookup_nil. Qed.

Lemma dependency_order_snoc l node :
  dependency_order l → (∀ d, d ∈ wn_depends_on node → d ∈ node_ids l) →
  dependency_order (l ++ [node]).
Proof.
  intros Hl Hdeps i n d Hi Hd. apply lookup_app_Some in Hi as [Hi|[Hlen Hi]].
  - destruct (Hl _ _ _ Hi Hd) as (j & b & ? & Hj & ?). exists j, b.
    rewrite lookup_app_l by by eapply lookup_lt_Some. done.
  - apply list_lookup_singleton_Some in Hi as [Hi <-].
    apply Hdeps, list_elem_of_fmap in Hd as (b & -> & Hb).
    apply list_elem_of_lookup in Hb as (j & Hj). exists j, b.
    pose proof (lookup_lt_Some _ _ _ Hj). rewrite lookup_app_l by done. repeat split; [lia|done].
Qed.

(** ** Emission

    The set of emitted nodes is always the set of the nodes of a dependency order. *)
Record emission (nodes l : list WorkflowNodeV1) (emitted : gset WorkflowNodeId) : Prop := {
  emission_order : dependency_order l;
  emission_sub : l ⊆+ nodes;
  emission_ids : emitted = list_to_set (node_ids l)
}.

Lemma emission_nil nodes : emission nodes [] ∅.
Proof. split; [apply dependency_order_nil|apply submseteq_nil_l|done]. Qed.

Lemma node_ready_true emitted node :
  node_ready emitted node = true ↔
  (wn_node_id node ∉ emitted) ∧ ∀ d, d ∈ wn_depends_on node → d ∈ emitted.
Proof.
  unfold node_ready. rewrite andb_true_iff, negb_true_iff, bool_decide_eq_false, forallb_forall.
  split; intros [? Hd]; (split; [done|]); intros d Hin.
  - apply list_elem_of_In, Hd in Hin. by apply bool_decide_eq_true in Hin.
  - apply bool_decide_eq_true. by apply Hd, list_elem_of_In.
Qed.

Section Emission.
Context (nodes : list WorkflowNodeV1) (Hunique : NoDup (node_ids nodes)).

Lemma submseteq_node_ids l : l ⊆+ nodes → NoDup (node_ids l).
Proof.
  intros Hsub. destruct (submseteq_Permutation _ _ Hsub) as [k Hk].
  unfold node_ids in *. rewrite Hk, fmap_app in Hunique. by apply NoDup_app in Hunique as [? _].
Qed.

Lemma emission_size l emitted : emission nodes l emitted → size emitted = length l.
Proof.
  intros [_ Hsub ->]. rewrite size_list_to_set by by apply submseteq_node_ids.
  apply length_fmap.
Qed.

Lemma emission_length l emitted : emission nodes l emitted → (length l ≤ length nodes)%nat.
Proof. intros [_ Hsub _]. by apply submseteq_length. Qed.

Lemma emission_full l emitted :
  emission nodes l emitted → (length nodes ≤ size emitted)%nat → l ≡ₚ nodes.
Proof.
  intros He Hsize. rewrite (emission_size _ _ He) in Hsize.
  apply submseteq_length_Permutation; [by destruct He|done].
Qed.

Lemma emission_ready l emitted node :
  emission nodes l emitted → node ∈ nodes → node_ready emitted node = true →
  emission nodes (l ++ [node]) ({[ wn_node_id node ]} ∪ emitted).
Proof.
  intros [Hord Hsub ->] Hin [Hnew Hdeps]%node_ready_true.
  assert (node ∉ l) as Hnl.
  { intros ?. apply Hnew, elem_of_list_to_set. by apply list_elem_of_fmap_2. }
  split.
  - apply dependency_order_snoc; [done|]. intros d Hd%Hdeps.
    by apply elem_of_list_to_set in Hd.
  - apply NoDup_submseteq.
    + apply NoDup_app. split; [by eapply NoDup_fmap_1, submseteq_node_ids|].
      split; [by intros x ? ->%list_elem_of_singleton|apply NoDup_singleton].
    + intros x [Hx| ->%list_elem_of_singleton]%elem_of_app; [|done].
      by eapply elem_of_submseteq.
  - unfold node_ids. rewrite fmap_app, list_to_set_app_L. simpl. set_solver.
Qed.
End Emission.

(** While nodes are left, a dependency order of all nodes names one that is ready:
    its first node that is not emitted. *)
Lemma ready_node_exists nodes l emitted order :
  NoDup (node_ids nodes) → emission nodes l emitted → (length l < length nodes)%nat →
  order ≡ₚ nodes → dependency_order order → ∃ node, node ∈ nodes ∧ node_ready emitted node = true.
Proof.
  intros Hunique He Hlen Hperm Hord.
  destruct (decide (Forall (λ n, wn_node_id n ∈ emitted) order)) as [Hall|Hnot].
  - exfalso. destruct He as [_ Hsub ->].
    assert (node_ids nodes ⊆+ node_ids l) as Hle%submseteq_length.
    { apply NoDup_submseteq; [done|]. intros x (n & -> & Hn)%list_elem_of_fmap.
      rewrite <- Hperm in Hn. rewrite Forall_forall in Hall.
      by apply Hall, elem_of_list_to_set in Hn. }
    unfold node_ids in Hle. rewrite !length_fmap in Hle. lia.
  - apply not_Forall_Exists, Exists_exists in Hnot; [|apply _].
    destruct Hnot as (w & Hw & Hout).
    apply list_elem_of_lookup in Hw as (k & Hk). revert w Hk Hout.
    induction k as [k IH] using lt_wf_ind. intros w Hk Hout.
    destruct (decide (Forall (λ d, d ∈ emitted) (wn_depends_on w))) as [Hdeps|Hno].
    + exists w. split; [rewrite <- Hperm; by eapply list_elem_of_lookup_2|].
      apply node_ready_true. split; [done|]. by apply Forall_forall.
    + apply not_Forall_Exists, Exists_exists in Hno; [|apply _]. destruct Hno as (d & Hd & Hde).
      destruct (Hord _ _ _ Hk Hd) as (j & b & Hj & Hb & <-). by apply (IH j Hj b).
Qed.

(** *** The passes of [validate_topology] *)

(** The loop body of a pass. *)
Definition emit_step (emitted : gset WorkflowNodeId) (node : WorkflowNodeV1)
    : gset WorkflowNodeId :=
  if node_ready emitted node then {[ wn_node_id node ]} ∪ emitted else emitted.

Lemma emit_step_sub emitted node : emitted ⊆ emit_step emitted node.
Proof. unfold emit_step. case_match; set_solver. Qed.

Lemma emit_pass_sub emitted rest : emitted ⊆ foldl emit_step emitted rest.
Proof.
  revert emitted. induction rest as [|n rest IH]; intros emitted; simpl; [done|].
  etrans; [apply emit_step_sub|apply IH].
Qed.

(** A node that is ready before the pass is emitted in it. *)
Lemma emit_pass_ready emitted rest node :
  node ∈ rest → node_ready emitted node = true → wn_node_id node ∈ foldl emit_step emitted rest.
Proof.
  intros Hin [Hnew Hdeps]%node_ready_true. apply list_elem_of_split in Hin as (l1 & l2 & ->).
  rewrite foldl_app. simpl. apply (emit_pass_sub _ l2).
  pose proof (emit_pass_sub emitted l1) as Hsub. unfold emit_step at 1.
  case_match eqn:E; [set_solver|]. apply not_true_iff_false in E. rewrite node_ready_true in E.
  apply dec_stable. intros Hout. apply E. split; [done|]. intros d ?%Hdeps. set_solver.
Qed.

Section Passes.
Context (nodes : list WorkflowNodeV1) (Hunique : NoDup (node_ids nodes)).

Lemma emit_pass_emission l emitted rest :
  emission nodes l emitted → rest ⊆ nodes →
  ∃ l', emission nodes l' (foldl emit_step emitted rest).
Proof.
  revert l emitted. induction rest as [|n rest IH]; intros l emitted He Hrest; simpl; [eauto|].
  assert (∃ l1, emission nodes l1 (emit_step emitted n)) as [l1 H1].
  { unfold emit_step. case_match eqn:E; [|eauto]. exists (l ++ [n]).
    apply emission_ready; [done..| |done]. apply Hrest. by left. }
  apply (IH l1); [done|]. intros x ?. apply Hrest. by right.
Qed.
End Passes.

(** The nodes can be run one after the other, each after its dependencies. *)
Definition orderable (nodes : list WorkflowNodeV1) : Prop :=
  ∃ order, order ≡ₚ nodes ∧ dependency_order order.

Lemma topology_loop_spec fuel nodes l emitted :
  NoDup (node_ids nodes.*2) → emission nodes.*2 l emitted →
  (length nodes < size emitted + fuel)%nat →
  (orderable nodes.*2 ∧ topology_loop fuel nodes emitted = Some (Ok tt))
  ∨ (¬ orderable nodes.*2 ∧ topology_loop fuel nodes emitted = Some (Err Workflow_CyclicGraph)).
Proof.
  intros Hunique. revert l emitted. induction fuel as [|fuel IH]; intros l emitted He Hfuel.
  { pose proof (emission_size _ Hunique _ _ He). pose proof (emission_length _ _ _ He) as Hl.
    rewrite length_fmap in Hl. lia. }
  simpl. destruct (Nat.ltb_spec (size emitted) (length nodes)) as [Hlt|Hge].
  - pose proof (emission_size _ Hunique _ _ He) as Hsize.
    change (topology_pass nodes emitted) with (foldl emit_step emitted nodes.*2).
    destruct (emit_pass_emission _ Hunique _ _ nodes.*2 He) as [l' He']; [done|].
    pose proof (emit_pass_sub emitted nodes.*2) as Hsub.
    destruct (Nat.eqb_spec (size (foldl emit_step emitted nodes.*2)) (size emitted)) as [Heq|Hne].
    + right. split; [|done]. intros (order & Hperm & Hord).
      destruct (ready_node_exists _ _ _ order Hunique He)
        as (n & Hn & Hready); [by rewrite length_fmap; lia|done..|].
      assert (foldl emit_step emitted nodes.*2 = emitted) as Hfix.
      { symmetry. apply set_subseteq_size_eq; [done|lia]. }
      pose proof (emit_pass_ready _ _ _ Hn Hready) as Hin. rewrite Hfix in Hin.
      by apply node_ready_true in Hready as [? _].
    + apply (IH l'); [done|]. pose proof (subseteq_size _ _ Hsub). lia.
  - left. split; [|done]. exists l. split; [|by destruct He].
    apply (emission_full _ Hunique _ _ He). by rewrite length_fmap.
Qed.

Lemma topology_loop_decides nodes :
  NoDup (node_ids nodes.*2) → validate_topology nodes = Ok tt → orderable nodes.*2.
Proof.
  intros Hunique. unfold validate_topology.
  destruct (topology_loop_spec (S (length nodes)) nodes [] ∅ Hunique (emission_nil _))
    as [[? ->]|[? ->]]; [lia|done..].
Qed.

(** C33: The loop of [validate_topology] ends: with one iteration more than there are
    nodes it has returned, and it returns success exactly when the nodes can be
    ordered by their dependencies, the cycle error otherwise. *)
Theorem topology_loop_terminates (nodes : list (string * WorkflowNodeV1)) :
  NoDup (node_ids nodes.*2) →
  topology_loop (S (length nodes)) nodes ∅ = Some (validate_topology nodes)
  ∧ (validate_topology nodes = Ok tt ↔ orderable nodes.*2)
  ∧ (validate_topology nodes = Err Workflow_CyclicGraph ↔ ¬ orderable nodes.*2).
Proof.
  intros Hunique. unfold validate_topology.
  destruct (topology_loop_spec (S (length nodes)) nodes [] ∅ Hunique (emission_nil _))
    as [[? ->]|[? ->]]; [lia|naive_solver..].
Qed.

(** *** The loop of [ordered_nodes] *)

Lemma order_nodes_spec remaining by_id l emitted :
  NoDup (node_ids by_id.*2) → emission by_id.*2 l emitted → orderable by_id.*2 →
  (length l + remaining = length by_id)%nat →
  ∃ ordered, order_nodes remaining by_id l emitted = Ok ordered
    ∧ ordered ≡ₚ by_id.*2 ∧ dependency_order ordered.
Proof.
  intros Hunique. revert l emitted. induction remaining as [|remaining IH]; intros l emitted He
    (order & Hperm & Hord) Hlen; simpl.
  - exists l. split; [done|]. split; [|by destruct He].
    apply (emission_full _ Hunique _ _ He). rewrite (emission_size _ Hunique _ _ He), length_fmap. lia.
  - destruct (find_first (node_ready emitted) by_id.*2) as [n|] eqn:Hfind.
    + apply find_first_Some in Hfind as [Hn Hready]. apply IH; [|by exists order|].
      * by apply emission_ready.
      * rewrite length_app. simpl. lia.
    + exfalso. destruct (ready_node_exists _ _ _ order Hunique He)
        as (n & Hn & Hready); [by rewrite length_fmap; lia|done..|].
      apply find_first_None with (x := n) in Hfind; [congruence|done].
Qed.

(** ** Valid policies *)

Definition keyed_nodes (nodes : list WorkflowNodeV1) : list (string * WorkflowNodeV1) :=
  (λ node, (node_key (wn_node_id node), node)) <$> nodes.

Lemma keyed_nodes_values nodes : (keyed_nodes nodes).*2 = nodes.
Proof. unfold keyed_nodes. rewrite <- list_fmap_compose. by apply list_fmap_id. Qed.

Lemma keyed_nodes_keys nodes : (keyed_nodes nodes).*1 = node_key <$> node_ids nodes.
Proof. unfold keyed_nodes, node_ids. by rewrite <- !list_fmap_compose. Qed.

#[global] Instance node_key_inj : Inj (=) (=) node_key.
Proof. by intros [?] [?] [= ->]. Qed.

(** What the first loop over the nodes checks of each. *)
Definition node_checked (profiles : list (string * WorkflowExecutionProfileV1))
    (node : WorkflowNodeV1) : Prop :=
  WorkflowNode_validate_local node = Ok tt
  ∧ ∃ profile, btree_get (profile_key (wn_profile_id node)) profiles = Some profile
      ∧ wep_adapter_id profile ∈ expected_adapter (wn_kind node)
      ∧ expected_pool (wn_kind node) = wep_worker_pool profile
      ∧ profile_matches_kind profile (wn_kind node) = true.

Lemma collect_nodes_Ok profiles acc rest nodes :
  collect_nodes profiles acc rest = Ok nodes →
  nodes = foldl (λ m kv, btree_insert kv.1 kv.2 m) acc (keyed_nodes rest)
  ∧ NoDup (node_ids rest) ∧ Forall (node_checked profiles) rest
  ∧ Forall (λ node, btree_get (node_key (wn_node_id node)) acc = None) rest.
Proof.
  revert acc. induction rest as [|n rest IH]; intros acc; simpl.
  { intros [= <-]. split; [done|]. by repeat constructor. }
  intros Hok. apply result_bind_Ok in Hok as ([] & Hlocal & Hok).
  apply result_bind_Ok in Hok as (profile & Hprofile & Hok). apply ok_or_Ok in Hprofile.
  case_ok. case_ok. apply IH in Hok as (-> & Hnd & Hchecked & Hfresh).
  unfold contains, btree_contains_key in *. bool_prop. destruct_and!.
  assert (btree_get (node_key (wn_node_id n)) acc = None) as Hnew.
  { by destruct (btree_get (node_key (wn_node_id n)) acc). }
  rewrite Forall_forall in Hfresh. split; [done|]. split; [|split].
  - constructor; [|done]. intros (m & Heq & Hm)%list_elem_of_fmap.
    specialize (Hfresh m Hm). rewrite <- Heq, btree_get_insert in Hfresh. done.
  - constructor; [|done]. split; [done|]. by exists profile.
  - constructor; [done|]. apply Forall_forall. intros m Hm. specialize (Hfresh m Hm).
    destruct (decide (node_key (wn_node_id m) = node_key (wn_node_id n))) as [Heq|Hne].
    + rewrite Heq, btree_get_insert in Hfresh. done.
    + by rewrite btree_get_insert_ne in Hfresh.
Qed.

(** A valid policy, as the facts its checks establish. *)
Record policy_facts (policy : WorkflowPolicyV1)
    (profiles : list (string * WorkflowExecutionProfileV1)) : Prop := {
  pf_unique : NoDup (node_ids (wpol_nodes policy));
  pf_checked : Forall (node_checked profiles) (wpol_nodes policy);
  pf_orderable : orderable (wpol_nodes policy);
  pf_graph : match wpol_delivery_mode policy with
             | Delivery_ExecutorMutation =>
                 validate_executor_mutation_graph
                   (btree_collect (keyed_nodes (wpol_nodes policy))) profiles = Ok tt
             | Delivery_SelfUpdateHandoff =>
                 validate_self_update_handoff_graph
                   (btree_collect (keyed_nodes (wpol_nodes policy))) profiles = Ok tt
             end
}.

Lemma by_id_values nodes :
  NoDup (node_ids nodes) → (btree_collect (keyed_nodes nodes)).*2 ≡ₚ nodes.
Proof.
  intros Hnd. rewrite btree_collect_Permutation; [by rewrite keyed_nodes_values|].
  rewrite keyed_nodes_keys. by apply NoDup_fmap_2; [apply _|].
Qed.

Lemma by_id_unique nodes :
  NoDup (node_ids nodes) → NoDup (node_ids (btree_collect (keyed_nodes nodes)).*2).
Proof. intros Hnd. unfold node_ids. by rewrite (by_id_values _ Hnd). Qed.

Lemma orderable_Permutation l1 l2 : l1 ≡ₚ l2 → orderable l1 → orderable l2.
Proof. intros Hp (order & Ho & ?). exists order. split; [by rewrite Ho|done]. Qed.

Lemma WorkflowPolicy_validate_facts policy :
  WorkflowPolicy_validate policy = Ok tt → ∃ profiles, policy_facts policy profiles.
Proof.
  unfold WorkflowPolicy_validate. intros Hok. case_match; [done|]. case_match; [done|].
  apply result_bind_Ok in Hok as (profiles & _ & Hok).
  apply result_bind_Ok in Hok as (nodes & Hnodes & Hok).
  apply result_bind_Ok in Hok as (u & Hinputs & Hok).
  apply result_bind_Ok in Hok as ([] & Htopology & Hok).
  apply collect_nodes_Ok in Hnodes as (Heq & Hnd & Hchecked & _).
  change (nodes = btree_collect (keyed_nodes (wpol_nodes policy))) in Heq. subst nodes.
  exists profiles. split; [done|done| |by destruct (wpol_delivery_mode policy)].
  eapply orderable_Permutation; [by apply by_id_values|].
  apply topology_loop_decides; [by apply by_id_unique|done].
Qed.

Lemma ordered_nodes_total (policy : WorkflowPolicyV1) :
  WorkflowPolicy_validate policy = Ok tt →
  ∃ ordered, ordered_nodes policy = Ok ordered
    ∧ ordered ≡ₚ wpol_nodes policy ∧ NoDup (node_ids ordered) ∧ dependency_order ordered.
Proof.
  intros Hok. destruct (WorkflowPolicy_validate_facts _ Hok) as (profiles & [Hnd _ Hord _]).
  unfold ordered_nodes. rewrite Hok. simpl.
  pose proof (by_id_values _ Hnd) as Hvalues.
  destruct (order_nodes_spec (length (wpol_nodes policy))
    (btree_collect (keyed_nodes (wpol_nodes policy))) [] ∅) as (ordered & Heq & Hperm & Hdep).
  - by apply by_id_unique.
  - apply emission_nil.
  - eapply orderable_Permutation; [symmetry; exact Hvalues|done].
  - simpl. rewrite <- Hvalues at 1. apply length_fmap.
  - exists ordered. split; [exact Heq|]. rewrite Hvalues in Hperm. split; [done|].
    split; [|done]. unfold node_ids. by rewrite Hperm.
Qed.

(** Every valid policy has an execution order: [ordered_nodes] returns all nodes of
    the policy, each once, with every dependency of a node before it.  On an invalid
    policy it returns the error of the validation. *)
Theorem valid_policy_is_ordered (policy : WorkflowPolicyV1) :
  match WorkflowPolicy_validate policy with
  | Ok _ =>
      ∃ ordered, ordered_nodes policy = Ok ordered
        ∧ ordered ≡ₚ wpol_nodes policy ∧ NoDup (node_ids ordered) ∧ dependency_order ordered
  | Err e => ordered_nodes policy = Err e
  end.
Proof.
  destruct (WorkflowPolicy_validate policy) as [[]|e] eqn:Hok; [by apply ordered_nodes_total|].
  unfold ordered_nodes. by rewrite Hok.
Qed.

(** ** The shape of the graph *)

(** Positions in an execution order. *)
Definition runs_before (l : list WorkflowNodeV1) (a b : WorkflowNodeV1) : Prop :=
  ∃ i j, l !! i = Some a ∧ l !! j = Some b ∧ (i < j)%nat.

Section Positions.
Context (l : list WorkflowNodeV1) (Hunique : NoDup (node_ids l)).

Lemma node_ids_lookup_inj i j a b :
  l !! i = Some a → l !! j = Some b → wn_node_id a = wn_node_id b → i = j.
Proof.
  intros Hi Hj Heq. eapply (NoDup_lookup (node_ids l)); [done| |];
    unfold node_ids; rewrite list_lookup_fmap; [by rewrite Hi|]. by rewrite Hj, Heq.
Qed.

Lemma runs_before_trans a b c : runs_before l a b → runs_before l b c → runs_before l a c.
Proof.
  intros (i & j & Hi & Hj & ?) (j' & k & Hj' & Hk & ?).
  pose proof (node_ids_lookup_inj _ _ _ _ Hj Hj' eq_refl). exists i, k. repeat split; [done..|lia].
Qed.

Lemma dependency_runs_before a b :
  dependency_order l → a ∈ l → b ∈ l → wn_node_id a ∈ wn_depends_on b → runs_before l a b.
Proof.
  intros Hord Ha (j & Hj)%list_elem_of_lookup Hdep.
  destruct (Hord _ _ _ Hj Hdep) as (i & a' & ? & Hi & Heq).
  apply list_elem_of_lookup in Ha as (i' & Hi').
  pose proof (node_ids_lookup_inj _ _ _ _ Hi Hi' Heq) as ->. by exists i', j.
Qed.

Lemma runs_before_elem a b : runs_before l a b → a ∈ l ∧ b ∈ l.
Proof. intros (i & j & ? & ? & _). split; by eapply list_elem_of_lookup_2. Qed.
End Positions.

Lemma nodes_by_kind_elem nodes kind node :
  node ∈ nodes_by_kind nodes kind ↔ node ∈ nodes.*2 ∧ wn_kind node = kind.
Proof.
  unfold nodes_by_kind. rewrite list_elem_of_In, filter_In, <- list_elem_of_In.
  by rewrite bool_decide_eq_true.
Qed.

Lemma exactly_one_Ok nodes kind node :
  exactly_one nodes kind = Ok node →
  node ∈ nodes.*2 ∧ wn_kind node = kind
  ∧ ∀ other, other ∈ nodes.*2 → wn_kind other = kind → other = node.
Proof.
  unfold exactly_one. destruct (nodes_by_kind nodes kind) as [|n [|]] eqn:E; try done.
  intros [= <-]. pose proof (nodes_by_kind_elem nodes kind n) as Hn. rewrite E in Hn.
  destruct Hn as [[? ?] _]; [by left|]. split; [done|]. split; [done|]. intros other Ho Hk.
  assert (other ∈ nodes_by_kind nodes kind) as Hin by by apply nodes_by_kind_elem.
  rewrite E in Hin. by apply list_elem_of_singleton in Hin.
Qed.

Lemma require_dependencies_Ok node dependencies u :
  require_dependencies node dependencies = Ok u → wn_depends_on node = dependencies.
Proof. unfold require_dependencies. by case_bool_decide. Qed.

(** [b] has [a] among its dependencies. *)
Definition depends (nodes : list WorkflowNodeV1) (a b : WorkflowNodeV1) : Prop :=
  a ∈ nodes ∧ b ∈ nodes ∧ wn_node_id a ∈ wn_depends_on b.

Lemma depends_runs_before nodes l a b :
  l ≡ₚ nodes → NoDup (node_ids l) → dependency_order l →
  tc (depends nodes) a b → runs_before l a b.
Proof.
  intros Hperm Hunique Hord.
  assert (∀ x y, depends nodes x y → runs_before l x y) as Hstep.
  { intros x y (Hx & Hy & Hdep). rewrite <- Hperm in Hx, Hy. by apply dependency_runs_before. }
  induction 1 as [x y Hxy|x y z Hxy _ IH]; [by apply Hstep|].
  eapply runs_before_trans; [done|by apply Hstep|done].
Qed.

Lemma depends_on_single nodes a b :
  a ∈ nodes → b ∈ nodes → wn_depends_on b = [wn_node_id a] → depends nodes a b.
Proof. intros ?? Heq. repeat split; [done..|]. rewrite Heq. by left. Qed.

Lemma depends_on_sorted nodes a b ids :
  a ∈ nodes → b ∈ nodes → wn_depends_on b = sort_node_ids ids → wn_node_id a ∈ ids →
  depends nodes a b.
Proof.
  intros ?? Heq ?. repeat split; [done..|]. rewrite Heq. by apply sort_by_elem_of.
Qed.

(** The optional node of a kind extends the chain. *)
Lemma chain_after_Ok nodes kind previous last :
  previous ∈ nodes.*2 → (length (nodes_by_kind nodes kind) ≤ 1)%nat →
  chain_after previous (nodes_by_kind nodes kind) = Ok last →
  last ∈ nodes.*2 ∧ rtc (depends nodes.*2) previous last
  ∧ ∀ node, node ∈ nodes.*2 → wn_kind node = kind →
      node = last ∧ depends nodes.*2 previous node.
Proof.
  intros Hprev Hlen Hok.
  assert (∀ node, node ∈ nodes.*2 → wn_kind node = kind → node ∈ nodes_by_kind nodes kind) as Hkind.
  { intros node ??. by apply nodes_by_kind_elem. }
  pose proof (λ node, proj1 (nodes_by_kind_elem nodes kind node)) as Hin.
  destruct (nodes_by_kind nodes kind) as [|n [|]]; simpl in *; [|inv_ok|lia].
  - simplify_eq. split; [done|]. split; [done|]. intros node Hn Hk.
    by apply (Hkind node) in Hk as ?%not_elem_of_nil.
  - match goal with Hr : require_dependencies _ _ = Ok _ |- _ =>
      apply require_dependencies_Ok in Hr end.
    destruct (Hin last) as [Hn _]; [by left|]. split; [done|].
    split; [apply rtc_once; by apply depends_on_single|].
    intros node Hm Hk. apply (Hkind node) in Hk as ->%list_elem_of_singleton; [|done].
    split; [done|by apply depends_on_single].
Qed.

(** The release build follows the preparation, whichever adapter builds it. *)
Lemma validate_release_dependencies_Ok build profile prepare verification u :
  validate_release_dependencies build profile prepare verification = Ok u →
  wn_node_id prepare ∈ wn_depends_on build.
Proof.
  unfold validate_release_dependencies.
  assert (∀ v, wn_node_id prepare ∈ sort_node_ids [wn_node_id prepare; wn_node_id v]) as Hsort.
  { intros v. apply sort_by_elem_of. by left. }
  destruct (wep_adapter_id profile); try done.
  - destruct verification as [|v [|]]; try done.
    intros ->%require_dependencies_Ok. apply Hsort.
  - case_match eqn:E; [done|]. intros _. apply andb_false_iff in E as [E|E]; bool_prop.
    + rewrite E. by left.
    + destruct verification as [|v [|]]; try done. injection E as <-. apply Hsort.
Qed.

(** Where a node stands with respect to the cutover. *)
Definition cutover_placement (R : WorkflowNodeV1 → WorkflowNodeV1 → Prop)
    (cutover node : WorkflowNodeV1) : Prop :=
  match wn_kind node with
  | Node_Cutover => node = cutover
  | Node_ReleasedObservation | Node_Rollback => R cutover node
  | Node_SourceAdmission | Node_HostPrepare | Node_Verification | Node_ReleaseBuild
  | Node_DeterministicReduce | Node_ResourceReservation | Node_Backup | Node_Migration
  | Node_CandidateHealth => R node cutover
  end.

(** Name the value and the success of the next step of a chain. *)
Tactic Notation "next_ok" hyp(H) "as" ident(x) simple_intropattern(p) :=
  apply result_bind_Ok in H as (x & p & H).

(** The only node of its kind. *)
Definition sole (nodes : list WorkflowNodeV1) (kind : WorkflowNodeKindV1) (node : WorkflowNodeV1)
    : Prop := ∀ other, other ∈ nodes → wn_kind other = kind → other = node.

(** The edges [validate_executor_mutation_graph] establishes, from the source to the
    cutover; [last] is the last of the reservation, the backup and the migration. *)
Record mutation_graph (nodes : list WorkflowNodeV1)
    (source prepare build reduce reserve last candidate cutover : WorkflowNodeV1) : Prop := {
  mg_sole : sole nodes Node_SourceAdmission source ∧ sole nodes Node_HostPrepare prepare
    ∧ sole nodes Node_ReleaseBuild build ∧ sole nodes Node_DeterministicReduce reduce
    ∧ sole nodes Node_ResourceReservation reserve ∧ sole nodes Node_CandidateHealth candidate
    ∧ sole nodes Node_Cutover cutover;
  mg_source : depends nodes source prepare;
  mg_prepare : depends nodes prepare build;
  mg_verification node : node ∈ nodes → wn_kind node = Node_Verification →
    depends nodes node reduce;
  mg_build : depends nodes build reduce;
  mg_reduce : depends nodes reduce reserve;
  mg_reserve : rtc (depends nodes) reserve last;
  mg_state node : node ∈ nodes → wn_kind node = Node_Backup ∨ wn_kind node = Node_Migration →
    rtc (depends nodes) node last;
  mg_migration backup migration : backup ∈ nodes → migration ∈ nodes →
    wn_kind backup = Node_Backup → wn_kind migration = Node_Migration →
    depends nodes backup migration;
  mg_last : depends nodes last candidate;
  mg_candidate : depends nodes candidate cutover;
  mg_after node : node ∈ nodes →
    wn_kind node = Node_ReleasedObservation ∨ wn_kind node = Node_Rollback →
    depends nodes cutover node
}.

(** Every gate of the graph leads to the cutover. *)
Lemma mutation_graph_placement nodes source prepare build reduce reserve last candidate cutover :
  mutation_graph nodes source prepare build reduce reserve last candidate cutover →
  ∀ node, node ∈ nodes → cutover_placement (tc (depends nodes)) cutover node.
Proof.
  intros [(Usource & Uprepare & Ubuild & Ureduce & Ureserve & Ucandidate & Ucutover)
    Esource Eprepare Everify Ebuild Ereduce Ereserve Estate _ Elast Ecandidate Eafter].
  assert (tc (depends nodes) candidate cutover) as Qcandidate by by apply tc_once.
  assert (tc (depends nodes) last cutover) as Qlast by by eapply tc_l.
  assert (tc (depends nodes) reserve cutover) as Qreserve by by eapply tc_rtc_l.
  assert (tc (depends nodes) reduce cutover) as Qreduce by by eapply tc_l.
  assert (tc (depends nodes) build cutover) as Qbuild by by eapply tc_l.
  assert (tc (depends nodes) prepare cutover) as Qprepare by by eapply tc_l.
  assert (tc (depends nodes) source cutover) as Qsource by by eapply tc_l.
  intros node Hn. unfold cutover_placement. destruct (wn_kind node) eqn:Hk.
  - by rewrite (Usource node).
  - by rewrite (Uprepare node).
  - eapply tc_l; [by apply Everify|done].
  - by rewrite (Ubuild node).
  - by rewrite (Ureduce node).
  - by rewrite (Ureserve node).
  - eapply tc_rtc_l; [apply Estate; by auto|done].
  - eapply tc_rtc_l; [apply Estate; by auto|done].
  - by rewrite (Ucandidate node).
  - by apply Ucutover.
  - apply tc_once, Eafter; auto.
  - apply tc_once, Eafter; auto.
Qed.

Lemma validate_executor_mutation_graph_Ok nodes profiles :
  validate_executor_mutation_graph nodes profiles = Ok tt →
  ∃ source prepare build reduce reserve last candidate cutover,
    mutation_graph nodes.*2 source prepare build reduce reserve last candidate cutover
    ∧ cutover ∈ nodes.*2 ∧ wn_kind cutover = Node_Cutover
    ∧ nodes_by_kind nodes Node_Verification ≠ [].
Proof.
  unfold validate_executor_mutation_graph. intros Hok.
  next_ok Hok as source [Hsource [_ Usource]]%exactly_one_Ok.
  next_ok Hok as prepare [Hprepare [_ Uprepare]]%exactly_one_Ok.
  next_ok Hok as build [Hbuild [_ Ubuild]]%exactly_one_Ok.
  next_ok Hok as reduce [Hreduce [_ Ureduce]]%exactly_one_Ok.
  next_ok Hok as reserve [Hreserve [_ Ureserve]]%exactly_one_Ok.
  next_ok Hok as candidate [Hcandidate [_ Ucandidate]]%exactly_one_Ok.
  next_ok Hok as cutover [Hcutover [Kcutover Ucutover]]%exactly_one_Ok.
  next_ok Hok as observe [Hobserve [_ Uobserve]]%exactly_one_Ok.
  next_ok Hok as rollback [Hrollback [_ Urollback]]%exactly_one_Ok.
  case_bool_decide as Hsome; [done|].
  next_ok Hok as u0 _. next_ok Hok as u1 Dprepare%require_dependencies_Ok.
  next_ok Hok as u2 _. next_ok Hok as profile _.
  next_ok Hok as u3 Dbuild%validate_release_dependencies_Ok.
  next_ok Hok as u4 Dreduce%require_dependencies_Ok.
  next_ok Hok as u5 Dreserve%require_dependencies_Ok.
  destruct (Nat.ltb_spec 1 (length (nodes_by_kind nodes Node_Backup))) as [|Lbackup]; [done|].
  destruct (Nat.ltb_spec 1 (length (nodes_by_kind nodes Node_Migration))) as [|Lmigrate]; [done|].
  next_ok Hok as previous Cbackup. next_ok Hok as last Cmigrate.
  apply chain_after_Ok in Cbackup as (Hprevious & Pprevious & Ubackup); [|done..].
  apply chain_after_Ok in Cmigrate as (Hlast & Plast & Umigrate); [|done..].
  next_ok Hok as u6 Dcandidate%require_dependencies_Ok.
  next_ok Hok as u7 Dcutover%require_dependencies_Ok.
  next_ok Hok as u8 Dobserve%require_dependencies_Ok.
  next_ok Hok as u9 Drollback%require_dependencies_Ok. clear Hok.
  exists source, prepare, build, reduce, reserve, last, candidate, cutover.
  split; [|done]. split; try done; try (by apply depends_on_single).
  - intros node Hn Hk. eapply depends_on_sorted; [done..|]. apply elem_of_app. left.
    by apply list_elem_of_fmap_2, nodes_by_kind_elem.
  - eapply depends_on_sorted; [done..|]. apply elem_of_app. right. by left.
  - by trans previous.
  - intros node Hn [Hk|Hk]; [destruct (Ubackup node Hn Hk) as [-> _]|
      destruct (Umigrate node Hn Hk) as [-> _]]; done.
  - intros backup migration Hb Hm Kb Km. destruct (Ubackup backup Hb Kb) as [-> _].
    by destruct (Umigrate migration Hm Km) as [_ ?].
  - intros node Hn [Hk|Hk]; [rewrite (Uobserve node) by done|rewrite (Urollback node) by done];
      by apply depends_on_single.
Qed.

Lemma ordered_mutation_graph (policy : WorkflowPolicyV1) (ordered : list WorkflowNodeV1) :
  ordered_nodes policy = Ok ordered →
  wpol_delivery_mode policy = Delivery_ExecutorMutation →
  (∃ node, node ∈ ordered ∧ wn_kind node = Node_Verification)
  ∧ (∃ cutover, cutover ∈ ordered ∧ wn_kind cutover = Node_Cutover
      ∧ ∀ node, node ∈ ordered → cutover_placement (runs_before ordered) cutover node)
  ∧ (∀ backup migration, backup ∈ ordered → migration ∈ ordered →
       wn_kind backup = Node_Backup → wn_kind migration = Node_Migration →
       runs_before ordered backup migration).
Proof.
  intros Hordered Hmode.
  assert (WorkflowPolicy_validate policy = Ok tt) as Hok.
  { unfold ordered_nodes in Hordered. destruct (WorkflowPolicy_validate policy) as [[]|]; done. }
  destruct (ordered_nodes_total _ Hok) as (l & Heq & Hperm & Hnd & Hord).
  rewrite Hordered in Heq. injection Heq as <-.
  destruct (WorkflowPolicy_validate_facts _ Hok) as (profiles & [Hunique _ _ Hgraph]).
  rewrite Hmode in Hgraph.
  apply validate_executor_mutation_graph_Ok in Hgraph
    as (source & prepare & build & reduce & reserve & last & candidate & cutover
        & Hgraph & Hcut & Kcut & Hver).
  pose proof (mutation_graph_placement _ _ _ _ _ _ _ _ _ Hgraph) as Hplace.
  pose proof (by_id_values _ Hunique) as Hvalues.
  assert (ordered ≡ₚ (btree_collect (keyed_nodes (wpol_nodes policy))).*2) as Hall
    by (rewrite Hvalues; exact Hperm).
  split_and!.
  - destruct (nodes_by_kind _ Node_Verification) as [|v r] eqn:E; [done|]. exists v.
    rewrite Hall. apply nodes_by_kind_elem. rewrite E. by left.
  - exists cutover. rewrite Hall. split; [done|]. split; [done|]. intros node Hn.
    rewrite Hall in Hn. specialize (Hplace node Hn). unfold cutover_placement in *.
    destruct (wn_kind node); try done; by eapply depends_runs_before.
  - intros backup migration Hb Hm Kb Km. rewrite Hall in Hb, Hm.
    eapply depends_runs_before; [done..|]. by eapply tc_once, mg_migration.
Qed.

(** C34: In the execution order of a valid policy that mutates through the executor, the
    one cutover runs after every gate (source admission, preparation, at least one
    verification, release build, reduction, reservation, and backup, migration and
    candidate health where the policy has them) and before the observation of the
    release and the rollback; a migration runs after the backup. *)
Theorem cutover_follows_every_gate (policy : WorkflowPolicyV1) (ordered : list WorkflowNodeV1) :
  ordered_nodes policy = Ok ordered →
  wpol_delivery_mode policy = Delivery_ExecutorMutation →
  (∃ node, node ∈ ordered ∧ wn_kind node = Node_Verification)
  ∧ (∃ cutover, cutover ∈ ordered ∧ wn_kind cutover = Node_Cutover
      ∧ ∀ node, node ∈ ordered → cutover_placement (runs_before ordered) cutover node)
  ∧ (∀ backup migration, backup ∈ ordered → migration ∈ ordered →
       wn_kind backup = Node_Backup → wn_kind migration = Node_Migration →
       runs_before ordered backup migration).
Proof. apply ordered_mutation_graph. Qed.

(** ** The self-update handoff *)

Lemma validate_self_update_handoff_graph_Ok nodes profiles :
  validate_self_update_handoff_graph nodes profiles = Ok tt →
  length nodes = 5%nat
  ∧ ∃ source prepare verification build reduce,
      Forall2 (λ kind node, node ∈ nodes.*2 ∧ wn_kind node = kind)
        [Node_SourceAdmission; Node_HostPrepare; Node_Verification; Node_ReleaseBuild;
         Node_DeterministicReduce] [source; prepare; verification; build; reduce].
Proof.
  unfold validate_self_update_handoff_graph. intros Hok.
  case_bool_decide as Hlen; [|done]. split; [done|]. simpl in Hok.
  next_ok Hok as source [Hsource [Ksource _]]%exactly_one_Ok.
  next_ok Hok as prepare [Hprepare [Kprepare _]]%exactly_one_Ok.
  next_ok Hok as verification [Hverification [Kverification _]]%exactly_one_Ok.
  next_ok Hok as build [Hbuild [Kbuild _]]%exactly_one_Ok.
  next_ok Hok as reduce [Hreduce [Kreduce _]]%exactly_one_Ok.
  exists source, prepare, verification, build, reduce. by repeat constructor.
Qed.

(** Five nodes of five kinds are all the nodes. *)
Lemma five_kinds_are_all (nodes l : list WorkflowNodeV1) kinds :
  NoDup kinds → Forall2 (λ kind node, node ∈ nodes ∧ wn_kind node = kind) kinds l →
  length nodes = length kinds → l ≡ₚ nodes.
Proof.
  intros Hnd Hall Hlen.
  assert (wn_kind <$> l = kinds) as Hkinds.
  { clear Hnd Hlen. induction Hall as [|k n ks ns [_ Hk] _ IH]; simpl; [done|]. by f_equal. }
  apply submseteq_length_Permutation.
  - apply NoDup_submseteq; [apply (NoDup_fmap_1 wn_kind); by rewrite Hkinds|].
    intros n (i & Hi)%list_elem_of_lookup.
    by destruct (Forall2_lookup_r _ _ _ _ _ Hall Hi) as (k & _ & ? & _).
  - rewrite Hlen, <- Hkinds. by rewrite length_fmap.
Qed.

(** A valid self-update handoff has five nodes and none of them mutates: the workflow
    ends with the reduction, and the mutation is left to the self-update process. *)
Theorem handoff_workflow_never_mutates (policy : WorkflowPolicyV1) :
  WorkflowPolicy_validate policy = Ok tt →
  wpol_delivery_mode policy = Delivery_SelfUpdateHandoff →
  length (wpol_nodes policy) = 5%nat
  ∧ ∀ node, node ∈ wpol_nodes policy →
      is_mutation (wn_kind node) = false ∧ expected_pool (wn_kind node) ≠ Pool_PrivilegedExecutor.
Proof.
  intros Hok Hmode. destruct (WorkflowPolicy_validate_facts _ Hok) as (profiles & [Hnd _ _ Hgraph]).
  rewrite Hmode in Hgraph.
  apply validate_self_update_handoff_graph_Ok in Hgraph as (Hlen & ? & ? & ? & ? & ? & Hkinds).
  pose proof (by_id_values _ Hnd) as Hvalues.
  rewrite <- (length_fmap snd) in Hlen.
  assert (NoDup [Node_SourceAdmission; Node_HostPrepare; Node_Verification; Node_ReleaseBuild;
                 Node_DeterministicReduce]) as Hdistinct by by apply (bool_decide_unpack _).
  pose proof (five_kinds_are_all _ _ _ Hdistinct Hkinds Hlen) as Hperm.
  split; [by rewrite <- Hvalues|]. intros node Hn. rewrite <- Hvalues, <- Hperm in Hn.
  apply list_elem_of_lookup in Hn as (i & Hi).
  destruct (Forall2_lookup_r _ _ _ _ _ Hkinds Hi) as (k & Hk & _ & ->).
  apply list_elem_of_lookup_2 in Hk. clear -Hk. set_unfold in Hk.
  by destruct Hk as [->|[->|[->|[->|[->|[]]]]]].
Qed.

(** ** Documents *)

Section Documents.
Context `{!WorkflowCodecs}.

Lemma seal_lease_Ok lease sealed :
  seal_lease lease = Ok sealed ↔
  ∃ digest, WorkflowLease_calculate_digest lease = Ok digest
    ∧ sealed = lease <| wl_lease_digest := digest |> ∧ WorkflowLease_validate sealed = Ok tt.
Proof.
  unfold seal_lease. split.
  - intros Hok. next_ok Hok as digest Hdigest. next_ok Hok as u Hvalid. destruct u.
    injection Hok as <-. by exists digest.
  - intros (digest & Hdigest & -> & Hvalid). apply result_bind_Ok. exists digest.
    split; [done|]. apply result_bind_Ok. by exists tt.
Qed.

Lemma lease_digest_of_content lease digest :
  WorkflowLease_calculate_digest (lease <| wl_lease_digest := digest |>)
  = WorkflowLease_calculate_digest lease.
Proof. done. Qed.

(** The digest of a valid lease is the digest of its content. *)
Lemma valid_lease_digest lease :
  WorkflowLease_validate lease = Ok tt →
  WorkflowLease_calculate_digest lease = Ok (wl_lease_digest lease).
Proof.
  unfold WorkflowLease_validate. intros Hok. case_match; [done|].
  next_ok Hok as digest Hdigest. case_bool_decide; [by subst|done].
Qed.

(** A later expiry keeps a lease valid, once its digest is the one of its content. *)
Lemma later_expiry_is_valid lease expires_at_ms digest :
  WorkflowLease_validate lease = Ok tt → wl_expires_at_ms lease < expires_at_ms →
  WorkflowLease_calculate_digest (lease <| wl_expires_at_ms := expires_at_ms |>) = Ok digest →
  WorkflowLease_validate
    (lease <| wl_expires_at_ms := expires_at_ms |> <| wl_lease_digest := digest |>) = Ok tt.
Proof.
  intros Hok Hlt Hdigest. unfold WorkflowLease_validate in *.
  match type of Hok with (if ?c then _ else _) = _ => destruct c eqn:Hc; [done|] end. clear Hok.
  match goal with |- (if ?c then _ else _) = _ => assert (c = false) as -> end.
  { repeat rewrite orb_false_iff in Hc. destruct_and!.
    repeat first [eassumption|apply orb_false_iff; split]. cbn. lia. }
  rewrite lease_digest_of_content, Hdigest. simpl. by rewrite bool_decide_eq_true_2.
Qed.

Lemma same_execution_as_true lease other :
  same_execution_as lease other = Ok true ↔
  WorkflowLease_validate lease = Ok tt ∧ WorkflowLease_validate other = Ok tt
  ∧ other = lease <| wl_expires_at_ms := wl_expires_at_ms other |>
                  <| wl_lease_digest := wl_lease_digest other |>.
Proof.
  unfold same_execution_as. split.
  - intros Hok. next_ok Hok as u1 H1. next_ok Hok as u2 H2. destruct u1, u2.
    injection Hok as Heq%bool_decide_eq_true. by split_and!.
  - intros (-> & -> & Heq). simpl. by rewrite bool_decide_eq_true_2.
Qed.

(** Renewing a lease yields exactly the valid lease of the same execution with the
    asked expiry, and only to a later expiry: no other field can change on the way. *)
Theorem renewal_extends_expiry_only (lease lease' : WorkflowLeaseV1) (expires_at_ms : Z) :
  renewed lease expires_at_ms = Ok lease' ↔
  same_execution_as lease lease' = Ok true
  ∧ wl_expires_at_ms lease < expires_at_ms ∧ wl_expires_at_ms lease' = expires_at_ms.
Proof.
  rewrite same_execution_as_true. unfold renewed. split.
  - intros Hok. next_ok Hok as u Hvalid. destruct u. case_match eqn:Hlt; [done|].
    apply seal_lease_Ok in Hok as (digest & Hdigest & -> & Hsealed). bool_prop. by split_and!.
  - intros ((Hvalid & Hvalid' & Heq) & Hlt & Hexpires). rewrite Hvalid. simpl.
    destruct (Z.leb_spec expires_at_ms (wl_expires_at_ms lease)); [lia|].
    apply seal_lease_Ok. exists (wl_lease_digest lease').
    rewrite Hexpires in Heq. split; [|split; [|done]]; [|done].
    rewrite <- (valid_lease_digest _ Hvalid'). by rewrite Heq.
Qed.

(** *** Receipts *)

Lemma valid_node_receipt receipt :
  NodeReceipt_validate receipt = Ok tt →
  (wnr_outcome receipt = NodeOutcome_Succeeded →
     is_Some (wnr_output_digest receipt) ∧ wnr_cleanup_result receipt = NodeCleanup_Complete)
  ∧ (wnr_outcome receipt = NodeOutcome_Failed → wnr_output_digest receipt = None)
  ∧ NodeReceipt_calculate_digest receipt = Ok (wnr_receipt_digest receipt).
Proof.
  unfold NodeReceipt_validate. intros Hok. cbv zeta in Hok. case_match eqn:Hc; [done|].
  next_ok Hok as digest Hdigest. case_bool_decide; [|done]. subst digest.
  repeat rewrite orb_false_iff in Hc. destruct_and!. split_and!; [| |done].
  - intros Hs. rewrite Hs in *. bool_prop. split; [done|]. by destruct_or?.
  - intros Hf. rewrite Hf in *. bool_prop. by destruct_and!.
Qed.

(** A node receipt that [new] returns carries the identity of the lease it was made
    for, field by field; a success always has an output and completed its cleanup, a
    failure has no output. *)
Theorem node_receipt_is_bound_to_lease lease outcome output execution cleanup result completed_at_ms
    receipt :
  NodeReceipt_new lease outcome output execution cleanup result completed_at_ms = Ok receipt →
  WorkflowLease_validate lease = Ok tt ∧ NodeReceipt_validate receipt = Ok tt
  ∧ node_receipt_matches_lease receipt lease = true
  ∧ (outcome = NodeOutcome_Succeeded → is_Some output ∧ result = NodeCleanup_Complete)
  ∧ (outcome = NodeOutcome_Failed → output = None).
Proof.
  unfold NodeReceipt_new, seal_node_receipt. intros Hok. next_ok Hok as u Hlease. destruct u.
  next_ok Hok as digest Hdigest. next_ok Hok as u Hvalid. destruct u. injection Hok as <-.
  pose proof (valid_node_receipt _ Hvalid) as (Hsucceeded & Hfailed & _). cbn in Hsucceeded, Hfailed.
  split_and!; try done. unfold node_receipt_matches_lease. cbn.
  by rewrite !bool_decide_eq_true_2.
Qed.

(** A cleanup receipt for a terminal receipt settles a failed node: the terminal
    receipt is valid, left its cleanup pending, belongs to the same lease, and came
    no later than the cleanup. *)
Theorem cleanup_receipt_settles_failed_node lease terminal evidence completed_at_ms cleanup :
  NodeCleanupReceipt_new lease (Some terminal) evidence completed_at_ms = Ok cleanup →
  wnr_outcome terminal = NodeOutcome_Failed ∧ wnr_output_digest terminal = None
  ∧ wnr_cleanup_result terminal = NodeCleanup_Pending
  ∧ node_receipt_matches_lease terminal lease = true
  ∧ wcr_lease_digest cleanup = wl_lease_digest lease
  ∧ wcr_terminal_receipt_digest cleanup = Some (wnr_receipt_digest terminal)
  ∧ wnr_completed_at_ms terminal ≤ completed_at_ms ∧ wl_leased_at_ms lease ≤ completed_at_ms.
Proof.
  unfold NodeCleanupReceipt_new. intros Hok. next_ok Hok as u Hlease. next_ok Hok as u1 Hterminal.
  next_ok Hterminal as u2 Hvalid. destruct u2.
  destruct (_ || _) eqn:Hpending in Hterminal; [done|]. clear Hterminal.
  cbv zeta in Hok. next_ok Hok as digest Hdigest. cbv zeta in Hok. next_ok Hok as u3 Hcleanup.
  destruct (_ || _) eqn:Htime in Hok; [done|]. injection Hok as <-. cbn in Htime |- *.
  pose proof (valid_node_receipt _ Hvalid) as (Hsucceeded & Hfailed & _). bool_prop.
  destruct Hpending as [Hpending Hmatch], Htime as [Ht1 Ht2].
  assert (wnr_outcome terminal = NodeOutcome_Failed) as Hout.
  { destruct (wnr_outcome terminal); [|done]. destruct Hsucceeded as [_ Hc]; [done|]. congruence. }
  split_and!; auto.
Qed.

(** *** Reductions *)

(** The reduction receipt does not depend on the order in which its inputs were
    collected. *)
Theorem reduction_is_order_independent request_id attempt_id project_id source_sha policy_digest
    preparation_key reduce_node_id inputs inputs' reduced_at_ms receipt :
  ReductionReceipt_new request_id attempt_id project_id source_sha policy_digest preparation_key
    reduce_node_id inputs reduced_at_ms = Ok receipt →
  inputs ≡ₚ inputs' →
  ReductionReceipt_new request_id attempt_id project_id source_sha policy_digest preparation_key
    reduce_node_id inputs' reduced_at_ms = Ok receipt.
Proof.
  intros Hok Hperm. rewrite <- Hok.
  assert (sort_by (λ l r, node_id_compare (wri_node_id l) (wri_node_id r)) inputs
          = sort_by (λ l r, node_id_compare (wri_node_id l) (wri_node_id r)) inputs') as Hsort.
  { apply (sort_by_key_unique (λ i, WorkflowNodeId_as_str (wri_node_id i))); [|done].
    unfold ReductionReceipt_new in Hok. cbv zeta in Hok. next_ok Hok as digest Hdigest.
    next_ok Hok as u Hvalid. unfold ReductionReceipt_validate in Hvalid. cbn in Hvalid.
    destruct (_ || _) eqn:Hc in Hvalid; [done|]. apply orb_false_iff in Hc as [_ Hc].
    apply negb_false_iff, (strictly_sorted_NoDup (λ i, WorkflowNodeId_as_str (wri_node_id i))) in Hc.
    by rewrite sort_by_Permutation in Hc. }
  unfold ReductionReceipt_new. by rewrite Hsort.
Qed.

(** *** Canonical encodings *)

Lemma workflow_decoder_Ok {T} `{!Jcs T, !JsonSlice T, !JcsRoundTrip T}
    (check : T → Result WorkflowContractError unit) (document : T) (bytes : list Z) :
  workflow_decode_canonical check bytes = Ok document
  ↔ (let? _ := check document in map_err Workflow_CanonicalEncoding (jcs_to_vec document)) = Ok bytes.
Proof. apply strict_decoder_Ok. Qed.

#[global] Instance lease_document : CanonicalDocument WorkflowLeaseV1 WorkflowContractError :=
  {| document_bytes := WorkflowLease_canonical_bytes;
     decode_document := WorkflowLease_decode_canonical |}.
#[global] Instance node_receipt_document :
  CanonicalDocument WorkflowNodeReceiptV1 WorkflowContractError :=
  {| document_bytes := NodeReceipt_canonical_bytes;
     decode_document := NodeReceipt_decode_canonical |}.
#[global] Instance node_cleanup_document :
  CanonicalDocument WorkflowCleanupReceiptV1 WorkflowContractError :=
  {| document_bytes := NodeCleanupReceipt_canonical_bytes;
     decode_document := NodeCleanupReceipt_decode_canonical |}.
#[global] Instance reduction_document :
  CanonicalDocument WorkflowReductionReceiptV1 WorkflowContractError :=
  {| document_bytes := ReductionReceipt_canonical_bytes;
     decode_document := ReductionReceipt_decode_canonical |}.

#[global] Instance lease_document_law `{!JcsRoundTrip WorkflowLeaseV1} :
  CanonicalDocumentLaw WorkflowLeaseV1 WorkflowContractError.
Proof. intros document bytes. apply workflow_decoder_Ok. Qed.
#[global] Instance node_receipt_document_law `{!JcsRoundTrip WorkflowNodeReceiptV1} :
  CanonicalDocumentLaw WorkflowNodeReceiptV1 WorkflowContractError.
Proof. intros document bytes. apply workflow_decoder_Ok. Qed.
#[global] Instance node_cleanup_document_law `{!JcsRoundTrip WorkflowCleanupReceiptV1} :
  CanonicalDocumentLaw WorkflowCleanupReceiptV1 WorkflowContractError.
Proof. intros document bytes. apply workflow_decoder_Ok. Qed.
#[global] Instance reduction_document_law `{!JcsRoundTrip WorkflowReductionReceiptV1} :
  CanonicalDocumentLaw WorkflowReductionReceiptV1 WorkflowContractError.
Proof. intros document bytes. apply workflow_decoder_Ok. Qed.

(** C35: The four workflow documents decode from their canonical bytes and from no others:
    a byte string decodes to a document exactly when it is the canonical encoding of
    that document, which then is valid. *)
Theorem workflow_documents_decode_from_canonical_bytes_only
    `{!JcsRoundTrip WorkflowLeaseV1, !JcsRoundTrip WorkflowNodeReceiptV1,
      !JcsRoundTrip WorkflowCleanupReceiptV1, !JcsRoundTrip WorkflowReductionReceiptV1}
    (bytes : list Z) :
  (∀ lease, WorkflowLease_decode_canonical bytes = Ok lease
            ↔ WorkflowLease_canonical_bytes lease = Ok bytes)
  ∧ (∀ receipt, NodeReceipt_decode_canonical bytes = Ok receipt
                ↔ NodeReceipt_canonical_bytes receipt = Ok bytes)
  ∧ (∀ receipt, NodeCleanupReceipt_decode_canonical bytes = Ok receipt
                ↔ NodeCleanupReceipt_canonical_bytes receipt = Ok bytes)
  ∧ (∀ receipt, ReductionReceipt_decode_canonical bytes = Ok receipt
                ↔ ReductionReceipt_canonical_bytes receipt = Ok bytes).
Proof. split_and!; intros d; exact (decode_document_Ok (E := WorkflowContractError) d bytes). Qed.
End Documents.

(** ** OCI bases *)

Section Strings.
Local Open Scope string_scope.

Lemma str_prefix_app a b : str_prefix (a ++ b) (String.length a) = a.
Proof. unfold str_prefix. induction a as [|x a IH]; simpl; [by destruct b|]. by rewrite IH. Qed.

Lemma str_from_app a b : str_from (a ++ b) (String.length a) = b.
Proof.
  unfold str_from. rewrite string_length_app.
  replace (String.length a + String.length b - String.length a)%nat with (String.length b) by lia.
  induction a as [|x a IHa]; simpl; [|done].
  change (EmptyString ++ b) with b. induction b as [|y b IHb]; simpl; [done|]. by rewrite IHb.
Qed.

Lemma str_app_cons x (a b : string) : String x a ++ b = String x (a ++ b).
Proof. done. Qed.

Lemma str_app_assoc (a b c : string) : (a ++ b) ++ c = a ++ (b ++ c).
Proof. induction a as [|x a IH]; [done|]. by rewrite !str_app_cons, IH. Qed.

Lemma str_rfind_app c a b : str_rfind c b = None → str_rfind c (a ++ String c b) = Some (String.length a).
Proof.
  intros Hb. induction a as [|x a IH].
  - change (EmptyString ++ String c b) with (String c b). simpl.
    by rewrite Hb, bool_decide_eq_true_2.
  - rewrite str_app_cons. simpl. by rewrite IH.
Qed.

Lemma str_rfind_Some c s i :
  str_rfind c s = Some i →
  ∃ a b, s = a ++ String c b ∧ String.length a = i ∧ str_rfind c b = None.
Proof.
  revert i. induction s as [|x s IH]; simpl; [done|]. intros i.
  destruct (str_rfind c s) as [j|] eqn:E.
  - intros [= <-]. destruct (IH j eq_refl) as (a & b & -> & <- & Hb). by exists (String x a), b.
  - case_bool_decide; [|done]. intros [= <-]. subst. by exists "", s.
Qed.

(** [rsplit_once] splits at the last separator. *)
Lemma str_rsplit_once_Some c s a b :
  str_rsplit_once c s = Some (a, b) ↔ s = a ++ String c b ∧ str_rfind c b = None.
Proof.
  assert (∀ a b, str_prefix (a ++ String c b) (String.length a) = a
                 ∧ str_from (a ++ String c b) (S (String.length a)) = b) as Hcut.
  { intros a' b'. split; [apply str_prefix_app|].
    pose proof (str_from_app (a' ++ String c "") b') as Hfrom.
    rewrite str_app_assoc, string_length_app in Hfrom. simpl in Hfrom.
    by rewrite Nat.add_comm in Hfrom. }
  unfold str_rsplit_once. split.
  - intros (i & Hi & Heq)%fmap_Some.
    destruct (str_rfind_Some _ _ _ Hi) as (a' & b' & -> & <- & Hb).
    destruct (Hcut a' b') as [H1 H2]. rewrite H1, H2 in Heq. by simplify_eq.
  - intros [-> Hb]. rewrite str_rfind_app by done. simpl.
    destruct (Hcut a b) as [-> ->]. done.
Qed.

Lemma str_strip_prefix_app p s : str_strip_prefix p (p ++ s) = Some s.
Proof.
  unfold str_strip_prefix. rewrite str_from_app.
  assert (String.prefix p (p ++ s) = true) as ->; [|done].
  induction p as [|x p IH]; simpl; [by destruct s|]. by destruct (ascii_dec x x).
Qed.

Lemma str_strip_prefix_Some p s r : str_strip_prefix p s = Some r → s = p ++ r.
Proof.
  unfold str_strip_prefix. destruct (String.prefix p s) eqn:E; [|done]. intros [= <-].
  assert (∃ t, s = p ++ t) as [t ->]; [|by rewrite str_from_app].
  revert s E. induction p as [|x p IH]; intros [|y s]; simpl; try done; [eauto..|].
  destruct (ascii_dec x y) as [->|]; [|done]. intros [t ->]%IH. by exists t.
Qed.

(** The repository and the tag of a reference. *)
Lemma reference_split value (r : nat) :
  str_rfind ":" (str_from value (last_slash value)) = Some r →
  value = str_prefix value (last_slash value + r)
          ++ String ":" (str_from value (last_slash value + r + 1)).
Proof.
  assert (value = str_prefix value (last_slash value) ++ str_from value (last_slash value)
          ∧ String.length (str_prefix value (last_slash value)) = last_slash value) as [Heq Hlen].
  { unfold last_slash. destruct (str_rfind "/" value) as [i|] eqn:E.
    - apply str_rfind_Some in E as (a & b & -> & <- & _).
      change (a ++ String "/" b) with (a ++ ("/" ++ b)). rewrite <- str_app_assoc.
      replace (S (String.length a)) with (String.length (a ++ "/"))
        by (rewrite string_length_app; simpl; lia).
      by rewrite str_prefix_app, str_from_app.
    - split; [|by destruct value]. pose proof (str_from_app "" value) as Hfrom.
      change (str_from value 0 = value) in Hfrom. rewrite Hfrom. by destruct value. }
  revert Heq Hlen. generalize (str_prefix value (last_slash value)) as dir.
  generalize (str_from value (last_slash value)) as base. generalize (last_slash value) as n.
  intros n base dir -> Hlen (a & b & -> & <- & _)%str_rfind_Some. subst n.
  rewrite <- str_app_assoc.
  replace (String.length dir + String.length a)%nat with (String.length (dir ++ a))
    by apply string_length_app.
  rewrite str_prefix_app. f_equal.
  change ((dir ++ a) ++ String ":" b) with ((dir ++ a) ++ (":" ++ b)). rewrite <- str_app_assoc.
  replace (String.length (dir ++ a) + 1)%nat with (String.length ((dir ++ a) ++ ":"))
    by (rewrite (string_length_app (dir ++ a)); done).
  by rewrite str_from_app.
Qed.

(** A validated OCI base never makes [repository] panic, and what it returns is a
    non-empty path of valid components: the source is the Docker Hub prefix, that
    repository, an optional tag and the digest of the manifest. *)
Theorem valid_oci_base_has_repository (base : WorkflowOciBaseInputV1) :
  OciBase_validate base = Ok tt →
  ∃ repository tag, OciBase_repository base = Some repository
    ∧ repository ≠ "" ∧ Forall (λ c, repository_component_valid c = true) (str_split slash repository)
    ∧ wob_source base = "docker.io/" ++ repository ++ tag ++ "@"
                          ++ WorkflowOciDigest_as_str (wob_manifest_digest base)
    ∧ (tag = "" ∨ ∃ name, tag = ":" ++ name ∧ repository_tag_valid name = true).
Proof.
  unfold OciBase_validate. intros Hok.
  destruct (str_rsplit_once "@" (wob_source base)) as [[reference digest]|] eqn:Hsplit; [|done].
  apply str_rsplit_once_Some in Hsplit as [Hsource Hdigest].
  destruct (str_strip_prefix "docker.io/" reference) as [repo|] eqn:Hprefix; [|done].
  apply str_strip_prefix_Some in Hprefix as ->. case_match eqn:Hc; [done|]. clear Hok. bool_prop.
  destruct Hc as [[-> _] Hvalid]. rewrite str_app_assoc in Hsource.
  unfold OciBase_repository. rewrite Hsource, str_strip_prefix_app. simpl.
  rewrite (proj2 (str_rsplit_once_Some "@" _ repo _)) by done. simpl.
  unfold valid_docker_hub_repository_reference in Hvalid. case_match; [done|]. cbv zeta in Hvalid.
  assert (∀ l, forallb repository_component_valid l = true →
            Forall (λ c, repository_component_valid c = true) l) as Hforall.
  { intros l Hl. rewrite forallb_forall in Hl. apply Forall_forall. intros c ?.
    by apply Hl, list_elem_of_In. }
  destruct (str_rfind ":" (str_from repo (last_slash repo))) as [r|] eqn:Hr; bool_prop;
    destruct Hvalid as [[Hne Hcomponents%Hforall] Htag].
  - apply reference_split in Hr.
    exists (str_prefix repo (last_slash repo + r)),
      (":" ++ str_from repo (last_slash repo + r + 1)).
    split_and!; [done..| |right; by eexists].
    rewrite Hr at 1. by rewrite !str_app_assoc.
  - exists repo, "". split_and!; [done..|by left].
Qed.
End Strings.
