(* ===== verification/WorkflowSamples.v ===== *)
(** * Workflow contracts: witnesses

    A workflow that deploys a release with backup and migration, a self-update
    handoff, a lease with its receipts, and an OCI base; with the hash and the codecs
    instantiated.  Each witness applies its theorem to them. *)

From Stdlib Require Import ZArith Lia Ascii String.
From stdpp Require Import base gmap strings option list_numbers list.
From S2P Require Import Prelude Identifiers Text Ordered DomainSpec Workflow WorkflowSpec.

Local Open Scope Z_scope.

Module WorkflowSample.

(** ** Policies *)

Definition node_name (kind : WorkflowNodeKindV1) : string :=
  match kind with
  | Node_SourceAdmission => "admit"
  | Node_HostPrepare => "prepare"
  | Node_Verification => "verify"
  | Node_ReleaseBuild => "build"
  | Node_DeterministicReduce => "reduce"
  | Node_ResourceReservation => "reserve"
  | Node_Backup => "backup"
  | Node_Migration => "migrate"
  | Node_CandidateHealth => "candidate"
  | Node_Cutover => "cutover"
  | Node_ReleasedObservation => "observe"
  | Node_Rollback => "rollback"
  end.

Definition envelope : WorkflowResourceEnvelopeV1 := {|
  wre_cpu_millicores := 1000; wre_memory_max_bytes := 1073741824; wre_tasks_max := 64;
  wre_scratch_max_bytes := 1073741824; wre_scratch_max_inodes := 10000;
  wre_output_max_bytes := 1048576 |}.

Definition profile_of (kind : WorkflowNodeKindV1) : WorkflowExecutionProfileV1 := {|
  wep_profile_id := MkWorkflowProfileId (node_name kind);
  wep_adapter_id := default Adapter_ControllerReduceV1 (head (expected_adapter kind));
  wep_worker_pool := expected_pool kind;
  wep_network_class :=
    match kind with
    | Node_CandidateHealth | Node_ReleasedObservation => Network_LocalHealthOnly
    | _ => Network_Offline
    end;
  wep_cache_class :=
    match kind with
    | Node_HostPrepare => Cache_Dependency
    | Node_Verification | Node_ReleaseBuild => Cache_PreparedRun
    | _ => Cache_None
    end;
  wep_timeout_ms := 60000;
  wep_resources := if is_controller_managed kind then None else Some envelope |}.

Definition node_of (entry : WorkflowNodeKindV1 * list WorkflowNodeKindV1) : WorkflowNodeV1 := {|
  wn_node_id := MkWorkflowNodeId (node_name entry.1);
  wn_display_name := node_name entry.1;
  wn_kind := entry.1;
  wn_activation :=
    if entry.1 == Node_Rollback then Activation_OnMutationFailure else Activation_Always;
  wn_profile_id := MkWorkflowProfileId (node_name entry.1);
  wn_depends_on := (λ kind, MkWorkflowNodeId (node_name kind)) <$> entry.2;
  wn_input_contracts := sort_by artifact_kind_compare (expected_output <$> entry.2);
  wn_output_contract := expected_output entry.1 |}.

(** The nodes are listed against their dependencies. *)
Definition deployment_graph : list (WorkflowNodeKindV1 * list WorkflowNodeKindV1) :=
  [(Node_Rollback, [Node_Cutover]); (Node_ReleasedObservation, [Node_Cutover]);
   (Node_Cutover, [Node_CandidateHealth]); (Node_CandidateHealth, [Node_Migration]);
   (Node_Migration, [Node_Backup]); (Node_Backup, [Node_ResourceReservation]);
   (Node_ResourceReservation, [Node_DeterministicReduce]);
   (Node_DeterministicReduce, [Node_ReleaseBuild; Node_Verification]);
   (Node_ReleaseBuild, [Node_HostPrepare; Node_Verification]);
   (Node_Verification, [Node_HostPrepare]); (Node_HostPrepare, [Node_SourceAdmission]);
   (Node_SourceAdmission, [])].

Definition policy_of (mode : WorkflowDeliveryModeV1)
    (graph : list (WorkflowNodeKindV1 * list WorkflowNodeKindV1)) : WorkflowPolicyV1 := {|
  wpol_schema_version := 1;
  wpol_fairness_weight := 1;
  wpol_delivery_mode := mode;
  wpol_execution_profiles := profile_of <$> graph.*1;
  wpol_nodes := node_of <$> graph |}.

Definition deployment : WorkflowPolicyV1 := policy_of Delivery_ExecutorMutation deployment_graph.
Definition handoff : WorkflowPolicyV1 :=
  policy_of Delivery_SelfUpdateHandoff (drop 7 deployment_graph).

(** The policy is listed in reverse and run in dependency order. *)
Example deployment_runs_in_order :
  match ordered_nodes deployment with Ok l => wn_kind <$> l | Err _ => [] end
  = [Node_SourceAdmission; Node_HostPrepare; Node_Verification; Node_ReleaseBuild;
        Node_DeterministicReduce; Node_ResourceReservation; Node_Backup; Node_Migration;
        Node_CandidateHealth; Node_Cutover; Node_ReleasedObservation; Node_Rollback].
Proof. vm_compute. reflexivity. Qed.

(** A cycle is rejected as such. *)
Example cycle_is_rejected :
  validate_topology (keyed_nodes (node_of <$> [(Node_Verification, [Node_ReleaseBuild]);
                                               (Node_ReleaseBuild, [Node_Verification])]))
  = Err Workflow_CyclicGraph.
Proof. vm_compute. reflexivity. Qed.

Lemma topology_loop_terminates_witness :
  topology_loop (S (length (keyed_nodes (wpol_nodes deployment))))
    (keyed_nodes (wpol_nodes deployment)) ∅
  = Some (validate_topology (keyed_nodes (wpol_nodes deployment)))
  ∧ orderable (keyed_nodes (wpol_nodes deployment)).*2.
Proof.
  assert (NoDup (node_ids (keyed_nodes (wpol_nodes deployment)).*2)) as Hnd.
  { apply (bool_decide_unpack _). vm_compute. exact I. }
  destruct (topology_loop_terminates (keyed_nodes (wpol_nodes deployment)) Hnd) as (Hloop & Hok & _).
  assert (validate_topology (keyed_nodes (wpol_nodes deployment)) = Ok tt) as Hvalid
    by (vm_compute; reflexivity).
  split; [exact Hloop|by apply Hok].
Defined.

Lemma cutover_follows_every_gate_witness :
  ∃ ordered cutover, ordered_nodes deployment = Ok ordered ∧ cutover ∈ ordered
    ∧ ∀ node, node ∈ ordered → cutover_placement (runs_before ordered) cutover node.
Proof.
  destruct (ordered_nodes deployment) as [ordered|] eqn:E; [|vm_compute in E; discriminate E].
  destruct (cutover_follows_every_gate deployment ordered E eq_refl) as (_ & (cutover & Hin & _ & Hall) & _).
  exists ordered, cutover. exact (conj eq_refl (conj Hin Hall)).
Defined.

Lemma handoff_workflow_never_mutates_witness :
  length (wpol_nodes handoff) = 5%nat
  ∧ ∀ node, node ∈ wpol_nodes handoff → is_mutation (wn_kind node) = false.
Proof.
  assert (WorkflowPolicy_validate handoff = Ok tt) as Hok by (vm_compute; reflexivity).
  destruct (handoff_workflow_never_mutates handoff Hok eq_refl) as [Hlen Hnodes].
  split; [exact Hlen|]. intros node Hn. exact (proj1 (Hnodes node Hn)).
Defined.

Definition base : WorkflowOciBaseInputV1 := {|
  wob_source := "docker.io/library/rust:1.90@sha256:0000";
  wob_layout_name := "rust";
  wob_manifest_digest := MkWorkflowOciDigest "sha256:0000" |}.

Lemma valid_oci_base_has_repository_witness :
  ∃ tag, OciBase_repository base = Some "library/rust"%string
         ∧ wob_source base = ("docker.io/" ++ "library/rust" ++ tag ++ "@" ++ "sha256:0000")%string.
Proof.
  assert (OciBase_validate base = Ok tt) as Hok by (vm_compute; reflexivity).
  destruct (valid_oci_base_has_repository base Hok) as (repository & tag & Hrep & _ & _ & Hsource & _).
  assert (repository = "library/rust"%string) as ->.
  { assert (OciBase_repository base = Some "library/rust"%string) as Heq
      by (vm_compute; reflexivity). congruence. }
  by exists tag.
Defined.

(** ** Documents *)

Definition zero_digest : EvidenceDigest :=
  MkEvidenceDigest "0000000000000000000000000000000000000000000000000000000000000000".

Definition verify_node : WorkflowNodeV1 := node_of (Node_Verification, [Node_HostPrepare]).

Definition lease : WorkflowLeaseV1 := {|
  wl_schema_version := 1; wl_lease_id := 1%N; wl_lease_generation := 1; wl_request_id := 2%N;
  wl_attempt_id := 3%N; wl_project_id := MkProjectId "site"; wl_source_sha := MkGitCommitId "c0";
  wl_source_identity := Some {| wsi_sequence := 1; wsi_attestation_digest := zero_digest |};
  wl_workflow_policy_digest := zero_digest; wl_preparation_key := zero_digest;
  wl_node_id := wn_node_id verify_node; wl_node_kind := Node_Verification;
  wl_profile_id := MkWorkflowProfileId "verify"; wl_adapter_id := Adapter_WorkerBareBinCiV1;
  wl_worker_pool := Pool_BuildCompute; wl_network_class := Network_Offline;
  wl_cache_class := Cache_PreparedRun; wl_timeout_ms := 60000; wl_resources := Some envelope;
  wl_host_preparation := None; wl_operation_state := None;
  wl_input_contracts := [Artifact_PreparedRun];
  wl_input_artifacts := [{| wli_node_id := MkWorkflowNodeId "prepare";
    wli_artifact_kind := Artifact_PreparedRun; wli_output_digest := zero_digest |}];
  wl_output_contract := Artifact_VerificationReceipt; wl_expected_input_digest := zero_digest;
  wl_worker_id := "worker-1"; wl_host_id := "host-1"; wl_leased_at_ms := 100;
  wl_expires_at_ms := 200; wl_lease_digest := zero_digest |}.

Definition failed_receipt : WorkflowNodeReceiptV1 := {|
  wnr_schema_version := 1; wnr_lease_digest := zero_digest; wnr_lease_id := 1%N;
  wnr_lease_generation := 1; wnr_request_id := 2%N; wnr_attempt_id := 3%N;
  wnr_project_id := MkProjectId "site"; wnr_source_sha := MkGitCommitId "c0";
  wnr_workflow_policy_digest := zero_digest; wnr_preparation_key := zero_digest;
  wnr_node_id := wn_node_id verify_node; wnr_node_kind := Node_Verification;
  wnr_worker_id := "worker-1"; wnr_host_id := "host-1"; wnr_expected_input_digest := zero_digest;
  wnr_outcome := NodeOutcome_Failed; wnr_output_digest := None; wnr_output_size_bytes := None;
  wnr_execution_receipt_digest := zero_digest; wnr_cleanup_receipt_digest := zero_digest;
  wnr_cleanup_result := NodeCleanup_Pending; wnr_completed_at_ms := 150;
  wnr_receipt_digest := zero_digest |}.

Definition cleanup_receipt : WorkflowCleanupReceiptV1 := {|
  wcr_schema_version := 1; wcr_lease_digest := zero_digest; wcr_lease_id := 1%N;
  wcr_lease_generation := 1; wcr_attempt_id := 3%N; wcr_project_id := MkProjectId "site";
  wcr_node_id := wn_node_id verify_node; wcr_worker_id := "worker-1"; wcr_host_id := "host-1";
  wcr_terminal_receipt_digest := Some zero_digest; wcr_cleanup_evidence_digest := zero_digest;
  wcr_completed_at_ms := 160; wcr_receipt_digest := zero_digest |}.

Definition reduction_input (name : string) (kind : WorkflowNodeKindV1) : WorkflowReductionInputV1 := {|
  wri_node_id := MkWorkflowNodeId name; wri_node_kind := kind;
  wri_receipt_digest := zero_digest; wri_output_digest := zero_digest |}.

Definition reduction_receipt : WorkflowReductionReceiptV1 := {|
  wrr_schema_version := 1; wrr_request_id := 2%N; wrr_attempt_id := 3%N;
  wrr_project_id := MkProjectId "site"; wrr_source_sha := MkGitCommitId "c0";
  wrr_workflow_policy_digest := zero_digest; wrr_preparation_key := zero_digest;
  wrr_reduce_node_id := MkWorkflowNodeId "reduce";
  wrr_inputs := [reduction_input "build" Node_ReleaseBuild;
                 reduction_input "verify" Node_Verification];
  wrr_reduced_at_ms := 300; wrr_receipt_digest := zero_digest |}.

(** A codec that knows one document. *)
Definition one_jcs {T} `{EqDecision T} (sample : T) : Jcs T :=
  λ x, if x == sample then Ok [1] else Err MkSerdeError.
Definition one_slice {T} (sample : T) : JsonSlice T :=
  λ bytes, if bytes == [1] then Ok sample else Err MkSerdeError.

Lemma one_codec_round_trip {T} `{EqDecision T} (sample : T) :
  @JcsRoundTrip T (one_jcs sample) (one_slice sample).
Proof.
  intros x bytes. unfold jcs_to_vec, json_from_slice, one_jcs, one_slice.
  case_bool_decide; [|done]. intros [= <-]. by subst.
Qed.

#[local] Instance sample_codecs : WorkflowCodecs := {|
  wcodec_sha := λ _, repeat 0 32;
  wcodec_preparation := λ _, Ok [];
  wcodec_state_payload := λ _, Ok [];
  wcodec_lease_payload := λ _, Ok [];
  wcodec_lease := one_jcs lease;
  wcodec_lease_slice := one_slice lease;
  wcodec_node_payload := λ _, Ok [];
  wcodec_node := one_jcs failed_receipt;
  wcodec_node_slice := one_slice failed_receipt;
  wcodec_cleanup_payload := λ _, Ok [];
  wcodec_cleanup := one_jcs cleanup_receipt;
  wcodec_cleanup_slice := one_slice cleanup_receipt;
  wcodec_reduction_payload := λ _, Ok [];
  wcodec_reduction := one_jcs reduction_receipt;
  wcodec_reduction_slice := one_slice reduction_receipt
|}.

(** A lease is renewed, and only to a later expiry. *)
Example lease_is_renewed :
  is_ok (renewed lease 300) = true ∧ renewed lease 200 = Err Workflow_InvalidLease.
Proof. vm_compute. split; reflexivity. Qed.

Lemma node_receipt_is_bound_to_lease_witness :
  node_receipt_matches_lease failed_receipt lease = true.
Proof.
  assert (NodeReceipt_new lease NodeOutcome_Failed None zero_digest zero_digest NodeCleanup_Pending
            150 = Ok failed_receipt) as Hok by (vm_compute; reflexivity).
  by destruct (node_receipt_is_bound_to_lease _ _ _ _ _ _ _ _ Hok) as (_ & _ & Hmatch & _).
Defined.

Lemma cleanup_receipt_settles_failed_node_witness :
  wnr_outcome failed_receipt = NodeOutcome_Failed
  ∧ wnr_completed_at_ms failed_receipt ≤ wcr_completed_at_ms cleanup_receipt.
Proof.
  assert (NodeCleanupReceipt_new lease (Some failed_receipt) zero_digest 160 = Ok cleanup_receipt)
    as Hok by (vm_compute; reflexivity).
  destruct (cleanup_receipt_settles_failed_node _ _ _ _ _ Hok)
    as (Hout & _ & _ & _ & _ & _ & Htime & _).
  split; [exact Hout|exact Htime].
Defined.

Lemma reduction_is_order_independent_witness :
  ReductionReceipt_new 2%N 3%N (MkProjectId "site") (MkGitCommitId "c0") zero_digest zero_digest
    (MkWorkflowNodeId "reduce")
    [reduction_input "verify" Node_Verification; reduction_input "build" Node_ReleaseBuild] 300
  = Ok reduction_receipt.
Proof.
  apply (reduction_is_order_independent _ _ _ _ _ _ _
    [reduction_input "build" Node_ReleaseBuild; reduction_input "verify" Node_Verification]).
  - vm_compute. reflexivity.
  - apply perm_swap.
Defined.

Lemma workflow_documents_decode_from_canonical_bytes_only_witness :
  WorkflowLease_canonical_bytes lease = Ok [1] ∧ WorkflowLease_decode_canonical [1] = Ok lease.
Proof.
  assert (WorkflowLease_canonical_bytes lease = Ok [1]) as Hbytes by (vm_compute; reflexivity).
  split; [exact Hbytes|].
  apply (proj1 (@workflow_documents_decode_from_canonical_bytes_only sample_codecs
    (one_codec_round_trip lease) (one_codec_round_trip failed_receipt)
    (one_codec_round_trip cleanup_receipt) (one_codec_round_trip reduction_receipt) [1])).
  exact Hbytes.
Defined.
End WorkflowSample.
