(* ===== verification/ManifestSpec.v ===== *)
(** * Project manifests: theorems

    What a valid manifest guarantees of the workflow it carries, and that manifests
    decode from their canonical bytes only. *)

From Stdlib Require Import ZArith Lia Ascii String.
From stdpp Require Import base gmap strings option list_numbers list.
From S2P Require Import Prelude Identifiers Text Ordered DomainSpec Workflow Manifest WorkflowSpec WorkflowSamples.

Local Open Scope Z_scope.

(** ** What the checks establish *)

Record manifest_facts (manifest : ProjectManifestV2) : Prop := {
  mf_workflow : WorkflowPolicy_validate (pm_workflow manifest) = Ok tt;
  mf_handoff : wpol_delivery_mode (pm_workflow manifest) = Delivery_SelfUpdateHandoff →
    ProjectId_as_str (pm_project_id manifest) = "rdashboard"%string
    ∧ mbu_kind (pm_build manifest) = Build_Native ∧ pm_data_volumes manifest = [];
  mf_backup : has_node_of_kind manifest Node_Backup
              = existsb mdv_backup_required (pm_data_volumes manifest);
  mf_migration : has_node_of_kind manifest Node_Migration
                 = (mmi_entrypoint (pm_migration manifest) != Entrypoint_None)
}.

Lemma ProjectManifest_validate_facts manifest :
  ProjectManifest_validate manifest = Ok tt → manifest_facts manifest.
Proof.
  unfold ProjectManifest_validate. intros Hok. case_match; [done|].
  next_ok Hok as u0 _. next_ok Hok as u1 Hworkflow. destruct u1. apply map_err_Ok in Hworkflow.
  case_match eqn:Hhandoff; [done|]. next_ok Hok as adapter _. cbv zeta in Hok.
  destruct (negb _) in Hok; [done|]. next_ok Hok as u2 _. next_ok Hok as u3 _.
  destruct (_ != _) eqn:Hbackup in Hok; [done|]. destruct (_ != _) eqn:Hmigration in Hok; [done|].
  bool_prop. split; [done| |done..].
  intros Hmode. apply andb_false_iff in Hhandoff as [Hno|Hno]; bool_prop; [done|].
  by destruct_and!.
Qed.

Lemma has_node_of_kind_true manifest kind :
  has_node_of_kind manifest kind = true ↔
  ∃ node, node ∈ wpol_nodes (pm_workflow manifest) ∧ wn_kind node = kind.
Proof.
  unfold has_node_of_kind. rewrite existsb_exists. split; intros (n & Hn & Hk); exists n.
  - apply bool_decide_eq_true in Hk. by apply list_elem_of_In in Hn.
  - split; [by apply list_elem_of_In|by apply bool_decide_eq_true].
Qed.

(** A project with a data volume that requires backup runs its backup before anything
    that changes the data or the release: in the execution order of its workflow the
    backup precedes the migration, where the manifest declares one, and the cutover. *)
Theorem required_backup_precedes_changes (manifest : ProjectManifestV2) (volume : DataVolumePolicy) :
  ProjectManifest_validate manifest = Ok tt →
  volume ∈ pm_data_volumes manifest → mdv_backup_required volume = true →
  ∃ ordered backup cutover, ordered_nodes (pm_workflow manifest) = Ok ordered
    ∧ wn_kind backup = Node_Backup ∧ wn_kind cutover = Node_Cutover
    ∧ runs_before ordered backup cutover
    ∧ (mmi_entrypoint (pm_migration manifest) ≠ Entrypoint_None →
       ∃ migration, wn_kind migration = Node_Migration
         ∧ runs_before ordered backup migration ∧ runs_before ordered migration cutover).
Proof.
  intros Hok Hvolume Hrequired.
  destruct (ProjectManifest_validate_facts _ Hok) as [Hworkflow Hhandoff Hbackup Hmigration].
  assert (wpol_delivery_mode (pm_workflow manifest) = Delivery_ExecutorMutation) as Hmode.
  { destruct (wpol_delivery_mode (pm_workflow manifest)) eqn:E; [done|].
    destruct (Hhandoff eq_refl) as (_ & _ & Hnil). rewrite Hnil in Hvolume.
    by apply not_elem_of_nil in Hvolume. }
  assert (existsb mdv_backup_required (pm_data_volumes manifest) = true) as Hexists.
  { apply existsb_exists. exists volume. split; [by apply list_elem_of_In|done]. }
  rewrite Hexists in Hbackup. apply has_node_of_kind_true in Hbackup as (backup & Hb & Kb).
  destruct (ordered_nodes_total _ Hworkflow) as (ordered & Hordered & Hperm & _ & _).
  destruct (ordered_mutation_graph _ _ Hordered Hmode) as (_ & (cutover & Hc & Kc & Hplace) & Hmig).
  rewrite <- Hperm in Hb. pose proof (Hplace backup Hb) as Hbefore.
  unfold cutover_placement in Hbefore. rewrite Kb in Hbefore.
  exists ordered, backup, cutover. split_and!; [done..|]. intros Hentry.
  assert (has_node_of_kind manifest Node_Migration = true) as Hhas.
  { rewrite Hmigration. by apply negb_true_iff, bool_decide_eq_false. }
  apply has_node_of_kind_true in Hhas as (migration & Hm & Km). rewrite <- Hperm in Hm.
  exists migration. pose proof (Hplace migration Hm) as Hmbefore.
  unfold cutover_placement in Hmbefore. rewrite Km in Hmbefore. auto.
Qed.

(** ** Canonical encoding *)

Section ManifestCanonical.
Context `{!Jcs ProjectManifestV2, !JsonSlice ProjectManifestV2, !JcsRoundTrip ProjectManifestV2}.

#[global] Instance manifest_document : CanonicalDocument ProjectManifestV2 ManifestError :=
  {| document_bytes := ProjectManifest_canonical_bytes;
     decode_document := ProjectManifest_decode_canonical |}.

#[global] Instance manifest_document_law : CanonicalDocumentLaw ProjectManifestV2 ManifestError.
Proof.
  intros manifest bytes. simpl.
  unfold ProjectManifest_decode_canonical, ProjectManifest_canonical_bytes. split; intros Hok.
  - next_ok Hok as parsed Hparsed. next_ok Hok as encoded Hencoded. case_match eqn:Heq; [done|].
    next_ok Hok as u Hvalid. destruct u. injection Hok as <-. bool_prop. subst encoded.
    rewrite Hvalid. exact Hencoded.
  - next_ok Hok as u Hvalid. destruct u. apply map_err_Ok in Hok.
    rewrite (jcs_round_trip _ _ Hok). simpl. rewrite Hok. simpl.
    by rewrite bool_decide_eq_true_2, Hvalid.
Qed.
End ManifestCanonical.

(** ** Witnesses *)

Module ManifestSample.

Definition volume : DataVolumePolicy := {|
  mdv_path := MkAbsolutePolicyPath "/srv/app"; mdv_class := Data_Stateful;
  mdv_backup_required := true |}.

Definition manifest : ProjectManifestV2 := {|
  pm_schema_version := 2;
  pm_project_id := MkProjectId "site";
  pm_display_name := "Site";
  pm_source := {| mso_remote_url := MkRemoteUrl "https://example.org/site";
                  mso_branch := Branch_Main |};
  pm_ci := Ci_BinCi;
  pm_build := {| mbu_context := BuildContext_RepositoryRoot; mbu_kind := Build_Native;
                 mbu_dockerfile := None; mbu_verified_output := None |};
  pm_workflow := WorkflowSample.deployment;
  pm_host_preparation := None;
  pm_health_checks := [{| mhc_name := "ready"; mhc_endpoint := MkHttpEndpoint "http://localhost/";
                          mhc_expected_status := 200; mhc_timeout_seconds := 5 |}];
  pm_data_volumes := [volume];
  pm_migration := {| mmi_entrypoint := Entrypoint_ApplicationMigrate;
                     mmi_write_fence := WriteFence_ApplicationProtocolV1 |};
  pm_rollback := {| mrb_code_rollback := true; mrb_soak_seconds := 60 |};
  pm_notifications := {| mno_route := Route_TelegramDefault; mno_maintenance_suppression := false |}
|}.

Lemma required_backup_precedes_changes_witness :
  ∃ ordered backup cutover, ordered_nodes (pm_workflow manifest) = Ok ordered
    ∧ wn_kind backup = Node_Backup ∧ wn_kind cutover = Node_Cutover
    ∧ runs_before ordered backup cutover.
Proof.
  assert (ProjectManifest_validate manifest = Ok tt) as Hok by (vm_compute; reflexivity).
  destruct (required_backup_precedes_changes manifest volume Hok ltac:(left) eq_refl)
    as (ordered & backup & cutover & Hordered & Kb & Kc & Hbefore & _).
  exists ordered, backup, cutover. exact (conj Hordered (conj Kb (conj Kc Hbefore))).
Defined.
End ManifestSample.
