(* ===== verification/SchedulerDb.v ===== *)
(** * The workflow scheduler: tables

    The workflow tables of [src/src/store/control.rs] and the statements the scheduler
    ([src/src/scheduler.rs]) runs on them, with the constraints of the schema.  A text
    column that holds the name of a state or kind is modelled by the enumeration: its
    CHECK admits exactly the names, and [parse] inverts [as_str].  A JSON column holds
    the bytes of the canonical text. *)

From Stdlib Require Import ZArith Lia Ascii String.
From stdpp Require Import base gmap strings option list_numbers list.
From S2P Require Import Prelude Identifiers States Text Ordered Workflow Manifest Errors.

Local Open Scope Z_scope.

(** ** Data *)

Inductive WorkflowTriggerChannelV1 : Type :=
| Channel_GithubWebhook
| Channel_SourceReconciliation
| Channel_DirectPush
| Channel_ManualShadow.

#[global] Instance WorkflowTriggerChannelV1_eq_dec : EqDecision WorkflowTriggerChannelV1.
Proof. solve_decision. Defined.

Definition TriggerChannel_as_str (value : WorkflowTriggerChannelV1) : string :=
  match value with
  | Channel_GithubWebhook => "github_webhook"
  | Channel_SourceReconciliation => "source_reconciliation"
  | Channel_DirectPush => "direct_push"
  | Channel_ManualShadow => "manual_shadow"
  end.

Inductive WorkflowExecutionModeV1 : Type :=
| Mode_Deploy
| Mode_Shadow.

#[global] Instance WorkflowExecutionModeV1_eq_dec : EqDecision WorkflowExecutionModeV1.
Proof. solve_decision. Defined.

Definition ExecutionMode_as_str (value : WorkflowExecutionModeV1) : string :=
  match value with
  | Mode_Deploy => "deploy"
  | Mode_Shadow => "shadow"
  end.

Definition ExecutionMode_parse (value : string) : Result StoreError WorkflowExecutionModeV1 :=
  match value with
  | "deploy" => Ok Mode_Deploy
  | "shadow" => Ok Mode_Shadow
  | _ => Err (CorruptWorkflowJournal "workflow execution mode")
  end%string.

Lemma ExecutionMode_parse_as_str value : ExecutionMode_parse (ExecutionMode_as_str value) = Ok value.
Proof. by destruct value. Qed.

Inductive WorkflowAttemptStateV1 : Type :=
| Attempt_Queued
| Attempt_WaitingForMutation
| Attempt_Running
| Attempt_Succeeded
| Attempt_Failed
| Attempt_Superseded
| Attempt_NeedsReconcile.

#[global] Instance WorkflowAttemptStateV1_eq_dec : EqDecision WorkflowAttemptStateV1.
Proof. solve_decision. Defined.

Definition AttemptState_as_str (value : WorkflowAttemptStateV1) : string :=
  match value with
  | Attempt_Queued => "queued"
  | Attempt_WaitingForMutation => "waiting_for_mutation"
  | Attempt_Running => "running"
  | Attempt_Succeeded => "succeeded"
  | Attempt_Failed => "failed"
  | Attempt_Superseded => "superseded"
  | Attempt_NeedsReconcile => "needs_reconcile"
  end.

Definition AttemptState_parse (value : string) : Result StoreError WorkflowAttemptStateV1 :=
  match value with
  | "queued" => Ok Attempt_Queued
  | "waiting_for_mutation" => Ok Attempt_WaitingForMutation
  | "running" => Ok Attempt_Running
  | "succeeded" => Ok Attempt_Succeeded
  | "failed" => Ok Attempt_Failed
  | "superseded" => Ok Attempt_Superseded
  | "needs_reconcile" => Ok Attempt_NeedsReconcile
  | _ => Err (CorruptWorkflowJournal "attempt state")
  end%string.

Lemma AttemptState_parse_as_str value : AttemptState_parse (AttemptState_as_str value) = Ok value.
Proof. by destruct value. Qed.

Inductive WorkflowMutationStateV1 : Type :=
| Mutation_NotStarted
| Mutation_Owned
| Mutation_NeedsReconcile
| Mutation_Complete.

#[global] Instance WorkflowMutationStateV1_eq_dec : EqDecision WorkflowMutationStateV1.
Proof. solve_decision. Defined.

Definition MutationState_parse (value : string) : Result StoreError WorkflowMutationStateV1 :=
  match value with
  | "not_started" => Ok Mutation_NotStarted
  | "owned" => Ok Mutation_Owned
  | "needs_reconcile" => Ok Mutation_NeedsReconcile
  | "complete" => Ok Mutation_Complete
  | _ => Err (CorruptWorkflowJournal "mutation state")
  end%string.

Inductive WorkflowCleanupStateV1 : Type :=
| CleanupState_Complete
| CleanupState_Pending.

#[global] Instance WorkflowCleanupStateV1_eq_dec : EqDecision WorkflowCleanupStateV1.
Proof. solve_decision. Defined.

Definition CleanupState_as_str (value : WorkflowCleanupStateV1) : string :=
  match value with
  | CleanupState_Complete => "complete"
  | CleanupState_Pending => "pending"
  end.

Definition CleanupState_parse (value : string) : Result StoreError WorkflowCleanupStateV1 :=
  match value with
  | "complete" => Ok CleanupState_Complete
  | "pending" => Ok CleanupState_Pending
  | _ => Err (CorruptWorkflowJournal "cleanup state")
  end%string.

Lemma CleanupState_parse_as_str value : CleanupState_parse (CleanupState_as_str value) = Ok value.
Proof. by destruct value. Qed.

Inductive WorkflowNodeStateV1 : Type :=
| NodeState_Dormant
| NodeState_Blocked
| NodeState_Ready
| NodeState_Leased
| NodeState_Succeeded
| NodeState_Failed
| NodeState_Cancelled
| NodeState_NeedsReconcile.

#[global] Instance WorkflowNodeStateV1_eq_dec : EqDecision WorkflowNodeStateV1.
Proof. solve_decision. Defined.

Definition NodeState_as_str (value : WorkflowNodeStateV1) : string :=
  match value with
  | NodeState_Dormant => "dormant"
  | NodeState_Blocked => "blocked"
  | NodeState_Ready => "ready"
  | NodeState_Leased => "leased"
  | NodeState_Succeeded => "succeeded"
  | NodeState_Failed => "failed"
  | NodeState_Cancelled => "cancelled"
  | NodeState_NeedsReconcile => "needs_reconcile"
  end.

Definition NodeState_parse (value : string) : Result StoreError WorkflowNodeStateV1 :=
  match value with
  | "dormant" => Ok NodeState_Dormant
  | "blocked" => Ok NodeState_Blocked
  | "ready" => Ok NodeState_Ready
  | "leased" => Ok NodeState_Leased
  | "succeeded" => Ok NodeState_Succeeded
  | "failed" => Ok NodeState_Failed
  | "cancelled" => Ok NodeState_Cancelled
  | "needs_reconcile" => Ok NodeState_NeedsReconcile
  | _ => Err (CorruptWorkflowJournal "node state")
  end%string.

Lemma NodeState_parse_as_str value : NodeState_parse (NodeState_as_str value) = Ok value.
Proof. by destruct value. Qed.

Inductive WorkflowCleanupReasonV1 : Type :=
| Reason_LeaseExpired
| Reason_LeaseRevoked
| Reason_TerminalReceiptPending.

#[global] Instance WorkflowCleanupReasonV1_eq_dec : EqDecision WorkflowCleanupReasonV1.
Proof. solve_decision. Defined.

(** ** Names of node kinds, activations and worker pools *)

Definition node_kind_name (kind : WorkflowNodeKindV1) : string :=
  match kind with
  | Node_SourceAdmission => "source_admission"
  | Node_HostPrepare => "host_prepare"
  | Node_Verification => "verification"
  | Node_ReleaseBuild => "release_build"
  | Node_DeterministicReduce => "deterministic_reduce"
  | Node_ResourceReservation => "resource_reservation"
  | Node_Backup => "backup"
  | Node_Migration => "migration"
  | Node_CandidateHealth => "candidate_health"
  | Node_Cutover => "cutover"
  | Node_ReleasedObservation => "released_observation"
  | Node_Rollback => "rollback"
  end.

Definition parse_node_kind (value : string) : Result StoreError WorkflowNodeKindV1 :=
  match value with
  | "source_admission" => Ok Node_SourceAdmission
  | "host_prepare" => Ok Node_HostPrepare
  | "verification" => Ok Node_Verification
  | "release_build" => Ok Node_ReleaseBuild
  | "deterministic_reduce" => Ok Node_DeterministicReduce
  | "resource_reservation" => Ok Node_ResourceReservation
  | "backup" => Ok Node_Backup
  | "migration" => Ok Node_Migration
  | "candidate_health" => Ok Node_CandidateHealth
  | "cutover" => Ok Node_Cutover
  | "released_observation" => Ok Node_ReleasedObservation
  | "rollback" => Ok Node_Rollback
  | _ => Err (CorruptWorkflowJournal "node kind")
  end%string.

Definition activation_name (activation : WorkflowNodeActivationV1) : string :=
  match activation with
  | Activation_Always => "always"
  | Activation_OnMutationFailure => "on_mutation_failure"
  end.

Definition worker_pool_name (pool : WorkflowWorkerPoolV1) : string :=
  match pool with
  | Pool_Controller => "controller"
  | Pool_VpsRequired => "vps_required"
  | Pool_BuildCompute => "build_compute"
  | Pool_PrivilegedExecutor => "privileged_executor"
  end.

Definition parse_worker_pool (value : string) : Result StoreError WorkflowWorkerPoolV1 :=
  match value with
  | "controller" => Ok Pool_Controller
  | "vps_required" => Ok Pool_VpsRequired
  | "build_compute" => Ok Pool_BuildCompute
  | "privileged_executor" => Ok Pool_PrivilegedExecutor
  | _ => Err (CorruptWorkflowJournal "worker pool")
  end%string.

Lemma parse_node_kind_name kind : parse_node_kind (node_kind_name kind) = Ok kind.
Proof. by destruct kind. Qed.

Lemma parse_worker_pool_name pool : parse_worker_pool (worker_pool_name pool) = Ok pool.
Proof. by destruct pool. Qed.

#[global] Instance WorkflowWorkerPoolV1_countable : Countable WorkflowWorkerPoolV1.
Proof.
  refine (inj_countable worker_pool_name
    (λ s, match parse_worker_pool s with Ok pool => Some pool | Err _ => None end) _).
  intros pool. by rewrite parse_worker_pool_name.
Defined.

(** ** Rows *)

Inductive RequestState : Type :=
| Request_Active
| Request_Superseded
| Request_Terminal.

#[global] Instance RequestState_eq_dec : EqDecision RequestState.
Proof. solve_decision. Defined.

Inductive LeaseState : Type :=
| Lease_Active
| Lease_Expired
| Lease_Committed
| Lease_Revoked.

#[global] Instance LeaseState_eq_dec : EqDecision LeaseState.
Proof. solve_decision. Defined.

Definition LeaseState_as_str (state : LeaseState) : string :=
  match state with
  | Lease_Active => "active"
  | Lease_Expired => "expired"
  | Lease_Committed => "committed"
  | Lease_Revoked => "revoked"
  end.

Inductive MutationLockState : Type :=
| Lock_Held
| Lock_NeedsReconcile.

#[global] Instance LockState_eq_dec : EqDecision MutationLockState.
Proof. solve_decision. Defined.

Record WfRequestRow : Type := MkWfRequestRow {
  sr_project_id : ProjectId;
  sr_workflow_policy_digest : EvidenceDigest;
  sr_source_sha : GitCommitId;
  sr_operation_kind : WorkflowExecutionModeV1;
  sr_source_sequence : Z;
  sr_source_attestation_digest : EvidenceDigest;
  sr_manifest_json : list Z;
  sr_priority : Z;
  sr_state : RequestState;
  sr_superseded_by_request_id : option Uuid;
  sr_created_at_ms : Z;
  sr_updated_at_ms : Z
}.
#[global] Instance WfRequestRow_eta : Eta WfRequestRow := λ r,
  MkWfRequestRow (sr_project_id r) (sr_workflow_policy_digest r) (sr_source_sha r)
  (sr_operation_kind r) (sr_source_sequence r) (sr_source_attestation_digest r)
  (sr_manifest_json r) (sr_priority r) (sr_state r) (sr_superseded_by_request_id r)
  (sr_created_at_ms r) (sr_updated_at_ms r).

Record WfHeadRow : Type := MkWfHeadRow {
  sh_source_sequence : Z;
  sh_source_sha : GitCommitId;
  sh_request_id : Uuid;
  sh_updated_at_ms : Z
}.

Record WfTriggerRow : Type := MkWfTriggerRow {
  sg_payload_digest : EvidenceDigest;
  sg_request_id : Uuid;
  sg_received_at_ms : Z
}.

Record WfAttemptRow : Type := MkWfAttemptRow {
  sa_request_id : Uuid;
  sa_attempt_number : Z;
  sa_preparation_key : EvidenceDigest;
  sa_state : WorkflowAttemptStateV1;
  sa_mutation_state : WorkflowMutationStateV1;
  sa_cleanup_state : WorkflowCleanupStateV1;
  sa_created_at_ms : Z;
  sa_updated_at_ms : Z;
  sa_terminal_at_ms : option Z
}.
#[global] Instance WfAttemptRow_eta : Eta WfAttemptRow := λ r,
  MkWfAttemptRow (sa_request_id r) (sa_attempt_number r) (sa_preparation_key r) (sa_state r)
  (sa_mutation_state r) (sa_cleanup_state r) (sa_created_at_ms r) (sa_updated_at_ms r)
  (sa_terminal_at_ms r).

Record WfNodeRow : Type := MkWfNodeRow {
  sn_ordinal : Z;
  sn_node_kind : WorkflowNodeKindV1;
  sn_activation : WorkflowNodeActivationV1;
  sn_profile_id : WorkflowProfileId;
  sn_worker_pool : WorkflowWorkerPoolV1;
  sn_state : WorkflowNodeStateV1;
  sn_lease_generation : Z;
  sn_output_digest : option EvidenceDigest;
  sn_receipt_digest : option EvidenceDigest;
  sn_completed_at_ms : option Z
}.
#[global] Instance WfNodeRow_eta : Eta WfNodeRow := λ r,
  MkWfNodeRow (sn_ordinal r) (sn_node_kind r) (sn_activation r) (sn_profile_id r)
  (sn_worker_pool r) (sn_state r) (sn_lease_generation r) (sn_output_digest r)
  (sn_receipt_digest r) (sn_completed_at_ms r).

Record WfLeaseRow : Type := MkWfLeaseRow {
  sl_attempt_id : Uuid;
  sl_node_id : WorkflowNodeId;
  sl_generation : Z;
  sl_worker_id : string;
  sl_host_id : string;
  sl_expected_input_digest : EvidenceDigest;
  sl_lease_digest : EvidenceDigest;
  sl_lease_json : list Z;
  sl_state : LeaseState;
  sl_leased_at_ms : Z;
  sl_expires_at_ms : Z;
  sl_closed_at_ms : option Z;
  sl_receipt_digest : option EvidenceDigest
}.
#[global] Instance WfLeaseRow_eta : Eta WfLeaseRow := λ r,
  MkWfLeaseRow (sl_attempt_id r) (sl_node_id r) (sl_generation r) (sl_worker_id r) (sl_host_id r)
  (sl_expected_input_digest r) (sl_lease_digest r) (sl_lease_json r) (sl_state r)
  (sl_leased_at_ms r) (sl_expires_at_ms r) (sl_closed_at_ms r) (sl_receipt_digest r).

Record WfNodeReceiptRow : Type := MkWfNodeReceiptRow {
  sc_attempt_id : Uuid;
  sc_node_id : WorkflowNodeId;
  sc_lease_id : Uuid;
  sc_receipt_json : list Z;
  sc_committed_at_ms : Z
}.

Record WfCleanupReceiptRow : Type := MkWfCleanupReceiptRow {
  sk_lease_id : Uuid;
  sk_attempt_id : Uuid;
  sk_node_id : WorkflowNodeId;
  sk_receipt_json : list Z;
  sk_committed_at_ms : Z
}.

Record WfStateBindingRow : Type := MkWfStateBindingRow {
  sb_worker_id : string;
  sb_host_id : string;
  sb_state_key : EvidenceDigest;
  sb_state_json : list Z;
  sb_bound_at_ms : Z
}.

Record WfReductionRow : Type := MkWfReductionRow {
  sd_reduce_node_id : WorkflowNodeId;
  sd_receipt_digest : EvidenceDigest;
  sd_receipt_json : list Z;
  sd_committed_at_ms : Z
}.

Record WfLockRow : Type := MkWfLockRow {
  so_attempt_id : Uuid;
  so_state : MutationLockState;
  so_acquired_at_ms : Z;
  so_updated_at_ms : Z
}.
#[global] Instance WfLockRow_eta : Eta WfLockRow := λ r,
  MkWfLockRow (so_attempt_id r) (so_state r) (so_acquired_at_ms r) (so_updated_at_ms r).

Record WfTransitionRow : Type := MkWfTransitionRow {
  sx_subject_kind : string;
  sx_subject_id : string;
  sx_from_state : option string;
  sx_to_state : string;
  sx_reason : string;
  sx_evidence_digest : option EvidenceDigest;
  sx_occurred_at_ms : Z
}.

Record WfCursorRow : Type := MkWfCursorRow {
  su_last_project_id : option string;
  su_remaining_weight : Z
}.

#[global] Instance WorkflowTriggerChannelV1_countable : Countable WorkflowTriggerChannelV1.
Proof.
  refine (inj_countable' TriggerChannel_as_str
    (λ s, if s == "github_webhook"%string then Channel_GithubWebhook
          else if s == "source_reconciliation"%string then Channel_SourceReconciliation
          else if s == "direct_push"%string then Channel_DirectPush else Channel_ManualShadow) _).
  by intros [].
Defined.

Record WorkflowDb : Type := MkWorkflowDb {
  workflow_requests : gmap Uuid WfRequestRow;
  workflow_project_heads : gmap ProjectId WfHeadRow;
  workflow_triggers : gmap (WorkflowTriggerChannelV1 * string) WfTriggerRow;
  workflow_attempts : gmap Uuid WfAttemptRow;
  workflow_nodes : gmap (Uuid * WorkflowNodeId) WfNodeRow;
  workflow_node_dependencies : gset (Uuid * WorkflowNodeId * WorkflowNodeId);
  workflow_lease_journal : gmap Uuid WfLeaseRow;
  workflow_node_receipts : gmap EvidenceDigest WfNodeReceiptRow;
  workflow_cleanup_receipts : gmap EvidenceDigest WfCleanupReceiptRow;
  workflow_operation_state_bindings : gmap Uuid WfStateBindingRow;
  workflow_reductions : gmap Uuid WfReductionRow;
  workflow_mutation_locks : gmap ProjectId WfLockRow;
  workflow_transitions : gmap (Uuid * Z) WfTransitionRow;
  workflow_scheduler_cursor : WfCursorRow
}.
#[global] Instance WorkflowDb_eta : Eta WorkflowDb := λ r,
  MkWorkflowDb (workflow_requests r) (workflow_project_heads r) (workflow_triggers r)
  (workflow_attempts r) (workflow_nodes r) (workflow_node_dependencies r)
  (workflow_lease_journal r) (workflow_node_receipts r) (workflow_cleanup_receipts r)
  (workflow_operation_state_bindings r) (workflow_reductions r) (workflow_mutation_locks r)
  (workflow_transitions r) (workflow_scheduler_cursor r).

(** The tables of a new store. *)
Definition empty_workflow_db : WorkflowDb :=
  MkWorkflowDb ∅ ∅ ∅ ∅ ∅ ∅ ∅ ∅ ∅ ∅ ∅ ∅ ∅ (MkWfCursorRow None 0).

Abbreviation WorkflowTx := (Tx WorkflowDb StoreError).

(** ** Constraints *)

Definition request_check (row : WfRequestRow) : bool :=
  (0 <? sr_source_sequence row) && in_range 0 3 (sr_priority row)
  && (0 <=? sr_created_at_ms row) && (sr_created_at_ms row <=? sr_updated_at_ms row)
  && ((sr_state row == Request_Superseded) == is_some (sr_superseded_by_request_id row)).

Definition attempt_terminal (state : WorkflowAttemptStateV1) : bool :=
  contains [Attempt_Succeeded; Attempt_Failed; Attempt_Superseded] state.

Definition attempt_check (row : WfAttemptRow) : bool :=
  (0 <? sa_attempt_number row) && (0 <=? sa_created_at_ms row)
  && (sa_created_at_ms row <=? sa_updated_at_ms row)
  && (attempt_terminal (sa_state row) == is_some (sa_terminal_at_ms row)).

Definition node_closed (state : WorkflowNodeStateV1) : bool :=
  contains [NodeState_Succeeded; NodeState_Failed; NodeState_Cancelled; NodeState_NeedsReconcile]
    state.

Definition node_check (row : WfNodeRow) : bool :=
  (0 <=? sn_ordinal row) && (0 <=? sn_lease_generation row)
  && ((sn_state row == NodeState_Succeeded) == is_some (sn_output_digest row))
  && (node_closed (sn_state row) == is_some (sn_completed_at_ms row)).

Definition lease_check (row : WfLeaseRow) : bool :=
  (0 <? sl_generation row) && (0 <=? sl_leased_at_ms row)
  && (sl_leased_at_ms row <? sl_expires_at_ms row)
  && ((sl_state row == Lease_Active) == is_none (sl_closed_at_ms row)).

Definition lock_check (row : WfLockRow) : bool :=
  (0 <=? so_acquired_at_ms row) && (so_acquired_at_ms row <=? so_updated_at_ms row).

(** ** Statements *)

Definition require_sql (b : bool) (e : SqliteError) : WorkflowTx unit := lift (ensure b (Sqlite e)).

(** [UPDATE .. SET f WHERE p]: the number of rows and the new table, or the violation
    of a CHECK. *)
Definition update_rows {K V} `{Countable K} (p : K → V → bool) (f : V → V) (check : V → bool)
    (table : gmap K V) : Result StoreError (Z * gmap K V) :=
  let rows := select_rows p table in
  if forallb (λ row, check (f row.2)) rows
  then Ok (Z.of_nat (length rows), map_imap (λ k v, Some (if p k v then f v else v)) table)
  else Err (Sqlite CheckViolation).

(** [superseded_by_request_id .. REFERENCES workflow_requests(request_id)]. *)
Definition request_reference (table : gmap Uuid WfRequestRow) (row : WfRequestRow) : bool :=
  match sr_superseded_by_request_id row with None => true | Some id => is_some (table !! id) end.

Definition update_requests (p : Uuid → WfRequestRow → bool) (f : WfRequestRow → WfRequestRow)
    : WorkflowTx Z :=
  let? table := gets workflow_requests in
  let? ' (changed, table') := lift (update_rows p f request_check table) in
  let? _ := require_sql (forallb (λ row, request_reference table (f row.2)) (select_rows p table))
              ForeignKeyViolation in
  let? _ := modify (λ db, db <| workflow_requests := table' |>) in
  tx_ok changed.

Definition update_attempts (p : Uuid → WfAttemptRow → bool) (f : WfAttemptRow → WfAttemptRow)
    : WorkflowTx Z :=
  let? table := gets workflow_attempts in
  let? ' (changed, table) := lift (update_rows p f attempt_check table) in
  let? _ := modify (λ db, db <| workflow_attempts := table |>) in
  tx_ok changed.

Definition update_nodes (p : Uuid * WorkflowNodeId → WfNodeRow → bool) (f : WfNodeRow → WfNodeRow)
    : WorkflowTx Z :=
  let? table := gets workflow_nodes in
  let? ' (changed, table) := lift (update_rows p f node_check table) in
  let? _ := modify (λ db, db <| workflow_nodes := table |>) in
  tx_ok changed.

Definition update_leases (p : Uuid → WfLeaseRow → bool) (f : WfLeaseRow → WfLeaseRow)
    : WorkflowTx Z :=
  let? table := gets workflow_lease_journal in
  let? ' (changed, table) := lift (update_rows p f lease_check table) in
  let? _ := modify (λ db, db <| workflow_lease_journal := table |>) in
  tx_ok changed.

Definition update_locks (p : ProjectId → WfLockRow → bool) (f : WfLockRow → WfLockRow)
    : WorkflowTx Z :=
  let? table := gets workflow_mutation_locks in
  let? ' (changed, table) := lift (update_rows p f lock_check table) in
  let? _ := modify (λ db, db <| workflow_mutation_locks := table |>) in
  tx_ok changed.

Definition insert_workflow_request (request_id : Uuid) (row : WfRequestRow) : WorkflowTx unit :=
  let? table := gets workflow_requests in
  let? _ := require_sql (is_none (table !! request_id)) PrimaryKeyViolation in
  let? _ := require_sql (negb (row_exists (λ _ other,
                (sr_project_id other == sr_project_id row)
                && (sr_workflow_policy_digest other == sr_workflow_policy_digest row)
                && (sr_source_sha other == sr_source_sha row)
                && (sr_operation_kind other == sr_operation_kind row)) table)) UniqueViolation in
  let? _ := require_sql (request_check row) CheckViolation in
  let? _ := require_sql (request_reference table row) ForeignKeyViolation in
  modify (λ db, db <| workflow_requests := <[request_id := row]> table |>).

(** [ON CONFLICT(project_id) DO UPDATE .. WHERE excluded.source_sequence >=
    workflow_project_heads.source_sequence]. *)
Definition upsert_project_head (project_id : ProjectId) (row : WfHeadRow) : WorkflowTx unit :=
  let? table := gets workflow_project_heads in
  let? requests := gets workflow_requests in
  let? _ := require_sql ((0 <? sh_source_sequence row) && (0 <=? sh_updated_at_ms row))
              CheckViolation in
  let? _ := require_sql (is_some (requests !! sh_request_id row)) ForeignKeyViolation in
  if opt_is_some_and (table !! project_id)
       (λ head, sh_source_sequence row <? sh_source_sequence head)
  then tx_ok tt
  else modify (λ db, db <| workflow_project_heads := <[project_id := row]> table |>).

Definition insert_trigger (key : WorkflowTriggerChannelV1 * string) (row : WfTriggerRow)
    : WorkflowTx unit :=
  let? table := gets workflow_triggers in
  let? requests := gets workflow_requests in
  let? _ := require_sql (is_none (table !! key)) PrimaryKeyViolation in
  let? _ := require_sql (0 <=? sg_received_at_ms row) CheckViolation in
  let? _ := require_sql (is_some (requests !! sg_request_id row)) ForeignKeyViolation in
  modify (λ db, db <| workflow_triggers := <[key := row]> table |>).

Definition insert_workflow_attempt (attempt_id : Uuid) (row : WfAttemptRow) : WorkflowTx unit :=
  let? table := gets workflow_attempts in
  let? requests := gets workflow_requests in
  let? _ := require_sql (is_none (table !! attempt_id)) PrimaryKeyViolation in
  let? _ := require_sql (negb (row_exists (λ _ other, (sa_request_id other == sa_request_id row)
                && (sa_attempt_number other == sa_attempt_number row)) table)) UniqueViolation in
  let? _ := require_sql (attempt_check row) CheckViolation in
  let? _ := require_sql (is_some (requests !! sa_request_id row)) ForeignKeyViolation in
  modify (λ db, db <| workflow_attempts := <[attempt_id := row]> table |>).

Definition insert_node (attempt_id : Uuid) (node_id : WorkflowNodeId) (row : WfNodeRow)
    : WorkflowTx unit :=
  let? table := gets workflow_nodes in
  let? attempts := gets workflow_attempts in
  let? _ := require_sql (is_none (table !! (attempt_id, node_id))) PrimaryKeyViolation in
  let? _ := require_sql (negb (row_exists (λ key other, (key.1 == attempt_id)
                && (sn_ordinal other == sn_ordinal row)) table)) UniqueViolation in
  let? _ := require_sql (node_check row) CheckViolation in
  let? _ := require_sql (is_some (attempts !! attempt_id)) ForeignKeyViolation in
  modify (λ db, db <| workflow_nodes := <[(attempt_id, node_id) := row]> table |>).

Definition insert_dependency (attempt_id : Uuid) (node_id dependency : WorkflowNodeId)
    : WorkflowTx unit :=
  let? table := gets workflow_node_dependencies in
  let? nodes := gets workflow_nodes in
  let? _ := require_sql (negb (bool_decide ((attempt_id, node_id, dependency) ∈ table)))
              PrimaryKeyViolation in
  let? _ := require_sql (is_some (nodes !! (attempt_id, node_id))
                     && is_some (nodes !! (attempt_id, dependency))) ForeignKeyViolation in
  modify (λ db, db <| workflow_node_dependencies :=
                        {[ (attempt_id, node_id, dependency) ]} ∪ table |>).

Definition insert_lease (lease_id : Uuid) (row : WfLeaseRow) : WorkflowTx unit :=
  let? table := gets workflow_lease_journal in
  let? nodes := gets workflow_nodes in
  let? _ := require_sql (is_none (table !! lease_id)) PrimaryKeyViolation in
  let? _ := require_sql (negb (row_exists (λ _ other,
                (sl_lease_digest other == sl_lease_digest row)
                || ((sl_attempt_id other == sl_attempt_id row)
                    && (sl_node_id other == sl_node_id row)
                    && ((sl_generation other == sl_generation row)
                        || ((sl_state other == Lease_Active) && (sl_state row == Lease_Active)))))
                table)) UniqueViolation in
  let? _ := require_sql (lease_check row) CheckViolation in
  let? _ := require_sql (is_some (nodes !! (sl_attempt_id row, sl_node_id row))) ForeignKeyViolation in
  modify (λ db, db <| workflow_lease_journal := <[lease_id := row]> table |>).

(** [UPDATE workflow_lease_journal SET lease_digest = ?, ..]: the digest is unique. *)
Definition renew_lease_row (lease_id : Uuid) (p : WfLeaseRow → bool) (f : WfLeaseRow → WfLeaseRow)
    : WorkflowTx Z :=
  let? table := gets workflow_lease_journal in
  let? _ := require_sql match table !! lease_id with
                    | Some row => negb (p row) || negb (row_exists (λ other other_row,
                        (other != lease_id) && (sl_lease_digest other_row == sl_lease_digest (f row)))
                        table)
                    | None => true
                    end UniqueViolation in
  update_leases (λ other row, (other == lease_id) && p row) f.

Definition insert_node_receipt (digest : EvidenceDigest) (row : WfNodeReceiptRow) : WorkflowTx unit :=
  let? table := gets workflow_node_receipts in
  let? leases := gets workflow_lease_journal in
  let? nodes := gets workflow_nodes in
  let? _ := require_sql (is_none (table !! digest)) PrimaryKeyViolation in
  let? _ := require_sql (negb (row_exists (λ _ other, (sc_lease_id other == sc_lease_id row)
                || ((sc_attempt_id other == sc_attempt_id row) && (sc_node_id other == sc_node_id row)))
                table)) UniqueViolation in
  let? _ := require_sql (0 <=? sc_committed_at_ms row) CheckViolation in
  let? _ := require_sql (is_some (leases !! sc_lease_id row)
                     && is_some (nodes !! (sc_attempt_id row, sc_node_id row))) ForeignKeyViolation in
  modify (λ db, db <| workflow_node_receipts := <[digest := row]> table |>).

Definition insert_cleanup_receipt (digest : EvidenceDigest) (row : WfCleanupReceiptRow)
    : WorkflowTx unit :=
  let? table := gets workflow_cleanup_receipts in
  let? leases := gets workflow_lease_journal in
  let? nodes := gets workflow_nodes in
  let? _ := require_sql (is_none (table !! digest)) PrimaryKeyViolation in
  let? _ := require_sql (negb (row_exists (λ _ other, sk_lease_id other == sk_lease_id row) table))
              UniqueViolation in
  let? _ := require_sql (0 <=? sk_committed_at_ms row) CheckViolation in
  let? _ := require_sql (is_some (leases !! sk_lease_id row)
                     && is_some (nodes !! (sk_attempt_id row, sk_node_id row))) ForeignKeyViolation in
  modify (λ db, db <| workflow_cleanup_receipts := <[digest := row]> table |>).

Definition insert_state_binding (attempt_id : Uuid) (row : WfStateBindingRow) : WorkflowTx unit :=
  let? table := gets workflow_operation_state_bindings in
  let? attempts := gets workflow_attempts in
  let? _ := require_sql (is_none (table !! attempt_id)) PrimaryKeyViolation in
  let? _ := require_sql (negb (row_exists (λ _ other, sb_state_key other == sb_state_key row) table))
              UniqueViolation in
  let? _ := require_sql (0 <=? sb_bound_at_ms row) CheckViolation in
  let? _ := require_sql (is_some (attempts !! attempt_id)) ForeignKeyViolation in
  modify (λ db, db <| workflow_operation_state_bindings := <[attempt_id := row]> table |>).

Definition insert_reduction (attempt_id : Uuid) (row : WfReductionRow) : WorkflowTx unit :=
  let? table := gets workflow_reductions in
  let? nodes := gets workflow_nodes in
  let? _ := require_sql (is_none (table !! attempt_id)) PrimaryKeyViolation in
  let? _ := require_sql (negb (row_exists (λ _ other, sd_receipt_digest other == sd_receipt_digest row)
                table)) UniqueViolation in
  let? _ := require_sql (0 <=? sd_committed_at_ms row) CheckViolation in
  let? _ := require_sql (is_some (nodes !! (attempt_id, sd_reduce_node_id row))) ForeignKeyViolation in
  modify (λ db, db <| workflow_reductions := <[attempt_id := row]> table |>).

Definition insert_lock (project_id : ProjectId) (row : WfLockRow) : WorkflowTx unit :=
  let? table := gets workflow_mutation_locks in
  let? attempts := gets workflow_attempts in
  let? _ := require_sql (is_none (table !! project_id)) PrimaryKeyViolation in
  let? _ := require_sql (negb (row_exists (λ _ other, so_attempt_id other == so_attempt_id row) table))
              UniqueViolation in
  let? _ := require_sql (lock_check row) CheckViolation in
  let? _ := require_sql (is_some (attempts !! so_attempt_id row)) ForeignKeyViolation in
  modify (λ db, db <| workflow_mutation_locks := <[project_id := row]> table |>).

(** [DELETE FROM workflow_mutation_locks WHERE p]. *)
Definition delete_locks (p : ProjectId → WfLockRow → bool) : WorkflowTx Z :=
  let? table := gets workflow_mutation_locks in
  let? _ := modify (λ db, db <| workflow_mutation_locks :=
              map_imap (λ k v, if p k v then None else Some v) table |>) in
  tx_ok (Z.of_nat (length (select_rows p table))).

Definition max_sequence (attempt_id : Uuid) (table : gmap (Uuid * Z) WfTransitionRow) : Z :=
  foldr (λ row m, Z.max row.1.2 m) 0 (select_rows (λ key _, key.1 == attempt_id) table).

Definition append_transition (attempt_id : Uuid) (subject_kind subject_id : string)
    (from_state : option string) (to_state reason : string)
    (evidence_digest : option EvidenceDigest) (occurred_at_ms : Z) : WorkflowTx unit :=
  let? table := gets workflow_transitions in
  let? attempts := gets workflow_attempts in
  let? sequence := lift (ok_or (CorruptWorkflowJournal "transition sequence")
                           (i64_try_from (max_sequence attempt_id table + 1))) in
  let? _ := require_sql ((0 <? sequence) && (0 <=? occurred_at_ms)
                         && contains ["attempt"; "node"; "lease"]%string subject_kind) CheckViolation in
  let? _ := require_sql (is_some (attempts !! attempt_id)) ForeignKeyViolation in
  modify (λ db, db <| workflow_transitions :=
    <[(attempt_id, sequence) := {|
        sx_subject_kind := subject_kind; sx_subject_id := subject_id;
        sx_from_state := from_state; sx_to_state := to_state; sx_reason := reason;
        sx_evidence_digest := evidence_digest; sx_occurred_at_ms := occurred_at_ms |}]> table |>).
