(* ===== verification/Scheduler.v ===== *)
(** * The workflow scheduler: journal and admission

    The methods of [DurableWorkflowScheduler] ([src/src/scheduler.rs]) as transactions
    on the tables of [SchedulerDb].  This file: the data, the snapshots, the ways an
    attempt ends, and the admission of a source; [SchedulerLeases] and
    [SchedulerReceipts] have the rest.  Fresh UUIDs and the time are arguments.
    Columns that hold an enumeration or an identifier are typed, so the parse that
    reads them back is the identity ([parse_node_kind_name] and the like); the range
    checks on integer columns are kept. *)

From Stdlib Require Import ZArith Lia Ascii String.
From stdpp Require Import base gmap strings option list_numbers list.
From S2P Require Import Prelude Identifiers States Text Ordered Workflow Manifest Errors SchedulerDb.

Local Open Scope Z_scope.

(** ** Data *)

Definition MIN_LEASE_MS : Z := 1000.
Definition MAX_LEASE_MS : Z := 15 * 60 * 1000.

(** The scheduler's own bounds, tighter than those of the contract. *)
Definition SCHEDULER_MAX_STATE_BYTES : Z := 6 * 1024 * 1024 * 1024.
Definition SCHEDULER_MAX_STATE_INODES : Z := 500000.

Record WorkflowAdmissionV1 : Type := MkWorkflowAdmissionV1 {
  wad_project_id : ProjectId;
  wad_workflow_policy_digest : EvidenceDigest;
  wad_source_sha : GitCommitId;
  wad_execution_mode : WorkflowExecutionModeV1;
  wad_source_sequence : Z;
  wad_source_attestation_digest : EvidenceDigest;
  wad_trigger_channel : WorkflowTriggerChannelV1;
  wad_delivery_id : string;
  wad_payload_digest : EvidenceDigest;
  wad_priority : Z
}.

Record WorkflowNodeSnapshotV1 : Type := MkWorkflowNodeSnapshotV1 {
  ns_node_id : WorkflowNodeId;
  ns_kind : WorkflowNodeKindV1;
  ns_profile_id : WorkflowProfileId;
  ns_worker_pool : WorkflowWorkerPoolV1;
  ns_state : WorkflowNodeStateV1;
  ns_lease_generation : Z;
  ns_output_digest : option EvidenceDigest;
  ns_receipt_digest : option EvidenceDigest;
  ns_started_at_ms : option Z;
  ns_completed_at_ms : option Z;
  ns_output_size_bytes : option Z
}.

Record WorkflowAttemptSnapshotV1 : Type := MkWorkflowAttemptSnapshotV1 {
  ap_request_id : Uuid;
  ap_attempt_id : Uuid;
  ap_attempt_number : Z;
  ap_project_id : ProjectId;
  ap_source_sha : GitCommitId;
  ap_source_sequence : Z;
  ap_workflow_policy_digest : EvidenceDigest;
  ap_source_attestation_digest : EvidenceDigest;
  ap_preparation_key : EvidenceDigest;
  ap_priority : Z;
  ap_execution_mode : WorkflowExecutionModeV1;
  ap_state : WorkflowAttemptStateV1;
  ap_mutation_state : WorkflowMutationStateV1;
  ap_cleanup_state : WorkflowCleanupStateV1;
  ap_created_at_ms : Z;
  ap_updated_at_ms : Z;
  ap_terminal_at_ms : option Z;
  ap_nodes : list WorkflowNodeSnapshotV1
}.

Inductive WorkflowAdmissionOutcomeV1 : Type :=
| Admission_Created (attempt : WorkflowAttemptSnapshotV1)
| Admission_Existing (attempt : WorkflowAttemptSnapshotV1).

Definition WorkflowAdmissionOutcome_attempt (outcome : WorkflowAdmissionOutcomeV1)
    : WorkflowAttemptSnapshotV1 :=
  match outcome with Admission_Created attempt | Admission_Existing attempt => attempt end.

Definition WorkflowAdmissionOutcome_created (outcome : WorkflowAdmissionOutcomeV1) : bool :=
  match outcome with Admission_Created _ => true | Admission_Existing _ => false end.

Record WorkflowWorkerRegistrationV1 : Type := MkWorkflowWorkerRegistrationV1 {
  wk_worker_id : string;
  wk_host_id : string;
  wk_pools : gset WorkflowWorkerPoolV1
}.

Definition WorkerRegistration_validate (worker : WorkflowWorkerRegistrationV1)
    : Result StoreError unit :=
  if negb (valid_workflow_identity (wk_worker_id worker))
     || negb (valid_workflow_identity (wk_host_id worker))
     || (wk_pools worker == ∅)
     || Nat.ltb 4 (size (wk_pools worker))
  then Err (InvalidWorkflowSchedulerInput "worker registration")
  else Ok tt.

Definition WorkerRegistration_validate_unprivileged (worker : WorkflowWorkerRegistrationV1)
    : Result StoreError unit :=
  let? _ := WorkerRegistration_validate worker in
  if existsb (λ pool, match pool with
                      | Pool_Controller | Pool_PrivilegedExecutor => true
                      | _ => false
                      end) (elements (wk_pools worker))
  then Err (InvalidWorkflowSchedulerInput "unprivileged worker pools")
  else Ok tt.

Definition has_pool (worker : WorkflowWorkerRegistrationV1) (pool : WorkflowWorkerPoolV1) : bool :=
  bool_decide (pool ∈ wk_pools worker).

Record WorkflowCleanupObligationV1 : Type := MkWorkflowCleanupObligationV1 {
  co_lease : WorkflowLeaseV1;
  co_terminal_receipt : option WorkflowNodeReceiptV1;
  co_reason : WorkflowCleanupReasonV1
}.

Record WorkflowAttemptPageV1 : Type := MkWorkflowAttemptPageV1 {
  pg_truncated : bool;
  pg_attempts : list WorkflowAttemptSnapshotV1
}.

Record PreparationKeyPayload : Type := MkPreparationKeyPayload {
  pkp_purpose : string;
  pkp_project_id : ProjectId;
  pkp_source_sha : GitCommitId;
  pkp_workflow_policy_digest : EvidenceDigest
}.

Record ExpectedInputPayload : Type := MkExpectedInputPayload {
  eip_purpose : string;
  eip_project_id : ProjectId;
  eip_source_sha : GitCommitId;
  eip_workflow_policy_digest : EvidenceDigest;
  eip_preparation_key : EvidenceDigest;
  eip_node_id : WorkflowNodeId;
  eip_dependencies : list WorkflowLeaseInputV1
}.

Record AttemptContext : Type := MkAttemptContext {
  cx_request_id : Uuid;
  cx_attempt_id : Uuid;
  cx_attempt_number : Z;
  cx_project_id : ProjectId;
  cx_source_sha : GitCommitId;
  cx_source_sequence : Z;
  cx_workflow_policy_digest : EvidenceDigest;
  cx_source_attestation_digest : EvidenceDigest;
  cx_preparation_key : EvidenceDigest;
  cx_priority : Z;
  cx_execution_mode : WorkflowExecutionModeV1;
  cx_attempt_state : WorkflowAttemptStateV1;
  cx_mutation_state : WorkflowMutationStateV1;
  cx_cleanup_state : WorkflowCleanupStateV1;
  cx_created_at_ms : Z;
  cx_updated_at_ms : Z;
  cx_terminal_at_ms : option Z;
  cx_manifest : ProjectManifestV2
}.

Record ReadyCandidateOwned : Type := MkReadyCandidateOwned {
  ro_request_id : Uuid;
  ro_attempt_id : Uuid;
  ro_project_id : ProjectId;
  ro_source_sha : GitCommitId;
  ro_source_sequence : Z;
  ro_source_attestation_digest : EvidenceDigest;
  ro_workflow_policy_digest : EvidenceDigest;
  ro_preparation_key : EvidenceDigest;
  ro_lease_generation : Z;
  ro_execution_mode : WorkflowExecutionModeV1;
  ro_manifest : ProjectManifestV2;
  ro_node_id : WorkflowNodeId
}.

(** A [ReadyCandidate] is the owned candidate with its node and profile resolved. *)
Record ReadyCandidate : Type := MkReadyCandidate {
  rd_owned : ReadyCandidateOwned;
  rd_node : WorkflowNodeV1;
  rd_profile : WorkflowExecutionProfileV1
}.

Inductive OperationStateSelection : Type :=
| Selection_NotUsed
| Selection_Ready (state : WorkflowOperationStateV1)
| Selection_Busy.

Record ReductionEvidenceRow : Type := MkReductionEvidenceRow {
  re_receipt_json : list Z;
  re_committed_at_ms : Z;
  re_lease_json : list Z;
  re_lease_state : LeaseState;
  re_node_state : WorkflowNodeStateV1;
  re_output_digest : option EvidenceDigest;
  re_node_receipt_digest : option EvidenceDigest
}.

Record CollectedReductionInputs : Type := MkCollectedReductionInputs {
  cr_inputs : list WorkflowReductionInputV1;
  cr_latest_committed_at_ms : Z
}.

(** ** Codecs *)

(** The codecs of the documents and payloads the scheduler stores and hashes, and
    SQLite's [json_extract(receipt_json, '$.cleanup_result')] ([None] is NULL). *)
Class SchedulerCodecs := {
  scodec_workflow :: WorkflowCodecs;
  scodec_manifest_payload :: Jcs ProjectManifestV2DigestPayload;
  scodec_manifest :: Jcs ProjectManifestV2;
  scodec_manifest_slice :: JsonSlice ProjectManifestV2;
  scodec_preparation_key :: Jcs PreparationKeyPayload;
  scodec_expected_input :: Jcs ExpectedInputPayload;
  scodec_state :: Jcs WorkflowOperationStateV1;
  scodec_state_slice :: JsonSlice WorkflowOperationStateV1;
  json_extract_cleanup_result : list Z → option string
}.

Definition contract {A} (r : Result WorkflowContractError A) : Result StoreError A :=
  map_err WorkflowContract r.

Definition manifest_contract {A} (r : Result ManifestError A) : Result StoreError A :=
  map_err ManifestContract r.

Definition canonical_string (bytes : list Z) : Result StoreError (list Z) :=
  if valid_utf8 bytes then Ok bytes else Err (CorruptWorkflowJournal "canonical UTF-8").

Definition to_i64 (value : Z) (field : string) : Result StoreError Z :=
  ok_or (InvalidWorkflowSchedulerInput field) (i64_try_from value).

Definition to_u64 (value : Z) (field : string) : Result StoreError Z :=
  ok_or (CorruptWorkflowJournal field) (u64_try_from value).

Definition valid_delivery_id (value : string) : bool :=
  in_range 1 128 (str_len value)
  && forallb (λ byte, is_ascii_graphic byte && negb ((byte =? 47) || (byte =? 92)))
       (as_bytes value).

Definition shadow_executes (kind : WorkflowNodeKindV1) : bool :=
  match kind with
  | Node_SourceAdmission | Node_HostPrepare | Node_Verification | Node_ReleaseBuild
  | Node_DeterministicReduce => true
  | _ => false
  end.

Definition is_self_update_handoff_release (manifest : ProjectManifestV2)
    (node_kind : WorkflowNodeKindV1) : bool :=
  (wpol_delivery_mode (pm_workflow manifest) == Delivery_SelfUpdateHandoff)
  && (node_kind == Node_ReleaseBuild).

Definition node_uses_operation_state (node : WorkflowNodeV1) (adapter : WorkflowAdapterIdV1) : bool :=
  match adapter with
  | Adapter_WorkerBareBinCiV1 | Adapter_WorkerNativeReleaseBuildV1 => true
  | _ => (adapter == Adapter_WorkerOciReleaseBuildV1)
         && contains (wn_input_contracts node) Artifact_VerificationReceipt
  end.

Definition adapter_writes_operation_state (adapter : WorkflowAdapterIdV1) : bool :=
  match adapter with Adapter_WorkerBareBinCiV1 => true | _ => false end.

Definition verification_feeds_shared_release_output (manifest : ProjectManifestV2)
    (node : WorkflowNodeV1) : bool :=
  (wn_kind node == Node_Verification)
  && existsb (λ candidate,
       (wn_kind candidate == Node_ReleaseBuild)
       && contains (wn_depends_on candidate) (wn_node_id node)
       && opt_is_some_and
            (WorkflowPolicy_profile (pm_workflow manifest) (wn_profile_id candidate))
            (λ profile, node_uses_operation_state candidate (wep_adapter_id profile)))
       (wpol_nodes (pm_workflow manifest)).

Definition execution_deadline_ms (leased_at_ms execution_timeout_ms : Z) : Result StoreError Z :=
  let? timeout_ms := ok_or (InvalidWorkflowSchedulerInput "execution timeout")
                       (i64_try_from execution_timeout_ms) in
  ok_or (InvalidWorkflowSchedulerInput "execution deadline")
    (i64_checked_add leased_at_ms timeout_ms).

Definition bounded_lease_expiry (leased_at_ms now_ms lease_duration_ms execution_timeout_ms : Z)
    : Result StoreError Z :=
  let? execution_deadline := execution_deadline_ms leased_at_ms execution_timeout_ms in
  let? requested_expiry := ok_or (InvalidWorkflowSchedulerInput "lease expiry")
                             (i64_checked_add now_ms lease_duration_ms) in
  let expires_at_ms := Z.min requested_expiry execution_deadline in
  if expires_at_ms <=? now_ms then Err WorkflowLeaseConflict else Ok expires_at_ms.

Definition same_lease_assignment (left right : WorkflowLeaseV1) : bool :=
  (left <| wl_expires_at_ms := wl_expires_at_ms right |>
        <| wl_lease_digest := wl_lease_digest right |>) == right.

Definition receipt_matches_lease (receipt : WorkflowNodeReceiptV1) (lease : WorkflowLeaseV1) : bool :=
  (wnr_lease_digest receipt == wl_lease_digest lease)
  && (wnr_lease_id receipt == wl_lease_id lease)
  && (wnr_lease_generation receipt == wl_lease_generation lease)
  && (wnr_request_id receipt == wl_request_id lease)
  && (wnr_attempt_id receipt == wl_attempt_id lease)
  && (wnr_project_id receipt == wl_project_id lease)
  && (wnr_source_sha receipt == wl_source_sha lease)
  && (wnr_workflow_policy_digest receipt == wl_workflow_policy_digest lease)
  && (wnr_preparation_key receipt == wl_preparation_key lease)
  && (wnr_node_id receipt == wl_node_id lease)
  && (wnr_node_kind receipt == wl_node_kind lease)
  && (wnr_worker_id receipt == wl_worker_id lease)
  && (wnr_host_id receipt == wl_host_id lease)
  && (wnr_expected_input_digest receipt == wl_expected_input_digest lease).

Definition cleanup_receipt_matches_lease (receipt : WorkflowCleanupReceiptV1)
    (lease : WorkflowLeaseV1) : bool :=
  (wcr_lease_digest receipt == wl_lease_digest lease)
  && (wcr_lease_id receipt == wl_lease_id lease)
  && (wcr_lease_generation receipt == wl_lease_generation lease)
  && (wcr_attempt_id receipt == wl_attempt_id lease)
  && (wcr_project_id receipt == wl_project_id lease)
  && (wcr_node_id receipt == wl_node_id lease)
  && (wcr_worker_id receipt == wl_worker_id lease)
  && (wcr_host_id receipt == wl_host_id lease).

Definition receipt_terminal_node_state (receipt : WorkflowNodeReceiptV1)
    (handoff_publication : bool) : WorkflowNodeStateV1 :=
  match wnr_outcome receipt with
  | NodeOutcome_Succeeded => NodeState_Succeeded
  | NodeOutcome_Failed =>
      if is_mutation (wnr_node_kind receipt) || handoff_publication
      then NodeState_NeedsReconcile else NodeState_Failed
  end.

Section Scheduler.
Context `{!SchedulerCodecs}.

(** ** Reading the journal *)

Definition preparation_key_of (project_id : ProjectId) (source_sha : GitCommitId)
    (workflow_policy_digest : EvidenceDigest) : Result StoreError EvidenceDigest :=
  let? bytes := map_err JsonError (jcs_to_vec {|
    pkp_purpose := "rdashboard.prepared-run-key.v1";
    pkp_project_id := project_id;
    pkp_source_sha := source_sha;
    pkp_workflow_policy_digest := workflow_policy_digest |}) in
  Ok (EvidenceDigest_sha256 bytes).

Definition preparation_key (admission : WorkflowAdmissionV1) : Result StoreError EvidenceDigest :=
  preparation_key_of (wad_project_id admission) (wad_source_sha admission)
    (wad_workflow_policy_digest admission).

(** The joined row, by the two primary keys. *)
Definition read_attempt_context_row (attempt_id : Uuid) (db : WorkflowDb)
    : Result StoreError (WfAttemptRow * WfRequestRow) :=
  ok_or (WorkflowAttemptNotFound attempt_id)
    (attempt ← workflow_attempts db !! attempt_id;
     request ← workflow_requests db !! sa_request_id attempt;
     Some (attempt, request)).

Definition load_attempt_context (attempt_id : Uuid) (db : WorkflowDb)
    : Result StoreError AttemptContext :=
  let? ' (attempt, request) := read_attempt_context_row attempt_id db in
  if (sa_created_at_ms attempt <? 0) || (sa_updated_at_ms attempt <? sa_created_at_ms attempt)
  then Err (CorruptWorkflowJournal "attempt timestamps or kind")
  else
    let? manifest := manifest_contract (ProjectManifest_decode_canonical (sr_manifest_json request)) in
    let? _ := ensure (pm_project_id manifest == sr_project_id request) WorkflowPolicyMismatch in
    let? digest := manifest_contract (workflow_policy_digest manifest) in
    let? _ := ensure (digest == sr_workflow_policy_digest request) WorkflowPolicyMismatch in
    let? expected_preparation_key := preparation_key_of (sr_project_id request)
                                       (sr_source_sha request) (sr_workflow_policy_digest request) in
    let? _ := ensure (sa_preparation_key attempt == expected_preparation_key)
                (CorruptWorkflowJournal "preparation key binding") in
    let? attempt_number := ok_or (CorruptWorkflowJournal "attempt number")
                             (u32_try_from (sa_attempt_number attempt)) in
    let? source_sequence := to_u64 (sr_source_sequence request) "source sequence" in
    let? priority := ok_or (CorruptWorkflowJournal "request priority")
                       (checked_range 0 255 (sr_priority request)) in
    Ok {|
      cx_request_id := sa_request_id attempt;
      cx_attempt_id := attempt_id;
      cx_attempt_number := attempt_number;
      cx_project_id := sr_project_id request;
      cx_source_sha := sr_source_sha request;
      cx_source_sequence := source_sequence;
      cx_workflow_policy_digest := sr_workflow_policy_digest request;
      cx_source_attestation_digest := sr_source_attestation_digest request;
      cx_preparation_key := sa_preparation_key attempt;
      cx_priority := priority;
      cx_execution_mode := sr_operation_kind request;
      cx_attempt_state := sa_state attempt;
      cx_mutation_state := sa_mutation_state attempt;
      cx_cleanup_state := sa_cleanup_state attempt;
      cx_created_at_ms := sa_created_at_ms attempt;
      cx_updated_at_ms := sa_updated_at_ms attempt;
      cx_terminal_at_ms := sa_terminal_at_ms attempt;
      cx_manifest := manifest
    |}.

(** The receipt of a node ([UNIQUE(attempt_id, node_id)]) and of a lease
    ([lease_id] is UNIQUE). *)
Definition receipt_of_node (attempt_id : Uuid) (node_id : WorkflowNodeId) (db : WorkflowDb)
    : option (EvidenceDigest * WfNodeReceiptRow) :=
  head (select_rows (λ _ row, (sc_attempt_id row == attempt_id) && (sc_node_id row == node_id))
          (workflow_node_receipts db)).

Definition receipt_of_lease (lease_id : Uuid) (db : WorkflowDb)
    : option (EvidenceDigest * WfNodeReceiptRow) :=
  head (select_rows (λ _ row, sc_lease_id row == lease_id) (workflow_node_receipts db)).

Definition active_lease_of (attempt_id : Uuid) (node_id : WorkflowNodeId) (db : WorkflowDb)
    : option (Uuid * WfLeaseRow) :=
  head (select_rows (λ _ row, (sl_attempt_id row == attempt_id) && (sl_node_id row == node_id)
                              && (sl_state row == Lease_Active)) (workflow_lease_journal db)).

Definition ordinal_compare (l r : Uuid * WorkflowNodeId * WfNodeRow) : comparison :=
  sn_ordinal l.2 ?= sn_ordinal r.2.

(** Each node of the attempt in ordinal order, with the time its committed or else
    its active lease began and the bytes of its receipt. *)
Definition read_workflow_node_snapshot_rows (attempt_id : Uuid) (db : WorkflowDb)
    : list (WorkflowNodeId * WfNodeRow * option Z * option (list Z)) :=
  (λ entry : Uuid * WorkflowNodeId * WfNodeRow,
     let '(key, row) := entry in
     let receipt := receipt_of_node attempt_id key.2 db in
     let committed := receipt ← receipt; workflow_lease_journal db !! sc_lease_id receipt.2 in
     let started := match sl_leased_at_ms <$> committed with
                    | Some leased_at_ms => Some leased_at_ms
                    | None => (λ lease, sl_leased_at_ms lease.2) <$> active_lease_of attempt_id key.2 db
                    end in
     (key.2, row, started, (λ receipt, sc_receipt_json receipt.2) <$> receipt)) <$>
  sort_by ordinal_compare (select_rows (λ key _, key.1 == attempt_id) (workflow_nodes db)).

(** [SELECT dependency_node_id .. ORDER BY dependency_node_id]. *)
Definition dependency_ids (attempt_id : Uuid) (node_id : WorkflowNodeId) (db : WorkflowDb)
    : list WorkflowNodeId :=
  sort_node_ids (snd <$> filter (λ entry, entry.1 = (attempt_id, node_id))
                           (elements (workflow_node_dependencies db))).

Definition validate_persisted_dependencies (attempt_id : Uuid) (manifest_node : WorkflowNodeV1)
    (db : WorkflowDb) : Result StoreError unit :=
  ensure (dependency_ids attempt_id (wn_node_id manifest_node) db == wn_depends_on manifest_node)
    (CorruptWorkflowJournal "node dependency binding").

(** [Option::map(decode).transpose()]. *)
Definition decode_optional_document {A} (decode : list Z → Result WorkflowContractError A)
    (json : option (list Z)) : Result StoreError (option A) :=
  match json with
  | None => Ok None
  | Some bytes => let? value := contract (decode bytes) in Ok (Some value)
  end.

Definition snapshot_node (context : AttemptContext) (db : WorkflowDb)
    (entry : nat * (WorkflowNodeV1 * (WorkflowNodeId * WfNodeRow * option Z * option (list Z))))
    : Result StoreError WorkflowNodeSnapshotV1 :=
  let '(index, (manifest_node, (node_id, row, started_at_ms, receipt_json))) := entry in
  let? profile := ok_or (CorruptWorkflowJournal "snapshot profile")
                    (WorkflowPolicy_profile (pm_workflow (cx_manifest context))
                       (wn_profile_id manifest_node)) in
  let? _ := ensure ((sn_ordinal row == Z.of_nat index)
                    && (node_id == wn_node_id manifest_node)
                    && (sn_node_kind row == wn_kind manifest_node)
                    && (sn_activation row == wn_activation manifest_node)
                    && (sn_profile_id row == wn_profile_id manifest_node)
                    && (sn_worker_pool row == wep_worker_pool profile))
              (CorruptWorkflowJournal "node manifest binding") in
  let? _ := validate_persisted_dependencies (cx_attempt_id context) manifest_node db in
  let? receipt := decode_optional_document NodeReceipt_decode_canonical receipt_json in
  let? lease_generation := ok_or (CorruptWorkflowJournal "node lease generation")
                             (u32_try_from (sn_lease_generation row)) in
  Ok {|
    ns_node_id := wn_node_id manifest_node;
    ns_kind := wn_kind manifest_node;
    ns_profile_id := wn_profile_id manifest_node;
    ns_worker_pool := wep_worker_pool profile;
    ns_state := sn_state row;
    ns_lease_generation := lease_generation;
    ns_output_digest := sn_output_digest row;
    ns_receipt_digest := sn_receipt_digest row;
    ns_started_at_ms := started_at_ms;
    ns_completed_at_ms := sn_completed_at_ms row;
    ns_output_size_bytes := receipt ≫= wnr_output_size_bytes
  |}.

Definition load_attempt_snapshot (attempt_id : Uuid) (db : WorkflowDb)
    : Result StoreError WorkflowAttemptSnapshotV1 :=
  let? context := load_attempt_context attempt_id db in
  let? ordered_manifest := contract (ordered_nodes (pm_workflow (cx_manifest context))) in
  let rows := read_workflow_node_snapshot_rows attempt_id db in
  let? _ := ensure (length rows == length ordered_manifest)
              (CorruptWorkflowJournal "node cardinality") in
  let? nodes := mapM (snapshot_node context db) (imap pair (zip ordered_manifest rows)) in
  Ok {|
    ap_request_id := cx_request_id context;
    ap_attempt_id := cx_attempt_id context;
    ap_attempt_number := cx_attempt_number context;
    ap_project_id := cx_project_id context;
    ap_source_sha := cx_source_sha context;
    ap_source_sequence := cx_source_sequence context;
    ap_workflow_policy_digest := cx_workflow_policy_digest context;
    ap_source_attestation_digest := cx_source_attestation_digest context;
    ap_preparation_key := cx_preparation_key context;
    ap_priority := cx_priority context;
    ap_execution_mode := cx_execution_mode context;
    ap_state := cx_attempt_state context;
    ap_mutation_state := cx_mutation_state context;
    ap_cleanup_state := cx_cleanup_state context;
    ap_created_at_ms := cx_created_at_ms context;
    ap_updated_at_ms := cx_updated_at_ms context;
    ap_terminal_at_ms := cx_terminal_at_ms context;
    ap_nodes := nodes
  |}.

Definition attempt_number_desc (l r : Uuid * WfAttemptRow) : comparison :=
  sa_attempt_number r.2 ?= sa_attempt_number l.2.

Definition load_latest_attempt_for_request (request_id : Uuid) (db : WorkflowDb)
    : Result StoreError WorkflowAttemptSnapshotV1 :=
  let? latest := ok_or (CorruptWorkflowJournal "request without attempt")
                   (head (sort_by attempt_number_desc
                     (select_rows (λ _ row, sa_request_id row == request_id)
                        (workflow_attempts db)))) in
  load_attempt_snapshot latest.1 db.

(** A lease that still owes its cleanup: the condition the three cleanup queries
    share. *)
Definition owes_cleanup (db : WorkflowDb) (lease_id : Uuid) (row : WfLeaseRow) : bool :=
  negb (row_exists (λ _ cleanup, sk_lease_id cleanup == lease_id) (workflow_cleanup_receipts db))
  && (contains [Lease_Expired; Lease_Revoked] (sl_state row)
      || ((sl_state row == Lease_Committed)
          && opt_is_some_and (receipt_of_lease lease_id db)
               (λ receipt, json_extract_cleanup_result (sc_receipt_json receipt.2)
                           == Some "pending"%string))).

Definition unresolved_cleanup_count (attempt_id : Uuid) (db : WorkflowDb) : Z :=
  Z.of_nat (length (select_rows (λ lease_id row,
    (sl_attempt_id row == attempt_id) && owes_cleanup db lease_id row) (workflow_lease_journal db))).

Definition worker_has_pending_cleanup (worker : WorkflowWorkerRegistrationV1) (db : WorkflowDb) : bool :=
  row_exists (λ lease_id row,
    (sl_worker_id row == wk_worker_id worker) && (sl_host_id row == wk_host_id worker)
    && owes_cleanup db lease_id row) (workflow_lease_journal db).

Definition active_lease_count (attempt_id : Uuid) (db : WorkflowDb) : Z :=
  Z.of_nat (length (select_rows (λ _ row,
    (sl_attempt_id row == attempt_id) && (sl_state row == Lease_Active)) (workflow_lease_journal db))).

(** ** Ends of an attempt *)

(** [if changed != 1 { return Err(e) }]. *)
Definition expect_one (changed : Z) (e : StoreError) : WorkflowTx unit :=
  lift (ensure (changed == 1) e).

Definition open_node (state : WorkflowNodeStateV1) : bool :=
  contains [NodeState_Dormant; NodeState_Blocked; NodeState_Ready; NodeState_Leased] state.

Definition revoke_active_leases (attempt_id : Uuid) (closed_at_ms : Z) : WorkflowTx Z :=
  update_leases
    (λ _ row, (sl_attempt_id row == attempt_id) && (sl_state row == Lease_Active))
    (λ row, row <| sl_state := Lease_Revoked |> <| sl_closed_at_ms := Some closed_at_ms |>).

Definition cancel_open_nodes (attempt_id : Uuid) (completed_at_ms : Z) : WorkflowTx Z :=
  update_nodes
    (λ key row, (key.1 == attempt_id) && open_node (sn_state row))
    (λ row, row <| sn_state := NodeState_Cancelled |> <| sn_completed_at_ms := Some completed_at_ms |>).

(** The two statements that end all the work of an attempt. *)
Definition abandon_work (attempt_id : Uuid) (recorded_at_ms : Z) : WorkflowTx unit :=
  let? _ := revoke_active_leases attempt_id recorded_at_ms in
  let? _ := cancel_open_nodes attempt_id recorded_at_ms in
  tx_ok tt.

(** [UPDATE workflow_requests SET state = 'terminal' .. WHERE request_id = (SELECT
    request_id FROM workflow_attempts WHERE attempt_id = ?1) AND state = 'active']. *)
Definition close_request_of (attempt_id : Uuid) (recorded_at_ms : Z) : WorkflowTx Z :=
  let? attempt := gets (λ db, workflow_attempts db !! attempt_id) in
  update_requests
    (λ request_id row, (Some request_id == (sa_request_id <$> attempt))
                       && (sr_state row == Request_Active))
    (λ row, row <| sr_state := Request_Terminal |> <| sr_updated_at_ms := recorded_at_ms |>).

Definition waiting_compare (l r : Uuid * WfAttemptRow) : comparison :=
  sa_created_at_ms l.2 ?= sa_created_at_ms r.2.

(** The attempts that wait for a mutation of their project that is over. *)
Definition waiting_attempts (db : WorkflowDb) : list Uuid :=
  fst <$> sort_by waiting_compare (select_rows (λ _ row,
    (sa_state row == Attempt_WaitingForMutation)
    && opt_is_some_and (workflow_requests db !! sa_request_id row) (λ request,
         (sr_state request == Request_Active)
         && is_none (workflow_mutation_locks db !! sr_project_id request))) (workflow_attempts db)).

Definition wake_attempt (now_ms : Z) (attempt_id : Uuid) : WorkflowTx unit :=
  let? _ := update_attempts
              (λ id row, (id == attempt_id) && (sa_state row == Attempt_WaitingForMutation))
              (λ row, row <| sa_state := Attempt_Queued |> <| sa_updated_at_ms := now_ms |>) in
  let? _ := update_nodes
              (λ key row, (key.1 == attempt_id) && (sn_node_kind row == Node_HostPrepare)
                          && (sn_state row == NodeState_Blocked))
              (λ row, row <| sn_state := NodeState_Ready |>) in
  tx_ok tt.

Definition wake_waiting_attempts (now_ms : Z) : WorkflowTx unit :=
  let? attempts := gets waiting_attempts in
  tx_for_each (wake_attempt now_ms) attempts.

Definition fail_terminal_workflow (attempt_id : Uuid) (cleanup_result : WorkflowCleanupResultV1)
    (recorded_at_ms : Z) : WorkflowTx unit :=
  let? active_leases := gets (active_lease_count attempt_id) in
  let? _ := abandon_work attempt_id recorded_at_ms in
  let cleanup_state :=
    if (active_leases == 0) && (cleanup_result == NodeCleanup_Complete)
    then CleanupState_Complete else CleanupState_Pending in
  let? changed := update_attempts
                    (λ id row, (id == attempt_id) && (sa_mutation_state row == Mutation_NotStarted))
                    (λ row, row <| sa_state := Attempt_Failed |>
                                <| sa_cleanup_state := cleanup_state |>
                                <| sa_updated_at_ms := recorded_at_ms |>
                                <| sa_terminal_at_ms := Some recorded_at_ms |>) in
  let? _ := expect_one changed WorkflowStateConflict in
  let? changed := close_request_of attempt_id recorded_at_ms in
  expect_one changed WorkflowStateConflict.

Definition mark_workflow_needs_reconcile (attempt_id : Uuid)
    (cleanup_result : WorkflowCleanupResultV1) (recorded_at_ms : Z) : WorkflowTx unit :=
  let cleanup_state := match cleanup_result with
                       | NodeCleanup_Complete => CleanupState_Complete
                       | NodeCleanup_Pending => CleanupState_Pending
                       end in
  let? changed := update_attempts (λ id _, id == attempt_id)
                    (λ row, row <| sa_state := Attempt_NeedsReconcile |>
                                <| sa_mutation_state := Mutation_NeedsReconcile |>
                                <| sa_cleanup_state := cleanup_state |>
                                <| sa_updated_at_ms := recorded_at_ms |>) in
  let? _ := expect_one changed WorkflowStateConflict in
  let? changed := update_locks (λ _ row, so_attempt_id row == attempt_id)
                    (λ row, row <| so_state := Lock_NeedsReconcile |>
                                <| so_updated_at_ms := recorded_at_ms |>) in
  expect_one changed (CorruptWorkflowJournal "mutation failure without lock").

Definition fail_workflow (attempt_id : Uuid) (node_kind : WorkflowNodeKindV1)
    (cleanup_result : WorkflowCleanupResultV1) (handoff_publication : bool) (recorded_at_ms : Z)
    : WorkflowTx unit :=
  if is_mutation node_kind || handoff_publication
  then mark_workflow_needs_reconcile attempt_id cleanup_result recorded_at_ms
  else fail_terminal_workflow attempt_id cleanup_result recorded_at_ms.

Definition shadow_node_finished (row : WfNodeRow) : bool :=
  sn_state row == (if shadow_executes (sn_node_kind row) then NodeState_Succeeded
                   else NodeState_Cancelled).

Definition complete_shadow_workflow (context : AttemptContext) (recorded_at_ms : Z)
    : WorkflowTx unit :=
  let? _ := lift (ensure ((cx_execution_mode context == Mode_Shadow)
                          && (cx_mutation_state context == Mutation_NotStarted))
                    WorkflowStateConflict) in
  let? rows := gets (λ db, select_rows (λ key _, key.1 == cx_attempt_id context)
                             (workflow_nodes db)) in
  let? _ := lift (ensure (forallb (λ entry, shadow_node_finished entry.2) rows)
                    WorkflowStateConflict) in
  let? pending_cleanup := gets (unresolved_cleanup_count (cx_attempt_id context)) in
  let? _ := lift (ensure (pending_cleanup == 0) WorkflowStateConflict) in
  let? mutation_locks := gets (λ db, select_rows
                           (λ _ row, so_attempt_id row == cx_attempt_id context)
                           (workflow_mutation_locks db)) in
  let? _ := lift (ensure (mutation_locks == [])
                    (CorruptWorkflowJournal "shadow workflow acquired a mutation lock")) in
  let? changed := update_attempts
                    (λ id row, (id == cx_attempt_id context) && (sa_state row == Attempt_Running)
                               && (sa_mutation_state row == Mutation_NotStarted))
                    (λ row, row <| sa_state := Attempt_Succeeded |>
                                <| sa_cleanup_state := CleanupState_Complete |>
                                <| sa_updated_at_ms := recorded_at_ms |>
                                <| sa_terminal_at_ms := Some recorded_at_ms |>) in
  let? _ := expect_one changed WorkflowStateConflict in
  let? changed := update_requests
                    (λ id row, (id == cx_request_id context)
                               && (sr_operation_kind row == Mode_Shadow)
                               && (sr_state row == Request_Active))
                    (λ row, row <| sr_state := Request_Terminal |>
                                <| sr_updated_at_ms := recorded_at_ms |>) in
  expect_one changed WorkflowStateConflict.

Definition complete_workflow (attempt_id : Uuid) (recorded_at_ms : Z) : WorkflowTx unit :=
  let? incomplete := gets (λ db, select_rows
                       (λ key row, (key.1 == attempt_id)
                                   && (sn_activation row == Activation_Always)
                                   && (sn_state row != NodeState_Succeeded)) (workflow_nodes db)) in
  let? pending_cleanup := gets (unresolved_cleanup_count attempt_id) in
  let? _ := lift (ensure ((Z.of_nat (length incomplete) == 0) && (pending_cleanup == 0))
                    WorkflowStateConflict) in
  let? _ := update_nodes
              (λ key row, (key.1 == attempt_id)
                          && (sn_activation row == Activation_OnMutationFailure)
                          && (sn_state row == NodeState_Dormant))
              (λ row, row <| sn_state := NodeState_Cancelled |>
                          <| sn_completed_at_ms := Some recorded_at_ms |>) in
  let? changed := update_attempts
                    (λ id row, (id == attempt_id) && (sa_state row == Attempt_Running))
                    (λ row, row <| sa_state := Attempt_Succeeded |>
                                <| sa_mutation_state := Mutation_Complete |>
                                <| sa_cleanup_state := CleanupState_Complete |>
                                <| sa_updated_at_ms := recorded_at_ms |>
                                <| sa_terminal_at_ms := Some recorded_at_ms |>) in
  let? _ := expect_one changed WorkflowStateConflict in
  let? changed := close_request_of attempt_id recorded_at_ms in
  let? _ := expect_one changed WorkflowStateConflict in
  let? changed := delete_locks (λ _ row, (so_attempt_id row == attempt_id)
                                         && (so_state row == Lock_Held)) in
  let? _ := expect_one changed
              (CorruptWorkflowJournal "completed mutation without held project lock") in
  wake_waiting_attempts recorded_at_ms.

(** The nodes [advance_ready_nodes] selects: blocked, always activated, with no
    prerequisite that has not succeeded. *)
Definition advanceable_nodes (attempt_id : Uuid) (db : WorkflowDb) : list WorkflowNodeId :=
  (λ entry : Uuid * WorkflowNodeId * WfNodeRow, entry.1.2) <$>
  sort_by ordinal_compare (select_rows (λ key row,
    (key.1 == attempt_id) && (sn_state row == NodeState_Blocked)
    && (sn_activation row == Activation_Always)
    && forallb (λ dependency,
         match workflow_nodes db !! (attempt_id, dependency) with
         | Some prerequisite => sn_state prerequisite == NodeState_Succeeded
         | None => true
         end) (dependency_ids attempt_id key.2 db)) (workflow_nodes db)).

Definition ready_node (attempt_id : Uuid) (node_id : WorkflowNodeId) : WorkflowTx unit :=
  let? _ := update_nodes
              (λ key row, (key == (attempt_id, node_id)) && (sn_state row == NodeState_Blocked))
              (λ row, row <| sn_state := NodeState_Ready |>) in
  tx_ok tt.

Fixpoint advance_loop (fuel : nat) (attempt_id : Uuid) : WorkflowTx unit :=
  match fuel with
  | O => tx_ok tt
  | S fuel =>
      let? ready := gets (advanceable_nodes attempt_id) in
      match ready with
      | [] => tx_ok tt
      | _ => let? _ := tx_for_each (ready_node attempt_id) ready in advance_loop fuel attempt_id
      end
  end.

(** A node that becomes ready has not succeeded, so the second iteration selects
    nothing and ends the loop. *)
Definition advance_ready_nodes (attempt_id : Uuid) : WorkflowTx unit := advance_loop 2 attempt_id.

(** ** Admission *)

Definition validate_admission (manifest : ProjectManifestV2) (admission : WorkflowAdmissionV1)
    (admitted_at_ms : Z) : Result StoreError unit :=
  let? _ := manifest_contract (ProjectManifest_validate manifest) in
  let? _ := ensure (wad_project_id admission == pm_project_id manifest) WorkflowPolicyMismatch in
  let? digest := manifest_contract (workflow_policy_digest manifest) in
  let? _ := ensure (wad_workflow_policy_digest admission == digest) WorkflowPolicyMismatch in
  if (wad_source_sequence admission =? 0)
     || (admitted_at_ms <? 0)
     || (3 <? wad_priority admission)
     || negb (valid_delivery_id (wad_delivery_id admission))
     || ((wad_execution_mode admission == Mode_Shadow)
         && (wad_trigger_channel admission != Channel_ManualShadow))
     || ((wad_execution_mode admission == Mode_Deploy)
         && (wad_trigger_channel admission == Channel_ManualShadow))
  then Err (InvalidWorkflowSchedulerInput "admission")
  else Ok tt.

Definition replayed_trigger (admission : WorkflowAdmissionV1) (db : WorkflowDb)
    : Result StoreError (option WorkflowAttemptSnapshotV1) :=
  match workflow_triggers db !! (wad_trigger_channel admission, wad_delivery_id admission) with
  | None => Ok None
  | Some row =>
      if sg_payload_digest row != wad_payload_digest admission then Err WorkflowDeliveryConflict
      else let? attempt := load_latest_attempt_for_request (sg_request_id row) db in
           Ok (Some attempt)
  end.

Definition validate_project_head (admission : WorkflowAdmissionV1) (db : WorkflowDb)
    : Result StoreError unit :=
  match workflow_project_heads db !! wad_project_id admission with
  | None => Ok tt
  | Some head =>
      let? sequence := to_u64 (sh_source_sequence head) "project source sequence" in
      if wad_source_sequence admission <? sequence then Err WorkflowStaleSource
      else if (wad_source_sequence admission =? sequence)
              && (wad_source_sha admission != sh_source_sha head)
      then Err WorkflowSourceConflict
      else Ok tt
  end.

Definition find_stable_request (admission : WorkflowAdmissionV1) (db : WorkflowDb) : option Uuid :=
  fst <$> head (select_rows (λ _ row,
    (sr_project_id row == wad_project_id admission)
    && (sr_workflow_policy_digest row == wad_workflow_policy_digest admission)
    && (sr_source_sha row == wad_source_sha admission)
    && (sr_operation_kind row == wad_execution_mode admission)) (workflow_requests db)).

Definition record_trigger (admission : WorkflowAdmissionV1) (request_id : Uuid)
    (admitted_at_ms : Z) : WorkflowTx unit :=
  insert_trigger (wad_trigger_channel admission, wad_delivery_id admission) {|
    sg_payload_digest := wad_payload_digest admission;
    sg_request_id := request_id;
    sg_received_at_ms := admitted_at_ms |}.

Definition update_project_head (admission : WorkflowAdmissionV1) (request_id : Uuid)
    (admitted_at_ms : Z) : WorkflowTx unit :=
  let? sequence := lift (to_i64 (wad_source_sequence admission) "source sequence") in
  upsert_project_head (wad_project_id admission) {|
    sh_source_sequence := sequence;
    sh_source_sha := wad_source_sha admission;
    sh_request_id := request_id;
    sh_updated_at_ms := admitted_at_ms |}.

(** The open attempts of the project's other requests in this mode. *)
Definition superseded_rows (project_id : ProjectId) (execution_mode : WorkflowExecutionModeV1)
    (new_request_id : Uuid) (db : WorkflowDb) : list (Uuid * WfAttemptRow) :=
  sort_by waiting_compare (select_rows (λ _ row,
    (sa_request_id row != new_request_id)
    && contains [Attempt_Queued; Attempt_WaitingForMutation; Attempt_Running; Attempt_NeedsReconcile]
         (sa_state row)
    && opt_is_some_and (workflow_requests db !! sa_request_id row) (λ request,
         (sr_project_id request == project_id) && (sr_operation_kind request == execution_mode)))
    (workflow_attempts db)).

(** The body of the loop for an attempt that has not begun to mutate. *)
Definition supersede_attempt (new_request_id : Uuid) (recorded_at_ms : Z)
    (entry : Uuid * WfAttemptRow) : WorkflowTx unit :=
  let '(attempt_id, row) := entry in
  let? active_leases := gets (active_lease_count attempt_id) in
  let? _ := abandon_work attempt_id recorded_at_ms in
  let? _ := update_attempts
              (λ id row, (id == attempt_id) && (sa_mutation_state row == Mutation_NotStarted))
              (λ row, row <| sa_state := Attempt_Superseded |>
                          <| sa_cleanup_state := if active_leases == 0 then CleanupState_Complete
                                                 else CleanupState_Pending |>
                          <| sa_updated_at_ms := recorded_at_ms |>
                          <| sa_terminal_at_ms := Some recorded_at_ms |>) in
  let? _ := update_requests
              (λ id row', (id == sa_request_id row) && (sr_state row' == Request_Active))
              (λ row', row' <| sr_state := Request_Superseded |>
                            <| sr_superseded_by_request_id := Some new_request_id |>
                            <| sr_updated_at_ms := recorded_at_ms |>) in
  append_transition attempt_id "attempt" (uuid_to_string attempt_id)
    (Some (AttemptState_as_str (sa_state row))) (AttemptState_as_str Attempt_Superseded)
    "newer_source_head" None recorded_at_ms.

Definition supersede_pre_mutation_attempts (project_id : ProjectId)
    (execution_mode : WorkflowExecutionModeV1) (new_request_id : Uuid) (recorded_at_ms : Z)
    : WorkflowTx bool :=
  let? rows := gets (superseded_rows project_id execution_mode new_request_id) in
  let mutating (entry : Uuid * WfAttemptRow) := sa_mutation_state entry.2 != Mutation_NotStarted in
  let? _ := tx_for_each (λ entry, if mutating entry then tx_ok tt
                                  else supersede_attempt new_request_id recorded_at_ms entry) rows in
  tx_ok ((execution_mode == Mode_Deploy) && existsb mutating rows).

(** The state a node of a new attempt starts in, with its output and receipt digest
    and the time it was completed. *)
Definition initial_node_state (admission : WorkflowAdmissionV1) (waiting_for_mutation : bool)
    (created_at_ms : Z) (kind : WorkflowNodeKindV1)
    : WorkflowNodeStateV1 * option EvidenceDigest * option Z :=
  if kind == Node_SourceAdmission then
    (NodeState_Succeeded, Some (wad_source_attestation_digest admission), Some created_at_ms)
  else if (wad_execution_mode admission == Mode_Shadow) && negb (shadow_executes kind) then
    (NodeState_Cancelled, None, Some created_at_ms)
  else if (kind == Node_HostPrepare) && negb waiting_for_mutation then (NodeState_Ready, None, None)
  else if kind == Node_Rollback then (NodeState_Dormant, None, None)
  else (NodeState_Blocked, None, None).

Definition create_node (manifest : ProjectManifestV2) (admission : WorkflowAdmissionV1)
    (attempt_id : Uuid) (waiting_for_mutation : bool) (created_at_ms : Z)
    (entry : nat * WorkflowNodeV1) : WorkflowTx unit :=
  let '(ordinal, node) := entry in
  let? profile := lift (ok_or (CorruptWorkflowJournal "manifest node profile")
                          (WorkflowPolicy_profile (pm_workflow manifest) (wn_profile_id node))) in
  let '(state, digest, completed_at_ms) :=
    initial_node_state admission waiting_for_mutation created_at_ms (wn_kind node) in
  let? ordinal := lift (ok_or (InvalidWorkflowSchedulerInput "node ordinal")
                          (i64_try_from (Z.of_nat ordinal))) in
  let? _ := insert_node attempt_id (wn_node_id node) {|
    sn_ordinal := ordinal;
    sn_node_kind := wn_kind node;
    sn_activation := wn_activation node;
    sn_profile_id := wn_profile_id node;
    sn_worker_pool := wep_worker_pool profile;
    sn_state := state;
    sn_lease_generation := 0;
    sn_output_digest := digest;
    sn_receipt_digest := digest;
    sn_completed_at_ms := completed_at_ms |} in
  tx_for_each (insert_dependency attempt_id (wn_node_id node)) (wn_depends_on node).

Definition create_workflow_attempt (manifest : ProjectManifestV2) (admission : WorkflowAdmissionV1)
    (request_id attempt_id : Uuid) (waiting_for_mutation : bool) (created_at_ms : Z)
    : WorkflowTx WorkflowAttemptSnapshotV1 :=
  let? key := lift (preparation_key admission) in
  let state := if waiting_for_mutation then Attempt_WaitingForMutation else Attempt_Queued in
  let? _ := insert_workflow_attempt attempt_id {|
    sa_request_id := request_id;
    sa_attempt_number := 1;
    sa_preparation_key := key;
    sa_state := state;
    sa_mutation_state := Mutation_NotStarted;
    sa_cleanup_state := CleanupState_Complete;
    sa_created_at_ms := created_at_ms;
    sa_updated_at_ms := created_at_ms;
    sa_terminal_at_ms := None |} in
  let? ordered := lift (contract (ordered_nodes (pm_workflow manifest))) in
  let? _ := tx_for_each
              (create_node manifest admission attempt_id waiting_for_mutation created_at_ms)
              (imap pair ordered) in
  let? _ := append_transition attempt_id "attempt" (uuid_to_string attempt_id) None
              (AttemptState_as_str state) "source_admitted"
              (Some (wad_source_attestation_digest admission)) created_at_ms in
  reads (load_attempt_snapshot attempt_id).

Definition admit_new (manifest : ProjectManifestV2) (manifest_json : list Z)
    (admission : WorkflowAdmissionV1) (request_id attempt_id : Uuid) (admitted_at_ms : Z)
    : WorkflowTx WorkflowAdmissionOutcomeV1 :=
  let? sequence := lift (to_i64 (wad_source_sequence admission) "source sequence") in
  let? _ := insert_workflow_request request_id {|
    sr_project_id := wad_project_id admission;
    sr_workflow_policy_digest := wad_workflow_policy_digest admission;
    sr_source_sha := wad_source_sha admission;
    sr_operation_kind := wad_execution_mode admission;
    sr_source_sequence := sequence;
    sr_source_attestation_digest := wad_source_attestation_digest admission;
    sr_manifest_json := manifest_json;
    sr_priority := wad_priority admission;
    sr_state := Request_Active;
    sr_superseded_by_request_id := None;
    sr_created_at_ms := admitted_at_ms;
    sr_updated_at_ms := admitted_at_ms |} in
  let? waiting_for_mutation := supersede_pre_mutation_attempts (wad_project_id admission)
                                 (wad_execution_mode admission) request_id admitted_at_ms in
  let? attempt := create_workflow_attempt manifest admission request_id attempt_id waiting_for_mutation
                    admitted_at_ms in
  let? _ := record_trigger admission request_id admitted_at_ms in
  let? _ := update_project_head admission request_id admitted_at_ms in
  tx_ok (Admission_Created attempt).

Definition admit_transaction (manifest : ProjectManifestV2) (manifest_json : list Z)
    (admission : WorkflowAdmissionV1) (new_request_id new_attempt_id : Uuid) (admitted_at_ms : Z)
    : WorkflowTx WorkflowAdmissionOutcomeV1 :=
  let? replayed := reads (replayed_trigger admission) in
  match replayed with
  | Some existing => tx_ok (Admission_Existing existing)
  | None =>
      let? _ := reads (validate_project_head admission) in
      let? stable := gets (find_stable_request admission) in
      match stable with
      | Some request_id =>
          let? attempt := reads (load_latest_attempt_for_request request_id) in
          let? _ := record_trigger admission request_id admitted_at_ms in
          let? _ := update_project_head admission request_id admitted_at_ms in
          tx_ok (Admission_Existing attempt)
      | None =>
          admit_new manifest manifest_json admission new_request_id new_attempt_id admitted_at_ms
      end
  end.

Definition Scheduler_admit (manifest : ProjectManifestV2) (admission : WorkflowAdmissionV1)
    (new_request_id new_attempt_id : Uuid) (admitted_at_ms : Z)
    : WorkflowDb → WorkflowDb * Result StoreError WorkflowAdmissionOutcomeV1 :=
  immediate_transaction (
    let? _ := lift (validate_admission manifest admission admitted_at_ms) in
    let? manifest_bytes := lift (manifest_contract (ProjectManifest_canonical_bytes manifest)) in
    let? _ := lift (ensure (valid_utf8 manifest_bytes)
                      (InvalidWorkflowSchedulerInput "manifest encoding")) in
    admit_transaction manifest manifest_bytes admission new_request_id new_attempt_id admitted_at_ms).

Definition Scheduler_attempt (attempt_id : Uuid) (db : WorkflowDb)
    : Result StoreError (option WorkflowAttemptSnapshotV1) :=
  if is_nil attempt_id then Err (InvalidWorkflowSchedulerInput "attempt ID")
  else match workflow_attempts db !! attempt_id with
       | Some _ => let? attempt := load_attempt_snapshot attempt_id db in Ok (Some attempt)
       | None => Ok None
       end.

End Scheduler.
