(* ===== verification/SchedulerLeases.v ===== *)
(** * The workflow scheduler: leases

    [claim_next], [expire_leases] and [renew_lease] of [src/src/scheduler.rs]: the sweep
    that ends the leases past their expiry, the choice of a candidate (one per project,
    in weighted rotation), the mutation lock, the state the nodes of an attempt share,
    and the lease itself. *)

From Stdlib Require Import ZArith Lia Ascii String.
From stdpp Require Import base gmap strings option list_numbers list.
From S2P Require Import Prelude Identifiers States Text Ordered Workflow Manifest Errors SchedulerDb Scheduler.

Local Open Scope Z_scope.

Section SchedulerLeases.
Context `{!SchedulerCodecs}.

(** ** Leases: expiry *)

Definition expire_mutation_lease (attempt_id : Uuid) (node_id : WorkflowNodeId) (now_ms : Z)
    : WorkflowTx unit :=
  let? changed := update_nodes
                    (λ key row, (key == (attempt_id, node_id)) && (sn_state row == NodeState_Leased))
                    (λ row, row <| sn_state := NodeState_NeedsReconcile |>
                                <| sn_completed_at_ms := Some now_ms |>) in
  let? _ := expect_one changed WorkflowStateConflict in
  let? changed := update_attempts (λ id _, id == attempt_id)
                    (λ row, row <| sa_state := Attempt_NeedsReconcile |>
                                <| sa_mutation_state := Mutation_NeedsReconcile |>
                                <| sa_cleanup_state := CleanupState_Pending |>
                                <| sa_updated_at_ms := now_ms |>) in
  let? _ := expect_one changed WorkflowStateConflict in
  let? changed := update_locks (λ _ row, so_attempt_id row == attempt_id)
                    (λ row, row <| so_state := Lock_NeedsReconcile |>
                                <| so_updated_at_ms := now_ms |>) in
  expect_one changed (CorruptWorkflowJournal "mutation lease without project lock").

(** The node of an execution that ran to its deadline has failed, and with it the
    attempt. *)
Definition expire_execution (attempt_id : Uuid) (node_id : WorkflowNodeId)
    (lease : WorkflowLeaseV1) (now_ms : Z) : WorkflowTx unit :=
  let? changed := update_nodes
                    (λ key row, (key == (attempt_id, node_id)) && (sn_state row == NodeState_Leased))
                    (λ row, row <| sn_state := NodeState_Failed |>
                                <| sn_completed_at_ms := Some now_ms |>) in
  let? _ := expect_one changed WorkflowStateConflict in
  let? _ := fail_terminal_workflow attempt_id NodeCleanup_Pending now_ms in
  append_transition attempt_id "node" (WorkflowNodeId_as_str node_id) (Some "leased"%string)
    (NodeState_as_str NodeState_Failed) "execution_deadline_expired"
    (Some (wl_lease_digest lease)) now_ms.

(** The node goes back to the ready ones; its worker owes a cleanup. *)
Definition requeue_node (attempt_id : Uuid) (node_id : WorkflowNodeId) (now_ms : Z)
    : WorkflowTx unit :=
  let? changed := update_nodes
                    (λ key row, (key == (attempt_id, node_id)) && (sn_state row == NodeState_Leased))
                    (λ row, row <| sn_state := NodeState_Ready |>) in
  let? _ := expect_one changed WorkflowStateConflict in
  let? changed := update_attempts (λ id _, id == attempt_id)
                    (λ row, row <| sa_cleanup_state := CleanupState_Pending |>
                                <| sa_updated_at_ms := now_ms |>) in
  expect_one changed WorkflowStateConflict.

Definition expire_one_lease (now_ms : Z) (entry : Uuid * WfLeaseRow) : WorkflowTx unit :=
  let '(lease_id, row) := entry in
  let attempt_id := sl_attempt_id row in
  let node_id := sl_node_id row in
  let? lease := lift (contract (WorkflowLease_decode_canonical (sl_lease_json row))) in
  let? _ := lift (ensure ((wl_lease_id lease == lease_id) && (wl_attempt_id lease == attempt_id)
                          && (wl_node_id lease == node_id))
                    (CorruptWorkflowJournal "expired lease binding")) in
  let? node := reads (λ db, ok_or (Sqlite QueryReturnedNoRows)
                              (workflow_nodes db !! (attempt_id, node_id))) in
  let? _ := lift (ensure (sn_state node == NodeState_Leased)
                    (CorruptWorkflowJournal "active lease node state")) in
  let? changed := update_leases
                    (λ id row, (id == lease_id) && (sl_state row == Lease_Active))
                    (λ row, row <| sl_state := Lease_Expired |>
                                <| sl_closed_at_ms := Some now_ms |>) in
  let? _ := expect_one changed WorkflowLeaseConflict in
  let? context := reads (load_attempt_context attempt_id) in
  let uncertain_delivery :=
    (cx_execution_mode context == Mode_Deploy)
    && (is_mutation (sn_node_kind node)
        || is_self_update_handoff_release (cx_manifest context) (sn_node_kind node)) in
  let? deadline := lift (execution_deadline_ms (wl_leased_at_ms lease) (wl_timeout_ms lease)) in
  let execution_deadline_expired := wl_expires_at_ms lease == deadline in
  let? _ := (if uncertain_delivery then expire_mutation_lease attempt_id node_id now_ms
             else if execution_deadline_expired then expire_execution attempt_id node_id lease now_ms
             else requeue_node attempt_id node_id now_ms) in
  append_transition attempt_id "lease" (uuid_to_string lease_id) (Some "active"%string) "expired"
    (if uncertain_delivery then "mutation_requires_reconciliation"
     else if execution_deadline_expired then "execution_deadline_expired"
     else "worker_lease_expired")%string
    (Some (wl_lease_digest lease)) now_ms.

Definition expiry_compare (l r : Uuid * WfLeaseRow) : comparison :=
  pair_compare (sl_expires_at_ms l.2 ?= sl_expires_at_ms r.2) (l.1 ?= r.1)%N.

Definition expired_leases (now_ms : Z) (db : WorkflowDb) : list (Uuid * WfLeaseRow) :=
  sort_by expiry_compare (select_rows (λ _ row,
    (sl_state row == Lease_Active) && (sl_expires_at_ms row <=? now_ms))
    (workflow_lease_journal db)).

Definition expire_leases_transaction (now_ms : Z) : WorkflowTx Z :=
  let? rows := gets (expired_leases now_ms) in
  let? _ := tx_for_each (expire_one_lease now_ms) rows in
  tx_ok (Z.of_nat (length rows)).

Definition Scheduler_expire_leases (now_ms : Z)
    : WorkflowDb → WorkflowDb * Result StoreError Z :=
  immediate_transaction (
    let? _ := lift (ensure (0 <=? now_ms) (InvalidWorkflowSchedulerInput "lease expiry time")) in
    expire_leases_transaction now_ms).

(** ** Leases: claiming *)

Definition candidate_requires_exclusive_delivery (candidate : ReadyCandidate) : bool :=
  (ro_execution_mode (rd_owned candidate) == Mode_Deploy)
  && (is_mutation (wn_kind (rd_node candidate))
      || is_self_update_handoff_release (ro_manifest (rd_owned candidate))
           (wn_kind (rd_node candidate))).

Definition borrowed (owned : ReadyCandidateOwned) : Result StoreError ReadyCandidate :=
  let? node := ok_or (CorruptWorkflowJournal "candidate manifest node")
                 (WorkflowPolicy_node (pm_workflow (ro_manifest owned)) (ro_node_id owned)) in
  let? profile := ok_or (CorruptWorkflowJournal "candidate manifest profile")
                    (WorkflowPolicy_profile (pm_workflow (ro_manifest owned))
                       (wn_profile_id node)) in
  Ok {| rd_owned := owned; rd_node := node; rd_profile := profile |}.

(** A ready row with its attempt and request. *)
Record CandidateRow : Type := MkCandidateRow {
  cd_attempt_id : Uuid;
  cd_node_id : WorkflowNodeId;
  cd_node : WfNodeRow;
  cd_attempt : WfAttemptRow;
  cd_request : WfRequestRow
}.

Definition candidate_compare (l r : CandidateRow) : comparison :=
  pair_compare (sr_priority (cd_request r) ?= sr_priority (cd_request l))
    (pair_compare (sr_created_at_ms (cd_request l) ?= sr_created_at_ms (cd_request r))
      (pair_compare (sn_ordinal (cd_node l) ?= sn_ordinal (cd_node r))
        (node_id_compare (cd_node_id l) (cd_node_id r)))).

Definition candidate_row (db : WorkflowDb) (entry : Uuid * WorkflowNodeId * WfNodeRow)
    : option CandidateRow :=
  attempt ← workflow_attempts db !! entry.1.1;
  request ← workflow_requests db !! sa_request_id attempt;
  if contains [Attempt_Queued; Attempt_Running] (sa_state attempt)
     && (sr_state request == Request_Active)
  then Some {| cd_attempt_id := entry.1.1; cd_node_id := entry.1.2; cd_node := entry.2;
               cd_attempt := attempt; cd_request := request |}
  else None.

Definition read_ready_candidate_rows (db : WorkflowDb) : list CandidateRow :=
  sort_by candidate_compare (omap (candidate_row db) (select_rows (λ _ row,
    (sn_state row == NodeState_Ready) && (sn_node_kind row != Node_DeterministicReduce))
    (workflow_nodes db))).

(** The body of the loop over the ready rows: the candidate, or nothing when the row
    is not for this worker. *)
Definition candidate_of_row (worker : WorkflowWorkerRegistrationV1) (row : CandidateRow)
    : Result StoreError (option ReadyCandidateOwned) :=
  let request := cd_request row in
  let? manifest := manifest_contract (ProjectManifest_decode_canonical (sr_manifest_json request)) in
  let? _ := ensure (pm_project_id manifest == sr_project_id request) WorkflowPolicyMismatch in
  let? digest := manifest_contract (workflow_policy_digest manifest) in
  let? _ := ensure (digest == sr_workflow_policy_digest request) WorkflowPolicyMismatch in
  let? manifest_node := ok_or (CorruptWorkflowJournal "candidate node absent")
                          (WorkflowPolicy_node (pm_workflow manifest) (cd_node_id row)) in
  let? manifest_profile := ok_or (CorruptWorkflowJournal "candidate profile absent")
                             (WorkflowPolicy_profile (pm_workflow manifest)
                                (wn_profile_id manifest_node)) in
  let? _ := ensure ((wn_kind manifest_node == sn_node_kind (cd_node row))
                    && (wn_profile_id manifest_node == sn_profile_id (cd_node row))
                    && (wep_worker_pool manifest_profile == sn_worker_pool (cd_node row)))
              (CorruptWorkflowJournal "candidate manifest binding") in
  let? _ := ensure (negb ((sr_operation_kind request == Mode_Shadow)
                          && negb (shadow_executes (wn_kind manifest_node))))
              (CorruptWorkflowJournal "shadow workflow exposed a mutation candidate") in
  if verification_feeds_shared_release_output manifest manifest_node
     && negb (has_pool worker Pool_VpsRequired)
  then Ok None
  else
    let? source_sequence := ok_or (CorruptWorkflowJournal "source sequence")
                              (u64_try_from (sr_source_sequence request)) in
    let? lease_generation := ok_or (CorruptWorkflowJournal "lease generation")
                               (u32_try_from (sn_lease_generation (cd_node row))) in
    Ok (Some {|
      ro_request_id := sa_request_id (cd_attempt row);
      ro_attempt_id := cd_attempt_id row;
      ro_project_id := sr_project_id request;
      ro_source_sha := sr_source_sha request;
      ro_source_sequence := source_sequence;
      ro_source_attestation_digest := sr_source_attestation_digest request;
      ro_workflow_policy_digest := sr_workflow_policy_digest request;
      ro_preparation_key := sa_preparation_key (cd_attempt row);
      ro_lease_generation := lease_generation;
      ro_execution_mode := sr_operation_kind request;
      ro_manifest := manifest;
      ro_node_id := cd_node_id row |}).

(** One candidate per project, the first of the ready rows that is for the worker. *)
Fixpoint collect_candidates (worker : WorkflowWorkerRegistrationV1) (rows : list CandidateRow)
    (by_project : list (string * ReadyCandidateOwned))
    : Result StoreError (list (string * ReadyCandidateOwned)) :=
  match rows with
  | [] => Ok by_project
  | row :: rest =>
      let project := ProjectId_as_str (sr_project_id (cd_request row)) in
      if negb (has_pool worker (sn_worker_pool (cd_node row)))
         || btree_contains_key project by_project
      then collect_candidates worker rest by_project
      else
        let? candidate := candidate_of_row worker row in
        match candidate with
        | None => collect_candidates worker rest by_project
        | Some owned => collect_candidates worker rest (btree_insert project owned by_project)
        end
  end.

Definition load_ready_candidates (worker : WorkflowWorkerRegistrationV1) (db : WorkflowDb)
    : Result StoreError (list ReadyCandidateOwned) :=
  let? by_project := collect_candidates worker (read_ready_candidate_rows db) [] in
  Ok by_project.*2.

Definition rotate_left {A} (index : nat) (l : list A) : list A := drop index l ++ take index l.

Definition candidate_project (candidate : ReadyCandidate) : string :=
  ProjectId_as_str (ro_project_id (rd_owned candidate)).

Definition fair_candidate_order (candidates : list ReadyCandidateOwned)
    (last_project_id : option string) (remaining_weight : Z)
    : Result StoreError (list ReadyCandidate) :=
  let? borrowed := mapM borrowed candidates in
  let borrowed := sort_by (λ l r, str_compare (candidate_project l) (candidate_project r)) borrowed in
  match last_project_id with
  | None => Ok borrowed
  | Some last =>
      let current := position (λ candidate, candidate_project candidate == last) borrowed in
      match current with
      | Some index =>
          if 0 <? remaining_weight then Ok (rotate_left index borrowed)
          else Ok (rotate_left (default 0%nat (position (λ candidate,
                 is_lt (str_compare last (candidate_project candidate))) borrowed)) borrowed)
      | None =>
          Ok (rotate_left (default 0%nat (position (λ candidate,
                is_lt (str_compare last (candidate_project candidate))) borrowed)) borrowed)
      end
  end.

Definition load_fairness_cursor (db : WorkflowDb) : Result StoreError (option string * Z) :=
  let cursor := workflow_scheduler_cursor db in
  let? weight := ok_or (CorruptWorkflowJournal "fairness weight")
                   (checked_range 0 u16_max (su_remaining_weight cursor)) in
  Ok (su_last_project_id cursor, weight).

Definition update_fairness_cursor (candidate : ReadyCandidate) (previous_project : option string)
    (previous_remaining : Z) : WorkflowTx unit :=
  let same_project := previous_project == Some (candidate_project candidate) in
  let remaining :=
    if same_project && (0 <? previous_remaining) then previous_remaining - 1
    else Z.max 0 (wpol_fairness_weight (pm_workflow (ro_manifest (rd_owned candidate))) - 1) in
  modify (λ db, db <| workflow_scheduler_cursor :=
                        {| su_last_project_id := Some (candidate_project candidate);
                           su_remaining_weight := remaining |} |>).

Definition acquire_mutation_lock (candidate : ReadyCandidate) (now_ms : Z) : WorkflowTx bool :=
  let owned := rd_owned candidate in
  let? owner := gets (λ db, workflow_mutation_locks db !! ro_project_id owned) in
  match owner with
  | Some lock =>
      if so_attempt_id lock != ro_attempt_id owned then tx_ok false
      else if so_state lock != Lock_Held then tx_err WorkflowStateConflict
      else tx_ok true
  | None =>
      let? _ := insert_lock (ro_project_id owned) {|
        so_attempt_id := ro_attempt_id owned; so_state := Lock_Held;
        so_acquired_at_ms := now_ms; so_updated_at_ms := now_ms |} in
      let? changed := update_attempts
                        (λ id row, (id == ro_attempt_id owned)
                                   && (sa_mutation_state row == Mutation_NotStarted))
                        (λ row, row <| sa_mutation_state := Mutation_Owned |>
                                    <| sa_updated_at_ms := now_ms |>) in
      let? _ := expect_one changed WorkflowStateConflict in
      tx_ok true
  end.

(** *** State shared by the nodes of an attempt *)

(** Whether a lease of the attempt on this worker uses the shared state; the leases
    are decoded until one does. *)
Fixpoint any_uses_state (leases : list (Uuid * WfLeaseRow)) : Result StoreError bool :=
  match leases with
  | [] => Ok false
  | entry :: rest =>
      let? lease := contract (WorkflowLease_decode_canonical (sl_lease_json entry.2)) in
      if is_some (wl_operation_state lease) then Ok true else any_uses_state rest
  end.

Definition active_operation_state_on_host (attempt_id : Uuid) (worker_id host_id : string)
    (db : WorkflowDb) : Result StoreError bool :=
  any_uses_state (select_rows (λ _ row,
    (sl_attempt_id row == attempt_id) && (sl_worker_id row == worker_id)
    && (sl_host_id row == host_id) && (sl_state row == Lease_Active)) (workflow_lease_journal db)).

Definition decode_bound_operation_state (candidate : ReadyCandidate)
    (worker : WorkflowWorkerRegistrationV1) (state_json : list Z)
    : Result StoreError WorkflowOperationStateV1 :=
  let owned := rd_owned candidate in
  let? state := map_err JsonError (json_from_slice state_json) in
  let? encoded := map_err JsonError (jcs_to_vec state) in
  let? _ := ensure ((encoded == state_json)
                    && is_ok (OperationState_validate_for state (ro_attempt_id owned)
                                (ro_project_id owned) (ro_source_sha owned)
                                (ro_workflow_policy_digest owned) (ro_preparation_key owned)
                                (wk_worker_id worker) (wk_host_id worker)))
              (CorruptWorkflowJournal "operation-state binding") in
  Ok state.

(** The loop of [remaining_operation_state_consumers]: the nodes that use the shared
    state, are for this worker, and have not run. *)
Fixpoint collect_consumers (candidate : ReadyCandidate) (worker : WorkflowWorkerRegistrationV1)
    (db : WorkflowDb) (nodes : list WorkflowNodeV1) : Result StoreError (list WorkflowNodeId) :=
  match nodes with
  | [] => Ok []
  | node :: rest =>
      let? profile := ok_or (CorruptWorkflowJournal "operation-state profile absent")
                        (WorkflowPolicy_profile (pm_workflow (ro_manifest (rd_owned candidate)))
                           (wn_profile_id node)) in
      if negb (node_uses_operation_state node (wep_adapter_id profile))
         || (wep_cache_class profile != Cache_PreparedRun)
         || negb (has_pool worker (wep_worker_pool profile))
      then collect_consumers candidate worker db rest
      else
        let? row := ok_or (Sqlite QueryReturnedNoRows)
                      (workflow_nodes db !! (ro_attempt_id (rd_owned candidate), wn_node_id node)) in
        let? consumers := collect_consumers candidate worker db rest in
        Ok (if contains [NodeState_Blocked; NodeState_Ready] (sn_state row)
            then wn_node_id node :: consumers else consumers)
  end.

Definition remaining_operation_state_consumers (candidate : ReadyCandidate)
    (worker : WorkflowWorkerRegistrationV1) (db : WorkflowDb)
    : Result StoreError (list WorkflowNodeId) :=
  let? consumers := collect_consumers candidate worker db
                      (wpol_nodes (pm_workflow (ro_manifest (rd_owned candidate)))) in
  let? _ := ensure (contains consumers (wn_node_id (rd_node candidate)))
              (CorruptWorkflowJournal "operation-state candidate absent") in
  Ok (sort_node_ids consumers).

(** The largest scratch envelope of the consumers that write the state. *)
Fixpoint state_bounds (policy : WorkflowPolicyV1) (consumers : list WorkflowNodeId)
    (max_bytes max_inodes : Z) : Result StoreError (Z * Z) :=
  match consumers with
  | [] => Ok (max_bytes, max_inodes)
  | consumer :: rest =>
      let? node := ok_or (CorruptWorkflowJournal "operation-state consumer absent")
                     (WorkflowPolicy_node policy consumer) in
      let? profile := ok_or (CorruptWorkflowJournal "operation-state resources absent")
                        (WorkflowPolicy_profile policy (wn_profile_id node)) in
      let? resources := ok_or (CorruptWorkflowJournal "operation-state resources absent")
                          (wep_resources profile) in
      if negb (adapter_writes_operation_state (wep_adapter_id profile))
      then state_bounds policy rest max_bytes max_inodes
      else state_bounds policy rest (Z.max max_bytes (wre_scratch_max_bytes resources))
             (Z.max max_inodes (wre_scratch_max_inodes resources))
  end.

Definition operation_state_contract (candidate : ReadyCandidate)
    (worker : WorkflowWorkerRegistrationV1) (consumers : list WorkflowNodeId)
    : Result StoreError WorkflowOperationStateV1 :=
  let owned := rd_owned candidate in
  let? ' (max_bytes, max_inodes) := state_bounds (pm_workflow (ro_manifest owned)) consumers 0 0 in
  contract (OperationState_new (ro_attempt_id owned) (ro_project_id owned) (ro_source_sha owned)
    (ro_workflow_policy_digest owned) (ro_preparation_key owned) (wk_worker_id worker)
    (wk_host_id worker) consumers (Z.min max_bytes SCHEDULER_MAX_STATE_BYTES)
    (Z.min max_inodes SCHEDULER_MAX_STATE_INODES)).

(** The state of an attempt that is bound to a worker already. *)
Definition bound_operation_state (candidate : ReadyCandidate)
    (worker : WorkflowWorkerRegistrationV1) (binding : WfStateBindingRow)
    : WorkflowTx OperationStateSelection :=
  if (sb_worker_id binding == wk_worker_id worker) && (sb_host_id binding == wk_host_id worker)
  then
    let? state := lift (decode_bound_operation_state candidate worker (sb_state_json binding)) in
    let? _ := lift (ensure (contains (wos_consumer_nodes state) (wn_node_id (rd_node candidate)))
                      (CorruptWorkflowJournal "operation-state consumer not bound")) in
    let? busy := reads (active_operation_state_on_host (ro_attempt_id (rd_owned candidate))
                          (wk_worker_id worker) (wk_host_id worker)) in
    tx_ok (if busy : bool then Selection_Busy else Selection_Ready state)
  else tx_ok Selection_Busy.

Definition operation_state_for_candidate (candidate : ReadyCandidate)
    (worker : WorkflowWorkerRegistrationV1) (now_ms : Z) : WorkflowTx OperationStateSelection :=
  let owned := rd_owned candidate in
  if negb (node_uses_operation_state (rd_node candidate) (wep_adapter_id (rd_profile candidate)))
     || (wep_cache_class (rd_profile candidate) != Cache_PreparedRun)
  then tx_ok Selection_NotUsed
  else
    let? binding := gets (λ db, workflow_operation_state_bindings db !! ro_attempt_id owned) in
    let vps_capable := has_pool worker Pool_VpsRequired in
    match binding with
    | Some binding => bound_operation_state candidate worker binding
    | None =>
        let? busy := (if vps_capable
                      then reads (active_operation_state_on_host (ro_attempt_id owned)
                                    (wk_worker_id worker) (wk_host_id worker))
                      else tx_ok false) in
        if busy : bool then tx_ok Selection_Busy
        else
          let? consumers := (if vps_capable
                             then reads (remaining_operation_state_consumers candidate worker)
                             else tx_ok [wn_node_id (rd_node candidate)]) in
          let? state := lift (operation_state_contract candidate worker consumers) in
          let? _ := (if vps_capable then
                       let? bytes := lift (map_err JsonError (jcs_to_vec state)) in
                       let? state_json := lift (canonical_string bytes) in
                       insert_state_binding (ro_attempt_id owned) {|
                         sb_worker_id := wk_worker_id worker;
                         sb_host_id := wk_host_id worker;
                         sb_state_key := wos_state_key state;
                         sb_state_json := state_json;
                         sb_bound_at_ms := now_ms |}
                     else tx_ok tt) in
          tx_ok (Selection_Ready state)
    end.

(** *** Inputs *)

Definition lease_input (manifest : ProjectManifestV2) (attempt_id : Uuid) (db : WorkflowDb)
    (node_id : WorkflowNodeId) : Result StoreError (option WorkflowLeaseInputV1) :=
  match workflow_nodes db !! (attempt_id, node_id) with
  | None => Ok None
  | Some row =>
      let? _ := ensure (sn_state row == NodeState_Succeeded) WorkflowStateConflict in
      let? manifest_node := ok_or (CorruptWorkflowJournal "dependency absent from manifest")
                              (WorkflowPolicy_node (pm_workflow manifest) node_id) in
      let? output := ok_or (CorruptWorkflowJournal "dependency output") (sn_output_digest row) in
      Ok (Some {| wli_node_id := node_id; wli_artifact_kind := wn_output_contract manifest_node;
                  wli_output_digest := output |})
  end.

(** The digest of what a node runs on, and its inputs: the outputs of its
    dependencies, in the order of their names. *)
Definition expected_input_digest (candidate : ReadyCandidate) (db : WorkflowDb)
    : Result StoreError (EvidenceDigest * list WorkflowLeaseInputV1) :=
  let owned := rd_owned candidate in
  let node_id := wn_node_id (rd_node candidate) in
  let? inputs := mapM (lease_input (ro_manifest owned) (ro_attempt_id owned) db)
                   (dependency_ids (ro_attempt_id owned) node_id db) in
  let dependencies := omap id inputs in
  let? _ := ensure (length dependencies == length (wn_depends_on (rd_node candidate)))
              (CorruptWorkflowJournal "dependency cardinality") in
  let? bytes := map_err JsonError (jcs_to_vec {|
    eip_purpose := "rdashboard.workflow-node-input.v1";
    eip_project_id := ro_project_id owned;
    eip_source_sha := ro_source_sha owned;
    eip_workflow_policy_digest := ro_workflow_policy_digest owned;
    eip_preparation_key := ro_preparation_key owned;
    eip_node_id := node_id;
    eip_dependencies := dependencies |}) in
  Ok (EvidenceDigest_sha256 bytes, dependencies).

(** *** The lease *)

Definition persist_active_lease (lease : WorkflowLeaseV1) (previous_generation now_ms : Z)
    : WorkflowTx unit :=
  let? bytes := lift (contract (WorkflowLease_canonical_bytes lease)) in
  let? lease_json := lift (canonical_string bytes) in
  let? _ := insert_lease (wl_lease_id lease) {|
    sl_attempt_id := wl_attempt_id lease;
    sl_node_id := wl_node_id lease;
    sl_generation := wl_lease_generation lease;
    sl_worker_id := wl_worker_id lease;
    sl_host_id := wl_host_id lease;
    sl_expected_input_digest := wl_expected_input_digest lease;
    sl_lease_digest := wl_lease_digest lease;
    sl_lease_json := lease_json;
    sl_state := Lease_Active;
    sl_leased_at_ms := wl_leased_at_ms lease;
    sl_expires_at_ms := wl_expires_at_ms lease;
    sl_closed_at_ms := None;
    sl_receipt_digest := None |} in
  let? changed := update_nodes
                    (λ key row, (key == (wl_attempt_id lease, wl_node_id lease))
                                && (sn_state row == NodeState_Ready)
                                && (sn_lease_generation row == previous_generation))
                    (λ row, row <| sn_state := NodeState_Leased |>
                                <| sn_lease_generation := wl_lease_generation lease |>) in
  let? _ := expect_one changed WorkflowStateConflict in
  let? changed := update_attempts
                    (λ id row, (id == wl_attempt_id lease)
                               && contains [Attempt_Queued; Attempt_Running] (sa_state row))
                    (λ row, row <| sa_state := Attempt_Running |> <| sa_updated_at_ms := now_ms |>) in
  let? _ := expect_one changed WorkflowStateConflict in
  append_transition (wl_attempt_id lease) "lease" (uuid_to_string (wl_lease_id lease)) None "active"
    "worker_claimed" (Some (wl_lease_digest lease)) now_ms.

Definition candidate_host_preparation (candidate : ReadyCandidate)
    : option WorkflowHostPreparationPolicyV1 :=
  match wn_kind (rd_node candidate) with
  | Node_HostPrepare | Node_Verification | Node_ReleaseBuild =>
      pm_host_preparation (ro_manifest (rd_owned candidate))
  | _ => None
  end.

(** The lease of a candidate whose lock and state are settled. *)
Definition candidate_lease (lease_id : Uuid) (candidate : ReadyCandidate)
    (operation_state : option WorkflowOperationStateV1) (worker : WorkflowWorkerRegistrationV1)
    (now_ms lease_duration_ms : Z) (db : WorkflowDb) : Result StoreError WorkflowLeaseV1 :=
  let owned := rd_owned candidate in
  let? ' (digest, input_artifacts) := expected_input_digest candidate db in
  let? generation := ok_or (CorruptWorkflowJournal "lease generation")
                       (u32_checked_add (ro_lease_generation owned) 1) in
  let? expires_at_ms := bounded_lease_expiry now_ms now_ms lease_duration_ms
                          (wep_timeout_ms (rd_profile candidate)) in
  let? lease := contract (WorkflowLease_new lease_id generation (ro_request_id owned)
                  (ro_attempt_id owned) (ro_project_id owned) (ro_source_sha owned)
                  (ro_source_sequence owned) (ro_source_attestation_digest owned)
                  (ro_workflow_policy_digest owned) (ro_preparation_key owned) (rd_node candidate)
                  (rd_profile candidate) (candidate_host_preparation candidate) input_artifacts
                  digest (wk_worker_id worker) (wk_host_id worker) now_ms expires_at_ms) in
  match operation_state with
  | Some state => contract (with_operation_state lease state)
  | None => Ok lease
  end.

(** The loop over the candidates: the first that gets its lock and its state. *)
Fixpoint claim_first (lease_id : Uuid) (worker : WorkflowWorkerRegistrationV1)
    (now_ms lease_duration_ms : Z) (last_project_id : option string) (remaining_weight : Z)
    (candidates : list ReadyCandidate) : WorkflowTx (option WorkflowLeaseV1) :=
  match candidates with
  | [] => tx_ok None
  | candidate :: rest =>
      let continue := claim_first lease_id worker now_ms lease_duration_ms last_project_id
                        remaining_weight rest in
      let claim operation_state :=
        let? lease := reads (candidate_lease lease_id candidate operation_state worker now_ms
                               lease_duration_ms) in
        let? _ := persist_active_lease lease (ro_lease_generation (rd_owned candidate)) now_ms in
        let? _ := update_fairness_cursor candidate last_project_id remaining_weight in
        tx_ok (Some lease) in
      let? exclusive := (if candidate_requires_exclusive_delivery candidate
                         then acquire_mutation_lock candidate now_ms else tx_ok true) in
      if negb exclusive then continue
      else
        let? selection := operation_state_for_candidate candidate worker now_ms in
        match selection with
        | Selection_NotUsed => claim None
        | Selection_Ready state => claim (Some state)
        | Selection_Busy => continue
        end
  end.

Definition claim_next_transaction (lease_id : Uuid) (worker : WorkflowWorkerRegistrationV1)
    (now_ms lease_duration_ms : Z) : WorkflowTx (option WorkflowLeaseV1) :=
  let? _ := wake_waiting_attempts now_ms in
  let? candidates := reads (load_ready_candidates worker) in
  match candidates with
  | [] => tx_ok None
  | _ =>
      let? ' (last_project_id, remaining_weight) := reads load_fairness_cursor in
      let? ordered := lift (fair_candidate_order candidates last_project_id remaining_weight) in
      claim_first lease_id worker now_ms lease_duration_ms last_project_id remaining_weight ordered
  end.

Definition Scheduler_claim_next (lease_id : Uuid) (worker : WorkflowWorkerRegistrationV1)
    (now_ms lease_duration_ms : Z)
    : WorkflowDb → WorkflowDb * Result StoreError (option WorkflowLeaseV1) :=
  immediate_transaction (
    let? _ := lift (WorkerRegistration_validate worker) in
    let? _ := lift (ensure ((0 <=? now_ms) && in_range MIN_LEASE_MS MAX_LEASE_MS lease_duration_ms)
                      (InvalidWorkflowSchedulerInput "lease time")) in
    let? _ := expire_leases_transaction now_ms in
    let? pending := gets (worker_has_pending_cleanup worker) in
    if pending : bool then tx_ok None
    else claim_next_transaction lease_id worker now_ms lease_duration_ms).

(** ** Leases: renewal *)

Definition renew_lease_transaction (supplied : WorkflowLeaseV1) (now_ms lease_duration_ms : Z)
    : WorkflowTx WorkflowLeaseV1 :=
  let? row := reads (λ db, ok_or WorkflowLeaseConflict
                             (workflow_lease_journal db !! wl_lease_id supplied)) in
  let? _ := lift (ensure (sl_state row == Lease_Active) WorkflowLeaseConflict) in
  let? current := lift (contract (WorkflowLease_decode_canonical (sl_lease_json row))) in
  let? _ := lift (ensure (same_lease_assignment current supplied
                          && (wl_expires_at_ms supplied <=? wl_expires_at_ms current))
                    WorkflowLeaseConflict) in
  if wl_lease_digest supplied != wl_lease_digest current then tx_ok current
  else
    let? expires_at_ms := lift (bounded_lease_expiry (wl_leased_at_ms current) now_ms
                                  lease_duration_ms (wl_timeout_ms current)) in
    if expires_at_ms <=? wl_expires_at_ms current then tx_ok current
    else
      let? renewed := lift (contract (renewed current expires_at_ms)) in
      let? bytes := lift (contract (WorkflowLease_canonical_bytes renewed)) in
      let? renewed_json := lift (canonical_string bytes) in
      let? changed := renew_lease_row (wl_lease_id renewed)
                        (λ row, (sl_state row == Lease_Active)
                                && (sl_lease_digest row == wl_lease_digest current))
                        (λ row, row <| sl_lease_digest := wl_lease_digest renewed |>
                                    <| sl_lease_json := renewed_json |>
                                    <| sl_expires_at_ms := wl_expires_at_ms renewed |>) in
      let? _ := expect_one changed WorkflowLeaseConflict in
      let? _ := append_transition (wl_attempt_id renewed) "lease"
                  (uuid_to_string (wl_lease_id renewed)) (Some "active"%string) "active"
                  "worker_lease_renewed" (Some (wl_lease_digest renewed)) now_ms in
      tx_ok renewed.

Definition Scheduler_renew_lease (worker : WorkflowWorkerRegistrationV1) (lease : WorkflowLeaseV1)
    (now_ms lease_duration_ms : Z)
    : WorkflowDb → WorkflowDb * Result StoreError WorkflowLeaseV1 :=
  immediate_transaction (
    let? _ := lift (WorkerRegistration_validate worker) in
    let? _ := lift (contract (WorkflowLease_validate lease)) in
    let? _ := lift (ensure ((0 <=? now_ms) && in_range MIN_LEASE_MS MAX_LEASE_MS lease_duration_ms
                            && (wk_worker_id worker == wl_worker_id lease)
                            && (wk_host_id worker == wl_host_id lease)
                            && has_pool worker (wl_worker_pool lease))
                      (InvalidWorkflowSchedulerInput "lease renewal")) in
    let? _ := expire_leases_transaction now_ms in
    renew_lease_transaction lease now_ms lease_duration_ms).

End SchedulerLeases.
