(* ===== verification/SchedulerReceipts.v ===== *)
(** * The workflow scheduler: receipts

    [pending_cleanup], [commit_cleanup_receipt], [commit_node_receipt],
    [reduce_attempt] and [reconcile_controller_nodes] of [src/src/scheduler.rs], and
    the overview of [WorkflowJournalReaderV1]. *)

From Stdlib Require Import ZArith Lia Ascii String.
From stdpp Require Import base gmap strings option list_numbers list.
From S2P Require Import Prelude Identifiers States Text Ordered Workflow Manifest Errors SchedulerDb Scheduler SchedulerLeases.

Local Open Scope Z_scope.

Section SchedulerReceipts.
Context `{!SchedulerCodecs}.

(** ** Cleanup *)

Definition decode_cleanup_obligation (worker : WorkflowWorkerRegistrationV1) (lease_json : list Z)
    (state : LeaseState) (receipt_json : option (list Z))
    : Result StoreError WorkflowCleanupObligationV1 :=
  let? lease := contract (WorkflowLease_decode_canonical lease_json) in
  let? _ := ensure ((wl_worker_id lease == wk_worker_id worker)
                    && (wl_host_id lease == wk_host_id worker))
              (CorruptWorkflowJournal "cleanup worker binding") in
  let? terminal_receipt := decode_optional_document NodeReceipt_decode_canonical receipt_json in
  let? reason :=
    match state, terminal_receipt with
    | Lease_Expired, None => Ok Reason_LeaseExpired
    | Lease_Revoked, None => Ok Reason_LeaseRevoked
    | Lease_Committed, Some receipt =>
        if (wnr_cleanup_result receipt == NodeCleanup_Pending) && receipt_matches_lease receipt lease
        then Ok Reason_TerminalReceiptPending
        else Err (CorruptWorkflowJournal "cleanup obligation")
    | _, _ => Err (CorruptWorkflowJournal "cleanup obligation")
    end in
  Ok {| co_lease := lease; co_terminal_receipt := terminal_receipt; co_reason := reason |}.

(** [ORDER BY lease.closed_at_ms ASC, lease.lease_id ASC]; NULL is first. *)
Definition closed_compare (l r : Uuid * WfLeaseRow) : comparison :=
  pair_compare
    match sl_closed_at_ms l.2, sl_closed_at_ms r.2 with
    | Some a, Some b => a ?= b
    | None, Some _ => Lt
    | Some _, None => Gt
    | None, None => Eq
    end (l.1 ?= r.1)%N.

Definition Scheduler_pending_cleanup (worker : WorkflowWorkerRegistrationV1) (limit : Z)
    (db : WorkflowDb) : Result StoreError (list WorkflowCleanupObligationV1) :=
  let? _ := WorkerRegistration_validate worker in
  let? _ := ensure (in_range 1 64 limit) (InvalidWorkflowSchedulerInput "cleanup limit") in
  let rows := take (Z.to_nat limit) (sort_by closed_compare (select_rows (λ lease_id row,
                (sl_worker_id row == wk_worker_id worker) && (sl_host_id row == wk_host_id worker)
                && owes_cleanup db lease_id row) (workflow_lease_journal db))) in
  mapM (λ entry : Uuid * WfLeaseRow,
    decode_cleanup_obligation worker (sl_lease_json entry.2) (sl_state entry.2)
      ((λ receipt, sc_receipt_json receipt.2) <$> receipt_of_lease entry.1 db)) rows.

(** The match on the state of the lease: a lease that ended without a receipt, or
    one whose terminal receipt left its cleanup pending. *)
Definition validate_cleanup_terminal (receipt : WorkflowCleanupReceiptV1) (lease : WorkflowLeaseV1)
    (state : LeaseState) (terminal_json : option (list Z)) : Result StoreError unit :=
  match state, terminal_json with
  | Lease_Expired, None | Lease_Revoked, None =>
      ensure (is_none (wcr_terminal_receipt_digest receipt)) WorkflowCleanupConflict
  | Lease_Committed, Some bytes =>
      let? terminal := contract (NodeReceipt_decode_canonical bytes) in
      ensure ((wnr_cleanup_result terminal == NodeCleanup_Pending)
              && receipt_matches_lease terminal lease
              && (wcr_terminal_receipt_digest receipt == Some (wnr_receipt_digest terminal))
              && (wnr_completed_at_ms terminal <=? wcr_completed_at_ms receipt))
        WorkflowCleanupConflict
  | _, _ => Err WorkflowCleanupConflict
  end.

Definition cleanup_receipt_of_lease (lease_id : Uuid) (db : WorkflowDb)
    : option (EvidenceDigest * WfCleanupReceiptRow) :=
  head (select_rows (λ _ row, sk_lease_id row == lease_id) (workflow_cleanup_receipts db)).

(** The body for a lease whose cleanup is not recorded. *)
Definition record_cleanup_receipt (receipt : WorkflowCleanupReceiptV1) (receipt_json : list Z)
    (recorded_at_ms : Z) : WorkflowTx WorkflowAttemptSnapshotV1 :=
  let lease_id := wcr_lease_id receipt in
  let attempt_id := wcr_attempt_id receipt in
  let? row := reads (λ db, ok_or WorkflowCleanupConflict (workflow_lease_journal db !! lease_id)) in
  let? terminal := gets (receipt_of_lease lease_id) in
  let? lease := lift (contract (WorkflowLease_decode_canonical (sl_lease_json row))) in
  let? _ := lift (ensure (cleanup_receipt_matches_lease receipt lease) WorkflowCleanupConflict) in
  let? closed_at_ms := lift (ok_or WorkflowCleanupConflict (sl_closed_at_ms row)) in
  let? _ := lift (ensure (closed_at_ms <=? wcr_completed_at_ms receipt) WorkflowCleanupConflict) in
  let? _ := lift (validate_cleanup_terminal receipt lease (sl_state row)
                    ((λ entry, sc_receipt_json entry.2) <$> terminal)) in
  let? _ := insert_cleanup_receipt (wcr_receipt_digest receipt) {|
    sk_lease_id := lease_id; sk_attempt_id := attempt_id; sk_node_id := wcr_node_id receipt;
    sk_receipt_json := receipt_json; sk_committed_at_ms := recorded_at_ms |} in
  let? unresolved := gets (unresolved_cleanup_count attempt_id) in
  let cleanup_state := if unresolved == 0 then CleanupState_Complete else CleanupState_Pending in
  let? changed := update_attempts (λ id _, id == attempt_id)
                    (λ row, row <| sa_cleanup_state := cleanup_state |>
                                <| sa_updated_at_ms := Z.max (sa_updated_at_ms row) recorded_at_ms |>) in
  let? _ := expect_one changed WorkflowStateConflict in
  let? _ := append_transition attempt_id "lease" (uuid_to_string lease_id)
              (Some (LeaseState_as_str (sl_state row))) (LeaseState_as_str (sl_state row))
              "worker_cleanup_reconciled" (Some (wcr_receipt_digest receipt)) recorded_at_ms in
  reads (load_attempt_snapshot attempt_id).

Definition commit_cleanup_receipt_transaction (receipt : WorkflowCleanupReceiptV1)
    (receipt_json : list Z) (recorded_at_ms : Z) : WorkflowTx WorkflowAttemptSnapshotV1 :=
  let? persisted := gets (cleanup_receipt_of_lease (wcr_lease_id receipt)) in
  match persisted with
  | Some (persisted_digest, row) =>
      let? _ := lift (ensure ((persisted_digest == wcr_receipt_digest receipt)
                              && (sk_receipt_json row == receipt_json)) WorkflowCleanupConflict) in
      reads (load_attempt_snapshot (wcr_attempt_id receipt))
  | None => record_cleanup_receipt receipt receipt_json recorded_at_ms
  end.

Definition Scheduler_commit_cleanup_receipt (receipt : WorkflowCleanupReceiptV1) (recorded_at_ms : Z)
    : WorkflowDb → WorkflowDb * Result StoreError WorkflowAttemptSnapshotV1 :=
  immediate_transaction (
    let? _ := lift (contract (NodeCleanupReceipt_validate receipt)) in
    let? _ := lift (ensure ((0 <=? recorded_at_ms) && (wcr_completed_at_ms receipt <=? recorded_at_ms))
                      (InvalidWorkflowSchedulerInput "cleanup receipt time")) in
    let? bytes := lift (contract (NodeCleanupReceipt_canonical_bytes receipt)) in
    let? receipt_json := lift (canonical_string bytes) in
    commit_cleanup_receipt_transaction receipt receipt_json recorded_at_ms).

(** ** Node receipts *)

Definition replayed_node_receipt (receipt : WorkflowNodeReceiptV1) (receipt_json : list Z)
    (db : WorkflowDb) : Result StoreError (option WorkflowAttemptSnapshotV1) :=
  match receipt_of_node (wnr_attempt_id receipt) (wnr_node_id receipt) db with
  | None => Ok None
  | Some (persisted_digest, row) =>
      let? _ := ensure ((persisted_digest == wnr_receipt_digest receipt)
                        && (sc_receipt_json row == receipt_json)) WorkflowReceiptConflict in
      let? attempt := load_attempt_snapshot (wnr_attempt_id receipt) db in
      Ok (Some attempt)
  end.

Definition validate_active_receipt_lease (receipt : WorkflowNodeReceiptV1) (recorded_at_ms : Z)
    (db : WorkflowDb) : Result StoreError unit :=
  let? row := ok_or WorkflowLeaseConflict (workflow_lease_journal db !! wnr_lease_id receipt) in
  let? _ := ensure (sl_state row == Lease_Active) WorkflowLeaseConflict in
  let? lease := contract (WorkflowLease_decode_canonical (sl_lease_json row)) in
  let? _ := ensure (receipt_matches_lease receipt lease
                    && (wl_leased_at_ms lease <=? wnr_completed_at_ms receipt)
                    && (wnr_completed_at_ms receipt <? wl_expires_at_ms lease)
                    && (recorded_at_ms <? wl_expires_at_ms lease)) WorkflowReceiptConflict in
  let? node := ok_or (Sqlite QueryReturnedNoRows)
                 (workflow_nodes db !! (wnr_attempt_id receipt, wnr_node_id receipt)) in
  ensure (sn_state node == NodeState_Leased) WorkflowStateConflict.

Definition persist_node_receipt (receipt : WorkflowNodeReceiptV1) (receipt_json : list Z)
    (recorded_at_ms : Z) (handoff_publication : bool) : WorkflowTx unit :=
  let attempt_id := wnr_attempt_id receipt in
  let node_id := wnr_node_id receipt in
  let? _ := insert_node_receipt (wnr_receipt_digest receipt) {|
    sc_attempt_id := attempt_id; sc_node_id := node_id; sc_lease_id := wnr_lease_id receipt;
    sc_receipt_json := receipt_json; sc_committed_at_ms := recorded_at_ms |} in
  let? changed := update_leases
                    (λ id row, (id == wnr_lease_id receipt) && (sl_state row == Lease_Active))
                    (λ row, row <| sl_state := Lease_Committed |>
                                <| sl_closed_at_ms := Some recorded_at_ms |>
                                <| sl_receipt_digest := Some (wnr_receipt_digest receipt) |>) in
  let? _ := expect_one changed WorkflowLeaseConflict in
  let node_state := receipt_terminal_node_state receipt handoff_publication in
  let? changed := update_nodes
                    (λ key row, (key == (attempt_id, node_id)) && (sn_state row == NodeState_Leased))
                    (λ row, row <| sn_state := node_state |>
                                <| sn_output_digest := wnr_output_digest receipt |>
                                <| sn_receipt_digest := Some (wnr_receipt_digest receipt) |>
                                <| sn_completed_at_ms := Some (wnr_completed_at_ms receipt) |>) in
  let? _ := expect_one changed WorkflowStateConflict in
  let? _ := (if wnr_cleanup_result receipt == NodeCleanup_Pending
             then let? _ := update_attempts (λ id _, id == attempt_id)
                              (λ row, row <| sa_cleanup_state := CleanupState_Pending |>) in
                  tx_ok tt
             else tx_ok tt) in
  append_transition attempt_id "node" (WorkflowNodeId_as_str node_id) (Some "leased"%string)
    (NodeState_as_str node_state)
    match wnr_outcome receipt with
    | NodeOutcome_Succeeded => "receipt_succeeded"
    | NodeOutcome_Failed => "receipt_failed"
    end (Some (wnr_receipt_digest receipt)) recorded_at_ms.

Definition touch_attempt (attempt_id : Uuid) (updated_at_ms : Z) : WorkflowTx unit :=
  let? _ := update_attempts (λ id _, id == attempt_id)
              (λ row, row <| sa_updated_at_ms := updated_at_ms |>) in
  tx_ok tt.

Definition apply_node_receipt_outcome (receipt : WorkflowNodeReceiptV1) (recorded_at_ms : Z)
    (handoff_publication : bool) : WorkflowTx unit :=
  match wnr_outcome receipt with
  | NodeOutcome_Succeeded =>
      if wnr_node_kind receipt == Node_ReleasedObservation
      then complete_workflow (wnr_attempt_id receipt) recorded_at_ms
      else
        let? _ := touch_attempt (wnr_attempt_id receipt) recorded_at_ms in
        advance_ready_nodes (wnr_attempt_id receipt)
  | NodeOutcome_Failed =>
      fail_workflow (wnr_attempt_id receipt) (wnr_node_kind receipt) (wnr_cleanup_result receipt)
        handoff_publication recorded_at_ms
  end.

Definition commit_node_receipt_transaction (receipt : WorkflowNodeReceiptV1)
    (receipt_json : list Z) (recorded_at_ms : Z) : WorkflowTx WorkflowAttemptSnapshotV1 :=
  let? replayed := reads (replayed_node_receipt receipt receipt_json) in
  match replayed with
  | Some replayed => tx_ok replayed
  | None =>
      let? _ := reads (validate_active_receipt_lease receipt recorded_at_ms) in
      let? context := reads (load_attempt_context (wnr_attempt_id receipt)) in
      let handoff_publication :=
        (cx_execution_mode context == Mode_Deploy)
        && is_self_update_handoff_release (cx_manifest context) (wnr_node_kind receipt) in
      let? _ := persist_node_receipt receipt receipt_json recorded_at_ms handoff_publication in
      let? _ := apply_node_receipt_outcome receipt recorded_at_ms handoff_publication in
      reads (load_attempt_snapshot (wnr_attempt_id receipt))
  end.

(** A method that ends early with an error keeps what it committed before: the
    expiry has its own transaction. *)
Definition Scheduler_commit_node_receipt (receipt : WorkflowNodeReceiptV1) (recorded_at_ms : Z)
    (db : WorkflowDb) : WorkflowDb * Result StoreError WorkflowAttemptSnapshotV1 :=
  match contract (NodeReceipt_validate receipt) with
  | Err e => (db, Err e)
  | Ok _ =>
      if (recorded_at_ms <? 0) || (recorded_at_ms <? wnr_completed_at_ms receipt)
      then (db, Err (InvalidWorkflowSchedulerInput "receipt time"))
      else
        let '(db, expired) := Scheduler_expire_leases recorded_at_ms db in
        match expired with
        | Err e => (db, Err e)
        | Ok _ =>
            immediate_transaction (
              let? bytes := lift (contract (NodeReceipt_canonical_bytes receipt)) in
              let? receipt_json := lift (canonical_string bytes) in
              commit_node_receipt_transaction receipt receipt_json recorded_at_ms) db
        end
  end.

(** ** Reduction *)

Definition load_reduction_evidence (attempt_id : Uuid) (dependency_id : WorkflowNodeId)
    (db : WorkflowDb) : Result StoreError ReductionEvidenceRow :=
  ok_or WorkflowReductionConflict
    (entry ← receipt_of_node attempt_id dependency_id db;
     let receipt := entry.2 in
     lease ← workflow_lease_journal db !! sc_lease_id receipt;
     node ← workflow_nodes db !! (attempt_id, dependency_id);
     Some {|
       re_receipt_json := sc_receipt_json receipt;
       re_committed_at_ms := sc_committed_at_ms receipt;
       re_lease_json := sl_lease_json lease;
       re_lease_state := sl_state lease;
       re_node_state := sn_state node;
       re_output_digest := sn_output_digest node;
       re_node_receipt_digest := sn_receipt_digest node |}).

(** [validate_reduction_evidence] without the set of digests it extends. *)
Definition reduction_evidence_valid (context : AttemptContext) (dependency_id : WorkflowNodeId)
    (row : ReductionEvidenceRow) (receipt : WorkflowNodeReceiptV1) (lease : WorkflowLeaseV1) : bool :=
  (re_lease_state row == Lease_Committed)
  && (re_node_state row == NodeState_Succeeded)
  && (wnr_outcome receipt == NodeOutcome_Succeeded)
  && (wnr_cleanup_result receipt == NodeCleanup_Complete)
  && receipt_matches_lease receipt lease
  && (wnr_attempt_id receipt == cx_attempt_id context)
  && (wnr_node_id receipt == dependency_id)
  && (wnr_project_id receipt == cx_project_id context)
  && (wnr_source_sha receipt == cx_source_sha context)
  && (wnr_workflow_policy_digest receipt == cx_workflow_policy_digest context)
  && (wnr_preparation_key receipt == cx_preparation_key context)
  && (wl_leased_at_ms lease <=? wnr_completed_at_ms receipt)
  && (wnr_completed_at_ms receipt <? wl_expires_at_ms lease)
  && (wnr_completed_at_ms receipt <=? re_committed_at_ms row)
  && (re_committed_at_ms row <? wl_expires_at_ms lease)
  && (re_output_digest row == wnr_output_digest receipt)
  && (re_node_receipt_digest row == Some (wnr_receipt_digest receipt)).

Definition validate_reduction_evidence (context : AttemptContext) (dependency_id : WorkflowNodeId)
    (row : ReductionEvidenceRow) (receipt : WorkflowNodeReceiptV1) (lease : WorkflowLeaseV1)
    (receipt_digests : gset EvidenceDigest) : Result StoreError (gset EvidenceDigest) :=
  if reduction_evidence_valid context dependency_id row receipt lease
     && bool_decide (wnr_receipt_digest receipt ∉ receipt_digests)
  then Ok ({[ wnr_receipt_digest receipt ]} ∪ receipt_digests)
  else Err WorkflowReductionConflict.

Fixpoint collect_inputs (context : AttemptContext) (db : WorkflowDb)
    (dependencies : list WorkflowNodeId) (receipt_digests : gset EvidenceDigest)
    (collected : CollectedReductionInputs) : Result StoreError CollectedReductionInputs :=
  match dependencies with
  | [] => Ok collected
  | dependency_id :: rest =>
      let? dependency := ok_or (CorruptWorkflowJournal "reduce dependency")
                           (WorkflowPolicy_node (pm_workflow (cx_manifest context)) dependency_id) in
      let? _ := ensure match wn_kind dependency with
                       | Node_Verification | Node_ReleaseBuild => true
                       | _ => false
                       end WorkflowReductionConflict in
      let? row := load_reduction_evidence (cx_attempt_id context) dependency_id db in
      let? receipt := contract (NodeReceipt_decode_canonical (re_receipt_json row)) in
      let? lease := contract (WorkflowLease_decode_canonical (re_lease_json row)) in
      let? receipt_digests := validate_reduction_evidence context dependency_id row receipt lease
                                receipt_digests in
      let? output_digest := ok_or WorkflowReductionConflict (wnr_output_digest receipt) in
      collect_inputs context db rest receipt_digests {|
        cr_inputs := cr_inputs collected ++ [{|
          wri_node_id := dependency_id; wri_node_kind := wn_kind dependency;
          wri_receipt_digest := wnr_receipt_digest receipt; wri_output_digest := output_digest |}];
        cr_latest_committed_at_ms :=
          Z.max (cr_latest_committed_at_ms collected) (re_committed_at_ms row) |}
  end.

Definition collect_reduction_inputs (context : AttemptContext) (reduce_node : WorkflowNodeV1)
    (db : WorkflowDb) : Result StoreError CollectedReductionInputs :=
  let? collected := collect_inputs context db (wn_depends_on reduce_node) ∅
                      {| cr_inputs := []; cr_latest_committed_at_ms := 0 |} in
  let? _ := ensure (length (cr_inputs collected) == length (wn_depends_on reduce_node))
              WorkflowReductionConflict in
  Ok collected.

Definition validate_persisted_reduction (context : AttemptContext) (reduce_node : WorkflowNodeV1)
    (persisted : WfReductionRow) (db : WorkflowDb) : Result StoreError WorkflowReductionReceiptV1 :=
  let? receipt := contract (ReductionReceipt_decode_canonical (sd_receipt_json persisted)) in
  let? collected := collect_reduction_inputs context reduce_node db in
  let? node := ok_or (Sqlite QueryReturnedNoRows)
                 (workflow_nodes db !! (cx_attempt_id context, wn_node_id reduce_node)) in
  let? _ := ensure ((sd_reduce_node_id persisted == wn_node_id reduce_node)
                    && (sd_receipt_digest persisted == wrr_receipt_digest receipt)
                    && (sd_committed_at_ms persisted == wrr_reduced_at_ms receipt)
                    && (cr_latest_committed_at_ms collected <=? wrr_reduced_at_ms receipt)
                    && (wrr_request_id receipt == cx_request_id context)
                    && (wrr_attempt_id receipt == cx_attempt_id context)
                    && (wrr_project_id receipt == cx_project_id context)
                    && (wrr_source_sha receipt == cx_source_sha context)
                    && (wrr_workflow_policy_digest receipt == cx_workflow_policy_digest context)
                    && (wrr_preparation_key receipt == cx_preparation_key context)
                    && (wrr_reduce_node_id receipt == wn_node_id reduce_node)
                    && (wrr_inputs receipt == cr_inputs collected)
                    && (sn_state node == NodeState_Succeeded)
                    && (sn_output_digest node == Some (wrr_receipt_digest receipt))
                    && (sn_receipt_digest node == Some (wrr_receipt_digest receipt))
                    && (sn_completed_at_ms node == Some (wrr_reduced_at_ms receipt)))
              WorkflowReductionConflict in
  Ok receipt.

(** What follows the reduction: a shadow run and a handoff are complete, a deployment
    goes on. *)
Definition after_reduction (context : AttemptContext) (reduced_at_ms : Z) : WorkflowTx unit :=
  if cx_execution_mode context == Mode_Shadow then complete_shadow_workflow context reduced_at_ms
  else if wpol_delivery_mode (pm_workflow (cx_manifest context)) == Delivery_SelfUpdateHandoff
  then complete_workflow (cx_attempt_id context) reduced_at_ms
  else advance_ready_nodes (cx_attempt_id context).

Definition perform_reduction (context : AttemptContext) (reduce_node : WorkflowNodeV1)
    (reduced_at_ms : Z) : WorkflowTx WorkflowReductionReceiptV1 :=
  let attempt_id := cx_attempt_id context in
  let node_id := wn_node_id reduce_node in
  let? node := reads (λ db, ok_or (Sqlite QueryReturnedNoRows)
                              (workflow_nodes db !! (attempt_id, node_id))) in
  let? _ := lift (ensure (sn_state node == NodeState_Ready) WorkflowReductionConflict) in
  let? collected := reads (collect_reduction_inputs context reduce_node) in
  let? _ := lift (ensure (cr_latest_committed_at_ms collected <=? reduced_at_ms)
                    WorkflowReductionConflict) in
  let? reduction := lift (contract (ReductionReceipt_new (cx_request_id context) attempt_id
                      (cx_project_id context) (cx_source_sha context)
                      (cx_workflow_policy_digest context) (cx_preparation_key context) node_id
                      (cr_inputs collected) reduced_at_ms)) in
  let? bytes := lift (contract (ReductionReceipt_canonical_bytes reduction)) in
  let? receipt_json := lift (canonical_string bytes) in
  let digest := wrr_receipt_digest reduction in
  let? _ := insert_reduction attempt_id {|
    sd_reduce_node_id := node_id; sd_receipt_digest := digest; sd_receipt_json := receipt_json;
    sd_committed_at_ms := reduced_at_ms |} in
  let? changed := update_nodes
                    (λ key row, (key == (attempt_id, node_id)) && (sn_state row == NodeState_Ready))
                    (λ row, row <| sn_state := NodeState_Succeeded |>
                                <| sn_output_digest := Some digest |>
                                <| sn_receipt_digest := Some digest |>
                                <| sn_completed_at_ms := Some reduced_at_ms |>) in
  let? _ := expect_one changed WorkflowStateConflict in
  let? _ := touch_attempt attempt_id reduced_at_ms in
  let? _ := append_transition attempt_id "node" (WorkflowNodeId_as_str node_id)
              (Some "ready"%string) "succeeded" "deterministic_reduction" (Some digest)
              reduced_at_ms in
  let? _ := after_reduction context reduced_at_ms in
  tx_ok reduction.

Definition Scheduler_reduce_attempt (attempt_id : Uuid) (reduced_at_ms : Z)
    : WorkflowDb → WorkflowDb * Result StoreError WorkflowReductionReceiptV1 :=
  immediate_transaction (
    let? _ := lift (ensure (negb (is_nil attempt_id) && (0 <=? reduced_at_ms))
                      (InvalidWorkflowSchedulerInput "reduction identity or time")) in
    let? context := reads (load_attempt_context attempt_id) in
    let? reduce_node := lift (ok_or (CorruptWorkflowJournal "reduce node")
                          (find_first (λ node, wn_kind node == Node_DeterministicReduce)
                             (wpol_nodes (pm_workflow (cx_manifest context))))) in
    let? persisted := gets (λ db, workflow_reductions db !! attempt_id) in
    match persisted with
    | Some persisted => reads (validate_persisted_reduction context reduce_node persisted)
    | None => perform_reduction context reduce_node reduced_at_ms
    end).

(** ** Reconciliation *)

(** [SELECT DISTINCT attempt_id .. ORDER BY attempt_id ASC]. *)
Definition reducible_attempts (db : WorkflowDb) : list Uuid :=
  sort_by N.compare (elements (list_to_set (C := gset Uuid)
    ((λ entry : Uuid * WorkflowNodeId * WfNodeRow, entry.1.1) <$>
     select_rows (λ _ row, (sn_node_kind row == Node_DeterministicReduce)
                           && (sn_state row == NodeState_Ready)) (workflow_nodes db)))).

(** One transaction per attempt; an error keeps the reductions before it. *)
Fixpoint reduce_all (attempts : list Uuid) (now_ms : Z) (db : WorkflowDb)
    : WorkflowDb * Result StoreError unit :=
  match attempts with
  | [] => (db, Ok tt)
  | attempt_id :: rest =>
      let '(db, reduced) := Scheduler_reduce_attempt attempt_id now_ms db in
      match reduced with
      | Ok _ => reduce_all rest now_ms db
      | Err e => (db, Err e)
      end
  end.

Definition Scheduler_reconcile_controller_nodes (now_ms : Z) (db : WorkflowDb)
    : WorkflowDb * Result StoreError Z :=
  if now_ms <? 0 then (db, Err (InvalidWorkflowSchedulerInput "controller reconciliation time"))
  else
    let '(db, expired) := Scheduler_expire_leases now_ms db in
    match expired with
    | Err e => (db, Err e)
    | Ok _ =>
        let attempts := reducible_attempts db in
        let '(db, reduced) := reduce_all attempts now_ms db in
        (db, let? _ := reduced in Ok (Z.of_nat (length attempts)))
    end.

(** ** Overview *)

Record RankedAttempt : Type := MkRankedAttempt {
  ra_project_id : ProjectId;
  ra_attempt_id : Uuid;
  ra_row : WfAttemptRow
}.

(** [ORDER BY updated_at_ms DESC, created_at_ms DESC, attempt_id ASC]: the order of
    the ranks and of the result. *)
Definition recency_compare (l r : RankedAttempt) : comparison :=
  pair_compare (sa_updated_at_ms (ra_row r) ?= sa_updated_at_ms (ra_row l))
    (pair_compare (sa_created_at_ms (ra_row r) ?= sa_created_at_ms (ra_row l))
      (ra_attempt_id l ?= ra_attempt_id r)%N).

Definition ranked_attempts (db : WorkflowDb) : list RankedAttempt :=
  sort_by recency_compare (omap (λ entry : Uuid * WfAttemptRow,
    request ← workflow_requests db !! sa_request_id entry.2;
    Some {| ra_project_id := sr_project_id request; ra_attempt_id := entry.1; ra_row := entry.2 |})
    (select_rows (λ _ row, sa_state row != Attempt_Superseded) (workflow_attempts db))).

(** The rank of the project's most recent attempt in one of the states. *)
Definition first_recency (states : list WorkflowAttemptStateV1) (ranked : list RankedAttempt)
    : option nat :=
  position (λ attempt, contains states (sa_state (ra_row attempt))) ranked.

Definition overview_selects (all : list RankedAttempt) (attempt : RankedAttempt) : bool :=
  let ranked := List.filter (λ other, ra_project_id other == ra_project_id attempt) all in
  let recency := position (λ other, ra_attempt_id other == ra_attempt_id attempt) ranked in
  let active := first_recency [Attempt_Queued; Attempt_WaitingForMutation; Attempt_Running] ranked in
  let success := first_recency [Attempt_Succeeded] ranked in
  let failure := first_recency [Attempt_Failed; Attempt_NeedsReconcile] ranked in
  is_some recency
  && ((recency == active) || (recency == success)
      || ((recency == failure)
          && match success, failure with
             | None, _ => true
             | Some s, Some f => Nat.ltb f s
             | Some _, None => false
             end)).

Definition Reader_recent_attempts (limit : Z) (db : WorkflowDb)
    : Result StoreError WorkflowAttemptPageV1 :=
  let? _ := ensure (in_range 1 50 limit) (InvalidWorkflowSchedulerInput "workflow overview limit") in
  let? query_limit := ok_or (InvalidWorkflowSchedulerInput "workflow overview limit")
                        (i64_try_from (u64_saturating_add limit 1)) in
  let all := ranked_attempts db in
  let attempt_ids := take (Z.to_nat query_limit)
                       (ra_attempt_id <$> List.filter (overview_selects all) all) in
  let truncated := limit <? Z.of_nat (length attempt_ids) in
  let? attempts := mapM (λ attempt_id, load_attempt_snapshot attempt_id db)
                     (take (Z.to_nat limit) attempt_ids) in
  Ok {| pg_truncated := truncated; pg_attempts := attempts |}.

End SchedulerReceipts.
