(* ===== verification/SchedulerHistory.v ===== *)
(** * The workflow scheduler: history

    What no call to the scheduler can undo.  [evolves] relates the tables before and
    after: receipts, triggers and transitions are only added, closed leases, nodes and
    requests are final, a node moves along [node_step], an attempt that ended is not
    reopened, one that owns the mutation is not failed or superseded, and a project's
    source sequence does not go back.  It is a preorder, and every statement of the
    scheduler keeps it. *)

From Stdlib Require Import ZArith Lia Ascii String.
From stdpp Require Import base gmap strings option list_numbers list relations.
From S2P Require Import Prelude TxLogic Identifiers Text Ordered Workflow Manifest Errors SchedulerDb Scheduler SchedulerLeases SchedulerReceipts.

Local Open Scope Z_scope.

(** ** Life cycles *)

(** The states of a node. *)
Inductive node_step : relation WorkflowNodeStateV1 :=
| node_wakes : node_step NodeState_Blocked NodeState_Ready
| node_is_claimed : node_step NodeState_Ready NodeState_Leased
| node_is_reduced : node_step NodeState_Ready NodeState_Succeeded
| node_is_requeued : node_step NodeState_Leased NodeState_Ready
| node_is_settled state : node_closed state = true → node_step NodeState_Leased state
| node_is_cancelled state : open_node state = true → node_step state NodeState_Cancelled.

Definition attempt_done (row : WfAttemptRow) : Prop :=
  attempt_terminal (sa_state row) = true ∧ is_Some (sa_terminal_at_ms row).

Definition abandoned (state : WorkflowAttemptStateV1) : Prop :=
  state = Attempt_Failed ∨ state = Attempt_Superseded.

Record node_evolves (n n' : WfNodeRow) : Prop := {
  ne_ordinal : sn_ordinal n' = sn_ordinal n;
  ne_kind : sn_node_kind n' = sn_node_kind n;
  ne_activation : sn_activation n' = sn_activation n;
  ne_profile : sn_profile_id n' = sn_profile_id n;
  ne_pool : sn_worker_pool n' = sn_worker_pool n;
  ne_generation : sn_lease_generation n ≤ sn_lease_generation n';
  ne_state : rtc node_step (sn_state n) (sn_state n');
  ne_closed : node_closed (sn_state n) = true → n' = n
}.

Record attempt_evolves (a a' : WfAttemptRow) : Prop := {
  ae_request : sa_request_id a' = sa_request_id a;
  ae_number : sa_attempt_number a' = sa_attempt_number a;
  ae_key : sa_preparation_key a' = sa_preparation_key a;
  ae_created : sa_created_at_ms a' = sa_created_at_ms a;
  ae_done : attempt_done a → attempt_done a';
  ae_mutating : sa_mutation_state a ≠ Mutation_NotStarted →
    sa_mutation_state a' ≠ Mutation_NotStarted ∧
    (abandoned (sa_state a') → sa_state a' = sa_state a)
}.

Record lease_evolves (l l' : WfLeaseRow) : Prop := {
  le_attempt : sl_attempt_id l' = sl_attempt_id l;
  le_node : sl_node_id l' = sl_node_id l;
  le_generation : sl_generation l' = sl_generation l;
  le_worker : sl_worker_id l' = sl_worker_id l;
  le_host : sl_host_id l' = sl_host_id l;
  le_input : sl_expected_input_digest l' = sl_expected_input_digest l;
  le_leased : sl_leased_at_ms l' = sl_leased_at_ms l;
  le_closed : sl_state l ≠ Lease_Active → l' = l
}.

Record request_evolves (r r' : WfRequestRow) : Prop := {
  qe_project : sr_project_id r' = sr_project_id r;
  qe_policy : sr_workflow_policy_digest r' = sr_workflow_policy_digest r;
  qe_source : sr_source_sha r' = sr_source_sha r;
  qe_kind : sr_operation_kind r' = sr_operation_kind r;
  qe_sequence : sr_source_sequence r' = sr_source_sequence r;
  qe_attestation : sr_source_attestation_digest r' = sr_source_attestation_digest r;
  qe_manifest : sr_manifest_json r' = sr_manifest_json r;
  qe_closed : sr_state r ≠ Request_Active → r' = r
}.

Definition head_evolves (h h' : WfHeadRow) : Prop :=
  sh_source_sequence h ≤ sh_source_sequence h'.

(** No row disappears, and each row evolves. *)
Definition table_evolves {K V} `{Countable K} (R : relation V) (m m' : gmap K V) : Prop :=
  ∀ k v, m !! k = Some v → ∃ v', m' !! k = Some v' ∧ R v v'.

Record evolves (db db' : WorkflowDb) : Prop := {
  ev_requests : table_evolves request_evolves (workflow_requests db) (workflow_requests db');
  ev_heads : table_evolves head_evolves (workflow_project_heads db) (workflow_project_heads db');
  ev_triggers : workflow_triggers db ⊆ workflow_triggers db';
  ev_attempts : table_evolves attempt_evolves (workflow_attempts db) (workflow_attempts db');
  ev_nodes : table_evolves node_evolves (workflow_nodes db) (workflow_nodes db');
  ev_dependencies : workflow_node_dependencies db ⊆ workflow_node_dependencies db';
  ev_leases : table_evolves lease_evolves (workflow_lease_journal db) (workflow_lease_journal db');
  ev_receipts : workflow_node_receipts db ⊆ workflow_node_receipts db';
  ev_cleanups : workflow_cleanup_receipts db ⊆ workflow_cleanup_receipts db';
  ev_bindings : workflow_operation_state_bindings db ⊆ workflow_operation_state_bindings db';
  ev_reductions : workflow_reductions db ⊆ workflow_reductions db';
  ev_transitions : workflow_transitions db ⊆ workflow_transitions db'
}.

(** ** Preorders *)

#[export] Instance node_evolves_preorder : PreOrder node_evolves.
Proof.
  split.
  - intros n. by split.
  - intros n1 n2 n3 [] []. split; try congruence; [lia|by etrans|].
    intros Hc. specialize (ne_closed0 Hc). subst. auto.
Qed.

#[export] Instance attempt_evolves_preorder : PreOrder attempt_evolves.
Proof.
  split.
  - intros a. by split.
  - intros a1 a2 a3 [] []. split; try congruence; [auto|].
    intros Hm. destruct (ae_mutating0 Hm) as [Hm2 H12].
    destruct (ae_mutating1 Hm2) as [Hm3 H23]. split; [done|].
    intros Ha. specialize (H23 Ha). rewrite H23 in Ha |- *. auto.
Qed.

#[export] Instance lease_evolves_preorder : PreOrder lease_evolves.
Proof.
  split.
  - intros l. by split.
  - intros l1 l2 l3 [] []. split; try congruence.
    intros Hc. specialize (le_closed0 Hc). subst. auto.
Qed.

#[export] Instance request_evolves_preorder : PreOrder request_evolves.
Proof.
  split.
  - intros r. by split.
  - intros r1 r2 r3 [] []. split; try congruence.
    intros Hc. specialize (qe_closed0 Hc). subst. auto.
Qed.

#[export] Instance head_evolves_preorder : PreOrder head_evolves.
Proof. split; [intros h; red; lia|intros h1 h2 h3; unfold head_evolves; lia]. Qed.

#[export] Instance table_evolves_preorder {K V} `{Countable K} (R : relation V) `{!PreOrder R} :
  PreOrder (table_evolves (K := K) R).
Proof.
  split.
  - intros m k v Hk. by exists v.
  - intros m1 m2 m3 H12 H23 k v Hk. destruct (H12 k v Hk) as (v2 & Hk2 & HR).
    destruct (H23 k v2 Hk2) as (v3 & Hk3 & HR'). exists v3. split; [done|by etrans].
Qed.

#[export] Instance evolves_preorder : PreOrder evolves.
Proof.
  split.
  - intros db. by split.
  - intros db1 db2 db3 [] []. split; by etrans.
Qed.

(** ** Statements *)

Lemma table_evolves_insert {K V} `{Countable K} (R : relation V) `{!PreOrder R} (m : gmap K V) k v :
  (∀ old, m !! k = Some old → R old v) → table_evolves R m (<[k := v]> m).
Proof.
  intros Hold k' v' Hk'. destruct (decide (k = k')) as [<-|Hne].
  - exists v. rewrite lookup_insert_eq. auto.
  - exists v'. by rewrite lookup_insert_ne.
Qed.

Lemma update_rows_Ok {K V} `{Countable K} (p : K → V → bool) f check (m : gmap K V) changed m' :
  update_rows p f check m = Ok (changed, m') →
  changed = Z.of_nat (length (select_rows p m)) ∧
  (∀ k, m' !! k = (λ v, if p k v then f v else v) <$> (m !! k)) ∧
  (∀ k v, m !! k = Some v → p k v = true → check (f v) = true).
Proof.
  unfold update_rows. destruct (forallb _ _) eqn:Hcheck; [|done]. intros [= <- <-].
  split; [done|]. split.
  - intros k. rewrite map_lookup_imap. by destruct (m !! k).
  - intros k v Hk Hp. rewrite forallb_forall in Hcheck.
    apply (Hcheck (k, v)). apply list_elem_of_In, select_rows_elem. auto.
Qed.

Lemma table_evolves_update {K V} `{Countable K} (R : relation V) `{!PreOrder R}
    (p : K → V → bool) f check (m : gmap K V) changed m' :
  update_rows p f check m = Ok (changed, m') →
  (∀ k v, p k v = true → check (f v) = true → R v (f v)) → table_evolves R m m'.
Proof.
  intros (_ & Hlookup & Hcheck)%update_rows_Ok HR k v Hk. rewrite Hlookup, Hk. simpl.
  destruct (p k v) eqn:Hp; eexists; split; eauto. reflexivity.
Qed.

(** A statement changes one table. *)
Ltac one_table H := constructor; simpl; try reflexivity; H.

Lemma reference_kept {A} b e (rest : WorkflowTx A) s a s' :
  (let? _ := require_sql b e in rest) s = Ok (a, s') → rest s = Ok (a, s').
Proof. intros (u & s1 & [_ ->]%lift_Ok & Hok)%tx_bind_Ok. done. Qed.

Ltac update_evolves :=
  intros HR s a s' Hok; apply tx_bind_Ok in Hok as (table & s1 & [-> ->]%gets_Ok & Hok);
  apply tx_bind_Ok in Hok as ([changed table'] & s2 & [Hrows ->]%lift_Ok & Hok);
  try apply reference_kept in Hok;
  apply tx_bind_Ok in Hok as (u & s3 & ->%modify_Ok & [_ ->]%tx_ok_Ok);
  one_table ltac:(eapply table_evolves_update; [apply _|exact Hrows|exact HR]).

Lemma update_requests_evolves p f :
  (∀ k v, p k v = true → request_check (f v) = true → request_evolves v (f v)) →
  tx_rel evolves (update_requests p f).
Proof. update_evolves. Qed.

Lemma update_attempts_evolves p f :
  (∀ k v, p k v = true → attempt_check (f v) = true → attempt_evolves v (f v)) →
  tx_rel evolves (update_attempts p f).
Proof. update_evolves. Qed.

Lemma update_nodes_evolves p f :
  (∀ k v, p k v = true → node_check (f v) = true → node_evolves v (f v)) →
  tx_rel evolves (update_nodes p f).
Proof. update_evolves. Qed.

Lemma update_leases_evolves p f :
  (∀ k v, p k v = true → lease_check (f v) = true → lease_evolves v (f v)) →
  tx_rel evolves (update_leases p f).
Proof. update_evolves. Qed.

Lemma update_locks_evolves p f : tx_rel evolves (update_locks p f).
Proof.
  intros s a s' Hok. apply tx_bind_Ok in Hok as (table & s1 & [-> ->]%gets_Ok & Hok).
  apply tx_bind_Ok in Hok as ([changed table'] & s2 & [Hrows ->]%lift_Ok & Hok).
  apply tx_bind_Ok in Hok as (u & s3 & ->%modify_Ok & [_ ->]%tx_ok_Ok). by one_table idtac.
Qed.

Lemma delete_locks_evolves p : tx_rel evolves (delete_locks p).
Proof.
  intros s a s' Hok. apply tx_bind_Ok in Hok as (table & s1 & [-> ->]%gets_Ok & Hok).
  apply tx_bind_Ok in Hok as (u & s3 & ->%modify_Ok & [_ ->]%tx_ok_Ok). by one_table idtac.
Qed.

Lemma require_sql_Ok b e s u s' : require_sql b e s = Ok (u, s') → b = true ∧ s' = s.
Proof. unfold require_sql. intros [Hb ->]%lift_Ok. by apply ensure_Ok in Hb. Qed.

(** Read the tables, check the constraints, write one table. *)
Ltac inv_sql :=
  repeat match goal with
  | H : mbind _ _ _ = Ok _ |- _ =>
      apply tx_bind_Ok in H as (?&?&?&H)
  | H : gets _ _ = Ok _ |- _ => apply gets_Ok in H as [-> ->]
  | H : require_sql _ _ _ = Ok _ |- _ => apply require_sql_Ok in H as [? ->]
  | H : lift _ _ = Ok _ |- _ => apply lift_Ok in H as [? ->]
  | H : reads _ _ = Ok _ |- _ => apply reads_Ok in H as [? ->]
  | H : modify _ _ = Ok _ |- _ => apply modify_Ok in H as ->
  | H : tx_ok _ _ = Ok _ |- _ => apply tx_ok_Ok in H as [? ->]
  | H : is_none _ = true |- _ => apply is_none_None in H
  end.

Ltac insert_evolves :=
  intros s a s' Hok; inv_sql;
  one_table ltac:(first
    [apply insert_subseteq; done
    |apply table_evolves_insert; [apply _|]; intros old Hold; congruence]).

Lemma insert_workflow_request_evolves id row : tx_rel evolves (insert_workflow_request id row).
Proof. unfold insert_workflow_request. insert_evolves. Qed.

Lemma insert_trigger_evolves key row : tx_rel evolves (insert_trigger key row).
Proof. unfold insert_trigger. insert_evolves. Qed.

Lemma insert_workflow_attempt_evolves id row : tx_rel evolves (insert_workflow_attempt id row).
Proof. unfold insert_workflow_attempt. insert_evolves. Qed.

Lemma insert_node_evolves attempt_id node_id row : tx_rel evolves (insert_node attempt_id node_id row).
Proof. unfold insert_node. insert_evolves. Qed.

Lemma insert_dependency_evolves attempt_id node_id dependency :
  tx_rel evolves (insert_dependency attempt_id node_id dependency).
Proof.
  unfold insert_dependency. intros s a s' Hok. inv_sql. one_table ltac:(set_solver).
Qed.

Lemma insert_lease_evolves id row : tx_rel evolves (insert_lease id row).
Proof. unfold insert_lease. insert_evolves. Qed.

Lemma insert_node_receipt_evolves digest row : tx_rel evolves (insert_node_receipt digest row).
Proof. unfold insert_node_receipt. insert_evolves. Qed.

Lemma insert_cleanup_receipt_evolves digest row : tx_rel evolves (insert_cleanup_receipt digest row).
Proof. unfold insert_cleanup_receipt. insert_evolves. Qed.

Lemma insert_state_binding_evolves id row : tx_rel evolves (insert_state_binding id row).
Proof. unfold insert_state_binding. insert_evolves. Qed.

Lemma insert_reduction_evolves id row : tx_rel evolves (insert_reduction id row).
Proof. unfold insert_reduction. insert_evolves. Qed.

Lemma insert_lock_evolves id row : tx_rel evolves (insert_lock id row).
Proof. unfold insert_lock. insert_evolves. Qed.

Lemma upsert_project_head_evolves id row : tx_rel evolves (upsert_project_head id row).
Proof.
  unfold upsert_project_head. intros s a s' Hok. inv_sql.
  destruct (opt_is_some_and _ _) eqn:Hold; inv_sql; [done|].
  one_table ltac:(apply table_evolves_insert; [apply _|]). intros old Hk.
  rewrite Hk in Hold. simpl in Hold. unfold head_evolves. lia.
Qed.

(** The next sequence number of an attempt is free. *)
Lemma max_sequence_bound attempt_id table sequence row :
  table !! (attempt_id, sequence) = Some row → sequence ≤ max_sequence attempt_id table.
Proof.
  intros Hk. unfold max_sequence.
  assert (Hin : ((attempt_id, sequence), row) ∈ select_rows (λ key _, key.1 == attempt_id) table).
  { apply select_rows_elem. split; [by apply bool_decide_true|done]. }
  induction (select_rows _ _) as [|entry rows IH]; [set_solver|]. simpl.
  apply elem_of_cons in Hin as [<-|Hin]; simpl; [lia|]. specialize (IH Hin). lia.
Qed.

Lemma append_transition_evolves attempt_id subject_kind subject_id from_state to_state reason
    evidence_digest occurred_at_ms :
  tx_rel evolves (append_transition attempt_id subject_kind subject_id from_state to_state reason
    evidence_digest occurred_at_ms).
Proof.
  unfold append_transition. intros s a s' Hok. inv_sql.
  one_table ltac:(apply insert_subseteq).
  match goal with H : ok_or _ _ = Ok _ |- _ => apply ok_or_Ok, checked_range_Some in H as [-> _] end.
  destruct (workflow_transitions _ !! _) eqn:Hk; [|done]. apply max_sequence_bound in Hk. lia.
Qed.

#[export] Hint Resolve update_locks_evolves delete_locks_evolves insert_workflow_request_evolves
  insert_trigger_evolves insert_workflow_attempt_evolves insert_node_evolves
  insert_dependency_evolves insert_lease_evolves insert_node_receipt_evolves
  insert_cleanup_receipt_evolves insert_state_binding_evolves insert_reduction_evolves
  insert_lock_evolves upsert_project_head_evolves append_transition_evolves : tx_rel.

(** ** Operations *)

Lemma open_node_not_closed state : open_node state = true → node_closed state = false.
Proof. by destruct state. Qed.

(** An update of nodes along the life cycle. *)
Lemma node_moves n n' :
  sn_ordinal n' = sn_ordinal n → sn_node_kind n' = sn_node_kind n →
  sn_activation n' = sn_activation n → sn_profile_id n' = sn_profile_id n →
  sn_worker_pool n' = sn_worker_pool n → sn_lease_generation n ≤ sn_lease_generation n' →
  open_node (sn_state n) = true → node_step (sn_state n) (sn_state n') → node_evolves n n'.
Proof.
  intros ?????? Hopen Hstep. split; try done; [by apply rtc_once|].
  intros Hc. apply open_node_not_closed in Hopen. congruence.
Qed.

(** Close the goal on one updated row: the selecting predicate gives the old state. *)
Ltac split_selected :=
  repeat match goal with
  | H : _ && _ = true |- _ => apply andb_true_iff in H as [? ?]
  | H : bool_decide _ = true |- _ => apply bool_decide_eq_true in H
  end.

Ltac node_row := intros k v Hp _; split_selected; apply node_moves; simpl;
  repeat match goal with H : sn_state _ = _ |- _ => rewrite H end; try done; constructor; done.

Ltac lease_row := intros k v Hp _; split_selected; constructor; simpl; try done; congruence.

Ltac request_row := intros k v Hp _; split_selected; constructor; simpl; try done; congruence.

Lemma attempt_check_terminal row :
  attempt_check row = true →
  attempt_terminal (sa_state row) = true ↔ is_Some (sa_terminal_at_ms row).
Proof.
  unfold attempt_check. intros H. split_selected.
  match goal with H : attempt_terminal _ = _ |- _ => rewrite H end. apply is_some_is_Some.
Qed.

(** The row after an update: it ends, keeps its state, or moves between open states. *)
Lemma attempt_moves a a' :
  sa_request_id a' = sa_request_id a → sa_attempt_number a' = sa_attempt_number a →
  sa_preparation_key a' = sa_preparation_key a → sa_created_at_ms a' = sa_created_at_ms a →
  attempt_check a' = true →
  sa_terminal_at_ms a' = sa_terminal_at_ms a ∨ is_Some (sa_terminal_at_ms a') →
  (sa_mutation_state a ≠ Mutation_NotStarted → sa_mutation_state a' ≠ Mutation_NotStarted ∧
     (abandoned (sa_state a') → sa_state a' = sa_state a)) →
  attempt_evolves a a'.
Proof.
  intros ???? Hcheck Hend ?. split; try done. intros [_ Hs].
  apply attempt_check_terminal in Hcheck.
  assert (is_Some (sa_terminal_at_ms a')) by (destruct Hend as [->|]; done).
  split; [by apply Hcheck|done].
Qed.

Ltac attempt_row := intros k v Hp Hcheck; split_selected; apply attempt_moves; simpl;
  [done|done|done|done|exact Hcheck|by eauto|];
  intros Hm; first [congruence|split; [congruence|intros [?|?]; simpl in *; congruence]].

Ltac evolves_rows :=
  match goal with
  | |- tx_rel evolves (update_nodes _ _) => apply update_nodes_evolves; node_row
  | |- tx_rel evolves (update_leases _ _) => apply update_leases_evolves; lease_row
  | |- tx_rel evolves (update_requests _ _) => apply update_requests_evolves; request_row
  | |- tx_rel evolves (update_attempts _ _) => apply update_attempts_evolves; attempt_row
  end.

Ltac evolves_steps := repeat first [tx_step|evolves_rows].

Lemma expect_one_evolves changed e : tx_rel evolves (expect_one changed e).
Proof. apply tx_rel_lift, _. Qed.
#[export] Hint Resolve expect_one_evolves : tx_rel.

Lemma wake_waiting_attempts_evolves now : tx_rel evolves (wake_waiting_attempts now).
Proof. unfold wake_waiting_attempts, wake_attempt. evolves_steps. Qed.

Lemma abandon_work_evolves attempt_id now : tx_rel evolves (abandon_work attempt_id now).
Proof. unfold abandon_work, revoke_active_leases, cancel_open_nodes. evolves_steps. Qed.

Lemma close_request_of_evolves attempt_id now : tx_rel evolves (close_request_of attempt_id now).
Proof. unfold close_request_of. evolves_steps. Qed.
#[export] Hint Resolve wake_waiting_attempts_evolves abandon_work_evolves close_request_of_evolves
  : tx_rel.

Lemma fail_terminal_workflow_evolves attempt_id cleanup now :
  tx_rel evolves (fail_terminal_workflow attempt_id cleanup now).
Proof. unfold fail_terminal_workflow. evolves_steps. Qed.

Lemma mark_workflow_needs_reconcile_evolves attempt_id cleanup now :
  tx_rel evolves (mark_workflow_needs_reconcile attempt_id cleanup now).
Proof. unfold mark_workflow_needs_reconcile. evolves_steps. Qed.
#[export] Hint Resolve fail_terminal_workflow_evolves mark_workflow_needs_reconcile_evolves : tx_rel.

Lemma fail_workflow_evolves attempt_id kind cleanup handoff now :
  tx_rel evolves (fail_workflow attempt_id kind cleanup handoff now).
Proof. unfold fail_workflow. evolves_steps. Qed.

Lemma complete_workflow_evolves `{!SchedulerCodecs} attempt_id now : tx_rel evolves (complete_workflow attempt_id now).
Proof. unfold complete_workflow. evolves_steps. Qed.

Lemma advance_loop_evolves fuel attempt_id : tx_rel evolves (advance_loop fuel attempt_id).
Proof. induction fuel; simpl; unfold ready_node; evolves_steps; apply IHfuel. Qed.
#[export] Hint Resolve fail_workflow_evolves complete_workflow_evolves advance_loop_evolves : tx_rel.

Lemma complete_shadow_workflow_evolves `{!SchedulerCodecs} context now :
  tx_rel evolves (complete_shadow_workflow context now).
Proof. unfold complete_shadow_workflow. evolves_steps. Qed.
#[export] Hint Resolve complete_shadow_workflow_evolves : tx_rel.

Lemma admit_transaction_evolves `{!SchedulerCodecs} manifest json admission request attempt now :
  tx_rel evolves (admit_transaction manifest json admission request attempt now).
Proof.
  unfold admit_transaction, admit_new, supersede_pre_mutation_attempts, supersede_attempt,
    create_workflow_attempt, create_node, record_trigger, update_project_head.
  evolves_steps.
Qed.

Lemma expire_one_lease_evolves `{!SchedulerCodecs} now entry :
  tx_rel evolves (expire_one_lease now entry).
Proof. unfold expire_one_lease, expire_mutation_lease, expire_execution, requeue_node. evolves_steps. Qed.
#[export] Hint Resolve admit_transaction_evolves expire_one_lease_evolves : tx_rel.

Lemma expire_leases_transaction_evolves `{!SchedulerCodecs} now :
  tx_rel evolves (expire_leases_transaction now).
Proof. unfold expire_leases_transaction. evolves_steps. Qed.
#[export] Hint Resolve expire_leases_transaction_evolves : tx_rel.

Lemma seal_lease_generation `{!WorkflowCodecs} lease sealed :
  seal_lease lease = Ok sealed → wl_lease_generation sealed = wl_lease_generation lease.
Proof.
  intros Hok. apply result_bind_Ok in Hok as (digest & _ & Hok). cbv zeta in Hok.
  apply result_bind_Ok in Hok as (u & _ & Hok). by injection Hok as <-.
Qed.

(** A new lease has the next generation of its node. *)
Lemma candidate_lease_generation `{!SchedulerCodecs} lease_id candidate state worker now duration
    db lease :
  candidate_lease lease_id candidate state worker now duration db = Ok lease →
  wl_lease_generation lease = ro_lease_generation (rd_owned candidate) + 1.
Proof.
  unfold candidate_lease. intros Hok0.
  apply result_bind_Ok in Hok0 as (inputs & _ & Hok). destruct inputs as [digest inputs].
  apply result_bind_Ok in Hok as (generation & Hgen & Hok).
  apply result_bind_Ok in Hok as (expires & _ & Hok).
  apply result_bind_Ok in Hok as (lease0 & Hnew & Hok).
  apply ok_or_Ok, checked_range_Some in Hgen as [-> _].
  apply map_err_Ok, seal_lease_generation in Hnew. simpl in Hnew.
  destruct state as [state|].
  - apply map_err_Ok, seal_lease_generation in Hok. simpl in Hok. congruence.
  - by injection Hok as ->.
Qed.

Lemma persist_active_lease_evolves `{!SchedulerCodecs} lease previous now :
  previous ≤ wl_lease_generation lease → tx_rel evolves (persist_active_lease lease previous now).
Proof.
  intros Hgen. unfold persist_active_lease. evolves_steps.
  apply update_nodes_evolves. intros k v Hp _. split_selected. apply node_moves; simpl; try done.
  - lia.
  - by match goal with H : sn_state _ = _ |- _ => rewrite H end.
  - match goal with H : sn_state _ = _ |- _ => rewrite H end. constructor.
Qed.

Lemma acquire_mutation_lock_evolves candidate now :
  tx_rel evolves (acquire_mutation_lock candidate now).
Proof. unfold acquire_mutation_lock. evolves_steps. Qed.

Lemma operation_state_for_candidate_evolves `{!SchedulerCodecs} candidate worker now :
  tx_rel evolves (operation_state_for_candidate candidate worker now).
Proof. unfold operation_state_for_candidate, bound_operation_state. evolves_steps. Qed.
#[export] Hint Resolve acquire_mutation_lock_evolves operation_state_for_candidate_evolves : tx_rel.

Lemma claim_first_evolves `{!SchedulerCodecs} lease_id worker now duration last weight candidates :
  tx_rel evolves (claim_first lease_id worker now duration last weight candidates).
Proof.
  induction candidates as [|candidate candidates IH]; simpl; [apply tx_rel_ok, _|].
  assert (Hclaim : ∀ state, tx_rel evolves (
    let? lease := reads (candidate_lease lease_id candidate state worker now duration) in
    let? _ := persist_active_lease lease (ro_lease_generation (rd_owned candidate)) now in
    let? _ := update_fairness_cursor candidate last weight in
    tx_ok (Some lease))).
  { intros state. apply (tx_rel_bind_post _ (λ lease,
      ro_lease_generation (rd_owned candidate) ≤ wl_lease_generation lease)).
    - apply tx_rel_reads, _.
    - intros s lease s' [Hok _]%reads_Ok. apply candidate_lease_generation in Hok. lia.
    - intros lease Hgen. apply tx_rel_bind; [apply _|by apply persist_active_lease_evolves|].
      intros _. apply tx_rel_bind; [apply _| |intros; apply tx_rel_ok, _].
      apply tx_rel_modify. intros s. by one_table idtac. }
  repeat first [apply IH|apply Hclaim|tx_step].
Qed.

Lemma claim_next_transaction_evolves `{!SchedulerCodecs} lease_id worker now duration :
  tx_rel evolves (claim_next_transaction lease_id worker now duration).
Proof. unfold claim_next_transaction. evolves_steps; apply claim_first_evolves. Qed.

Lemma renew_lease_transaction_evolves `{!SchedulerCodecs} lease now duration :
  tx_rel evolves (renew_lease_transaction lease now duration).
Proof. unfold renew_lease_transaction, renew_lease_row, require_sql. evolves_steps. Qed.

Lemma commit_cleanup_receipt_transaction_evolves `{!SchedulerCodecs} receipt json now :
  tx_rel evolves (commit_cleanup_receipt_transaction receipt json now).
Proof.
  unfold commit_cleanup_receipt_transaction, record_cleanup_receipt. evolves_steps.
Qed.

Lemma persist_node_receipt_evolves `{!SchedulerCodecs} receipt json now handoff :
  tx_rel evolves (persist_node_receipt receipt json now handoff).
Proof.
  unfold persist_node_receipt. evolves_steps.
  apply update_nodes_evolves. intros k v Hp _. split_selected. apply node_moves; simpl; try done.
  - by match goal with H : sn_state _ = _ |- _ => rewrite H end.
  - match goal with H : sn_state _ = _ |- _ => rewrite H end.
    apply node_is_settled. unfold receipt_terminal_node_state.
    by destruct (wnr_outcome receipt); [|destruct (_ || _)].
Qed.
#[export] Hint Resolve persist_node_receipt_evolves : tx_rel.

Lemma commit_node_receipt_transaction_evolves `{!SchedulerCodecs} receipt json now :
  tx_rel evolves (commit_node_receipt_transaction receipt json now).
Proof.
  unfold commit_node_receipt_transaction, apply_node_receipt_outcome, touch_attempt, advance_ready_nodes.
  evolves_steps.
Qed.

Lemma perform_reduction_evolves `{!SchedulerCodecs} context node now :
  tx_rel evolves (perform_reduction context node now).
Proof. unfold perform_reduction, after_reduction, touch_attempt, advance_ready_nodes. evolves_steps. Qed.
#[export] Hint Resolve claim_next_transaction_evolves renew_lease_transaction_evolves
  commit_cleanup_receipt_transaction_evolves commit_node_receipt_transaction_evolves
  perform_reduction_evolves : tx_rel.

(** ** The scheduler *)

Section History.
Context `{!SchedulerCodecs}.

(** The calls, with any arguments and any outcome. *)
Inductive scheduler_step (db : WorkflowDb) : WorkflowDb → Prop :=
| step_admit manifest admission request_id attempt_id now :
    scheduler_step db (Scheduler_admit manifest admission request_id attempt_id now db).1
| step_claim lease_id worker now duration :
    scheduler_step db (Scheduler_claim_next lease_id worker now duration db).1
| step_expire now : scheduler_step db (Scheduler_expire_leases now db).1
| step_renew worker lease now duration :
    scheduler_step db (Scheduler_renew_lease worker lease now duration db).1
| step_cleanup receipt now :
    scheduler_step db (Scheduler_commit_cleanup_receipt receipt now db).1
| step_receipt receipt now : scheduler_step db (Scheduler_commit_node_receipt receipt now db).1
| step_reduce attempt_id now : scheduler_step db (Scheduler_reduce_attempt attempt_id now db).1
| step_reconcile now : scheduler_step db (Scheduler_reconcile_controller_nodes now db).1.

(** A preorder that every transaction of the scheduler keeps. *)
Class SchedulerRel (R : relation WorkflowDb) : Prop := {
  rel_preorder :: PreOrder R;
  rel_admit manifest json admission request attempt now :
    tx_rel R (admit_transaction manifest json admission request attempt now);
  rel_expire now : tx_rel R (expire_leases_transaction now);
  rel_claim lease_id worker now duration :
    tx_rel R (claim_next_transaction lease_id worker now duration);
  rel_renew lease now duration : tx_rel R (renew_lease_transaction lease now duration);
  rel_cleanup receipt json now : tx_rel R (commit_cleanup_receipt_transaction receipt json now);
  rel_receipt receipt json now : tx_rel R (commit_node_receipt_transaction receipt json now);
  rel_reduction context node now : tx_rel R (perform_reduction context node now)
}.

#[local] Hint Resolve rel_admit rel_expire rel_claim rel_renew rel_cleanup rel_receipt rel_reduction
  : tx_rel.

Section AnyRelation.
Context (R : relation WorkflowDb) `{!SchedulerRel R}.

Lemma expire_leases_rel now db : R db (Scheduler_expire_leases now db).1.
Proof. unfold Scheduler_expire_leases. apply immediate_transaction_rel; [apply _|]. tx_steps. Qed.

Lemma reduce_attempt_rel attempt_id now db : R db (Scheduler_reduce_attempt attempt_id now db).1.
Proof. unfold Scheduler_reduce_attempt. apply immediate_transaction_rel; [apply _|]. tx_steps. Qed.

Lemma reduce_all_rel attempts now db : R db (reduce_all attempts now db).1.
Proof.
  revert db. induction attempts as [|attempt_id attempts IH]; intros db; simpl; [reflexivity|].
  pose proof (reduce_attempt_rel attempt_id now db) as Hone.
  destruct (Scheduler_reduce_attempt attempt_id now db) as [db1 [r|e]]; simpl in *; [|done].
  etrans; [exact Hone|apply IH].
Qed.

Lemma scheduler_step_rel db db' : scheduler_step db db' → R db db'.
Proof.
  destruct 1.
  1,2,4,5: unfold Scheduler_admit, Scheduler_claim_next, Scheduler_renew_lease,
    Scheduler_commit_cleanup_receipt; apply immediate_transaction_rel; [apply _|]; tx_steps.
  - apply expire_leases_rel.
  - unfold Scheduler_commit_node_receipt. destruct (contract _); [|reflexivity].
    destruct (_ || _); [reflexivity|]. pose proof (expire_leases_rel now db) as Hone.
    destruct (Scheduler_expire_leases now db) as [db1 [n|e]]; simpl in *; [|done].
    etrans; [exact Hone|]. apply immediate_transaction_rel; [apply _|]. tx_steps.
  - apply reduce_attempt_rel.
  - unfold Scheduler_reconcile_controller_nodes. destruct (_ <? _); [reflexivity|].
    pose proof (expire_leases_rel now db) as Hone.
    destruct (Scheduler_expire_leases now db) as [db1 [n|e]]; simpl in *; [|done].
    pose proof (reduce_all_rel (reducible_attempts db1) now db1) as Hall.
    destruct (reduce_all _ _ _) as [db2 r]; simpl in *. by etrans.
Qed.

Lemma scheduler_run_rel db db' : rtc scheduler_step db db' → R db db'.
Proof.
  induction 1 as [|db1 db2 db3 H12 H23 IH]; [reflexivity|].
  etrans; [by apply scheduler_step_rel|done].
Qed.
End AnyRelation.

#[export] Instance evolves_scheduler : SchedulerRel evolves.
Proof. constructor; auto with tx_rel typeclass_instances. Qed.
End History.
