(* ===== verification/SchedulerInvariant.v ===== *)
(** * The workflow scheduler: leases and nodes

    The invariant of the lease journal: a node is leased exactly when it has an active
    lease, it never has two, and the columns of a lease agree with the canonical
    document stored beside them.  Statements that neither open nor close a lease keep
    [same_leasing]; the four places that do are proved one by one. *)

From Stdlib Require Import ZArith Lia Ascii String.
From stdpp Require Import base gmap strings option list_numbers list relations.
From S2P Require Import Prelude TxLogic Identifiers Text Ordered Workflow Manifest Errors SchedulerDb Scheduler SchedulerLeases SchedulerReceipts SchedulerHistory.

Local Open Scope Z_scope.

Definition lease_key (row : WfLeaseRow) : Uuid * WorkflowNodeId := (sl_attempt_id row, sl_node_id row).

(** The active lease [id] of the node [key]; a leased node. *)
Definition active_at (db : WorkflowDb) (key : Uuid * WorkflowNodeId) (id : Uuid) : Prop :=
  ∃ row, workflow_lease_journal db !! id = Some row ∧ sl_state row = Lease_Active
         ∧ lease_key row = key.

Definition leased (db : WorkflowDb) (key : Uuid * WorkflowNodeId) : Prop :=
  ∃ node, workflow_nodes db !! key = Some node ∧ sn_state node = NodeState_Leased.

Definition leases_unique (db : WorkflowDb) : Prop :=
  ∀ key id id', active_at db key id → active_at db key id' → id = id'.

Definition agrees (db : WorkflowDb) (key : Uuid * WorkflowNodeId) : Prop :=
  leased db key ↔ ∃ id, active_at db key id.

Definition lease_inv (db : WorkflowDb) : Prop := leases_unique db ∧ ∀ key, agrees db key.

(** The columns of a lease that its document also has. *)
Definition lease_document (row : WfLeaseRow) : Uuid * WorkflowNodeId * list Z * EvidenceDigest * Z * Z :=
  (lease_key row, sl_lease_json row, sl_lease_digest row, sl_leased_at_ms row, sl_expires_at_ms row).

(** No lease is added and the documents stay. *)
Definition same_documents (db db' : WorkflowDb) : Prop :=
  ∀ id row', workflow_lease_journal db' !! id = Some row' →
    ∃ row, workflow_lease_journal db !! id = Some row ∧ lease_document row' = lease_document row.

(** The same leases are active and the same nodes are leased. *)
Definition same_leasing (db db' : WorkflowDb) : Prop :=
  (∀ key id, active_at db' key id ↔ active_at db key id) ∧ (∀ key, leased db' key ↔ leased db key).

(** A statement that does not touch leases. *)
Definition quiet (db db' : WorkflowDb) : Prop := same_leasing db db' ∧ same_documents db db'.

#[export] Instance same_documents_preorder : PreOrder same_documents.
Proof.
  split; [intros db id row Hrow; by exists row|]. intros db1 db2 db3 H12 H23 id row3 H3.
  destruct (H23 id row3 H3) as (row2 & H2 & ->). by apply H12.
Qed.

#[export] Instance same_leasing_preorder : PreOrder same_leasing.
Proof.
  split; [by intros db|]. intros db1 db2 db3 [Ha Hl] [Ha' Hl']. split.
  - intros key id. by rewrite Ha', Ha.
  - intros key. by rewrite Hl', Hl.
Qed.

#[export] Instance quiet_preorder : PreOrder quiet.
Proof.
  split; [intros db; split; reflexivity|]. intros db1 db2 db3 [] []. split; by etrans.
Qed.

Lemma same_leasing_inv db db' : same_leasing db db' → lease_inv db → lease_inv db'.
Proof.
  intros [Ha Hl] [Hu Hg]. split.
  - intros key id id' H1 H2. rewrite Ha in H1, H2. eauto.
  - intros key. specialize (Hg key). unfold agrees in *. rewrite Hl, Hg. by setoid_rewrite Ha.
Qed.

(** ** Statements that keep the leasing *)

(** The two tables are as before. *)
Lemma same_tables_quiet db db' :
  workflow_lease_journal db' = workflow_lease_journal db → workflow_nodes db' = workflow_nodes db →
  quiet db db'.
Proof.
  intros Hl Hn. split.
  - unfold same_leasing, active_at, leased. by rewrite Hl, Hn.
  - intros id row. rewrite Hl. eauto.
Qed.

Ltac quiet_sql :=
  intros s a s' Hok; inv_sql;
  try (match goal with x : (Z * gmap _ _)%type |- _ => destruct x end; inv_sql);
  by apply same_tables_quiet.

Lemma update_requests_quiet p f : tx_rel quiet (update_requests p f).
Proof. unfold update_requests. quiet_sql. Qed.

Lemma update_attempts_quiet p f : tx_rel quiet (update_attempts p f).
Proof. unfold update_attempts. quiet_sql. Qed.

Lemma update_locks_quiet p f : tx_rel quiet (update_locks p f).
Proof. unfold update_locks. quiet_sql. Qed.

Lemma delete_locks_quiet p : tx_rel quiet (delete_locks p).
Proof. unfold delete_locks. quiet_sql. Qed.

Lemma insert_workflow_request_quiet id row : tx_rel quiet (insert_workflow_request id row).
Proof. unfold insert_workflow_request. quiet_sql. Qed.

Lemma insert_trigger_quiet key row : tx_rel quiet (insert_trigger key row).
Proof. unfold insert_trigger. quiet_sql. Qed.

Lemma insert_workflow_attempt_quiet id row : tx_rel quiet (insert_workflow_attempt id row).
Proof. unfold insert_workflow_attempt. quiet_sql. Qed.

Lemma insert_dependency_quiet attempt_id node_id dependency :
  tx_rel quiet (insert_dependency attempt_id node_id dependency).
Proof. unfold insert_dependency. quiet_sql. Qed.

Lemma insert_node_receipt_quiet digest row : tx_rel quiet (insert_node_receipt digest row).
Proof. unfold insert_node_receipt. quiet_sql. Qed.

Lemma insert_cleanup_receipt_quiet digest row :
  tx_rel quiet (insert_cleanup_receipt digest row).
Proof. unfold insert_cleanup_receipt. quiet_sql. Qed.

Lemma insert_state_binding_quiet id row : tx_rel quiet (insert_state_binding id row).
Proof. unfold insert_state_binding. quiet_sql. Qed.

Lemma insert_reduction_quiet id row : tx_rel quiet (insert_reduction id row).
Proof. unfold insert_reduction. quiet_sql. Qed.

Lemma insert_lock_quiet id row : tx_rel quiet (insert_lock id row).
Proof. unfold insert_lock. quiet_sql. Qed.

Lemma upsert_project_head_quiet id row : tx_rel quiet (upsert_project_head id row).
Proof.
  unfold upsert_project_head. intros s a s' Hok. inv_sql.
  destruct (opt_is_some_and _ _); inv_sql; by apply same_tables_quiet.
Qed.

Lemma append_transition_quiet attempt_id subject_kind subject_id from_state to_state reason
    evidence_digest occurred_at_ms :
  tx_rel quiet (append_transition attempt_id subject_kind subject_id from_state to_state
    reason evidence_digest occurred_at_ms).
Proof. unfold append_transition. quiet_sql. Qed.

Lemma expect_one_quiet changed e : tx_rel quiet (expect_one changed e).
Proof. apply tx_rel_lift, _. Qed.

#[export] Hint Resolve update_requests_quiet update_attempts_quiet update_locks_quiet
  delete_locks_quiet insert_workflow_request_quiet insert_trigger_quiet
  insert_workflow_attempt_quiet insert_dependency_quiet insert_node_receipt_quiet
  insert_cleanup_receipt_quiet insert_state_binding_quiet insert_reduction_quiet
  insert_lock_quiet upsert_project_head_quiet append_transition_quiet expect_one_quiet
  : tx_rel.

(** ** Updates of nodes and leases *)

Lemma update_nodes_Ok p f s changed s' :
  update_nodes p f s = Ok (changed, s') →
  changed = Z.of_nat (length (select_rows p (workflow_nodes s))) ∧
  (∀ k, workflow_nodes s' !! k = (λ v, if p k v then f v else v) <$> (workflow_nodes s !! k)) ∧
  s' = s <| workflow_nodes := workflow_nodes s' |>.
Proof.
  unfold update_nodes. intros Hok. inv_sql.
  match goal with x : (Z * gmap _ _)%type |- _ => destruct x as [n table] end. inv_sql.
  match goal with H : update_rows _ _ _ _ = _ |- _ => apply update_rows_Ok in H as (? & ? & _) end.
  subst. done.
Qed.

Lemma update_leases_Ok p f s changed s' :
  update_leases p f s = Ok (changed, s') →
  changed = Z.of_nat (length (select_rows p (workflow_lease_journal s))) ∧
  (∀ k, workflow_lease_journal s' !! k
        = (λ v, if p k v then f v else v) <$> (workflow_lease_journal s !! k)) ∧
  s' = s <| workflow_lease_journal := workflow_lease_journal s' |>.
Proof.
  unfold update_leases. intros Hok. inv_sql.
  match goal with x : (Z * gmap _ _)%type |- _ => destruct x as [n table] end. inv_sql.
  match goal with H : update_rows _ _ _ _ = _ |- _ => apply update_rows_Ok in H as (? & ? & _) end.
  subst. done.
Qed.

Lemma select_one {K V} `{Countable K} (p : K → V → bool) (m : gmap K V) :
  Z.of_nat (length (select_rows p m)) = 1 → ∃ k v, m !! k = Some v ∧ p k v = true.
Proof.
  destruct (select_rows p m) as [|[k v] rows] eqn:Hsel; simpl; [lia|]. intros _.
  assert (Hin : (k, v) ∈ select_rows p m) by (rewrite Hsel; left).
  apply select_rows_elem in Hin as [Hp Hk]. eauto.
Qed.

Lemma expect_one_Ok changed e s u s' : expect_one changed e s = Ok (u, s') → changed = 1 ∧ s' = s.
Proof.
  unfold expect_one. intros [Hb ->]%lift_Ok. apply ensure_Ok in Hb. by apply bool_decide_eq_true in Hb.
Qed.

(** Which nodes are leased after an update of nodes. *)
Lemma leased_after_nodes p f s changed s' key :
  update_nodes p f s = Ok (changed, s') →
  leased s' key ↔ ∃ node, workflow_nodes s !! key = Some node
    ∧ sn_state (if p key node then f node else node) = NodeState_Leased.
Proof.
  intros (_ & Hlookup & _)%update_nodes_Ok. unfold leased. rewrite Hlookup.
  destruct (workflow_nodes s !! key); naive_solver.
Qed.

Lemma active_after_nodes p f s changed s' key id :
  update_nodes p f s = Ok (changed, s') → active_at s' key id ↔ active_at s key id.
Proof. intros (_ & _ & ->)%update_nodes_Ok. done. Qed.

Lemma leased_after_leases p f s changed s' key :
  update_leases p f s = Ok (changed, s') → leased s' key ↔ leased s key.
Proof. intros (_ & _ & ->)%update_leases_Ok. done. Qed.

Lemma active_after_leases p f s changed s' key id :
  update_leases p f s = Ok (changed, s') →
  active_at s' key id ↔ ∃ row, workflow_lease_journal s !! id = Some row
    ∧ sl_state (if p id row then f row else row) = Lease_Active
    ∧ lease_key (if p id row then f row else row) = key.
Proof.
  intros (_ & Hlookup & _)%update_leases_Ok. unfold active_at. rewrite Hlookup.
  destruct (workflow_lease_journal s !! id); naive_solver.
Qed.

Lemma update_nodes_quiet p f :
  (∀ k v, p k v = true → sn_state v ≠ NodeState_Leased ∧ sn_state (f v) ≠ NodeState_Leased) →
  tx_rel quiet (update_nodes p f).
Proof.
  intros Hp s changed s' Hok.
  split; [|apply update_nodes_Ok in Hok as (_ & _ & ->); intros id row; simpl; eauto]. split.
  - intros key id. by eapply active_after_nodes.
  - intros key. rewrite leased_after_nodes by exact Hok. unfold leased.
    apply exist_proper. intros node. specialize (Hp key node).
    destruct (p key node); [|done]. destruct Hp; naive_solver.
Qed.

Lemma insert_node_quiet attempt_id node_id row :
  sn_state row ≠ NodeState_Leased → tx_rel quiet (insert_node attempt_id node_id row).
Proof.
  intros Hrow s a s' Hok. unfold insert_node in Hok. inv_sql.
  split; [|intros id r; simpl; eauto]. split; [done|].
  intros key. unfold leased. simpl. destruct (decide (key = (attempt_id, node_id))) as [->|Hne].
  - rewrite lookup_insert_eq. naive_solver.
  - by rewrite lookup_insert_ne.
Qed.

(** ** Ending the work of an attempt *)

Lemma abandon_work_effect attempt_id now s u s' :
  abandon_work attempt_id now s = Ok (u, s') →
  (∀ key id, active_at s' key id ↔ active_at s key id ∧ key.1 ≠ attempt_id) ∧
  (∀ key, leased s' key ↔ leased s key ∧ key.1 ≠ attempt_id).
Proof.
  unfold abandon_work. intros Hok.
  apply tx_bind_Ok in Hok as (n1 & s1 & Hleases & Hok).
  apply tx_bind_Ok in Hok as (n2 & s2 & Hnodes & Hok). apply tx_ok_Ok in Hok as [_ ->].
  unfold revoke_active_leases in Hleases. unfold cancel_open_nodes in Hnodes. split.
  - intros key id. rewrite active_after_nodes by exact Hnodes.
    rewrite active_after_leases by exact Hleases. unfold active_at. split.
    + intros (row & Hk & Hs & Hkey). destruct (_ && _) eqn:Hp; [done|].
      split; [by exists row|]. subst key. intros He.
      rewrite Hs, !bool_decide_eq_true_2 in Hp by done. done.
    + intros [(row & Hk & Hs & <-) Hne]. exists row. split; [done|]. simpl in Hne.
      rewrite (bool_decide_eq_false_2 (sl_attempt_id row = attempt_id)) by done. done.
  - intros key. rewrite leased_after_nodes by exact Hnodes.
    transitivity (∃ node, workflow_nodes s !! key = Some node ∧ sn_state node = NodeState_Leased
      ∧ key.1 ≠ attempt_id); [|unfold leased; naive_solver].
    apply update_leases_Ok in Hleases as (_ & _ & ->). simpl. apply exist_proper. intros node.
    destruct (bool_decide_reflect (key.1 = attempt_id)) as [He|Hne]; simpl; [|naive_solver].
    destruct (open_node (sn_state node)) eqn:Hopen; simpl; [naive_solver|].
    split; [|naive_solver]. intros [_ Hs]. rewrite Hs in Hopen. done.
Qed.

Lemma abandon_work_inv attempt_id now :
  tx_rel (λ s s', lease_inv s → lease_inv s') (abandon_work attempt_id now).
Proof.
  intros s u s' (Ha & Hl)%abandon_work_effect [Hu Hg]. split.
  - intros key id id' [H1 _]%Ha [H2 _]%Ha. eauto.
  - intros key. specialize (Hg key). unfold agrees in *. rewrite Hl, Hg.
    setoid_rewrite Ha. naive_solver.
Qed.

(** ** Opening and closing one lease *)

(** Every node but [key] agrees with the journal, and [key] has no active lease. *)
Definition half_closed (key : Uuid * WorkflowNodeId) (db : WorkflowDb) : Prop :=
  leases_unique db ∧ (∀ k, k ≠ key → agrees db k) ∧ ¬ ∃ id, active_at db key id.

Definition half_open (key : Uuid * WorkflowNodeId) (db : WorkflowDb) : Prop :=
  leases_unique db ∧ (∀ k, k ≠ key → agrees db k) ∧ ∃ id, active_at db key id.

Lemma half_closed_leasing key db db' : same_leasing db db' → half_closed key db → half_closed key db'.
Proof.
  intros [Ha Hl] (Hu & Hg & Hn). split_and!.
  - intros k id id' H1 H2. rewrite Ha in H1, H2. eauto.
  - intros k Hk. specialize (Hg k Hk). unfold agrees in *. rewrite Hl, Hg. by setoid_rewrite Ha.
  - intros [id Hid]. rewrite Ha in Hid. eauto.
Qed.

(** Closing the lease of [key]. *)
Lemma close_lease_half lease_id f s changed s' key row :
  update_leases (λ id row, (id == lease_id) && (sl_state row == Lease_Active)) f s = Ok (changed, s') →
  (∀ row, sl_state (f row) ≠ Lease_Active) →
  workflow_lease_journal s !! lease_id = Some row → sl_state row = Lease_Active →
  lease_key row = key → lease_inv s → half_closed key s'.
Proof.
  intros Hok Hf Hrow Hactive Hkey [Hu Hg].
  assert (Ha : ∀ k id, active_at s' k id ↔ active_at s k id ∧ id ≠ lease_id).
  { intros k id. rewrite active_after_leases by exact Hok. unfold active_at. split.
    - intros (r & Hk & Hs & Hlk). destruct (_ && _) eqn:Hp; [by apply Hf in Hs|].
      split; [by exists r|]. intros ->. rewrite Hs, !bool_decide_eq_true_2 in Hp by done. done.
    - intros [(r & Hk & Hs & Hlk) Hne]. exists r.
      by rewrite (bool_decide_eq_false_2 (id = lease_id)). }
  assert (Hself : active_at s key lease_id) by (exists row; done).
  split_and!.
  - intros k id id' [H1 _]%Ha [H2 _]%Ha. eauto.
  - intros k Hk. specialize (Hg k). unfold agrees in *. rewrite leased_after_leases by exact Hok.
    rewrite Hg. setoid_rewrite Ha. split; [|naive_solver]. intros [id Hid]. exists id. split; [done|].
    intros ->. destruct Hid as (r & Hr & _ & Hlk). congruence.
  - intros [id [Hid Hne]%Ha]. apply Hne. by eapply Hu.
Qed.

(** The node of the closed lease leaves the leased ones. *)
Lemma settle_node_inv key f s changed s' :
  update_nodes (λ k row, (k == key) && (sn_state row == NodeState_Leased)) f s = Ok (changed, s') →
  (∀ row, sn_state (f row) ≠ NodeState_Leased) → half_closed key s → lease_inv s'.
Proof.
  intros Hok Hf (Hu & Hg & Hn). split.
  - intros k id id' H1 H2. rewrite active_after_nodes in H1, H2 by exact Hok. eauto.
  - intros k. unfold agrees. rewrite leased_after_nodes by exact Hok.
    setoid_rewrite (active_after_nodes _ _ _ _ _ k _ Hok).
    destruct (decide (k = key)) as [->|Hne].
    + split; [|naive_solver]. intros (node & _ & Hs). exfalso.
      rewrite bool_decide_eq_true_2 in Hs by done. simpl in Hs.
      destruct (bool_decide_reflect (sn_state node = NodeState_Leased)); [by apply Hf in Hs|done].
    + rewrite (bool_decide_eq_false_2 (k = key)) by done. apply (Hg k Hne).
Qed.

(** A new lease of [key]; the node follows. *)
Lemma insert_lease_half id row s u s' :
  insert_lease id row s = Ok (u, s') → sl_state row = Lease_Active → lease_inv s →
  half_open (lease_key row) s'.
Proof.
  intros Hok Hactive [Hu Hg]. unfold insert_lease in Hok. inv_sql.
  match goal with H : negb (row_exists _ _) = true |- _ =>
    apply negb_true_iff in H; rename H into Hunique end.
  match goal with H : workflow_lease_journal s !! id = None |- _ => rename H into Hfresh end.
  assert (Hnone : ∀ id', ¬ active_at s (lease_key row) id').
  { intros id' (r & Hr & Hs & Hlk). pose proof (row_exists_false _ _ Hunique id' r Hr) as Hp.
    simpl in Hp. unfold lease_key in Hlk. injection Hlk as H1 H2.
    rewrite H1, H2, Hs, Hactive in Hp. rewrite !(bool_decide_eq_true_2 _ eq_refl) in Hp.
    by rewrite !orb_true_r in Hp. }
  set (s' := s <| workflow_lease_journal := <[id := row]> (workflow_lease_journal s) |>).
  assert (Ha : ∀ k i, active_at s' k i ↔ active_at s k i ∨ (i = id ∧ k = lease_key row)).
  { intros k i. unfold active_at. simpl. destruct (decide (i = id)) as [->|Hne].
    - rewrite lookup_insert_eq, Hfresh. naive_solver.
    - rewrite lookup_insert_ne by done. naive_solver. }
  split_and!.
  - intros k i j Hi Hj. apply Ha in Hi, Hj. naive_solver.
  - intros k Hk. specialize (Hg k). unfold agrees in *.
    change (leased s' k) with (leased s k). rewrite Hg. setoid_rewrite Ha. naive_solver.
  - exists id. apply Ha. auto.
Qed.

Lemma lease_node_inv key p f s changed s' :
  update_nodes p f s = Ok (changed, s') → changed = 1 → (∀ k row, p k row = true → k = key) →
  (∀ row, sn_state (f row) = NodeState_Leased) → half_open key s → lease_inv s'.
Proof.
  intros Hok Hone Hp Hf (Hu & Hg & Hn). split.
  - intros k id id' H1 H2. rewrite active_after_nodes in H1, H2 by exact Hok. eauto.
  - intros k. unfold agrees. rewrite leased_after_nodes by exact Hok.
    setoid_rewrite (active_after_nodes _ _ _ _ _ k _ Hok).
    destruct (decide (k = key)) as [->|Hne].
    + split; [done|]. intros _. apply update_nodes_Ok in Hok as (-> & _ & _).
      apply select_one in Hone as (k & node & Hk & Hpk). pose proof (Hp _ _ Hpk) as ->.
      exists node. split; [done|]. rewrite Hpk. apply Hf.
    + transitivity (leased s k); [|apply (Hg k Hne)]. unfold leased. apply exist_proper.
      intros node. destruct (p k node) eqn:Hpk; [by apply Hp in Hpk|done].
Qed.

(** ** The invariant *)

Section Documents.
Context `{!SchedulerCodecs}.

(** The stored document, where it decodes, names the lease, its node and its times. *)
Definition document_agrees (id : Uuid) (row : WfLeaseRow) : Prop :=
  ∀ lease, WorkflowLease_decode_canonical (sl_lease_json row) = Ok lease →
    wl_lease_id lease = id ∧ (wl_attempt_id lease, wl_node_id lease) = lease_key row
    ∧ wl_lease_digest lease = sl_lease_digest row ∧ wl_leased_at_ms lease = sl_leased_at_ms row
    ∧ wl_expires_at_ms lease = sl_expires_at_ms row.

Definition documents_agree (db : WorkflowDb) : Prop :=
  ∀ id row, workflow_lease_journal db !! id = Some row → document_agrees id row.

Definition scheduler_inv (db : WorkflowDb) : Prop := lease_inv db ∧ documents_agree db.

Definition keeps (db db' : WorkflowDb) : Prop := scheduler_inv db → scheduler_inv db'.

Lemma same_documents_agree db db' :
  same_documents db db' → documents_agree db → documents_agree db'.
Proof.
  intros Hsame Hdoc id row' Hrow'. destruct (Hsame id row' Hrow') as (row & Hrow & Heq).
  injection Heq as Ha Hn Hj Hd Hl He. intros lease Hdec. rewrite Hj in Hdec.
  specialize (Hdoc id row Hrow lease Hdec). unfold lease_key in *.
  by rewrite Ha, Hn, Hd, Hl, He.
Qed.

Lemma quiet_keeps db db' : quiet db db' → keeps db db'.
Proof.
  intros [Hl Hd] [Hi Hdoc]. split; [by eapply same_leasing_inv|by eapply same_documents_agree].
Qed.

Lemma tx_quiet_keeps {A} (m : WorkflowTx A) : tx_rel quiet m → tx_rel keeps m.
Proof. intros Hm s a s' Hok. apply quiet_keeps. by eapply Hm. Qed.

#[export] Instance keeps_preorder : PreOrder keeps.
Proof. split; [by intros db|]. intros db1 db2 db3. unfold keeps. tauto. Qed.
End Documents.

Lemma update_leases_documents p f s changed s' :
  update_leases p f s = Ok (changed, s') → (∀ row, lease_document (f row) = lease_document row) →
  same_documents s s'.
Proof.
  intros (_ & Hlookup & _)%update_leases_Ok Hf id row'. rewrite Hlookup.
  destruct (workflow_lease_journal s !! id) as [row|] eqn:Hrow; [|done]. intros [= <-].
  exists row. split; [done|]. by destruct (p id row).
Qed.

Lemma update_nodes_documents p f s changed s' :
  update_nodes p f s = Ok (changed, s') → same_documents s s'.
Proof. intros (_ & _ & ->)%update_nodes_Ok id row. simpl. eauto. Qed.

(** A row that was not leased and is not leased after. *)
Ltac unleased_row := intros k v Hp; split_selected; simpl;
  repeat match goal with H : sn_state _ = _ |- _ => rewrite H end; done.

Ltac quiet_rows :=
  match goal with
  | |- tx_rel quiet (update_nodes _ _) => apply update_nodes_quiet; unleased_row
  end.

Ltac quiet_steps := repeat first [tx_step|quiet_rows].
Ltac keeps_steps := repeat first [tx_step|apply tx_quiet_keeps; solve [quiet_steps]].

Lemma wake_waiting_attempts_quiet now : tx_rel quiet (wake_waiting_attempts now).
Proof. unfold wake_waiting_attempts, wake_attempt. quiet_steps. Qed.

Lemma close_request_of_quiet attempt_id now : tx_rel quiet (close_request_of attempt_id now).
Proof. unfold close_request_of. quiet_steps. Qed.

Lemma advance_loop_quiet fuel attempt_id : tx_rel quiet (advance_loop fuel attempt_id).
Proof. induction fuel; simpl; unfold ready_node; quiet_steps; apply IHfuel. Qed.

Lemma mark_workflow_needs_reconcile_quiet attempt_id cleanup now :
  tx_rel quiet (mark_workflow_needs_reconcile attempt_id cleanup now).
Proof. unfold mark_workflow_needs_reconcile. quiet_steps. Qed.
#[export] Hint Resolve wake_waiting_attempts_quiet close_request_of_quiet advance_loop_quiet
  mark_workflow_needs_reconcile_quiet : tx_rel.

Lemma complete_workflow_quiet `{!SchedulerCodecs} attempt_id now :
  tx_rel quiet (complete_workflow attempt_id now).
Proof. unfold complete_workflow. quiet_steps. Qed.

Lemma complete_shadow_workflow_quiet `{!SchedulerCodecs} context now :
  tx_rel quiet (complete_shadow_workflow context now).
Proof. unfold complete_shadow_workflow. quiet_steps. Qed.
#[export] Hint Resolve complete_workflow_quiet complete_shadow_workflow_quiet : tx_rel.

Lemma perform_reduction_quiet `{!SchedulerCodecs} context node now :
  tx_rel quiet (perform_reduction context node now).
Proof.
  unfold perform_reduction, after_reduction, touch_attempt, advance_ready_nodes. quiet_steps.
Qed.

Lemma commit_cleanup_receipt_transaction_quiet `{!SchedulerCodecs} receipt json now :
  tx_rel quiet (commit_cleanup_receipt_transaction receipt json now).
Proof. unfold commit_cleanup_receipt_transaction, record_cleanup_receipt. quiet_steps. Qed.
#[export] Hint Resolve perform_reduction_quiet commit_cleanup_receipt_transaction_quiet : tx_rel.

Lemma append_transition_keeps `{!SchedulerCodecs} attempt_id subject_kind subject_id from_state
    to_state reason evidence_digest occurred_at_ms :
  tx_rel keeps (append_transition attempt_id subject_kind subject_id from_state to_state reason
    evidence_digest occurred_at_ms).
Proof. apply tx_quiet_keeps. auto with tx_rel. Qed.

Lemma abandon_work_keeps `{!SchedulerCodecs} attempt_id now : tx_rel keeps (abandon_work attempt_id now).
Proof.
  intros s u s' Hok [Hi Hd]. split; [by eapply abandon_work_inv|].
  eapply same_documents_agree; [|exact Hd]. unfold abandon_work in Hok.
  apply tx_bind_Ok in Hok as (n1 & s1 & Hleases & Hok).
  apply tx_bind_Ok in Hok as (n2 & s2 & Hnodes & Hok). apply tx_ok_Ok in Hok as [_ ->].
  transitivity s1; [by eapply update_leases_documents|by eapply update_nodes_documents].
Qed.
#[export] Hint Resolve abandon_work_keeps : tx_rel.

Lemma fail_terminal_workflow_keeps `{!SchedulerCodecs} attempt_id cleanup now :
  tx_rel keeps (fail_terminal_workflow attempt_id cleanup now).
Proof. unfold fail_terminal_workflow. keeps_steps. Qed.
#[export] Hint Resolve fail_terminal_workflow_keeps : tx_rel.

Lemma fail_workflow_keeps `{!SchedulerCodecs} attempt_id kind cleanup handoff now :
  tx_rel keeps (fail_workflow attempt_id kind cleanup handoff now).
Proof. unfold fail_workflow. keeps_steps. Qed.

Lemma initial_node_unleased admission waiting now kind :
  (initial_node_state admission waiting now kind).1.1 ≠ NodeState_Leased.
Proof. unfold initial_node_state. by repeat case_match. Qed.

Lemma create_node_quiet manifest admission attempt_id waiting now entry :
  tx_rel quiet (create_node manifest admission attempt_id waiting now entry).
Proof.
  unfold create_node. destruct entry as [ordinal node].
  pose proof (initial_node_unleased admission waiting now (wn_kind node)) as Hstate.
  destruct (initial_node_state _ _ _ _) as [[state digest] completed]. simpl in Hstate.
  quiet_steps. by apply insert_node_quiet.
Qed.
#[export] Hint Resolve fail_workflow_keeps create_node_quiet : tx_rel.

Lemma admit_transaction_keeps `{!SchedulerCodecs} manifest json admission request attempt now :
  tx_rel keeps (admit_transaction manifest json admission request attempt now).
Proof.
  unfold admit_transaction, admit_new, supersede_pre_mutation_attempts, supersede_attempt,
    create_workflow_attempt, record_trigger, update_project_head.
  keeps_steps.
Qed.
#[export] Hint Resolve admit_transaction_keeps : tx_rel.

(** ** Expiry *)

Section Leases.
Context `{!SchedulerCodecs, !JcsRoundTrip WorkflowLeaseV1}.

(** The rows of the sweep are rows of the journal; their keys do not change. *)
Definition row_in_journal (db : WorkflowDb) (entry : Uuid * WfLeaseRow) : Prop :=
  ∃ row, workflow_lease_journal db !! entry.1 = Some row ∧ lease_key row = lease_key entry.2.

Lemma row_in_journal_evolves db db' entry :
  evolves db db' → row_in_journal db entry → row_in_journal db' entry.
Proof.
  intros Hev (row & Hrow & Hkey). destruct (ev_leases _ _ Hev _ _ Hrow) as (row' & Hrow' & []).
  exists row'. split; [done|]. unfold lease_key in *. congruence.
Qed.

(** What follows once the lease is closed: the node is settled first. *)
Lemma settle_node_keeps {B} key f e (k : WorkflowTx B) :
  (∀ row, sn_state (f row) ≠ NodeState_Leased) → tx_rel keeps k →
  tx_triple (λ s, half_closed key s ∧ documents_agree s)
    (let? changed := update_nodes (λ k row, (k == key) && (sn_state row == NodeState_Leased)) f in
     let? _ := expect_one changed e in k) (λ _, scheduler_inv).
Proof.
  intros Hf Hk s b s' [Hhalf Hdoc] Hok. apply tx_bind_Ok in Hok as (n & s1 & Hnodes & Hok).
  apply tx_bind_Ok in Hok as (u & s2 & [_ ->]%expect_one_Ok & Hok).
  eapply Hk; [exact Hok|]. split; [by eapply settle_node_inv|].
  eapply same_documents_agree; [by eapply update_nodes_documents|done].
Qed.

Lemma expire_one_lease_keeps now entry s u s' :
  expire_one_lease now entry s = Ok (u, s') → row_in_journal s entry → scheduler_inv s →
  scheduler_inv s'.
Proof.
  destruct entry as [lease_id row]. unfold expire_one_lease. intros Hok (row' & Hrow' & Hkey) [Hi Hd].
  apply tx_bind_Ok in Hok as (lease & s1 & [Hdec ->]%lift_Ok & Hok).
  apply tx_bind_Ok in Hok as (u1 & s1 & [_ ->]%lift_Ok & Hok).
  apply tx_bind_Ok in Hok as (node & s1 & [Hnode ->]%reads_Ok & Hok).
  apply tx_bind_Ok in Hok as (u2 & s1 & [_ ->]%lift_Ok & Hok).
  apply tx_bind_Ok in Hok as (n & s1 & Hclose & Hok).
  apply tx_bind_Ok in Hok as (u3 & s2 & [Hone ->]%expect_one_Ok & Hok).
  assert (Hhalf : half_closed (lease_key row) s1 ∧ documents_agree s1).
  { split.
    - pose proof Hclose as Hclose'. apply update_leases_Ok in Hclose' as (-> & _ & _).
      apply select_one in Hone as (id & r & Hr & Hp). split_selected. subst id.
      eapply close_lease_half; try done. unfold lease_key in *; simpl in *; congruence.
    - eapply same_documents_agree; [by eapply update_leases_documents|done]. }
  apply tx_bind_Ok in Hok as (context & s2 & [_ ->]%reads_Ok & Hok). cbv zeta in Hok.
  apply tx_bind_Ok in Hok as (deadline & s2 & [_ ->]%lift_Ok & Hok).
  apply tx_bind_Ok in Hok as (u4 & s2 & Hbranch & Hok).
  eapply append_transition_keeps; [exact Hok|]. clear Hok. revert Hbranch.
  destruct (_ && _); [|destruct (bool_decide _)]; intros Hbranch.
  - unfold expire_mutation_lease in Hbranch. eapply settle_node_keeps; [| |exact Hhalf|exact Hbranch]; [done|].
    keeps_steps.
  - unfold expire_execution in Hbranch. eapply settle_node_keeps; [| |exact Hhalf|exact Hbranch]; [done|].
    keeps_steps.
  - unfold requeue_node in Hbranch. eapply settle_node_keeps; [| |exact Hhalf|exact Hbranch]; [done|].
    keeps_steps.
Qed.
Lemma sort_by_elem {A} (cmp : A → A → comparison) (l : list A) x : x ∈ sort_by cmp l ↔ x ∈ l.
Proof. by rewrite sort_by_Permutation. Qed.

Lemma expire_leases_transaction_keeps now : tx_rel keeps (expire_leases_transaction now).
Proof.
  intros s n s' Hok Hinv. unfold expire_leases_transaction in Hok.
  apply tx_bind_Ok in Hok as (rows & s1 & [-> ->]%gets_Ok & Hok).
  apply tx_bind_Ok in Hok as (u & s1 & Hloop & [_ ->]%tx_ok_Ok).
  assert (Hrows : ∀ entry, entry ∈ expired_leases now s → row_in_journal s entry).
  { intros [id row] Hin. apply sort_by_elem, select_rows_elem in Hin as [_ Hrow]. by exists row. }
  revert Hloop Hrows. generalize (expired_leases now s) as entries. intros entries.
  revert s s1 u Hinv.
  induction entries as [|entry entries IH]; intros s s1 u Hinv Hloop Hrows; simpl in Hloop.
  - by apply tx_ok_Ok in Hloop as [_ ->].
  - apply tx_bind_Ok in Hloop as (u1 & s2 & Hone & Hloop).
    eapply IH; [|exact Hloop|].
    + eapply expire_one_lease_keeps; [exact Hone| |done]. apply Hrows. left.
    + intros entry' Hin. eapply row_in_journal_evolves.
      * eapply expire_one_lease_evolves. exact Hone.
      * apply Hrows. by right.
Qed.

(** ** Claims, renewals and receipts *)

Lemma lease_bytes_decode lease bytes lease' :
  WorkflowLease_canonical_bytes lease = Ok bytes →
  WorkflowLease_decode_canonical bytes = Ok lease' → lease' = lease.
Proof.
  unfold WorkflowLease_canonical_bytes, WorkflowLease_decode_canonical, workflow_decode_canonical.
  intros Hbytes Hdec. apply result_bind_Ok in Hbytes as (u & _ & Hbytes). apply map_err_Ok in Hbytes.
  apply result_bind_Ok in Hdec as (value & Hval & Hdec). apply map_err_Ok in Hval.
  rewrite (jcs_round_trip _ _ Hbytes) in Hval. injection Hval as <-.
  apply result_bind_Ok in Hdec as (encoded & _ & Hdec). destruct (negb _); [done|].
  apply result_bind_Ok in Hdec as (u' & _ & Hdec). by injection Hdec as <-.
Qed.

Lemma canonical_string_Ok bytes text : canonical_string bytes = Ok text → text = bytes.
Proof. unfold canonical_string. destruct (valid_utf8 bytes); congruence. Qed.

Lemma persist_active_lease_keeps lease previous now :
  tx_rel keeps (persist_active_lease lease previous now).
Proof.
  intros s u s' Hok [Hi Hd]. unfold persist_active_lease in Hok.
  apply tx_bind_Ok in Hok as (bytes & s1 & [Hbytes ->]%lift_Ok & Hok). apply map_err_Ok in Hbytes.
  apply tx_bind_Ok in Hok as (json & s1 & [->%canonical_string_Ok ->]%lift_Ok & Hok).
  apply tx_bind_Ok in Hok as (u1 & s1 & Hins & Hok).
  apply tx_bind_Ok in Hok as (n & s2 & Hnodes & Hok).
  apply tx_bind_Ok in Hok as (u2 & s3 & [Hone ->]%expect_one_Ok & Hok).
  assert (Hs2 : scheduler_inv s2).
  { split.
    - pose proof (insert_lease_half _ _ _ _ _ Hins eq_refl Hi) as Hhalf.
      eapply lease_node_inv; [exact Hnodes|exact Hone| |done|exact Hhalf].
      intros k row Hp. simpl in Hp. by split_selected.
    - eapply same_documents_agree; [by eapply update_nodes_documents|].
      unfold insert_lease in Hins. inv_sql. intros id row Hrow. simpl in Hrow.
      apply lookup_insert_Some in Hrow as [[<- <-]|[_ Hrow]]; [|by eapply Hd].
      intros lease' Hdec. simpl in Hdec. by apply (lease_bytes_decode _ _ _ Hbytes) in Hdec as ->. }
  assert (Hrest : tx_rel keeps (
    let? changed := update_attempts
      (λ id row, (id == wl_attempt_id lease)
                 && contains [Attempt_Queued; Attempt_Running] (sa_state row))
      (λ row, row <| sa_state := Attempt_Running |> <| sa_updated_at_ms := now |>) in
    let? _ := expect_one changed WorkflowStateConflict in
    append_transition (wl_attempt_id lease) "lease" (uuid_to_string (wl_lease_id lease)) None "active"
      "worker_claimed" (Some (wl_lease_digest lease)) now)) by keeps_steps.
  by eapply Hrest.
Qed.

Lemma claim_first_keeps lease_id worker now duration last weight candidates :
  tx_rel keeps (claim_first lease_id worker now duration last weight candidates).
Proof.
  induction candidates as [|candidate candidates IH]; simpl; [apply tx_rel_ok, _|].
  assert (Hcursor : tx_rel keeps (update_fairness_cursor candidate last weight)).
  { apply tx_quiet_keeps, tx_rel_modify. intros s. by apply same_tables_quiet. }
  unfold acquire_mutation_lock, operation_state_for_candidate, bound_operation_state.
  repeat first [apply IH|apply persist_active_lease_keeps|exact Hcursor|tx_step
               |apply tx_quiet_keeps; solve [quiet_steps]].
Qed.

Lemma claim_next_transaction_keeps lease_id worker now duration :
  tx_rel keeps (claim_next_transaction lease_id worker now duration).
Proof. unfold claim_next_transaction. keeps_steps; apply claim_first_keeps. Qed.

(** The renewed lease is the same assignment with a later expiry. *)
Lemma renewed_identity lease expires lease' :
  renewed lease expires = Ok lease' →
  wl_lease_id lease' = wl_lease_id lease ∧ wl_attempt_id lease' = wl_attempt_id lease
  ∧ wl_node_id lease' = wl_node_id lease ∧ wl_leased_at_ms lease' = wl_leased_at_ms lease
  ∧ wl_expires_at_ms lease' = expires.
Proof.
  unfold renewed, seal_lease. intros Hok. apply result_bind_Ok in Hok as (u & _ & Hok).
  destruct (_ <=? _); [done|]. apply result_bind_Ok in Hok as (digest & _ & Hok). cbv zeta in Hok.
  apply result_bind_Ok in Hok as (u' & _ & Hok). by injection Hok as <-.
Qed.

Lemma renew_lease_transaction_keeps supplied now duration :
  tx_rel keeps (renew_lease_transaction supplied now duration).
Proof.
  intros s result s' Hok Hinv. unfold renew_lease_transaction in Hok.
  apply tx_bind_Ok in Hok as (row & s1 & [Hrow%ok_or_Ok ->]%reads_Ok & Hok).
  apply tx_bind_Ok in Hok as (u1 & s1 & [_ ->]%lift_Ok & Hok).
  apply tx_bind_Ok in Hok as (current & s1 & [Hdec%map_err_Ok ->]%lift_Ok & Hok).
  apply tx_bind_Ok in Hok as (u2 & s1 & [_ ->]%lift_Ok & Hok).
  destruct (negb _); [by apply tx_ok_Ok in Hok as [_ ->]|].
  apply tx_bind_Ok in Hok as (expires & s1 & [_ ->]%lift_Ok & Hok).
  destruct (_ <=? _); [by apply tx_ok_Ok in Hok as [_ ->]|].
  apply tx_bind_Ok in Hok as (lease & s1 & [Hrenewed%map_err_Ok ->]%lift_Ok & Hok).
  apply tx_bind_Ok in Hok as (bytes & s1 & [Hbytes%map_err_Ok ->]%lift_Ok & Hok).
  apply tx_bind_Ok in Hok as (json & s1 & [->%canonical_string_Ok ->]%lift_Ok & Hok).
  apply tx_bind_Ok in Hok as (n & s1 & Hupdate & Hok).
  apply tx_bind_Ok in Hok as (u3 & s2 & [_ ->]%expect_one_Ok & Hok).
  apply tx_bind_Ok in Hok as (u4 & s2 & Htrans & [_ ->]%tx_ok_Ok).
  eapply append_transition_keeps; [exact Htrans|]. clear Htrans.
  unfold renew_lease_row in Hupdate. apply tx_bind_Ok in Hupdate as (t & s5 & [_ ->]%gets_Ok & Hupdate).
  apply tx_bind_Ok in Hupdate as (u5 & s5 & [_ ->]%require_sql_Ok & Hupdate).
  destruct Hinv as [Hi Hd].
  apply renewed_identity in Hrenewed as (Hid & Ha & Hn & Hl & He).
  assert (Hcur : wl_lease_id current = wl_lease_id supplied
                 ∧ (wl_attempt_id current, wl_node_id current) = lease_key row
                 ∧ wl_leased_at_ms current = sl_leased_at_ms row).
  { destruct (Hd _ _ Hrow _ Hdec) as (? & ? & ? & ? & ?). done. }
  split.
  - eapply same_leasing_inv; [|exact Hi]. split.
    + intros key id. rewrite active_after_leases by exact Hupdate. unfold active_at.
      apply exist_proper. intros r. by destruct (_ && _).
    + intros key. by eapply leased_after_leases.
  - intros id r. apply update_leases_Ok in Hupdate as (_ & Hlookup & _). rewrite Hlookup.
    destruct (workflow_lease_journal s !! id) as [r0|] eqn:Hr0; [|done]. intros [= <-].
    destruct (_ && _) eqn:Hp; [|by eapply Hd]. split_selected. subst id.
    destruct Hcur as (Hid' & Hkey & Hleased). rewrite Hid, Hid' in Hr0.
    assert (r0 = row) as -> by congruence.
    intros lease' Hdec'. simpl in Hdec'. apply (lease_bytes_decode _ _ _ Hbytes) in Hdec' as ->.
    unfold lease_key in *. simpl. rewrite Ha, Hn, Hl. done.
Qed.

Lemma receipt_matches_lease_node receipt lease :
  receipt_matches_lease receipt lease = true →
  (wnr_attempt_id receipt, wnr_node_id receipt) = (wl_attempt_id lease, wl_node_id lease).
Proof. unfold receipt_matches_lease. intros Hm. split_selected. congruence. Qed.

(** The lease a receipt may close is active and is a lease of the receipt's node. *)
Lemma active_receipt_lease_row receipt now s u :
  validate_active_receipt_lease receipt now s = Ok u → documents_agree s →
  ∃ row, workflow_lease_journal s !! wnr_lease_id receipt = Some row
    ∧ sl_state row = Lease_Active
    ∧ lease_key row = (wnr_attempt_id receipt, wnr_node_id receipt).
Proof.
  unfold validate_active_receipt_lease. intros Hok Hd.
  apply result_bind_Ok in Hok as (row & Hrow%ok_or_Ok & Hok).
  apply result_bind_Ok in Hok as (u1 & Hactive%ensure_Ok & Hok).
  apply result_bind_Ok in Hok as (lease & Hdec%map_err_Ok & Hok).
  apply result_bind_Ok in Hok as (u2 & Hm%ensure_Ok & Hok). clear Hok.
  apply bool_decide_eq_true in Hactive.
  apply andb_true_iff in Hm as [[[Hm _]%andb_true_iff _]%andb_true_iff _].
  apply receipt_matches_lease_node in Hm.
  exists row. split_and!; [done|done|]. destruct (Hd _ _ Hrow _ Hdec) as (_ & Hkey & _). congruence.
Qed.

Lemma apply_node_receipt_outcome_keeps receipt now handoff :
  tx_rel keeps (apply_node_receipt_outcome receipt now handoff).
Proof. unfold apply_node_receipt_outcome, touch_attempt, advance_ready_nodes. keeps_steps. Qed.

Lemma persist_node_receipt_keeps receipt json now handoff s u s' row :
  persist_node_receipt receipt json now handoff s = Ok (u, s') →
  workflow_lease_journal s !! wnr_lease_id receipt = Some row → sl_state row = Lease_Active →
  lease_key row = (wnr_attempt_id receipt, wnr_node_id receipt) → scheduler_inv s → scheduler_inv s'.
Proof.
  intros Hok Hrow Hactive Hkey Hinv. unfold persist_node_receipt in Hok. cbv zeta in Hok.
  apply tx_bind_Ok in Hok as (u1 & s1 & Hins & Hok).
  assert (Hrow1 : workflow_lease_journal s1 !! wnr_lease_id receipt = Some row).
  { unfold insert_node_receipt in Hins. by inv_sql. }
  assert (Hinv1 : scheduler_inv s1).
  { eapply quiet_keeps; [|exact Hinv]. by eapply insert_node_receipt_quiet. }
  clear Hins. destruct Hinv1 as [Hi Hd].
  apply tx_bind_Ok in Hok as (n & s2 & Hclose & Hok).
  apply tx_bind_Ok in Hok as (u2 & s3 & [_ ->]%expect_one_Ok & Hok).
  assert (Hhalf : half_closed (wnr_attempt_id receipt, wnr_node_id receipt) s2 ∧ documents_agree s2).
  { split; [by eapply close_lease_half|].
    eapply same_documents_agree; [by eapply update_leases_documents|done]. }
  eapply settle_node_keeps; [| |exact Hhalf|exact Hok].
  - intros r. simpl. unfold receipt_terminal_node_state. by repeat case_match.
  - keeps_steps.
Qed.

Lemma commit_node_receipt_transaction_keeps receipt json now :
  tx_rel keeps (commit_node_receipt_transaction receipt json now).
Proof.
  intros s result s' Hok Hinv. unfold commit_node_receipt_transaction in Hok.
  apply tx_bind_Ok in Hok as (replayed & s1 & [_ ->]%reads_Ok & Hok).
  destruct replayed; [by apply tx_ok_Ok in Hok as [_ ->]|].
  apply tx_bind_Ok in Hok as (u1 & s1 & [Hlease ->]%reads_Ok & Hok).
  apply tx_bind_Ok in Hok as (context & s1 & [_ ->]%reads_Ok & Hok). cbv zeta in Hok.
  apply tx_bind_Ok in Hok as (u2 & s1 & Hpersist & Hok).
  apply tx_bind_Ok in Hok as (u3 & s2 & Happly & [_ ->]%reads_Ok).
  eapply apply_node_receipt_outcome_keeps; [exact Happly|].
  destruct (active_receipt_lease_row _ _ _ _ Hlease (proj2 Hinv)) as (row & Hrow & Hactive & Hkey).
  by eapply persist_node_receipt_keeps.
Qed.

(** ** The scheduler *)

Lemma empty_scheduler_inv : scheduler_inv empty_workflow_db.
Proof.
  split; [split|].
  - intros key id id' (row & Hrow & _). done.
  - intros key. split; [intros (node & Hnode & _)|intros (id & row & Hrow & _)]; done.
  - intros id row Hrow. done.
Qed.
End Leases.

#[export] Hint Resolve expire_leases_transaction_keeps claim_next_transaction_keeps
  renew_lease_transaction_keeps commit_node_receipt_transaction_keeps : tx_rel.

#[export] Instance keeps_scheduler `{!SchedulerCodecs, !JcsRoundTrip WorkflowLeaseV1} :
  SchedulerRel keeps.
Proof.
  constructor; first [apply _|solve [auto with tx_rel]
                     |intros; apply tx_quiet_keeps; solve [auto with tx_rel]].
Qed.

Lemma scheduler_run_inv `{!SchedulerCodecs, !JcsRoundTrip WorkflowLeaseV1} db :
  rtc scheduler_step empty_workflow_db db → scheduler_inv db.
Proof. intros Hrun. exact (scheduler_run_rel keeps _ _ Hrun empty_scheduler_inv). Qed.
