(* ===== verification/SchedulerCompletion.v ===== *)
(** * The workflow scheduler: completion

    An attempt is marked succeeded only when its nodes are done, and stays so.  Most
    statements mark no attempt and add no node ([calm]); admission adds the nodes of a
    new attempt only, and the two completions check the nodes first.  [completes] puts
    this together into a preorder every transaction keeps. *)

From Stdlib Require Import ZArith Lia Ascii String.
From stdpp Require Import base gmap strings option list_numbers list relations.
From S2P Require Import Prelude TxLogic Identifiers Text Ordered Workflow Manifest Errors SchedulerDb Scheduler SchedulerLeases SchedulerReceipts SchedulerHistory SchedulerInvariant.

Local Open Scope Z_scope.

(** ** What is kept *)

(** The row is marked succeeded, by a deployment ([Mutation_Complete]) or by a shadow
    run ([Mutation_NotStarted]). *)
Definition succeeded_as (mutation : WorkflowMutationStateV1) (row : WfAttemptRow) : Prop :=
  sa_state row = Attempt_Succeeded ∧ sa_mutation_state row = mutation
  ∧ (mutation = Mutation_Complete ∨ mutation = Mutation_NotStarted).

(** The nodes are done: a deployment ran every node but those kept for a failure, a
    shadow run every node it executes. *)
Definition node_done (mutation : WorkflowMutationStateV1) (node : WfNodeRow) : Prop :=
  match mutation with
  | Mutation_Complete => sn_activation node = Activation_Always → sn_state node = NodeState_Succeeded
  | _ => sn_state node = (if shadow_executes (sn_node_kind node) then NodeState_Succeeded
                          else NodeState_Cancelled)
  end.

Definition nodes_done (mutation : WorkflowMutationStateV1) (db : WorkflowDb) (attempt_id : Uuid) : Prop :=
  ∀ node_id node, workflow_nodes db !! (attempt_id, node_id) = Some node → node_done mutation node.

(** Nodes are added for the attempts in [fresh] only, and no attempt is marked
    succeeded. *)
Definition calm (fresh : Uuid → Prop) (db db' : WorkflowDb) : Prop :=
  (∀ key, is_Some (workflow_nodes db' !! key) → is_Some (workflow_nodes db !! key) ∨ fresh key.1)
  ∧ ∀ id row' mutation, workflow_attempts db' !! id = Some row' → succeeded_as mutation row' →
      ∃ row, workflow_attempts db !! id = Some row ∧ succeeded_as mutation row.

#[export] Instance calm_preorder fresh : PreOrder (calm fresh).
Proof.
  split.
  - intros db. split; [auto|]. intros id row mutation Hrow Hs. by exists row.
  - intros db1 db2 db3 [Hn1 Ha1] [Hn2 Ha2]. split.
    + intros key Hkey. destruct (Hn2 key Hkey) as [H2|]; [|by right]. by apply Hn1.
    + intros id row3 mutation H3 Hs. destruct (Ha2 _ _ _ H3 Hs) as (row2 & H2 & Hs2). by eapply Ha1.
Qed.

Record completes (db db' : WorkflowDb) : Prop := {
  co_evolves : evolves db db';
  co_nodes key : is_Some (workflow_nodes db' !! key) →
    is_Some (workflow_nodes db !! key) ∨ workflow_attempts db !! key.1 = None;
  co_attempts id row' mutation : workflow_attempts db' !! id = Some row' → succeeded_as mutation row' →
    (∃ row, workflow_attempts db !! id = Some row ∧ succeeded_as mutation row)
    ∨ nodes_done mutation db' id
}.

(** ** Nodes that are done stay done *)

Lemma finished_node_closed node :
  sn_state node = NodeState_Succeeded ∨ sn_state node = NodeState_Cancelled →
  node_closed (sn_state node) = true.
Proof. by intros [->| ->]. Qed.

Lemma node_done_evolves mutation node node' :
  node_evolves node node' → node_done mutation node → node_done mutation node'.
Proof.
  intros Hne Hdone. assert (Hclosed : node_closed (sn_state node) = true → node_done mutation node').
  { intros Hc. by rewrite (ne_closed _ _ Hne Hc). }
  destruct mutation; simpl in *;
    try (apply Hclosed, finished_node_closed; rewrite Hdone; destruct (shadow_executes _); auto).
  intros Hactivation. apply Hclosed; [|done]. rewrite (ne_activation _ _ Hne) in Hactivation.
  by rewrite (Hdone Hactivation).
Qed.

Lemma nodes_done_completes mutation db db' id :
  completes db db' → is_Some (workflow_attempts db !! id) → nodes_done mutation db id →
  nodes_done mutation db' id.
Proof.
  intros [Hev Hnodes _] [row Hrow] Hdone node_id node' Hnode'.
  destruct (Hnodes (id, node_id)) as [[node Hnode]|Hnone]; [by eexists| |simpl in Hnone; congruence].
  destruct (ev_nodes _ _ Hev _ _ Hnode) as (node2 & Hnode2 & Hne).
  assert (node2 = node') as -> by congruence. eapply node_done_evolves; [exact Hne|]. by eapply Hdone.
Qed.

#[export] Instance completes_preorder : PreOrder completes.
Proof.
  split.
  - intros db. split; [reflexivity|auto|]. intros id row mutation Hrow Hs. left. by exists row.
  - intros db1 db2 db3 H12 H23. pose proof (co_evolves _ _ H12) as Hev.
    split; [by etrans; [|apply co_evolves]|..].
    + intros key Hkey. destruct (co_nodes _ _ H23 key Hkey) as [H2|Hnone]; [by apply (co_nodes _ _ H12)|].
      right. destruct (workflow_attempts db1 !! key.1) as [row|] eqn:Hrow; [|done].
      destruct (ev_attempts _ _ Hev _ _ Hrow) as (row' & Hrow' & _). congruence.
    + intros id row3 mutation H3 Hs. destruct (co_attempts _ _ H23 _ _ _ H3 Hs) as [(row2 & H2 & Hs2)|]; [|by right].
      destruct (co_attempts _ _ H12 _ _ _ H2 Hs2) as [|Hdone]; [by left|right].
      eapply nodes_done_completes; [exact H23|by eexists|done].
Qed.

Lemma calm_completes {A} (m : WorkflowTx A) :
  tx_rel evolves m → tx_rel (calm (λ _, False)) m → tx_rel completes m.
Proof.
  intros Hev Hcalm s a s' Hok. destruct (Hcalm _ _ _ Hok) as [Hnodes Hattempts].
  split; [by eapply Hev| |].
  - intros key Hkey. destruct (Hnodes key Hkey); [by left|done].
  - intros id row' mutation Hrow Hs. left. by eapply Hattempts.
Qed.

(** ** Calm statements *)

Lemma same_tables_calm fresh db db' :
  workflow_attempts db' = workflow_attempts db → workflow_nodes db' = workflow_nodes db →
  calm fresh db db'.
Proof. intros Ha Hn. split; rewrite ?Ha, ?Hn; [auto|]. intros id row mutation Hrow Hs. by exists row. Qed.

Ltac calm_sql :=
  intros s a s' Hok; inv_sql;
  try (match goal with x : (Z * gmap _ _)%type |- _ => destruct x end; inv_sql);
  by apply same_tables_calm.

Section Calm.
Context (fresh : Uuid → Prop).

Lemma update_requests_calm p f : tx_rel (calm fresh) (update_requests p f).
Proof. unfold update_requests. calm_sql. Qed.

Lemma update_leases_calm p f : tx_rel (calm fresh) (update_leases p f).
Proof. unfold update_leases. calm_sql. Qed.

Lemma update_locks_calm p f : tx_rel (calm fresh) (update_locks p f).
Proof. unfold update_locks. calm_sql. Qed.

Lemma delete_locks_calm p : tx_rel (calm fresh) (delete_locks p).
Proof. unfold delete_locks. calm_sql. Qed.

Lemma insert_workflow_request_calm id row : tx_rel (calm fresh) (insert_workflow_request id row).
Proof. unfold insert_workflow_request. calm_sql. Qed.

Lemma insert_trigger_calm key row : tx_rel (calm fresh) (insert_trigger key row).
Proof. unfold insert_trigger. calm_sql. Qed.

Lemma insert_dependency_calm attempt_id node_id dependency :
  tx_rel (calm fresh) (insert_dependency attempt_id node_id dependency).
Proof. unfold insert_dependency. calm_sql. Qed.

Lemma insert_lease_calm id row : tx_rel (calm fresh) (insert_lease id row).
Proof. unfold insert_lease. calm_sql. Qed.

Lemma insert_node_receipt_calm digest row : tx_rel (calm fresh) (insert_node_receipt digest row).
Proof. unfold insert_node_receipt. calm_sql. Qed.

Lemma insert_cleanup_receipt_calm digest row : tx_rel (calm fresh) (insert_cleanup_receipt digest row).
Proof. unfold insert_cleanup_receipt. calm_sql. Qed.

Lemma insert_state_binding_calm id row : tx_rel (calm fresh) (insert_state_binding id row).
Proof. unfold insert_state_binding. calm_sql. Qed.

Lemma insert_reduction_calm id row : tx_rel (calm fresh) (insert_reduction id row).
Proof. unfold insert_reduction. calm_sql. Qed.

Lemma insert_lock_calm id row : tx_rel (calm fresh) (insert_lock id row).
Proof. unfold insert_lock. calm_sql. Qed.

Lemma upsert_project_head_calm id row : tx_rel (calm fresh) (upsert_project_head id row).
Proof.
  unfold upsert_project_head. intros s a s' Hok. inv_sql.
  destruct (opt_is_some_and _ _); inv_sql; by apply same_tables_calm.
Qed.

Lemma append_transition_calm attempt_id subject_kind subject_id from_state to_state reason
    evidence_digest occurred_at_ms :
  tx_rel (calm fresh) (append_transition attempt_id subject_kind subject_id from_state to_state reason
    evidence_digest occurred_at_ms).
Proof. unfold append_transition. calm_sql. Qed.

Lemma update_nodes_calm p f : tx_rel (calm fresh) (update_nodes p f).
Proof.
  intros s changed s' (_ & Hnodes & Hs')%update_nodes_Ok. split.
  - intros key. rewrite Hnodes, fmap_is_Some. auto.
  - intros id row mutation. rewrite Hs'. simpl. eauto.
Qed.

Lemma update_attempts_calm p f :
  (∀ id row mutation, p id row = true → succeeded_as mutation (f row) → succeeded_as mutation row) →
  tx_rel (calm fresh) (update_attempts p f).
Proof.
  intros Hf s changed s' Hok. unfold update_attempts in Hok. inv_sql.
  match goal with x : (Z * gmap _ _)%type |- _ => destruct x end. inv_sql.
  match goal with H : update_rows _ _ _ _ = _ |- _ => apply update_rows_Ok in H as (_ & Hrows & _) end.
  split; simpl; [auto|]. intros id row' mutation. rewrite Hrows.
  destruct (workflow_attempts _ !! id) as [row|] eqn:Hrow; [|done]. intros [= <-] Hs. exists row. split; [done|].
  destruct (p id row) eqn:Hp; eauto.
Qed.

Lemma insert_workflow_attempt_calm id row :
  sa_state row ≠ Attempt_Succeeded → tx_rel (calm fresh) (insert_workflow_attempt id row).
Proof.
  intros Hrow s a s' Hok. unfold insert_workflow_attempt in Hok. inv_sql. split; simpl; [auto|].
  intros id' row' mutation. destruct (decide (id' = id)) as [->|Hne].
  - rewrite lookup_insert_eq. intros [= <-] [Hs _]. done.
  - rewrite lookup_insert_ne by done. eauto.
Qed.

Lemma insert_node_calm attempt_id node_id row :
  fresh attempt_id → tx_rel (calm fresh) (insert_node attempt_id node_id row).
Proof.
  intros Hfresh s a s' Hok. unfold insert_node in Hok. inv_sql. split; simpl; [|eauto].
  intros key. destruct (decide (key = (attempt_id, node_id))) as [->|Hne]; [by right|].
  rewrite lookup_insert_ne by done. auto.
Qed.
End Calm.

#[export] Hint Resolve update_requests_calm update_leases_calm update_locks_calm delete_locks_calm
  insert_workflow_request_calm insert_trigger_calm insert_dependency_calm insert_lease_calm
  insert_node_receipt_calm insert_cleanup_receipt_calm insert_state_binding_calm
  insert_reduction_calm insert_lock_calm upsert_project_head_calm append_transition_calm
  update_nodes_calm : tx_rel.

Ltac calm_rows :=
  match goal with
  | |- tx_rel (calm _) (update_attempts _ _) =>
      apply update_attempts_calm; intros ?id ?row ?mutation Hp (Hs & Hm & Hor); simpl in *;
      split_selected; first [discriminate|destruct Hor; congruence|by split_and!]
  | |- tx_rel (calm _) (insert_workflow_attempt _ _) =>
      apply insert_workflow_attempt_calm; simpl; repeat case_match; discriminate
  | |- tx_rel (calm _) (insert_node _ _ _) => apply insert_node_calm; done
  | |- tx_rel (calm _) (modify _) => apply tx_rel_modify; intros; by apply same_tables_calm
  end.

Ltac calm_steps := repeat first [tx_step|calm_rows].

(** ** Operations *)

Lemma expect_one_calm fresh changed e : tx_rel (calm fresh) (expect_one changed e).
Proof. apply tx_rel_lift, _. Qed.
#[export] Hint Resolve expect_one_calm : tx_rel.

Lemma wake_waiting_attempts_calm fresh now : tx_rel (calm fresh) (wake_waiting_attempts now).
Proof. unfold wake_waiting_attempts, wake_attempt. calm_steps. Qed.

Lemma abandon_work_calm fresh attempt_id now : tx_rel (calm fresh) (abandon_work attempt_id now).
Proof. unfold abandon_work, revoke_active_leases, cancel_open_nodes. calm_steps. Qed.

Lemma close_request_of_calm fresh attempt_id now : tx_rel (calm fresh) (close_request_of attempt_id now).
Proof. unfold close_request_of. calm_steps. Qed.

Lemma advance_loop_calm fresh fuel attempt_id : tx_rel (calm fresh) (advance_loop fuel attempt_id).
Proof. induction fuel; simpl; unfold ready_node; calm_steps; apply IHfuel. Qed.
#[export] Hint Resolve wake_waiting_attempts_calm abandon_work_calm close_request_of_calm
  advance_loop_calm : tx_rel.

Lemma fail_workflow_calm fresh attempt_id kind cleanup handoff now :
  tx_rel (calm fresh) (fail_workflow attempt_id kind cleanup handoff now).
Proof. unfold fail_workflow, fail_terminal_workflow, mark_workflow_needs_reconcile. calm_steps. Qed.
#[export] Hint Resolve fail_workflow_calm : tx_rel.

Section Completion.
Context `{!SchedulerCodecs}.

Lemma expire_leases_transaction_calm fresh now : tx_rel (calm fresh) (expire_leases_transaction now).
Proof.
  unfold expire_leases_transaction, expire_one_lease, expire_mutation_lease, expire_execution,
    requeue_node, fail_terminal_workflow.
  calm_steps.
Qed.

Lemma claim_first_calm fresh lease_id worker now duration last weight candidates :
  tx_rel (calm fresh) (claim_first lease_id worker now duration last weight candidates).
Proof.
  induction candidates as [|candidate candidates IH]; simpl; [apply tx_rel_ok, _|].
  unfold acquire_mutation_lock, operation_state_for_candidate, bound_operation_state,
    persist_active_lease, update_fairness_cursor.
  repeat first [apply IH|tx_step|calm_rows].
Qed.

Lemma claim_next_transaction_calm fresh lease_id worker now duration :
  tx_rel (calm fresh) (claim_next_transaction lease_id worker now duration).
Proof. unfold claim_next_transaction. calm_steps; apply claim_first_calm. Qed.

Lemma renew_lease_transaction_calm fresh lease now duration :
  tx_rel (calm fresh) (renew_lease_transaction lease now duration).
Proof. unfold renew_lease_transaction, renew_lease_row, require_sql. calm_steps. Qed.

Lemma commit_cleanup_receipt_transaction_calm fresh receipt json now :
  tx_rel (calm fresh) (commit_cleanup_receipt_transaction receipt json now).
Proof. unfold commit_cleanup_receipt_transaction, record_cleanup_receipt. calm_steps. Qed.

(** ** Admission *)

(** Everything admission does is calm but for the nodes of the new attempt. *)
Lemma admit_new_calm manifest json admission request attempt_id now :
  tx_rel (calm (λ id, id = attempt_id)) (admit_new manifest json admission request attempt_id now).
Proof.
  unfold admit_new, supersede_pre_mutation_attempts, supersede_attempt, create_workflow_attempt,
    create_node, record_trigger, update_project_head.
  calm_steps.
Qed.

(** The identifier of a new attempt was free. *)
Lemma admit_new_fresh manifest json admission request attempt_id now s outcome s' :
  admit_new manifest json admission request attempt_id now s = Ok (outcome, s') →
  workflow_attempts s !! attempt_id = None.
Proof.
  unfold admit_new. intros Hok.
  apply tx_bind_Ok in Hok as (sequence & s1 & [_ ->]%lift_Ok & Hok).
  apply tx_bind_Ok in Hok as (u1 & s1 & Hrequest & Hok).
  apply tx_bind_Ok in Hok as (waiting & s2 & Hsupersede & Hok).
  apply tx_bind_Ok in Hok as (snapshot & s3 & Hcreate & _). unfold create_workflow_attempt in Hcreate.
  apply tx_bind_Ok in Hcreate as (key & s4 & [_ ->]%lift_Ok & Hcreate). cbv zeta in Hcreate.
  apply tx_bind_Ok in Hcreate as (u2 & s4 & Hinsert & _).
  assert (Hnone : workflow_attempts s2 !! attempt_id = None).
  { unfold insert_workflow_attempt in Hinsert. by inv_sql. }
  assert (Hev : evolves s s2).
  { etrans; [exact (insert_workflow_request_evolves _ _ _ _ _ Hrequest)|].
    refine ((_ : tx_rel evolves _) _ _ _ Hsupersede).
    unfold supersede_pre_mutation_attempts, supersede_attempt. evolves_steps. }
  destruct (workflow_attempts s !! attempt_id) as [row|] eqn:Hrow; [|done].
  destruct (ev_attempts _ _ Hev _ _ Hrow) as (row' & Hrow' & _). congruence.
Qed.

Lemma admit_transaction_completes manifest json admission request attempt_id now :
  tx_rel completes (admit_transaction manifest json admission request attempt_id now).
Proof.
  intros s outcome s' Hok. pose proof (admit_transaction_evolves _ _ _ _ _ _ _ _ _ Hok) as Hev.
  assert (Hcases : calm (λ _, False) s s' ∨ admit_new manifest json admission request attempt_id now s = Ok (outcome, s')).
  { unfold admit_transaction in Hok. apply tx_bind_Ok in Hok as (replayed & s1 & [_ ->]%reads_Ok & Hok).
    destruct replayed; [apply tx_ok_Ok in Hok as [_ ->]; left; reflexivity|].
    apply tx_bind_Ok in Hok as (u & s1 & [_ ->]%reads_Ok & Hok).
    apply tx_bind_Ok in Hok as (stable & s1 & [-> ->]%gets_Ok & Hok).
    destruct (find_stable_request admission s); [left|by right].
    refine ((_ : tx_rel (calm _) _) _ _ _ Hok). unfold record_trigger, update_project_head. calm_steps. }
  destruct Hcases as [[Hnodes Hattempts]|Hnew].
  - split; [done| |].
    + intros key Hkey. by destruct (Hnodes key Hkey); [left|].
    + intros id row' mutation Hrow Hs. left. by eapply Hattempts.
  - destruct (admit_new_calm _ _ _ _ _ _ _ _ _ Hnew) as [Hnodes Hattempts].
    apply admit_new_fresh in Hnew. split; [done| |].
    + intros key Hkey. destruct (Hnodes key Hkey) as [|He]; [by left|right]. by rewrite He.
    + intros id row' mutation Hrow Hs. left. by eapply Hattempts.
Qed.

(** ** The two completions *)

(** The statement that marks the attempt, between statements that mark none. *)
Lemma marking_completes attempt_id mutation p f s s1 changed s2 s' :
  evolves s s' → calm (λ _, False) s s1 →
  update_attempts p f s1 = Ok (changed, s2) →
  (∀ id row m, p id row = true → succeeded_as m (f row) → id = attempt_id ∧ m = mutation) →
  calm (λ _, False) s2 s' → nodes_done mutation s attempt_id → completes s s'.
Proof.
  intros Hev [Hn1 Ha1] Hmark Hp [Hn2 Ha2] Hdone. unfold update_attempts in Hmark. inv_sql.
  match goal with x : (Z * gmap _ _)%type |- _ => destruct x as [? table] end. inv_sql.
  match goal with H : update_rows _ _ _ _ = _ |- _ => apply update_rows_Ok in H as (_ & Hrows & _) end.
  simpl in *.
  assert (Hnodes : ∀ key, is_Some (workflow_nodes s' !! key) → is_Some (workflow_nodes s !! key)).
  { intros key Hkey. destruct (Hn2 key Hkey) as [H2|]; [|done]. by destruct (Hn1 key H2). }
  split; [done|by left; auto|]. intros id row' m Hrow' Hs.
  destruct (Ha2 _ _ _ Hrow' Hs) as (row2 & Hrow2 & Hs2). rewrite Hrows in Hrow2.
  destruct (workflow_attempts s1 !! id) as [row1|] eqn:Hrow1; [|done]. simpl in Hrow2.
  destruct (p id row1) eqn:Hpid; injection Hrow2 as <-; [right|left; by eapply Ha1].
  destruct (Hp _ _ _ Hpid Hs2) as [-> ->]. intros node_id node' Hnode'.
  destruct (Hnodes (attempt_id, node_id)) as [node Hnode]; [by eexists|].
  destruct (ev_nodes _ _ Hev _ _ Hnode) as (node2 & Hnode2 & Hne).
  assert (node2 = node') as -> by congruence. eapply node_done_evolves; [exact Hne|]. by eapply Hdone.
Qed.

(** The rows a selection found: none, or all with a property. *)
Lemma select_none {K V} `{Countable K} (p : K → V → bool) (m : gmap K V) k v :
  Z.of_nat (length (select_rows p m)) = 0 → m !! k = Some v → p k v = false.
Proof.
  intros Hlen Hk. destruct (p k v) eqn:Hp; [|done].
  assert (Hin : (k, v) ∈ select_rows p m) by by apply select_rows_elem.
  destruct (select_rows p m); [by apply not_elem_of_nil in Hin|simpl in Hlen; lia].
Qed.

Lemma complete_workflow_completes attempt_id now : tx_rel completes (complete_workflow attempt_id now).
Proof.
  intros s u s' Hok. pose proof (complete_workflow_evolves _ _ _ _ _ Hok) as Hev.
  unfold complete_workflow in Hok.
  apply tx_bind_Ok in Hok as (incomplete & s1 & [-> ->]%gets_Ok & Hok).
  apply tx_bind_Ok in Hok as (pending & s1 & [-> ->]%gets_Ok & Hok).
  apply tx_bind_Ok in Hok as (u1 & s1 & [Hchecks%ensure_Ok ->]%lift_Ok & Hok).
  apply tx_bind_Ok in Hok as (n1 & s1 & Hdormant & Hok).
  apply tx_bind_Ok in Hok as (n2 & s2 & Hmark & Hok).
  eapply (marking_completes attempt_id Mutation_Complete);
    [done|exact (update_nodes_calm _ _ _ _ _ _ Hdormant)|exact Hmark| | |].
  - intros id row m Hp (_ & <- & _). simpl in Hp. by split_selected.
  - refine ((_ : tx_rel (calm _) _) _ _ _ Hok). calm_steps.
  - intros node_id node Hnode Hactivation. split_selected.
    match goal with H : Z.of_nat _ = 0 |- _ => pose proof (select_none _ _ _ _ H Hnode) as Hnot end.
    simpl in Hnot. rewrite Hactivation, !(bool_decide_eq_true_2 (_ = _)) in Hnot by done. simpl in Hnot.
    by destruct (bool_decide_reflect (sn_state node = NodeState_Succeeded)).
Qed.

Lemma complete_shadow_workflow_completes context now :
  tx_rel completes (complete_shadow_workflow context now).
Proof.
  intros s u s' Hok. pose proof (complete_shadow_workflow_evolves _ _ _ _ _ Hok) as Hev.
  unfold complete_shadow_workflow in Hok.
  apply tx_bind_Ok in Hok as (u1 & s1 & [_ ->]%lift_Ok & Hok).
  apply tx_bind_Ok in Hok as (rows & s1 & [-> ->]%gets_Ok & Hok).
  apply tx_bind_Ok in Hok as (u2 & s1 & [Hfinished%ensure_Ok ->]%lift_Ok & Hok).
  apply tx_bind_Ok in Hok as (pending & s1 & [-> ->]%gets_Ok & Hok).
  apply tx_bind_Ok in Hok as (u3 & s1 & [_ ->]%lift_Ok & Hok).
  apply tx_bind_Ok in Hok as (locks & s1 & [-> ->]%gets_Ok & Hok).
  apply tx_bind_Ok in Hok as (u4 & s1 & [_ ->]%lift_Ok & Hok).
  apply tx_bind_Ok in Hok as (n2 & s2 & Hmark & Hok).
  eapply (marking_completes (cx_attempt_id context) Mutation_NotStarted);
    [done|reflexivity|exact Hmark| | |].
  - intros id row m Hp (_ & <- & _). simpl in *. by split_selected.
  - refine ((_ : tx_rel (calm _) _) _ _ _ Hok). calm_steps.
  - intros node_id node Hnode. simpl.
    assert (Hin : ((cx_attempt_id context, node_id), node)
      ∈ select_rows (λ key _, key.1 == cx_attempt_id context) (workflow_nodes s)).
    { apply select_rows_elem. split; [by apply bool_decide_true|done]. }
    apply list_elem_of_In in Hin. pose proof (proj1 (forallb_forall _ _) Hfinished _ Hin) as Hone.
    unfold shadow_node_finished in Hone. by apply bool_decide_eq_true in Hone.
Qed.
End Completion.

#[export] Hint Resolve expire_leases_transaction_calm claim_next_transaction_calm
  renew_lease_transaction_calm commit_cleanup_receipt_transaction_calm
  admit_transaction_completes complete_workflow_completes complete_shadow_workflow_completes : tx_rel.

(** ** The scheduler *)

(** A step that is calm and follows the life cycles. *)
Ltac completes_calm := apply calm_completes; [evolves_steps|calm_steps].

Section Scheduler.
Context `{!SchedulerCodecs}.

Lemma commit_node_receipt_transaction_completes receipt json now :
  tx_rel completes (commit_node_receipt_transaction receipt json now).
Proof.
  unfold commit_node_receipt_transaction.
  apply tx_rel_bind; [apply _|apply tx_rel_reads, _|]. intros [replayed|]; [apply tx_rel_ok, _|].
  do 2 (apply tx_rel_bind; [apply _|apply tx_rel_reads, _|intros ?]). cbv zeta.
  apply tx_rel_bind; [apply _| |intros _].
  - apply calm_completes; [apply persist_node_receipt_evolves|unfold persist_node_receipt; calm_steps].
  - apply tx_rel_bind; [apply _| |intros _; apply tx_rel_reads, _].
    unfold apply_node_receipt_outcome. case_match.
    + case_match; [auto with tx_rel|]. unfold touch_attempt, advance_ready_nodes. completes_calm.
    + completes_calm.
Qed.

Lemma perform_reduction_completes context node now :
  tx_rel completes (perform_reduction context node now).
Proof.
  unfold perform_reduction, after_reduction, touch_attempt, advance_ready_nodes.
  repeat first [tx_step|completes_calm].
Qed.
End Scheduler.

#[export] Instance completes_scheduler `{!SchedulerCodecs} : SchedulerRel completes.
Proof.
  constructor; first [apply _|solve [auto with tx_rel]
    |intros; apply commit_node_receipt_transaction_completes
    |intros; apply perform_reduction_completes
    |intros; apply calm_completes; solve [auto with tx_rel]].
Qed.

(** C28: What a success means.  In every reachable state an attempt marked succeeded by a
    deployment has run every node but those kept for a failure, and one marked
    succeeded by a shadow run has run every node a shadow run executes and none that
    delivers. *)
Theorem succeeded_attempt_ran_its_nodes `{!SchedulerCodecs} db attempt_id attempt node_id node :
  rtc scheduler_step empty_workflow_db db →
  workflow_attempts db !! attempt_id = Some attempt → sa_state attempt = Attempt_Succeeded →
  workflow_nodes db !! (attempt_id, node_id) = Some node →
  (sa_mutation_state attempt = Mutation_Complete → sn_activation node = Activation_Always →
     sn_state node = NodeState_Succeeded)
  ∧ (sa_mutation_state attempt = Mutation_NotStarted →
     sn_state node = (if shadow_executes (sn_node_kind node) then NodeState_Succeeded
                      else NodeState_Cancelled)).
Proof.
  intros Hrun Hattempt Hsucceeded Hnode. pose proof (scheduler_run_rel completes _ _ Hrun) as Hco.
  assert (Hdone : ∀ mutation, succeeded_as mutation attempt → node_done mutation node).
  { intros mutation Hs. destruct (co_attempts _ _ Hco _ _ _ Hattempt Hs) as [(row & Hrow & _)|Hall];
      [done|by eapply Hall]. }
  split; intros Hm; [apply (Hdone Mutation_Complete)|apply (Hdone Mutation_NotStarted)];
    unfold succeeded_as; auto.
Qed.
