(* ===== verification/SchedulerSweep.v ===== *)
(** * The workflow scheduler: the sweep of expired leases

    [expire_leases] reads the expired leases once and then ends them one by one.  Ending
    one at its execution deadline fails the whole attempt, which revokes the attempt's
    other leases and cancels their nodes; a later row of the same sweep that belongs to
    the attempt is then taken for a corrupt journal.  The sweep rolls back, and so does
    every later one. *)

From Stdlib Require Import ZArith Lia Ascii String Sorting.
From stdpp Require Import base gmap strings option list_numbers list relations sorting.
From S2P Require Import Prelude TxLogic Identifiers Text Ordered Workflow Manifest Errors SchedulerDb Scheduler SchedulerLeases SchedulerReceipts SchedulerHistory SchedulerInvariant.

Local Open Scope Z_scope.

(** ** The order of the sweep *)

#[export] Instance expiry_le_trans : Transitive (cmp_le expiry_compare).
Proof.
  intros x y z. unfold cmp_le, expiry_compare, pair_compare.
  destruct (Z.compare_spec (sl_expires_at_ms x.2) (sl_expires_at_ms y.2));
  destruct (Z.compare_spec (sl_expires_at_ms y.2) (sl_expires_at_ms z.2));
  destruct (Z.compare_spec (sl_expires_at_ms x.2) (sl_expires_at_ms z.2)); try lia; try done;
  destruct (N.compare_spec x.1 y.1); destruct (N.compare_spec y.1 z.1);
  destruct (N.compare_spec x.1 z.1); try lia; done.
Qed.

#[export] Instance expiry_le_total : Total (cmp_le expiry_compare).
Proof.
  intros x y. unfold cmp_le, expiry_compare, pair_compare.
  rewrite (Z.compare_antisym (sl_expires_at_ms x.2)), (N.compare_antisym x.1).
  destruct (sl_expires_at_ms x.2 ?= sl_expires_at_ms y.2); simpl; auto.
  destruct (x.1 ?= y.1)%N; simpl; auto.
Qed.

(** In a sorted list the smaller of two elements comes first. *)
Lemma StronglySorted_split {A} (R : relation A) l x y :
  StronglySorted R l → x ∈ l → y ∈ l → ¬ R y x → x ≠ y →
  ∃ pre mid post, l = pre ++ x :: mid ++ y :: post.
Proof.
  intros Hsorted (pre & rest & ->)%list_elem_of_split Hy Hnot Hne.
  apply elem_of_app in Hy as [Hy|Hy].
  - exfalso. apply Hnot. eapply StronglySorted_app_1_elem_of; [exact Hsorted|done|left].
  - apply elem_of_cons in Hy as [->|Hy]; [done|].
    apply list_elem_of_split in Hy as (mid & post & ->). by exists pre, mid, post.
Qed.

Lemma tx_for_each_app {S E A} (f : A → Tx S E unit) l1 l2 s u s' :
  tx_for_each f (l1 ++ l2) s = Ok (u, s') →
  ∃ s1, tx_for_each f l1 s = Ok (tt, s1) ∧ tx_for_each f l2 s1 = Ok (u, s').
Proof.
  revert s. induction l1 as [|x l1 IH]; intros s Hok; simpl in *; [by exists s|].
  apply tx_bind_Ok in Hok as (u1 & s1 & Hx & Hok). destruct (IH _ Hok) as (s2 & H1 & H2).
  exists s2. split; [|done]. apply tx_bind_Ok. by exists u1, s1.
Qed.

(** What a run of statements does to the tables, whatever the statements are. *)
Ltac rest_evolves Hok :=
  match type of Hok with
  | ?m ?s = Ok (?a, ?s') => refine ((_ : tx_rel evolves m) s a s' Hok); evolves_steps
  end.

Section Sweep.
Context `{!SchedulerCodecs}.

(** ** Abandoned work *)

(** No node of the attempt is open after its work is abandoned. *)
Lemma abandon_work_closes attempt_id now s u s' node_id row :
  abandon_work attempt_id now s = Ok (u, s') →
  workflow_nodes s' !! (attempt_id, node_id) = Some row → node_closed (sn_state row) = true.
Proof.
  unfold abandon_work, cancel_open_nodes. intros Hok Hrow.
  apply tx_bind_Ok in Hok as (n1 & s1 & _ & Hok).
  apply tx_bind_Ok in Hok as (n2 & s2 & (_ & Hnodes & _)%update_nodes_Ok & Hok).
  apply tx_ok_Ok in Hok as [_ ->]. rewrite Hnodes in Hrow.
  destruct (workflow_nodes s1 !! (attempt_id, node_id)) as [old|]; [|done].
  simpl in Hrow. rewrite (bool_decide_eq_true_2 (attempt_id = attempt_id)) in Hrow by done. simpl in Hrow.
  destruct (open_node (sn_state old)) eqn:Hopen; injection Hrow as <-; [done|].
  by destruct (sn_state old).
Qed.

(** The node exists and is closed; this is final. *)
Definition node_ended (key : Uuid * WorkflowNodeId) (db : WorkflowDb) : Prop :=
  ∃ row, workflow_nodes db !! key = Some row ∧ node_closed (sn_state row) = true.

Lemma node_ended_evolves key db db' : evolves db db' → node_ended key db → node_ended key db'.
Proof.
  intros Hev (row & Hrow & Hclosed). destruct (ev_nodes _ _ Hev _ _ Hrow) as (row' & Hrow' & Hne).
  rewrite (ne_closed _ _ Hne Hclosed) in Hrow'. by exists row.
Qed.

Lemma node_present_evolves key db db' :
  evolves db db' → is_Some (workflow_nodes db !! key) → is_Some (workflow_nodes db' !! key).
Proof. intros Hev [row Hrow]. destruct (ev_nodes _ _ Hev _ _ Hrow) as (row' & -> & _). eauto. Qed.

Lemma fail_terminal_workflow_ends attempt_id cleanup now s u s' node_id :
  fail_terminal_workflow attempt_id cleanup now s = Ok (u, s') →
  is_Some (workflow_nodes s !! (attempt_id, node_id)) → node_ended (attempt_id, node_id) s'.
Proof.
  unfold fail_terminal_workflow. intros Hok Hsome.
  apply tx_bind_Ok in Hok as (n & s1 & [_ ->]%gets_Ok & Hok).
  apply tx_bind_Ok in Hok as (u1 & s1 & Habandon & Hok).
  pose proof (node_present_evolves _ _ _ (abandon_work_evolves _ _ _ _ _ Habandon) Hsome) as [row Hrow].
  eapply (node_ended_evolves _ s1); [|exists row; split; [done|by eapply abandon_work_closes]].
  rest_evolves Hok.
Qed.

(** Ending a lease at its execution deadline ends every node of the attempt, unless the
    node delivers. *)
Lemma expire_at_deadline_ends now id row lease node s u s' node_id :
  expire_one_lease now (id, row) s = Ok (u, s') →
  WorkflowLease_decode_canonical (sl_lease_json row) = Ok lease →
  execution_deadline_ms (wl_leased_at_ms lease) (wl_timeout_ms lease) = Ok (wl_expires_at_ms lease) →
  workflow_nodes s !! lease_key row = Some node →
  is_mutation (sn_node_kind node) = false → sn_node_kind node ≠ Node_ReleaseBuild →
  is_Some (workflow_nodes s !! (sl_attempt_id row, node_id)) →
  node_ended (sl_attempt_id row, node_id) s'.
Proof.
  unfold expire_one_lease. intros Hok Hlease Hdeadline Hnode Hmutation Hrelease Hsome.
  apply tx_bind_Ok in Hok as (lease' & s1 & [Hdec ->]%lift_Ok & Hok).
  rewrite Hlease in Hdec. injection Hdec as <-.
  apply tx_bind_Ok in Hok as (u1 & s1 & [_ ->]%lift_Ok & Hok).
  apply tx_bind_Ok in Hok as (node' & s1 & [Hnode'%ok_or_Ok ->]%reads_Ok & Hok).
  unfold lease_key in Hnode. rewrite Hnode in Hnode'. injection Hnode' as <-.
  apply tx_bind_Ok in Hok as (u2 & s1 & [_ ->]%lift_Ok & Hok).
  apply tx_bind_Ok in Hok as (changed & s1 & Hleases & Hok).
  apply update_leases_Ok in Hleases as (_ & _ & Hs1).
  apply tx_bind_Ok in Hok as (u3 & s2 & [_ ->]%lift_Ok & Hok).
  apply tx_bind_Ok in Hok as (context & s2 & [_ ->]%reads_Ok & Hok). cbv zeta in Hok.
  apply tx_bind_Ok in Hok as (deadline & s2 & [Hd ->]%lift_Ok & Hok).
  rewrite Hdeadline in Hd. injection Hd as <-.
  unfold is_self_update_handoff_release in Hok.
  rewrite Hmutation, (bool_decide_eq_false_2 (sn_node_kind node = Node_ReleaseBuild)) in Hok by done.
  rewrite andb_false_r, orb_false_r, andb_false_r, bool_decide_eq_true_2 in Hok by done.
  apply tx_bind_Ok in Hok as (u4 & s2 & Hexecution & Hok).
  eapply (node_ended_evolves _ s2); [rest_evolves Hok|]. clear Hok s'.
  unfold expire_execution in Hexecution.
  apply tx_bind_Ok in Hexecution as (c2 & s3 & (_ & Hnodes & _)%update_nodes_Ok & Hexecution).
  apply tx_bind_Ok in Hexecution as (u5 & s4 & [_ ->]%lift_Ok & Hexecution).
  apply tx_bind_Ok in Hexecution as (u6 & s4 & Hfail & Hexecution).
  eapply (node_ended_evolves _ s4); [rest_evolves Hexecution|].
  eapply fail_terminal_workflow_ends; [exact Hfail|].
  rewrite Hnodes, fmap_is_Some, Hs1. exact Hsome.
Qed.

(** A lease whose node has ended is taken for a corrupt journal. *)
Lemma expire_ended_node now id row s :
  node_ended (lease_key row) s → ∀ u s', expire_one_lease now (id, row) s ≠ Ok (u, s').
Proof.
  intros (node & Hnode & Hclosed) u s' Hok. unfold expire_one_lease in Hok.
  apply tx_bind_Ok in Hok as (lease & s1 & [_ ->]%lift_Ok & Hok).
  apply tx_bind_Ok in Hok as (u1 & s1 & [_ ->]%lift_Ok & Hok).
  apply tx_bind_Ok in Hok as (node' & s1 & [Hnode'%ok_or_Ok ->]%reads_Ok & Hok).
  unfold lease_key in Hnode. rewrite Hnode in Hnode'. injection Hnode' as <-.
  apply tx_bind_Ok in Hok as (u2 & s1 & [Hleased%ensure_Ok ->]%lift_Ok & _).
  rewrite bool_decide_eq_true in Hleased. by rewrite Hleased in Hclosed.
Qed.

(** Two active leases of one attempt, the first to expire at the execution deadline of
    a node that neither delivers nor builds the release. *)
Record deadline_pair (db : WorkflowDb) (first second : Uuid * WfLeaseRow) : Prop := {
  dp_first : workflow_lease_journal db !! first.1 = Some first.2;
  dp_second : workflow_lease_journal db !! second.1 = Some second.2;
  dp_first_active : sl_state first.2 = Lease_Active;
  dp_second_active : sl_state second.2 = Lease_Active;
  dp_attempt : sl_attempt_id first.2 = sl_attempt_id second.2;
  dp_order : expiry_compare first second = Lt;
  dp_deadline : ∃ lease, WorkflowLease_decode_canonical (sl_lease_json first.2) = Ok lease
    ∧ execution_deadline_ms (wl_leased_at_ms lease) (wl_timeout_ms lease) = Ok (wl_expires_at_ms lease);
  dp_node : ∃ node, workflow_nodes db !! lease_key first.2 = Some node
    ∧ is_mutation (sn_node_kind node) = false ∧ sn_node_kind node ≠ Node_ReleaseBuild;
  dp_other : is_Some (workflow_nodes db !! lease_key second.2)
}.

Lemma expired_leases_elem now db entry :
  entry ∈ expired_leases now db ↔
  workflow_lease_journal db !! entry.1 = Some entry.2 ∧ sl_state entry.2 = Lease_Active
  ∧ sl_expires_at_ms entry.2 ≤ now.
Proof.
  destruct entry as [id row]. unfold expired_leases. rewrite sort_by_elem_of, select_rows_elem, andb_true_iff,
    bool_decide_eq_true, Z.leb_le. naive_solver.
Qed.

(** The sweep meets the pair in this order. *)
Lemma expired_leases_split now db first second :
  deadline_pair db first second → sl_expires_at_ms second.2 ≤ now →
  ∃ pre mid post, expired_leases now db = pre ++ first :: mid ++ second :: post.
Proof.
  intros Hpair Hnow. pose proof (dp_order _ _ _ Hpair) as Horder.
  eapply (StronglySorted_split (cmp_le expiry_compare)).
  - apply Sorted_StronglySorted; [apply _|]. apply sort_by_Sorted; apply _.
  - apply expired_leases_elem. destruct Hpair. split_and!; try done.
    unfold expiry_compare, pair_compare in Horder.
    destruct (Z.compare_spec (sl_expires_at_ms first.2) (sl_expires_at_ms second.2)); [lia|lia|done].
  - apply expired_leases_elem. by destruct Hpair.
  - unfold cmp_le, expiry_compare, pair_compare in *.
    rewrite (Z.compare_antisym (sl_expires_at_ms first.2)), (N.compare_antisym first.1).
    destruct (sl_expires_at_ms first.2 ?= sl_expires_at_ms second.2); simpl; [|done|done].
    by destruct (first.1 ?= second.1)%N.
  - intros ->. unfold expiry_compare, pair_compare in Horder. by rewrite Z.compare_refl, N.compare_refl in Horder.
Qed.

(** The sweep cannot succeed. *)
Lemma sweep_fails now db first second :
  deadline_pair db first second → sl_expires_at_ms second.2 ≤ now →
  ∀ n s', expire_leases_transaction now db ≠ Ok (n, s').
Proof.
  intros Hpair Hnow n s' Hok. unfold expire_leases_transaction in Hok.
  apply tx_bind_Ok in Hok as (rows & s1 & [-> ->]%gets_Ok & Hok).
  apply tx_bind_Ok in Hok as (u & s1 & Hall & _).
  destruct (expired_leases_split _ _ _ _ Hpair Hnow) as (pre & mid & post & Hrows).
  rewrite Hrows in Hall. apply tx_for_each_app in Hall as (s2 & Hpre & Hall).
  apply tx_bind_Ok in Hall as (u1 & s3 & Hfirst & Hall).
  apply tx_for_each_app in Hall as (s4 & Hmid & Hall).
  apply tx_bind_Ok in Hall as (u2 & s5 & Hsecond & _).
  assert (Hloop : ∀ l, tx_rel evolves (tx_for_each (expire_one_lease now) l)) by (intros l; evolves_steps).
  pose proof (Hloop _ _ _ _ Hpre) as Hev. destruct Hpair, first as [id1 row1], second as [id2 row2]. simpl in *.
  destruct dp_deadline0 as (lease & Hlease & Hdeadline), dp_node0 as (node & Hnode & Hmutation & Hrelease).
  destruct (ev_nodes _ _ Hev _ _ Hnode) as (node' & Hnode' & Hne).
  rewrite <- (ne_kind _ _ Hne) in Hmutation, Hrelease.
  refine (expire_ended_node _ _ _ _ _ _ _ Hsecond).
  eapply node_ended_evolves; [exact (Hloop _ _ _ _ Hmid)|]. unfold lease_key. rewrite <- dp_attempt0.
  refine (expire_at_deadline_ends _ _ _ _ _ _ _ _ _ Hfirst Hlease Hdeadline Hnode' Hmutation Hrelease _).
  rewrite dp_attempt0. by eapply node_present_evolves.
Qed.

(** A transaction whose body cannot succeed fails and changes nothing. *)
Lemma immediate_transaction_fails {S E A} (body : Tx S E A) db :
  (∀ a s', body db ≠ Ok (a, s')) → ∃ e, immediate_transaction body db = (db, Err e).
Proof.
  intros Hfails. unfold immediate_transaction. destruct (body db) as [[a s']|e] eqn:Hbody; [|by exists e].
  by destruct (Hfails a s').
Qed.

(** C29: A sweep that cannot end.  When two leases of one attempt have expired and the first
    to expire did so at the execution deadline of a node that neither delivers nor
    builds the release (those two kinds can be an uncertain delivery), the sweep fails
    and changes nothing, at that time and at every later one; and so do claiming,
    renewing and committing the result of a node, for every worker and every project,
    since each sweeps first. *)
Theorem deadline_pair_blocks_the_scheduler db first second now :
  deadline_pair db first second → sl_expires_at_ms second.2 ≤ now →
  (∃ e, Scheduler_expire_leases now db = (db, Err e))
  ∧ (∀ lease_id worker duration, ∃ e, Scheduler_claim_next lease_id worker now duration db = (db, Err e))
  ∧ (∀ worker lease duration, ∃ e, Scheduler_renew_lease worker lease now duration db = (db, Err e))
  ∧ (∀ receipt, ∃ e, Scheduler_commit_node_receipt receipt now db = (db, Err e)).
Proof.
  intros Hpair Hnow. pose proof (sweep_fails _ _ _ _ Hpair Hnow) as Hfails.
  assert (Hexpire : ∃ e, Scheduler_expire_leases now db = (db, Err e)).
  { apply immediate_transaction_fails. intros n s' Hok.
    apply tx_bind_Ok in Hok as (u & s1 & [_ ->]%lift_Ok & Hok). by eapply Hfails. }
  split_and!; [done|..].
  - intros lease_id worker duration. apply immediate_transaction_fails. intros result s' Hok.
    apply tx_bind_Ok in Hok as (u1 & s1 & [_ ->]%lift_Ok & Hok).
    apply tx_bind_Ok in Hok as (u2 & s1 & [_ ->]%lift_Ok & Hok).
    apply tx_bind_Ok in Hok as (n & s1 & Hsweep & _). by eapply Hfails.
  - intros worker lease duration. apply immediate_transaction_fails. intros result s' Hok.
    apply tx_bind_Ok in Hok as (u1 & s1 & [_ ->]%lift_Ok & Hok).
    apply tx_bind_Ok in Hok as (u2 & s1 & [_ ->]%lift_Ok & Hok).
    apply tx_bind_Ok in Hok as (u3 & s1 & [_ ->]%lift_Ok & Hok).
    apply tx_bind_Ok in Hok as (n & s1 & Hsweep & _). by eapply Hfails.
  - intros receipt. unfold Scheduler_commit_node_receipt. destruct (contract _) as [|e]; [|by exists e].
    case_match; [by eexists|]. destruct Hexpire as (e & ->). by exists e.
Qed.
End Sweep.
