(* ===== verification/SchedulerSpec.v ===== *)
(** * The workflow scheduler: theorems

    History, the lease journal, what a claimed lease guarantees, the order in which
    projects are served, the readiness loop, replays, and a sweep that cannot end. *)

From Stdlib Require Import ZArith Lia Ascii String.
From stdpp Require Import base gmap strings option list_numbers list relations sorting.
From S2P Require Import Prelude TxLogic Identifiers Text Ordered Workflow Manifest Errors SchedulerDb Scheduler SchedulerLeases SchedulerReceipts SchedulerHistory SchedulerInvariant.

Local Open Scope Z_scope.

Section SchedulerSpec.
Context `{!SchedulerCodecs}.

(** ** Candidates *)

(** The tables have the attempt and the request of the candidate. *)
Definition candidate_recorded (owned : ReadyCandidateOwned) (db : WorkflowDb) : Prop :=
  ∃ attempt request,
    workflow_attempts db !! ro_attempt_id owned = Some attempt
    ∧ sa_request_id attempt = ro_request_id owned
    ∧ workflow_requests db !! ro_request_id owned = Some request
    ∧ sr_project_id request = ro_project_id owned
    ∧ sr_operation_kind request = ro_execution_mode owned.

Lemma candidate_recorded_evolves owned db db' :
  evolves db db' → candidate_recorded owned db → candidate_recorded owned db'.
Proof.
  intros Hev (attempt & request & Ha & Hr & Hq & Hp & Hk).
  destruct (ev_attempts _ _ Hev _ _ Ha) as (attempt' & Ha' & Hae).
  destruct (ev_requests _ _ Hev _ _ Hq) as (request' & Hq' & Hqe).
  exists attempt', request'. destruct Hae, Hqe. split_and!; congruence.
Qed.

(** What the selection checked of a candidate for this worker. *)
Definition candidate_selected (worker : WorkflowWorkerRegistrationV1) (candidate : ReadyCandidate)
    (db : WorkflowDb) : Prop :=
  let owned := rd_owned candidate in
  candidate_recorded owned db
  ∧ has_pool worker (wep_worker_pool (rd_profile candidate)) = true
  ∧ (ro_execution_mode owned = Mode_Shadow → shadow_executes (wn_kind (rd_node candidate)) = true)
  ∧ wn_node_id (rd_node candidate) = ro_node_id owned.

Lemma candidate_row_Some db entry row :
  candidate_row db entry = Some row →
  cd_node_id row = entry.1.2 ∧ workflow_attempts db !! cd_attempt_id row = Some (cd_attempt row)
  ∧ workflow_requests db !! sa_request_id (cd_attempt row) = Some (cd_request row).
Proof.
  unfold candidate_row. intros Hok.
  apply bind_Some in Hok as (attempt & Ha & Hok). apply bind_Some in Hok as (request & Hr & Hok).
  destruct (_ && _); [|done]. by injection Hok as <-.
Qed.

Lemma candidate_of_row_selected worker row owned candidate db :
  candidate_of_row worker row = Ok (Some owned) → borrowed owned = Ok candidate →
  has_pool worker (sn_worker_pool (cd_node row)) = true →
  workflow_attempts db !! cd_attempt_id row = Some (cd_attempt row) →
  workflow_requests db !! sa_request_id (cd_attempt row) = Some (cd_request row) →
  candidate_selected worker candidate db.
Proof.
  unfold candidate_of_row. intros Hok Hb Hpool Ha Hr.
  apply result_bind_Ok in Hok as (manifest & _ & Hok).
  apply result_bind_Ok in Hok as (u1 & _ & Hok).
  apply result_bind_Ok in Hok as (digest & _ & Hok).
  apply result_bind_Ok in Hok as (u2 & _ & Hok).
  apply result_bind_Ok in Hok as (node & Hnode%ok_or_Ok & Hok).
  apply result_bind_Ok in Hok as (profile & Hprofile%ok_or_Ok & Hok).
  apply result_bind_Ok in Hok as (u3 & Hbinding%ensure_Ok & Hok).
  apply result_bind_Ok in Hok as (u4 & Hshadow%ensure_Ok & Hok).
  destruct (verification_feeds_shared_release_output _ _ && _); [done|].
  apply result_bind_Ok in Hok as (sequence & _ & Hok).
  apply result_bind_Ok in Hok as (generation & _ & Hok). injection Hok as <-.
  unfold borrowed in Hb. apply result_bind_Ok in Hb as (node' & Hnode'%ok_or_Ok & Hb).
  apply result_bind_Ok in Hb as (profile' & Hprofile'%ok_or_Ok & Hb). injection Hb as <-.
  simpl in *. rewrite Hnode in Hnode'. injection Hnode' as <-.
  rewrite Hprofile in Hprofile'. injection Hprofile' as <-. split_selected.
  split_and!; simpl.
  - by exists (cd_attempt row), (cd_request row).
  - congruence.
  - intros Hmode. rewrite Hmode, bool_decide_eq_true_2 in Hshadow by done. simpl in Hshadow.
    by rewrite negb_involutive in Hshadow.
  - apply find_first_Some in Hnode as [_ Hf]. by apply bool_decide_eq_true in Hf.
Qed.

(** Every candidate comes from a ready row of the tables that is for the worker. *)
Lemma collect_candidates_rows worker rows by_project result project owned :
  collect_candidates worker rows by_project = Ok result → (project, owned) ∈ result →
  (project, owned) ∈ by_project
  ∨ ∃ row, row ∈ rows ∧ candidate_of_row worker row = Ok (Some owned)
           ∧ has_pool worker (sn_worker_pool (cd_node row)) = true.
Proof.
  revert by_project. induction rows as [|row rows IH]; simpl; intros by_project Hok Hin.
  { injection Hok as ->. auto. }
  destruct (negb (has_pool worker _)) eqn:Hpool; simpl in Hok.
  { destruct (IH _ Hok Hin) as [|(r & ? & ?)]; [auto|]. right. exists r. set_solver. }
  apply negb_false_iff in Hpool. destruct (btree_contains_key _ _).
  { destruct (IH _ Hok Hin) as [|(r & ? & ?)]; [auto|]. right. exists r. set_solver. }
  apply result_bind_Ok in Hok as (candidate & Hc & Hok). destruct candidate as [c|].
  - destruct (IH _ Hok Hin) as [Hb|(r & ? & ?)]; [|right; exists r; set_solver].
    set (key := ProjectId_as_str _) in Hb.
    assert (Hall : Forall (λ e, e = (key, c) ∨ e ∈ by_project) (btree_insert key c by_project)).
    { apply btree_insert_Forall; [auto|]. apply Forall_forall. auto. }
    rewrite Forall_forall in Hall. destruct (Hall _ Hb) as [Heq|]; [|auto]. injection Heq as _ ->.
    right. exists row. split_and!; [by left|done|done].
  - destruct (IH _ Hok Hin) as [|(r & ? & ?)]; [auto|]. right. exists r. set_solver.
Qed.

(** ** The order of the projects *)

Lemma rotate_left_Permutation {A} n (l : list A) : rotate_left n l ≡ₚ l.
Proof. unfold rotate_left. rewrite Permutation_app_comm. by rewrite take_drop. Qed.

Lemma rotate_left_head {A} n (l : list A) x : l !! n = Some x → head (rotate_left n l) = Some x.
Proof. unfold rotate_left. intros Hx. by rewrite (drop_S _ _ _ Hx). Qed.

Definition project_compare (l r : ReadyCandidate) : comparison :=
  str_compare (candidate_project l) (candidate_project r).

(** The index the rotation starts at. *)
Definition turn_index (last_project_id : option string) (remaining_weight : Z)
    (sorted : list ReadyCandidate) : nat :=
  match last_project_id with
  | None => 0
  | Some last =>
      let next := default 0%nat (position (λ candidate,
                    is_lt (str_compare last (candidate_project candidate))) sorted) in
      match position (λ candidate, candidate_project candidate == last) sorted with
      | Some index => if 0 <? remaining_weight then index else next
      | None => next
      end
  end.

Lemma fair_candidate_order_rotation candidates last weight ordered :
  fair_candidate_order candidates last weight = Ok ordered →
  ∃ all, mapM borrowed candidates = Ok all
    ∧ ordered = rotate_left (turn_index last weight (sort_by project_compare all))
                  (sort_by project_compare all).
Proof.
  unfold fair_candidate_order, turn_index. intros Hok. apply result_bind_Ok in Hok as (all & Hall & Hok).
  exists all. split; [done|]. cbv zeta in Hok.
  change (λ l r, str_compare (candidate_project l) (candidate_project r)) with project_compare in Hok.
  destruct last as [last|]; [|injection Hok as <-; unfold rotate_left; simpl; by rewrite app_nil_r].
  destruct (position _ _); [destruct (0 <? weight)|]; by injection Hok as <-.
Qed.

Lemma mapM_borrowed candidates all candidate :
  mapM borrowed candidates = Ok all → candidate ∈ all →
  ∃ owned, owned ∈ candidates ∧ borrowed owned = Ok candidate.
Proof.
  revert all. induction candidates as [|owned candidates IH]; simpl; intros all Hok Hin.
  - injection Hok as <-. by apply elem_of_nil in Hin.
  - apply result_bind_Ok in Hok as (c & Hc & Hok). apply result_bind_Ok in Hok as (cs & Hcs & Hok).
    injection Hok as <-. apply elem_of_cons in Hin as [->|Hin].
    + exists owned. split; [by left|done].
    + destruct (IH _ Hcs Hin) as (o & Ho & Hb). exists o. split; [by right|done].
Qed.

Lemma fair_order_borrowed candidates last weight ordered candidate :
  fair_candidate_order candidates last weight = Ok ordered → candidate ∈ ordered →
  ∃ owned, owned ∈ candidates ∧ borrowed owned = Ok candidate.
Proof.
  intros Hok Hin. apply fair_candidate_order_rotation in Hok as (all & Hall & ->).
  rewrite rotate_left_Permutation, sort_by_Permutation in Hin. by eapply mapM_borrowed.
Qed.

Lemma load_ready_candidates_selected worker db candidates owned candidate :
  load_ready_candidates worker db = Ok candidates → owned ∈ candidates →
  borrowed owned = Ok candidate → candidate_selected worker candidate db.
Proof.
  unfold load_ready_candidates. intros Hok Hin Hb.
  apply result_bind_Ok in Hok as (by_project & Hcollect & Hok). injection Hok as <-.
  apply list_elem_of_fmap in Hin as ([project o] & -> & Hin). simpl in Hb.
  destruct (collect_candidates_rows _ _ _ _ _ _ Hcollect Hin) as [Hnil|(row & Hrow & Hc & Hpool)];
    [by apply elem_of_nil in Hnil|].
  unfold read_ready_candidate_rows in Hrow. rewrite sort_by_Permutation in Hrow.
  apply list_elem_of_omap in Hrow as (entry & _ & Hentry).
  apply candidate_row_Some in Hentry as (_ & Ha & Hr). by eapply candidate_of_row_selected.
Qed.

(** The project whose turn it is: the one the cursor is on while its weight lasts,
    otherwise the next in the order of names, and the first again after the last. *)
Definition serves_turn (last : option string) (weight : Z) (first : ReadyCandidate)
    (candidates : list ReadyCandidate) : Prop :=
  match last with
  | None => ∀ other, other ∈ candidates → is_le (project_compare first other) = true
  | Some last =>
      if (0 <? weight) && existsb (λ candidate, candidate_project candidate == last) candidates
      then candidate_project first = last
      else if existsb (λ candidate, is_lt (str_compare last (candidate_project candidate))) candidates
      then is_lt (str_compare last (candidate_project first)) = true
           ∧ ∀ other, other ∈ candidates →
               is_lt (str_compare last (candidate_project other)) = true →
               is_le (project_compare first other) = true
      else ∀ other, other ∈ candidates → is_le (project_compare first other) = true
  end.

Lemma strongly_sorted_lookup {A} (R : relation A) l :
  StronglySorted R l → ∀ i j x y, (i < j)%nat → l !! i = Some x → l !! j = Some y → R x y.
Proof.
  induction 1 as [|a l Hs IH Hall]; intros i j x y Hij Hx Hy; [done|].
  destruct j as [|j]; [lia|]. simpl in Hy. destruct i as [|i]; simpl in Hx.
  - injection Hx as ->. rewrite Forall_forall in Hall. apply Hall. by eapply list_elem_of_lookup_2.
  - eapply IH; [|done|done]. lia.
Qed.

Lemma sorted_lookup_le (l : list ReadyCandidate) i j x y :
  (i ≤ j)%nat → sort_by project_compare l !! i = Some x → sort_by project_compare l !! j = Some y →
  is_le (project_compare x y) = true.
Proof.
  intros Hij Hx Hy. destruct (decide (i = j)) as [->|Hne].
  - rewrite Hx in Hy. injection Hy as ->. unfold project_compare. by rewrite str_compare_refl.
  - pose proof (sort_by_Sorted (key_compare candidate_project) l) as Hs.
    apply Sorted_StronglySorted in Hs; [|apply _].
    eapply (strongly_sorted_lookup _ _ Hs i j); [lia|exact Hx|exact Hy].
Qed.

Lemma existsb_position {A} (f : A → bool) l : existsb f l = is_some (position f l).
Proof. induction l as [|x l IH]; simpl; [done|]. destruct (f x); [done|]. rewrite IH. by destruct (position f l). Qed.

Lemma existsb_Permutation {A} (f : A → bool) l l' : l ≡ₚ l' → existsb f l = existsb f l'.
Proof.
  intros Hp. apply eq_true_iff_eq. rewrite !existsb_exists.
  by setoid_rewrite <- list_elem_of_In; setoid_rewrite Hp.
Qed.

(** The head of the rotation serves the turn. *)
Lemma turn_index_serves last weight all first :
  let sorted := sort_by project_compare all in
  sorted !! turn_index last weight sorted = Some first → serves_turn last weight first sorted.
Proof.
  intros sorted Hfirst. unfold serves_turn. unfold turn_index in Hfirst.
  assert (Hleast : sorted !! 0%nat = Some first → ∀ other, other ∈ sorted →
            is_le (project_compare first other) = true).
  { intros H0 other Ho. apply list_elem_of_lookup in Ho as (j & Hj).
    eapply (sorted_lookup_le _ 0 j); [lia|exact H0|exact Hj]. }
  destruct last as [last|]; [|by apply Hleast].
  rewrite !existsb_position.
  set (next := position (λ candidate, is_lt (str_compare last (candidate_project candidate))) sorted)
    in *.
  assert (Hnext : sorted !! default 0%nat next = Some first →
    if is_some next
    then is_lt (str_compare last (candidate_project first)) = true
         ∧ (∀ other, other ∈ sorted → is_lt (str_compare last (candidate_project other)) = true →
              is_le (project_compare first other) = true)
    else ∀ other, other ∈ sorted → is_le (project_compare first other) = true).
  { intros Hn. destruct next as [n|] eqn:En; simpl in *; [|by apply Hleast].
    apply position_Some in En as [(x & Hx & Hfx) Hbefore]. rewrite Hn in Hx. injection Hx as ->.
    split; [done|]. intros other Ho Hlt. apply list_elem_of_lookup in Ho as (j & Hj).
    destruct (decide (n ≤ j)%nat) as [Hle|Hgt]; [by eapply (sorted_lookup_le _ n j)|].
    rewrite (Hbefore j other) in Hlt; [done|lia|done]. }
  destruct (position (λ candidate, candidate_project candidate == last) sorted) as [index|] eqn:Ecur.
  - destruct (0 <? weight); simpl; [|by apply Hnext].
    apply position_Some in Ecur as [(x & Hx & Hfx) _]. rewrite Hfirst in Hx. injection Hx as ->.
    by apply bool_decide_eq_true in Hfx.
  - rewrite andb_false_r. by apply Hnext.
Qed.

Lemma turn_index_bound last weight (sorted : list ReadyCandidate) :
  (turn_index last weight sorted < length sorted ∨ sorted = [])%nat.
Proof.
  assert (Hdefault : ∀ f, (default 0 (position f sorted) < length sorted ∨ sorted = [])%nat).
  { intros f. destruct (position f sorted) as [i|] eqn:Hi; simpl.
    - apply position_Some in Hi as [(x & Hx & _) _]. left. by eapply lookup_lt_Some.
    - destruct sorted; simpl; [auto|left; lia]. }
  unfold turn_index. destruct last as [last|].
  - destruct (position (λ candidate, candidate_project candidate == last) sorted) as [i|] eqn:Hi; [|apply Hdefault].
    destruct (0 <? weight); [|apply Hdefault].
    apply position_Some in Hi as [(x & Hx & _) _]. left. by eapply lookup_lt_Some.
  - destruct sorted; simpl; [auto|left; lia].
Qed.

Lemma serves_turn_Permutation last weight first l l' :
  l ≡ₚ l' → serves_turn last weight first l → serves_turn last weight first l'.
Proof.
  intros Hp. unfold serves_turn. destruct last as [last|]; [|by setoid_rewrite Hp].
  rewrite !(existsb_Permutation _ _ _ Hp). destruct (_ && _); [done|].
  destruct (existsb _ l'); by setoid_rewrite Hp.
Qed.

(** The candidates are served in rotation: the order is a rotation of the candidates
    sorted by project, nothing is dropped, and the first is the project whose turn it
    is. *)
Theorem candidates_are_served_in_turn candidates last weight ordered :
  fair_candidate_order candidates last weight = Ok ordered →
  ∃ all, mapM borrowed candidates = Ok all ∧ ordered ≡ₚ all
    ∧ (∃ n, ordered = rotate_left n (sort_by project_compare all))
    ∧ ∀ first rest, ordered = first :: rest → serves_turn last weight first ordered.
Proof.
  intros Hok. apply fair_candidate_order_rotation in Hok as (all & Hall & Hordered).
  exists all. split; [done|]. subst ordered.
  set (sorted := sort_by project_compare all). set (n := turn_index last weight sorted).
  split_and!; [by rewrite rotate_left_Permutation; apply sort_by_Permutation|by exists n|].
  intros first rest Hcons.
  assert (Hn : sorted !! n = Some first).
  { destruct (sorted !! n) as [x|] eqn:Hx.
    - apply rotate_left_head in Hx. rewrite Hcons in Hx. by injection Hx as ->.
    - exfalso. destruct (turn_index_bound last weight sorted) as [Hlt|Hnil].
      + apply lookup_ge_None in Hx. unfold n in Hx. lia.
      + rewrite Hnil in Hcons. unfold rotate_left in Hcons. by rewrite drop_nil, take_nil in Hcons. }
  pose proof (turn_index_serves last weight all first Hn) as Hserves.
  eapply serves_turn_Permutation; [|exact Hserves]. symmetry. apply rotate_left_Permutation.
Qed.

(** ** Claims *)

Lemma seal_lease_fields lease sealed :
  seal_lease lease = Ok sealed → ∃ digest, sealed = lease <| wl_lease_digest := digest |>.
Proof.
  intros Hok. apply result_bind_Ok in Hok as (digest & _ & Hok). cbv zeta in Hok.
  apply result_bind_Ok in Hok as (u & _ & Hok). injection Hok as <-. by exists digest.
Qed.

Lemma bounded_lease_expiry_bounds leased_at now duration timeout expires :
  bounded_lease_expiry leased_at now duration timeout = Ok expires →
  now < expires ∧ expires ≤ now + duration ∧ expires ≤ leased_at + timeout.
Proof.
  unfold bounded_lease_expiry, execution_deadline_ms. intros Hok.
  apply result_bind_Ok in Hok as (deadline & Hdeadline & Hok).
  apply result_bind_Ok in Hdeadline as (t & [-> _]%ok_or_Ok%checked_range_Some & Hdeadline).
  apply ok_or_Ok, checked_range_Some in Hdeadline as [-> _].
  apply result_bind_Ok in Hok as (requested & [-> _]%ok_or_Ok%checked_range_Some & Hok).
  cbv zeta in Hok. destruct (_ <=? now) eqn:Hle; [done|]. injection Hok as <-. lia.
Qed.

(** The dependencies of a node have run, and the inputs are their outputs. *)
Definition inputs_ready (attempt_id : Uuid) (node_id : WorkflowNodeId)
    (inputs : list WorkflowLeaseInputV1) (db : WorkflowDb) : Prop :=
  ∀ dependency row, (attempt_id, node_id, dependency) ∈ workflow_node_dependencies db →
    workflow_nodes db !! (attempt_id, dependency) = Some row →
    sn_state row = NodeState_Succeeded
    ∧ ∃ input, input ∈ inputs ∧ wli_node_id input = dependency
               ∧ sn_output_digest row = Some (wli_output_digest input).

Lemma dependency_ids_elem attempt_id node_id dependency db :
  dependency ∈ dependency_ids attempt_id node_id db
  ↔ (attempt_id, node_id, dependency) ∈ workflow_node_dependencies db.
Proof.
  unfold dependency_ids, sort_node_ids. rewrite sort_by_elem_of, list_elem_of_fmap. split.
  - intros ([[a n] d] & -> & [Heq Hin]%list_elem_of_filter). simpl in *. injection Heq as -> ->.
    by apply elem_of_elements in Hin.
  - intros Hin. exists (attempt_id, node_id, dependency). split; [done|].
    apply list_elem_of_filter. split; [done|]. by apply elem_of_elements.
Qed.

Lemma mapM_elem {E A B} (f : A → Result E B) l out x :
  mapM f l = Ok out → x ∈ l → ∃ y, f x = Ok y ∧ y ∈ out.
Proof.
  revert out. induction l as [|a l IH]; simpl; intros out Hok Hin; [by apply elem_of_nil in Hin|].
  apply result_bind_Ok in Hok as (b & Hb & Hok). apply result_bind_Ok in Hok as (bs & Hbs & Hok).
  injection Hok as <-. apply elem_of_cons in Hin as [->|Hin].
  - exists b. split; [done|by left].
  - destruct (IH _ Hbs Hin) as (y & Hy & Hiny). exists y. split; [done|by right].
Qed.

Lemma expected_input_ready candidate db digest inputs :
  expected_input_digest candidate db = Ok (digest, inputs) →
  inputs_ready (ro_attempt_id (rd_owned candidate)) (wn_node_id (rd_node candidate)) inputs db.
Proof.
  unfold expected_input_digest. intros Hok. cbv zeta in Hok.
  apply result_bind_Ok in Hok as (found & Hfound & Hok).
  apply result_bind_Ok in Hok as (u & _ & Hok).
  apply result_bind_Ok in Hok as (bytes & _ & Hok). injection Hok as _ <-.
  intros dependency row Hdep Hrow. apply dependency_ids_elem in Hdep.
  destruct (mapM_elem _ _ _ _ Hfound Hdep) as (input & Hinput & Hin).
  unfold lease_input in Hinput. rewrite Hrow in Hinput.
  apply result_bind_Ok in Hinput as (u1 & Hstate%ensure_Ok%bool_decide_eq_true & Hinput).
  apply result_bind_Ok in Hinput as (node & _ & Hinput).
  apply result_bind_Ok in Hinput as (output & Houtput%ok_or_Ok & Hinput). injection Hinput as <-.
  split; [done|]. eexists. split; [by apply list_elem_of_omap; eexists; split; [exact Hin|]|done].
Qed.

(** What a lease says of the candidate it was made for. *)
Record lease_for (lease_id : Uuid) (candidate : ReadyCandidate)
    (worker : WorkflowWorkerRegistrationV1) (now duration : Z) (db : WorkflowDb)
    (lease : WorkflowLeaseV1) : Prop := {
  lf_id : wl_lease_id lease = lease_id;
  lf_request : wl_request_id lease = ro_request_id (rd_owned candidate);
  lf_attempt : wl_attempt_id lease = ro_attempt_id (rd_owned candidate);
  lf_project : wl_project_id lease = ro_project_id (rd_owned candidate);
  lf_node : wl_node_id lease = wn_node_id (rd_node candidate);
  lf_kind : wl_node_kind lease = wn_kind (rd_node candidate);
  lf_pool : wl_worker_pool lease = wep_worker_pool (rd_profile candidate);
  lf_worker : wl_worker_id lease = wk_worker_id worker;
  lf_host : wl_host_id lease = wk_host_id worker;
  lf_leased : wl_leased_at_ms lease = now;
  lf_expires : now < wl_expires_at_ms lease ≤ now + duration;
  lf_deadline : wl_expires_at_ms lease ≤ now + wl_timeout_ms lease;
  lf_inputs : inputs_ready (wl_attempt_id lease) (wl_node_id lease) (wl_input_artifacts lease) db
}.

Lemma candidate_lease_for lease_id candidate state worker now duration db lease :
  candidate_lease lease_id candidate state worker now duration db = Ok lease →
  lease_for lease_id candidate worker now duration db lease.
Proof.
  unfold candidate_lease. intros Hok. cbv zeta in Hok.
  apply result_bind_Ok in Hok as (inputs & Hinputs & Hok). destruct inputs as [digest inputs].
  apply result_bind_Ok in Hok as (generation & _ & Hok).
  apply result_bind_Ok in Hok as (expires & Hexpires%bounded_lease_expiry_bounds & Hok).
  apply result_bind_Ok in Hok as (lease0 & Hnew & Hok). apply map_err_Ok in Hnew.
  apply seal_lease_fields in Hnew as (digest0 & ->).
  apply expected_input_ready in Hinputs.
  destruct state as [state|].
  - apply map_err_Ok in Hok. apply seal_lease_fields in Hok as (digest1 & ->).
    constructor; simpl; try done; lia.
  - injection Hok as <-. constructor; simpl; try done; lia.
Qed.

(** *** The lock *)

Definition same_locks (db db' : WorkflowDb) : Prop :=
  workflow_mutation_locks db' = workflow_mutation_locks db.

#[local] Instance same_locks_preorder : PreOrder same_locks.
Proof. split; [by intros db|]. unfold same_locks. intros db1 db2 db3 H1 H2. congruence. Qed.

Ltac locks_sql := intros s a s' Hok; inv_sql;
  try (match goal with x : (Z * gmap _ _)%type |- _ => destruct x end; inv_sql); done.

Lemma update_nodes_locks p f : tx_rel same_locks (update_nodes p f).
Proof. unfold update_nodes. locks_sql. Qed.

Lemma update_attempts_locks p f : tx_rel same_locks (update_attempts p f).
Proof. unfold update_attempts. locks_sql. Qed.

Lemma insert_lease_locks id row : tx_rel same_locks (insert_lease id row).
Proof. unfold insert_lease. locks_sql. Qed.

Lemma insert_state_binding_locks id row : tx_rel same_locks (insert_state_binding id row).
Proof. unfold insert_state_binding. locks_sql. Qed.

Lemma append_transition_locks attempt_id subject_kind subject_id from_state to_state reason
    evidence_digest occurred_at_ms :
  tx_rel same_locks (append_transition attempt_id subject_kind subject_id from_state to_state reason
    evidence_digest occurred_at_ms).
Proof. unfold append_transition. locks_sql. Qed.

#[local] Hint Resolve update_nodes_locks update_attempts_locks insert_lease_locks
  insert_state_binding_locks append_transition_locks : tx_rel.

Lemma persist_active_lease_locks lease previous now :
  tx_rel same_locks (persist_active_lease lease previous now).
Proof. unfold persist_active_lease, expect_one. tx_steps. Qed.

Lemma operation_state_locks candidate worker now :
  tx_rel same_locks (operation_state_for_candidate candidate worker now).
Proof. unfold operation_state_for_candidate, bound_operation_state. tx_steps. Qed.

(** The project's lock is held by the attempt. *)
Definition holds_lock (db : WorkflowDb) (project_id : ProjectId) (attempt_id : Uuid) : Prop :=
  ∃ lock, workflow_mutation_locks db !! project_id = Some lock
          ∧ so_attempt_id lock = attempt_id ∧ so_state lock = Lock_Held.

Lemma acquire_mutation_lock_holds candidate now s s' :
  acquire_mutation_lock candidate now s = Ok (true, s') →
  holds_lock s' (ro_project_id (rd_owned candidate)) (ro_attempt_id (rd_owned candidate)).
Proof.
  unfold acquire_mutation_lock. intros Hok. cbv zeta in Hok.
  apply tx_bind_Ok in Hok as (owner & s1 & [-> ->]%gets_Ok & Hok).
  destruct (workflow_mutation_locks s !! _) as [lock|] eqn:Hlock.
  - destruct (bool_decide_reflect (so_attempt_id lock = ro_attempt_id (rd_owned candidate)));
      simpl in Hok; [|by apply tx_ok_Ok in Hok as [? _]].
    destruct (bool_decide_reflect (so_state lock = Lock_Held)); simpl in Hok;
      [|by apply tx_err_Ok in Hok].
    apply tx_ok_Ok in Hok as [_ ->]. by exists lock.
  - apply tx_bind_Ok in Hok as (u & s1 & Hinsert & Hok).
    apply tx_bind_Ok in Hok as (n & s2 & Hupdate & Hok).
    apply tx_bind_Ok in Hok as (u' & s3 & [_ ->]%expect_one_Ok & [_ ->]%tx_ok_Ok).
    unfold holds_lock. rewrite (update_attempts_locks _ _ _ _ _ Hupdate).
    unfold insert_lock in Hinsert. inv_sql. simpl. rewrite lookup_insert_eq. by eexists.
Qed.

Lemma holds_lock_same db db' project_id attempt_id :
  same_locks db db' → holds_lock db project_id attempt_id → holds_lock db' project_id attempt_id.
Proof. unfold same_locks, holds_lock. by intros ->. Qed.

(** *** The claim *)

Lemma inputs_ready_evolves attempt_id node_id inputs db0 db db' :
  evolves db0 db → evolves db db' → inputs_ready attempt_id node_id inputs db →
  ∀ dependency row, (attempt_id, node_id, dependency) ∈ workflow_node_dependencies db0 →
    workflow_nodes db0 !! (attempt_id, dependency) = Some row →
    ∃ row' input, workflow_nodes db' !! (attempt_id, dependency) = Some row'
      ∧ sn_state row' = NodeState_Succeeded ∧ input ∈ inputs ∧ wli_node_id input = dependency
      ∧ sn_output_digest row' = Some (wli_output_digest input).
Proof.
  intros Hev Hev' Hready dependency row Hdep Hrow.
  destruct (ev_nodes _ _ Hev _ _ Hrow) as (row1 & Hrow1 & _).
  apply (ev_dependencies _ _ Hev) in Hdep.
  destruct (Hready _ _ Hdep Hrow1) as (Hstate & input & Hin & Hid & Hout).
  destruct (ev_nodes _ _ Hev' _ _ Hrow1) as (row2 & Hrow2 & Hne).
  rewrite (ne_closed _ _ Hne) in Hrow2 by (by rewrite Hstate).
  by exists row1, input.
Qed.

Lemma persist_active_lease_active lease previous now s u s' :
  persist_active_lease lease previous now s = Ok (u, s') →
  active_at s' (wl_attempt_id lease, wl_node_id lease) (wl_lease_id lease).
Proof.
  unfold persist_active_lease. intros Hok.
  apply tx_bind_Ok in Hok as (bytes & s1 & [_ ->]%lift_Ok & Hok).
  apply tx_bind_Ok in Hok as (json & s1 & [_ ->]%lift_Ok & Hok).
  apply tx_bind_Ok in Hok as (u1 & s1 & Hins & Hok).
  apply tx_bind_Ok in Hok as (n & s2 & Hnodes & Hok).
  assert (Hactive : active_at s2 (wl_attempt_id lease, wl_node_id lease) (wl_lease_id lease)).
  { rewrite active_after_nodes by exact Hnodes. unfold insert_lease in Hins. inv_sql.
    eexists. simpl. rewrite lookup_insert_eq. done. }
  assert (Hrest : same_leasing s2 s'); [|by apply Hrest].
  apply tx_bind_Ok in Hok as (u2 & s3 & [_ ->]%expect_one_Ok & Hok).
  apply tx_bind_Ok in Hok as (n2 & s3 & Hattempts & Hok).
  apply tx_bind_Ok in Hok as (u3 & s4 & [_ ->]%expect_one_Ok & Hok).
  etrans; [eapply update_attempts_quiet; exact Hattempts|eapply append_transition_quiet; exact Hok].
Qed.

(** The candidate that was claimed, with the tables its lease was made on. *)
Lemma claim_first_claims lease_id worker now duration last weight candidates s lease s' :
  claim_first lease_id worker now duration last weight candidates s = Ok (Some lease, s') →
  ∃ candidate s1, candidate ∈ candidates ∧ evolves s s1 ∧ evolves s1 s'
    ∧ lease_for lease_id candidate worker now duration s1 lease
    ∧ active_at s' (wl_attempt_id lease, wl_node_id lease) (wl_lease_id lease)
    ∧ (candidate_requires_exclusive_delivery candidate = true →
         holds_lock s' (ro_project_id (rd_owned candidate)) (ro_attempt_id (rd_owned candidate))).
Proof.
  revert s. induction candidates as [|candidate candidates IH]; intros s Hok; simpl in Hok.
  { by apply tx_ok_Ok in Hok as [? _]. }
  assert (Hskip : ∀ s1, evolves s s1 →
    claim_first lease_id worker now duration last weight candidates s1 = Ok (Some lease, s') →
    ∃ c s2, c ∈ candidate :: candidates ∧ evolves s s2 ∧ evolves s2 s'
      ∧ lease_for lease_id c worker now duration s2 lease
      ∧ active_at s' (wl_attempt_id lease, wl_node_id lease) (wl_lease_id lease)
      ∧ (candidate_requires_exclusive_delivery c = true →
           holds_lock s' (ro_project_id (rd_owned c)) (ro_attempt_id (rd_owned c)))).
  { intros s1 Hev Hrest. destruct (IH _ Hrest) as (c & s2 & Hin & H12 & H2' & Hfor & Hact & Hlock).
    exists c, s2. split_and!; [by right|by etrans|done..]. }
  apply tx_bind_Ok in Hok as (exclusive & s1 & Hexclusive & Hok).
  assert (Hev1 : evolves s s1).
  { revert Hexclusive. destruct (candidate_requires_exclusive_delivery candidate).
    - eapply acquire_mutation_lock_evolves.
    - by intros [_ ->]%tx_ok_Ok. }
  destruct exclusive; simpl in Hok; [|by eapply Hskip].
  apply tx_bind_Ok in Hok as (selection & s2 & Hselection & Hok).
  assert (Hev2 : evolves s s2)
    by (etrans; [exact Hev1|by eapply operation_state_for_candidate_evolves]).
  assert (Hclaim : ∀ state,
    (let? lease := reads (candidate_lease lease_id candidate state worker now duration) in
     let? _ := persist_active_lease lease (ro_lease_generation (rd_owned candidate)) now in
     let? _ := update_fairness_cursor candidate last weight in
     tx_ok (Some lease)) s2 = Ok (Some lease, s') →
    ∃ c s2, c ∈ candidate :: candidates ∧ evolves s s2 ∧ evolves s2 s'
      ∧ lease_for lease_id c worker now duration s2 lease
      ∧ active_at s' (wl_attempt_id lease, wl_node_id lease) (wl_lease_id lease)
      ∧ (candidate_requires_exclusive_delivery c = true →
           holds_lock s' (ro_project_id (rd_owned c)) (ro_attempt_id (rd_owned c)))).
  { intros state Hdone. exists candidate, s2.
    apply tx_bind_Ok in Hdone as (l & s3 & [Hlease ->]%reads_Ok & Hdone).
    apply tx_bind_Ok in Hdone as (u1 & s3 & Hpersist & Hdone).
    apply tx_bind_Ok in Hdone as (u2 & s4 & Hcursor & Hdone).
    apply tx_ok_Ok in Hdone as [Heq ->]. injection Heq as <-.
    assert (s4 = s3 <| workflow_scheduler_cursor := workflow_scheduler_cursor s4 |>) as Hs4
      by (unfold update_fairness_cursor in Hcursor; apply modify_Ok in Hcursor as ->; done).
    split_and!; [by left|done| |by eapply candidate_lease_for| |].
    - transitivity s3; [|rewrite Hs4; by one_table idtac].
      eapply persist_active_lease_evolves; [|exact Hpersist].
      apply candidate_lease_generation in Hlease. lia.
    - apply persist_active_lease_active in Hpersist. rewrite Hs4. exact Hpersist.
    - intros Hreq. rewrite Hreq in Hexclusive. apply acquire_mutation_lock_holds in Hexclusive.
      eapply holds_lock_same; [|exact Hexclusive].
      etrans; [by eapply operation_state_locks|]. etrans; [by eapply persist_active_lease_locks|].
      by rewrite Hs4. }
  destruct selection; [by eapply Hclaim|by eapply Hclaim|by eapply Hskip].
Qed.

(** The method: a sweep, then the claim. *)
Lemma claim_next_claims lease_id worker now duration db db' lease :
  Scheduler_claim_next lease_id worker now duration db = (db', Ok (Some lease)) →
  ∃ candidate s1, candidate_selected worker candidate db' ∧ evolves db s1 ∧ evolves s1 db'
    ∧ lease_for lease_id candidate worker now duration s1 lease
    ∧ active_at db' (wl_attempt_id lease, wl_node_id lease) (wl_lease_id lease)
    ∧ (candidate_requires_exclusive_delivery candidate = true →
         holds_lock db' (ro_project_id (rd_owned candidate)) (ro_attempt_id (rd_owned candidate))).
Proof.
  unfold Scheduler_claim_next. intros Hok%immediate_transaction_Ok.
  apply tx_bind_Ok in Hok as (u1 & s1 & [_ ->]%lift_Ok & Hok).
  apply tx_bind_Ok in Hok as (u2 & s1 & [_ ->]%lift_Ok & Hok).
  apply tx_bind_Ok in Hok as (n & s1 & Hexpire%expire_leases_transaction_evolves & Hok).
  apply tx_bind_Ok in Hok as (pending & s2 & [-> ->]%gets_Ok & Hok).
  destruct (worker_has_pending_cleanup worker s1); [by apply tx_ok_Ok in Hok as [? _]|].
  unfold claim_next_transaction in Hok.
  apply tx_bind_Ok in Hok as (u3 & s2 & Hwake%wake_waiting_attempts_evolves & Hok).
  apply tx_bind_Ok in Hok as (candidates & s3 & [Hload ->]%reads_Ok & Hok).
  assert (Hev2 : evolves db s2) by (by etrans).
  destruct candidates as [|c cs]; [by apply tx_ok_Ok in Hok as [? _]|].
  apply tx_bind_Ok in Hok as (cursor & s3 & [_ ->]%reads_Ok & Hok). destruct cursor as [last weight].
  apply tx_bind_Ok in Hok as (ordered & s3 & [Hordered ->]%lift_Ok & Hok).
  apply claim_first_claims in Hok as (candidate & s3 & Hin & H23 & H3' & Hfor & Hactive & Hlock).
  destruct (fair_order_borrowed _ _ _ _ _ Hordered Hin) as (owned & Howned & Hb).
  pose proof (load_ready_candidates_selected _ _ _ _ _ Hload Howned Hb) as (Hrec & Hrest).
  exists candidate, s3. split_and!; [|by etrans|done..]. split; [|done].
  eapply candidate_recorded_evolves; [|exact Hrec]. by etrans.
Qed.

(** C26: What a claimed lease guarantees.  It is the worker's, for a pool the worker
    registered, it is recorded as the active lease of its node, and it ends within the
    asked time and the execution timeout.  Every dependency of the node has succeeded
    and its output is among the inputs.  A shadow run gets no node that delivers, and a
    node that mutates is leased only to the attempt that holds the project's lock. *)
Theorem claimed_lease_is_justified lease_id worker now duration db db' lease :
  Scheduler_claim_next lease_id worker now duration db = (db', Ok (Some lease)) →
  wl_lease_id lease = lease_id ∧ wl_worker_id lease = wk_worker_id worker
  ∧ wl_host_id lease = wk_host_id worker ∧ has_pool worker (wl_worker_pool lease) = true
  ∧ active_at db' (wl_attempt_id lease, wl_node_id lease) lease_id
  ∧ wl_leased_at_ms lease = now ∧ now < wl_expires_at_ms lease
  ∧ wl_expires_at_ms lease ≤ now + duration ∧ wl_expires_at_ms lease ≤ now + wl_timeout_ms lease
  ∧ (∀ dependency row,
       (wl_attempt_id lease, wl_node_id lease, dependency) ∈ workflow_node_dependencies db →
       workflow_nodes db !! (wl_attempt_id lease, dependency) = Some row →
       ∃ row' input, workflow_nodes db' !! (wl_attempt_id lease, dependency) = Some row'
         ∧ sn_state row' = NodeState_Succeeded ∧ input ∈ wl_input_artifacts lease
         ∧ wli_node_id input = dependency
         ∧ sn_output_digest row' = Some (wli_output_digest input))
  ∧ ∃ request, workflow_requests db' !! wl_request_id lease = Some request
      ∧ sr_project_id request = wl_project_id lease
      ∧ (sr_operation_kind request = Mode_Shadow → shadow_executes (wl_node_kind lease) = true)
      ∧ (sr_operation_kind request = Mode_Deploy → is_mutation (wl_node_kind lease) = true →
         holds_lock db' (wl_project_id lease) (wl_attempt_id lease)).
Proof.
  intros (candidate & s1 & Hselected & Hev1 & Hev2 & Hfor & Hactive & Hlock)%claim_next_claims.
  pose proof (inputs_ready_evolves _ _ _ _ _ _ Hev1 Hev2 (lf_inputs _ _ _ _ _ _ _ Hfor)) as Hdeps.
  destruct Hselected as (Hrecorded & Hpool & Hshadow & _).
  destruct Hrecorded as (attempt & request & _ & _ & Hrequest & Hproject & Hmode).
  destruct Hfor. split_and!; try done; [congruence|congruence|lia..|].
  exists request. rewrite lf_request0, lf_project0, lf_attempt0, lf_kind0, Hmode. split_and!; try done.
  intros Hdeploy Hmutation. apply Hlock. unfold candidate_requires_exclusive_delivery.
  by rewrite Hdeploy, bool_decide_eq_true_2, Hmutation.
Qed.

(** ** The readiness loop *)

(** The rows satisfy the CHECKs of their table. *)
Definition nodes_checked (db : WorkflowDb) : Prop :=
  ∀ key row, workflow_nodes db !! key = Some row → node_check row = true.

Definition set_ready (row : WfNodeRow) : WfNodeRow := row <| sn_state := NodeState_Ready |>.

Lemma set_ready_checked row :
  node_check row = true → sn_state row = NodeState_Blocked → node_check (set_ready row) = true.
Proof.
  unfold node_check, set_ready. intros Hcheck Hstate. rewrite Hstate in Hcheck. simpl.
  split_selected. by rewrite !andb_true_iff, !bool_decide_eq_true.
Qed.

(** An update whose rows keep the CHECK of the table succeeds. *)
Lemma update_nodes_run p f s :
  (∀ key row, workflow_nodes s !! key = Some row → p key row = true → node_check (f row) = true) →
  ∃ changed nodes, update_nodes p f s = Ok (changed, s <| workflow_nodes := nodes |>)
    ∧ ∀ key, nodes !! key = (λ row, if p key row then f row else row) <$> (workflow_nodes s !! key).
Proof.
  intros Hchecks. unfold update_nodes, update_rows, mbind, tx_bind, gets, lift, modify, tx_ok.
  rewrite (proj2 (forallb_forall _ (select_rows p (workflow_nodes s)))).
  - do 2 eexists. split; [reflexivity|]. intros key. rewrite map_lookup_imap.
    by destruct (workflow_nodes s !! key).
  - intros [key row] [Hp Hrow]%list_elem_of_In%select_rows_elem. simpl. by eapply Hchecks.
Qed.

(** One node becomes ready if it is blocked. *)
Lemma ready_node_run attempt_id node_id s :
  nodes_checked s →
  ∃ s', ready_node attempt_id node_id s = Ok (tt, s') ∧ nodes_checked s'
    ∧ s' = s <| workflow_nodes := workflow_nodes s' |>
    ∧ ∀ key, workflow_nodes s' !! key
        = (λ row, if (key == (attempt_id, node_id)) && (sn_state row == NodeState_Blocked)
                  then set_ready row else row) <$> (workflow_nodes s !! key).
Proof.
  intros Hchecked.
  assert (Hready : ∀ key row, workflow_nodes s !! key = Some row →
    (key == (attempt_id, node_id)) && (sn_state row == NodeState_Blocked) = true →
    node_check (set_ready row) = true).
  { intros key row Hrow Hp. split_selected. apply set_ready_checked; [by eapply Hchecked|done]. }
  destruct (update_nodes_run _ _ _ Hready) as (changed & nodes & Hrun & Hnodes).
  exists (s <| workflow_nodes := nodes |>). split_and!; [|..|done|exact Hnodes].
  - unfold ready_node. apply tx_bind_Ok. do 2 eexists. split; [exact Hrun|done].
  - intros key row. simpl. rewrite Hnodes. destruct (workflow_nodes s !! key) as [r|] eqn:Hr; [|done].
    simpl. case_match; intros [= <-]; [by eapply Hready|by eapply Hchecked].
Qed.

Lemma ready_nodes_run attempt_id ids s :
  nodes_checked s →
  ∃ s', tx_for_each (ready_node attempt_id) ids s = Ok (tt, s') ∧ nodes_checked s'
    ∧ s' = s <| workflow_nodes := workflow_nodes s' |>
    ∧ ∀ key, workflow_nodes s' !! key
        = (λ row, if (key.1 == attempt_id) && contains ids key.2 && (sn_state row == NodeState_Blocked)
                  then set_ready row else row) <$> (workflow_nodes s !! key).
Proof.
  revert s. induction ids as [|node_id ids IH]; intros s Hchecked; simpl.
  - exists s. split_and!; [done|done|by destruct s|]. intros key.
    destruct (workflow_nodes s !! key); simpl; [|done]. by rewrite andb_false_r.
  - destruct (ready_node_run attempt_id node_id s Hchecked) as (s1 & Hone & Hc1 & Hs1 & Hlookup1).
    destruct (IH s1 Hc1) as (s2 & Htwo & Hc2 & Hs2 & Hlookup2).
    exists s2. split_and!; [|done| |].
    + unfold mbind, tx_bind. rewrite Hone. exact Htwo.
    + rewrite Hs2, Hs1. done.
    + intros [a n]. rewrite Hlookup2, Hlookup1. rewrite <- option_fmap_compose.
      apply option_fmap_ext. intros row. simpl. unfold contains.
      destruct (bool_decide_reflect (a = attempt_id)) as [->|Ha]; simpl.
      2:{ rewrite (bool_decide_eq_false_2 ((a, n) = (attempt_id, node_id))) by congruence. done. }
      destruct (bool_decide_reflect (n = node_id)) as [->|Hn]; simpl.
      * rewrite (bool_decide_eq_true_2 ((attempt_id, node_id) = (attempt_id, node_id))) by done.
        rewrite (bool_decide_eq_true_2 (node_id ∈ node_id :: ids)) by left. simpl.
        destruct (bool_decide_reflect (sn_state row = NodeState_Blocked)) as [Hb|Hb]; simpl.
        -- by rewrite andb_false_r.
        -- rewrite (bool_decide_eq_false_2 (sn_state row = NodeState_Blocked)) by done.
           by rewrite andb_false_r.
      * rewrite (bool_decide_eq_false_2 ((attempt_id, n) = (attempt_id, node_id))) by congruence. simpl.
        rewrite (bool_decide_ext (n ∈ node_id :: ids) (n ∈ ids)); [done|].
        rewrite elem_of_cons. naive_solver.
Qed.

(** The node is blocked, always activated, and has no unfinished prerequisite. *)
Definition prerequisites_met (db : WorkflowDb) (key : Uuid * WorkflowNodeId) (row : WfNodeRow) : bool :=
  (sn_state row == NodeState_Blocked) && (sn_activation row == Activation_Always)
  && forallb (λ dependency,
       match workflow_nodes db !! (key.1, dependency) with
       | Some prerequisite => sn_state prerequisite == NodeState_Succeeded
       | None => true
       end) (dependency_ids key.1 key.2 db).

Lemma advanceable_nodes_elem attempt_id node_id db :
  node_id ∈ advanceable_nodes attempt_id db ↔
  ∃ row, workflow_nodes db !! (attempt_id, node_id) = Some row
    ∧ prerequisites_met db (attempt_id, node_id) row = true.
Proof.
  unfold advanceable_nodes, prerequisites_met. rewrite list_elem_of_fmap. split.
  - intros (((a & n) & row) & -> & Hin). apply sort_by_elem, select_rows_elem in Hin as [Hp Hrow].
    simpl in *. rewrite !andb_true_iff, bool_decide_eq_true in Hp. destruct Hp as [[[-> ?] ?] ?].
    exists row. by rewrite !andb_true_iff.
  - intros (row & Hrow & Hp). exists ((attempt_id, node_id), row). split; [done|].
    apply sort_by_elem, select_rows_elem. split; [|done]. simpl in *.
    by rewrite (bool_decide_eq_true_2 (attempt_id = attempt_id)).
Qed.

(** The reference: every node of the attempt whose prerequisites are met becomes ready,
    all at once. *)
Definition made_ready (attempt_id : Uuid) (db : WorkflowDb) : WorkflowDb :=
  db <| workflow_nodes := map_imap (λ key row,
    Some (if (key.1 == attempt_id) && prerequisites_met db key row then set_ready row else row))
    (workflow_nodes db) |>.

Lemma made_ready_lookup attempt_id db key :
  workflow_nodes (made_ready attempt_id db) !! key
  = (λ row, if (key.1 == attempt_id) && prerequisites_met db key row then set_ready row else row)
      <$> (workflow_nodes db !! key).
Proof. simpl. rewrite map_lookup_imap. by destruct (workflow_nodes db !! key). Qed.

(** The body of the loop makes exactly the selected nodes ready. *)
Lemma ready_nodes_made_ready attempt_id s :
  nodes_checked s →
  tx_for_each (ready_node attempt_id) (advanceable_nodes attempt_id s) s
  = Ok (tt, made_ready attempt_id s).
Proof.
  intros Hchecked.
  destruct (ready_nodes_run attempt_id (advanceable_nodes attempt_id s) s Hchecked)
    as (s' & -> & _ & Hs' & Hlookup).
  assert (Hnodes : workflow_nodes s' = workflow_nodes (made_ready attempt_id s)); [|by rewrite Hs', Hnodes].
  apply map_eq. intros [a n]. rewrite Hlookup, made_ready_lookup.
  destruct (workflow_nodes s !! (a, n)) as [row|] eqn:Hrow; [|done]. simpl. f_equal.
  destruct (bool_decide_reflect (a = attempt_id)) as [->|]; [|done]. simpl. unfold contains.
  destruct (prerequisites_met s (attempt_id, n) row) eqn:Hmet.
  - rewrite bool_decide_eq_true_2 by (apply advanceable_nodes_elem; eauto).
    unfold prerequisites_met in Hmet. split_selected.
    by rewrite (bool_decide_eq_true_2 (sn_state row = NodeState_Blocked)).
  - rewrite bool_decide_eq_false_2; [done|].
    rewrite advanceable_nodes_elem. intros (row' & Hrow' & Hmet'). congruence.
Qed.

(** Becoming ready unblocks no other node. *)
Lemma made_ready_settled attempt_id s : advanceable_nodes attempt_id (made_ready attempt_id s) = [].
Proof.
  apply elem_of_nil_inv. intros n (row & Hrow & Hmet)%advanceable_nodes_elem.
  rewrite made_ready_lookup in Hrow. destruct (workflow_nodes s !! (attempt_id, n)) as [old|] eqn:Hold; [|done].
  simpl in Hrow. injection Hrow as <-. rewrite (bool_decide_eq_true_2 (attempt_id = attempt_id)) in Hmet by done.
  simpl in Hmet. destruct (prerequisites_met s (attempt_id, n) old) eqn:Hwas; [by split_selected|].
  rewrite <- not_true_iff_false in Hwas. apply Hwas. unfold prerequisites_met in *.
  apply andb_true_iff in Hmet as [Hhead Hdeps]. rewrite Hhead. simpl in *.
  apply forallb_forall. intros d Hd. pose proof (proj1 (forallb_forall _ _) Hdeps d Hd) as Hone.
  simpl in Hone. rewrite map_lookup_imap in Hone.
  destruct (workflow_nodes s !! (attempt_id, d)) as [prerequisite|]; [|done]. simpl in Hone.
  by case_match.
Qed.

Lemma advance_loop_settles fuel attempt_id s :
  nodes_checked s → advance_loop (S (S fuel)) attempt_id s = Ok (tt, made_ready attempt_id s).
Proof.
  intros Hchecked. pose proof (ready_nodes_made_ready attempt_id s Hchecked) as Hbody.
  pose proof (made_ready_settled attempt_id s) as Hnext.
  simpl. unfold mbind at 1, tx_bind at 1, gets at 1.
  destruct (advanceable_nodes attempt_id s) as [|n ids]; [exact Hbody|].
  unfold mbind at 1, tx_bind at 1. rewrite Hbody. unfold mbind, tx_bind, gets. by rewrite Hnext.
Qed.

(** The loop that advances an attempt ends after two iterations: one pass makes ready
    exactly the blocked nodes whose prerequisites have all succeeded, and a node that
    is only ready unblocks nothing.  More iterations change nothing, and no node that
    could start is left blocked. *)
Theorem advance_ready_nodes_settles attempt_id s :
  nodes_checked s →
  advance_ready_nodes attempt_id s = Ok (tt, made_ready attempt_id s)
  ∧ advanceable_nodes attempt_id (made_ready attempt_id s) = []
  ∧ ∀ fuel, (2 ≤ fuel)%nat →
      advance_loop fuel attempt_id s = advance_ready_nodes attempt_id s.
Proof.
  intros Hchecked. split_and!; [by apply advance_loop_settles|apply made_ready_settled|].
  intros fuel Hfuel. destruct fuel as [|[|fuel]]; [lia..|].
  unfold advance_ready_nodes. by rewrite !advance_loop_settles.
Qed.

(** ** History and the lease journal *)

(** What no sequence of calls undoes.  Closed leases and settled nodes keep their rows,
    receipts, triggers, reductions and transitions are only added, a project's source
    sequence does not go back, and an attempt that ended is not reopened. *)
Theorem workflow_history_is_final db db' :
  rtc scheduler_step db db' →
  (∀ id lease, workflow_lease_journal db !! id = Some lease → sl_state lease ≠ Lease_Active →
     workflow_lease_journal db' !! id = Some lease)
  ∧ (∀ key node, workflow_nodes db !! key = Some node → node_closed (sn_state node) = true →
     workflow_nodes db' !! key = Some node)
  ∧ workflow_triggers db ⊆ workflow_triggers db'
  ∧ workflow_node_receipts db ⊆ workflow_node_receipts db'
  ∧ workflow_cleanup_receipts db ⊆ workflow_cleanup_receipts db'
  ∧ workflow_reductions db ⊆ workflow_reductions db'
  ∧ workflow_transitions db ⊆ workflow_transitions db'
  ∧ (∀ project head, workflow_project_heads db !! project = Some head →
     ∃ head', workflow_project_heads db' !! project = Some head'
       ∧ sh_source_sequence head ≤ sh_source_sequence head')
  ∧ (∀ id attempt, workflow_attempts db !! id = Some attempt → attempt_done attempt →
     ∃ attempt', workflow_attempts db' !! id = Some attempt' ∧ attempt_done attempt').
Proof.
  intros Hrun. pose proof (scheduler_run_rel evolves _ _ Hrun) as Hev.
  pose proof (ev_heads _ _ Hev) as Hheads. split_and!; try by apply Hev.
  - intros id lease Hlease Hclosed. destruct (ev_leases _ _ Hev _ _ Hlease) as (lease' & -> & Hle).
    by rewrite (le_closed _ _ Hle Hclosed).
  - intros key node Hnode Hclosed. destruct (ev_nodes _ _ Hev _ _ Hnode) as (node' & -> & Hne).
    by rewrite (ne_closed _ _ Hne Hclosed).
  - intros id attempt Hattempt Hdone. destruct (ev_attempts _ _ Hev _ _ Hattempt) as (attempt' & ? & Hae).
    exists attempt'. split; [done|]. by apply (ae_done _ _ Hae).
Qed.

(** C27: An attempt that has started to change the system is never given up.  Once its
    mutation has started, no sequence of calls supersedes it or fails it: a newer push,
    an expired lease or a failed node leave it running, to be reconciled or to be
    completed. *)
Theorem mutating_attempt_is_never_abandoned db db' attempt_id attempt :
  rtc scheduler_step db db' →
  workflow_attempts db !! attempt_id = Some attempt →
  sa_mutation_state attempt ≠ Mutation_NotStarted → ¬ abandoned (sa_state attempt) →
  ∃ attempt', workflow_attempts db' !! attempt_id = Some attempt'
    ∧ sa_mutation_state attempt' ≠ Mutation_NotStarted ∧ ¬ abandoned (sa_state attempt').
Proof.
  intros Hrun Hattempt Hmutating Hkept. pose proof (scheduler_run_rel evolves _ _ Hrun) as Hev.
  destruct (ev_attempts _ _ Hev _ _ Hattempt) as (attempt' & Hattempt' & Hae).
  destruct (ae_mutating _ _ Hae Hmutating) as [Hm Hsame]. exists attempt'. split_and!; try done.
  intros Ha. rewrite (Hsame Ha) in Ha. done.
Qed.

(** The steps of a node.  Over any sequence of calls a node keeps its kind, activation,
    profile and pool, moves along the life cycle only, and its lease generation, the
    fencing token of its leases, does not go back. *)
Theorem node_follows_its_life_cycle db db' key node :
  rtc scheduler_step db db' → workflow_nodes db !! key = Some node →
  ∃ node', workflow_nodes db' !! key = Some node' ∧ rtc node_step (sn_state node) (sn_state node')
    ∧ sn_lease_generation node ≤ sn_lease_generation node'
    ∧ sn_node_kind node' = sn_node_kind node ∧ sn_activation node' = sn_activation node
    ∧ sn_profile_id node' = sn_profile_id node ∧ sn_worker_pool node' = sn_worker_pool node.
Proof.
  intros Hrun Hnode. pose proof (scheduler_run_rel evolves _ _ Hrun) as Hev.
  destruct (ev_nodes _ _ Hev _ _ Hnode) as (node' & Hnode' & []). by exists node'.
Qed.

(** C14: The lease journal and the nodes agree in every reachable state: a node is leased
    exactly when it has an active lease, it never has two, and the document of
    a row of the journal, where it decodes, has the row's own identifiers and times. *)
Theorem leased_node_has_one_active_lease `{!JcsRoundTrip WorkflowLeaseV1} db :
  rtc scheduler_step empty_workflow_db db →
  (∀ key, leased db key ↔ ∃ id, active_at db key id)
  ∧ (∀ key id id', active_at db key id → active_at db key id' → id = id')
  ∧ documents_agree db.
Proof. intros Hrun. destruct (scheduler_run_inv db Hrun) as [[Hunique Hagree] Hdocuments]. done. Qed.

(** ** Admission *)

(** The attempt has ended, or has begun to mutate; both are for good. *)
Definition yielded (id : Uuid) (db : WorkflowDb) : Prop :=
  ∃ row, workflow_attempts db !! id = Some row
    ∧ (attempt_done row ∨ sa_mutation_state row ≠ Mutation_NotStarted).

Lemma yielded_evolves id db db' : evolves db db' → yielded id db → yielded id db'.
Proof.
  intros Hev (row & Hrow & Hcase). destruct (ev_attempts _ _ Hev _ _ Hrow) as (row' & Hrow' & Hae).
  exists row'. split; [done|]. destruct Hcase as [Hdone|Hm].
  - left. by apply (ae_done _ _ Hae).
  - right. by destruct (ae_mutating _ _ Hae Hm).
Qed.

Lemma supersede_attempt_evolves request now entry : tx_rel evolves (supersede_attempt request now entry).
Proof. unfold supersede_attempt. destruct entry. evolves_steps. Qed.

Lemma supersede_attempt_yields request now id row s u s' :
  supersede_attempt request now (id, row) s = Ok (u, s') →
  is_Some (workflow_attempts s !! id) → yielded id s'.
Proof.
  unfold supersede_attempt. intros Hok [old Hold].
  apply tx_bind_Ok in Hok as (n & s1 & [_ ->]%gets_Ok & Hok).
  apply tx_bind_Ok in Hok as (u1 & s1 & Habandon & Hok).
  destruct (ev_attempts _ _ (abandon_work_evolves _ _ _ _ _ Habandon) _ _ Hold) as (row1 & Hrow1 & _).
  apply tx_bind_Ok in Hok as (n2 & s2 & Hupdate & Hok).
  eapply (yielded_evolves _ s2); [refine ((_ : tx_rel evolves _) _ _ _ Hok); evolves_steps|].
  unfold update_attempts in Hupdate. inv_sql.
  match goal with x : (Z * gmap _ _)%type |- _ => destruct x end. inv_sql.
  match goal with H : update_rows _ _ _ _ = _ |- _ => apply update_rows_Ok in H as (_ & Hrows & _) end.
  unfold yielded. simpl. rewrite Hrows, Hrow1. simpl. eexists. split; [reflexivity|].
  rewrite (bool_decide_eq_true_2 (id = id)) by done. simpl.
  destruct (bool_decide_reflect (sa_mutation_state row1 = Mutation_NotStarted)); [left|by right].
  split; [done|by eexists].
Qed.

(** Every selected attempt yields. *)
Lemma supersede_loop_yields (mutating : Uuid * WfAttemptRow → bool) request now rows s u s' :
  tx_for_each (λ entry, if mutating entry then tx_ok tt else supersede_attempt request now entry) rows s
    = Ok (u, s') →
  ∀ id row, (id, row) ∈ rows → mutating (id, row) = false → is_Some (workflow_attempts s !! id) →
  yielded id s'.
Proof.
  revert s. induction rows as [|entry rows IH]; intros s Hok id row Hin Hmut Hsome;
    [by apply not_elem_of_nil in Hin|].
  simpl in Hok. apply tx_bind_Ok in Hok as (u1 & s1 & Hone & Hok).
  assert (Hev : evolves s s1).
  { destruct (mutating entry); [apply tx_ok_Ok in Hone as [_ ->]; reflexivity|].
    by eapply supersede_attempt_evolves. }
  apply elem_of_cons in Hin as [<-|Hin].
  - rewrite Hmut in Hone. eapply (yielded_evolves _ s1); [|by eapply supersede_attempt_yields].
    refine ((_ : tx_rel evolves _) _ _ _ Hok). tx_steps. by apply supersede_attempt_evolves.
  - eapply IH; [exact Hok|exact Hin|done|]. destruct Hsome as [old Hold].
    destruct (ev_attempts _ _ Hev _ _ Hold) as (row1 & -> & _). eauto.
Qed.

(** What an admission that creates an attempt leaves. *)
Record taken_over (admission : WorkflowAdmissionV1) (request_id : Uuid) (now : Z) (db db' : WorkflowDb)
    : Prop := {
  to_yielded id attempt request :
    workflow_attempts db !! id = Some attempt →
    workflow_requests db !! sa_request_id attempt = Some request →
    sr_project_id request = wad_project_id admission →
    sr_operation_kind request = wad_execution_mode admission →
    attempt_terminal (sa_state attempt) = false → yielded id db';
  to_trigger : workflow_triggers db' !! (wad_trigger_channel admission, wad_delivery_id admission)
    = Some {| sg_payload_digest := wad_payload_digest admission; sg_request_id := request_id;
              sg_received_at_ms := now |};
  to_head : ∃ head, workflow_project_heads db' !! wad_project_id admission = Some head
    ∧ wad_source_sequence admission ≤ sh_source_sequence head
}.

Lemma record_trigger_records admission request_id now s u s' :
  record_trigger admission request_id now s = Ok (u, s') →
  workflow_triggers s' !! (wad_trigger_channel admission, wad_delivery_id admission)
    = Some {| sg_payload_digest := wad_payload_digest admission; sg_request_id := request_id;
              sg_received_at_ms := now |}.
Proof. unfold record_trigger, insert_trigger. intros Hok. inv_sql. simpl. apply lookup_insert_eq. Qed.

Lemma update_project_head_advances admission request_id now s u s' :
  update_project_head admission request_id now s = Ok (u, s') →
  evolves s s'
  ∧ ∃ head, workflow_project_heads s' !! wad_project_id admission = Some head
      ∧ wad_source_sequence admission ≤ sh_source_sequence head.
Proof.
  unfold update_project_head. intros Hok.
  apply tx_bind_Ok in Hok as (sequence & s1 & [Hsequence ->]%lift_Ok & Hok).
  split; [by eapply upsert_project_head_evolves|].
  unfold to_i64 in Hsequence. apply ok_or_Ok, checked_range_Some in Hsequence as [-> _].
  unfold upsert_project_head in Hok. inv_sql.
  destruct (workflow_project_heads s !! wad_project_id admission) as [head|] eqn:Hhead; simpl in *.
  - case_match; inv_sql.
    + exists head. split; [done|]. lia.
    + simpl. rewrite lookup_insert_eq. eexists. split; [done|]. simpl. lia.
  - inv_sql. simpl. rewrite lookup_insert_eq. eexists. split; [done|]. simpl. lia.
Qed.

Lemma create_workflow_attempt_evolves manifest admission request_id attempt_id waiting now :
  tx_rel evolves (create_workflow_attempt manifest admission request_id attempt_id waiting now).
Proof. unfold create_workflow_attempt, create_node. evolves_steps. Qed.

(** The attempts of the project in this mode that are open are selected. *)
Lemma superseded_rows_elem project mode request_id db id attempt request :
  workflow_attempts db !! id = Some attempt →
  workflow_requests db !! sa_request_id attempt = Some request →
  sr_project_id request = project → sr_operation_kind request = mode →
  attempt_terminal (sa_state attempt) = false → sa_request_id attempt ≠ request_id →
  (id, attempt) ∈ superseded_rows project mode request_id db.
Proof.
  intros Hattempt Hrequest Hproject Hmode Hopen Hother. unfold superseded_rows.
  apply sort_by_elem_of, select_rows_elem. split; [|done]. rewrite Hrequest. simpl.
  rewrite Hproject, Hmode, (bool_decide_eq_false_2 (sa_request_id attempt = request_id)) by done.
  rewrite !(bool_decide_eq_true_2 (_ = _)) by done. by destruct (sa_state attempt).
Qed.

Lemma admit_new_takes_over manifest json admission request_id attempt_id now db outcome db' :
  admit_new manifest json admission request_id attempt_id now db = Ok (outcome, db') →
  taken_over admission request_id now db db'.
Proof.
  unfold admit_new. intros Hok.
  apply tx_bind_Ok in Hok as (sequence & s1 & [_ ->]%lift_Ok & Hok).
  apply tx_bind_Ok in Hok as (u1 & s1 & Hrequest & Hok).
  apply tx_bind_Ok in Hok as (waiting & s2 & Hsupersede & Hok).
  apply tx_bind_Ok in Hok as (snapshot0 & s3 & Hcreate%create_workflow_attempt_evolves & Hok).
  apply tx_bind_Ok in Hok as (u2 & s4 & Htrigger & Hok).
  apply tx_bind_Ok in Hok as (u3 & s5 & (Hev5 & Hhead)%update_project_head_advances & [_ ->]%tx_ok_Ok).
  pose proof (insert_trigger_evolves _ _ _ _ _ Htrigger) as Hev4.
  apply record_trigger_records in Htrigger. split.
  - intros id attempt request Hattempt Hold Hproject Hmode Hopen.
    eapply (yielded_evolves _ s2); [by etrans; [|etrans]|].
    unfold insert_workflow_request in Hrequest. inv_sql. unfold supersede_pre_mutation_attempts in Hsupersede.
    apply tx_bind_Ok in Hsupersede as (rows & s6 & [-> ->]%gets_Ok & Hsupersede). cbv zeta in Hsupersede.
    apply tx_bind_Ok in Hsupersede as (u4 & s6 & Hloop & [_ ->]%tx_ok_Ok).
    destruct (decide (sa_mutation_state attempt = Mutation_NotStarted)) as [Hm|Hm].
    + eapply (supersede_loop_yields _ _ _ _ _ _ _ Hloop id attempt); [|by simpl; rewrite Hm|by eexists].
      eapply superseded_rows_elem; simpl; [done| |done..|congruence].
      rewrite lookup_insert_ne by congruence. done.
    + eapply yielded_evolves; [|exists attempt; split; [|by right]].
      * refine ((_ : tx_rel evolves _) _ _ _ Hloop). tx_steps. apply supersede_attempt_evolves.
      * done.
  - eapply lookup_weaken; [exact Htrigger|]. apply Hev5.
  - exact Hhead.
Qed.

(** A new request takes over its project.  When an admission creates an attempt, every
    attempt of the project's other requests in the same mode has ended or has already
    begun to mutate; the delivery is recorded, so that it is answered from the journal
    if it arrives again; and the project's head is at least the admitted source. *)
Theorem admission_supersedes_the_project manifest admission request_id attempt_id now db db' snapshot :
  Scheduler_admit manifest admission request_id attempt_id now db = (db', Ok (Admission_Created snapshot)) →
  (∀ id attempt request,
     workflow_attempts db !! id = Some attempt →
     workflow_requests db !! sa_request_id attempt = Some request →
     sr_project_id request = wad_project_id admission →
     sr_operation_kind request = wad_execution_mode admission →
     attempt_terminal (sa_state attempt) = false →
     ∃ attempt', workflow_attempts db' !! id = Some attempt'
       ∧ (attempt_terminal (sa_state attempt') = true ∨ sa_mutation_state attempt' ≠ Mutation_NotStarted))
  ∧ workflow_triggers db' !! (wad_trigger_channel admission, wad_delivery_id admission)
    = Some {| sg_payload_digest := wad_payload_digest admission; sg_request_id := request_id;
              sg_received_at_ms := now |}
  ∧ ∃ head, workflow_project_heads db' !! wad_project_id admission = Some head
      ∧ wad_source_sequence admission ≤ sh_source_sequence head.
Proof.
  unfold Scheduler_admit. intros Hok%immediate_transaction_Ok.
  apply tx_bind_Ok in Hok as (u1 & s1 & [_ ->]%lift_Ok & Hok).
  apply tx_bind_Ok in Hok as (bytes & s1 & [_ ->]%lift_Ok & Hok).
  apply tx_bind_Ok in Hok as (u5 & s1 & [_ ->]%lift_Ok & Hok). unfold admit_transaction in Hok.
  apply tx_bind_Ok in Hok as (replayed & s1 & [_ ->]%reads_Ok & Hok).
  destruct replayed; [by apply tx_ok_Ok in Hok as [? _]|].
  apply tx_bind_Ok in Hok as (u2 & s1 & [_ ->]%reads_Ok & Hok).
  apply tx_bind_Ok in Hok as (stable & s1 & [-> ->]%gets_Ok & Hok).
  destruct (find_stable_request admission db).
  { apply tx_bind_Ok in Hok as (a & s1 & _ & Hok). apply tx_bind_Ok in Hok as (u3 & s2 & _ & Hok).
    apply tx_bind_Ok in Hok as (u4 & s3 & _ & Hok). by apply tx_ok_Ok in Hok as [? _]. }
  apply admit_new_takes_over in Hok as [Hyielded Htrigger Hhead]. split_and!; [|done..].
  intros id attempt request H1 H2 H3 H4 H5.
  destruct (Hyielded _ _ _ H1 H2 H3 H4 H5) as (attempt' & Hattempt' & Hcase). exists attempt'.
  split; [done|]. destruct Hcase as [[Hterminal _]|]; auto.
Qed.

End SchedulerSpec.
