(* ===== verification/SchedulerSamples.v ===== *)
(** * The workflow scheduler: witnesses

    A shadow run of a project from its admission to its completion, with every call
    evaluated: the host is prepared, the verification and the release build are leased
    to two workers side by side, both report, and the reduction completes the run.  The
    codecs know the documents of the run and satisfy the round trip.  Each witness
    applies its theorem to a state of the run or to a change of it. *)

From Stdlib Require Import ZArith Lia Ascii String.
From stdpp Require Import base gmap strings option list_numbers list relations.
From S2P Require Import Prelude TxLogic Identifiers Text Ordered Workflow Manifest Errors DomainSpec WorkflowSpec WorkflowSamples ManifestSpec SchedulerDb Scheduler SchedulerLeases SchedulerReceipts SchedulerHistory SchedulerInvariant SchedulerCompletion SchedulerSweep SchedulerSpec.
Local Open Scope Z_scope.

Module SchedulerSample.
Import WorkflowSample.

(** ** Codecs *)

(** A codec that knows the documents of a table; [spare] encodes the others. *)
Definition table_jcs {T} `{EqDecision T} (spare : option (list Z)) (table : list T) : Jcs T := λ x,
  match position (λ y, y == x) table with
  | Some i => Ok [48 + Z.of_nat i]
  | None => ok_or MkSerdeError spare
  end.
Definition table_slice {T} (table : list T) : JsonSlice T := λ bytes,
  match bytes with
  | [b] => ok_or MkSerdeError (table !! Z.to_nat (b - 48))
  | _ => Err MkSerdeError
  end.

Lemma table_round_trip {T} `{EqDecision T} (table : list T) :
  @JcsRoundTrip T (table_jcs None table) (table_slice table).
Proof.
  intros x bytes. unfold jcs_to_vec, json_from_slice, table_jcs, table_slice.
  destruct (position _ table) as [i|] eqn:Hi; [|done]. intros [= <-].
  apply position_Some in Hi as [(y & Hy & Heq%bool_decide_eq_true) _].
  replace (Z.to_nat (48 + Z.of_nat i - 48)) with i by lia. rewrite Hy. by subst.
Qed.

(** The release is an OCI image, so that it is built beside the verification. *)
Definition graph : list (WorkflowNodeKindV1 * list WorkflowNodeKindV1) :=
  (λ entry : WorkflowNodeKindV1 * list WorkflowNodeKindV1,
     if entry.1 == Node_ReleaseBuild then (Node_ReleaseBuild, [Node_HostPrepare]) else entry)
  <$> deployment_graph.

Definition oci_profile (profile : WorkflowExecutionProfileV1) : WorkflowExecutionProfileV1 :=
  if wep_adapter_id profile == Adapter_WorkerNativeReleaseBuildV1
  then profile <| wep_adapter_id := Adapter_WorkerOciReleaseBuildV1 |> else profile.

Definition workflow : WorkflowPolicyV1 :=
  (policy_of Delivery_ExecutorMutation graph)
    <| wpol_execution_profiles := oci_profile <$> (profile_of <$> graph.*1) |>.

Definition manifest : ProjectManifestV2 :=
  ManifestSample.manifest
    <| pm_workflow := workflow |>
    <| pm_build := {| mbu_context := BuildContext_RepositoryRoot; mbu_kind := Build_Oci;
                      mbu_dockerfile := Some (MkRelativePolicyPath "Dockerfile");
                      mbu_verified_output := None |} |>.

Record documents : Type := MkDocuments {
  doc_leases : list WorkflowLeaseV1;
  doc_states : list WorkflowOperationStateV1;
  doc_receipts : list WorkflowNodeReceiptV1;
  doc_reductions : list WorkflowReductionReceiptV1
}.

Definition codecs (spare : option (list Z)) (docs : documents) : SchedulerCodecs := {|
  scodec_workflow := {|
    wcodec_sha := λ bytes, repeat 0 31 ++ [foldr Z.add 0 bytes mod 256];
    wcodec_preparation := λ _, Ok [1];
    wcodec_state_payload := λ _, Ok [2];
    wcodec_lease_payload := λ payload, Ok [Z.of_N (wlp_lease_id payload)];
    wcodec_lease := table_jcs spare (doc_leases docs);
    wcodec_lease_slice := table_slice (doc_leases docs);
    wcodec_node_payload := λ payload, Ok [Z.of_N (wnrp_lease_id payload); 64];
    wcodec_node := table_jcs spare (doc_receipts docs);
    wcodec_node_slice := table_slice (doc_receipts docs);
    wcodec_cleanup_payload := λ payload, Ok [4];
    wcodec_cleanup := table_jcs spare [];
    wcodec_cleanup_slice := table_slice [];
    wcodec_reduction_payload := λ _, Ok [5];
    wcodec_reduction := table_jcs spare (doc_reductions docs);
    wcodec_reduction_slice := table_slice (doc_reductions docs) |};
  scodec_manifest_payload := λ _, Ok [6];
  scodec_manifest := table_jcs None [manifest];
  scodec_manifest_slice := table_slice [manifest];
  scodec_preparation_key := λ _, Ok [7];
  scodec_expected_input := λ _, Ok [8];
  scodec_state := table_jcs spare (doc_states docs);
  scodec_state_slice := table_slice (doc_states docs);
  json_extract_cleanup_result := λ _, Some "complete"%string
|}.

Definition digest (n : Z) : EvidenceDigest := EvidenceDigest_sha256 (H := λ bytes, repeat 0 31 ++ [foldr Z.add 0 bytes mod 256]) [n].

Definition admission (mode : WorkflowExecutionModeV1) (sha : string) (sequence : Z) (delivery : string) : WorkflowAdmissionV1 := {|
  wad_project_id := MkProjectId "site"; wad_workflow_policy_digest := digest 6;
  wad_source_sha := MkGitCommitId sha; wad_execution_mode := mode; wad_source_sequence := sequence;
  wad_source_attestation_digest := digest 9;
  wad_trigger_channel := match mode with Mode_Shadow => Channel_ManualShadow | Mode_Deploy => Channel_GithubWebhook end;
  wad_delivery_id := delivery; wad_payload_digest := digest 10; wad_priority := 1 |}.

Definition worker (name : string) (pool : WorkflowWorkerPoolV1) : WorkflowWorkerRegistrationV1 := {|
  wk_worker_id := name; wk_host_id := name; wk_pools := {[pool]} |}.

(** The states of a run, under the codecs it is given. *)
Section Run.
Context (run_codecs : SchedulerCodecs).

Definition admitted : WorkflowDb :=
  (Scheduler_admit manifest (admission Mode_Shadow "aaaaaaaaaaaaaaaaaaaaaaaaaaaaaaaaaaaaaaaa" 1 "d1")
     2%N 3%N 1000 empty_workflow_db).1.

Definition claim (id : Uuid) (pool : WorkflowWorkerPoolV1) (name : string) (now duration : Z) :=
  Scheduler_claim_next id (worker name pool) now duration.

Definition lease_of (id : Uuid) (pool : WorkflowWorkerPoolV1) (name : string) (now duration : Z) (db : WorkflowDb) : WorkflowLeaseV1 :=
  match (claim id pool name now duration db).2 with
  | Ok (Some lease) => lease
  | _ => WorkflowSample.lease
  end.
Definition receipt_of (lease : WorkflowLeaseV1) (output : Z) (now : Z) : WorkflowNodeReceiptV1 :=
  match NodeReceipt_new lease NodeOutcome_Succeeded (Some (digest output)) (digest 20) (digest 21)
          NodeCleanup_Complete now with
  | Ok receipt => receipt
  | Err _ => WorkflowSample.failed_receipt
  end.

(** The host is prepared, the verification and the build are leased side by side. *)
Definition prepare_lease : WorkflowLeaseV1 := lease_of 4%N Pool_VpsRequired "vps" 2000 30000 admitted.
Definition preparing : WorkflowDb := (claim 4%N Pool_VpsRequired "vps" 2000 30000 admitted).1.
Definition prepare_receipt : WorkflowNodeReceiptV1 := receipt_of prepare_lease 30 3000.
Definition prepared : WorkflowDb := (Scheduler_commit_node_receipt prepare_receipt 3000 preparing).1.
Definition verify_lease : WorkflowLeaseV1 := lease_of 5%N Pool_BuildCompute "ci" 4000 60000 prepared.
Definition verifying : WorkflowDb := (claim 5%N Pool_BuildCompute "ci" 4000 60000 prepared).1.
Definition build_lease : WorkflowLeaseV1 := lease_of 6%N Pool_VpsRequired "vps" 5000 60000 verifying.
Definition working : WorkflowDb := (claim 6%N Pool_VpsRequired "vps" 5000 60000 verifying).1.

(** Both report, and the reduction completes the run. *)
Definition verify_receipt : WorkflowNodeReceiptV1 := receipt_of verify_lease 31 6000.
Definition verified : WorkflowDb := (Scheduler_commit_node_receipt verify_receipt 6000 working).1.
Definition build_receipt : WorkflowNodeReceiptV1 := receipt_of build_lease 32 7000.
Definition built : WorkflowDb := (Scheduler_commit_node_receipt build_receipt 7000 verified).1.
Definition reduction : WorkflowReductionReceiptV1 :=
  match (Scheduler_reduce_attempt 3%N 8000 built).2 with
  | Ok reduction => reduction
  | Err _ => WorkflowSample.reduction_receipt
  end.
Definition reduced : WorkflowDb := (Scheduler_reduce_attempt 3%N 8000 built).1.

Lemma working_reachable : rtc scheduler_step empty_workflow_db working.
Proof.
  transitivity admitted; [apply rtc_once, step_admit|].
  transitivity preparing; [apply rtc_once, step_claim|].
  transitivity prepared; [apply rtc_once, step_receipt|].
  transitivity verifying; [apply rtc_once, step_claim|]. apply rtc_once, step_claim.
Qed.

(** A newer source of the project is admitted over the running attempt. *)
Definition newer : WorkflowAdmissionV1 :=
  admission Mode_Shadow "bbbbbbbbbbbbbbbbbbbbbbbbbbbbbbbbbbbbbbbb" 2 "d2".
Definition superseding (db : WorkflowDb) : WorkflowDb :=
  (Scheduler_admit manifest newer 12%N 13%N 9000 db).1.

Lemma superseded_by result :
  (Scheduler_admit manifest newer 12%N 13%N 9000 working).2 = result →
  Scheduler_admit manifest newer 12%N 13%N 9000 working = (superseding working, result).
Proof. intros <-. apply surjective_pairing. Qed.

Lemma superseding_step db : rtc scheduler_step db (superseding db).
Proof. apply rtc_once, step_admit. Qed.

Lemma reduced_reachable : rtc scheduler_step working reduced.
Proof.
  transitivity verified; [apply rtc_once, step_receipt|].
  transitivity built; [apply rtc_once, step_receipt|]. apply rtc_once, step_reduce.
Qed.

Lemma completed_run : rtc scheduler_step empty_workflow_db reduced.
Proof. etrans; [apply working_reachable|apply reduced_reachable]. Qed.

Lemma verify_claimed result :
  (claim 5%N Pool_BuildCompute "ci" 4000 60000 prepared).2 = result →
  Scheduler_claim_next 5%N (worker "ci" Pool_BuildCompute) 4000 60000 prepared = (verifying, result).
Proof. intros <-. apply surjective_pairing. Qed.
End Run.

(** ** The documents of the run

    The documents are found by running with codecs that encode an unknown document as
    a placeholder. *)

Definition guess (docs : documents) := codecs (Some [126]) docs.
Definition state_of (lease : WorkflowLeaseV1) : list WorkflowOperationStateV1 :=
  match wl_operation_state lease with Some state => [state] | None => [] end.
Definition docs0 : documents := MkDocuments [] [] [] [].
Definition docs1 : documents := MkDocuments [prepare_lease (guess docs0)] [] [] [].
Definition docs2 : documents := MkDocuments (doc_leases docs1) [] [prepare_receipt (guess docs1)] [].
Definition docs3 : documents :=
  let lease := verify_lease (guess docs2) in
  MkDocuments (doc_leases docs2 ++ [lease]) (state_of lease) (doc_receipts docs2) [].
Definition docs4 : documents :=
  MkDocuments (doc_leases docs3 ++ [build_lease (guess docs3)]) (doc_states docs3) (doc_receipts docs3) [].
Definition docs5 : documents :=
  MkDocuments (doc_leases docs4) (doc_states docs4)
    (doc_receipts docs4 ++ [verify_receipt (guess docs4)]) [].
Definition docs6 : documents :=
  MkDocuments (doc_leases docs5) (doc_states docs5)
    (doc_receipts docs5 ++ [build_receipt (guess docs5)]) [].
Definition docs : documents := Eval vm_compute in
  MkDocuments (doc_leases docs6) (doc_states docs6) (doc_receipts docs6) [reduction (guess docs6)].

#[local] Instance run_codecs : SchedulerCodecs := codecs None docs.

#[local] Instance lease_codec : JcsRoundTrip WorkflowLeaseV1 := table_round_trip (doc_leases docs).

(** Every call of the run succeeds. *)
Example the_run_succeeds :
  (Scheduler_claim_next 4%N (worker "vps" Pool_VpsRequired) 2000 30000 (admitted run_codecs)).2
    = Ok (Some (prepare_lease run_codecs))
  ∧ (Scheduler_claim_next 6%N (worker "vps" Pool_VpsRequired) 5000 60000 (verifying run_codecs)).2
    = Ok (Some (build_lease run_codecs))
  ∧ (Scheduler_reduce_attempt 3%N 8000 (built run_codecs)).2 = Ok (reduction run_codecs).
Proof. vm_compute. split_and!; reflexivity. Qed.

(** ** Leases *)

(** The verification is claimed with the prepared host among its inputs. *)
Lemma claimed_lease_is_justified_witness :
  wl_worker_id (verify_lease run_codecs) = "ci"%string
  ∧ active_at (verifying run_codecs)
      (wl_attempt_id (verify_lease run_codecs), wl_node_id (verify_lease run_codecs)) 5%N.
Proof.
  assert (Scheduler_claim_next 5%N (worker "ci" Pool_BuildCompute) 4000 60000 (prepared run_codecs)
    = (verifying run_codecs, Ok (Some (verify_lease run_codecs)))) as Hclaim.
  { apply verify_claimed. vm_compute. reflexivity. }
  destruct (claimed_lease_is_justified _ _ _ _ _ _ _ Hclaim) as (_ & Hworker & _ & _ & Hactive & _).
  split; [exact Hworker|exact Hactive].
Defined.

(** In the middle of the run two nodes are leased, each once. *)
Lemma leased_node_has_one_active_lease_witness :
  leased (working run_codecs) (3%N, MkWorkflowNodeId "verify")
  ↔ ∃ id, active_at (working run_codecs) (3%N, MkWorkflowNodeId "verify") id.
Proof. apply (leased_node_has_one_active_lease _ (working_reachable run_codecs)). Defined.

(** The row of a lease, and the node it is for. *)
Definition lease_row (id : Uuid) : Uuid * WfLeaseRow :=
  (id, default {| sl_attempt_id := 0%N; sl_node_id := MkWorkflowNodeId ""; sl_generation := 0;
                  sl_worker_id := ""; sl_host_id := ""; sl_expected_input_digest := zero_digest;
                  sl_lease_json := []; sl_lease_digest := zero_digest; sl_state := Lease_Revoked;
                  sl_leased_at_ms := 0; sl_expires_at_ms := 0; sl_closed_at_ms := None;
                  sl_receipt_digest := None |}
         (workflow_lease_journal (working run_codecs) !! id)).

(** When both leases of the run have expired, no worker of any project gets work. *)
Lemma deadline_pair_blocks_the_scheduler_witness :
  rtc scheduler_step empty_workflow_db (working run_codecs)
  ∧ ∃ e, Scheduler_claim_next 7%N (worker "vps" Pool_VpsRequired) 65000 30000 (working run_codecs)
           = (working run_codecs, Err e).
Proof.
  split; [apply working_reachable|].
  assert (deadline_pair (working run_codecs) (lease_row 5%N) (lease_row 6%N)) as Hpair.
  { split.
    1-6: vm_compute; reflexivity.
    - exists (verify_lease run_codecs). split; vm_compute; reflexivity.
    - eexists. split; [vm_compute; reflexivity|]. split; [vm_compute; reflexivity|done].
    - eexists. vm_compute. reflexivity. }
  assert (sl_expires_at_ms (lease_row 6%N).2 ≤ 65000) as Hnow by (vm_compute; discriminate).
  apply (deadline_pair_blocks_the_scheduler _ _ _ _ Hpair Hnow).
Defined.

(** ** History *)

(** The host preparation, done before, keeps its row to the end. *)
Lemma workflow_history_is_final_witness :
  ∃ node, workflow_nodes (reduced run_codecs) !! (3%N, MkWorkflowNodeId "prepare") = Some node
    ∧ sn_state node = NodeState_Succeeded.
Proof.
  destruct (workflow_history_is_final _ _ (reduced_reachable run_codecs)) as (_ & Hnodes & _).
  eexists. split; [apply Hnodes; [vm_compute; reflexivity|reflexivity]|reflexivity].
Defined.

Lemma node_follows_its_life_cycle_witness :
  ∃ node', workflow_nodes (reduced run_codecs) !! (3%N, MkWorkflowNodeId "build") = Some node'
    ∧ rtc node_step NodeState_Leased (sn_state node').
Proof.
  assert (∃ node, workflow_nodes (working run_codecs) !! (3%N, MkWorkflowNodeId "build") = Some node
    ∧ sn_state node = NodeState_Leased) as (node & Hnode & Hstate)
    by (eexists; split; [vm_compute; reflexivity|reflexivity]).
  destruct (node_follows_its_life_cycle _ _ _ _ (reduced_reachable run_codecs) Hnode)
    as (node' & Hnode' & Hrun & _).
  exists node'. rewrite Hstate in Hrun. exact (conj Hnode' Hrun).
Defined.

Lemma succeeded_attempt_ran_its_nodes_witness :
  ∃ node, workflow_nodes (reduced run_codecs) !! (3%N, MkWorkflowNodeId "verify") = Some node
    ∧ sn_state node = NodeState_Succeeded.
Proof.
  assert (∃ attempt, workflow_attempts (reduced run_codecs) !! 3%N = Some attempt
    ∧ sa_state attempt = Attempt_Succeeded ∧ sa_mutation_state attempt = Mutation_NotStarted)
    as (attempt & Hattempt & Hstate & Hmutation)
    by (eexists; split; [vm_compute; reflexivity|split; reflexivity]).
  assert (∃ node, workflow_nodes (reduced run_codecs) !! (3%N, MkWorkflowNodeId "verify") = Some node
    ∧ sn_node_kind node = Node_Verification) as (node & Hnode & Hkind)
    by (eexists; split; [vm_compute; reflexivity|reflexivity]).
  exists node. split; [exact Hnode|].
  destruct (succeeded_attempt_ran_its_nodes _ _ _ _ _
    (completed_run run_codecs)
    Hattempt Hstate Hnode) as [_ Hshadow].
  rewrite (Hshadow Hmutation), Hkind. reflexivity.
Defined.

(** ** Admission *)

(** The newer source takes over: the running attempt ends. *)
Lemma admission_supersedes_the_project_witness :
  ∃ attempt', workflow_attempts (superseding run_codecs (working run_codecs)) !! 3%N = Some attempt'
    ∧ (attempt_terminal (sa_state attempt') = true ∨ sa_mutation_state attempt' ≠ Mutation_NotStarted).
Proof.
  assert (∃ snapshot, Scheduler_admit manifest newer 12%N 13%N 9000 (working run_codecs)
    = (superseding run_codecs (working run_codecs), Ok (Admission_Created snapshot))) as (snapshot & Hadmit)
    by (eexists; apply superseded_by; vm_compute; reflexivity).
  assert (∃ attempt, workflow_attempts (working run_codecs) !! 3%N = Some attempt
    ∧ sa_request_id attempt = 2%N ∧ attempt_terminal (sa_state attempt) = false)
    as (attempt & Hattempt & Hid & Hopen)
    by (eexists; split; [vm_compute; reflexivity|split; reflexivity]).
  assert (∃ request, workflow_requests (working run_codecs) !! 2%N = Some request
    ∧ sr_project_id request = wad_project_id newer ∧ sr_operation_kind request = wad_execution_mode newer)
    as (request & Hrequest & Hproject & Hmode)
    by (eexists; split; [vm_compute; reflexivity|split; reflexivity]).
  destruct (admission_supersedes_the_project _ _ _ _ _ _ _ _ Hadmit) as (Hyields & _).
  apply (Hyields 3%N attempt request Hattempt ltac:(rewrite Hid; exact Hrequest) Hproject Hmode Hopen).
Defined.

(** An attempt that owns the mutation is not superseded. *)
Definition mutating : WorkflowDb :=
  (working run_codecs) <| workflow_attempts :=
    (λ row, row <| sa_mutation_state := Mutation_Owned |>) <$> workflow_attempts (working run_codecs) |>.

Lemma mutating_attempt_is_never_abandoned_witness :
  ∃ attempt', workflow_attempts (superseding run_codecs mutating) !! 3%N = Some attempt'
    ∧ sa_mutation_state attempt' ≠ Mutation_NotStarted ∧ ¬ abandoned (sa_state attempt').
Proof.
  assert (∃ attempt, workflow_attempts mutating !! 3%N = Some attempt
    ∧ sa_mutation_state attempt = Mutation_Owned ∧ sa_state attempt = Attempt_Running)
    as (attempt & Hattempt & Hmutation & Hstate)
    by (eexists; split; [vm_compute; reflexivity|split; reflexivity]).
  apply (mutating_attempt_is_never_abandoned _ _ _ _ (superseding_step run_codecs mutating) Hattempt).
  - rewrite Hmutation. discriminate.
  - rewrite Hstate. intros [?|?]; discriminate.
Defined.

(** ** Readiness and turns *)

(** Two nodes become ready once the host is prepared. *)
Definition prepared_nodes : WorkflowDb :=
  (working run_codecs) <| workflow_nodes :=
    (λ row, if sn_state row == NodeState_Leased then row <| sn_state := NodeState_Blocked |> else row)
    <$> workflow_nodes (working run_codecs) |>.

Lemma nodes_checked_by db :
  forallb (λ entry, node_check entry.2) (map_to_list (workflow_nodes db)) = true → nodes_checked db.
Proof.
  intros Hall key row Hrow. apply elem_of_map_to_list, list_elem_of_In in Hrow.
  exact (proj1 (forallb_forall _ _) Hall _ Hrow).
Qed.

Lemma advance_ready_nodes_settles_witness :
  advance_ready_nodes 3%N prepared_nodes = Ok (tt, made_ready 3%N prepared_nodes)
  ∧ advanceable_nodes 3%N prepared_nodes = [MkWorkflowNodeId "build"; MkWorkflowNodeId "verify"].
Proof.
  assert (nodes_checked prepared_nodes) as Hchecked by (apply nodes_checked_by; vm_compute; reflexivity).
  split; [exact (proj1 (advance_ready_nodes_settles 3%N _ Hchecked))|vm_compute; reflexivity].
Defined.

(** Three projects with work; the second was served last and its share is used up. *)
Definition candidate_of (project : string) : ReadyCandidateOwned := {|
  ro_request_id := 2%N; ro_attempt_id := 3%N; ro_project_id := MkProjectId project;
  ro_source_sha := MkGitCommitId "c0"; ro_source_sequence := 1;
  ro_source_attestation_digest := digest 9; ro_workflow_policy_digest := digest 6;
  ro_preparation_key := digest 7; ro_lease_generation := 0; ro_execution_mode := Mode_Shadow;
  ro_manifest := manifest; ro_node_id := MkWorkflowNodeId "prepare" |}.

Lemma candidates_are_served_in_turn_witness :
  ∃ ordered, fair_candidate_order (candidate_of <$> ["b"; "c"; "a"]%string) (Some "b"%string) 0 = Ok ordered
    ∧ candidate_project <$> ordered = ["c"; "a"; "b"]%string
    ∧ ∀ first rest, ordered = first :: rest → serves_turn (Some "b"%string) 0 first ordered.
Proof.
  assert (∃ ordered, fair_candidate_order (candidate_of <$> ["b"; "c"; "a"]%string) (Some "b"%string) 0
    = Ok ordered ∧ candidate_project <$> ordered = ["c"; "a"; "b"]%string) as (ordered & Hok & Hnames)
    by (eexists; split; [vm_compute; reflexivity|vm_compute; reflexivity]).
  exists ordered. split; [exact Hok|]. split; [exact Hnames|].
  destruct (candidates_are_served_in_turn _ _ _ _ Hok) as (all & _ & _ & _ & Hfirst). exact Hfirst.
Defined.
End SchedulerSample.
