(* ===== verification/SourceDb.v ===== *)
(** * The source broker: data and tables

    The data of [src/src/source.rs] and the tables of its database with their
    constraints: accepted heads with their signed attestations, the deliveries that
    announced them, the journal of the reference update in progress, divergence events,
    mutation tickets, the outbox towards the scheduler and the queue of webhooks.  A
    column that holds an enumeration, an identifier or a digest has that type; JSON text
    is its bytes. *)

From Stdlib Require Import ZArith Lia Ascii String.
From stdpp Require Import base gmap strings option list_numbers list.
From S2P Require Import Prelude Identifiers States Operation Errors.

Local Open Scope Z_scope.

(** ** Errors *)

Inductive SourceAttestationError : Type :=
| Attestation_UnsupportedSchemaVersion (version : Z)
| Attestation_ZeroSequence
| Attestation_ZeroPolicyVersion
| Attestation_InvalidValidityWindow
| Attestation_Expired
| Attestation_EmptyKeyring
| Attestation_InvalidKeyId
| Attestation_UnknownKey (key_id : string)
| Attestation_CanonicalEncoding (e : SerdeError)
| Attestation_InvalidSignatureEncoding
| Attestation_InvalidSignature
| Attestation_SignatureVerification
| Attestation_DigestMismatch.

Inductive SourceError : Type :=
| Source_Io
| Source_Sqlite (e : SqliteError)
| Source_Json (e : SerdeError)
| Source_Attestation (e : SourceAttestationError)
| Source_Controller (e : StoreError)
| Source_LockPoisoned
| Source_BrokerAlreadyRunning
| Source_BrokerLeaseSuperseded
| Source_UntrustedBrokerLock
| Source_UnsupportedSchemaVersion (version : Z)
| Source_CorruptLedger (what : string)
| Source_SequenceRange
| Source_SequenceExhausted
| Source_TimeRange
| Source_InvalidDeliveryId
| Source_DeliveryConflict
| Source_DeliveryInProgress
| Source_DeliveryReservationLost
| Source_DeliveryNotRecorded
| Source_DeliveryNotDeployable
| Source_InvalidOutboxLimit
| Source_InvalidOutboxAcknowledgement
| Source_OutboxEntryMissing
| Source_OutboxAcknowledgementConflict
| Source_ShadowRequiresAutoDeployDisabled
| Source_WebhookSecretTooShort
| Source_InvalidWebhookSignature
| Source_WebhookBodyTooLarge
| Source_InvalidWebhookPayload
| Source_GithubRepositoryMismatch
| Source_WebhookQueueFull
| Source_InvalidWebhookBatchLimit
| Source_WebhookWakeupMissing
| Source_WebhookWakeupConflict
| Source_RemoteHeadBehindWebhook
| Source_ReconciliationDeferred
| Source_Repository (what : string)
| Source_RepositoryIdentityMismatch
| Source_ConcurrentSourceUpdate
| Source_MutationAdmissionBusy
| Source_MutationTicketMismatch
| Source_InvalidMutationTicketPhase
| Source_PendingRefUpdateConflict
| Source_DirectPushRefRejected
| Source_HeadNotCurrent
| Source_BlockedSha
| Source_ReconciliationPaused
| Source_InvalidControl (what : string)
| Source_OwnerResolutionMismatch
| Source_InvalidCanonicalRepositoryPath
| Source_ForcedCommandRejected
| Source_InvalidInstalledPolicy
| Source_DuplicateInstalledProject
| Source_UnknownProject (project : string)
| Source_AutoDeployDisabled
| Source_InstalledPolicyChanged.

Inductive SourceGateError : Type :=
| Gate_Unavailable
| Gate_HeadSuperseded
| Gate_AttestationInvalid
| Gate_Diverged
| Gate_BlockedSha
| Gate_Paused.

(** ** Data *)

Definition ACCEPTED_HEAD_SCHEMA_VERSION : Z := 1.
Definition SOURCE_OUTBOX_SCHEMA_VERSION : Z := 1.
Definition SOURCE_WEBHOOK_WAKEUP_SCHEMA_VERSION : Z := 1.
Definition MAX_DELIVERY_ID_BYTES : Z := 128.
Definition MAX_WEBHOOK_BODY_BYTES : Z := 1048576.
Definition MAX_OUTBOX_BATCH : Z := 64.
Definition SETTLED_OUTBOX_RETENTION : nat := 2048.
Definition MAX_PENDING_WEBHOOKS : Z := 2048.
Definition MAX_PENDING_WEBHOOKS_PER_PROJECT : Z := 128.
Definition SOURCE_GITHUB_WEBHOOK_BATCH_MAX : Z := 128.
Definition SETTLED_WEBHOOK_RETENTION : nat := 2048.

Inductive SourceChannel : Type :=
| Source_GithubWebhook
| Source_SourceReconciliation
| Source_DirectPush.

#[global] Instance SourceChannel_eq_dec : EqDecision SourceChannel.
Proof. solve_decision. Defined.

Definition SourceChannel_as_str (channel : SourceChannel) : string :=
  match channel with
  | Source_GithubWebhook => "github_webhook"
  | Source_SourceReconciliation => "source_reconciliation"
  | Source_DirectPush => "direct_push"
  end.

Definition SourceChannel_parse (value : string) : Result SourceError SourceChannel :=
  if value == "github_webhook"%string then Ok Source_GithubWebhook
  else if value == "source_reconciliation"%string then Ok Source_SourceReconciliation
  else if value == "direct_push"%string then Ok Source_DirectPush
  else Err (Source_CorruptLedger "source channel").

#[global] Instance SourceChannel_countable : Countable SourceChannel.
Proof.
  refine (inj_countable SourceChannel_as_str (λ value,
    match SourceChannel_parse value with Ok channel => Some channel | Err _ => None end) _).
  by intros [].
Defined.

Record AcceptedHeadV1 : Type := MkAcceptedHeadV1 {
  ah_schema_version : Z;
  ah_project_id : ProjectId;
  ah_head : GitCommitId;
  ah_sequence : Z;
  ah_previous_head : option GitCommitId;
  ah_accepted_via : SourceChannel;
  ah_repository_identity : EvidenceDigest;
  ah_installed_policy : InstalledPolicyIdentity;
  ah_accepted_at_ms : Z;
  ah_expires_at_ms : Z
}.

#[global] Instance AcceptedHeadV1_eq_dec : EqDecision AcceptedHeadV1.
Proof. solve_decision. Defined.

Record SignedAcceptedHeadV1 : Type := MkSignedAcceptedHeadV1 {
  sah_key_id : string;
  sah_payload : AcceptedHeadV1;
  sah_signature : string
}.

#[global] Instance SignedAcceptedHeadV1_eq_dec : EqDecision SignedAcceptedHeadV1.
Proof. solve_decision. Defined.

Inductive SourceProjectState : Type :=
| Source_Ready
| Source_DivergedNeedsOwner.

#[global] Instance SourceProjectState_eq_dec : EqDecision SourceProjectState.
Proof. solve_decision. Defined.

Definition SourceProjectState_as_str (state : SourceProjectState) : string :=
  match state with
  | Source_Ready => "ready"
  | Source_DivergedNeedsOwner => "source_diverged_needs_owner"
  end.

Record SourceSnapshot : Type := MkSourceSnapshot {
  ss_project_id : ProjectId;
  ss_head : option GitCommitId;
  ss_sequence : Z;
  ss_state : SourceProjectState;
  ss_blocked_sha : option GitCommitId;
  ss_reconcile_paused_until_ms : option Z;
  ss_attestation : option SignedAcceptedHeadV1;
  ss_attestation_digest : option EvidenceDigest;
  ss_divergent_candidate : option GitCommitId;
  ss_divergence_channel : option SourceChannel;
  ss_divergence_evidence_digest : option EvidenceDigest
}.

Definition SourceSnapshot_empty (project_id : ProjectId) : SourceSnapshot := {|
  ss_project_id := project_id; ss_head := None; ss_sequence := 0; ss_state := Source_Ready;
  ss_blocked_sha := None; ss_reconcile_paused_until_ms := None; ss_attestation := None;
  ss_attestation_digest := None; ss_divergent_candidate := None; ss_divergence_channel := None;
  ss_divergence_evidence_digest := None |}.

Record SourceTreeObservationV1 : Type := MkSourceTreeObservationV1 {
  sto_project_id : ProjectId;
  sto_head : GitCommitId;
  sto_file_count : Z;
  sto_total_bytes : Z
}.

Record PendingRefUpdate : Type := MkPendingRefUpdate {
  pru_project_id : ProjectId;
  pru_expected_head : option GitCommitId;
  pru_new_head : GitCommitId;
  pru_signed : SignedAcceptedHeadV1;
  pru_attestation_digest : EvidenceDigest;
  pru_ref_updated : bool
}.

Inductive SourceOutboxStatus : Type :=
| Outbox_Pending
| Outbox_Delivered
| Outbox_Superseded.

#[global] Instance SourceOutboxStatus_eq_dec : EqDecision SourceOutboxStatus.
Proof. solve_decision. Defined.

Inductive CommitRelationship : Type :=
| Relationship_Same
| Relationship_FastForward
| Relationship_Rewind
| Relationship_Diverged.

#[global] Instance CommitRelationship_eq_dec : EqDecision CommitRelationship.
Proof. solve_decision. Defined.

Record VerifiedSourceDelivery : Type := MkVerifiedSourceDelivery {
  vsd_channel : SourceChannel;
  vsd_delivery_id : string;
  vsd_payload_digest : EvidenceDigest;
  vsd_attestation : SignedAcceptedHeadV1;
  vsd_attestation_digest : EvidenceDigest
}.

#[global] Instance VerifiedSourceDelivery_eq_dec : EqDecision VerifiedSourceDelivery.
Proof. solve_decision. Defined.

Inductive SourceIngressOutcome : Type :=
| Ingress_Deployable (delivery : VerifiedSourceDelivery)
| Ingress_StaleNoop (announced_head : GitCommitId)
| Ingress_IgnoredRef
| Ingress_SourceDivergedNeedsOwner
| Ingress_ReconciliationPaused
| Ingress_BlockedSha (head : GitCommitId).

#[global] Instance SourceIngressOutcome_eq_dec : EqDecision SourceIngressOutcome.
Proof. solve_decision. Defined.

Inductive GithubWebhookAdmissionV1 : Type :=
| Webhook_Queued (wakeup_sequence : Z)
| Webhook_Duplicate (wakeup_sequence : Z) (completed : bool)
| Webhook_IgnoredRef.

Record GithubWebhookWakeupV1 : Type := MkGithubWebhookWakeupV1 {
  gw_schema_version : Z;
  gw_wakeup_sequence : Z;
  gw_project_id : ProjectId;
  gw_delivery_id : string;
  gw_payload_digest : EvidenceDigest;
  gw_announced_head : GitCommitId;
  gw_repository_full_name : string;
  gw_received_at_ms : Z
}.

Record GithubWebhookDrainOutcomeV1 : Type := MkGithubWebhookDrainOutcomeV1 {
  gd_completed : Z;
  gd_deferred_until_remote_catches_up : bool
}.

Record SourceOutboxEntryV1 : Type := MkSourceOutboxEntryV1 {
  soe_schema_version : Z;
  soe_outbox_sequence : Z;
  soe_project_id : ProjectId;
  soe_source_sequence : Z;
  soe_attestation : SignedAcceptedHeadV1;
  soe_attestation_digest : EvidenceDigest;
  soe_enqueued_at_ms : Z
}.

Record SourceShadowEntryV1 : Type := MkSourceShadowEntryV1 {
  sse_schema_version : Z;
  sse_project_id : ProjectId;
  sse_source_sequence : Z;
  sse_attestation : SignedAcceptedHeadV1;
  sse_attestation_digest : EvidenceDigest;
  sse_observed_at_ms : Z
}.

Record DeliveryClaim : Type := MkDeliveryClaim {
  dc_project_id : ProjectId;
  dc_channel : SourceChannel;
  dc_delivery_id : string;
  dc_payload_digest : EvidenceDigest;
  dc_processing_token : Uuid
}.

Inductive DeliveryReservation : Type :=
| Reservation_Claimed (claim : DeliveryClaim)
| Reservation_Completed (outcome : SourceIngressOutcome).

Record InstalledSourceProjectPolicy : Type := MkInstalledSourceProjectPolicy {
  isp_project_id : ProjectId;
  isp_repository_identity : EvidenceDigest;
  isp_github_repository : string;
  isp_installed_policy : InstalledPolicyIdentity;
  isp_auto_deploy : bool;
  isp_maximum_attempts : Z;
  isp_release_class : ReleaseClass
}.

Record CandidateIngress : Type := MkCandidateIngress {
  ci_project_id : ProjectId;
  ci_candidate : GitCommitId;
  ci_announced_previous_head : option GitCommitId;
  ci_channel : SourceChannel;
  ci_delivery_id : string;
  ci_payload_digest : EvidenceDigest;
  ci_installed_policy : InstalledSourceProjectPolicy;
  ci_now_ms : Z;
  ci_refresh_expired_same_head : bool
}.

Record SourceGateProof : Type := MkSourceGateProof {
  sgp_digest : EvidenceDigest;
  sgp_project_id : ProjectId;
  sgp_sequence : Z;
  sgp_attestation_digest : EvidenceDigest;
  sgp_checked_at_ms : Z
}.

Record SourceGateProofPayload : Type := MkSourceGateProofPayload {
  sgpp_purpose : string;
  sgpp_attempt_id : Uuid;
  sgpp_project_id : ProjectId;
  sgpp_phase : OperationPhase;
  sgpp_target : GitCommitId;
  sgpp_sequence : Z;
  sgpp_attestation_digest : EvidenceDigest;
  sgpp_installed_policy : InstalledPolicyIdentity
}.

Record LiveSourceBinding : Type := MkLiveSourceBinding {
  lsb_target : GitCommitId;
  lsb_sequence : Z;
  lsb_attestation_digest : EvidenceDigest;
  lsb_installed_policy : InstalledPolicyIdentity
}.

Record GithubPushPayload : Type := MkGithubPushPayload {
  gpp_git_ref : string;
  gpp_after : string;
  gpp_repository_full_name : string
}.

(** ** Tables *)

Record SourceProjectRow : Type := MkSourceProjectRow {
  sp_canonical_head : option GitCommitId;
  sp_sequence : Z;
  sp_state : SourceProjectState;
  sp_blocked_sha : option GitCommitId;
  sp_reconcile_paused_until_ms : option Z;
  sp_attestation_json : option (list Z);
  sp_attestation_digest : option EvidenceDigest;
  sp_divergent_candidate : option GitCommitId;
  sp_divergence_channel : option SourceChannel;
  sp_divergence_evidence_digest : option EvidenceDigest;
  sp_updated_at_ms : Z
}.

#[global] Instance SourceProjectRow_eta : Eta SourceProjectRow := λ r,
  MkSourceProjectRow (sp_canonical_head r) (sp_sequence r) (sp_state r) (sp_blocked_sha r)
    (sp_reconcile_paused_until_ms r) (sp_attestation_json r) (sp_attestation_digest r)
    (sp_divergent_candidate r) (sp_divergence_channel r) (sp_divergence_evidence_digest r)
    (sp_updated_at_ms r).

Definition source_project_check (row : SourceProjectRow) : bool :=
  (0 <=? sp_sequence row)
  && ((is_none (sp_canonical_head row) && (sp_sequence row =? 0)
       && is_none (sp_attestation_json row) && is_none (sp_attestation_digest row))
      || (is_some (sp_canonical_head row) && (0 <? sp_sequence row)
          && is_some (sp_attestation_json row) && is_some (sp_attestation_digest row)))
  && (((sp_state row == Source_Ready) && is_none (sp_divergent_candidate row)
       && is_none (sp_divergence_channel row) && is_none (sp_divergence_evidence_digest row))
      || ((sp_state row == Source_DivergedNeedsOwner) && is_some (sp_divergent_candidate row)
          && is_some (sp_divergence_channel row) && is_some (sp_divergence_evidence_digest row))).

Record AcceptedHeadRow : Type := MkAcceptedHeadRow {
  ar_canonical_head : GitCommitId;
  ar_previous_head : option GitCommitId;
  ar_accepted_via : SourceChannel;
  ar_attestation_json : list Z;
  ar_attestation_digest : EvidenceDigest;
  ar_accepted_at_ms : Z
}.

Inductive DeliveryStatus : Type :=
| Delivery_Processing
| Delivery_Recoverable
| Delivery_Completed.

#[global] Instance DeliveryStatus_eq_dec : EqDecision DeliveryStatus.
Proof. solve_decision. Defined.

Record SourceDeliveryRow : Type := MkSourceDeliveryRow {
  sv_payload_digest : EvidenceDigest;
  sv_processing_token : option Uuid;
  sv_status : DeliveryStatus;
  sv_outcome_json : option (list Z);
  sv_received_at_ms : Z;
  sv_updated_at_ms : Z
}.

#[global] Instance SourceDeliveryRow_eta : Eta SourceDeliveryRow := λ r,
  MkSourceDeliveryRow (sv_payload_digest r) (sv_processing_token r) (sv_status r)
    (sv_outcome_json r) (sv_received_at_ms r) (sv_updated_at_ms r).

Definition source_delivery_check (row : SourceDeliveryRow) : bool :=
  ((sv_status row == Delivery_Completed) && is_some (sv_outcome_json row)
   && is_none (sv_processing_token row))
  || ((sv_status row != Delivery_Completed) && is_none (sv_outcome_json row)
      && is_some (sv_processing_token row)).

Record RefUpdateRow : Type := MkRefUpdateRow {
  ru_expected_head : option GitCommitId;
  ru_new_head : GitCommitId;
  ru_sequence : Z;
  ru_signed_attestation_json : list Z;
  ru_attestation_digest : EvidenceDigest;
  ru_ref_updated : bool;
  ru_started_at_ms : Z;
  ru_updated_at_ms : Z
}.

#[global] Instance RefUpdateRow_eta : Eta RefUpdateRow := λ r,
  MkRefUpdateRow (ru_expected_head r) (ru_new_head r) (ru_sequence r)
    (ru_signed_attestation_json r) (ru_attestation_digest r) (ru_ref_updated r)
    (ru_started_at_ms r) (ru_updated_at_ms r).

Record DivergenceEventRow : Type := MkDivergenceEventRow {
  de_canonical_head : option GitCommitId;
  de_divergent_candidate : GitCommitId;
  de_divergence_channel : SourceChannel;
  de_detected_at_ms : Z;
  de_resolved_at_ms : option Z;
  de_resolution : option string
}.

#[global] Instance DivergenceEventRow_eta : Eta DivergenceEventRow := λ r,
  MkDivergenceEventRow (de_canonical_head r) (de_divergent_candidate r)
    (de_divergence_channel r) (de_detected_at_ms r) (de_resolved_at_ms r) (de_resolution r).

Record MutationTicketRow : Type := MkMutationTicketRow {
  mt_attempt_id : Uuid;
  mt_phase : OperationPhase;
  mt_source_sequence : Z;
  mt_attestation_digest : EvidenceDigest;
  mt_acquired_at_ms : Z
}.

Definition mutation_ticket_check (row : MutationTicketRow) : bool :=
  match mt_phase row with
  | Phase_BackingUp | Phase_Draining | Phase_Deploying => true
  | _ => false
  end && (0 <? mt_source_sequence row).

Record SourceOutboxRow : Type := MkSourceOutboxRow {
  xo_project_id : ProjectId;
  xo_source_sequence : Z;
  xo_attestation_json : list Z;
  xo_attestation_digest : EvidenceDigest;
  xo_status : SourceOutboxStatus;
  xo_enqueued_at_ms : Z;
  xo_settled_at_ms : option Z
}.

#[global] Instance SourceOutboxRow_eta : Eta SourceOutboxRow := λ r,
  MkSourceOutboxRow (xo_project_id r) (xo_source_sequence r) (xo_attestation_json r)
    (xo_attestation_digest r) (xo_status r) (xo_enqueued_at_ms r) (xo_settled_at_ms r).

Definition source_outbox_check (row : SourceOutboxRow) : bool :=
  (0 <? xo_source_sequence row)
  && ((xo_status row == Outbox_Pending) == is_none (xo_settled_at_ms row)).

Record GithubWakeupRow : Type := MkGithubWakeupRow {
  wr_project_id : ProjectId;
  wr_delivery_id : string;
  wr_payload_digest : EvidenceDigest;
  wr_announced_head : GitCommitId;
  wr_repository_full_name : string;
  wr_completed : bool;
  wr_received_at_ms : Z;
  wr_completed_at_ms : option Z;
  wr_outcome_json : option (list Z)
}.

#[global] Instance GithubWakeupRow_eta : Eta GithubWakeupRow := λ r,
  MkGithubWakeupRow (wr_project_id r) (wr_delivery_id r) (wr_payload_digest r)
    (wr_announced_head r) (wr_repository_full_name r) (wr_completed r) (wr_received_at_ms r)
    (wr_completed_at_ms r) (wr_outcome_json r).

Record SourceDb : Type := MkSourceDb {
  source_meta : gmap string Z;
  source_projects : gmap ProjectId SourceProjectRow;
  accepted_heads : gmap (ProjectId * Z) AcceptedHeadRow;
  source_deliveries : gmap (ProjectId * SourceChannel * string) SourceDeliveryRow;
  source_ref_update_journal : gmap ProjectId RefUpdateRow;
  source_divergence_events : gmap (ProjectId * EvidenceDigest) DivergenceEventRow;
  source_mutation_tickets : gmap ProjectId MutationTicketRow;
  source_outbox : gmap Z SourceOutboxRow;
  source_github_wakeups : gmap Z GithubWakeupRow
}.

#[global] Instance SourceDb_eta : Eta SourceDb := λ d,
  MkSourceDb (source_meta d) (source_projects d) (accepted_heads d) (source_deliveries d)
    (source_ref_update_journal d) (source_divergence_events d) (source_mutation_tickets d)
    (source_outbox d) (source_github_wakeups d).

(** The database [SourceStore::open] creates. *)
Definition new_source_db : SourceDb := {|
  source_meta := {["schema_version"%string := 4]}; source_projects := ∅; accepted_heads := ∅;
  source_deliveries := ∅; source_ref_update_journal := ∅; source_divergence_events := ∅;
  source_mutation_tickets := ∅; source_outbox := ∅; source_github_wakeups := ∅ |}.

Abbreviation SourceTx := (Tx SourceDb SourceError) (only parsing).

(** ** Statements *)

Definition source_sql (b : bool) (e : SqliteError) : SourceTx unit :=
  lift (ensure b (Source_Sqlite e)).

(** The rows of a table without a given row identifier get the next one. *)
Definition next_rowid {V} (table : gmap Z V) : Z :=
  1 + foldr Z.max 0 (map_to_list table).*1.

Definition rows_exist {K V} `{Countable K} (p : K → V → bool) (table : gmap K V) : bool :=
  existsb (λ entry, p entry.1 entry.2) (map_to_list table).

(** [UPDATE .. SET f WHERE p] under a CHECK: the number of rows and the table. *)
Definition update_table {K V} `{Countable K} (p : K → V → bool) (f : V → V) (check : V → bool)
    (table : gmap K V) : Result SourceError (Z * gmap K V) :=
  let rows := select_rows p table in
  if forallb (λ row, check (f row.2)) rows
  then Ok (Z.of_nat (length rows), map_imap (λ k v, Some (if p k v then f v else v)) table)
  else Err (Source_Sqlite CheckViolation).

Definition update_source_projects (p : ProjectId → SourceProjectRow → bool)
    (f : SourceProjectRow → SourceProjectRow) : SourceTx Z :=
  let? table := gets source_projects in
  let? ' (changed, table) := lift (update_table p f source_project_check table) in
  let? _ := modify (λ db, db <| source_projects := table |>) in
  tx_ok changed.

Definition update_source_deliveries (p : ProjectId * SourceChannel * string → SourceDeliveryRow → bool)
    (f : SourceDeliveryRow → SourceDeliveryRow) : SourceTx Z :=
  let? table := gets source_deliveries in
  let? ' (changed, table) := lift (update_table p f source_delivery_check table) in
  let? _ := modify (λ db, db <| source_deliveries := table |>) in
  tx_ok changed.

Definition update_ref_updates (p : ProjectId → RefUpdateRow → bool)
    (f : RefUpdateRow → RefUpdateRow) : SourceTx Z :=
  let? table := gets source_ref_update_journal in
  let? ' (changed, table) := lift (update_table p f (λ row, 0 <? ru_sequence row) table) in
  let? _ := modify (λ db, db <| source_ref_update_journal := table |>) in
  tx_ok changed.

Definition update_divergence_events (p : ProjectId * EvidenceDigest → DivergenceEventRow → bool)
    (f : DivergenceEventRow → DivergenceEventRow) : SourceTx Z :=
  let? table := gets source_divergence_events in
  let? ' (changed, table) := lift (update_table p f
    (λ row, is_some (de_resolved_at_ms row) == is_some (de_resolution row)) table) in
  let? _ := modify (λ db, db <| source_divergence_events := table |>) in
  tx_ok changed.

Definition update_source_outbox (p : Z → SourceOutboxRow → bool)
    (f : SourceOutboxRow → SourceOutboxRow) : SourceTx Z :=
  let? table := gets source_outbox in
  let? ' (changed, table) := lift (update_table p f source_outbox_check table) in
  let? _ := modify (λ db, db <| source_outbox := table |>) in
  tx_ok changed.

Definition update_github_wakeups (p : Z → GithubWakeupRow → bool)
    (f : GithubWakeupRow → GithubWakeupRow) : SourceTx Z :=
  let? table := gets source_github_wakeups in
  let? ' (changed, table) := lift (update_table p f (λ row,
    (wr_completed row == is_some (wr_completed_at_ms row))
    && (wr_completed row == is_some (wr_outcome_json row))) table) in
  let? _ := modify (λ db, db <| source_github_wakeups := table |>) in
  tx_ok changed.

Definition insert_delivery_row (key : ProjectId * SourceChannel * string) (row : SourceDeliveryRow)
    : SourceTx unit :=
  let? table := gets source_deliveries in
  let? _ := source_sql (is_none (table !! key)) PrimaryKeyViolation in
  let? _ := source_sql (source_delivery_check row) CheckViolation in
  modify (λ db, db <| source_deliveries := <[key := row]> table |>).

Definition insert_ref_update_row (project_id : ProjectId) (row : RefUpdateRow) : SourceTx unit :=
  let? table := gets source_ref_update_journal in
  let? _ := source_sql (is_none (table !! project_id)) PrimaryKeyViolation in
  let? _ := source_sql (0 <? ru_sequence row) CheckViolation in
  modify (λ db, db <| source_ref_update_journal := <[project_id := row]> table |>).

Definition insert_accepted_head (key : ProjectId * Z) (row : AcceptedHeadRow) : SourceTx unit :=
  let? table := gets accepted_heads in
  let? _ := source_sql (is_none (table !! key)) PrimaryKeyViolation in
  let? _ := source_sql (0 <? key.2) CheckViolation in
  let? _ := source_sql (negb (rows_exist (λ k other, (k.1 == key.1)
              && (ar_attestation_digest other == ar_attestation_digest row)) table))
              UniqueViolation in
  modify (λ db, db <| accepted_heads := <[key := row]> table |>).

Definition insert_ticket_row (project_id : ProjectId) (row : MutationTicketRow) : SourceTx unit :=
  let? table := gets source_mutation_tickets in
  let? _ := source_sql (is_none (table !! project_id)) PrimaryKeyViolation in
  let? _ := source_sql (mutation_ticket_check row) CheckViolation in
  modify (λ db, db <| source_mutation_tickets := <[project_id := row]> table |>).

(** [INSERT .. ON CONFLICT DO NOTHING]. *)
Definition insert_divergence_event (key : ProjectId * EvidenceDigest) (row : DivergenceEventRow)
    : SourceTx unit :=
  let? table := gets source_divergence_events in
  match table !! key with
  | Some _ => tx_ok tt
  | None => modify (λ db, db <| source_divergence_events := <[key := row]> table |>)
  end.

(** [INSERT .. ON CONFLICT(project_id) DO UPDATE]: [update] is applied to the row that
    is there.  The constraints hold the proposed row first, even if it is not the one
    that is written. *)
Definition upsert_source_project (project_id : ProjectId) (row : SourceProjectRow)
    (update : SourceProjectRow → SourceProjectRow) : SourceTx unit :=
  let? table := gets source_projects in
  let? _ := source_sql (source_project_check row) CheckViolation in
  let written := match table !! project_id with Some existing => update existing | None => row end in
  let? _ := source_sql (source_project_check written) CheckViolation in
  modify (λ db, db <| source_projects := <[project_id := written]> table |>).

(** [INSERT INTO source_outbox .. ON CONFLICT(attestation_digest) DO NOTHING]. *)
Definition insert_outbox_row (row : SourceOutboxRow) : SourceTx unit :=
  let? table := gets source_outbox in
  let? _ := source_sql (source_outbox_check row) CheckViolation in
  if rows_exist (λ _ other, xo_attestation_digest other == xo_attestation_digest row) table
  then tx_ok tt
  else
    let? _ := source_sql (negb (rows_exist (λ _ other,
                (xo_project_id other == xo_project_id row)
                && (xo_source_sequence other == xo_source_sequence row)) table)) UniqueViolation in
    modify (λ db, db <| source_outbox := <[next_rowid table := row]> table |>).

(** The new row and its [last_insert_rowid]. *)
Definition insert_wakeup_row (row : GithubWakeupRow) : SourceTx Z :=
  let? table := gets source_github_wakeups in
  let? _ := source_sql (negb (rows_exist (λ _ other, (wr_project_id other == wr_project_id row)
              && (wr_delivery_id other == wr_delivery_id row)) table)) UniqueViolation in
  let sequence := next_rowid table in
  let? _ := modify (λ db, db <| source_github_wakeups := <[sequence := row]> table |>) in
  tx_ok sequence.

Definition delete_ref_updates (p : ProjectId → RefUpdateRow → bool) : SourceTx unit :=
  modify (λ db, db <| source_ref_update_journal :=
    filter (λ entry, p entry.1 entry.2 = false) (source_ref_update_journal db) |>).

Definition delete_tickets (p : ProjectId → MutationTicketRow → bool) : SourceTx Z :=
  let? table := gets source_mutation_tickets in
  let? _ := modify (λ db, db <| source_mutation_tickets :=
    filter (λ entry, p entry.1 entry.2 = false) table |>) in
  tx_ok (Z.of_nat (length (select_rows p table))).

Definition delete_outbox_rows (p : Z → SourceOutboxRow → bool) : SourceTx unit :=
  modify (λ db, db <| source_outbox := filter (λ entry, p entry.1 entry.2 = false) (source_outbox db) |>).

Definition delete_wakeups (p : Z → GithubWakeupRow → bool) : SourceTx Z :=
  let? table := gets source_github_wakeups in
  let? _ := modify (λ db, db <| source_github_wakeups :=
    filter (λ entry, p entry.1 entry.2 = false) table |>) in
  tx_ok (Z.of_nat (length (select_rows p table))).
