(* ===== verification/Source.v ===== *)
(** * The source broker: attestations and the store

    Model of the first half of [src/src/source.rs]: the accepted-head attestation and
    its verification, the checks of the ingress (HMAC, payload, delivery identifiers,
    forced command), and every method of [SourceStore].  SHA-256, Ed25519, Base64 and
    the JSON codecs are parameters. *)

From Stdlib Require Import ZArith Lia Ascii String.
From stdpp Require Import base gmap strings pretty option list_numbers list.
From S2P Require Import Prelude Identifiers States Text Ordered Operation Workflow Errors SourceDb.

Local Open Scope Z_scope.

(** ** Parameters *)

(** Ed25519 ([ed25519_dalek]) and URL-safe Base64 ([base64]). *)
Class SourceCrypto := {
  SigningKey : Type;
  VerifyingKey : Type;
  verifying_key : SigningKey → VerifyingKey;
  sign_bytes : SigningKey → list Z → list Z;
  signature_from_slice : list Z → option (list Z);
  verify_strict : VerifyingKey → list Z → list Z → bool;
  base64_encode : list Z → string;
  base64_decode : string → option (list Z)
}.

(** Their documented behaviour: Base64 decodes what it encoded, and a signature made
    with a key is verified with its public key. *)
Class SourceCryptoSpec `{SourceCrypto} : Prop := {
  base64_round_trip bytes :
    Forall (λ b, 0 ≤ b < 256) bytes → base64_decode (base64_encode bytes) = Some bytes;
  signature_octets key message : Forall (λ b, 0 ≤ b < 256) (sign_bytes key message);
  signature_round_trip key message :
    signature_from_slice (sign_bytes key message) = Some (sign_bytes key message);
  signature_verifies key message :
    verify_strict (verifying_key key) message (sign_bytes key message) = true
}.

(** [serde_jcs] and [serde_json] at the types the broker stores, signs and hashes. *)
Class SourceCodecs := {
  source_sha :: Sha256;
  source_head_jcs :: Jcs AcceptedHeadV1;
  source_signed_jcs :: Jcs SignedAcceptedHeadV1;
  source_proof_jcs :: Jcs SourceGateProofPayload;
  signed_to_string : SignedAcceptedHeadV1 → Result SerdeError (list Z);
  source_signed_slice :: JsonSlice SignedAcceptedHeadV1;
  outcome_to_string : SourceIngressOutcome → Result SerdeError (list Z);
  source_outcome_slice :: JsonSlice SourceIngressOutcome;
  source_push_slice :: JsonSlice GithubPushPayload
}.

(** What the ledger relies on: what was written is read back. *)
Class SourceCodecsSpec `{SourceCodecs} : Prop := {
  signed_round_trip signed text :
    signed_to_string signed = Ok text → json_from_slice text = Ok signed;
  signed_jcs_round_trip :: JcsRoundTrip SignedAcceptedHeadV1;
  outcome_round_trip outcome text :
    outcome_to_string outcome = Ok text → json_from_slice text = Ok outcome
}.

(** ** Identifiers of the ingress *)

Definition underscore : Z := 95.
Definition full_stop : Z := 46.
Definition colon : Z := 58.

Definition validate_key_id (key_id : string) : Result SourceAttestationError unit :=
  if (str_len key_id =? 0) || (64 <? str_len key_id)
     || negb (forallb (λ byte, is_ascii_alphanumeric byte || (byte =? hyphen) || (byte =? underscore))
                (as_bytes key_id))
  then Err Attestation_InvalidKeyId else Ok tt.

Definition validate_delivery_id (delivery_id : string) : Result SourceError unit :=
  if (str_len delivery_id =? 0) || (MAX_DELIVERY_ID_BYTES <? str_len delivery_id)
     || negb (forallb (λ byte, is_ascii_alphanumeric byte || (byte =? hyphen) || (byte =? underscore)
                               || (byte =? full_stop) || (byte =? colon)) (as_bytes delivery_id))
  then Err Source_InvalidDeliveryId else Ok tt.

Definition valid_repository_part (part : string) : bool :=
  forallb (λ byte, is_ascii_alphanumeric byte || (byte =? hyphen) || (byte =? underscore)
                   || (byte =? full_stop)) (as_bytes part).

Definition valid_github_repository_full_name (value : string) : bool :=
  match str_split slash value with
  | [owner; repository] =>
      negb (str_len owner =? 0) && negb (str_len repository =? 0)
      && valid_repository_part owner && valid_repository_part repository
  | _ => false
  end.

(** [str::eq_ignore_ascii_case]. *)
Definition to_ascii_lowercase (byte : Z) : Z :=
  if is_ascii_uppercase byte then byte + 32 else byte.

Definition eq_ignore_ascii_case (left right : string) : bool :=
  (to_ascii_lowercase <$> as_bytes left) == (to_ascii_lowercase <$> as_bytes right).

Definition InstalledSourceProjectPolicy_validate (policy : InstalledSourceProjectPolicy)
    : Result SourceError unit :=
  if (ip_version (isp_installed_policy policy) =? 0)
     || negb ((1 <=? isp_maximum_attempts policy) && (isp_maximum_attempts policy <=? 10))
     || negb (valid_github_repository_full_name (isp_github_repository policy))
  then Err Source_InvalidInstalledPolicy
  else if isp_release_class policy == Class_Rollback then Err Source_InvalidInstalledPolicy
  else Ok tt.

(** [validate_forced_receive_command]: the two byte strings are compared in constant
    time. *)
Definition validate_forced_receive_command (original_command canonical_repo_path : string)
    : Result SourceError unit :=
  let bytes := as_bytes canonical_repo_path in
  if negb (String.prefix "/" canonical_repo_path) || contains bytes 39 || contains bytes 10
     || contains bytes 13
  then Err Source_InvalidCanonicalRepositoryPath
  else
    let expected := ("git-receive-pack '" ++ canonical_repo_path ++ "'")%string in
    if as_bytes original_command == as_bytes expected then Ok tt else Err Source_ForcedCommandRejected.

(** [value.to_string()] of an unsigned integer, and of a boolean. *)
Definition u64_to_string (value : Z) : string := pretty (Z.to_N value).
Definition bool_to_string (value : bool) : string := if value then "true" else "false".

Definition newline : string := String (ascii_of_nat 10) EmptyString.

(** [format!] of values on a line each. *)
Definition lines_of (values : list string) : list Z := as_bytes (String.concat newline values).

(** [value.as_ref().map_or("-", GitCommitId::as_str)]. *)
Definition commit_or_dash (value : option GitCommitId) : string :=
  match value with Some commit => GitCommitId_as_str commit | None => "-" end.

(** ** The webhook's signature *)

Definition hex_nibble (value : Z) : option Z :=
  if (48 <=? value) && (value <=? 57) then Some (value - 48)
  else if (97 <=? value) && (value <=? 102) then Some (value - 97 + 10)
  else None.

Fixpoint decode_hex_pairs (bytes : list Z) : option (list Z) :=
  match bytes with
  | high :: low :: rest =>
      high ← hex_nibble high;
      low ← hex_nibble low;
      decoded ← decode_hex_pairs rest;
      Some (Z.lor (Z.shiftl high 4) low :: decoded)
  | _ => Some []
  end.

Definition decode_hex_32 (value : string) : option (list Z) :=
  if str_len value =? 64 then decode_hex_pairs (as_bytes value) else None.

Section Source.
Context `{!SourceCodecs, !SourceCrypto}.

Definition hmac_sha256 (key message : list Z) : list Z :=
  let normalized :=
    if Nat.ltb 64 (length key) then sha256_raw key ++ repeat 0 32
    else key ++ repeat 0 (64 - length key) in
  let inner_pad := (λ byte, Z.lxor 54 byte) <$> normalized in
  let outer_pad := (λ byte, Z.lxor 92 byte) <$> normalized in
  sha256_raw (outer_pad ++ sha256_raw (inner_pad ++ message)).

Definition verify_github_hmac (signature_header : string) (secret raw_body : list Z)
    : Result SourceError unit :=
  if Nat.ltb (length secret) 16 then Err Source_WebhookSecretTooShort
  else
    let? encoded := ok_or Source_InvalidWebhookSignature (str_strip_prefix "sha256=" signature_header) in
    let? received := ok_or Source_InvalidWebhookSignature (decode_hex_32 encoded) in
    if hmac_sha256 secret raw_body == received then Ok tt else Err Source_InvalidWebhookSignature.

Definition decode_github_push (raw_body : list Z) (expected_repository : string)
    : Result SourceError (option GitCommitId) :=
  let? payload := map_err (λ _ : SerdeError, Source_InvalidWebhookPayload) (json_from_slice raw_body) in
  if negb (eq_ignore_ascii_case (gpp_repository_full_name payload) expected_repository)
  then Err Source_GithubRepositoryMismatch
  else if gpp_git_ref payload != "refs/heads/main"%string then Ok None
  else match GitCommitId_from_str (gpp_after payload) with
       | Ok commit => Ok (Some commit)
       | Err _ => Err Source_InvalidWebhookPayload
       end.

(** ** Attestations *)

Definition ACCEPTED_HEAD_DOMAIN : list Z := as_bytes "rdashboard.accepted-head.v1" ++ [0].

Definition AcceptedHead_validate (head : AcceptedHeadV1) : Result SourceAttestationError unit :=
  if ah_schema_version head != ACCEPTED_HEAD_SCHEMA_VERSION
  then Err (Attestation_UnsupportedSchemaVersion (ah_schema_version head))
  else if ah_sequence head =? 0 then Err Attestation_ZeroSequence
  else if ip_version (ah_installed_policy head) =? 0 then Err Attestation_ZeroPolicyVersion
  else if ah_expires_at_ms head <=? ah_accepted_at_ms head then Err Attestation_InvalidValidityWindow
  else Ok tt.

Definition AcceptedHead_canonical_bytes (head : AcceptedHeadV1)
    : Result SourceAttestationError (list Z) :=
  let? canonical := map_err Attestation_CanonicalEncoding (jcs_to_vec head) in
  Ok (ACCEPTED_HEAD_DOMAIN ++ canonical).

Definition SignedAcceptedHead_sign (key_id : string) (payload : AcceptedHeadV1)
    (signing_key : SigningKey) : Result SourceAttestationError SignedAcceptedHeadV1 :=
  let? _ := AcceptedHead_validate payload in
  let? _ := validate_key_id key_id in
  let? bytes := AcceptedHead_canonical_bytes payload in
  Ok {| sah_key_id := key_id; sah_payload := payload;
        sah_signature := base64_encode (sign_bytes signing_key bytes) |}.

Definition SignedAcceptedHead_digest (signed : SignedAcceptedHeadV1)
    : Result SourceAttestationError EvidenceDigest :=
  let? canonical := map_err Attestation_CanonicalEncoding (jcs_to_vec signed) in
  Ok (EvidenceDigest_sha256 canonical).

(** The verifier is its keyring. *)
Definition SourceAttestationVerifier_new (keys : gmap string VerifyingKey)
    : Result SourceAttestationError (gmap string VerifyingKey) :=
  if Nat.eqb (size keys) 0 then Err Attestation_EmptyKeyring
  else
    let? _ := mapM validate_key_id (sort_by str_compare (map_to_list keys).*1) in
    Ok keys.

Definition verify_inner (keys : gmap string VerifyingKey) (signed : SignedAcceptedHeadV1)
    (now_ms : option Z) : Result SourceAttestationError AcceptedHeadV1 :=
  let payload := sah_payload signed in
  let? _ := AcceptedHead_validate payload in
  let? _ := validate_key_id (sah_key_id signed) in
  let? _ := ensure (negb (opt_is_some_and now_ms (λ now, ah_expires_at_ms payload <=? now)))
              Attestation_Expired in
  let? key := ok_or (Attestation_UnknownKey (sah_key_id signed)) (keys !! sah_key_id signed) in
  let? bytes := ok_or Attestation_InvalidSignatureEncoding (base64_decode (sah_signature signed)) in
  let? signature := ok_or Attestation_InvalidSignature (signature_from_slice bytes) in
  let? message := AcceptedHead_canonical_bytes payload in
  let? _ := ensure (verify_strict key message signature) Attestation_SignatureVerification in
  Ok payload.

Definition verify (keys : gmap string VerifyingKey) (signed : SignedAcceptedHeadV1) (now_ms : Z)
    : Result SourceAttestationError AcceptedHeadV1 :=
  verify_inner keys signed (Some now_ms).

Definition verify_live (keys : gmap string VerifyingKey) (signed : SignedAcceptedHeadV1)
    : Result SourceAttestationError AcceptedHeadV1 :=
  verify_inner keys signed None.

(** [?] on an attestation error. *)
Definition attested {A} (r : Result SourceAttestationError A) : Result SourceError A :=
  map_err Source_Attestation r.

Definition GithubWebhookWakeup_validate (wakeup : GithubWebhookWakeupV1) : Result SourceError unit :=
  if (gw_schema_version wakeup != SOURCE_WEBHOOK_WAKEUP_SCHEMA_VERSION)
     || (gw_wakeup_sequence wakeup =? 0)
     || (gw_received_at_ms wakeup <? 0)
     || negb (is_ok (validate_delivery_id (gw_delivery_id wakeup)))
     || negb (valid_github_repository_full_name (gw_repository_full_name wakeup))
  then Err (Source_CorruptLedger "GitHub webhook wake-up") else Ok tt.

Definition SourceShadowEntry_validate (entry : SourceShadowEntryV1) : Result SourceError unit :=
  let payload := sah_payload (sse_attestation entry) in
  if (sse_schema_version entry != 1)
     || (sse_source_sequence entry =? 0)
     || (sse_observed_at_ms entry <? ah_accepted_at_ms payload)
     || (ah_expires_at_ms payload <=? sse_observed_at_ms entry)
     || (sse_project_id entry != ah_project_id payload)
     || (sse_source_sequence entry != ah_sequence payload)
  then Err (Source_CorruptLedger "source shadow entry")
  else
    let? digest := attested (SignedAcceptedHead_digest (sse_attestation entry)) in
    ensure (sse_attestation_digest entry == digest) (Source_CorruptLedger "source shadow entry").

Definition SourceShadowEntry_scheduler_delivery_id (entry : SourceShadowEntryV1) : string :=
  ("shadow-" ++ EvidenceDigest_as_str (sse_attestation_digest entry))%string.

Definition SourceOutboxEntry_validate (entry : SourceOutboxEntryV1) : Result SourceError unit :=
  let payload := sah_payload (soe_attestation entry) in
  if (soe_schema_version entry != SOURCE_OUTBOX_SCHEMA_VERSION)
     || (soe_outbox_sequence entry =? 0)
     || (soe_source_sequence entry =? 0)
     || (soe_enqueued_at_ms entry <? ah_accepted_at_ms payload)
     || (soe_project_id entry != ah_project_id payload)
     || (soe_source_sequence entry != ah_sequence payload)
  then Err (Source_CorruptLedger "source outbox entry")
  else
    let? digest := attested (SignedAcceptedHead_digest (soe_attestation entry)) in
    ensure (soe_attestation_digest entry == digest) (Source_CorruptLedger "source outbox entry").

Definition SourceOutboxEntry_scheduler_delivery_id (entry : SourceOutboxEntryV1) : string :=
  ("source-" ++ EvidenceDigest_as_str (soe_attestation_digest entry))%string.

(** ** Reading the ledger *)

Definition option_decode (text : option (list Z)) : Result SourceError (option SignedAcceptedHeadV1) :=
  match text with
  | None => Ok None
  | Some text => let? signed := map_err Source_Json (json_from_slice text) in Ok (Some signed)
  end.

Definition load_snapshot (project_id : ProjectId) (db : SourceDb) : Result SourceError SourceSnapshot :=
  match source_projects db !! project_id with
  | None => Ok (SourceSnapshot_empty project_id)
  | Some row =>
      let? sequence := ok_or (Source_CorruptLedger "sequence") (u64_try_from (sp_sequence row)) in
      let head := sp_canonical_head row in
      let? attestation := option_decode (sp_attestation_json row) in
      let state := sp_state row in
      if (is_some head != is_some attestation)
         || (is_some head != is_some (sp_attestation_digest row))
         || (is_some head != (0 <? sequence))
      then Err (Source_CorruptLedger "head/attestation invariant")
      else
        let divergent_candidate := is_some (sp_divergent_candidate row) in
        let divergence_channel := is_some (sp_divergence_channel row) in
        let divergence_evidence := is_some (sp_divergence_evidence_digest row) in
        let complete_divergence_evidence :=
          divergent_candidate && divergence_channel && divergence_evidence in
        if ((state == Source_Ready) && complete_divergence_evidence)
           || ((state == Source_DivergedNeedsOwner) && negb complete_divergence_evidence)
           || (divergent_candidate != divergence_channel)
           || (divergent_candidate != divergence_evidence)
        then Err (Source_CorruptLedger "divergence evidence invariant")
        else Ok {|
          ss_project_id := project_id; ss_head := head; ss_sequence := sequence; ss_state := state;
          ss_blocked_sha := sp_blocked_sha row;
          ss_reconcile_paused_until_ms := sp_reconcile_paused_until_ms row;
          ss_attestation := attestation; ss_attestation_digest := sp_attestation_digest row;
          ss_divergent_candidate := sp_divergent_candidate row;
          ss_divergence_channel := sp_divergence_channel row;
          ss_divergence_evidence_digest := sp_divergence_evidence_digest row |}
  end.

Definition sequence_to_i64 (sequence : Z) : Result SourceError Z :=
  ok_or Source_SequenceRange (i64_try_from sequence).

(** [snapshot.attestation.as_ref().map(serde_json::to_string).transpose()?]. *)
Definition option_encode (signed : option SignedAcceptedHeadV1) : Result SourceError (option (list Z)) :=
  match signed with
  | None => Ok None
  | Some signed => let? text := map_err Source_Json (signed_to_string signed) in Ok (Some text)
  end.

(** [String::from_utf8(serde_jcs::to_vec(..)?)]. *)
Definition canonical_attestation (signed : SignedAcceptedHeadV1) : Result SourceError (list Z) :=
  let? bytes := map_err Source_Json (jcs_to_vec signed) in
  if valid_utf8 bytes then Ok bytes else Err (Source_CorruptLedger "source outbox encoding").

Definition decode_outbox_row (outbox_sequence : Z) (row : SourceOutboxRow)
    : Result SourceError SourceOutboxEntryV1 :=
  let? attestation := map_err Source_Json (json_from_slice (xo_attestation_json row)) in
  let? canonical := canonical_attestation attestation in
  let? _ := ensure (canonical == xo_attestation_json row)
              (Source_CorruptLedger "source outbox canonical encoding") in
  let? outbox_sequence := ok_or (Source_CorruptLedger "source outbox sequence")
                            (u64_try_from outbox_sequence) in
  let? source_sequence := ok_or (Source_CorruptLedger "source outbox source sequence")
                            (u64_try_from (xo_source_sequence row)) in
  let entry := {|
    soe_schema_version := SOURCE_OUTBOX_SCHEMA_VERSION;
    soe_outbox_sequence := outbox_sequence;
    soe_project_id := xo_project_id row;
    soe_source_sequence := source_sequence;
    soe_attestation := attestation;
    soe_attestation_digest := xo_attestation_digest row;
    soe_enqueued_at_ms := xo_enqueued_at_ms row |} in
  let? _ := SourceOutboxEntry_validate entry in
  Ok entry.

Definition decode_github_wakeup_row (wakeup_sequence : Z) (row : GithubWakeupRow)
    : Result SourceError GithubWebhookWakeupV1 :=
  let? wakeup_sequence := ok_or (Source_CorruptLedger "GitHub webhook sequence")
                            (u64_try_from wakeup_sequence) in
  let wakeup := {|
    gw_schema_version := SOURCE_WEBHOOK_WAKEUP_SCHEMA_VERSION;
    gw_wakeup_sequence := wakeup_sequence;
    gw_project_id := wr_project_id row;
    gw_delivery_id := wr_delivery_id row;
    gw_payload_digest := wr_payload_digest row;
    gw_announced_head := wr_announced_head row;
    gw_repository_full_name := wr_repository_full_name row;
    gw_received_at_ms := wr_received_at_ms row |} in
  let? _ := GithubWebhookWakeup_validate wakeup in
  Ok wakeup.

(** Row identifiers in ascending order. *)
Definition rowid_compare {V} (l r : Z * V) : comparison := l.1 ?= r.1.

(** [WHERE status != 'pending' ORDER BY .. DESC LIMIT n]: the [n] newest. *)
Definition newest {V} (n : nat) (p : Z → V → bool) (table : gmap Z V) : list Z :=
  take n (rev (sort_by rowid_compare (select_rows p table)).*1).

(** ** The broker's epoch *)

Definition require_bound_broker_epoch (bound_epoch : Z) : SourceTx unit :=
  if bound_epoch =? 0 then tx_err Source_BrokerLeaseSuperseded
  else
    let? expected := lift (sequence_to_i64 bound_epoch) in
    let? current := gets (λ db, source_meta db !! "broker_epoch"%string) in
    lift (ensure (current == Some expected) Source_BrokerLeaseSuperseded).

Definition require_broker_epoch (expected : Z) (db : SourceDb) : Result SourceError unit :=
  let? expected := sequence_to_i64 expected in
  ensure (source_meta db !! "broker_epoch"%string == Some expected) Source_BrokerLeaseSuperseded.

(** The transaction of [acquire_broker_lease]; the lock file is taken before. *)
Definition acquire_broker_lease (started_at_ms : Z) : SourceTx Z :=
  let? previous := gets (λ db, default 0 (source_meta db !! "broker_epoch"%string)) in
  let? previous := lift (ok_or (Source_CorruptLedger "broker epoch") (u64_try_from previous)) in
  let? epoch := lift (ok_or Source_SequenceExhausted (u64_checked_add previous 1)) in
  let? epoch_i64 := lift (sequence_to_i64 epoch) in
  let? _ := modify (λ db, db <| source_meta := <["broker_epoch"%string := epoch_i64]> (source_meta db) |>) in
  let? _ := modify (λ db, db <| source_meta :=
                      <["broker_started_at_ms"%string := started_at_ms]> (source_meta db) |>) in
  tx_ok epoch.

(** ** Pruning *)

Definition prune_settled_outbox : SourceTx unit :=
  let? kept := gets (λ db, newest SETTLED_OUTBOX_RETENTION
                       (λ _ row, xo_status row != Outbox_Pending) (source_outbox db)) in
  let? projects := gets source_projects in
  delete_outbox_rows (λ sequence row,
    (xo_status row != Outbox_Pending)
    && negb (opt_is_some_and (projects !! xo_project_id row) (λ current,
               (sp_sequence current == xo_source_sequence row)
               && (sp_attestation_digest current == Some (xo_attestation_digest row))))
    && negb (contains kept sequence)).

Definition prune_settled_github_wakeups : SourceTx unit :=
  let? kept := gets (λ db, newest SETTLED_WEBHOOK_RETENTION (λ _ row, wr_completed row)
                       (source_github_wakeups db)) in
  let? _ := delete_wakeups (λ sequence row, wr_completed row && negb (contains kept sequence)) in
  tx_ok tt.

(** ** Webhooks *)

Definition pending_wakeups (p : ProjectId → bool) (db : SourceDb) : Z :=
  Z.of_nat (length (select_rows (λ _ row, negb (wr_completed row) && p (wr_project_id row))
                      (source_github_wakeups db))).

Definition enqueue_github_wakeup (bound_epoch : Z) (project_id : ProjectId) (delivery_id : string)
    (payload_digest : EvidenceDigest) (announced_head : GitCommitId) (repository_full_name : string)
    (received_at_ms : Z) : SourceTx GithubWebhookAdmissionV1 :=
  let? _ := require_bound_broker_epoch bound_epoch in
  let? stored := gets (λ db, head (select_rows (λ _ row,
                   (wr_project_id row == project_id) && (wr_delivery_id row == delivery_id))
                   (source_github_wakeups db))) in
  match stored with
  | Some (sequence, row) =>
      if (wr_payload_digest row != payload_digest) || (wr_announced_head row != announced_head)
         || (wr_repository_full_name row != repository_full_name)
      then tx_err Source_DeliveryConflict
      else
        let? sequence := lift (ok_or (Source_CorruptLedger "GitHub webhook sequence")
                                 (u64_try_from sequence)) in
        tx_ok (Webhook_Duplicate sequence (wr_completed row))
  | None =>
      let? delivery := gets (λ db, source_deliveries db !! (project_id, Source_GithubWebhook, delivery_id)) in
      let? _ := lift (ensure (negb (opt_is_some_and delivery (λ row,
                  sv_payload_digest row != payload_digest))) Source_DeliveryConflict) in
      let? global_pending := gets (pending_wakeups (λ _, true)) in
      let? project_pending := gets (pending_wakeups (λ project, project == project_id)) in
      if (MAX_PENDING_WEBHOOKS <=? global_pending)
         || (MAX_PENDING_WEBHOOKS_PER_PROJECT <=? project_pending)
      then tx_err Source_WebhookQueueFull
      else
        let? sequence := insert_wakeup_row {|
          wr_project_id := project_id; wr_delivery_id := delivery_id;
          wr_payload_digest := payload_digest; wr_announced_head := announced_head;
          wr_repository_full_name := repository_full_name; wr_completed := false;
          wr_received_at_ms := received_at_ms; wr_completed_at_ms := None;
          wr_outcome_json := None |} in
        let? wakeup_sequence := lift (ok_or Source_SequenceRange (u64_try_from sequence)) in
        let? _ := prune_settled_github_wakeups in
        tx_ok (Webhook_Queued wakeup_sequence)
  end.

Definition pending_github_wakeups (bound_epoch : Z) (project_id : ProjectId) (limit : Z)
    : SourceTx (list GithubWebhookWakeupV1) :=
  let? _ := lift (ensure ((1 <=? limit) && (limit <=? SOURCE_GITHUB_WEBHOOK_BATCH_MAX))
                    Source_InvalidWebhookBatchLimit) in
  let? _ := require_bound_broker_epoch bound_epoch in
  let? rows := gets (λ db, take (Z.to_nat limit) (sort_by rowid_compare (select_rows (λ _ row,
                 negb (wr_completed row) && (wr_project_id row == project_id))
                 (source_github_wakeups db)))) in
  lift (mapM (λ entry, decode_github_wakeup_row entry.1 entry.2) rows).

Definition complete_github_wakeup (bound_epoch : Z) (wakeup : GithubWebhookWakeupV1)
    (outcome : SourceIngressOutcome) (completed_at_ms : Z) : SourceTx unit :=
  let? _ := lift (GithubWebhookWakeup_validate wakeup) in
  let? _ := lift (ensure (gw_received_at_ms wakeup <=? completed_at_ms) Source_TimeRange) in
  let? sequence := lift (sequence_to_i64 (gw_wakeup_sequence wakeup)) in
  let? outcome_json := lift (map_err Source_Json (outcome_to_string outcome)) in
  let? _ := require_bound_broker_epoch bound_epoch in
  let? row := reads (λ db, ok_or Source_WebhookWakeupMissing (source_github_wakeups db !! sequence)) in
  if (wr_project_id row != gw_project_id wakeup) || (wr_delivery_id row != gw_delivery_id wakeup)
     || (wr_payload_digest row != gw_payload_digest wakeup)
  then tx_err Source_WebhookWakeupConflict
  else
    let? _ :=
      (if negb (wr_completed row) then
         let? changed := update_github_wakeups
                           (λ id row, (id == sequence)
                                      && (wr_payload_digest row == gw_payload_digest wakeup)
                                      && negb (wr_completed row)
                                      && (wr_received_at_ms row <=? completed_at_ms))
                           (λ row, row <| wr_completed := true |>
                                       <| wr_completed_at_ms := Some completed_at_ms |>
                                       <| wr_outcome_json := Some outcome_json |>) in
         lift (ensure (changed == 1) Source_WebhookWakeupConflict)
       else lift (ensure (wr_outcome_json row == Some outcome_json) Source_WebhookWakeupConflict)) in
    prune_settled_github_wakeups.

Definition reconcile_github_wakeup_policy (bound_epoch : Z)
    (installed_repositories : gmap ProjectId string) : SourceTx Z :=
  let? _ := require_bound_broker_epoch bound_epoch in
  let? retired := delete_wakeups (λ _ row,
    negb (opt_is_some_and (installed_repositories !! wr_project_id row) (λ repository,
            eq_ignore_ascii_case repository (wr_repository_full_name row)))) in
  let? _ := prune_settled_github_wakeups in
  tx_ok retired.

(** ** Deliveries *)

Definition reserve_delivery (bound_epoch : Z) (project_id : ProjectId) (channel : SourceChannel)
    (delivery_id : string) (payload_digest : EvidenceDigest) (received_at_ms : Z) (token : Uuid)
    : SourceTx DeliveryReservation :=
  let key := (project_id, channel, delivery_id) in
  let claim := {| dc_project_id := project_id; dc_channel := channel; dc_delivery_id := delivery_id;
                  dc_payload_digest := payload_digest; dc_processing_token := token |} in
  let? _ := require_bound_broker_epoch bound_epoch in
  let? stored := gets (λ db, source_deliveries db !! key) in
  match stored with
  | Some row =>
      if sv_payload_digest row != payload_digest then tx_err Source_DeliveryConflict
      else match sv_status row with
           | Delivery_Completed =>
               let? json := lift (ok_or (Source_CorruptLedger "completed delivery outcome")
                                    (sv_outcome_json row)) in
               let? outcome := lift (map_err Source_Json (json_from_slice json)) in
               tx_ok (Reservation_Completed outcome)
           | Delivery_Processing => tx_err Source_DeliveryInProgress
           | Delivery_Recoverable =>
               let? _ := update_source_deliveries
                           (λ k row, (k == key) && (sv_status row == Delivery_Recoverable))
                           (λ row, row <| sv_status := Delivery_Processing |>
                                       <| sv_processing_token := Some token |>
                                       <| sv_updated_at_ms := received_at_ms |>) in
               tx_ok (Reservation_Claimed claim)
           end
  | None =>
      let? _ := insert_delivery_row key {|
        sv_payload_digest := payload_digest; sv_processing_token := Some token;
        sv_status := Delivery_Processing; sv_outcome_json := None;
        sv_received_at_ms := received_at_ms; sv_updated_at_ms := received_at_ms |} in
      tx_ok (Reservation_Claimed claim)
  end.

Definition validate_delivery_outcome (claim : DeliveryClaim) (outcome : SourceIngressOutcome)
    : Result SourceError unit :=
  match outcome with
  | Ingress_Deployable delivery =>
      let mismatch := Source_CorruptLedger "deployable delivery binding" in
      if (vsd_channel delivery != dc_channel claim)
         || (vsd_delivery_id delivery != dc_delivery_id claim)
         || (vsd_payload_digest delivery != dc_payload_digest claim)
         || (ah_project_id (sah_payload (vsd_attestation delivery)) != dc_project_id claim)
      then Err mismatch
      else
        let? digest := attested (SignedAcceptedHead_digest (vsd_attestation delivery)) in
        ensure (vsd_attestation_digest delivery == digest) mismatch
  | _ => Ok tt
  end.

Definition enqueue_deployable_outcome (outcome : SourceIngressOutcome) (enqueued_at_ms : Z)
    : SourceTx unit :=
  match outcome with
  | Ingress_Deployable delivery =>
      let payload := sah_payload (vsd_attestation delivery) in
      let digest := vsd_attestation_digest delivery in
      let? _ := lift (ensure (ah_accepted_at_ms payload <=? enqueued_at_ms) Source_TimeRange) in
      let? source_sequence := lift (sequence_to_i64 (ah_sequence payload)) in
      let? canonical := lift (canonical_attestation (vsd_attestation delivery)) in
      let? _ := update_source_outbox
                  (λ _ row, (xo_project_id row == ah_project_id payload)
                            && (xo_source_sequence row <? source_sequence)
                            && (xo_status row == Outbox_Pending))
                  (λ row, row <| xo_status := Outbox_Superseded |>
                              <| xo_settled_at_ms := Some (Z.max (xo_enqueued_at_ms row) enqueued_at_ms) |>) in
      let? _ := insert_outbox_row {|
        xo_project_id := ah_project_id payload; xo_source_sequence := source_sequence;
        xo_attestation_json := canonical; xo_attestation_digest := digest;
        xo_status := Outbox_Pending; xo_enqueued_at_ms := enqueued_at_ms;
        xo_settled_at_ms := None |} in
      let? _ := update_source_outbox
                  (λ _ row, (xo_project_id row == ah_project_id payload)
                            && (xo_source_sequence row == source_sequence)
                            && (xo_attestation_digest row == digest)
                            && (xo_status row == Outbox_Superseded))
                  (λ row, row <| xo_status := Outbox_Pending |>
                              <| xo_enqueued_at_ms := enqueued_at_ms |>
                              <| xo_settled_at_ms := None |>) in
      let? persisted := reads (λ db, ok_or (Source_Sqlite QueryReturnedNoRows)
        (head (select_rows (λ _ row, xo_attestation_digest row == digest) (source_outbox db)))) in
      let? persisted := lift (decode_outbox_row persisted.1 persisted.2) in
      let? _ := lift (ensure ((soe_project_id persisted == ah_project_id payload)
                              && (soe_source_sequence persisted == ah_sequence payload)
                              && (soe_attestation persisted == vsd_attestation delivery)
                              && (soe_attestation_digest persisted == digest))
                        (Source_CorruptLedger "source outbox replay binding")) in
      prune_settled_outbox
  | _ => tx_ok tt
  end.

Definition finish_delivery (bound_epoch : Z) (claim : DeliveryClaim) (outcome : SourceIngressOutcome)
    (enqueue_deployable : bool) (completed_at_ms : Z) : SourceTx SourceIngressOutcome :=
  let? _ := require_bound_broker_epoch bound_epoch in
  let? _ := lift (validate_delivery_outcome claim outcome) in
  let? outcome_json := lift (map_err Source_Json (outcome_to_string outcome)) in
  let? changed := update_source_deliveries
                    (λ key row, (key == (dc_project_id claim, dc_channel claim, dc_delivery_id claim))
                                && (sv_payload_digest row == dc_payload_digest claim)
                                && (sv_processing_token row == Some (dc_processing_token claim))
                                && (sv_status row == Delivery_Processing))
                    (λ row, row <| sv_status := Delivery_Completed |>
                                <| sv_outcome_json := Some outcome_json |>
                                <| sv_processing_token := None |>
                                <| sv_updated_at_ms := completed_at_ms |>) in
  let? _ := lift (ensure (changed == 1) Source_DeliveryReservationLost) in
  let? _ := (if enqueue_deployable then enqueue_deployable_outcome outcome completed_at_ms
             else tx_ok tt) in
  tx_ok outcome.

Definition abandon_delivery (bound_epoch : Z) (claim : DeliveryClaim) (updated_at_ms : Z)
    : SourceTx unit :=
  let? _ := require_bound_broker_epoch bound_epoch in
  let? _ := update_source_deliveries
              (λ key row, (key == (dc_project_id claim, dc_channel claim, dc_delivery_id claim))
                          && (sv_processing_token row == Some (dc_processing_token claim))
                          && (sv_status row == Delivery_Processing))
              (λ row, row <| sv_status := Delivery_Recoverable |>
                          <| sv_updated_at_ms := updated_at_ms |>) in
  tx_ok tt.

Definition recover_incomplete_deliveries (bound_epoch recovered_at_ms : Z) : SourceTx Z :=
  let? _ := require_bound_broker_epoch bound_epoch in
  update_source_deliveries (λ _ row, sv_status row == Delivery_Processing)
    (λ row, row <| sv_status := Delivery_Recoverable |> <| sv_updated_at_ms := recovered_at_ms |>).

Definition recorded_delivery (project_id : ProjectId) (channel : SourceChannel) (delivery_id : string)
    (db : SourceDb) : Result SourceError (option SourceIngressOutcome) :=
  match source_deliveries db !! (project_id, channel, delivery_id) with
  | Some row =>
      if sv_status row == Delivery_Completed then
        match sv_outcome_json row with
        | Some json => let? outcome := map_err Source_Json (json_from_slice json) in Ok (Some outcome)
        | None => Ok None
        end
      else Ok None
  | None => Ok None
  end.

(** ** The outbox *)

Definition pending_outbox (bound_epoch limit : Z) : SourceTx (list SourceOutboxEntryV1) :=
  let? _ := lift (ensure ((1 <=? limit) && (limit <=? MAX_OUTBOX_BATCH)) Source_InvalidOutboxLimit) in
  let? _ := require_bound_broker_epoch bound_epoch in
  let? rows := gets (λ db, take (Z.to_nat limit) (sort_by rowid_compare (select_rows (λ _ row,
                 xo_status row == Outbox_Pending) (source_outbox db)))) in
  lift (mapM (λ entry, decode_outbox_row entry.1 entry.2) rows).

(** The pending entries of the projects that are not enabled are superseded. *)
Definition reconcile_outbox_policy (bound_epoch : Z) (enabled_projects : gset ProjectId)
    (reconciled_at_ms : Z) : SourceTx unit :=
  let? _ := lift (ensure (0 <=? reconciled_at_ms) Source_TimeRange) in
  let? _ := require_bound_broker_epoch bound_epoch in
  let? _ := update_source_outbox
              (λ _ row, negb (bool_decide (xo_project_id row ∈ enabled_projects))
                        && (xo_status row == Outbox_Pending))
              (λ row, row <| xo_status := Outbox_Superseded |>
                          <| xo_settled_at_ms := Some (Z.max (xo_enqueued_at_ms row) reconciled_at_ms) |>) in
  prune_settled_outbox.

Definition source_outbox_status (bound_epoch : Z) (project_id : ProjectId) (source_sequence : Z)
    (attestation_digest : EvidenceDigest) : SourceTx (option SourceOutboxStatus) :=
  let? _ := lift (ensure (source_sequence != 0) Source_SequenceRange) in
  let? source_sequence := lift (sequence_to_i64 source_sequence) in
  let? _ := require_bound_broker_epoch bound_epoch in
  gets (λ db, (λ entry : Z * SourceOutboxRow, xo_status entry.2) <$>
    head (select_rows (λ _ row, (xo_project_id row == project_id)
                                && (xo_source_sequence row == source_sequence)
                                && (xo_attestation_digest row == attestation_digest))
            (source_outbox db))).

Definition store_acknowledge_outbox (bound_epoch outbox_sequence : Z)
    (attestation_digest : EvidenceDigest) (acknowledged_at_ms : Z) : SourceTx unit :=
  let? _ := lift (ensure (negb ((outbox_sequence =? 0) || (acknowledged_at_ms <? 0)))
                    Source_InvalidOutboxAcknowledgement) in
  let? outbox_sequence := lift (ok_or Source_InvalidOutboxAcknowledgement (i64_try_from outbox_sequence)) in
  let? _ := require_bound_broker_epoch bound_epoch in
  let? row := reads (λ db, ok_or Source_OutboxEntryMissing (source_outbox db !! outbox_sequence)) in
  let? _ := lift (ensure (xo_attestation_digest row == attestation_digest)
                    Source_OutboxAcknowledgementConflict) in
  let? _ := lift (ensure (xo_enqueued_at_ms row <=? acknowledged_at_ms)
                    Source_InvalidOutboxAcknowledgement) in
  let? _ :=
    match xo_status row with
    | Outbox_Pending =>
        let? changed := update_source_outbox
                          (λ id row, (id == outbox_sequence)
                                     && (xo_attestation_digest row == attestation_digest)
                                     && (xo_status row == Outbox_Pending))
                          (λ row, row <| xo_status := Outbox_Delivered |>
                                      <| xo_settled_at_ms := Some acknowledged_at_ms |>) in
        lift (ensure (changed == 1) Source_OutboxAcknowledgementConflict)
    | Outbox_Delivered | Outbox_Superseded => tx_ok tt
    end in
  prune_settled_outbox.

(** ** Mutation tickets *)

Definition mutation_ticket_phase (phase : OperationPhase) : Result SourceError OperationPhase :=
  match phase with
  | Phase_CutoverSnapshotting => Ok Phase_BackingUp
  | Phase_BackingUp | Phase_Draining | Phase_Deploying => Ok phase
  | _ => Err Source_InvalidMutationTicketPhase
  end.

Definition has_pending_ref_update (project_id : ProjectId) (db : SourceDb) : bool :=
  is_some (source_ref_update_journal db !! project_id).

Definition acquire_mutation_ticket (bound_epoch : Z) (operation : OperationRecord) (now_ms : Z)
    : SourceTx unit :=
  let project_id := op_project_id operation in
  let evidence := op_evidence operation in
  let? target := lift (ok_or Source_HeadNotCurrent (op_target_commit operation)) in
  let? sequence := lift (ok_or Source_HeadNotCurrent (ev_source_sequence evidence)) in
  let? sequence_i64 := lift (sequence_to_i64 sequence) in
  let? attestation_digest := lift (ok_or Source_HeadNotCurrent (ev_source_attestation_digest evidence)) in
  let? phase := lift (mutation_ticket_phase (os_phase (op_state operation))) in
  let? _ := require_bound_broker_epoch bound_epoch in
  let? current := reads (load_snapshot project_id) in
  let? _ := lift (ensure ((ss_state current == Source_Ready) && (ss_head current == Some target)
                          && (ss_sequence current == sequence)
                          && (ss_attestation_digest current == Some attestation_digest))
                    Source_HeadNotCurrent) in
  let? _ := lift (ensure (ss_blocked_sha current != Some target) Source_BlockedSha) in
  let? pending := gets (has_pending_ref_update project_id) in
  let? _ := lift (ensure (negb pending) Source_MutationAdmissionBusy) in
  let? held := gets (λ db, source_mutation_tickets db !! project_id) in
  match held with
  | Some ticket =>
      lift (ensure ((mt_attempt_id ticket == op_attempt_id operation) && (mt_phase ticket == phase)
                    && (mt_source_sequence ticket == sequence_i64)
                    && (mt_attestation_digest ticket == attestation_digest))
              Source_MutationAdmissionBusy)
  | None =>
      insert_ticket_row project_id {|
        mt_attempt_id := op_attempt_id operation; mt_phase := phase;
        mt_source_sequence := sequence_i64; mt_attestation_digest := attestation_digest;
        mt_acquired_at_ms := now_ms |}
  end.

(** The stored phase a release in this phase is for; any in a reconciliation. *)
Definition release_phase_matches (release_phase stored_phase : OperationPhase) : bool :=
  match release_phase with
  | Phase_Draining => stored_phase == Phase_Draining
  | Phase_BackingUp | Phase_CutoverSnapshotting => stored_phase == Phase_BackingUp
  | Phase_Deploying => stored_phase == Phase_Deploying
  | Phase_Reconciliation => contains [Phase_BackingUp; Phase_Draining; Phase_Deploying] stored_phase
  | _ => false
  end.

Definition release_mutation_ticket (bound_epoch : Z) (operation : OperationRecord) : SourceTx unit :=
  let project_id := op_project_id operation in
  let evidence := op_evidence operation in
  let release_phase := os_phase (op_state operation) in
  let? _ := lift (ensure (contains [Phase_BackingUp; Phase_Draining; Phase_CutoverSnapshotting;
                                    Phase_Deploying; Phase_Reconciliation] release_phase)
                    Source_InvalidMutationTicketPhase) in
  let? source_sequence := lift (ok_or Source_MutationTicketMismatch (ev_source_sequence evidence)) in
  let? source_sequence := lift (sequence_to_i64 source_sequence) in
  let? digest := lift (ok_or Source_MutationTicketMismatch (ev_source_attestation_digest evidence)) in
  let? _ := require_bound_broker_epoch bound_epoch in
  let? existing := gets (λ db, source_mutation_tickets db !! project_id) in
  match existing with
  | Some ticket =>
      let? _ := lift (ensure ((mt_attempt_id ticket == op_attempt_id operation)
                              && release_phase_matches release_phase (mt_phase ticket)
                              && (mt_source_sequence ticket == source_sequence)
                              && (mt_attestation_digest ticket == digest))
                        Source_MutationTicketMismatch) in
      let? changed := delete_tickets (λ id row, (id == project_id)
                                                && (mt_attempt_id row == op_attempt_id operation)) in
      lift (ensure (changed == 1) Source_MutationTicketMismatch)
  | None => tx_ok tt
  end.

(** ** The update of the accepted reference *)

Definition begin_ref_update (bound_epoch : Z) (expected : SourceSnapshot)
    (signed : SignedAcceptedHeadV1) (digest : EvidenceDigest) : SourceTx unit :=
  let project_id := ss_project_id expected in
  let payload := sah_payload signed in
  let? _ := require_bound_broker_epoch bound_epoch in
  let? current := reads (load_snapshot project_id) in
  let? _ := lift (ensure ((ss_head current == ss_head expected)
                          && (ss_sequence current == ss_sequence expected)
                          && (ss_state current == Source_Ready)) Source_ConcurrentSourceUpdate) in
  let? ticket := gets (λ db, source_mutation_tickets db !! project_id) in
  let? _ := lift (ensure (is_none ticket) Source_MutationAdmissionBusy) in
  let? pending := gets (λ db, source_ref_update_journal db !! project_id) in
  match pending with
  | Some row =>
      let? sequence := lift (sequence_to_i64 (ah_sequence payload)) in
      lift (ensure ((ru_expected_head row == ss_head expected) && (ru_new_head row == ah_head payload)
                    && (ru_sequence row == sequence) && (ru_attestation_digest row == digest))
              Source_PendingRefUpdateConflict)
  | None =>
      let? sequence := lift (sequence_to_i64 (ah_sequence payload)) in
      let? json := lift (map_err Source_Json (signed_to_string signed)) in
      insert_ref_update_row project_id {|
        ru_expected_head := ss_head expected; ru_new_head := ah_head payload; ru_sequence := sequence;
        ru_signed_attestation_json := json; ru_attestation_digest := digest; ru_ref_updated := false;
        ru_started_at_ms := ah_accepted_at_ms payload; ru_updated_at_ms := ah_accepted_at_ms payload |}
  end.

Definition mark_ref_updated (bound_epoch : Z) (project_id : ProjectId) (digest : EvidenceDigest)
    (updated_at_ms : Z) : SourceTx unit :=
  let? _ := require_bound_broker_epoch bound_epoch in
  let? changed := update_ref_updates
                    (λ id row, (id == project_id) && (ru_attestation_digest row == digest))
                    (λ row, row <| ru_ref_updated := true |> <| ru_updated_at_ms := updated_at_ms |>) in
  lift (ensure (changed == 1) Source_PendingRefUpdateConflict).

Definition decode_pending (entry : ProjectId * RefUpdateRow) : Result SourceError PendingRefUpdate :=
  let row := entry.2 in
  let? signed := map_err Source_Json (json_from_slice (ru_signed_attestation_json row)) in
  Ok {| pru_project_id := entry.1; pru_expected_head := ru_expected_head row;
        pru_new_head := ru_new_head row; pru_signed := signed;
        pru_attestation_digest := ru_attestation_digest row;
        pru_ref_updated := ru_ref_updated row |}.

Definition project_compare {V} (l r : ProjectId * V) : comparison :=
  str_compare (ProjectId_as_str l.1) (ProjectId_as_str r.1).

Definition pending_ref_updates (db : SourceDb) : Result SourceError (list PendingRefUpdate) :=
  mapM decode_pending (sort_by project_compare (map_to_list (source_ref_update_journal db))).

Definition accept_if_current (bound_epoch : Z) (expected : SourceSnapshot)
    (signed : SignedAcceptedHeadV1) (digest : EvidenceDigest) : SourceTx unit :=
  let project_id := ss_project_id expected in
  let payload := sah_payload signed in
  let? _ := require_bound_broker_epoch bound_epoch in
  let? current := reads (load_snapshot project_id) in
  if (ss_state current == Source_Ready) && (ss_head current == Some (ah_head payload))
     && (ss_sequence current == ah_sequence payload) && (ss_attestation_digest current == Some digest)
  then delete_ref_updates (λ id row, (id == project_id) && (ru_attestation_digest row == digest))
  else
    let? _ := lift (ensure ((ss_head current == ss_head expected)
                            && (ss_sequence current == ss_sequence expected)
                            && (ss_state current == Source_Ready)) Source_ConcurrentSourceUpdate) in
    let? sequence := lift (sequence_to_i64 (ah_sequence payload)) in
    let? journal := gets (λ db, source_ref_update_journal db !! project_id) in
    let? _ := lift (ensure (opt_is_some_and journal (λ row,
                (ru_expected_head row == ss_head expected) && (ru_new_head row == ah_head payload)
                && (ru_sequence row == sequence) && (ru_attestation_digest row == digest)
                && ru_ref_updated row)) Source_PendingRefUpdateConflict) in
    let? attestation_json := lift (map_err Source_Json (signed_to_string signed)) in
    let? _ := insert_accepted_head (ah_project_id payload, sequence) {|
      ar_canonical_head := ah_head payload; ar_previous_head := ah_previous_head payload;
      ar_accepted_via := ah_accepted_via payload; ar_attestation_json := attestation_json;
      ar_attestation_digest := digest; ar_accepted_at_ms := ah_accepted_at_ms payload |} in
    let? _ := upsert_source_project (ah_project_id payload) {|
      sp_canonical_head := Some (ah_head payload); sp_sequence := sequence; sp_state := Source_Ready;
      sp_blocked_sha := ss_blocked_sha expected;
      sp_reconcile_paused_until_ms := ss_reconcile_paused_until_ms expected;
      sp_attestation_json := Some attestation_json; sp_attestation_digest := Some digest;
      sp_divergent_candidate := None; sp_divergence_channel := None;
      sp_divergence_evidence_digest := None; sp_updated_at_ms := ah_accepted_at_ms payload |}
      (λ row, row <| sp_canonical_head := Some (ah_head payload) |> <| sp_sequence := sequence |>
                  <| sp_state := Source_Ready |> <| sp_divergent_candidate := None |>
                  <| sp_divergence_channel := None |> <| sp_divergence_evidence_digest := None |>
                  <| sp_attestation_json := Some attestation_json |>
                  <| sp_attestation_digest := Some digest |>
                  <| sp_updated_at_ms := ah_accepted_at_ms payload |>) in
    delete_ref_updates (λ id row, (id == project_id) && (ru_attestation_digest row == digest)
                                  && ru_ref_updated row).

(** ** Divergence and controls *)

Definition mark_diverged (bound_epoch : Z) (project_id : ProjectId) (candidate : GitCommitId)
    (channel : SourceChannel) (evidence_digest : EvidenceDigest) (now_ms : Z) : SourceTx unit :=
  let? _ := require_bound_broker_epoch bound_epoch in
  let? current := reads (load_snapshot project_id) in
  let? _ := insert_divergence_event (project_id, evidence_digest) {|
    de_canonical_head := ss_head current; de_divergent_candidate := candidate;
    de_divergence_channel := channel; de_detected_at_ms := now_ms; de_resolved_at_ms := None;
    de_resolution := None |} in
  let? sequence := lift (sequence_to_i64 (ss_sequence current)) in
  let? json := lift (option_encode (ss_attestation current)) in
  upsert_source_project project_id {|
    sp_canonical_head := ss_head current; sp_sequence := sequence;
    sp_state := Source_DivergedNeedsOwner; sp_blocked_sha := ss_blocked_sha current;
    sp_reconcile_paused_until_ms := ss_reconcile_paused_until_ms current;
    sp_attestation_json := json; sp_attestation_digest := ss_attestation_digest current;
    sp_divergent_candidate := Some candidate; sp_divergence_channel := Some channel;
    sp_divergence_evidence_digest := Some evidence_digest; sp_updated_at_ms := now_ms |}
    (λ row,
       if sp_state row == Source_DivergedNeedsOwner then row <| sp_updated_at_ms := now_ms |>
       else row <| sp_state := Source_DivergedNeedsOwner |>
                <| sp_divergent_candidate := Some candidate |>
                <| sp_divergence_channel := Some channel |>
                <| sp_divergence_evidence_digest := Some evidence_digest |>
                <| sp_updated_at_ms := now_ms |>).

Definition store_set_controls (bound_epoch : Z) (project_id : ProjectId)
    (blocked_sha : option GitCommitId) (reconcile_paused_until_ms : option Z) (now_ms : Z)
    : SourceTx unit :=
  let? _ := lift (ensure (negb (opt_is_some_and reconcile_paused_until_ms (λ until, until <=? now_ms)))
                    (Source_InvalidControl "pause must end in the future")) in
  let? _ := require_bound_broker_epoch bound_epoch in
  let? current := reads (load_snapshot project_id) in
  let? sequence := lift (sequence_to_i64 (ss_sequence current)) in
  let? json := lift (option_encode (ss_attestation current)) in
  upsert_source_project project_id {|
    sp_canonical_head := ss_head current; sp_sequence := sequence; sp_state := ss_state current;
    sp_blocked_sha := blocked_sha; sp_reconcile_paused_until_ms := reconcile_paused_until_ms;
    sp_attestation_json := json; sp_attestation_digest := ss_attestation_digest current;
    sp_divergent_candidate := None; sp_divergence_channel := None;
    sp_divergence_evidence_digest := None; sp_updated_at_ms := now_ms |}
    (λ row, row <| sp_blocked_sha := blocked_sha |>
                <| sp_reconcile_paused_until_ms := reconcile_paused_until_ms |>
                <| sp_updated_at_ms := now_ms |>).

Definition store_resolve_divergence (bound_epoch : Z) (project_id : ProjectId)
    (expected_head : option GitCommitId) (divergence_evidence_digest : EvidenceDigest) (now_ms : Z)
    : SourceTx unit :=
  let? _ := require_bound_broker_epoch bound_epoch in
  let? current := reads (load_snapshot project_id) in
  let? _ := lift (ensure ((ss_state current == Source_DivergedNeedsOwner)
                          && (ss_head current == expected_head)
                          && (ss_divergence_evidence_digest current == Some divergence_evidence_digest))
                    Source_OwnerResolutionMismatch) in
  let? changed := update_source_projects
                    (λ id row, (id == project_id) && (sp_canonical_head row == expected_head)
                               && (sp_divergence_evidence_digest row == Some divergence_evidence_digest)
                               && (sp_state row == Source_DivergedNeedsOwner))
                    (λ row, row <| sp_state := Source_Ready |> <| sp_divergent_candidate := None |>
                                <| sp_divergence_channel := None |>
                                <| sp_divergence_evidence_digest := None |>
                                <| sp_updated_at_ms := now_ms |>) in
  let? _ := lift (ensure (changed == 1) Source_OwnerResolutionMismatch) in
  let? _ := delete_ref_updates (λ id _, id == project_id) in
  let? recorded := gets (λ db, is_some (source_divergence_events db !! (project_id, divergence_evidence_digest))) in
  let? resolved := update_divergence_events
                     (λ key row, (key.1 == project_id) && is_none (de_resolved_at_ms row) && recorded)
                     (λ row, row <| de_resolved_at_ms := Some now_ms |>
                                 <| de_resolution := Some "keep_canonical_head"%string |>) in
  lift (ensure (resolved != 0) (Source_CorruptLedger "divergence audit event")).
End Source.
