(* ===== verification/SourceRepository.v ===== *)
(** * The source broker: repositories

    The trait [SourceRepository] of [src/src/source.rs] as a class, what the broker
    relies on as its laws, and [DeterministicSourceRepository] as an instance with its
    proof of the laws: the commit graph by parents, the remote and the accepted heads. *)

From Stdlib Require Import ZArith Lia Ascii String.
From stdpp Require Import base gmap strings option list_numbers list relations.
From S2P Require Import Prelude Identifiers SourceDb.

Local Open Scope Z_scope.

(** ** The trait *)

(** A repository of state [R]; the operations that may change it return it. *)
Class SourceRepository (R : Type) := {
  repository_identity : ProjectId → R → Result SourceError EvidenceDigest;
  fetch_remote_main : ProjectId → R → R * Result SourceError GitCommitId;
  fetch_remote_main_reconciliation : ProjectId → R → R * Result SourceError GitCommitId;
  notify_priority_fetch : ProjectId → R → R * Result SourceError unit;
  clear_priority_fetch : ProjectId → R → R * Result SourceError unit;
  contains_commit : ProjectId → GitCommitId → R → Result SourceError bool;
  relationship : ProjectId → GitCommitId → GitCommitId → R → Result SourceError CommitRelationship;
  accepted_head : ProjectId → R → Result SourceError (option GitCommitId);
  compare_and_swap_accepted_head :
    ProjectId → option GitCommitId → GitCommitId → R → R * Result SourceError bool;
  accepted_tree_metrics : ProjectId → GitCommitId → R → Result SourceError (Z * Z)
}.

(** What the broker relies on: only a commit is the same as itself, [accepted_head] reads the accepted reference, fetching
    and signalling leave it alone, and a compare-and-swap changes it only for the
    project, from the expected value to the candidate, whatever it reports, except that
    it does not report a success it did not make. *)
Class SourceRepositoryLaws (R : Type) `{!SourceRepository R} := {
  accepted_ref : R → ProjectId → option GitCommitId;
  relationship_same project current candidate r :
    relationship project current candidate r = Ok Relationship_Same → current = candidate;
  accepted_head_reads project r head : accepted_head project r = Ok head → head = accepted_ref r project;
  fetch_keeps project r : accepted_ref (fetch_remote_main project r).1 = accepted_ref r;
  fetch_reconciliation_keeps project r :
    accepted_ref (fetch_remote_main_reconciliation project r).1 = accepted_ref r;
  notify_keeps project r : accepted_ref (notify_priority_fetch project r).1 = accepted_ref r;
  clear_keeps project r : accepted_ref (clear_priority_fetch project r).1 = accepted_ref r;
  swap_other project expected candidate r other :
    other ≠ project →
    accepted_ref (compare_and_swap_accepted_head project expected candidate r).1 other
    = accepted_ref r other;
  swap_same project expected candidate r :
    let r' := (compare_and_swap_accepted_head project expected candidate r).1 in
    accepted_ref r' project = accepted_ref r project
    ∨ (accepted_ref r project = expected ∧ accepted_ref r' project = Some candidate);
  swap_true project expected candidate r r' :
    compare_and_swap_accepted_head project expected candidate r = (r', Ok true) →
    accepted_ref r' project = Some candidate
}.

(** ** The deterministic repository *)

#[global] Instance GitCommitId_countable : Countable GitCommitId.
Proof. by refine (inj_countable' GitCommitId_as_str MkGitCommitId _); intros []. Defined.

Record DeterministicSourceRepository : Type := MkDeterministicSourceRepository {
  dr_repository_identities : gmap ProjectId EvidenceDigest;
  dr_remote_heads : gmap ProjectId GitCommitId;
  dr_accepted_heads : gmap ProjectId GitCommitId;
  dr_parents : gmap (ProjectId * GitCommitId) (option GitCommitId)
}.

#[global] Instance DeterministicSourceRepository_eta : Eta DeterministicSourceRepository := λ r,
  MkDeterministicSourceRepository (dr_repository_identities r) (dr_remote_heads r)
    (dr_accepted_heads r) (dr_parents r).

Definition DeterministicSourceRepository_default : DeterministicSourceRepository :=
  MkDeterministicSourceRepository ∅ ∅ ∅ ∅.

Definition set_repository_identity (project_id : ProjectId) (identity : EvidenceDigest)
    (r : DeterministicSourceRepository) : DeterministicSourceRepository :=
  r <| dr_repository_identities := <[project_id := identity]> (dr_repository_identities r) |>.

Definition insert_commit (project_id : ProjectId) (commit : GitCommitId) (parent : option GitCommitId)
    (r : DeterministicSourceRepository) : DeterministicSourceRepository :=
  r <| dr_parents := <[(project_id, commit) := parent]> (dr_parents r) |>.

Definition set_remote_head (project_id : ProjectId) (head : GitCommitId)
    (r : DeterministicSourceRepository) : DeterministicSourceRepository * Result SourceError unit :=
  match dr_parents r !! (project_id, head) with
  | None => (r, Err (Source_Repository "remote head is not present in the canonical object model"))
  | Some _ => (r <| dr_remote_heads := <[project_id := head]> (dr_remote_heads r) |>, Ok tt)
  end.

(** The walk from [cursor] along the parents; [visited] ends it at a cycle. *)
Fixpoint ancestor_loop (fuel : nat) (project_id : ProjectId) (ancestor : GitCommitId)
    (cursor : option GitCommitId) (visited : gset GitCommitId) (r : DeterministicSourceRepository)
    : Result SourceError bool :=
  match cursor, fuel with
  | None, _ => Ok false
  | Some _, O => Err (Source_Repository "commit graph cycle")
  | Some commit, S fuel =>
      if commit == ancestor then Ok true
      else if bool_decide (commit ∈ visited) then Err (Source_Repository "commit graph cycle")
      else
        let? parent := ok_or (Source_Repository "commit graph is incomplete")
                         (dr_parents r !! (project_id, commit)) in
        ancestor_loop fuel project_id ancestor parent ({[commit]} ∪ visited) r
  end.

(** Each iteration but the last two visits a new commit of the graph. *)
Definition is_ancestor (r : DeterministicSourceRepository) (project_id : ProjectId)
    (ancestor descendant : GitCommitId) : Result SourceError bool :=
  ancestor_loop (S (S (size (dr_parents r)))) project_id ancestor (Some descendant) ∅ r.

Definition deterministic_relationship (project_id : ProjectId) (current candidate : GitCommitId)
    (r : DeterministicSourceRepository) : Result SourceError CommitRelationship :=
  if current == candidate then Ok Relationship_Same
  else
    let? current_is_ancestor := is_ancestor r project_id current candidate in
    let? candidate_is_ancestor := is_ancestor r project_id candidate current in
    match current_is_ancestor, candidate_is_ancestor with
    | true, false => Ok Relationship_FastForward
    | false, true => Ok Relationship_Rewind
    | false, false => Ok Relationship_Diverged
    | true, true => Err (Source_Repository "commit graph cycle")
    end.

Definition deterministic_compare_and_swap (project_id : ProjectId) (expected : option GitCommitId)
    (candidate : GitCommitId) (r : DeterministicSourceRepository)
    : DeterministicSourceRepository * Result SourceError bool :=
  match dr_parents r !! (project_id, candidate) with
  | None => (r, Err (Source_Repository "accepted candidate is missing from the object model"))
  | Some _ =>
      if dr_accepted_heads r !! project_id != expected then (r, Ok false)
      else (r <| dr_accepted_heads := <[project_id := candidate]> (dr_accepted_heads r) |>, Ok true)
  end.

Definition deterministic_fetch (project_id : ProjectId) (r : DeterministicSourceRepository)
    : DeterministicSourceRepository * Result SourceError GitCommitId :=
  (r, ok_or (Source_Repository "remote main is unavailable") (dr_remote_heads r !! project_id)).

#[global] Instance deterministic_repository : SourceRepository DeterministicSourceRepository := {|
  repository_identity project_id r :=
    ok_or (Source_UnknownProject (ProjectId_as_str project_id)) (dr_repository_identities r !! project_id);
  fetch_remote_main := deterministic_fetch;
  fetch_remote_main_reconciliation := deterministic_fetch;
  notify_priority_fetch _ r := (r, Ok tt);
  clear_priority_fetch _ r := (r, Ok tt);
  contains_commit project_id commit r := Ok (is_some (dr_parents r !! (project_id, commit)));
  relationship := deterministic_relationship;
  accepted_head project_id r := Ok (dr_accepted_heads r !! project_id);
  compare_and_swap_accepted_head := deterministic_compare_and_swap;
  accepted_tree_metrics _ _ _ :=
    Err (Source_Repository "accepted source tree metrics are unavailable")
|}.

#[global] Instance deterministic_repository_laws : SourceRepositoryLaws DeterministicSourceRepository.
Proof.
  refine {| accepted_ref r project := dr_accepted_heads r !! project |}; simpl; try done.
  - intros project current candidate r. unfold deterministic_relationship.
    destruct (bool_decide_reflect (current = candidate)) as [|_]; [done|].
    destruct (is_ancestor r project current candidate) as [[]|]; simpl; [| |done];
      destruct (is_ancestor r project candidate current) as [[]|]; done.
  - by intros project r head [= <-].
  - intros project expected candidate r other Hne. unfold deterministic_compare_and_swap.
    destruct (dr_parents r !! (project, candidate)); [|done]. case_match; [done|]. simpl.
    by rewrite lookup_insert_ne.
  - intros project expected candidate r. unfold deterministic_compare_and_swap.
    destruct (dr_parents r !! (project, candidate)); [|by left].
    destruct (bool_decide_reflect (dr_accepted_heads r !! project = expected)); simpl; [|by left].
    right. by rewrite lookup_insert_eq.
  - intros project expected candidate r r'. unfold deterministic_compare_and_swap.
    destruct (dr_parents r !! (project, candidate)); [|done]. case_match; [done|].
    intros [= <-]. simpl. apply lookup_insert_eq.
Defined.
