(* ===== verification/SourceBroker.v ===== *)
(** * The source broker

    Model of [DurableSourceBroker] of [src/src/source.rs]: the ingress of pushes,
    webhooks and reconciliations, the update of the accepted reference with its recovery,
    divergence, controls, the admission of a recorded delivery to the controller, and the
    gate a mutation passes.  A call acts on the database and the repository in steps that
    last: each transaction and each operation on the repository.  [Call] keeps the
    worlds after these steps, since a crash can end a call at any of them.  The lock
    file is a parameter: whether the broker still holds a trusted one. *)

From Stdlib Require Import ZArith Lia Ascii String.
From stdpp Require Import base gmap strings pretty option list_numbers list.
From S2P Require Import Prelude Identifiers States Text Ordered Operation Workflow Errors Controller SourceDb Source SourceRepository.

Local Open Scope Z_scope.

(** ** Worlds and calls *)

Record World (R : Type) : Type := MkWorld {
  w_db : SourceDb;
  w_repository : R
}.
Arguments MkWorld {R}.
Arguments w_db {R}.
Arguments w_repository {R}.

(** The worlds after each lasting step, the last world, and the result. *)
Definition Call (E R A : Type) : Type := World R → list (World R) * (World R * Result E A).

#[global] Instance call_ret E R : MRet (Call E R) := λ A a w, ([], (w, Ok a)).
#[global] Instance call_bind E R : MBind (Call E R) := λ A B f m w,
  match m w with
  | (trace, (w', Ok a)) => let '(trace', last) := f a w' in (trace ++ trace', last)
  | (trace, (w', Err e)) => (trace, (w', Err e))
  end.

Abbreviation Broker R := (Call SourceError R) (only parsing).

Section Steps.
Context {E R A : Type}.

Definition call_ok (a : A) : Call E R A := λ w, ([], (w, Ok a)).
Definition call_lift (r : Result E A) : Call E R A := λ w, ([], (w, r)).

(** A read outside a transaction. *)
Definition store_read (f : SourceDb → Result E A) : Call E R A := λ w, ([], (w, f (w_db w))).
Definition repository_read (f : R → Result E A) : Call E R A := λ w, ([], (w, f (w_repository w))).

(** A transaction: a lasting step. *)
Definition store (body : Tx SourceDb E A) : Call E R A := λ w,
  let '(db, r) := immediate_transaction body (w_db w) in
  let w' := MkWorld db (w_repository w) in
  ([w'], (w', r)).

Definition repository_step (f : R → R * Result E A) : Call E R A := λ w,
  let '(repository, r) := f (w_repository w) in
  let w' := MkWorld (w_db w) repository in
  ([w'], (w', r)).

(** The result of a call as a value. *)
Definition attempt_call (m : Call E R A) : Call E R (Result E A) := λ w,
  let '(trace, (w', r)) := m w in (trace, (w', Ok r)).

(** [map_err] on a call. *)
Definition call_map_err {F} (f : E → F) (m : Call E R A) : Call F R A := λ w,
  let '(trace, (w', r)) := m w in (trace, (w', map_err f r)).
End Steps.

Fixpoint call_for_each {E R A} (f : A → Call E R unit) (l : list A) : Call E R unit :=
  match l with
  | [] => call_ok tt
  | x :: r => let? _ := f x in call_for_each f r
  end.

(** ** The broker *)

Record DurableSourceBroker `{!SourceCrypto} : Type := MkDurableSourceBroker {
  br_bound_epoch : Z;
  br_lease_epoch : Z;
  br_key_id : string;
  br_signing_key : SigningKey;
  br_verifier : gmap string VerifyingKey;
  br_attestation_ttl_ms : Z;
  br_policies : gmap ProjectId InstalledSourceProjectPolicy
}.

Section SourceBroker.
Context `{!SourceCodecs, !SourceCrypto}.
Context {R : Type} `{!SourceRepository R}.
Context (lock_trusted : Result SourceError unit).
Abbreviation Broker := (Call SourceError R) (only parsing).

(** [self.policies.values()]: in the order of the project identifiers. *)
Definition policy_values (broker : DurableSourceBroker) : list InstalledSourceProjectPolicy :=
  (sort_by project_compare (map_to_list (br_policies broker))).*2.

Definition policy (broker : DurableSourceBroker) (project_id : ProjectId)
    : Result SourceError InstalledSourceProjectPolicy :=
  ok_or (Source_UnknownProject (ProjectId_as_str project_id)) (br_policies broker !! project_id).

Definition require_current_lease (broker : DurableSourceBroker) : Broker unit :=
  let? _ := call_lift (ensure (br_bound_epoch broker == br_lease_epoch broker)
                           Source_BrokerLeaseSuperseded) in
  let? _ := store_read (require_broker_epoch (br_lease_epoch broker)) in
  call_lift lock_trusted.

Definition lock_coordination (broker : DurableSourceBroker) (project_id : ProjectId) : Broker unit :=
  let? _ := require_current_lease broker in
  let? _ := call_lift (policy broker project_id) in
  require_current_lease broker.

Definition mark_ref_diverged (broker : DurableSourceBroker) (project_id : ProjectId)
    (intended_head : GitCommitId) (channel : SourceChannel) (intent_digest : EvidenceDigest)
    (observed_head : option GitCommitId) (now_ms : Z) : Broker unit :=
  let evidence := EvidenceDigest_sha256 (lines_of
    ["source-ref-cas-divergence.v1"%string; ProjectId_as_str project_id;
     GitCommitId_as_str intended_head; commit_or_dash observed_head;
     EvidenceDigest_as_str intent_digest]) in
  store (mark_diverged (br_bound_epoch broker) project_id (default intended_head observed_head)
           channel evidence now_ms).

(** Whether the accepted reference is the candidate, after trying to move it there;
    and if not, the reference read last. *)
Definition move_reference (broker : DurableSourceBroker) (project_id : ProjectId)
    (expected : option GitCommitId) (candidate : GitCommitId) (may_swap : bool)
    : Broker (bool * option GitCommitId) :=
  let? observed := repository_read (accepted_head project_id) in
  let? ref_is_candidate :=
    (if observed == Some candidate then call_ok true
     else if may_swap && (observed == expected) then
       let? _ := require_current_lease broker in
       let? swapped := repository_step (compare_and_swap_accepted_head project_id expected candidate) in
       if swapped : bool then call_ok true
       else let? observed := repository_read (accepted_head project_id) in
            call_ok (observed == Some candidate)
     else call_ok false) in
  if ref_is_candidate : bool then call_ok (true, None)
  else
    let? observed_after_cas := repository_read (accepted_head project_id) in
    call_ok (observed_after_cas == Some candidate, observed_after_cas).

Definition advance_ref_update (broker : DurableSourceBroker) (expected : SourceSnapshot)
    (signed : SignedAcceptedHeadV1) (digest : EvidenceDigest) (now_ms : Z) : Broker bool :=
  let epoch := br_bound_epoch broker in
  let payload := sah_payload signed in
  let? _ := store (begin_ref_update epoch expected signed digest) in
  let? ' (ref_is_candidate, observed) :=
    move_reference broker (ss_project_id expected) (ss_head expected) (ah_head payload) true in
  if negb ref_is_candidate then
    let? _ := mark_ref_diverged broker (ss_project_id expected) (ah_head payload)
                (ah_accepted_via payload) digest observed now_ms in
    call_ok false
  else
    let? _ := store (mark_ref_updated epoch (ss_project_id expected) digest now_ms) in
    let? _ := store (accept_if_current epoch expected signed digest) in
    call_ok true.

Definition recover_ref_update (broker : DurableSourceBroker) (pending : PendingRefUpdate)
    (recovered_at_ms : Z) : Broker unit :=
  let epoch := br_bound_epoch broker in
  let? payload := call_lift (attested (verify_live (br_verifier broker) (pru_signed pending))) in
  let? policy := call_lift (policy broker (pru_project_id pending)) in
  let? digest := call_lift (attested (SignedAcceptedHead_digest (pru_signed pending))) in
  let? _ := call_lift (ensure ((digest == pru_attestation_digest pending)
                                 && (ah_project_id payload == pru_project_id pending)
                                 && (ah_head payload == pru_new_head pending)
                                 && (ah_previous_head payload == pru_expected_head pending)
                                 && (ah_installed_policy payload == isp_installed_policy policy)
                                 && (ah_repository_identity payload == isp_repository_identity policy))
                           (Source_CorruptLedger "pending ref attestation binding")) in
  let? expected_snapshot := store_read (load_snapshot (pru_project_id pending)) in
  if ss_state expected_snapshot == Source_DivergedNeedsOwner then call_ok tt
  else if (ss_head expected_snapshot == Some (pru_new_head pending))
          && (ss_sequence expected_snapshot == ah_sequence payload)
          && (ss_attestation_digest expected_snapshot == Some (pru_attestation_digest pending))
  then store (accept_if_current epoch expected_snapshot (pru_signed pending)
                (pru_attestation_digest pending))
  else
    let? _ := call_lift (ensure ((ss_head expected_snapshot == pru_expected_head pending)
                                   && (u64_checked_add (ss_sequence expected_snapshot) 1
                                       == Some (ah_sequence payload)))
                             (Source_CorruptLedger "pending ref sequence binding")) in
    let? ' (ref_is_candidate, observed) :=
      move_reference broker (pru_project_id pending) (pru_expected_head pending)
        (pru_new_head pending) (negb (pru_ref_updated pending)) in
    if negb ref_is_candidate then
      mark_ref_diverged broker (pru_project_id pending) (pru_new_head pending)
        (ah_accepted_via (sah_payload (pru_signed pending))) (pru_attestation_digest pending)
        observed recovered_at_ms
    else
      let? _ := store (mark_ref_updated epoch (pru_project_id pending)
                         (pru_attestation_digest pending) recovered_at_ms) in
      store (accept_if_current epoch expected_snapshot (pru_signed pending)
               (pru_attestation_digest pending)).

(** A project with no pending update: its reference is compared with the ledger. *)
Definition recover_project (broker : DurableSourceBroker) (recovered_at_ms : Z)
    (policy : InstalledSourceProjectPolicy) : Broker unit :=
  let project_id := isp_project_id policy in
  let? snapshot := store_read (load_snapshot project_id) in
  if ss_state snapshot == Source_DivergedNeedsOwner then call_ok tt
  else
    let? repository_head := repository_read (accepted_head project_id) in
    if repository_head == ss_head snapshot then call_ok tt
    else
      let? candidate := call_lift (ok_or (Source_CorruptLedger "empty source ref mismatch")
        match repository_head with Some head => Some head | None => ss_head snapshot end) in
      let evidence := EvidenceDigest_sha256 (lines_of
        ["source-ref-startup-mismatch.v1"%string; ProjectId_as_str project_id;
         commit_or_dash (ss_head snapshot); commit_or_dash repository_head]) in
      store (mark_diverged (br_bound_epoch broker) project_id candidate Source_SourceReconciliation
               evidence recovered_at_ms).

Definition recover_source_state (broker : DurableSourceBroker) (recovered_at_ms : Z) : Broker unit :=
  let? _ := require_current_lease broker in
  let? pending_updates := store_read pending_ref_updates in
  let pending_projects := pru_project_id <$> pending_updates in
  let? _ := call_for_each (λ pending, recover_ref_update broker pending recovered_at_ms) pending_updates in
  let? _ := call_for_each (λ policy,
              if contains pending_projects (isp_project_id policy) then call_ok tt
              else recover_project broker recovered_at_ms policy) (policy_values broker) in
  let? _ := store (recover_incomplete_deliveries (br_bound_epoch broker) recovered_at_ms) in
  call_ok tt.

(** [for policy in installed_policies { .. policies.insert(..) }]. *)
Fixpoint install_policies (installed : list InstalledSourceProjectPolicy)
    (policies : gmap ProjectId InstalledSourceProjectPolicy) (repository : R)
    : Result SourceError (gmap ProjectId InstalledSourceProjectPolicy) :=
  match installed with
  | [] => Ok policies
  | policy :: rest =>
      let? _ := InstalledSourceProjectPolicy_validate policy in
      let? identity := repository_identity (isp_project_id policy) repository in
      let? _ := ensure (identity == isp_repository_identity policy) Source_RepositoryIdentityMismatch in
      if is_some (policies !! isp_project_id policy) then Err Source_DuplicateInstalledProject
      else install_policies rest (<[isp_project_id policy := policy]> policies) repository
  end.

Definition reconcile_priority_fetch_signal (broker : DurableSourceBroker) (project_id : ProjectId)
    : Broker unit :=
  let? _ := repository_step (clear_priority_fetch project_id) in
  let? pending := store (pending_github_wakeups (br_bound_epoch broker) project_id 1) in
  match pending with
  | [] => call_ok tt
  | _ => repository_step (notify_priority_fetch project_id)
  end.

(** [DurableSourceBroker::new]; [lock_acquired] is the outcome of taking the lock
    file. *)
Definition new_broker (key_id : string) (signing_key : SigningKey) (attestation_ttl_ms : Z)
    (installed_policies : list InstalledSourceProjectPolicy) (lock_acquired : Result SourceError unit)
    (started_at_ms : Z) : Broker DurableSourceBroker :=
  let? _ := call_lift (attested (validate_key_id key_id)) in
  let? _ := call_lift (ensure ((10000 <=? attestation_ttl_ms) && (attestation_ttl_ms <=? 3600000))
    (Source_InvalidControl "attestation TTL must be between 10 seconds and one hour")) in
  let? verifier := call_lift (attested (SourceAttestationVerifier_new
                     {[key_id := verifying_key signing_key]})) in
  let? _ := call_lift (ensure (negb (Nat.eqb (length installed_policies) 0))
                           Source_InvalidInstalledPolicy) in
  let? policies := repository_read (install_policies installed_policies ∅) in
  let? _ := call_lift (ensure (0 <=? started_at_ms) Source_TimeRange) in
  let? _ := call_lift lock_acquired in
  let? epoch := store (acquire_broker_lease started_at_ms) in
  let broker := {|
    br_bound_epoch := epoch; br_lease_epoch := epoch; br_key_id := key_id;
    br_signing_key := signing_key; br_verifier := verifier;
    br_attestation_ttl_ms := attestation_ttl_ms; br_policies := policies |} in
  let? _ := recover_source_state broker started_at_ms in
  let? _ := store (reconcile_github_wakeup_policy epoch (isp_github_repository <$> policies)) in
  let? _ := call_for_each (λ policy,
              let? pending := store (pending_github_wakeups epoch (isp_project_id policy) 1) in
              match pending with
              | [] => call_ok tt
              | _ => repository_step (notify_priority_fetch (isp_project_id policy))
              end) (policy_values broker) in
  let? _ := store (reconcile_outbox_policy epoch
                     (dom (filter (λ entry, isp_auto_deploy entry.2 = true) policies)) started_at_ms) in
  call_ok broker.
End SourceBroker.
