(* ===== verification/SourceIngress.v ===== *)
(** * The source broker: ingress, admission and the live gate

    The public operations of [DurableSourceBroker] in [src/src/source.rs]: the queries
    and the owner's controls, webhooks, reconciliation and direct pushes with the
    processing of a candidate, the admission of a recorded delivery to the durable
    controller, and the gate a mutation passes ([LiveSourceGate]). *)

From Stdlib Require Import ZArith Lia Ascii String.
From stdpp Require Import base gmap strings pretty option list_numbers list.
From S2P Require Import Prelude Identifiers States Text Ordered Operation Workflow Errors Controller SourceDb Source SourceRepository SourceBroker.

Local Open Scope Z_scope.

Definition SourceChannel_controller_channel (channel : SourceChannel) : DeliveryChannel :=
  match channel with
  | Source_GithubWebhook => Channel_GithubWebhook
  | Source_SourceReconciliation => Channel_SourceReconciliation
  | Source_DirectPush => Channel_DirectPush
  end.

Definition source_ticket_gate_error (error : SourceError) : SourceGateError :=
  match error with
  | Source_HeadNotCurrent => Gate_HeadSuperseded
  | Source_BlockedSha => Gate_BlockedSha
  | _ => Gate_Unavailable
  end.

Section SourceIngress.
Context `{!SourceCodecs, !SourceCrypto}.
Context {R : Type} `{!SourceRepository R}.
Context (lock_trusted : Result SourceError unit).
Abbreviation Broker := (Call SourceError R) (only parsing).
Abbreviation Gate := (Call SourceGateError R) (only parsing).
Abbreviation require_current_lease := (require_current_lease lock_trusted) (only parsing).
Abbreviation lock_coordination := (lock_coordination lock_trusted) (only parsing).

(** ** Queries and controls *)

Definition broker_pending_outbox (broker : DurableSourceBroker) (limit : Z)
    : Broker (list SourceOutboxEntryV1) :=
  let? _ := require_current_lease broker in
  store (pending_outbox (br_bound_epoch broker) limit).

Definition current_shadow_entry (broker : DurableSourceBroker) (project_id : ProjectId)
    (observed_at_ms : Z) : Broker SourceShadowEntryV1 :=
  if observed_at_ms <? 0 then call_lift (Err Source_TimeRange)
  else
    let? _ := lock_coordination broker project_id in
    let? snapshot := store_read (load_snapshot project_id) in
    if (ss_state snapshot != Source_Ready) || is_none (ss_head snapshot)
       || (ss_blocked_sha snapshot == ss_head snapshot)
    then call_lift (Err Source_HeadNotCurrent)
    else
      let? attestation := call_lift (ok_or Source_HeadNotCurrent (ss_attestation snapshot)) in
      let? attestation_digest := call_lift (ok_or Source_HeadNotCurrent (ss_attestation_digest snapshot)) in
      let? payload := call_lift (attested (verify (br_verifier broker) attestation observed_at_ms)) in
      let? installed_policy := call_lift (policy broker project_id) in
      if (ah_project_id payload != project_id) || (Some (ah_head payload) != ss_head snapshot)
         || (ah_sequence payload != ss_sequence snapshot)
      then call_lift (Err Source_HeadNotCurrent)
      else
        let? digest := call_lift (attested (SignedAcceptedHead_digest attestation)) in
        if (digest != attestation_digest)
           || (ah_installed_policy payload != isp_installed_policy installed_policy)
           || (ah_repository_identity payload != isp_repository_identity installed_policy)
        then call_lift (Err Source_HeadNotCurrent)
        else
          let entry := {|
            sse_schema_version := 1; sse_project_id := project_id;
            sse_source_sequence := ah_sequence payload; sse_attestation := attestation;
            sse_attestation_digest := attestation_digest; sse_observed_at_ms := observed_at_ms |} in
          let? _ := call_lift (SourceShadowEntry_validate entry) in
          call_ok entry.

Definition acknowledge_outbox (broker : DurableSourceBroker) (outbox_sequence : Z)
    (attestation_digest : EvidenceDigest) (acknowledged_at_ms : Z) : Broker unit :=
  let? _ := require_current_lease broker in
  store (store_acknowledge_outbox (br_bound_epoch broker) outbox_sequence attestation_digest
           acknowledged_at_ms).

Definition source_tree_observation (broker : DurableSourceBroker) (project_id : ProjectId)
    : Broker SourceTreeObservationV1 :=
  let? _ := lock_coordination broker project_id in
  let? snapshot := store_read (load_snapshot project_id) in
  if ss_state snapshot != Source_Ready then
    call_lift (Err (Source_Repository
      "accepted source tree is unavailable while source reconciliation needs owner action"))
  else
    let? head := call_lift (ok_or (Source_Repository "accepted source tree has no canonical head")
                              (ss_head snapshot)) in
    let? ' (file_count, total_bytes) := repository_read (accepted_tree_metrics project_id head) in
    call_ok {| sto_project_id := project_id; sto_head := head; sto_file_count := file_count;
               sto_total_bytes := total_bytes |}.

Definition resolve_divergence_keep_canonical (broker : DurableSourceBroker) (project_id : ProjectId)
    (expected_head : option GitCommitId) (divergence_evidence_digest : EvidenceDigest) (now_ms : Z)
    : Broker unit :=
  let? _ := lock_coordination broker project_id in
  let? repository_head := repository_read (accepted_head project_id) in
  let? _ := call_lift (ensure (repository_head == expected_head) Source_OwnerResolutionMismatch) in
  store (store_resolve_divergence (br_bound_epoch broker) project_id expected_head
           divergence_evidence_digest now_ms).

Definition set_controls (broker : DurableSourceBroker) (project_id : ProjectId)
    (blocked_sha : option GitCommitId) (reconcile_paused_until_ms : option Z) (now_ms : Z)
    : Broker unit :=
  let? _ := lock_coordination broker project_id in
  store (store_set_controls (br_bound_epoch broker) project_id blocked_sha
           reconcile_paused_until_ms now_ms).

(** ** A candidate *)

Definition existing_same_head_delivery (current : SourceSnapshot) (ingress : CandidateIngress)
    (outbox_status : option SourceOutboxStatus) : Result SourceError (option SourceIngressOutcome) :=
  let? attestation := ok_or (Source_CorruptLedger "current head lacks attestation")
                        (ss_attestation current) in
  let payload := sah_payload attestation in
  let policy := ci_installed_policy ingress in
  let expired := ah_expires_at_ms payload <=? ci_now_ms ingress in
  let expired_attestation_must_be_delivered :=
    expired && isp_auto_deploy policy && (outbox_status != Some Outbox_Delivered) in
  let explicit_shadow_refresh := expired && ci_refresh_expired_same_head ingress in
  if (ah_installed_policy payload != isp_installed_policy policy)
     || (ah_repository_identity payload != isp_repository_identity policy)
     || expired_attestation_must_be_delivered || explicit_shadow_refresh
  then Ok None
  else
    let? attestation_digest := ok_or (Source_CorruptLedger "current head lacks attestation digest")
                                 (ss_attestation_digest current) in
    Ok (Some (Ingress_Deployable {|
      vsd_channel := ci_channel ingress; vsd_delivery_id := ci_delivery_id ingress;
      vsd_payload_digest := ci_payload_digest ingress; vsd_attestation := attestation;
      vsd_attestation_digest := attestation_digest |})).

Definition replay_same_head (broker : DurableSourceBroker) (project_id : ProjectId)
    (current : SourceSnapshot) (ingress : CandidateIngress) : Broker (option SourceIngressOutcome) :=
  let? current_attestation_digest := call_lift (ok_or
         (Source_CorruptLedger "current head lacks attestation digest") (ss_attestation_digest current)) in
  let? outbox_status := store (source_outbox_status (br_bound_epoch broker) project_id
                                 (ss_sequence current) current_attestation_digest) in
  call_lift (existing_same_head_delivery current ingress outbox_status).

(** The attestation of the candidate as the successor of the current head. *)
Definition attest_candidate (broker : DurableSourceBroker) (current : SourceSnapshot)
    (ingress : CandidateIngress) : Result SourceError (SignedAcceptedHeadV1 * EvidenceDigest) :=
  let policy := ci_installed_policy ingress in
  let? sequence := ok_or Source_SequenceExhausted (u64_checked_add (ss_sequence current) 1) in
  let? expires_at_ms := ok_or Source_TimeRange
                          (i64_checked_add (ci_now_ms ingress) (br_attestation_ttl_ms broker)) in
  let? signed := attested (SignedAcceptedHead_sign (br_key_id broker) {|
    ah_schema_version := ACCEPTED_HEAD_SCHEMA_VERSION; ah_project_id := ci_project_id ingress;
    ah_head := ci_candidate ingress; ah_sequence := sequence; ah_previous_head := ss_head current;
    ah_accepted_via := ci_channel ingress; ah_repository_identity := isp_repository_identity policy;
    ah_installed_policy := isp_installed_policy policy; ah_accepted_at_ms := ci_now_ms ingress;
    ah_expires_at_ms := expires_at_ms |} (br_signing_key broker)) in
  let? attestation_digest := attested (SignedAcceptedHead_digest signed) in
  Ok (signed, attestation_digest).

(** One iteration: an outcome, or [None] to try again after a concurrent update. *)
Definition accept_candidate (broker : DurableSourceBroker) (current : SourceSnapshot)
    (ingress : CandidateIngress) : Broker (option SourceIngressOutcome) :=
  let? ' (signed, attestation_digest) := call_lift (attest_candidate broker current ingress) in
  let? advanced := attempt_call (advance_ref_update lock_trusted broker current signed
                                   attestation_digest (ci_now_ms ingress)) in
  match advanced with
  | Ok true => call_ok (Some (Ingress_Deployable {|
      vsd_channel := ci_channel ingress; vsd_delivery_id := ci_delivery_id ingress;
      vsd_payload_digest := ci_payload_digest ingress; vsd_attestation := signed;
      vsd_attestation_digest := attestation_digest |}))
  | Ok false => call_ok (Some Ingress_SourceDivergedNeedsOwner)
  | Err Source_ConcurrentSourceUpdate => call_ok None
  | Err error => call_lift (Err error)
  end.

Definition candidate_relationship (project_id : ProjectId) (current : SourceSnapshot)
    (candidate : GitCommitId) (r : R) : Result SourceError (option CommitRelationship) :=
  match ss_head current with
  | None => Ok None
  | Some head => let? related := relationship project_id head candidate r in Ok (Some related)
  end.

Definition process_candidate_once (broker : DurableSourceBroker) (ingress : CandidateIngress)
    : Broker (option SourceIngressOutcome) :=
  let project_id := ci_project_id ingress in
  let candidate := ci_candidate ingress in
  let channel := ci_channel ingress in
  let? current := store_read (load_snapshot project_id) in
  if ss_state current == Source_DivergedNeedsOwner
  then call_ok (Some Ingress_SourceDivergedNeedsOwner)
  else if (channel == Source_SourceReconciliation)
          && opt_is_some_and (ss_reconcile_paused_until_ms current) (λ until, ci_now_ms ingress <? until)
  then call_ok (Some Ingress_ReconciliationPaused)
  else if ss_blocked_sha current == Some candidate
  then call_ok (Some (Ingress_BlockedSha candidate))
  else
    let? related := repository_read (candidate_relationship project_id current candidate) in
    let diverged :=
      let? _ := store (mark_diverged (br_bound_epoch broker) project_id candidate channel
                         (ci_payload_digest ingress) (ci_now_ms ingress)) in
      call_ok (Some Ingress_SourceDivergedNeedsOwner) in
    match related with
    | Some Relationship_Rewind =>
        if (channel == Source_DirectPush) && (ci_announced_previous_head ingress != ss_head current)
        then call_ok (Some (Ingress_StaleNoop candidate))
        else diverged
    | Some Relationship_Diverged => diverged
    | Some Relationship_Same =>
        let? replayed := replay_same_head broker project_id current ingress in
        match replayed with
        | Some outcome => call_ok (Some outcome)
        | None => accept_candidate broker current ingress
        end
    | None | Some Relationship_FastForward => accept_candidate broker current ingress
    end.

(** [for _ in 0..n]. *)
Fixpoint process_candidate_loop (n : nat) (broker : DurableSourceBroker) (ingress : CandidateIngress)
    : Broker SourceIngressOutcome :=
  match n with
  | O => call_lift (Err Source_ConcurrentSourceUpdate)
  | S n =>
      let? outcome := process_candidate_once broker ingress in
      match outcome with
      | Some outcome => call_ok outcome
      | None => process_candidate_loop n broker ingress
      end
  end.

Definition process_candidate : DurableSourceBroker → CandidateIngress → Broker SourceIngressOutcome :=
  process_candidate_loop 4.

(** The claim is settled by the outcome of its processing. *)
Definition settle_delivery (broker : DurableSourceBroker) (claim : DeliveryClaim) (auto_deploy : bool)
    (now_ms : Z) (processing : Broker SourceIngressOutcome) : Broker SourceIngressOutcome :=
  let? result := attempt_call processing in
  match result with
  | Ok outcome => store (finish_delivery (br_bound_epoch broker) claim outcome auto_deploy now_ms)
  | Err error =>
      let? _ := store (abandon_delivery (br_bound_epoch broker) claim now_ms) in
      call_lift (Err error)
  end.

(** ** Webhooks *)

Definition enqueue_github_push (broker : DurableSourceBroker) (project_id : ProjectId)
    (delivery_id signature_header : string) (webhook_secret raw_body : list Z) (received_at_ms : Z)
    : Broker GithubWebhookAdmissionV1 :=
  let? _ := require_current_lease broker in
  let? _ := call_lift (validate_delivery_id delivery_id) in
  let? _ := call_lift (ensure (0 <=? received_at_ms) Source_TimeRange) in
  let? _ := call_lift (ensure (Z.of_nat (length raw_body) <=? MAX_WEBHOOK_BODY_BYTES)
                         Source_WebhookBodyTooLarge) in
  let? _ := call_lift (verify_github_hmac signature_header webhook_secret raw_body) in
  let? installed_policy := call_lift (policy broker project_id) in
  let? announced := call_lift (decode_github_push raw_body (isp_github_repository installed_policy)) in
  match announced with
  | None => call_ok Webhook_IgnoredRef
  | Some announced_head =>
      let payload_digest := EvidenceDigest_sha256 raw_body in
      let? admission := store (enqueue_github_wakeup (br_bound_epoch broker) project_id delivery_id
                                 payload_digest announced_head
                                 (isp_github_repository installed_policy) received_at_ms) in
      match admission with
      | Webhook_Queued _ | Webhook_Duplicate _ false =>
          let? _ := repository_step (notify_priority_fetch project_id) in
          call_ok admission
      | _ => call_ok admission
      end
  end.

Definition broker_pending_github_wakeups (broker : DurableSourceBroker) (project_id : ProjectId)
    (limit : Z) : Broker (list GithubWebhookWakeupV1) :=
  let? _ := require_current_lease broker in
  let? _ := call_lift (policy broker project_id) in
  store (pending_github_wakeups (br_bound_epoch broker) project_id limit).

Definition process_github_candidate (broker : DurableSourceBroker) (candidate : CandidateIngress)
    (announced_head : GitCommitId) : Broker SourceIngressOutcome :=
  let project_id := ci_project_id candidate in
  let fetched_head := ci_candidate candidate in
  if announced_head != fetched_head then
    let? related := repository_read (relationship project_id announced_head fetched_head) in
    match related with
    | Relationship_FastForward => process_candidate broker candidate
    (* [unreachable!], by [relationship_same]. *)
    | Relationship_Same => call_lift (Err (Source_Repository "different commits cannot be same"))
    | Relationship_Rewind => call_lift (Err Source_RemoteHeadBehindWebhook)
    | Relationship_Diverged =>
        let evidence := EvidenceDigest_sha256 (lines_of
          ["github-mismatch"%string; GitCommitId_as_str announced_head; GitCommitId_as_str fetched_head]) in
        let? _ := store (mark_diverged (br_bound_epoch broker) project_id fetched_head
                           Source_GithubWebhook evidence (ci_now_ms candidate)) in
        call_ok Ingress_SourceDivergedNeedsOwner
    end
  else process_candidate broker candidate.

(** The candidate of a webhook. *)
Definition webhook_ingress (project_id : ProjectId) (fetched_head : GitCommitId)
    (delivery_id : string) (payload_digest : EvidenceDigest)
    (installed_policy : InstalledSourceProjectPolicy) (now_ms : Z) : CandidateIngress := {|
  ci_project_id := project_id; ci_candidate := fetched_head; ci_announced_previous_head := None;
  ci_channel := Source_GithubWebhook; ci_delivery_id := delivery_id;
  ci_payload_digest := payload_digest; ci_installed_policy := installed_policy;
  ci_now_ms := now_ms; ci_refresh_expired_same_head := false |}.

(** The loop over the pending webhooks: how many are completed, and whether it ended
    early because the remote is behind one. [tokens] are the new delivery tokens. *)
Fixpoint drain_wakeups (broker : DurableSourceBroker) (project_id : ProjectId)
    (installed_policy : InstalledSourceProjectPolicy) (fetched_head : GitCommitId)
    (tokens : Z → Uuid) (now_ms : Z) (wakeups : list GithubWebhookWakeupV1) (completed : Z)
    : Broker (Z * bool) :=
  let epoch := br_bound_epoch broker in
  match wakeups with
  | [] => call_ok (completed, false)
  | wakeup :: rest =>
      let continue := drain_wakeups broker project_id installed_policy fetched_head tokens now_ms
                        rest (completed + 1) in
      let? _ := call_lift (ensure ((gw_project_id wakeup == project_id)
                  && (gw_repository_full_name wakeup == isp_github_repository installed_policy))
                  (Source_CorruptLedger "GitHub webhook policy binding")) in
      let? reservation := store (reserve_delivery epoch project_id Source_GithubWebhook
                                   (gw_delivery_id wakeup) (gw_payload_digest wakeup)
                                   (gw_received_at_ms wakeup) (tokens (gw_wakeup_sequence wakeup))) in
      match reservation with
      | Reservation_Completed outcome =>
          let? _ := store (complete_github_wakeup epoch wakeup outcome now_ms) in
          continue
      | Reservation_Claimed delivery_claim =>
          let candidate := webhook_ingress (gw_project_id wakeup) fetched_head
                             (gw_delivery_id wakeup) (gw_payload_digest wakeup) installed_policy now_ms in
          let? result := attempt_call (process_github_candidate broker candidate
                                         (gw_announced_head wakeup)) in
          match result with
          | Ok outcome =>
              let? outcome := store (finish_delivery epoch delivery_claim outcome
                                       (isp_auto_deploy installed_policy) now_ms) in
              let? _ := store (complete_github_wakeup epoch wakeup outcome now_ms) in
              continue
          | Err Source_RemoteHeadBehindWebhook =>
              let? _ := store (abandon_delivery epoch delivery_claim now_ms) in
              call_ok (completed, true)
          | Err error =>
              let? _ := store (abandon_delivery epoch delivery_claim now_ms) in
              call_lift (Err error)
          end
      end
  end.

Definition process_pending_github_pushes (broker : DurableSourceBroker) (project_id : ProjectId)
    (limit now_ms : Z) (tokens : Z → Uuid) : Broker GithubWebhookDrainOutcomeV1 :=
  if now_ms <? 0 then call_lift (Err Source_TimeRange)
  else
    let? _ := lock_coordination broker project_id in
    let? installed_policy := call_lift (policy broker project_id) in
    let? wakeups := store (pending_github_wakeups (br_bound_epoch broker) project_id limit) in
    match wakeups with
    | [] =>
        let? _ := reconcile_priority_fetch_signal broker project_id in
        call_ok {| gd_completed := 0; gd_deferred_until_remote_catches_up := false |}
    | _ =>
        let? fetched_head := repository_step (fetch_remote_main project_id) in
        let? ' (completed, deferred) := drain_wakeups broker project_id installed_policy fetched_head
                                          tokens now_ms wakeups 0 in
        if deferred : bool then
          call_ok {| gd_completed := completed; gd_deferred_until_remote_catches_up := true |}
        else
          let? _ := reconcile_priority_fetch_signal broker project_id in
          call_ok {| gd_completed := completed; gd_deferred_until_remote_catches_up := false |}
    end.

Definition process_github_push (broker : DurableSourceBroker) (project_id : ProjectId)
    (delivery_id signature_header : string) (webhook_secret raw_body : list Z) (now_ms : Z)
    (token : Uuid) : Broker SourceIngressOutcome :=
  let? _ := lock_coordination broker project_id in
  let? _ := call_lift (validate_delivery_id delivery_id) in
  let? _ := call_lift (ensure (Z.of_nat (length raw_body) <=? MAX_WEBHOOK_BODY_BYTES)
                         Source_WebhookBodyTooLarge) in
  let? _ := call_lift (verify_github_hmac signature_header webhook_secret raw_body) in
  let payload_digest := EvidenceDigest_sha256 raw_body in
  let? installed_policy := call_lift (policy broker project_id) in
  let? announced := call_lift (decode_github_push raw_body (isp_github_repository installed_policy)) in
  let? reservation := store (reserve_delivery (br_bound_epoch broker) project_id Source_GithubWebhook
                               delivery_id payload_digest now_ms token) in
  match reservation with
  | Reservation_Completed outcome => call_ok outcome
  | Reservation_Claimed delivery_claim =>
      settle_delivery broker delivery_claim (isp_auto_deploy installed_policy) now_ms
        match announced with
        | None => call_ok Ingress_IgnoredRef
        | Some announced_head =>
            let? fetched_head := repository_step (fetch_remote_main project_id) in
            process_github_candidate broker
              (webhook_ingress project_id fetched_head delivery_id payload_digest installed_policy now_ms)
              announced_head
        end
  end.

(** ** Reconciliation and direct pushes *)

(** The digest of what a reconciliation decides from. *)
Definition reconcile_digest (project_id : ProjectId) (fetched_head : GitCommitId)
    (policy : InstalledSourceProjectPolicy) (snapshot : SourceSnapshot) (now_ms : Z)
    (refresh_expired_same_head : bool) : EvidenceDigest :=
  let pause_active :=
    opt_is_some_and (ss_reconcile_paused_until_ms snapshot) (λ until, now_ms <? until) in
  let attestation_expired :=
    opt_is_some_and (ss_attestation snapshot)
      (λ attestation, ah_expires_at_ms (sah_payload attestation) <=? now_ms) in
  EvidenceDigest_sha256 (lines_of
    ["reconcile.v4"%string; ProjectId_as_str project_id; GitCommitId_as_str fetched_head;
     EvidenceDigest_as_str (isp_repository_identity policy);
     EvidenceDigest_as_str (ip_digest (isp_installed_policy policy));
     u64_to_string (ip_version (isp_installed_policy policy));
     bool_to_string (isp_auto_deploy policy); commit_or_dash (ss_head snapshot);
     u64_to_string (ss_sequence snapshot); SourceProjectState_as_str (ss_state snapshot);
     commit_or_dash (ss_blocked_sha snapshot); bool_to_string pause_active;
     match ss_divergence_evidence_digest snapshot with
     | Some digest => EvidenceDigest_as_str digest | None => "-"%string end;
     bool_to_string attestation_expired; bool_to_string refresh_expired_same_head]).

Definition reconcile_remote_main_with (broker : DurableSourceBroker) (project_id : ProjectId)
    (now_ms : Z) (refresh_expired_same_head : bool) (token : Uuid) : Broker SourceIngressOutcome :=
  let? _ := lock_coordination broker project_id in
  let? installed_policy := call_lift (policy broker project_id) in
  if refresh_expired_same_head && isp_auto_deploy installed_policy
  then call_lift (Err Source_ShadowRequiresAutoDeployDisabled)
  else
    let? fetched_head := repository_step (fetch_remote_main_reconciliation project_id) in
    let? snapshot := store_read (load_snapshot project_id) in
    let payload_digest := reconcile_digest project_id fetched_head installed_policy snapshot now_ms
                            refresh_expired_same_head in
    let delivery_id := ("reconcile-" ++ EvidenceDigest_as_str payload_digest)%string in
    let? reservation := store (reserve_delivery (br_bound_epoch broker) project_id
                                 Source_SourceReconciliation delivery_id payload_digest now_ms token) in
    match reservation with
    | Reservation_Completed outcome => call_ok outcome
    | Reservation_Claimed delivery_claim =>
        settle_delivery broker delivery_claim (isp_auto_deploy installed_policy) now_ms
          (process_candidate broker {|
             ci_project_id := project_id; ci_candidate := fetched_head;
             ci_announced_previous_head := None; ci_channel := Source_SourceReconciliation;
             ci_delivery_id := delivery_id; ci_payload_digest := payload_digest;
             ci_installed_policy := installed_policy; ci_now_ms := now_ms;
             ci_refresh_expired_same_head := refresh_expired_same_head |})
    end.

Definition reconcile_remote_main (broker : DurableSourceBroker) (project_id : ProjectId) (now_ms : Z)
    (token : Uuid) : Broker SourceIngressOutcome :=
  reconcile_remote_main_with broker project_id now_ms false token.

Definition refresh_shadow_head (broker : DurableSourceBroker) (project_id : ProjectId) (now_ms : Z)
    (token : Uuid) : Broker SourceIngressOutcome :=
  reconcile_remote_main_with broker project_id now_ms true token.

Definition direct_push_digest (git_ref : string) (old_head : option GitCommitId)
    (new_head : GitCommitId) (project_id : ProjectId) : EvidenceDigest :=
  EvidenceDigest_sha256 (lines_of
    [git_ref; commit_or_dash old_head; GitCommitId_as_str new_head; ProjectId_as_str project_id]).

Definition process_direct_push (broker : DurableSourceBroker) (project_id : ProjectId)
    (delivery_id git_ref : string) (old_head : option GitCommitId) (new_head : GitCommitId)
    (now_ms : Z) (token : Uuid) : Broker SourceIngressOutcome :=
  let? _ := lock_coordination broker project_id in
  let? installed_policy := call_lift (policy broker project_id) in
  let? _ := call_lift (validate_delivery_id delivery_id) in
  let? _ := call_lift (ensure (git_ref == "refs/heads/main"%string) Source_DirectPushRefRejected) in
  let? contained := repository_read (contains_commit project_id new_head) in
  let? _ := call_lift (ensure contained
                         (Source_Repository "direct-push commit is absent from quarantine")) in
  let payload_digest := direct_push_digest git_ref old_head new_head project_id in
  let? reservation := store (reserve_delivery (br_bound_epoch broker) project_id Source_DirectPush
                               delivery_id payload_digest now_ms token) in
  match reservation with
  | Reservation_Completed outcome => call_ok outcome
  | Reservation_Claimed delivery_claim =>
      settle_delivery broker delivery_claim (isp_auto_deploy installed_policy) now_ms
        (process_candidate broker {|
           ci_project_id := project_id; ci_candidate := new_head;
           ci_announced_previous_head := old_head; ci_channel := Source_DirectPush;
           ci_delivery_id := delivery_id; ci_payload_digest := payload_digest;
           ci_installed_policy := installed_policy; ci_now_ms := now_ms;
           ci_refresh_expired_same_head := false |})
  end.

(** ** Admission of a recorded delivery *)

Definition verify_delivery_live (broker : DurableSourceBroker) (delivery : VerifiedSourceDelivery)
    (enforce_expiry : bool) (now_ms : Z) (db : SourceDb) : Result SourceError unit :=
  let? payload := attested (if enforce_expiry
                            then verify (br_verifier broker) (vsd_attestation delivery) now_ms
                            else verify_live (br_verifier broker) (vsd_attestation delivery)) in
  let? current := load_snapshot (ah_project_id payload) db in
  if (ss_state current != Source_Ready) || (ss_head current != Some (ah_head payload))
     || (ss_sequence current != ah_sequence payload)
     || (ss_attestation_digest current != Some (vsd_attestation_digest delivery))
  then Err Source_HeadNotCurrent
  else if ss_blocked_sha current == Some (ah_head payload) then Err Source_BlockedSha
  else Ok tt.

Definition verified_recorded_delivery (broker : DurableSourceBroker) (project_id : ProjectId)
    (channel : SourceChannel) (delivery_id : string) (now_ms : Z) (db : SourceDb)
    : Result SourceError (VerifiedSourceDelivery * AcceptedHeadV1 * InstalledSourceProjectPolicy) :=
  let? _ := validate_delivery_id delivery_id in
  let? recorded := recorded_delivery project_id channel delivery_id db in
  let? outcome := ok_or Source_DeliveryNotRecorded recorded in
  match outcome with
  | Ingress_Deployable delivery =>
      if (vsd_channel delivery != channel) || (vsd_delivery_id delivery != delivery_id)
      then Err (Source_CorruptLedger "delivery binding")
      else if ah_project_id (sah_payload (vsd_attestation delivery)) != project_id
      then Err (Source_CorruptLedger "delivery project binding")
      else
        let? payload := attested (verify (br_verifier broker) (vsd_attestation delivery) now_ms) in
        let? digest := attested (SignedAcceptedHead_digest (vsd_attestation delivery)) in
        if digest != vsd_attestation_digest delivery
        then Err (Source_Attestation Attestation_DigestMismatch)
        else
          let? _ := verify_delivery_live broker delivery true now_ms db in
          let? installed_policy := policy broker (ah_project_id payload) in
          if (ah_installed_policy payload != isp_installed_policy installed_policy)
             || (ah_repository_identity payload != isp_repository_identity installed_policy)
          then Err Source_InstalledPolicyChanged
          else Ok (delivery, payload, installed_policy)
  | _ => Err Source_DeliveryNotDeployable
  end.

(** The operation a delivery admits. *)
Definition deploy_operation (payload : AcceptedHeadV1) (policy : InstalledSourceProjectPolicy)
    : NewOperation := {|
  no_project_id := ah_project_id payload; no_operation_kind := Kind_Deploy;
  no_target_commit := Some (ah_head payload); no_release_class := Some (isp_release_class policy);
  no_installed_policy := ah_installed_policy payload |}.

Section Admission.
Context `{!Json OperationRecord, !Json OperationTransition}.

Definition admit_recorded_deploy (uuids : NewUuids) (broker : DurableSourceBroker)
    (project_id : ProjectId) (channel : SourceChannel) (delivery_id : string) (now_ms : Z)
    (controller : ControlDb) : Broker (ControlDb * Result SourceError AdmissionOutcome) :=
  let? _ := lock_coordination broker project_id in
  let? ' (delivery, payload, installed_policy) := store_read
    (verified_recorded_delivery broker project_id channel delivery_id now_ms) in
  if negb (isp_auto_deploy installed_policy) then call_lift (Err Source_AutoDeployDisabled)
  else
    let '(controller', outcome) := admit_automation uuids {|
      va_operation := deploy_operation payload installed_policy;
      va_delivery_channel := SourceChannel_controller_channel (vsd_channel delivery);
      va_delivery_id := ("source-" ++ EvidenceDigest_as_str (EvidenceDigest_sha256 (lines_of
        [ProjectId_as_str project_id; SourceChannel_as_str channel; vsd_delivery_id delivery;
         EvidenceDigest_as_str (vsd_payload_digest delivery)])))%string;
      va_payload_digest := vsd_payload_digest delivery;
      va_source_attestation_digest := vsd_attestation_digest delivery;
      va_accepted_head := ah_head payload; va_accepted_sequence := ah_sequence payload;
      va_maximum_attempts := isp_maximum_attempts installed_policy |} now_ms controller in
    call_ok (controller', map_err Source_Controller outcome).

Definition admit_recorded_interactive_deploy (uuids : NewUuids) (broker : DurableSourceBroker)
    (project_id : ProjectId) (channel : SourceChannel) (delivery_id : string)
    (lease : TabLeaseClaim) (grant : ActionGrantClaims) (now_ms : Z) (controller : ControlDb)
    : Broker (ControlDb * Result SourceError AdmissionOutcome) :=
  let? _ := lock_coordination broker project_id in
  let? ' (delivery, payload, installed_policy) := store_read
    (verified_recorded_delivery broker project_id channel delivery_id now_ms) in
  let '(controller', outcome) := admit_verified_interactive_deploy uuids {|
    vi_operation := deploy_operation payload installed_policy;
    vi_source_attestation_digest := vsd_attestation_digest delivery;
    vi_accepted_head := ah_head payload; vi_accepted_sequence := ah_sequence payload |}
    lease grant now_ms controller in
  call_ok (controller', map_err Source_Controller outcome).
End Admission.

(** ** The live gate *)

Definition verify_live_binding (broker : DurableSourceBroker) (operation : OperationRecord)
    (now_ms : Z) : Gate LiveSourceBinding :=
  let project_id := op_project_id operation in
  let evidence := op_evidence operation in
  let? target := call_lift (ok_or Gate_AttestationInvalid (op_target_commit operation)) in
  let? attestation_digest := call_lift (ok_or Gate_AttestationInvalid
                                          (ev_source_attestation_digest evidence)) in
  let? installed_policy := call_lift (ok_or Gate_AttestationInvalid (ev_installed_policy evidence)) in
  let? broker_policy := call_lift (map_err (λ _, Gate_AttestationInvalid) (policy broker project_id)) in
  let? current := store_read (λ db, map_err (λ _, Gate_Unavailable) (load_snapshot project_id db)) in
  let? _ := store_read (λ db, ensure (negb (has_pending_ref_update project_id db)) Gate_Unavailable) in
  let? _ := call_lift (ensure (negb (opt_is_some_and (ss_reconcile_paused_until_ms current)
                                       (λ until_ms, now_ms <? until_ms))) Gate_Paused) in
  let? repository_head := repository_read (λ r, map_err (λ _, Gate_Unavailable)
                                                  (accepted_head project_id r)) in
  let? _ := call_lift (ensure ((repository_head == ss_head current)
                               && (ss_state current != Source_DivergedNeedsOwner)) Gate_Diverged) in
  let? _ := call_lift (ensure ((ss_head current == Some target)
                               && (ss_sequence current == default 0 (ev_source_sequence evidence)))
                         Gate_HeadSuperseded) in
  let? _ := call_lift (ensure (ss_blocked_sha current != Some target) Gate_BlockedSha) in
  let? signed := call_lift (ok_or Gate_AttestationInvalid (ss_attestation current)) in
  let? payload := call_lift (map_err (λ _, Gate_AttestationInvalid)
                               (verify_live (br_verifier broker) signed)) in
  let? _ := call_lift (ensure ((ss_sequence current == ah_sequence payload)
                               && (ah_project_id payload == project_id) && (ah_head payload == target)
                               && (ah_installed_policy payload == installed_policy)
                               && (ah_installed_policy payload == isp_installed_policy broker_policy)
                               && (ah_repository_identity payload == isp_repository_identity broker_policy)
                               && (ev_source_sequence evidence == Some (ah_sequence payload))
                               && (ss_attestation_digest current == Some attestation_digest))
                         Gate_AttestationInvalid) in
  let? digest := call_lift (map_err (λ _, Gate_AttestationInvalid) (SignedAcceptedHead_digest signed)) in
  let? _ := call_lift (ensure (digest == attestation_digest) Gate_AttestationInvalid) in
  call_ok {| lsb_target := target; lsb_sequence := ah_sequence payload;
             lsb_attestation_digest := attestation_digest; lsb_installed_policy := installed_policy |}.

Definition check_live (broker : DurableSourceBroker) (operation : OperationRecord) (now_ms : Z)
    : Gate SourceGateProof :=
  let project_id := op_project_id operation in
  let? _ := call_map_err (λ _, Gate_Unavailable) (lock_coordination broker project_id) in
  if op_operation_kind operation != Kind_Deploy then
    let not_required := EvidenceDigest_sha256 (as_bytes "source-gate-not-required") in
    call_ok {| sgp_digest := not_required; sgp_project_id := project_id; sgp_sequence := 0;
               sgp_attestation_digest := not_required; sgp_checked_at_ms := now_ms |}
  else
    let? binding := verify_live_binding broker operation now_ms in
    let? phase := call_lift (map_err source_ticket_gate_error
                               (mutation_ticket_phase (os_phase (op_state operation)))) in
    let? canonical := call_lift (map_err (λ _, Gate_AttestationInvalid) (jcs_to_vec {|
      sgpp_purpose := "rdashboard.source-live-proof.v1"%string;
      sgpp_attempt_id := op_attempt_id operation; sgpp_project_id := project_id; sgpp_phase := phase;
      sgpp_target := lsb_target binding; sgpp_sequence := lsb_sequence binding;
      sgpp_attestation_digest := lsb_attestation_digest binding;
      sgpp_installed_policy := lsb_installed_policy binding |})) in
    let? _ := call_map_err source_ticket_gate_error
                (store (acquire_mutation_ticket (br_bound_epoch broker) operation now_ms)) in
    call_ok {| sgp_digest := EvidenceDigest_sha256 canonical; sgp_project_id := project_id;
               sgp_sequence := lsb_sequence binding;
               sgp_attestation_digest := lsb_attestation_digest binding;
               sgp_checked_at_ms := now_ms |}.

Definition complete_live (broker : DurableSourceBroker) (operation : OperationRecord) : Gate unit :=
  let? _ := call_map_err (λ _, Gate_Unavailable) (lock_coordination broker (op_project_id operation)) in
  call_map_err (λ _, Gate_Unavailable)
    (store (release_mutation_ticket (br_bound_epoch broker) operation)).

Definition abort_live (broker : DurableSourceBroker) (operation : OperationRecord) : Gate unit :=
  let? _ := call_map_err (λ _, Gate_Unavailable) (lock_coordination broker (op_project_id operation)) in
  call_map_err (λ _, Gate_Unavailable)
    (store (release_mutation_ticket (br_bound_epoch broker) operation)).
End SourceIngress.
