(* ===== verification/SourceLogic.v ===== *)
(** * The source broker: reasoning about calls

    A call of the broker leaves a world behind after each lasting step.
    [call_triple I P m Q]: from a world with [I] and [P], every world that [m] leaves
    behind has [I], and if [m] returns [a] the last has [Q a].  [same_ledger]: the parts
    of the database that say which commit is accepted are untouched; most transactions
    only touch the queues, which the hints of [tx_rel] show. *)

From Stdlib Require Import ZArith Lia Ascii String.
From stdpp Require Import base gmap strings pretty option list_numbers list.
From S2P Require Import Prelude TxLogic Identifiers States Text Ordered Operation Workflow Errors Controller SourceDb Source SourceRepository SourceBroker SourceIngress.

Local Open Scope Z_scope.

(** [iter().map(f).collect::<Result<Vec<_>, _>>()]. *)
Lemma result_mapM_Ok {E A B} (f : A → Result E B) l k :
  mapM f l = Ok k → Forall2 (λ x y, f x = Ok y) l k.
Proof.
  revert k. induction l as [|x l IH]; intros k Hok; simpl in Hok; [by injection Hok as <-|].
  apply result_bind_Ok in Hok as (y & Hy & Hok). apply result_bind_Ok in Hok as (k' & Hk & Hok).
  injection Hok as <-. constructor; auto.
Qed.

(** ** Triples *)

Section CallLogic.
Context {E R : Type} (I : World R → Prop).

Definition call_triple {A} (P : World R → Prop) (m : Call E R A) (Q : A → World R → Prop) : Prop :=
  ∀ w, I w → P w →
    Forall I (m w).1 ∧ I (m w).2.1 ∧ ∀ a, (m w).2.2 = Ok a → Q a (m w).2.1.

(** Keeping the invariant alone. *)
Definition call_keeps {A} (m : Call E R A) : Prop := call_triple (λ _, True) m (λ _ _, True).

Lemma call_triple_bind {A B} P (Q : A → World R → Prop) (T : B → World R → Prop)
    (m : Call E R A) (f : A → Call E R B) :
  call_triple P m Q → (∀ a, call_triple (Q a) (f a) T) → call_triple P (mbind f m) T.
Proof.
  intros Hm Hf w Hi Hp. destruct (Hm w Hi Hp) as (Htrace & Hlast & Hq).
  unfold mbind, call_bind. destruct (m w) as [trace [w' [a|e]]]; simpl in *.
  - destruct (Hf a w' Hlast (Hq a eq_refl)) as (Htrace' & Hlast' & Ht).
    destruct (f a w') as [trace' [w'' r]]; simpl in *. split; [|done]. by apply Forall_app.
  - split; [done|]. split; [done|]. by intros b [=].
Qed.

Lemma call_triple_weaken {A} (P P' : World R → Prop) (Q Q' : A → World R → Prop) (m : Call E R A) :
  (∀ w, P' w → P w) → (∀ a w, Q a w → Q' a w) → call_triple P m Q → call_triple P' m Q'.
Proof. intros HP HQ Hm w Hi Hp. destruct (Hm w Hi (HP w Hp)) as (?&?&?). naive_solver. Qed.

Lemma call_triple_pure {A} (φ : Prop) (P : World R → Prop) (m : Call E R A) Q :
  (φ → call_triple P m Q) → call_triple (λ w, φ ∧ P w) m Q.
Proof. intros Hm w Hi [Hφ Hp]. by apply Hm. Qed.

Lemma call_triple_ok {A} P (a : A) Q :
  (∀ w, I w → P w → Q a w) → call_triple P (call_ok a) Q.
Proof. intros HQ w Hi Hp. split; [constructor|]. split; [done|]. intros b [= <-]. by apply HQ. Qed.

Lemma call_triple_lift {A} P (r : Result E A) Q :
  (∀ a w, r = Ok a → I w → P w → Q a w) → call_triple P (call_lift r) Q.
Proof. intros HQ w Hi Hp. split; [constructor|]. split; [done|]. intros b Hb. by apply HQ. Qed.

Lemma call_triple_store_read {A} P (f : SourceDb → Result E A) Q :
  (∀ a w, f (w_db w) = Ok a → I w → P w → Q a w) → call_triple P (store_read f) Q.
Proof. intros HQ w Hi Hp. split; [constructor|]. split; [done|]. intros b Hb. by apply HQ. Qed.

Lemma call_triple_repository_read {A} P (f : R → Result E A) Q :
  (∀ a w, f (w_repository w) = Ok a → I w → P w → Q a w) → call_triple P (repository_read f) Q.
Proof. intros HQ w Hi Hp. split; [constructor|]. split; [done|]. intros b Hb. by apply HQ. Qed.

Lemma call_triple_store {A} P (body : Tx SourceDb E A) Q :
  (∀ w a db, body (w_db w) = Ok (a, db) → I w → P w →
     I (MkWorld db (w_repository w)) ∧ Q a (MkWorld db (w_repository w))) →
  call_triple P (store body) Q.
Proof.
  intros Hbody [db r] Hi Hp. unfold store, immediate_transaction. simpl.
  destruct (body db) as [[a db']|e] eqn:Hok; simpl.
  - destruct (Hbody (MkWorld db r) _ _ Hok Hi Hp) as [Hi' Hq]. split; [by repeat constructor|]. split; [done|].
    by intros b [= <-].
  - split; [by repeat constructor|]. split; [done|]. by intros b [=].
Qed.

Lemma call_triple_repository_step {A} P (f : R → R * Result E A) Q :
  (∀ w, I w → P w → I (MkWorld (w_db w) (f (w_repository w)).1)) →
  (∀ w a, (f (w_repository w)).2 = Ok a → I w → P w → Q a (MkWorld (w_db w) (f (w_repository w)).1)) →
  call_triple P (repository_step f) Q.
Proof.
  intros Hstep HQ w Hi Hp. specialize (Hstep w Hi Hp). specialize (λ a H, HQ w a H Hi Hp).
  unfold repository_step. destruct (f (w_repository w)) as [r res]. simpl in *.
  split; [by repeat constructor|]. by split.
Qed.

Lemma call_triple_attempt {A} P (m : Call E R A) Q :
  call_triple P m Q →
  call_triple P (attempt_call m) (λ r w, ∀ a, r = Ok a → Q a w).
Proof.
  intros Hm w Hi Hp. destruct (Hm w Hi Hp) as (?&?&Hq). unfold attempt_call.
  destruct (m w) as [trace [w' r]]. simpl in *. split; [done|]. split; [done|].
  by intros b [= <-].
Qed.

Lemma call_triple_for_each {A} P (f : A → Call E R unit) l :
  (∀ x, x ∈ l → call_triple P (f x) (λ _, P)) → call_triple P (call_for_each f l) (λ _, P).
Proof.
  induction l as [|x l IH]; intros Hf; simpl; [by apply call_triple_ok|].
  eapply call_triple_bind; [apply Hf; set_solver|]. intros u. apply IH. set_solver.
Qed.
End CallLogic.

(** A part of the invariant as a condition before and after. *)
Lemma call_triple_frame {E R A} (I Fr P : World R → Prop) (m : Call E R A) (Q : A → World R → Prop) :
  call_triple (λ w, I w ∧ Fr w) P m Q → call_triple I (λ w, P w ∧ Fr w) m (λ a w, Q a w ∧ Fr w).
Proof.
  intros Hm w Hi [Hp Hf]. destruct (Hm w (conj Hi Hf) Hp) as (Hall & [Hi' Hf'] & HQ).
  split; [|by eauto]. eapply Forall_impl; [exact Hall|]. by intros w' [??].
Qed.

Lemma call_triple_map_err {E F R A} (I : World R → Prop) P (f : E → F) (m : Call E R A) Q :
  call_triple I P m Q → call_triple I P (call_map_err f m) Q.
Proof.
  intros Hm w Hi Hp. destruct (Hm w Hi Hp) as (?&?&Hq). unfold call_map_err.
  destruct (m w) as [trace [w' r]]. simpl in *. split; [done|]. split; [done|].
  intros a Ha. apply map_err_Ok in Ha. by apply Hq.
Qed.

Section CallKeeps.
Context {E R : Type} (I : World R → Prop).
Abbreviation keeps := (call_keeps (E := E) I) (only parsing).

Lemma call_keeps_triple {A} P (m : Call E R A) Q : call_triple I P m Q → (∀ w, P w) → call_keeps I m.
Proof. intros Hm HP. eapply call_triple_weaken; [| |exact Hm]; simpl; eauto. Qed.

Lemma call_keeps_iff {A} (J : World R → Prop) (m : Call E R A) :
  (∀ w, I w ↔ J w) → call_keeps J m → keeps m.
Proof.
  intros Hiff Hm w Hi _. destruct (Hm w (proj1 (Hiff w) Hi) Logic.I) as (Hall & Hlast & _).
  split; [|split; [by apply Hiff|done]]. eapply Forall_impl; [exact Hall|]. intros w'. apply Hiff.
Qed.

(** A kept invariant as a condition. *)
Lemma call_keeps_condition {A} (m : Call E R A) :
  keeps m → call_triple (λ _, True) I m (λ _, I).
Proof.
  intros Hm w _ Hi. destruct (Hm w Hi Logic.I) as (Hall & Hlast & _).
  split; [|split; [done|by intros]]. by apply Forall_true.
Qed.

Lemma call_keeps_pre {A} (φ : Prop) (m : Call E R A) :
  (φ → keeps m) → call_triple I (λ _, φ) m (λ _ _, True).
Proof. intros Hm w Hi Hφ. by apply Hm. Qed.

(** Binding with what the first part says of its result. *)
Lemma call_keeps_bind_post {A B} (φ : A → Prop) (m : Call E R A) (f : A → Call E R B) :
  call_triple I (λ _, True) m (λ a _, φ a) → (∀ a, φ a → keeps (f a)) → keeps (mbind f m).
Proof.
  intros Hm Hf. eapply call_triple_bind; [exact Hm|]. intros a.
  apply (call_keeps_pre (φ a)), Hf.
Qed.

Lemma call_keeps_bind {A B} (m : Call E R A) (f : A → Call E R B) :
  keeps m → (∀ a, keeps (f a)) → keeps (mbind f m).
Proof. apply call_triple_bind. Qed.

Lemma call_keeps_ok {A} (a : A) : keeps (call_ok a).
Proof. by apply call_triple_ok. Qed.

Lemma call_keeps_lift {A} (r : Result E A) : keeps (call_lift r).
Proof. by apply call_triple_lift. Qed.

Lemma call_keeps_store_read {A} (f : SourceDb → Result E A) : keeps (store_read f).
Proof. by apply call_triple_store_read. Qed.

Lemma call_keeps_repository_read {A} (f : R → Result E A) : keeps (repository_read f).
Proof. by apply call_triple_repository_read. Qed.

Lemma call_keeps_attempt {A} (m : Call E R A) : keeps m → keeps (attempt_call m).
Proof.
  intros Hm. eapply call_triple_weaken; [| |exact (call_triple_attempt I _ m _ Hm)]; done.
Qed.

Lemma call_keeps_for_each {A} (f : A → Call E R unit) l :
  (∀ x, x ∈ l → keeps (f x)) → keeps (call_for_each f l).
Proof.
  induction l as [|x l IH]; intros Hf; simpl; [apply call_keeps_ok|].
  apply call_keeps_bind; [apply Hf; set_solver|]. intros _. apply IH. set_solver.
Qed.
End CallKeeps.

Lemma call_keeps_map_err {E F R A} (I : World R → Prop) (f : E → F) (m : Call E R A) :
  call_keeps I m → call_keeps I (call_map_err f m).
Proof. apply call_triple_map_err. Qed.

Create HintDb call_keeps.
#[export] Hint Resolve call_keeps_ok call_keeps_lift call_keeps_store_read
  call_keeps_repository_read : call_keeps.

(** Split a call into its steps and close those the hints know. *)
Ltac call_step :=
  match goal with
  | |- ∀ _, _ => intro
  | |- call_keeps _ (mbind _ _) => apply call_keeps_bind
  | |- call_keeps _ (attempt_call _) => apply call_keeps_attempt
  | |- call_keeps _ (call_map_err _ _) => apply call_keeps_map_err
  | |- call_keeps _ (call_for_each _ _) => apply call_keeps_for_each; intros ? _
  | |- call_keeps _ (if ?b then _ else _) => destruct b
  | |- call_keeps _ (match ?x with _ => _ end) => destruct x
  | |- call_keeps _ (let _ := _ in _) => cbv zeta
  | |- call_keeps _ _ => solve [eauto with call_keeps typeclass_instances]
  end.
Ltac call_steps := repeat call_step.

(** ** The ledger *)

(** The tables that say what is accepted, in progress and fenced. *)
Definition same_ledger (db db' : SourceDb) : Prop :=
  source_projects db' = source_projects db
  ∧ source_ref_update_journal db' = source_ref_update_journal db
  ∧ source_mutation_tickets db' = source_mutation_tickets db
  ∧ accepted_heads db' = accepted_heads db.

#[global] Instance same_ledger_preorder : PreOrder same_ledger.
Proof.
  split; [by intros db|]. unfold same_ledger. intros db1 db2 db3 (?&?&?&?) (?&?&?&?).
  repeat split; congruence.
Qed.

(** A relation that writing a table does not leave: each statement on that table stays
    in it. *)
Class Frees {T} (Q : relation SourceDb) (write : T → SourceDb → SourceDb) : Prop :=
  frees table db : Q db (write table db).

Definition write_meta table db := db <| source_meta := table |>.
Definition write_projects table db := db <| source_projects := table |>.
Definition write_heads table db := db <| accepted_heads := table |>.
Definition write_deliveries table db := db <| source_deliveries := table |>.
Definition write_journal table db := db <| source_ref_update_journal := table |>.
Definition write_events table db := db <| source_divergence_events := table |>.
Definition write_tickets table db := db <| source_mutation_tickets := table |>.
Definition write_outbox table db := db <| source_outbox := table |>.
Definition write_wakeups table db := db <| source_github_wakeups := table |>.

Section Frame.
Context (Q : relation SourceDb) `{!PreOrder Q}.

Lemma frame_sql b e : tx_rel Q (source_sql b e).
Proof. apply tx_rel_lift, _. Qed.

Lemma frame_write {T} (write : T → SourceDb → SourceDb) `{!Frees Q write} (table : SourceDb → T) :
  tx_rel Q (modify (λ db, write (table db) db) : SourceTx unit).
Proof. apply tx_rel_modify. intros db. apply frees. Qed.

Ltac frame := cbv delta [update_source_projects update_source_deliveries update_ref_updates
    update_divergence_events update_source_outbox update_github_wakeups insert_delivery_row
    insert_ref_update_row insert_accepted_head insert_ticket_row insert_divergence_event
    upsert_source_project insert_outbox_row insert_wakeup_row delete_ref_updates delete_tickets
    delete_outbox_rows delete_wakeups source_sql] beta;
  tx_steps.

Lemma frame_update_projects `{!Frees Q write_projects} p f : tx_rel Q (update_source_projects p f).
Proof. frame. by apply (frame_write write_projects (λ _, _)). Qed.
Lemma frame_upsert_project `{!Frees Q write_projects} k row f : tx_rel Q (upsert_source_project k row f).
Proof. frame; by apply (frame_write write_projects (λ _, _)). Qed.
Lemma frame_insert_head `{!Frees Q write_heads} k row : tx_rel Q (insert_accepted_head k row).
Proof. frame. by apply (frame_write write_heads (λ _, _)). Qed.
Lemma frame_update_deliveries `{!Frees Q write_deliveries} p f : tx_rel Q (update_source_deliveries p f).
Proof. frame. by apply (frame_write write_deliveries (λ _, _)). Qed.
Lemma frame_insert_delivery `{!Frees Q write_deliveries} k row : tx_rel Q (insert_delivery_row k row).
Proof. frame. by apply (frame_write write_deliveries (λ _, _)). Qed.
Lemma frame_update_journal `{!Frees Q write_journal} p f : tx_rel Q (update_ref_updates p f).
Proof. frame. by apply (frame_write write_journal (λ _, _)). Qed.
Lemma frame_insert_journal `{!Frees Q write_journal} k row : tx_rel Q (insert_ref_update_row k row).
Proof. frame. by apply (frame_write write_journal (λ _, _)). Qed.
Lemma frame_delete_journal `{!Frees Q write_journal} p : tx_rel Q (delete_ref_updates p).
Proof. exact (frame_write write_journal _). Qed.
Lemma frame_update_events `{!Frees Q write_events} p f : tx_rel Q (update_divergence_events p f).
Proof. frame. by apply (frame_write write_events (λ _, _)). Qed.
Lemma frame_insert_event `{!Frees Q write_events} k row : tx_rel Q (insert_divergence_event k row).
Proof. frame. by apply (frame_write write_events (λ _, _)). Qed.
Lemma frame_insert_ticket `{!Frees Q write_tickets} k row : tx_rel Q (insert_ticket_row k row).
Proof. frame. by apply (frame_write write_tickets (λ _, _)). Qed.
Lemma frame_delete_tickets `{!Frees Q write_tickets} p : tx_rel Q (delete_tickets p).
Proof. frame. by apply (frame_write write_tickets (λ _, _)). Qed.
Lemma frame_update_outbox `{!Frees Q write_outbox} p f : tx_rel Q (update_source_outbox p f).
Proof. frame. by apply (frame_write write_outbox (λ _, _)). Qed.
Lemma frame_insert_outbox `{!Frees Q write_outbox} row : tx_rel Q (insert_outbox_row row).
Proof. frame. by apply (frame_write write_outbox (λ _, _)). Qed.
Lemma frame_delete_outbox `{!Frees Q write_outbox} p : tx_rel Q (delete_outbox_rows p).
Proof. exact (frame_write write_outbox _). Qed.
Lemma frame_update_wakeups `{!Frees Q write_wakeups} p f : tx_rel Q (update_github_wakeups p f).
Proof. frame. by apply (frame_write write_wakeups (λ _, _)). Qed.
Lemma frame_insert_wakeup `{!Frees Q write_wakeups} row : tx_rel Q (insert_wakeup_row row).
Proof. frame. by apply (frame_write write_wakeups (λ _, _)). Qed.
Lemma frame_delete_wakeups `{!Frees Q write_wakeups} p : tx_rel Q (delete_wakeups p).
Proof. frame. by apply (frame_write write_wakeups (λ _, _)). Qed.

Lemma frame_epoch epoch : tx_rel Q (require_bound_broker_epoch epoch).
Proof. unfold require_bound_broker_epoch. tx_steps. Qed.

Lemma frame_write_epoch `{!Frees Q write_meta} (table : SourceDb → gmap string Z) :
  tx_rel Q (modify (λ db, db <| source_meta := table db |>) : SourceTx unit).
Proof. exact (frame_write write_meta table). Qed.
End Frame.

#[export] Hint Resolve frame_sql frame_update_projects frame_upsert_project frame_insert_head
  frame_update_deliveries frame_insert_delivery frame_update_journal frame_insert_journal
  frame_delete_journal frame_update_events frame_insert_event frame_insert_ticket
  frame_delete_tickets frame_update_outbox frame_insert_outbox frame_delete_outbox
  frame_update_wakeups frame_insert_wakeup frame_delete_wakeups frame_epoch
  frame_write_epoch : tx_rel.

(** ** Transactions *)

(** Each transaction under a relation that frees the tables it writes. *)
Section Transactions.
Context `{!SourceCodecs, !SourceCrypto}.
Context (Q : relation SourceDb) `{!PreOrder Q}.
Context `{!Frees Q write_meta, !Frees Q write_projects, !Frees Q write_heads,
  !Frees Q write_deliveries, !Frees Q write_journal, !Frees Q write_events,
  !Frees Q write_tickets, !Frees Q write_outbox, !Frees Q write_wakeups}.

Lemma acquire_broker_lease_rel now : tx_rel Q (acquire_broker_lease now).
Proof. unfold acquire_broker_lease. tx_steps. Qed.

Lemma prune_settled_outbox_rel : tx_rel Q prune_settled_outbox.
Proof. unfold prune_settled_outbox. tx_steps. Qed.

Lemma prune_settled_github_wakeups_rel : tx_rel Q prune_settled_github_wakeups.
Proof. unfold prune_settled_github_wakeups. tx_steps. Qed.

Local Hint Resolve prune_settled_outbox_rel prune_settled_github_wakeups_rel : tx_rel.

Lemma enqueue_github_wakeup_rel epoch p id digest head name now :
  tx_rel Q (enqueue_github_wakeup epoch p id digest head name now).
Proof. unfold enqueue_github_wakeup. tx_steps. Qed.

Lemma pending_github_wakeups_rel epoch p limit : tx_rel Q (pending_github_wakeups epoch p limit).
Proof. unfold pending_github_wakeups. tx_steps. Qed.

Lemma complete_github_wakeup_rel epoch wakeup outcome now :
  tx_rel Q (complete_github_wakeup epoch wakeup outcome now).
Proof. unfold complete_github_wakeup. tx_steps. Qed.

Lemma reconcile_github_wakeup_policy_rel epoch installed :
  tx_rel Q (reconcile_github_wakeup_policy epoch installed).
Proof. unfold reconcile_github_wakeup_policy. tx_steps. Qed.

Lemma reserve_delivery_rel epoch p channel id digest now token :
  tx_rel Q (reserve_delivery epoch p channel id digest now token).
Proof. unfold reserve_delivery. tx_steps. Qed.

Lemma enqueue_deployable_outcome_rel outcome now : tx_rel Q (enqueue_deployable_outcome outcome now).
Proof. unfold enqueue_deployable_outcome. tx_steps. Qed.
Local Hint Resolve enqueue_deployable_outcome_rel : tx_rel.

Lemma finish_delivery_rel epoch claim outcome auto now :
  tx_rel Q (finish_delivery epoch claim outcome auto now).
Proof. unfold finish_delivery. tx_steps. Qed.

Lemma abandon_delivery_rel epoch claim now : tx_rel Q (abandon_delivery epoch claim now).
Proof. unfold abandon_delivery. tx_steps. Qed.

Lemma recover_incomplete_deliveries_rel epoch now : tx_rel Q (recover_incomplete_deliveries epoch now).
Proof. unfold recover_incomplete_deliveries. tx_steps. Qed.

Lemma pending_outbox_rel epoch limit : tx_rel Q (pending_outbox epoch limit).
Proof. unfold pending_outbox. tx_steps. Qed.

Lemma reconcile_outbox_policy_rel epoch enabled now : tx_rel Q (reconcile_outbox_policy epoch enabled now).
Proof. unfold reconcile_outbox_policy. tx_steps. Qed.

Lemma source_outbox_status_rel epoch p sequence digest :
  tx_rel Q (source_outbox_status epoch p sequence digest).
Proof. unfold source_outbox_status. tx_steps. Qed.

Lemma acknowledge_outbox_rel epoch sequence digest now :
  tx_rel Q (store_acknowledge_outbox epoch sequence digest now).
Proof. unfold store_acknowledge_outbox. tx_steps. Qed.

Lemma acquire_mutation_ticket_rel epoch operation now :
  tx_rel Q (acquire_mutation_ticket epoch operation now).
Proof. unfold acquire_mutation_ticket. tx_steps. Qed.

Lemma release_mutation_ticket_rel epoch operation : tx_rel Q (release_mutation_ticket epoch operation).
Proof. unfold release_mutation_ticket. tx_steps. Qed.

Lemma begin_ref_update_rel epoch expected signed digest :
  tx_rel Q (begin_ref_update epoch expected signed digest).
Proof. unfold begin_ref_update. tx_steps. Qed.

Lemma mark_ref_updated_rel epoch p digest now : tx_rel Q (mark_ref_updated epoch p digest now).
Proof. unfold mark_ref_updated. tx_steps. Qed.

Lemma accept_if_current_rel epoch expected signed digest :
  tx_rel Q (accept_if_current epoch expected signed digest).
Proof. unfold accept_if_current. tx_steps. Qed.

Lemma mark_diverged_rel epoch p candidate channel evidence now :
  tx_rel Q (mark_diverged epoch p candidate channel evidence now).
Proof. unfold mark_diverged. tx_steps. Qed.

Lemma set_controls_rel epoch p blocked paused now : tx_rel Q (store_set_controls epoch p blocked paused now).
Proof. unfold store_set_controls. tx_steps. Qed.

Lemma resolve_divergence_rel epoch p head evidence now :
  tx_rel Q (store_resolve_divergence epoch p head evidence now).
Proof. unfold store_resolve_divergence. tx_steps. Qed.
End Transactions.

#[export] Hint Resolve acquire_broker_lease_rel prune_settled_outbox_rel
  prune_settled_github_wakeups_rel enqueue_github_wakeup_rel pending_github_wakeups_rel
  complete_github_wakeup_rel reconcile_github_wakeup_policy_rel reserve_delivery_rel
  enqueue_deployable_outcome_rel finish_delivery_rel abandon_delivery_rel
  recover_incomplete_deliveries_rel pending_outbox_rel reconcile_outbox_policy_rel
  source_outbox_status_rel acknowledge_outbox_rel acquire_mutation_ticket_rel
  release_mutation_ticket_rel begin_ref_update_rel mark_ref_updated_rel accept_if_current_rel
  mark_diverged_rel set_controls_rel resolve_divergence_rel : tx_rel.

#[global] Instance same_ledger_meta : Frees same_ledger write_meta.
Proof. by intros table db. Qed.
#[global] Instance same_ledger_deliveries : Frees same_ledger write_deliveries.
Proof. by intros table db. Qed.
#[global] Instance same_ledger_events : Frees same_ledger write_events.
Proof. by intros table db. Qed.
#[global] Instance same_ledger_outbox : Frees same_ledger write_outbox.
Proof. by intros table db. Qed.
#[global] Instance same_ledger_wakeups : Frees same_ledger write_wakeups.
Proof. by intros table db. Qed.
