(* ===== verification/SourceHistory.v ===== *)
(** * The source broker: histories

    What happens to the broker's world: requests to a broker, starts of a new broker, and
    changes of the repository that leave the accepted references alone.  A request or a
    start can be cut short after any of its lasting steps.  An invariant of the world is
    one of every history if the transactions and the three operations that move the
    accepted reference keep it ([source_history_keeps]). *)

From Stdlib Require Import ZArith Lia Ascii String.
From stdpp Require Import base gmap strings pretty option list_numbers list relations.
From S2P Require Import Prelude TxLogic Identifiers States Text Ordered Operation Workflow Errors Controller SourceDb Source SourceRepository SourceBroker SourceIngress SourceLogic.

Local Open Scope Z_scope.

(** ** Requests *)

(** An admission also carries the controller it admits into. *)
Inductive SourceRequest `{!Json OperationRecord, !Json OperationTransition} : Type :=
| Request_pending_outbox (limit : Z)
| Request_current_shadow_entry (project_id : ProjectId) (observed_at_ms : Z)
| Request_acknowledge_outbox (outbox_sequence : Z) (digest : EvidenceDigest) (now_ms : Z)
| Request_source_tree_observation (project_id : ProjectId)
| Request_resolve_divergence (project_id : ProjectId) (expected_head : option GitCommitId)
    (evidence_digest : EvidenceDigest) (now_ms : Z)
| Request_set_controls (project_id : ProjectId) (blocked_sha : option GitCommitId)
    (paused_until_ms : option Z) (now_ms : Z)
| Request_enqueue_github_push (project_id : ProjectId) (delivery_id signature_header : string)
    (webhook_secret raw_body : list Z) (now_ms : Z)
| Request_pending_github_wakeups (project_id : ProjectId) (limit : Z)
| Request_process_pending_github_pushes (project_id : ProjectId) (limit now_ms : Z) (tokens : Z → Uuid)
| Request_process_github_push (project_id : ProjectId) (delivery_id signature_header : string)
    (webhook_secret raw_body : list Z) (now_ms : Z) (token : Uuid)
| Request_reconcile_remote_main (project_id : ProjectId) (now_ms : Z) (token : Uuid)
| Request_refresh_shadow_head (project_id : ProjectId) (now_ms : Z) (token : Uuid)
| Request_process_direct_push (project_id : ProjectId) (delivery_id git_ref : string)
    (old_head : option GitCommitId) (new_head : GitCommitId) (now_ms : Z) (token : Uuid)
| Request_admit_recorded_deploy (uuids : NewUuids) (project_id : ProjectId) (channel : SourceChannel)
    (delivery_id : string) (now_ms : Z) (controller : ControlDb)
| Request_admit_recorded_interactive_deploy (uuids : NewUuids) (project_id : ProjectId)
    (channel : SourceChannel) (delivery_id : string) (lease : TabLeaseClaim) (grant : ActionGrantClaims)
    (now_ms : Z) (controller : ControlDb)
| Request_check_live (operation : OperationRecord) (now_ms : Z)
| Request_complete_live (operation : OperationRecord)
| Request_abort_live (operation : OperationRecord).

Section SourceHistory.
Context `{!SourceCodecs, !SourceCrypto, !Json OperationRecord, !Json OperationTransition}.
Context {R : Type} `{!SourceRepository R}.

(** The worlds a request leaves behind, and whether it succeeds. *)
Definition perform (lock_trusted : Result SourceError unit) (broker : DurableSourceBroker)
    (request : SourceRequest) (w : World R) : list (World R) * (World R * bool) :=
  let done {E A} (r : list (World R) * (World R * Result E A)) := (r.1, (r.2.1, is_ok r.2.2)) in
  let admitted {E A B} (r : list (World R) * (World R * Result E (A * Result E B))) :=
    (r.1, (r.2.1, match r.2.2 with Ok (_, outcome) => is_ok outcome | Err _ => false end)) in
  match request with
  | Request_pending_outbox limit => done (broker_pending_outbox lock_trusted broker limit w)
  | Request_current_shadow_entry p now => done (current_shadow_entry lock_trusted broker p now w)
  | Request_acknowledge_outbox sequence digest now =>
      done (acknowledge_outbox lock_trusted broker sequence digest now w)
  | Request_source_tree_observation p => done (source_tree_observation lock_trusted broker p w)
  | Request_resolve_divergence p head digest now =>
      done (resolve_divergence_keep_canonical lock_trusted broker p head digest now w)
  | Request_set_controls p blocked paused now => done (set_controls lock_trusted broker p blocked paused now w)
  | Request_enqueue_github_push p id header secret body now =>
      done (enqueue_github_push lock_trusted broker p id header secret body now w)
  | Request_pending_github_wakeups p limit => done (broker_pending_github_wakeups lock_trusted broker p limit w)
  | Request_process_pending_github_pushes p limit now tokens =>
      done (process_pending_github_pushes lock_trusted broker p limit now tokens w)
  | Request_process_github_push p id header secret body now token =>
      done (process_github_push lock_trusted broker p id header secret body now token w)
  | Request_reconcile_remote_main p now token => done (reconcile_remote_main lock_trusted broker p now token w)
  | Request_refresh_shadow_head p now token => done (refresh_shadow_head lock_trusted broker p now token w)
  | Request_process_direct_push p id git_ref old new now token =>
      done (process_direct_push lock_trusted broker p id git_ref old new now token w)
  | Request_admit_recorded_deploy uuids p channel id now controller =>
      admitted (admit_recorded_deploy lock_trusted uuids broker p channel id now controller w)
  | Request_admit_recorded_interactive_deploy uuids p channel id lease grant now controller =>
      admitted (admit_recorded_interactive_deploy lock_trusted uuids broker p channel id lease grant now
                  controller w)
  | Request_check_live operation now => done (check_live lock_trusted broker operation now w)
  | Request_complete_live operation => done (complete_live lock_trusted broker operation w)
  | Request_abort_live operation => done (abort_live lock_trusted broker operation w)
  end.

(** The worlds a call leaves behind, the last one included. *)
Definition left_behind {A} (result : list (World R) * (World R * A)) : list (World R) :=
  result.1 ++ [result.2.1].

Inductive source_step `{!SourceRepositoryLaws R} : World R → World R → Prop :=
| step_request lock_trusted broker request w w' :
    w' ∈ left_behind (perform lock_trusted broker request w) → source_step w w'
| step_start lock_trusted key_id signing_key ttl policies lock_acquired started_at_ms w w' :
    w' ∈ left_behind (new_broker lock_trusted key_id signing_key ttl policies lock_acquired started_at_ms w) →
    source_step w w'
| step_repository db r r' :
    (∀ p, accepted_ref r' p = accepted_ref r p) → source_step (MkWorld db r) (MkWorld db r').

Definition source_history `{!SourceRepositoryLaws R} : World R → World R → Prop := rtc source_step.

(** ** Transactions that any invariant of the ledger has to face on their own *)

Inductive ordinary : ∀ {A}, SourceTx A → Prop :=
| ordinary_lease now : ordinary (acquire_broker_lease now)
| ordinary_enqueue epoch p id digest head name now :
    ordinary (enqueue_github_wakeup epoch p id digest head name now)
| ordinary_pending_wakeups epoch p limit : ordinary (pending_github_wakeups epoch p limit)
| ordinary_complete epoch wakeup outcome now : ordinary (complete_github_wakeup epoch wakeup outcome now)
| ordinary_wakeup_policy epoch installed : ordinary (reconcile_github_wakeup_policy epoch installed)
| ordinary_reserve epoch p channel id digest now token :
    ordinary (reserve_delivery epoch p channel id digest now token)
| ordinary_finish epoch claim outcome auto now : ordinary (finish_delivery epoch claim outcome auto now)
| ordinary_abandon epoch claim now : ordinary (abandon_delivery epoch claim now)
| ordinary_recover epoch now : ordinary (recover_incomplete_deliveries epoch now)
| ordinary_pending_outbox epoch limit : ordinary (pending_outbox epoch limit)
| ordinary_outbox_policy epoch enabled now : ordinary (reconcile_outbox_policy epoch enabled now)
| ordinary_outbox_status epoch p sequence digest : ordinary (source_outbox_status epoch p sequence digest)
| ordinary_acknowledge epoch sequence digest now :
    ordinary (store_acknowledge_outbox epoch sequence digest now)
| ordinary_acquire epoch operation now : ordinary (acquire_mutation_ticket epoch operation now)
| ordinary_release epoch operation : ordinary (release_mutation_ticket epoch operation)
| ordinary_diverged epoch p candidate channel evidence now :
    ordinary (mark_diverged epoch p candidate channel evidence now)
| ordinary_controls epoch p blocked paused now :
    ordinary (store_set_controls epoch p blocked paused now).

Lemma load_snapshot_project p db snapshot : load_snapshot p db = Ok snapshot → ss_project_id snapshot = p.
Proof.
  unfold load_snapshot. destruct (source_projects db !! p) as [row|]; [|by intros [= <-]].
  intros Hok. inv_ok. do 2 case_ok. done.
Qed.

(** ** Invariants of histories *)

Section Keeps.
Context `{!SourceRepositoryLaws R} (I : World R → Prop).
Context (store_keeps : ∀ A (body : SourceTx A), ordinary body → call_keeps I (store body)).
Context (repository_keeps : ∀ db r r', (∀ p, accepted_ref r' p = accepted_ref r p) →
  I (MkWorld db r) → I (MkWorld db r')).
Context (accept_keeps : ∀ lock_trusted broker current ingress,
  ss_project_id current = ci_project_id ingress →
  call_keeps I (accept_candidate lock_trusted broker current ingress)).
Context (recover_keeps : ∀ lock_trusted broker now,
  call_keeps I (recover_source_state lock_trusted broker now)).
Context (resolve_keeps : ∀ lock_trusted broker p head evidence now,
  call_keeps I (resolve_divergence_keep_canonical lock_trusted broker p head evidence now)).

Lemma keeps_step {E A} (f : R → R * Result E A) :
  (∀ r, accepted_ref (f r).1 = accepted_ref r) → call_keeps I (repository_step f).
Proof.
  intros Hf. apply call_triple_repository_step; [|done]. intros [db r] Hi _.
  apply (repository_keeps db r); [|done]. intros p. by rewrite Hf.
Qed.

Lemma keeps_fetch p : call_keeps I (repository_step (fetch_remote_main p)).
Proof. apply keeps_step. apply fetch_keeps. Qed.
Lemma keeps_fetch_reconciliation p : call_keeps I (repository_step (fetch_remote_main_reconciliation p)).
Proof. apply keeps_step. apply fetch_reconciliation_keeps. Qed.
Lemma keeps_notify p : call_keeps I (repository_step (notify_priority_fetch p)).
Proof. apply keeps_step. apply notify_keeps. Qed.
Lemma keeps_clear p : call_keeps I (repository_step (clear_priority_fetch p)).
Proof. apply keeps_step. apply clear_keeps. Qed.

Local Hint Constructors ordinary : call_keeps.
Local Hint Resolve store_keeps accept_keeps recover_keeps resolve_keeps keeps_fetch
  keeps_fetch_reconciliation keeps_notify keeps_clear : call_keeps.

Section Operations.
Context (lock_trusted : Result SourceError unit) (broker : DurableSourceBroker).

Lemma keeps_lease : call_keeps I (require_current_lease lock_trusted broker).
Proof. unfold require_current_lease. call_steps. Qed.
Local Hint Resolve keeps_lease : call_keeps.

Lemma keeps_lock p : call_keeps I (lock_coordination lock_trusted broker p).
Proof. unfold lock_coordination. call_steps. Qed.
Local Hint Resolve keeps_lock : call_keeps.

Lemma keeps_signal p : call_keeps I (reconcile_priority_fetch_signal broker p).
Proof. unfold reconcile_priority_fetch_signal. call_steps. Qed.
Local Hint Resolve keeps_signal : call_keeps.

Lemma keeps_replay p current ingress : call_keeps I (replay_same_head broker p current ingress).
Proof. unfold replay_same_head. call_steps. Qed.
Local Hint Resolve keeps_replay : call_keeps.

Lemma keeps_once ingress : call_keeps I (process_candidate_once lock_trusted broker ingress).
Proof.
  unfold process_candidate_once. cbv zeta.
  apply (call_keeps_bind_post I (λ current, ss_project_id current = ci_project_id ingress)).
  { apply call_triple_store_read. intros current w Hok _ _. by eapply load_snapshot_project. }
  call_steps.
Qed.

Lemma keeps_candidate ingress : call_keeps I (process_candidate lock_trusted broker ingress).
Proof.
  unfold process_candidate. generalize 4%nat. intros n.
  induction n as [|n IH]; simpl; [apply call_keeps_lift|].
  apply call_keeps_bind; [apply keeps_once|]. call_steps.
Qed.
Local Hint Resolve keeps_candidate : call_keeps.

Lemma keeps_github_candidate candidate head :
  call_keeps I (process_github_candidate lock_trusted broker candidate head).
Proof. unfold process_github_candidate. call_steps. Qed.
Local Hint Resolve keeps_github_candidate : call_keeps.

Lemma keeps_settle claim auto now processing :
  call_keeps I processing → call_keeps I (settle_delivery broker claim auto now processing).
Proof. intros Hp. unfold settle_delivery. call_steps. Qed.

Lemma keeps_drain p policy fetched tokens now wakeups completed :
  call_keeps I (drain_wakeups lock_trusted broker p policy fetched tokens now wakeups completed).
Proof.
  revert completed. induction wakeups as [|wakeup rest IH]; intros completed; simpl; call_steps.
Qed.
Local Hint Resolve keeps_drain : call_keeps.

Lemma keeps_pending_pushes p limit now tokens :
  call_keeps I (process_pending_github_pushes lock_trusted broker p limit now tokens).
Proof. unfold process_pending_github_pushes. call_steps. Qed.

Lemma keeps_github_push p id header secret body now token :
  call_keeps I (process_github_push lock_trusted broker p id header secret body now token).
Proof. unfold process_github_push. call_steps. apply keeps_settle. call_steps. Qed.

Lemma keeps_reconcile p now refresh token :
  call_keeps I (reconcile_remote_main_with lock_trusted broker p now refresh token).
Proof. unfold reconcile_remote_main_with. call_steps. apply keeps_settle. call_steps. Qed.

Lemma keeps_direct_push p id git_ref old new now token :
  call_keeps I (process_direct_push lock_trusted broker p id git_ref old new now token).
Proof. unfold process_direct_push. call_steps. apply keeps_settle. call_steps. Qed.

Lemma keeps_enqueue p id header secret body now :
  call_keeps I (enqueue_github_push lock_trusted broker p id header secret body now).
Proof. unfold enqueue_github_push. call_steps. Qed.

Lemma keeps_check_live operation now : call_keeps I (check_live lock_trusted broker operation now).
Proof. unfold check_live, verify_live_binding. call_steps. Qed.

Lemma keeps_complete_live operation : call_keeps I (complete_live lock_trusted broker operation).
Proof. unfold complete_live. call_steps. Qed.

End Operations.

Lemma keeps_new_broker lock_trusted key_id signing_key ttl policies lock_acquired now :
  call_keeps I (new_broker lock_trusted key_id signing_key ttl policies lock_acquired now).
Proof. unfold new_broker. call_steps. Qed.

Lemma perform_keeps lock_trusted broker request w :
  I w → Forall I (left_behind (perform lock_trusted broker request w)).
Proof.
  intros Hi.
  assert (∀ E A (m : Call E R A), call_keeps I m → Forall I ((m w).1 ++ [(m w).2.1])) as Hkeeps.
  { intros E A m Hm. destruct (Hm w Hi Logic.I) as (Hall & Hlast & _). apply Forall_app. by repeat constructor. }
  destruct request; simpl; apply Hkeeps;
    first [ apply keeps_reconcile | apply keeps_pending_pushes | apply keeps_github_push
          | apply keeps_direct_push | apply keeps_enqueue | apply keeps_check_live
          | apply keeps_complete_live | apply resolve_keeps | idtac ].
  - unfold broker_pending_outbox. call_steps. apply keeps_lease.
  - unfold current_shadow_entry. call_steps. apply keeps_lock.
  - unfold acknowledge_outbox. call_steps. apply keeps_lease.
  - unfold source_tree_observation. call_steps. apply keeps_lock.
  - unfold set_controls. call_steps. apply keeps_lock.
  - unfold broker_pending_github_wakeups. call_steps. apply keeps_lease.
  - unfold admit_recorded_deploy. call_steps. apply keeps_lock.
  - unfold admit_recorded_interactive_deploy. call_steps. apply keeps_lock.
Qed.

Lemma source_history_keeps w w' : source_history w w' → I w → I w'.
Proof.
  induction 1 as [|w1 w2 w3 Hstep _ IH]; [done|]. intros Hi. apply IH. clear IH.
  destruct Hstep as [lock broker request w1 w2 Hin|? ? ? ? ? ? ? w1 w2 Hin|db r r' Hr].
  - pose proof (perform_keeps lock broker request w1 Hi) as Hall.
    rewrite Forall_forall in Hall. by apply Hall.
  - edestruct keeps_new_broker as (Hall & Hlast & _); [exact Hi|done|]. rewrite Forall_forall in Hall.
    apply elem_of_app in Hin as [Hin| ->%list_elem_of_singleton]; [by apply Hall|done].
  - by eapply repository_keeps.
Qed.
End Keeps.

(** ** Relations of histories *)

(** A relation of the databases that every transaction stays in. *)
Class Respects (Q : relation SourceDb) : Prop := {
  respects_preorder :: PreOrder Q;
  respects_ordinary {A} (body : SourceTx A) : ordinary body → tx_rel Q body;
  respects_begin epoch expected signed digest : tx_rel Q (begin_ref_update epoch expected signed digest);
  respects_updated epoch p digest now : tx_rel Q (mark_ref_updated epoch p digest now);
  respects_accept epoch expected signed digest : tx_rel Q (accept_if_current epoch expected signed digest);
  respects_resolve epoch p head evidence now : tx_rel Q (store_resolve_divergence epoch p head evidence now)
}.

Section Respects.
Context (Q : relation SourceDb) `{!Respects Q} (db0 : SourceDb).
Abbreviation J := (λ w : World R, Q db0 (w_db w)) (only parsing).

Lemma respects_store {A} (body : SourceTx A) : tx_rel Q body → call_keeps J (store body).
Proof.
  intros Hbody. apply call_triple_store. intros w a db Hok Hq _. split; [|done]. simpl.
  etrans; [exact Hq|by eapply Hbody].
Qed.

Lemma respects_step {E A} (f : R → R * Result E A) : call_keeps J (repository_step f).
Proof. by apply call_triple_repository_step. Qed.

Lemma respects_ordinary_store {A} (body : SourceTx A) : ordinary body → call_keeps J (store body).
Proof. intros Hbody. by apply respects_store, respects_ordinary. Qed.

Local Hint Constructors ordinary : call_keeps.
Local Hint Resolve respects_ordinary_store respects_step : call_keeps.
Local Hint Extern 1 (call_keeps _ (store (begin_ref_update _ _ _ _))) =>
  apply respects_store, respects_begin : call_keeps.
Local Hint Extern 1 (call_keeps _ (store (mark_ref_updated _ _ _ _))) =>
  apply respects_store, respects_updated : call_keeps.
Local Hint Extern 1 (call_keeps _ (store (accept_if_current _ _ _ _))) =>
  apply respects_store, respects_accept : call_keeps.
Local Hint Extern 1 (call_keeps _ (store (store_resolve_divergence _ _ _ _ _))) =>
  apply respects_store, respects_resolve : call_keeps.

Lemma respects_recover_state lock_trusted broker now :
  call_keeps J (recover_source_state lock_trusted broker now).
Proof.
  unfold recover_source_state, recover_ref_update, recover_project, move_reference,
    mark_ref_diverged, require_current_lease. call_steps.
Qed.

Lemma history_respects `{!SourceRepositoryLaws R} w w' :
  source_history w w' → Q db0 (w_db w) → Q db0 (w_db w').
Proof.
  apply (source_history_keeps (λ w, Q db0 (w_db w))); [auto with call_keeps|done|..].
  - intros lock_trusted broker current ingress _.
    unfold accept_candidate, advance_ref_update, move_reference, mark_ref_diverged, require_current_lease.
    call_steps.
  - intros. apply respects_recover_state.
  - intros lock_trusted broker p head evidence now.
    unfold resolve_divergence_keep_canonical, lock_coordination, require_current_lease. call_steps.
Qed.
End Respects.
End SourceHistory.
