(* ===== verification/SourceInvariant.v ===== *)
(** * The source broker: the ledger's invariant

    For each project the ledger holds a chain of signed accepted heads, at most one
    update of the accepted reference in progress, which starts at the last head, and at
    most one mutation ticket, which names the last head and excludes an update
    ([project_ledger]); and unless the project waits for its owner, the accepted
    reference is the last head, or the one of the update in progress
    ([reference_consistent]). *)

From Stdlib Require Import ZArith Lia Ascii String.
From stdpp Require Import base gmap strings pretty option list_numbers list relations.
From S2P Require Import Prelude TxLogic Identifiers States Text Ordered Operation Workflow Errors Controller SourceDb Source SourceRepository SourceBroker SourceIngress SourceLogic SourceHistory.

Local Open Scope Z_scope.

(** ** What the ledger says of a project *)

Definition project_head (db : SourceDb) (p : ProjectId) : option GitCommitId :=
  source_projects db !! p ≫= sp_canonical_head.
Definition project_sequence (db : SourceDb) (p : ProjectId) : Z :=
  from_option sp_sequence 0 (source_projects db !! p).
Definition project_digest (db : SourceDb) (p : ProjectId) : option EvidenceDigest :=
  source_projects db !! p ≫= sp_attestation_digest.
Definition project_diverged (db : SourceDb) (p : ProjectId) : Prop :=
  from_option sp_state Source_Ready (source_projects db !! p) = Source_DivergedNeedsOwner.

Section Invariant.
Context `{!SourceCodecs}.

(** A row of the chain: its attestation says what the row says. *)
Definition attested_row (p : ProjectId) (n : Z) (row : AcceptedHeadRow) : Prop :=
  ∃ signed : SignedAcceptedHeadV1,
    json_from_slice (ar_attestation_json row) = Ok signed
    ∧ SignedAcceptedHead_digest signed = Ok (ar_attestation_digest row)
    ∧ ah_project_id (sah_payload signed) = p
    ∧ ah_sequence (sah_payload signed) = n
    ∧ ah_head (sah_payload signed) = ar_canonical_head row
    ∧ ah_previous_head (sah_payload signed) = ar_previous_head row.

(** A row of the journal: likewise. *)
Definition pending_row (j : RefUpdateRow) : Prop :=
  ∃ signed : SignedAcceptedHeadV1,
    json_from_slice (ru_signed_attestation_json j) = Ok signed
    ∧ ah_sequence (sah_payload signed) = ru_sequence j
    ∧ ah_head (sah_payload signed) = ru_new_head j.

Record project_ledger (db : SourceDb) (p : ProjectId) : Prop := {
  pl_check row : source_projects db !! p = Some row → source_project_check row = true;
  pl_journal j : source_ref_update_journal db !! p = Some j →
    ru_expected_head j = project_head db p ∧ ru_sequence j = project_sequence db p + 1
    ∧ source_mutation_tickets db !! p = None;
  pl_pending j : source_ref_update_journal db !! p = Some j → pending_row j;
  pl_ticket t : source_mutation_tickets db !! p = Some t →
    mt_source_sequence t = project_sequence db p
    ∧ project_digest db p = Some (mt_attestation_digest t);
  pl_range n : is_Some (accepted_heads db !! (p, n)) ↔ 1 ≤ n ≤ project_sequence db p;
  pl_head : project_head db p
            = ar_canonical_head <$> accepted_heads db !! (p, project_sequence db p);
  pl_digest : project_digest db p
              = ar_attestation_digest <$> accepted_heads db !! (p, project_sequence db p);
  pl_link n row : accepted_heads db !! (p, n) = Some row →
    ar_previous_head row = ar_canonical_head <$> accepted_heads db !! (p, n - 1);
  pl_attested n row : accepted_heads db !! (p, n) = Some row → attested_row p n row
}.

(** The reference agrees with the ledger. *)
Definition reference_consistent (db : SourceDb) (p : ProjectId) (reference : option GitCommitId) : Prop :=
  project_diverged db p
  ∨ match source_ref_update_journal db !! p with
    | None => reference = project_head db p
    | Some j => if ru_ref_updated j then reference = Some (ru_new_head j)
                else reference = project_head db p ∨ reference = Some (ru_new_head j)
    end.

Definition ledger_ok (db : SourceDb) : Prop := ∀ p, project_ledger db p.

(** The ledger, and the references of the projects [S]. *)
Definition world_ok {R} `{!SourceRepository R, !SourceRepositoryLaws R} (S : ProjectId → Prop)
    (w : World R) : Prop :=
  ledger_ok (w_db w)
  ∧ ∀ p, S p → reference_consistent (w_db w) p (accepted_ref (w_repository w) p).

(** ** Frames *)

(** A project's rows are the same. *)
Definition same_project (p : ProjectId) (db db' : SourceDb) : Prop :=
  source_projects db' !! p = source_projects db !! p
  ∧ source_ref_update_journal db' !! p = source_ref_update_journal db !! p
  ∧ source_mutation_tickets db' !! p = source_mutation_tickets db !! p
  ∧ ∀ n, accepted_heads db' !! (p, n) = accepted_heads db !! (p, n).

Lemma same_ledger_project p db db' : same_ledger db db' → same_project p db db'.
Proof. intros (H1 & H2 & H3 & H4). unfold same_project. by rewrite H1, H2, H3, H4. Qed.

Lemma same_project_ledger p db db' : same_project p db db' → project_ledger db p → project_ledger db' p.
Proof.
  intros (H1 & H2 & H3 & H4) [? ? ? ? ? ? ? ? ?].
  assert (project_head db' p = project_head db p) as Eh by (unfold project_head; by rewrite H1).
  assert (project_sequence db' p = project_sequence db p) as Es by (unfold project_sequence; by rewrite H1).
  assert (project_digest db' p = project_digest db p) as Ed by (unfold project_digest; by rewrite H1).
  split; rewrite ?Eh, ?Es, ?Ed, ?H1, ?H2, ?H3, ?H4; try done; intros n; rewrite ?H4; eauto.
Qed.

Lemma same_project_consistent p db db' reference :
  same_project p db db' → reference_consistent db p reference → reference_consistent db' p reference.
Proof.
  intros (H1 & H2 & _ & _). unfold reference_consistent, project_diverged, project_head.
  by rewrite H1, H2.
Qed.

Lemma same_ledger_ok db db' : same_ledger db db' → ledger_ok db → ledger_ok db'.
Proof. intros Hsame Hok p. eapply same_project_ledger; [by apply same_ledger_project|apply Hok]. Qed.

(** Only the rows of [p] may differ. *)
Definition others_same (p : ProjectId) (db db' : SourceDb) : Prop :=
  ∀ q, q ≠ p → same_project q db db'.

Lemma others_same_ledger p db db' :
  others_same p db db' → project_ledger db' p → ledger_ok db → ledger_ok db'.
Proof.
  intros Hothers Hp Hok q. destruct (decide (q = p)) as [->|Hne]; [done|].
  eapply same_project_ledger; [by apply Hothers|apply Hok].
Qed.

(** The head of [p] is kept. *)
Lemma kept_head p db db' :
  source_projects db' !! p = source_projects db !! p →
  project_head db' p = project_head db p ∧ project_sequence db' p = project_sequence db p
  ∧ project_digest db' p = project_digest db p.
Proof. unfold project_head, project_sequence, project_digest. by intros ->. Qed.

(** ** Reading a snapshot *)

Lemma load_snapshot_row p db s :
  load_snapshot p db = Ok s →
  ss_project_id s = p ∧ ss_head s = project_head db p ∧ ss_sequence s = project_sequence db p
  ∧ ss_attestation_digest s = project_digest db p
  ∧ ss_state s = from_option sp_state Source_Ready (source_projects db !! p).
Proof.
  unfold load_snapshot, project_head, project_sequence, project_digest.
  destruct (source_projects db !! p) as [row|]; simpl; [|by intros [= <-]].
  intros Hok. apply result_bind_Ok in Hok as (sequence & Hseq & Hok). apply ok_or_Ok in Hseq.
  apply result_bind_Ok in Hok as (attestation & _ & Hok). do 2 case_ok. simpl.
  split_and!; try done. by apply checked_range_Some in Hseq as [-> _].
Qed.

(** ** Effects of the statements *)

Lemma update_table_lookup {K V} `{Countable K} (p : K → V → bool) f check (table table' : gmap K V) n :
  update_table p f check table = Ok (n, table') →
  (∀ k, table' !! k = (λ v, if p k v then f v else v) <$> table !! k)
  ∧ ∀ k v, table !! k = Some v → p k v = true → check (f v) = true.
Proof.
  unfold update_table. destruct (forallb _ _) eqn:Hcheck; [|done]. intros [= _ <-]. split.
  - intros k. rewrite map_lookup_imap. by destruct (table !! k).
  - intros k v Hk Hp. rewrite forallb_forall in Hcheck. apply (Hcheck (k, v)).
    apply list_elem_of_In, select_rows_elem. done.
Qed.

(** The rows counted by an update that reports one row: there is one. *)
Lemma update_table_one {K V} `{Countable K} (p : K → V → bool) f check (table table' : gmap K V) n :
  update_table p f check table = Ok (n, table') → n ≠ 0 → ∃ k v, table !! k = Some v ∧ p k v = true.
Proof.
  unfold update_table. destruct (forallb _ _); [|done]. intros [= <- _] Hn.
  destruct (select_rows p table) as [|[k v] rows] eqn:Hrows; [done|]. exists k, v.
  assert ((k, v) ∈ select_rows p table) as Hin by (rewrite Hrows; left).
  apply select_rows_elem in Hin as [??]. done.
Qed.

Lemma upsert_source_project_Ok p row f db u db' :
  upsert_source_project p row f db = Ok (u, db') →
  let written := from_option f row (source_projects db !! p) in
  (source_project_check row = true ∧ source_project_check written = true)
  ∧ db' = write_projects (<[p := written]> (source_projects db)) db.
Proof.
  unfold upsert_source_project, source_sql. intros Hok. repeat inv_ok_step. cbv zeta.
  destruct (source_projects db !! p); done.
Qed.

(** A project's row is rewritten with the same head. *)
Definition project_rewritten (p : ProjectId) (state : SourceProjectState) (db db' : SourceDb) : Prop :=
  ∃ row, source_projects db' = <[p := row]> (source_projects db)
    ∧ source_ref_update_journal db' = source_ref_update_journal db
    ∧ source_mutation_tickets db' = source_mutation_tickets db
    ∧ accepted_heads db' = accepted_heads db
    ∧ source_project_check row = true ∧ sp_state row = state
    ∧ sp_canonical_head row = project_head db p ∧ sp_sequence row = project_sequence db p
    ∧ sp_attestation_digest row = project_digest db p.

Lemma project_rewritten_other p q state db db' :
  q ≠ p → project_rewritten p state db db' → same_project q db db'.
Proof.
  intros Hne (row & H1 & H2 & H3 & H4 & _). unfold same_project. rewrite H1, H2, H3, H4.
  by rewrite lookup_insert_ne.
Qed.

Lemma project_rewritten_ledger p state db db' :
  project_rewritten p state db db' → ledger_ok db → ledger_ok db'.
Proof.
  intros Hw Hok q. destruct (decide (q = p)) as [->|Hne].
  2: { eapply same_project_ledger; [by eapply project_rewritten_other|apply Hok]. }
  destruct Hw as (row & H1 & H2 & H3 & H4 & Hcheck & _ & Hh & Hs & Hd).
  assert (project_head db' p = project_head db p) as Eh
    by (unfold project_head at 1; rewrite H1, lookup_insert_eq; done).
  assert (project_sequence db' p = project_sequence db p) as Es
    by (unfold project_sequence at 1; rewrite H1, lookup_insert_eq; done).
  assert (project_digest db' p = project_digest db p) as Ed
    by (unfold project_digest at 1; rewrite H1, lookup_insert_eq; done).
  destruct (Hok p). split; rewrite ?Eh, ?Es, ?Ed, ?H2, ?H3, ?H4; try done.
  intros row' Hrow'. rewrite H1, lookup_insert_eq in Hrow'. by simplify_eq.
Qed.

Lemma project_rewritten_consistent p state db db' q reference :
  project_rewritten p state db db' →
  (state = Source_Ready → ¬ project_diverged db p) →
  reference_consistent db q reference → reference_consistent db' q reference.
Proof.
  intros Hw Hstate Href. destruct (decide (q = p)) as [->|Hne].
  2: { eapply same_project_consistent; [by eapply project_rewritten_other|done]. }
  destruct Hw as (row & H1 & H2 & H3 & H4 & _ & Hrow & Hh & _).
  assert (project_head db' p = project_head db p) as Eh
    by (unfold project_head at 1; rewrite H1, lookup_insert_eq; done).
  destruct state; [|left; unfold project_diverged; by rewrite H1, lookup_insert_eq].
  destruct Href as [Hd'|Href]; [by destruct (Hstate eq_refl)|]. right. by rewrite H2, Eh.
Qed.

(** ** Effects of the transactions *)

Lemma sequence_to_i64_Ok n m : sequence_to_i64 n = Ok m → m = n.
Proof. unfold sequence_to_i64. intros Hok. inv_ok. by apply checked_range_Some in Hok as [-> _]. Qed.

(** An upsert that keeps the head of the row there, or writes none. *)
Lemma upsert_rewritten p row f db0 db u db' state :
  same_ledger db db0 →
  upsert_source_project p row f db0 = Ok (u, db') →
  (∀ r, source_projects db !! p = Some r →
     sp_state (f r) = state ∧ sp_canonical_head (f r) = sp_canonical_head r
     ∧ sp_sequence (f r) = sp_sequence r ∧ sp_attestation_digest (f r) = sp_attestation_digest r) →
  (source_projects db !! p = None →
     sp_state row = state ∧ sp_canonical_head row = None ∧ sp_sequence row = 0
     ∧ sp_attestation_digest row = None) →
  project_rewritten p state db db'.
Proof.
  intros (E1 & E2 & E3 & E4) [[_ Hcheck] ->]%upsert_source_project_Ok Hsome Hnone.
  cbv zeta in Hcheck. rewrite E1 in *.
  exists (from_option f row (source_projects db !! p)). simpl. split_and!; try done.
  all: unfold project_head, project_sequence, project_digest;
    destruct (source_projects db !! p) as [r|]; simpl;
    [destruct (Hsome r eq_refl) as (?&?&?&?)|destruct (Hnone eq_refl) as (?&?&?&?)]; done.
Qed.

(** The epoch check and the snapshot most transactions start with. *)
Lemma epoch_snapshot_Ok {A} epoch p (f : SourceSnapshot → SourceTx A) db a db' :
  (let? _ := require_bound_broker_epoch epoch in
   let? current := reads (load_snapshot p) in f current) db = Ok (a, db') →
  ∃ current, load_snapshot p db = Ok current ∧ f current db = Ok (a, db').
Proof.
  intros Hok. apply tx_bind_Ok in Hok as (u0 & db0 & Hepoch & Hok).
  apply tx_bind_Ok in Hok as (current & db1 & Hread & Hok).
  apply reads_Ok in Hread as [Hread ->].
  apply (frame_epoch eq) in Hepoch as <-. by exists current.
Qed.
Lemma mark_diverged_Ok epoch p candidate channel evidence now db u db' :
  mark_diverged epoch p candidate channel evidence now db = Ok (u, db') →
  project_rewritten p Source_DivergedNeedsOwner db db'.
Proof.
  unfold mark_diverged. intros (current & Hread & Hok)%epoch_snapshot_Ok.
  apply tx_bind_Ok in Hok as (u1 & db1 & Hevent & Hok).
  apply tx_bind_Ok in Hok as (sequence & db2 & Hseq & Hok). apply lift_Ok in Hseq as [Hseq ->].
  apply tx_bind_Ok in Hok as (json & db2 & Hjson & Hok). apply lift_Ok in Hjson as [_ ->].
  apply load_snapshot_row in Hread as (_ & Hh & Hs & Hd & _). apply sequence_to_i64_Ok in Hseq as ->.
  eapply upsert_rewritten; [|exact Hok| |]; cbv beta.
  - by eapply (frame_insert_event same_ledger).
  - intros r _. by destruct (bool_decide_reflect (sp_state r = Source_DivergedNeedsOwner)).
  - intros Hnone. unfold project_head, project_sequence, project_digest in *. by rewrite Hnone in *.
Qed.

Lemma set_controls_Ok epoch p blocked paused now db u db' :
  store_set_controls epoch p blocked paused now db = Ok (u, db') →
  project_rewritten p (from_option sp_state Source_Ready (source_projects db !! p)) db db'.
Proof.
  unfold store_set_controls. intros Hok.
  apply tx_bind_Ok in Hok as (u1 & db1 & Hlift & Hok). apply lift_Ok in Hlift as [_ ->].
  apply epoch_snapshot_Ok in Hok as (current & Hread & Hok).
  apply tx_bind_Ok in Hok as (sequence & db2 & Hseq & Hok). apply lift_Ok in Hseq as [Hseq ->].
  apply tx_bind_Ok in Hok as (json & db2 & Hjson & Hok). apply lift_Ok in Hjson as [_ ->].
  apply load_snapshot_row in Hread as (_ & Hh & Hs & Hd & Hst). apply sequence_to_i64_Ok in Hseq as ->.
  eapply upsert_rewritten; [reflexivity|exact Hok| |]; cbv beta.
  - intros r Hr. by rewrite Hr.
  - intros Hnone. unfold project_head, project_sequence, project_digest in *. by rewrite Hnone in *.
Qed.


Lemma resolve_divergence_Ok epoch p head evidence now db u db' :
  store_resolve_divergence epoch p head evidence now db = Ok (u, db') →
  others_same p db db'
  ∧ source_ref_update_journal db' !! p = None
  ∧ source_mutation_tickets db' = source_mutation_tickets db
  ∧ accepted_heads db' = accepted_heads db
  ∧ project_head db p = head
  ∧ ∃ row, source_projects db' !! p = Some row ∧ source_project_check row = true
      ∧ sp_state row = Source_Ready ∧ sp_canonical_head row = project_head db p
      ∧ sp_sequence row = project_sequence db p ∧ sp_attestation_digest row = project_digest db p.
Proof.
  unfold store_resolve_divergence. intros (current & Hread & Hok)%epoch_snapshot_Ok.
  apply tx_bind_Ok in Hok as (u1 & db1 & Hcurrent & Hok).
  apply lift_Ok in Hcurrent as [Hcurrent ->]. apply ensure_Ok in Hcurrent.
  apply tx_bind_Ok in Hok as (changed & db1 & Hupdate & Hok).
  apply tx_bind_Ok in Hok as (u2 & db2 & Hone & Hok). apply lift_Ok in Hone as [Hone ->].
  apply tx_bind_Ok in Hok as (u3 & db2 & Hdelete & Hok). apply modify_Ok in Hdelete as ->.
  apply tx_bind_Ok in Hok as (recorded & db2 & Hgets & Hok). apply gets_Ok in Hgets as [_ ->].
  apply tx_bind_Ok in Hok as (resolved & db2 & Hevents & Hok). apply lift_Ok in Hok as [_ ->].
  apply (frame_update_events same_ledger) in Hevents as (E1 & E2 & E3 & E4).
  unfold update_source_projects in Hupdate.
  apply tx_bind_Ok in Hupdate as (table & db3 & Hgets & Hupdate). apply gets_Ok in Hgets as [-> ->].
  apply tx_bind_Ok in Hupdate as ([n table] & db3 & Hlift & Hupdate).
  apply lift_Ok in Hlift as [Htable ->]. repeat inv_ok_step.
  destruct (update_table_lookup _ _ _ _ _ _ Htable) as [Hlookup Hcheck].
  destruct (update_table_one _ _ _ _ _ _ Htable) as (k & old & Hold & Hk).
  { intros ->. bool_prop. done. }
  apply load_snapshot_row in Hread as (_ & Hh & _). bool_prop. destruct_and!. subst k.
  split_and!.
  - intros q Hne. unfold same_project. rewrite E1, E2, E3, E4. simpl. split_and!; try done.
    + rewrite Hlookup. destruct (source_projects db !! q); [|done]. simpl.
      by rewrite bool_decide_false.
    + rewrite map_lookup_filter. destruct (source_ref_update_journal db !! q); [|done]. simpl.
      by rewrite option_guard_True by (simpl; by rewrite bool_decide_false).
  - rewrite E2. simpl. apply map_lookup_filter_None. right. intros j _. simpl.
    by rewrite bool_decide_true.
  - by rewrite E3.
  - by rewrite E4.
  - congruence.
  - exists (old <| sp_state := Source_Ready |> <| sp_divergent_candidate := None |>
                <| sp_divergence_channel := None |> <| sp_divergence_evidence_digest := None |>
                <| sp_updated_at_ms := now |>).
    unfold project_head, project_sequence, project_digest. rewrite E1. simpl. rewrite Hlookup, Hold. simpl.
    rewrite !bool_decide_true by done. split_and!; try done.
    apply (Hcheck p old Hold). by rewrite !bool_decide_true.
Qed.

Lemma acquire_mutation_ticket_Ok epoch operation now db u db' :
  acquire_mutation_ticket epoch operation now db = Ok (u, db') →
  let p := op_project_id operation in
  ∃ target ticket,
    source_projects db' = source_projects db
    ∧ source_ref_update_journal db' = source_ref_update_journal db
    ∧ accepted_heads db' = accepted_heads db
    ∧ source_mutation_tickets db' = <[p := ticket]> (source_mutation_tickets db)
    ∧ (source_mutation_tickets db !! p = None ∨ source_mutation_tickets db !! p = Some ticket)
    ∧ op_target_commit operation = Some target ∧ project_head db p = Some target
    ∧ ¬ project_diverged db p ∧ source_ref_update_journal db !! p = None
    ∧ mt_attempt_id ticket = op_attempt_id operation
    ∧ mt_source_sequence ticket = project_sequence db p
    ∧ ev_source_sequence (op_evidence operation) = Some (project_sequence db p)
    ∧ project_digest db p = Some (mt_attestation_digest ticket)
    ∧ ev_source_attestation_digest (op_evidence operation) = Some (mt_attestation_digest ticket).
Proof.
  unfold acquire_mutation_ticket. intros Hok. cbv zeta in Hok |- *. set (p := op_project_id operation) in *.
  apply tx_bind_Ok in Hok as (target & db1 & Hl & Hok). apply lift_Ok in Hl as [Htarget ->].
  apply tx_bind_Ok in Hok as (sequence & db1 & Hl & Hok). apply lift_Ok in Hl as [Hevidence ->].
  apply tx_bind_Ok in Hok as (sequence_i64 & db1 & Hl & Hok). apply lift_Ok in Hl as [Hi64 ->].
  apply tx_bind_Ok in Hok as (digest & db1 & Hl & Hok). apply lift_Ok in Hl as [Hdigest ->].
  apply tx_bind_Ok in Hok as (phase & db1 & Hl & Hok). apply lift_Ok in Hl as [Hphase ->].
  apply epoch_snapshot_Ok in Hok as (current & Hread & Hok).
  apply tx_bind_Ok in Hok as (u1 & db1 & Hl & Hok). apply lift_Ok in Hl as [Hcurrent ->].
  apply tx_bind_Ok in Hok as (u2 & db1 & Hl & Hok). apply lift_Ok in Hl as [_ ->].
  apply tx_bind_Ok in Hok as (pending & db1 & Hl & Hok). apply gets_Ok in Hl as [-> ->].
  apply tx_bind_Ok in Hok as (u3 & db1 & Hl & Hok). apply lift_Ok in Hl as [Hpending ->].
  apply tx_bind_Ok in Hok as (held & db1 & Hl & Hok). apply gets_Ok in Hl as [-> ->].
  apply ok_or_Ok in Htarget, Hevidence, Hdigest. apply sequence_to_i64_Ok in Hi64 as ->.
  apply ensure_Ok in Hcurrent, Hpending. apply load_snapshot_row in Hread as (_ & Hh & Hs & Hd & Hst).
  bool_prop. destruct_and!.
  assert (source_ref_update_journal db !! p = None) as Hj.
  { unfold has_pending_ref_update in *. by destruct (source_ref_update_journal db !! p). }
  assert (¬ project_diverged db p) as Hready by (unfold project_diverged; congruence).
  exists target. destruct (source_mutation_tickets db !! p) as [ticket|] eqn:Hticket.
  - apply lift_Ok in Hok as [Hmatch ->]. apply ensure_Ok in Hmatch. bool_prop. destruct_and!.
    exists ticket. split_and!; try congruence; [by rewrite insert_id|by right].
  - unfold insert_ticket_row, source_sql in Hok. repeat inv_ok_step.
    eexists. split_and!; [reflexivity..|by left| | | | | | | | |]; simpl; congruence.
Qed.

Lemma release_mutation_ticket_Ok epoch operation db u db' :
  release_mutation_ticket epoch operation db = Ok (u, db') →
  source_projects db' = source_projects db
  ∧ source_ref_update_journal db' = source_ref_update_journal db
  ∧ accepted_heads db' = accepted_heads db
  ∧ ∀ q, source_mutation_tickets db' !! q = source_mutation_tickets db !! q
         ∨ source_mutation_tickets db' !! q = None.
Proof.
  unfold release_mutation_ticket. intros Hok. cbv zeta in Hok.
  apply tx_bind_Ok in Hok as (u1 & db1 & Hl & Hok). apply lift_Ok in Hl as [_ ->].
  apply tx_bind_Ok in Hok as (sequence & db1 & Hl & Hok). apply lift_Ok in Hl as [_ ->].
  apply tx_bind_Ok in Hok as (sequence_i64 & db1 & Hl & Hok). apply lift_Ok in Hl as [_ ->].
  apply tx_bind_Ok in Hok as (digest & db1 & Hl & Hok). apply lift_Ok in Hl as [_ ->].
  apply tx_bind_Ok in Hok as (u2 & db1 & Hepoch & Hok). apply (frame_epoch eq) in Hepoch as <-.
  apply tx_bind_Ok in Hok as (existing & db1 & Hl & Hok). apply gets_Ok in Hl as [-> ->].
  destruct (source_mutation_tickets db !! _).
  2: { apply tx_ok_Ok in Hok as [_ ->]. naive_solver. }
  apply tx_bind_Ok in Hok as (u3 & db1 & Hl & Hok). apply lift_Ok in Hl as [_ ->].
  unfold delete_tickets in Hok. repeat inv_ok_step. split_and!; [done..|]. intros q. simpl.
  rewrite map_lookup_filter. destruct (source_mutation_tickets db !! q); [|by left]. simpl.
  case_guard; [by left|by right].
Qed.

Lemma begin_ref_update_Ok epoch expected signed digest db u db' :
  begin_ref_update epoch expected signed digest db = Ok (u, db') →
  let p := ss_project_id expected in
  let payload := sah_payload signed in
  ∃ j, source_projects db' = source_projects db
    ∧ source_mutation_tickets db' = source_mutation_tickets db
    ∧ accepted_heads db' = accepted_heads db
    ∧ source_ref_update_journal db' = <[p := j]> (source_ref_update_journal db)
    ∧ (source_ref_update_journal db !! p = Some j
       ∨ source_ref_update_journal db !! p = None ∧ ru_ref_updated j = false
         ∧ signed_to_string signed = Ok (ru_signed_attestation_json j))
    ∧ ss_head expected = project_head db p ∧ ss_sequence expected = project_sequence db p
    ∧ ¬ project_diverged db p ∧ source_mutation_tickets db !! p = None
    ∧ ru_expected_head j = project_head db p ∧ ru_new_head j = ah_head payload
    ∧ ru_sequence j = ah_sequence payload ∧ ru_attestation_digest j = digest.
Proof.
  unfold begin_ref_update. intros (current & Hread & Hok)%epoch_snapshot_Ok. cbv zeta in Hok |- *.
  set (p := ss_project_id expected) in *.
  apply tx_bind_Ok in Hok as (u1 & db1 & Hl & Hok). apply lift_Ok in Hl as [Hcurrent ->].
  apply tx_bind_Ok in Hok as (ticket & db1 & Hl & Hok). apply gets_Ok in Hl as [-> ->].
  apply tx_bind_Ok in Hok as (u2 & db1 & Hl & Hok). apply lift_Ok in Hl as [Hticket ->].
  apply tx_bind_Ok in Hok as (pending & db1 & Hl & Hok). apply gets_Ok in Hl as [-> ->].
  apply ensure_Ok in Hcurrent, Hticket. apply load_snapshot_row in Hread as (_ & Hh & Hs & Hd & Hst).
  bool_prop. destruct_and!.
  assert (¬ project_diverged db p) as Hready by (unfold project_diverged; congruence).
  destruct (source_ref_update_journal db !! p) as [j|] eqn:Hj.
  - apply tx_bind_Ok in Hok as (sequence & db1 & Hl & Hok). apply lift_Ok in Hl as [Hseq ->].
    apply lift_Ok in Hok as [Hmatch ->]. apply ensure_Ok in Hmatch. apply sequence_to_i64_Ok in Hseq as ->.
    bool_prop. destruct_and!. exists j. split_and!; try congruence; [by rewrite insert_id|by left].
  - apply tx_bind_Ok in Hok as (sequence & db1 & Hl & Hok). apply lift_Ok in Hl as [Hseq ->].
    apply tx_bind_Ok in Hok as (json & db1 & Hl & Hok). apply lift_Ok in Hl as [Hjson ->].
    apply sequence_to_i64_Ok in Hseq as ->. apply map_err_Ok in Hjson.
    unfold insert_ref_update_row, source_sql in Hok. repeat inv_ok_step.
    eexists. split_and!; [reflexivity..|by right| | | | | | | |]; simpl; congruence.
Qed.

Lemma mark_ref_updated_Ok epoch p digest now db u db' :
  mark_ref_updated epoch p digest now db = Ok (u, db') →
  others_same p db db'
  ∧ source_projects db' = source_projects db
  ∧ source_mutation_tickets db' = source_mutation_tickets db
  ∧ accepted_heads db' = accepted_heads db
  ∧ ∃ j, source_ref_update_journal db !! p = Some j ∧ ru_attestation_digest j = digest
      ∧ source_ref_update_journal db' !! p
        = Some (j <| ru_ref_updated := true |> <| ru_updated_at_ms := now |>).
Proof.
  unfold mark_ref_updated. intros Hok.
  apply tx_bind_Ok in Hok as (u1 & db1 & Hepoch & Hok). apply (frame_epoch eq) in Hepoch as <-.
  apply tx_bind_Ok in Hok as (changed & db1 & Hupdate & Hok). apply lift_Ok in Hok as [Hone ->].
  unfold update_ref_updates in Hupdate.
  apply tx_bind_Ok in Hupdate as (table & db3 & Hgets & Hupdate). apply gets_Ok in Hgets as [-> ->].
  apply tx_bind_Ok in Hupdate as ([n table] & db3 & Hlift & Hupdate).
  apply lift_Ok in Hlift as [Htable ->]. repeat inv_ok_step.
  destruct (update_table_lookup _ _ _ _ _ _ Htable) as [Hlookup _].
  destruct (update_table_one _ _ _ _ _ _ Htable) as (k & j & Hj & Hk).
  { intros ->. by bool_prop. }
  bool_prop. destruct_and!. subst k. split_and!; [|done..|].
  - intros q Hne. unfold same_project. simpl. split_and!; try done. rewrite Hlookup.
    destruct (source_ref_update_journal db !! q); [|done]. simpl. by rewrite bool_decide_false.
  - exists j. simpl. rewrite Hlookup, Hj. simpl. by rewrite !bool_decide_true.
Qed.

(** The row an accepted head writes. *)
Definition accepts (p : ProjectId) (signed : SignedAcceptedHeadV1) (digest : EvidenceDigest)
    (db db' : SourceDb) : Prop :=
  let payload := sah_payload signed in
  ∃ json row j, signed_to_string signed = Ok json
    ∧ ¬ project_diverged db p
    ∧ source_ref_update_journal db !! p = Some j ∧ ru_ref_updated j = true
    ∧ ru_new_head j = ah_head payload ∧ ru_sequence j = ah_sequence payload
    ∧ accepted_heads db !! (p, ah_sequence payload) = None
    ∧ accepted_heads db' = <[(p, ah_sequence payload) := {|
        ar_canonical_head := ah_head payload; ar_previous_head := ah_previous_head payload;
        ar_accepted_via := ah_accepted_via payload; ar_attestation_json := json;
        ar_attestation_digest := digest; ar_accepted_at_ms := ah_accepted_at_ms payload |}]> (accepted_heads db)
    ∧ source_projects db' !! p = Some row ∧ source_project_check row = true
    ∧ sp_state row = Source_Ready ∧ sp_canonical_head row = Some (ah_head payload)
    ∧ sp_sequence row = ah_sequence payload ∧ sp_attestation_digest row = Some digest
    ∧ source_ref_update_journal db' !! p = None
    ∧ source_mutation_tickets db' = source_mutation_tickets db.

Lemma delete_ref_updates_lookup (f : ProjectId → RefUpdateRow → bool) db u db' q :
  delete_ref_updates f db = Ok (u, db') →
  source_ref_update_journal db' !! q
  = (source_ref_update_journal db !! q ≫= λ j, if f q j then None else Some j).
Proof.
  intros ->%modify_Ok. simpl. rewrite map_lookup_filter.
  destruct (source_ref_update_journal db !! q) as [j|]; [|done]. simpl.
  case_guard as Hf; simpl in Hf |- *; destruct (f q j); done.
Qed.

Lemma accept_if_current_Ok epoch expected signed digest db u db' :
  ah_project_id (sah_payload signed) = ss_project_id expected →
  ss_sequence expected < ah_sequence (sah_payload signed) →
  ss_sequence expected = project_sequence db (ss_project_id expected) →
  accept_if_current epoch expected signed digest db = Ok (u, db') →
  others_same (ss_project_id expected) db db' ∧ accepts (ss_project_id expected) signed digest db db'.
Proof.
  intros Hproject Hnext Hexpected. unfold accept_if_current. intros (current & Hread & Hok)%epoch_snapshot_Ok. cbv zeta in Hok.
  apply load_snapshot_row in Hread as (_ & Hh & Hs & Hd & Hst).
  rewrite Hproject in Hok. set (p := ss_project_id expected) in *. rewrite (bool_decide_false (ss_sequence current = ah_sequence (sah_payload signed))) in Hok by lia.
  rewrite andb_false_r in Hok. simpl in Hok.
  apply tx_bind_Ok in Hok as (u1 & db1 & Hl & Hok). apply lift_Ok in Hl as [Hcurrent ->].
  apply tx_bind_Ok in Hok as (sequence & db1 & Hl & Hok). apply lift_Ok in Hl as [Hseq ->].
  apply tx_bind_Ok in Hok as (journal & db1 & Hl & Hok). apply gets_Ok in Hl as [-> ->].
  apply tx_bind_Ok in Hok as (u2 & db1 & Hl & Hok). apply lift_Ok in Hl as [Hjournal ->].
  apply tx_bind_Ok in Hok as (json & db1 & Hl & Hok). apply lift_Ok in Hl as [Hjson ->].
  apply tx_bind_Ok in Hok as (u3 & db1 & Hinsert & Hok).
  apply tx_bind_Ok in Hok as (u4 & db2 & Hupsert & Hdelete).
  apply sequence_to_i64_Ok in Hseq as ->. apply map_err_Ok in Hjson.
  apply ensure_Ok in Hcurrent, Hjournal. bool_prop. destruct_and!.
  destruct (source_ref_update_journal db !! p) as [j|] eqn:Hj; [|done]. simpl in Hjournal.
  bool_prop. destruct_and!.
  unfold insert_accepted_head, source_sql in Hinsert. repeat inv_ok_step. bool_prop.
  apply upsert_source_project_Ok in Hupsert as [[_ Hcheck] ->]. cbv zeta in Hcheck. simpl in Hcheck, Hdelete.
  pose proof (λ q, delete_ref_updates_lookup _ _ _ _ q Hdelete) as Hlookup.
  apply modify_Ok in Hdelete as ->. simpl in Hlookup. split.
  - intros q Hne. unfold same_project. simpl. rewrite lookup_insert_ne by done. split_and!; try done.
    + rewrite Hlookup. destruct (source_ref_update_journal db !! q); [|done]. simpl.
      by rewrite bool_decide_false.
    + intros n. rewrite lookup_insert_ne; [done|]. congruence.
  - set (written := from_option _ _ _) in Hcheck |- *.
    assert (sp_state written = Source_Ready ∧ sp_canonical_head written = Some (ah_head (sah_payload signed))
      ∧ sp_sequence written = ah_sequence (sah_payload signed)
      ∧ sp_attestation_digest written = Some digest) as (W1 & W2 & W3 & W4)
      by (subst written; destruct (source_projects db !! p); done).
    exists json, written, j. simpl. rewrite lookup_insert_eq, Hlookup, Hj. simpl.
    rewrite !bool_decide_true by done. split_and!; try done; [unfold project_diverged; congruence|].
    by destruct (ru_ref_updated j).
Qed.
End Invariant.
