(* ===== verification/SourceConsistency.v ===== *)
(** * The source broker: the invariant in every history

    Every lasting step of every call keeps [world_ok], so a crash at any point leaves a
    ledger and a reference that agree; the recovery at the next start settles the update
    that was in progress. *)

From Stdlib Require Import ZArith Lia Ascii String.
From stdpp Require Import base gmap strings pretty option list_numbers list relations.
From S2P Require Import Prelude TxLogic Identifiers States Text Ordered Operation Workflow Errors Controller SourceDb Source SourceRepository SourceBroker SourceIngress SourceLogic SourceHistory SourceInvariant.

Local Open Scope Z_scope.

Section Consistency.
Context `{Codecs : !SourceCodecs, CodecsSpec : !SourceCodecsSpec, Crypto : !SourceCrypto}.
Context {R : Type} `{!SourceRepository R, !SourceRepositoryLaws R}.
Context `{!Json OperationRecord, !Json OperationTransition}.

(** ** Transactions on the ledger *)

Lemma acquire_ledger epoch operation now db u db' :
  acquire_mutation_ticket epoch operation now db = Ok (u, db') →
  (∀ q reference, reference_consistent db q reference → reference_consistent db' q reference)
  ∧ (ledger_ok db → ledger_ok db').
Proof.
  intros (target & ticket & H1 & H2 & H4 & H3 & _ & _ & Hh & Hready & Hj & _ & Hs & _ & Hd & _)
    %acquire_mutation_ticket_Ok.
  set (p := op_project_id operation) in *.
  split.
  { intros q reference. unfold reference_consistent, project_diverged, project_head. by rewrite H1, H2. }
  intros Hok. apply (others_same_ledger p db); [|  |done].
  { intros q Hne. unfold same_project. by rewrite H1, H2, H3, H4, lookup_insert_ne. }
  destruct (kept_head p db db') as (Eh & Es & Ed); [by rewrite H1|].
  destruct (Hok p). split; rewrite ?Eh, ?Es, ?Ed, ?H1, ?H2, ?H3, ?H4; try done.
  - by rewrite Hj.
  - rewrite lookup_insert_eq. by intros t [= <-].
Qed.

Lemma release_ledger epoch operation db u db' :
  release_mutation_ticket epoch operation db = Ok (u, db') →
  (∀ q reference, reference_consistent db q reference → reference_consistent db' q reference)
  ∧ (ledger_ok db → ledger_ok db').
Proof.
  intros (H1 & H2 & H4 & H3)%release_mutation_ticket_Ok. split.
  { intros q reference. unfold reference_consistent, project_diverged, project_head. by rewrite H1, H2. }
  intros Hok p. destruct (kept_head p db db') as (Eh & Es & Ed); [by rewrite H1|].
  destruct (Hok p). split; rewrite ?Eh, ?Es, ?Ed, ?H1, ?H2, ?H4; try done.
  - intros j Hj. destruct (pl_journal j Hj) as (?&?&Ht). destruct (H3 p) as [->| ->]; done.
  - intros t. destruct (H3 p) as [->| ->]; [|done]. apply pl_ticket.
Qed.

(** The update of [p] to the head of [signed] is in progress. *)
Definition in_progress (p : ProjectId) (signed : SignedAcceptedHeadV1) (digest : EvidenceDigest)
    (sequence : Z) (db : SourceDb) : Prop :=
  ¬ project_diverged db p ∧ project_sequence db p = sequence
  ∧ ∃ j, source_ref_update_journal db !! p = Some j ∧ ru_new_head j = ah_head (sah_payload signed)
      ∧ ru_attestation_digest j = digest.

(** What the attestation of the successor of a head says. *)
Definition succeeds (p : ProjectId) (head : option GitCommitId) (sequence : Z)
    (signed : SignedAcceptedHeadV1) (digest : EvidenceDigest) : Prop :=
  ah_project_id (sah_payload signed) = p ∧ ah_previous_head (sah_payload signed) = head
  ∧ ah_sequence (sah_payload signed) = sequence + 1
  ∧ SignedAcceptedHead_digest signed = Ok digest.

Lemma begin_ledger epoch expected signed digest db u db' :
  ah_sequence (sah_payload signed) = ss_sequence expected + 1 →
  begin_ref_update epoch expected signed digest db = Ok (u, db') →
  others_same (ss_project_id expected) db db'
  ∧ (∀ q reference, reference_consistent db q reference → reference_consistent db' q reference)
  ∧ (ledger_ok db → ledger_ok db')
  ∧ in_progress (ss_project_id expected) signed digest (ss_sequence expected) db'
  ∧ project_head db' (ss_project_id expected) = ss_head expected.
Proof.
  intros Hnext (j & H1 & H3 & H4 & H2 & Hold & Hh & Hs & Hready & Ht & Je & Jn & Js & Jd)%begin_ref_update_Ok.
  set (p := ss_project_id expected) in *.
  destruct (kept_head p db db') as (Eh & Es & Ed); [by rewrite H1|].
  assert (others_same p db db') as Hothers.
  { intros q Hne. unfold same_project. by rewrite H1, H2, H3, H4, lookup_insert_ne. }
  split_and!; [done|..].
  - intros q reference Href. destruct (decide (q = p)) as [->|Hne].
    2: { eapply same_project_consistent; [by apply Hothers|done]. }
    right. destruct Href as [?|Href]; [done|]. rewrite H2, lookup_insert_eq, Eh.
    destruct Hold as [Hold|(Hold & Hfalse & _)]; rewrite Hold in Href; [done|].
    rewrite Hfalse. by left.
  - intros Hok. apply (others_same_ledger p db); [done| |done].
    destruct (Hok p). split; rewrite ?Eh, ?Es, ?Ed, ?H1, ?H2, ?H3, ?H4; try done.
    + rewrite lookup_insert_eq. intros j' [= <-]. split_and!; [done|lia|done].
    + rewrite lookup_insert_eq. intros j' [= <-].
      destruct Hold as [Hold|(_ & _ & Hjson)]; [by apply pl_pending|]. exists signed.
      split_and!; [by apply signed_round_trip|done..].
  - split_and!; [unfold project_diverged; by rewrite H1|lia|].
    exists j. by rewrite H2, lookup_insert_eq.
  - congruence.
Qed.

Lemma mark_updated_ledger epoch p digest now db u db' reference signed sequence :
  mark_ref_updated epoch p digest now db = Ok (u, db') →
  in_progress p signed digest sequence db →
  reference p = Some (ah_head (sah_payload signed)) →
  (∀ q, reference_consistent db q (reference q) → reference_consistent db' q (reference q))
  ∧ (ledger_ok db → ledger_ok db')
  ∧ in_progress p signed digest sequence db' ∧ project_head db' p = project_head db p.
Proof.
  intros (Hothers & H1 & H3 & H4 & j & Hj & Hjd & Hj')%mark_ref_updated_Ok (Hready & Hs & j0 & Hj0 & Jn & _) Href.
  rewrite Hj in Hj0. injection Hj0 as <-.
  destruct (kept_head p db db') as (Eh & Es & Ed); [by rewrite H1|]. split_and!.
  - intros q Hq. destruct (decide (q = p)) as [->|Hne].
    2: { eapply same_project_consistent; [by apply Hothers|done]. }
    right. rewrite Hj'. simpl. by rewrite Jn.
  - intros Hok. apply (others_same_ledger p db); [done| |done].
    destruct (Hok p). split; rewrite ?Eh, ?Es, ?Ed, ?H1, ?H3, ?H4; try done.
    + rewrite Hj'. intros j' [= <-]. simpl. by apply pl_journal.
    + rewrite Hj'. intros j' [= <-]. destruct (pl_pending j Hj) as (signed' & ?). by exists signed'.
  - split_and!; [unfold project_diverged; by rewrite H1|lia|]. eexists. split; [exact Hj'|]. done.
  - done.
Qed.

Lemma accepts_ledger p signed digest db db' :
  succeeds p (project_head db p) (project_sequence db p) signed digest →
  accepts p signed digest db db' → project_ledger db p → project_ledger db' p.
Proof.
  intros (Hproject & Hprevious & Hnext & Hdigest)
    (json & row & j & Hjson & Hready & Hj & Hu & Jn & Js & Hfresh & H4 & H1 & Hcheck & Hst & Rh & Rs & Rd & H2 & H3)
    [? Lj _ Lt Lr Lh Ld Ll La].
  assert (project_head db' p = Some (ah_head (sah_payload signed))) as Eh by (unfold project_head; by rewrite H1).
  assert (project_sequence db' p = ah_sequence (sah_payload signed)) as Es by (unfold project_sequence; by rewrite H1).
  assert (project_digest db' p = Some digest) as Ed by (unfold project_digest; by rewrite H1).
  destruct (Lj j Hj) as (_ & _ & Hnone).
  assert (0 ≤ project_sequence db p) as Hpos.
  { unfold project_sequence. destruct (source_projects db !! p) as [r|] eqn:Hr; simpl; [|done].
    specialize (pl_check r eq_refl). unfold source_project_check in pl_check. bool_prop. lia. }
  split; rewrite ?Eh, ?Es, ?Ed, ?H2, ?H3, ?Hnone, ?H4, ?lookup_insert_eq; try done.
  - intros r. rewrite H1. by intros [= <-].
  - intros n. destruct (decide (n = ah_sequence (sah_payload signed))) as [->|Hne].
    + rewrite lookup_insert_eq. split; [lia|by eexists].
    + rewrite lookup_insert_ne by congruence. rewrite Lr. lia.
  - intros n r. destruct (decide (n = ah_sequence (sah_payload signed))) as [->|Hne].
    + rewrite lookup_insert_eq, lookup_insert_ne by (intros [=]; lia). intros [= <-]. simpl.
      rewrite Hprevious, Lh. do 3 f_equal. lia.
    + rewrite lookup_insert_ne by congruence. intros Hr. rewrite lookup_insert_ne; [by apply Ll|].
      intros [= Heq]. assert (is_Some (accepted_heads db !! (p, n))) as Hin by by eexists.
      apply Lr in Hin. lia.
  - intros n r. destruct (decide (n = ah_sequence (sah_payload signed))) as [->|Hne].
    + rewrite lookup_insert_eq. intros [= <-]. exists signed. simpl. split_and!; try done.
      by apply signed_round_trip.
    + rewrite lookup_insert_ne by congruence. apply La.
Qed.

(** ** The update of one project's reference *)

(** Nothing is in progress: the owner is waited for, or the reference is the head. *)
Definition settled (p : ProjectId) (w : World R) : Prop :=
  project_diverged (w_db w) p
  ∨ source_ref_update_journal (w_db w) !! p = None
    ∧ accepted_ref (w_repository w) p = project_head (w_db w) p.

Section Update.
Context (S : ProjectId → Prop) (p : ProjectId) (Fr : World R → Prop).
Context (Fr_other : ∀ w w', others_same p (w_db w) (w_db w') →
  (∀ q, q ≠ p → accepted_ref (w_repository w') q = accepted_ref (w_repository w) q) → Fr w → Fr w').
Abbreviation I := (λ w, world_ok S w ∧ Fr w) (only parsing).

(** A transaction on the rows of [p] alone. *)
Lemma store_triple {A} (P : World R → Prop) (body : SourceTx A) Q :
  (∀ w a db, body (w_db w) = Ok (a, db) → P w →
     others_same p (w_db w) db
     ∧ (∀ q, reference_consistent (w_db w) q (accepted_ref (w_repository w) q) →
             reference_consistent db q (accepted_ref (w_repository w) q))
     ∧ (ledger_ok (w_db w) → ledger_ok db)
     ∧ Q a (MkWorld db (w_repository w))) →
  call_triple I P (store body) Q.
Proof.
  intros Hbody. apply call_triple_store. intros w a db Hok [[Hl Hc] Hfr] HP.
  destruct (Hbody w a db Hok HP) as (Hothers & Hc' & Hl' & HQ). split; [|done]. split.
  - split; [by apply Hl'|]. intros q Hq. by apply Hc', Hc.
  - by eapply Fr_other; [| |exact Hfr].
Qed.

Lemma mark_diverged_triple P epoch candidate channel evidence now :
  call_triple I P (store (mark_diverged epoch p candidate channel evidence now))
    (λ _ w, settled p w).
Proof.
  apply store_triple. intros w u db Hok _. apply mark_diverged_Ok in Hok. split_and!.
  - intros q Hne. by eapply project_rewritten_other.
  - intros q. by apply (project_rewritten_consistent p Source_DivergedNeedsOwner).
  - by eapply project_rewritten_ledger.
  - left. destruct Hok as (row & H1 & _ & _ & _ & _ & Hrow & _). unfold project_diverged. simpl.
    by rewrite H1, lookup_insert_eq.
Qed.

Section Signed.
Context (lock_trusted : Result SourceError unit) (broker : DurableSourceBroker).
Context (signed : SignedAcceptedHeadV1) (digest : EvidenceDigest) (expected : SourceSnapshot).
Context (expected_project : ss_project_id expected = p).
Context (signed_succeeds : succeeds p (ss_head expected) (ss_sequence expected) signed digest).
Abbreviation candidate := (ah_head (sah_payload signed)) (only parsing).
Abbreviation P := (λ w, in_progress p signed digest (ss_sequence expected) (w_db w)
                        ∧ project_head (w_db w) p = ss_head expected) (only parsing).
Abbreviation moved := (λ w : World R, accepted_ref (w_repository w) p = Some candidate) (only parsing).

Lemma lease_triple (T : World R → Prop) :
  call_triple I T (require_current_lease lock_trusted broker) (λ _, T).
Proof.
  unfold require_current_lease.
  apply (call_triple_bind _ _ (λ _, T)); [by apply call_triple_lift|intros _].
  apply (call_triple_bind _ _ (λ _, T)); [by apply call_triple_store_read|intros _].
  by apply call_triple_lift.
Qed.

Lemma accepted_head_triple (T : World R → Prop) :
  call_triple I T (repository_read (accepted_head p))
    (λ observed w, T w ∧ observed = accepted_ref (w_repository w) p).
Proof.
  apply call_triple_repository_read. intros observed w Hok _ HT. split; [done|].
  by apply accepted_head_reads.
Qed.

Lemma swap_triple :
  call_triple I P (repository_step (compare_and_swap_accepted_head p (ss_head expected) candidate))
    (λ swapped w, P w ∧ (swapped = true → moved w)).
Proof.
  apply call_triple_repository_step.
  - intros w [[Hl Hc] Hfr] [(Hready & _ & j & Hj & Jn & _) Hh].
    pose proof (swap_same p (ss_head expected) candidate (w_repository w)) as Hsame. cbv zeta in Hsame.
    split; [split; [done|]|].
    + intros q Hq. simpl. specialize (Hc q Hq). destruct (decide (q = p)) as [->|Hne].
      2: { by rewrite swap_other. }
      destruct Hsame as [->|[Hold ->]]; [done|]. right. rewrite Hj, Jn.
      destruct (ru_ref_updated j); [done|by right].
    + eapply Fr_other; [| |exact Hfr]; [by intros q _|]. intros q Hne. by apply swap_other.
  - intros w swapped Hok _ HP. split; [done|]. intros ->.
    destruct (compare_and_swap_accepted_head p (ss_head expected) candidate (w_repository w)) as [r' res] eqn:E.
    simpl in *. subst res. by apply swap_true in E.
Qed.

Lemma move_triple may_swap :
  call_triple I P (move_reference lock_trusted broker p (ss_head expected) candidate may_swap)
    (λ result w, P w ∧ (result.1 = true → moved w)).
Proof.
  unfold move_reference.
  eapply call_triple_bind; [apply accepted_head_triple|]. intros observed.
  apply (call_triple_bind _ _ (λ (is_candidate : bool) w, P w ∧ (is_candidate = true → moved w))).
  - destruct (bool_decide_reflect (observed = Some candidate)) as [->|_].
    { apply call_triple_ok. intros w _ [HP Hobserved]. split; [done|]. by intros _. }
    destruct (may_swap && _).
    2: { apply call_triple_ok. by intros w _ [HP _]. }
    apply (call_triple_bind _ _ (λ _, P)).
    { eapply call_triple_weaken; [| |apply (lease_triple P)]; [by intros w [HP _]|done]. }
    intros _. eapply call_triple_bind; [apply swap_triple|]. intros [].
    + by apply call_triple_ok.
    + eapply call_triple_bind; [apply accepted_head_triple|]. intros again.
      apply call_triple_ok. intros w _ [[HP _] Hagain]. split; [done|].
      intros ?%bool_decide_eq_true. congruence.
  - intros []; [by apply call_triple_ok|].
    eapply call_triple_bind; [apply accepted_head_triple|]. intros again.
    apply call_triple_ok. intros w _ [[HP _] Hagain]. split; [done|].
    intros ?%bool_decide_eq_true. congruence.
Qed.

Lemma updated_triple now :
  call_triple I (λ w, P w ∧ moved w) (store (mark_ref_updated (br_bound_epoch broker) p digest now))
    (λ _ w, P w ∧ moved w).
Proof.
  apply store_triple. intros w u db Hok [[HP Hh] Hm].
  pose proof Hok as (Hothers & _)%mark_ref_updated_Ok.
  destruct (mark_updated_ledger _ _ _ _ _ _ _ (accepted_ref (w_repository w)) _ _ Hok HP Hm)
    as (Hc & Hl & HP' & Hh'). split_and!; try done. simpl. congruence.
Qed.

Lemma accepted_triple :
  call_triple I (λ w, P w ∧ moved w)
    (store (accept_if_current (br_bound_epoch broker) expected signed digest)) (λ _ w, settled p w).
Proof.
  destruct signed_succeeds as (Hproject & Hprevious & Hnext & Hdigest).
  apply store_triple. intros w u db Hok [[(Hready & Hs & _) Hh] Hm].
  apply accept_if_current_Ok in Hok as [Hothers Haccepts];
    [|by rewrite expected_project|lia|by rewrite expected_project].
  rewrite expected_project in *.
  pose proof Haccepts as (json & row & j & _ & _ & _ & _ & _ & _ & _ & _ & H1 & _ & _ & Rh & _ & _ & H2 & _).
  assert (project_head db p = Some candidate) as Eh by (unfold project_head; by rewrite H1).
  split_and!; [done| | |].
  - intros q Hq. destruct (decide (q = p)) as [->|Hne].
    + right. by rewrite H2, Eh.
    + eapply same_project_consistent; [by apply Hothers|done].
  - intros Hok. apply (others_same_ledger p (w_db w)); [done| |done].
    apply (accepts_ledger p signed digest (w_db w)); [|done|apply Hok].
    split_and!; [done|congruence|lia|done].
  - right. simpl. split; [done|]. congruence.
Qed.
End Signed.
End Update.

Section Keeps.
Context (S : ProjectId → Prop) (lock_trusted : Result SourceError unit) (broker : DurableSourceBroker).

Lemma attest_candidate_succeeds current ingress signed digest :
  attest_candidate broker current ingress = Ok (signed, digest) →
  succeeds (ci_project_id ingress) (ss_head current) (ss_sequence current) signed digest.
Proof.
  unfold attest_candidate, SignedAcceptedHead_sign, attested. cbv zeta. intros Hok. inv_ok.
  match goal with H : u64_checked_add _ _ = Some _ |- _ => apply checked_range_Some in H as [-> _] end.
  match goal with H : SignedAcceptedHead_digest _ = _ |- _ => rename H into Hd end. done.
Qed.

Lemma advance_triple Fr current signed digest now :
  (∀ w w', others_same (ss_project_id current) (w_db w) (w_db w') →
     (∀ q, q ≠ ss_project_id current →
           accepted_ref (w_repository w') q = accepted_ref (w_repository w) q) → Fr w → Fr w') →
  succeeds (ss_project_id current) (ss_head current) (ss_sequence current) signed digest →
  call_triple (λ w, world_ok S w ∧ Fr w) (λ _, True)
    (advance_ref_update lock_trusted broker current signed digest now) (λ _ _, True).
Proof.
  intros HFr Hsucceeds. set (p := ss_project_id current) in *. unfold advance_ref_update. cbv zeta.
  apply (call_triple_bind _ _ (λ _ w, in_progress p signed digest (ss_sequence current) (w_db w)
              ∧ project_head (w_db w) p = ss_head current)).
  { apply (store_triple S p Fr HFr). intros w u db Hok _. destruct Hsucceeds as (_ & _ & Hnext & _).
    apply begin_ledger in Hok as (Hothers & Hc & Hl & HP & Hh); [|done].
    split_and!; [done|intros q; apply Hc|done..]. }
  intros _. eapply call_triple_bind; [by apply (move_triple S p Fr HFr)|].
  intros [[] observed]; simpl.
  - eapply call_triple_bind.
    { eapply call_triple_weaken; [| |by eapply (updated_triple S p Fr HFr broker signed digest current)];
        [|done]. intros w [HP Hm]. split; [exact HP|by apply Hm]. }
    intros u1. eapply call_triple_bind; [by apply (accepted_triple S p Fr HFr)|].
    intros u2. by apply call_triple_ok.
  - eapply call_triple_bind; [by apply (mark_diverged_triple S p Fr HFr)|].
    intros u1. by apply call_triple_ok.
Qed.

(** The journal's row is the one that was read. *)
Definition pending_in (pending : PendingRefUpdate) (db : SourceDb) : Prop :=
  ∃ j, source_ref_update_journal db !! pru_project_id pending = Some j
    ∧ decode_pending (pru_project_id pending, j) = Ok pending.

Lemma pending_in_row pending db :
  pending_in pending db → project_ledger db (pru_project_id pending) →
  ah_sequence (sah_payload (pru_signed pending)) = project_sequence db (pru_project_id pending) + 1
  ∧ ∃ j, source_ref_update_journal db !! pru_project_id pending = Some j
      ∧ ru_new_head j = pru_new_head pending
      ∧ ru_attestation_digest j = pru_attestation_digest pending.
Proof.
  intros (j & Hj & Hdecode) Hl. destruct (pl_journal _ _ Hl j Hj) as (_ & Hseq & _).
  destruct (pl_pending _ _ Hl j Hj) as (signed & Hjson & Hs & _).
  unfold decode_pending in Hdecode. simpl in Hdecode. rewrite Hjson in Hdecode. simpl in Hdecode.
  injection Hdecode as <-. simpl in *. split; [lia|]. by exists j.
Qed.

Lemma recover_triple Fr pending now :
  (∀ w w', others_same (pru_project_id pending) (w_db w) (w_db w') →
     (∀ q, q ≠ pru_project_id pending →
           accepted_ref (w_repository w') q = accepted_ref (w_repository w) q) → Fr w → Fr w') →
  call_triple (λ w, world_ok S w ∧ Fr w) (λ w, pending_in pending (w_db w))
    (recover_ref_update lock_trusted broker pending now)
    (λ _ w, settled (pru_project_id pending) w).
Proof.
  intros HFr. set (p := pru_project_id pending) in *. unfold recover_ref_update. cbv zeta.
  eapply (call_triple_bind _ _ (λ payload w, payload = sah_payload (pru_signed pending)
                                  ∧ pending_in pending (w_db w))).
  { apply call_triple_lift. intros payload w Hok _ HP. split; [|done].
    unfold attested, verify_live, verify_inner in Hok. by inv_ok. }
  intros payload. apply call_triple_pure. intros ->.
  apply (call_triple_bind _ _ (λ _ w, pending_in pending (w_db w))); [by apply call_triple_lift|intros policy].
  eapply (call_triple_bind _ _ (λ digest w, SignedAcceptedHead_digest (pru_signed pending) = Ok digest
                                  ∧ pending_in pending (w_db w))).
  { apply call_triple_lift. intros digest w Hok _ HP. by apply map_err_Ok in Hok. }
  intros digest. apply call_triple_pure. intros Hdigest.
  eapply (call_triple_bind _ _ (λ _ w, _ ∧ pending_in pending (w_db w))).
  { apply call_triple_lift. intros [] w Hok _ HP. apply ensure_Ok in Hok. split; [exact Hok|exact HP]. }
  intros _. apply call_triple_pure. intros Hbinding. bool_prop. destruct_and!. subst digest.
  apply (call_triple_bind _ _ (λ s w, ss_project_id s = p
           ∧ (load_snapshot p (w_db w) = Ok s ∧ pending_in pending (w_db w)))).
  { apply call_triple_store_read. intros s w Hok _ HP. split; [|done]. by eapply load_snapshot_project. }
  intros s. apply call_triple_pure. intros Hproject. destruct (bool_decide_reflect (ss_state s = Source_DivergedNeedsOwner)) as [Hd|Hready].
  { apply call_triple_ok. intros w _ [Hs _]. left.
    apply load_snapshot_row in Hs as (_ & _ & _ & _ & Hst). unfold project_diverged. congruence. }
  destruct (_ && _ && _) eqn:Haccepted.
  { intros w [[Hl _] _] [Hs HP]. exfalso. bool_prop. destruct_and!.
    apply load_snapshot_row in Hs as (_ & _ & Hs & _).
    apply pending_in_row in HP as [Hnext _]; [|apply Hl]. fold p in Hnext. lia. }
  eapply (call_triple_bind _ _ (λ _ w, _ ∧ (load_snapshot p (w_db w) = Ok s ∧ pending_in pending (w_db w)))).
  { apply call_triple_lift. intros [] w Hok _ HP. apply ensure_Ok in Hok. split; [exact Hok|exact HP]. }
  intros _. apply call_triple_pure. intros Hsequence. bool_prop.
  destruct Hsequence as [Hhead Hnext]. apply checked_range_Some in Hnext as [Hnext _].
  set (signed := pru_signed pending) in *.
  assert (succeeds p (ss_head s) (ss_sequence s) signed (pru_attestation_digest pending)) as Hsucceeds.
  { split_and!; try done. congruence. }
  apply (call_triple_bind _ _ (λ (result : bool * option GitCommitId) w,
    (in_progress p signed (pru_attestation_digest pending) (ss_sequence s) (w_db w)
     ∧ project_head (w_db w) p = ss_head s)
    ∧ (result.1 = true → accepted_ref (w_repository w) p = Some (ah_head (sah_payload signed))))).
  { rewrite <- Hhead. replace (pru_new_head pending) with (ah_head (sah_payload signed)).
    intros w Hi [Hs HP]. apply (move_triple S p Fr HFr); try done.
    apply load_snapshot_row in Hs as (_ & Hh & Hs & _ & Hst). destruct Hi as [[Hl _] _].
    apply pending_in_row in HP as [_ (j & Hj & Jn & Jd)]; [|apply Hl]. fold p in Hj.
    split; [|done]. split_and!; [unfold project_diverged; congruence|done|]. exists j.
    split_and!; congruence. }
  intros [[] observed]; simpl; [|by apply (mark_diverged_triple S p Fr HFr)].
  eapply call_triple_bind.
  { eapply call_triple_weaken; [| |by eapply (updated_triple S p Fr HFr broker signed _ s)];
      [|done]. intros w [HP Hm]. split; [exact HP|by apply Hm]. }
  intros u. by apply (accepted_triple S p Fr HFr).
Qed.

(** ** Recovery *)

Lemma settled_other p w w' q :
  others_same p (w_db w) (w_db w') →
  (∀ q, q ≠ p → accepted_ref (w_repository w') q = accepted_ref (w_repository w) q) →
  q ≠ p → settled q w → settled q w'.
Proof.
  intros Hothers Href Hne. destruct (Hothers q Hne) as (H1 & H2 & _).
  unfold settled, project_diverged, project_head. by rewrite H1, H2, Href.
Qed.

Lemma pending_in_other p db db' pending :
  others_same p db db' → pru_project_id pending ≠ p → pending_in pending db → pending_in pending db'.
Proof.
  intros Hothers Hne (j & Hj & Hdecode). destruct (Hothers _ Hne) as (_ & H2 & _).
  exists j. by rewrite H2.
Qed.

(** No update is in progress but those in [pendings]. *)
Definition idle_besides (pendings : list ProjectId) (w : World R) : Prop :=
  ∀ q, q ∉ pendings → source_ref_update_journal (w_db w) !! q = None ∨ project_diverged (w_db w) q.

Lemma idle_besides_other pendings p w w' :
  others_same p (w_db w) (w_db w') → p ∈ pendings → idle_besides pendings w → idle_besides pendings w'.
Proof.
  intros Hothers Hp Hidle q Hq. destruct (Hothers q) as (H1 & H2 & _); [congruence|].
  unfold project_diverged. rewrite H1, H2. by apply Hidle.
Qed.

Lemma recover_updates_triple pendings settled_before l now :
  NoDup (pru_project_id <$> l) → (∀ x, x ∈ l → pru_project_id x ∈ pendings) →
  call_triple (world_ok S)
    (λ w, idle_besides pendings w ∧ (∀ q, q ∈ settled_before → settled q w)
          ∧ ∀ x, x ∈ l → pending_in x (w_db w))
    (call_for_each (λ pending, recover_ref_update lock_trusted broker pending now) l)
    (λ _ w, idle_besides pendings w ∧ ∀ q, q ∈ settled_before ++ (pru_project_id <$> l) → settled q w).
Proof.
  revert settled_before. induction l as [|x l IH]; intros settled_before Hnodup Hin; simpl.
  { apply call_triple_ok. intros w _ (Hidle & Hs & _). split; [done|]. intros q. rewrite app_nil_r. auto. }
  apply NoDup_cons in Hnodup as [Hx Hnodup].
  eapply call_triple_bind.
  - eapply call_triple_weaken; [| |apply (call_triple_frame _ (λ w, idle_besides pendings w
        ∧ (∀ q, q ∈ settled_before → q ≠ pru_project_id x → settled q w)
        ∧ ∀ y, y ∈ l → pending_in y (w_db w))), recover_triple].
    + intros w (Hidle & Hs & Hp). split; [apply Hp; left|]. split_and!; [done|auto|].
      intros y Hy. apply Hp. by right.
    + intros u w HQ. exact HQ.
    + intros w w' Hothers Href (Hidle & Hs & Hp). split_and!.
      * eapply idle_besides_other; [exact Hothers|apply Hin; left|done].
      * intros q Hq Hne. by eapply settled_other; eauto.
      * intros y Hy. eapply pending_in_other; [exact Hothers| |by apply Hp].
        intros Heq. apply Hx. rewrite <- Heq. by apply list_elem_of_fmap_2.
  - intros u. eapply call_triple_weaken; [| |apply (IH (pru_project_id x :: settled_before))].
    + intros w (Hsx & Hidle & Hs & Hp). split_and!; [done| |done].
      intros q Hq. destruct (decide (q = pru_project_id x)) as [->|Hne]; [done|].
      apply Hs; [|done]. by apply elem_of_cons in Hq as [|].
    + intros _ w (Hidle & Hs). split; [done|]. intros q Hq. apply Hs. set_solver.
    + done.
    + intros y Hy. apply Hin. by right.
Qed.

Lemma recover_project_triple Fr policy now :
  (∀ w w', others_same (isp_project_id policy) (w_db w) (w_db w') →
     (∀ q, q ≠ isp_project_id policy →
           accepted_ref (w_repository w') q = accepted_ref (w_repository w) q) → Fr w → Fr w') →
  call_triple (λ w, world_ok S w ∧ Fr w)
    (λ w, source_ref_update_journal (w_db w) !! isp_project_id policy = None
          ∨ project_diverged (w_db w) (isp_project_id policy))
    (recover_project broker now policy) (λ _ w, settled (isp_project_id policy) w).
Proof.
  intros HFr. set (p := isp_project_id policy) in *. unfold recover_project. cbv zeta. fold p.
  eapply (call_triple_bind _ _ (λ s w, load_snapshot p (w_db w) = Ok s ∧
    (source_ref_update_journal (w_db w) !! p = None ∨ project_diverged (w_db w) p))).
  { by apply call_triple_store_read. }
  intros s. destruct (bool_decide_reflect (ss_state s = Source_DivergedNeedsOwner)) as [Hd|Hready].
  { apply call_triple_ok. intros w _ [Hs _]. left.
    apply load_snapshot_row in Hs as (_ & _ & _ & _ & Hst). unfold project_diverged. congruence. }
  eapply call_triple_bind; [apply (accepted_head_triple S p Fr)|]. intros head.
  destruct (bool_decide_reflect (head = ss_head s)) as [->|_].
  - apply call_triple_ok. intros w _ [[Hs Hidle] Href].
    apply load_snapshot_row in Hs as (_ & Hh & _). destruct Hidle; [|by left].
    right. split; [done|]. congruence.
  - eapply call_triple_bind; [by apply (call_triple_lift _ _ _ (λ _ _, True))|]. intros candidate.
    by apply (mark_diverged_triple S p Fr HFr).
Qed.

Lemma recover_projects_triple pendings (policies : list InstalledSourceProjectPolicy) settled_before now :
  (∀ q, q ∈ pendings → q ∈ settled_before) →
  call_triple (world_ok S)
    (λ w, idle_besides pendings w ∧ ∀ q, q ∈ settled_before → settled q w)
    (call_for_each (λ policy, if contains pendings (isp_project_id policy) then call_ok tt
                              else recover_project broker now policy) policies)
    (λ _ w, ∀ q, q ∈ settled_before ++ (isp_project_id <$> policies) → settled q w).
Proof.
  revert settled_before. induction policies as [|policy policies IH]; intros settled_before Hincl; simpl.
  { apply call_triple_ok. intros w _ [_ Hs] q. rewrite app_nil_r. auto. }
  apply (call_triple_bind _ _ (λ _ w, idle_besides pendings w
           ∧ ∀ q, q ∈ isp_project_id policy :: settled_before → settled q w)).
  - destruct (contains _ _) eqn:Hin.
    + apply call_triple_ok. intros w _ [Hidle Hs]. split; [done|]. intros q [->|Hq]%elem_of_cons; [|auto].
      apply Hs, Hincl. by apply bool_decide_eq_true in Hin.
    + eapply call_triple_weaken; [| |apply (call_triple_frame _ (λ w,
        (∀ q, q ≠ isp_project_id policy → q ∉ pendings →
           source_ref_update_journal (w_db w) !! q = None ∨ project_diverged (w_db w) q)
        ∧ (∀ q, q ∈ settled_before → q ≠ isp_project_id policy → settled q w))), recover_project_triple].
      * intros w [Hidle Hs]. split; [|split; auto]. apply Hidle. by apply bool_decide_eq_false in Hin.
      * intros u w (Hp & Hidle & Hs). split.
        -- intros q Hq. destruct (decide (q = isp_project_id policy)) as [->|Hne]; [|auto].
           destruct Hp as [|[? _]]; [by right|by left].
        -- intros q [->|Hq]%elem_of_cons; [done|].
           destruct (decide (q = isp_project_id policy)) as [->|]; auto.
      * intros w w' Hothers Href [Hidle Hs]. split.
        -- intros q Hne Hq. destruct (Hothers q Hne) as (H1 & H2 & _). unfold project_diverged.
           rewrite H1, H2. by apply Hidle.
        -- intros q Hq Hne. eapply settled_other; eauto.
  - intros u. eapply call_triple_weaken; [| |apply (IH (isp_project_id policy :: settled_before))].
    + done.
    + intros u' w Hs q Hq. apply Hs. set_solver.
    + intros q Hq. right. auto.
Qed.

Lemma pending_ref_updates_Ok db l :
  pending_ref_updates db = Ok l →
  NoDup (pru_project_id <$> l) ∧ (∀ x, x ∈ l → pending_in x db)
  ∧ ∀ q, q ∉ pru_project_id <$> l → source_ref_update_journal db !! q = None.
Proof.
  unfold pending_ref_updates. intros Hok. apply result_mapM_Ok in Hok.
  set (rows := sort_by project_compare (map_to_list (source_ref_update_journal db))) in *.
  assert (rows ≡ₚ map_to_list (source_ref_update_journal db)) as Hperm by apply sort_by_Permutation.
  assert (pru_project_id <$> l = rows.*1) as Hids.
  { clear Hperm. induction Hok as [|[q j] x rows l Hx _ IH]; [done|]. simpl. f_equal; [|done].
    unfold decode_pending in Hx. by inv_ok. }
  rewrite Hids. split_and!.
  - rewrite Hperm. apply NoDup_fst_map_to_list.
  - intros x Hx. apply list_elem_of_lookup in Hx as [i Hi].
    destruct (Forall2_lookup_r _ _ _ _ _ Hok Hi) as ([q j] & Hin & Hdecode).
    apply list_elem_of_lookup_2 in Hin. rewrite Hperm in Hin. apply elem_of_map_to_list in Hin. exists j.
    assert (pru_project_id x = q) as -> by (unfold decode_pending in Hdecode; by inv_ok). done.
  - intros q Hq. destruct (source_ref_update_journal db !! q) as [j|] eqn:Hj; [|done]. exfalso.
    apply Hq. rewrite Hperm. apply list_elem_of_fmap. exists (q, j). split; [done|].
    by apply elem_of_map_to_list.
Qed.

(** A transaction on the queues. *)
Lemma queue_triple {A} (T : World R → Prop) (body : SourceTx A) :
  tx_rel same_ledger body →
  (∀ db db' r, same_ledger db db' → T (MkWorld db r) → T (MkWorld db' r)) →
  call_triple (world_ok S) T (store body) (λ _, T).
Proof.
  intros Hbody HT. apply call_triple_store. intros [db r] a db' Hok [Hl Hc] Ht.
  apply Hbody in Hok. simpl in *. split; [split|by eapply HT].
  - by eapply same_ledger_ok.
  - intros q Hq. eapply same_project_consistent; [by apply same_ledger_project|by apply Hc].
Qed.

Lemma settled_same_ledger q db db' r :
  same_ledger db db' → settled q (MkWorld db r) → settled q (MkWorld db' r).
Proof.
  intros (H1 & H2 & _). unfold settled, project_diverged, project_head. simpl. by rewrite H1, H2.
Qed.

Lemma recover_state_triple now :
  call_triple (world_ok S) (λ _, True) (recover_source_state lock_trusted broker now)
    (λ _ w, ∀ q, q ∈ isp_project_id <$> policy_values broker → settled q w).
Proof.
  unfold recover_source_state.
  apply (call_triple_bind _ _ (λ _ _, True)).
  { eapply call_keeps_iff; [|apply (lease_triple S (λ _, True) lock_trusted broker (λ _, True))]. naive_solver. }
  intros _. apply (call_triple_bind _ _ (λ l w, pending_ref_updates (w_db w) = Ok l)).
  { by apply call_triple_store_read. }
  intros l. set (pendings := pru_project_id <$> l). cbv zeta.
  apply (call_triple_bind _ _ (λ _ w, idle_besides pendings w ∧ ∀ q, q ∈ pendings → settled q w)).
  { intros w Hi Hl. apply pending_ref_updates_Ok in Hl as (Hnodup & Hrows & Hnone).
    refine (recover_updates_triple pendings [] l now Hnodup _ w Hi _).
    - intros x Hx. by apply list_elem_of_fmap_2.
    - split_and!; [|by intros q Hq%not_elem_of_nil|done]. intros q Hq. left. by apply Hnone. }
  intros u1. eapply call_triple_bind.
  { apply (recover_projects_triple pendings (policy_values broker) pendings now). done. }
  intros u2. eapply call_triple_bind.
  { apply queue_triple; [eauto with tx_rel typeclass_instances|].
    intros db db' r Hsame Hs q Hq. eapply settled_same_ledger; [exact Hsame|]. by apply Hs. }
  intros changed. apply call_triple_ok. intros w _ Hs q Hq. apply Hs. set_solver.
Qed.

(** ** Every step *)

Lemma world_ok_store {A} (body : SourceTx A) :
  (∀ db a db', body db = Ok (a, db') →
     (∀ q reference, reference_consistent db q reference → reference_consistent db' q reference)
     ∧ (ledger_ok db → ledger_ok db')) →
  call_keeps (world_ok S) (store body).
Proof.
  intros Hbody. apply call_triple_store. intros w a db' Hok [Hl Hc] _. apply Hbody in Hok as [Hc' Hl'].
  split; [|done]. split; [by apply Hl'|]. intros q Hq. by apply Hc', Hc.
Qed.

Lemma ordinary_keeps A (body : SourceTx A) : ordinary body → call_keeps (world_ok S) (store body).
Proof.
  assert (∀ B (m : SourceTx B), tx_rel same_ledger m → call_keeps (world_ok S) (store m)) as Hqueue.
  { intros B m Hm. by apply (queue_triple (λ _, True)). }
  intros Hbody. destruct Hbody; try (apply Hqueue; eauto with tx_rel typeclass_instances; fail);
    apply world_ok_store; intros db u db' Hok.
  - by eapply acquire_ledger.
  - by eapply release_ledger.
  - apply mark_diverged_Ok in Hok. split; [|by eapply project_rewritten_ledger].
    intros q reference. by eapply project_rewritten_consistent.
  - apply set_controls_Ok in Hok. split; [|by eapply project_rewritten_ledger].
    intros q reference. eapply project_rewritten_consistent; [exact Hok|].
    unfold project_diverged. by intros ->.
Qed.

Lemma accept_candidate_keeps current ingress :
  ss_project_id current = ci_project_id ingress →
  call_keeps (world_ok S) (accept_candidate lock_trusted broker current ingress).
Proof.
  intros Hproject. unfold accept_candidate.
  apply (call_keeps_bind_post _ (λ result : SignedAcceptedHeadV1 * EvidenceDigest,
           succeeds (ci_project_id ingress) (ss_head current) (ss_sequence current) result.1 result.2)).
  { apply call_triple_lift. intros [signed digest] w Hok _ _. by apply attest_candidate_succeeds. }
  intros [signed digest] Hsucceeds. simpl in Hsucceeds. rewrite <- Hproject in Hsucceeds.
  apply call_keeps_bind; [|call_steps]. apply call_keeps_attempt.
  eapply call_keeps_iff; [|by apply (advance_triple (λ _, True))]. naive_solver.
Qed.

Lemma resolve_ledger epoch p head evidence now db u db' :
  store_resolve_divergence epoch p head evidence now db = Ok (u, db') →
  project_head db p = head
  ∧ (∀ q reference, (q = p → reference = head) → reference_consistent db q reference →
       reference_consistent db' q reference)
  ∧ (ledger_ok db → ledger_ok db').
Proof.
  intros (Hothers & H2 & H3 & H4 & Hh & row & H1 & Hcheck & Hst & Rh & Rs & Rd)%resolve_divergence_Ok.
  assert (project_head db' p = project_head db p) as Eh by (unfold project_head at 1; by rewrite H1).
  assert (project_sequence db' p = project_sequence db p) as Es
    by (unfold project_sequence at 1; by rewrite H1).
  assert (project_digest db' p = project_digest db p) as Ed by (unfold project_digest at 1; by rewrite H1).
  split_and!; [done| |].
  - intros q reference Hq Href. destruct (decide (q = p)) as [->|Hne].
    + right. rewrite H2, Eh, Hh. by apply Hq.
    + eapply same_project_consistent; [by apply Hothers|done].
  - intros Hok. apply (others_same_ledger p db); [done| |done].
    destruct (Hok p). split; rewrite ?Eh, ?Es, ?Ed, ?H2, ?H3, ?H4; try done.
    intros r. rewrite H1. by intros [= <-].
Qed.

Lemma resolve_divergence_keeps p head evidence now :
  call_keeps (world_ok S) (resolve_divergence_keep_canonical lock_trusted broker p head evidence now).
Proof.
  unfold resolve_divergence_keep_canonical, lock_coordination, require_current_lease.
  apply call_keeps_bind; [call_steps|intros _].
  apply (call_triple_bind _ _ (λ observed w, observed = accepted_ref (w_repository w) p)).
  { apply call_triple_repository_read. intros observed w Hok _ _. by apply accepted_head_reads. }
  intros observed. apply (call_triple_bind _ _ (λ _ w, head = accepted_ref (w_repository w) p)).
  { apply call_triple_lift. intros u w Hok _ ->. by apply ensure_Ok, bool_decide_eq_true in Hok. }
  intros _. apply call_triple_store. intros w u db' Hok [Hl Hc] ->.
  apply resolve_ledger in Hok as (Hh & Hc' & Hl'). split; [|done]. split; [by apply Hl'|].
  intros q Hq. apply Hc'; [by intros ->|by apply Hc].
Qed.

Lemma recover_state_keeps now : call_keeps (world_ok S) (recover_source_state lock_trusted broker now).
Proof. eapply call_triple_weaken; [| |apply recover_state_triple]; done. Qed.
End Keeps.

Lemma world_ok_repository S db r r' :
  (∀ p, accepted_ref r' p = accepted_ref r p) → world_ok S (MkWorld db r) → world_ok S (MkWorld db r').
Proof. intros Href [Hl Hc]. split; [done|]. intros p Hp. simpl. rewrite Href. by apply Hc. Qed.

Lemma world_ok_history S w w' : source_history w w' → world_ok S w → world_ok S w'.
Proof.
  apply source_history_keeps.
  - apply ordinary_keeps.
  - apply world_ok_repository.
  - intros. by apply accept_candidate_keeps.
  - intros. apply recover_state_keeps.
  - intros. apply resolve_divergence_keeps.
Qed.

Lemma new_world_ok S r : (∀ p, accepted_ref r p = None) → world_ok S (MkWorld new_source_db r).
Proof.
  intros Href. split.
  - intros p. split; try done. intros n. split; [by intros [? [=]]|].
    unfold project_sequence. simpl. rewrite lookup_empty. simpl. lia.
  - intros p _. right. simpl. apply Href.
Qed.

(** ** After a start *)

Lemma install_policies_Ok installed policies (r : R) policies' :
  install_policies installed policies r = Ok policies' →
  policies ⊆ policies' ∧ ∀ policy, policy ∈ installed → policies' !! isp_project_id policy = Some policy.
Proof.
  revert policies. induction installed as [|policy installed IH]; intros policies Hok; simpl in Hok.
  { injection Hok as <-. split; [done|]. by intros ? ?%not_elem_of_nil. }
  apply result_bind_Ok in Hok as (u1 & _ & Hok). apply result_bind_Ok in Hok as (identity & _ & Hok).
  apply result_bind_Ok in Hok as (u2 & _ & Hok).
  destruct (policies !! isp_project_id policy) eqn:Hfresh; simpl in Hok; [done|].
  apply IH in Hok as [Hsub Hall]. split.
  - etrans; [|exact Hsub]. by apply insert_subseteq.
  - intros other [->|Hin]%elem_of_cons; [|auto]. eapply lookup_weaken; [|exact Hsub].
    apply lookup_insert_eq.
Qed.

Lemma policy_values_elem broker p policy :
  br_policies broker !! p = Some policy → policy ∈ policy_values broker.
Proof.
  intros Hp. unfold policy_values. rewrite sort_by_Permutation. apply list_elem_of_fmap.
  exists (p, policy). split; [done|]. by apply elem_of_map_to_list.
Qed.

Lemma new_broker_triple S lock_trusted key_id signing_key ttl installed lock_acquired now :
  call_triple (world_ok S) (λ _, True)
    (new_broker lock_trusted key_id signing_key ttl installed lock_acquired now)
    (λ _ w, ∀ policy, policy ∈ installed → settled (isp_project_id policy) w).
Proof.
  unfold new_broker.
  do 4 (apply (call_triple_bind _ _ (λ _ _, True)); [by apply call_triple_lift|intros ?]).
  apply (call_triple_bind _ _ (λ policies _, ∀ policy, policy ∈ installed →
                                 policies !! isp_project_id policy = Some policy)).
  { apply call_triple_repository_read. intros policies w Hok _ _. by apply install_policies_Ok in Hok as [_ ?]. }
  intros policies. apply call_triple_weaken with (P := λ _, (∀ policy, policy ∈ installed →
    policies !! isp_project_id policy = Some policy) ∧ True) (Q := λ _ w, ∀ policy, policy ∈ installed → settled (isp_project_id policy) w);
    [done|done|].
  apply call_triple_pure. intros Hpolicies.
  do 2 (apply (call_triple_bind _ _ (λ _ _, True)); [by apply call_triple_lift|intros ?]).
  apply (call_triple_bind _ _ (λ _ _, True)).
  { apply (queue_triple S (λ _, True)); [eauto with tx_rel typeclass_instances|done]. }
  intros epoch. cbv zeta. set (broker := MkDurableSourceBroker _ _ _ _ _ _ _ _).
  set (T := λ w, ∀ q, q ∈ isp_project_id <$> policy_values broker → settled q w).
  assert (∀ A (body : SourceTx A), tx_rel same_ledger body →
            call_triple (world_ok S) T (store body) (λ _, T)) as Hstore.
  { intros A body Hbody. apply queue_triple; [done|]. intros db db' r Hsame Hs q Hq.
    eapply settled_same_ledger; [exact Hsame|]. by apply Hs. }
  eapply call_triple_bind; [apply recover_state_triple|]. intros u1.
  eapply call_triple_bind; [apply Hstore; eauto with tx_rel typeclass_instances|]. intros retired.
  eapply call_triple_bind.
  { apply call_triple_for_each. intros policy _.
    eapply call_triple_bind; [apply Hstore; eauto with tx_rel typeclass_instances|]. intros [|].
    - by apply call_triple_ok.
    - apply call_triple_repository_step.
      + intros [db r] Hi _. eapply world_ok_repository; [|exact Hi]. intros p. by rewrite notify_keeps.
      + intros w u0 _ _ Ht q Hq. specialize (Ht q Hq). unfold settled in *. simpl. by rewrite notify_keeps. }
  intros u2. eapply call_triple_bind; [apply Hstore; eauto with tx_rel typeclass_instances|].
  intros u3. apply call_triple_ok. intros w _ Ht policy Hin. apply Ht. apply list_elem_of_fmap_2.
  eapply policy_values_elem. by apply Hpolicies.
Qed.
End Consistency.
