(* ===== verification/SourceSpec.v ===== *)
(** * The source broker: theorems

    What the ledger and the accepted references satisfy in every history of requests,
    crashes and starts: they agree after a crash, the accepted heads are a chain, a
    mutation ticket pins the head, a completed delivery is final, a superseded broker has
    no effect; what a start settles and what the gate of a mutation establishes; and a
    divergence that can never be resolved. *)

From Stdlib Require Import ZArith Lia Ascii String.
From stdpp Require Import base gmap strings pretty option list_numbers list relations.
From S2P Require Import Prelude TxLogic Identifiers States Text Ordered Operation Workflow Errors Controller SourceDb Source SourceRepository SourceBroker SourceIngress SourceLogic SourceHistory SourceInvariant SourceConsistency.

Local Open Scope Z_scope.

Section Histories.
Context `{Codecs : !SourceCodecs, CodecsSpec : !SourceCodecsSpec, Crypto : !SourceCrypto}.
Context {R : Type} `{!SourceRepository R, !SourceRepositoryLaws R}.
Context `{!Json OperationRecord, !Json OperationTransition}.

(** The worlds of every history that starts with an empty ledger and no accepted
    reference. *)
Definition source_reachable (w : World R) : Prop :=
  ∃ r, (∀ p, accepted_ref r p = None) ∧ source_history (MkWorld new_source_db r) w.

Lemma reachable_ok w : source_reachable w → world_ok (λ _, True) w.
Proof. intros (r & Hr & Hhistory). eapply world_ok_history; [exact Hhistory|]. by apply new_world_ok. Qed.

(** ** Relations that every transaction stays in *)

(** The chain only grows. *)
Definition heads_grow (db db' : SourceDb) : Prop := accepted_heads db ⊆ accepted_heads db'.

#[global] Instance heads_grow_preorder : PreOrder heads_grow.
Proof. unfold heads_grow. split; [by intros db|]. intros db1 db2 db3. by etrans. Qed.

#[global] Instance heads_grow_meta : Frees heads_grow write_meta.
Proof. intros table db. unfold heads_grow. done. Qed.
#[global] Instance heads_grow_projects : Frees heads_grow write_projects.
Proof. intros table db. unfold heads_grow. done. Qed.
#[global] Instance heads_grow_deliveries : Frees heads_grow write_deliveries.
Proof. intros table db. unfold heads_grow. done. Qed.
#[global] Instance heads_grow_journal : Frees heads_grow write_journal.
Proof. intros table db. unfold heads_grow. done. Qed.
#[global] Instance heads_grow_events : Frees heads_grow write_events.
Proof. intros table db. unfold heads_grow. done. Qed.
#[global] Instance heads_grow_tickets : Frees heads_grow write_tickets.
Proof. intros table db. unfold heads_grow. done. Qed.
#[global] Instance heads_grow_outbox : Frees heads_grow write_outbox.
Proof. intros table db. unfold heads_grow. done. Qed.
#[global] Instance heads_grow_wakeups : Frees heads_grow write_wakeups.
Proof. intros table db. unfold heads_grow. done. Qed.

Lemma heads_grow_insert key row : tx_rel heads_grow (insert_accepted_head key row).
Proof.
  intros db u db' Hok. unfold insert_accepted_head, source_sql in Hok. repeat inv_ok_step.
  bool_prop. unfold heads_grow. simpl. by apply insert_subseteq.
Qed.

#[global] Instance heads_grow_respects : Respects heads_grow.
Proof.
  split; [apply _|..].
  - intros A body Hbody. destruct Hbody; eauto with tx_rel typeclass_instances.
  - intros. eauto with tx_rel typeclass_instances.
  - intros. eauto with tx_rel typeclass_instances.
  - intros. unfold accept_if_current. tx_steps. apply heads_grow_insert.
  - intros. eauto with tx_rel typeclass_instances.
Qed.

(** A completed delivery is never touched. *)
Definition deliveries_final (db db' : SourceDb) : Prop :=
  ∀ key row, source_deliveries db !! key = Some row → sv_status row = Delivery_Completed →
    source_deliveries db' !! key = Some row.

#[global] Instance deliveries_final_preorder : PreOrder deliveries_final.
Proof. unfold deliveries_final. split; [by intros db key row|]. intros db1 db2 db3. eauto. Qed.

#[global] Instance deliveries_final_meta : Frees deliveries_final write_meta.
Proof. by intros table db key row. Qed.
#[global] Instance deliveries_final_projects : Frees deliveries_final write_projects.
Proof. by intros table db key row. Qed.
#[global] Instance deliveries_final_heads : Frees deliveries_final write_heads.
Proof. by intros table db key row. Qed.
#[global] Instance deliveries_final_journal : Frees deliveries_final write_journal.
Proof. by intros table db key row. Qed.
#[global] Instance deliveries_final_events : Frees deliveries_final write_events.
Proof. by intros table db key row. Qed.
#[global] Instance deliveries_final_tickets : Frees deliveries_final write_tickets.
Proof. by intros table db key row. Qed.
#[global] Instance deliveries_final_outbox : Frees deliveries_final write_outbox.
Proof. by intros table db key row. Qed.
#[global] Instance deliveries_final_wakeups : Frees deliveries_final write_wakeups.
Proof. by intros table db key row. Qed.

Lemma deliveries_final_insert key row : tx_rel deliveries_final (insert_delivery_row key row).
Proof.
  intros db u db' Hok. unfold insert_delivery_row, source_sql in Hok. repeat inv_ok_step.
  bool_prop. intros k r Hk Hr. simpl. rewrite lookup_insert_ne; [done|]. congruence.
Qed.

Lemma deliveries_final_update p f :
  (∀ key row, p key row = true → sv_status row ≠ Delivery_Completed) →
  tx_rel deliveries_final (update_source_deliveries p f).
Proof.
  intros Hp db n db' Hok. unfold update_source_deliveries in Hok.
  apply tx_bind_Ok in Hok as (table & db1 & Hl & Hok). apply gets_Ok in Hl as [-> ->].
  apply tx_bind_Ok in Hok as ([m table] & db1 & Hl & Hok). apply lift_Ok in Hl as [Htable ->].
  repeat inv_ok_step. intros key row Hkey Hrow. simpl.
  destruct (update_table_lookup _ _ _ _ _ _ Htable) as [-> _]. rewrite Hkey. simpl.
  destruct (p key row) eqn:E; [|done]. by apply Hp in E.
Qed.

Local Hint Resolve deliveries_final_insert : tx_rel.
Local Hint Extern 1 (tx_rel deliveries_final (update_source_deliveries _ _)) =>
  apply deliveries_final_update; intros ? ? ?; bool_prop; destruct_and?; congruence : tx_rel.

Lemma deliveries_final_ordinary A (body : SourceTx A) : ordinary body → tx_rel deliveries_final body.
Proof.
  intros Hbody. destruct Hbody; try (eauto with tx_rel typeclass_instances; fail);
    unfold reserve_delivery, finish_delivery, abandon_delivery, recover_incomplete_deliveries; tx_steps.
Qed.

#[global] Instance deliveries_final_respects : Respects deliveries_final.
Proof.
  split; [apply _|apply deliveries_final_ordinary|..]; intros; eauto with tx_rel typeclass_instances.
Qed.

(** The epoch never goes back. *)
Definition epoch_at_least (n : Z) (db : SourceDb) : Prop :=
  ∃ m, source_meta db !! "broker_epoch"%string = Some m ∧ n ≤ m.
Definition epoch_grows (db db' : SourceDb) : Prop := ∀ n, epoch_at_least n db → epoch_at_least n db'.

#[global] Instance epoch_grows_preorder : PreOrder epoch_grows.
Proof. unfold epoch_grows. split; [by intros db n|]. intros db1 db2 db3. eauto. Qed.

#[global] Instance epoch_grows_projects : Frees epoch_grows write_projects.
Proof. by intros table db n. Qed.
#[global] Instance epoch_grows_heads : Frees epoch_grows write_heads.
Proof. by intros table db n. Qed.
#[global] Instance epoch_grows_deliveries : Frees epoch_grows write_deliveries.
Proof. by intros table db n. Qed.
#[global] Instance epoch_grows_journal : Frees epoch_grows write_journal.
Proof. by intros table db n. Qed.
#[global] Instance epoch_grows_events : Frees epoch_grows write_events.
Proof. by intros table db n. Qed.
#[global] Instance epoch_grows_tickets : Frees epoch_grows write_tickets.
Proof. by intros table db n. Qed.
#[global] Instance epoch_grows_outbox : Frees epoch_grows write_outbox.
Proof. by intros table db n. Qed.
#[global] Instance epoch_grows_wakeups : Frees epoch_grows write_wakeups.
Proof. by intros table db n. Qed.

Lemma acquire_broker_lease_Ok now db epoch db' :
  acquire_broker_lease now db = Ok (epoch, db') →
  epoch = default 0 (source_meta db !! "broker_epoch"%string) + 1
  ∧ source_meta db' !! "broker_epoch"%string = Some epoch.
Proof.
  unfold acquire_broker_lease. intros Hok.
  apply tx_bind_Ok in Hok as (n & db1 & Hl & Hok). apply gets_Ok in Hl as [-> ->].
  apply tx_bind_Ok in Hok as (n & db1 & Hl & Hok). apply lift_Ok in Hl as [Hn ->].
  apply tx_bind_Ok in Hok as (m & db1 & Hl & Hok). apply lift_Ok in Hl as [Hm ->].
  apply tx_bind_Ok in Hok as (k & db1 & Hl & Hok). apply lift_Ok in Hl as [Hk ->].
  apply ok_or_Ok, checked_range_Some in Hn as [-> _]. apply ok_or_Ok, checked_range_Some in Hm as [-> _].
  apply sequence_to_i64_Ok in Hk as ->. repeat inv_ok_step. split; [done|]. simpl.
  rewrite lookup_insert_ne by done. apply lookup_insert_eq.
Qed.

Lemma epoch_grows_lease now : tx_rel epoch_grows (acquire_broker_lease now).
Proof.
  intros db epoch db' [-> Hmeta]%acquire_broker_lease_Ok n (m & Hm & Hle). rewrite Hm in Hmeta.
  simpl in Hmeta. eexists. split; [exact Hmeta|]. lia.
Qed.

#[global] Instance epoch_grows_respects : Respects epoch_grows.
Proof.
  split; [apply _|..].
  - intros A body Hbody. destruct Hbody; [apply epoch_grows_lease|..]; eauto with tx_rel typeclass_instances.
  - intros. eauto with tx_rel typeclass_instances.
  - intros. eauto with tx_rel typeclass_instances.
  - intros. eauto with tx_rel typeclass_instances.
  - intros. eauto with tx_rel typeclass_instances.
Qed.

(** ** Crashes, the chain and tickets *)

(** C15: whenever the broker stops — after any lasting step of any request or start, in
    every history of a ledger that began empty — each project waits for its owner, or its
    accepted reference agrees with the ledger: it is the last accepted head, or, when the
    journal records an update in progress, that head or the journal's, and the journal's
    once the update is recorded as made. *)
Theorem crash_leaves_a_consistent_reference w p :
  source_reachable w → reference_consistent (w_db w) p (accepted_ref (w_repository w) p).
Proof. intros [_ Hc]%reachable_ok. by apply Hc. Qed.

(** C16: in every history the accepted heads of a project are a chain: they are numbered
    from one to the project's sequence without a gap, the last is the project's head,
    each names the one before it as its previous head, and the stored attestation of each
    is of that project, number and head, under the stored digest. *)
Theorem accepted_heads_form_a_chain w p :
  source_reachable w →
  (∀ n, is_Some (accepted_heads (w_db w) !! (p, n)) ↔ 1 ≤ n ≤ project_sequence (w_db w) p)
  ∧ project_head (w_db w) p
    = ar_canonical_head <$> accepted_heads (w_db w) !! (p, project_sequence (w_db w) p)
  ∧ ∀ n row, accepted_heads (w_db w) !! (p, n) = Some row →
      ar_previous_head row = ar_canonical_head <$> accepted_heads (w_db w) !! (p, n - 1)
      ∧ attested_row p n row.
Proof.
  intros [Hl _]%reachable_ok. destruct (Hl p). split_and!; [done..|]. intros n row Hrow. eauto.
Qed.

(** C17: a mutation ticket pins the accepted head: whatever happens between two moments at
    which a project's ticket is for the same source sequence, the head is the same one at
    both, the ticket's digest is the head's, and no update of the reference is in
    progress. *)
Theorem ticket_pins_the_accepted_head w w' p t t' :
  source_reachable w → source_history w w' →
  source_mutation_tickets (w_db w) !! p = Some t →
  source_mutation_tickets (w_db w') !! p = Some t' →
  mt_source_sequence t' = mt_source_sequence t →
  project_head (w_db w') p = project_head (w_db w) p
  ∧ project_digest (w_db w') p = Some (mt_attestation_digest t)
  ∧ source_ref_update_journal (w_db w') !! p = None
  ∧ (project_diverged (w_db w') p
     ∨ accepted_ref (w_repository w') p = project_head (w_db w) p).
Proof.
  intros Hw Hhistory Ht Ht' Hsame. pose proof (reachable_ok w Hw) as Hok.
  pose proof (world_ok_history _ _ _ Hhistory Hok) as [Hl' Hc']. destruct Hok as [Hl _].
  assert (heads_grow (w_db w) (w_db w')) as Hgrow by by eapply (history_respects heads_grow).
  destruct (Hl p) as [_ _ _ Lt Lr Lh Ld _ _], (Hl' p) as [_ Lj' _ Lt' _ Lh' Ld' _ _].
  destruct (Lt t Ht) as [Hs Hd], (Lt' t' Ht') as [Hs' Hd'].
  assert (project_sequence (w_db w') p = project_sequence (w_db w) p) as Hseq by congruence.
  rewrite Ld in Hd. apply fmap_Some in Hd as (row & Hrow & ->).
  assert (accepted_heads (w_db w') !! (p, project_sequence (w_db w) p) = Some row) as Hrow'
    by by eapply lookup_weaken.
  rewrite Hseq in Lh', Ld'. rewrite Hrow in Lh. rewrite Hrow' in Lh', Ld'.
  simpl in Lh, Lh', Ld'.
  assert (source_ref_update_journal (w_db w') !! p = None) as Hj.
  { destruct (source_ref_update_journal (w_db w') !! p) as [j|] eqn:Hj; [|done].
    destruct (Lj' j eq_refl) as (_ & _ & Hnone). congruence. }
  split_and!; [congruence|congruence|done|].
  destruct (Hc' p I) as [?|Href]; [by left|]. right. rewrite Hj in Href. congruence.
Qed.

(** ** Starts *)

(** C18: a start that succeeds settles every installed project, wherever the accepted
    references were left: the project waits for its owner, or nothing is in progress and
    its reference is the ledger's head. *)
Theorem start_settles_every_project lock_trusted key_id signing_key ttl installed lock_acquired now w
    broker w' trace policy :
  ledger_ok (w_db w) →
  new_broker lock_trusted key_id signing_key ttl installed lock_acquired now w = (trace, (w', Ok broker)) →
  policy ∈ installed →
  settled (isp_project_id policy) w' ∧ ledger_ok (w_db w').
Proof.
  intros Hl Hnew Hin.
  destruct (new_broker_triple (λ _, False) lock_trusted key_id signing_key ttl installed lock_acquired now w)
    as (_ & Hok & HQ); [done|done|]. rewrite Hnew in Hok, HQ. simpl in *.
  split; [by eapply HQ|apply Hok].
Qed.

(** ** Epochs *)

Lemma lease_superseded lock_trusted broker (w : World R) :
  source_meta (w_db w) !! "broker_epoch"%string ≠ Some (br_lease_epoch broker) →
  ∃ e, require_current_lease lock_trusted broker w = ([], (w, Err e)).
Proof.
  intros Hmeta. unfold require_current_lease, mbind, call_bind, call_lift, store_read, require_broker_epoch.
  destruct (ensure _ _) as [[]|e]; [|by exists e].
  destruct (sequence_to_i64 (br_lease_epoch broker)) as [n|e] eqn:Hn; simpl; [|by eexists].
  apply sequence_to_i64_Ok in Hn as ->. rewrite bool_decide_false by done. by eexists.
Qed.

Lemma call_bind_Err {E A B} (m : Call E R A) (f : A → Call E R B) w trace w' e :
  m w = (trace, (w', Err e)) → mbind f m w = (trace, (w', Err e)).
Proof. unfold mbind, call_bind. by intros ->. Qed.

Lemma lock_superseded lock_trusted broker p (w : World R) :
  source_meta (w_db w) !! "broker_epoch"%string ≠ Some (br_lease_epoch broker) →
  ∃ e, lock_coordination lock_trusted broker p w = ([], (w, Err e)).
Proof.
  intros [e He]%(lease_superseded lock_trusted). exists e. unfold lock_coordination. by apply call_bind_Err.
Qed.

(** A broker whose epoch is not the ledger's has no effect: each of its requests fails
    before its first step. *)
Lemma superseded_broker_has_no_effect lock_trusted broker request (w : World R) :
  source_meta (w_db w) !! "broker_epoch"%string ≠ Some (br_lease_epoch broker) →
  perform lock_trusted broker request w = ([], (w, false)).
Proof.
  intros Hmeta. pose proof (lock_superseded lock_trusted broker) as Hlock.
  destruct (lease_superseded lock_trusted broker w Hmeta) as [e He].
  destruct request; simpl;
    unfold broker_pending_outbox, current_shadow_entry, acknowledge_outbox, source_tree_observation,
      resolve_divergence_keep_canonical, set_controls, enqueue_github_push, broker_pending_github_wakeups,
      process_pending_github_pushes, process_github_push, reconcile_remote_main, refresh_shadow_head,
      reconcile_remote_main_with, process_direct_push, admit_recorded_deploy,
      admit_recorded_interactive_deploy, check_live, complete_live, abort_live;
    cbv zeta; try (case_match; [done|]);
    first [erewrite call_bind_Err by exact He; done
          |edestruct Hlock as [e' He']; [exact Hmeta|]; 
           erewrite call_bind_Err; [done|]; by (exact He' || (unfold call_map_err; rewrite He'))].
Qed.

Lemma new_broker_epoch lock_trusted key_id signing_key ttl installed lock_acquired now w trace w' broker n :
  source_meta (w_db w) !! "broker_epoch"%string = Some n →
  new_broker lock_trusted key_id signing_key ttl installed lock_acquired now w = (trace, (w', Ok broker)) →
  epoch_at_least (n + 1) (w_db w').
Proof.
  set (db0 := new_source_db <| source_meta := {["broker_epoch"%string := n + 1]} |>).
  assert (∀ db, epoch_grows db0 db ↔ epoch_at_least (n + 1) db) as Hiff.
  { intros db. split; [intros Hg; apply Hg; exists (n + 1); split; [apply lookup_singleton_eq|lia]|].
    intros (m & Hm & Hle) k (m' & Hm' & Hle'). exists m. split; [done|]. simpl in Hm'. 
    rewrite lookup_singleton_eq in Hm'. simplify_eq. lia. }
  intros Hmeta Hnew. apply (proj1 (Hiff _)). clear Hiff.
  enough (call_triple (λ _, True) (λ w, source_meta (w_db w) !! "broker_epoch"%string = Some n)
            (new_broker lock_trusted key_id signing_key ttl installed lock_acquired now)
            (λ _ w, epoch_grows db0 (w_db w))) as Htriple.
  { destruct (Htriple w I Hmeta) as (_ & _ & HQ). rewrite Hnew in HQ. by apply (HQ broker). }
  unfold new_broker.
  do 4 (eapply call_triple_bind; [by apply (call_triple_lift _ _ _ (λ _ w, source_meta (w_db w) !! "broker_epoch"%string = Some n))|intros ?]).
  eapply call_triple_bind.
  { by apply (call_triple_repository_read _ _ _ (λ _ w, source_meta (w_db w) !! "broker_epoch"%string = Some n)). }
  intros policies.
  do 2 (eapply call_triple_bind; [by apply (call_triple_lift _ _ _ (λ _ w, source_meta (w_db w) !! "broker_epoch"%string = Some n))|intros ?]).
  apply (call_triple_bind _ _ (λ _ w, epoch_grows db0 (w_db w))).
  { apply call_triple_store. intros w0 epoch db [-> Hdb]%acquire_broker_lease_Ok _ Hw0. split; [done|].
    rewrite Hw0 in Hdb. simpl in *. intros k (m' & Hm' & Hle'). simpl in Hm'.
    rewrite lookup_singleton_eq in Hm'. simplify_eq. eexists. split; [exact Hdb|]. lia. }
  intros epoch. apply (call_keeps_condition (λ w, epoch_grows db0 (w_db w))). cbv zeta.
  apply call_keeps_bind; [apply (respects_recover_state epoch_grows)|intros _].
  assert (∀ A (body : SourceTx A), ordinary body →
            call_keeps (λ w : World R, epoch_grows db0 (w_db w)) (store body)) as Hstore.
  { intros A body Hbody. by apply (respects_ordinary_store epoch_grows). }
  apply call_keeps_bind; [apply Hstore; constructor|intros _].
  apply call_keeps_bind.
  - apply call_keeps_for_each. intros policy _. apply call_keeps_bind; [apply Hstore; constructor|].
    intros [|]; [apply call_keeps_ok|apply (respects_step epoch_grows)].
  - intros _. apply call_keeps_bind; [apply Hstore; constructor|intros _]. apply call_keeps_ok.
Qed.

(** C19: once a new broker has started, the one before it is fenced off for good: in every
    later world each of its requests fails and changes nothing. *)
Theorem start_fences_the_previous_broker lock_trusted key_id signing_key ttl installed lock_acquired now
    w trace w' broker previous lock_trusted' request w'' :
  source_meta (w_db w) !! "broker_epoch"%string = Some (br_lease_epoch previous) →
  new_broker lock_trusted key_id signing_key ttl installed lock_acquired now w = (trace, (w', Ok broker)) →
  source_history w' w'' →
  perform lock_trusted' previous request w'' = ([], (w'', false)).
Proof.
  intros Hmeta Hnew Hhistory. pose proof (new_broker_epoch _ _ _ _ _ _ _ _ _ _ _ _ Hmeta Hnew) as Hepoch.
  assert (epoch_grows (w_db w') (w_db w'')) as Hgrows by by eapply (history_respects epoch_grows).
  apply Hgrows in Hepoch as (m & Hm & Hle).
  apply superseded_broker_has_no_effect. rewrite Hm. intros [=]. lia.
Qed.

(** ** Deliveries *)

Lemma call_bind_Ok {E A B} (m : Call E R A) (f : A → Call E R B) w trace w' b :
  mbind f m w = (trace, (w', Ok b)) →
  ∃ trace1 w1 a trace2, m w = (trace1, (w1, Ok a)) ∧ f a w1 = (trace2, (w', Ok b)).
Proof.
  unfold mbind, call_bind. destruct (m w) as [trace1 [w1 [a|e]]]; [|done].
  destruct (f a w1) as [trace2 last] eqn:Hf. intros [= _ ->]. exists trace1, w1, a, trace2. done.
Qed.

Lemma store_Ok {E A} (body : Tx SourceDb E A) (w : World R) trace w' a :
  store body w = (trace, (w', Ok a)) →
  body (w_db w) = Ok (a, w_db w') ∧ w_repository w' = w_repository w.
Proof.
  unfold store, immediate_transaction. destruct (body (w_db w)) as [[b db]|e]; [|done].
  by intros [= _ <- ->].
Qed.

(** The ledger holds the outcome of a delivery. *)
Definition delivery_recorded (key : ProjectId * SourceChannel * string) (digest : EvidenceDigest)
    (outcome : SourceIngressOutcome) (db : SourceDb) : Prop :=
  ∃ row json, source_deliveries db !! key = Some row ∧ sv_status row = Delivery_Completed
    ∧ sv_payload_digest row = digest ∧ sv_outcome_json row = Some json
    ∧ json_from_slice json = Ok outcome.

Lemma delivery_recorded_final key digest outcome db db' :
  deliveries_final db db' → delivery_recorded key digest outcome db →
  delivery_recorded key digest outcome db'.
Proof. intros Hfinal (row & json & Hrow & Hst & ?). exists row, json. split; [by apply Hfinal|done]. Qed.

Lemma reserve_delivery_recorded epoch p channel id digest now token db reservation db' :
  reserve_delivery epoch p channel id digest now token db = Ok (reservation, db') →
  match reservation with
  | Reservation_Completed outcome => delivery_recorded (p, channel, id) digest outcome db ∧ db' = db
  | Reservation_Claimed claim =>
      (dc_project_id claim, dc_channel claim, dc_delivery_id claim, dc_payload_digest claim)
      = (p, channel, id, digest)
      ∧ ∀ outcome, ¬ delivery_recorded (p, channel, id) digest outcome db
  end.
Proof.
  unfold reserve_delivery. intros Hok. cbv zeta in Hok.
  apply tx_bind_Ok in Hok as (u & db1 & Hepoch & Hok). apply (frame_epoch eq) in Hepoch as <-.
  apply tx_bind_Ok in Hok as (stored & db1 & Hl & Hok). apply gets_Ok in Hl as [-> ->].
  destruct (source_deliveries db !! (p, channel, id)) as [row|] eqn:Hrow.
  - destruct (bool_decide_reflect (sv_payload_digest row = digest)) as [Hd|]; simpl in Hok; [|done].
    destruct (sv_status row) eqn:Hst; [done| |].
    + apply tx_bind_Ok in Hok as (n & db1 & Hupdate & Hok). apply tx_ok_Ok in Hok as [-> ->].
      split; [done|]. intros outcome (row' & json & Hrow' & Hst' & _). congruence.
    + repeat inv_ok_step. split; [|done]. by exists row, x.
  - apply tx_bind_Ok in Hok as (u' & db1 & Hinsert & Hok). apply tx_ok_Ok in Hok as [-> ->].
    split; [done|]. intros outcome (row' & json & Hrow' & _). congruence.
Qed.

Lemma finish_delivery_recorded epoch claim outcome auto now db outcome' db' :
  finish_delivery epoch claim outcome auto now db = Ok (outcome', db') →
  outcome' = outcome
  ∧ delivery_recorded (dc_project_id claim, dc_channel claim, dc_delivery_id claim)
      (dc_payload_digest claim) outcome db'.
Proof.
  unfold finish_delivery. intros Hok.
  apply tx_bind_Ok in Hok as (u & db1 & Hepoch & Hok). apply (frame_epoch eq) in Hepoch as <-.
  apply tx_bind_Ok in Hok as (u1 & db1 & Hl & Hok). apply lift_Ok in Hl as [_ ->].
  apply tx_bind_Ok in Hok as (json & db1 & Hl & Hok). apply lift_Ok in Hl as [Hjson ->].
  apply map_err_Ok, outcome_round_trip in Hjson.
  apply tx_bind_Ok in Hok as (changed & db1 & Hupdate & Hok).
  apply tx_bind_Ok in Hok as (u2 & db2 & Hl & Hok). apply lift_Ok in Hl as [Hone ->]. apply ensure_Ok in Hone.
  apply tx_bind_Ok in Hok as (u3 & db2 & Henqueue & Hok). apply tx_ok_Ok in Hok as [-> ->].
  split; [done|].
  assert (deliveries_final db1 db2) as Hfinal.
  { destruct auto; [|by apply tx_ok_Ok in Henqueue as [_ ->]].
    by apply (enqueue_deployable_outcome_rel deliveries_final) in Henqueue. }
  eapply delivery_recorded_final; [exact Hfinal|].
  unfold update_source_deliveries in Hupdate.
  apply tx_bind_Ok in Hupdate as (table & db3 & Hl & Hupdate). apply gets_Ok in Hl as [-> ->].
  apply tx_bind_Ok in Hupdate as ([n table] & db3 & Hl & Hupdate). apply lift_Ok in Hl as [Htable ->].
  apply tx_bind_Ok in Hupdate as (u4 & db3 & Hl & Hupdate). apply modify_Ok in Hl as ->.
  apply tx_ok_Ok in Hupdate as [-> ->].
  destruct (update_table_one _ _ _ _ _ _ Htable) as (key & row & Hrow & Hp).
  { intros ->. by bool_prop. }
  destruct (update_table_lookup _ _ _ _ _ _ Htable) as [Hlookup _]. specialize (Hlookup key).
  rewrite Hrow in Hlookup. simpl in Hlookup. rewrite Hp in Hlookup. bool_prop. destruct_and!. subst key.
  eexists _, json. simpl. split_and!; [exact Hlookup|done..].
Qed.

(** A delivery and its answer, as every ingress has them. *)
Lemma delivery_answered epoch broker p channel id digest now token auto (processing : _ → Call SourceError R _)
    (w : World R) trace w' outcome :
  (let? reservation := store (reserve_delivery epoch p channel id digest now token) in
   match reservation with
   | Reservation_Completed outcome => call_ok outcome
   | Reservation_Claimed claim => settle_delivery broker claim auto now (processing claim)
   end) w = (trace, (w', Ok outcome)) →
  delivery_recorded (p, channel, id) digest outcome (w_db w')
  ∧ ∀ recorded, delivery_recorded (p, channel, id) digest recorded (w_db w) →
      outcome = recorded ∧ w' = w.
Proof.
  intros (trace1 & w1 & reservation & trace2 & Hreserve & Hok)%call_bind_Ok.
  apply store_Ok in Hreserve as [Hreserve Hrepository].
  apply reserve_delivery_recorded in Hreserve. destruct reservation as [claim|recorded].
  - destruct Hreserve as [[= <- <- <- <-] Hnew]. split; [|by intros recorded ?%Hnew].
    unfold settle_delivery in Hok.
    apply call_bind_Ok in Hok as (trace3 & w2 & result & trace4 & Hprocess & Hok).
    destruct result as [result|e].
    + apply store_Ok in Hok as [Hok _]. by apply finish_delivery_recorded in Hok as [-> ?].
    + by apply call_bind_Ok in Hok as (trace5 & w3 & u & trace6 & _ & [=]).
  - destruct Hreserve as [Hrecorded Hdb]. injection Hok as _ -> ->.
    assert (w' = w) as ->. { destruct w', w. simpl in *. congruence. }
    split; [done|]. intros other Hother. split; [|done].
    destruct Hrecorded as (row & json & Hrow & _ & _ & Hj & Ho), Hother as (row' & json' & Hrow' & _ & _ & Hj' & Ho').
    congruence.
Qed.

Lemma call_lift_Ok {E A} (r : Result E A) (w : World R) trace w' a :
  call_lift r w = (trace, (w', Ok a)) → r = Ok a ∧ w' = w.
Proof. by intros [= _ <- ->]. Qed.

Lemma lease_quiet lock_trusted broker (w : World R) : (require_current_lease lock_trusted broker w).2.1 = w.
Proof.
  unfold require_current_lease, mbind, call_bind, call_lift, store_read.
  destruct (ensure _ _); [|done]. destruct (require_broker_epoch _ _); done.
Qed.

Lemma lock_quiet lock_trusted broker p (w : World R) : (lock_coordination lock_trusted broker p w).2.1 = w.
Proof.
  unfold lock_coordination, mbind, call_bind. pose proof (lease_quiet lock_trusted broker w) as Hq.
  destruct (require_current_lease lock_trusted broker w) as [t [w' [u|e]]] eqn:Hl; simpl in *; [|done].
  subst w'. unfold call_lift. destruct (policy broker p); [|done].
  rewrite Hl. done.
Qed.

Lemma lock_Ok lock_trusted broker p (w : World R) trace w' r :
  lock_coordination lock_trusted broker p w = (trace, (w', r)) → w' = w.
Proof. intros Hl. pose proof (lock_quiet lock_trusted broker p w) as Hq. by rewrite Hl in Hq. Qed.

(** A direct push that succeeds passed its checks and reserved its delivery. *)
Lemma process_direct_push_reserves lock_trusted broker p id git_ref old new now token (w : World R) trace w' o :
  process_direct_push lock_trusted broker p id git_ref old new now token w = (trace, (w', Ok o)) →
  ∃ policy trace', (let? reservation := store (reserve_delivery (br_bound_epoch broker) p
       Source_DirectPush id (direct_push_digest git_ref old new p) now token) in
    match reservation with
    | Reservation_Completed outcome => call_ok outcome
    | Reservation_Claimed claim =>
        settle_delivery broker claim (isp_auto_deploy policy) now
          (process_candidate lock_trusted broker (MkCandidateIngress p new old Source_DirectPush id
            (direct_push_digest git_ref old new p) policy now false))
    end) w = (trace', (w', Ok o)).
Proof.
  intros Hok. unfold process_direct_push in Hok.
  apply call_bind_Ok in Hok as (t1 & w1 & u1 & t2 & Hl & Hok). apply lock_Ok in Hl as ->.
  apply call_bind_Ok in Hok as (t3 & w1 & policy & t4 & Hl & Hok). apply call_lift_Ok in Hl as [_ ->].
  do 2 (apply call_bind_Ok in Hok as (? & w1 & ? & ? & Hl & Hok); apply call_lift_Ok in Hl as [_ ->]).
  apply call_bind_Ok in Hok as (t5 & w1 & contained & t6 & Hl & Hok). injection Hl as _ <- _.
  apply call_bind_Ok in Hok as (t7 & w1 & u2 & t8 & Hl & Hok). apply call_lift_Ok in Hl as [_ ->].
  exists policy, t8. exact Hok.
Qed.

(** C20: a direct push that was answered keeps its answer: whatever happens afterwards —
    other pushes, crashes, starts of other brokers — a push with the same delivery
    identifier and contents that succeeds is answered with the same outcome from the
    ledger and changes nothing. *)
Theorem redelivered_push_repeats_its_outcome lock_trusted broker lock_trusted' broker' p id git_ref old new
    now token now' token' w trace w1 outcome w2 trace' w3 outcome' :
  process_direct_push lock_trusted broker p id git_ref old new now token w = (trace, (w1, Ok outcome)) →
  source_history w1 w2 →
  process_direct_push lock_trusted' broker' p id git_ref old new now' token' w2
  = (trace', (w3, Ok outcome')) →
  outcome' = outcome ∧ w3 = w2.
Proof.
  intros Hfirst Hhistory Hsecond.
  assert (deliveries_final (w_db w1) (w_db w2)) as Hfinal by by eapply (history_respects deliveries_final).
  apply process_direct_push_reserves in Hfirst as (policy & tr & Hfirst), Hsecond as (policy' & tr' & Hsecond).
  apply (delivery_answered _ _ _ _ _ _ _ _ _ (λ _, _)) in Hfirst as [Hrecorded _].
  apply (delivery_answered _ _ _ _ _ _ _ _ _ (λ _, _)) in Hsecond as [_ Hsame].
  apply Hsame. by eapply delivery_recorded_final.
Qed.

(** ** The live gate *)

Lemma call_map_err_Ok {E F A} (f : E → F) (m : Call E R A) (w : World R) trace w' a :
  call_map_err f m w = (trace, (w', Ok a)) → m w = (trace, (w', Ok a)).
Proof.
  unfold call_map_err. destruct (m w) as [t [w1 r]]. intros [= -> -> Hr]. by apply map_err_Ok in Hr as ->.
Qed.

Lemma store_read_Ok {E A} (f : SourceDb → Result E A) (w : World R) trace w' a :
  store_read f w = (trace, (w', Ok a)) → f (w_db w) = Ok a ∧ w' = w.
Proof. by intros [= _ <- ->]. Qed.

Lemma repository_read_Ok {E A} (f : R → Result E A) (w : World R) trace w' a :
  repository_read f w = (trace, (w', Ok a)) → f (w_repository w) = Ok a ∧ w' = w.
Proof. by intros [= _ <- ->]. Qed.

Lemma verify_live_binding_Ok broker operation now (w : World R) trace w' binding :
  verify_live_binding broker operation now w = (trace, (w', Ok binding)) →
  let p := op_project_id operation in
  w' = w
  ∧ accepted_ref (w_repository w) p = project_head (w_db w) p
  ∧ lsb_sequence binding = project_sequence (w_db w) p
  ∧ project_digest (w_db w) p = Some (lsb_attestation_digest binding)
  ∧ ∃ s, load_snapshot p (w_db w) = Ok s
      ∧ (∀ target, op_target_commit operation = Some target → ss_blocked_sha s ≠ Some target)
      ∧ ∀ until, ss_reconcile_paused_until_ms s = Some until → until ≤ now.
Proof.
  intros Hok. cbv zeta. unfold verify_live_binding in Hok. cbv zeta in Hok.
  set (p := op_project_id operation) in *.
  do 3 (apply call_bind_Ok in Hok as (? & w1 & ? & ? & Hl & Hok); apply call_lift_Ok in Hl as [? ->]).
  apply call_bind_Ok in Hok as (t1 & w1 & policy & t2 & Hl & Hok). apply call_lift_Ok in Hl as [_ ->].
  apply call_bind_Ok in Hok as (t3 & w1 & s & t4 & Hl & Hok). apply store_read_Ok in Hl as [Hs ->].
  apply call_bind_Ok in Hok as (t5 & w1 & u1 & t6 & Hl & Hok). apply store_read_Ok in Hl as [_ ->].
  apply call_bind_Ok in Hok as (t7 & w1 & u2 & t8 & Hl & Hok). apply call_lift_Ok in Hl as [Hpaused ->].
  apply call_bind_Ok in Hok as (t9 & w1 & head & t10 & Hl & Hok). apply repository_read_Ok in Hl as [Hhead ->].
  do 3 (apply call_bind_Ok in Hok as (? & w1 & ? & ? & Hl & Hok); apply call_lift_Ok in Hl as [? ->]).
  apply call_bind_Ok in Hok as (t11 & w1 & signed & t12 & Hl & Hok). apply call_lift_Ok in Hl as [_ ->].
  apply call_bind_Ok in Hok as (t13 & w1 & payload & t14 & Hl & Hok). apply call_lift_Ok in Hl as [_ ->].
  do 3 (apply call_bind_Ok in Hok as (? & w1 & ? & ? & Hl & Hok); apply call_lift_Ok in Hl as [? ->]).
  injection Hok as _ <- <-. simpl.
  apply map_err_Ok in Hs, Hhead. apply accepted_head_reads in Hhead.
  pose proof (load_snapshot_row _ _ _ Hs) as (_ & Eh & Es & Ed & _). apply ensure_Ok in Hpaused.
  repeat match goal with H : ensure _ _ = Ok _ |- _ => apply ensure_Ok in H end.
  repeat match goal with H : ok_or _ _ = Ok _ |- _ => apply ok_or_Ok in H end.
  bool_prop. destruct_and!. split_and!; [done|congruence..|]. exists s. split_and!; [done| |].
  - intros target Htarget. congruence.
  - intros n Hn. rewrite Hn in Hpaused. simpl in Hpaused. by apply Z.ltb_ge.
Qed.

(** C21: the gate of a deployment admits it only for the accepted head: when it returns a
    proof, the operation's commit is the project's head in the ledger and the accepted
    reference, no update is in progress and no divergence is open, the commit is not
    blocked and reconciliation not paused, the proof names the head's sequence and
    attestation, and the attempt holds the project's mutation ticket for them. *)
Theorem live_gate_admits_only_the_accepted_head lock_trusted broker operation now (w : World R) trace w' proof :
  op_operation_kind operation = Kind_Deploy →
  check_live lock_trusted broker operation now w = (trace, (w', Ok proof)) →
  let p := op_project_id operation in
  ∃ target ticket row,
    op_target_commit operation = Some target
    ∧ project_head (w_db w') p = Some target ∧ accepted_ref (w_repository w') p = Some target
    ∧ source_ref_update_journal (w_db w') !! p = None
    ∧ source_projects (w_db w') !! p = Some row ∧ sp_state row = Source_Ready
    ∧ sp_blocked_sha row ≠ Some target
    ∧ (∀ until, sp_reconcile_paused_until_ms row = Some until → until ≤ now)
    ∧ sgp_sequence proof = sp_sequence row ∧ sp_attestation_digest row = Some (sgp_attestation_digest proof)
    ∧ source_mutation_tickets (w_db w') !! p = Some ticket
    ∧ mt_attempt_id ticket = op_attempt_id operation
    ∧ mt_source_sequence ticket = sp_sequence row
    ∧ mt_attestation_digest ticket = sgp_attestation_digest proof.
Proof.
  intros Hkind Hok. cbv zeta. unfold check_live in Hok. cbv zeta in Hok.
  set (p := op_project_id operation) in *.
  apply call_bind_Ok in Hok as (t1 & w1 & u1 & t2 & Hl & Hok). apply call_map_err_Ok, lock_Ok in Hl as ->.
  rewrite bool_decide_true in Hok by done. simpl in Hok.
  apply call_bind_Ok in Hok as (t3 & w1 & binding & t4 & Hl & Hok).
  apply verify_live_binding_Ok in Hl as (-> & Href & Hseq & Hdigest & s & Hs & Hblocked & Hpaused).
  fold p in Href, Hseq, Hdigest, Hs.
  do 2 (apply call_bind_Ok in Hok as (? & w1 & ? & ? & Hl & Hok); apply call_lift_Ok in Hl as [_ ->]).
  apply call_bind_Ok in Hok as (t5 & w1 & u2 & t6 & Hl & Hok). injection Hok as _ <- <-.
  apply call_map_err_Ok, store_Ok in Hl as [Hticket Hr].
  apply acquire_mutation_ticket_Ok in Hticket
    as (target & ticket & H1 & H2 & H4 & H3 & _ & Htarget & Hh & Hready & Hj & Ha & Ts & _ & Td & _).
  fold p in H1, H2, H3, H4, Hh, Hready, Hj, Ts, Td. exists target, ticket.
  unfold load_snapshot in Hs. unfold project_head, project_sequence, project_digest, project_diverged in *.
  rewrite H1, H2, H3, Hr. destruct (source_projects (w_db w) !! p) as [row|]; [|done]. simpl in *.
  exists row. apply result_bind_Ok in Hs as (sequence & _ & Hs).
  apply result_bind_Ok in Hs as (attestation & _ & Hs). do 2 case_ok. simpl in *.
  rewrite lookup_insert_eq.
  split_and!; try done; [congruence|by destruct (sp_state row)|by apply Hblocked|congruence].
Qed.

(** ** A divergence that cannot be resolved *)

(** Every divergence event of the project is resolved. *)
Definition events_resolved (p : ProjectId) (db : SourceDb) : Prop :=
  ∀ digest row, source_divergence_events db !! (p, digest) = Some row → is_Some (de_resolved_at_ms row).

Lemma resolve_needs_an_open_event epoch p head evidence now db :
  events_resolved p db → ∃ e, store_resolve_divergence epoch p head evidence now db = Err e.
Proof.
  intros Hresolved. destruct (store_resolve_divergence epoch p head evidence now db) as [[u db']|e] eqn:Hok;
    [|by exists e]. exfalso. unfold store_resolve_divergence in Hok.
  apply epoch_snapshot_Ok in Hok as (current & _ & Hok).
  apply tx_bind_Ok in Hok as (u1 & db1 & Hl & Hok). apply lift_Ok in Hl as [_ ->].
  apply tx_bind_Ok in Hok as (changed & db1 & Hupdate & Hok).
  apply tx_bind_Ok in Hok as (u2 & db2 & Hl & Hok). apply lift_Ok in Hl as [_ ->].
  apply tx_bind_Ok in Hok as (u3 & db2 & Hl & Hok). apply modify_Ok in Hl as ->.
  apply tx_bind_Ok in Hok as (recorded & db2 & Hl & Hok). apply gets_Ok in Hl as [_ ->].
  apply tx_bind_Ok in Hok as (resolved & db2 & Hevents & Hok). apply lift_Ok in Hok as [Hone ->].
  apply ensure_Ok in Hone.
  assert (source_divergence_events db1 = source_divergence_events db) as Hdb1.
  { unfold update_source_projects in Hupdate.
    apply tx_bind_Ok in Hupdate as (table & db4 & Hl & Hupdate). apply gets_Ok in Hl as [-> ->].
    apply tx_bind_Ok in Hupdate as ([n table] & db4 & Hl & Hupdate). apply lift_Ok in Hl as [_ ->].
    by repeat inv_ok_step. }
  unfold update_divergence_events in Hevents.
  apply tx_bind_Ok in Hevents as (table & db3 & Hl & Hevents). apply gets_Ok in Hl as [-> ->].
  apply tx_bind_Ok in Hevents as ([n table] & db3 & Hl & Hevents). apply lift_Ok in Hl as [Htable ->].
  apply tx_bind_Ok in Hevents as (u4 & db3 & Hl & Hevents). apply tx_ok_Ok in Hevents as [-> _].
  destruct (update_table_one _ _ _ _ _ _ Htable) as ([q digest] & row & Hrow & Hp); [by bool_prop|].
  simpl in Hrow. rewrite Hdb1 in Hrow. bool_prop. destruct_and!. simpl in *. subst q.
  apply Hresolved in Hrow as [t Ht]. congruence.
Qed.

(** C22: a divergence that repeats evidence the owner already resolved cannot be resolved
    again: the event is not recorded anew, so that the project waits for its owner while
    no event is open, and every resolution the owner attempts, whatever the broker, the
    head and the evidence named, fails and changes nothing. *)
Theorem repeated_divergence_cannot_be_resolved epoch p candidate channel evidence now db u db' (r : R)
    lock_trusted broker head evidence' now' :
  events_resolved p db →
  is_Some (source_divergence_events db !! (p, evidence)) →
  mark_diverged epoch p candidate channel evidence now db = Ok (u, db') →
  project_diverged db' p
  ∧ ∃ trace e,
      resolve_divergence_keep_canonical lock_trusted broker p head evidence' now' (MkWorld db' r)
      = (trace, (MkWorld db' r, Err e)).
Proof.
  intros Hresolved [event Hevent] Hok.
  pose proof Hok as (row & H1 & _ & _ & _ & _ & Hst & _)%mark_diverged_Ok.
  split; [unfold project_diverged; by rewrite H1, lookup_insert_eq|].
  assert (source_divergence_events db' = source_divergence_events db) as Hsame.
  { unfold mark_diverged in Hok. apply epoch_snapshot_Ok in Hok as (current & _ & Hok).
    apply tx_bind_Ok in Hok as (u1 & db1 & Hinsert & Hok).
    apply tx_bind_Ok in Hok as (sequence & db2 & Hl & Hok). apply lift_Ok in Hl as [_ ->].
    apply tx_bind_Ok in Hok as (json & db2 & Hl & Hok). apply lift_Ok in Hl as [_ ->].
    apply upsert_source_project_Ok in Hok as [_ ->]. unfold insert_divergence_event in Hinsert.
    apply tx_bind_Ok in Hinsert as (table & db2 & Hl & Hinsert). apply gets_Ok in Hl as [-> ->].
    rewrite Hevent in Hinsert. by apply tx_ok_Ok in Hinsert as [_ ->]. }
  unfold resolve_divergence_keep_canonical.
  assert (∀ E A B (m : Call E R A) (f : A → Call E R B) (w : World R),
    (m w).2.1 = w → (∀ a, ∃ trace e, f a w = (trace, (w, Err e))) →
    ∃ trace e, mbind f m w = (trace, (w, Err e))) as Hbind.
  { intros E A B m f w Hm Hf. unfold mbind, call_bind. destruct (m w) as [t [w' [a|e]]]; simpl in Hm; subst w'.
    - destruct (Hf a) as (t' & e & ->). by eexists _, _.
    - by eexists _, _. }
  apply Hbind; [apply lock_quiet|intros _]. apply Hbind; [done|intros observed].
  apply Hbind; [done|intros _]. unfold store, immediate_transaction. simpl.
  destruct (resolve_needs_an_open_event (br_bound_epoch broker) p head evidence' now' db') as [e ->].
  { intros digest row'. rewrite Hsame. apply Hresolved. }
  by eexists _, _.
Qed.

(** While a project is diverged its controls cannot be changed: [set_controls] proposes a
    row in the diverged state without the divergence, which the constraint of the table
    refuses before the conflict clause can keep the stored columns. *)
Theorem diverged_project_refuses_controls epoch p blocked paused now db :
  project_diverged db p → ∃ e, store_set_controls epoch p blocked paused now db = Err e.
Proof.
  intros Hdiverged.
  destruct (store_set_controls epoch p blocked paused now db) as [[u db']|e] eqn:Hok; [exfalso|by eexists].
  unfold store_set_controls in Hok.
  apply tx_bind_Ok in Hok as (u1 & db1 & Hlift & Hok). apply lift_Ok in Hlift as [_ ->].
  apply epoch_snapshot_Ok in Hok as (current & Hread & Hok).
  apply tx_bind_Ok in Hok as (sequence & db2 & Hseq & Hok). apply lift_Ok in Hseq as [Hseq ->].
  apply tx_bind_Ok in Hok as (json & db2 & Hjson & Hok). apply lift_Ok in Hjson as [_ ->].
  apply load_snapshot_row in Hread as (_ & _ & _ & _ & Hst). unfold project_diverged in Hdiverged.
  rewrite Hdiverged in Hst. unfold upsert_source_project in Hok.
  apply tx_bind_Ok in Hok as (table & db3 & Hl & Hok). apply gets_Ok in Hl as [_ ->].
  apply tx_bind_Ok in Hok as (u2 & db4 & Hcheck & _). apply lift_Ok in Hcheck as [Hcheck _].
  apply ensure_Ok in Hcheck. unfold source_project_check in Hcheck. simpl in Hcheck. rewrite Hst in Hcheck.
  bool_prop. naive_solver.
Qed.
End Histories.
