(* ===== verification/SourceIngressSpec.v ===== *)
(** * The source broker: what its checks accept

    The signature of a webhook, the round trip of an attestation, the walk along the
    commit graph, and the bounds of the queue of webhooks. *)

From Stdlib Require Import ZArith Lia Ascii String.
From stdpp Require Import base gmap strings pretty option list_numbers list relations.
From S2P Require Import Prelude TxLogic Identifiers States Text Ordered Operation Workflow WorkflowSpec Errors Controller SourceDb Source SourceRepository SourceBroker SourceIngress SourceLogic SourceHistory SourceInvariant SourceConsistency.

Local Open Scope Z_scope.

(** ** Hexadecimal *)

Lemma all_nibbles (P : Z → bool) :
  forallb P (seqZ 0 16) = true → ∀ n, 0 ≤ n < 16 → P n = true.
Proof.
  rewrite forallb_forall. intros Hall n Hn. apply Hall, list_elem_of_In, elem_of_seqZ. lia.
Qed.

Lemma hex_nibble_digit n : 0 ≤ n < 16 → hex_nibble (byte_of_ascii (hex_digit n)) = Some n.
Proof.
  intros Hn.
  assert (forallb (λ n, bool_decide (hex_nibble (byte_of_ascii (hex_digit n)) = Some n)) (seqZ 0 16) = true)
    as Hall by by vm_compute.
  by apply (all_nibbles _ Hall), bool_decide_eq_true in Hn.
Qed.

Lemma hex_nibble_Some z n : hex_nibble z = Some n → 0 ≤ n < 16 ∧ z = byte_of_ascii (hex_digit n).
Proof.
  intros Hz. assert (0 ≤ n < 16 ∧ z = if n <? 10 then 48 + n else 87 + n) as [Hn ->].
  { unfold hex_nibble in Hz. repeat (case_match; simplify_eq); bool_prop; lia. }
  split; [done|]. apply Z.eqb_eq.
  apply (all_nibbles (λ n, (if n <? 10 then 48 + n else 87 + n) =? byte_of_ascii (hex_digit n))); [|done].
  by vm_compute.
Qed.

Lemma nibbles_lor high low : 0 ≤ high < 16 → 0 ≤ low < 16 → Z.lor (Z.shiftl high 4) low = 16 * high + low.
Proof.
  intros Hh Hl. apply Z.eqb_eq. revert low Hl. apply all_nibbles. revert high Hh.
  apply (all_nibbles (λ high, forallb (λ low, Z.lor (Z.shiftl high 4) low =? 16 * high + low) (seqZ 0 16))).
  by vm_compute.
Qed.

Lemma decode_hex_pairs_encode bytes :
  Forall (λ b, 0 ≤ b < 256) bytes → decode_hex_pairs (as_bytes (hex_encode bytes)) = Some bytes.
Proof.
  induction 1 as [|b bytes Hb _ IH]; [done|]. cbn [hex_encode].
  change (as_bytes (String ?a (String ?c ?s))) with (byte_of_ascii a :: byte_of_ascii c :: as_bytes s).
  cbn [decode_hex_pairs]. pose proof (Z.div_mod b 16) as Hdiv. pose proof (Z.mod_pos_bound b 16) as Hmod.
  assert (0 ≤ b / 16 < 16) by (split; [apply Z.div_pos|apply Z.div_lt_upper_bound]; lia).
  rewrite hex_nibble_digit by lia. simpl. rewrite hex_nibble_digit by lia. simpl. rewrite IH. simpl.
  do 2 f_equal. rewrite nibbles_lor; lia.
Qed.

Lemma decode_hex_pairs_Some l bytes :
  Nat.Even (length l) → decode_hex_pairs l = Some bytes → l = as_bytes (hex_encode bytes).
Proof.
  revert l bytes. fix IH 1. intros [|high [|low rest]] bytes Heven Hok.
  - by injection Hok as <-.
  - apply Nat.even_spec in Heven. done.
  - cbn [decode_hex_pairs] in Hok.
    apply bind_Some in Hok as (h & Hh & Hok). apply bind_Some in Hok as (n & Hn & Hok).
    apply bind_Some in Hok as (decoded & Hdecoded & Hok). injection Hok as <-.
    apply hex_nibble_Some in Hh as [Bh ->], Hn as [Bn ->].
    assert (Nat.Even (length rest)) as Hrest by (destruct Heven as [k Hk]; exists (k - 1)%nat; simpl in Hk; lia).
    rewrite (IH rest decoded Hrest Hdecoded). cbn [hex_encode]. rewrite nibbles_lor by done.
    replace ((16 * h + n) / 16) with h by (apply Z.div_unique with n; lia).
    replace ((16 * h + n) mod 16) with n by (apply Z.mod_unique with h; lia). done.
Qed.

Section Webhook.
Context `{Codecs : !SourceCodecs, Crypto : !SourceCrypto, Sha : !Sha256Spec}.

Lemma hmac_sha256_octets secret body :
  Forall (λ b, 0 ≤ b < 256) (hmac_sha256 secret body) ∧ length (hmac_sha256 secret body) = 32%nat.
Proof. unfold hmac_sha256. split; [apply sha256_octets|apply sha256_length]. Qed.

(** C23: a webhook's signature is accepted exactly when the secret has at least sixteen
    bytes and the header is [sha256=] followed by the sixty-four lower-case hexadecimal
    digits of the HMAC of the body. *)
Theorem webhook_signature_accepted_iff header secret body :
  verify_github_hmac header secret body = Ok tt
  ↔ (16 ≤ length secret)%nat ∧ header = ("sha256=" ++ hex_encode (hmac_sha256 secret body))%string.
Proof.
  destruct (hmac_sha256_octets secret body) as [Hoctets Hlength].
  destruct (hex_encode_valid _ Hoctets) as [Hlen _]. rewrite Hlength in Hlen.
  unfold verify_github_hmac, decode_hex_32. destruct (Nat.ltb_spec (length secret) 16) as [Hs|Hs].
  { split; [done|lia]. }
  split.
  - intros Hok. split; [lia|]. inv_ok.
    match goal with H : str_strip_prefix _ _ = Some _ |- _ => apply str_strip_prefix_Some in H as -> end.
    destruct (Z.eqb_spec (str_len x) 64) as [H64|]; [|done].
    destruct (bool_decide_reflect (hmac_sha256 secret body = x0)) as [->|]; [|done].
    f_equal. apply as_bytes_inj, decode_hex_pairs_Some; [|done].
    rewrite as_bytes_length. unfold str_len in H64. exists 32%nat. lia.
  - intros [_ ->]. rewrite str_strip_prefix_app. simpl. unfold str_len. rewrite Hlen. simpl.
    rewrite decode_hex_pairs_encode by done. simpl. by rewrite bool_decide_true.
Qed.
End Webhook.

(** ** Attestations *)

Section Attestation.
Context `{Codecs : !SourceCodecs, Crypto : !SourceCrypto, CryptoSpec : !SourceCryptoSpec}.

(** an accepted head signed with a key of the keyring is verified until it expires,
    and gives the payload that was signed; from then on it is refused as expired, but its
    binding is still verified by the check that does not look at the time. *)
Theorem signed_head_verifies_until_it_expires keys key_id payload signing_key signed now :
  SignedAcceptedHead_sign key_id payload signing_key = Ok signed →
  keys !! key_id = Some (verifying_key signing_key) →
  verify keys signed now
    = (if now <? ah_expires_at_ms payload then Ok payload else Err Attestation_Expired)
  ∧ verify_live keys signed = Ok payload.
Proof.
  unfold SignedAcceptedHead_sign. intros Hsign Hkey. inv_ok.
  match goal with H : AcceptedHead_canonical_bytes _ = Ok _ |- _ => rename H into Hbytes end.
  repeat match goal with u : () |- _ => destruct u end.
  unfold verify, verify_live, verify_inner. simpl.
  repeat match goal with H : _ = Ok () |- _ => rewrite H; clear H end. simpl.
  rewrite Hkey. simpl. rewrite base64_round_trip by apply signature_octets. simpl. rewrite signature_round_trip. simpl.
  rewrite Hbytes. simpl. rewrite signature_verifies. simpl.
  destruct (Z.ltb_spec now (ah_expires_at_ms payload)), (Z.leb_spec (ah_expires_at_ms payload) now);
    simpl; split; try done; lia.
Qed.
End Attestation.

(** ** The commit graph *)

Section Ancestors.
Context (r : DeterministicSourceRepository) (p : ProjectId).

Definition parent_of (commit parent : GitCommitId) : Prop :=
  dr_parents r !! (p, commit) = Some (Some parent).

(** A step that starts outside [V]. *)
Definition step_outside (V : gset GitCommitId) (commit parent : GitCommitId) : Prop :=
  (commit ∉ V) ∧ parent_of commit parent.

(** The last exit from [c] of a path. *)
Lemma last_exit V c x a :
  rtc (step_outside V) x a →
  rtc (step_outside ({[c]} ∪ V)) x a ∨ ∃ y, parent_of c y ∧ rtc (step_outside ({[c]} ∪ V)) y a.
Proof.
  induction 1 as [|x x' a [HV Hstep] _ [IH|IH]]; [by left| |by right].
  destruct (decide (x = c)) as [->|Hne]; [right; by exists x'|]. left.
  eapply rtc_l; [|exact IH]. split; [set_solver|done].
Qed.

Lemma visited_size (V : gset GitCommitId) :
  (∀ c, c ∈ V → is_Some (dr_parents r !! (p, c))) → (size V ≤ size (dr_parents r))%nat.
Proof.
  intros HV. rewrite <- (size_dom (dr_parents r)).
  assert (pair p <$> elements V ⊆+ elements (dom (dr_parents r))) as Hsub.
  { apply NoDup_submseteq; [apply NoDup_fmap_2; [by intros ? ? [=]|apply NoDup_elements]|].
    intros x (c & -> & Hc)%list_elem_of_fmap. apply elem_of_elements, elem_of_dom, HV.
    by apply elem_of_elements. }
  apply submseteq_length in Hsub. by rewrite length_fmap in Hsub.
Qed.

Lemma ancestor_loop_sound fuel a c V :
  ancestor_loop fuel p a (Some c) V r = Ok true → rtc parent_of c a.
Proof.
  revert c V. induction fuel as [|fuel IH]; intros c V Hok; simpl in Hok; [done|].
  destruct (bool_decide_reflect (c = a)) as [->|_]; [done|].
  destruct (bool_decide (c ∈ V)); [done|].
  apply result_bind_Ok in Hok as (parent & Hparent & Hok). apply ok_or_Ok in Hparent.
  destruct parent as [parent|]; [|by destruct fuel]. eapply rtc_l; [exact Hparent|by eapply IH].
Qed.

Lemma ancestor_loop_complete fuel a c V :
  (∀ c, c ∈ V → is_Some (dr_parents r !! (p, c))) →
  (size (dr_parents r) < fuel + size V)%nat →
  rtc (step_outside V) c a → ancestor_loop fuel p a (Some c) V r = Ok true.
Proof.
  revert c V. induction fuel as [|fuel IH]; intros c V HV Hfuel Hpath.
  { pose proof (visited_size V HV). lia. }
  simpl. destruct (bool_decide_reflect (c = a)) as [->|Hne]; [done|].
  assert (c ∉ V) as Hc by (inversion Hpath as [|? ? ? [? _]]; done).
  rewrite bool_decide_false by done.
  destruct (last_exit V c c a Hpath) as [Hloop|(y & Hy & Hrest)].
  { inversion Hloop as [|? ? ? [? _]]; [done|set_solver]. }
  rewrite Hy. simpl. apply IH; [| |exact Hrest].
  - intros c' [->%elem_of_singleton|Hc']%elem_of_union; [by eexists|by apply HV].
  - rewrite size_union, size_singleton by set_solver. lia.
Qed.

(** More fuel than the graph has commits makes no difference. *)
Lemma ancestor_loop_fuel fuel a cursor V :
  (∀ c, c ∈ V → is_Some (dr_parents r !! (p, c))) →
  (size (dr_parents r) < fuel + size V)%nat →
  ∀ more, ancestor_loop (more + fuel) p a cursor V r = ancestor_loop fuel p a cursor V r.
Proof.
  revert cursor V. induction fuel as [|fuel IH]; intros cursor V HV Hfuel more.
  { pose proof (visited_size V HV). lia. }
  rewrite Nat.add_succ_r. destruct cursor as [c|]; [|done]. simpl.
  destruct (bool_decide_reflect (c = a)); [done|].
  destruct (bool_decide_reflect (c ∈ V)) as [|Hc]; [done|].
  destruct (dr_parents r !! (p, c)) as [parent|] eqn:Hparent; [|done]. simpl. apply IH.
  - intros c' [->%elem_of_singleton|Hc']%elem_of_union; [by rewrite Hparent|by apply HV].
  - rewrite size_union, size_singleton by set_solver. lia.
Qed.
End Ancestors.

(** C24: the walk along the commit graph terminates and is right: its answer does not
    depend on the bound on its iterations (any larger one gives the same), and it answers
    that a commit is an ancestor exactly when the parents lead from the descendant to it,
    also in a graph with a cycle. *)
Theorem ancestor_walk_is_reachability r p ancestor descendant :
  (is_ancestor r p ancestor descendant = Ok true ↔ rtc (parent_of r p) descendant ancestor)
  ∧ ∀ more, ancestor_loop (more + (2 + size (dr_parents r))) p ancestor (Some descendant) ∅ r
            = is_ancestor r p ancestor descendant.
Proof.
  unfold is_ancestor. split; [split|].
  - apply ancestor_loop_sound.
  - intros Hpath. apply ancestor_loop_complete; [set_solver|lia|].
    eapply rtc_subrel; [|exact Hpath]. intros x y Hxy. split; [set_solver|done].
  - apply ancestor_loop_fuel; [set_solver|lia].
Qed.

(** ** The queue of webhooks *)

Definition pending_map (p : ProjectId → bool) (table : gmap Z GithubWakeupRow) : gmap Z GithubWakeupRow :=
  filter (λ entry, negb (wr_completed entry.2) && p (wr_project_id entry.2) = true) table.

Lemma pending_wakeups_size p db :
  pending_wakeups p db = Z.of_nat (size (pending_map p (source_github_wakeups db))).
Proof.
  unfold pending_wakeups, select_rows, pending_map. f_equal.
  rewrite <- length_map_to_list. apply Permutation_length, NoDup_Permutation.
  - apply NoDup_filter, NoDup_map_to_list.
  - apply NoDup_map_to_list.
  - intros [k row]. rewrite list_elem_of_filter, !elem_of_map_to_list, map_lookup_filter_Some. tauto.
Qed.

(** The limits of the queue. *)
Definition queue_bounded (db : SourceDb) : Prop :=
  pending_wakeups (λ _, true) db ≤ MAX_PENDING_WEBHOOKS
  ∧ ∀ p, pending_wakeups (λ q, q == p) db ≤ MAX_PENDING_WEBHOOKS_PER_PROJECT.

Definition keeps_queue (db db' : SourceDb) : Prop := queue_bounded db → queue_bounded db'.

Lemma keeps_queue_shrinks db db' :
  (∀ p, pending_map p (source_github_wakeups db') ⊆ pending_map p (source_github_wakeups db)) →
  keeps_queue db db'.
Proof.
  intros Hsub [Hall Hproject]. rewrite pending_wakeups_size in Hall.
  split; [|intros p; specialize (Hproject p); rewrite pending_wakeups_size in Hproject];
    rewrite pending_wakeups_size;
    (etrans; [|eassumption]); apply Nat2Z.inj_le, map_subseteq_size, Hsub.
Qed.

#[global] Instance keeps_queue_preorder : PreOrder keeps_queue.
Proof. unfold keeps_queue. split; [by intros db|intros db1 db2 db3; tauto]. Qed.

Lemma keeps_queue_same db db' :
  source_github_wakeups db' = source_github_wakeups db → keeps_queue db db'.
Proof. intros Hsame. apply keeps_queue_shrinks. intros p. by rewrite Hsame. Qed.

#[global] Instance keeps_queue_meta : Frees keeps_queue write_meta.
Proof. intros table db. by apply keeps_queue_same. Qed.
#[global] Instance keeps_queue_projects : Frees keeps_queue write_projects.
Proof. intros table db. by apply keeps_queue_same. Qed.
#[global] Instance keeps_queue_heads : Frees keeps_queue write_heads.
Proof. intros table db. by apply keeps_queue_same. Qed.
#[global] Instance keeps_queue_deliveries : Frees keeps_queue write_deliveries.
Proof. intros table db. by apply keeps_queue_same. Qed.
#[global] Instance keeps_queue_journal : Frees keeps_queue write_journal.
Proof. intros table db. by apply keeps_queue_same. Qed.
#[global] Instance keeps_queue_events : Frees keeps_queue write_events.
Proof. intros table db. by apply keeps_queue_same. Qed.
#[global] Instance keeps_queue_tickets : Frees keeps_queue write_tickets.
Proof. intros table db. by apply keeps_queue_same. Qed.
#[global] Instance keeps_queue_outbox : Frees keeps_queue write_outbox.
Proof. intros table db. by apply keeps_queue_same. Qed.

Lemma keeps_queue_delete p : tx_rel keeps_queue (delete_wakeups p).
Proof.
  intros db n db' Hok. unfold delete_wakeups in Hok. repeat inv_ok_step. apply keeps_queue_shrinks.
  intros q. simpl. unfold pending_map. apply map_subseteq_spec. intros k row. rewrite !map_lookup_filter_Some.
  intros [[Hk _] Hrow]. done.
Qed.

Lemma keeps_queue_update p f :
  (∀ row, wr_completed (f row) = true) → tx_rel keeps_queue (update_github_wakeups p f).
Proof.
  intros Hf db n db' Hok. unfold update_github_wakeups in Hok.
  apply tx_bind_Ok in Hok as (table & db1 & Hl & Hok). apply gets_Ok in Hl as [-> ->].
  apply tx_bind_Ok in Hok as ([m table] & db1 & Hl & Hok). apply lift_Ok in Hl as [Htable ->].
  repeat inv_ok_step. destruct (update_table_lookup _ _ _ _ _ _ Htable) as [Hlookup _].
  apply keeps_queue_shrinks. intros q. unfold pending_map. apply map_subseteq_spec. intros k row. simpl.
  rewrite !map_lookup_filter_Some, Hlookup. intros [Hk Hrow]. simpl in *.
  destruct (source_github_wakeups db !! k) as [old|] eqn:Hold; simpl in Hk; [|done].
  destruct (p k old); injection Hk as <-; [|done]. by rewrite Hf in Hrow.
Qed.
Local Hint Resolve keeps_queue_delete : tx_rel.
Local Hint Extern 1 (tx_rel keeps_queue (update_github_wakeups _ _)) =>
  by apply keeps_queue_update : tx_rel.

Section Queue.
Context `{Codecs : !SourceCodecs, Crypto : !SourceCrypto}.

Lemma keeps_queue_prune : tx_rel keeps_queue prune_settled_github_wakeups.
Proof. unfold prune_settled_github_wakeups. tx_steps. Qed.
Local Hint Resolve keeps_queue_prune : tx_rel.

Lemma keeps_queue_insert db row sequence db' :
  wr_completed row = false →
  pending_wakeups (λ _, true) db < MAX_PENDING_WEBHOOKS →
  pending_wakeups (λ q, q == wr_project_id row) db < MAX_PENDING_WEBHOOKS_PER_PROJECT →
  insert_wakeup_row row db = Ok (sequence, db') → keeps_queue db db'.
Proof.
  intros Hpending Hall Hproject Hok [_ Hbounds]. unfold insert_wakeup_row, source_sql in Hok.
  repeat inv_ok_step.
  assert (∀ p, pending_wakeups p (db <| source_github_wakeups :=
            <[next_rowid (source_github_wakeups db) := row]> (source_github_wakeups db) |>)
          ≤ pending_wakeups p db + (if p (wr_project_id row) then 1 else 0)) as Hgrow.
  { intros p. rewrite !pending_wakeups_size. simpl.
    set (k := next_rowid _). set (table := source_github_wakeups db).
    assert (pending_map p (<[k := row]> table)
            ⊆ if p (wr_project_id row) then <[k := row]> (pending_map p table) else pending_map p table) as Hsub.
    { unfold pending_map. apply map_subseteq_spec. intros i x. rewrite map_lookup_filter_Some.
      intros [[[<- <-]|[Hne Hi]]%lookup_insert_Some Hx]; simpl in Hx.
      - bool_prop. destruct Hx as [_ ->]. apply lookup_insert_eq.
      - destruct (p (wr_project_id row)); [rewrite lookup_insert_ne by done|]; by apply map_lookup_filter_Some. }
    apply map_subseteq_size in Hsub. destruct (p (wr_project_id row)); [|lia].
    rewrite map_size_insert in Hsub. destruct (pending_map p table !! k); simpl in Hsub; lia. }
  split.
  - etrans; [apply Hgrow|]. simpl. lia.
  - intros p. etrans; [apply Hgrow|]. specialize (Hbounds p). cbv beta.
    destruct (bool_decide_reflect (wr_project_id row = p)) as [<-|]; lia.
Qed.

Lemma keeps_queue_enqueue epoch p id digest head name now :
  tx_rel keeps_queue (enqueue_github_wakeup epoch p id digest head name now).
Proof.
  intros db a db' Hok. unfold enqueue_github_wakeup in Hok.
  apply tx_bind_Ok in Hok as (u & db1 & Hepoch & Hok). apply (frame_epoch eq) in Hepoch as <-.
  apply tx_bind_Ok in Hok as (stored & db1 & Hl & Hok). apply gets_Ok in Hl as [_ ->].
  destruct stored as [[sequence row]|].
  { refine ((_ : tx_rel keeps_queue _) _ _ _ Hok). tx_steps. }
  apply tx_bind_Ok in Hok as (delivery & db1 & Hl & Hok). apply gets_Ok in Hl as [_ ->].
  apply tx_bind_Ok in Hok as (u1 & db1 & Hl & Hok). apply lift_Ok in Hl as [_ ->].
  apply tx_bind_Ok in Hok as (all & db1 & Hl & Hok). apply gets_Ok in Hl as [-> ->].
  apply tx_bind_Ok in Hok as (project & db1 & Hl & Hok). apply gets_Ok in Hl as [-> ->].
  destruct (_ || _) eqn:Hfull; [done|]. bool_prop. destruct Hfull as [Hall Hproject].
  apply tx_bind_Ok in Hok as (sequence & db1 & Hinsert & Hok).
  etrans; [eapply keeps_queue_insert; [| | |exact Hinsert]; [done|exact Hall|exact Hproject]|]. refine ((_ : tx_rel keeps_queue _) _ _ _ Hok). tx_steps.
Qed.

#[global] Instance keeps_queue_respects : Respects keeps_queue.
Proof.
  split; [apply _|..].
  - intros A body Hbody. destruct Hbody; try (eauto with tx_rel typeclass_instances; fail).
    + apply keeps_queue_enqueue.
    + unfold complete_github_wakeup. tx_steps.
    + unfold reconcile_github_wakeup_policy. tx_steps.
  - intros. eauto with tx_rel typeclass_instances.
  - intros. eauto with tx_rel typeclass_instances.
  - intros. eauto with tx_rel typeclass_instances.
  - intros. eauto with tx_rel typeclass_instances.
Qed.

Context {R : Type} `{!SourceRepository R, !SourceRepositoryLaws R}.
Context `{!Json OperationRecord, !Json OperationTransition}.

(** C25: the queue of webhooks stays within its limits in every history that began with
    an empty database: at most 2048 are pending, and at most 128 of one project. *)
Theorem webhook_queue_stays_bounded (r : R) w :
  source_history (MkWorld new_source_db r) w → queue_bounded (w_db w).
Proof.
  intros Hhistory. eapply (history_respects keeps_queue new_source_db); [exact Hhistory|by intros ?|].
  split; [done|]. by intros p.
Qed.
End Queue.
