(* ===== verification/SourceSamples.v ===== *)
(** * The source broker: witnesses

    A run of a broker with every call evaluated: it starts, accepts the remote's head,
    accepts a direct push, admits and completes a mutation, refuses a push that diverges,
    and is replaced by another broker.  The codecs write a document's fields as binary
    digits and read them back; the checksum and the signatures are toys of the right
    shape. *)

From Stdlib Require Import ZArith Lia Ascii String.
From stdpp Require Import base gmap strings pretty option list_numbers list relations.
From S2P Require Import Prelude TxLogic Identifiers States Text Ordered Operation Workflow Errors Controller ControllerSpec SourceDb Source SourceRepository SourceBroker SourceIngress SourceLogic SourceHistory SourceInvariant SourceConsistency SourceSpec SourceIngressSpec.

Local Open Scope Z_scope.

Module SourceSample.

#[local] Instance json_operation : Json OperationRecord := Sample.json_record.
#[local] Instance json_move : Json OperationTransition := Sample.json_transition.

(** ** Codecs *)

Fixpoint bits (p : positive) : list Z :=
  match p with xH => [46] | xO p => 48 :: bits p | xI p => 49 :: bits p end.

Fixpoint of_bits (l : list Z) : option positive :=
  match l with
  | [] => None
  | b :: r => if b =? 46 then Some xH else if b =? 48 then xO <$> of_bits r else xI <$> of_bits r
  end.

Lemma of_bits_bits p : of_bits (bits p) = Some p.
Proof. by induction p as [p IH|p IH|]; simpl; rewrite ?IH. Qed.

(** A document is written as the list of its fields. *)
Definition write_fields (fields : list positive) : list Z := bits (positives_flatten fields).
Definition read_fields (bytes : list Z) : option (list positive) := of_bits bytes ≫= positives_unflatten.

Lemma read_write_fields fields : read_fields (write_fields fields) = Some fields.
Proof. unfold read_fields, write_fields. rewrite of_bits_bits. simpl. apply positives_unflatten_flatten. Qed.

Definition head_fields (h : AcceptedHeadV1) : list positive :=
  [encode (ah_schema_version h); encode (ah_project_id h); encode (ah_head h); encode (ah_sequence h);
   encode (ah_previous_head h); encode (ah_accepted_via h); encode (ah_repository_identity h);
   encode (ip_digest (ah_installed_policy h)); encode (ip_version (ah_installed_policy h));
   encode (ah_accepted_at_ms h); encode (ah_expires_at_ms h)].

Definition head_of (fields : list positive) : option AcceptedHeadV1 :=
  match fields with
  | [a; b; c; d; e; f; g; h; i; j; k] =>
      a ← decode a; b ← decode b; c ← decode c; d ← decode d; e ← decode e; f ← decode f;
      g ← decode g; h ← decode h; i ← decode i; j ← decode j; k ← decode k;
      Some (MkAcceptedHeadV1 a b c d e f g (MkInstalledPolicyIdentity h i) j k)
  | _ => None
  end.

Lemma head_of_fields h : head_of (head_fields h) = Some h.
Proof.
  destruct h as [? ? ? ? ? ? ? [? ?] ? ?]. unfold head_of, head_fields.
  by rewrite !decode_encode.
Qed.

Definition signed_fields (s : SignedAcceptedHeadV1) : list positive :=
  encode (sah_key_id s) :: encode (sah_signature s) :: head_fields (sah_payload s).

Definition signed_of (fields : list positive) : option SignedAcceptedHeadV1 :=
  match fields with
  | key :: signature :: rest =>
      key ← decode key; signature ← decode signature; payload ← head_of rest;
      Some (MkSignedAcceptedHeadV1 key payload signature)
  | _ => None
  end.

Lemma signed_of_fields s : signed_of (signed_fields s) = Some s.
Proof.
  destruct s. unfold signed_of, signed_fields. by rewrite !decode_encode, head_of_fields.
Qed.

Definition outcome_fields (o : SourceIngressOutcome) : list positive :=
  match o with
  | Ingress_Deployable d =>
      1%positive :: encode (vsd_channel d) :: encode (vsd_delivery_id d) :: encode (vsd_payload_digest d)
      :: encode (vsd_attestation_digest d) :: signed_fields (vsd_attestation d)
  | Ingress_StaleNoop head => [2%positive; encode head]
  | Ingress_IgnoredRef => [3%positive]
  | Ingress_SourceDivergedNeedsOwner => [4%positive]
  | Ingress_ReconciliationPaused => [5%positive]
  | Ingress_BlockedSha head => [6%positive; encode head]
  end.

Definition outcome_of (fields : list positive) : option SourceIngressOutcome :=
  match fields with
  | 1%positive :: channel :: id :: payload :: digest :: rest =>
      channel ← decode channel; id ← decode id; payload ← decode payload; digest ← decode digest;
      signed ← signed_of rest;
      Some (Ingress_Deployable (MkVerifiedSourceDelivery channel id payload signed digest))
  | [2%positive; head] => Ingress_StaleNoop <$> decode head
  | [3%positive] => Some Ingress_IgnoredRef
  | [4%positive] => Some Ingress_SourceDivergedNeedsOwner
  | [5%positive] => Some Ingress_ReconciliationPaused
  | [6%positive; head] => Ingress_BlockedSha <$> decode head
  | _ => None
  end.

Lemma outcome_of_fields o : outcome_of (outcome_fields o) = Some o.
Proof.
  destruct o as [[channel id payload signed digest]| | | | |]; try done; unfold outcome_fields.
  - unfold outcome_of. by rewrite !decode_encode, signed_of_fields.
  - unfold outcome_of. by rewrite decode_encode.
  - unfold outcome_of. by rewrite decode_encode.
Qed.

(** A checksum of 32 bytes. *)
Definition checksum (v : list Z) : Z :=
  foldl (λ acc b, Z.land (acc * 65599 + b + 1) 1099511627775) 7 v.

#[local] Instance sha : Sha256 := λ v,
  let c := checksum v in ((λ i, c / 256 ^ Z.of_nat i mod 256) <$> seq 0 5) ++ replicate 27 0.

#[local] Instance sha_spec : Sha256Spec.
Proof.
  split; intros v; unfold sha256_raw, sha; [by rewrite length_app, length_fmap|].
  apply Forall_app. split; [|by repeat constructor]. apply Forall_fmap, Forall_forall. intros i _.
  apply Z.mod_pos_bound. lia.
Qed.

Definition from_fields {A} (f : list positive → option A) (bytes : list Z) : Result SerdeError A :=
  ok_or MkSerdeError (read_fields bytes ≫= f).

Lemma from_fields_write {A} (f : list positive → option A) fields :
  from_fields f (write_fields fields) = ok_or MkSerdeError (f fields).
Proof. unfold from_fields. by rewrite read_write_fields. Qed.

#[local] Instance codecs : SourceCodecs := {|
  source_sha := sha;
  source_head_jcs h := Ok (write_fields (head_fields h));
  source_signed_jcs s := Ok (write_fields (signed_fields s));
  source_proof_jcs p := Ok (as_bytes (sgpp_purpose p));
  signed_to_string s := Ok (write_fields (signed_fields s));
  source_signed_slice := from_fields signed_of;
  outcome_to_string o := Ok (write_fields (outcome_fields o));
  source_outcome_slice := from_fields outcome_of;
  source_push_slice := from_fields (λ fields,
    match fields with
    | [git_ref; after; name] =>
        git_ref ← decode git_ref; after ← decode after; name ← decode name;
        Some (MkGithubPushPayload git_ref after name)
    | _ => None
    end)
|}.

#[local] Instance codecs_spec : SourceCodecsSpec.
Proof.
  split.
  - intros signed text [= <-]. change (from_fields signed_of (write_fields (signed_fields signed)) = Ok signed).
    by rewrite from_fields_write, signed_of_fields.
  - intros signed text [= <-]. change (from_fields signed_of (write_fields (signed_fields signed)) = Ok signed).
    by rewrite from_fields_write, signed_of_fields.
  - intros o text [= <-]. change (from_fields outcome_of (write_fields (outcome_fields o)) = Ok o).
    by rewrite from_fields_write, outcome_of_fields.
Qed.

Definition octet (b : Z) : ascii := ascii_of_N (Z.to_N b).

#[local] Instance crypto : SourceCrypto := {|
  SigningKey := Z; VerifyingKey := Z;
  verifying_key key := key;
  sign_bytes key message := [key mod 256; checksum message mod 256];
  signature_from_slice bytes := Some bytes;
  verify_strict key message signature := signature == [key mod 256; checksum message mod 256];
  base64_encode bytes := String.string_of_list_ascii (octet <$> bytes);
  base64_decode text := Some (as_bytes text)
|}.

#[local] Instance crypto_spec : SourceCryptoSpec.
Proof.
  split; simpl.
  - intros bytes Hb. f_equal. unfold as_bytes. rewrite String.list_ascii_of_string_of_list_ascii, <- list_fmap_compose.
    rewrite <- (list_fmap_id bytes) at 2. apply Forall_fmap_ext_1. eapply Forall_impl; [exact Hb|].
    intros b Hrange. cbv beta in Hrange. unfold octet, byte_of_ascii, compose, id.
    rewrite N_ascii_embedding; [by apply Z2N.id; lia|]. apply N2Z.inj_lt. rewrite Z2N.id; lia.
  - intros key message. repeat constructor; by apply Z.mod_pos_bound.
  - done.
  - intros key message. by rewrite bool_decide_true.
Qed.

(** ** The run *)

Definition project : ProjectId := MkProjectId "site".
Definition commit_a : GitCommitId := MkGitCommitId "aaaaaaaaaaaaaaaaaaaaaaaaaaaaaaaaaaaaaaaa".
Definition commit_b : GitCommitId := MkGitCommitId "bbbbbbbbbbbbbbbbbbbbbbbbbbbbbbbbbbbbbbbb".
Definition commit_c : GitCommitId := MkGitCommitId "cccccccccccccccccccccccccccccccccccccccc".
Definition identity : EvidenceDigest := EvidenceDigest_sha256 (as_bytes "repository").
Definition installed : InstalledPolicyIdentity :=
  MkInstalledPolicyIdentity (EvidenceDigest_sha256 (as_bytes "policy")) 1.

(** [b] and [c] are children of [a]; the remote is at [a]. *)
Definition repository : DeterministicSourceRepository :=
  (set_remote_head project commit_a
     (insert_commit project commit_a None
        (insert_commit project commit_b (Some commit_a)
           (insert_commit project commit_c (Some commit_a)
              (set_repository_identity project identity DeterministicSourceRepository_default))))).1.

Definition installed_policy : InstalledSourceProjectPolicy := {|
  isp_project_id := project; isp_repository_identity := identity;
  isp_github_repository := "acme/site"; isp_installed_policy := installed; isp_auto_deploy := true;
  isp_maximum_attempts := 3; isp_release_class := Class_CodeOnlyCompatible |}.

Definition key : SigningKey := 42.
Definition lock : Result SourceError unit := Ok tt.
Abbreviation world := (World DeterministicSourceRepository).

Definition start (now : Z) (w : world) : list world * (world * Result SourceError DurableSourceBroker) :=
  new_broker lock "key-1" key 600000 [installed_policy] lock now w.

(** The result of a call that succeeds, and another value otherwise. *)
Definition result_or {E A} (spare : A) (r : Result E A) : A :=
  match r with Ok a => a | Err _ => spare end.

Lemma call_result {E A} (spare : A) (r : list world * (world * Result E A)) :
  is_ok r.2.2 = true → r = (r.1, (r.2.1, Ok (result_or spare r.2.2))).
Proof. destruct r as [trace [w [a|e]]]; done. Qed.

Definition spare_broker : DurableSourceBroker := {|
  br_bound_epoch := 0; br_lease_epoch := 0; br_key_id := ""; br_signing_key := 0 : SigningKey;
  br_verifier := ∅; br_attestation_ttl_ms := 0; br_policies := ∅ |}.

Definition w0 : world := MkWorld new_source_db repository.
Definition broker : DurableSourceBroker := result_or spare_broker (start 1000 w0).2.2.
Definition push (delivery : string) (old : option GitCommitId) (new : GitCommitId) (now : Z) (w : world) :=
  process_direct_push lock broker project delivery "refs/heads/main" old new now 7%N w.
Definition after (request : SourceRequest) (w : world) : world := (perform lock broker request w).2.1.
Definition push_request (delivery : string) (old : option GitCommitId) (new : GitCommitId) (now : Z)
    : SourceRequest := Request_process_direct_push project delivery "refs/heads/main" old new now 7%N.
Definition resolve (evidence : EvidenceDigest) (now : Z) (w : world) :=
  resolve_divergence_keep_canonical lock broker project (Some commit_b) evidence now w.

Definition w1 : world := (start 1000 w0).2.1.
Definition w2 : world := after (Request_reconcile_remote_main project 2000 5%N) w1.
Definition w3 : world := after (push_request "push-1" (Some commit_a) commit_b 3000) w2.

Example started : is_ok (start 1000 w0).2.2 = true ∧ br_lease_epoch broker = 1.
Proof. by vm_compute. Qed.

Example reconciled :
  project_head (w_db w2) project = Some commit_a ∧ accepted_ref (w_repository w2) project = Some commit_a.
Proof. by vm_compute. Qed.

Example pushed :
  project_head (w_db w3) project = Some commit_b ∧ project_sequence (w_db w3) project = 2.
Proof. by vm_compute. Qed.

(** ** A mutation of the accepted head *)

Definition deployment : OperationRecord :=
  MkOperationRecord 1 1 2 1 project Kind_Deploy (Some commit_b) (Some Class_CodeOnlyCompatible)
    (MkOperationState Phase_Draining Result_Running Blocking_None) (Actor_Automation Operation.Source_DirectPush)
    (OperationEvidence_default
       <| ev_installed_policy := Some installed |>
       <| ev_source_attestation_digest := project_digest (w_db w3) project |>
       <| ev_source_sequence := Some 2 |>) None 0 0.

Definition spare_proof : SourceGateProof := MkSourceGateProof identity project 0 identity 0.
Definition admission := check_live lock broker deployment 4000 w3.
Definition w4 : world := after (Request_check_live deployment 4000) w3.
Definition w5 : world := after (Request_complete_live deployment) w4.

(** ** Pushes that diverge *)

Definition evidence : EvidenceDigest :=
  direct_push_digest "refs/heads/main" (Some commit_b) commit_c project.
Definition w6 : world := after (push_request "push-2" (Some commit_b) commit_c 5000) w5.
Definition w7 : world :=
  after (Request_resolve_divergence project (Some commit_b) evidence 6000) w6.
Definition w8 : world := after (push_request "push-3" (Some commit_b) commit_c 7000) w7.

(** The world a crash in the first push leaves, after the reference was moved and before
    that was recorded. *)
Definition crashed : world := 
  nth 2 (perform lock broker (push_request "push-1" (Some commit_a) commit_b 3000) w2).1 w2.

Section Reachable.
Lemma reachable_request (w : world) lock_trusted b request w' :
  source_reachable w → w' ∈ left_behind (perform lock_trusted b request w) → source_reachable w'.
Proof.
  intros (r & Hr & Hhistory) Hin. exists r. split; [done|]. eapply rtc_r; [exact Hhistory|].
  by eapply step_request.
Qed.

Lemma reachable_after request (w : world) : source_reachable w → source_reachable (after request w).
Proof.
  intros Hw. eapply reachable_request; [exact Hw|]. apply elem_of_app. right.
  by apply list_elem_of_singleton.
Qed.

Lemma history_after request (w : world) : source_history w (after request w).
Proof.
  apply rtc_once, (step_request lock broker request). apply elem_of_app. right.
  by apply list_elem_of_singleton.
Qed.

Lemma reachable_w1 : source_reachable w1.
Proof.
  exists repository. split; [by vm_compute|]. apply rtc_once. eapply step_start.
  apply elem_of_app. right. by apply list_elem_of_singleton.
Qed.

Lemma reachable_w2 : source_reachable w2.
Proof. apply reachable_after, reachable_w1. Qed.

Lemma reachable_w3 : source_reachable w3.
Proof. apply reachable_after, reachable_w2. Qed.

Lemma reachable_w4 : source_reachable w4.
Proof. apply reachable_after, reachable_w3. Qed.

Lemma reachable_crashed : source_reachable crashed.
Proof.
  eapply reachable_request; [apply reachable_w2|]. apply elem_of_app. left.
  apply list_elem_of_In, nth_In. apply Nat.ltb_lt. vm_compute. reflexivity.
Qed.
End Reachable.

Example admitted : is_ok admission.2.2 = true ∧ is_some (source_mutation_tickets (w_db w4) !! project) = true
  ∧ source_mutation_tickets (w_db w5) !! project = None.
Proof. by vm_compute. Qed.

Example diverged : project_diverged (w_db w6) project ∧ project_diverged (w_db w8) project.
Proof. by vm_compute. Qed.

Example not_resolved : (resolve evidence 8000 w8).2.2 = Err (Source_CorruptLedger "divergence audit event").
Proof. by vm_compute. Qed.

(** ** Witnesses *)

Lemma crash_leaves_a_consistent_reference_witness :
  (is_some (source_ref_update_journal (w_db crashed) !! project) = true
   ∧ project_head (w_db crashed) project = Some commit_a
   ∧ accepted_ref (w_repository crashed) project = Some commit_b)
  ∧ reference_consistent (w_db crashed) project (accepted_ref (w_repository crashed) project).
Proof. split; [by vm_compute|]. apply crash_leaves_a_consistent_reference, reachable_crashed. Defined.

Lemma accepted_heads_form_a_chain_witness :
  project_sequence (w_db w3) project = 2
  ∧ ∀ n, is_Some (accepted_heads (w_db w3) !! (project, n)) ↔ 1 ≤ n ≤ project_sequence (w_db w3) project.
Proof. split; [by vm_compute|]. apply (accepted_heads_form_a_chain w3 project reachable_w3). Defined.

(** While the ticket is held, the remote is reconciled again. *)
Definition w4' : world := after (Request_reconcile_remote_main project 4500 9%N) w4.
Definition spare_ticket : MutationTicketRow := MkMutationTicketRow 0 Phase_Draining 0 identity 0.
Definition ticket (w : world) : MutationTicketRow :=
  default spare_ticket (source_mutation_tickets (w_db w) !! project).

Lemma ticket_held (w : world) :
  is_some (source_mutation_tickets (w_db w) !! project) = true →
  source_mutation_tickets (w_db w) !! project = Some (ticket w).
Proof. unfold ticket. by destruct (source_mutation_tickets (w_db w) !! project). Qed.

Lemma ticket_pins_the_accepted_head_witness :
  project_head (w_db w4) project = Some commit_b
  ∧ project_head (w_db w4') project = project_head (w_db w4) project
  ∧ project_digest (w_db w4') project = Some (mt_attestation_digest (ticket w4))
  ∧ source_ref_update_journal (w_db w4') !! project = None
  ∧ (project_diverged (w_db w4') project
     ∨ accepted_ref (w_repository w4') project = project_head (w_db w4) project).
Proof.
  split; [by vm_compute|].
  apply (ticket_pins_the_accepted_head w4 w4' project (ticket w4) (ticket w4') reachable_w4 (history_after _ _)).
  - apply ticket_held. by vm_compute.
  - apply ticket_held. by vm_compute.
  - by vm_compute.
Defined.

Lemma start_settles_every_project_witness :
  project_head (w_db (start 9000 crashed).2.1) project = Some commit_b
  ∧ settled project (start 9000 crashed).2.1 ∧ ledger_ok (w_db (start 9000 crashed).2.1).
Proof.
  split; [by vm_compute|].
  apply (start_settles_every_project lock "key-1" key 600000 [installed_policy] lock 9000 crashed
           (result_or spare_broker (start 9000 crashed).2.2) _ (start 9000 crashed).1 installed_policy).
  - apply (reachable_ok crashed reachable_crashed).
  - apply call_result. by vm_compute.
  - by apply list_elem_of_singleton.
Defined.

Lemma start_fences_the_previous_broker_witness :
  source_meta (w_db w3) !! "broker_epoch"%string = Some (br_lease_epoch broker)
  ∧ let w := (start 9000 w3).2.1 in
    perform lock broker (push_request "push-9" (Some commit_b) commit_c 9500) w = ([], (w, false)).
Proof.
  assert (source_meta (w_db w3) !! "broker_epoch"%string = Some (br_lease_epoch broker)) as Hmeta
    by by vm_compute.
  split; [exact Hmeta|]. cbv zeta.
  apply (start_fences_the_previous_broker lock "key-1" key 600000 [installed_policy] lock 9000 w3
           (start 9000 w3).1 (start 9000 w3).2.1 (result_or spare_broker (start 9000 w3).2.2)).
  - exact Hmeta.
  - apply call_result. by vm_compute.
  - apply rtc_refl.
Defined.

(** The push of the second commit, sent at a given time. *)
Abbreviation delivered now w := (process_direct_push lock broker project "push-1" "refs/heads/main"
  (Some commit_a) commit_b now 7%N w) (only parsing).

Lemma first_push_answered : is_ok (delivered 3000 w2).2.2 = true.
Proof. by vm_compute. Qed.

Lemma second_push_answered : is_ok (delivered 3600 (delivered 3000 w2).2.1).2.2 = true.
Proof. by vm_compute. Qed.

Lemma redelivered_push_repeats_its_outcome_witness :
  result_or Ingress_IgnoredRef (delivered 3600 (delivered 3000 w2).2.1).2.2
    = result_or Ingress_IgnoredRef (delivered 3000 w2).2.2
  ∧ (delivered 3600 (delivered 3000 w2).2.1).2.1 = (delivered 3000 w2).2.1.
Proof.
  assert (∀ w first second, delivered 3000 w = first → delivered 3600 first.2.1 = second →
    is_ok first.2.2 = true → is_ok second.2.2 = true →
    result_or Ingress_IgnoredRef second.2.2 = result_or Ingress_IgnoredRef first.2.2
    ∧ second.2.1 = first.2.1) as Hany.
  { clear. intros w [trace1 [w1 [outcome1|]]] [trace2 [w1' [outcome2|]]] H1 H2 Ho1 Ho2; [|discriminate..].
    exact (redelivered_push_repeats_its_outcome _ _ _ _ _ _ _ _ _ _ _ _ _ _ _ _ _ _ _ _ _ H1 (rtc_refl _ _) H2). }
  exact (Hany w2 (delivered 3000 w2) (delivered 3600 (delivered 3000 w2).2.1) eq_refl eq_refl
           first_push_answered second_push_answered).
Defined.

Lemma live_gate_admits_only_the_accepted_head_witness :
  ∃ target ticket row, op_target_commit deployment = Some target
    ∧ project_head (w_db admission.2.1) project = Some target
    ∧ source_projects (w_db admission.2.1) !! project = Some row
    ∧ source_mutation_tickets (w_db admission.2.1) !! project = Some ticket
    ∧ mt_source_sequence ticket = sp_sequence row.
Proof.
  destruct (live_gate_admits_only_the_accepted_head lock broker deployment 4000 w3 admission.1 admission.2.1
    (result_or spare_proof admission.2.2) eq_refl) as (target & t & row & H1 & H2 & _ & _ & H3 & _ & _ & _ & _ & _ & H4 & _ & H5 & _).
  - apply (call_result spare_proof admission). by vm_compute.
  - exists target, t, row. split_and!; assumption.
Defined.

Lemma resolved_w7 : events_resolved project (w_db w7).
Proof.
  assert (map_Forall (λ _ row, is_Some (de_resolved_at_ms row)) (source_divergence_events (w_db w7))) as Hall.
  { apply (bool_decide_unpack _). vm_compute. exact I. }
  intros digest row Hrow. by apply (Hall (project, digest)).
Qed.

Lemma repeated_divergence_cannot_be_resolved_witness :
  (project_diverged (w_db w8) project
   ∧ (resolve evidence 8000 w8).2.2 = Err (Source_CorruptLedger "divergence audit event"))
  ∧ ∃ u db, mark_diverged 1 project commit_c Source_DirectPush evidence 7000 (w_db w7) = Ok (u, db)
    ∧ project_diverged db project
    ∧ ∃ trace e, resolve evidence 8000 (MkWorld db repository) = (trace, (MkWorld db repository, Err e)).
Proof.
  split; [by vm_compute|].
  destruct (mark_diverged 1 project commit_c Source_DirectPush evidence 7000 (w_db w7)) as [[u db]|e] eqn:Hok.
  2: { assert (is_ok (mark_diverged 1 project commit_c Source_DirectPush evidence 7000 (w_db w7)) = true) as Hc
         by by vm_compute. rewrite Hok in Hc. discriminate Hc. }
  exists u, db. split; [reflexivity|].
  apply (repeated_divergence_cannot_be_resolved 1 project commit_c Source_DirectPush evidence 7000 (w_db w7) u db
           repository lock broker (Some commit_b) evidence 8000 resolved_w7).
  - apply is_some_is_Some. by vm_compute.
  - exact Hok.
Defined.

Lemma webhook_signature_accepted_iff_witness :
  let secret := as_bytes "0123456789abcdef" in
  verify_github_hmac ("sha256=" ++ hex_encode (hmac_sha256 secret [1; 2])) secret [1; 2] = Ok tt.
Proof.
  cbv zeta. apply (webhook_signature_accepted_iff). split; [by vm_compute; lia|reflexivity].
Defined.

Definition sample_head : AcceptedHeadV1 :=
  MkAcceptedHeadV1 1 project commit_a 1 None Source_DirectPush identity installed 1000 2000.
Definition sample_signed : SignedAcceptedHeadV1 :=
  result_or (MkSignedAcceptedHeadV1 "" sample_head "") (SignedAcceptedHead_sign "key-1" sample_head key).

Lemma signed_head_verifies_until_it_expires_witness :
  verify {["key-1"%string := verifying_key key]} sample_signed 1500 = Ok sample_head
  ∧ verify_live {["key-1"%string := verifying_key key]} sample_signed = Ok sample_head.
Proof.
  apply (signed_head_verifies_until_it_expires {["key-1"%string := verifying_key key]} "key-1" sample_head key sample_signed 1500).
  - unfold sample_signed. destruct (SignedAcceptedHead_sign "key-1" sample_head key) eqn:E; [reflexivity|].
    assert (is_ok (SignedAcceptedHead_sign "key-1" sample_head key) = true) as Hc by by vm_compute.
    rewrite E in Hc. discriminate Hc.
  - reflexivity.
Defined.

(** The push that diverged leaves a project whose controls cannot be changed. *)
Example diverged_controls :
  project_diverged (w_db w6) project
  ∧ store_set_controls 1 project None (Some 9000) 5500 (w_db w6) = Err (Source_Sqlite CheckViolation).
Proof. by vm_compute. Qed.

(** A webhook that announces [b] is queued after the first start. *)
Definition announcement : list Z :=
  write_fields [encode "refs/heads/main"%string; encode "bbbbbbbbbbbbbbbbbbbbbbbbbbbbbbbbbbbbbbbb"%string; encode "acme/site"%string].
Definition secret : list Z := as_bytes "0123456789abcdef".
Definition w1' : world :=
  after (Request_enqueue_github_push project "hook-1" ("sha256=" ++ hex_encode (hmac_sha256 secret announcement))
           secret announcement 1500) w1.

Lemma webhook_queue_stays_bounded_witness :
  pending_wakeups (λ _, true) (w_db w1') = 1 ∧ queue_bounded (w_db w1').
Proof.
  split; [by vm_compute|].
  apply (webhook_queue_stays_bounded repository w1'). eapply rtc_l; [|apply (history_after _ w1)].
  eapply step_start. apply elem_of_app. right. by apply list_elem_of_singleton.
Defined.
End SourceSample.
