(* ===== verification/Steps.v ===== *)
(** * Calls that act on several stores

    A call of the executor reads and writes two databases, asks the source gate and acts
    on the outside world.  [Run] is a call as the code composes it: the steps it made,
    each with what it was and the worlds before and after, the last world and the
    result.  A process can stop after any step; the steps are what it leaves behind. *)

From Stdlib Require Import ZArith.
From stdpp Require Import base list.
From S2P Require Import Prelude.

(** One step: the world before, what was done, the world after. *)
Record Step (W Ev : Type) : Type := MkStep {
  st_before : W;
  st_event : Ev;
  st_after : W
}.
Arguments MkStep {W Ev}.
Arguments st_before {W Ev}.
Arguments st_event {W Ev}.
Arguments st_after {W Ev}.

Definition Run (W Ev E A : Type) : Type := W → list (Step W Ev) * (W * Result E A).

#[global] Instance run_ret W Ev E : MRet (Run W Ev E) := λ A a w, ([], (w, Ok a)).
#[global] Instance run_bind W Ev E : MBind (Run W Ev E) := λ A B f m w,
  match m w with
  | (steps, (w', Ok a)) => let '(steps', last) := f a w' in (steps ++ steps', last)
  | (steps, (w', Err e)) => (steps, (w', Err e))
  end.

Section Run.
Context {W Ev E A : Type}.

Definition run_ok (a : A) : Run W Ev E A := λ w, ([], (w, Ok a)).
Definition run_err (e : E) : Run W Ev E A := λ w, ([], (w, Err e)).
Definition run_lift (r : Result E A) : Run W Ev E A := λ w, ([], (w, r)).

(** A read, and a write of memory that a stop of the process loses. *)
Definition run_read (f : W → Result E A) : Run W Ev E A := λ w, ([], (w, f w)).
Definition run_memory (f : W → W) (a : A) : Run W Ev E A := λ w, ([], (f w, Ok a)).

(** A step. *)
Definition run_step (ev : Ev) (f : W → W * Result E A) : Run W Ev E A := λ w,
  let '(w', r) := f w in ([MkStep w ev w'], (w', r)).

(** [map_err], and the result as a value for a [match]. *)
Definition run_map_err {F} (f : E → F) (m : Run W Ev E A) : Run W Ev F A := λ w,
  let '(steps, (w', r)) := m w in (steps, (w', map_err f r)).
Definition run_result {F} (m : Run W Ev E A) : Run W Ev F (Result E A) := λ w,
  let '(steps, (w', r)) := m w in (steps, (w', Ok r)).
End Run.

Fixpoint run_for_each {W Ev E A} (f : A → Run W Ev E unit) (l : list A) : Run W Ev E unit :=
  match l with
  | [] => run_ok tt
  | x :: r => let? _ := f x in run_for_each f r
  end.
