(* ===== verification/ExecutorBase.v ===== *)
(** * The executor: intents and the outside world

    Data of [src/src/executor.rs]: the intent of a phase with the digest that binds it,
    the evidence of an effect, the traits of the outside world and of the source gate,
    the rules that say which phase needs which resource and which check, and the world
    in which the executor and the coordinator act. *)

From Stdlib Require Import ZArith Lia Ascii String.
From stdpp Require Import base gmap strings option list_numbers list.
From S2P Require Import Prelude Steps Identifiers States Text Failure Operation Errors Budget Controller.
From S2P Require Import SecurityDb Resources Fences Ordered PhaseJournal SourceDb.

Local Open Scope Z_scope.
Local Open Scope rust_scope.

(** ** Data *)

Record PhaseIntentPayloadV1 : Type := MkPhaseIntentPayloadV1 {
  pip_purpose : string;
  pip_attempt_id : Uuid;
  pip_request_id : Uuid;
  pip_project_id : ProjectId;
  pip_operation_kind : OperationKind;
  pip_release_class : option ReleaseClass;
  pip_target_commit : option GitCommitId;
  pip_phase : OperationPhase;
  pip_branch : ExecutorPhaseBranch;
  pip_installed_policy : option InstalledPolicyIdentity;
  pip_authorized_phase_spec_digests : list AuthorizedPhaseSpecDigestV1;
  pip_executor_authorization_digest : EvidenceDigest;
  pip_source_attestation_digest : option EvidenceDigest;
  pip_source_sequence : option Z;
  pip_source_gate_proof_digest : option EvidenceDigest;
  pip_drain_evidence_digest : option EvidenceDigest;
  pip_source_export_digest : option EvidenceDigest;
  pip_prefetch_evidence_digest : option EvidenceDigest;
  pip_ci_evidence_digest : option EvidenceDigest;
  pip_build_plan_digest : option EvidenceDigest;
  pip_deployment_plan_digest : option EvidenceDigest;
  pip_release_bundle_digest : option EvidenceDigest;
  pip_resource_reservation_digest : option EvidenceDigest;
  pip_action_grant_digest : option EvidenceDigest;
  pip_build_context_digest : option EvidenceDigest;
  pip_generated_output_digests : list EvidenceDigest;
  pip_image_digest : option EvidenceDigest;
  pip_image_id_digest : option EvidenceDigest;
  pip_base_image_digests : list EvidenceDigest;
  pip_schema_version : option string;
  pip_backup_id : option Uuid;
  pip_backup_set_id : option Uuid;
  pip_base_backup_id : option Uuid;
  pip_base_backup_manifest_digest : option EvidenceDigest;
  pip_base_backup_evidence_digest : option EvidenceDigest;
  pip_base_backup_offsite_evidence_digest : option EvidenceDigest;
  pip_base_backup_verification_digest : option EvidenceDigest;
  pip_cutover_backup_id : option Uuid;
  pip_cutover_backup_manifest_digest : option EvidenceDigest;
  pip_cutover_backup_evidence_digest : option EvidenceDigest;
  pip_cutover_backup_verification_digest : option EvidenceDigest;
  pip_previous_release_bundle_digest : option EvidenceDigest;
  pip_health_evidence_digest : option EvidenceDigest;
  pip_rollback_health_evidence_digest : option EvidenceDigest;
  pip_fencing_epoch : option Z;
  pip_fence_acquisition_receipt_digest : option EvidenceDigest;
  pip_recovery_mode : option OperationRecoveryMode
}.

Record PhaseIntent : Type := MkPhaseIntent {
  in_attempt_id : Uuid;
  in_project_id : ProjectId;
  in_phase : OperationPhase;
  in_branch : ExecutorPhaseBranch;
  in_payload : PhaseIntentPayloadV1;
  in_digest : EvidenceDigest
}.

Record PhaseEffectEvidence : Type := MkPhaseEffectEvidence {
  ee_intent_digest : EvidenceDigest;
  ee_observation_digest : EvidenceDigest;
  ee_artifacts : PhaseArtifacts
}.
#[global] Instance PhaseEffectEvidence_eta : Eta PhaseEffectEvidence := λ r,
  MkPhaseEffectEvidence (ee_intent_digest r) (ee_observation_digest r) (ee_artifacts r).

Inductive EffectObservation : Type :=
| Effect_Absent
| Effect_Applied (evidence : PhaseEffectEvidence).

Inductive PhaseOperationIdentityLeaseV1 : Type :=
| Identity_BaseBackup (lease : IdentityLease)
| Identity_Drain (lease : IdentityLease).

Inductive ExternalEffectError : Type :=
| Effect_StatePoisoned
| Effect_ConflictingState.

Inductive PhaseCrashPoint : Type :=
| PhaseCrash_AfterIntentPersisted
| PhaseCrash_AfterEffectApplied
| PhaseCrash_AfterObservationPersisted
| PhaseCrash_AfterVerificationPersisted
| PhaseCrash_AfterReceiptCommitted.

Inductive FenceCrashPoint : Type :=
| FenceCrash_AfterIntentPersisted
| FenceCrash_AfterEffectApplied
| FenceCrash_AfterObservationPersisted.

Inductive CoordinatorCrashPoint : Type :=
| CoordinatorCrash_AfterSecurityReceipt
| CoordinatorCrash_AfterControllerProjection.

#[global] Instance PhaseCrashPoint_eq_dec : EqDecision PhaseCrashPoint.
Proof. solve_decision. Defined.
#[global] Instance FenceCrashPoint_eq_dec : EqDecision FenceCrashPoint.
Proof. solve_decision. Defined.
#[global] Instance CoordinatorCrashPoint_eq_dec : EqDecision CoordinatorCrashPoint.
Proof. solve_decision. Defined.
#[global] Instance ObservationAcceptance_eq_dec : EqDecision ObservationAcceptance.
Proof. solve_decision. Defined.

Inductive PhaseExecutionError : Type :=
| Phase_Store (e : StoreError)
| Phase_External (e : ExternalEffectError)
| Phase_Source (e : SourceGateError)
| Phase_InjectedCrash (point : PhaseCrashPoint)
| Phase_NeedsReconcile
| Phase_InvalidOperationState.

Inductive FenceExecutionError : Type :=
| FenceExec_Store (e : StoreError)
| FenceExec_External (e : ExternalEffectError)
| FenceExec_InjectedCrash (point : FenceCrashPoint)
| FenceExec_NeedsReconcile.

Inductive CoordinatorError : Type :=
| Coordinator_Store (e : StoreError)
| Coordinator_Executor (e : PhaseExecutionError)
| Coordinator_Fence (e : FenceExecutionError)
| Coordinator_InjectedCrash (point : CoordinatorCrashPoint).

Record AuthorizedOperationV1 : Type := MkAuthorizedOperationV1 {
  ao_purpose : string;
  ao_attempt_id : Uuid;
  ao_request_id : Uuid;
  ao_project_id : ProjectId;
  ao_operation_kind : OperationKind;
  ao_target_commit : option GitCommitId;
  ao_release_class : option ReleaseClass;
  ao_installed_policy : option InstalledPolicyIdentity;
  ao_actor : OperationActor;
  ao_action_grant_digest : option EvidenceDigest;
  ao_source_attestation_digest : option EvidenceDigest;
  ao_source_sequence : option Z
}.

(** The codecs of the executor. *)
Class ExecutorCodecs := {
  codec_phases :: PhaseCodecs;
  codec_operation :: Json OperationRecord;
  codec_transition :: Json OperationTransition;
  codec_intent_payload :: Jcs PhaseIntentPayloadV1;
  codec_authorized_operation :: Jcs AuthorizedOperationV1
}.

(** ** What a phase needs *)

Definition is_stateful_deploy (operation : OperationRecord) : bool :=
  (op_operation_kind operation == Kind_Deploy)
  && match op_release_class operation with
     | Some Class_StatefulCompatible | Some Class_StatefulBreaking => true
     | _ => false
     end.

Definition live_source_admission_phase (operation : OperationRecord) : option OperationPhase :=
  if op_operation_kind operation != Kind_Deploy then None
  else match op_release_class operation with
       | Some Class_CodeOnlyCompatible => Some Phase_Deploying
       | Some Class_StatefulCompatible | Some Class_StatefulBreaking => Some Phase_BackingUp
       | Some Class_Rollback | None => None
       end.

Definition live_source_completion_phase (operation : OperationRecord) : option OperationPhase :=
  if op_operation_kind operation != Kind_Deploy then None
  else match op_release_class operation with
       | Some Class_CodeOnlyCompatible => Some Phase_Deploying
       | Some Class_StatefulCompatible | Some Class_StatefulBreaking => Some Phase_CutoverSnapshotting
       | Some Class_Rollback | None => None
       end.

Definition requires_live_source_check (operation : OperationRecord) : bool :=
  live_source_admission_phase operation == Some (os_phase (op_state operation)).

Definition requires_disk_reservation (operation : OperationRecord) (phase : OperationPhase) : bool :=
  match phase with
  | Phase_Testing | Phase_Building | Phase_Preflight | Phase_BackingUp | Phase_CutoverSnapshotting
  | Phase_Migrating | Phase_Deploying | Phase_HealthChecking | Phase_Soaking | Phase_Rollback => true
  | _ => false
  end.

Definition requires_project_lock (phase : OperationPhase) : bool :=
  match phase with
  | Phase_Preflight | Phase_BackingUp | Phase_Draining | Phase_CutoverSnapshotting | Phase_Migrating
  | Phase_Deploying | Phase_HealthChecking | Phase_Soaking | Phase_Rollback => true
  | _ => false
  end.

Definition phase_resource (operation : OperationRecord) : option ExecutionResource :=
  match os_phase (op_state operation) with
  | Phase_Testing | Phase_Building => Some GlobalBuild
  | Phase_BackingUp | Phase_CutoverSnapshotting | Phase_Migrating => Some GlobalHeavyIo
  | _ => None
  end.

Definition is_project_deploy (resource : ExecutionResource) : bool :=
  match resource with ProjectDeploy _ => true | _ => false end.

Definition is_retryable_source_block (reason : BlockingReason) : bool :=
  match reason with Blocking_SourceBrokerUnavailable => true | _ => false end.

Definition source_blocking_reason (error : SourceGateError) : BlockingReason :=
  match error with
  | Gate_Unavailable => Blocking_SourceBrokerUnavailable
  | Gate_AttestationInvalid => Blocking_SourceAttestationInvalid
  | Gate_Diverged => Blocking_SourceDivergence
  | Gate_BlockedSha | Gate_Paused => Blocking_OperatorHold
  | Gate_HeadSuperseded => Blocking_SourceHeadSuperseded
  end.

Definition source_failure_capsule (error : SourceGateError) : FailureCapsule :=
  let '(code, summary) :=
    match error with
    | Gate_HeadSuperseded => ("source_head_superseded",
        "A newer canonical main head superseded this deployment before mutation")
    | Gate_AttestationInvalid => ("source_attestation_invalid",
        "The signed accepted-head evidence is invalid")
    | Gate_Unavailable => ("source_broker_unavailable", "The source broker is unavailable")
    | Gate_Diverged => ("source_diverged", "Source histories diverged and require an owner decision")
    | Gate_BlockedSha => ("source_sha_blocked", "The canonical source SHA is blocked by policy")
    | Gate_Paused => ("source_reconciliation_paused", "Source reconciliation is paused by policy")
    end%string in
  {| fc_schema_version := 1;
     fc_failing_step := "verifying_source";
     fc_error := {| se_code := code; se_summary := summary; se_retryability := Retry_Automatic;
                    se_runbook_id := None |};
     fc_excerpt := summary;
     fc_truncated := false;
     fc_v2 := None |}.

Definition reconciliation_capsule (phase : OperationPhase) : FailureCapsule :=
  {| fc_schema_version := 1;
     fc_failing_step := phase_name phase;
     fc_error := {| se_code := "executor_evidence_ambiguous";
                    se_summary := "External state does not match the persisted executor intent";
                    se_retryability := Retry_OperatorRunbook; se_runbook_id := None |};
     fc_excerpt := "Mutation remains fenced; reconcile the security journal with actual state.";
     fc_truncated := false;
     fc_v2 := None |}.

Definition phase_crash (configured : option PhaseCrashPoint) (boundary : PhaseCrashPoint)
    : Result PhaseExecutionError unit :=
  if configured == Some boundary then Err (Phase_InjectedCrash boundary) else Ok tt.

Definition fence_crash (configured : option FenceCrashPoint) (boundary : FenceCrashPoint)
    : Result FenceExecutionError unit :=
  if configured == Some boundary then Err (FenceExec_InjectedCrash boundary) else Ok tt.

Definition coordinator_crash (configured : option CoordinatorCrashPoint)
    (boundary : CoordinatorCrashPoint) : Result CoordinatorError unit :=
  if configured == Some boundary then Err (Coordinator_InjectedCrash boundary) else Ok tt.

Definition executor_phase_branch (operation : OperationRecord) : ExecutorPhaseBranch :=
  if ev_recovery_mode (op_evidence operation) == Some Recovery_Rollback
  then Branch_RollbackRecovery else Branch_Primary.

(** ** Intents *)

Section Intents.
Context `{!ExecutorCodecs}.

Definition executor_authorization_digest (operation : OperationRecord)
    : Result StoreError EvidenceDigest :=
  let evidence := op_evidence operation in
  let capability_present :=
    match op_actor operation with
    | Actor_Interactive _ => is_some (ev_action_grant_digest evidence)
    | Actor_Automation _ => is_some (ev_source_attestation_digest evidence)
                            && is_some (ev_source_sequence evidence)
    end in
  if negb capability_present
  then Err (CorruptController "operation is missing its executor authorization evidence")
  else
    let? bytes := json_err (jcs_to_vec {|
      ao_purpose := "rdashboard.authorized-operation.v1";
      ao_attempt_id := op_attempt_id operation;
      ao_request_id := op_request_id operation;
      ao_project_id := op_project_id operation;
      ao_operation_kind := op_operation_kind operation;
      ao_target_commit := op_target_commit operation;
      ao_release_class := op_release_class operation;
      ao_installed_policy := ev_installed_policy evidence;
      ao_actor := op_actor operation;
      ao_action_grant_digest := ev_action_grant_digest evidence;
      ao_source_attestation_digest := ev_source_attestation_digest evidence;
      ao_source_sequence := ev_source_sequence evidence |}) in
    Ok (EvidenceDigest_sha256 bytes).

Definition phase_intent (operation : OperationRecord) (executor_authorization_digest : EvidenceDigest)
    : Result StoreError PhaseIntent :=
  let branch := executor_phase_branch operation in
  let evidence := op_evidence operation in
  let '(operation_kind, release_class) :=
    if ev_recovery_mode evidence == Some Recovery_Rollback
    then (Kind_CodeRollback, Some Class_Rollback)
    else (op_operation_kind operation, op_release_class operation) in
  let payload := {|
    pip_purpose := "rdashboard.phase-intent.v1"%string;
    pip_attempt_id := op_attempt_id operation;
    pip_request_id := op_request_id operation;
    pip_project_id := op_project_id operation;
    pip_operation_kind := operation_kind;
    pip_release_class := release_class;
    pip_target_commit := op_target_commit operation;
    pip_phase := os_phase (op_state operation);
    pip_branch := branch;
    pip_installed_policy := ev_installed_policy evidence;
    pip_authorized_phase_spec_digests := ev_authorized_phase_spec_digests evidence;
    pip_executor_authorization_digest := executor_authorization_digest;
    pip_source_attestation_digest := ev_source_attestation_digest evidence;
    pip_source_sequence := ev_source_sequence evidence;
    pip_source_gate_proof_digest := ev_source_gate_proof_digest evidence;
    pip_drain_evidence_digest := ev_drain_evidence_digest evidence;
    pip_source_export_digest := ev_source_export_digest evidence;
    pip_prefetch_evidence_digest := ev_prefetch_evidence_digest evidence;
    pip_ci_evidence_digest := ev_ci_evidence_digest evidence;
    pip_build_plan_digest := ev_build_plan_digest evidence;
    pip_deployment_plan_digest := ev_deployment_plan_digest evidence;
    pip_release_bundle_digest := ev_release_bundle_digest evidence;
    pip_resource_reservation_digest := ev_resource_reservation_digest evidence;
    pip_action_grant_digest := ev_action_grant_digest evidence;
    pip_build_context_digest := ev_build_context_digest evidence;
    pip_generated_output_digests := ev_generated_output_digests evidence;
    pip_image_digest := ev_image_digest evidence;
    pip_image_id_digest := ev_image_id_digest evidence;
    pip_base_image_digests := ev_base_image_digests evidence;
    pip_schema_version := ev_schema_version evidence;
    pip_backup_id := ev_backup_id evidence;
    pip_backup_set_id := ev_backup_set_id evidence;
    pip_base_backup_id := ev_base_backup_id evidence;
    pip_base_backup_manifest_digest := ev_base_backup_manifest_digest evidence;
    pip_base_backup_evidence_digest := ev_base_backup_evidence_digest evidence;
    pip_base_backup_offsite_evidence_digest := ev_base_backup_offsite_evidence_digest evidence;
    pip_base_backup_verification_digest := ev_base_backup_verification_digest evidence;
    pip_cutover_backup_id := ev_cutover_backup_id evidence;
    pip_cutover_backup_manifest_digest := ev_cutover_backup_manifest_digest evidence;
    pip_cutover_backup_evidence_digest := ev_cutover_backup_evidence_digest evidence;
    pip_cutover_backup_verification_digest := ev_cutover_backup_verification_digest evidence;
    pip_previous_release_bundle_digest := ev_previous_release_bundle_digest evidence;
    pip_health_evidence_digest := ev_health_evidence_digest evidence;
    pip_rollback_health_evidence_digest := ev_rollback_health_evidence_digest evidence;
    pip_fencing_epoch := ev_fencing_epoch evidence;
    pip_fence_acquisition_receipt_digest := ev_fence_acquisition_receipt_digest evidence;
    pip_recovery_mode := ev_recovery_mode evidence |} in
  let? bytes := json_err (jcs_to_vec payload) in
  Ok {| in_attempt_id := op_attempt_id operation;
        in_project_id := op_project_id operation;
        in_phase := os_phase (op_state operation);
        in_branch := branch;
        in_payload := payload;
        in_digest := EvidenceDigest_sha256 bytes |}.

Definition PhaseIntent_from_operation (operation : OperationRecord)
    (executor_authorization_digest : EvidenceDigest) : Result StoreError PhaseIntent :=
  phase_intent operation executor_authorization_digest.

Definition PhaseIntent_has_valid_digest (intent : PhaseIntent) : Result SerdeError bool :=
  let payload := in_payload intent in
  if (in_attempt_id intent == pip_attempt_id payload)
     && (in_project_id intent == pip_project_id payload)
     && (in_phase intent == pip_phase payload) && (in_branch intent == pip_branch payload)
  then let? bytes := jcs_to_vec payload in Ok (in_digest intent == EvidenceDigest_sha256 bytes)
  else Ok false.

(** [SecurityStore::active_fences]. *)
Definition fence_project_asc (a b : Z * FenceRow) : comparison :=
  str_compare (ProjectId_as_str (fr_project_id a.2)) (ProjectId_as_str (fr_project_id b.2)).

Definition active_fences (db : SecurityDb) : Result StoreError (list FenceLease) :=
  mapM (λ row,
      let? fence := load_active_fence (fr_project_id row.2) db in
      ok_or (CorruptSecurityJournal "active fence disappeared") fence)
    (sort_by fence_project_asc (select_rows (λ _ row, fr_state row != "released"%string)
                                  (fence_journal db))).

Definition active_drain_identity (project_id : ProjectId) (db : SecurityDb)
    : Result StoreError (option IdentityLease) := load_active_drain_identity project_id db.
End Intents.

(** ** The outside world and the source gate *)

(** [trait ExternalEffects]: an observation can change the state of what is observed. *)
Class ExternalEffects (A : Type) := {
  observe_phase : PhaseIntent → A → A * Result ExternalEffectError EffectObservation;
  apply_phase : PhaseIntent → A → A * Result ExternalEffectError unit;
  observe_phase_with_operation_identity :
    PhaseIntent → option PhaseOperationIdentityLeaseV1 → A → A * Result ExternalEffectError EffectObservation;
  apply_phase_with_operation_identity :
    PhaseIntent → option PhaseOperationIdentityLeaseV1 → A → A * Result ExternalEffectError unit;
  observe_fence : ProjectId → A → A * Result ExternalEffectError FenceObservation;
  acquire_fence : FenceLease → A → A * Result ExternalEffectError unit;
  release_fence : FenceLease → A → A * Result ExternalEffectError unit
}.

(** [trait LiveSourceGate]. *)
Class LiveSourceGate (G : Type) := {
  gate_check_live : OperationRecord → Z → G → G * Result SourceGateError SourceGateProof;
  gate_complete_live : OperationRecord → G → G * Result SourceGateError unit;
  gate_abort_live : OperationRecord → G → G * Result SourceGateError unit
}.

(** The calls that reach the controller's store without the gate of a project: the
    admissions, and the first halves of [fail_before_mutation], [cancel_before_mutation]
    and [retry_disk_reservation] of the coordinator. *)
Inductive OtherCall : Type :=
| Other_TakeoverLease (user_id lease_id : Uuid) (acquired_at_ms expires_at_ms : Z)
| Other_AdmitInteractive (uuids : NewUuids) (new : NewOperation) (lease : TabLeaseClaim)
    (grant : ActionGrantClaims) (now_ms : Z)
| Other_AdmitVerified (uuids : NewUuids) (admission : VerifiedInteractiveDeployAdmission) (lease : TabLeaseClaim)
    (grant : ActionGrantClaims) (now_ms : Z)
| Other_AdmitAutomation (uuids : NewUuids) (admission : VerifiedAutomationAdmission) (now_ms : Z)
| Other_Fail (attempt_id : Uuid) (capsule : FailureCapsule) (now_ms : Z)
| Other_Cancel (attempt_id : Uuid) (now_ms : Z)
| Other_ClearDiskBlock (attempt_id : Uuid) (now_ms : Z).

Definition perform_other `{!ExecutorCodecs} (call : OtherCall) (db : ControlDb) : ControlDb :=
  match call with
  | Other_TakeoverLease user lease acquired expires => (takeover_lease user lease acquired expires db).1
  | Other_AdmitInteractive uuids new lease grant now_ms =>
      (admit_interactive uuids new lease grant now_ms db).1
  | Other_AdmitVerified uuids admission lease grant now_ms =>
      (admit_verified_interactive_deploy uuids admission lease grant now_ms db).1
  | Other_AdmitAutomation uuids admission now_ms => (admit_automation uuids admission now_ms db).1
  | Other_Fail attempt_id capsule now_ms => (fail_attempt attempt_id capsule now_ms db).1
  | Other_Cancel attempt_id now_ms => (cancel_before_mutation attempt_id now_ms db).1
  | Other_ClearDiskBlock attempt_id now_ms => (clear_disk_block attempt_id now_ms db).1
  end.

(** The two databases, the outside world, the gate if there is one, the projects
    recovered since the process started, which it forgets when it stops, and the calls of
    other threads that take effect before the first, the second, ... access of the running
    call to the controller. *)
Record Host `{!ExecutorCodecs} (A G : Type) : Type := MkHost {
  h_control : ControlDb;
  h_security : SecurityDb;
  h_effects : A;
  h_gate : option G;
  h_recovered : gset ProjectId;
  h_others : list (list OtherCall)
}.
Arguments MkHost {_ A G}.
Arguments h_control {_ A G}.
Arguments h_security {_ A G}.
Arguments h_effects {_ A G}.
Arguments h_gate {_ A G}.
Arguments h_recovered {_ A G}.
Arguments h_others {_ A G}.
#[global] Instance Host_eta `{!ExecutorCodecs} A G : Eta (Host A G) := λ w,
  MkHost (h_control w) (h_security w) (h_effects w) (h_gate w) (h_recovered w)
    (h_others w).

(** What a step does. *)
Inductive Event : Type :=
| Event_Others
| Event_Control
| Event_Security
| Event_CheckLive (operation : OperationRecord)
| Event_CompleteLive (operation : OperationRecord)
| Event_AbortLive (operation : OperationRecord)
| Event_ObservePhase (intent : PhaseIntent)
| Event_ApplyPhase (intent : PhaseIntent)
| Event_ObserveFence (project_id : ProjectId)
| Event_AcquireFence (lease : FenceLease)
| Event_ReleaseFence (lease : FenceLease).

(** ** Steps *)

Section HostSteps.
Context `{!ExecutorCodecs} {A G : Type} `{!ExternalEffects A, !LiveSourceGate G}.

Abbreviation Exec E := (Run (Host A G) Event E) (only parsing).

(** An access to the controller comes after what other threads did there meanwhile. *)
Definition meet_others : Exec StoreError unit := λ w,
  match h_others w with
  | [] => run_ok tt w
  | calls :: rest =>
      run_step Event_Others (λ w,
        (w <| h_control := fold_left (λ db call, perform_other call db) calls (h_control w) |>
           <| h_others := rest |>, Ok tt)) w
  end.

Definition control_read {B} (f : ControlDb → Result StoreError B) : Exec StoreError B :=
  let? _ := meet_others in run_read (λ w, f (h_control w)).
Definition security_read {B} (f : SecurityDb → Result StoreError B) : Exec StoreError B :=
  run_read (λ w, f (h_security w)).

Definition control_step {B} (f : ControlDb → ControlDb * Result StoreError B) : Exec StoreError B :=
  let? _ := meet_others in
  run_step Event_Control (λ w, let '(db, r) := f (h_control w) in (w <| h_control := db |>, r)).
Definition security_step {B} (f : SecurityDb → SecurityDb * Result StoreError B) : Exec StoreError B :=
  run_step Event_Security (λ w, let '(db, r) := f (h_security w) in (w <| h_security := db |>, r)).

Definition effect_step {B} (ev : Event) (f : A → A * Result ExternalEffectError B)
    : Exec ExternalEffectError B :=
  run_step ev (λ w, let '(effects, r) := f (h_effects w) in (w <| h_effects := effects |>, r)).

(** [self.source_gate.as_ref().ok_or(Unavailable).and_then(..)]. *)
Definition gate_step {B} (ev : Event) (f : G → G * Result SourceGateError B) : Exec SourceGateError B :=
  let? gate := run_read (λ w, ok_or Gate_Unavailable (h_gate w)) in
  run_step ev (λ w, let '(gate, r) := f gate in (w <| h_gate := Some gate |>, r)).
End HostSteps.
