(* ===== verification/Executor.v ===== *)
(** * The executor

    Model of [DurableExecutor] of [src/src/executor.rs]: the execution of a phase from its
    intent to its receipt, with the resources, identities and source checks around it,
    and the write fences.  The methods with [_under_gate] in their name run while the
    mutex of the project is held, so calls for one project exclude each other.  Fresh
    tokens ([Uuid::new_v4] in the security store) are arguments, as is the time. *)

From Stdlib Require Import ZArith Lia Ascii String.
From stdpp Require Import base gmap strings option list_numbers list.
From S2P Require Import Prelude Steps Identifiers States Text Failure Operation Errors Budget Controller.
From S2P Require Import SecurityDb Resources Fences Ordered PhaseJournal SourceDb ExecutorBase.

Local Open Scope Z_scope.
Local Open Scope rust_scope.

Section Executor.
Context `{!ExecutorCodecs} {A G : Type} `{!ExternalEffects A, !LiveSourceGate G}.
Context (disk_space_probe : option (ProjectId → Z → Result StoreError DiskAvailabilityObservation)).

Abbreviation PhaseRun := (Run (Host A G) Event PhaseExecutionError) (only parsing).
Abbreviation FenceRun := (Run (Host A G) Event FenceExecutionError) (only parsing).
Abbreviation StoreRun := (Run (Host A G) Event StoreError) (only parsing).

(** [?] on a store, effect or gate error. *)
Definition phase_store {B} (m : StoreRun B) : PhaseRun B := run_map_err Phase_Store m.
Definition phase_effect_call {B} (m : Run (Host A G) Event ExternalEffectError B) : PhaseRun B :=
  run_map_err Phase_External m.
Definition phase_gate {B} (m : Run (Host A G) Event SourceGateError B) : PhaseRun B :=
  run_map_err Phase_Source m.
Definition fence_store {B} (m : StoreRun B) : FenceRun B := run_map_err FenceExec_Store m.
Definition fence_effect_call {B} (m : Run (Host A G) Event ExternalEffectError B) : FenceRun B :=
  run_map_err FenceExec_External m.

Definition observe_intent (intent : PhaseIntent) (identity : option PhaseOperationIdentityLeaseV1)
    : Run (Host A G) Event ExternalEffectError EffectObservation :=
  effect_step (Event_ObservePhase intent) (observe_phase_with_operation_identity intent identity).

Definition require_recovery (project_id : ProjectId) : StoreRun unit :=
  run_read (λ w, if bool_decide (project_id ∈ h_recovered w) then Ok tt
                 else Err SecurityRecoveryRequired).

(** ** Resources *)

Definition cleanup_ephemeral_resource (operation : OperationRecord) (now_ms : Z) : StoreRun unit :=
  let attempt_id := op_attempt_id operation in
  let? _ :=
    match phase_resource operation with
    | Some resource =>
        if negb (is_project_deploy resource)
        then security_step (release_resource_if_owned resource attempt_id now_ms)
        else run_ok tt
    | None => run_ok tt
    end in
  if os_phase (op_state operation) == Phase_Deploying
  then security_step (release_resource_if_owned GlobalLocalRegistry attempt_id now_ms)
  else run_ok tt.

Definition suspend_pre_mutation_resources (operation : OperationRecord) (now_ms : Z) : StoreRun unit :=
  let attempt_id := op_attempt_id operation in
  let project_id := op_project_id operation in
  let? _ := cleanup_ephemeral_resource operation now_ms in
  let? _ := security_step (release_disk_reservation_if_owned project_id attempt_id now_ms) in
  let? _ := security_step (release_resource_if_owned GlobalLocalRegistry attempt_id now_ms) in
  security_step (release_resource_if_owned (ProjectDeploy project_id) attempt_id now_ms).

Definition cleanup_terminal_resources_under_gate (operation : OperationRecord) (now_ms : Z)
    : StoreRun unit :=
  let attempt_id := op_attempt_id operation in
  let project_id := op_project_id operation in
  if os_result (op_state operation) == Result_Running then run_ok tt
  else
    let? _ := security_step (release_resource_if_owned (ProjectDeploy project_id) attempt_id now_ms) in
    let? _ := security_step (release_disk_reservation_if_owned project_id attempt_id now_ms) in
    let? _ := security_step (release_resource_if_owned GlobalLocalRegistry attempt_id now_ms) in
    match phase_resource operation with
    | Some resource =>
        if negb (is_project_deploy resource)
        then security_step (release_resource_if_owned resource attempt_id now_ms)
        else run_ok tt
    | None => run_ok tt
    end.

Definition cleanup_terminal_resources (operation : OperationRecord) (now_ms : Z) : StoreRun unit :=
  cleanup_terminal_resources_under_gate operation now_ms.

Definition acquire_persistent_phase_resources (operation : OperationRecord) (phase : OperationPhase)
    (now_ms : Z) : StoreRun unit :=
  let attempt_id := op_attempt_id operation in
  let project_id := op_project_id operation in
  let? _ :=
    (if requires_disk_reservation operation phase then
       let? observation := run_lift
         match disk_space_probe with
         | Some observe => observe project_id now_ms
         | None => Err DiskObservationUnavailable
         end in
       security_step (acquire_disk_reservation project_id attempt_id observation now_ms)
     else run_ok tt) in
  let? _ :=
    match phase with
    | Phase_Building | Phase_Deploying =>
        security_step (acquire_resource GlobalLocalRegistry attempt_id now_ms)
    | _ => run_ok tt
    end in
  if requires_project_lock phase
  then security_step (acquire_resource (ProjectDeploy project_id) attempt_id now_ms)
  else run_ok tt.

Definition acquire_phase_resource (operation : OperationRecord) (now_ms : Z) : StoreRun unit :=
  match phase_resource operation with
  | Some resource => security_step (acquire_resource resource (op_attempt_id operation) now_ms)
  | None => run_ok tt
  end.

(** ** Identities *)

Definition has_backup_spec (operation : OperationRecord) : StoreRun bool :=
  let? spec := security_read (authorized_phase_spec_in_branch (op_attempt_id operation)
                                Phase_BackingUp Branch_Primary) in
  run_ok (is_some spec).

Definition prepare_drain_identity (token : Uuid) (operation : OperationRecord) (now_ms : Z)
    : StoreRun unit :=
  let phase := os_phase (op_state operation) in
  let? backup := (if phase == Phase_BackingUp then has_backup_spec operation else run_ok false) in
  if backup : bool then
    let? _ := security_step (begin_backup_boundary token (op_project_id operation)
                               (op_attempt_id operation) now_ms) in
    run_ok tt
  else if is_stateful_deploy operation && (phase == Phase_Draining) then
    let? _ := security_step (begin_drain_identity token (op_project_id operation)
                               (op_attempt_id operation) now_ms) in
    run_ok tt
  else run_ok tt.

(** The lease of this attempt, or reconciliation. *)
Definition own_identity (operation : OperationRecord)
    (wrap : IdentityLease → PhaseOperationIdentityLeaseV1)
    (load : SecurityDb → Result StoreError (option IdentityLease))
    : PhaseRun (option PhaseOperationIdentityLeaseV1) :=
  let? identity := phase_store (security_read load) in
  match identity with
  | Some identity =>
      if il_attempt_id identity == op_attempt_id operation then run_ok (Some (wrap identity))
      else run_err Phase_NeedsReconcile
  | None => run_err Phase_NeedsReconcile
  end.

Definition operation_identity_for_phase (operation : OperationRecord)
    : PhaseRun (option PhaseOperationIdentityLeaseV1) :=
  let project_id := op_project_id operation in
  match os_phase (op_state operation) with
  | Phase_BackingUp =>
      let? backup := phase_store (has_backup_spec operation) in
      if backup : bool
      then own_identity operation Identity_BaseBackup (active_backup_boundary project_id)
      else run_ok None
  | Phase_Draining =>
      if is_stateful_deploy operation
      then own_identity operation Identity_Drain (active_drain_identity project_id)
      else run_ok None
  | _ => run_ok None
  end.

(** ** The source gate *)

Definition abort_live_source_mutation (operation : OperationRecord) : PhaseRun unit :=
  if negb (requires_live_source_check operation) then run_ok tt
  else phase_gate (gate_step (Event_AbortLive operation) (gate_abort_live operation)).

Definition complete_source_ticket (operation : OperationRecord) : PhaseRun unit :=
  let? completed := run_result (gate_step (Event_CompleteLive operation) (gate_complete_live operation)) in
  match completed with
  | Ok _ => run_ok tt
  | Err _ => run_err Phase_NeedsReconcile
  end.

Definition complete_live_source_mutation (operation : OperationRecord) : PhaseRun unit :=
  if live_source_completion_phase operation != Some (os_phase (op_state operation)) then run_ok tt
  else complete_source_ticket operation.

Definition proof_record (operation : OperationRecord) (intent : PhaseIntent) (proof : SourceGateProof)
    : SourceGateProofRecord := {|
  sg_attempt_id := op_attempt_id operation;
  sg_phase := in_phase intent;
  sg_proof_digest := sgp_digest proof;
  sg_project_id := sgp_project_id proof;
  sg_source_sequence := sgp_sequence proof;
  sg_attestation_digest := sgp_attestation_digest proof;
  sg_checked_at_ms := sgp_checked_at_ms proof |}.

Definition compensate (operation : OperationRecord) (intent : PhaseIntent) (now_ms : Z) : StoreRun unit :=
  security_step (compensate_source_gate_rejection (op_attempt_id operation) (op_project_id operation)
                   (in_phase intent) (in_branch intent) (in_digest intent) now_ms).

Definition rejection_pending (operation : OperationRecord) (intent : PhaseIntent) : StoreRun bool :=
  security_read (source_gate_rejection_pending (op_attempt_id operation) (op_project_id operation)
                   (in_phase intent) (in_branch intent)).

Definition authorize_live_source_mutation (operation : OperationRecord) (intent : PhaseIntent)
    (now_ms : Z) : PhaseRun unit :=
  if negb (requires_live_source_check operation) then run_ok tt
  else
    let? source_result := run_result (gate_step (Event_CheckLive operation)
                                        (gate_check_live operation now_ms)) in
    match source_result with
    | Err error =>
        let? _ := abort_live_source_mutation operation in
        let? _ := phase_store (suspend_pre_mutation_resources operation now_ms) in
        run_err (Phase_Source error)
    | Ok proof =>
        let? record_result := run_result (security_step
                                (record_source_gate_proof (proof_record operation intent proof))) in
        match record_result with
        | Ok _ => run_ok tt
        | Err error =>
            let? _ := abort_live_source_mutation operation in
            let? pending := phase_store (rejection_pending operation intent) in
            let? _ := (if pending : bool then phase_store (compensate operation intent now_ms)
                       else run_ok tt) in
            let? _ := phase_store (suspend_pre_mutation_resources operation now_ms) in
            run_err (Phase_Store error)
        end
    end.

Definition compensate_rejected_source_proof (operation : OperationRecord) (intent : PhaseIntent)
    (now_ms : Z) : PhaseRun unit :=
  let? pending := phase_store (rejection_pending operation intent) in
  if negb pending then run_err Phase_NeedsReconcile
  else
    let? identity := operation_identity_for_phase operation in
    let? observed := run_result (observe_intent intent identity) in
    match observed with
    | Ok Effect_Absent =>
        let? _ := abort_live_source_mutation operation in
        phase_store (compensate operation intent now_ms)
    | Ok (Effect_Applied _) | Err _ => run_err Phase_NeedsReconcile
    end.

Definition mark_phase (operation : OperationRecord) (phase : OperationPhase)
    (branch : ExecutorPhaseBranch) (now_ms : Z) : PhaseRun unit :=
  phase_store (security_step (mark_phase_needs_reconcile_in_branch (op_attempt_id operation)
                                phase branch now_ms)).

Definition required_source_gate_proof (operation : OperationRecord) (phase : OperationPhase)
    (branch : ExecutorPhaseBranch) (now_ms : Z) : PhaseRun (option EvidenceDigest) :=
  let proof_phase :=
    if requires_live_source_check operation then Some phase
    else if is_stateful_deploy operation && (phase == Phase_Draining) then Some Phase_BackingUp
    else None in
  match proof_phase with
  | None => run_ok None
  | Some proof_phase =>
      let? proof := phase_store (security_read (λ db,
                      Ok (source_gate_proof (op_attempt_id operation) proof_phase db))) in
      match proof with
      | Some proof => run_ok (Some proof)
      | None =>
          let? _ := mark_phase operation phase branch now_ms in
          run_err Phase_NeedsReconcile
      end
  end.

(** ** The effect of a phase *)

Definition observation_request (operation : OperationRecord) (intent : PhaseIntent)
    (evidence : PhaseEffectEvidence) (now_ms : Z) : PhaseObservationRequest := {|
  po_attempt_id := op_attempt_id operation;
  po_phase := in_phase intent;
  po_branch := in_branch intent;
  po_observed_intent_digest := ee_intent_digest evidence;
  po_observation_digest := ee_observation_digest evidence;
  po_artifacts := ee_artifacts evidence;
  po_observed_at_ms := now_ms |}.

Definition record_observation (operation : OperationRecord) (intent : PhaseIntent)
    (evidence : PhaseEffectEvidence) (now_ms : Z) : PhaseRun ObservationAcceptance :=
  phase_store (security_step (record_phase_observation_in_branch
                                (observation_request operation intent evidence now_ms))).

Definition reconcile_failed_phase_application (operation : OperationRecord) (intent : PhaseIntent)
    (apply_error : ExternalEffectError) (now_ms : Z) : PhaseRun unit :=
  let? identity := operation_identity_for_phase operation in
  let? observed := run_result (observe_intent intent identity) in
  match observed with
  | Ok Effect_Absent =>
      let? _ := abort_live_source_mutation operation in
      run_err (Phase_External apply_error)
  | Ok (Effect_Applied evidence) =>
      if ee_intent_digest evidence == in_digest intent then run_ok tt
      else
        let? _ := record_observation operation intent evidence now_ms in
        run_err Phase_NeedsReconcile
  | Err _ =>
      let? _ := mark_phase operation (in_phase intent) (in_branch intent) now_ms in
      run_err Phase_NeedsReconcile
  end.

Definition apply_or_recover_phase_effect (operation : OperationRecord) (intent : PhaseIntent)
    (now_ms : Z) : PhaseRun unit :=
  let? identity := operation_identity_for_phase operation in
  let? observed := phase_effect_call (observe_intent intent identity) in
  match observed with
  | Effect_Absent =>
      let? _ := authorize_live_source_mutation operation intent now_ms in
      let? applied := run_result (effect_step (Event_ApplyPhase intent)
                                    (apply_phase_with_operation_identity intent identity)) in
      match applied with
      | Ok _ => run_ok tt
      | Err apply_error => reconcile_failed_phase_application operation intent apply_error now_ms
      end
  | Effect_Applied evidence =>
      if ee_intent_digest evidence == in_digest intent then run_ok tt
      else
        let? _ := record_observation operation intent evidence now_ms in
        run_err Phase_NeedsReconcile
  end.

(** The evidence with the source proof, unless it names another one. *)
Definition with_source_proof (proof : option EvidenceDigest) (evidence : PhaseEffectEvidence)
    : option PhaseEffectEvidence :=
  match proof with
  | None => Some evidence
  | Some proof =>
      match pa_source_gate_proof_digest (ee_artifacts evidence) with
      | Some existing => if existing != proof then None else Some evidence
      | None => Some (evidence <| ee_artifacts := (ee_artifacts evidence)
                                    <| pa_source_gate_proof_digest := Some proof |> |>)
      end
  end.

Definition observe_and_commit_phase (operation : OperationRecord) (intent : PhaseIntent)
    (source_gate_proof : option EvidenceDigest) (crash_at : option PhaseCrashPoint) (now_ms : Z)
    : PhaseRun PhaseReceipt :=
  let attempt_id := op_attempt_id operation in
  let phase := in_phase intent in
  let branch := in_branch intent in
  let? identity := operation_identity_for_phase operation in
  let? observed := run_result (observe_intent intent identity) in
  match observed with
  | Ok Effect_Absent | Err _ =>
      let? _ := mark_phase operation phase branch now_ms in
      run_err Phase_NeedsReconcile
  | Ok (Effect_Applied evidence) =>
      match with_source_proof source_gate_proof evidence with
      | None =>
          let? _ := mark_phase operation phase branch now_ms in
          run_err Phase_NeedsReconcile
      | Some evidence =>
          let? acceptance := record_observation operation intent evidence now_ms in
          if acceptance == Acceptance_NeedsReconcile then run_err Phase_NeedsReconcile
          else
            let? _ := run_lift (phase_crash crash_at PhaseCrash_AfterObservationPersisted) in
            let? _ := phase_store (security_step (mark_phase_verified_in_branch attempt_id phase
                                                    branch now_ms)) in
            let? _ := run_lift (phase_crash crash_at PhaseCrash_AfterVerificationPersisted) in
            let? receipt := phase_store (security_step (commit_phase_receipt_in_branch attempt_id
                                                          phase branch now_ms)) in
            let? _ := run_lift (phase_crash crash_at PhaseCrash_AfterReceiptCommitted) in
            run_ok receipt
      end
  end.

(** ** Executing a phase *)

Definition phase_plan_of (operation : OperationRecord) : Result StoreError ExecutorPhasePlan :=
  let? ordered_phases := map_err OperationContract
    (OperationKind_required_phases (op_operation_kind operation) (op_release_class operation)) in
  Ok (MkExecutorPhasePlan ordered_phases
        ((op_operation_kind operation == Kind_Deploy)
         && match op_release_class operation with
            | Some Class_CodeOnlyCompatible | Some Class_StatefulCompatible => true
            | _ => false
            end)).

Definition intent_request (operation : OperationRecord) (intent : PhaseIntent)
    (phase_plan : ExecutorPhasePlan) (authorization_digest : EvidenceDigest) (now_ms : Z)
    : PhaseIntentRequest := {|
  pi_attempt_id := op_attempt_id operation;
  pi_project_id := op_project_id operation;
  pi_phase := os_phase (op_state operation);
  pi_branch := in_branch intent;
  pi_phase_plan := phase_plan;
  pi_intent_digest := in_digest intent;
  pi_authorization_digest := authorization_digest;
  pi_started_at_ms := now_ms |}.

(** From a phase with no receipt yet to its receipt. *)
Definition run_phase (token : Uuid) (operation : OperationRecord) (intent : PhaseIntent)
    (phase_plan : ExecutorPhasePlan) (authorization_digest : EvidenceDigest)
    (crash_at : option PhaseCrashPoint) (now_ms : Z) : PhaseRun PhaseReceipt :=
  let phase := os_phase (op_state operation) in
  let? journal := phase_store (security_step (begin_phase_intent
                    (intent_request operation intent phase_plan authorization_digest now_ms))) in
  let? _ := (if pe_status journal == Journal_NeedsReconcile
             then compensate_rejected_source_proof operation intent now_ms else run_ok tt) in
  let? _ := phase_store (acquire_persistent_phase_resources operation phase now_ms) in
  let? _ := phase_store (acquire_phase_resource operation now_ms) in
  let? _ := phase_store (prepare_drain_identity token operation now_ms) in
  let? _ := run_lift (phase_crash crash_at PhaseCrash_AfterIntentPersisted) in
  let? _ := apply_or_recover_phase_effect operation intent now_ms in
  let? _ := run_lift (phase_crash crash_at PhaseCrash_AfterEffectApplied) in
  let? source_gate_proof := required_source_gate_proof operation phase (in_branch intent) now_ms in
  let? receipt := observe_and_commit_phase operation intent source_gate_proof crash_at now_ms in
  let? _ := complete_live_source_mutation operation in
  let? _ := phase_store (cleanup_ephemeral_resource operation now_ms) in
  run_ok receipt.

Definition execute_phase_under_gate (token : Uuid) (operation : OperationRecord)
    (crash_at : option PhaseCrashPoint) (now_ms : Z) : PhaseRun PhaseReceipt :=
  let attempt_id := op_attempt_id operation in
  let project_id := op_project_id operation in
  let phase := os_phase (op_state operation) in
  let? _ := phase_store (require_recovery project_id) in
  if (os_result (op_state operation) != Result_Running) || (phase == Phase_Reconciliation)
  then run_err Phase_InvalidOperationState
  else
    let? authorization_digest := phase_store (run_lift (executor_authorization_digest operation)) in
    let? intent := phase_store (run_lift (phase_intent operation authorization_digest)) in
    let branch := in_branch intent in
    let? phase_plan := phase_store (run_lift (phase_plan_of operation)) in
    let? _ :=
      (if (branch == Branch_RollbackRecovery) && (phase == Phase_Rollback) then
         let? _ := phase_store (security_step (begin_rollback_takeover attempt_id project_id
                                                 authorization_digest now_ms)) in
         run_ok tt
       else run_ok tt) in
    let? _ := phase_store (security_step (validate_phase_start attempt_id project_id phase branch
                                            phase_plan authorization_digest)) in
    let? receipt := phase_store (security_read (phase_receipt_in_branch attempt_id phase branch)) in
    match receipt with
    | Some receipt =>
        let? _ := complete_live_source_mutation operation in
        let? _ := phase_store (cleanup_ephemeral_resource operation now_ms) in
        run_ok receipt
    | None => run_phase token operation intent phase_plan authorization_digest crash_at now_ms
    end.

Definition execute_phase (token : Uuid) (operation : OperationRecord)
    (crash_at : option PhaseCrashPoint) (now_ms : Z) : PhaseRun PhaseReceipt :=
  execute_phase_under_gate token operation crash_at now_ms.

(** ** Source checks around the cutover *)

Definition refresh_stateful_source_before_fence_under_gate (operation : OperationRecord)
    (now_ms : Z) : PhaseRun unit :=
  if (os_phase (op_state operation) != Phase_CutoverSnapshotting) || negb (is_stateful_deploy operation)
  then run_err Phase_InvalidOperationState
  else
    let? fence := phase_store (security_read (active_fence (op_project_id operation))) in
    match fence with
    | Some fence =>
        if (fl_attempt_id fence == op_attempt_id operation) && (fl_state fence == Fence_Held)
        then run_ok tt
        else run_err Phase_NeedsReconcile
    | None =>
        let? source_result := run_result (gate_step (Event_CheckLive operation)
                                            (gate_check_live operation now_ms)) in
        match source_result with
        | Err Gate_Unavailable => run_err (Phase_Source Gate_Unavailable)
        | Err _ => run_err Phase_NeedsReconcile
        | Ok proof =>
            let? persisted := phase_store (security_read (λ db,
              Ok (source_gate_proof (op_attempt_id operation) Phase_BackingUp db))) in
            match persisted with
            | None => run_err Phase_NeedsReconcile
            | Some persisted =>
                if persisted != sgp_digest proof then run_err Phase_NeedsReconcile else run_ok tt
            end
        end
    end.

Definition reconcile_committed_live_source_mutation_under_gate (operation : OperationRecord)
    (now_ms : Z) : PhaseRun (option PhaseReceipt) :=
  let attempt_id := op_attempt_id operation in
  if os_phase (op_state operation) != Phase_Reconciliation then run_err Phase_InvalidOperationState
  else
    match live_source_admission_phase operation, live_source_completion_phase operation with
    | Some admission_phase, Some completion_phase =>
        let entered_reconciliation_from_completion :=
          match last (ev_transitions (op_evidence operation)) with
          | Some transition =>
              (os_phase (ot_from transition) == completion_phase)
              && (os_phase (ot_to transition) == Phase_Reconciliation)
              && (os_result (ot_to transition) == Result_Running)
              && is_none (ot_receipt_digest transition)
          | None => false
          end in
        if negb entered_reconciliation_from_completion then run_ok None
        else
          let? completion := phase_store (security_read
            (phase_receipt_in_branch attempt_id completion_phase Branch_Primary)) in
          let? completion_receipt := run_lift (ok_or Phase_NeedsReconcile completion) in
          let? admission := phase_store (security_read
            (phase_receipt_in_branch attempt_id admission_phase Branch_Primary)) in
          let? admission_receipt := run_lift (ok_or Phase_NeedsReconcile admission) in
          let? proof := phase_store (security_read (λ db,
            Ok (source_gate_proof attempt_id admission_phase db))) in
          let? source_proof := run_lift (ok_or Phase_NeedsReconcile proof) in
          if pa_source_gate_proof_digest (pr_artifacts admission_receipt) != Some source_proof
          then run_err Phase_NeedsReconcile
          else
            let? _ := complete_source_ticket operation in
            let completed_phase := operation <| op_state := (op_state operation)
                                                  <| os_phase := completion_phase |> |> in
            let? _ := phase_store (cleanup_ephemeral_resource completed_phase now_ms) in
            run_ok (Some completion_receipt)
    | _, _ => run_ok None
    end.

(** ** Write fences *)

Definition lease_is (lease : FenceLease) (attempt_id : Uuid) (epoch : Z) (token : Uuid) : bool :=
  (attempt_id == fl_attempt_id lease) && (epoch == fl_epoch lease) && (token == fl_token lease).

Definition observe_project_fence (project_id : ProjectId) : FenceRun FenceObservation :=
  fence_effect_call (effect_step (Event_ObserveFence project_id) (observe_fence project_id)).

Definition project_fence (project_id : ProjectId) (observation : FenceObservation) (now_ms : Z)
    : FenceRun FenceProjection :=
  fence_store (security_step (reconcile_fence project_id observation now_ms)).

Definition acquire_write_fence_under_gate (token : Uuid) (project_id : ProjectId) (attempt_id : Uuid)
    (crash_at : option FenceCrashPoint) (now_ms : Z) : FenceRun FenceLease :=
  let? lease := fence_store (security_step (begin_fence_acquire token project_id attempt_id now_ms)) in
  if fl_state lease == Fence_NeedsReconcile then run_err FenceExec_NeedsReconcile
  else
    let? _ := run_lift (fence_crash crash_at FenceCrash_AfterIntentPersisted) in
    let? observation := observe_project_fence project_id in
    let? _ :=
      match observation with
      | Observed_Released =>
          fence_effect_call (effect_step (Event_AcquireFence lease) (acquire_fence lease))
      | Observed_Held observed_attempt epoch observed_token =>
          if lease_is lease observed_attempt epoch observed_token then run_ok tt
          else
            let? _ := project_fence project_id observation now_ms in
            run_err FenceExec_NeedsReconcile
      end in
    let? _ := run_lift (fence_crash crash_at FenceCrash_AfterEffectApplied) in
    let? observation := observe_project_fence project_id in
    let? projection := project_fence project_id observation now_ms in
    if projection != Projection_Held then run_err FenceExec_NeedsReconcile
    else
      let? _ := run_lift (fence_crash crash_at FenceCrash_AfterObservationPersisted) in
      let? fence := fence_store (security_read (active_fence project_id)) in
      run_lift (ok_or FenceExec_NeedsReconcile fence).

Definition acquire_write_fence (token : Uuid) (project_id : ProjectId) (attempt_id : Uuid)
    (crash_at : option FenceCrashPoint) (now_ms : Z) : FenceRun FenceLease :=
  let? _ := fence_store (require_recovery project_id) in
  acquire_write_fence_under_gate token project_id attempt_id crash_at now_ms.

Definition release_write_fence_under_gate (project_id : ProjectId) (attempt_id : Uuid)
    (release_safe_receipt_digest : EvidenceDigest) (crash_at : option FenceCrashPoint) (now_ms : Z)
    : FenceRun unit :=
  let? lease := fence_store (security_step (begin_fence_release project_id attempt_id
                                              release_safe_receipt_digest now_ms)) in
  let? _ := run_lift (fence_crash crash_at FenceCrash_AfterIntentPersisted) in
  let? observation := observe_project_fence project_id in
  let? _ :=
    match observation with
    | Observed_Released => run_ok tt
    | Observed_Held observed_attempt epoch observed_token =>
        if lease_is lease observed_attempt epoch observed_token
        then fence_effect_call (effect_step (Event_ReleaseFence lease) (release_fence lease))
        else
          let? _ := project_fence project_id observation now_ms in
          run_err FenceExec_NeedsReconcile
    end in
  let? _ := run_lift (fence_crash crash_at FenceCrash_AfterEffectApplied) in
  let? observation := observe_project_fence project_id in
  let? projection := project_fence project_id observation now_ms in
  if projection != Projection_Released then run_err FenceExec_NeedsReconcile
  else run_lift (fence_crash crash_at FenceCrash_AfterObservationPersisted).

Definition release_write_fence (project_id : ProjectId) (attempt_id : Uuid)
    (release_safe_receipt_digest : EvidenceDigest) (crash_at : option FenceCrashPoint) (now_ms : Z)
    : FenceRun unit :=
  let? _ := fence_store (require_recovery project_id) in
  release_write_fence_under_gate project_id attempt_id release_safe_receipt_digest crash_at now_ms.

Definition reconcile_active_fence_for_project_under_gate (token : Uuid) (project_id : ProjectId)
    (now_ms : Z) : FenceRun unit :=
  let? active := fence_store (security_read (active_fence project_id)) in
  match active with
  | None => run_ok tt
  | Some lease =>
      match fl_state lease with
      | Fence_AcquireIntent | Fence_Held =>
          let? _ := acquire_write_fence_under_gate token project_id (fl_attempt_id lease) None now_ms in
          run_ok tt
      | Fence_ReleaseIntent =>
          let? digest := run_lift (ok_or FenceExec_NeedsReconcile (fl_release_safe_receipt_digest lease)) in
          release_write_fence_under_gate project_id (fl_attempt_id lease) digest None now_ms
      | Fence_NeedsReconcile => run_err FenceExec_NeedsReconcile
      | Fence_Released => run_ok tt
      end
  end.

(** [recovered_projects.remove] and [insert]. *)
Definition forget_recovery (project_id : ProjectId) : FenceRun bool :=
  λ w, ([], (w <| h_recovered := h_recovered w ∖ {[project_id]} |>,
             Ok (bool_decide (project_id ∈ h_recovered w)))).
Definition note_recovery (project_id : ProjectId) : FenceRun unit :=
  run_memory (λ w, w <| h_recovered := {[project_id]} ∪ h_recovered w |>) tt.

Definition reconcile_active_fences (tokens : ProjectId → Uuid) (now_ms : Z) : FenceRun unit :=
  let? leases := fence_store (security_read active_fences) in
  run_for_each (λ lease,
    let project_id := fl_project_id lease in
    let? was_recovered := forget_recovery project_id in
    let? _ := reconcile_active_fence_for_project_under_gate (tokens project_id) project_id now_ms in
    if was_recovered : bool then note_recovery project_id else run_ok tt) leases.

(** The projects in order and without repetition. *)
Definition project_asc (a b : ProjectId) : comparison :=
  str_compare (ProjectId_as_str a) (ProjectId_as_str b).

Definition recover_project_fence (tokens : ProjectId → Uuid) (now_ms : Z) (project_id : ProjectId)
    : FenceRun unit :=
  let? _ := forget_recovery project_id in
  let? _ := reconcile_active_fence_for_project_under_gate (tokens project_id) project_id now_ms in
  let? observation := observe_project_fence project_id in
  let? projection := project_fence project_id observation now_ms in
  if projection == Projection_NeedsReconcile then run_err FenceExec_NeedsReconcile
  else note_recovery project_id.

Definition recover_security_state (tokens : ProjectId → Uuid) (project_ids : list ProjectId)
    (now_ms : Z) : FenceRun unit :=
  let project_ids := sort_by project_asc (remove_dups project_ids) in
  match project_ids with
  | [] => run_err (FenceExec_Store (InvalidControllerInput
            "security recovery requires the installed project set"))
  | _ => run_for_each (recover_project_fence tokens now_ms) project_ids
  end.
End Executor.
