(* ===== verification/Coordinator.v ===== *)
(** * The coordinator

    Model of [DurableCoordinator] of [src/src/executor.rs], which drives an attempt of the
    controller through the executor: one call of [advance_once] executes the phase the
    attempt is in and commits its receipt to the controller, or settles what stands in
    the way. *)

From Stdlib Require Import ZArith Lia Ascii String.
From stdpp Require Import base gmap strings option list_numbers list.
From S2P Require Import Prelude Steps Identifiers States Text Failure Operation Errors Budget Controller.
From S2P Require Import SecurityDb Resources Fences Ordered PhaseJournal SourceDb ExecutorBase Executor.

Local Open Scope Z_scope.
Local Open Scope rust_scope.

Inductive CutoverPreparation : Type :=
| Cutover_Ready (operation : OperationRecord)
| Cutover_Settled (operation : OperationRecord).

(** The fresh tokens one call may use: for the identity of a phase and for a fence. *)
Record FreshTokens : Type := MkFreshTokens {
  ft_identity : Uuid;
  ft_fence : Uuid
}.

Section Coordinator.
Context `{!ExecutorCodecs} {A G : Type} `{!ExternalEffects A, !LiveSourceGate G}.
Context (disk_space_probe : option (ProjectId → Z → Result StoreError DiskAvailabilityObservation)).

Abbreviation CoordinatorRun := (Run (Host A G) Event CoordinatorError) (only parsing).
Abbreviation execute_phase_under_gate := (execute_phase_under_gate disk_space_probe) (only parsing).

(** [?] on the errors of the parts. *)
Definition in_store {B} (m : Run (Host A G) Event StoreError B) : CoordinatorRun B :=
  run_map_err Coordinator_Store m.
Definition in_executor {B} (m : Run (Host A G) Event PhaseExecutionError B) : CoordinatorRun B :=
  run_map_err Coordinator_Executor m.
Definition in_fence {B} (m : Run (Host A G) Event FenceExecutionError B) : CoordinatorRun B :=
  run_map_err Coordinator_Fence m.

Definition require_operation (attempt_id : Uuid) : CoordinatorRun OperationRecord :=
  let? found := in_store (control_read (operation attempt_id)) in
  run_lift (ok_or (Coordinator_Store (OperationNotFound attempt_id)) found).

Definition coordinator_begin_rollback (attempt_id : Uuid) (crash_at : option CoordinatorCrashPoint)
    (now_ms : Z) : CoordinatorRun OperationRecord :=
  let? current := require_operation attempt_id in
  let? _ := in_store (require_recovery (op_project_id current)) in
  let? _ :=
    (if os_phase (op_state current) == Phase_Reconciliation then
       let? receipt := in_executor (reconcile_committed_live_source_mutation_under_gate current now_ms) in
       match receipt with
       | Some receipt =>
           let? _ := in_store (control_step (commit_reconciled_phase_receipt receipt now_ms)) in
           run_ok tt
       | None => run_ok tt
       end
     else run_ok tt) in
  let? validated := in_store (control_read (validate_rollback attempt_id)) in
  let? authorization_digest := in_store (run_lift (executor_authorization_digest validated)) in
  let? _ := in_store (security_step (begin_rollback_takeover (op_attempt_id validated)
                        (op_project_id validated) authorization_digest now_ms)) in
  let? _ := run_lift (coordinator_crash crash_at CoordinatorCrash_AfterSecurityReceipt) in
  let? rollback := in_store (control_step (begin_rollback attempt_id now_ms)) in
  let? _ := run_lift (coordinator_crash crash_at CoordinatorCrash_AfterControllerProjection) in
  run_ok rollback.

Definition settle_non_executable_operation_under_gate (operation : OperationRecord) (now_ms : Z)
    : CoordinatorRun bool :=
  let state := op_state operation in
  if os_result state != Result_Running then
    let? unresolved :=
      (if os_phase state == Phase_Reconciliation then
         let? reconciled := run_result (reconcile_committed_live_source_mutation_under_gate
                                          operation now_ms) in
         match reconciled with
         | Ok _ => run_ok false
         | Err Phase_NeedsReconcile => run_ok true
         | Err error => run_err (Coordinator_Executor error)
         end
       else run_ok false) in
    if unresolved : bool then run_ok true
    else
      let? _ := in_store (cleanup_terminal_resources_under_gate operation now_ms) in
      run_ok true
  else if os_phase state == Phase_Reconciliation then
    let? reconciled := run_result (reconcile_committed_live_source_mutation_under_gate
                                     operation now_ms) in
    match reconciled with
    | Ok (Some receipt) =>
        let? _ := in_store (control_step (commit_reconciled_phase_receipt receipt now_ms)) in
        run_ok true
    | Ok None | Err Phase_NeedsReconcile => run_ok true
    | Err error => run_err (Coordinator_Executor error)
    end
  else
    run_ok ((os_blocking_reason state != Blocking_None)
            && negb (is_retryable_source_block (os_blocking_reason state))).

Definition prepare_cutover_under_gate (token : Uuid) (operation : OperationRecord) (now_ms : Z)
    : CoordinatorRun CutoverPreparation :=
  let attempt_id := op_attempt_id operation in
  let project_id := op_project_id operation in
  let? refreshed := run_result (refresh_stateful_source_before_fence_under_gate operation now_ms) in
  match refreshed with
  | Err (Phase_Source Gate_Unavailable) =>
      let? settled := in_store (control_step (set_stateful_cutover_source_block attempt_id now_ms)) in
      run_ok (Cutover_Settled settled)
  | Err Phase_NeedsReconcile | Err (Phase_Source _) =>
      let? settled := in_store (control_step (Controller.mark_needs_reconcile attempt_id
                        (reconciliation_capsule (os_phase (op_state operation))) now_ms)) in
      run_ok (Cutover_Settled settled)
  | Err error => run_err (Coordinator_Executor error)
  | Ok _ =>
      let? _ := in_store (control_step (clear_stateful_cutover_source_block attempt_id now_ms)) in
      let? _ := in_fence (acquire_write_fence_under_gate token project_id attempt_id None now_ms) in
      let? found := in_store (security_read (fence_acquisition_receipt project_id attempt_id)) in
      let? fence_receipt := run_lift (ok_or (Coordinator_Fence FenceExec_NeedsReconcile) found) in
      let? prepared := in_store (control_step (record_fence_acquisition attempt_id fence_receipt now_ms)) in
      run_ok (Cutover_Ready prepared)
  end.

(** Soaking ends the write fence of the attempt. *)
Definition release_soaked_fence (operation : OperationRecord) (receipt : PhaseReceipt) (now_ms : Z)
    : CoordinatorRun unit :=
  if os_phase (op_state operation) == Phase_Soaking then
    let? active := in_store (security_read (active_fence (op_project_id operation))) in
    match active with
    | Some fence =>
        if fl_attempt_id fence == op_attempt_id operation
        then in_fence (release_write_fence_under_gate (op_project_id operation)
                         (op_attempt_id operation) (pr_receipt_digest receipt) None now_ms)
        else run_err (Coordinator_Fence FenceExec_NeedsReconcile)
    | None => run_ok tt
    end
  else run_ok tt.

(** The receipt of a phase reaches the controller. *)
Definition project_receipt (operation : OperationRecord) (receipt : PhaseReceipt)
    (crash_at : option CoordinatorCrashPoint) (now_ms : Z) : CoordinatorRun OperationRecord :=
  let? _ := release_soaked_fence operation receipt now_ms in
  let? _ := run_lift (coordinator_crash crash_at CoordinatorCrash_AfterSecurityReceipt) in
  let? projected := in_store (control_step (commit_phase_receipt receipt now_ms)) in
  let? _ := run_lift (coordinator_crash crash_at CoordinatorCrash_AfterControllerProjection) in
  let? _ := (if os_result (op_state projected) != Result_Running
             then in_store (cleanup_terminal_resources_under_gate projected now_ms)
             else run_ok tt) in
  run_ok projected.

(** A phase that did not end in a receipt. *)
Definition settle_failed_phase (attempt_id : Uuid) (operation : OperationRecord)
    (error : PhaseExecutionError) (now_ms : Z) : CoordinatorRun OperationRecord :=
  match error with
  | Phase_NeedsReconcile =>
      in_store (control_step (Controller.mark_needs_reconcile attempt_id
                  (reconciliation_capsule (os_phase (op_state operation))) now_ms))
  | Phase_Source Gate_HeadSuperseded =>
      let? superseded := in_store (control_step (supersede_source_attempt (op_attempt_id operation)
                           (source_failure_capsule Gate_HeadSuperseded) now_ms)) in
      let? _ := in_store (cleanup_terminal_resources_under_gate superseded now_ms) in
      run_ok superseded
  | Phase_Source error =>
      in_store (control_step (set_source_block (op_attempt_id operation)
                  (source_blocking_reason error) now_ms))
  | Phase_Store (DiskReservationCapacity _ _) =>
      in_store (control_step (set_disk_block attempt_id now_ms))
  | error => run_err (Coordinator_Executor error)
  end.

Definition execute_and_project (token : Uuid) (attempt_id : Uuid) (operation : OperationRecord)
    (phase_crash_at : option PhaseCrashPoint) (coordinator_crash_at : option CoordinatorCrashPoint)
    (now_ms : Z) : CoordinatorRun OperationRecord :=
  let? executed := run_result (execute_phase_under_gate token operation phase_crash_at now_ms) in
  match executed with
  | Ok receipt => project_receipt operation receipt coordinator_crash_at now_ms
  | Err error => settle_failed_phase attempt_id operation error now_ms
  end.

Definition advance_once (tokens : FreshTokens) (attempt_id : Uuid)
    (phase_crash_at : option PhaseCrashPoint) (coordinator_crash_at : option CoordinatorCrashPoint)
    (now_ms : Z) : CoordinatorRun OperationRecord :=
  let? _ := require_operation attempt_id in
  let? operation := require_operation attempt_id in
  let? _ := in_store (require_recovery (op_project_id operation)) in
  let? settled := settle_non_executable_operation_under_gate operation now_ms in
  if settled : bool then require_operation attempt_id
  else if os_phase (op_state operation) == Phase_CutoverSnapshotting then
    let? preparation := prepare_cutover_under_gate (ft_fence tokens) operation now_ms in
    match preparation with
    | Cutover_Ready prepared =>
        execute_and_project (ft_identity tokens) attempt_id prepared phase_crash_at
          coordinator_crash_at now_ms
    | Cutover_Settled settled => run_ok settled
    end
  else execute_and_project (ft_identity tokens) attempt_id operation phase_crash_at
         coordinator_crash_at now_ms.

Definition fail_before_mutation (attempt_id : Uuid) (failure_capsule : FailureCapsule) (now_ms : Z)
    : CoordinatorRun OperationRecord :=
  let? current := require_operation attempt_id in
  let? _ := in_store (require_recovery (op_project_id current)) in
  let? operation := in_store (control_step (fail_attempt attempt_id failure_capsule now_ms)) in
  let? _ := in_store (cleanup_terminal_resources operation now_ms) in
  run_ok operation.

Definition coordinator_cancel_before_mutation (attempt_id : Uuid) (now_ms : Z)
    : CoordinatorRun OperationRecord :=
  let? current := require_operation attempt_id in
  let? _ := in_store (require_recovery (op_project_id current)) in
  let? operation := in_store (control_step (cancel_before_mutation attempt_id now_ms)) in
  let? _ := in_store (cleanup_terminal_resources operation now_ms) in
  run_ok operation.

Definition retry_disk_reservation (attempt_id : Uuid) (now_ms : Z) : CoordinatorRun OperationRecord :=
  let? current := require_operation attempt_id in
  let? _ := in_store (require_recovery (op_project_id current)) in
  in_store (control_step (clear_disk_block attempt_id now_ms)).
End Coordinator.
