(* ===== verification/ModelEffects.v ===== *)
(** * The executor: model effects and the broker's gate

    [DeterministicModelEffects] of [src/src/executor.rs], the outside world the source's
    own tests run against, as an instance of [ExternalEffects]; and the source broker as
    an instance of [LiveSourceGate] ([impl LiveSourceGate for DurableSourceBroker] of
    [src/src/source.rs]). *)

From Stdlib Require Import ZArith Lia Ascii String.
From stdpp Require Import base gmap strings option list_numbers list.
From S2P Require Import Prelude Steps Identifiers States Text Failure Operation Errors Budget Controller.
From S2P Require Import SecurityDb Resources Fences Ordered PhaseJournal SourceDb Source SourceRepository SourceBroker SourceIngress ExecutorBase.

Local Open Scope Z_scope.
Local Open Scope rust_scope.

(** ** Model effects *)

Definition u32_saturating_add (a b : Z) : Z := Z.min u32_max (a + b).

Record ModelFence : Type := MkModelFence {
  mf_attempt_id : Uuid;
  mf_epoch : Z;
  mf_token : Uuid
}.

Record ModelState : Type := MkModelState {
  ms_phase_effects : gmap (Uuid * string) PhaseEffectEvidence;
  ms_phase_artifact_outputs : gmap (Uuid * string) PhaseArtifacts;
  ms_phase_apply_attempts : gmap (Uuid * string) Z;
  ms_phase_failures_before_effect : gset (Uuid * string);
  ms_phase_observations_hidden_once_after_apply : gset (Uuid * string);
  ms_phase_mutations : gmap (Uuid * string) Z;
  ms_fences : gmap ProjectId ModelFence
}.
#[global] Instance ModelState_eta : Eta ModelState := λ s,
  MkModelState (ms_phase_effects s) (ms_phase_artifact_outputs s) (ms_phase_apply_attempts s)
    (ms_phase_failures_before_effect s) (ms_phase_observations_hidden_once_after_apply s)
    (ms_phase_mutations s) (ms_fences s).

Definition ModelState_default : ModelState := MkModelState ∅ ∅ ∅ ∅ ∅ ∅ ∅.

Definition model_phase_key (branch : ExecutorPhaseBranch) (phase : OperationPhase)
    : Result ExternalEffectError string :=
  map_err (λ _, Effect_ConflictingState) (storage_key branch phase).

(** [entry(key).or_default()] and [saturating_add(1)]. *)
Definition count (key : Uuid * string) (counters : gmap (Uuid * string) Z) : gmap (Uuid * string) Z :=
  <[key := u32_saturating_add (default 0 (counters !! key)) 1]> counters.

Section ModelEffects.
Context `{!Sha256}.

Definition text_digest (text : string) : EvidenceDigest := EvidenceDigest_sha256 (as_bytes text).

Definition deterministic_phase_artifacts (intent : PhaseIntent) : PhaseArtifacts :=
  let phase_evidence (label : string) :=
    Some (text_digest ("rdashboard.deterministic-effect.v1:" ++ label ++ ":"
                       ++ EvidenceDigest_as_str (in_digest intent))%string) in
  let release_digest (label : string) :=
    text_digest ("rdashboard.deterministic-release.v1:" ++ label ++ ":"
                 ++ ProjectId_as_str (in_project_id intent) ++ ":"
                 ++ uuid_to_string (in_attempt_id intent))%string in
  let release_evidence (label : string) := Some (release_digest label) in
  let none := PhaseArtifacts_default in
  match in_phase intent with
  | Phase_Testing =>
      none <| pa_source_export_digest := release_evidence "source-export" |>
           <| pa_prefetch_evidence_digest := release_evidence "prefetch" |>
           <| pa_ci_evidence_digest := phase_evidence "ci" |>
           <| pa_build_context_digest := release_evidence "context" |>
           <| pa_resource_reservation_digest := release_evidence "resource-reservation" |>
           <| pa_base_image_digests := [release_digest "base-image"] |>
  | Phase_Building =>
      none <| pa_build_context_digest := release_evidence "context" |>
           <| pa_build_plan_digest := phase_evidence "build-plan" |>
           <| pa_image_digest := phase_evidence "image" |>
           <| pa_image_id_digest := phase_evidence "image-id" |>
           <| pa_base_image_digests := [release_digest "base-image"] |>
  | Phase_Preflight =>
      none <| pa_resource_reservation_digest := release_evidence "resource-reservation" |>
  | Phase_BackingUp =>
      none <| pa_backup_set_id := Some (in_attempt_id intent) |>
           <| pa_base_backup_id := Some (N.lxor (in_attempt_id intent) 1) |>
           <| pa_base_backup_manifest_digest := phase_evidence "base-backup-manifest" |>
           <| pa_base_backup_evidence_digest := phase_evidence "base-backup-evidence" |>
           <| pa_base_backup_offsite_evidence_digest := phase_evidence "base-backup-offsite" |>
           <| pa_base_backup_verification_digest := phase_evidence "base-backup-verification" |>
  | Phase_Draining => none <| pa_drain_evidence_digest := phase_evidence "drain" |>
  | Phase_CutoverSnapshotting =>
      none <| pa_backup_set_id := pip_backup_set_id (in_payload intent) |>
           <| pa_cutover_backup_id := Some (N.lxor (in_attempt_id intent) 2) |>
           <| pa_cutover_backup_manifest_digest := phase_evidence "cutover-backup-manifest" |>
           <| pa_cutover_backup_evidence_digest := phase_evidence "cutover-backup-evidence" |>
           <| pa_cutover_backup_verification_digest := phase_evidence "cutover-backup-verification" |>
           <| pa_fencing_epoch := pip_fencing_epoch (in_payload intent) |>
  | Phase_Migrating => none <| pa_schema_version := Some "deterministic-schema-v1"%string |>
  | Phase_Deploying =>
      none <| pa_deployment_plan_digest := phase_evidence "deployment-plan" |>
           <| pa_release_bundle_digest := release_evidence "release-bundle" |>
  | Phase_HealthChecking => none <| pa_health_evidence_digest := phase_evidence "health" |>
  | _ => none
  end.

Definition phase_application_attempts_in_branch (attempt_id : Uuid) (phase : OperationPhase)
    (branch : ExecutorPhaseBranch) (s : ModelState) : Result ExternalEffectError Z :=
  let? key := model_phase_key branch phase in
  Ok (default 0 (ms_phase_apply_attempts s !! (attempt_id, key))).

Definition phase_application_attempts (attempt_id : Uuid) (phase : OperationPhase) (s : ModelState)
    : Result ExternalEffectError Z :=
  phase_application_attempts_in_branch attempt_id phase Branch_Primary s.

Definition phase_mutations_in_branch (attempt_id : Uuid) (phase : OperationPhase)
    (branch : ExecutorPhaseBranch) (s : ModelState) : Result ExternalEffectError Z :=
  let? key := model_phase_key branch phase in
  Ok (default 0 (ms_phase_mutations s !! (attempt_id, key))).

Definition phase_mutations (attempt_id : Uuid) (phase : OperationPhase) (s : ModelState)
    : Result ExternalEffectError Z :=
  phase_mutations_in_branch attempt_id phase Branch_Primary s.

Definition force_phase_effect (attempt_id : Uuid) (phase : OperationPhase) (digest : EvidenceDigest)
    (s : ModelState) : ModelState :=
  s <| ms_phase_effects := <[(attempt_id, phase_name phase) := {|
        ee_observation_digest := text_digest ("forced-observation:" ++ EvidenceDigest_as_str digest);
        ee_intent_digest := digest;
        ee_artifacts := PhaseArtifacts_default |}]> (ms_phase_effects s) |>.

Definition set_phase_artifacts (attempt_id : Uuid) (phase : OperationPhase) (artifacts : PhaseArtifacts)
    (s : ModelState) : ModelState :=
  s <| ms_phase_artifact_outputs :=
        <[(attempt_id, phase_name phase) := artifacts]> (ms_phase_artifact_outputs s) |>.

Definition fail_next_phase_before_effect (attempt_id : Uuid) (phase : OperationPhase) (s : ModelState)
    : ModelState :=
  s <| ms_phase_failures_before_effect :=
        {[(attempt_id, phase_name phase)]} ∪ ms_phase_failures_before_effect s |>.

Definition hide_next_applied_phase_observation_in_branch (attempt_id : Uuid) (phase : OperationPhase)
    (branch : ExecutorPhaseBranch) (s : ModelState) : Result ExternalEffectError ModelState :=
  let? key := model_phase_key branch phase in
  Ok (s <| ms_phase_observations_hidden_once_after_apply :=
            {[(attempt_id, key)]} ∪ ms_phase_observations_hidden_once_after_apply s |>).

Definition hide_next_applied_phase_observation (attempt_id : Uuid) (phase : OperationPhase)
    (s : ModelState) : Result ExternalEffectError ModelState :=
  hide_next_applied_phase_observation_in_branch attempt_id phase Branch_Primary s.

Definition force_fence (project_id : ProjectId) (attempt_id : Uuid) (epoch : Z) (token : Uuid)
    (s : ModelState) : ModelState :=
  s <| ms_fences := <[project_id := MkModelFence attempt_id epoch token]> (ms_fences s) |>.

Definition model_observe_phase (intent : PhaseIntent) (s : ModelState)
    : ModelState * Result ExternalEffectError EffectObservation :=
  match model_phase_key (in_branch intent) (in_phase intent) with
  | Err e => (s, Err e)
  | Ok name =>
      let key := (in_attempt_id intent, name) in
      if is_some (ms_phase_effects s !! key)
         && bool_decide (key ∈ ms_phase_observations_hidden_once_after_apply s)
      then (s <| ms_phase_observations_hidden_once_after_apply :=
                   ms_phase_observations_hidden_once_after_apply s ∖ {[key]} |>, Ok Effect_Absent)
      else (s, Ok match ms_phase_effects s !! key with
                  | Some evidence => Effect_Applied evidence
                  | None => Effect_Absent
                  end)
  end.

Definition model_apply_phase (intent : PhaseIntent) (s : ModelState)
    : ModelState * Result ExternalEffectError unit :=
  match model_phase_key (in_branch intent) (in_phase intent) with
  | Err e => (s, Err e)
  | Ok name =>
      let key := (in_attempt_id intent, name) in
      let s := s <| ms_phase_apply_attempts := count key (ms_phase_apply_attempts s) |> in
      if bool_decide (key ∈ ms_phase_failures_before_effect s)
      then (s <| ms_phase_failures_before_effect := ms_phase_failures_before_effect s ∖ {[key]} |>,
            Err Effect_ConflictingState)
      else
        match ms_phase_effects s !! key with
        | Some existing =>
            if ee_intent_digest existing == in_digest intent then (s, Ok tt)
            else (s, Err Effect_ConflictingState)
        | None =>
            let artifacts := default (deterministic_phase_artifacts intent)
                               (ms_phase_artifact_outputs s !! key) in
            let evidence := {|
              ee_intent_digest := in_digest intent;
              ee_observation_digest := text_digest ("model-observation:"
                                         ++ EvidenceDigest_as_str (in_digest intent));
              ee_artifacts := artifacts |} in
            (s <| ms_phase_effects := <[key := evidence]> (ms_phase_effects s) |>
               <| ms_phase_mutations := count key (ms_phase_mutations s) |>, Ok tt)
        end
  end.

Definition model_observe_fence (project_id : ProjectId) (s : ModelState)
    : ModelState * Result ExternalEffectError FenceObservation :=
  (s, Ok match ms_fences s !! project_id with
         | Some fence => Observed_Held (mf_attempt_id fence) (mf_epoch fence) (mf_token fence)
         | None => Observed_Released
         end).

Definition fence_is (fence : ModelFence) (lease : FenceLease) : bool :=
  (mf_attempt_id fence == fl_attempt_id lease) && (mf_epoch fence == fl_epoch lease)
  && (mf_token fence == fl_token lease).

Definition model_acquire_fence (lease : FenceLease) (s : ModelState)
    : ModelState * Result ExternalEffectError unit :=
  match ms_fences s !! fl_project_id lease with
  | Some existing => if fence_is existing lease then (s, Ok tt) else (s, Err Effect_ConflictingState)
  | None =>
      (s <| ms_fences := <[fl_project_id lease :=
             MkModelFence (fl_attempt_id lease) (fl_epoch lease) (fl_token lease)]> (ms_fences s) |>,
       Ok tt)
  end.

Definition model_release_fence (lease : FenceLease) (s : ModelState)
    : ModelState * Result ExternalEffectError unit :=
  match ms_fences s !! fl_project_id lease with
  | Some existing =>
      if fence_is existing lease
      then (s <| ms_fences := delete (fl_project_id lease) (ms_fences s) |>, Ok tt)
      else (s, Err Effect_ConflictingState)
  | None => (s, Ok tt)
  end.

(** The methods with an operation identity have the trait's default bodies. *)
#[global] Instance DeterministicModelEffects : ExternalEffects ModelState := {|
  observe_phase := model_observe_phase;
  apply_phase := model_apply_phase;
  observe_phase_with_operation_identity intent _ := model_observe_phase intent;
  apply_phase_with_operation_identity intent _ := model_apply_phase intent;
  observe_fence := model_observe_fence;
  acquire_fence := model_acquire_fence;
  release_fence := model_release_fence |}.
End ModelEffects.

(** ** The broker as a gate *)

Section BrokerGate.
Context `{!SourceCodecs, !SourceCrypto} {R : Type} `{!SourceRepository R}.

(** A call of the broker as one step: what it leaves and what it answers. *)
Definition as_step {E B} (m : Call E R B) (w : World R) : World R * Result E B := (m w).2.

Definition broker_gate (lock_trusted : Result SourceError unit) (broker : DurableSourceBroker)
    : LiveSourceGate (World R) := {|
  gate_check_live operation now_ms := as_step (check_live lock_trusted broker operation now_ms);
  gate_complete_live operation := as_step (complete_live lock_trusted broker operation);
  gate_abort_live operation := as_step (abort_live lock_trusted broker operation) |}.
End BrokerGate.
