(* ===== verification/ExecutorLogic.v ===== *)
(** * The executor: reasoning about calls

    [run_triple I S P m Q]: from a world with [I] and [P], every step of [m] has [S] and
    leaves [I], and if [m] returns [a] the last world has [Q a].  The operations of the
    security store write disjoint groups of tables: the phase tables, the resources and
    the fences; each is a step of the phase journal and of the fence journal at once
    ([security_move]). *)

From Stdlib Require Import ZArith Lia Ascii String.
From stdpp Require Import base gmap strings option list_numbers list relations.
From S2P Require Import Prelude TxLogic Steps Identifiers States Text Failure Operation Errors Budget Controller.
From S2P Require Import ControlStore SecurityDb Resources ResourceSpec Fences FenceSpec Ordered Backup.
From S2P Require Import PhaseAuthority PhaseJournal PhaseJournalSpec SourceDb ExecutorBase Executor Coordinator.

Local Open Scope Z_scope.
Local Open Scope rust_scope.

(** ** Triples *)

Section RunLogic.
Context {W Ev : Type} (I : W → Prop) (S : Step W Ev → Prop).

Definition run_triple {E A} (P : W → Prop) (m : Run W Ev E A) (Q : A → W → Prop) : Prop :=
  ∀ w, I w → P w →
    Forall (λ st, S st ∧ I (st_after st)) (m w).1 ∧ I (m w).2.1
    ∧ ∀ a, (m w).2.2 = Ok a → Q a (m w).2.1.

(** Any answer, nothing to show of it. *)
Definition run_safe {E A} (m : Run W Ev E A) : Prop := run_triple (λ _, True) m (λ _ _, True).

Lemma run_triple_bind {E A B} P (Q : A → W → Prop) (T : B → W → Prop) (m : Run W Ev E A)
    (f : A → Run W Ev E B) :
  run_triple P m Q → (∀ a, run_triple (Q a) (f a) T) → run_triple P (mbind f m) T.
Proof.
  intros Hm Hf w Hi Hp. destruct (Hm w Hi Hp) as (Hsteps & Hlast & Hq).
  unfold mbind, run_bind. destruct (m w) as [steps [w' [a|e]]]; simpl in *.
  - destruct (Hf a w' Hlast (Hq a eq_refl)) as (Hsteps' & Hlast' & Ht).
    destruct (f a w') as [steps' [w'' r]]; simpl in *. split; [|done]. by apply Forall_app.
  - split; [done|]. split; [done|]. by intros b [=].
Qed.

Lemma run_triple_weaken {E A} (P P' : W → Prop) (Q Q' : A → W → Prop) (m : Run W Ev E A) :
  (∀ w, P' w → P w) → (∀ a w, Q a w → Q' a w) → run_triple P m Q → run_triple P' m Q'.
Proof. intros HP HQ Hm w Hi Hp. destruct (Hm w Hi (HP w Hp)) as (?&?&?). naive_solver. Qed.

Lemma run_triple_pure {E A} (φ : Prop) P (m : Run W Ev E A) Q :
  (φ → run_triple P m Q) → run_triple (λ w, P w ∧ φ) m Q.
Proof. intros Hm w Hi [Hp Hφ]. by apply Hm. Qed.

(** Name a value of the first world. *)
Lemma run_triple_named {E A X} (f : W → X) P (m : Run W Ev E A) Q :
  (∀ x, run_triple (λ w, P w ∧ f w = x) m Q) → run_triple P m Q.
Proof. intros Hm w Hi Hp. by apply (Hm (f w)). Qed.

Lemma run_triple_ok {E A} P (a : A) Q :
  (∀ w, I w → P w → Q a w) → run_triple P (run_ok a : Run W Ev E A) Q.
Proof. intros HQ w Hi Hp. split; [constructor|]. split; [done|]. intros b [= <-]. by apply HQ. Qed.

Lemma run_triple_err {E A} P (e : E) Q : run_triple P (run_err e : Run W Ev E A) Q.
Proof. intros w Hi Hp. split; [constructor|]. by split. Qed.

Lemma run_triple_lift {E A} P (r : Result E A) Q :
  (∀ a w, r = Ok a → I w → P w → Q a w) → run_triple P (run_lift r) Q.
Proof. intros HQ w Hi Hp. split; [constructor|]. split; [done|]. intros b Hb. by apply HQ. Qed.

Lemma run_triple_read {E A} P (f : W → Result E A) Q :
  (∀ a w, f w = Ok a → I w → P w → Q a w) → run_triple P (run_read f) Q.
Proof. intros HQ w Hi Hp. split; [constructor|]. split; [done|]. intros b Hb. by apply HQ. Qed.

Lemma run_triple_step {E A} P ev (f : W → W * Result E A) Q :
  (∀ w w' r, f w = (w', r) → I w → P w →
     S (MkStep w ev w') ∧ I w' ∧ ∀ a, r = Ok a → Q a w') →
  run_triple P (run_step ev f) Q.
Proof.
  intros Hf w Hi Hp. unfold run_step. destruct (f w) as [w' r] eqn:E0.
  destruct (Hf _ _ _ E0 Hi Hp) as (Hs & Hi' & HQ). simpl. split; [by repeat constructor|]. by split.
Qed.

Lemma run_triple_map_err {E F A} P (f : E → F) (m : Run W Ev E A) Q :
  run_triple P m Q → run_triple P (run_map_err f m) Q.
Proof.
  intros Hm w Hi Hp. destruct (Hm w Hi Hp) as (?&?&Hq). unfold run_map_err.
  destruct (m w) as [steps [w' [a|e]]]; simpl in *; (split; [done|]); (split; [done|]); [|done].
  intros b [= <-]. by apply Hq.
Qed.

Lemma run_triple_result {E F A} P (m : Run W Ev E A) Q :
  run_triple P m Q → run_triple P (run_result m : Run W Ev F _) (λ r w, ∀ a, r = Ok a → Q a w).
Proof.
  intros Hm w Hi Hp. destruct (Hm w Hi Hp) as (?&?&Hq). unfold run_result.
  destruct (m w) as [steps [w' r]]. simpl in *. split; [done|]. split; [done|]. by intros b [= <-].
Qed.

Lemma run_triple_for_each {E A} P (f : A → Run W Ev E unit) l :
  (∀ x, x ∈ l → run_triple P (f x) (λ _, P)) → run_triple P (run_for_each f l) (λ _, P).
Proof.
  induction l as [|x l IH]; intros Hf; simpl; [by apply run_triple_ok|].
  eapply run_triple_bind; [apply Hf; set_solver|]. intros u. apply IH. set_solver.
Qed.

(** Composition of calls of which nothing is to show but their steps. *)
Lemma run_safe_bind {E A B} (m : Run W Ev E A) (f : A → Run W Ev E B) :
  run_safe m → (∀ a, run_safe (f a)) → run_safe (mbind f m).
Proof. intros Hm Hf. by apply (run_triple_bind _ (λ _ _, True)). Qed.

Lemma run_triple_safe {E A} P (m : Run W Ev E A) : run_safe m → run_triple P m (λ _ _, True).
Proof. by apply run_triple_weaken. Qed.

Lemma run_safe_ok {E A} (a : A) : run_safe (run_ok a : Run W Ev E A).
Proof. by apply run_triple_ok. Qed.
Lemma run_safe_err {E A} (e : E) : run_safe (run_err e : Run W Ev E A).
Proof. apply run_triple_err. Qed.
Lemma run_safe_lift {E A} (r : Result E A) : run_safe (run_lift r : Run W Ev E A).
Proof. by apply run_triple_lift. Qed.
Lemma run_safe_read {E A} (f : W → Result E A) : run_safe (run_read f : Run W Ev E A).
Proof. by apply run_triple_read. Qed.
Lemma run_safe_map_err {E F A} (f : E → F) (m : Run W Ev E A) : run_safe m → run_safe (run_map_err f m).
Proof. apply run_triple_map_err. Qed.
Lemma run_safe_result {E F A} (m : Run W Ev E A) : run_safe m → run_safe (run_result m : Run W Ev F _).
Proof. intros Hm. eapply run_triple_weaken; [..|by apply run_triple_result]; done. Qed.
Lemma run_safe_for_each {E A} (f : A → Run W Ev E unit) l :
  (∀ x, run_safe (f x)) → run_safe (run_for_each f l).
Proof.
  intros Hf. eapply run_triple_weaken; [..|apply (run_triple_for_each (λ _, True))]; try done.
  intros x _. apply Hf.
Qed.
End RunLogic.

(** Calls that stay within the steps the hints know. *)
Create HintDb run_safe.
#[export] Hint Resolve run_safe_ok run_safe_err run_safe_lift run_safe_read : run_safe.
Ltac run_safe_step :=
  match goal with
  | |- ∀ _, _ => intro
  | |- run_safe _ _ (let _ := _ in _) => cbv zeta
  | |- run_safe _ _ (mbind _ _) => apply run_safe_bind
  | |- run_safe _ _ (run_map_err _ _) => apply run_safe_map_err
  | |- run_safe _ _ (run_result _) => apply run_safe_result
  | |- run_safe _ _ (run_for_each _ _) => apply run_safe_for_each
  | |- run_safe _ _ (if ?b then _ else _) => destruct b
  | |- run_safe _ _ (match ?x with _ => _ end) => destruct x
  | |- run_safe _ _ _ => solve [eauto with run_safe]
  end.
Ltac run_safe_steps := repeat run_safe_step.

(** ** Groups of tables *)

Section SecurityMoves.
Context `{!PhaseCodecs}.

(** The tables of the phase journal, all of them but the backup boundaries. *)
Definition phase_tables (db : SecurityDb) :=
  ((executor_phase_journal db, executor_phase_receipts db, executor_rollback_takeovers db),
   (authorized_phase_specs db, verified_backup_chains db, consumed_mutation_grants db,
    project_bootstrap_ledger db, source_trust_highwater db),
   (source_gate_proofs db, source_gate_rejections db)).
Definition resource_tables (db : SecurityDb) :=
  (execution_resources db, execution_resource_receipts db, active_disk_reservations db).
Definition fence_tables (db : SecurityDb) := (fence_journal db, drain_identity_journal db).

(** What each group of operations leaves alone. *)
Definition outside_resources (db : SecurityDb) :=
  (phase_tables db, fence_tables db, fence_epoch db, backup_boundary_journal db,
   executor_authorizations db).
Definition outside_fences (db : SecurityDb) :=
  (phase_tables db, resource_tables db, backup_boundary_journal db, executor_authorizations db).
Definition outside_phases (db : SecurityDb) :=
  (resource_tables db, fence_tables db, executor_authorizations db).

Definition keeps {T} (f : SecurityDb → T) (db db' : SecurityDb) : Prop := f db' = f db.

#[global] Instance keeps_preorder {T} (f : SecurityDb → T) : PreOrder (keeps f).
Proof. unfold keeps. split; [by intros db|]. intros db1 db2 db3. congruence. Qed.

Lemma tx_rel_query {A} (R : relation SecurityDb) `{!Reflexive R} (f : SecurityDb → Result StoreError A) :
  tx_rel R (query f).
Proof. intros db a db' Hok. by apply query_Ok in Hok as [_ ->]. Qed.

Lemma keeps_modify {T} (f : SecurityDb → T) (g : SecurityDb → SecurityDb) :
  (∀ db, f (g db) = f db) → tx_rel (keeps f) (modify g : Tx SecurityDb StoreError unit).
Proof. intros Hg. apply tx_rel_modify. exact Hg. Qed.

Local Hint Resolve tx_rel_query : tx_rel.
Local Hint Extern 1 (tx_rel _ (modify _)) => apply keeps_modify; reflexivity : tx_rel.

(** *** Resources *)

Lemma acquire_key_frame key attempt t :
  tx_rel (keeps outside_resources) (acquire_resource_key_in_transaction key attempt t).
Proof. unfold acquire_resource_key_in_transaction. tx_steps. Qed.

Lemma release_key_frame key attempt t :
  tx_rel (keeps outside_resources) (release_resource_key_if_owned_in_transaction key attempt t).
Proof. unfold release_resource_key_if_owned_in_transaction, delete_resource. tx_steps. Qed.

Lemma project_allowed_frame {T} (f : SecurityDb → T) project attempt :
  tx_rel (keeps f) (require_project_resource_allowed project attempt).
Proof. unfold require_project_resource_allowed, require_authorized_for_project. tx_steps. Qed.

Local Hint Resolve acquire_key_frame release_key_frame project_allowed_frame : tx_rel.

Lemma acquire_resource_frame resource attempt t db :
  keeps outside_resources db (acquire_resource resource attempt t db).1.
Proof.
  unfold acquire_resource. apply immediate_transaction_rel; [apply _|].
  unfold acquire_resource_in_transaction, require_authorized. tx_steps.
Qed.

Lemma release_resource_frame resource attempt t db :
  keeps outside_resources db (release_resource_if_owned resource attempt t db).1.
Proof. unfold release_resource_if_owned. apply immediate_transaction_rel; [apply _|]. tx_steps. Qed.

Lemma acquire_disk_frame project attempt observation t db :
  keeps outside_resources db (acquire_disk_reservation project attempt observation t db).1.
Proof.
  unfold acquire_disk_reservation. apply immediate_transaction_rel; [apply _|].
  unfold require_resource_key_owned, update_disk_observation, insert_disk_reservation. tx_steps.
Qed.

Lemma release_disk_frame project attempt t db :
  keeps outside_resources db (release_disk_reservation_if_owned project attempt t db).1.
Proof.
  unfold release_disk_reservation_if_owned. apply immediate_transaction_rel; [apply _|].
  unfold require_resource_key_owned. tx_steps.
Qed.

(** *** Fences *)

Ltac fence_frame :=
  apply immediate_transaction_rel; [apply _|];
  unfold require_authorized_for_project, require_resource_owned, require_fence_phase_receipts,
    require_phase_receipt, promote_drain_identity, promote_drain_row, allocate_fence_identity,
    allocate_next_fence_epoch, insert_drain_identity, insert_fence, set_fence_state, update_fence;
  tx_steps.

Lemma begin_drain_frame token project attempt t db :
  keeps outside_fences db (begin_drain_identity token project attempt t db).1.
Proof. unfold begin_drain_identity. fence_frame. Qed.

Lemma begin_acquire_frame token project attempt t db :
  keeps outside_fences db (begin_fence_acquire token project attempt t db).1.
Proof. unfold begin_fence_acquire. fence_frame. Qed.

Lemma reconcile_fence_frame project observation t db :
  keeps outside_fences db (reconcile_fence project observation t db).1.
Proof. unfold reconcile_fence. fence_frame. Qed.

Lemma begin_release_frame project attempt digest t db :
  keeps outside_fences db (begin_fence_release project attempt digest t db).1.
Proof. unfold begin_fence_release. fence_frame. Qed.

(** *** Phases *)

Lemma with_storage_key_rel {A} (R : relation SecurityDb) `{!Reflexive R} branch phase
    (body : string → Tx SecurityDb StoreError A) db :
  (∀ key, tx_rel R (body key)) → R db (with_storage_key branch phase body db).1.
Proof.
  intros Hbody. unfold with_storage_key. destruct (storage_key branch phase) as [key|e]; [|done].
  by apply immediate_transaction_rel.
Qed.

(** The journals of fences are kept and the counter of epochs only grows. *)
Definition phase_frame (db db' : SecurityDb) : Prop :=
  keeps outside_phases db db' ∧ keeps fence_epoch db db'.

#[global] Instance phase_frame_preorder : PreOrder phase_frame.
Proof.
  split; [by intros db; split|]. intros db1 db2 db3 [H1 H2] [H3 H4]. split; by etrans.
Qed.

Lemma phase_frame_modify (g : SecurityDb → SecurityDb) :
  (∀ db, outside_phases (g db) = outside_phases db ∧ fence_epoch (g db) = fence_epoch db) →
  tx_rel phase_frame (modify g : Tx SecurityDb StoreError unit).
Proof. intros Hg. apply tx_rel_modify. intros db. apply Hg. Qed.

Local Hint Extern 1 (tx_rel _ (modify _)) => apply phase_frame_modify; split; reflexivity : tx_rel.

Lemma update_journal_frame attempt key guard f : tx_rel phase_frame (update_journal attempt key guard f).
Proof. unfold update_journal. tx_steps. Qed.

Lemma mark_at_frame attempt key t : tx_rel phase_frame (mark_phase_needs_reconcile_at attempt key t).
Proof.
  unfold mark_phase_needs_reconcile_at.
  tx_steps; apply update_journal_frame.
Qed.

Lemma require_entry_frame attempt key phase : tx_rel phase_frame (require_phase_entry attempt key phase).
Proof. unfold require_phase_entry. tx_steps. Qed.

Lemma branch_frame attempt branch : tx_rel phase_frame (require_branch_not_taken_over attempt branch).
Proof. unfold require_branch_not_taken_over. tx_steps. Qed.

Lemma prerequisites_frame attempt phase branch plan :
  tx_rel phase_frame (require_phase_prerequisites attempt phase branch plan).
Proof. intros db u db' [-> _]%require_phase_prerequisites_Ok. reflexivity. Qed.

Lemma authorized_frame attempt project digest :
  tx_rel phase_frame (require_authorized_for_project attempt project digest).
Proof. unfold require_authorized_for_project. tx_steps. Qed.

Lemma reject_frame {A} proof key error :
  tx_rel phase_frame (reject_source_gate_proof (A := A) proof key error).
Proof. unfold reject_source_gate_proof. tx_steps; apply mark_at_frame. Qed.

Local Hint Resolve update_journal_frame mark_at_frame require_entry_frame branch_frame
  prerequisites_frame authorized_frame reject_frame : tx_rel.

Lemma begin_intent_frame request db : phase_frame db (begin_phase_intent request db).1.
Proof.
  unfold begin_phase_intent. apply with_storage_key_rel; [apply _|]. intros key.
  unfold has_uncommitted_phase_conflict, insert_journal. tx_steps.
Qed.

Lemma validate_start_frame attempt project phase branch plan digest db :
  phase_frame db (validate_phase_start attempt project phase branch plan digest db).1.
Proof. unfold validate_phase_start. apply immediate_transaction_rel; [apply _|]. tx_steps. Qed.

Lemma record_observation_frame request db :
  phase_frame db (record_phase_observation_in_branch request db).1.
Proof.
  unfold record_phase_observation_in_branch. apply with_storage_key_rel; [apply _|]. tx_steps.
Qed.

Lemma verified_frame attempt phase branch t db :
  phase_frame db (mark_phase_verified_in_branch attempt phase branch t db).1.
Proof.
  unfold mark_phase_verified_in_branch. apply with_storage_key_rel; [apply _|]. tx_steps.
Qed.

Lemma needs_reconcile_frame attempt phase branch t db :
  phase_frame db (mark_phase_needs_reconcile_in_branch attempt phase branch t db).1.
Proof.
  unfold mark_phase_needs_reconcile_in_branch. apply with_storage_key_rel; [apply _|]. tx_steps.
Qed.

Lemma commit_frame attempt phase branch t db :
  phase_frame db (commit_phase_receipt_in_branch attempt phase branch t db).1.
Proof.
  unfold commit_phase_receipt_in_branch. apply with_storage_key_rel; [apply _|]. intros key.
  unfold commit_bootstrap_ledger_if_needed, close_backup_boundary_if_needed, release_boundaries,
    insert_receipt. tx_steps.
Qed.

Lemma takeover_frame attempt project digest t db :
  phase_frame db (begin_rollback_takeover attempt project digest t db).1.
Proof.
  unfold begin_rollback_takeover. apply immediate_transaction_rel; [apply _|].
  unfold require_rollback_fence_available, insert_takeover. tx_steps.
Qed.

Lemma source_proof_frame proof db : phase_frame db (record_source_gate_proof proof db).1.
Proof.
  unfold record_source_gate_proof, flatten_result. simpl. apply with_storage_key_rel; [apply _|].
  unfold validate_source_gate_proof_admission, persist_source_gate_proof, raise_highwater. tx_steps.
Qed.

Lemma compensate_frame attempt project phase branch digest t db :
  phase_frame db (compensate_source_gate_rejection attempt project phase branch digest t db).1.
Proof.
  unfold compensate_source_gate_rejection. case_match; [reflexivity|].
  apply with_storage_key_rel; [apply _|]. tx_steps.
Qed.

Lemma boundary_frame token project attempt t db :
  keeps outside_phases db (begin_backup_boundary token project attempt t db).1.
Proof.
  unfold begin_backup_boundary. apply immediate_transaction_rel; [apply _|].
  unfold require_authorized_for_project, require_resource_owned, require_phase_entry,
    allocate_next_fence_epoch, insert_boundary. tx_steps.
Qed.

(** *** Moves *)

(** A step of the phase journal and of the fence journals. *)
Definition security_move (db db' : SecurityDb) : Prop := step_effect db db' ∧ journal_effect db db'.

Lemma phase_move_of db db' : step_effect db db' → phase_frame db db' → security_move db db'.
Proof.
  intros Heff [Ho He]. injection Ho as _ _ _ Hf Hd _. split; [done|].
  unfold keeps in He. apply effect_none; [done..|lia|lia].
Qed.

Lemma outside_fences_move db db' : keeps outside_fences db db' → journal_effect db db' → security_move db db'.
Proof.
  intros Ho Hj. split; [|done]. injection Ho as H1 H2 H3 H4 H5 H6 H7 H8 _ _ _ _ _ _ _.
  apply phase_tables_same_effect; [done|]. by apply ledgers_same.
Qed.

Lemma outside_resources_move db db' : keeps outside_resources db db' → security_move db db'.
Proof.
  intros Ho. injection Ho as H1 H2 H3 H4 H5 H6 H7 H8 _ _ Hf Hd He _ _. split.
  - apply phase_tables_same_effect; [done|]. by apply ledgers_same.
  - apply effect_none; [done..|lia|lia].
Qed.

Lemma acquire_resource_move resource attempt t db :
  security_move db (acquire_resource resource attempt t db).1.
Proof. apply outside_resources_move, acquire_resource_frame. Qed.
Lemma release_resource_move resource attempt t db :
  security_move db (release_resource_if_owned resource attempt t db).1.
Proof. apply outside_resources_move, release_resource_frame. Qed.
Lemma acquire_disk_move project attempt observation t db :
  security_move db (acquire_disk_reservation project attempt observation t db).1.
Proof. apply outside_resources_move, acquire_disk_frame. Qed.
Lemma release_disk_move project attempt t db :
  security_move db (release_disk_reservation_if_owned project attempt t db).1.
Proof. apply outside_resources_move, release_disk_frame. Qed.

Lemma begin_drain_move token project attempt t db :
  security_move db (begin_drain_identity token project attempt t db).1.
Proof. apply outside_fences_move; [apply begin_drain_frame|]. apply fence_step_effect. constructor. Qed.
Lemma begin_acquire_move token project attempt t db :
  security_move db (begin_fence_acquire token project attempt t db).1.
Proof. apply outside_fences_move; [apply begin_acquire_frame|]. apply fence_step_effect. constructor. Qed.
Lemma reconcile_fence_move project observation t db :
  security_move db (reconcile_fence project observation t db).1.
Proof. apply outside_fences_move; [apply reconcile_fence_frame|]. apply fence_step_effect. constructor. Qed.
Lemma begin_release_move project attempt digest t db :
  security_move db (begin_fence_release project attempt digest t db).1.
Proof. apply outside_fences_move; [apply begin_release_frame|]. apply fence_step_effect. constructor. Qed.

Lemma begin_intent_move request db : security_move db (begin_phase_intent request db).1.
Proof. apply phase_move_of; [apply begin_phase_intent_effect|apply begin_intent_frame]. Qed.
Lemma validate_start_same attempt project phase branch plan digest db :
  (validate_phase_start attempt project phase branch plan digest db).1 = db.
Proof.
  destruct (validate_phase_start _ _ _ _ _ _ db) as [db' [u|e]] eqn:Hok; simpl.
  - apply immediate_transaction_Ok in Hok.
    by apply tx_bind_Ok in Hok as (u1&db1&->%reads_authorized_for_project&[-> _]%require_phase_prerequisites_Ok).
  - by apply immediate_transaction_Err in Hok as ->.
Qed.
Lemma validate_start_move attempt project phase branch plan digest db :
  security_move db (validate_phase_start attempt project phase branch plan digest db).1.
Proof. rewrite validate_start_same. split; [apply step_effect_refl|apply effect_refl]. Qed.
Lemma record_observation_move request db :
  security_move db (record_phase_observation_in_branch request db).1.
Proof. apply phase_move_of; [apply record_phase_observation_effect|apply record_observation_frame]. Qed.
Lemma verified_move attempt phase branch t db :
  security_move db (mark_phase_verified_in_branch attempt phase branch t db).1.
Proof. apply phase_move_of; [apply mark_phase_verified_effect|apply verified_frame]. Qed.
Lemma needs_reconcile_move attempt phase branch t db :
  security_move db (mark_phase_needs_reconcile_in_branch attempt phase branch t db).1.
Proof. apply phase_move_of; [apply mark_phase_needs_reconcile_effect|apply needs_reconcile_frame]. Qed.
Lemma commit_move attempt phase branch t db :
  security_move db (commit_phase_receipt_in_branch attempt phase branch t db).1.
Proof. apply phase_move_of; [apply commit_receipt_in_branch_effect|apply commit_frame]. Qed.
Lemma takeover_move attempt project digest t db :
  security_move db (begin_rollback_takeover attempt project digest t db).1.
Proof. apply phase_move_of; [apply begin_rollback_takeover_effect|apply takeover_frame]. Qed.
Lemma source_proof_move proof db :
  security_move db (record_source_gate_proof proof db).1.
Proof. apply phase_move_of; [apply record_source_gate_proof_effect|apply source_proof_frame]. Qed.
Lemma compensate_move attempt project phase branch digest t db :
  security_move db (compensate_source_gate_rejection attempt project phase branch digest t db).1.
Proof.
  apply phase_move_of; [apply compensate_source_gate_rejection_effect|apply compensate_frame].
Qed.

(** The counter of epochs grows within its range. *)
Definition counter_grows (db db' : SecurityDb) : Prop :=
  fence_epoch db ≤ fence_epoch db' ≤ Z.max (fence_epoch db) i64_max.

#[global] Instance counter_grows_preorder : PreOrder counter_grows.
Proof. unfold counter_grows. split; [intros db; lia|]. intros db1 db2 db3 ??. lia. Qed.

Lemma counter_modify (g : SecurityDb → SecurityDb) :
  (∀ db, fence_epoch (g db) = fence_epoch db) →
  tx_rel counter_grows (modify g : Tx SecurityDb StoreError unit).
Proof. intros Hg. apply tx_rel_modify. intros db. unfold counter_grows. rewrite Hg. lia. Qed.

Lemma allocate_counter : tx_rel counter_grows allocate_next_fence_epoch.
Proof. intros db e db' (_&?&->)%allocate_next_fence_epoch_Ok. unfold counter_grows. simpl. lia. Qed.

Lemma boundary_move token project attempt t db :
  security_move db (begin_backup_boundary token project attempt t db).1.
Proof.
  split; [apply begin_backup_boundary_effect|]. pose proof (boundary_frame token project attempt t db) as Ho.
  injection Ho as _ _ _ Hf Hd _.
  assert (counter_grows db (begin_backup_boundary token project attempt t db).1) as [H1 H2].
  { unfold begin_backup_boundary. apply immediate_transaction_rel; [apply _|].
    unfold require_authorized_for_project, require_resource_owned, require_phase_entry, insert_boundary.
    tx_steps; (apply allocate_counter || by apply counter_modify). }
  by apply effect_none.
Qed.

(** ** The invariant of the security store *)

Context `{!JsonRoundTrip PhaseArtifacts, !JsonRoundTrip PhaseReceipt}.

Definition security_ok (db : SecurityDb) : Prop := journal_inv db ∧ fence_inv db.

Lemma security_move_ok db db' : security_move db db' → security_ok db → security_ok db'.
Proof.
  intros [[Hp _] Hf] [Hj Hi]. split; [by eapply phase_effect_inv|by eapply journal_effect_inv].
Qed.

(** A receipt that can be read. *)
Definition receipt_known (receipt : PhaseReceipt) (db : SecurityDb) : Prop :=
  phase_receipt_in_branch (pr_attempt_id receipt) (pr_phase receipt) (pr_branch receipt) db
  = Ok (Some receipt).

Lemma receipt_read_mono attempt phase branch receipt db db' :
  security_move db db' → phase_receipt_in_branch attempt phase branch db = Ok (Some receipt) →
  phase_receipt_in_branch attempt phase branch db' = Ok (Some receipt).
Proof.
  intros [[Hp _] _]. unfold phase_receipt_in_branch.
  destruct (storage_key _ _) as [key|e]; simpl; [|done]. intros Hload.
  eapply load_phase_receipt_mono; [|done]. by eapply phase_effect_receipts.
Qed.

Lemma receipt_known_mono receipt db db' :
  security_move db db' → receipt_known receipt db → receipt_known receipt db'.
Proof. apply receipt_read_mono. Qed.
End SecurityMoves.
