(* ===== verification/ExecutorHistory.v ===== *)
(** * The executor: receipts of the controller

    Which receipts a call of the controller can add to an attempt: a receipt commit adds
    its own, every other call none. *)

From Stdlib Require Import ZArith Lia Ascii String.
From stdpp Require Import base gmap strings option list_numbers list relations.
From S2P Require Import Prelude TxLogic Steps Identifiers States Text Failure Operation Errors Budget Controller.
From S2P Require Import Attempt ControlStore SecurityDb Resources ResourceSpec Fences FenceSpec Ordered Backup.
From S2P Require Import PhaseAuthority PhaseJournal PhaseJournalSpec SourceDb ExecutorBase Executor Coordinator ExecutorLogic.

Local Open Scope Z_scope.
Local Open Scope rust_scope.

(** ** Receipts of the controller *)

Section ControlReceipts.
Context `{!Json OperationRecord, !Json OperationTransition}.
Context `{!JsonRoundTrip OperationRecord, !JsonRoundTrip OperationTransition}.
Context `{!Sha256, !Jcs ReceiptDigestPayload, !Jcs FenceAcquisitionReceiptDigestPayload}.

(** The receipts an attempt advanced on. *)
Definition receipts_of (op : OperationRecord) : list EvidenceDigest :=
  omap ot_receipt_digest (transitions_of op).

(** The receipts after are those before and [new] ones. *)
Definition control_adds (new : Uuid → EvidenceDigest → Prop) (db db' : ControlDb) : Prop :=
  ∀ a op' d, stored db' a op' → d ∈ receipts_of op' →
    (∃ op, stored db a op ∧ d ∈ receipts_of op) ∨ new a d.

Definition nothing_new (a : Uuid) (d : EvidenceDigest) : Prop := False.
Definition only_receipt (receipt : PhaseReceipt) (a : Uuid) (d : EvidenceDigest) : Prop :=
  a = pr_attempt_id receipt ∧ d = pr_receipt_digest receipt.

Lemma control_adds_refl new db : control_adds new db db.
Proof. intros a op d Hst Hd. left. by exists op. Qed.

Lemma writes_adds (new : Uuid → EvidenceDigest → Prop) db a op op' db' :
  stored db a op → writes db a op op' db' →
  (∀ d, d ∈ receipts_of op' → d ∈ receipts_of op ∨ new a d) → control_adds new db db'.
Proof.
  intros Hst Hw Hd a' op'' d Hst' Hin.
  destruct (stored_writes _ _ _ _ _ _ _ Hw Hst') as [[-> ->]|[_ Hold]]; [|left; by exists op''].
  destruct (Hd d Hin); [left; by exists op|by right].
Qed.

Lemma persist_adds (new : Uuid → EvidenceDigest → Prop) db a op op1 next rd t op2 db' :
  db_inv db → stored db a op → persist_transition op1 next rd t db = Ok (op2, db') →
  op_attempt_id op1 = op_attempt_id op → transitions_of op1 = transitions_of op →
  (∀ d, rd = Some d → new a d) → control_adds new db db'.
Proof.
  intros Hinv Hst Hp Hid Hts Hnew.
  destruct (persist_writes _ _ _ _ _ _ _ _ _ Hinv Hst Hid Hts Hp) as [-> Hw].
  eapply writes_adds; [done..|]. intros d. unfold receipts_of, advance. simpl.
  unfold transitions_of in *. simpl. rewrite Hts, omap_app, elem_of_app. intros [Hd|Hd]; [by left|].
  right. simpl in Hd. destruct rd as [d'|]; [|set_solver]. apply list_elem_of_singleton in Hd as ->. auto.
Qed.

Ltac open_call H :=
  first [let Hv := fresh "Hv" in
         apply with_validation_effect in H as [->|(Hv&?&H)]; [apply control_adds_refl|]
        |apply immediate_effect in H as [->|(?&H)]; [apply control_adds_refl|]];
  let op := fresh "op" in let Hst := fresh "Hst" in
  apply tx_bind_Ok in H as (op&?&[-> Hst]%load_attempt_Ok&H).
Ltac returns H :=
  match type of H with
  | (if ?b then _ else _) _ = Ok _ =>
      destruct b; [first [by apply tx_err_Ok in H | inv_ok; apply control_adds_refl]|]
  end.
Ltac persists Hop := eapply persist_adds; [eassumption|eassumption|exact Hop|done|done|done].

Lemma commit_receipt_adds receipt t db db' r :
  db_inv db → commit_phase_receipt receipt t db = (db', r) →
  control_adds (only_receipt receipt) db db'.
Proof.
  intros Hinv Hop. unfold commit_phase_receipt in Hop. open_call Hop. do 2 returns Hop.
  apply tx_bind_Ok in Hop as (next&?&[Hnext ->]%lift_Ok&Hop).
  apply tx_bind_Ok in Hop as (ev&?&[Hm ->]%lift_Ok&Hop).
  pose proof (merge_artifacts_frame _ _ _ _ _ _ Hm) as [(Hts&_) _].
  eapply persist_adds; [eassumption|eassumption|exact Hop|done|done|]. by intros d [= <-].
Qed.

Lemma commit_reconciled_adds receipt t db db' r :
  db_inv db → commit_reconciled_phase_receipt receipt t db = (db', r) →
  control_adds (only_receipt receipt) db db'.
Proof.
  intros Hinv Hop. unfold commit_reconciled_phase_receipt in Hop. open_call Hop.
  destruct (position _ _) as [i|].
  { destruct (_ !! i); [returns Hop|]; by apply tx_err_Ok in Hop. }
  returns Hop. destruct (last _) as [entry|] eqn:Hlast; [|by apply tx_err_Ok in Hop]. returns Hop.
  apply tx_bind_Ok in Hop as (next&?&[Hnext ->]%lift_Ok&Hop).
  apply tx_bind_Ok in Hop as (ev&?&[Hm ->]%lift_Ok&Hop).
  pose proof (merge_artifacts_frame _ _ _ _ _ _ Hm) as [(Hts&_) _].
  eapply persist_adds; [eassumption|eassumption|exact Hop|done|done|]. by intros d [= <-].
Qed.

Lemma mark_needs_reconcile_adds a capsule t db db' r :
  db_inv db → Controller.mark_needs_reconcile a capsule t db = (db', r) → control_adds nothing_new db db'.
Proof.
  intros Hinv Hop. unfold Controller.mark_needs_reconcile in Hop. open_call Hop. do 2 returns Hop.
  persists Hop.
Qed.

Lemma begin_rollback_adds a t db db' r :
  db_inv db → begin_rollback a t db = (db', r) → control_adds nothing_new db db'.
Proof.
  intros Hinv Hop. unfold begin_rollback in Hop. open_call Hop.
  apply tx_bind_Ok in Hop as (already&?&[Hreq ->]%lift_Ok&Hop). returns Hop. persists Hop.
Qed.

Lemma set_pre_mutation_block_adds a reason src t db db' r :
  db_inv db → set_pre_mutation_block a reason src t db = (db', r) → control_adds nothing_new db db'.
Proof.
  intros Hinv Hop. unfold set_pre_mutation_block in Hop. open_call Hop. do 3 returns Hop. persists Hop.
Qed.

Lemma set_source_block_adds a reason t db db' r :
  db_inv db → set_source_block a reason t db = (db', r) → control_adds nothing_new db db'.
Proof.
  intros Hinv. unfold set_source_block.
  destruct reason; try (intros [= <- _]; apply control_adds_refl); by apply set_pre_mutation_block_adds.
Qed.

Lemma set_cutover_block_adds a t db db' r :
  db_inv db → set_stateful_cutover_source_block a t db = (db', r) → control_adds nothing_new db db'.
Proof.
  intros Hinv Hop. unfold set_stateful_cutover_source_block in Hop. open_call Hop. do 3 returns Hop.
  persists Hop.
Qed.

Lemma clear_cutover_block_adds a t db db' r :
  db_inv db → clear_stateful_cutover_source_block a t db = (db', r) → control_adds nothing_new db db'.
Proof.
  intros Hinv Hop. unfold clear_stateful_cutover_source_block in Hop. open_call Hop. returns Hop.
  destruct (os_blocking_reason _); try by apply tx_err_Ok in Hop.
  - inv_ok. apply control_adds_refl.
  - persists Hop.
Qed.

Lemma clear_disk_block_adds a t db db' r :
  db_inv db → clear_disk_block a t db = (db', r) → control_adds nothing_new db db'.
Proof. intros Hinv Hop. unfold clear_disk_block in Hop. open_call Hop. returns Hop. persists Hop. Qed.

Lemma supersede_adds a capsule t db db' r :
  db_inv db → supersede_source_attempt a capsule t db = (db', r) → control_adds nothing_new db db'.
Proof.
  intros Hinv Hop. unfold supersede_source_attempt in Hop. open_call Hop. do 2 returns Hop. persists Hop.
Qed.

Lemma fail_attempt_adds a capsule t db db' r :
  db_inv db → fail_attempt a capsule t db = (db', r) → control_adds nothing_new db db'.
Proof. intros Hinv Hop. unfold fail_attempt in Hop. open_call Hop. do 2 returns Hop. persists Hop. Qed.

Lemma cancel_adds a t db db' r :
  db_inv db → cancel_before_mutation a t db = (db', r) → control_adds nothing_new db db'.
Proof.
  intros Hinv Hop. unfold cancel_before_mutation in Hop. open_call Hop. do 2 returns Hop. persists Hop.
Qed.

Lemma record_fence_adds a receipt t db db' r :
  db_inv db → record_fence_acquisition a receipt t db = (db', r) → control_adds nothing_new db db'.
Proof.
  intros Hinv Hop. pose proof (record_fence_acquisition_effect _ _ _ _ _ _ Hinv Hop) as Heff.
  unfold record_fence_acquisition in Hop. open_call Hop. returns Hop.
  apply tx_bind_Ok in Hop as (merged&?&[Hm ->]%lift_Ok&Hop).
  destruct merged as [ev|]; [|inv_ok; apply control_adds_refl].
  apply tx_bind_Ok in Hop as (oj&?&[Hoj%map_err_Ok ->]%lift_Ok&Hop).
  apply tx_bind_Ok in Hop as (changed&db1&Hup&Hop). unfold update_attempt in Hup.
  apply tx_bind_Ok in Hup as (?&?&[-> ->]%gets_Ok&Hup).
  destruct (stored_matches _ _ _ Hinv Hst) as (row&Hrow&Hrm). rewrite Hrow in Hup.
  destruct (at_result row == "running"%string) eqn:Hres; inv_ok.
  apply fence_merge_frame in Hm as ((Hts&_)&_).
  intros a' op' d (row2&Hrow2&Hj) Hd. simpl in Hrow2. left.
  apply lookup_insert_Some in Hrow2 as [[<- <-]|[_ Hold]]; [|exists op'; split; [by exists row2|done]].
  simpl in Hj. apply json_round_trip in Hoj. rewrite Hoj in Hj. injection Hj as <-.
  exists op. split; [done|]. assert (transitions_of (op <| op_evidence := ev |> <| op_updated_at_ms := t |>) = transitions_of op) as Heq by exact Hts. unfold receipts_of in *. by rewrite Heq in Hd.
Qed.

(** ** Admissions *)

(** The calls that admit an attempt or take over a tab. *)
Inductive controller_admission (db db' : ControlDb) : Prop :=
| ca_takeover_lease user lease t e r :
    takeover_lease user lease t e db = (db', r) → controller_admission db db'
| ca_admit_interactive uuids new lease grant t r :
    admit_interactive uuids new lease grant t db = (db', r) → controller_admission db db'
| ca_admit_verified uuids admission lease grant t r :
    admit_verified_interactive_deploy uuids admission lease grant t db = (db', r) →
    controller_admission db db'
| ca_admit_automation uuids admission t r :
    admit_automation uuids admission t db = (db', r) → controller_admission db db'.

Lemma admission_step db db' : controller_admission db db' → controller_step db db'.
Proof. destruct 1; by econstructor. Qed.

(** An attempt that is new has no receipts. *)
Definition fresh_rows (db db' : ControlDb) : Prop :=
  ∀ a op, stored db' a op → stored db a op ∨ receipts_of op = [].

#[local] Instance fresh_rows_preorder : PreOrder fresh_rows.
Proof.
  split; [by intros db a op; left|]. intros db1 db2 db3 H12 H23 a op Hst.
  destruct (H23 a op Hst) as [Hst'|]; [by apply H12|by right].
Qed.

Lemma fresh_rows_same db db' : operation_attempts db' = operation_attempts db → fresh_rows db db'.
Proof. intros Heq a op (row&Hrow&Hj). left. exists row. by rewrite <- Heq. Qed.

Lemma create_attempt_fresh uuids rid new n actor grant att seq t :
  tx_rel fresh_rows (create_attempt uuids rid new n actor grant att seq t).
Proof.
  intros db record db' Hc. unfold create_attempt in Hc.
  apply tx_bind_Ok in Hc as (?&?&[_ ->]%lift_Ok&Hc).
  apply tx_bind_Ok in Hc as (json&?&[Hj%map_err_Ok ->]%lift_Ok&Hc).
  apply tx_bind_Ok in Hc as (?&db1&Hins&[-> ->]%tx_ok_Ok).
  unfold insert_attempt, ensure_tx in Hins. inv_ok. intros a op (row&Hrow&Hop). simpl in Hrow.
  apply lookup_insert_Some in Hrow as [[<- <-]|[_ Hold]]; [right|left; by exists row].
  simpl in Hop. apply json_round_trip in Hj. rewrite Hj in Hop. by injection Hop as <-.
Qed.

Lemma lease_fresh lease t : tx_rel fresh_rows (validate_current_lease lease t).
Proof. by intros db x db' [-> _]%validate_current_lease_Ok. Qed.

Local Hint Resolve create_attempt_fresh lease_fresh : tx_rel.
Local Hint Extern 1 (tx_rel _ (modify _)) =>
  apply tx_rel_modify; intros; apply fresh_rows_same; reflexivity : tx_rel.

Ltac fresh_steps :=
  unfold insert_request, Controller.insert_grant, insert_delivery, ensure_tx in *; tx_steps.

Lemma interactive_fresh uuids context : tx_rel fresh_rows (admit_interactive_transaction uuids context).
Proof.
  unfold admit_interactive_transaction, replayed_interactive_grant, interactive_admission_outcome,
    create_interactive_attempt, consume_controller_grant, find_or_create_request, latest_attempt.
  fresh_steps.
Qed.

Lemma automation_fresh uuids admission t :
  tx_rel fresh_rows (admit_automation_transaction uuids admission t).
Proof.
  unfold admit_automation_transaction, replayed_automation_delivery, automation_admission_outcome,
    create_automation_attempt, attempt_count_for_source_sequence, find_or_create_request, latest_attempt.
  fresh_steps.
Qed.

Lemma fresh_adds db db' : fresh_rows db db' → control_adds nothing_new db db'.
Proof.
  intros Hf a op d Hst Hd. destruct (Hf a op Hst) as [Hold|Hnil]; [left; by exists op|].
  rewrite Hnil in Hd. set_solver.
Qed.

Lemma admission_adds db db' : controller_admission db db' → control_adds nothing_new db db'.
Proof.
  intros Hadm. apply fresh_adds. destruct Hadm as [????? Hop|?????? Hop|?????? Hop|???? Hop].
  - by eapply fresh_rows_same, takeover_lease_attempts.
  - unfold admit_interactive, admit_interactive_inner in Hop. repeat case_match; simplify_eq; try reflexivity.
    apply immediate_effect in Hop as [->|(x&Hb)]; [reflexivity|]. by eapply interactive_fresh.
  - unfold admit_verified_interactive_deploy, admit_interactive_inner in Hop.
    repeat case_match; simplify_eq; try reflexivity.
    apply immediate_effect in Hop as [->|(x&Hb)]; [reflexivity|]. by eapply interactive_fresh.
  - unfold admit_automation in Hop. case_match; simplify_eq; try reflexivity.
    apply immediate_effect in Hop as [->|(x&Hb)]; [reflexivity|]. by eapply automation_fresh.
Qed.
End ControlReceipts.

(** ** Calls of other threads *)

Section OtherThreads.
Context `{!ExecutorCodecs, !JsonRoundTrip OperationRecord, !JsonRoundTrip OperationTransition}.

(** A call without the gate is one of the controller that adds no receipt. *)
Lemma other_step call db : controller_step db (perform_other call db).
Proof.
  destruct call; simpl;
    [eapply cs_takeover_lease|eapply cs_admit_interactive|eapply cs_admit_verified_interactive_deploy
    |eapply cs_admit_automation|eapply cs_fail_attempt|eapply cs_cancel_before_mutation
    |eapply cs_clear_disk_block]; apply surjective_pairing.
Qed.

Lemma other_adds call db : db_inv db → control_adds nothing_new db (perform_other call db).
Proof.
  intros Hinv. destruct call; simpl;
    first [apply admission_adds; first
             [eapply ca_takeover_lease, surjective_pairing|eapply ca_admit_interactive, surjective_pairing
             |eapply ca_admit_verified, surjective_pairing|eapply ca_admit_automation, surjective_pairing]
          |by eapply fail_attempt_adds, surjective_pairing|by eapply cancel_adds, surjective_pairing
          |by eapply clear_disk_block_adds, surjective_pairing].
Qed.

Lemma control_adds_trans db1 db2 db3 :
  control_adds nothing_new db1 db2 → control_adds nothing_new db2 db3 → control_adds nothing_new db1 db3.
Proof.
  intros H12 H23 a op d Hst Hd. destruct (H23 a op d Hst Hd) as [(op2&Hst2&Hd2)|[]]. by eapply H12.
Qed.

Lemma others_effect calls db : db_inv db →
  db_inv (fold_left (λ db call, perform_other call db) calls db)
  ∧ control_adds nothing_new db (fold_left (λ db call, perform_other call db) calls db).
Proof.
  revert db. induction calls as [|call calls IH]; intros db Hinv; simpl; [by split; [|apply control_adds_refl]|].
  destruct (IH (perform_other call db)) as [Hinv' Hadds]; [by eapply controller_step_inv, other_step|].
  split; [done|]. by eapply control_adds_trans; [apply other_adds|].
Qed.
End OtherThreads.
