(* ===== verification/ExecutorFacts.v ===== *)
(** * The executor: facts about single calls

    What the operations of the security store give an attempt that is about to run a
    phase: the resources it owns, the intent in the journal, the source proof, the write
    fence. *)

From Stdlib Require Import ZArith Lia Ascii String.
From stdpp Require Import base gmap strings option list_numbers list relations.
From S2P Require Import Prelude TxLogic Steps Identifiers States Text Failure Operation Errors Budget Controller.
From S2P Require Import Attempt ControlStore SecurityDb Resources ResourceSpec Fences FenceSpec Ordered Backup.
From S2P Require Import PhaseAuthority PhaseJournal PhaseJournalSpec SourceDb ExecutorBase Executor Coordinator ExecutorLogic ExecutorHistory.

Local Open Scope Z_scope.
Local Open Scope rust_scope.

(** ** What an effect needs of the security store *)

Section Entitlement.
Context `{!ExecutorCodecs}.

(** The keys of the resources a phase runs under. *)
Definition disk_keys (op : OperationRecord) : list string :=
  if requires_disk_reservation op (os_phase (op_state op))
  then [disk_reservation_resource_key (op_project_id op)] else [].
Definition registry_keys (op : OperationRecord) : list string :=
  match os_phase (op_state op) with
  | Phase_Building | Phase_Deploying => [ExecutionResource_key GlobalLocalRegistry]
  | _ => []
  end.
Definition lock_keys (op : OperationRecord) : list string :=
  if requires_project_lock (os_phase (op_state op))
  then [ExecutionResource_key (ProjectDeploy (op_project_id op))] else [].
Definition phase_keys (op : OperationRecord) : list string :=
  match phase_resource op with Some resource => [ExecutionResource_key resource] | None => [] end.
Definition needed_keys (op : OperationRecord) : list string :=
  ((disk_keys op ++ registry_keys op) ++ lock_keys op) ++ phase_keys op.

Definition owns (attempt : Uuid) (keys : list string) (db : SecurityDb) : Prop :=
  Forall (λ key, resource_owner db key = Some attempt) keys.

(** The journal has the intent, not yet committed and not under reconciliation. *)
Definition intent_open (intent : PhaseIntent) (db : SecurityDb) : Prop := ∃ key row,
  storage_key (in_branch intent) (in_phase intent) = Ok key
  ∧ executor_phase_journal db !! (in_attempt_id intent, key) = Some row
  ∧ pj_project_id row = in_project_id intent ∧ pj_intent_digest row = in_digest intent
  ∧ ¬ status_is Journal_Committed row ∧ ¬ status_is Journal_NeedsReconcile row.

Definition authorized_as (attempt : Uuid) (project : ProjectId) (digest : EvidenceDigest)
    (db : SecurityDb) : Prop := ∃ row,
  executor_authorizations db !! attempt = Some row ∧ ar_project_id row = project
  ∧ ar_digest row = digest.

Definition fence_in (states : list FenceJournalState) (project : ProjectId) (attempt : Uuid)
    (db : SecurityDb) : Prop := ∃ id row,
  fence_journal db !! id = Some row ∧ fr_project_id row = project ∧ fr_attempt_id row = attempt
  ∧ state_in states row.

(** A cutover runs behind the write fence of the attempt. *)
Definition fence_ready (op : OperationRecord) (db : SecurityDb) : Prop :=
  os_phase (op_state op) = Phase_CutoverSnapshotting →
  fence_in [Fence_Held] (op_project_id op) (op_attempt_id op) db.

(** ** The intent of an operation *)

Lemma phase_intent_Ok op auth intent :
  phase_intent op auth = Ok intent →
  in_attempt_id intent = op_attempt_id op ∧ in_project_id intent = op_project_id op
  ∧ in_phase intent = os_phase (op_state op) ∧ in_branch intent = executor_phase_branch op
  ∧ pip_executor_authorization_digest (in_payload intent) = auth
  ∧ PhaseIntent_has_valid_digest intent = Ok true.
Proof.
  unfold phase_intent, json_err. intros Hok. destruct (if _ : bool then _ else _) as [kind class].
  apply result_bind_Ok in Hok as (bytes&Hb%map_err_Ok&Hok). injection Hok as <-.
  split_and!; try done. unfold PhaseIntent_has_valid_digest. simpl.
  rewrite Hb. simpl. by rewrite !bool_decide_eq_true_2.
Qed.

(** ** Resources *)

Definition owners_grow (db db' : SecurityDb) : Prop :=
  ∀ key owner, resource_owner db key = Some owner → resource_owner db' key = Some owner.

Lemma owns_grow attempt keys db db' : owners_grow db db' → owns attempt keys db → owns attempt keys db'.
Proof. intros Hg Ho. eapply Forall_impl; [exact Ho|]. intros key. apply Hg. Qed.

Lemma acquire_resource_owner resource attempt t db db' u :
  acquire_resource resource attempt t db = (db', Ok u) →
  resource_owner db' (ExecutionResource_key resource) = Some attempt ∧ owners_grow db db'.
Proof.
  intros [[-> Ho]|[Hn ->]]%acquire_resource_Ok%acquire_key_Ok; [by split; [|intros ?]|].
  unfold owners_grow, resource_owner in *. simpl. split; [by rewrite lookup_insert_eq|].
  intros key owner Hk. destruct (decide (key = ExecutionResource_key resource)) as [->|Hne].
  - congruence.
  - by rewrite lookup_insert_ne.
Qed.

Lemma acquire_disk_owner project attempt observation t db db' u :
  acquire_disk_reservation project attempt observation t db = (db', Ok u) →
  resource_owner db' (disk_reservation_resource_key project) = Some attempt ∧ owners_grow db db'.
Proof.
  intros Hok. pose proof (acquire_disk_reservation_Ok _ _ _ _ _ _ _ Hok)
    as (claim&row&_&_&_&_&_&[[Hr Hclaim]|(_&_&Hin&Hr)]).
  - split; [|by intros key owner; unfold resource_owner; rewrite Hr].
    unfold acquire_disk_reservation in Hok. apply immediate_transaction_Ok in Hok.
    apply tx_bind_Ok in Hok as (c&?&[_ ->]%query_Ok&Hok).
    apply tx_bind_Ok in Hok as (?&?&[_ ->]%lift_Ok&Hok).
    apply tx_bind_Ok in Hok as (existing&?&[Hload ->]%query_Ok&Hok).
    apply tx_bind_Ok in Hok as (active&db1&Hex&_).
    destruct existing as [existing|].
    + destruct (negb _); [done|]. apply tx_bind_Ok in Hex as (?&?&Hk&_).
      unfold require_resource_key_owned in Hk. inv_query. bool_prop.
      unfold resource_owner in *. by rewrite Hr.
    + apply load_active_disk_reservation_None in Hload. by rewrite Hload in Hclaim.
  - assert (∀ key, resource_owner db' key
              = <[disk_reservation_resource_key project := attempt]>
                  (rs_owner_attempt_id <$> execution_resources db) !! key) as Hd'.
    { intros key. unfold resource_owner. by rewrite <- Hr, lookup_fmap. }
    split; [by rewrite Hd', lookup_insert_eq|]. intros key owner Hk. rewrite Hd'.
    destruct (decide (key = disk_reservation_resource_key project)) as [->|Hne].
    + rewrite lookup_insert_eq. rewrite Hk in Hin. set_solver.
    + rewrite lookup_insert_ne by done. by rewrite lookup_fmap.
Qed.

(** ** Fences *)

Ltac inv_guard :=
  repeat (inv_query; match goal with
    | Hg : require_fence_phase_receipts _ _ = Ok _ |- _ => apply reads_fence_receipts in Hg as ->
    | Hg : require_authorized_for_project _ _ _ _ = Ok _ |- _ => apply reads_authorized in Hg as ->
    | Hg : require_resource_owned _ _ _ = Ok _ |- _ => apply reads_owned in Hg as ->
    end); inv_query.

Lemma begin_acquire_state token project attempt t db db' lease :
  begin_fence_acquire token project attempt t db = (db', Ok lease) →
  fence_in [Fence_AcquireIntent; Fence_Held] project attempt db'.
Proof.
  unfold begin_fence_acquire. intros Hok. inv_guard.
  match type of Hok with match ?o with _ => _ end _ = _ => destruct o as [active|] end.
  - destruct (_ && _) eqn:Hactive in Hok; [|done]. inv_guard. bool_prop.
    match goal with Hl : load_active_fence _ _ = Ok _ |- _ =>
      apply load_active_fence_Some in Hl as (row&Hrow&Hlease&<-&_) end.
    eexists _, row. pose proof Hlease as (Hp&Ha&_).
    destruct Hactive as [<- Hs]. split_and!; [done..|]. eapply lease_state_in; [done|].
    destruct (fl_state _); set_solver.
  - inv_guard. case_ok.
    + unfold promote_drain_identity in Hok. case_ok. case_ok.
      match goal with Hi : insert_fence _ _ = _ |- _ => apply insert_fence_Ok in Hi as (_&->&_&->) end.
      eexists _, (MkFenceRow _ _ _ _ _ _ _ _). simpl. split_and!; [apply lookup_insert_eq|done..|].
      exists Fence_AcquireIntent. split; [by left|done].
    + unfold allocate_fence_identity in Hok. inv_ok.
      match goal with He : allocate_next_fence_epoch _ = Ok (?e, _) |- _ => destruct e end. inv_ok.
      match goal with Hi : insert_fence _ _ = _ |- _ => apply insert_fence_Ok in Hi as (_&->&_&->) end.
      eexists _, (MkFenceRow _ _ _ _ _ _ _ _). simpl. split_and!; [apply lookup_insert_eq|done..|].
      exists Fence_AcquireIntent. split; [by left|done].
Qed.

(** The active fence of a project is the one in flight. *)
Lemma fence_in_active states project attempt db :
  fence_inv db → fence_in states project attempt db → Fence_Released ∉ states →
  ∃ lease, load_active_fence project db = Ok (Some lease) ∧ fl_attempt_id lease = attempt
    ∧ fl_state lease ∈ states.
Proof.
  intros Hinv (id&row&Hrow&Hp&Ha&st&Hin&Hs) Hnr.
  assert (fr_state row ≠ "released"%string) as Hactive by (rewrite Hs; by destruct st).
  destruct (load_active_fence_total _ project Hinv) as [[lease|] Hload].
  - exists lease. split; [done|].
    apply load_active_fence_Some in Hload as (row'&Hrow'&Hlease&Hp'&Hs').
    pose proof Hlease as (Hproj&Hatt&_&_&Hst&_).
    assert (fl_journal_id lease = id) as Hid
      by (eapply (jf_active _ Hinv); [done..| |done|done]; congruence).
    simplify_eq. split; [done|]. rewrite Hst in Hs. clear -Hs Hin.
    by assert (fl_state lease = st) as -> by (by destruct (fl_state lease), st).
  - destruct Hactive. by eapply (load_active_fence_None _ _ Hload).
Qed.

Lemma reconcile_held project attempt observation t db db' :
  fence_inv db → fence_in [Fence_AcquireIntent; Fence_Held] project attempt db →
  reconcile_fence project observation t db = (db', Ok Projection_Held) →
  fence_in [Fence_Held] project attempt db'.
Proof.
  intros Hinv Hin Hok. destruct (fence_in_active _ _ _ _ Hinv Hin) as (lease&Hload&Ha&Hst); [set_solver|].
  unfold reconcile_fence in Hok. inv_query. rewrite Hload in *. simplify_eq.
  inv_ok. match goal with Hs : match fl_release_safe_receipt_digest _ with _ => _ end _ = _ |- _ =>
    apply release_is_safe_Ok in Hs as [-> _] end.
  destruct (fl_state lease) eqn:Hstate; try (exfalso; set_solver);
    (destruct observation as [|o_attempt epoch token]; [|destruct (observation_matches _ _ _ _)]);
    apply tx_bind_Ok in Hok as (?&?&Hset&[[=] ->]%tx_ok_Ok);
    apply set_fence_state_Ok in Hset as (row&Hrow&->);
    apply load_active_fence_Some in Hload as (row'&Hrow'&(Hp&Hatt&_)&<-&_); simplify_eq;
    (eexists _, _; simpl; split_and!; [apply lookup_insert_eq|done..|];
     exists Fence_Held; split; [by left|done]).
Qed.

Lemma fence_in_ext states project attempt db db' :
  fence_journal db' = fence_journal db → fence_in states project attempt db →
  fence_in states project attempt db'.
Proof. unfold fence_in. by intros ->. Qed.

(** ** Intents *)

Lemma authorized_for_Ok attempt project digest db u db' :
  require_authorized_for_project attempt project (Some digest) db = Ok (u, db') →
  authorized_as attempt project digest db.
Proof.
  unfold require_authorized_for_project. intros [Hok _]%query_Ok. repeat case_ok. bool_prop.
  eexists. split; [done|]. naive_solver.
Qed.

Lemma begin_intent_Ok request db db' entry :
  begin_phase_intent request db = (db', Ok entry) →
  authorized_as (pi_attempt_id request) (pi_project_id request) (pi_authorization_digest request) db
  ∧ ∃ key, storage_key (pi_branch request) (pi_phase request) = Ok key
    ∧ (pe_status entry = Journal_NeedsReconcile
       ∨ ∃ row, executor_phase_journal db' !! (pi_attempt_id request, key) = Some row
           ∧ pj_project_id row = pi_project_id request
           ∧ pj_intent_digest row = pi_intent_digest request
           ∧ status_is (pe_status entry) row
           ∧ (executor_phase_journal db !! (pi_attempt_id request, key) = Some row
              ∨ pe_status entry = Journal_IntentPersisted)).
Proof.
  unfold begin_phase_intent, with_storage_key. destruct (storage_key _ _) as [key|e]; [|done].
  intros Hok%immediate_transaction_Ok.
  apply tx_bind_Ok in Hok as (?&?&Hauth&Hok). pose proof (authorized_for_Ok _ _ _ _ _ _ Hauth).
  apply reads_authorized_for_project in Hauth as ->.
  apply tx_bind_Ok in Hok as (?&?&[-> _]%require_phase_prerequisites_Ok&Hok).
  apply tx_bind_Ok in Hok as (existing&?&[Hload ->]%query_Ok&Hok).
  split; [done|]. exists key. split; [done|]. destruct existing as [existing|].
  - destruct (_ && _) eqn:Hsame in Hok; [|inv_ok; by left]. inv_ok. bool_prop.
    apply load_phase_entry_Some in Hload as (row&Hrow&Hp&Hd&_&_&Hs&_). right. exists row.
    destruct Hsame. split_and!; try congruence. by left.
  - apply tx_bind_Ok in Hok as (conflict&?&Hc&Hok). case_ok.
    match goal with Hi : insert_journal _ _ _ _ = _ |- _ => apply insert_journal_Ok in Hi as -> end.
    right. eexists. simpl. split; [apply lookup_insert_eq|]. simpl. split_and!; try done. by right.
Qed.

Lemma compensate_Ok attempt project phase branch digest t db db' u :
  compensate_source_gate_rejection attempt project phase branch digest t db = (db', Ok u) →
  ∃ key row, storage_key branch phase = Ok key
    ∧ executor_phase_journal db' !! (attempt, key) = Some row
    ∧ pj_project_id row = project ∧ pj_intent_digest row = digest
    ∧ status_is Journal_IntentPersisted row.
Proof.
  unfold compensate_source_gate_rejection, with_storage_key. case_match; [done|].
  destruct (storage_key _ _) as [key|e]; [|done]. intros Hok%immediate_transaction_Ok.
  exists key.
  apply tx_bind_Ok in Hok as (?&?&[-> _]%require_branch_not_taken_over_Ok&Hok).
  apply tx_bind_Ok in Hok as (entry&?&(->&row&Hrow&Hp&Hd&_)%require_phase_entry_Ok&Hok).
  case_ok. inv_ok. case_ok. inv_ok. case_ok. inv_ok. bool_prop.
  match goal with Hu : update_journal _ _ _ _ _ = _ |- _ =>
    apply update_journal_Ok in Hu as [[-> _]|(_&row'&Hrow'&_&->)] end; [done|].
  simpl in *. simplify_eq. case_ok. eexists. split; [done|].
  split; [apply lookup_insert_eq|]. simpl. naive_solver.
Qed.

Lemma rejected_proof {A} proof key error (a : A) db db' :
  reject_source_gate_proof proof key error db ≠ Ok (Ok a, db').
Proof. intros Hr. unfold reject_source_gate_proof in Hr. inv_ok. by repeat case_ok. Qed.

Lemma record_proof_Ok proof db db' u :
  record_source_gate_proof proof db = (db', Ok u) →
  executor_phase_journal db' = executor_phase_journal db
  ∧ source_gate_proof (sg_attempt_id proof) (sg_phase proof) db' = Some (sg_proof_digest proof).
Proof.
  intros Hok%flatten_result_Ok. unfold with_storage_key in Hok. simpl in Hok.
  apply immediate_transaction_Ok, tx_bind_Ok in Hok as (admission&db1&Ha&Hok).
  destruct admission as [sequence|e]; [|by inv_ok].
  assert (db1 = db) as ->.
  { unfold validate_source_gate_proof_admission in Ha.
    apply tx_bind_Ok in Ha as (entry&db2&(->&_)%require_phase_entry_Ok&Ha).
    repeat (case_ok; try by apply rejected_proof in Ha). by apply tx_ok_Ok in Ha as [_ ->]. }
  unfold persist_source_gate_proof in Hok. inv_ok. case_ok.
  - case_ok; [|by apply rejected_proof in Hok]. apply tx_ok_Ok in Hok as [_ ->]. split; [done|]. unfold source_gate_proof.
    match goal with Hg : _ !! _ = Some _ |- _ => rewrite Hg end. simpl. bool_prop. f_equal. tauto.
  - apply tx_ok_Ok in Hok as [_ ->].
    match goal with Hr : raise_highwater _ _ _ = _ |- _ => unfold raise_highwater in Hr end.
    inv_ok. case_ok; inv_ok; (split; [done|]); unfold source_gate_proof; simpl;
      by rewrite lookup_insert_eq.
Qed.
End Entitlement.
