(* ===== verification/ExecutorSafety.v ===== *)
(** * The executor: what every step guarantees

    Every step of the executor and the coordinator keeps the invariants of the two
    databases, adds to the controller only receipts that the security store has, and
    applies an effect only when the attempt is entitled to it ([guarantee]). *)

From Stdlib Require Import ZArith Lia Ascii String.
From stdpp Require Import base gmap strings option list_numbers list relations.
From S2P Require Import Prelude TxLogic Steps Identifiers States Text Failure Operation Errors Budget Controller.
From S2P Require Import Attempt ControlStore SecurityDb Resources ResourceSpec Fences FenceSpec Ordered Backup.
From S2P Require Import PhaseAuthority PhaseJournal PhaseJournalSpec SourceDb ExecutorBase Executor Coordinator.
From S2P Require Import ExecutorLogic ExecutorHistory ExecutorFacts.

Local Open Scope Z_scope.
Local Open Scope rust_scope.

Section Safety.
Context `{!ExecutorCodecs, !JsonRoundTrip PhaseArtifacts, !JsonRoundTrip PhaseReceipt}.
Context `{!JsonRoundTrip OperationRecord, !JsonRoundTrip OperationTransition}.
Context {A G : Type} `{!ExternalEffects A, !LiveSourceGate G}.

(** ** The guarantee *)

Definition known_receipts (db : SecurityDb) (a : Uuid) (d : EvidenceDigest) : Prop :=
  ∃ receipt, receipt_known receipt db ∧ pr_attempt_id receipt = a ∧ pr_receipt_digest receipt = d.

(** The invariants of the databases, and every receipt the controller advanced on is one
    of the security store. *)
Definition host_ok (w : Host A G) : Prop :=
  db_inv (h_control w) ∧ security_ok (h_security w)
  ∧ ∀ a op d, stored (h_control w) a op → d ∈ receipts_of op → known_receipts (h_security w) a d.

(** The controller has the attempt in the state of [op]. *)
Definition current (op : OperationRecord) (control : ControlDb) : Prop := ∃ now,
  stored control (op_attempt_id op) now ∧ op_state now = op_state op
  ∧ op_project_id now = op_project_id op.

(** What is known of the record a call works on: [known] of the record and the controller
    as the call last saw it, and whether the call makes sure of the write fence. *)
Context (known : OperationRecord → ControlDb → Prop) (fenced : bool).

Definition prepared (op : OperationRecord) (db : SecurityDb) : Prop :=
  fenced = true → fence_ready op db.

(** [intent] is that of the running attempt [op]. *)
Record announced (op : OperationRecord) (auth : EvidenceDigest) (intent : PhaseIntent)
    (control : ControlDb) (db : SecurityDb) : Prop := MkAnnounced {
  an_intent : phase_intent op auth = Ok intent;
  an_digest : executor_authorization_digest op = Ok auth;
  an_running : os_result (op_state op) = Result_Running;
  an_known : known op control;
  an_fence : prepared op db
}.

(** And it is in the journal of an authorized attempt that owns the resources [keys]. *)
Record entitled (keys : list string) (op : OperationRecord) (auth : EvidenceDigest)
    (intent : PhaseIntent) (control : ControlDb) (db : SecurityDb) : Prop := MkEntitled {
  en_announced : announced op auth intent control db;
  en_authorized : authorized_as (op_attempt_id op) (op_project_id op) auth db;
  en_open : intent_open intent db;
  en_owns : owns (op_attempt_id op) keys db
}.

(** The outside world as an observation left it that did not find the effect. *)
Definition seen_absent (intent : PhaseIntent) (effects : A) : Prop := ∃ identity before,
  observe_phase_with_operation_identity intent identity before = (effects, Ok Effect_Absent).

(** The gate as a check of the live source left it that admitted [op], and its proof is
    on record. *)
Definition source_checked (op : OperationRecord) (intent : PhaseIntent) (w : Host A G) : Prop :=
  ∃ gate now_ms gate' proof, gate_check_live op now_ms gate = (gate', Ok proof)
    ∧ h_gate w = Some gate'
    ∧ source_gate_proof (in_attempt_id intent) (in_phase intent) (h_security w) = Some (sgp_digest proof).

(** What holds whenever the effect of an intent is applied. *)
Record effect_allowed (intent : PhaseIntent) (w : Host A G) : Prop := MkEffectAllowed {
  al_entitled : ∃ op auth,
    entitled (needed_keys op) op auth intent (h_control w) (h_security w)
    ∧ (requires_live_source_check op = true → source_checked op intent w);
  al_absent : seen_absent intent (h_effects w)
}.

Record guarantee (st : Step (Host A G) Event) : Prop := MkGuarantee {
  gu_security : security_move (h_security (st_before st)) (h_security (st_after st));
  gu_control : control_adds (known_receipts (h_security (st_before st)))
                 (h_control (st_before st)) (h_control (st_after st));
  gu_apply intent : st_event st = Event_ApplyPhase intent →
    effect_allowed intent (st_before st)
}.

(** ** Facts of the security store that last *)

Class Stable (F : SecurityDb → Prop) : Prop :=
  stable db db' : security_move db db' → F db → F db'.

#[global] Instance stable_true : Stable (λ _, True).
Proof. by intros db db'. Qed.
#[global] Instance stable_known receipt : Stable (receipt_known receipt).
Proof. intros db db'. apply receipt_known_mono. Qed.
#[global] Instance stable_and F1 F2 : Stable F1 → Stable F2 → Stable (λ db, F1 db ∧ F2 db).
Proof. intros H1 H2 db db' Hm [??]. split; by eapply stable. Qed.

Definition inv (F : SecurityDb → Prop) (w : Host A G) : Prop := host_ok w ∧ F (h_security w).

Abbreviation safe F := (run_safe (inv F) guarantee) (only parsing).
Abbreviation triple F := (run_triple (inv F) guarantee) (only parsing).

Lemma security_move_refl db : security_move db db.
Proof. split; [apply step_effect_refl|apply effect_refl]. Qed.

Lemma control_adds_weaken (new new' : Uuid → EvidenceDigest → Prop) db db' :
  (∀ a d, new a d → new' a d) → control_adds new db db' → control_adds new' db db'.
Proof. intros Hn Hadds a op d Hst Hd. destruct (Hadds a op d Hst Hd); auto. Qed.

Lemma known_receipts_mono db db' a d :
  security_move db db' → known_receipts db a d → known_receipts db' a d.
Proof. intros Hm (receipt&Hk&?). exists receipt. split; [by eapply receipt_known_mono|done]. Qed.

(** What is safe for a stable fact keeps it. *)
Lemma safe_keeps F F' {E B} (m : Run (Host A G) Event E B) :
  safe (λ db, F db ∧ F' db) m →
  triple F (λ w, F' (h_security w)) m (λ _ w, F' (h_security w)).
Proof.
  intros Hm w [Hok HF] HF'. destruct (Hm w (conj Hok (conj HF HF')) I) as (Hs&[? [??]]&_).
  split; [|done]. eapply Forall_impl; [exact Hs|]. by intros st [? [? [??]]].
Qed.

(** ** Steps *)

(** What does not speak of the controller outlasts the calls of other threads. *)
Class Unshared (P : Host A G → Prop) : Prop :=
  unshared w control others : P w → P (w <| h_control := control |> <| h_others := others |>).

Hint Extern 0 (Unshared _) => intros w control others Hw; exact Hw : typeclass_instances.

Section StepRules.
Context (F : SecurityDb → Prop) `{!Stable F}.

Lemma meet_others_post (P : Host A G → Prop) `{!Unshared P} : triple F P meet_others (λ _, P).
Proof.
  intros w Hi HP. unfold meet_others. destruct (h_others w) as [|calls rest];
    [by split; [constructor|split; [done|]]|].
  refine (run_triple_step (inv F) guarantee P _ _ (λ _, P) _ w Hi HP). clear w Hi HP.
  intros w w' r [= <- <-] [[Hc [Hs Hk]] HF] HP.
  destruct (others_effect calls _ Hc) as [Hc' Ha]. split_and!; [|split; [split_and!|done]|].
  - split; simpl; [apply security_move_refl|by eapply control_adds_weaken; [|exact Ha]|done].
  - done.
  - done.
  - intros a op d Hst Hd. by destruct (Ha a op d Hst Hd) as [(op0&Hst0&Hd0)|[]]; eapply (Hk _ op0).
  - intros b _. by apply unshared.
Qed.

Lemma control_read_post {B} (P : Host A G → Prop) `{!Unshared P} (f : ControlDb → Result StoreError B)
    (Q : B → Host A G → Prop) :
  (∀ w b, inv F w → P w → f (h_control w) = Ok b → Q b w) → triple F P (control_read f) Q.
Proof.
  intros HQ. eapply run_triple_bind; [by apply meet_others_post|]. intros [].
  apply run_triple_read. intros b w Hok Hi HP. by apply HQ.
Qed.

Lemma control_read_safe {B} (f : ControlDb → Result StoreError B) : safe F (control_read f).
Proof. by apply control_read_post. Qed.

Lemma security_step_post {B} (P : Host A G → Prop) f (Q : B → Host A G → Prop) :
  (∀ db, security_move db (f db).1) →
  (∀ w db' b, inv F w → P w → f (h_security w) = (db', Ok b) → Q b (w <| h_security := db' |>)) →
  triple F P (security_step f) Q.
Proof.
  intros Hm HQ. apply run_triple_step. intros w w' r Hf Hi HP. pose proof Hi as [[Hc [Hs Hk]] HF].
  specialize (Hm (h_security w)). destruct (f (h_security w)) as [db' r'] eqn:E0. simplify_eq/=.
  split_and!.
  - split; simpl; [done|apply control_adds_refl|done].
  - split; [split_and!|by eapply stable]; [done|by eapply security_move_ok|].
    intros a op d Hst Hd. eapply known_receipts_mono; [done|by eapply Hk].
  - intros b ->. by eapply HQ.
Qed.

Lemma security_step_safe {B} (f : SecurityDb → SecurityDb * Result StoreError B) :
  (∀ db, security_move db (f db).1) → safe F (security_step f).
Proof. intros Hm. by apply security_step_post. Qed.

Definition control_call {B} (f : ControlDb → ControlDb * Result StoreError B)
    (new : Uuid → EvidenceDigest → Prop) : Prop := ∀ db db' r,
  db_inv db → f db = (db', r) → attempt_effect db db' ∧ control_adds new db db'.

Lemma control_step_post {B} (P : Host A G → Prop) `{!Unshared P} f new (Q : B → Host A G → Prop) :
  control_call f new →
  (∀ w a d, P w → new a d → known_receipts (h_security w) a d) →
  (∀ w db' b, inv F w → P w → f (h_control w) = (db', Ok b) → Q b (w <| h_control := db' |>)) →
  triple F P (control_step f) Q.
Proof.
  intros Hf Hnew HQ. eapply run_triple_bind; [by apply meet_others_post|]. intros [].
  apply run_triple_step. intros w w' r Hf' Hi HP. pose proof Hi as [[Hc [Hs Hk]] HF].
  destruct (f (h_control w)) as [db' r'] eqn:E0. simplify_eq/=.
  destruct (Hf _ _ _ Hc E0) as [He Ha]. split_and!.
  - split; simpl; [apply security_move_refl| |done]. eapply control_adds_weaken; [|done]. auto.
  - split; [split_and!|done]; [by eapply attempt_effect_inv|done|]. intros a op d Hst Hd.
    destruct (Ha a op d Hst Hd) as [(op0&Hst0&Hd0)|Hn]; [by eapply (Hk _ op0)|].
    simpl. by apply Hnew.
  - intros b ->. by eapply HQ.
Qed.

Lemma control_step_safe {B} (f : ControlDb → ControlDb * Result StoreError B) :
  control_call f nothing_new → safe F (control_step f).
Proof. intros Hf. by eapply control_step_post. Qed.

(** Steps outside the databases keep what is known of them. *)
Lemma effect_step_rule {B} (P : Host A G → Prop) ev (f : A → A * Result ExternalEffectError B)
    (Q : B → Host A G → Prop) :
  (∀ intent w, ev = Event_ApplyPhase intent → P w → effect_allowed intent w) →
  (∀ w e b, P w → f (h_effects w) = (e, Ok b) → Q b (w <| h_effects := e |>)) →
  triple F P (effect_step ev f) Q.
Proof.
  intros Hev HQ. apply run_triple_step. intros w w' r Hf [[Hc [Hs Hk]] HF] HP.
  destruct (f (h_effects w)) as [e r'] eqn:E0. simplify_eq/=. split_and!; [|done|].
  - split; simpl; [apply security_move_refl|apply control_adds_refl|]. intros intent ->. by eapply Hev.
  - intros b ->. by eapply HQ.
Qed.

Lemma gate_step_rule {B} (P : Host A G → Prop) ev (f : G → G * Result SourceGateError B)
    (Q : B → Host A G → Prop) :
  (∀ intent, ev ≠ Event_ApplyPhase intent) →
  (∀ w g g' b, P w → f g = (g', Ok b) → Q b (w <| h_gate := Some g' |>)) →
  triple F P (gate_step ev f) Q.
Proof.
  intros Hev HQ. unfold gate_step.
  apply run_triple_bind with (Q := λ _, P); [by apply run_triple_read|].
  intros gate. apply run_triple_step. intros w w' r Hf [[Hc [Hs Hk]] HF] HPw.
  destruct (f gate) as [g r'] eqn:E0. simplify_eq/=. split_and!; [|done|by intros b ->; eapply HQ].
  split; simpl; [apply security_move_refl|apply control_adds_refl|]. intros intent ->.
  by destruct (Hev intent).
Qed.

Lemma effect_step_post {B} (P : ControlDb → SecurityDb → Prop) ev
    (f : A → A * Result ExternalEffectError B) :
  (∀ intent, ev ≠ Event_ApplyPhase intent) →
  triple F (λ w, P (h_control w) (h_security w)) (effect_step (G := G) ev f)
    (λ _ w, P (h_control w) (h_security w)).
Proof. intros Hev. apply effect_step_rule; [|done]. intros intent w ->. by destruct (Hev intent). Qed.

Lemma gate_step_post {B} (P : ControlDb → SecurityDb → Prop) ev
    (f : G → G * Result SourceGateError B) :
  (∀ intent, ev ≠ Event_ApplyPhase intent) →
  triple F (λ w, P (h_control w) (h_security w)) (gate_step (A := A) ev f)
    (λ _ w, P (h_control w) (h_security w)).
Proof. intros Hev. by apply gate_step_rule. Qed.

Lemma effect_step_safe {B} ev (f : A → A * Result ExternalEffectError B) :
  (∀ intent, ev ≠ Event_ApplyPhase intent) → safe F (effect_step (G := G) ev f).
Proof. apply (effect_step_post (λ _ _, True)). Qed.

Lemma gate_step_safe {B} ev (f : G → G * Result SourceGateError B) :
  (∀ intent, ev ≠ Event_ApplyPhase intent) → safe F (gate_step (A := A) ev f).
Proof. apply (gate_step_post (λ _ _, True)). Qed.
End StepRules.

(** ** Calls of the stores *)

Ltac control_call_tac effect adds := intros db db' r Hi Hop; split; [by eapply effect|by eapply adds].

Lemma mark_needs_reconcile_call a capsule t :
  control_call (Controller.mark_needs_reconcile a capsule t) nothing_new.
Proof. control_call_tac ControlStore.mark_needs_reconcile_effect mark_needs_reconcile_adds. Qed.
Lemma begin_rollback_call a t : control_call (begin_rollback a t) nothing_new.
Proof. control_call_tac begin_rollback_effect begin_rollback_adds. Qed.
Lemma set_source_block_call a reason t : control_call (set_source_block a reason t) nothing_new.
Proof. control_call_tac set_source_block_effect set_source_block_adds. Qed.
Lemma set_disk_block_call a t : control_call (set_disk_block a t) nothing_new.
Proof. control_call_tac set_disk_block_effect set_pre_mutation_block_adds. Qed.
Lemma set_cutover_block_call a t : control_call (set_stateful_cutover_source_block a t) nothing_new.
Proof. control_call_tac set_stateful_cutover_source_block_effect set_cutover_block_adds. Qed.
Lemma clear_cutover_block_call a t : control_call (clear_stateful_cutover_source_block a t) nothing_new.
Proof. control_call_tac clear_stateful_cutover_source_block_effect clear_cutover_block_adds. Qed.
Lemma clear_disk_block_call a t : control_call (clear_disk_block a t) nothing_new.
Proof. control_call_tac clear_disk_block_effect clear_disk_block_adds. Qed.
Lemma supersede_call a capsule t : control_call (supersede_source_attempt a capsule t) nothing_new.
Proof. control_call_tac supersede_source_attempt_effect supersede_adds. Qed.
Lemma fail_attempt_call a capsule t : control_call (fail_attempt a capsule t) nothing_new.
Proof. control_call_tac fail_attempt_effect fail_attempt_adds. Qed.
Lemma cancel_call a t : control_call (cancel_before_mutation a t) nothing_new.
Proof. control_call_tac cancel_before_mutation_effect cancel_adds. Qed.
Lemma record_fence_call a receipt t : control_call (record_fence_acquisition a receipt t) nothing_new.
Proof. control_call_tac record_fence_acquisition_effect record_fence_adds. Qed.
Lemma commit_receipt_call receipt t :
  control_call (Controller.commit_phase_receipt receipt t) (only_receipt receipt).
Proof. control_call_tac commit_phase_receipt_effect commit_receipt_adds. Qed.
Lemma commit_reconciled_call receipt t :
  control_call (commit_reconciled_phase_receipt receipt t) (only_receipt receipt).
Proof. control_call_tac commit_reconciled_phase_receipt_effect commit_reconciled_adds. Qed.

Create HintDb store_calls.
Hint Resolve mark_needs_reconcile_call begin_rollback_call set_source_block_call set_disk_block_call
  set_cutover_block_call clear_cutover_block_call clear_disk_block_call supersede_call
  fail_attempt_call cancel_call record_fence_call : store_calls.
Hint Resolve acquire_resource_move release_resource_move acquire_disk_move release_disk_move
  begin_drain_move begin_acquire_move reconcile_fence_move begin_release_move begin_intent_move
  validate_start_move record_observation_move verified_move needs_reconcile_move commit_move
  takeover_move compensate_move boundary_move : store_calls.
Hint Extern 1 (run_safe _ _ (security_step _)) =>
  apply security_step_safe; [apply _|intros; eauto with store_calls] : run_safe.
Hint Extern 0 (Stable _) => apply _ : run_safe.
Hint Extern 1 (run_safe _ _ (control_step _)) =>
  apply control_step_safe; [eauto with store_calls] : run_safe.
Hint Extern 1 (run_safe _ _ (effect_step _ _)) => apply effect_step_safe; done : run_safe.
Hint Extern 1 (run_safe _ _ (gate_step _ _)) => apply gate_step_safe; done : run_safe.
Hint Extern 1 (run_safe _ _ (control_read _)) => apply control_read_safe : run_safe.
Hint Extern 1 (run_safe _ _ (security_read _)) => apply run_safe_read : run_safe.
Hint Extern 1 (run_safe _ _ (require_recovery _)) => apply run_safe_read : run_safe.

(** ** Calls that apply nothing *)

Ltac safe_steps :=
  unfold phase_store, phase_effect_call, phase_gate, fence_store, fence_effect_call, in_store,
    in_executor, in_fence; run_safe_steps.

Section SafeCalls.
Context (F : SecurityDb → Prop) `{!Stable F}.

Lemma cleanup_ephemeral_safe op t : safe F (cleanup_ephemeral_resource (A := A) (G := G) op t).
Proof. unfold cleanup_ephemeral_resource. safe_steps. Qed.
Hint Resolve cleanup_ephemeral_safe : run_safe.
Lemma suspend_safe op t : safe F (suspend_pre_mutation_resources (A := A) (G := G) op t).
Proof. unfold suspend_pre_mutation_resources. safe_steps. Qed.
Lemma cleanup_terminal_safe op t :
  safe F (cleanup_terminal_resources_under_gate (A := A) (G := G) op t).
Proof. unfold cleanup_terminal_resources_under_gate. safe_steps. Qed.
Lemma abort_safe op : safe F (abort_live_source_mutation (A := A) op).
Proof. unfold abort_live_source_mutation. safe_steps. Qed.
Lemma ticket_safe op : safe F (complete_source_ticket (A := A) op).
Proof. unfold complete_source_ticket. safe_steps. Qed.
Hint Resolve suspend_safe cleanup_terminal_safe abort_safe ticket_safe : run_safe.
Lemma complete_safe op : safe F (complete_live_source_mutation (A := A) op).
Proof. unfold complete_live_source_mutation. safe_steps. Qed.

Lemma spec_safe op : safe F (has_backup_spec (A := A) (G := G) op).
Proof. unfold has_backup_spec. safe_steps. Qed.
Lemma own_identity_safe op wrap load : safe F (own_identity (A := A) (G := G) op wrap load).
Proof. unfold own_identity. safe_steps. Qed.
Hint Resolve complete_safe spec_safe own_identity_safe : run_safe.
Lemma identity_safe op : safe F (operation_identity_for_phase (A := A) (G := G) op).
Proof. unfold operation_identity_for_phase. safe_steps. Qed.
Lemma compensate_safe op intent t : safe F (compensate (A := A) (G := G) op intent t).
Proof. unfold compensate. safe_steps. Qed.
Lemma pending_safe op intent : safe F (rejection_pending (A := A) (G := G) op intent).
Proof. unfold rejection_pending. safe_steps. Qed.
Lemma mark_phase_safe op phase branch t : safe F (mark_phase (A := A) (G := G) op phase branch t).
Proof. unfold mark_phase. safe_steps. Qed.
Lemma observe_safe intent identity : safe F (observe_intent (G := G) intent identity).
Proof. unfold observe_intent. safe_steps. Qed.
Lemma record_observation_safe op intent evidence t :
  safe F (record_observation (A := A) (G := G) op intent evidence t).
Proof. unfold record_observation. safe_steps. Qed.
Hint Resolve identity_safe compensate_safe pending_safe mark_phase_safe observe_safe
  record_observation_safe : run_safe.
Lemma required_proof_safe op phase branch t :
  safe F (required_source_gate_proof (A := A) (G := G) op phase branch t).
Proof. unfold required_source_gate_proof. safe_steps. Qed.
Lemma reconcile_failed_safe op intent e t :
  safe F (reconcile_failed_phase_application (G := G) op intent e t).
Proof. unfold reconcile_failed_phase_application. safe_steps. Qed.
Lemma refresh_safe op t : safe F (refresh_stateful_source_before_fence_under_gate (A := A) op t).
Proof. unfold refresh_stateful_source_before_fence_under_gate. safe_steps. Qed.
Hint Resolve required_proof_safe reconcile_failed_safe refresh_safe : run_safe.

(** *** Fences *)

Lemma observe_fence_safe project : safe F (observe_project_fence (G := G) project).
Proof. unfold observe_project_fence. safe_steps. Qed.
Lemma project_fence_safe project observation t :
  safe F (project_fence (A := A) (G := G) project observation t).
Proof. unfold project_fence. safe_steps. Qed.
Hint Resolve observe_fence_safe project_fence_safe : run_safe.
Lemma acquire_fence_safe token project attempt crash t :
  safe F (acquire_write_fence_under_gate (G := G) token project attempt crash t).
Proof. unfold acquire_write_fence_under_gate. safe_steps. Qed.
Lemma release_fence_safe project attempt digest crash t :
  safe F (release_write_fence_under_gate (G := G) project attempt digest crash t).
Proof. unfold release_write_fence_under_gate. safe_steps. Qed.
Hint Resolve acquire_fence_safe release_fence_safe : run_safe.
Lemma reconcile_project_safe token project t :
  safe F (reconcile_active_fence_for_project_under_gate (G := G) token project t).
Proof. unfold reconcile_active_fence_for_project_under_gate. safe_steps. Qed.
Lemma soaked_safe op receipt t : safe F (release_soaked_fence (G := G) op receipt t).
Proof. unfold release_soaked_fence. safe_steps. Qed.
Lemma require_operation_safe a : safe F (require_operation (A := A) (G := G) a).
Proof. unfold require_operation. safe_steps. Qed.
Hint Resolve reconcile_project_safe soaked_safe require_operation_safe : run_safe.
Lemma settle_failed_safe a op error t : safe F (settle_failed_phase (A := A) (G := G) a op error t).
Proof. unfold settle_failed_phase. safe_steps. Qed.

(** The projects recovered are memory of the process. *)
Lemma memory_safe {E B} (f : Host A G → gset ProjectId) (r : Host A G → Result E B) :
  safe F (λ w, ([], (w <| h_recovered := f w |>, r w))).
Proof. intros w [[??]?] _. by split; [constructor|]. Qed.
Lemma recover_safe tokens t project : safe F (recover_project_fence (G := G) tokens t project).
Proof.
  unfold recover_project_fence, forget_recovery, note_recovery. safe_steps; apply memory_safe.
Qed.
Lemma recover_security_safe tokens projects t :
  safe F (recover_security_state (G := G) tokens projects t).
Proof.
  unfold recover_security_state. safe_steps; apply recover_safe.
Qed.
Lemma reconcile_fences_safe tokens t : safe F (reconcile_active_fences (G := G) tokens t).
Proof.
  unfold reconcile_active_fences, forget_recovery, note_recovery. safe_steps; apply memory_safe.
Qed.
End SafeCalls.

Hint Resolve cleanup_ephemeral_safe suspend_safe cleanup_terminal_safe abort_safe ticket_safe
  complete_safe spec_safe own_identity_safe identity_safe compensate_safe pending_safe
  mark_phase_safe observe_safe record_observation_safe required_proof_safe reconcile_failed_safe
  refresh_safe observe_fence_safe project_fence_safe acquire_fence_safe release_fence_safe
  reconcile_project_safe soaked_safe require_operation_safe settle_failed_safe : run_safe.

(** ** Up to the effect *)

(** What a call may change of the security store without touching the entitlement. *)
Lemma entitled_mono keys op auth intent control db db' :
  executor_authorizations db' = executor_authorizations db →
  executor_phase_journal db' = executor_phase_journal db → owners_grow db db' →
  (prepared op db → prepared op db') →
  entitled keys op auth intent control db → entitled keys op auth intent control db'.
Proof.
  intros Ha Hj Ho Hf [[Hi Hd Hr Hc Hfence] Hauth Hopen Howns]. split.
  - split; auto.
  - unfold authorized_as. by rewrite Ha.
  - unfold intent_open. by rewrite Hj.
  - by eapply owns_grow.
Qed.

Lemma prepared_ext op db db' :
  fence_journal db' = fence_journal db → prepared op db → prepared op db'.
Proof. intros Hj Hf Hfenced Hp. eapply fence_in_ext; [done|by apply Hf]. Qed.

(** Pass a call of which nothing is needed, and use what is known of a result. *)
Ltac skip_call := eapply run_triple_bind; [apply run_triple_safe; solve [safe_steps]|intros ?; simpl].
Ltac known_result := eapply run_triple_weaken; [intros ? Hk; exact (Hk _ eq_refl)|intros ?? Hq; exact Hq|].

Section Effect.
Context (F : SecurityDb → Prop) `{!Stable F}.
Context (op : OperationRecord) (auth : EvidenceDigest) (intent : PhaseIntent).
Context (Hintent : phase_intent op auth = Ok intent).

Abbreviation holds R := (λ w : Host A G, R (h_control w) (h_security w)) (only parsing).

(** Reads and steps outside the databases. *)
Lemma has_spec_post (R : ControlDb → SecurityDb → Prop) :
  triple F (holds R) (has_backup_spec op) (λ _, holds R).
Proof.
  unfold has_backup_spec.
  apply run_triple_bind with (Q := λ _, holds R); intros; [by apply run_triple_read|by apply run_triple_ok].
Qed.

Lemma own_identity_post (R : ControlDb → SecurityDb → Prop) wrap load :
  triple F (holds R) (own_identity op wrap load) (λ _, holds R).
Proof.
  unfold own_identity.
  apply run_triple_bind with (Q := λ _, holds R); [by apply run_triple_map_err, run_triple_read|].
  intros [identity|]; [|apply run_triple_err]. case_match; [by apply run_triple_ok|apply run_triple_err].
Qed.

Lemma identity_post (R : ControlDb → SecurityDb → Prop) :
  triple F (holds R) (operation_identity_for_phase op) (λ _, holds R).
Proof.
  unfold operation_identity_for_phase. destruct (os_phase (op_state op)); try by apply run_triple_ok.
  - apply run_triple_bind with (Q := λ _, holds R);
      [by apply run_triple_map_err, has_spec_post|]. intros [].
    + apply own_identity_post.
    + by apply run_triple_ok.
  - destruct (is_stateful_deploy op); [apply own_identity_post|by apply run_triple_ok].
Qed.

Lemma observe_post (R : ControlDb → SecurityDb → Prop) identity :
  triple F (holds R) (observe_intent intent identity) (λ _, holds R).
Proof. apply effect_step_post. done. Qed.

Lemma abort_post (R : ControlDb → SecurityDb → Prop) :
  triple F (holds R) (abort_live_source_mutation op) (λ _, holds R).
Proof.
  unfold abort_live_source_mutation. destruct (negb _); [by apply run_triple_ok|].
  by apply run_triple_map_err, gate_step_post.
Qed.

(** *** The source proof *)

Definition admitted_effect (w : Host A G) : Prop :=
  entitled (needed_keys op) op auth intent (h_control w) (h_security w)
  ∧ (requires_live_source_check op = true → source_checked op intent w).

Lemma proof_recorded proof control db db' u :
  entitled (needed_keys op) op auth intent control db →
  record_source_gate_proof (proof_record op intent proof) db = (db', Ok u) →
  entitled (needed_keys op) op auth intent control db'
  ∧ source_gate_proof (in_attempt_id intent) (in_phase intent) db' = Some (sgp_digest proof).
Proof.
  intros Hen Hrec. pose proof (source_proof_frame (proof_record op intent proof) db) as [Hout _].
  pose proof (record_proof_Ok _ _ _ _ Hrec) as [Hj Hp]. rewrite Hrec in Hout.
  injection Hout as Hres _ _ Hf _ Hauth. split.
  - eapply entitled_mono; [done|done| |by apply prepared_ext|exact Hen].
    intros key owner. unfold resource_owner. by rewrite Hres.
  - by destruct (phase_intent_Ok _ _ _ Hintent) as (->&_).
Qed.

Lemma authorize_post t :
  triple F (λ w, holds (entitled (needed_keys op) op auth intent) w ∧ seen_absent intent (h_effects w))
    (authorize_live_source_mutation op intent t)
    (λ _ w, admitted_effect w ∧ seen_absent intent (h_effects w)).
Proof.
  unfold authorize_live_source_mutation.
  destruct (requires_live_source_check op) eqn:Hlive; simpl;
    [|apply run_triple_ok; intros w _ [Hen Habs]; split; [split; [done|congruence]|done]].
  set (checked := λ (proof : SourceGateProof) (w : Host A G),
    holds (entitled (needed_keys op) op auth intent) w ∧ seen_absent intent (h_effects w)
    ∧ ∃ gate gate', gate_check_live op t gate = (gate', Ok proof) ∧ h_gate w = Some gate').
  eapply run_triple_bind; [apply run_triple_result, (gate_step_rule F _ _ _ checked)|].
  { done. }
  { intros w g g' proof [Hen Habs] Hcheck. split_and!; [done..|]. by exists g, g'. }
  intros [proof|error]; simpl; [|do 2 skip_call; apply run_triple_err].
  known_result. apply run_triple_bind with (Q := λ r w, ∀ u, r = Ok u →
    admitted_effect w ∧ seen_absent intent (h_effects w)).
  - apply run_triple_result, security_step_post; [done|..].
    + intros db. apply source_proof_move.
    + intros w db' u _ (Hen&Habs&g&g'&Hcheck&Hg) Hrec.
      destruct (proof_recorded _ _ _ _ _ Hen Hrec) as [Hen' Hp]. split; [|done]. split; [done|].
      intros _. by exists g, t, g', proof.
  - intros [u|error].
    + apply run_triple_ok. intros w _ Hk. by apply (Hk u).
    + skip_call. skip_call. skip_call. skip_call. apply run_triple_err.
Qed.

(** The effect is applied only when it is admitted. *)
Lemma apply_or_recover_safe t :
  triple F (holds (entitled (needed_keys op) op auth intent))
    (apply_or_recover_phase_effect op intent t) (λ _ _, True).
Proof.
  unfold apply_or_recover_phase_effect.
  eapply run_triple_bind; [apply identity_post|]. intros identity.
  apply run_triple_bind with (Q := λ observed w, holds (entitled (needed_keys op) op auth intent) w
    ∧ (observed = Effect_Absent → seen_absent intent (h_effects w))).
  { apply run_triple_map_err, effect_step_rule; [done|]. intros w e observed Hen Hobs.
    split; [done|]. intros ->. by exists identity, (h_effects w). }
  intros [|evidence]; [|apply run_triple_safe; safe_steps].
  eapply run_triple_bind; [eapply run_triple_weaken; [..|apply authorize_post]; [naive_solver|done]|].
  intros u. eapply run_triple_bind; [apply run_triple_result, (effect_step_rule F _ _ _ (λ _ _, True))|].
  - intros intent' w [= <-] [[Hen Hp] Habs]. split; [by exists op, auth|done].
  - done.
  - intros [u'|error]; apply run_triple_safe; safe_steps.
Qed.

(** *** Resources *)

Lemma entitled_acquire keys new control db db' :
  keeps outside_resources db db' → owners_grow db db' →
  owns (op_attempt_id op) new db' → entitled keys op auth intent control db →
  entitled (keys ++ new) op auth intent control db'.
Proof.
  intros Hout Hgrow Hnew Hen. injection Hout as Hj _ _ _ _ _ _ _ _ _ Hf _ _ _ Hauth.
  eapply entitled_mono in Hen; [|exact Hauth|exact Hj|exact Hgrow|by apply prepared_ext].
  destruct Hen as [Han Ha Hopen Howns]. split; try done. by apply Forall_app.
Qed.

Lemma acquire_resource_post keys resource t :
  triple F (holds (entitled keys op auth intent))
    (security_step (acquire_resource resource (op_attempt_id op) t))
    (λ _, holds (entitled (keys ++ [ExecutionResource_key resource]) op auth intent)).
Proof.
  apply security_step_post; [done|intros; apply acquire_resource_move|].
  intros w db' u _ Hen Hacq. pose proof (acquire_resource_frame resource (op_attempt_id op) t (h_security w)) as Hfr.
  rewrite Hacq in Hfr. apply acquire_resource_owner in Hacq as [Ho Hg].
  eapply entitled_acquire; [done..|by constructor|done].
Qed.

Lemma entitled_same keys control db :
  entitled keys op auth intent control db → entitled (keys ++ []) op auth intent control db.
Proof. by rewrite app_nil_r. Qed.

Lemma acquire_disk_post t probe :
  triple F (holds (entitled [] op auth intent))
    (if requires_disk_reservation op (os_phase (op_state op)) then
       let? observation := run_lift
         match probe with
         | Some observe => observe (op_project_id op) t
         | None => Err DiskObservationUnavailable
         end in
       security_step (acquire_disk_reservation (op_project_id op) (op_attempt_id op) observation t)
     else run_ok tt)
    (λ _, holds (entitled (disk_keys op) op auth intent)).
Proof.
  unfold disk_keys. destruct (requires_disk_reservation _ _); [|by apply run_triple_ok].
  eapply run_triple_bind; [by apply run_triple_lift; intros ? w _ _ Hen; exact Hen|]. intros observation.
  apply security_step_post; [done|intros; apply acquire_disk_move|]. intros w db' u _ Hen Hacq.
  pose proof (acquire_disk_frame (op_project_id op) (op_attempt_id op) observation t (h_security w)) as Hfr.
  rewrite Hacq in Hfr. apply acquire_disk_owner in Hacq as [Ho Hg].
  apply (entitled_acquire [] [_] _ _ _ Hfr Hg); [by constructor|done].
Qed.

Lemma acquire_persistent_post t probe :
  triple F (holds (entitled [] op auth intent))
    (acquire_persistent_phase_resources probe op (os_phase (op_state op)) t)
    (λ _, holds (entitled ((disk_keys op ++ registry_keys op) ++ lock_keys op) op auth intent)).
Proof.
  unfold acquire_persistent_phase_resources.
  eapply run_triple_bind; [apply acquire_disk_post|]. intros ?.
  apply run_triple_bind with (Q := λ _, holds (entitled (disk_keys op ++ registry_keys op) op auth intent)).
  - unfold registry_keys. destruct (os_phase (op_state op));
      first [apply acquire_resource_post|apply run_triple_ok; intros w _; apply entitled_same].
  - intros ?. unfold lock_keys. destruct (requires_project_lock _);
      first [apply acquire_resource_post|apply run_triple_ok; intros w _; apply entitled_same].
Qed.

Lemma acquire_phase_post keys t :
  triple F (holds (entitled keys op auth intent)) (acquire_phase_resource op t)
    (λ _, holds (entitled (keys ++ phase_keys op) op auth intent)).
Proof.
  unfold acquire_phase_resource, phase_keys. destruct (phase_resource op);
    [apply acquire_resource_post|apply run_triple_ok; intros w _; apply entitled_same].
Qed.

(** *** Identities *)

Lemma boundary_journal token project attempt t db :
  keeps executor_phase_journal db (begin_backup_boundary token project attempt t db).1.
Proof.
  unfold begin_backup_boundary. apply immediate_transaction_rel; [apply _|].
  unfold require_authorized_for_project, require_resource_owned, require_phase_entry,
    allocate_next_fence_epoch, insert_boundary.
  tx_steps; first [by apply tx_rel_query|by apply keeps_modify].
Qed.

Lemma drain_identity_post token t :
  triple F (holds (entitled (needed_keys op) op auth intent)) (prepare_drain_identity token op t)
    (λ _, holds (entitled (needed_keys op) op auth intent)).
Proof.
  unfold prepare_drain_identity.
  apply run_triple_bind with (Q := λ _, holds (entitled (needed_keys op) op auth intent)).
  { destruct (_ == _); [apply has_spec_post|by apply run_triple_ok]. }
  intros [].
  - apply run_triple_bind with (Q := λ _, holds (entitled (needed_keys op) op auth intent));
      [|intros ?; by apply run_triple_ok].
    apply security_step_post; [done|intros; apply boundary_move|]. intros w db' u _ Hen Hok.
    pose proof (boundary_frame token (op_project_id op) (op_attempt_id op) t (h_security w)) as Hfr.
    pose proof (boundary_journal token (op_project_id op) (op_attempt_id op) t (h_security w)) as Hj.
    rewrite Hok in Hfr, Hj. injection Hfr as Hres _ _ Hf _ Hauth.
    eapply entitled_mono; [done|done| |by apply prepared_ext|exact Hen].
    intros key owner. unfold resource_owner. simpl. by rewrite Hres.
  - destruct (is_stateful_deploy op && _) eqn:Hdrain; [|by apply run_triple_ok].
    apply run_triple_bind with (Q := λ _, holds (entitled (needed_keys op) op auth intent));
      [|intros ?; by apply run_triple_ok].
    apply security_step_post; [done|intros; apply begin_drain_move|]. intros w db' u _ Hen Hok.
    pose proof (begin_drain_frame token (op_project_id op) (op_attempt_id op) t (h_security w)) as Hfr.
    rewrite Hok in Hfr. injection Hfr as Hj _ _ _ _ _ _ _ _ _ Hres _ _ _ Hauth.
    eapply entitled_mono; [done|done| | |exact Hen].
    + intros key owner. unfold resource_owner. simpl. by rewrite Hres.
    + intros _ _ Hp. bool_prop. destruct Hdrain. congruence.
Qed.

(** *** The intent *)

Definition journaled (control : ControlDb) (db : SecurityDb) : Prop :=
  announced op auth intent control db ∧ authorized_as (op_attempt_id op) (op_project_id op) auth db.

Lemma journaled_frame control db db' :
  phase_frame db db' → journaled control db → journaled control db'.
Proof.
  intros [Hout _] [[Hi Hd Hr Hc Hf] Ha]. injection Hout as _ _ _ Hj _ Hauth. split.
  - split; [done..|by eapply prepared_ext].
  - unfold authorized_as. by rewrite Hauth.
Qed.

Lemma journaled_entitled control db :
  journaled control db → intent_open intent db → entitled [] op auth intent control db.
Proof. intros [Han Ha] Hopen. by split; [..|constructor]. Qed.

Lemma begin_intent_post plan t :
  triple F (λ w, holds (announced op auth intent) w
              ∧ phase_receipt_in_branch (op_attempt_id op) (os_phase (op_state op)) (in_branch intent)
                  (h_security w) = Ok None)
    (security_step (begin_phase_intent (intent_request op intent plan auth t)))
    (λ entry w, holds journaled w
       ∧ (pe_status entry = Journal_NeedsReconcile ∨ intent_open intent (h_security w))).
Proof.
  apply security_step_post; [done|intros; apply begin_intent_move|].
  intros w db' entry [[_ [[Hji _] _]] _] [Han Hno] Hok.
  pose proof (begin_intent_frame (intent_request op intent plan auth t) (h_security w)) as Hfr.
  rewrite Hok in Hfr. apply begin_intent_Ok in Hok as (Ha&key&Hkey&Hrow). simpl in *.
  split; [by eapply journaled_frame|]. destruct Hrow as [?|(row&Hrow&Hp&Hd&Hs&Hold)]; [by left|].
  destruct (decide (pe_status entry = Journal_NeedsReconcile)) as [|Hnr]; [by left|right].
  pose proof (phase_intent_Ok _ _ _ Hintent) as (Eatt&Eproj&Ephase&_).
  exists key, row. rewrite Eatt, Eproj, Ephase. split_and!; try done.
  - intros Hcom. destruct Hold as [Hold|Hst].
    + destruct (committed_receipt_loads _ _ _ _ _ _ Hji Hkey Hold Hcom) as (receipt&Hload&_).
      unfold phase_receipt_in_branch in Hno. rewrite Hkey in Hno. simpl in Hno. congruence.
    + rewrite Hst in Hs. by pose proof (status_is_fun _ _ _ Hs Hcom).
  - intros Hrec. destruct Hnr. by eapply status_is_fun.
Qed.

Lemma compensate_post t :
  triple F (holds journaled) (compensate_rejected_source_proof op intent t)
    (λ _, holds (entitled [] op auth intent)).
Proof.
  unfold compensate_rejected_source_proof.
  apply run_triple_bind with (Q := λ _, holds journaled);
    [by apply run_triple_map_err, run_triple_read|].
  intros pending. destruct (negb pending); [apply run_triple_err|].
  eapply run_triple_bind; [apply identity_post|]. intros identity.
  eapply run_triple_bind; [apply run_triple_result, observe_post|].
  intros [[|evidence]|error]; try apply run_triple_err. known_result.
  eapply run_triple_bind; [apply abort_post|]. intros u.
  apply run_triple_map_err, security_step_post; [done|intros; apply compensate_move|].
  intros w db' u' _ Hj Hok.
  pose proof (compensate_frame (op_attempt_id op) (op_project_id op) (in_phase intent) (in_branch intent)
                (in_digest intent) t (h_security w)) as Hfr. rewrite Hok in Hfr.
  apply journaled_entitled; [by eapply journaled_frame|].
  apply compensate_Ok in Hok as (key&row&Hkey&Hrow&Hp&Hd&Hs).
  pose proof (phase_intent_Ok _ _ _ Hintent) as (Eatt&Eproj&_).
  exists key, row. rewrite Eatt, Eproj. split_and!; try done; intros Hs'; by pose proof (status_is_fun _ _ _ Hs Hs').
Qed.

(** *** From the intent to the receipt *)

Lemma loaded_known attempt phase branch db receipt :
  phase_receipt_in_branch attempt phase branch db = Ok (Some receipt) → receipt_known receipt db.
Proof.
  unfold receipt_known, phase_receipt_in_branch. intros Hok.
  apply result_bind_Ok in Hok as (key&Hkey&Hload).
  assert (pr_attempt_id receipt = attempt ∧ pr_phase receipt = phase ∧ pr_branch receipt = branch)
    as (->&->&->); [|by rewrite Hkey].
  unfold load_phase_receipt, decode_bound_phase_receipt in Hload. repeat case_ok. bool_prop. tauto.
Qed.

Lemma commit_post source_proof crash t :
  triple F (λ _, True) (observe_and_commit_phase op intent source_proof crash t)
    (λ receipt w, receipt_known receipt (h_security w)).
Proof.
  unfold observe_and_commit_phase. do 2 skip_call.
  match goal with |- run_triple _ _ _ (match ?r with _ => _ end) _ => destruct r as [[|evidence]|error] end;
    try (skip_call; apply run_triple_err).
  destruct (with_source_proof source_proof evidence) as [evidence'|]; [|skip_call; apply run_triple_err].
  skip_call. destruct (_ == _); [apply run_triple_err|]. do 3 skip_call.
  apply run_triple_bind with (Q := λ receipt w, receipt_known receipt (h_security w)).
  - apply run_triple_map_err, security_step_post; [done|intros; apply commit_move|].
    intros w db' receipt _ _ Hok. apply commit_phase_receipt_loads in Hok as (key&Hkey&Hload).
    eapply loaded_known. unfold phase_receipt_in_branch. rewrite Hkey. exact Hload.
  - intros receipt. apply run_triple_bind with (Q := λ _ w, receipt_known receipt (h_security w)).
    + by apply run_triple_lift.
    + intros ?. by apply run_triple_ok.
Qed.

(** The receipt is known to the end of the call. *)
Lemma finish_post receipt t :
  triple F (λ w, receipt_known receipt (h_security w))
    (let? _ := complete_live_source_mutation op in
     let? _ := phase_store (cleanup_ephemeral_resource op t) in
     run_ok receipt)
    (λ receipt w, receipt_known receipt (h_security w)).
Proof.
  eapply run_triple_bind; [apply safe_keeps, complete_safe|]. intros u.
  eapply run_triple_bind; [apply run_triple_map_err, safe_keeps, cleanup_ephemeral_safe; apply _|].
  intros ?. by apply run_triple_ok.
Qed.

Lemma run_phase_post token plan crash t probe :
  triple F (λ w, holds (announced op auth intent) w
              ∧ phase_receipt_in_branch (op_attempt_id op) (os_phase (op_state op)) (in_branch intent)
                  (h_security w) = Ok None)
    (run_phase probe token op intent plan auth crash t)
    (λ receipt w, receipt_known receipt (h_security w)).
Proof.
  unfold run_phase.
  eapply run_triple_bind; [apply run_triple_map_err, begin_intent_post|]. intros entry.
  apply run_triple_bind with (Q := λ _, holds (entitled [] op auth intent)).
  { destruct (pe_status entry == Journal_NeedsReconcile) eqn:Hs; bool_prop.
    - eapply run_triple_weaken; [..|apply compensate_post]; [by intros w [Hj _]|done].
    - apply run_triple_ok. intros w _ [Hj [?|Hopen]]; [done|]. by apply journaled_entitled. }
  intros ?. eapply run_triple_bind; [apply run_triple_map_err, acquire_persistent_post|].
  intros ?. eapply run_triple_bind; [apply run_triple_map_err, acquire_phase_post|].
  intros ?. eapply run_triple_bind; [apply run_triple_map_err, drain_identity_post|].
  intros ?. apply run_triple_bind with (Q := λ _, holds (entitled (needed_keys op) op auth intent));
    [by apply run_triple_lift|].
  intros ?. eapply run_triple_bind; [apply apply_or_recover_safe|]. intros ?.
  do 2 skip_call. eapply run_triple_bind; [apply commit_post|]. intros receipt. apply finish_post.
Qed.
End Effect.

Lemma announced_frame op auth intent control db db' :
  phase_frame db db' → announced op auth intent control db → announced op auth intent control db'.
Proof.
  intros [Hout _] [Hi Hd Hr Hc Hf]. injection Hout as _ _ _ Hj _ _.
  split; [done..|by eapply prepared_ext].
Qed.

Lemma execute_phase_post F `{!Stable F} probe token op crash t :
  triple F (λ w, known op (h_control w) ∧ prepared op (h_security w))
    (execute_phase_under_gate probe token op crash t)
    (λ receipt w, receipt_known receipt (h_security w)).
Proof.
  unfold execute_phase_under_gate.
  set (P := λ w : Host A G, known op (h_control w) ∧ prepared op (h_security w)).
  apply run_triple_bind with (Q := λ _, P); [by apply run_triple_map_err, run_triple_read|]. intros ?.
  destruct (_ || _) eqn:Hrunning; [apply run_triple_err|]. bool_prop. destruct Hrunning as [Hrunning _].
  apply run_triple_bind with (Q := λ auth w, P w ∧ executor_authorization_digest op = Ok auth);
    [by apply run_triple_map_err, run_triple_lift|]. intros auth. apply run_triple_pure. intros Hauth.
  apply run_triple_bind with (Q := λ intent w, P w ∧ phase_intent op auth = Ok intent);
    [by apply run_triple_map_err, run_triple_lift|]. intros intent. apply run_triple_pure. intros Hintent.
  set (N := λ w : Host A G, announced op auth intent (h_control w) (h_security w)).
  apply run_triple_bind with (Q := λ _, N).
  { apply run_triple_map_err, run_triple_lift. intros plan w _ _ [Hc Hf]. by split. }
  intros plan. apply run_triple_bind with (Q := λ _, N).
  { destruct (_ && _); [|by apply run_triple_ok].
    apply run_triple_bind with (Q := λ _, N); [|intros ?; by apply run_triple_ok].
    apply run_triple_map_err, security_step_post; [done|intros; apply takeover_move|].
    intros w db' u' _ HN Hok. eapply announced_frame; [|exact HN].
    pose proof (takeover_frame (op_attempt_id op) (op_project_id op) auth t (h_security w)) as Hfr.
    by rewrite Hok in Hfr. }
  intros ?. apply run_triple_bind with (Q := λ _, N).
  { apply run_triple_map_err, security_step_post; [done|intros; apply validate_start_move|].
    intros w db' u' _ HN Hok. eapply announced_frame; [|exact HN].
    pose proof (validate_start_frame (op_attempt_id op) (op_project_id op) (os_phase (op_state op))
                  (in_branch intent) plan auth (h_security w)) as Hfr. by rewrite Hok in Hfr. }
  intros ?. apply run_triple_bind with (Q := λ receipt w, N w ∧
    phase_receipt_in_branch (op_attempt_id op) (os_phase (op_state op)) (in_branch intent) (h_security w)
    = Ok receipt); [by apply run_triple_map_err, run_triple_read|].
  intros [receipt|].
  - eapply run_triple_weaken; [..|apply finish_post; done]; [|done].
    intros w [_ Hload]. by eapply loaded_known.
  - by apply run_phase_post.
Qed.

(** ** The coordinator *)

Section Coordinator.
Context (F : SecurityDb → Prop) `{!Stable F}.

Lemma require_operation_post a :
  triple F (λ _, True) (require_operation a)
    (λ op w, stored (h_control w) a op ∧ op_attempt_id op = a).
Proof.
  unfold require_operation.
  apply run_triple_bind with (Q := λ found w, operation a (h_control w) = Ok found);
    [by apply run_triple_map_err, control_read_post|].
  intros found. apply run_triple_lift. intros op w Hf%ok_or_Ok [[Hc _] _] Hop. subst found.
  assert (stored (h_control w) a op) as Hst.
  { unfold operation, read_connection, decode_optional in Hop.
    destruct (operation_attempts _ !! a) as [row|] eqn:Hrow; [|done]. simpl in Hop. inv_ok.
    exists row. split; [done|]. by apply decode_operation_Ok. }
  split; [done|]. by destruct (stored_matches _ _ _ Hc Hst) as (row&_&Hm%rm_attempt).
Qed.

(** The receipt of the completion phase is read from the journal. *)
Lemma reconcile_committed_post op t :
  triple F (λ _, True) (reconcile_committed_live_source_mutation_under_gate op t)
    (λ found w, ∀ receipt, found = Some receipt → receipt_known receipt (h_security w)).
Proof.
  unfold reconcile_committed_live_source_mutation_under_gate.
  destruct (_ != _); [apply run_triple_err|].
  destruct (live_source_admission_phase op) as [admission|]; [|by apply run_triple_ok].
  destruct (live_source_completion_phase op) as [completion|]; [|by apply run_triple_ok].
  destruct (negb _); [by apply run_triple_ok|].
  apply run_triple_bind with (Q := λ found w, ∀ receipt, found = Some receipt →
    receipt_known receipt (h_security w)).
  { apply run_triple_map_err, run_triple_read. intros found w Hok _ _ receipt ->. by eapply loaded_known. }
  intros found. apply run_triple_bind with (Q := λ receipt w, receipt_known receipt (h_security w)).
  { apply run_triple_lift. intros receipt w Hok%ok_or_Ok _ Hk. by apply Hk. }
  intros receipt.
  do 4 (eapply run_triple_bind; [apply safe_keeps; safe_steps|intros ?]).
  case_match; [apply run_triple_err|].
  do 2 (eapply run_triple_bind; [apply safe_keeps; safe_steps|intros ?]).
  apply run_triple_ok. by intros w _ Hk r [= <-].
Qed.

Lemma reconcile_committed_safe op t :
  safe F (reconcile_committed_live_source_mutation_under_gate (A := A) op t).
Proof. eapply run_triple_weaken; [..|apply reconcile_committed_post]; done. Qed.
Hint Resolve reconcile_committed_safe : run_safe.

Lemma commit_known receipt t :
  triple F (λ w, receipt_known receipt (h_security w))
    (control_step (Controller.commit_phase_receipt receipt t)) (λ _ _, True).
Proof.
  eapply control_step_post; [apply _|apply commit_receipt_call| |done].
  intros w a d Hk [-> ->]. by exists receipt.
Qed.

Lemma commit_reconciled_known receipt t :
  triple F (λ w, receipt_known receipt (h_security w))
    (control_step (commit_reconciled_phase_receipt receipt t)) (λ _ _, True).
Proof.
  eapply control_step_post; [apply _|apply commit_reconciled_call| |done].
  intros w a d Hk [-> ->]. by exists receipt.
Qed.

Lemma settle_post op t :
  triple F (λ w, current op (h_control w)) (settle_non_executable_operation_under_gate op t)
    (λ settled w, settled = false → current op (h_control w)).
Proof.
  assert (∀ P, triple F P (run_ok true : Run (Host A G) Event CoordinatorError bool)
            (λ settled w, settled = false → current op (h_control w))) as Htrue.
  { intros P. by apply run_triple_ok. }
  unfold settle_non_executable_operation_under_gate. destruct (_ != _).
  { skip_call. match goal with b : bool |- _ => destruct b end; [apply Htrue|].
    skip_call. apply Htrue. }
  destruct (_ == _); [|by apply run_triple_ok].
  eapply run_triple_bind; [apply run_triple_result; eapply run_triple_weaken;
    [..|apply reconcile_committed_post]; done|].
  intros [[receipt|]|[]]; try apply run_triple_err; try apply Htrue. simpl.
  eapply run_triple_bind; [|intros ?; apply Htrue]. apply run_triple_map_err.
  eapply run_triple_weaken; [..|apply commit_reconciled_known]; [|done].
  intros w Hk. by apply (Hk _ eq_refl).
Qed.

(** *** The cutover *)

Lemma acquire_fence_post token project attempt crash t :
  triple F (λ _, True) (acquire_write_fence_under_gate token project attempt crash t)
    (λ _ w, fence_in [Fence_Held] project attempt (h_security w)).
Proof.
  unfold acquire_write_fence_under_gate.
  set (P := λ w : Host A G, fence_in [Fence_AcquireIntent; Fence_Held] project attempt (h_security w)).
  assert (∀ u : unit, triple F P (observe_project_fence project) (λ _, P)) as Hobserve.
  { intros _. apply run_triple_map_err, (effect_step_post F (λ _ db, fence_in _ _ _ db)). done. }
  apply run_triple_bind with (Q := λ _, P).
  { apply run_triple_map_err, security_step_post; [done|intros; apply begin_acquire_move|].
    intros w db' lease _ _ Hok. by eapply begin_acquire_state. }
  intros lease. destruct (_ == _); [apply run_triple_err|].
  apply run_triple_bind with (Q := λ _, P); [by apply run_triple_lift|]. intros ?.
  eapply run_triple_bind; [by apply Hobserve|]. intros observation.
  apply run_triple_bind with (Q := λ _, P).
  { destruct observation as [|o_attempt epoch o_token].
    - apply run_triple_map_err, (effect_step_post F (λ _ db, fence_in _ _ _ db)). done.
    - destruct (lease_is _ _ _ _); [by apply run_triple_ok|]. skip_call. apply run_triple_err. }
  intros ?. apply run_triple_bind with (Q := λ _, P); [by apply run_triple_lift|]. intros ?.
  eapply run_triple_bind; [by apply Hobserve|]. intros observation'.
  apply run_triple_bind with (Q := λ projection w, projection = Projection_Held →
    fence_in [Fence_Held] project attempt (h_security w)).
  { apply run_triple_map_err, security_step_post; [done|intros; apply reconcile_fence_move|].
    intros w db' projection [[_ [[_ Hf] _]] _] HP Hok ->. by eapply reconcile_held. }
  intros projection. destruct (_ != _) eqn:Hheld; [apply run_triple_err|]. bool_prop.
  apply run_triple_bind with (Q := λ _ w, fence_in [Fence_Held] project attempt (h_security w));
    [apply run_triple_lift; auto|]. intros ?.
  apply run_triple_bind with (Q := λ _ w, fence_in [Fence_Held] project attempt (h_security w));
    [by apply run_triple_map_err, run_triple_read|]. intros found. by apply run_triple_lift.
Qed.

Lemma fence_receipt_project project attempt db receipt :
  fence_acquisition_receipt project attempt db = Ok (Some receipt) → far_project_id receipt = project.
Proof.
  unfold fence_acquisition_receipt, fence_receipt_from_lease, FenceReceipt_new. intros Hok.
  apply result_bind_Ok in Hok as (fence&Hload&Hok). destruct fence as [lease|]; [|done].
  apply load_active_fence_Some in Hload as (row&_&_&Hp&_). repeat case_ok; done.
Qed.

(** The record answered is the stored one, perhaps with its epoch filled in. *)
Lemma record_fence_Ok a receipt t control control' op :
  db_inv control → record_fence_acquisition a receipt t control = (control', Ok op) →
  current op control' ∧ op_attempt_id op = a ∧ op_project_id op = far_project_id receipt.
Proof.
  intros Hinv Hok. unfold record_fence_acquisition, with_validation in Hok.
  match type of Hok with match ?v with _ => _ end = _ => destruct v; [|done] end.
  apply immediate_transaction_Ok in Hok.
  apply tx_bind_Ok in Hok as (now&?&[-> Hst]%load_attempt_Ok&Hok).
  destruct (stored_matches _ _ _ Hinv Hst) as (row&Hrow&Hm).
  pose proof (rm_attempt _ _ _ Hm) as Hatt.
  destruct (_ || _) eqn:Hguard in Hok; [done|]. bool_prop. destruct Hguard as [_ Hproj].
  apply tx_bind_Ok in Hok as (merged&?&[Hmerge ->]%lift_Ok&Hok). destruct merged as [ev|].
  - apply tx_bind_Ok in Hok as (json&?&[Hj%map_err_Ok ->]%lift_Ok&Hok).
    apply tx_bind_Ok in Hok as (changed&db1&Hup&Hok). unfold update_attempt in Hup.
    apply tx_bind_Ok in Hup as (?&?&[-> ->]%gets_Ok&Hup). rewrite Hrow in Hup.
    destruct (at_result row == "running"%string); inv_ok.
    split; [|done]. eexists. split; [|done]. eexists. simpl. rewrite Hatt.
    split; [apply lookup_insert_eq|]. simpl. by apply json_round_trip.
  - apply tx_ok_Ok in Hok as [-> ->]. split; [|done]. exists now. simpl. by rewrite Hatt.
Qed.

Definition cutover_ready (a : Uuid) (preparation : CutoverPreparation) (w : Host A G) : Prop :=
  match preparation with
  | Cutover_Ready op =>
      op_attempt_id op = a ∧ current op (h_control w) ∧ fence_ready op (h_security w)
  | Cutover_Settled _ => True
  end.

Lemma prepare_cutover_post token op t :
  triple F (λ _, True) (prepare_cutover_under_gate token op t)
    (cutover_ready (op_attempt_id op)).
Proof.
  unfold prepare_cutover_under_gate. skip_call.
  match goal with |- run_triple _ _ _ (match ?r with _ => _ end) _ =>
    destruct r as [u|[| |[]| | |]] end;
    try apply run_triple_err; try (skip_call; by apply run_triple_ok).
  skip_call. eapply run_triple_bind; [apply run_triple_map_err, acquire_fence_post|]. intros lease.
  set (P := λ w : Host A G, fence_in [Fence_Held] (op_project_id op) (op_attempt_id op) (h_security w)).
  apply run_triple_bind with (Q := λ found w, P w ∧ ∀ receipt, found = Some receipt →
                                     far_project_id receipt = op_project_id op).
  { apply run_triple_map_err, run_triple_read. intros found w Hread _ HP. split; [done|].
    intros receipt ->. by eapply fence_receipt_project. }
  intros found. apply run_triple_bind with (Q := λ receipt w, P w ∧ far_project_id receipt = op_project_id op).
  { apply run_triple_lift. intros receipt w Hf%ok_or_Ok _ [HP Hr]. auto. }
  intros receipt.
  apply run_triple_bind with (Q := λ ready, cutover_ready (op_attempt_id op) (Cutover_Ready ready));
    [|intros ready; by apply run_triple_ok].
  apply run_triple_map_err. eapply control_step_post; [apply _|apply record_fence_call|done|].
  intros w control' ready [[Hc _] _] [HP Hproj] Hok.
  apply record_fence_Ok in Hok as (Hcur&Ha&Hp); [|done]. split_and!; [done..|]. intros _. simpl.
  rewrite Ha, Hp, Hproj. exact HP.
Qed.

(** *** One advance *)

Lemma project_receipt_safe op receipt crash t :
  triple F (λ w, receipt_known receipt (h_security w)) (project_receipt op receipt crash t)
    (λ _ _, True).
Proof.
  unfold project_receipt.
  eapply run_triple_bind; [apply safe_keeps, soaked_safe; apply _|]. intros ?.
  apply run_triple_bind with (Q := λ _ w, receipt_known receipt (h_security w)); [by apply run_triple_lift|].
  intros ?. eapply run_triple_bind; [apply run_triple_map_err, commit_known|]. intros projected.
  apply run_triple_safe. safe_steps.
Qed.

Lemma execute_and_project_safe probe token a op phase_crash coordinator_crash t :
  triple F (λ w, known op (h_control w) ∧ prepared op (h_security w))
    (execute_and_project probe token a op phase_crash coordinator_crash t) (λ _ _, True).
Proof.
  unfold execute_and_project.
  eapply run_triple_bind; [apply run_triple_result, execute_phase_post; done|]. intros [receipt|error]; simpl.
  - known_result. apply project_receipt_safe.
  - apply run_triple_safe. safe_steps.
Qed.

(** An advance works on the record it read last, in the state the controller has. *)
Lemma advance_once_safe probe tokens a phase_crash coordinator_crash t :
  (∀ op control, op_attempt_id op = a → current op control → known op control) →
  safe F (advance_once (A := A) (G := G) probe tokens a phase_crash coordinator_crash t).
Proof.
  intros Hknown. unfold advance_once. skip_call.
  eapply run_triple_bind; [apply require_operation_post|]. intros op.
  apply run_triple_bind with (Q := λ _ w, current op (h_control w) ∧ op_attempt_id op = a).
  { apply run_triple_map_err, run_triple_read. intros _ w _ _ [Hst Hid]. split; [|done].
    exists op. by rewrite Hid. }
  intros ?. apply run_triple_pure. intros <-. eapply run_triple_bind; [apply settle_post|]. intros [].
  { apply run_triple_safe. safe_steps. }
  destruct (_ == _) eqn:Hphase; bool_prop.
  - eapply run_triple_bind; [eapply run_triple_weaken; [..|apply prepare_cutover_post]; done|].
    intros [ready|settled]; [|apply run_triple_safe; safe_steps].
    eapply run_triple_weaken; [..|apply execute_and_project_safe]; [|done].
    intros w (Hid&Hcur&Hf). split; [by apply Hknown|by intros _].
  - eapply run_triple_weaken; [..|apply execute_and_project_safe]; [|done].
    intros w Hcur. split; [by apply Hknown, Hcur|]. intros _ Hcut. by rewrite Hcut in Hphase.
Qed.

Lemma begin_rollback_safe a crash t :
  safe F (coordinator_begin_rollback (A := A) (G := G) a crash t).
Proof.
  unfold coordinator_begin_rollback.
  eapply run_triple_bind; [apply run_triple_safe, require_operation_safe|]. intros current.
  skip_call. eapply run_triple_bind with (Q := λ _ _, True); [|intros ?; apply run_triple_safe; safe_steps].
  case_match; [|by apply run_triple_ok].
  eapply run_triple_bind; [apply run_triple_map_err; eapply run_triple_weaken;
    [..|apply reconcile_committed_post]; done|].
  intros [receipt|]; [|by apply run_triple_ok].
  eapply run_triple_bind with (Q := λ _ _, True); [|intros ?; by apply run_triple_ok].
  apply run_triple_map_err. eapply run_triple_weaken; [..|apply commit_reconciled_known]; [|done].
  intros w Hk. by apply Hk.
Qed.

Lemma fail_before_mutation_safe a capsule t :
  safe F (fail_before_mutation (A := A) (G := G) a capsule t).
Proof. unfold fail_before_mutation, cleanup_terminal_resources. safe_steps. Qed.
Lemma cancel_safe a t : safe F (coordinator_cancel_before_mutation (A := A) (G := G) a t).
Proof. unfold coordinator_cancel_before_mutation, cleanup_terminal_resources. safe_steps. Qed.
(** The executor called directly. *)
Lemma execute_phase_safe probe token op crash t :
  (∀ control, known op control) → fenced = false →
  safe F (execute_phase (A := A) (G := G) probe token op crash t).
Proof.
  intros Hknown Hfenced. eapply run_triple_weaken; [..|by apply execute_phase_post]; [|done].
  intros w _. split; [done|]. unfold prepared. by rewrite Hfenced.
Qed.
Lemma acquire_write_fence_safe token project attempt crash t :
  safe F (acquire_write_fence (G := G) token project attempt crash t).
Proof. unfold acquire_write_fence. safe_steps. Qed.
Lemma release_write_fence_safe project attempt digest crash t :
  safe F (release_write_fence (G := G) project attempt digest crash t).
Proof. unfold release_write_fence. safe_steps. Qed.

Lemma retry_disk_safe a t : safe F (retry_disk_reservation (A := A) (G := G) a t).
Proof. unfold retry_disk_reservation. safe_steps. Qed.
End Coordinator.
End Safety.
