(* ===== verification/ExecutorSpec.v ===== *)
(** * The executor: theorems

    The histories of a host: calls of the coordinator and of the executor, each of which
    may be cut short after any of its steps by a stop of the process and meets calls of
    other threads to the controller, admissions, calls of the security store by other
    parts, and arbitrary changes of the outside world and the source gate.  On them: which effects are applied, where the controller's receipts come
    from, what a repeated call does, and what a finished attempt still holds. *)

From Stdlib Require Import ZArith Lia Ascii String.
From stdpp Require Import base gmap strings option list_numbers list relations.
From S2P Require Import Prelude TxLogic Steps Identifiers States Text Failure Operation Errors Budget Controller.
From S2P Require Import Attempt ControlStore SecurityDb Resources ResourceSpec Fences FenceSpec Ordered Backup.
From S2P Require Import PhaseAuthority PhaseJournal PhaseJournalSpec SourceDb ExecutorBase Executor Coordinator.
From S2P Require Import ExecutorLogic ExecutorHistory ExecutorFacts ExecutorSafety.

Local Open Scope Z_scope.
Local Open Scope rust_scope.

(** ** Calls of the security store by other parts *)

Section OtherCalls.
Context `{!PhaseCodecs}.

Inductive security_call (db : SecurityDb) : SecurityDb → Prop :=
| sc_authorize_attempt authorization t : security_call db (authorize_attempt authorization t db).1
| sc_bind_spec binding : security_call db (bind_authorized_phase_spec binding db).1
| sc_bind_chain binding : security_call db (bind_verified_backup_chain binding db).1
| sc_permit attempt phase branch t :
    security_call db (authorize_bound_phase_spec attempt phase branch t db).1
| sc_release_resource resource attempt t :
    security_call db (release_resource resource attempt t db).1.

(** They leave the journals of fences alone. *)
Definition fence_side (db : SecurityDb) := (fence_tables db, fence_epoch db).

Local Hint Resolve tx_rel_query : tx_rel.
Local Hint Extern 1 (tx_rel _ (modify _)) => apply keeps_modify; reflexivity : tx_rel.

Lemma fence_side_move db db' : step_effect db db' → keeps fence_side db db' → security_move db db'.
Proof. intros Hs Hk. injection Hk as Hf Hd He. split; [done|]. apply effect_none; [done..|lia|lia]. Qed.

Lemma security_call_effect db db' : security_call db db' → step_effect db db'.
Proof.
  destruct 1.
  - apply authorize_attempt_effect.
  - apply bind_authorized_phase_spec_effect.
  - apply bind_verified_backup_chain_effect.
  - apply authorize_bound_phase_spec_effect.
  - assert (keeps outside_resources db (release_resource resource attempt t db).1) as Hk.
    { unfold release_resource, delete_resource. apply immediate_transaction_rel; [apply _|]. tx_steps. }
    apply (outside_resources_move _ _ Hk).
Qed.

Lemma security_call_move db db' : security_call db db' → security_move db db'.
Proof.
  intros Hcall. apply fence_side_move; [by apply security_call_effect|].
  destruct Hcall; unfold authorize_attempt, bind_authorized_phase_spec, bind_verified_backup_chain,
    authorize_bound_phase_spec, release_resource, delete_resource; repeat case_match; try reflexivity;
    first [apply immediate_transaction_rel; [apply _|]|apply with_storage_key_rel; [apply _|]];
    unfold require_branch_not_taken_over, require_phase_entry, insert_phase_spec, insert_backup_chain,
      consume_mutation_grant, reserve_bootstrap, PhaseJournal.insert_grant; tx_steps.
Qed.
End OtherCalls.

(** ** Histories *)

Section Histories.
Context `{!ExecutorCodecs, !JsonRoundTrip PhaseArtifacts, !JsonRoundTrip PhaseReceipt}.
Context `{!JsonRoundTrip OperationRecord, !JsonRoundTrip OperationTransition}.
Context {A G : Type} `{!ExternalEffects A, !LiveSourceGate G}.
Context (probe : option (ProjectId → Z → Result StoreError DiskAvailabilityObservation)).

(** The calls of [DurableCoordinator] and of [DurableExecutor], which the drivers of
    deployments and backups also call directly, with records of their own. *)
Inductive HostCall : Type :=
| Call_AdvanceOnce (tokens : FreshTokens) (attempt_id : Uuid) (phase_crash_at : option PhaseCrashPoint)
    (coordinator_crash_at : option CoordinatorCrashPoint) (now_ms : Z)
| Call_BeginRollback (attempt_id : Uuid) (crash_at : option CoordinatorCrashPoint) (now_ms : Z)
| Call_FailBeforeMutation (attempt_id : Uuid) (capsule : FailureCapsule) (now_ms : Z)
| Call_CancelBeforeMutation (attempt_id : Uuid) (now_ms : Z)
| Call_RetryDiskReservation (attempt_id : Uuid) (now_ms : Z)
| Call_ExecutePhase (token : Uuid) (operation : OperationRecord) (crash_at : option PhaseCrashPoint)
    (now_ms : Z)
| Call_CleanupTerminalResources (operation : OperationRecord) (now_ms : Z)
| Call_AcquireWriteFence (token : Uuid) (project_id : ProjectId) (attempt_id : Uuid)
    (crash_at : option FenceCrashPoint) (now_ms : Z)
| Call_ReleaseWriteFence (project_id : ProjectId) (attempt_id : Uuid) (receipt_digest : EvidenceDigest)
    (crash_at : option FenceCrashPoint) (now_ms : Z)
| Call_RecoverSecurityState (tokens : ProjectId → Uuid) (project_ids : list ProjectId) (now_ms : Z)
| Call_ReconcileActiveFences (tokens : ProjectId → Uuid) (now_ms : Z).

(** The steps of a call and the world it leaves. *)
Definition trace {E B} (m : Run (Host A G) Event E B) (w : Host A G)
    : list (Step (Host A G) Event) * Host A G := ((m w).1, (m w).2.1).

Definition host_call (call : HostCall) : Host A G → list (Step (Host A G) Event) * Host A G :=
  match call with
  | Call_AdvanceOnce tokens a phase_crash coordinator_crash t =>
      trace (advance_once probe tokens a phase_crash coordinator_crash t)
  | Call_BeginRollback a crash t => trace (coordinator_begin_rollback a crash t)
  | Call_FailBeforeMutation a capsule t => trace (fail_before_mutation a capsule t)
  | Call_CancelBeforeMutation a t => trace (coordinator_cancel_before_mutation a t)
  | Call_RetryDiskReservation a t => trace (retry_disk_reservation a t)
  | Call_ExecutePhase token op crash t => trace (execute_phase probe token op crash t)
  | Call_CleanupTerminalResources op t => trace (cleanup_terminal_resources op t)
  | Call_AcquireWriteFence token p a crash t => trace (acquire_write_fence token p a crash t)
  | Call_ReleaseWriteFence p a digest crash t => trace (release_write_fence p a digest crash t)
  | Call_RecoverSecurityState tokens projects t => trace (recover_security_state tokens projects t)
  | Call_ReconcileActiveFences tokens t => trace (reconcile_active_fences tokens t)
  end.

(** A stop of the process loses its memory. *)
Definition stopped (w : Host A G) : Host A G := w <| h_recovered := ∅ |>.

(** Calls that take a project's gate follow one another; those that reach the controller
    without it come between them ([hs_controls]) or into the middle of one, as
    [hs_others] arranges. *)
Inductive host_step (w : Host A G) : Host A G → Prop :=
| hs_returns call : host_step w (host_call call w).2
| hs_stops call st : st ∈ (host_call call w).1 → host_step w (stopped (st_after st))
| hs_restarts : host_step w (stopped w)
| hs_controls call : host_step w (w <| h_control := perform_other call (h_control w) |>)
| hs_others others : host_step w (w <| h_others := others |>)
| hs_secures db : security_call (h_security w) db → host_step w (w <| h_security := db |>)
| hs_world effects gate : host_step w (w <| h_effects := effects |> <| h_gate := gate |>).

(** Nothing admitted yet. *)
Definition initial (w : Host A G) : Prop :=
  h_control w = empty_control_db ∧ security_ok (h_security w).

(** Which records a call may apply effects for: an advance those of its attempt in the
    state the controller has, as the call last saw it; a direct call its own record; no
    other call any.  An advance makes sure of the write fence of a cutover. *)
Definition works_on (call : HostCall) (op : OperationRecord) (control : ControlDb) : Prop :=
  match call with
  | Call_AdvanceOnce _ a _ _ _ => op_attempt_id op = a ∧ current op control
  | Call_ExecutePhase _ op' _ _ => op = op'
  | _ => False
  end.

Definition fences (call : HostCall) : bool :=
  match call with Call_AdvanceOnce _ _ _ _ _ => true | _ => false end.

Lemma host_call_safe F `{!Stable F} call w :
  inv F w →
  Forall (λ st, guarantee (works_on call) (fences call) st ∧ inv F (st_after st)) (host_call call w).1
  ∧ inv F (host_call call w).2.
Proof.
  assert (∀ E B (m : Run (Host A G) Event E B),
    run_safe (inv F) (guarantee (works_on call) (fences call)) m → inv F w →
    Forall (λ st, guarantee (works_on call) (fences call) st ∧ inv F (st_after st)) (trace m w).1
    ∧ inv F (trace m w).2) as Hsafe.
  { intros E B m Hm Hi. by destruct (Hm w Hi I) as (?&?&_). }
  intros Hi. destruct call; (apply Hsafe; [|exact Hi]).
  - apply advance_once_safe; [done..|]. by intros op control.
  - by apply begin_rollback_safe.
  - by apply fail_before_mutation_safe.
  - by apply cancel_safe.
  - by apply retry_disk_safe.
  - by apply execute_phase_safe.
  - by apply cleanup_terminal_safe.
  - by apply acquire_write_fence_safe.
  - by apply release_write_fence_safe.
  - by apply recover_security_safe.
  - by apply reconcile_fences_safe.
Qed.

Lemma host_step_ok w w' : host_step w w' → host_ok w → host_ok w'.
Proof.
  intros Hstep Hok. pose proof Hok as (Hc&Hs&Hk).
  destruct Hstep as [call|call st Hin| |call|others|db Hcall|effects gate]; try done.
  - by destruct (host_call_safe (λ _, True) call w (conj Hok I)) as [_ [? _]].
  - destruct (host_call_safe (λ _, True) call w (conj Hok I)) as [Hsteps _].
    rewrite Forall_forall in Hsteps. by destruct (Hsteps _ Hin) as [_ [? _]].
  - split_and!; [by eapply controller_step_inv, other_step|done|]. intros a op d Hst Hd.
    destruct (other_adds _ _ Hc a op d Hst Hd) as [(op0&Hst0&Hd0)|[]]. by eapply (Hk _ op0).
  - apply security_call_move in Hcall. split_and!; [done|by eapply security_move_ok|].
    intros a op d Hst Hd. eapply known_receipts_mono; [done|by eapply Hk].
Qed.

Lemma initial_ok w : initial w → host_ok w.
Proof.
  intros [Hc Hs]. unfold host_ok. rewrite Hc. split_and!; [apply db_inv_empty|done|].
  by intros a op d (row&Hrow&_).
Qed.

Lemma history_ok w0 w : initial w0 → rtc host_step w0 w → host_ok w.
Proof.
  intros Hi%initial_ok Hrun. revert Hi.
  induction Hrun as [w|w1 w2 w3 Hstep _ IH]; [done|]. intros Hok. by eapply IH, host_step_ok.
Qed.

(** ** Effects *)

(** C1: In every history of calls of the coordinator and the executor, those of the drivers
    with records of their own included, which may stop after any step and meet calls of
    other threads to the controller at each access, and in which gated calls follow one
    another: only [advance_once] and [execute_phase] apply the effect of a phase.  The
    intent carries the digest of its payload and is that of a running record: the record
    given to [execute_phase], or for [advance_once] one of its attempt in the state in
    which the call last saw it in the controller.  The attempt is authorized with the
    digest of that record's authorization, the journal holds the intent, neither committed
    nor under reconciliation; the attempt owns the disk reservation, locks and exclusive
    resource the phase needs; an admission phase runs with the source gate as the check
    that admitted it left it and the proof of that check on record; [advance_once] applies
    a cutover behind the held write fence of the attempt; and the effect was observed to
    be absent, with nothing done to the outside world since. *)
Theorem effects_follow_the_journal w0 w call st intent :
  initial w0 → rtc host_step w0 w → st ∈ (host_call call w).1 →
  st_event st = Event_ApplyPhase intent →
  PhaseIntent_has_valid_digest intent = Ok true
  ∧ effect_allowed (works_on call) (fences call) intent (st_before st).
Proof.
  intros Hi Hrun Hin Hev. pose proof (history_ok _ _ Hi Hrun) as Hok.
  destruct (host_call_safe (λ _, True) call w (conj Hok I)) as [Hsteps _].
  rewrite Forall_forall in Hsteps. destruct (Hsteps _ Hin) as [[_ _ Happly] _].
  specialize (Happly _ Hev). split; [|done].
  destruct Happly as [(op&auth&[[Hintent _ _ _ _] _ _ _]&_) _]. by eapply phase_intent_Ok.
Qed.

(** ** Receipts *)

(** C2: In every history the controller is at most as far as the executor: every receipt
    on which a stored attempt advanced is a receipt of the security store for that
    attempt, valid and of a phase whose journal row is committed, however the process
    stopped in between. *)
Theorem controller_receipts_come_from_the_executor w0 w a op entry d :
  initial w0 → rtc host_step w0 w → stored (h_control w) a op →
  entry ∈ transitions_of op → ot_receipt_digest entry = Some d →
  ∃ receipt key row,
    phase_receipt_in_branch a (pr_phase receipt) (pr_branch receipt) (h_security w) = Ok (Some receipt)
    ∧ pr_receipt_digest receipt = d
    ∧ storage_key (pr_branch receipt) (pr_phase receipt) = Ok key
    ∧ executor_phase_journal (h_security w) !! (a, key) = Some row
    ∧ status_is Journal_Committed row.
Proof.
  intros Hi Hrun Hst Hentry Hd. destruct (history_ok _ _ Hi Hrun) as (_&[Hj _]&Hk).
  destruct (Hk a op d Hst) as (receipt&Hknown&<-&Hdigest).
  { apply list_elem_of_omap. by exists entry. }
  unfold receipt_known in Hknown. exists receipt.
  pose proof Hknown as (key&Hkey&Hload)%result_bind_Ok.
  destruct (loaded_receipt_committed _ _ _ _ _ _ Hj Hload) as (row&Hrow&Hs). by exists key, row.
Qed.
End Histories.
