(* ===== verification/ExecutorRetry.v ===== *)
(** * The executor: retries

    What a second call for the same phase does: a phase with a receipt is answered from
    the journal, and a backup that stopped between its observation and its receipt cannot
    go on. *)

From Stdlib Require Import ZArith Lia Ascii String.
From stdpp Require Import base gmap strings option list_numbers list relations.
From S2P Require Import Prelude TxLogic Steps Identifiers States Text Failure Operation Errors Budget Controller.
From S2P Require Import Attempt ControlStore SecurityDb Resources ResourceSpec Fences FenceSpec Ordered Backup.
From S2P Require Import PhaseAuthority PhaseJournal PhaseJournalSpec SourceDb ExecutorBase Executor Coordinator.
From S2P Require Import ExecutorLogic ExecutorHistory ExecutorFacts ExecutorSafety.

Local Open Scope Z_scope.
Local Open Scope rust_scope.

Section Retry.
Context `{!ExecutorCodecs, !JsonRoundTrip PhaseArtifacts, !JsonRoundTrip PhaseReceipt}.
Context {A G : Type} `{!ExternalEffects A, !LiveSourceGate G}.

(** Calls that do not look at the effect of a phase nor apply it. *)
Definition quiet (st : Step (Host A G) Event) : Prop :=
  h_effects (st_after st) = h_effects (st_before st) ∧ h_control (st_after st) = h_control (st_before st)
  ∧ ∀ intent, st_event st ≠ Event_ObservePhase intent ∧ st_event st ≠ Event_ApplyPhase intent.

(** A fact of the security store holds and nothing else changed since [start]. *)
Definition knows (K : SecurityDb → Prop) (start w : Host A G) : Prop :=
  K (h_security w) ∧ h_effects w = h_effects start ∧ h_control w = h_control start.

Section Rules.
Context (K : SecurityDb → Prop) (start : Host A G).

Lemma quiet_security_post {B} f (Q : B → Host A G → Prop) :
  (∀ db, K db → K (f db).1) →
  (∀ w db' b, K (h_security w) → f (h_security w) = (db', Ok b) → Q b (w <| h_security := db' |>)) →
  run_triple (knows K start) quiet (λ _, True) (security_step f) Q.
Proof.
  intros HK HQ. apply run_triple_step. intros w w' r Hf [Hk Hrest] _. specialize (HK _ Hk).
  destruct (f (h_security w)) as [db' r'] eqn:E0. simplify_eq/=. split_and!; [done..|].
  intros b ->. by eapply HQ.
Qed.

Lemma quiet_security {B} (f : SecurityDb → SecurityDb * Result StoreError B) :
  (∀ db, K db → K (f db).1) → run_safe (knows K start) quiet (security_step f).
Proof. intros HK. by apply quiet_security_post. Qed.

Lemma quiet_gate {B} ev (f : G → G * Result SourceGateError B) :
  (∀ intent, ev ≠ Event_ObservePhase intent ∧ ev ≠ Event_ApplyPhase intent) →
  run_safe (knows K start) quiet (gate_step (A := A) ev f).
Proof.
  intros Hev. unfold gate_step. apply run_safe_bind; [apply run_safe_read|]. intros gate.
  apply run_triple_step. intros w w' r Hf Hk _. destruct (f gate). by simplify_eq/=.
Qed.
End Rules.

Hint Extern 1 (run_safe _ quiet (gate_step _ _)) => apply quiet_gate; done : run_safe.
Hint Extern 1 (run_safe _ quiet (security_read _)) => apply run_safe_read : run_safe.
Hint Extern 1 (run_safe _ quiet (require_recovery _)) => apply run_safe_read : run_safe.
Ltac quiet_steps := unfold phase_store, phase_gate, phase_effect_call; run_safe_steps.

(** ** A phase with a receipt *)

Section Committed.
Context (op : OperationRecord) (receipt : PhaseReceipt) (start : Host A G).

Definition has_receipt (db : SecurityDb) : Prop :=
  phase_receipt_in_branch (op_attempt_id op) (os_phase (op_state op)) (executor_phase_branch op) db
  = Ok (Some receipt).

Lemma quiet_move {B} (f : SecurityDb → SecurityDb * Result StoreError B) :
  (∀ db, security_move db (f db).1) →
  run_safe (knows has_receipt start) quiet (security_step f).
Proof. intros Hm. apply quiet_security. intros db. by apply receipt_read_mono. Qed.

Create HintDb moves.
Hint Resolve release_resource_move takeover_move validate_start_move : moves.
Hint Extern 2 (run_safe _ quiet (security_step _)) =>
  apply quiet_move; intros; eauto with moves : run_safe.

Lemma finish_quiet t :
  run_triple (knows has_receipt start) quiet (λ _, True)
    (let? _ := complete_live_source_mutation op in
     let? _ := phase_store (cleanup_ephemeral_resource op t) in
     run_ok receipt) (λ receipt' _, receipt' = receipt).
Proof.
  apply run_triple_bind with (Q := λ _ _, True).
  { apply run_triple_safe. unfold complete_live_source_mutation, complete_source_ticket. quiet_steps. }
  intros ?. apply run_triple_bind with (Q := λ _ _, True); [|intros ?; by apply run_triple_ok].
  apply run_triple_safe. unfold cleanup_ephemeral_resource. quiet_steps.
Qed.

Lemma committed_quiet probe token crash t :
  run_triple (knows has_receipt start) quiet (λ _, True)
    (execute_phase probe token op crash t) (λ receipt' _, receipt' = receipt).
Proof.
  unfold execute_phase, execute_phase_under_gate.
  eapply run_triple_bind; [apply run_triple_safe; quiet_steps|]. intros ?.
  destruct (_ || _); [apply run_triple_err|].
  eapply run_triple_bind; [apply run_triple_safe; quiet_steps|]. intros auth.
  apply run_triple_bind with (Q := λ intent _, True ∧ phase_intent op auth = Ok intent);
    [by apply run_triple_map_err, run_triple_lift|]. intros intent. apply run_triple_pure. intros Hintent.
  destruct (phase_intent_Ok _ _ _ Hintent) as (_&_&_&Hb&_).
  eapply run_triple_bind; [apply run_triple_safe; quiet_steps|]. intros plan.
  eapply run_triple_bind; [apply run_triple_safe; quiet_steps|]. intros ?.
  eapply run_triple_bind; [apply run_triple_safe; quiet_steps|]. intros ?.
  apply run_triple_bind with (Q := λ found _, True ∧ found = Some receipt).
  { apply run_triple_map_err, run_triple_read. intros found w Hread [Hk _] _. rewrite Hb in Hread.
    unfold has_receipt in Hk. split; [done|]. congruence. }
  intros found. apply run_triple_pure. intros ->. apply finish_quiet.
Qed.
End Committed.

(** C11: A phase that has its receipt is not executed again: a call for it, with any crash
    point, neither observes nor applies an effect and leaves the outside world and the
    controller as they were; if it returns, it returns the receipt on record, which stays
    on record. *)
Theorem committed_phase_is_not_repeated probe token op receipt crash t (w : Host A G) :
  phase_receipt_in_branch (op_attempt_id op) (os_phase (op_state op)) (executor_phase_branch op)
    (h_security w) = Ok (Some receipt) →
  let '(steps, (w', answer)) := execute_phase probe token op crash t w in
  Forall quiet steps
  ∧ h_effects w' = h_effects w ∧ h_control w' = h_control w
  ∧ phase_receipt_in_branch (op_attempt_id op) (os_phase (op_state op)) (executor_phase_branch op)
      (h_security w') = Ok (Some receipt)
  ∧ ∀ receipt', answer = Ok receipt' → receipt' = receipt.
Proof.
  intros Hk. destruct (committed_quiet op receipt w probe token crash t w (conj Hk (conj eq_refl eq_refl)) I)
    as (Hs&(Hi&He&Hc)&Hq).
  destruct (execute_phase probe token op crash t w) as [steps [w' answer]]. simpl in *.
  split_and!; [|done..]. eapply Forall_impl; [exact Hs|]. by intros st [? _].
Qed.

(** ** A backup between its observation and its receipt *)

(** The backup of a stateful deployment was observed, perhaps verified, and has no receipt;
    its spec is bound. *)
Record backup_observed (op : OperationRecord) (db : SecurityDb) : Prop := MkBackupObserved {
  bo_intent : ∃ auth intent row status,
    executor_authorization_digest op = Ok auth ∧ phase_intent op auth = Ok intent
    ∧ executor_phase_journal db !! (op_attempt_id op, phase_name Phase_BackingUp) = Some row
    ∧ pj_project_id row = op_project_id op ∧ pj_intent_digest row = in_digest intent
    ∧ status_is status row ∧ status ∈ [Journal_Observed; Journal_Verified];
  bo_receipt : executor_phase_receipts db !! (op_attempt_id op, phase_name Phase_BackingUp) = None;
  bo_spec : is_Some (authorized_phase_specs db !! (op_attempt_id op, phase_name Phase_BackingUp))
}.

Section Stuck.
Context (op : OperationRecord) (start : Host A G).
Context (Hphase : os_phase (op_state op) = Phase_BackingUp).
Context (Hbranch : executor_phase_branch op = Branch_Primary).

Abbreviation stuck := (knows (backup_observed op) start) (only parsing).

Lemma observed_frame db db' : keeps outside_resources db db' → backup_observed op db → backup_observed op db'.
Proof.
  intros Hk [Hi Hr Hs]. injection Hk as Hj Hrec _ Hspec _ _ _ _ _ _ _ _ _ _ _.
  split; by rewrite ?Hj, ?Hrec, ?Hspec.
Qed.

Lemma quiet_frame {B} (f : SecurityDb → SecurityDb * Result StoreError B) :
  (∀ db, keeps outside_resources db (f db).1) → run_safe stuck quiet (security_step f).
Proof. intros Hf. apply quiet_security. intros db. by apply observed_frame. Qed.

Lemma boundary_refused token t db :
  backup_observed op db →
  ∃ e, begin_backup_boundary token (op_project_id op) (op_attempt_id op) t db = (db, Err e).
Proof.
  intros [(auth&intent&row&status&_&_&Hrow&_&_&Hs&Hin) _ _].
  destruct (begin_backup_boundary _ _ _ _ db) as [db' [lease|e]] eqn:Hok;
    [exfalso|exists e; by rewrite (immediate_transaction_Err _ _ _ _ Hok)].
  apply immediate_transaction_Ok in Hok.
  apply tx_bind_Ok in Hok as (?&?&->%reads_authorized&Hok).
  apply tx_bind_Ok in Hok as (?&?&->%reads_owned&Hok).
  apply tx_bind_Ok in Hok as (key&?&[Hkey ->]%lift_Ok&Hok). simpl in Hkey. injection Hkey as <-.
  apply tx_bind_Ok in Hok as (entry&?&(->&row'&Hrow'&_&_&_&_&Hs'&_)%require_phase_entry_Ok&Hok).
  simpl in Hrow. simplify_eq. pose proof (status_is_fun _ _ _ Hs Hs') as ->.
  destruct (_ || _) eqn:Hg in Hok; [done|]. bool_prop. destruct Hg as [Hg _]. rewrite Hg in Hin. set_solver.
Qed.

Lemma intent_repeated plan auth intent t db :
  backup_observed op db → executor_authorization_digest op = Ok auth → phase_intent op auth = Ok intent →
  (begin_phase_intent (intent_request op intent plan auth t) db).1 = db
  ∧ ∀ entry, (begin_phase_intent (intent_request op intent plan auth t) db).2 = Ok entry →
      pe_status entry ≠ Journal_NeedsReconcile.
Proof.
  intros [(auth'&intent'&row&status&Ha&Hi&Hrow&Hp&Hd&Hs&Hin) _ _] Ha' Hi'.
  rewrite Ha' in Ha. injection Ha as <-. rewrite Hi' in Hi. injection Hi as <-.
  destruct (phase_intent_Ok _ _ _ Hi') as (_&_&_&Hb&_).
  unfold begin_phase_intent, with_storage_key. simpl. rewrite Hb, Hbranch, Hphase. simpl.
  destruct (immediate_transaction _ db) as [db' [entry|e]] eqn:Hok;
    [|by rewrite (immediate_transaction_Err _ _ _ _ Hok)].
  apply immediate_transaction_Ok in Hok.
  apply tx_bind_Ok in Hok as (?&?&->%reads_authorized_for_project&Hok).
  apply tx_bind_Ok in Hok as (?&?&[-> _]%require_phase_prerequisites_Ok&Hok).
  apply tx_bind_Ok in Hok as (existing&?&[Hload ->]%query_Ok&Hok). destruct existing as [existing|].
  - apply load_phase_entry_Some in Hload as (row'&Hrow'&Hp'&Hd'&_&_&Hs'&_). simpl in Hrow. simplify_eq.
    rewrite Hp', Hd', Hp, Hd, !bool_decide_eq_true_2 in Hok by done. simpl in Hok.
    apply tx_ok_Ok in Hok as [-> ->]. split; [done|]. intros entry' [= <-].
    pose proof (status_is_fun _ _ _ Hs Hs') as ->. intros Hn. rewrite Hn in Hin. set_solver.
  - apply load_phase_entry_None in Hload. simpl in Hrow. congruence.
Qed.

Hint Extern 2 (run_safe _ quiet (security_step _)) => apply quiet_frame; intros;
  first [apply acquire_resource_frame|apply acquire_disk_frame] : run_safe.

Lemma prepare_refused token t :
  run_triple stuck quiet (λ _, True) (prepare_drain_identity token op t) (λ _ _, False).
Proof.
  unfold prepare_drain_identity. rewrite Hphase. simpl.
  apply run_triple_bind with (Q := λ backup _, True ∧ backup = true).
  { unfold has_backup_spec.
    apply run_triple_bind with (Q := λ spec _, True ∧ is_some spec = true).
    - apply run_triple_read. intros spec w Hread [[_ _ [row Hspec]] _] _. split; [done|].
      unfold authorized_phase_spec_in_branch in Hread. simpl in Hread.
      unfold load_authorized_phase_spec in Hread. simpl in Hspec. rewrite Hspec in Hread. by simplify_eq/=.
    - intros spec. apply run_triple_ok. by intros w _ [_ ->]. }
  intros backup. apply run_triple_pure. intros ->.
  apply run_triple_bind with (Q := λ _ _, False); [|intros ?; by intros w].
  apply quiet_security_post.
  - intros db Hk. by destruct (boundary_refused token t db Hk) as [e ->].
  - intros w db' lease Hk Hok. destruct (boundary_refused token t _ Hk) as [e He]. congruence.
Qed.

Lemma run_phase_refused probe token plan auth intent crash t :
  executor_authorization_digest op = Ok auth → phase_intent op auth = Ok intent →
  run_triple stuck quiet (λ _, True) (run_phase probe token op intent plan auth crash t) (λ _ _, False).
Proof.
  intros Ha Hi. unfold run_phase.
  apply run_triple_bind with (Q := λ entry _, True ∧ pe_status entry ≠ Journal_NeedsReconcile).
  { apply run_triple_map_err, quiet_security_post.
    - intros db Hk. by destruct (intent_repeated plan auth intent t db Hk Ha Hi) as [-> _].
    - intros w db' entry Hk Hok. split; [done|].
      apply (intent_repeated plan auth intent t (h_security w) Hk Ha Hi). by rewrite Hok. }
  intros entry. apply run_triple_pure. intros Hs. rewrite (bool_decide_eq_false_2 _ Hs).
  apply run_triple_bind with (Q := λ _ _, True); [by apply run_triple_ok|]. intros ?.
  eapply run_triple_bind; [apply run_triple_safe; unfold acquire_persistent_phase_resources; quiet_steps|].
  intros ?. eapply run_triple_bind; [apply run_triple_safe; unfold acquire_phase_resource; quiet_steps|].
  intros ?. eapply run_triple_bind; [apply run_triple_map_err, prepare_refused|]. by intros ? w.
Qed.

Lemma execute_refused probe token crash t :
  run_triple stuck quiet (λ _, True) (execute_phase probe token op crash t) (λ _ _, False).
Proof.
  unfold execute_phase, execute_phase_under_gate. rewrite Hphase.
  eapply run_triple_bind; [apply run_triple_safe; quiet_steps|]. intros ?.
  destruct (_ || _); [apply run_triple_err|].
  apply run_triple_bind with (Q := λ auth _, True ∧ executor_authorization_digest op = Ok auth);
    [by apply run_triple_map_err, run_triple_lift|]. intros auth. apply run_triple_pure. intros Ha.
  apply run_triple_bind with (Q := λ intent _, True ∧ phase_intent op auth = Ok intent);
    [by apply run_triple_map_err, run_triple_lift|]. intros intent. apply run_triple_pure. intros Hi.
  destruct (phase_intent_Ok _ _ _ Hi) as (_&_&_&Hb&_). rewrite Hb, Hbranch.
  eapply run_triple_bind; [apply run_triple_safe; quiet_steps|]. intros plan.
  apply run_triple_bind with (Q := λ _ _, True); [by apply run_triple_ok|]. intros ?.
  apply run_triple_bind with (Q := λ _ _, True).
  { apply run_triple_safe, run_safe_map_err, quiet_security. intros db Hk.
    by rewrite validate_start_same. }
  intros ?. apply run_triple_bind with (Q := λ found _, True ∧ found = None).
  { apply run_triple_map_err, run_triple_read. intros found w Hread [[_ Hr _] _] _. split; [done|].
    unfold phase_receipt_in_branch in Hread. simpl in Hread, Hr.
    unfold load_phase_receipt in Hread. rewrite Hr in Hread. congruence. }
  intros found. apply run_triple_pure. intros ->. by apply run_phase_refused.
Qed.
End Stuck.

(** C13: A backup whose process stopped after its observation was persisted and before its
    receipt, with its spec bound, cannot be resumed: every call for the phase fails, does
    not even look at the effect, and leaves the journal in the state in which the next
    call fails too, since the boundary is opened again on each call and only for an intent
    that has no observation yet. *)
Theorem crashed_backup_cannot_resume probe token op crash t (w : Host A G) :
  os_phase (op_state op) = Phase_BackingUp → executor_phase_branch op = Branch_Primary →
  backup_observed op (h_security w) →
  let '(steps, (w', answer)) := execute_phase probe token op crash t w in
  (∃ e, answer = Err e) ∧ Forall quiet steps ∧ h_effects w' = h_effects w
  ∧ h_control w' = h_control w ∧ backup_observed op (h_security w').
Proof.
  intros Hp Hb Hk.
  destruct (execute_refused op w Hp Hb probe token crash t w (conj Hk (conj eq_refl eq_refl)) I)
    as (Hs&(Hi&He&Hc)&Hq).
  destruct (execute_phase probe token op crash t w) as [steps [w' [receipt|e]]]; simpl in *.
  { by destruct (Hq receipt). }
  split_and!; [by exists e| |done..]. eapply Forall_impl; [exact Hs|]. by intros st [? _].
Qed.
End Retry.
