(* ===== verification/ExecutorCleanup.v ===== *)
(** * The executor: what a finished attempt leaves

    The resources of an attempt are given back before the coordinator answers that it has
    ended. *)

From Stdlib Require Import ZArith Lia Ascii String.
From stdpp Require Import base gmap strings option list_numbers list relations.
From S2P Require Import Prelude TxLogic Steps Identifiers States Text Failure Operation Errors Budget Controller.
From S2P Require Import Attempt ControlStore SecurityDb Resources ResourceSpec Fences FenceSpec Ordered Backup.
From S2P Require Import PhaseAuthority PhaseJournal PhaseJournalSpec SourceDb ExecutorBase Executor Coordinator.
From S2P Require Import ExecutorLogic ExecutorHistory ExecutorFacts.

Local Open Scope Z_scope.
Local Open Scope rust_scope.

(** ** Giving back *)

Section Releases.
Context `{!PhaseCodecs}.

Definition not_owner (attempt : Uuid) (key : string) (db : SecurityDb) : Prop :=
  resource_owner db key ≠ Some attempt.

(** The attempt owns no more than before. *)
Definition owns_less (attempt : Uuid) (db db' : SecurityDb) : Prop :=
  (∀ key, not_owner attempt key db → not_owner attempt key db')
  ∧ (active_disk_reservations db !! attempt = None → active_disk_reservations db' !! attempt = None).

Lemma release_key_less key attempt t db u db' :
  release_resource_key_if_owned_in_transaction key attempt t db = Ok (u, db') →
  not_owner attempt key db' ∧ owns_less attempt db db'.
Proof.
  intros [[-> Ho]|(Ho&Hr&Ha)]%release_key_Ok; [by split|].
  unfold owns_less, not_owner, resource_owner. rewrite Hr, Ha.
  split_and!; [by rewrite lookup_delete_eq| |done].
  intros key' Hn. destruct (decide (key' = key)) as [->|Hne]; [by rewrite lookup_delete_eq|].
  by rewrite lookup_delete_ne.
Qed.

Lemma release_resource_less resource attempt t db u db' :
  release_resource_if_owned resource attempt t db = (db', Ok u) →
  not_owner attempt (ExecutionResource_key resource) db' ∧ owns_less attempt db db'.
Proof. intros Hok%immediate_transaction_Ok. by eapply release_key_less. Qed.

Lemma release_disk_less project attempt t db u db' :
  release_disk_reservation_if_owned project attempt t db = (db', Ok u) →
  not_owner attempt (disk_reservation_resource_key project) db'
  ∧ active_disk_reservations db' !! attempt = None ∧ owns_less attempt db db'.
Proof.
  unfold release_disk_reservation_if_owned. intros Hok%immediate_transaction_Ok.
  apply tx_bind_Ok in Hok as (existing&?&[Hload ->]%query_Ok&Hok).
  apply tx_bind_Ok in Hok as (?&db1&Hdel&Hok).
  assert (active_disk_reservations db1 !! attempt = None ∧ owns_less attempt db db1) as [Hnone Hless].
  { destruct existing as [existing|].
    - destruct (_ != _); [done|]. apply tx_bind_Ok in Hdel as (?&?&Hk&Hdel%modify_Ok).
      unfold require_resource_key_owned in Hk. apply query_Ok in Hk as [_ ->]. subst db1.
      split; [apply lookup_delete_eq|]. split; [done|]. intros _. apply lookup_delete_eq.
    - inv_ok. split; [by apply load_active_disk_reservation_None|done]. }
  apply release_key_less in Hok as [Hkey [Hless1 Hless2]]. destruct Hless as [Hl1 Hl2].
  split_and!; [done|auto|]. split; auto.
Qed.
End Releases.

(** ** The coordinator's answers *)

Section Cleanup.
Context `{!ExecutorCodecs}.
Context {A G : Type} `{!ExternalEffects A, !LiveSourceGate G}.
Context (probe : option (ProjectId → Z → Result StoreError DiskAvailabilityObservation)).

(** The keys an attempt may hold: the deploy lock and the disk reservation of its project,
    the local registry, and the exclusive resource of its phase. *)
Definition held_keys (op : OperationRecord) : list string :=
  [ExecutionResource_key (ProjectDeploy (op_project_id op));
   disk_reservation_resource_key (op_project_id op);
   ExecutionResource_key GlobalLocalRegistry] ++ phase_keys op.

Definition holds_none (op : OperationRecord) (keys : list string) (db : SecurityDb) : Prop :=
  Forall (λ key, not_owner (op_attempt_id op) key db) keys.

(** Everything is given back. *)
Definition cleaned (op : OperationRecord) (db : SecurityDb) : Prop :=
  holds_none op (held_keys op) db ∧ active_disk_reservations db !! op_attempt_id op = None.

Abbreviation always := (λ _ : Host A G, True) (only parsing).
Abbreviation triple := (run_triple always (λ _ : Step (Host A G) Event, True)) (only parsing).

Lemma any_call {E B} P (m : Run (Host A G) Event E B) : triple P m (λ _ _, True).
Proof. intros w _ _. split_and!; [by apply Forall_true|done|done]. Qed.

Lemma security_post {B} P (f : SecurityDb → SecurityDb * Result StoreError B) Q :
  (∀ w db' b, P w → f (h_security w) = (db', Ok b) → Q b (w <| h_security := db' |>)) →
  triple P (security_step f) Q.
Proof.
  intros HQ. apply run_triple_step. intros w w' r Hf _ HP.
  destruct (f (h_security w)) as [db' r'] eqn:E0. simplify_eq/=. split_and!; [done..|].
  intros b ->. by eapply HQ.
Qed.

Lemma control_post {B} P (f : ControlDb → ControlDb * Result StoreError B) (Q : B → Prop) :
  (∀ db db' b, f db = (db', Ok b) → Q b) → triple P (control_step f) (λ b _, Q b).
Proof.
  intros HQ. apply run_triple_bind with (Q := λ _ _, True); [apply any_call|]. intros ?.
  apply run_triple_step. intros w w' r Hf _ HP.
  destruct (f (h_control w)) as [db' r'] eqn:E0. simplify_eq/=. split_and!; [done..|].
  intros b ->. by eapply HQ.
Qed.

Lemma holds_none_less op keys db db' :
  owns_less (op_attempt_id op) db db' → holds_none op keys db → holds_none op keys db'.
Proof. intros [Hl _] Hn. eapply Forall_impl; [exact Hn|]. auto. Qed.

(** What a call shares with the calls of other threads. *)
Definition shared (w : Host A G) : ControlDb * list (list OtherCall) := (h_control w, h_others w).

(** Of the keys, and of the reservation if [disk], the attempt holds none. *)
Definition given_back (control : ControlDb * list (list OtherCall)) (op : OperationRecord) (keys : list string) (disk : bool)
    (w : Host A G) : Prop :=
  holds_none op keys (h_security w)
  ∧ (disk = true → active_disk_reservations (h_security w) !! op_attempt_id op = None)
  ∧ shared w = control.

Lemma release_post control op keys disk resource t :
  triple (given_back control op keys disk)
    (security_step (release_resource_if_owned resource (op_attempt_id op) t))
    (λ _, given_back control op (keys ++ [ExecutionResource_key resource]) disk).
Proof.
  apply security_post. intros w db' u (Hn&Hd&Hc) [Hk Hl]%release_resource_less. split_and!; [|..|done].
  - apply Forall_app. split; [by eapply holds_none_less|by constructor].
  - intros E. apply Hl. auto.
Qed.

Lemma release_disk_post control op keys t :
  triple (given_back control op keys false)
    (security_step (release_disk_reservation_if_owned (op_project_id op) (op_attempt_id op) t))
    (λ _, given_back control op (keys ++ [disk_reservation_resource_key (op_project_id op)]) true).
Proof.
  apply security_post. intros w db' u (Hn&Hd&Hc) (Hk&Ha&Hl)%release_disk_less. split_and!; [|done..].
  apply Forall_app. split; [by eapply holds_none_less|by constructor].
Qed.

Lemma cleanup_post control op t :
  triple (λ w, shared w = control) (cleanup_terminal_resources_under_gate op t)
    (λ _ w, (os_result (op_state op) ≠ Result_Running → cleaned op (h_security w))
            ∧ shared w = control).
Proof.
  unfold cleanup_terminal_resources_under_gate.
  destruct (_ == _) eqn:Hres; bool_prop; [by apply run_triple_ok|].
  eapply run_triple_weaken with (P := given_back control op [] false)
    (Q := λ _, given_back control op (held_keys op) true).
  { intros w Hc. by split; [constructor|]. }
  { intros _ w (Hn&Hd&Hc). split; [|done]. intros _. split; auto. }
  eapply run_triple_bind; [apply release_post|]. intros ?.
  eapply run_triple_bind; [apply release_disk_post|]. intros ?.
  eapply run_triple_bind; [apply release_post|]. intros ?. unfold held_keys, phase_keys, phase_resource.
  destruct (os_phase (op_state op)); simpl;
    first [apply release_post|by apply run_triple_ok].
Qed.

(** *** Answers that are still running *)

Ltac running_answer Hok :=
  let op0 := fresh "op" in
  apply immediate_transaction_Ok, tx_bind_Ok in Hok as (op0&?&_&Hok);
  repeat (match type of Hok with (if ?b then _ else _) _ = _ => destruct b eqn:? end;
          try by apply tx_err_Ok in Hok); bool_prop.

Lemma persist_answer op next rd t db op' db' :
  persist_transition op next rd t db = Ok (op', db') → op_state op' = next.
Proof. unfold persist_transition. intros Hok. inv_ok. by case_ok. Qed.

Lemma mark_running a capsule t db db' op :
  Controller.mark_needs_reconcile a capsule t db = (db', Ok op) → running op.
Proof.
  unfold Controller.mark_needs_reconcile, with_validation, running. intros Hok.
  match type of Hok with match ?v with _ => _ end = _ => destruct v; [|done] end. running_answer Hok.
  - apply tx_ok_Ok in Hok as [-> _]. tauto.
  - by apply persist_answer in Hok as ->.
Qed.

Lemma pre_mutation_running a reason src t db db' op :
  set_pre_mutation_block a reason src t db = (db', Ok op) → running op.
Proof.
  unfold set_pre_mutation_block, running. intros Hok. running_answer Hok.
  - apply tx_ok_Ok in Hok as [-> _]. tauto.
  - apply tx_ok_Ok in Hok as [-> _]. tauto.
  - by apply persist_answer in Hok as ->.
Qed.

Lemma source_block_running a reason t db db' op :
  set_source_block a reason t db = (db', Ok op) → running op.
Proof. unfold set_source_block. destruct reason; try done; apply pre_mutation_running. Qed.

Lemma cutover_block_running a t db db' op :
  set_stateful_cutover_source_block a t db = (db', Ok op) → running op.
Proof.
  unfold set_stateful_cutover_source_block, running. intros Hok. running_answer Hok.
  - apply tx_ok_Ok in Hok as [-> _]. by apply is_stateful_cutover_retry_running.
  - by apply persist_answer in Hok as ->.
Qed.

(** *** The answer of an advance *)

Definition settled (op : OperationRecord) (w : Host A G) : Prop :=
  os_result (op_state op) ≠ Result_Running → cleaned op (h_security w).

Lemma control_settled P (f : ControlDb → ControlDb * Result StoreError OperationRecord) :
  (∀ db db' op, f db = (db', Ok op) → running op) → triple P (in_store (control_step f)) settled.
Proof.
  intros Hf. apply run_triple_map_err. eapply run_triple_weaken; [..|by eapply control_post]; [done|].
  intros op w Hrun Hn. by destruct Hn.
Qed.

Lemma cleanup_settled P op t :
  triple P (let? _ := in_store (cleanup_terminal_resources_under_gate op t) in run_ok op) settled.
Proof.
  apply (run_triple_named _ _ shared). intros control.
  apply run_triple_bind with (Q := λ _ w, settled op w); [|by intros ?; apply run_triple_ok].
  apply run_triple_map_err. eapply run_triple_weaken; [..|apply (cleanup_post control)].
  - by intros w [_ Hc].
  - by intros ? w' [Hc _].
Qed.

Lemma project_settled P op receipt crash t : triple P (project_receipt op receipt crash t) settled.
Proof.
  unfold project_receipt. do 4 (eapply run_triple_bind; [apply any_call|intros ?; simpl]).
  destruct (_ != _) eqn:Hres; bool_prop; [apply cleanup_settled|].
  apply run_triple_bind with (Q := λ _ _, True); [by apply run_triple_ok|]. intros ?.
  apply run_triple_ok. intros w _ _ Hn. by destruct Hn.
Qed.

Lemma failed_settled P a op error t : triple P (settle_failed_phase a op error t) settled.
Proof.
  unfold settle_failed_phase.
  destruct error as [[]| |[]| | |]; try apply run_triple_err; try (apply control_settled; intros;
    first [by eapply mark_running|by eapply source_block_running|by eapply pre_mutation_running]).
  eapply run_triple_bind; [apply any_call|]. intros superseded. apply cleanup_settled.
Qed.

Lemma execute_settled P token a op phase_crash coordinator_crash t :
  triple P (execute_and_project probe token a op phase_crash coordinator_crash t) settled.
Proof.
  unfold execute_and_project. eapply run_triple_bind; [apply any_call|].
  intros [receipt|error]; [apply project_settled|apply failed_settled].
Qed.

Lemma cutover_settled P token op t :
  triple P (prepare_cutover_under_gate token op t)
    (λ preparation w, match preparation with
                      | Cutover_Ready _ => True
                      | Cutover_Settled op => running op
                      end).
Proof.
  unfold prepare_cutover_under_gate. eapply run_triple_bind; [apply any_call|].
  intros [u|[| |[]| | |]]; try apply run_triple_err;
    try (apply run_triple_bind with (Q := λ op _, running op); [|intros ?; by apply run_triple_ok];
         apply run_triple_map_err, control_post; intros;
         first [by eapply mark_running|by eapply cutover_block_running]).
  do 5 (eapply run_triple_bind; [apply any_call|intros ?]). by apply run_triple_ok.
Qed.

(** The controller has the record and no other thread interferes. *)
Definition undisturbed (a : Uuid) (op : OperationRecord)
    (control : ControlDb * list (list OtherCall)) : Prop :=
  operation a control.1 = Ok (Some op) ∧ control.2 = [].

Lemma undisturbed_read a op {B} (f : ControlDb → Result StoreError B) (P : Host A G → Prop) :
  triple (λ w, undisturbed a op (shared w) ∧ P w) (control_read f)
    (λ b w, f (h_control w) = Ok b ∧ undisturbed a op (shared w) ∧ P w).
Proof.
  intros w Hi [[Hop Ho] HP]. simpl in Ho. unfold control_read, meet_others, mbind, run_bind. rewrite Ho.
  simpl. split_and!; [done..|]. by intros b Hb.
Qed.

Lemma settle_settled a op t :
  os_phase (op_state op) ≠ Phase_Reconciliation →
  triple (λ w, undisturbed a op (shared w)) (settle_non_executable_operation_under_gate op t)
    (λ ended w, ended = true → undisturbed a op (shared w) ∧ settled op w).
Proof.
  intros Hphase. unfold settle_non_executable_operation_under_gate.
  rewrite (bool_decide_eq_false_2 _ Hphase).
  destruct (_ != _) eqn:Hres; bool_prop; [|apply run_triple_ok; intros w _ Hop _; split; [done|intros Hn; by destruct Hn]].
  apply run_triple_bind with (Q := λ unresolved w, undisturbed a op (shared w) ∧ unresolved = false);
    [by apply run_triple_ok|]. intros unresolved. apply run_triple_pure. intros ->.
  apply (run_triple_named _ _ shared). intros control.
  apply run_triple_bind with (Q := λ _ w, undisturbed a op (shared w) ∧ settled op w);
    [|intros ?; apply run_triple_ok; auto].
  eapply run_triple_weaken with (P := λ w, shared w = control ∧ undisturbed a op control);
    [by intros w [Hop <-]|intros ?? Hq; exact Hq|].
  apply run_triple_pure. intros Hop. apply run_triple_map_err.
  eapply run_triple_weaken; [..|apply (cleanup_post control)]; [done|]. intros ? w' [Hc ->]. by split.
Qed.

Lemma advance_settled tokens a phase_crash coordinator_crash t op0 :
  os_phase (op_state op0) ≠ Phase_Reconciliation →
  triple (λ w, undisturbed a op0 (shared w))
    (advance_once probe tokens a phase_crash coordinator_crash t) settled.
Proof.
  intros Hphase. unfold advance_once.
  assert (∀ P, triple (λ w, undisturbed a op0 (shared w) ∧ P w) (require_operation a)
    (λ op w, (undisturbed a op0 (shared w) ∧ P w) ∧ op = op0)) as Hread.
  { intros P. unfold require_operation. eapply run_triple_bind; [apply run_triple_map_err, undisturbed_read|].
    intros found. apply run_triple_lift. intros op w Hf%ok_or_Ok _ (Hr&[Hop Ho]&HP). simpl in Hop.
    split; [done|]. rewrite Hop in Hr. subst found. by injection Hr. }
  apply run_triple_weaken with (P := λ w, undisturbed a op0 (shared w) ∧ True) (Q := settled); [done..|].
  eapply run_triple_bind; [apply Hread|]. intros ?. apply run_triple_pure. intros _.
  eapply run_triple_bind; [apply Hread|]. intros op. apply run_triple_pure. intros ->.
  apply run_triple_bind with (Q := λ _ w, undisturbed a op0 (shared w));
    [by apply run_triple_map_err, run_triple_read; intros ?? _ _ [??]|]. intros ?.
  eapply run_triple_bind; [by apply settle_settled|]. intros [].
  - eapply run_triple_weaken; [..|apply (Hread (settled op0))]; [by intros w Hs; apply Hs|].
    by intros op w [[_ ?] ->].
  - destruct (_ == _); [|apply execute_settled].
    eapply run_triple_bind; [apply cutover_settled|]. intros [prepared|done_op]; [apply execute_settled|].
    apply run_triple_ok. intros w _ Hrun Hn. by destruct Hn.
Qed.

(** C12: When the coordinator answers that an attempt has ended, other than by entering
    reconciliation or by a call of another thread to the controller meanwhile, which
    does its own cleanup, the attempt holds nothing any more: not the deploy lock of its project,
    not its disk reservation, not the local registry, not the exclusive resource of its
    phase. *)
Theorem finished_attempt_holds_nothing tokens a phase_crash coordinator_crash t (w : Host A G) op0 op
    steps w' :
  operation a (h_control w) = Ok (Some op0) → os_phase (op_state op0) ≠ Phase_Reconciliation →
  h_others w = [] →
  advance_once probe tokens a phase_crash coordinator_crash t w = (steps, (w', Ok op)) →
  os_result (op_state op) ≠ Result_Running →
  cleaned op (h_security w').
Proof.
  intros Hop Hphase Ho Hadv Hres.
  destruct (advance_settled tokens a phase_crash coordinator_crash t op0 Hphase w I (conj Hop Ho)) as (_&_&Hq).
  rewrite Hadv in Hq. by apply (Hq op).
Qed.
End Cleanup.
