(* ===== verification/ExecutorSamples.v ===== *)
(** * Runs of the executor on a concrete host

    A code-only deployment from its admission to its end, driven by the coordinator
    against the model effects of the source's tests and a gate that always admits; and a
    stateful deployment up to its backup, which stops between its observation and its
    receipt.  The theorems of the executor at these runs. *)

From Stdlib Require Import ZArith Lia Ascii String.
From stdpp Require Import base gmap strings option list_numbers list relations.
From S2P Require Import Prelude TxLogic Steps Identifiers States Text Failure Operation Errors Budget Controller.
From S2P Require Import Attempt ControlStore ControllerSpec SecurityDb Resources Fences FenceSpec Ordered Backup BackupSpec.
From S2P Require Import PhaseAuthority PhaseJournal PhaseJournalSpec PhaseJournalSamples SourceDb.
From S2P Require Import ExecutorBase Executor Coordinator ModelEffects ExecutorLogic ExecutorHistory ExecutorFacts.
From S2P Require Import ExecutorSafety ExecutorSpec ExecutorRetry ExecutorCleanup.

Local Open Scope Z_scope.
Local Open Scope rust_scope.

(** ** Witnesses *)

Module ExecutorSample.

Definition project : ProjectId := PhaseSample.project.
Definition attempt : Uuid := 103.
Definition digest_of (bytes : list Z) : EvidenceDigest := @EvidenceDigest_sha256 PhaseSample.sha bytes.
Definition site_policy : InstalledPolicyIdentity := MkInstalledPolicyIdentity (PhaseSample.digest 1) 1.
Definition auth_digest : EvidenceDigest := digest_of [31; 103].
Definition backup_intent : EvidenceDigest := digest_of [30; 103; Sample.phase_code Phase_BackingUp].

(** *** The spec of the base backup of a stateful deployment *)

Definition base_backup : AuthorizedBackupSpecV1 :=
  MkAuthorizedBackupSpecV1 1 attempt project site_policy (PhaseSample.digest 31) backup_intent 11 12
    Snapshot_Base Purpose_DeploymentBase BackupSample.unit (PhaseSample.digest 33) Provider_GoogleDrive
    1 10000 None None (PhaseSample.digest 2).

Definition backup_spec : AuthorizedPhaseSpecV1 := PhaseSample.with_steps (PhaseSample.bootstrap_spec
  <| ps_attempt_id := attempt |> <| ps_request_id := 102%N |> <| ps_phase := Phase_BackingUp |>
  <| ps_intent_digest := backup_intent |> <| ps_executor_authorization_digest := auth_digest |>
  <| ps_installed_policy := site_policy |>
  <| ps_release_bundle_digest := None |> <| ps_deployment_plan_digest := None |>
  <| ps_proposed_release_class := Some Class_StatefulCompatible |>
  <| ps_effective_release_class := Some Class_StatefulCompatible |>
  <| ps_migration_id := Some "m1"%string |> <| ps_backup := Some base_backup |>
  <| ps_trusted_clock_evidence_digest := None |> <| ps_boundary_now_ms := None |>
  <| ps_prerequisites_valid_through_ms := None |>
  <| ps_runtime_release_state := None |> <| ps_runtime_release_state_evidence_digest := None |>
  <| ps_expected_observation_artifacts := PhaseArtifacts_default |>).

(** *** The chain the backup leaves *)

Section BaseChain.
#[local] Existing Instances BackupSample.sha BackupSample.jcs_unit BackupSample.jcs_spec
  BackupSample.jcs_manifest BackupSample.jcs_local BackupSample.jcs_receipt BackupSample.jcs_offsite
  BackupSample.jcs_chain.

Definition base_manifest : BackupManifestV1 := PhaseSample.get BackupSample.manifest
  (BackupManifest_new base_backup BackupSample.manifest_input).
Definition base_local : LocalBackupEvidenceV1 := PhaseSample.get BackupSample.local
  (LocalBackup_new base_backup base_manifest (BackupSample.encryption_of base_manifest)).
Definition base_receipt : ProviderUploadReceiptV1 := PhaseSample.get BackupSample.receipt
  (UploadReceipt_new base_backup base_local BackupSample.receipt_input).
Definition base_offsite : OffsiteVerificationEvidenceV1 := PhaseSample.get BackupSample.offsite
  (Offsite_new base_backup base_local base_receipt BackupSample.offsite_input).
Definition base_chain : VerifiedBackupChainV1 := PhaseSample.get BackupSample.chain
  (BackupChain_new_base base_backup base_manifest base_local base_receipt base_offsite).
Definition backup_artifacts : PhaseArtifacts :=
  (PhaseSample.get PhaseArtifacts_default
     (base_phase_artifacts base_backup base_manifest base_local base_receipt base_offsite))
  <| pa_authorized_phase_spec_digest := Some (ps_spec_digest backup_spec) |>.
End BaseChain.

Definition jcs_spec : Jcs AuthorizedPhaseSpecV1 := λ spec,
  if spec == backup_spec then Ok [1] else Err MkSerdeError.
Definition slice_spec : JsonSlice AuthorizedPhaseSpecV1 := λ bytes,
  if bytes == [1] then Ok backup_spec else Err MkSerdeError.

Definition jcs_chain : Jcs VerifiedBackupChainV1 := λ chain,
  if chain == base_chain then Ok [2] else Err MkSerdeError.
Definition slice_chain : JsonSlice VerifiedBackupChainV1 := λ bytes,
  if bytes == [2] then Ok base_chain else Err MkSerdeError.

#[local] Instance phase_codecs : PhaseCodecs := {|
  codec_sha := PhaseSample.sha;
  codec_reservation := PhaseSample.json_reservation;
  codec_reservation_text := PhaseSample.reservation_eq_dec;
  codec_artifacts := PhaseSample.json_artifacts;
  codec_receipt := PhaseSample.json_receipt;
  codec_reservation_payload := λ _, Ok [24];
  codec_receipt_payload := PhaseSample.jcs_receipt;
  codec_lease_payload := PhaseSample.jcs_lease;
  codec_fence_payload := PhaseSample.jcs_acquisition;
  codec_unit_payload := BackupSample.jcs_unit;
  codec_backup_payload := BackupSample.jcs_spec;
  codec_manifest_payload := BackupSample.jcs_manifest;
  codec_local_payload := BackupSample.jcs_local;
  codec_upload_payload := BackupSample.jcs_receipt;
  codec_offsite_payload := BackupSample.jcs_offsite;
  codec_chain_payload := BackupSample.jcs_chain;
  codec_chain := jcs_chain;
  codec_chain_slice := slice_chain;
  codec_spec_payload := PhaseSample.jcs_spec_payload;
  codec_request := PhaseSample.jcs_request;
  codec_spec := jcs_spec;
  codec_spec_slice := slice_spec
|}.

#[local] Instance codecs : ExecutorCodecs := {|
  codec_phases := phase_codecs;
  codec_operation := Sample.json_record;
  codec_transition := Sample.json_transition;
  codec_intent_payload := λ p, Ok [30; Z.of_N (pip_attempt_id p); Sample.phase_code (pip_phase p)];
  codec_authorized_operation := λ p, Ok [31; Z.of_N (ao_attempt_id p)]
|}.

(** A gate that admits every deployment. *)
#[local] Instance gate : LiveSourceGate unit := {|
  gate_check_live op now_ms g := (g, Ok {|
    sgp_digest := PhaseSample.digest 40;
    sgp_project_id := op_project_id op;
    sgp_sequence := 1;
    sgp_attestation_digest := PhaseSample.digest 3;
    sgp_checked_at_ms := now_ms |});
  gate_complete_live op g := (g, Ok tt);
  gate_abort_live op g := (g, Ok tt) |}.

Definition admission (class : ReleaseClass) : VerifiedAutomationAdmission := {|
  va_operation := {| no_project_id := project; no_operation_kind := Kind_Deploy;
     no_target_commit := Some Sample.commit; no_release_class := Some class;
     no_installed_policy := site_policy |};
  va_delivery_channel := Channel_GithubWebhook;
  va_delivery_id := "d1";
  va_payload_digest := PhaseSample.digest 2;
  va_source_attestation_digest := PhaseSample.digest 3;
  va_accepted_head := Sample.commit;
  va_accepted_sequence := 1;
  va_maximum_attempts := 2
|}.

(** The authorization of the attempt, with a disk reservation. *)
Definition claim : AuthorizedDiskReservation := {|
  ad_operation_digest := auth_digest; ad_reservation_digest := digest_of [24];
  ad_required_bytes := 100; ad_available_bytes := 1000; ad_emergency_reserve_bytes := 10;
  ad_filesystem_identity := PhaseSample.digest 8; ad_observed_at_ms := 5 |}.
Definition authorization : ExecutorAuthorization :=
  MkExecutorAuthorization 7 auth_digest attempt project 100000 (Some claim).
Definition probe : option (ProjectId → Z → Result StoreError DiskAvailabilityObservation) :=
  Some (λ _ now_ms, Ok (MkDiskAvailabilityObservation (PhaseSample.digest 8) 1000 now_ms)).

Definition World := Host ModelState unit.
Definition outside : ModelState := set_phase_artifacts attempt Phase_BackingUp
  backup_artifacts
  (foldr (λ phase, set_phase_artifacts attempt phase
    ((Sample.artifacts phase) <| pa_resource_reservation_digest :=
       if phase == Phase_Building then None else Some (ad_reservation_digest claim) |>))
    ModelState_default [Phase_Testing; Phase_Building; Phase_Preflight]).
Definition w0 : World := MkHost empty_control_db PhaseSample.empty outside (Some tt) ∅ [].
Definition admits (class : ReleaseClass) : OtherCall :=
  Other_AdmitAutomation (MkNewUuids 101 102 103) (admission class) 5.
Definition admitted (class : ReleaseClass) : World :=
  w0 <| h_control := perform_other (admits class) (h_control w0) |>.
Definition authorized (class : ReleaseClass) : World :=
  (admitted class) <| h_security := (authorize_attempt authorization 6 (h_security (admitted class))).1 |>.
Definition tokens : FreshTokens := MkFreshTokens 200 201.
Definition recovers : HostCall := Call_RecoverSecurityState (λ _, 202%N) [project] 7.
Definition call (c : HostCall) (w : World) : World := (host_call probe c w).2.
Definition ready (class : ReleaseClass) : World := call recovers (authorized class).
Definition w3 : World := ready Class_CodeOnlyCompatible.
Definition advance (t : Z) := advance_once (A := ModelState) (G := unit) probe tokens attempt None None t.
Fixpoint advances (n : nat) (t : Z) (w : World) : World :=
  match n with O => w | S n => advances n (t + 10) (advance t w).2.1 end.

#[local] Instance artifacts_round_trip : JsonRoundTrip PhaseArtifacts := PhaseSample.artifacts_round_trip.
#[local] Instance receipt_round_trip : JsonRoundTrip PhaseReceipt := PhaseSample.receipt_round_trip.
#[local] Instance record_round_trip : JsonRoundTrip OperationRecord := Sample.json_record_round_trip.
#[local] Instance transition_round_trip : JsonRoundTrip OperationTransition :=
  Sample.json_transition_round_trip.

Definition state_of (w : World) : option OperationState :=
  match operation attempt (h_control w) with Ok (Some op) => Some (op_state op) | _ => None end.

(** The deployment goes through its nine phases. *)
Example deployment_runs :
  state_of (advances 9 10 w3) = Some (MkOperationState Phase_Soaking Result_Succeeded Blocking_None).
Proof. vm_compute. reflexivity. Qed.

(** *** The history *)

Lemma w0_initial : initial w0.
Proof.
  split; [reflexivity|]. split.
  - apply phase_reachable_inv. exists PhaseSample.empty. split_and!; [reflexivity..|apply rtc_refl].
  - apply fence_reachable_inv. exists PhaseSample.empty.
    split_and!; [reflexivity..|done|done|apply rtc_refl].
Qed.

Lemma advances_run n t w : rtc (host_step probe) w (advances n t w).
Proof.
  revert t w. induction n as [|n IH]; intros t w; [apply rtc_refl|].
  eapply rtc_l; [|apply IH]. exact (hs_returns probe w (Call_AdvanceOnce tokens attempt None None t)).
Qed.

Lemma history class n : rtc (host_step probe) w0 (advances n 10 (ready class)).
Proof.
  eapply rtc_l; [exact (hs_controls probe w0 (admits class))|].
  eapply rtc_l; [exact (hs_secures probe (admitted class) _ (sc_authorize_attempt _ authorization 6))|].
  eapply rtc_l; [exact (hs_returns probe (authorized class) recovers)|]. apply advances_run.
Qed.

(** *** The effect of the deployment *)

Definition applied (steps : list (Step World Event)) : list PhaseIntent :=
  omap (λ st, match st_event st with Event_ApplyPhase intent => Some intent | _ => None end) steps.

Lemma applied_step steps phase :
  in_phase <$> applied steps = [phase] →
  ∃ st intent, st ∈ steps ∧ st_event st = Event_ApplyPhase intent ∧ in_phase intent = phase.
Proof.
  intros Hp. destruct (applied steps) as [|intent rest] eqn:Ha; [done|]. injection Hp as Hp _.
  assert (intent ∈ applied steps) as Hin by (rewrite Ha; left).
  apply list_elem_of_omap in Hin as (st&Hst&Hev). exists st, intent. split; [done|].
  destruct (st_event st); simplify_eq. done.
Qed.

Definition deploys : HostCall := Call_AdvanceOnce tokens attempt None None 70.

(** The attempt as admitted, in its first phase, given to the executor by a driver. *)
Definition queued : OperationRecord :=
  match operation attempt (h_control w3) with
  | Ok (Some op) => op
  | _ => Sample.record_in empty_control_db attempt
  end.
Definition drives : HostCall := Call_ExecutePhase 200 queued None 8.

Lemma effects_follow_the_journal_witness :
  (∃ st intent, st ∈ (host_call probe deploys (advances 6 10 w3)).1
     ∧ st_event st = Event_ApplyPhase intent ∧ in_phase intent = Phase_Deploying
     ∧ effect_allowed (works_on deploys) true intent (st_before st))
  ∧ ∃ st intent, st ∈ (host_call probe drives (advances 0 10 w3)).1
     ∧ st_event st = Event_ApplyPhase intent ∧ in_phase intent = Phase_Queued
     ∧ effect_allowed (works_on drives) false intent (st_before st).
Proof.
  split.
  - destruct (applied_step (host_call probe deploys (advances 6 10 w3)).1 Phase_Deploying)
      as (st&intent&Hin&Hev&Hp); [vm_compute; reflexivity|].
    exists st, intent. split_and!; [done..|].
    exact (proj2 (effects_follow_the_journal probe w0 (advances 6 10 w3) deploys st intent w0_initial
      (history Class_CodeOnlyCompatible 6) Hin Hev)).
  - destruct (applied_step (host_call probe drives (advances 0 10 w3)).1 Phase_Queued)
      as (st&intent&Hin&Hev&Hp); [vm_compute; reflexivity|].
    exists st, intent. split_and!; [done..|].
    exact (proj2 (effects_follow_the_journal probe w0 (advances 0 10 w3) drives st intent w0_initial
      (history Class_CodeOnlyCompatible 0) Hin Hev)).
Defined.

(** *** Receipts *)

Definition record_of (row : AttemptRow) : OperationRecord := at_operation_json row.

Definition receipts_in (w : World) : option nat :=
  (λ row, length (receipts_of (record_of row))) <$> operation_attempts (h_control w) !! attempt.

Lemma receipt_entry (w : World) n : receipts_in w = Some (S n) →
  ∃ op entry d, stored (h_control w) attempt op ∧ entry ∈ transitions_of op
    ∧ ot_receipt_digest entry = Some d.
Proof.
  unfold receipts_in.
  destruct (operation_attempts (h_control w) !! attempt) as [row|] eqn:Hrow; simpl; [|done].
  intros [= Hn]. destruct (receipts_of (record_of row)) as [|d rest] eqn:Hr; [done|].
  assert (d ∈ receipts_of (record_of row)) as Hd by (rewrite Hr; left).
  apply list_elem_of_omap in Hd as (entry&Hentry&Hd). exists (record_of row), entry, d.
  split; [by exists row|done].
Qed.

Lemma controller_receipts_come_from_the_executor_witness :
  ∃ receipt, phase_receipt_in_branch attempt (pr_phase receipt) (pr_branch receipt)
               (h_security (advances 9 10 w3)) = Ok (Some receipt).
Proof.
  destruct (receipt_entry (advances 9 10 w3) 8) as (op&entry&d&Hst&Hentry&Hd); [vm_compute; reflexivity|].
  destruct (controller_receipts_come_from_the_executor probe w0 (advances 9 10 w3) attempt op entry d
    w0_initial (history Class_CodeOnlyCompatible 9) Hst Hentry Hd) as (receipt&key&row&Hread&_).
  exists receipt. exact Hread.
Defined.

(** *** A repeated call *)

Definition has_receipt_of (op : OperationRecord) (w : World) : bool :=
  match phase_receipt_in_branch (op_attempt_id op) (os_phase (op_state op)) (executor_phase_branch op)
          (h_security w) with
  | Ok (Some _) => true
  | _ => false
  end.

Lemma receipt_of_phase op w : has_receipt_of op w = true → ∃ receipt,
  phase_receipt_in_branch (op_attempt_id op) (os_phase (op_state op)) (executor_phase_branch op)
    (h_security w) = Ok (Some receipt).
Proof. unfold has_receipt_of. destruct (phase_receipt_in_branch _ _ _ _) as [[receipt|]|]; [by exists receipt|done..]. Qed.

Lemma committed_phase_is_not_repeated_witness :
  ∃ receipt, let '(steps, (w', answer)) := execute_phase probe 200 queued None 500 (advances 1 10 w3) in
    Forall quiet steps ∧ answer = Ok receipt.
Proof.
  destruct (receipt_of_phase queued (advances 1 10 w3)) as [receipt Hr]; [vm_compute; reflexivity|].
  exists receipt.
  pose proof (committed_phase_is_not_repeated probe 200 queued receipt None 500 (advances 1 10 w3) Hr) as Hc.
  assert (is_ok (execute_phase probe 200 queued None 500 (advances 1 10 w3)).2.2 = true) as Hok
    by (vm_compute; reflexivity).
  destruct (execute_phase probe 200 queued None 500 (advances 1 10 w3)) as [steps [w' [answer|e]]]; [|done].
  destruct Hc as (Hq&_&_&_&Ha). split; [exact Hq|]. f_equal. by apply Ha.
Defined.

(** *** The end of the deployment *)

Definition ends (answer : Result CoordinatorError OperationRecord) : bool :=
  match answer with Ok op => os_result (op_state op) != Result_Running | Err _ => false end.

Lemma current_operation (w : World) : (∃ s, state_of w = Some s ∧ os_phase s ≠ Phase_Reconciliation) →
  ∃ op, operation attempt (h_control w) = Ok (Some op) ∧ os_phase (op_state op) ≠ Phase_Reconciliation.
Proof.
  unfold state_of. intros (s&Hs&Hp).
  destruct (operation attempt (h_control w)) as [[op|]|]; [|done..]. injection Hs as <-. by exists op.
Qed.

Lemma finished_attempt_holds_nothing_witness :
  ∃ op, (advance 90 (advances 8 10 w3)).2.2 = Ok op
    ∧ cleaned op (h_security (advance 90 (advances 8 10 w3)).2.1).
Proof.
  destruct (current_operation (advances 8 10 w3)) as (op0&Hop0&Hp0).
  { exists (MkOperationState Phase_Soaking Result_Running Blocking_None). split; [vm_compute; reflexivity|done]. }
  assert (h_others (advances 8 10 w3) = []) as Hquiet by (vm_compute; reflexivity).
  assert (ends (advance 90 (advances 8 10 w3)).2.2 = true) as He by (vm_compute; reflexivity).
  pose proof (λ op steps w', finished_attempt_holds_nothing probe tokens attempt None None 90 (advances 8 10 w3)
    op0 op steps w' Hop0 Hp0 Hquiet) as Hf. fold (advance 90) in Hf.
  destruct (advance 90 (advances 8 10 w3)) as [steps [w' [op|e]]]; [|done].
  exists op. split; [reflexivity|]. apply (Hf op steps w' eq_refl). simpl in He. by bool_prop.
Defined.

(** *** A backup that stopped *)

Definition crashes (point : PhaseCrashPoint) (t : Z) (w : World) : World :=
  call (Call_AdvanceOnce tokens attempt (Some point) None t) w.

Definition spec_binding : AuthorizedPhaseSpecBinding :=
  MkAuthorizedPhaseSpecBinding attempt project Phase_BackingUp Branch_Primary backup_intent
    (ps_spec_digest backup_spec) [1] 85.
Definition chain_binding : VerifiedBackupChainBinding :=
  MkVerifiedBackupChainBinding attempt project Phase_BackingUp Branch_Primary
    (ps_spec_digest backup_spec) base_chain 86.
Definition binds_spec (w : World) : World :=
  w <| h_security := (bind_authorized_phase_spec spec_binding (h_security w)).1 |>.
Definition binds_chain (w : World) : World :=
  w <| h_security := (bind_verified_backup_chain chain_binding (h_security w)).1 |>.
Definition restarts (w : World) : World := call recovers (stopped w).

(** The intent is persisted, the spec and the chain are bound, the effect is applied and
    observed, the process stops and starts again. *)
Definition backs_up (w : World) : World :=
  restarts (crashes PhaseCrash_AfterObservationPersisted 90
    (binds_chain (binds_spec (crashes PhaseCrash_AfterIntentPersisted 80 w)))).

Lemma backup_run w : rtc (host_step probe) w (backs_up w).
Proof.
  eapply rtc_l; [exact (hs_returns probe w
    (Call_AdvanceOnce tokens attempt (Some PhaseCrash_AfterIntentPersisted) None 80))|].
  eapply rtc_l; [exact (hs_secures probe _ _ (sc_bind_spec _ spec_binding))|].
  eapply rtc_l; [exact (hs_secures probe _ _ (sc_bind_chain _ chain_binding))|].
  eapply rtc_l; [exact (hs_returns probe _
    (Call_AdvanceOnce tokens attempt (Some PhaseCrash_AfterObservationPersisted) None 90))|].
  eapply rtc_l; [exact (hs_restarts probe _)|].
  apply rtc_once. exact (hs_returns probe _ recovers).
Qed.

Definition stopped_backup : World := backs_up (advances 6 10 (ready Class_StatefulCompatible)).

(** The record the controller has, and what the journal says of it. *)
Definition record_at (w : World) : OperationRecord :=
  match operation attempt (h_control w) with Ok (Some op) => op | _ => queued end.

Definition observed_at (w : World) : bool :=
  let op := record_at w in
  let key := (op_attempt_id op, phase_name Phase_BackingUp) in
  match executor_authorization_digest op, executor_phase_journal (h_security w) !! key with
  | Ok auth, Some row =>
      match phase_intent op auth with
      | Ok intent => (pj_project_id row == op_project_id op) && (pj_intent_digest row == in_digest intent)
      | Err _ => false
      end
      && (pj_status row == PhaseJournalStatus_as_str Journal_Observed)
  | _, _ => false
  end
  && is_none (executor_phase_receipts (h_security w) !! key)
  && is_some (authorized_phase_specs (h_security w) !! key).

Lemma observed_at_backup w : observed_at w = true → backup_observed (record_at w) (h_security w).
Proof.
  unfold observed_at.
  destruct (executor_authorization_digest (record_at w)) as [auth|] eqn:Hauth; [|done].
  destruct (executor_phase_journal _ !! _) as [row|] eqn:Hrow; [|done].
  destruct (phase_intent (record_at w) auth) as [intent|] eqn:Hintent; [|done].
  destruct (executor_phase_receipts _ !! _) eqn:Hreceipt; [by rewrite andb_false_r|].
  destruct (authorized_phase_specs _ !! _) as [spec|] eqn:Hspec; [|by rewrite andb_false_r].
  simpl. intros Hall. bool_prop. destruct_and!.
  split; [|done|by eexists]. exists auth, intent, row, Journal_Observed. split_and!; [done..|left].
Qed.

Definition boundary_refused_by (answer : Result PhaseExecutionError PhaseReceipt) : bool :=
  match answer with Err (Phase_Store ExecutorPhaseState) => true | _ => false end.

(** Each retry after the restart ends at the boundary. *)
Lemma crashed_backup_cannot_resume_witness :
  rtc (host_step probe) w0 stopped_backup
  ∧ (execute_phase probe 200 (record_at stopped_backup) None 500 stopped_backup).2.2
    = Err (Phase_Store ExecutorPhaseState)
  ∧ backup_observed (record_at stopped_backup)
      (h_security (execute_phase probe 200 (record_at stopped_backup) None 500 stopped_backup).2.1).
Proof.
  split; [exact (transitivity (R := rtc (host_step probe)) (history Class_StatefulCompatible 6) (backup_run _))|].
  assert (os_phase (op_state (record_at stopped_backup)) = Phase_BackingUp) as Hphase
    by (vm_compute; reflexivity).
  assert (executor_phase_branch (record_at stopped_backup) = Branch_Primary) as Hbranch
    by (vm_compute; reflexivity).
  assert (observed_at stopped_backup = true) as Hobs by (vm_compute; reflexivity).
  assert (boundary_refused_by (execute_phase probe 200 (record_at stopped_backup) None 500
    stopped_backup).2.2 = true) as Hat by (vm_compute; reflexivity).
  pose proof (crashed_backup_cannot_resume probe 200 (record_at stopped_backup) None 500 stopped_backup
    Hphase Hbranch (observed_at_backup _ Hobs)) as Hc.
  destruct (execute_phase probe 200 (record_at stopped_backup) None 500 stopped_backup)
    as [steps [w' answer]]. destruct Hc as ([e ->]&_&_&_&Hstuck). split; [|exact Hstuck].
  simpl in Hat |- *. by repeat case_match.
Defined.
End ExecutorSample.
